(* ===== verification/_CoqProject ===== *)
-Q . S2P
Prelude.v
GoStrings.v
GoFloat.v
GoTime.v
GoParse.v
Decimal.v
GoDate.v
AgentConfig.v
BackendConfig.v
Reducers.v
Netip.v
JsonText.v
FloatText.v
JsonCodec.v
AgentFlow.v
AgentMain.v
Collector.v
Kernel.v
Protocols.v
Metrics.v
Classifier.v
Graph.v
Hub.v
Stream.v
ConnectionState.v
Inventory.v
Sql.v
Store.v
FlowService.v
IngestLock.v
FlowList.v
AgentService.v
VMService.v
InventoryAssign.v
GraphService.v
ConnectionViews.v
CloudContext.v
Http.v
Identity.v
Lifecycle.v
BackendMain.v
ConnectionService.v
References.v
API.v
Exporter.v
Wire.v
Prober.v
AgentLink.v
AgentRun.v
CollectorRun.v
EndToEnd.v
WirePath.v
Migrate.v
Ddl.v
Schema.v
SchemaModel.v
Witnesses.v
