(* ===== verification/Prelude.v ===== *)
(** * A verification of VMLens

    VMLens watches the traffic between virtual machines.  An agent on every
    machine captures flow events in the kernel (eBPF programs and a packet
    socket), filters and aggregates them and posts the aggregates to a
    backend; the backend validates them, stores them in PostgreSQL, and
    answers with a communication graph, connection views and a stream of live
    events.  This library models the Go code of both programs (under
    [src/agent] and [src/backend]), the eBPF programs and the SQL migrations
    as executable definitions and proves what makes them correct.  Each file is one component and opens with the source
    files it models; names follow the source.

    ** The parts and the files

    Foundations, used everywhere:
    - [Prelude]: machine integers with explicit wrap-around, congruence
      modulo 2^64, sums over lists and finite maps, Go errors and the
      [Result] monad, the tactics and hint databases.
    - [GoStrings], [GoFloat], [GoTime], [GoParse]: the parts of Go's
      [strings], [float64] (IEEE binary64, with an interface that exact
      rationals also implement), [time], [strconv] and [time.ParseDuration]
      the program uses.
    - [Netip]: [net/netip] and [net.IP]: parsing, printing, prefixes and the
      address predicates.
    - [Decimal], [GoDate], [FloatText], [JsonText], [JsonCodec]: decimal
      numbers, the calendar and RFC 3339, shortest decimal text of a float64,
      JSON text with its escapes, and [encoding/json] over struct types with
      tags ([gtype], [marshal], [decode]).

    The agent:
    - [AgentConfig]: [agent/internal/config]: the environment variables.
    - [Reducers]: the per-feature reducers of [agent/internal/features], one
      Module each (Classification, Direction, Bytes, Packets, Retrans,
      Connection, Rtt, Http).
    - [AgentFlow]: [agent/internal/flow]: the flow key, the flow state with
      [Apply] and [Merge], and the accumulator with [Add], [AddAll], [Drain].
    - [AgentMain]: [agent/cmd/agent/main.go] and [agent/internal/exporter]:
      the filters, registration and sending with retries, the payload, the
      batcher, and the main loop, ticker and sender goroutine as one step
      relation ([step], [runs]) over the state [Agent].
    - [Collector]: the eBPF collector (record layout, conversion, program
      attachment) and the ICMP collector with the header parsers.
    - [Kernel]: the eBPF programs: [flow_tracker.bpf.c] and the [.bpf.h]
      headers under [agent/internal/features], on their maps and the ring
      buffer ([Maps], [exec], [step]).
    - [CollectorRun]: the goroutines of the eBPF, ICMP, mock and combined
      collectors, with their channels, as a step relation over [Sys].
    - [Protocols]: the RTT sample decoder, the placeholder collectors and
      constructors of [features/protocols], [flow/processor.go] and the log
      lines of [flow/debug.go].
    - [Identity]: [agent/internal/identity]: what the agent announces of its
      host, from its files and interfaces.
    - [Lifecycle]: the registration payload and what heartbeats and
      registrations do to the backend's tables.
    - [Prober]: [agent/internal/probe]: the connectivity probes, their loops
      and the probe listener.
    - [AgentRun]: the agent's start-up, the mock collector's events and the
      dispatcher of [agent/internal/pipeline].
    - [Exporter]: [agent/internal/exporter/backend.go]: the agent's requests
      over the backend's API, where requests and responses may be lost.
    - [Wire]: the JSON of the types the agent and the backend exchange, with
      the tags of both sides.
    - [AgentLink]: [agent/internal/lifecycle] and the probe round over
      [Exporter], [Wire] and [API].
    - [EndToEnd]: collectors, main loop, sender and backend as one transition
      system ([Whole], [moves]).
    - [WirePath]: the programs of [Kernel] in front of [EndToEnd].

    The backend:
    - [BackendConfig], [BackendMain]: [internal/config] and
      [cmd/api/main.go]: configuration, start-up and the periodic sweep.
    - [Metrics]: [telemetry/metrics]: validation and derived metrics.
    - [Classifier]: scope and service classification, graph visibility.
    - [Graph], [GraphService]: [service/graph_service.go]: the graph built
      from flow rows, probe rows and machines, and the two queries that
      select the rows.
    - [Hub], [Stream]: [realtime/hub.go]: the event hub as a step relation,
      and the event-stream text a client is sent.
    - [ConnectionState], [ConnectionViews]:
      [service/connection_state_service.go]: connection views and their
      verdicts, and the four queries they are made from.
    - [Sql], [Store]: SQL fragments (ordering, limits, intervals, NULL), the
      tables of the migrations, transactions, address resolution.
    - [FlowService], [IngestLock], [FlowList]: [service/flow_service.go]:
      ingestion statement by statement, its concurrent interleavings around
      the advisory lock, and the listings.
    - [Inventory], [InventoryAssign]: [service/vm_inventory.go]: the
      inventory file, its lookups and its assignment to machines.
    - [AgentService]: [service/agent_service.go]: registration with identity
      resolution, heartbeats, listing, status sweep and removal of expired
      machines.
    - [VMService]: [service/vm_service.go] and [stats_service.go]: the
      listing of machines, the summary and the top talkers.
    - [ConnectionService]: [service/connection_service.go]: probe targets
      and results.
    - [CloudContext]: [service/cloud_context_service.go].
    - [References]: the operations that write, together and in any order
      ([Op], [run], [runAll]).
    - [Http], [API]: [internal/api]: requests, responses, routing and
      middleware, and every handler with its parameters and statuses.
    - [Migrate]: [db/db.go]: opening the database, the migration runner and
      the data statements of the migrations.
    - [Ddl], [Schema], [SchemaModel]: the SQL of the migrations as a language
      with its execution on a catalog and rows and a static analysis of it;
      the twelve files of [db/migrations] in it; and the relation of the
      tables they create to those of [Store].
    - [Witnesses]: concrete runs of the theorems that need a whole backend.

    How they interact: the records of [Kernel] are what the goroutines of
    [CollectorRun] read, decoded by [Collector]; these feed [AgentMain],
    whose payloads [Exporter] sends, as [Wire] spells them, to [API]; [API]
    calls the services, which share [Store] and [Hub]; [AgentLink] holds the
    agent's other conversations with the services; [EndToEnd] runs it all;
    [BackendMain] sweeps the same tables, which [Migrate] prepares, and
    [Stream] is what a browser reads.

    ** How the models are built

    Pure functions are functions; a function that returns an error returns
    [Result]; code that mutates through a pointer takes and returns the
    value.  Integers keep their Go width: a counter expression is wrapped
    where Go wraps it ([u32], [u64], [i64]), while PostgreSQL's [BIGINT]
    raises an error instead ([bigint_add]).  Goroutines and timers are step
    relations with labels; invariants are proved by induction on runs.
    Statements of a transaction run in a monad that threads the tables and
    counts statements, with an oracle that may fail any of them; PostgreSQL
    is the interface [Store.Postgres] (the [inet] type, its input and output,
    the precision of instants).  What lies outside the sources is a
    parameter: the host's resolver and URL parser ([AgentMain.HostEnv]), the
    eBPF loader ([Collector.EBPFHost]), what a kernel program asks the kernel
    for ([Kernel.Ctx]), the lower-casing of non-ASCII letters
    ([GoStrings.UnicodeCase]), clocks, drawn identifiers and faults
    ([FlowService.Env]), the hash of the advisory lock, the digest of machine
    identifiers, the rows other transactions hold, the collation of names,
    [http.NewRequest], the host's files and interfaces ([Identity.Host]), its
    packet sockets ([CollectorRun.PacketHost]), dialling and random draws.
    The API and the exporter are written against [API.JSONDecoder] and
    [Exporter.JSONEncoder], which [Wire] implements.  What a read of the ring
    buffer, the packet socket or the network returns is input, chosen freely.

    Fuel: [registerUntilReady] loops until a registration succeeds and takes
    a [fuel]; its theorem shows that any fuel above the number of failures
    returns the result.  [sendFlow] and [Retry] are bounded by their attempt
    counts.  [ParseDuration] and [strings.Fields] take the length of their
    input as fuel, since every round consumes a byte, and so do the elements
    of a JSON array or object ([JsonText.items_fuel]: more changes nothing).
    The shortest text of a float tries at most seventeen digits, which always
    suffice to read it back.  Every other recursion is structural on the data
    the Go loop ranges over.

    ** What the theorems show

    - From the interface to the database ([EndToEnd]): whatever the schedule
      and the network do, what the collectors captured is, modulo 2^64, in
      the database, in the agent or given up, up to the copies of requests
      whose response was lost; and everything captured can arrive.
    - On the wire ([Kernel], [WirePath]): a packet becomes the event its
      headers describe, whichever program runs; nothing of its payload but an
      HTTP status leaves the kernel; every packet is emitted or counted under
      the reason why not; every record is one the collector reads; RTT
      samples of a socket are rate limited; and the bytes of the packets that
      passed the interface can arrive in the database, counted once.
    - The schema ([Schema], [SchemaModel]): although every start executes
      every migration again, a start succeeds on whatever database earlier
      releases and failed starts left behind, and loses nothing; it does what
      [Migrate] says; and the checks, keys and references of the service
      models are those of the created tables.
    - Conservation, part by part: inside the agent no captured byte, packet,
      connection, request, error or retransmission is lost or counted twice
      across aggregation, backlog and sending; every payload the agent sends
      passes the backend's validation unchanged; between the two a flow is
      counted once per ingested attempt, exactly once when no response is
      lost; in the backend the aggregated flows hold exactly the accepted
      events, also under concurrency; and the graph the API returns shows the
      bytes of the stored flows.
    - The wire: what the agent encodes the backend decodes as the value meant
      and the other way round; bodies are read strictly; every request of the
      agent does what the service's operation does, and its answer is the
      operation's result; the event stream is read back as it was sent.
    - The API: every request is answered, runs the service operation it
      names and nothing else, changes nothing when it is refused, and names
      an origin only if it is configured.
    - Atomicity and progress of ingestion: an error changes nothing, a good
      event is accepted, and what an accepted event changes.
    - Machines and agents: registration is all or nothing, makes the machine
      known and settles what waited for it, and gives a machine the same
      identity again; a removed agent recovers with its next heartbeat; the
      SQL of the status sweep is the Go function it mirrors; expiry removes
      exactly the silent machines, and a sweep only offline ones; the
      inventory's last entry wins; and foreign keys hold through any sequence
      of operations.
    - Probes: targets are the recent peers, what the agent probes the backend
      stores, and a probe is never traffic.
    - Robustness of the collectors: however their goroutines interleave,
      events reach the main loop in order and without loss, channels stay
      bounded and nothing is sent on a closed one; any kernel record becomes
      a well-formed event, no packet makes the parser panic, and decoding
      inverts the kernel's layout.
    - Views: connection views are complete and their verdicts sound, the
      summary adds up, the cloud context stays within its tenant, activity
      and graph listings do not depend on map order.
    - Functional specifications: validation, scope, service and visibility
      rules, configuration, start-up, the agent's filters, retries and their
      timing, RTT averages and extremes, address resolution, query strings.
    - The hub: bounded queues, no reordering, no lost final state.
    - Divergences found while proving, stated as theorems of what the code
      does: the last HTTP status of a merged edge, spelling of addresses in
      the lock key, slow failures reported as reachable, security states
      that never show, a comparison function that is not an order, data
      rewritten at every start, duplicate keys after a redeployment, live
      agents removed with a silent one, empty exclusion lists that hide
      everything, a sweep wedged by a probe, views that show their oldest
      row, ranges in days that wrap, flows counted twice after a lost
      response, intervals that crash.

    ** What is not modelled

    The frontend and the scripts, which are not Go and hold no state of the
    system; system calls, the network and listening, whose results are
    parameters or input; logging; JSON of the responses only a browser reads,
    other than as events of the stream; struct types no code uses.
    Of the kernel, what helpers return is a parameter and the maps that evict
    may lose any entry at any time; the verifier and the ring buffer's memory
    are left out.  Of SQL, [Ddl] refuses what the migrations do not use: names
    longer than PostgreSQL keeps, and a default other than a constant, the
    time or a drawn identifier.  Two backends that migrate one database at
    the same time are not interleaved.
    Instants are wall-clock nanoseconds; monotonic readings are ignored.
    Transactions are atomic except in [IngestLock], which interleaves them.
    Statements do not check foreign keys; [References] proves that they hold.
    The order of SQL rows with equal sort keys is fixed to the table's.
    Registration and expiry are not interleaved statement by statement: what
    PostgreSQL's row locks and foreign keys do there is its own. *)
From Stdlib Require Export ZArith Lia Ascii.
From stdpp Require Export base tactics option gmap strings list sorting.
From stdpp Require Import relations.

#[global] Open Scope Z_scope.

(** ** Machine integers

    Go's fixed-width integers are kept as [Z] and every operation that can
    leave the range is wrapped explicitly by the conversion below, exactly
    where the Go expression has its type. *)

Definition wrapU (w z : Z) : Z := z mod 2 ^ w.
Definition wrapS (w z : Z) : Z := (z + 2 ^ (w - 1)) mod 2 ^ w - 2 ^ (w - 1).

Definition u8 : Z -> Z := wrapU 8.
Definition u16 : Z -> Z := wrapU 16.
Definition u32 : Z -> Z := wrapU 32.
Definition u64 : Z -> Z := wrapU 64.
Definition i64 : Z -> Z := wrapS 64.

Definition in_u8 (z : Z) : Prop := 0 <= z < 2 ^ 8.
Definition in_u16 (z : Z) : Prop := 0 <= z < 2 ^ 16.
Definition in_u32 (z : Z) : Prop := 0 <= z < 2 ^ 32.
Definition in_u64 (z : Z) : Prop := 0 <= z < 2 ^ 64.
Definition in_i64 (z : Z) : Prop := - 2 ^ 63 <= z < 2 ^ 63.

(** Hint databases of the development: [vm_wrap] rewrites machine-integer
    conversions away, [vm] resolves range and well-formedness goals. *)
Create Rewrite HintDb vm_wrap.
Create Rewrite HintDb vm_sum.
Create Rewrite HintDb vm_str.
Create HintDb vm.

(** Unfolds the machine-integer vocabulary and calls [lia] with Euclidean
    division equations. *)
Ltac int_lia :=
  unfold u8, u16, u32, u64, i64, in_u8, in_u16, in_u32, in_u64, in_i64,
    wrapU, wrapS in *;
  try (Z.to_euclidean_division_equations; lia).

Lemma u64_range z : in_u64 (u64 z).
Proof. int_lia. Qed.

Lemma u32_range z : in_u32 (u32 z).
Proof. int_lia. Qed.

Lemma u64_small z : in_u64 z -> u64 z = z.
Proof. int_lia. Qed.

Lemma u32_small z : in_u32 z -> u32 z = z.
Proof. int_lia. Qed.

Lemma i64_small z : in_i64 z -> i64 z = z.
Proof. int_lia. Qed.

Lemma i64_range z : in_i64 (i64 z).
Proof. int_lia. Qed.

Lemma u64_idemp z : u64 (u64 z) = u64 z.
Proof. apply u64_small, u64_range. Qed.

#[export] Hint Resolve u64_range u32_range i64_range : vm.
#[export] Hint Rewrite u64_idemp : vm_wrap.

(** ** Congruence modulo 2^64

    Counters of the program are [uint64] (agent) or [int64] (backend) and
    wrap; conservation of counters is therefore stated modulo [2^64].
    [cong64] is the corresponding setoid, with [Z.add] and [Z.opp] proper. *)

Definition cong64 (a b : Z) : Prop := exists k, a = b + k * 2 ^ 64.

Lemma cong64_iff a b : cong64 a b <-> a mod 2 ^ 64 = b mod 2 ^ 64.
Proof.
  split.
  - intros [k ->]. by rewrite Z.mod_add.
  - intros E. exists (a / 2 ^ 64 - b / 2 ^ 64). Z.to_euclidean_division_equations; lia.
Qed.

Declare Scope vm_scope.
Delimit Scope vm_scope with vm.
Notation "a ≡64 b" := (cong64 a b) (at level 70) : vm_scope.
#[global] Open Scope vm_scope.

#[export] Instance cong64_equiv : Equivalence cong64.
Proof. split; repeat intro; rewrite cong64_iff in *; congruence. Qed.

#[export] Instance cong64_add : Proper (cong64 ==> cong64 ==> cong64) Z.add.
Proof. intros a a' [k ->] b b' [j ->]. exists (k + j). lia. Qed.

#[export] Instance cong64_sub : Proper (cong64 ==> cong64 ==> cong64) Z.sub.
Proof. intros a a' [k ->] b b' [j ->]. exists (k - j). lia. Qed.

Lemma cong64_eq a b : a = b -> a ≡64 b.
Proof. by intros ->. Qed.

Lemma cong64_u64 z : u64 z ≡64 z.
Proof. apply cong64_iff. unfold u64, wrapU. by rewrite Z.mod_mod. Qed.

Lemma cong64_i64 z : i64 z ≡64 z.
Proof. apply cong64_iff. int_lia. Qed.

Lemma cong64_small a b : in_u64 a -> in_u64 b -> a ≡64 b -> a = b.
Proof. unfold in_u64. intros Ha Hb [k E]. lia. Qed.

(** Drops the wrap-arounds of a congruence modulo 2^64 and closes it by
    linear arithmetic. *)
Ltac cong64_lia :=
  solve [ rewrite ?cong64_u64, ?cong64_i64; apply cong64_eq; lia
        | apply cong64_iff; int_lia ].

(** ** Sums over lists and finite maps *)

Definition sumZ {A} (f : A -> Z) (l : list A) : Z := foldr (fun x acc => f x + acc) 0 l.

Section sums.
Context {A : Type}.
Implicit Types (f g : A -> Z) (l : list A).

Lemma sumZ_nil f : sumZ f [] = 0.
Proof. done. Qed.

Lemma sumZ_cons f x l : sumZ f (x :: l) = f x + sumZ f l.
Proof. done. Qed.

Lemma sumZ_app f l1 l2 : sumZ f (l1 ++ l2) = sumZ f l1 + sumZ f l2.
Proof. induction l1 as [|x l1 IH]; simpl; [done|]. unfold sumZ in *. simpl. lia. Qed.

Lemma sumZ_add f g l : sumZ (fun x => f x + g x) l = sumZ f l + sumZ g l.
Proof. induction l as [|x l IH]; [done|]. rewrite !sumZ_cons, IH. lia. Qed.

Lemma sumZ_perm f l1 l2 : l1 ≡ₚ l2 -> sumZ f l1 = sumZ f l2.
Proof. unfold sumZ. induction 1; simpl; lia. Qed.

Lemma sumZ_ext f g l : (forall x, x ∈ l -> f x = g x) -> sumZ f l = sumZ g l.
Proof.
  induction l as [|x l IH]; intros H; [done|].
  rewrite !sumZ_cons, H, IH; [done| |]; set_solver.
Qed.

Lemma sumZ_zero f l : (forall x, x ∈ l -> f x = 0) -> sumZ f l = 0.
Proof.
  induction l as [|x l IH]; intros H; [done|].
  rewrite sumZ_cons, H, IH; [done| |]; set_solver.
Qed.

Lemma sumZ_cong f g l : (forall x, x ∈ l -> f x ≡64 g x) -> sumZ f l ≡64 sumZ g l.
Proof.
  induction l as [|x l IH]; intros H; [done|].
  rewrite !sumZ_cons. apply cong64_add; [apply H|apply IH]; set_solver.
Qed.

Lemma sumZ_nonneg f l : (forall x, x ∈ l -> 0 <= f x) -> 0 <= sumZ f l.
Proof.
  induction l as [|x l IH]; intros H; [done|]. rewrite sumZ_cons.
  assert (0 <= f x) by (apply H; set_solver).
  assert (0 <= sumZ f l) by (apply IH; set_solver). lia.
Qed.
End sums.
#[global] Arguments sumZ : simpl never.

(** The sum of [f] over the values of a finite map. *)
Definition mapsum {K A} `{Countable K} (f : A -> Z) (m : gmap K A) : Z :=
  sumZ f (map_to_list m).*2.

Section mapsums.
Context {K A : Type} `{Countable K}.
Implicit Types (f : A -> Z) (m : gmap K A).

Lemma mapsum_empty f : mapsum f (∅ : gmap K A) = 0.
Proof. unfold mapsum. by rewrite map_to_list_empty. Qed.

Lemma mapsum_insert_new f m k x :
  m !! k = None -> mapsum f (<[k := x]> m) = f x + mapsum f m.
Proof.
  intros Hk. unfold mapsum.
  rewrite (sumZ_perm f _ ((k, x) :: map_to_list m).*2); [done|].
  by rewrite map_to_list_insert.
Qed.

Lemma mapsum_insert f m k x y :
  m !! k = Some y -> mapsum f (<[k := x]> m) = f x - f y + mapsum f m.
Proof.
  intros Hk.
  rewrite <- (insert_delete_id m k y Hk) at 2.
  rewrite <- (insert_delete_eq m).
  rewrite !mapsum_insert_new by apply lookup_delete_eq. lia.
Qed.
End mapsums.

#[export] Hint Rewrite @sumZ_nil @sumZ_cons @sumZ_app : vm_sum.

(** ** Lists *)

Lemma NoDup_snoc {A} (l : list A) x : NoDup l -> x ∉ l -> NoDup (l ++ [x]).
Proof.
  intros Hl Hx. apply NoDup_app. split_and!; [done| |apply NoDup_singleton].
  intros y Hy ->%list_elem_of_singleton. done.
Qed.

Lemma elem_of_snoc {A} (l : list A) x y : y ∈ l ++ [x] <-> y ∈ l \/ y = x.
Proof. by rewrite elem_of_app, list_elem_of_singleton. Qed.

Lemma elem_of_middle {A} (l1 l2 : list A) x y : y ∈ l1 ++ x :: l2 <-> y = x \/ y ∈ l1 ++ l2.
Proof. rewrite !elem_of_app, elem_of_cons. tauto. Qed.

Lemma Forall_snoc {A} (P : A -> Prop) (l : list A) x : Forall P (l ++ [x]) <-> Forall P l /\ P x.
Proof. by rewrite Forall_app, Forall_singleton. Qed.

Lemma Forall_middle {A} (P : A -> Prop) (l1 l2 : list A) x :
  Forall P (l1 ++ x :: l2) <-> P x /\ Forall P (l1 ++ l2).
Proof. rewrite !Forall_app, Forall_cons. tauto. Qed.

Definition isSome {A} (o : option A) : bool := match o with Some _ => true | None => false end.

(** ** Errors

    A Go function returning [(T, error)] becomes a function into [Result T].
    Error values keep the format string and arguments of the [fmt.Errorf]
    that builds them; [LibErr] is an error created by a library call, named
    by the function and its input. *)

Inductive GoError :=
| Errorf (format : string) (args : list string)
| ErrorfW (format : string) (args : list string) (wrapped : GoError)
| LibErr (function : string) (input : string).

Inductive Result (A : Type) :=
| Ok (a : A)
| Err (e : GoError).
Arguments Ok {A} a.
Arguments Err {A} e.

Definition rbind {A B} (r : Result A) (k : A -> Result B) : Result B :=
  match r with Ok a => k a | Err e => Err e end.

Notation "x <-- r ;; k" := (rbind r (fun x => k))
  (at level 100, r at next level, right associativity) : vm_scope.
Notation "'guard_err' b 'as' e ;; k" := (if b : bool then Err e else k)
  (at level 100, b at level 9, e at level 9, right associativity) : vm_scope.

Definition is_ok {A} (r : Result A) : bool :=
  match r with Ok _ => true | Err _ => false end.

Lemma rbind_Ok {A B} (r : Result A) (k : A -> Result B) b :
  rbind r k = Ok b <-> exists a, r = Ok a /\ k a = Ok b.
Proof. destruct r; simpl; naive_solver. Qed.

(** ** Case analysis

    [go_case] destructs the innermost conditional or match of the goal,
    remembering the tested value; [go_cases] repeats it and closes the
    contradictory branches. *)

Ltac go_case :=
  match goal with
  | |- context [match ?x with _ => _ end] =>
      lazymatch x with
      | context [match _ with _ => _ end] => fail
      | _ => destruct x eqn:?
      end
  end.

Ltac go_cases := repeat (go_case; simplify_eq/=; try done).

Ltac go_case_in H :=
  match type of H with
  | context [match ?x with _ => _ end] =>
      lazymatch x with
      | context [match _ with _ => _ end] => fail
      | _ => destruct x eqn:?
      end
  end.

Ltac go_cases_in H := repeat (go_case_in H; simplify_eq/=; try done).

(** Turns boolean comparisons of the context and the goal into propositions. *)
Ltac bools :=
  repeat match goal with
  | H : negb _ = true |- _ => apply negb_true_iff in H
  | H : negb _ = false |- _ => apply negb_false_iff in H
  | H : (_ && _)%bool = true |- _ => apply andb_true_iff in H as [? ?]
  | H : (_ || _)%bool = false |- _ => apply orb_false_iff in H as [? ?]
  | H : (_ =? _)%string = true |- _ => apply String.eqb_eq in H
  | H : (_ =? _)%string = false |- _ => apply String.eqb_neq in H
  | H : (_ =? _)%Z = true |- _ => apply Z.eqb_eq in H
  | H : (_ =? _)%Z = false |- _ => apply Z.eqb_neq in H
  | H : (_ <? _)%Z = true |- _ => apply Z.ltb_lt in H
  | H : (_ <? _)%Z = false |- _ => apply Z.ltb_ge in H
  | H : (_ <=? _)%Z = true |- _ => apply Z.leb_le in H
  | H : (_ <=? _)%Z = false |- _ => apply Z.leb_gt in H
  | H : bool_decide _ = true |- _ => apply bool_decide_eq_true in H
  | H : bool_decide _ = false |- _ => apply bool_decide_eq_false in H
  end.
