(* ===== verification/GoStrings.v ===== *)
(** Go strings: the functions of packages [strings], [strconv] and [fmt] the
    program uses, over byte strings.

    A Go string is a sequence of bytes; here it is a [string] whose
    characters are bytes.  [TrimSpace] strips the UTF-8 encodings of the
    Unicode White_Space code points, as Go does.  [ToLower] is Go's ASCII
    fast path; its general path needs the Unicode case tables, which are the
    method [lower_unicode] of the class [UnicodeCase]. *)
From stdpp Require Import pretty.
From S2P Require Import Prelude.

#[local] Open Scope Z_scope.

Definition bytes_of (s : string) : list ascii := String.list_ascii_of_string s.
Definition string_of (l : list ascii) : string := String.string_of_list_ascii l.

Lemma bytes_of_string_of l : bytes_of (string_of l) = l.
Proof. apply String.list_ascii_of_string_of_list_ascii. Qed.

Lemma string_of_bytes_of s : string_of (bytes_of s) = s.
Proof. apply String.string_of_list_ascii_of_string. Qed.

#[export] Instance bytes_of_inj : Inj (=) (=) bytes_of.
Proof. intros a b H. by rewrite <- (string_of_bytes_of a), H, string_of_bytes_of. Qed.

Definition byteZ (c : ascii) : Z := Z.of_N (N_of_ascii c).
Definition chr (z : Z) : ascii := ascii_of_N (Z.to_N z).

(** ** TrimSpace *)

(** The UTF-8 encodings of the code points [unicode.IsSpace] accepts. *)
Definition space_runes : list (list ascii) :=
  map (map chr)
    ([[9]; [10]; [11]; [12]; [13]; [32]; [194; 133]; [194; 160]; [225; 154; 128]]
     ++ map (fun z => [226; 128; z])
          [128; 129; 130; 131; 132; 133; 134; 135; 136; 137; 138; 168; 169; 175]
     ++ [[226; 129; 159]; [227; 128; 128]]).

Fixpoint is_prefix (p l : list ascii) : bool :=
  match p, l with
  | [], _ => true
  | a :: p', b :: l' => Ascii.eqb a b && is_prefix p' l'
  | _ :: _, [] => false
  end.

Fixpoint strip_one (runes : list (list ascii)) (l : list ascii) : option (list ascii) :=
  match runes with
  | [] => None
  | r :: rest => if is_prefix r l then Some (drop (length r) l) else strip_one rest l
  end.

Fixpoint strip_all (runes : list (list ascii)) (fuel : nat) (l : list ascii) : list ascii :=
  match fuel with
  | O => l
  | S n => match strip_one runes l with
           | Some l' => strip_all runes n l'
           | None => l
           end
  end.

Definition trim_left (l : list ascii) : list ascii := strip_all space_runes (length l) l.
Definition trim_right (l : list ascii) : list ascii :=
  rev (strip_all (map (@rev ascii) space_runes) (length l) (rev l)).

Definition TrimSpace (s : string) : string := string_of (trim_right (trim_left (bytes_of s))).

(** ** ToLower *)

Class UnicodeCase := lower_unicode : string -> string.

Definition is_ascii (c : ascii) : bool := byteZ c <? 128.
Definition lower_ascii (c : ascii) : ascii :=
  if (65 <=? byteZ c) && (byteZ c <=? 90) then chr (byteZ c + 32) else c.

Definition ToLower `{UnicodeCase} (s : string) : string :=
  if forallb is_ascii (bytes_of s) then string_of (map lower_ascii (bytes_of s))
  else lower_unicode s.

(** ** Split, Join, prefixes *)

(** [strings.Split] with a one-byte separator. *)
Fixpoint split_bytes (sep : ascii) (l : list ascii) : list (list ascii) :=
  match l with
  | [] => [[]]
  | c :: r =>
      if Ascii.eqb c sep then [] :: split_bytes sep r
      else match split_bytes sep r with
           | h :: t => (c :: h) :: t
           | [] => [[c]]
           end
  end.

Definition Split (sep : ascii) (s : string) : list string :=
  map string_of (split_bytes sep (bytes_of s)).

(** [strings.Cut] around the first occurrence of a byte. *)
Fixpoint split_first (sep : ascii) (l : list ascii) : option (list ascii * list ascii) :=
  match l with
  | [] => None
  | c :: r => if Ascii.eqb c sep then Some ([], r)
              else match split_first sep r with Some (a, b) => Some (c :: a, b) | None => None end
  end.
Definition Cut (sep : ascii) (s : string) : option (string * string) :=
  (fun '(a, b) => (string_of a, string_of b)) <$> split_first sep (bytes_of s).

Definition HasPrefix (s p : string) : bool := is_prefix (bytes_of p) (bytes_of s).
Definition HasSuffix (s p : string) : bool := is_prefix (rev (bytes_of p)) (rev (bytes_of s)).

(** ** Decimal conversion *)

(** [fmt.Sprint] / the verb [%d] on an integer. *)
Definition Itoa (z : Z) : string := pretty z.

Definition digit_val (c : ascii) : option Z :=
  if (48 <=? byteZ c) && (byteZ c <=? 57) then Some (byteZ c - 48) else None.

Fixpoint parse_digits (acc : Z) (l : list ascii) : option Z :=
  match l with
  | [] => Some acc
  | c :: r => match digit_val c with
              | Some d => parse_digits (acc * 10 + d) r
              | None => None
              end
  end.

(** [strconv.Atoi] on a 64-bit platform: an optional sign, then at least one
    decimal digit, with a range error outside [int64]. *)
Definition Atoi (s : string) : option Z :=
  let '(neg, digits) :=
    match bytes_of s with
    | c :: r => if Ascii.eqb c "-"%char then (true, r)
                else if Ascii.eqb c "+"%char then (false, r) else (false, c :: r)
    | [] => (false, [])
    end in
  match digits with
  | [] => None
  | _ => match parse_digits 0 digits with
         | Some v =>
             let z := if neg : bool then - v else v in
             if (- 2 ^ 63 <=? z) && (z <? 2 ^ 63) then Some z else None
         | None => None
         end
  end.

(** ** Facts *)

Lemma Atoi_range s z : Atoi s = Some z -> in_i64 z.
Proof.
  unfold Atoi. set (sg := match bytes_of s with [] => _ | _ => _ end). destruct sg as [neg [|c digits]]; [done|].
  destruct (parse_digits 0 (c :: digits)) as [v|]; [|done]. cbv zeta. set (x := if neg then _ else _).
  destruct (_ && _) eqn:E; [|done]. intros [= <-]. apply andb_true_iff in E as [?%Z.leb_le ?%Z.ltb_lt]. unfold in_i64. lia.
Qed.



Lemma is_prefix_spec p l : is_prefix p l = true <-> exists k, l = p ++ k.
Proof.
  revert l. induction p as [|a p IH]; intros l; simpl; [naive_solver|].
  destruct l as [|b l]; [naive_solver|].
  rewrite andb_true_iff, Ascii.eqb_eq, IH. naive_solver.
Qed.

Lemma strip_one_None runes l :
  strip_one runes l = None <-> forall r, r ∈ runes -> is_prefix r l = false.
Proof.
  induction runes as [|r rs IH]; simpl; [split; [by intros _ r Hr%elem_of_nil|done]|].
  destruct (is_prefix r l) eqn:E.
  - split; [done|]. intros H. by rewrite H in E by apply list_elem_of_here.
  - rewrite IH. setoid_rewrite elem_of_cons. naive_solver.
Qed.

Lemma strip_one_Some runes l l' :
  strip_one runes l = Some l' -> exists r, r ∈ runes /\ l = r ++ l'.
Proof.
  induction runes as [|r rs IH]; simpl; [done|].
  destruct (is_prefix r l) eqn:E.
  - intros [= <-]. apply is_prefix_spec in E as [k ->].
    exists r. rewrite drop_app_length. split; [apply list_elem_of_here|done].
  - intros [r' [? ?]]%IH. exists r'. split; [by apply list_elem_of_further|done].
Qed.

(** A rune table without the empty sequence makes progress at every step. *)
Definition nonempty_runes (runes : list (list ascii)) : Prop := [] ∉ runes.

Lemma strip_all_stop runes fuel l :
  nonempty_runes runes -> (length l <= fuel)%nat -> strip_one runes (strip_all runes fuel l) = None.
Proof.
  intros Hne. revert l. induction fuel as [|n IH]; intros l Hl; simpl.
  - destruct l; [|simpl in Hl; lia]. apply strip_one_None. intros [|] Hr; done.
  - destruct (strip_one runes l) as [l'|] eqn:E; [|done].
    apply strip_one_Some in E as ([|a r] & Hr & ->); [done|].
    apply IH. rewrite length_app in Hl. simpl in Hl. lia.
Qed.

Lemma strip_all_id runes fuel l : strip_one runes l = None -> strip_all runes fuel l = l.
Proof. intros E. destruct fuel; simpl; [done|]. by rewrite E. Qed.

Lemma strip_all_suffix runes fuel l : exists k, l = k ++ strip_all runes fuel l.
Proof.
  revert l. induction fuel as [|n IH]; intros l; simpl; [by exists []|].
  destruct (strip_one runes l) as [l'|] eqn:E; [|by exists []].
  apply strip_one_Some in E as (r & _ & ->). destruct (IH l') as [k Hk].
  exists (r ++ k). by rewrite <- app_assoc, <- Hk.
Qed.

Lemma strip_one_None_prefix runes l k :
  strip_one runes (l ++ k) = None -> strip_one runes l = None.
Proof.
  rewrite !strip_one_None. intros H r Hr. specialize (H r Hr).
  apply not_true_iff_false in H. apply not_true_iff_false. intros E. apply H.
  apply is_prefix_spec in E as [j ->]. apply is_prefix_spec. exists (j ++ k).
  by rewrite app_assoc.
Qed.

Lemma space_runes_nonempty : nonempty_runes space_runes.
Proof. unfold nonempty_runes. vm_compute. set_solver. Qed.

Lemma rev_space_runes_nonempty : nonempty_runes (map (@rev ascii) space_runes).
Proof. unfold nonempty_runes. vm_compute. set_solver. Qed.

(** Trimming is idempotent: a trimmed string has no white space left at
    either end. *)
Lemma TrimSpace_idemp s : TrimSpace (TrimSpace s) = TrimSpace s.
Proof.
  unfold TrimSpace. rewrite bytes_of_string_of.
  set (l := trim_left (bytes_of s)).
  assert (Hl : strip_one space_runes l = None)
    by (apply strip_all_stop; [apply space_runes_nonempty|done]).
  set (t := trim_right l).
  assert (Hr : strip_one (map (@rev ascii) space_runes) (rev t) = None).
  { unfold t, trim_right. rewrite rev_involutive.
    apply strip_all_stop; [apply rev_space_runes_nonempty|by rewrite length_rev]. }
  assert (Ht : strip_one space_runes t = None).
  { destruct (strip_all_suffix (map (@rev ascii) space_runes) (length l) (rev l)) as [k Hk].
    apply (strip_one_None_prefix _ _ (rev k)). unfold t, trim_right.
    rewrite <- rev_app_distr, <- Hk, rev_involutive. done. }
  f_equal. unfold trim_left. rewrite (strip_all_id _ _ t Ht).
  unfold trim_right. rewrite strip_all_id by done. by rewrite rev_involutive.
Qed.

#[export] Hint Rewrite TrimSpace_idemp bytes_of_string_of string_of_bytes_of : vm_str.

Example TrimSpace_ex : TrimSpace "  tcp " = "tcp"%string.
Proof. vm_compute. reflexivity. Qed.

Example Atoi_ex : Atoi "18081" = Some 18081 /\ Atoi "-3" = Some (-3) /\ Atoi "1x" = None.
Proof. vm_compute. done. Qed.

Example Split_ex : Split "," "a,,b" = ["a"; ""; "b"]%string.
Proof. vm_compute. reflexivity. Qed.

(** ** The bytewise order of strings *)

Definition string_le (a b : string) : Prop := String.leb a b = true.

#[export] Instance string_le_dec : RelDecision string_le.
Proof. intros a b. unfold string_le. apply _. Defined.

Lemma string_compare_trans a b c :
  String.compare a b <> Gt -> String.compare b c <> Gt -> String.compare a c <> Gt.
Proof.
  revert b c. induction a as [|x a IH]; intros b c Hab Hbc; [by destruct c|].
  destruct b as [|y b]; [done|]. destruct c as [|z c]; [done|]. simpl in *. unfold Ascii.compare in *.
  destruct (N.compare_spec (N_of_ascii x) (N_of_ascii y)) as [E|E|E]; [rewrite E| |done];
    destruct (N.compare_spec (N_of_ascii y) (N_of_ascii z)) as [E'|E'|E']; try done.
  - by eapply IH.
  - by rewrite <- E', (proj2 (N.compare_lt_iff _ _) E).
  - by rewrite (proj2 (N.compare_lt_iff _ _) (N.lt_trans _ _ _ E E')).
Qed.

#[export] Instance string_le_trans : Transitive string_le.
Proof.
  intros a b c. unfold string_le, String.leb. intros H1 H2.
  pose proof (string_compare_trans a b c) as H.
  destruct (String.compare a b), (String.compare b c), (String.compare a c); try done;
    exfalso; by apply H.
Qed.

#[export] Instance string_le_antisymm : AntiSymm (=) string_le.
Proof. intros a b. apply String.leb_antisym. Qed.

#[export] Instance string_le_total : Total string_le.
Proof. intros a b. apply String.leb_total. Qed.
