(* ===== verification/GoFloat.v ===== *)
(** Go's [float64].

    The program's latencies and rates are [float64].  They are modelled by
    IEEE binary64 as specified by the standard library's [spec_float]
    (precision 53, maximal exponent 1024, round to nearest even), so every
    computation is bit-exact and evaluates.  The operations are the interface
    [Float64]; code whose meaning is clearer in exact arithmetic (running
    means) is written against the interface and can also be run on the
    rationals, the second instance.  [Float64Order] collects the order laws
    both instances satisfy. *)
From Stdlib Require Import SpecFloat QArith Lqa.
From S2P Require Import Prelude.

#[local] Open Scope Z_scope.

Class Float64 (F : Type) := {
  f_of_Z : Z -> F;                 (* the conversion float64(n) *)
  f_add : F -> F -> F;
  f_sub : F -> F -> F;
  f_mul : F -> F -> F;
  f_div : F -> F -> F;
  f_leb : F -> F -> bool;          (* x <= y *)
  f_ltb : F -> F -> bool;          (* x < y *)
  f_eqb : F -> F -> bool           (* x == y; false on NaN *)
}.

Definition float64 : Set := spec_float.

#[export] Instance float64_ops : Float64 float64 := {
  f_of_Z z := binary_normalize 53 1024 z 0 false;
  f_add := SFadd 53 1024;
  f_sub := SFsub 53 1024;
  f_mul := SFmul 53 1024;
  f_div := SFdiv 53 1024;
  f_leb := SFleb;
  f_ltb := SFltb;
  f_eqb := SFeqb
}.

#[export] Instance float64_eq_dec : EqDecision float64.
Proof. intros x y. unfold Decision. decide equality; solve [apply Z.eq_dec|apply Pos.eq_dec|apply bool_dec]. Defined.

Definition Qltb (x y : Q) : bool := negb (Qle_bool y x).

#[export] Instance Q_ops : Float64 Q := {
  f_of_Z := inject_Z;
  f_add := Qplus;
  f_sub := Qminus;
  f_mul := Qmult;
  f_div := Qdiv;
  f_leb := Qle_bool;
  f_ltb := Qltb;
  f_eqb := Qeq_bool
}.

(** Comparison is a total preorder on the values equal to themselves (all
    but NaN). *)
Class Float64Order (F : Type) `{Float64 F} : Prop := {
  f_leb_refl : forall x, f_eqb x x = true -> f_leb x x = true;
  f_leb_trans : forall x y z, f_leb x y = true -> f_leb y z = true -> f_leb x z = true;
  f_ltb_leb : forall x y, f_ltb x y = true -> f_leb x y = true;
  f_ltb_total : forall x y, f_eqb x x = true -> f_eqb y y = true ->
    f_ltb x y = false -> f_leb y x = true;
  f_leb_not_ltb : forall x y, f_leb x y = true -> f_ltb y x = false;
  f_ltb_trans : forall x y z, f_ltb x y = true -> f_ltb y z = true -> f_ltb x z = true;
  f_eqb_leb : forall x y, f_eqb x y = true -> f_leb x y = true;
  f_zero_self : f_eqb (f_of_Z 0) (f_of_Z 0) = true
}.

(** ** The order of binary64

    [rank] orders the classes of values (negative infinity, negative finite,
    zero, positive finite, positive infinity), then exponent and mantissa;
    [SFcompare] is the lexicographic comparison of ranks. *)

Definition rank (x : float64) : Z * Z * Z :=
  match x with
  | S754_infinity true => (-2, 0, 0)
  | S754_finite true m e => (-1, - e, - Z.pos m)
  | S754_zero _ => (0, 0, 0)
  | S754_finite false m e => (1, e, Z.pos m)
  | S754_infinity false => (2, 0, 0)
  | S754_nan => (0, 0, 0)
  end.

Definition lex3 (a b : Z * Z * Z) : comparison :=
  let '(a1, a2, a3) := a in
  let '(b1, b2, b3) := b in
  match a1 ?= b1 with
  | Eq => match a2 ?= b2 with Eq => a3 ?= b3 | c => c end
  | c => c
  end.

Definition is_nan (x : float64) : bool := match x with S754_nan => true | _ => false end.

Lemma SFcompare_rank x y :
  is_nan x = false -> is_nan y = false -> SFcompare x y = Some (lex3 (rank x) (rank y)).
Proof.
  destruct x as [|[]| |[]], y as [|[]| |[]]; try done; intros _ _; cbn [rank lex3 SFcompare].
  rewrite Z.compare_opp. f_equal. rewrite Z.compare_antisym.
  by destruct (e0 ?= e).
Qed.

Lemma SFcompare_nan x y : is_nan x || is_nan y = true -> SFcompare x y = None.
Proof. by destruct x as [|[]| |[]], y as [|[]| |[]]. Qed.

Definition lt3 (a b : Z * Z * Z) : Prop :=
  let '(a1, a2, a3) := a in
  let '(b1, b2, b3) := b in
  a1 < b1 \/ (a1 = b1 /\ (a2 < b2 \/ (a2 = b2 /\ a3 < b3))).

Lemma lex3_spec a b : CompareSpec (a = b) (lt3 a b) (lt3 b a) (lex3 a b).
Proof.
  destruct a as [[a1 a2] a3], b as [[b1 b2] b3]. cbn.
  destruct (Z.compare_spec a1 b1); [|constructor; lia..].
  destruct (Z.compare_spec a2 b2); [|constructor; lia..].
  destruct (Z.compare_spec a3 b3); constructor; subst; solve [done|lia].
Qed.

Lemma SFltb_rank x y : SFltb x y = true <-> is_nan x = false /\ is_nan y = false /\ lt3 (rank x) (rank y).
Proof.
  unfold SFltb. destruct (is_nan x || is_nan y) eqn:E.
  - rewrite SFcompare_nan by done. split; [done|]. intros (H1 & H2 & _). by rewrite H1, H2 in E.
  - apply orb_false_iff in E as [E1 E2]. rewrite SFcompare_rank by done.
    destruct (lex3_spec (rank x) (rank y)) as [Heq|Hlt|Hgt].
    + rewrite Heq. destruct (rank y) as [[? ?] ?]. simpl. split; [done|lia].
    + done.
    + split; [done|]. intros (_ & _ & H). destruct (rank x) as [[? ?] ?], (rank y) as [[? ?] ?].
      simpl in *. lia.
Qed.

Lemma SFleb_rank x y :
  SFleb x y = true <-> is_nan x = false /\ is_nan y = false /\ ~ lt3 (rank y) (rank x).
Proof.
  unfold SFleb. destruct (is_nan x || is_nan y) eqn:E.
  - rewrite SFcompare_nan by done. split; [done|]. intros (H1 & H2 & _). by rewrite H1, H2 in E.
  - apply orb_false_iff in E as [E1 E2]. rewrite SFcompare_rank by done.
    destruct (lex3_spec (rank x) (rank y)) as [Heq|Hlt|Hgt].
    + rewrite Heq. destruct (rank y) as [[? ?] ?]. simpl. naive_solver lia.
    + destruct (rank x) as [[? ?] ?], (rank y) as [[? ?] ?]. simpl in *. naive_solver lia.
    + split; [done|]. intros (_ & _ & H). done.
Qed.

Lemma SFeqb_nan x : SFeqb x x = true <-> is_nan x = false.
Proof.
  unfold SFeqb. destruct (is_nan x) eqn:E; [by destruct x|].
  rewrite SFcompare_rank by done. destruct (lex3_spec (rank x) (rank x)) as [?|H|H]; [done|..];
    destruct (rank x) as [[? ?] ?]; simpl in H; lia.
Qed.

Ltac rank_lia :=
  repeat match goal with |- context [rank ?x] => destruct (rank x) as [[? ?] ?] end;
  simpl in *; lia.

#[export] Instance float64_order : Float64Order float64.
Proof.
  split; cbn [f_eqb f_leb f_ltb float64_ops].
  - intros x Hx%SFeqb_nan. apply SFleb_rank. split; [done|split; [done|rank_lia]].
  - intros x y z (Hx & Hy & H1)%SFleb_rank (_ & Hz & H2)%SFleb_rank.
    apply SFleb_rank. split; [done|split; [done|]]. revert H1 H2. rank_lia.
  - intros x y (Hx & Hy & H1)%SFltb_rank. apply SFleb_rank.
    split; [done|split; [done|]]. revert H1. rank_lia.
  - intros x y Hx%SFeqb_nan Hy%SFeqb_nan H%not_true_iff_false.
    apply SFleb_rank. split; [done|split; [done|]]. intros Hlt. apply H.
    by apply SFltb_rank.
  - intros x y (_ & _ & H)%SFleb_rank. apply not_true_iff_false.
    intros (_ & _ & H')%SFltb_rank. done.
  - intros x y z (Hx & Hy & H1)%SFltb_rank (_ & Hz & H2)%SFltb_rank.
    apply SFltb_rank. split; [done|split; [done|]]. revert H1 H2. rank_lia.
  - intros x y. unfold SFeqb, SFleb. by destruct (SFcompare x y) as [[]|].
  - done.
Qed.

#[export] Instance Q_order : Float64Order Q.
Proof.
  split; cbn [f_eqb f_leb f_ltb Q_ops].
  - intros x _. apply Qle_bool_iff. lra.
  - intros x y z. rewrite !Qle_bool_iff. lra.
  - intros x y. unfold Qltb. rewrite negb_true_iff, <- not_true_iff_false, !Qle_bool_iff. lra.
  - intros x y _ _. unfold Qltb. by rewrite negb_false_iff.
  - intros x y. unfold Qltb. by rewrite negb_false_iff.
  - intros x y z. unfold Qltb.
    rewrite !negb_true_iff, <- !not_true_iff_false, !Qle_bool_iff. lra.
  - intros x y E%Qeq_bool_iff. apply Qle_bool_iff. lra.
  - done.
Qed.

(** Proofs about the program never look inside the operations. *)
#[global] Arguments f_of_Z : simpl never.
#[global] Arguments f_leb : simpl never.
#[global] Arguments f_ltb : simpl never.
#[global] Arguments f_eqb : simpl never.
#[global] Arguments f_add : simpl never.
#[global] Arguments f_sub : simpl never.
#[global] Arguments f_mul : simpl never.
#[global] Arguments f_div : simpl never.

(** Except in exact arithmetic, where [q_ops] exposes the field operations. *)
Ltac q_ops := cbv [f_of_Z f_add f_sub f_mul f_div f_leb f_ltb f_eqb Q_ops].

(** The conversions [float64(n) / 1000] and the like, on concrete values. *)
Example f64_div_ex : f_div (f_of_Z 1500) (f_of_Z 1000) = (f_div (f_of_Z 3) (f_of_Z 2) : float64).
Proof. vm_compute. reflexivity. Qed.

(** ** Signs *)

Definition unsigned (x : float64) : bool :=
  match x with S754_finite true _ _ | S754_infinity true => false | _ => true end.

Lemma f_ltb_zero (x : float64) : f_ltb x (f_of_Z 0) = negb (unsigned x).
Proof. by destruct x as [|[]| |[]]. Qed.

Lemma round_unsigned m e l : unsigned (binary_round_aux 53 1024 false m e l) = true.
Proof.
  unfold binary_round_aux. destruct (shr_fexp 53 1024 m e l) as [r e1].
  destruct (shr_fexp _ _ _ _ _) as [r2 e2]. destruct (shr_m r2); try done. by destruct (_ <=? _).
Qed.

Lemma normalize_unsigned m e : 0 < m -> unsigned (binary_normalize 53 1024 m e false) = true.
Proof.
  destruct m as [|m|]; [lia|intros _|lia]. unfold binary_normalize, binary_round.
  destruct (shl_align m e _) as [m' e']. apply round_unsigned.
Qed.

Lemma f_add_unsigned (x y : float64) : unsigned x = true -> unsigned y = true -> unsigned (f_add x y) = true.
Proof.
  destruct x as [[]|[]| |[] mx ex], y as [[]|[]| |[] my ey]; try done; intros _ _.
  apply normalize_unsigned. apply Z.add_pos_pos; apply Pos2Z.is_pos.
Qed.

Lemma f_div_unsigned (x : float64) m e : unsigned x = true -> unsigned (f_div x (S754_finite false m e)) = true.
Proof.
  destruct x as [[]|[]| |[] mx ex]; try done. intros _. unfold f_div, float64_ops, SFdiv.
  destruct (SFdiv_core_binary 53 1024 _ _ _ _) as [[m' e'] l]. apply round_unsigned.
Qed.

Lemma f_of_Z_unsigned n : 0 <= n -> unsigned (f_of_Z n : float64) = true.
Proof. intros Hn. destruct (decide (n = 0)) as [->|]; [done|]. apply normalize_unsigned. lia. Qed.

Lemma f_half_unsigned (x : float64) : unsigned x = true -> unsigned (f_div x (f_of_Z 2)) = true.
Proof.
  assert (E : (f_of_Z 2 : float64) = S754_finite false 4503599627370496 (-51)) by (vm_compute; done).
  rewrite E. apply f_div_unsigned.
Qed.
