(* ===== verification/GoTime.v ===== *)
(** Go's [time.Time] and [time.Duration].

    An instant is the number of nanoseconds since Go's zero [Time]
    (January 1, year 1, UTC), so that [IsZero] is comparison with 0; a
    duration is an [int64] number of nanoseconds.  Monotonic-clock readings
    are not modelled: instants are compared by wall clock. *)
From S2P Require Import Prelude GoFloat.

#[local] Open Scope Z_scope.

Abbreviation time := Z (only parsing).
Abbreviation duration := Z (only parsing).

Definition time_zero : time := 0.
Definition IsZero (t : time) : bool := t =? 0.
Definition Before (t u : time) : bool := t <? u.
Definition After (t u : time) : bool := u <? t.
Definition Add (t : time) (d : duration) : time := t + d.

(** [Time.Sub] saturates at the bounds of [Duration]. *)
Definition Sub (t u : time) : duration :=
  let d := t - u in
  if d <? - 2 ^ 63 then - 2 ^ 63
  else if 2 ^ 63 - 1 <? d then 2 ^ 63 - 1
  else d.

Definition Nanosecond : duration := 1.
Definition Microsecond : duration := 1000.
Definition Millisecond : duration := 1000000.
Definition Second : duration := 1000000000.
Definition Minute : duration := 60 * Second.
Definition Hour : duration := 60 * Minute.

(** [Duration.Seconds]: whole seconds plus the fractional part. *)
Definition Seconds `{Float64 F} (d : duration) : F :=
  f_add (f_of_Z (Z.quot d Second)) (f_div (f_of_Z (Z.rem d Second)) (f_of_Z Second)).

(** The later of two optional instants, as SQL's [GREATEST] and the Go
    idiom [if a == nil || b.After( *a )]. *)
Definition later (a : option time) (b : time) : option time :=
  match a with
  | None => Some b
  | Some t => if After b t then Some b else Some t
  end.

Lemma later_max a b : later a b = Some (match a with None => b | Some t => Z.max t b end).
Proof.
  unfold later, After. destruct a as [t|]; [|done].
  destruct (Z.ltb_spec t b); f_equal; lia.
Qed.

Lemma Sub_exact t u : in_i64 (t - u) -> Sub t u = t - u.
Proof. unfold Sub, in_i64. intros H. go_cases; bools; lia. Qed.
