(* ===== verification/GoParse.v ===== *)
(** [strconv.ParseBool] and [time.ParseDuration] of Go's standard library.

    A duration is a sign and a sequence of decimal numbers with units; the
    parser works on [uint64] magnitudes and checks for overflow at every
    step, so the result always fits an [int64] ([ParseDuration_range]). *)
From Stdlib Require Import SpecFloat.
From S2P Require Import Prelude GoStrings GoFloat GoTime.

#[local] Open Scope Z_scope.

(** ** Booleans *)

Definition ParseBool (s : string) : option bool :=
  if existsb (String.eqb s) ["1"; "t"; "T"; "true"; "TRUE"; "True"] then Some true
  else if existsb (String.eqb s) ["0"; "f"; "F"; "false"; "FALSE"; "False"] then Some false
  else None.

(** ** Durations *)

Definition is_digit (c : ascii) : bool := (48 <=? byteZ c) && (byteZ c <=? 57).

(** [leadingInt]: the digits at the front as a [uint64], and the rest. *)
Fixpoint leadingInt (x : Z) (s : list ascii) : option (Z * list ascii) :=
  match s with
  | [] => Some (x, [])
  | c :: r =>
      if is_digit c then
        if 2 ^ 63 / 10 <? x then None
        else let x := u64 (x * 10 + (byteZ c - 48)) in
             if 2 ^ 63 <? x then None else leadingInt x r
      else Some (x, s)
  end.

(** [leadingFraction]: digits beyond the capacity are dropped. *)
Fixpoint leadingFraction (x : Z) (scale : float64) (overflow : bool) (s : list ascii) : Z * float64 * list ascii :=
  match s with
  | [] => (x, scale, [])
  | c :: r =>
      if is_digit c then
        if overflow : bool then leadingFraction x scale true r
        else if (2 ^ 63 - 1) / 10 <? x then leadingFraction x scale true r
        else let y := u64 (x * 10 + (byteZ c - 48)) in
             if 2 ^ 63 <? y then leadingFraction x scale true r
             else leadingFraction y (f_mul scale (f_of_Z 10)) false r
      else (x, scale, s)
  end.

(** The bytes up to the next digit or period. *)
Fixpoint unit_span (s : list ascii) : list ascii * list ascii :=
  match s with
  | [] => ([], [])
  | c :: r =>
      if Ascii.eqb c "."%char || is_digit c then ([], s)
      else let '(u, t) := unit_span r in (c :: u, t)
  end.

Definition micro_sign : list ascii := [ascii_of_nat 194; ascii_of_nat 181; "s"%char].
Definition greek_mu : list ascii := [ascii_of_nat 206; ascii_of_nat 188; "s"%char].

Definition unitMap (u : list ascii) : option Z :=
  if bool_decide (u = bytes_of "ns") then Some Nanosecond
  else if bool_decide (u = bytes_of "us") then Some Microsecond
  else if bool_decide (u = micro_sign) then Some Microsecond
  else if bool_decide (u = greek_mu) then Some Microsecond
  else if bool_decide (u = bytes_of "ms") then Some Millisecond
  else if bool_decide (u = bytes_of "s") then Some Second
  else if bool_decide (u = bytes_of "m") then Some Minute
  else if bool_decide (u = bytes_of "h") then Some Hour
  else None.

(** The conversion [uint64(x)] of a float in range: truncation. *)
Definition f_trunc (x : float64) : Z :=
  match x with
  | S754_finite s m e =>
      let v := Z.shiftl (Zpos m) e in u64 (if s : bool then - v else v)
  | _ => 0
  end.

(** One number with its unit: the new total and the rest of the input. *)
Definition durationPart (d : Z) (s : list ascii) : option (Z * list ascii) :=
  match s with
  | [] => None
  | c :: _ =>
      if negb (Ascii.eqb c "."%char || is_digit c) then None
      else
        match leadingInt 0 s with
        | None => None
        | Some (v, s1) =>
            let pre := negb (length s1 =? length s)%nat in
            let '(f, scale, s2, post) :=
              match s1 with
              | c1 :: r1 =>
                  if Ascii.eqb c1 "."%char then
                    let '(f, scale, s2) := leadingFraction 0 (f_of_Z 1) false r1 in
                    (f, scale, s2, negb (length s2 =? length r1)%nat)
                  else (0, f_of_Z 1, s1, false)
              | [] => (0, f_of_Z 1, s1, false)
              end in
            if negb pre && negb post then None
            else
              let '(u, rest) := unit_span s2 in
              match u with
              | [] => None
              | _ =>
                  match unitMap u with
                  | None => None
                  | Some unit =>
                      if 2 ^ 63 / unit <? v then None
                      else
                        let v := u64 (v * unit) in
                        let v' := if 0 <? f
                                  then u64 (v + f_trunc (f_mul (f_of_Z f) (f_div (f_of_Z unit) scale)))
                                  else v in
                        if (0 <? f) && (2 ^ 63 <? v') then None
                        else let d' := u64 (d + v') in
                             if 2 ^ 63 <? d' then None else Some (d', rest)
                  end
              end
        end
  end.

(** The loop: every part consumes at least one byte, so the length of the
    input is enough fuel. *)
Fixpoint durationParts (fuel : nat) (d : Z) (s : list ascii) : option Z :=
  match s with
  | [] => Some d
  | _ =>
      match fuel with
      | O => None
      | S fuel =>
          match durationPart d s with
          | None => None
          | Some (d', rest) => durationParts fuel d' rest
          end
      end
  end.

Definition parse_duration (s : string) : option duration :=
  let '(neg, t) :=
    match bytes_of s with
    | c :: r => if Ascii.eqb c "-"%char then (true, r)
                else if Ascii.eqb c "+"%char then (false, r) else (false, c :: r)
    | [] => (false, [])
    end in
  if bool_decide (t = bytes_of "0") then Some 0
  else match t with
       | [] => None
       | _ =>
           match durationParts (length t) 0 t with
           | None => None
           | Some d =>
               if neg : bool then Some (i64 (- i64 d))
               else if 2 ^ 63 - 1 <? d then None else Some d
           end
       end.

Definition ParseDuration (s : string) : Result duration :=
  match parse_duration s with
  | Some d => Ok d
  | None => Err (LibErr "time.ParseDuration" s)
  end.

Example parse_90m : ParseDuration "1h30m" = Ok (90 * Minute).
Proof. vm_compute. reflexivity. Qed.
Example parse_fraction : ParseDuration "-1.5s" = Ok (-1500 * Millisecond).
Proof. vm_compute. reflexivity. Qed.
Example parse_max : ParseDuration "9223372036854775807ns" = Ok (2 ^ 63 - 1).
Proof. vm_compute. reflexivity. Qed.
Example parse_too_big : is_ok (ParseDuration "9223372036854775808ns") = false.
Proof. vm_compute. reflexivity. Qed.
Example parse_min : ParseDuration "-9223372036854775808ns" = Ok (- 2 ^ 63).
Proof. vm_compute. reflexivity. Qed.
Example parse_no_unit : is_ok (ParseDuration "20") = false.
Proof. vm_compute. reflexivity. Qed.

(** ** Facts *)

(** The fuel is never what stops the loop. *)
Lemma leadingInt_rest x s v r : leadingInt x s = Some (v, r) -> (length r <= length s)%nat.
Proof.
  revert x. induction s as [|c s IH]; intros x; cbn [leadingInt]; [by intros [= _ <-]|].
  destruct (is_digit c); [|by intros [= _ <-]].
  destruct (2 ^ 63 / 10 <? x); [done|]. cbv zeta. destruct (2 ^ 63 <? _); [done|].
  intros E%IH. cbn. lia.
Qed.

Lemma leadingFraction_rest x sc o s : (length (leadingFraction x sc o s).2 <= length s)%nat.
Proof.
  revert x sc o. induction s as [|c s IH]; intros x sc o; cbn [leadingFraction]; [done|].
  destruct (is_digit c); [|done]. cbv zeta.
  destruct o; [etrans; [apply IH|cbn; lia]|]. destruct ((2 ^ 63 - 1) / 10 <? x); [etrans; [apply IH|cbn; lia]|].
  destruct (2 ^ 63 <? _); (etrans; [apply IH|cbn; lia]).
Qed.

Lemma unit_span_app s : s = (unit_span s).1 ++ (unit_span s).2.
Proof.
  induction s as [|c s IH]; cbn [unit_span]; [done|]. destruct (_ || _); [done|].
  destruct (unit_span s) as [u t]. cbn in *. by rewrite IH at 1.
Qed.

Lemma durationPart_Some d s d' r : durationPart d s = Some (d', r) ->
  (length r < length s)%nat /\ 0 <= d' <= 2 ^ 63.
Proof.
  unfold durationPart. destruct s as [|c s0] eqn:Es; [done|]. rewrite <- Es. clear Es.
  destruct (negb _); [done|]. destruct (leadingInt 0 s) as [[v s1]|] eqn:Ei; [|done].
  apply leadingInt_rest in Ei.
  set (frac := match s1 with [] => _ | _ => _ end).
  assert (Hf : (length frac.1.2 <= length s1)%nat).
  { unfold frac. destruct s1 as [|c1 r1]; [done|]. destruct (Ascii.eqb c1 "."); [|done].
    pose proof (leadingFraction_rest 0 (f_of_Z 1) false r1). destruct (leadingFraction _ _ _ _) as [[f sc] s2].
    cbn in *. lia. }
  destruct frac as [[[f scale] s2] post]. cbn in Hf. destruct (_ && negb post); [done|].
  pose proof (unit_span_app s2) as Hu. destruct (unit_span s2) as [u rest]. cbn in Hu.
  destruct u as [|cu u]; [done|]. destruct (unitMap _) as [unit|]; [|done]. destruct (2 ^ 63 / unit <? v); [done|].
  cbv zeta. set (v' := if 0 <? f then _ else _). destruct (_ && (2 ^ 63 <? v')); [done|].
  destruct (2 ^ 63 <? u64 (d + v')) eqn:Eo; [done|]. intros [= <- <-].
  pose proof (u64_range (d + v')) as []. bools. apply (f_equal (@length ascii)) in Hu. rewrite length_app in Hu. cbn in Hu.
  split; lia.
Qed.

Lemma durationParts_fuel fuel d s : (length s <= fuel)%nat ->
  durationParts fuel d s = durationParts (length s) d s.
Proof.
  revert fuel d s. induction fuel as [fuel IH] using lt_wf_ind; intros d s Hf.
  destruct s as [|c s]; [by destruct fuel|]. destruct fuel as [|fuel]; [cbn in Hf; lia|]. cbn -[durationPart].
  destruct (durationPart d (c :: s)) as [[d' r]|] eqn:E; [|done]. apply durationPart_Some in E as [Hr _]. cbn in *.
  rewrite (IH fuel) by lia. symmetry. apply IH; lia.
Qed.

Lemma durationParts_range fuel d s d' : 0 <= d <= 2 ^ 63 -> durationParts fuel d s = Some d' -> 0 <= d' <= 2 ^ 63.
Proof.
  revert d s. induction fuel as [|fuel IH]; intros d s Hd; (destruct s as [|c s]; [by intros [= <-]|]); [done|].
  cbn -[durationPart Z.pow]. destruct (durationPart d (c :: s)) as [[d1 r]|] eqn:E; [|done].
  apply durationPart_Some in E as [_ H1]. by apply IH.
Qed.

(** A parsed duration is an [int64]. *)
Lemma ParseDuration_range s d : ParseDuration s = Ok d -> in_i64 d.
Proof.
  unfold ParseDuration, parse_duration. set (sg := match bytes_of s with [] => _ | _ => _ end).
  destruct sg as [neg t]. destruct (bool_decide _); [intros [= <-]; unfold in_i64; lia|].
  destruct t as [|c t]; [done|]. destruct (durationParts _ _ _) as [d0|] eqn:E; [|done].
  apply durationParts_range in E; [|lia].
  destruct neg; [intros [= <-]; apply i64_range|]. destruct (2 ^ 63 - 1 <? d0) eqn:Em; [done|].
  intros [= <-]. bools. unfold in_i64. lia.
Qed.
