(* ===== verification/Decimal.v ===== *)
(** Decimal digits: what [strconv.AppendInt], [time]'s zero-padded fields and
    the parsers of both agree on. *)
From stdpp Require Import pretty.
From S2P Require Import Prelude GoStrings.

#[local] Open Scope Z_scope.

Definition is_digit (c : ascii) : bool := isSome (digit_val c).
Definition digit (d : Z) : ascii := chr (48 + d).

(** [n] digits, the least significant [n] of [z]: [appendInt] of package time
    for a value that fits its width. *)
Fixpoint fixed (n : nat) (z : Z) : list ascii :=
  match n with
  | O => []
  | S n => fixed n (z / 10) ++ [digit (z mod 10)]
  end.

(** The digits a text starts with, and the rest. *)
Fixpoint span_digits (l : list ascii) : list ascii * list ascii :=
  match l with
  | [] => ([], [])
  | c :: t => if is_digit c then let '(ds, r) := span_digits t in (c :: ds, r) else ([], l)
  end.

(** What does not continue a run of digits. *)
Definition no_digit (l : list ascii) : bool := match l with c :: _ => negb (is_digit c) | [] => true end.

Lemma span_digits_all l k : forallb is_digit l = true -> no_digit k = true -> span_digits (l ++ k) = (l, k).
Proof.
  intros Hl Hk. induction l as [|d l IH]; cbn [app span_digits] in *.
  - destruct k as [|c k]; [done|]. cbn in *. by destruct (is_digit c).
  - cbn [forallb] in Hl. apply andb_true_iff in Hl as [-> Hl]. by rewrite IH.
Qed.

Lemma digit_val_digit d : 0 <= d <= 9 -> digit_val (digit d) = Some d.
Proof.
  intros Hd. assert (H : forallb (fun k => bool_decide (digit_val (digit k) = Some k)) (map Z.of_nat (seq 0 10)) = true)
    by (vm_compute; reflexivity).
  rewrite forallb_forall in H. specialize (H d). apply bool_decide_eq_true in H; [done|].
  apply in_map_iff. exists (Z.to_nat d). split; [lia|]. apply in_seq. lia.
Qed.

Lemma is_digit_digit d : 0 <= d <= 9 -> is_digit (digit d) = true.
Proof. intros Hd. unfold is_digit. by rewrite digit_val_digit. Qed.

Lemma is_digit_byte c : is_digit c = true <-> 48 <= byteZ c <= 57.
Proof.
  unfold is_digit, digit_val. destruct (Z.leb_spec 48 (byteZ c)), (Z.leb_spec (byteZ c) 57); cbn; split; try done; lia.
Qed.

Lemma parse_digits_app acc a b :
  parse_digits acc (a ++ b) = match parse_digits acc a with Some v => parse_digits v b | None => None end.
Proof. revert acc. induction a as [|c a IH]; intros acc; cbn; [done|]. by destruct (digit_val c). Qed.

Lemma parse_digits_bound acc l v : parse_digits acc l = Some v ->
  acc * 10 ^ Z.of_nat (length l) <= v < (acc + 1) * 10 ^ Z.of_nat (length l).
Proof.
  revert acc. induction l as [|c l IH]; intros acc; [cbn; intros [= ->]; lia|]. cbn [parse_digits length].
  rewrite Nat2Z.inj_succ, Z.pow_succ_r by lia. unfold digit_val. destruct (_ && _) eqn:E; [|done]. bools.
  intros Hv%IH. assert (0 < 10 ^ Z.of_nat (length l)) by (apply Z.pow_pos_nonneg; lia). nia.
Qed.

Lemma parse_digits_Some acc l : forallb is_digit l = true -> exists v, parse_digits acc l = Some v.
Proof.
  revert acc. induction l as [|c l IH]; intros acc; cbn; [by eexists|]. unfold is_digit at 1.
  destruct (digit_val c); [apply IH|done].
Qed.

Lemma fixed_spec n z : length (fixed n z) = n /\ forallb is_digit (fixed n z) = true.
Proof.
  revert z. induction n as [|n IH]; intros z; [done|]. cbn [fixed]. destruct (IH (z / 10)) as [Hl Hd].
  rewrite length_app, forallb_app, Hl, Hd. cbn [length forallb]. split; [lia|].
  rewrite is_digit_digit; [done|]. pose proof (Z.mod_pos_bound z 10). lia.
Qed.

Lemma parse_fixed n z : 0 <= z < 10 ^ Z.of_nat n -> parse_digits 0 (fixed n z) = Some z.
Proof.
  revert z. induction n as [|n IH]; intros z Hz; [cbn in *; f_equal; lia|].
  rewrite Nat2Z.inj_succ, Z.pow_succ_r in Hz by lia. cbn [fixed].
  rewrite parse_digits_app, IH by (Z.to_euclidean_division_equations; lia). cbn [parse_digits].
  rewrite digit_val_digit by (pose proof (Z.mod_pos_bound z 10); lia). f_equal.
  rewrite (Z.div_mod z 10) at 3 by lia. lia.
Qed.

Lemma parse_zeros v k : parse_digits v (replicate k "0"%char) = Some (v * 10 ^ Z.of_nat k).
Proof.
  revert v. induction k as [|k IH]; intros v; [cbn; f_equal; lia|]. rewrite Nat2Z.inj_succ, Z.pow_succ_r by lia.
  cbn [replicate parse_digits]. change (digit_val "0") with (Some 0). cbn iota. rewrite IH. f_equal. lia.
Qed.

(** ** [strconv.Itoa] *)

Lemma pretty_char_digit x : (x < 10)%N -> pretty_N_char x = digit (Z.of_N x).
Proof.
  intros Hx. assert (H : forallb (fun k => Ascii.eqb (pretty_N_char k) (digit (Z.of_N k))) (map N.of_nat (seq 0 10)) = true)
    by (vm_compute; reflexivity).
  rewrite forallb_forall in H. apply Ascii.eqb_eq, H, in_map_iff. exists (N.to_nat x). split; [lia|]. apply in_seq. lia.
Qed.

(** The digits of a positive number: no leading zero. *)
Lemma pretty_digits x s : (0 < x)%N -> exists d ds,
  bytes_of (pretty_N_go x s) = d :: ds ++ bytes_of s /\ digit_val d <> Some 0 /\ forallb is_digit (d :: ds) = true /\
  parse_digits 0 (d :: ds) = Some (Z.of_N x) /\ (0 < Z.of_N x) /\ 10 ^ Z.of_nat (length ds) <= Z.of_N x.
Proof.
  revert s. induction (N.lt_wf_0 x) as [x _ IH]; intros s Hx. rewrite pretty_N_go_step by done.
  assert (Hm : (x mod 10 < 10)%N) by (by apply N.mod_lt). rewrite pretty_char_digit by done.
  pose proof (N.div_mod' x 10) as Hx10. pose proof (N.div_lt x 10 Hx eq_refl) as Hlt.
  set (q := (x / 10)%N) in *. set (r := (x mod 10)%N) in *. clearbody q r.
  assert (Hr : 0 <= Z.of_N r <= 9) by lia.
  destruct (decide (q = 0)%N) as [->|Hd].
  - rewrite pretty_N_go_0. exists (digit (Z.of_N r)), []. cbn [app length forallb parse_digits Z.of_nat].
    rewrite digit_val_digit, is_digit_digit by done. assert (r = x) as -> by lia.
    split_and!; try done; try (cbn; lia). intros E. injection E. lia.
  - destruct (IH q Hlt (String (digit (Z.of_N r)) s)) as (d & ds & -> & Hnz & Hds & Hp & _ & Hlen); [lia|].
    exists d, (ds ++ [digit (Z.of_N r)]). split_and!; [cbn; by rewrite <- app_assoc|done| | |lia|].
    + rewrite app_comm_cons, forallb_app, Hds. cbn [forallb]. by rewrite is_digit_digit.
    + rewrite app_comm_cons, parse_digits_app, Hp. cbn [parse_digits]. rewrite digit_val_digit by done. f_equal. lia.
    + rewrite length_app. cbn [length]. rewrite Nat.add_1_r, Nat2Z.inj_succ, Z.pow_succ_r by lia. lia.
Qed.

(** The text of an integer: zero, or a sign and digits that do not start
    with zero. *)
Inductive int_text : Z -> list ascii -> Prop :=
| int_zero : int_text 0 ["0"%char]
| int_pos z d ds : 0 < z -> digit_val d <> Some 0 -> forallb is_digit (d :: ds) = true ->
    parse_digits 0 (d :: ds) = Some z -> 10 ^ Z.of_nat (length ds) <= z -> int_text z (d :: ds)
| int_neg z d ds : 0 < z -> digit_val d <> Some 0 -> forallb is_digit (d :: ds) = true ->
    parse_digits 0 (d :: ds) = Some z -> 10 ^ Z.of_nat (length ds) <= z -> int_text (- z) ("-"%char :: d :: ds).

Lemma Itoa_text z : int_text z (bytes_of (Itoa z)).
Proof.
  unfold Itoa, pretty, pretty_Z. destruct z as [|p|p]; [constructor| |].
  - unfold pretty, pretty_positive, pretty, pretty_N. rewrite decide_False by done.
    destruct (pretty_digits (Npos p) "") as (d & ds & -> & ? & ? & ? & ? & ?); [lia|]. rewrite app_nil_r.
    by constructor.
  - unfold pretty, pretty_positive, pretty, pretty_N. rewrite decide_False by done.
    destruct (pretty_digits (Npos p) "") as (d & ds & E & ? & ? & ? & ? & ?); [lia|].
    change (bytes_of ("-" +:+ _)) with ("-"%char :: bytes_of (pretty_N_go (N.pos p) "")). rewrite E, app_nil_r.
    by apply (int_neg (Z.pos p)).
Qed.

Lemma Atoi_text z l : int_text z l -> in_i64 z -> Atoi (string_of l) = Some z.
Proof.
  intros Ht Hz. unfold Atoi. rewrite bytes_of_string_of.
  assert (Hr : (- 2 ^ 63 <=? z) && (z <? 2 ^ 63) = true)
    by (apply andb_true_iff; unfold in_i64 in Hz; rewrite Z.leb_le, Z.ltb_lt; lia).
  destruct Ht as [|z d ds _ _ Hd Hp|z d ds _ _ Hd Hp]; [done| |].
  - assert (Hb : 48 <= byteZ d <= 57) by (apply is_digit_byte; by apply andb_true_iff in Hd as [? _]).
    destruct (Ascii.eqb_spec d "-"%char) as [->|_]; [by vm_compute in Hb; destruct Hb|].
    destruct (Ascii.eqb_spec d "+"%char) as [->|_]; [by vm_compute in Hb; destruct Hb|]. by rewrite Hp, Hr.
  - change (Ascii.eqb "-" "-") with true. cbn iota. by rewrite Hp, Hr.
Qed.

Lemma Atoi_Itoa z : in_i64 z -> Atoi (Itoa z) = Some z.
Proof. intros Hz. rewrite <- (string_of_bytes_of (Itoa z)). apply Atoi_text; [apply Itoa_text|done]. Qed.

(** The text of an [int64] has at most twenty bytes. *)
Lemma Itoa_length z : in_i64 z -> (length (bytes_of (Itoa z)) <= 20)%nat.
Proof.
  assert (Hn : forall ds : list ascii, 10 ^ Z.of_nat (length ds) <= 2 ^ 63 -> (length ds <= 18)%nat).
  { intros ds H. destruct (decide (length ds <= 18)%nat) as [|Hg]; [done|].
    assert (10 ^ 19 <= 10 ^ Z.of_nat (length ds)) by (apply Z.pow_le_mono_r; lia). lia. }
  unfold in_i64. intros Hz. destruct (Itoa_text z) as [|z d ds ? _ _ _ Hl|z d ds ? _ _ _ Hl]; cbn [length]; [lia| |];
    specialize (Hn ds); lia.
Qed.
