(* ===== verification/GoDate.v ===== *)
(** Civil dates and RFC 3339: package time's calendar, the text
    [Time.Format(time.RFC3339Nano)] and [Time.MarshalJSON] write for an
    instant in a zone, and what [Time.UnmarshalJSON] reads. *)
From S2P Require Import Prelude GoStrings GoTime Decimal.

#[local] Open Scope Z_scope.

(** ** The calendar *)

Definition isLeap (year : Z) : bool := (year mod 4 =? 0) && (negb (year mod 100 =? 0) || (year mod 400 =? 0)).
Definition daysPer400Years : Z := 146097.
Definition daysPer100Years : Z := 36524.
Definition daysPer4Years : Z := 1461.

(** The year and the day of the year of a day counted from January 1, year
    1: [absDate], cutting off 400-, 100-, 4- and 1-year cycles. *)
Definition yearDay (d : Z) : Z * Z :=
  let n400 := d / daysPer400Years in let d := d - daysPer400Years * n400 in
  let n := d / daysPer100Years in let n100 := n - n / 4 in let d := d - daysPer100Years * n100 in
  let n4 := d / daysPer4Years in let d := d - daysPer4Years * n4 in
  let n := d / 365 in let n1 := n - n / 4 in
  (400 * n400 + 100 * n100 + 4 * n4 + n1 + 1, d - 365 * n1).

Definition daysBefore (month : Z) : Z :=
  nth (Z.to_nat month) [0; 31; 59; 90; 120; 151; 181; 212; 243; 273; 304; 334; 365] 0.

(** The month and the day of the month. *)
Definition monthDay (year yday : Z) : Z * Z :=
  if isLeap year && (yday =? 59) then (2, 29)
  else
    let day := if isLeap year && (59 <? yday) then yday - 1 else yday in
    let month := day / 31 in
    let e := daysBefore (month + 1) in
    if e <=? day then (month + 2, day - e + 1) else (month + 1, day - daysBefore month + 1).

(** [daysSinceEpoch] and the days of the months: the day a date denotes. *)
Definition daysBeforeYear (year : Z) : Z :=
  let y := year - 1 in
  let n400 := y / 400 in let y := y - 400 * n400 in
  let n100 := y / 100 in let y := y - 100 * n100 in
  let n4 := y / 4 in let y := y - 4 * n4 in
  daysPer400Years * n400 + daysPer100Years * n100 + daysPer4Years * n4 + 365 * y.
Definition dayOf (year month day : Z) : Z :=
  daysBeforeYear year + daysBefore (month - 1) + (if isLeap year && (3 <=? month) then 1 else 0) + (day - 1).

Definition daysIn (month year : Z) : Z :=
  if (month =? 2) && isLeap year then 29 else daysBefore month - daysBefore (month - 1).

(** ** Text *)

Fixpoint trim_zeros (l : list ascii) : list ascii :=
  match l with
  | [] => []
  | c :: t => match trim_zeros t with
              | [] => if Ascii.eqb c "0"%char then [] else [c]
              | r => c :: r
              end
  end.

Definition secondsPerDay : Z := 86400.

(** [appendFormatRFC3339] with nanoseconds, for a year of four digits;
    [zone] is the offset of the instant's location in minutes east of UTC. *)
Definition fraction (nanos : Z) : list ascii :=
  match trim_zeros (fixed 9 nanos) with [] => [] | ds => "."%char :: ds end.
Definition zone_text (zone : Z) : list ascii :=
  if zone =? 0 then ["Z"%char]
  else (if zone <? 0 then "-"%char else "+"%char) :: fixed 2 (Z.abs zone / 60) ++ ":"%char :: fixed 2 (Z.abs zone mod 60).
Definition inZone (zone : Z) (t : time) : Z := t + zone * Minute.
Definition formatRFC3339 (zone : Z) (t : time) : list ascii :=
  let local := inZone zone t in
  let sec := local / Second in
  let '(year, yday) := yearDay (sec / secondsPerDay) in
  let '(month, day) := monthDay year yday in
  let clock := sec mod secondsPerDay in
  fixed 4 year ++ "-"%char :: fixed 2 month ++ "-"%char :: fixed 2 day ++ "T"%char ::
  fixed 2 (clock / 3600) ++ ":"%char :: fixed 2 (clock / 60 mod 60) ++ ":"%char :: fixed 2 (clock mod 60) ++
  fraction (local mod Second) ++ zone_text zone.

Definition yearOf (t : time) : Z := fst (yearDay (t / Second / secondsPerDay)).

(** [appendStrictRFC3339]: only years of four digits and offsets of less
    than a day can be written. *)
Definition marshalTime (zone : Z) (t : time) : Result (list ascii) :=
  if (0 <=? yearOf (inZone zone t)) && (yearOf (inZone zone t) <=? 9999) then
    if Z.abs zone <? 1440 then Ok (formatRFC3339 zone t)
    else Err (Errorf "Time.MarshalJSON: timezone hour outside of range [0,23]" [])
  else Err (Errorf "Time.MarshalJSON: year outside of range [0,9999]" []).

(** [parseUint] of the first [n] bytes. *)
Definition parseUint (n : nat) (lo hi : Z) (l : list ascii) : option (Z * list ascii) :=
  if Nat.ltb (length l) n then None
  else match parse_digits 0 (take n l) with
       | Some v => if (lo <=? v) && (v <=? hi) then Some (v, drop n l) else None
       | None => None
       end.
Definition expect (c : ascii) (l : list ascii) : option (list ascii) :=
  match l with d :: t => if Ascii.eqb d c then Some t else None | [] => None end.

(** The fraction of the second: at most nine digits count. *)
Definition parseFraction (l : list ascii) : Z * list ascii :=
  match l with
  | c :: t =>
      if Ascii.eqb c "."%char then
        match span_digits t with
        | ([], _) => (0, l)
        | (ds, r) =>
            let ds := take 9 ds in
            (default 0 (parse_digits 0 ds) * 10 ^ (9 - Z.of_nat (length ds)), r)
        end
      else (0, l)
  | [] => (0, l)
  end.

(** The zone: its offset east of UTC in seconds. *)
Definition parseZone (l : list ascii) : option Z :=
  match l with
  | ["Z"%char] => Some 0
  | c :: t =>
      let sign := if Ascii.eqb c "+"%char then Some 1 else if Ascii.eqb c "-"%char then Some (-1) else None in
      sign ≫= fun sign => parseUint 2 0 23 t ≫= fun '(hr, t) => expect ":"%char t ≫= fun t =>
      parseUint 2 0 59 t ≫= fun '(mm, t) =>
      match t with [] => Some (sign * (hr * 3600 + mm * 60)) | _ => None end
  | [] => None
  end.

(** [parseRFC3339]; what the layout-driven parser accepts beyond it,
    [parseStrictRFC3339] rejects. *)
Definition parseRFC3339 (l : list ascii) : option time :=
  parseUint 4 0 9999 l ≫= fun '(year, l) => expect "-"%char l ≫= fun l =>
  parseUint 2 1 12 l ≫= fun '(month, l) => expect "-"%char l ≫= fun l =>
  parseUint 2 1 (daysIn month year) l ≫= fun '(day, l) => expect "T"%char l ≫= fun l =>
  parseUint 2 0 23 l ≫= fun '(hour, l) => expect ":"%char l ≫= fun l =>
  parseUint 2 0 59 l ≫= fun '(min, l) => expect ":"%char l ≫= fun l =>
  parseUint 2 0 59 l ≫= fun '(sec, l) =>
  let '(nsec, l) := parseFraction l in
  parseZone l ≫= fun offset =>
  Some ((dayOf year month day * secondsPerDay + hour * 3600 + min * 60 + sec - offset) * Second + nsec).

(** ** The calendar is a bijection *)

Lemma yearDay_spec d : let '(year, yday) := yearDay d in
  daysBeforeYear year + yday = d /\ 0 <= yday < 365 + (if isLeap year then 1 else 0).
Proof.
  unfold yearDay, daysPer400Years, daysPer100Years, daysPer4Years.
  set (n400 := d / 146097). set (r := d - 146097 * n400). assert (Hr : 0 <= r < 146097) by (subst r n400; Z.to_euclidean_division_equations; lia).
  set (n100 := r / 36524 - r / 36524 / 4). set (r1 := r - 36524 * n100).
  assert (H100 : 0 <= n100 <= 3 /\ 0 <= r1 /\ (r1 < 36524 \/ (n100 = 3 /\ r1 < 36525)))
    by (subst r1 n100; Z.to_euclidean_division_equations; lia).
  set (n4 := r1 / 1461). set (r4 := r1 - 1461 * n4).
  assert (H4 : 0 <= n4 <= 24 /\ 0 <= r4 < 1461 /\ (n4 < 24 \/ n100 = 3 \/ r4 < 1460))
    by (subst r4 n4; Z.to_euclidean_division_equations; lia).
  set (n1 := r4 / 365 - r4 / 365 / 4). set (yday := r4 - 365 * n1).
  assert (H1 : 0 <= n1 <= 3 /\ 0 <= yday /\ (yday < 365 \/ (n1 = 3 /\ yday < 366 /\ (yday = 365 -> r4 = 1460))))
    by (subst yday n1; Z.to_euclidean_division_equations; lia).
  assert (Hd : d = 146097 * n400 + 36524 * n100 + 1461 * n4 + 365 * n1 + yday) by lia.
  clearbody n400 r n100 r1 n4 r4 n1 yday. set (year := 400 * n400 + 100 * n100 + 4 * n4 + n1 + 1). split.
  - assert (E400 : (year - 1) / 400 = n400) by (subst year; Z.to_euclidean_division_equations; lia).
    unfold daysBeforeYear, daysPer400Years, daysPer100Years, daysPer4Years. rewrite E400.
    assert (E100 : (year - 1 - 400 * n400) / 100 = n100) by (subst year; Z.to_euclidean_division_equations; lia). rewrite E100.
    assert (E4 : (year - 1 - 400 * n400 - 100 * n100) / 4 = n4) by (subst year; Z.to_euclidean_division_equations; lia). rewrite E4.
    subst year. lia.
  - split; [lia|]. destruct (decide (yday < 365)) as [|Hlast]; [destruct (isLeap year); lia|].
    assert (isLeap year = true) as ->; [|lia]. unfold isLeap.
    assert (year mod 4 = 0) as -> by (subst year; Z.to_euclidean_division_equations; lia). cbn [Z.eqb andb].
    destruct (Z.eqb_spec (year mod 100) 0) as [E|]; [|done]. cbn [negb orb]. apply Z.eqb_eq.
    subst year. Z.to_euclidean_division_equations; lia.
Qed.

(** The months of both kinds of year, day by day. *)
Lemma monthDay_table : forallb (fun leap => forallb (fun yday =>
    let year := if leap : bool then 4 else 1 in
    let '(month, day) := monthDay year yday in
    (daysBefore (month - 1) + (if leap && (3 <=? month) then 1 else 0) + (day - 1) =? yday) &&
    (1 <=? month) && (month <=? 12) && (1 <=? day) && (day <=? daysIn month year) && (day <=? 31))
  (map Z.of_nat (seq 0 (if leap then 366 else 365)))) [true; false] = true.
Proof. vm_compute. reflexivity. Qed.

Lemma monthDay_spec year yday : 0 <= yday < 365 + (if isLeap year then 1 else 0) ->
  let '(month, day) := monthDay year yday in
  daysBefore (month - 1) + (if isLeap year && (3 <=? month) then 1 else 0) + (day - 1) = yday /\
  1 <= month <= 12 /\ 1 <= day <= daysIn month year /\ day <= 31.
Proof.
  intros Hy. pose proof monthDay_table as H. rewrite forallb_forall in H. specialize (H (isLeap year) ltac:(destruct (isLeap year); cbn; tauto)).
  rewrite forallb_forall in H. specialize (H yday). cbv zeta in H.
  assert (Em : monthDay (if isLeap year then 4 else 1) yday = monthDay year yday) by (unfold monthDay; by destruct (isLeap year)).
  assert (Ed : forall m, daysIn m (if isLeap year then 4 else 1) = daysIn m year) by (intros m; unfold daysIn; by destruct (isLeap year)).
  rewrite Em in H. destruct (monthDay year yday) as [month day]. rewrite Ed in H.
  assert (Hin : In yday (map Z.of_nat (seq 0 (if isLeap year then 366 else 365)))).
  { apply in_map_iff. exists (Z.to_nat yday). split; [lia|]. apply in_seq. destruct (isLeap year); lia. }
  specialize (H Hin). bools. lia.
Qed.

(** ** The text is read back *)

Lemma parseUint_fixed n lo hi z k : 0 <= z < 10 ^ Z.of_nat n -> lo <= z <= hi -> parseUint n lo hi (fixed n z ++ k) = Some (z, k).
Proof.
  intros Hz Hr. unfold parseUint. destruct (fixed_spec n z) as [Hl _]. rewrite length_app, Hl.
  destruct (Nat.ltb_spec (n + length k) n); [lia|]. rewrite take_app_length', drop_app_length' by done.
  rewrite parse_fixed by done. rewrite (proj2 (Z.leb_le lo z)), (proj2 (Z.leb_le z hi)) by lia. done.
Qed.

Lemma trim_zeros_spec l : exists k, l = trim_zeros l ++ replicate k "0"%char.
Proof.
  induction l as [|c l [k IH]]; [by exists 0%nat|]. cbn [trim_zeros]. destruct (trim_zeros l) as [|d t].
  - destruct (Ascii.eqb_spec c "0") as [->|_]; [exists (S k)|exists k]; cbn in *; by rewrite IH at 1.
  - exists k. cbn. by rewrite IH at 1.
Qed.

Lemma parseFraction_spec nanos k c : 0 <= nanos < Second -> is_digit c = false -> Ascii.eqb c "." = false ->
  parseFraction (fraction nanos ++ c :: k) = (nanos, c :: k).
Proof.
  intros Hn Hc Hdot. unfold fraction. destruct (fixed_spec 9 nanos) as [Hl Hd].
  destruct (trim_zeros_spec (fixed 9 nanos)) as [z Hz]. pose proof (parse_fixed 9 nanos Hn) as Hp.
  rewrite Hz in Hl, Hd, Hp. rewrite length_app, length_replicate in Hl. rewrite forallb_app in Hd.
  apply andb_true_iff in Hd as [Hd _]. rewrite parse_digits_app in Hp.
  destruct (trim_zeros (fixed 9 nanos)) as [|d ds].
  - cbn [parse_digits] in Hp. rewrite parse_zeros in Hp. injection Hp as <-. cbn [app parseFraction]. by rewrite Hdot.
  - destruct (parse_digits_Some 0 (d :: ds) Hd) as [v Hv]. rewrite Hv, parse_zeros in Hp. injection Hp as <-.
    cbn [app parseFraction]. change (Ascii.eqb "." ".") with true. cbn iota.
    change (d :: ds ++ c :: k) with ((d :: ds) ++ c :: k). rewrite span_digits_all by (done || cbn; by rewrite Hc).
    rewrite take_ge by lia. rewrite Hv. cbn [default from_option id]. do 2 f_equal. f_equal. lia.
Qed.

Lemma expect_here c l : expect c (c :: l) = Some l.
Proof. cbn. by rewrite Ascii.eqb_refl. Qed.

Ltac read_field :=
  rewrite parseUint_fixed by (cbn; Z.to_euclidean_division_equations; lia);
  cbn [mbind option_bind]; rewrite ?expect_here; cbn [mbind option_bind].

(** An instant that can be written in its zone. *)
Definition writable (zone : Z) (t : time) : Prop := 0 <= yearOf (inZone zone t) <= 9999 /\ Z.abs zone < 1440.

Lemma parseZone_text zone : Z.abs zone < 1440 -> parseZone (zone_text zone) = Some (zone * 60).
Proof.
  intros Hz. unfold zone_text. destruct (Z.eqb_spec zone 0) as [->|Hne]; [done|].
  set (h := Z.abs zone / 60). set (m := Z.abs zone mod 60).
  assert (Hh : 0 <= h <= 23 /\ 0 <= m <= 59 /\ Z.abs zone = h * 60 + m) by (subst h m; Z.to_euclidean_division_equations; lia).
  clearbody h m. rewrite <- (app_nil_r (fixed 2 m)).
  destruct (Z.ltb_spec zone 0); cbn [parseZone]; cbn [mbind option_bind]; repeat read_field; cbn; f_equal; lia.
Qed.

Lemma zone_text_head zone : exists c k, zone_text zone = c :: k /\ is_digit c = false /\ Ascii.eqb c "." = false.
Proof. unfold zone_text. destruct (zone =? 0); [by do 2 eexists|]. destruct (zone <? 0); by do 2 eexists. Qed.

(** The text of an instant is read back as that instant. *)
Lemma parse_formatRFC3339 zone t : writable zone t -> parseRFC3339 (formatRFC3339 zone t) = Some t.
Proof.
  intros [Hyear Hzone]. unfold yearOf, formatRFC3339 in *. set (local := inZone zone t) in *. set (sec := local / Second) in *.
  pose proof (yearDay_spec (sec / secondsPerDay)) as Hy.
  destruct (yearDay (sec / secondsPerDay)) as [year yday]. cbn [fst] in Hyear. destruct Hy as [Hday Hyd].
  pose proof (monthDay_spec year yday Hyd) as Hm. destruct (monthDay year yday) as [month day].
  destruct Hm as (Hyday & Hmonth & Hdom & H31).
  set (clock := sec mod secondsPerDay). assert (Hc : 0 <= clock < 86400) by (apply Z.mod_pos_bound; done).
  unfold parseRFC3339. repeat read_field. pose proof (parseZone_text zone Hzone) as Hz.
  destruct (zone_text_head zone) as (c & k & Ez & Hd & Hdot). rewrite Ez in Hz |- *.
  rewrite parseFraction_spec by (done || (apply Z.mod_pos_bound; done)). rewrite Hz. cbn [mbind option_bind]. f_equal.
  assert (Hdo : dayOf year month day = sec / secondsPerDay) by (unfold dayOf; lia). rewrite Hdo.
  assert (sec / secondsPerDay * secondsPerDay + clock / 3600 * 3600 + clock / 60 mod 60 * 60 + clock mod 60 - zone * 60 = sec - zone * 60) as ->.
  { subst clock. unfold secondsPerDay. Z.to_euclidean_division_equations; lia. }
  subst sec local. unfold inZone, Minute, Second. Z.to_euclidean_division_equations; lia.
Qed.

Lemma trim_zeros_length l : (length (trim_zeros l) <= length l)%nat.
Proof. destruct (trim_zeros_spec l) as [k E]. rewrite E at 2. rewrite length_app. lia. Qed.

Lemma formatRFC3339_length zone t : (length (formatRFC3339 zone t) <= 35)%nat.
Proof.
  unfold formatRFC3339. destruct (yearDay _) as [year yday], (monthDay year yday) as [month day].
  assert (Hf : forall n, (length (fraction n) <= 10)%nat).
  { intros n. unfold fraction. pose proof (trim_zeros_length (fixed 9 n)) as H. rewrite (proj1 (fixed_spec 9 n)) in H.
    destruct (trim_zeros _); cbn [length] in *; lia. }
  assert (Hz : (length (zone_text zone) <= 6)%nat).
  { unfold zone_text. destruct (zone =? 0); [cbn; lia|]. cbn [length]. rewrite length_app. cbn [length].
    rewrite !(proj1 (fixed_spec _ _)). lia. }
  repeat (rewrite length_app || rewrite (proj1 (fixed_spec _ _)) || cbn [length]).
  specialize (Hf (inZone zone t mod Second)). lia.
Qed.

Example formatRFC3339_ex : string_of (formatRFC3339 0 (63900000000 * Second + 120000000)) = "2025-11-29T08:00:00.12Z"%string /\
  string_of (formatRFC3339 420 (63900000000 * Second)) = "2025-11-29T15:00:00+07:00"%string /\
  parseRFC3339 (bytes_of "2024-02-29T23:59:60Z") = None /\
  parseRFC3339 (bytes_of "2024-02-29T23:59:59.5+01:30") = Some (63844842599 * Second + 500000000).
Proof. vm_compute. done. Qed.
