(* ===== verification/AgentConfig.v ===== *)
(** The agent's configuration: [agent/internal/config/config.go] and
    [validation.go].  The environment is a function from variable names to
    values, the empty string for an unset variable, as [os.Getenv]. *)
From S2P Require Import Prelude GoStrings GoTime GoParse.

#[local] Open Scope Z_scope.

Abbreviation Environ := (string -> string) (only parsing).

Record Config := {
  BackendURL : string; MockMode : bool; HeartbeatInterval : duration; FlowInterval : duration;
  HTTPTimeout : duration; BPFObject : string; CaptureMode : string; CaptureInterface : string;
  ConnectivityProbeEnabled : bool; ConnectivityProbeInterval : duration; ConnectivityProbeTimeout : duration;
  ConnectivityProbeListenAddr : string; AgentID : string; Hostname : string; MachineID : string;
  TenantID : string; PrivateIPs : list string; PublicIP : string; MACAddresses : list string;
  IgnoreIPs : list string; IgnorePorts : list Z; AllowCIDRs : list string; DenyCIDRs : list string;
  FlowDebug : bool; Environment : string; AgentVersion : string
}.

(** [os.Getenv(key)] trimmed, or the fallback when nothing is left. *)
Definition env (getenv : Environ) (key fallback : string) : string :=
  let value := TrimSpace (getenv key) in
  if (value =? "")%string then fallback else value.

(** The trimmed, non-empty parts of a comma-separated list. *)
Definition parts_of (raw : string) : list string :=
  omap (fun part => let value := TrimSpace part in if (value =? "")%string then None else Some value)
    (Split "," raw).

Definition csv (raw : string) : list string :=
  if (TrimSpace raw =? "")%string then [] else parts_of raw.

(** Parts that are not integers are skipped. *)
Definition intCSV (raw : string) : list Z :=
  omap (fun part =>
          let value := TrimSpace part in
          if (value =? "")%string then None else Atoi value)
    (Split "," raw).

Definition parseBool (getenv : Environ) (key fallback : string) : Result bool :=
  let raw := env getenv key fallback in
  match ParseBool raw with
  | Some b => Ok b
  | None => Err (ErrorfW ("parse " +:+ key +:+ ": %w") [] (LibErr "strconv.ParseBool" raw))
  end.

Definition parseInterval (getenv : Environ) (key fallback : string) : Result duration :=
  match ParseDuration (env getenv key fallback) with
  | Ok d => Ok d
  | Err e => Err (ErrorfW ("parse " +:+ key +:+ ": %w") [] e)
  end.

(** [Version] is stamped into the binary when it is linked. *)
Definition Load (Version : string) (getenv : Environ) : Result Config :=
  mockMode <-- parseBool getenv "MOCK_MODE" "false" ;;
  heartbeat <-- parseInterval getenv "HEARTBEAT_INTERVAL" "20s" ;;
  flowInterval <-- parseInterval getenv "FLOW_INTERVAL" "2s" ;;
  httpTimeout <-- parseInterval getenv "HTTP_TIMEOUT" "10s" ;;
  probeEnabled <-- parseBool getenv "CONNECTIVITY_PROBE_ENABLED" "true" ;;
  probeInterval <-- parseInterval getenv "CONNECTIVITY_PROBE_INTERVAL" "5s" ;;
  probeTimeout <-- parseInterval getenv "CONNECTIVITY_PROBE_TIMEOUT" "1s" ;;
  flowDebug <-- parseBool getenv "FLOW_DEBUG" "false" ;;
  Ok {| BackendURL := env getenv "BACKEND_URL" "http://localhost:8080"; MockMode := mockMode;
        HeartbeatInterval := heartbeat; FlowInterval := flowInterval; HTTPTimeout := httpTimeout;
        BPFObject := env getenv "BPF_OBJECT" "./ebpf/flow_tracker.bpf.o";
        CaptureMode := env getenv "CAPTURE_MODE" "tc";
        CaptureInterface := env getenv "CAPTURE_INTERFACE" "ens3";
        ConnectivityProbeEnabled := probeEnabled;
        ConnectivityProbeInterval := probeInterval;
        ConnectivityProbeTimeout := probeTimeout;
        ConnectivityProbeListenAddr := env getenv "CONNECTIVITY_PROBE_LISTEN_ADDR" "0.0.0.0:18081";
        AgentID := getenv "AGENT_ID";
        Hostname := getenv "AGENT_HOSTNAME"; MachineID := getenv "MACHINE_ID";
        TenantID := getenv "TENANT_ID"; PrivateIPs := csv (getenv "AGENT_PRIVATE_IPS");
        PublicIP := getenv "AGENT_PUBLIC_IP"; MACAddresses := csv (getenv "AGENT_MAC_ADDRESSES");
        IgnoreIPs := csv (getenv "IGNORE_IPS");
        IgnorePorts := intCSV (env getenv "IGNORE_PORTS" "18080,18081,18082,30033,30035");
        AllowCIDRs := csv (getenv "FLOW_ALLOW_CIDRS");
        DenyCIDRs := csv (getenv "FLOW_DENY_CIDRS");
        FlowDebug := flowDebug;
        Environment := env getenv "AGENT_ENVIRONMENT" "local"; AgentVersion := env getenv "AGENT_VERSION" Version |}.

Definition Validate (cfg : Config) : Result unit :=
  guard_err (BackendURL cfg =? "")%string as (Errorf "BACKEND_URL is required" []) ;;
  guard_err (negb (MockMode cfg) && (BPFObject cfg =? "")%string)
    as (Errorf "BPF_OBJECT is required when MOCK_MODE=false" []) ;;
  guard_err (FlowInterval cfg <=? 0) as (Errorf "FLOW_INTERVAL must be positive" []) ;;
  guard_err (HTTPTimeout cfg <=? 0) as (Errorf "HTTP_TIMEOUT must be positive" []) ;;
  Ok tt.

(** ** Facts *)

(** A value without surrounding white space that is not empty. *)
Definition clean (s : string) : Prop := s <> "" /\ TrimSpace s = s.

Lemma env_clean getenv key fallback : clean fallback -> clean (env getenv key fallback).
Proof.
  intros Hf. unfold env. cbv zeta. destruct (String.eqb_spec (TrimSpace (getenv key)) ""); [done|].
  split; [done|apply TrimSpace_idemp].
Qed.

Lemma env_unset getenv key fallback : getenv key = "" -> env getenv key fallback = fallback.
Proof. unfold env. by intros ->. Qed.

Lemma parts_of_clean raw : Forall clean (parts_of raw).
Proof.
  apply Forall_forall. intros v (part & _ & E)%list_elem_of_omap.
  cbv zeta in E. destruct (String.eqb_spec (TrimSpace part) ""); [done|]. injection E as <-.
  split; [done|apply TrimSpace_idemp].
Qed.

Lemma csv_clean raw : Forall clean (csv raw).
Proof. unfold csv. destruct (_ =? _)%string; [constructor|apply parts_of_clean]. Qed.

Lemma intCSV_range raw : Forall in_i64 (intCSV raw).
Proof.
  apply Forall_forall. intros v (part & _ & E)%list_elem_of_omap.
  cbv zeta in E. destruct (_ =? _)%string; [done|]. by eapply Atoi_range.
Qed.

Lemma parseInterval_range getenv key fallback d : parseInterval getenv key fallback = Ok d -> in_i64 d.
Proof.
  unfold parseInterval. destruct (ParseDuration _) as [d'|] eqn:E; [|done]. intros [= <-].
  by eapply ParseDuration_range.
Qed.

(** What a loaded configuration is made of. *)
Record config_ok (cfg : Config) : Prop := {
  ok_strings : Forall clean [BackendURL cfg; BPFObject cfg; CaptureMode cfg; CaptureInterface cfg;
                             ConnectivityProbeListenAddr cfg; Environment cfg];
  ok_lists : Forall (Forall clean) [PrivateIPs cfg; MACAddresses cfg; IgnoreIPs cfg; AllowCIDRs cfg; DenyCIDRs cfg];
  ok_durations : Forall in_i64 [HeartbeatInterval cfg; FlowInterval cfg; HTTPTimeout cfg;
                                ConnectivityProbeInterval cfg; ConnectivityProbeTimeout cfg];
  ok_ports : Forall in_i64 (IgnorePorts cfg)
}.

Lemma Load_ok Version getenv cfg : Load Version getenv = Ok cfg -> config_ok cfg.
Proof.
  unfold Load. intros (mock & _ & E)%rbind_Ok.
  apply rbind_Ok in E as (hb & Hhb%parseInterval_range & E). apply rbind_Ok in E as (fl & Hfl%parseInterval_range & E).
  apply rbind_Ok in E as (ht & Hht%parseInterval_range & E). apply rbind_Ok in E as (pe & _ & E).
  apply rbind_Ok in E as (pi & Hpi%parseInterval_range & E). apply rbind_Ok in E as (pt & Hpt%parseInterval_range & E).
  apply rbind_Ok in E as (fd & _ & [= <-]). split; cbn -[env csv intCSV in_i64].
  - rewrite !Forall_cons, Forall_nil. split_and!; try (apply env_clean; split; [done|vm_compute; reflexivity]); done.
  - rewrite !Forall_cons, Forall_nil. split_and!; try apply csv_clean; done.
  - by rewrite !Forall_cons, Forall_nil.
  - apply intCSV_range.
Qed.

(** A configuration that loads passes [Validate] exactly when the two
    intervals it looks at are positive. *)
Lemma Validate_loaded Version getenv cfg : Load Version getenv = Ok cfg ->
  Validate cfg = Ok tt <-> 0 < FlowInterval cfg /\ 0 < HTTPTimeout cfg.
Proof.
  intros [Hs _ _ _]%Load_ok. apply Forall_cons in Hs as [[Hb _] Hs]. apply Forall_cons in Hs as [[Ho _] _].
  unfold Validate. rewrite (proj2 (String.eqb_neq _ _) Hb), (proj2 (String.eqb_neq _ _) Ho), andb_false_r.
  destruct (Z.leb_spec (FlowInterval cfg) 0), (Z.leb_spec (HTTPTimeout cfg) 0); split; try done; lia.
Qed.

(** The configuration with no variable set. *)
Definition default_config (Version : string) : Config :=
  {| BackendURL := "http://localhost:8080"; MockMode := false; HeartbeatInterval := 20 * Second;
     FlowInterval := 2 * Second; HTTPTimeout := 10 * Second; BPFObject := "./ebpf/flow_tracker.bpf.o";
     CaptureMode := "tc"; CaptureInterface := "ens3"; ConnectivityProbeEnabled := true;
     ConnectivityProbeInterval := 5 * Second; ConnectivityProbeTimeout := Second;
     ConnectivityProbeListenAddr := "0.0.0.0:18081"; AgentID := ""; Hostname := ""; MachineID := "";
     TenantID := ""; PrivateIPs := []; PublicIP := ""; MACAddresses := []; IgnoreIPs := [];
     IgnorePorts := [18080; 18081; 18082; 30033; 30035]; AllowCIDRs := []; DenyCIDRs := []; FlowDebug := false;
     Environment := "local"; AgentVersion := Version |}.

Lemma Load_default Version : Load Version (fun _ => "") = Ok (default_config Version).
Proof. reflexivity. Qed.
