(* ===== verification/Reducers.v ===== *)
(** The agent's metric reducers: [agent/internal/features].

    One module per Go package.  A reducer [Apply] folds one event into the
    state of its metric; a Go method on a pointer is a function from the old
    value to the new one (the nil-pointer guard of each reducer concerns a
    missing target and has no counterpart).  [uint64] counters wrap. *)
From Stdlib Require Import QArith Lqa.
From S2P Require Import Prelude GoFloat GoTime.

#[local] Open Scope Z_scope.

(** ** classification *)
Module Classification.

Definition ProtocolTCP : string := "tcp".
Definition ProtocolUDP : string := "udp".
Definition ProtocolICMP : string := "icmp".
Definition NetworkIPv4 : string := "ipv4".
Definition NetworkIPv6 : string := "ipv6".

Record Model := { Network : string; Transport : string; Application : string }.

#[global] Instance Model_eq_dec : EqDecision Model.
Proof. solve_decision. Defined.

Definition NetworkFromFamily (family : Z) : string :=
  if family =? 2 then NetworkIPv4
  else if family =? 10 then NetworkIPv6
  else "".

Definition ApplicationFromPort (protocol : string) (dstPort : Z) : string :=
  if (protocol =? ProtocolTCP)%string && (dstPort =? 80) then "http"
  else if (protocol =? ProtocolTCP)%string && (dstPort =? 443) then "https"
  else if (protocol =? ProtocolTCP)%string && (dstPort =? 22) then "ssh"
  else if (protocol =? ProtocolTCP)%string && (dstPort =? 5432) then "postgresql"
  else if dstPort =? 53 then "dns"
  else "".

Definition NormalizePorts (protocol : string) (srcPort dstPort : Z) : Z * Z :=
  if (protocol =? ProtocolICMP)%string then (0, 0) else (srcPort, dstPort).

End Classification.

(** ** traffic/direction *)
Module Direction.

Definition Ingress : string := "ingress".
Definition Egress : string := "egress".

Record Model := { Current : string }.

Definition FromKernel (value : Z) : string := if value =? 1 then Ingress else Egress.

End Direction.

(** ** traffic/bytes *)
Module Bytes.

Record Model := { Sent : Z; Received : Z }.
Definition zero : Model := {| Sent := 0; Received := 0 |}.

Definition Apply (model : Model) (flowDirection : string) (byteCount : Z) : Model :=
  if byteCount =? 0 then model
  else if (flowDirection =? Direction.Ingress)%string
  then {| Sent := Sent model; Received := u64 (Received model + byteCount) |}
  else {| Sent := u64 (Sent model + byteCount); Received := Received model |}.

End Bytes.

(** ** traffic/packets *)
Module Packets.

Record Model := { Count : Z }.

Definition Apply (model : Model) (count : Z) : Model := {| Count := u64 (Count model + count) |}.

End Packets.

(** ** protocols/transport/tcp/retrans *)
Module Retrans.

Record Model := { Count : Z }.

Definition Apply (model : Model) (count : Z) : Model := {| Count := u64 (Count model + count) |}.

End Retrans.

(** ** protocols/transport/tcp/connection *)
Module Connection.

Record Model := { OpenCount : Z; ErrorCount : Z; RequestHint : Z }.
Definition zero : Model := {| OpenCount := 0; ErrorCount := 0; RequestHint := 0 |}.

Record Event := {
  Protocol : string; FlowDirection : string; EvBytes : Z;
  Connections : Z; Requests : Z; Errors : Z
}.

Definition InferRequestCount (protocol flowDirection : string) (bytes connections errorCount : Z) : Z :=
  if 0 <? errorCount then 0
  else if 0 <? connections then connections
  else if bytes <=? 0 then 0
  else if negb (protocol =? Classification.ProtocolUDP)%string
          && negb (protocol =? Classification.ProtocolICMP)%string then 0
  else if (flowDirection =? Direction.Ingress)%string
          || (flowDirection =? Direction.Egress)%string then 1
  else 0.

(** The number of requests [Apply] books for an event: the explicit count,
    or the inferred one when the collector left it 0. *)
Definition requests_of (event : Event) : Z :=
  if Requests event =? 0
  then InferRequestCount (Protocol event) (FlowDirection event) (EvBytes event)
         (Connections event) (Errors event)
  else Requests event.

Definition Apply (model : Model) (event : Event) : Model :=
  let model :=
    if 0 <? Connections event
    then {| OpenCount := u64 (OpenCount model + Connections event);
            ErrorCount := ErrorCount model; RequestHint := RequestHint model |}
    else model in
  let model :=
    if 0 <? Errors event
    then {| OpenCount := OpenCount model;
            ErrorCount := u64 (ErrorCount model + Errors event);
            RequestHint := RequestHint model |}
    else model in
  let requests := requests_of event in
  if 0 <? requests
  then {| OpenCount := OpenCount model; ErrorCount := ErrorCount model;
          RequestHint := u64 (RequestHint model + u64 requests) |}
  else model.

End Connection.

(** ** protocols/transport/tcp/rtt *)
Module Rtt.

Record Model (F : Type) := {
  CurrentMs : F; MinMs : F; MaxMs : F; AvgMs : F; Samples : Z
}.
Arguments CurrentMs {F} _.
Arguments MinMs {F} _.
Arguments MaxMs {F} _.
Arguments AvgMs {F} _.
Arguments Samples {F} _.

Section rtt.
Context {F : Type} `{Float64 F}.

Definition zero : Model F :=
  {| CurrentMs := f_of_Z 0; MinMs := f_of_Z 0; MaxMs := f_of_Z 0; AvgMs := f_of_Z 0; Samples := 0 |}.

Definition Apply (model : Model F) (valueMs : F) : Model F :=
  if f_leb valueMs (f_of_Z 0) then model
  else
    let minMs := if (Samples model =? 0) || f_ltb valueMs (MinMs model) then valueMs else MinMs model in
    let maxMs := if f_ltb (MaxMs model) valueMs then valueMs else MaxMs model in
    let samples := u64 (Samples model + 1) in
    {| CurrentMs := valueMs; MinMs := minMs; MaxMs := maxMs;
       AvgMs := f_add (AvgMs model) (f_div (f_sub valueMs (AvgMs model)) (f_of_Z samples));
       Samples := samples |}.

(** [mergeRTT] of [flow/store.go]: folding a drained bucket back. *)
Definition mergeRTT (current next : Model F) : Model F :=
  if Samples next =? 0 then current
  else if Samples current =? 0 then next
  else
    let total := u64 (Samples current + Samples next) in
    {| CurrentMs := CurrentMs next;
       MinMs := if f_eqb (MinMs current) (f_of_Z 0)
                   || (f_ltb (f_of_Z 0) (MinMs next) && f_ltb (MinMs next) (MinMs current))
                then MinMs next else MinMs current;
       MaxMs := if f_ltb (MaxMs current) (MaxMs next) then MaxMs next else MaxMs current;
       AvgMs := f_div (f_add (f_mul (AvgMs current) (f_of_Z (Samples current)))
                         (f_mul (AvgMs next) (f_of_Z (Samples next))))
                  (f_of_Z total);
       Samples := total |}.

End rtt.
End Rtt.

(** ** protocols/application/http *)
Module Http.

Record StatusCounters := {
  Informational : Z; Success : Z; Redirect : Z; ClientError : Z; ServerError : Z; Last : Z
}.
Definition zero : StatusCounters :=
  {| Informational := 0; Success := 0; Redirect := 0; ClientError := 0; ServerError := 0; Last := 0 |}.

Definition Total (c : StatusCounters) : Z :=
  u64 (Informational c + Success c + Redirect c + ClientError c + ServerError c).

Definition ApplyStatus (c : StatusCounters) (status : Z) : StatusCounters :=
  if (status <? 100) || (599 <? status) then c
  else
    let '(Build_StatusCounters i s r ce se _) := c in
    match Z.quot status 100 with
    | 1 => Build_StatusCounters (u64 (i + 1)) s r ce se status
    | 2 => Build_StatusCounters i (u64 (s + 1)) r ce se status
    | 3 => Build_StatusCounters i s (u64 (r + 1)) ce se status
    | 4 => Build_StatusCounters i s r (u64 (ce + 1)) se status
    | 5 => Build_StatusCounters i s r ce (u64 (se + 1)) status
    | _ => c
    end.

Definition MergeStatus (current next : StatusCounters) : StatusCounters :=
  {| Informational := u64 (Informational current + Informational next);
     Success := u64 (Success current + Success next);
     Redirect := u64 (Redirect current + Redirect next);
     ClientError := u64 (ClientError current + ClientError next);
     ServerError := u64 (ServerError current + ServerError next);
     Last := if negb (Last next =? 0) then Last next else Last current |}.

End Http.

(** * Facts about the reducers *)

(** ** Round-trip times

    [run l] is the bucket after the samples [l], [positive_of l] the samples
    that count.  [fmin] and [fmax] keep their first argument on ties. *)
Module RttFacts.
Section rtt_facts.
Context {F : Type} `{Float64Order F}.

Definition run (l : list F) : Rtt.Model F := foldl Rtt.Apply Rtt.zero l.
Definition positive (v : F) : bool := negb (f_leb v (f_of_Z 0)).
Definition positive_of (l : list F) : list F := List.filter positive l.
Definition fmin (a b : F) : F := if f_ltb b a then b else a.
Definition fmax (a b : F) : F := if f_ltb a b then b else a.

(** Samples are numbers: no NaN. *)
Definition numbers (l : list F) : Prop := Forall (fun v => f_eqb v v = true) l.

Lemma positive_ltb v : f_eqb v v = true -> positive v = true -> f_ltb (f_of_Z 0) v = true.
Proof.
  unfold positive. intros Hv Hp%negb_true_iff.
  destruct (f_ltb (f_of_Z 0) v) eqn:E; [done|].
  apply f_ltb_total in E; [congruence|apply f_zero_self|done].
Qed.

Lemma numbers_positive l : numbers l -> numbers (positive_of l).
Proof. unfold numbers, positive_of. rewrite !Forall_forall. intros Hl x. rewrite !list_elem_of_In, filter_In, <- list_elem_of_In. naive_solver. Qed.

Lemma positive_of_app l1 l2 : positive_of (l1 ++ l2) = positive_of l1 ++ positive_of l2.
Proof. apply List.filter_app. Qed.

Lemma run_snoc l v : run (l ++ [v]) = Rtt.Apply (run l) v.
Proof. unfold run. by rewrite foldl_app. Qed.

(** The bucket is a function of the positive samples only. *)
Lemma run_spec l :
  numbers l -> Z.of_nat (length l) < 2 ^ 64 ->
  match positive_of l with
  | [] => run l = Rtt.zero
  | v :: q =>
      Rtt.CurrentMs (run l) = List.last q v /\
      Rtt.MinMs (run l) = foldl fmin v q /\
      Rtt.MaxMs (run l) = foldl fmax v q /\
      Rtt.Samples (run l) = Z.of_nat (length (v :: q))
  end.
Proof.
  induction l as [|x l IH] using rev_ind; intros Hn Hlen; [done|].
  apply Forall_app in Hn as [Hn [Hx _]%Forall_cons].
  rewrite length_app in Hlen. simpl in Hlen.
  specialize (IH Hn ltac:(lia)). rewrite positive_of_app, run_snoc.
  unfold positive_of at 2. simpl. unfold Rtt.Apply.
  destruct (positive x) eqn:Ep.
  2:{ unfold positive in Ep. apply negb_false_iff in Ep. rewrite Ep, app_nil_r. done. }
  assert (Ep' := Ep). unfold positive in Ep. apply negb_true_iff in Ep. rewrite Ep.
  destruct (positive_of l) as [|v q] eqn:El; simpl.
  - rewrite IH. simpl. rewrite positive_ltb by done. done.
  - destruct IH as (_ & Hmin & Hmax & Hs).
    assert (length (v :: q) <= length l)%nat
      by (rewrite <- El; apply List.filter_length_le).
    rewrite Hs, !foldl_app, Hmin, Hmax. cbn [length foldl].
    rewrite List.last_last. rewrite (proj2 (Z.eqb_neq _ 0)) by lia. simpl.
    rewrite length_app, u64_small by (simpl in *; unfold in_u64; lia).
    simpl. repeat split; lia.
Qed.

Lemma fmin_assoc a b c :
  f_eqb a a = true -> f_eqb b b = true -> f_eqb c c = true ->
  fmin a (fmin b c) = fmin (fmin a b) c.
Proof.
  intros Ha Hb Hc. unfold fmin.
  destruct (f_ltb c b) eqn:E1, (f_ltb b a) eqn:E2; rewrite ?E1, ?E2; try done.
  - by rewrite (f_ltb_trans _ _ _ E1 E2).
  - apply f_ltb_total in E1, E2; [|done..].
    by rewrite (f_leb_not_ltb _ _ (f_leb_trans _ _ _ E2 E1)).
Qed.

Lemma fmax_assoc a b c :
  f_eqb a a = true -> f_eqb b b = true -> f_eqb c c = true ->
  fmax a (fmax b c) = fmax (fmax a b) c.
Proof.
  intros Ha Hb Hc. unfold fmax.
  destruct (f_ltb b c) eqn:E1, (f_ltb a b) eqn:E2; rewrite ?E1, ?E2; try done.
  - by rewrite (f_ltb_trans _ _ _ E2 E1).
  - apply f_ltb_total in E1, E2; [|done..].
    by rewrite (f_leb_not_ltb _ _ (f_leb_trans _ _ _ E1 E2)).
Qed.

Lemma fold_self (op : F -> F -> F) v q :
  (forall a b, op a b = a \/ op a b = b) ->
  f_eqb v v = true -> numbers q -> f_eqb (foldl op v q) (foldl op v q) = true.
Proof.
  intros Hop. revert v. induction q as [|x q IH]; intros v Hv Hq; [done|].
  apply Forall_cons in Hq as [Hx Hq]. simpl. apply IH; [|done].
  by destruct (Hop v x) as [-> | ->].
Qed.

Lemma fmin_sel a b : fmin a b = a \/ fmin a b = b.
Proof. unfold fmin. destruct (f_ltb b a); auto. Qed.

Lemma fmax_sel a b : fmax a b = a \/ fmax a b = b.
Proof. unfold fmax. destruct (f_ltb a b); auto. Qed.

Lemma fold_assoc (op : F -> F -> F) a v q :
  (forall a b, op a b = a \/ op a b = b) ->
  (forall a b c, f_eqb a a = true -> f_eqb b b = true -> f_eqb c c = true ->
     op a (op b c) = op (op a b) c) ->
  f_eqb a a = true -> f_eqb v v = true -> numbers q ->
  op a (foldl op v q) = foldl op (op a v) q.
Proof.
  intros Hsel Hassoc Ha Hv. induction q as [|x q IH] using rev_ind; intros Hq; [done|].
  apply Forall_app in Hq as [Hq [Hx _]%Forall_cons].
  rewrite !foldl_app. simpl. rewrite Hassoc, IH; try done. by apply fold_self.
Qed.

Lemma fold_elem (op : F -> F -> F) v q :
  (forall a b, op a b = a \/ op a b = b) -> foldl op v q ∈ v :: q.
Proof.
  intros Hop. revert v. induction q as [|x q IH]; intros v; [set_solver|].
  simpl. specialize (IH (op v x)). destruct (Hop v x) as [E | E]; rewrite E in *; set_solver.
Qed.

Lemma fmin_lower v q x :
  f_eqb v v = true -> numbers q -> x ∈ v :: q -> f_leb (foldl fmin v q) x = true.
Proof.
  revert v x. induction q as [|y q IH]; intros v x Hv Hq Hx.
  - apply list_elem_of_singleton in Hx as ->. by apply f_leb_refl.
  - apply Forall_cons in Hq as [Hy Hq]. simpl.
    assert (Hm : f_eqb (fmin v y) (fmin v y) = true) by (destruct (fmin_sel v y) as [-> | ->]; done).
    assert (Hle : f_leb (foldl fmin (fmin v y) q) (fmin v y) = true)
      by (apply IH; [done|done|set_solver]).
    apply elem_of_cons in Hx as [->|[->|Hx]%elem_of_cons].
    + apply (f_leb_trans _ _ _ Hle). unfold fmin.
      destruct (f_ltb y v) eqn:E; [by apply f_ltb_leb|by apply f_leb_refl].
    + apply (f_leb_trans _ _ _ Hle). unfold fmin.
      destruct (f_ltb y v) eqn:E; [by apply f_leb_refl|by apply f_ltb_total].
    + apply IH; [done|done|set_solver].
Qed.

Lemma fmax_upper v q x :
  f_eqb v v = true -> numbers q -> x ∈ v :: q -> f_leb x (foldl fmax v q) = true.
Proof.
  revert v x. induction q as [|y q IH]; intros v x Hv Hq Hx.
  - apply list_elem_of_singleton in Hx as ->. by apply f_leb_refl.
  - apply Forall_cons in Hq as [Hy Hq]. simpl.
    assert (Hm : f_eqb (fmax v y) (fmax v y) = true) by (destruct (fmax_sel v y) as [-> | ->]; done).
    assert (Hle : f_leb (fmax v y) (foldl fmax (fmax v y) q) = true)
      by (apply IH; [done|done|set_solver]).
    apply elem_of_cons in Hx as [->|[->|Hx]%elem_of_cons].
    + refine (f_leb_trans _ _ _ _ Hle). unfold fmax.
      destruct (f_ltb v y) eqn:E; [by apply f_ltb_leb|by apply f_leb_refl].
    + refine (f_leb_trans _ _ _ _ Hle). unfold fmax.
      destruct (f_ltb v y) eqn:E; [by apply f_leb_refl|by apply f_ltb_total].
    + apply IH; [done|done|set_solver].
Qed.

Lemma last_default {A} (q : list A) v : Some (List.last q v) = last (v :: q).
Proof.
  induction q as [|x q _] using rev_ind; [done|].
  by rewrite List.last_last, app_comm_cons, last_snoc.
Qed.

(** The RTT bucket tracks the extremes: after any numeric samples of
    which at least one is positive, [MinMs] and [MaxMs] are attained by
    positive samples and bound all of them, [CurrentMs] is the last positive
    sample and [Samples] counts them. *)
Theorem rtt_extremes (l : list F) :
  numbers l -> Z.of_nat (length l) < 2 ^ 64 -> positive_of l <> [] ->
  let m := run l in
  Rtt.MinMs m ∈ positive_of l /\ Rtt.MaxMs m ∈ positive_of l /\
  (forall v, v ∈ positive_of l ->
     f_leb (Rtt.MinMs m) v = true /\ f_leb v (Rtt.MaxMs m) = true) /\
  Some (Rtt.CurrentMs m) = last (positive_of l) /\
  Rtt.Samples m = Z.of_nat (length (positive_of l)).
Proof.
  intros Hn Hlen Hne m. subst m. pose proof (run_spec l Hn Hlen) as Hs.
  apply numbers_positive in Hn. destruct (positive_of l) as [|v q]; [done|].
  apply Forall_cons in Hn as [Hv Hq]. destruct Hs as (-> & -> & -> & ->).
  split_and!.
  - apply fold_elem, fmin_sel.
  - apply fold_elem, fmax_sel.
  - intros x Hx. split; [by apply fmin_lower|by apply fmax_upper].
  - apply last_default.
  - done.
Qed.

Lemma fold_append (op : F -> F -> F) v p w q :
  (forall a b, op a b = a \/ op a b = b) ->
  (forall a b c, f_eqb a a = true -> f_eqb b b = true -> f_eqb c c = true ->
     op a (op b c) = op (op a b) c) ->
  numbers (v :: p) -> numbers (w :: q) ->
  foldl op v (p ++ w :: q) = op (foldl op v p) (foldl op w q).
Proof.
  intros Hsel Ha [Hv Hp]%Forall_cons [Hw Hq]%Forall_cons.
  rewrite foldl_app. simpl. rewrite fold_assoc; [done|done|done| |done|done]. by apply fold_self.
Qed.

(** Merging two buckets has the closed form of one bucket fed with all
    samples. *)
Lemma merge_run_spec (l1 l2 : list F) :
  numbers l1 -> numbers l2 -> Z.of_nat (length (l1 ++ l2)) < 2 ^ 64 ->
  let m := Rtt.mergeRTT (run l1) (run l2) in
  match positive_of (l1 ++ l2) with
  | [] => m = Rtt.zero
  | v :: q =>
      Rtt.CurrentMs m = List.last q v /\ Rtt.MinMs m = foldl fmin v q /\
      Rtt.MaxMs m = foldl fmax v q /\ Rtt.Samples m = Z.of_nat (length (v :: q))
  end.
Proof.
  intros H1 H2 Hlen m. subst m. rewrite positive_of_app. rewrite length_app in Hlen.
  pose proof (run_spec l1 H1 ltac:(lia)) as Hs1. pose proof (run_spec l2 H2 ltac:(lia)) as Hs2.
  assert (length (positive_of l1) <= length l1 /\ length (positive_of l2) <= length l2)%nat
    as [? ?] by (split; apply List.filter_length_le).
  pose proof (numbers_positive l1 H1) as P1. pose proof (numbers_positive l2 H2) as P2.
  assert (Hpos : forall v q l, positive_of l = v :: q -> forall x, x ∈ v :: q -> positive x = true).
  { intros v q l E x. rewrite <- E. unfold positive_of.
    rewrite list_elem_of_In, filter_In. naive_solver. }
  unfold Rtt.mergeRTT.
  destruct (positive_of l2) as [|w q] eqn:E2.
  { rewrite Hs2, app_nil_r. simpl. by destruct (positive_of l1). }
  destruct Hs2 as (C2 & M2 & X2 & S2). rewrite S2.
  rewrite (proj2 (Z.eqb_neq _ 0)) by (simpl; lia).
  destruct (positive_of l1) as [|v p] eqn:E1; cbn [app] in *.
  { rewrite Hs1. simpl. by rewrite C2, M2, X2, S2. }
  destruct Hs1 as (C1 & M1 & X1 & S1).
  rewrite S1, (proj2 (Z.eqb_neq _ 0)) by (simpl; lia). cbn.
  rewrite C2, M1, M2, X1, X2, !fold_append; eauto using fmin_sel, fmax_sel, fmin_assoc, fmax_assoc.
  assert (Hm1 : foldl fmin v p ∈ v :: p) by apply fold_elem, fmin_sel.
  assert (Hm2 : foldl fmin w q ∈ w :: q) by apply fold_elem, fmin_sel.
  rewrite (positive_ltb (foldl fmin w q)); [|apply (proj1 (Forall_forall _ _) P2); done|eauto].
  rewrite (proj1 (not_true_iff_false (f_eqb (foldl fmin v p) (f_of_Z 0)))).
  2:{ intros Eq%f_eqb_leb. specialize (Hpos _ _ _ E1 _ Hm1). unfold positive in Hpos.
      by rewrite Eq in Hpos. }
  split_and!; [|done|done|].
  - apply (inj Some). rewrite (last_default q w), (last_default (p ++ w :: q) v).
    by rewrite app_comm_cons, last_app_cons.
  - rewrite u64_small; [|unfold in_u64; simpl in *; lia]. rewrite length_app. simpl. lia.
Qed.

(** Merging two buckets gives the same sample count, last sample and
    extremes as one bucket fed with all samples: a drained bucket that is
    folded back ([Accumulator.AddAll]) loses nothing of these. *)
Theorem rtt_merge_is_concat (l1 l2 : list F) :
  numbers l1 -> numbers l2 -> Z.of_nat (length (l1 ++ l2)) < 2 ^ 64 ->
  let m := Rtt.mergeRTT (run l1) (run l2) in
  let m' := run (l1 ++ l2) in
  Rtt.CurrentMs m = Rtt.CurrentMs m' /\ Rtt.MinMs m = Rtt.MinMs m' /\
  Rtt.MaxMs m = Rtt.MaxMs m' /\ Rtt.Samples m = Rtt.Samples m'.
Proof.
  intros H1 H2 Hlen m m'. pose proof (merge_run_spec l1 l2 H1 H2 Hlen) as Hm.
  pose proof (run_spec (l1 ++ l2) (proj2 (Forall_app _ _ _) (conj H1 H2)) Hlen) as Hr.
  subst m m'. destruct (positive_of (l1 ++ l2)); simpl in *; [by rewrite Hm, Hr|].
  destruct Hm as (-> & -> & -> & ->), Hr as (-> & -> & -> & ->). done.
Qed.
End rtt_facts.

(** In exact arithmetic the incremental mean of [Apply] is the mean. *)
Definition qsum (l : list Q) : Q := foldr Qplus 0%Q l.

Lemma qsum_app l1 l2 : (qsum (l1 ++ l2) == qsum l1 + qsum l2)%Q.
Proof. induction l1 as [|x l IH]; simpl; [ring|]. rewrite IH. ring. Qed.

Lemma mean_step (n : Z) (avg s v : Q) :
  0 <= n -> (avg * inject_Z n == s ->
  (avg + (v - avg) / inject_Z (n + 1)) * inject_Z (n + 1) == s + v)%Q.
Proof.
  intros Hn Havg. rewrite inject_Z_plus.
  assert (~ (inject_Z n + inject_Z 1 == 0))%Q.
  { rewrite <- inject_Z_plus. unfold Qeq. simpl. lia. }
  field_simplify; [|done]. rewrite <- Havg. unfold inject_Z. ring.
Qed.

Lemma run_mean (l : list Q) :
  Z.of_nat (length l) < 2 ^ 64 ->
  (Rtt.AvgMs (run l) * inject_Z (Rtt.Samples (run l)) == qsum (positive_of l))%Q.
Proof.
  induction l as [|x l IH] using rev_ind; intros Hlen; [done|].
  rewrite length_app in Hlen. simpl in Hlen. specialize (IH ltac:(lia)).
  assert (Hs : 0 <= Rtt.Samples (run l) <= Z.of_nat (length l)).
  { pose proof (run_spec l) as R.
    assert (Hn : numbers l) by (apply Forall_forall; intros y _; apply Qeq_bool_refl).
    specialize (R Hn ltac:(lia)).
    assert (length (positive_of l) <= length l)%nat by apply List.filter_length_le.
    destruct (positive_of l); [rewrite R; simpl; lia|]. destruct R as (_ & _ & _ & ->). simpl in *. lia. }
  rewrite positive_of_app, run_snoc, qsum_app. unfold Rtt.Apply.
  change (positive_of [x]) with (if positive x then [x] else []).
  assert (E : f_leb x (f_of_Z 0) = negb (positive x)) by (unfold positive; by rewrite negb_involutive).
  rewrite E.
  revert IH Hs. generalize (run l) (positive_of l). intros m p IH Hs. destruct (positive x); cbn; q_ops.
  - rewrite u64_small by (unfold in_u64; lia). rewrite mean_step; [|lia|exact IH]. ring.
  - rewrite IH. ring.
Qed.

Lemma Q_numbers (l : list Q) : numbers l.
Proof. apply Forall_forall. intros y _. apply Qeq_bool_refl. Qed.

Lemma merge_mean (m n : Rtt.Model Q) (s t : Q) :
  0 <= Rtt.Samples m -> 0 <= Rtt.Samples n -> Rtt.Samples m + Rtt.Samples n < 2 ^ 64 ->
  (Rtt.Samples m = 0 -> (s == 0)%Q) ->
  (Rtt.AvgMs m * inject_Z (Rtt.Samples m) == s ->
   Rtt.AvgMs n * inject_Z (Rtt.Samples n) == t ->
   Rtt.AvgMs (Rtt.mergeRTT m n) * inject_Z (Rtt.Samples (Rtt.mergeRTT m n)) == s + t)%Q.
Proof.
  intros Hm Hn Hlt Hs0 Hs Ht. unfold Rtt.mergeRTT.
  destruct (Z.eqb_spec (Rtt.Samples n) 0) as [E|E].
  { rewrite Hs, <- Ht, E. ring. }
  destruct (Z.eqb_spec (Rtt.Samples m) 0) as [E'|E'].
  { rewrite Ht, (Hs0 E'). ring. }
  cbn. q_ops. rewrite u64_small by (unfold in_u64; lia). rewrite Hs, Ht.
  field. unfold Qeq. simpl. lia.
Qed.

(** In exact arithmetic the average a bucket reports is the arithmetic
    mean of its positive samples, also after a drained bucket [l1] has been
    merged with the next one [l2] (stated multiplied by the sample count). *)
Theorem rtt_mean_exact (l1 l2 : list Q) :
  Z.of_nat (length (l1 ++ l2)) < 2 ^ 64 ->
  let m := Rtt.mergeRTT (run l1) (run l2) in
  Rtt.Samples m = Z.of_nat (length (positive_of (l1 ++ l2))) /\
  (Rtt.AvgMs m * inject_Z (Rtt.Samples m) == qsum (positive_of (l1 ++ l2)))%Q.
Proof.
  intros Hlen m.
  assert (HS : forall l : list Q, Z.of_nat (length l) < 2 ^ 64 ->
    Rtt.Samples (run l) = Z.of_nat (length (positive_of l))).
  { intros l Hl. pose proof (run_spec l (Q_numbers l) Hl) as R.
    destruct (positive_of l); [by rewrite R|by destruct R as (_ & _ & _ & ->)]. }
  split.
  - pose proof (merge_run_spec l1 l2 (Q_numbers _) (Q_numbers _) Hlen) as E. unfold m.
    destruct (positive_of (l1 ++ l2)); [by rewrite E|]. by destruct E as (_ & _ & _ & ->).
  - rewrite length_app in Hlen.
    assert (length (positive_of l1) <= length l1 /\ length (positive_of l2) <= length l2)%nat
      as [? ?] by (split; apply List.filter_length_le).
    rewrite positive_of_app, qsum_app.
    apply merge_mean; [..|apply run_mean; lia|apply run_mean; lia];
      rewrite ?(HS l1), ?(HS l2) by lia; try lia.
    destruct (positive_of l1); [done|simpl; lia].
Qed.

(** Concrete samples. *)
Definition three_samples : list float64 := [f_of_Z 7; f_of_Z 0; f_of_Z 3].

Lemma three_numbers : numbers three_samples.
Proof. repeat constructor; vm_compute; reflexivity. Qed.

Lemma rtt_extremes_witness : Rtt.MinMs (run three_samples) = f_of_Z 3 /\ Rtt.Samples (run three_samples) = 2.
Proof.
  destruct (rtt_extremes three_samples) as (_ & _ & _ & _ & Hs);
    [apply three_numbers|vm_compute; reflexivity|discriminate|].
  split; [vm_compute; reflexivity|]. rewrite Hs. vm_compute. reflexivity.
Defined.

Lemma rtt_merge_is_concat_witness :
  Rtt.MaxMs (Rtt.mergeRTT (run three_samples) (run three_samples)) = Rtt.MaxMs (run (three_samples ++ three_samples)).
Proof.
  destruct (rtt_merge_is_concat three_samples three_samples) as (_ & _ & Hm & _);
    [apply three_numbers|apply three_numbers|vm_compute; reflexivity|exact Hm].
Defined.

Lemma rtt_mean_exact_witness :
  Rtt.Samples (Rtt.mergeRTT (run [1; 2]%Q) (run [6]%Q)) = 3 /\
  (Rtt.AvgMs (Rtt.mergeRTT (run [1; 2]%Q) (run [6]%Q)) * 3 == 9)%Q.
Proof.
  destruct (rtt_mean_exact [1; 2]%Q [6]%Q) as [Hs Hm]; [vm_compute; reflexivity|].
  split; [rewrite Hs; reflexivity|]. rewrite Hs in Hm. exact Hm.
Defined.

End RttFacts.
