(* ===== verification/Netip.v ===== *)
(** Go's [net/netip] and the parts of [net.IP] the program uses (Go 1.22.4
    and later: the address predicates look through IPv4-mapped addresses).

    An address is its numeric value and, for IPv6, its zone.  The zero
    [netip.Addr] does not occur: a failed parse is an [Err].  A [net.IP]
    built by the program has 4 or 16 bytes; it is a list of byte values. *)
From S2P Require Import Prelude GoStrings.

#[local] Open Scope Z_scope.

Inductive Addr :=
| Addr4 (ip : Z)
| Addr6 (ip : Z) (zone : string).

#[export] Instance Addr_eq_dec : EqDecision Addr.
Proof. solve_decision. Defined.

(** Big-endian value of a byte list, and back. *)
Definition be (l : list Z) : Z := foldl (fun a b => a * 256 + b) 0 l.

Fixpoint be_bytes (n : nat) (z : Z) : list Z :=
  match n with
  | O => []
  | S n' => be_bytes n' (Z.shiftr z 8) ++ [Z.land z 255]
  end.

Definition BitLen (a : Addr) : Z := match a with Addr4 _ => 32 | Addr6 _ _ => 128 end.

(** ** Parsing *)

(** [parseIPv4Fields]: [start] holds at the beginning of the string and just
    after a dot, [val] and [digLen] are the current octet, [fields] the
    octets already read. *)
Fixpoint v4_fields (start : bool) (val digLen : Z) (fields : list Z) (s : list ascii)
  : option (list Z) :=
  match s with
  | [] => if (length fields <? 3)%nat then None else Some (fields ++ [val])
  | c :: r =>
      match digit_val c with
      | Some d =>
          if (digLen =? 1) && (val =? 0) then None
          else let val := val * 10 + d in
               if 255 <? val then None else v4_fields false val (digLen + 1) fields r
      | None =>
          if Ascii.eqb c "."%char then
            if start || match r with [] => true | _ => false end then None
            else if (length fields =? 3)%nat then None
            else v4_fields true 0 0 (fields ++ [val]) r
          else None
      end
  end.

Definition parseIPv4Fields (s : list ascii) : option (list Z) := v4_fields true 0 0 [] s.

Definition hex_val (c : ascii) : option Z :=
  let z := byteZ c in
  if (48 <=? z) && (z <=? 57) then Some (z - 48)
  else if (97 <=? z) && (z <=? 102) then Some (z - 97 + 10)
  else if (65 <=? z) && (z <=? 70) then Some (z - 65 + 10)
  else None.

(** The digits of one group: their number, their value and what follows. *)
Fixpoint hex_field (off acc : Z) (s : list ascii) : option (Z * Z * list ascii) :=
  match s with
  | [] => Some (off, acc, [])
  | c :: r =>
      match hex_val c with
      | None => Some (off, acc, s)
      | Some d =>
          let acc := Z.shiftl acc 4 + d in
          if 3 <? off then None
          else if 65535 <? acc then None
          else hex_field (off + 1) acc r
      end
  end.

(** The loop of [parseIPv6]: every completed round stores two bytes and the
    loop runs while fewer than 16 are stored, so eight rounds suffice. *)
Fixpoint v6_groups (rounds : nat) (s : list ascii) (ip : list Z) (ellipsis : option nat)
  : option (list ascii * list Z * option nat) :=
  match rounds with
  | O => Some (s, ip, ellipsis)
  | S rounds =>
      match hex_field 0 0 s with
      | None => None
      | Some (off, acc, rest) =>
          if off =? 0 then None
          else match rest with
          | [] => Some ([], ip ++ [Z.shiftr acc 8; Z.land acc 255], ellipsis)
          | c :: r =>
              if Ascii.eqb c "."%char then
                if negb (isSome ellipsis) && negb (length ip =? 12)%nat then None
                else if (16 <? length ip + 4)%nat then None
                else match parseIPv4Fields s with
                     | None => None
                     | Some f => Some ([], ip ++ f, ellipsis)
                     end
              else
                let ip := ip ++ [Z.shiftr acc 8; Z.land acc 255] in
                if negb (Ascii.eqb c ":"%char) then None
                else match r with
                | [] => None
                | c' :: r' =>
                    if Ascii.eqb c' ":"%char then
                      if isSome ellipsis then None
                      else match r' with
                           | [] => Some ([], ip, Some (length ip))
                           | _ => v6_groups rounds r' ip (Some (length ip))
                           end
                    else v6_groups rounds r ip ellipsis
                end
          end
      end
  end.

(** Splits at the first ['%']. *)
Fixpoint split_zone (s : list ascii) : list ascii * option (list ascii) :=
  match s with
  | [] => ([], None)
  | c :: r => if Ascii.eqb c "%"%char then ([], Some r)
              else let '(a, z) := split_zone r in (c :: a, z)
  end.

Definition parseIPv6 (input : list ascii) : option Addr :=
  let '(s, zone) := split_zone input in
  if match zone with Some [] => true | _ => false end then None
  else
    let zone := string_of (default [] zone) in
    let '(s, ellipsis) :=
      match s with
      | a :: b :: r => if Ascii.eqb a ":"%char && Ascii.eqb b ":"%char then (r, Some 0%nat) else (s, None)
      | _ => (s, None)
      end in
    if isSome ellipsis && match s with [] => true | _ => false end then Some (Addr6 0 zone)
    else match v6_groups 8 s [] ellipsis with
         | None => None
         | Some (_ :: _, _, _) => None
         | Some ([], ip, ellipsis) =>
             if (length ip <? 16)%nat then
               match ellipsis with
               | None => None
               | Some e => Some (Addr6 (be (take e ip ++ replicate (16 - length ip) 0 ++ drop e ip)) zone)
               end
             else if isSome ellipsis then None
             else Some (Addr6 (be ip) zone)
         end.

(** [ParseAddr] dispatches on the first of ['.'], [':'] and ['%']. *)
Fixpoint parse_dispatch (input s : list ascii) : option Addr :=
  match s with
  | [] => None
  | c :: r =>
      if Ascii.eqb c "."%char then
        match parseIPv4Fields input with Some f => Some (Addr4 (be f)) | None => None end
      else if Ascii.eqb c ":"%char then parseIPv6 input
      else if Ascii.eqb c "%"%char then None
      else parse_dispatch input r
  end.

Definition ParseAddr (s : string) : Result Addr :=
  match parse_dispatch (bytes_of s) (bytes_of s) with
  | Some a => Ok a
  | None => Err (LibErr "netip.ParseAddr" s)
  end.

(** ** Printing *)

Definition hexchar (d : Z) : ascii := if d <? 10 then chr (48 + d) else chr (97 + d - 10).

Definition appendHex (x : Z) : list ascii :=
  (if 4096 <=? x then [hexchar (Z.shiftr x 12)] else [])
  ++ (if 256 <=? x then [hexchar (Z.land (Z.shiftr x 8) 15)] else [])
  ++ (if 16 <=? x then [hexchar (Z.land (Z.shiftr x 4) 15)] else [])
  ++ [hexchar (Z.land x 15)].

Definition octet (z : Z) : list ascii := bytes_of (Itoa z).

Definition string4 (ip : Z) : list ascii :=
  octet (Z.land (Z.shiftr ip 24) 255) ++ ["."%char]
  ++ octet (Z.land (Z.shiftr ip 16) 255) ++ ["."%char]
  ++ octet (Z.land (Z.shiftr ip 8) 255) ++ ["."%char]
  ++ octet (Z.land ip 255).

Definition v6u16 (ip : Z) (i : nat) : Z := Z.land (Z.shiftr ip (16 * (7 - Z.of_nat i))) 65535.

(** The end of the run of zero groups that starts at [i]. *)
Fixpoint zero_run (fuel : nat) (ip : Z) (j : nat) : nat :=
  match fuel with
  | O => j
  | S n => if (j <? 8)%nat && (v6u16 ip j =? 0) then zero_run n ip (S j) else j
  end.

(** The first longest run of at least two zero groups. *)
Definition longest_zeros (ip : Z) : option (nat * nat) :=
  foldl (fun best i =>
    let j := zero_run 8 ip i in
    let l := (j - i)%nat in
    let current := match best with Some (a, b) => (b - a)%nat | None => O end in
    if (2 <=? l)%nat && (current <? l)%nat then Some (i, j) else best)
    None (seq 0 8).

Fixpoint print_groups (fuel : nat) (ip : Z) (zeros : option (nat * nat)) (i : nat) : list ascii :=
  match fuel with
  | O => []
  | S n =>
      if (8 <=? i)%nat then []
      else match zeros with
           | Some (a, b) =>
               if (i =? a)%nat then
                 [":"%char; ":"%char] ++
                 (if (8 <=? b)%nat then []
                  else appendHex (v6u16 ip b) ++ print_groups n ip zeros (S b))
               else (if (0 <? i)%nat then [":"%char] else []) ++ appendHex (v6u16 ip i)
                    ++ print_groups n ip zeros (S i)
           | None => (if (0 <? i)%nat then [":"%char] else []) ++ appendHex (v6u16 ip i)
                     ++ print_groups n ip zeros (S i)
           end
  end.

Definition Is4In6 (a : Addr) : bool :=
  match a with Addr6 ip _ => Z.shiftr ip 32 =? 65535 | Addr4 _ => false end.

Definition Unmap (a : Addr) : Addr :=
  match a with
  | Addr6 ip _ => if Is4In6 a then Addr4 (Z.land ip (2 ^ 32 - 1)) else a
  | Addr4 _ => a
  end.

Definition AddrString (a : Addr) : string :=
  match a with
  | Addr4 ip => string_of (string4 ip)
  | Addr6 ip zone =>
      (if Is4In6 a then "::ffff:" +:+ string_of (string4 (Z.land ip (2 ^ 32 - 1)))
       else string_of (print_groups 8 ip (longest_zeros ip) 0))
      +:+ (if (zone =? "")%string then "" else "%" +:+ zone)
  end.

(** ** Predicates of [netip.Addr] *)

Definition IsUnspecified (a : Addr) : bool :=
  match a with
  | Addr4 ip => ip =? 0
  | Addr6 ip zone => (ip =? 0) && (zone =? "")%string
  end.

Definition IsLoopback (a : Addr) : bool :=
  match Unmap a with
  | Addr4 ip => Z.shiftr ip 24 =? 127
  | Addr6 ip _ => ip =? 1
  end.

Definition IsPrivate (a : Addr) : bool :=
  match Unmap a with
  | Addr4 ip => (Z.shiftr ip 24 =? 10) || (Z.shiftr ip 20 =? 172 * 16 + 1) || (Z.shiftr ip 16 =? 192 * 256 + 168)
  | Addr6 ip _ => Z.land (Z.shiftr ip 120) 254 =? 252
  end.

Definition IsLinkLocalUnicast (a : Addr) : bool :=
  match Unmap a with
  | Addr4 ip => Z.shiftr ip 16 =? 169 * 256 + 254
  | Addr6 ip _ => Z.land (Z.shiftr ip 112) 65472 =? 65152
  end.

Definition IsMulticast (a : Addr) : bool :=
  match Unmap a with
  | Addr4 ip => Z.land (Z.shiftr ip 24) 240 =? 224
  | Addr6 ip _ => Z.shiftr ip 120 =? 255
  end.

(** ** Prefixes *)

Record Prefix := { PAddr : Addr; PBits : Z }.

Definition withoutZone (a : Addr) : Addr :=
  match a with Addr6 ip _ => Addr6 ip "" | Addr4 ip => Addr4 ip end.

(** [PrefixFrom] on a valid bit length. *)
Definition PrefixFrom (a : Addr) (bits : Z) : Prefix := {| PAddr := withoutZone a; PBits := bits |}.

(** Splits at the last ['/']. *)
Fixpoint split_last (sep : ascii) (s : list ascii) : option (list ascii * list ascii) :=
  match s with
  | [] => None
  | c :: r =>
      match split_last sep r with
      | Some (a, b) => Some (c :: a, b)
      | None => if Ascii.eqb c sep then Some ([], r) else None
      end
  end.

Definition hasZone (a : Addr) : bool :=
  match a with Addr6 _ zone => negb (zone =? "")%string | Addr4 _ => false end.

Definition ParsePrefix (s : string) : Result Prefix :=
  let bad := Err (LibErr "netip.ParsePrefix" s) in
  match split_last "/"%char (bytes_of s) with
  | None => bad
  | Some (a, bitsStr) =>
      match ParseAddr (string_of a) with
      | Err _ => bad
      | Ok ip =>
          if hasZone ip then bad
          else if (1 <? length bitsStr)%nat
                  && match bitsStr with c :: _ => (byteZ c <? 49) || (57 <? byteZ c) | [] => false end
          then bad
          else match Atoi (string_of bitsStr) with
               | None => bad
               | Some bits => if (bits <? 0) || (BitLen ip <? bits) then bad
                              else Ok (PrefixFrom ip bits)
               end
      end
  end.

(** The mask with [bits] leading ones among [w] bits. *)
Definition mask (w bits : Z) : Z := Z.shiftl (2 ^ bits - 1) (w - bits).

Definition Masked (p : Prefix) : Prefix :=
  {| PAddr := match PAddr p with
              | Addr4 ip => Addr4 (Z.land ip (mask 32 (PBits p)))
              | Addr6 ip _ => Addr6 (Z.land ip (mask 128 (PBits p))) ""
              end;
     PBits := PBits p |}.

Definition Contains (p : Prefix) (a : Addr) : bool :=
  match PAddr p, a with
  | Addr4 p4, Addr4 ip => Z.shiftr (Z.lxor ip p4) (32 - PBits p) =? 0
  | Addr6 p6 _, Addr6 ip zone =>
      (zone =? "")%string && (Z.land (Z.lxor ip p6) (mask 128 (PBits p)) =? 0)
  | _, _ => false
  end.

(** ** [net.IP] *)
Abbreviation IP := (list Z).

Definition v4InV6Prefix : list Z := replicate 10 0 ++ [255; 255].

(** [Addr.As16]. *)
Definition As16 (a : Addr) : list Z :=
  match a with
  | Addr4 ip => v4InV6Prefix ++ be_bytes 4 ip
  | Addr6 ip _ => be_bytes 16 ip
  end.

Definition ParseIP (s : string) : option IP :=
  match ParseAddr s with
  | Ok a => if hasZone a then None else Some (As16 a)
  | Err _ => None
  end.

Definition To4 (ip : IP) : option (list Z) :=
  if (length ip =? 4)%nat then Some ip
  else if (length ip =? 16)%nat && bool_decide (take 12 ip = v4InV6Prefix) then Some (drop 12 ip)
  else None.

(** [IP.Equal] on addresses of 4 or 16 bytes. *)
Definition ip_norm (ip : IP) : list Z :=
  if (length ip =? 4)%nat then v4InV6Prefix ++ ip else ip.
Definition ip_equal (a b : IP) : bool := bool_decide (ip_norm a = ip_norm b).

Definition ip_IsUnspecified (ip : IP) : bool :=
  ip_equal ip [0; 0; 0; 0] || ip_equal ip (replicate 16 0).

Definition ip_IsLoopback (ip : IP) : bool :=
  match To4 ip with
  | Some (a :: _) => a =? 127
  | Some [] => false
  | None => ip_equal ip (replicate 15 0 ++ [1])
  end.

Definition ip_String (ip : IP) : string :=
  match To4 ip with
  | Some p4 => AddrString (Addr4 (be p4))
  | None => AddrString (Addr6 (be ip) "")
  end.

(** * Facts *)

(** Addresses whose value fits their width, and prefixes of such. *)
Definition addr_ok (a : Addr) : Prop :=
  match a with Addr4 ip => 0 <= ip < 2 ^ 32 | Addr6 ip _ => 0 <= ip < 2 ^ 128 end.
Definition prefix_ok (p : Prefix) : Prop := addr_ok (PAddr p) /\ 0 <= PBits p <= BitLen (PAddr p).

Definition byte_ok (b : Z) : Prop := 0 <= b < 256.

Lemma be_snoc l b : be (l ++ [b]) = be l * 256 + b.
Proof. unfold be. by rewrite foldl_app. Qed.

Lemma be_range l : Forall byte_ok l -> 0 <= be l < 256 ^ Z.of_nat (length l).
Proof.
  induction l as [|b l IH] using rev_ind; intros H; [done|].
  apply Forall_app in H as [Hl [Hb _]%Forall_cons]. specialize (IH Hl).
  rewrite be_snoc, length_app. simpl. rewrite Nat2Z.inj_add, Z.pow_add_r by lia.
  unfold byte_ok in Hb. change (256 ^ Z.of_nat 1) with 256. lia.
Qed.

Lemma length_be_bytes n z : length (be_bytes n z) = n.
Proof. revert z. induction n as [|n IH]; intros z; simpl; [done|]. rewrite length_app, IH. simpl. lia. Qed.

Lemma be_bytes_ok n z : Forall byte_ok (be_bytes n z).
Proof.
  revert z. induction n as [|n IH]; intros z; simpl; [done|]. apply Forall_app. split; [apply IH|].
  repeat constructor; change 255 with (Z.ones 8); rewrite Z.land_ones by lia; apply Z.mod_pos_bound; lia.
Qed.

(** The 16 bytes of an address. *)
Lemma As16_ok a : length (As16 a) = 16%nat /\ Forall byte_ok (As16 a).
Proof.
  destruct a as [ip|ip zone]; cbn [As16].
  - split; [by rewrite length_app, length_be_bytes|]. apply Forall_app. split; [|apply be_bytes_ok].
    unfold v4InV6Prefix, byte_ok. repeat (constructor; [lia|]). constructor.
  - split; [apply length_be_bytes|apply be_bytes_ok].
Qed.

Lemma byteZ_range c : 0 <= byteZ c < 256.
Proof. unfold byteZ. pose proof (N_ascii_bounded c). lia. Qed.

Lemma digit_val_range c d : digit_val c = Some d -> 0 <= d <= 9.
Proof. unfold digit_val. intros H. go_cases_in H; bools; lia. Qed.

Lemma hex_val_range c d : hex_val c = Some d -> 0 <= d <= 15.
Proof. unfold hex_val. cbv zeta. intros H. go_cases_in H; bools; lia. Qed.

Lemma v4_fields_ok start val digLen fields s f :
  0 <= val <= 255 -> Forall byte_ok fields -> (length fields <= 3)%nat ->
  v4_fields start val digLen fields s = Some f -> length f = 4%nat /\ Forall byte_ok f.
Proof.
  revert start val digLen fields. induction s as [|c s IH]; intros start val digLen fields Hv Hf Hl H; simpl in H.
  - destruct (Nat.ltb_spec (length fields) 3); simplify_eq. rewrite length_app. simpl. split; [lia|].
    apply Forall_app. split; [done|]. repeat constructor; lia.
  - destruct (digit_val c) as [d|] eqn:Ed.
    + apply digit_val_range in Ed. destruct (_ && _); [done|].
      destruct (Z.ltb_spec 255 (val * 10 + d)); [done|]. by apply IH in H; try lia.
    + destruct (Ascii.eqb _ _); [|done]. destruct (start || _); [done|].
      destruct (Nat.eqb_spec (length fields) 3); [done|].
      apply IH in H; [done|lia| |rewrite length_app; simpl; lia].
      apply Forall_app. split; [done|]. repeat constructor; lia.
Qed.

Lemma parseIPv4Fields_ok s f :
  parseIPv4Fields s = Some f -> length f = 4%nat /\ Forall byte_ok f.
Proof. apply v4_fields_ok; [lia|constructor|simpl; lia]. Qed.

Lemma hex_field_ok off acc s off' acc' rest :
  0 <= acc <= 65535 -> hex_field off acc s = Some (off', acc', rest) -> 0 <= acc' <= 65535.
Proof.
  revert off acc. induction s as [|c s IH]; intros off acc Ha H; simpl in H; [by simplify_eq|].
  destruct (hex_val c) as [d|] eqn:Ed; [|by simplify_eq].
  apply hex_val_range in Ed. go_cases_in H. bools. eapply IH in H; [done|].
  rewrite Z.shiftl_mul_pow2 in * by lia. lia.
Qed.

Lemma split16_ok acc : 0 <= acc <= 65535 -> Forall byte_ok [Z.shiftr acc 8; Z.land acc 255].
Proof.
  intros H. repeat constructor; unfold byte_ok;
    rewrite ?Z.shiftr_div_pow2 by lia; change 255 with (Z.ones 8); rewrite ?Z.land_ones by lia; int_lia.
Qed.

Lemma v6_groups_ok rounds s ip ell s' ip' ell' :
  (length ip + 2 * rounds = 16)%nat -> Forall byte_ok ip ->
  v6_groups rounds s ip ell = Some (s', ip', ell') -> (length ip' <= 16)%nat /\ Forall byte_ok ip'.
Proof.
  revert s ip ell. induction rounds as [|n IH]; intros s ip ell Hl Hb H; cbn [v6_groups] in H.
  { simplify_eq. split; [lia|done]. }
  destruct (hex_field 0 0 s) as [[[off acc] rest]|] eqn:Eh; [|done].
  apply hex_field_ok in Eh; [|lia].
  assert (Hn : Forall byte_ok (ip ++ [Z.shiftr acc 8; Z.land acc 255]))
    by (apply Forall_app; auto using split16_ok).
  assert (length (ip ++ [Z.shiftr acc 8; Z.land acc 255]) = length ip + 2)%nat
    by (by rewrite length_app).
  go_cases_in H; try (eapply IH; [|done|exact H]; lia); try (split; [lia|done]).
  match goal with E : parseIPv4Fields _ = Some _ |- _ => apply parseIPv4Fields_ok in E as [? ?] end.
  match goal with E : (16 <? _)%nat = false |- _ => apply Nat.ltb_ge in E end.
  split; [rewrite length_app; lia|apply Forall_app; done].
Qed.

Lemma be16_ok l : Forall byte_ok l -> length l = 16%nat -> 0 <= be l < 2 ^ 128.
Proof. intros Hb Hl. apply be_range in Hb. rewrite Hl in Hb. lia. Qed.

Lemma parseIPv6_ok s a : parseIPv6 s = Some a -> addr_ok a.
Proof.
  unfold parseIPv6. destruct (split_zone s) as [t zone]. destruct (match zone with Some [] => _ | _ => _ end); [done|].
  destruct (match t with [] => _ | _ => _ end) as [u ell].
  destruct (isSome ell && _); [intros [= <-]; simpl; lia|].
  destruct (v6_groups 8 u [] ell) as [[[[|] ip] ell']|] eqn:G; [|done|done].
  apply v6_groups_ok in G as [Hl Hb]; [|done|constructor].
  destruct (Nat.ltb_spec (length ip) 16).
  - destruct ell' as [e|]; [|done]. intros [= <-]. apply be16_ok.
    + repeat apply Forall_app_2; auto using Forall_take, Forall_drop.
      apply Forall_replicate. unfold byte_ok; lia.
    + rewrite !length_app, length_replicate, length_take, length_drop. lia.
  - destruct (isSome ell'); [done|]. intros [= <-]. apply be16_ok; [done|lia].
Qed.

Lemma ParseAddr_ok s a : ParseAddr s = Ok a -> addr_ok a.
Proof.
  unfold ParseAddr. destruct (parse_dispatch _ _) as [b|] eqn:E; [|done]. intros [= ->].
  revert E. generalize (bytes_of s) at 1 as input. generalize (bytes_of s) as l.
  induction l as [|c l IH]; intros input E; simpl in E; [done|].
  destruct (Ascii.eqb c "."%char).
  { destruct (parseIPv4Fields input) as [f|] eqn:F; [|done]. injection E as <-.
    apply parseIPv4Fields_ok in F as [Hl Hb]. apply be_range in Hb. rewrite Hl in Hb. simpl. lia. }
  destruct (Ascii.eqb c ":"%char); [by eapply parseIPv6_ok|].
  destruct (Ascii.eqb c "%"%char); [done|]. by eapply IH.
Qed.

Lemma ParsePrefix_ok s p : ParsePrefix s = Ok p -> prefix_ok p.
Proof.
  unfold ParsePrefix. destruct (split_last _ _) as [[a bitsStr]|]; [|done].
  destruct (ParseAddr _) as [ip|] eqn:E; [|done]. apply ParseAddr_ok in E.
  destruct (hasZone ip); [done|]. destruct (_ && _); [done|].
  destruct (Atoi _) as [bits|]; [|done]. destruct (_ || _) eqn:B; [done|]. intros [= <-].
  bools. unfold prefix_ok. destruct ip; simpl in *; lia.
Qed.

(** [Contains] compares the leading bits. *)
Lemma shiftr_lxor_zero a b k :
  0 <= k -> (Z.shiftr (Z.lxor a b) k =? 0) = (Z.shiftr a k =? Z.shiftr b k).
Proof.
  intros Hk. rewrite Z.shiftr_lxor.
  destruct (Z.eqb_spec (Z.shiftr a k) (Z.shiftr b k)) as [->|H].
  - by rewrite Z.lxor_nilpotent.
  - apply Z.eqb_neq. by rewrite Z.lxor_eq_0_iff.
Qed.

Lemma land_mask w bits x :
  0 <= bits <= w -> 0 <= x < 2 ^ w ->
  Z.land x (mask w bits) = Z.shiftl (Z.shiftr x (w - bits)) (w - bits).
Proof.
  intros Hb Hx. unfold mask.
  replace (2 ^ bits - 1) with (Z.ones bits) by (rewrite Z.ones_equiv; lia).
  apply Z.bits_inj'. intros n Hn. rewrite Z.land_spec.
  destruct (Z.ltb_spec n (w - bits)).
  - rewrite !Z.shiftl_spec_low by lia. apply andb_false_r.
  - rewrite !Z.shiftl_spec, Z.shiftr_spec by lia.
    replace (n - (w - bits) + (w - bits)) with n by lia.
    destruct (Z.ltb_spec n w).
    + rewrite Z.ones_spec_low by lia. apply andb_true_r.
    + rewrite Z.ones_spec_high, andb_false_r by lia. symmetry.
      destruct (Z.eq_dec x 0) as [->|]; [apply Z.bits_0|].
      apply Z.bits_above_log2; [lia|]. apply Z.log2_lt_pow2; [lia|].
      apply Z.lt_le_trans with (2 ^ w); [lia|]. apply Z.pow_le_mono_r; lia.
Qed.

Lemma lxor_range w a b : 0 <= w -> 0 <= a < 2 ^ w -> 0 <= b < 2 ^ w -> 0 <= Z.lxor a b < 2 ^ w.
Proof.
  intros Hw Ha Hb. split; [apply Z.lxor_nonneg; lia|].
  destruct (Z.eq_dec (Z.lxor a b) 0) as [->|N]; [lia|].
  assert (0 <= Z.lxor a b) by (apply Z.lxor_nonneg; lia).
  apply Z.log2_lt_pow2; [lia|].
  destruct (Z.eq_dec a 0) as [->|]; [rewrite Z.lxor_0_l in *; apply Z.log2_lt_pow2; lia|].
  destruct (Z.eq_dec b 0) as [->|]; [rewrite Z.lxor_0_r in *; apply Z.log2_lt_pow2; lia|].
  assert (Z.log2 a < w /\ Z.log2 b < w) by (split; apply Z.log2_lt_pow2; lia).
  pose proof (Z.log2_lxor a b ltac:(lia) ltac:(lia)). lia.
Qed.

(** The leading [bits] of an address of width [w]. *)
Definition leading (w bits ip : Z) : Z := ip / 2 ^ (w - bits).

Lemma Contains_spec p a :
  prefix_ok p -> addr_ok a ->
  Contains p a = true <->
  match PAddr p, a with
  | Addr4 p4, Addr4 ip => leading 32 (PBits p) ip = leading 32 (PBits p) p4
  | Addr6 p6 _, Addr6 ip zone => zone = "" /\ leading 128 (PBits p) ip = leading 128 (PBits p) p6
  | _, _ => False
  end.
Proof.
  intros [Hp Hb] Ha. unfold Contains, leading.
  destruct p as [[p4|p6 z] bits], a as [ip|ip zone]; simpl in *; try done.
  - rewrite shiftr_lxor_zero, Z.eqb_eq by lia. by rewrite !Z.shiftr_div_pow2 by lia.
  - rewrite andb_true_iff, String.eqb_eq, Z.eqb_eq.
    rewrite land_mask; [|lia|apply lxor_range; lia].
    rewrite Z.shiftl_eq_0_iff by lia. rewrite <- Z.eqb_eq, shiftr_lxor_zero, Z.eqb_eq by lia.
    by rewrite !Z.shiftr_div_pow2 by lia.
Qed.

Lemma mask_range w bits x :
  0 <= bits <= w -> 0 <= x < 2 ^ w -> 0 <= Z.land x (mask w bits) < 2 ^ w.
Proof.
  intros Hb Hx. rewrite land_mask by done.
  rewrite Z.shiftl_mul_pow2, Z.shiftr_div_pow2 by lia.
  assert (0 < 2 ^ (w - bits)) by (apply Z.pow_pos_nonneg; lia).
  pose proof (Z.mul_div_le x (2 ^ (w - bits)) ltac:(lia)).
  pose proof (Z.div_pos x (2 ^ (w - bits)) ltac:(lia) ltac:(lia)). lia.
Qed.

Lemma leading_mask w bits x :
  0 <= bits <= w -> 0 <= x < 2 ^ w -> leading w bits (Z.land x (mask w bits)) = leading w bits x.
Proof.
  intros Hb Hx. rewrite land_mask by done. unfold leading.
  rewrite <- !Z.shiftr_div_pow2, Z.shiftr_shiftl_l, Z.sub_diag, Z.shiftl_0_r by lia. done.
Qed.

Lemma Masked_ok p : prefix_ok p -> prefix_ok (Masked p).
Proof.
  intros [Hp Hb]. destruct p as [[p4|p6 z] bits]; unfold prefix_ok; simpl in *;
    (split; [|done]); by apply mask_range.
Qed.

(** Masking a prefix does not change what it contains. *)
Lemma Masked_Contains p a : prefix_ok p -> addr_ok a -> Contains (Masked p) a = Contains p a.
Proof.
  intros Hp Ha. apply eq_true_iff_eq.
  rewrite !Contains_spec by auto using Masked_ok. destruct Hp as [Hp Hb].
  destruct p as [[p4|p6 z] bits], a; simpl in *; try done; by rewrite leading_mask.
Qed.

(** ** The dotted form of an IPv4 address parses back *)

(** Reading one printed octet, checked for all 256 values: from a fresh
    field the digits leave the octet and more than zero digits. *)
Definition octet_reads (z : Z) : bool :=
  match octet z with
  | [] => false
  | c :: r =>
      let fix go val digLen l :=
        match l with
        | [] => Some (val, digLen)
        | c :: r =>
            match digit_val c with
            | None => None
            | Some d => if (digLen =? 1) && (val =? 0) then None
                        else let val := val * 10 + d in
                             if 255 <? val then None else go val (digLen + 1) r
            end
        end in
      bool_decide (go 0 0 (c :: r) = Some (z, Z.of_nat (length (c :: r))))
  end.

Lemma octet_reads_all z : 0 <= z < 256 -> octet_reads z = true.
Proof.
  intros Hz. assert (H : forallb octet_reads (map Z.of_nat (seq 0 256)) = true) by (vm_compute; done).
  rewrite forallb_forall in H. apply H, in_map_iff. exists (Z.to_nat z).
  split; [lia|]. apply in_seq. lia.
Qed.

Lemma v4_fields_octet z fields rest :
  0 <= z < 256 ->
  exists n, v4_fields true 0 0 fields (octet z ++ rest) = v4_fields false z n fields rest.
Proof.
  intros Hz. pose proof (octet_reads_all z Hz) as H. unfold octet_reads in H.
  destruct (octet z) as [|c r]; [done|]. apply bool_decide_eq_true in H.
  exists (Z.of_nat (length (c :: r))).
  revert H. generalize (Z.of_nat (length (c :: r))) as n. intros n. cbn [app v4_fields].
  destruct (digit_val c) as [d|]; [|done]. cbn [andb Z.eqb].
  destruct (255 <? 0 * 10 + d); [done|].
  generalize (0 * 10 + d) as val. generalize (0 + 1) as len. clear d c.
  induction r as [|c r IH]; intros len val H; [by simplify_eq|].
  cbn [app v4_fields]. destruct (digit_val c) as [d|]; [|done].
  destruct (_ && _); [done|]. destruct (255 <? _); [done|]. by apply IH.
Qed.

Lemma octet_cons z : 0 <= z < 256 -> exists c r, octet z = c :: r /\ Ascii.eqb c "."%char = false
  /\ Ascii.eqb c ":"%char = false /\ Ascii.eqb c "%"%char = false.
Proof.
  intros Hz. pose proof (octet_reads_all z Hz) as H. unfold octet_reads in H.
  destruct (octet z) as [|c r]; [done|]. exists c, r. split; [done|].
  apply bool_decide_eq_true in H. destruct (digit_val c) as [d|] eqn:Ed; [|done].
  split_and!; apply Ascii.eqb_neq; intros ->; done.
Qed.

Lemma land255_range x : 0 <= x -> 0 <= Z.land x 255 < 256.
Proof. intros. change 255 with (Z.ones 8). rewrite Z.land_ones by lia. apply Z.mod_pos_bound. lia. Qed.

Lemma be4_split ip :
  0 <= ip < 2 ^ 32 ->
  be [Z.land (Z.shiftr ip 24) 255; Z.land (Z.shiftr ip 16) 255; Z.land (Z.shiftr ip 8) 255; Z.land ip 255] = ip.
Proof.
  intros H. unfold be. cbn [foldl]. change 255 with (Z.ones 8).
  rewrite !Z.land_ones, !Z.shiftr_div_pow2 by lia. int_lia.
Qed.

Lemma v4_fields_string4 ip :
  0 <= ip < 2 ^ 32 ->
  parseIPv4Fields (string4 ip) =
  Some [Z.land (Z.shiftr ip 24) 255; Z.land (Z.shiftr ip 16) 255; Z.land (Z.shiftr ip 8) 255; Z.land ip 255].
Proof.
  intros Hip. unfold parseIPv4Fields, string4.
  assert (forall k, 0 <= k -> 0 <= Z.land (Z.shiftr ip k) 255 < 256)
    as Hr by (intros; apply land255_range, Z.shiftr_nonneg; lia).
  assert (0 <= Z.land ip 255 < 256) as H0 by (apply land255_range; lia).
  assert (Hstep : forall z n fields l, 0 <= z < 256 -> (length fields < 3)%nat -> l <> [] ->
    v4_fields false z n fields (["."%char] ++ l) = v4_fields true 0 0 (fields ++ [z]) l).
  { intros z n fields l Hz Hf Hl. simpl. destruct l; [done|]. simpl.
    destruct (Nat.eqb_spec (length fields) 3); [lia|done]. }
  assert (Hne : forall z l, 0 <= z < 256 -> octet z ++ l <> []).
  { intros z l Hz. destruct (octet_cons z Hz) as (c & r & -> & _). done. }
  destruct (v4_fields_octet _ [] (["."%char] ++ octet (Z.land (Z.shiftr ip 16) 255) ++ ["."%char]
    ++ octet (Z.land (Z.shiftr ip 8) 255) ++ ["."%char] ++ octet (Z.land ip 255)) (Hr 24 ltac:(lia))) as [n1 ->].
  rewrite Hstep by (try apply Hr; try apply Hne; try apply Hr; simpl; lia).
  edestruct v4_fields_octet as [n2 E2]; [apply (Hr 16); lia|]. rewrite E2. clear E2.
  rewrite Hstep by (try apply Hr; try apply Hne; try apply Hr; simpl; lia).
  edestruct v4_fields_octet as [n3 E3]; [apply (Hr 8); lia|]. rewrite E3. clear E3.
  rewrite Hstep by (try apply Hr; try (rewrite <- (app_nil_r (octet _)); apply Hne); try done; simpl; lia).
  edestruct v4_fields_octet as [n4 E4]; [exact H0|]. rewrite app_nil_r in E4. rewrite E4. done.
Qed.

Lemma parse_dispatch_v4 input l :
  (exists d r, l = d ++ "."%char :: r /\ Forall (fun c => isSome (digit_val c) = true) d) ->
  parse_dispatch input l =
  match parseIPv4Fields input with Some f => Some (Addr4 (be f)) | None => None end.
Proof.
  intros (d & r & -> & Hd). induction Hd as [|c d Hc Hd IH]; simpl; [done|].
  destruct (Ascii.eqb c "."%char) eqn:E1; [done|].
  destruct (Ascii.eqb c ":"%char) eqn:E2; [apply Ascii.eqb_eq in E2 as ->; done|].
  destruct (Ascii.eqb c "%"%char) eqn:E3; [apply Ascii.eqb_eq in E3 as ->; done|]. done.
Qed.

Lemma octet_digits z : 0 <= z < 256 -> Forall (fun c => isSome (digit_val c) = true) (octet z).
Proof.
  intros Hz.
  assert (H : forallb (fun z => forallb (fun c => isSome (digit_val c)) (octet z))
                (map Z.of_nat (seq 0 256)) = true) by (vm_compute; done).
  rewrite forallb_forall in H. rewrite Forall_forall. setoid_rewrite list_elem_of_In.
  apply forallb_forall, H, in_map_iff. exists (Z.to_nat z).
  split; [lia|]. apply in_seq. lia.
Qed.

Lemma ParseAddr_AddrString4 ip : 0 <= ip < 2 ^ 32 -> ParseAddr (AddrString (Addr4 ip)) = Ok (Addr4 ip).
Proof.
  intros Hip. unfold ParseAddr, AddrString. rewrite bytes_of_string_of.
  rewrite parse_dispatch_v4.
  - rewrite v4_fields_string4, be4_split by done. done.
  - unfold string4. eexists _, _. split; [done|].
    apply octet_digits, land255_range, Z.shiftr_nonneg. lia.
Qed.

(** ** Printed IPv6 addresses parse back *)

(** Reading one printed group, checked for all 65536 values: the digits are
    hexadecimal, at most four, and denote the group. *)
Definition group_reads (x : Z) : bool :=
  forallb (fun c => isSome (hex_val c)) (appendHex x)
  && negb (length (appendHex x) =? 0)%nat
  && bool_decide (hex_field 0 0 (appendHex x) = Some (Z.of_nat (length (appendHex x)), x, [])).

Lemma group_reads_all x : 0 <= x < 65536 -> group_reads x = true.
Proof.
  intros Hx.
  assert (H : forallb (fun h => forallb (fun l => group_reads (256 * h + l)) (map Z.of_nat (seq 0 256)))
                (map Z.of_nat (seq 0 256)) = true) by (vm_compute; done).
  rewrite forallb_forall in H. specialize (H (x / 256)). rewrite forallb_forall in H.
  rewrite (Z.div_mod x 256) by lia.
  apply H; apply in_map_iff; [exists (Z.to_nat (x / 256))|exists (Z.to_nat (x mod 256))];
    rewrite in_seq; int_lia.
Qed.

(** A rest that cannot extend a group. *)
Definition stops (rest : list ascii) : Prop :=
  match rest with [] => True | c :: _ => hex_val c = None end.

Lemma hex_field_stops off acc s off' acc' rest :
  hex_field off acc s = Some (off', acc', []) -> stops rest ->
  hex_field off acc (s ++ rest) = Some (off', acc', rest).
Proof.
  intros H Hr. revert off acc H. induction s as [|c s IH]; intros off acc H; simpl in *.
  - simplify_eq. destruct rest as [|c rest]; [done|]. simpl in *. by rewrite Hr.
  - destruct (hex_val c); [|by simplify_eq]. destruct (3 <? off); [done|].
    destruct (65535 <? _); [done|]. by apply IH.
Qed.

Lemma group_head x : 0 <= x < 65536 -> exists c r, appendHex x = c :: r /\ isSome (hex_val c) = true.
Proof.
  intros Hx. apply group_reads_all in Hx. unfold group_reads in Hx.
  destruct (appendHex x) as [|c r]; [done|]. exists c, r. split; [done|].
  simpl in Hx. by destruct (isSome (hex_val c)).
Qed.

Lemma group_hex x : 0 <= x < 65536 -> Forall (fun c => isSome (hex_val c) = true) (appendHex x).
Proof.
  intros Hx. apply group_reads_all in Hx. unfold group_reads in Hx. bools.
  rewrite Forall_forall. setoid_rewrite list_elem_of_In. by apply forallb_forall.
Qed.

Lemma hex_field_group x rest :
  0 <= x < 65536 -> stops rest ->
  hex_field 0 0 (appendHex x ++ rest) = Some (Z.of_nat (length (appendHex x)), x, rest).
Proof.
  intros Hx Hr. apply hex_field_stops; [|done]. apply group_reads_all in Hx.
  unfold group_reads in Hx. by bools.
Qed.

Lemma group_nonempty x : 0 <= x < 65536 -> (Z.of_nat (length (appendHex x)) =? 0) = false.
Proof. intros Hx. destruct (group_head x Hx) as (c & r & -> & _). done. Qed.

Definition colon : ascii := ":"%char.
Definition group_bytes (x : Z) : list Z := [Z.shiftr x 8; Z.land x 255].

Fixpoint join_tail (gs : list Z) : list ascii :=
  match gs with [] => [] | x :: r => colon :: appendHex x ++ join_tail r end.
Definition join (gs : list Z) : list ascii :=
  match gs with [] => [] | x :: r => appendHex x ++ join_tail r end.

Definition u16s (gs : list Z) : Prop := Forall (fun x => 0 <= x < 65536) gs.

(** One round of the loop on a group followed by another one. *)
Lemma v6_round_more n x y r tl ip ell :
  0 <= x < 65536 -> 0 <= y < 65536 ->
  v6_groups (S n) (appendHex x ++ (colon :: appendHex y ++ r) ++ tl) ip ell
  = v6_groups n (appendHex y ++ r ++ tl) (ip ++ group_bytes x) ell.
Proof.
  intros Hx Hy. cbn [v6_groups]. rewrite hex_field_group by done.
  rewrite group_nonempty by done. cbn [app]. unfold colon at 1 2.
  change (Ascii.eqb ":" ".") with false. change (Ascii.eqb ":" ":") with true. cbn [negb].
  rewrite <- app_assoc. destruct (group_head y Hy) as (c & q & -> & Hc). cbn [app].
  destruct (Ascii.eqb c ":"%char) eqn:E; [apply Ascii.eqb_eq in E as ->; done|]. done.
Qed.

Lemma v6_groups_join n gs ip ell :
  gs <> [] -> u16s gs -> (length gs <= n)%nat ->
  v6_groups n (join gs) ip ell = Some ([], ip ++ concat (map group_bytes gs), ell).
Proof.
  revert n ip. induction gs as [|x gs IH]; intros n ip Hne Hu Hn; [done|].
  apply Forall_cons in Hu as [Hx Hu]. destruct n as [|n]; [simpl in Hn; lia|].
  destruct gs as [|y gs].
  - cbn [join join_tail v6_groups]. rewrite hex_field_group, group_nonempty by done. done.
  - pose proof Hu as [Hy _]%Forall_cons. cbn [join join_tail].
    pose proof (v6_round_more n x y (join_tail gs) [] ip ell Hx Hy) as R. rewrite !app_nil_r in R.
    rewrite R. rewrite (IH n) by (done || (simpl in *; lia)).
    cbn [map concat]. by rewrite <- app_assoc.
Qed.

Lemma v6_groups_ellipsis n gs hs ip :
  gs <> [] -> u16s gs -> u16s hs -> (length gs + length hs < n)%nat ->
  v6_groups n (join gs ++ colon :: colon :: join hs) ip None
  = Some ([], ip ++ concat (map group_bytes (gs ++ hs)), Some (length ip + 2 * length gs)%nat).
Proof.
  revert n ip. induction gs as [|x gs IH]; intros n ip Hne Hu Hh Hn; [done|].
  apply Forall_cons in Hu as [Hx Hu]. destruct n as [|n]; [simpl in Hn; lia|].
  destruct gs as [|y gs].
  - cbn [join join_tail v6_groups app]. rewrite app_nil_r, hex_field_group, group_nonempty by done.
    unfold colon at 1 2 3. change (Ascii.eqb ":" ".") with false. change (Ascii.eqb ":" ":") with true.
    cbn [negb isSome]. fold (group_bytes x).
    replace (length (ip ++ group_bytes x)) with (length ip + 2 * 1)%nat by (rewrite length_app; simpl; lia).
    destruct hs as [|h hs].
    + cbn [join map concat]. by rewrite app_nil_r.
    + assert (exists c r, join (h :: hs) = c :: r) as (c & r & E).
      { apply Forall_cons in Hh as [Hh _]. destruct (group_head h Hh) as (c & r & E & _).
        cbn [join]. rewrite E. cbn. eauto. }
      rewrite E, <- E, v6_groups_join by (done || (simpl in *; lia)).
      cbn [map concat]. by rewrite <- app_assoc.
  - pose proof Hu as [Hy _]%Forall_cons. cbn [join join_tail].
    rewrite <- app_assoc, v6_round_more by done.
    rewrite app_assoc. change (appendHex y ++ join_tail gs) with (join (y :: gs)).
    rewrite (IH n) by (done || (simpl in *; lia)).
    cbn [app map concat]. rewrite <- app_assoc. f_equal. f_equal. f_equal.
    rewrite length_app. simpl. lia.
Qed.

(** The characters of a printed IPv6 address contain no ['%']. *)
Definition no_percent (l : list ascii) : Prop := Forall (fun c => Ascii.eqb c "%"%char = false) l.

Lemma no_percent_hex l : Forall (fun c => isSome (hex_val c) = true) l -> no_percent l.
Proof.
  intros H. eapply Forall_impl; [exact H|]. intros c Hc. apply Ascii.eqb_neq. intros ->. done.
Qed.

Lemma no_percent_join_tail gs : u16s gs -> no_percent (join_tail gs).
Proof.
  induction 1 as [|x gs Hx Hu IH]; [constructor|]. simpl. constructor; [done|].
  apply Forall_app. split; [by apply no_percent_hex, group_hex|done].
Qed.

Lemma no_percent_join gs : u16s gs -> no_percent (join gs).
Proof.
  destruct 1 as [|x gs Hx Hu]; [constructor|]. simpl.
  apply Forall_app. split; [by apply no_percent_hex, group_hex|by apply no_percent_join_tail].
Qed.

Lemma split_zone_none l : no_percent l -> split_zone l = (l, None).
Proof. induction 1 as [|c l Hc _ IH]; [done|]. simpl. by rewrite Hc, IH. Qed.

(** [ParseAddr] hands a string with a colon before any dot to [parseIPv6]. *)
Lemma parse_dispatch_v6 input l :
  (exists d r, l = d ++ colon :: r /\ Forall (fun c => isSome (hex_val c) = true) d) ->
  parse_dispatch input l = parseIPv6 input.
Proof.
  intros (d & r & -> & Hd). induction Hd as [|c d Hc Hd IH]; simpl; [done|].
  destruct (Ascii.eqb c "."%char) eqn:E1; [apply Ascii.eqb_eq in E1 as ->; done|].
  destruct (Ascii.eqb c ":"%char) eqn:E2; [done|].
  destruct (Ascii.eqb c "%"%char) eqn:E3; [apply Ascii.eqb_eq in E3 as ->; done|]. done.
Qed.

Lemma length_group_bytes gs : length (concat (map group_bytes gs)) = (2 * length gs)%nat.
Proof. induction gs as [|x gs IH]; [done|]. simpl in *. lia. Qed.

Lemma parseIPv6_full gs :
  u16s gs -> length gs = 8%nat ->
  parseIPv6 (join gs) = Some (Addr6 (be (concat (map group_bytes gs))) "").
Proof.
  intros Hu Hl. unfold parseIPv6. rewrite split_zone_none by (by apply no_percent_join).
  cbn [default string_of].
  assert (Hell : match join gs with
                 | a :: b :: r => if Ascii.eqb a ":"%char && Ascii.eqb b ":"%char then (r, Some 0%nat) else (join gs, None)
                 | _ => (join gs, None)
                 end = (join gs, None)).
  { destruct gs as [|x gs]; [done|]. apply Forall_cons in Hu as [Hx _]. cbn [join].
    destruct (group_head x Hx) as (c & r & -> & Hc). cbn [app].
    destruct (r ++ join_tail gs) as [|b q]; [done|].
    destruct (Ascii.eqb c ":"%char) eqn:E; [apply Ascii.eqb_eq in E as ->; done|]. done. }
  rewrite Hell. cbn [isSome andb].
  rewrite v6_groups_join by (done || lia || by destruct gs). cbn [app].
  by rewrite length_group_bytes, Hl.
Qed.

Lemma parseIPv6_ellipsis gs hs :
  u16s gs -> u16s hs -> (length gs + length hs < 8)%nat ->
  parseIPv6 (join gs ++ colon :: colon :: join hs)
  = Some (Addr6 (be (concat (map group_bytes gs) ++ replicate (16 - 2 * length gs - 2 * length hs) 0
                     ++ concat (map group_bytes hs))) "").
Proof.
  intros Hu Hh Hl. unfold parseIPv6.
  rewrite split_zone_none by (apply Forall_app; split; [by apply no_percent_join|];
    constructor; [done|]; constructor; [done|]; by apply no_percent_join).
  cbn [default string_of].
  destruct gs as [|x gs].
  - cbn [join app]. unfold colon at 1 2. change (Ascii.eqb ":" ":") with true. cbn [andb isSome].
    destruct hs as [|h hs]; [done|].
    assert (exists c r, join (h :: hs) = c :: r) as (c & r & E).
    { apply Forall_cons in Hh as [Hh _]. destruct (group_head h Hh) as (c & r & E & _).
      cbn [join]. rewrite E. cbn. eauto. }
    rewrite E, <- E, v6_groups_join by (done || (simpl in *; lia)). cbn [app].
    rewrite length_group_bytes. destruct (Nat.ltb_spec (2 * length (h :: hs)) 16); [|simpl in *; lia].
    rewrite take_0, drop_0. done.
  - assert (Hell : forall l, match (join (x :: gs) ++ l) with
                 | a :: b :: r => if Ascii.eqb a ":"%char && Ascii.eqb b ":"%char then (r, Some 0%nat) else (join (x :: gs) ++ l, None)
                 | _ => (join (x :: gs) ++ l, None)
                 end = (join (x :: gs) ++ l, None)).
    { intros l. apply Forall_cons in Hu as [Hx _]. cbn [join].
      destruct (group_head x Hx) as (c & r & -> & Hc). cbn [app].
      destruct ((r ++ join_tail gs) ++ l) as [|b q]; [done|].
      destruct (Ascii.eqb c ":"%char) eqn:E; [apply Ascii.eqb_eq in E as ->; done|]. done. }
    rewrite Hell. cbn [isSome andb]. rewrite v6_groups_ellipsis by (done || lia).
    rewrite app_nil_l, length_group_bytes, length_app.
    destruct (Nat.ltb_spec (2 * (length (x :: gs) + length hs)) 16); [|lia].
    cbn [length Nat.add] in *. rewrite map_app, concat_app, take_app_length', drop_app_length'
      by (rewrite length_group_bytes; simpl; lia).
    do 6 f_equal. lia.
Qed.

(** The eight groups of an address and the printed form in terms of them. *)
Definition groups (ip : Z) : list Z := map (v6u16 ip) (seq 0 8).

Lemma v6u16_range ip i : 0 <= v6u16 ip i < 65536.
Proof.
  unfold v6u16. change 65535 with (Z.ones 16). rewrite Z.land_ones by lia.
  apply Z.mod_pos_bound. lia.
Qed.

Lemma groups_u16s ip : u16s (groups ip).
Proof. apply Forall_map, Forall_forall. intros. apply v6u16_range. Qed.

Lemma be_group l x : 0 <= x < 65536 -> be (l ++ group_bytes x) = be l * 65536 + x.
Proof.
  intros Hx. unfold group_bytes, be. rewrite foldl_app. cbn [foldl].
  change 255 with (Z.ones 8). rewrite Z.land_ones, Z.shiftr_div_pow2 by lia.
  Z.to_euclidean_division_equations; lia.
Qed.

Lemma be_groups ip n :
  (n <= 8)%nat -> 0 <= ip < 2 ^ 128 ->
  be (concat (map group_bytes (map (v6u16 ip) (seq 0 n)))) = ip / 2 ^ (16 * (8 - Z.of_nat n)).
Proof.
  intros Hn Hip. induction n as [|n IH].
  - simpl. rewrite Z.div_small; [done|lia].
  - rewrite seq_S, !map_app, concat_app. cbn [map concat]. rewrite app_nil_r, Nat.add_0_l.
    rewrite be_group by apply v6u16_range. rewrite IH by lia.
    unfold v6u16. change 65535 with (Z.ones 16). rewrite Z.land_ones, Z.shiftr_div_pow2 by lia.
    replace (16 * (8 - Z.of_nat n)) with (16 * (7 - Z.of_nat n) + 16) by lia.
    replace (8 - Z.of_nat (S n)) with (7 - Z.of_nat n) by lia.
    rewrite Z.pow_add_r, <- Z.div_div by lia.
    change (2 ^ 16) with 65536. generalize (ip / 2 ^ (16 * (7 - Z.of_nat n))). intros t.
    Z.to_euclidean_division_equations; lia.
Qed.

Lemma be_groups_all ip : 0 <= ip < 2 ^ 128 -> be (concat (map group_bytes (groups ip))) = ip.
Proof. intros Hip. unfold groups. rewrite be_groups by lia. apply Z.div_1_r. Qed.

Lemma zero_run_spec fuel ip j :
  (j <= 8)%nat ->
  (j <= zero_run fuel ip j <= 8)%nat /\ forall i, (j <= i < zero_run fuel ip j)%nat -> v6u16 ip i = 0.
Proof.
  revert j. induction fuel as [|n IH]; intros j Hj; simpl; [split; [lia|lia]|].
  destruct (Nat.ltb_spec j 8); simpl; [|split; lia].
  destruct (Z.eqb_spec (v6u16 ip j) 0) as [E|]; [|split; lia].
  destruct (IH (S j)) as [H1 H2]; [lia|]. split; [lia|]. intros i Hi.
  destruct (decide (i = j)) as [->|]; [done|]. apply H2. lia.
Qed.

Lemma longest_zeros_spec ip a b :
  longest_zeros ip = Some (a, b) ->
  (a < b <= 8)%nat /\ forall i, (a <= i < b)%nat -> v6u16 ip i = 0.
Proof.
  unfold longest_zeros.
  cut (forall l best, Forall (fun i => i <= 8)%nat l ->
    (forall a b, best = Some (a, b) -> (a < b <= 8)%nat /\ forall i, (a <= i < b)%nat -> v6u16 ip i = 0) ->
    forall a b, foldl (fun best i =>
      let j := zero_run 8 ip i in
      let l := (j - i)%nat in
      let current := match best with Some (a, b) => (b - a)%nat | None => O end in
      if (2 <=? l)%nat && (current <? l)%nat then Some (i, j) else best) best l = Some (a, b) ->
      (a < b <= 8)%nat /\ forall i, (a <= i < b)%nat -> v6u16 ip i = 0).
  { intros H. apply H; [|done]. repeat constructor. }
  clear a b. induction l as [|x l IH]; intros best Hl Hb a b; [by apply Hb|].
  apply Forall_cons in Hl as [Hx Hl]. cbn [foldl]. apply IH; [done|].
  intros a' b'. cbv zeta. destruct (zero_run_spec 8 ip x Hx) as [H1 H2].
  revert H1 H2. generalize (zero_run 8 ip x) as j. intros j H1 H2.
  destruct (Nat.leb_spec 2 (j - x)) as [H3|]; [|apply Hb]. cbn [andb].
  destruct (_ <? _)%nat; [|apply Hb]. intros [= <- <-]. split; [lia|done].
Qed.

Lemma print_groups_plain ip : print_groups 8 ip None 0 = join (groups ip).
Proof.
  unfold groups. cbn [print_groups join join_tail map seq Nat.leb Nat.ltb app].
  by rewrite app_nil_r.
Qed.

Lemma print_groups_ellipsis ip a b :
  (a < b <= 8)%nat ->
  print_groups 8 ip (Some (a, b)) 0
  = join (take a (groups ip)) ++ colon :: colon :: join (drop b (groups ip)).
Proof.
  intros H.
  assert (Ha : a ∈ seq 0 8) by (apply elem_of_seq; lia).
  assert (Hb : b ∈ seq 1 8) by (apply elem_of_seq; lia).
  unfold groups. revert H. cbn [seq] in Ha, Hb.
  repeat (apply elem_of_cons in Ha as [->|Ha]); [..|by apply elem_of_nil in Ha];
  (repeat (apply elem_of_cons in Hb as [->|Hb]); [..|by apply elem_of_nil in Hb]);
  intros H; try lia;
  cbn [print_groups join join_tail map seq take drop Nat.leb Nat.ltb Nat.eqb app];
  rewrite ?app_nil_r; repeat (progress (rewrite <- ?app_assoc; cbn [app])); reflexivity.
Qed.

Lemma groups_ellipsis_split ip a b :
  (a < b <= 8)%nat -> (forall i, (a <= i < b)%nat -> v6u16 ip i = 0) ->
  groups ip = take a (groups ip) ++ replicate (b - a) 0 ++ drop b (groups ip).
Proof.
  intros Hab Hz. rewrite <- (take_drop a (groups ip)) at 1. f_equal.
  rewrite <- (take_drop (b - a) (drop a (groups ip))), drop_drop.
  replace (a + (b - a))%nat with b by lia. f_equal.
  unfold groups. apply list_eq_Forall2.
  apply Forall2_same_length_lookup. split.
  { rewrite length_take, length_drop, length_map, length_seq, length_replicate. lia. }
  intros i x y Hx Hy. apply lookup_replicate in Hy as [-> Hi].
  rewrite lookup_take, decide_True, lookup_drop in Hx by lia.
  rewrite list_lookup_fmap in Hx.
  rewrite lookup_seq_lt in Hx by lia. simplify_eq/=. apply Hz. lia.
Qed.

Lemma bytes_of_app a b : bytes_of (a +:+ b) = bytes_of a ++ bytes_of b.
Proof. induction a as [|c a IH]; [done|]. unfold bytes_of in *. simpl. by rewrite IH. Qed.

Lemma printed_hex_colon ip :
  exists d r, print_groups 8 ip (longest_zeros ip) 0 = d ++ colon :: r
    /\ Forall (fun c => isSome (hex_val c) = true) d.
Proof.
  destruct (longest_zeros ip) as [[a b]|] eqn:E.
  - apply longest_zeros_spec in E as [Hab _]. rewrite print_groups_ellipsis by done.
    unfold groups. destruct a as [|a]; [by exists [], (colon :: join (drop b (map (v6u16 ip) (seq 0 8))))|].
    cbn [seq map take join]. rewrite <- app_assoc.
    destruct (join_tail _ ++ _) as [|c r] eqn:Et.
    { apply app_eq_nil in Et as [_ ?]. done. }
    exists (appendHex (v6u16 ip 0)), r. split; [|apply group_hex, v6u16_range]. f_equal. f_equal.
    destruct (take a _); simpl in Et; by simplify_eq.
  - rewrite print_groups_plain. unfold groups. cbn [seq map join join_tail].
    eexists _, _. split; [done|]. apply group_hex, v6u16_range.
Qed.

Lemma parseIPv6_printed ip :
  0 <= ip < 2 ^ 128 -> parseIPv6 (print_groups 8 ip (longest_zeros ip) 0) = Some (Addr6 ip "").
Proof.
  intros Hip. pose proof (groups_u16s ip) as Hu. destruct (longest_zeros ip) as [[a b]|] eqn:E.
  - apply longest_zeros_spec in E as [Hab Hz].
    pose proof (groups_ellipsis_split ip a b Hab Hz) as Hs.
    assert (Hl : length (groups ip) = 8%nat) by (unfold groups; by rewrite length_map, length_seq).
    assert (length (take a (groups ip)) = a) by (rewrite length_take; lia).
    assert (length (drop b (groups ip)) = 8 - b)%nat by (rewrite length_drop; lia).
    rewrite print_groups_ellipsis by done.
    rewrite parseIPv6_ellipsis; [|by apply Forall_take|by apply Forall_drop|lia].
    f_equal. f_equal. pose proof (be_groups_all ip Hip) as Hbe. rewrite Hs in Hbe.
    rewrite <- Hbe at 5. clear Hbe Hs. revert H H0.
    generalize (take a (groups ip)) (drop b (groups ip)). intros gs hs -> ->.
    rewrite !map_app, !concat_app. f_equal. f_equal. f_equal.
    replace (16 - _ - _)%nat with (2 * (b - a))%nat by lia.
    generalize (b - a)%nat as n. induction n as [|n IH]; [done|].
    replace (2 * S n)%nat with (S (S (2 * n))) by lia. cbn [replicate map concat].
    rewrite IH. done.
  - rewrite print_groups_plain, parseIPv6_full; [|done|unfold groups; by rewrite length_map, length_seq].
    by rewrite be_groups_all.
Qed.

(** An octet read as a hexadecimal group stops at the dot. *)
Lemma hex_field_octet z rest :
  0 <= z < 256 -> exists off acc, 0 < off /\
    hex_field 0 0 (octet z ++ "."%char :: rest) = Some (off, acc, "."%char :: rest).
Proof.
  intros Hz.
  assert (H : forallb (fun z => match hex_field 0 0 (octet z) with
                                | Some (off, _, []) => 0 <? off | _ => false end)
                (map Z.of_nat (seq 0 256)) = true) by (vm_compute; done).
  rewrite forallb_forall in H. specialize (H z).
  destruct (hex_field 0 0 (octet z)) as [[[off acc] [|]]|] eqn:E;
    (lapply H; [|apply in_map_iff; exists (Z.to_nat z); split; [lia|apply in_seq; lia]]); try done.
  intros Ho. bools. exists off, acc. split; [done|]. by apply hex_field_stops.
Qed.

Lemma parseIPv6_mapped x :
  0 <= x < 2 ^ 32 ->
  parseIPv6 (bytes_of "::ffff:" ++ string4 x) = Some (Addr6 (65535 * 2 ^ 32 + x) "").
Proof.
  intros Hx. unfold parseIPv6.
  assert (Hr : forall k, 0 <= k -> 0 <= Z.land (Z.shiftr x k) 255 < 256)
    by (intros; apply land255_range, Z.shiftr_nonneg; lia).
  assert (H0 : 0 <= Z.land x 255 < 256) by (apply land255_range; lia).
  assert (Hdig : forall z, 0 <= z < 256 -> no_percent (octet z)).
  { intros z Hz. eapply Forall_impl; [by apply octet_digits|]. intros c Hc.
    apply Ascii.eqb_neq. intros ->. done. }
  rewrite split_zone_none.
  2:{ apply Forall_app. split; [repeat constructor|]. unfold string4.
      repeat (apply Forall_app; split); try (apply Hdig; auto with lia); repeat constructor. }
  cbn [default string_of].
  change (bytes_of "::ffff:" ++ string4 x) with
    (colon :: colon :: (appendHex 65535 ++ colon :: string4 x)).
  unfold colon at 1 2. change (Ascii.eqb ":" ":") with true. cbn [andb].
  assert (Hne : exists c r, appendHex 65535 ++ colon :: string4 x = c :: r) by (vm_compute; eauto).
  destruct Hne as (c0 & r0 & E0). rewrite E0. cbn [isSome]. rewrite <- E0. clear c0 r0 E0.
  cbn [v6_groups]. rewrite (hex_field_group 65535) by (done || lia).
  rewrite group_nonempty by lia. change (Ascii.eqb colon ".") with false.
  change (Ascii.eqb colon ":") with true. cbn [negb].
  pose proof (v4_fields_string4 x Hx) as Hf. revert Hf.
  set (F := [_; _; _; _]). intros Hf.
  destruct (octet_cons _ (Hr 24 ltac:(lia))) as (c & r & Ec & _ & Hc & _).
  assert (Es : exists t, string4 x = c :: t) by (unfold string4; rewrite Ec; cbn; eauto).
  destruct Es as [t Es]. rewrite Es, Hc, <- Es.
  unfold string4 at 1.
  destruct (hex_field_octet _ (octet (Z.land (Z.shiftr x 16) 255) ++ ["."%char]
    ++ octet (Z.land (Z.shiftr x 8) 255) ++ ["."%char] ++ octet (Z.land x 255)) (Hr 24 ltac:(lia)))
    as (off & acc & Hoff & Eh).
  cbn [app] in Eh |- *. rewrite Eh. rewrite (proj2 (Z.eqb_neq off 0)) by lia.
  change (Ascii.eqb "." ".") with true. cbn [isSome negb andb length Nat.ltb Nat.leb Nat.add].
  rewrite Hf. subst F. cbn [app length Nat.ltb Nat.leb].
  cbn [take drop Nat.sub replicate app].
  f_equal. f_equal. rewrite <- (be4_split x Hx) at 5.
  unfold be. cbn [foldl]. change (Z.shiftr 65535 8) with 255. change (Z.land 65535 255) with 255. lia.
Qed.

(** Printed addresses parse back (an address without a zone). *)
Lemma ParseAddr_AddrString a :
  addr_ok a -> hasZone a = false -> ParseAddr (AddrString a) = Ok a.
Proof.
  destruct a as [ip|ip zone]; [intros; by apply ParseAddr_AddrString4|].
  intros Hip Hz. simpl in Hz. apply negb_false_iff in Hz. apply String.eqb_eq in Hz as ->.
  simpl in Hip. unfold ParseAddr, AddrString. rewrite !bytes_of_app. cbn [String.eqb].
  change (bytes_of "") with (@nil ascii). rewrite app_nil_r.
  destruct (Is4In6 (Addr6 ip "")) eqn:E.
  - unfold Is4In6 in E. apply Z.eqb_eq in E. rewrite bytes_of_app, bytes_of_string_of.
    rewrite Z.shiftr_div_pow2 in E by lia.
    rewrite parse_dispatch_v6 by (exists [], (skipn 1 (bytes_of "::ffff:") ++ string4 (Z.land ip (2 ^ 32 - 1))); done).
    change (2 ^ 32 - 1) with (Z.ones 32). rewrite Z.land_ones by lia.
    rewrite parseIPv6_mapped by (apply Z.mod_pos_bound; lia).
    f_equal. f_equal. Z.to_euclidean_division_equations; lia.
  - rewrite bytes_of_string_of.
    rewrite parse_dispatch_v6 by apply printed_hex_colon. by rewrite parseIPv6_printed.
Qed.
