(* ===== verification/JsonText.v ===== *)
(** The text of JSON, as [encoding/json] of Go 1.22 writes and scans it:
    string literals with their escapes over UTF-8, number literals, and values
    with the compact output of [json.Marshal].

    A value keeps its literals as they are written, since [time.Time] decodes
    from the raw literal and numbers are converted by the type they are
    stored in. *)
From S2P Require Import Prelude GoStrings Decimal Netip.

#[local] Open Scope Z_scope.

(** ** UTF-8 *)

Definition byte_in (lo hi : Z) (c : ascii) : bool := (lo <=? byteZ c) && (byteZ c <=? hi).
Definition cont : ascii -> bool := byte_in 128 191.

(** The well-formed sequences of two, three and four bytes: the tables
    [first] and [acceptRanges] of unicode/utf8. *)
Definition seq2 (a b : ascii) : bool := byte_in 194 223 a && cont b.
Definition seq3 (a b c : ascii) : bool :=
  cont c &&
  (if byteZ a =? 224 then byte_in 160 191 b
   else if byteZ a =? 237 then byte_in 128 159 b
   else byte_in 225 239 a && cont b).
Definition seq4 (a b c d : ascii) : bool :=
  cont c && cont d &&
  (if byteZ a =? 240 then byte_in 144 191 b
   else if byteZ a =? 244 then byte_in 128 143 b
   else byte_in 241 243 a && cont b).

(** What [utf8.DecodeRune] finds one after the other: a well-formed sequence,
    or a byte that starts none ([RuneError] of width one). *)
Inductive Rune := Valid (bytes : list ascii) | Invalid (c : ascii).

Fixpoint runes (l : list ascii) : list Rune :=
  match l with
  | [] => []
  | a :: t1 =>
      if is_ascii a then Valid [a] :: runes t1 else
      match t1 with
      | [] => Invalid a :: runes t1
      | b :: t2 =>
          if seq2 a b then Valid [a; b] :: runes t2 else
          match t2 with
          | [] => Invalid a :: runes t1
          | c :: t3 =>
              if seq3 a b c then Valid [a; b; c] :: runes t3 else
              match t3 with
              | [] => Invalid a :: runes t1
              | d :: t4 => if seq4 a b c d then Valid [a; b; c; d] :: runes t4 else Invalid a :: runes t1
              end
          end
      end
  end.

Definition replacement : list ascii := map chr [239; 191; 189].
Definition rune_bytes (r : Rune) : list ascii := match r with Valid l => l | Invalid _ => replacement end.

(** [strings.ToValidUTF8] with the replacement character, byte by byte. *)
Definition sanitize (l : list ascii) : list ascii := concat (map rune_bytes (runes l)).
Definition rune_ok (r : Rune) : bool := match r with Valid _ => true | Invalid _ => false end.
Definition valid_utf8 (s : string) : bool := forallb rune_ok (runes (bytes_of s)).

(** [utf8.EncodeRune] of a code point that is no surrogate. *)
Definition EncodeRune (r : Z) : list ascii :=
  if r <? 128 then [chr r]
  else if r <? 2048 then [chr (192 + r / 64); chr (128 + r mod 64)]
  else if r <? 65536 then [chr (224 + r / 4096); chr (128 + r / 64 mod 64); chr (128 + r mod 64)]
  else [chr (240 + r / 262144); chr (128 + r / 4096 mod 64); chr (128 + r / 64 mod 64); chr (128 + r mod 64)].

(** ** String literals *)

Definition quote_char : ascii := chr 34.
Definition backslash : ascii := chr 92.

(** [appendString] with [escapeHTML], between the quotes. *)
Definition hex_lower (z : Z) : ascii := chr (if z <? 10 then 48 + z else 87 + z).
Definition quote_ascii (c : ascii) : list ascii :=
  let z := byteZ c in
  if (z =? 34) || (z =? 92) then [backslash; c]
  else if z =? 8 then [backslash; "b"%char]
  else if z =? 12 then [backslash; "f"%char]
  else if z =? 10 then [backslash; "n"%char]
  else if z =? 13 then [backslash; "r"%char]
  else if z =? 9 then [backslash; "t"%char]
  else if (z <? 32) || (z =? 60) || (z =? 62) || (z =? 38)
  then [backslash; "u"%char; "0"%char; "0"%char; hex_lower (z / 16); hex_lower (z mod 16)]
  else [c].
Definition quote_rune (r : Rune) : list ascii :=
  match r with
  | Invalid _ => backslash :: bytes_of "ufffd"
  | Valid [c] => quote_ascii c
  | Valid l =>
      if bool_decide (l = map chr [226; 128; 168]) then backslash :: bytes_of "u2028"
      else if bool_decide (l = map chr [226; 128; 169]) then backslash :: bytes_of "u2029"
      else l
  end.
Definition quote (l : list ascii) : list ascii := concat (map quote_rune (runes l)).

(** [stateInString] and its escapes, from after the opening quote: the
    literal without its quotes and what follows. *)
Definition prepend (p : list ascii) (r : option (list ascii * list ascii)) : option (list ascii * list ascii) :=
  match r with Some (raw, rest) => Some (p ++ raw, rest) | None => None end.
Definition is_hex (c : ascii) : bool := isSome (hex_val c).
Definition simple_escape (c : ascii) : bool :=
  existsb (Ascii.eqb c) ["b"%char; "f"%char; "n"%char; "r"%char; "t"%char; backslash; "/"%char; quote_char].

Fixpoint scan_string (l : list ascii) : option (list ascii * list ascii) :=
  match l with
  | [] => None
  | c :: t =>
      if Ascii.eqb c quote_char then Some ([], t)
      else if Ascii.eqb c backslash then
        match t with
        | [] => None
        | e :: t2 =>
            if simple_escape e then prepend [c; e] (scan_string t2)
            else if Ascii.eqb e "u"%char then
              match t2 with
              | x1 :: x2 :: x3 :: x4 :: t6 =>
                  if is_hex x1 && is_hex x2 && is_hex x3 && is_hex x4
                  then prepend [c; e; x1; x2; x3; x4] (scan_string t6) else None
              | _ => None
              end
            else None
        end
      else if byteZ c <? 32 then None
      else prepend [c] (scan_string t)
  end.

(** [unquoteBytes] of a scanned literal. *)
Definition u4 (x1 x2 x3 x4 : ascii) : Z :=
  let v c := default 0 (hex_val c) in ((v x1 * 16 + v x2) * 16 + v x3) * 16 + v x4.
Definition surrogate (r : Z) : bool := (55296 <=? r) && (r <? 57344).
(** [utf16.DecodeRune]; [None] is the replacement character. *)
Definition utf16_pair (r1 r2 : Z) : option Z :=
  if (55296 <=? r1) && (r1 <? 56320) && (56320 <=? r2) && (r2 <? 57344)
  then Some ((r1 - 55296) * 1024 + (r2 - 56320) + 65536) else None.
Definition unescape_char (e : ascii) : ascii :=
  if Ascii.eqb e "b"%char then chr 8 else if Ascii.eqb e "f"%char then chr 12
  else if Ascii.eqb e "n"%char then chr 10 else if Ascii.eqb e "r"%char then chr 13
  else if Ascii.eqb e "t"%char then chr 9 else e.

Fixpoint unquote (raw : list ascii) : list ascii :=
  match raw with
  | [] => []
  | a :: t1 =>
      if Ascii.eqb a backslash then
        match t1 with
        | [] => []
        | e :: t2 =>
            if Ascii.eqb e "u"%char then
              match t2 with
              | x1 :: x2 :: x3 :: x4 :: t6 =>
                  let rr := u4 x1 x2 x3 x4 in
                  if surrogate rr then
                    match t6 with
                    | b :: u :: y1 :: y2 :: y3 :: y4 :: t12 =>
                        if Ascii.eqb b backslash && Ascii.eqb u "u"%char then
                          match utf16_pair rr (u4 y1 y2 y3 y4) with
                          | Some r => EncodeRune r ++ unquote t12
                          | None => replacement ++ unquote t6
                          end
                        else replacement ++ unquote t6
                    | _ => replacement ++ unquote t6
                    end
                  else EncodeRune rr ++ unquote t6
              | _ => []
              end
            else unescape_char e :: unquote t2
        end
      else if is_ascii a then a :: unquote t1 else
      match t1 with
      | [] => replacement ++ unquote t1
      | b :: t2 =>
          if seq2 a b then a :: b :: unquote t2 else
          match t2 with
          | [] => replacement ++ unquote t1
          | c :: t3 =>
              if seq3 a b c then a :: b :: c :: unquote t3 else
              match t3 with
              | [] => replacement ++ unquote t1
              | d :: t4 => if seq4 a b c d then a :: b :: c :: d :: unquote t4 else replacement ++ unquote t1
              end
          end
      end
  end.

(** *** Round trip of literals *)

(** The shape of what [runes] yields. *)
Inductive rune_shape : Rune -> Prop :=
| shape1 a : is_ascii a = true -> rune_shape (Valid [a])
| shape2 a b : is_ascii a = false -> seq2 a b = true -> rune_shape (Valid [a; b])
| shape3 a b c : is_ascii a = false -> seq2 a b = false -> seq3 a b c = true -> rune_shape (Valid [a; b; c])
| shape4 a b c d : is_ascii a = false -> seq2 a b = false -> seq3 a b c = false -> seq4 a b c d = true ->
    rune_shape (Valid [a; b; c; d])
| shape0 a : is_ascii a = false -> rune_shape (Invalid a).

Lemma runes_shape l : Forall rune_shape (runes l).
Proof.
  induction l as [l IH] using (induction_ltof1 _ (@length ascii)). unfold ltof in IH.
  assert (IHt : forall k, (length k < length l)%nat -> Forall rune_shape (runes k)) by exact IH. clear IH.
  destruct l as [|a t1]; [constructor|]. cbn [runes].
  destruct (is_ascii a) eqn:Ea; [constructor; [by constructor|apply IHt; cbn; lia]|].
  assert (Hinv : Forall rune_shape (Invalid a :: runes t1)) by (constructor; [by constructor|apply IHt; cbn; lia]).
  destruct t1 as [|b t2]; [done|]. destruct (seq2 a b) eqn:E2; [constructor; [by constructor|apply IHt; cbn; lia]|].
  destruct t2 as [|c t3]; [done|]. destruct (seq3 a b c) eqn:E3; [constructor; [by constructor|apply IHt; cbn; lia]|].
  destruct t3 as [|d t4]; [done|]. destruct (seq4 a b c d) eqn:E4; [constructor; [by constructor|apply IHt; cbn; lia]|done].
Qed.

(** A byte above 127 is neither a quote, a backslash nor a control. *)
Lemma high_byte a : is_ascii a = false ->
  Ascii.eqb a quote_char = false /\ Ascii.eqb a backslash = false /\ (byteZ a <? 32) = false.
Proof. destruct a as [[] [] [] [] [] [] [] []]; vm_compute; repeat split; done. Qed.

Lemma cont_high a : cont a = true -> is_ascii a = false.
Proof. unfold cont, byte_in, is_ascii. intros H. bools. apply Z.ltb_ge. lia. Qed.

Lemma scan_high a l : is_ascii a = false -> scan_string (a :: l) = prepend [a] (scan_string l).
Proof. intros (E1 & E2 & E3)%high_byte. cbn [scan_string]. by rewrite E1, E2, E3. Qed.

Lemma seq2_high a b : seq2 a b = true -> is_ascii b = false.
Proof. unfold seq2. intros H. bools. by apply cont_high. Qed.

Lemma byte_in_high lo hi a : byte_in lo hi a = true -> 128 <= lo -> is_ascii a = false.
Proof. unfold byte_in, is_ascii. intros H Hlo. bools. apply Z.ltb_ge. lia. Qed.

Lemma seq3_high a b c : seq3 a b c = true -> is_ascii b = false /\ is_ascii c = false.
Proof.
  unfold seq3. intros H. bools. split; [|by apply cont_high].
  repeat case_match; bools; first [by apply cont_high|eapply byte_in_high; [eassumption|lia]].
Qed.

Lemma seq4_high a b c d : seq4 a b c d = true -> is_ascii b = false /\ is_ascii c = false /\ is_ascii d = false.
Proof.
  unfold seq4. intros H. bools. split_and!; [|by apply cont_high..].
  repeat case_match; bools; first [by apply cont_high|eapply byte_in_high; [eassumption|lia]].
Qed.

Lemma quote_ascii_scan a k : is_ascii a = true -> scan_string (quote_ascii a ++ k) = prepend (quote_ascii a) (scan_string k).
Proof. destruct a as [[] [] [] [] [] [] [] []]; intros H; try discriminate H; reflexivity. Qed.

Lemma quote_ascii_unquote a k : is_ascii a = true -> unquote (quote_ascii a ++ k) = a :: unquote k.
Proof. destruct a as [[] [] [] [] [] [] [] []]; intros H; try discriminate H; reflexivity. Qed.

Lemma prepend_prepend p q r : prepend p (prepend q r) = prepend (p ++ q) r.
Proof. destruct r as [[raw rest]|]; cbn; [by rewrite app_assoc|done]. Qed.

Lemma quote_rune_scan r k : rune_shape r -> scan_string (quote_rune r ++ k) = prepend (quote_rune r) (scan_string k).
Proof.
  destruct 1 as [a Ha|a b Ha H2|a b c Ha _ H3|a b c d Ha _ _ H4|a Ha].
  - by apply quote_ascii_scan.
  - apply seq2_high in H2. cbn [quote_rune]. rewrite !bool_decide_eq_false_2 by done.
    cbn [app]. by rewrite !scan_high, !prepend_prepend.
  - apply seq3_high in H3 as [? ?]. cbn [quote_rune]. do 2 (case_bool_decide; [done|]).
    cbn [app]. by rewrite !scan_high, !prepend_prepend.
  - apply seq4_high in H4 as (? & ? & ?). cbn [quote_rune]. rewrite !bool_decide_eq_false_2 by done.
    cbn [app]. by rewrite !scan_high, !prepend_prepend.
  - done.
Qed.

Lemma quote_rune_unquote r k : rune_shape r -> unquote (quote_rune r ++ k) = rune_bytes r ++ unquote k.
Proof.
  destruct 1 as [a Ha|a b Ha H2|a b c Ha H2 H3|a b c d Ha H2 H3 H4|a Ha].
  - by apply quote_ascii_unquote.
  - destruct (high_byte a Ha) as (_ & Eb & _). cbn [quote_rune]. rewrite !bool_decide_eq_false_2 by done.
    cbn [app unquote rune_bytes]. by rewrite Eb, Ha, H2.
  - destruct (high_byte a Ha) as (_ & Eb & _). cbn [quote_rune rune_bytes].
    case_bool_decide as E1; [rewrite E1; reflexivity|]. case_bool_decide as E2; [rewrite E2; reflexivity|].
    cbn [app unquote]. by rewrite Eb, Ha, H2, H3.
  - destruct (high_byte a Ha) as (_ & Eb & _). cbn [quote_rune]. rewrite !bool_decide_eq_false_2 by done.
    cbn [app unquote rune_bytes]. by rewrite Eb, Ha, H2, H3, H4.
  - reflexivity.
Qed.

Lemma quote_scan l k : scan_string (quote l ++ quote_char :: k) = Some (quote l, k).
Proof.
  unfold quote. induction (runes_shape l) as [|r rs Hr _ IH]; [done|]. cbn [map concat].
  by rewrite <- app_assoc, quote_rune_scan, IH.
Qed.

(** Decoding an encoded string replaces every byte that is not UTF-8. *)
Lemma unquote_quote l : unquote (quote l) = sanitize l.
Proof.
  unfold quote, sanitize. induction (runes_shape l) as [|r rs Hr _ IH]; [done|]. cbn [map concat].
  by rewrite quote_rune_unquote, IH.
Qed.

Lemma runes_bytes l : concat (map (fun r => match r with Valid b => b | Invalid c => [c] end) (runes l)) = l.
Proof.
  induction l as [l IH] using (induction_ltof1 _ (@length ascii)). unfold ltof in IH.
  set (f := fun r => _) in *. assert (Hcat : forall r k, (length k < length l)%nat -> concat (map f (r :: runes k)) = f r ++ k)
    by (intros r k Hk; cbn [map concat]; by rewrite IH).
  destruct l as [|a t1]; [done|]. cbn [runes].
  destruct (is_ascii a); [by rewrite Hcat by (cbn; lia)|].
  assert (Hinv : concat (map f (Invalid a :: runes t1)) = a :: t1) by (by rewrite Hcat by (cbn; lia)).
  destruct t1 as [|b t2]; [done|]. destruct (seq2 a b); [by rewrite Hcat by (cbn; lia)|].
  destruct t2 as [|c t3]; [done|]. destruct (seq3 a b c); [by rewrite Hcat by (cbn; lia)|].
  destruct t3 as [|d t4]; [done|]. destruct (seq4 a b c d); [by rewrite Hcat by (cbn; lia)|done].
Qed.

Lemma sanitize_valid l : forallb rune_ok (runes l) = true -> sanitize l = l.
Proof.
  intros H. rewrite <- (runes_bytes l) at 2. unfold sanitize. f_equal. apply map_ext_in. intros r Hr.
  rewrite forallb_forall in H. apply H in Hr. by destruct r.
Qed.

(** ** Number literals *)

(** Digits, at least one. *)
Definition scan_digits (p : list ascii) (l : list ascii) : option (list ascii * list ascii) :=
  match span_digits l with
  | ([], _) => None
  | (ds, r) => Some (p ++ ds, r)
  end.

Definition scan_int (l : list ascii) : option (list ascii * list ascii) :=
  match l with
  | c :: t => if Ascii.eqb c "0"%char then Some ([c], t) else scan_digits [] l
  | [] => None
  end.
Definition scan_frac (l : list ascii) : option (list ascii * list ascii) :=
  match l with
  | c :: t => if Ascii.eqb c "."%char then scan_digits [c] t else Some ([], l)
  | [] => Some ([], l)
  end.
Definition scan_exp (l : list ascii) : option (list ascii * list ascii) :=
  match l with
  | c :: t =>
      if Ascii.eqb c "e"%char || Ascii.eqb c "E"%char then
        match t with
        | s :: t' => if Ascii.eqb s "+"%char || Ascii.eqb s "-"%char then scan_digits [c; s] t' else scan_digits [c] t
        | [] => None
        end
      else Some ([], l)
  | [] => Some ([], l)
  end.

Definition and_then (r : option (list ascii * list ascii)) (k : list ascii -> option (list ascii * list ascii))
    : option (list ascii * list ascii) :=
  match r with Some (p, rest) => prepend p (k rest) | None => None end.
Definition scan_unsigned (l : list ascii) : option (list ascii * list ascii) :=
  and_then (and_then (scan_int l) scan_frac) scan_exp.
(** [stateNeg], [state0], [state1], [stateDot], [stateE] and the rest. *)
Definition scan_number (l : list ascii) : option (list ascii * list ascii) :=
  match l with
  | c :: t => if Ascii.eqb c "-"%char then prepend [c] (scan_unsigned t) else scan_unsigned l
  | [] => None
  end.

(** What may follow a number literal. *)
Definition stop (l : list ascii) : bool :=
  match l with
  | [] => true
  | c :: _ => negb (is_digit c || Ascii.eqb c "."%char || Ascii.eqb c "e"%char || Ascii.eqb c "E"%char)
  end.

(** ** Values *)

#[warnings="-register-all"]
Inductive json :=
| JNull
| JBool (b : bool)
| JNumber (literal : list ascii)
| JString (raw : list ascii)
| JArray (elements : list json)
| JObject (members : list (list ascii * json)).

Section json_induction.
Context (P : json -> Prop).
Context (Hnull : P JNull) (Hbool : forall b, P (JBool b)) (Hnum : forall l, P (JNumber l)) (Hstr : forall l, P (JString l)).
Context (Harr : forall l, Forall P l -> P (JArray l)) (Hobj : forall l, Forall (fun m => P m.2) l -> P (JObject l)).

Fixpoint json_ind' (j : json) : P j :=
  match j with
  | JNull => Hnull
  | JBool b => Hbool b
  | JNumber l => Hnum l
  | JString l => Hstr l
  | JArray l => Harr l (list_ind (Forall P) (Forall_nil_2 P) (fun x r IH => Forall_cons_2 P x r (json_ind' x) IH) l)
  | JObject l =>
      Hobj l (list_ind (Forall (fun m => P m.2)) (Forall_nil_2 _)
                (fun x r IH => Forall_cons_2 (fun m => P m.2) x r (json_ind' x.2) IH) l)
  end.
End json_induction.

(** The compact text. *)
Fixpoint join (l : list (list ascii)) : list ascii :=
  match l with
  | [] => []
  | [x] => x
  | x :: r => x ++ ","%char :: join r
  end.
Definition quoted (raw : list ascii) : list ascii := quote_char :: raw ++ [quote_char].

Fixpoint render (j : json) : list ascii :=
  match j with
  | JNull => bytes_of "null"
  | JBool b => bytes_of (if b then "true" else "false")
  | JNumber l => l
  | JString raw => quoted raw
  | JArray l => "["%char :: join (map render l) ++ ["]"%char]
  | JObject ms => "{"%char :: join (map (fun m => quoted m.1 ++ ":"%char :: render m.2) ms) ++ ["}"%char]
  end.

Definition is_space (c : ascii) : bool :=
  existsb (Ascii.eqb c) [" "%char; "009"%char; "010"%char; "013"%char].
Fixpoint skip_space (l : list ascii) : list ascii :=
  match l with
  | c :: t => if is_space c then skip_space t else l
  | [] => []
  end.

Section items.
Context {A : Type} (close : ascii) (item : list ascii -> option (A * list ascii)).

(** Items separated by commas up to the closing byte. *)
Fixpoint items (fuel : nat) (l : list ascii) : option (list A * list ascii) :=
  match fuel with
  | O => None
  | S fuel =>
      match item l with
      | None => None
      | Some (x, r) =>
          match skip_space r with
          | [] => None
          | e :: r' =>
              if Ascii.eqb e close then Some ([x], r')
              else if Ascii.eqb e ","%char
              then match items fuel r' with Some (xs, r'') => Some (x :: xs, r'') | None => None end
              else None
          end
      end
  end.

Definition container {B} (make : list A -> B) (t : list ascii) : option (B * list ascii) :=
  match skip_space t with
  | [] => None
  | e :: r =>
      if Ascii.eqb e close then Some (make [], r)
      else match items (length t) t with Some (xs, r') => Some (make xs, r') | None => None end
  end.
End items.

Definition member (value : list ascii -> option (json * list ascii)) (l : list ascii)
    : option (list ascii * json * list ascii) :=
  match skip_space l with
  | [] => None
  | q :: t =>
      if Ascii.eqb q quote_char then
        match scan_string t with
        | None => None
        | Some (key, r) =>
            match skip_space r with
            | [] => None
            | c :: r' =>
                if Ascii.eqb c ":"%char
                then match value r' with Some (j, r'') => Some (key, j, r'') | None => None end
                else None
            end
        end
      else None
  end.

Definition scan_word (word : string) (j : json) (l : list ascii) : option (json * list ascii) :=
  if is_prefix (bytes_of word) l then Some (j, drop (length (bytes_of word)) l) else None.

(** The scanner on one value; [depth] is how many containers may still be
    opened.  What follows the value is left. *)
Fixpoint value (depth : nat) (l : list ascii) : option (json * list ascii) :=
  match skip_space l with
  | [] => None
  | c :: t =>
      if Ascii.eqb c "{"%char then
        match depth with O => None | S depth => container "}"%char (member (value depth)) JObject t end
      else if Ascii.eqb c "["%char then
        match depth with O => None | S depth => container "]"%char (value depth) JArray t end
      else if Ascii.eqb c quote_char then
        match scan_string t with Some (raw, r) => Some (JString raw, r) | None => None end
      else if Ascii.eqb c "t"%char then scan_word "true" (JBool true) (c :: t)
      else if Ascii.eqb c "f"%char then scan_word "false" (JBool false) (c :: t)
      else if Ascii.eqb c "n"%char then scan_word "null" JNull (c :: t)
      else match scan_number (c :: t) with Some (lit, r) => Some (JNumber lit, r) | None => None end
  end.

Definition maxNestingDepth : nat := Z.to_nat 10000.
Definition scan_value : list ascii -> option (json * list ascii) := value maxNestingDepth.

(** *** Round trip of values *)

Definition literal_ok (raw : list ascii) : bool := bool_decide (scan_string (raw ++ [quote_char]) = Some (raw, [])).
Definition number_ok (lit : list ascii) : bool := bool_decide (scan_number lit = Some (lit, [])).
Fixpoint wf (j : json) : bool :=
  match j with
  | JNumber l => number_ok l
  | JString raw => literal_ok raw
  | JArray l => forallb wf l
  | JObject ms => forallb (fun m => literal_ok m.1 && wf m.2) ms
  | _ => true
  end.
Fixpoint nesting (j : json) : nat :=
  match j with
  | JArray l => S (list_max (map nesting l))
  | JObject ms => S (list_max (map (fun m => nesting m.2) ms))
  | _ => O
  end.

Lemma prepend_Some p r raw rest : prepend p r = Some (raw, rest) -> exists raw', r = Some (raw', rest) /\ raw = p ++ raw'.
Proof. destruct r as [[raw' rest']|]; cbn; [|done]. intros [= <- <-]. by exists raw'. Qed.

(** A scanner that has stopped does not look at what follows. *)
Lemma scan_string_app l raw r k : scan_string l = Some (raw, r) -> scan_string (l ++ k) = Some (raw, r ++ k).
Proof.
  revert raw. induction l as [l IH] using (induction_ltof1 _ (@length ascii)). unfold ltof in IH. intros raw.
  assert (Hp : forall p t, (length t < length l)%nat -> prepend p (scan_string t) = Some (raw, r) ->
            prepend p (scan_string (t ++ k)) = Some (raw, r ++ k)).
  { intros p t Ht (raw' & E & ->)%prepend_Some. by rewrite (IH t Ht _ E). }
  destruct l as [|c t]; [done|]. cbn [scan_string app]. destruct (Ascii.eqb c quote_char); [by intros [= <- <-]|].
  destruct (Ascii.eqb c backslash).
  - destruct t as [|e t2]; [done|]. cbn [app]. destruct (simple_escape e); [apply Hp; cbn; lia|].
    destruct (Ascii.eqb e "u"%char); [|done]. do 4 (destruct t2 as [|? t2]; [done|]). cbn [app].
    destruct (_ && _); [apply Hp; cbn; lia|done].
  - destruct (_ <? _); [done|]. apply Hp. cbn. lia.
Qed.

Lemma literal_ok_scan raw k : literal_ok raw = true -> scan_string (raw ++ quote_char :: k) = Some (raw, k).
Proof.
  intros H%bool_decide_eq_true. apply (scan_string_app _ _ _ k) in H. by rewrite <- app_assoc in H.
Qed.

Lemma quote_literal l : literal_ok (quote l) = true.
Proof. apply bool_decide_eq_true, quote_scan. Qed.

Definition halts (r rest : list ascii) : Prop := r <> [] \/ stop rest = true.

Lemma span_digits_app l ds r k : span_digits l = (ds, r) -> halts r k -> span_digits (l ++ k) = (ds, r ++ k).
Proof.
  intros H Hr. revert ds H. induction l as [|c l IH]; intros ds; cbn [span_digits app].
  - intros [= <- <-]. destruct Hr as [|Hk]; [done|]. destruct k as [|c k]; [done|]. cbn [span_digits stop app] in *.
    by destruct (is_digit c).
  - destruct (is_digit c).
    + destruct (span_digits l) as [ds' r']. intros [= <- <-]. by rewrite (IH ds').
    + by intros [= <- <-].
Qed.

Lemma scan_digits_app p l raw r k : scan_digits p l = Some (raw, r) -> halts r k -> scan_digits p (l ++ k) = Some (raw, r ++ k).
Proof.
  unfold scan_digits. destruct (span_digits l) as [ds r'] eqn:E. intros H Hr. destruct ds as [|d ds]; [done|].
  revert H. intros [= <- <-]. by rewrite (span_digits_app _ _ _ _ E Hr).
Qed.

Lemma stop_sep c k : stop (c :: k) = true -> Ascii.eqb c "."%char = false /\ Ascii.eqb c "e"%char = false /\ Ascii.eqb c "E"%char = false.
Proof. cbn. destruct (is_digit c), (Ascii.eqb c "."), (Ascii.eqb c "e"), (Ascii.eqb c "E"); done. Qed.

Lemma scan_int_app l raw r k : scan_int l = Some (raw, r) -> halts r k -> scan_int (l ++ k) = Some (raw, r ++ k).
Proof.
  destruct l as [|c l]; [done|]. cbn [scan_int app]. destruct (Ascii.eqb c "0"); [by intros [= <- <-]|].
  apply (scan_digits_app [] (c :: l)).
Qed.

Lemma scan_frac_app l raw r k : scan_frac l = Some (raw, r) -> halts r k -> scan_frac (l ++ k) = Some (raw, r ++ k).
Proof.
  destruct l as [|c l]; cbn [scan_frac app].
  - intros [= <- <-] [|Hk]; [done|]. destruct k as [|c k]; [done|]. cbn. by destruct (stop_sep _ _ Hk) as [-> _].
  - destruct (Ascii.eqb c "."); [apply scan_digits_app|by intros [= <- <-]].
Qed.

Lemma scan_exp_app l raw r k : scan_exp l = Some (raw, r) -> halts r k -> scan_exp (l ++ k) = Some (raw, r ++ k).
Proof.
  destruct l as [|c l]; cbn [scan_exp app].
  - intros [= <- <-] [|Hk]; [done|]. destruct k as [|c k]; [done|]. cbn. by destruct (stop_sep _ _ Hk) as (_ & -> & ->).
  - destruct (_ || _); [|by intros [= <- <-]]. destruct l as [|s l]; [done|]. cbn [app].
    destruct (_ || _); [apply scan_digits_app|apply (scan_digits_app [c] (s :: l))].
Qed.

Lemma number_ok_scan lit k : number_ok lit = true -> stop k = true -> scan_number (lit ++ k) = Some (lit, k).
Proof.
  intros H%bool_decide_eq_true Hk.
  assert (Hu : forall l raw, scan_unsigned l = Some (raw, []) -> scan_unsigned (l ++ k) = Some (raw, k)).
  { intros l raw. unfold scan_unsigned. destruct (scan_int l) as [[p1 r1]|] eqn:E1; [|done]. cbn [and_then].
    destruct (scan_frac r1) as [[p2 r2]|] eqn:E2; [|done]. cbn [prepend and_then].
    intros (raw' & E3 & ->)%prepend_Some.
    rewrite (scan_int_app _ _ _ k E1) by (by right). cbn [and_then].
    rewrite (scan_frac_app _ _ _ k E2) by (by right). cbn [prepend and_then].
    rewrite (scan_exp_app _ _ _ k E3) by (by right). done. }
  destruct lit as [|c t]; [done|]. cbn [scan_number app] in *.
  destruct (Ascii.eqb c "-"); [|by apply (Hu (c :: t))].
  apply prepend_Some in H as (raw' & E & [= ->]). by rewrite (Hu _ _ E).
Qed.

Lemma digit_ne c d : is_digit c = true -> is_digit d = false -> Ascii.eqb c d = false.
Proof. intros Hc Hd. apply Ascii.eqb_neq. intros ->. congruence. Qed.

(** The first byte of a number is a sign or a digit. *)
Lemma number_ok_first lit : number_ok lit = true -> exists c t, lit = c :: t /\ (c = "-"%char \/ is_digit c = true).
Proof.
  intros H%bool_decide_eq_true. destruct lit as [|c t]; [done|]. exists c, t. split; [done|]. cbn [scan_number] in H.
  destruct (Ascii.eqb_spec c "-") as [|_]; [by left|right]. unfold scan_unsigned, scan_int in H.
  destruct (Ascii.eqb_spec c "0") as [->|_]; [done|]. unfold scan_digits in H. cbn [span_digits] in H.
  by destruct (is_digit c).
Qed.

Section items_roundtrip.
Context {A : Type} (close : ascii) (item : list ascii -> option (A * list ascii)) (show : A -> list ascii).

(** The separators are neither space nor part of a number. *)
Definition separator (c : ascii) : Prop := is_space c = false /\ stop [c] = true.

Lemma items_join (xs : list A) fuel k : xs <> [] -> (length xs <= fuel)%nat -> separator close ->
  Ascii.eqb "," close = false ->
  Forall (fun x => forall k, stop k = true -> item (show x ++ k) = Some (x, k)) xs ->
  items close item fuel (join (map show xs) ++ close :: k) = Some (xs, k).
Proof.
  intros Hne Hf [Hsp Hst] Hcomma Hx. revert fuel Hne Hf. induction Hx as [|x xs Hx _ IH]; intros fuel Hne Hf; [done|].
  destruct fuel as [|fuel]; cbn [length] in Hf; [lia|]. cbn [items]. destruct xs as [|y xs].
  - cbn [map join]. rewrite Hx by done. cbn [skip_space]. rewrite Hsp. by rewrite Ascii.eqb_refl.
  - cbn [map join] in *. rewrite <- app_assoc. cbn [app]. rewrite Hx by done. cbn [skip_space is_space]. 
    change (is_space ",") with false. cbn iota. rewrite Hcomma. cbn iota. change (Ascii.eqb "," ",") with true. cbn iota.
    by rewrite IH by (done || lia).
Qed.

Lemma join_length (l : list (list ascii)) : Forall (fun x => x <> []) l -> (length l <= length (join l))%nat.
Proof.
  induction 1 as [|x l Hx Hl IH]; [done|]. destruct l as [|y l].
  - destruct x; [done|]. cbn. lia.
  - change (join (x :: y :: l)) with (x ++ ","%char :: join (y :: l)). rewrite length_app. cbn [length] in *. lia.
Qed.

Lemma container_join {B} (make : list A -> B) (xs : list A) k : separator close -> Ascii.eqb "," close = false ->
  Forall (fun x => forall k, stop k = true -> item (show x ++ k) = Some (x, k)) xs ->
  Forall (fun x => exists c t, show x = c :: t /\ is_space c = false /\ Ascii.eqb c close = false) xs ->
  container close item make (join (map show xs) ++ close :: k) = Some (make xs, k).
Proof.
  intros Hsep Hcomma Hx Hfirst. unfold container. destruct xs as [|x xs].
  { cbn [map join app skip_space]. destruct Hsep as [-> _]. by rewrite Ascii.eqb_refl. }
  assert (Hlen : (length (x :: xs) <= length (join (map show (x :: xs)) ++ close :: k))%nat).
  { rewrite length_app. etrans; [|apply Nat.le_add_r]. rewrite <- (length_map show (x :: xs)). apply join_length.
    apply Forall_map. eapply Forall_impl; [exact Hfirst|]. intros y (c & t & E & _). cbn. by rewrite E. }
  rewrite (items_join (x :: xs)) by done.
  inversion Hfirst as [|? ? (c & t & E & Hc & Hcl) _]; subst.
  assert (exists t', join (map show (x :: xs)) ++ close :: k = c :: t') as [t' ->].
  { cbn [map join]. destruct (map show xs); rewrite E; eexists; [done|]. rewrite <- app_assoc. done. }
  cbn [skip_space]. by rewrite Hc, Hcl.
Qed.
End items_roundtrip.

(** The first byte of a value is no space and closes nothing. *)
Lemma render_first j : wf j = true -> exists c t, render j = c :: t /\ is_space c = false /\
  Ascii.eqb c "]" = false /\ Ascii.eqb c "}" = false.
Proof.
  destruct j as [|[]|lit|raw|l|ms]; cbn [wf render]; try (intros _; do 2 eexists; split; [reflexivity|by split_and!]).
  intros (c & t & -> & Hc)%number_ok_first. exists c, t. split; [done|].
  destruct Hc as [->|Hc]; [done|]. rewrite !(digit_ne c) by done. split_and!; [|done..].
  unfold is_space. cbn [existsb]. by rewrite !(digit_ne c).
Qed.

Lemma value_number depth lit k : number_ok lit = true -> stop k = true -> value depth (lit ++ k) = Some (JNumber lit, k).
Proof.
  intros H Hk. pose proof (number_ok_scan lit k H Hk) as Hs. destruct (render_first (JNumber lit) H) as (c & t & E & Hsp & _).
  destruct (number_ok_first lit H) as (c' & t' & E' & Hc). cbn [render] in E. rewrite E in E'. injection E' as <- <-.
  rewrite E in Hs |- *. cbn [app] in *.
  assert (Hno : forall d, is_digit d || Ascii.eqb d "-" = false -> Ascii.eqb c d = false).
  { intros d [Hd Hm]%orb_false_iff. destruct Hc as [->|Hc]; [|by apply digit_ne]. by rewrite Ascii.eqb_sym. }
  destruct depth; cbn [value skip_space]; by rewrite Hsp, !Hno, Hs by done.
Qed.

Lemma list_max_elem {A} (f : A -> nat) l x : x ∈ l -> (f x <= list_max (map f l))%nat.
Proof.
  intros Hx. pose proof (proj1 (list_max_le (map f l) _) (Nat.le_refl _)) as H. rewrite List.Forall_forall in H.
  by apply H, in_map, list_elem_of_In.
Qed.

(** What is written is read back, whatever follows that does not continue a
    number. *)
Lemma value_render j depth k : wf j = true -> (nesting j <= depth)%nat -> stop k = true ->
  value depth (render j ++ k) = Some (j, k).
Proof.
  revert depth k. induction j as [|b|lit|raw|l IH|ms IH] using json_ind'; intros depth k Hwf Hd Hk.
  - by destruct depth.
  - by destruct depth, b.
  - by apply value_number.
  - cbn [render wf] in *. unfold quoted. cbn [app]. rewrite <- app_assoc. cbn [app].
    assert (E : value depth (quote_char :: raw ++ quote_char :: k) =
                match scan_string (raw ++ quote_char :: k) with Some (raw, r) => Some (JString raw, r) | None => None end)
      by (by destruct depth). by rewrite E, literal_ok_scan.
  - destruct depth as [|depth]; cbn [nesting] in Hd; [lia|]. cbn [render wf] in *. cbn [app]. rewrite <- app_assoc. cbn [app].
    change (value (S depth) ("["%char :: ?t)) with (container "]"%char (value depth) JArray t).
    rewrite forallb_forall in Hwf. apply container_join; [done|done| |].
    + rewrite Forall_forall in IH |- *. intros x Hx k' Hk'. apply IH; [done|apply Hwf; by apply list_elem_of_In| |done].
      etrans; [by apply (list_max_elem nesting l)|lia].
    + apply Forall_forall. intros x Hx. destruct (render_first x) as (c & t & ? & ? & ? & _); [apply Hwf; by apply list_elem_of_In|].
      by exists c, t.
  - destruct depth as [|depth]; cbn [nesting] in Hd; [lia|]. cbn [render wf] in *. cbn [app]. rewrite <- app_assoc. cbn [app].
    change (value (S depth) ("{"%char :: ?t)) with (container "}"%char (member (value depth)) JObject t).
    rewrite forallb_forall in Hwf. apply container_join; [done|done| |].
    + rewrite Forall_forall in IH |- *. intros [key j] Hx k' Hk'. pose proof (Hwf (key, j)) as Hw.
      rewrite <- list_elem_of_In in Hw. destruct (proj1 (andb_true_iff _ _) (Hw Hx)) as [Hkey Hj]. cbn [fst snd] in *.
      unfold member, quoted. cbn [app]. rewrite <- !app_assoc. cbn [app skip_space].
      change (is_space quote_char) with false. cbn iota. rewrite Ascii.eqb_refl, literal_ok_scan by done. cbn [skip_space].
      change (is_space ":") with false. cbn iota. rewrite Ascii.eqb_refl.
      specialize (IH (key, j) Hx). cbn in IH. rewrite IH; [done|done| |done].
      etrans; [by apply (list_max_elem (fun m => nesting m.2) ms (key, j))|lia].
    + apply Forall_forall. intros x Hx. by do 2 eexists.
Qed.

(** *** Every scanner consumes, so the fuel of [items] suffices *)

Definition consuming {A} (scan : list ascii -> option (A * list ascii)) : Prop :=
  forall l x r, scan l = Some (x, r) -> (length r < length l)%nat.

Lemma scan_string_length l raw r : scan_string l = Some (raw, r) -> (length r < length l)%nat.
Proof.
  revert raw. induction l as [l IH] using (induction_ltof1 _ (@length ascii)). unfold ltof in IH. intros raw.
  assert (Hp : forall p t, (length t < length l)%nat -> prepend p (scan_string t) = Some (raw, r) -> (length r < length l)%nat).
  { intros p t Ht (raw' & E & ->)%prepend_Some. specialize (IH t Ht _ E). lia. }
  destruct l as [|c t]; [done|]. cbn [scan_string]. destruct (Ascii.eqb c quote_char); [intros [= <- <-]; cbn; lia|].
  destruct (Ascii.eqb c backslash).
  - destruct t as [|e t2]; [done|]. destruct (simple_escape e); [apply Hp; cbn; lia|].
    destruct (Ascii.eqb e "u"%char); [|done]. do 4 (destruct t2 as [|? t2]; [done|]). destruct (_ && _); [apply Hp; cbn; lia|done].
  - destruct (_ <? _); [done|]. apply Hp. cbn. lia.
Qed.

Lemma span_digits_length l : (length (span_digits l).1 + length (span_digits l).2 = length l)%nat.
Proof. induction l as [|c l IH]; [done|]. cbn [span_digits]. destruct (is_digit c); [|done]. destruct (span_digits l). cbn in *. lia. Qed.

Lemma scan_digits_length p l raw r : scan_digits p l = Some (raw, r) -> (length r < length l)%nat.
Proof.
  unfold scan_digits. pose proof (span_digits_length l) as H. destruct (span_digits l) as [[|d ds] r']; [done|]. intros [= <- <-]. cbn in H. lia.
Qed.

Lemma scan_number_length l raw r : scan_number l = Some (raw, r) -> (length r < length l)%nat.
Proof.
  assert (Hu : forall l raw r, scan_unsigned l = Some (raw, r) -> (length r < length l)%nat).
  { clear. intros l raw r. unfold scan_unsigned. destruct (scan_int l) as [[p1 r1]|] eqn:E1; [|done]. cbn [and_then].
    destruct (scan_frac r1) as [[p2 r2]|] eqn:E2; [|done]. cbn [prepend and_then]. intros (raw' & E3 & _)%prepend_Some.
    assert (H1 : (length r1 < length l)%nat).
    { destruct l as [|c l]; [done|]. cbn [scan_int] in E1. destruct (Ascii.eqb c "0"); [injection E1 as <- <-; cbn; lia|].
      by apply scan_digits_length in E1. }
    assert (H2 : (length r2 <= length r1)%nat).
    { destruct r1 as [|c r1]; cbn [scan_frac] in E2; [by injection E2 as <- <-|]. destruct (Ascii.eqb c "."); [|by injection E2 as <- <-].
      apply scan_digits_length in E2. cbn. lia. }
    assert (H3 : (length r <= length r2)%nat).
    { destruct r2 as [|c r2]; cbn [scan_exp] in E3; [by injection E3 as <- <-|]. destruct (_ || _); [|by injection E3 as <- <-].
      destruct r2 as [|s r2]; [done|]. destruct (_ || _); apply scan_digits_length in E3; cbn in *; lia. }
    lia. }
  destruct l as [|c t]; [done|]. cbn [scan_number]. destruct (Ascii.eqb c "-"); [|apply (Hu (c :: t))].
  intros (raw' & E & _)%prepend_Some. apply Hu in E. cbn. lia.
Qed.

Lemma skip_space_length l : (length (skip_space l) <= length l)%nat.
Proof. induction l as [|c l IH]; [done|]. cbn [skip_space]. destruct (is_space c); cbn; lia. Qed.

Section items_fuel.
Context {A : Type} (close : ascii) (item : list ascii -> option (A * list ascii)) (Hitem : consuming item).

Lemma items_length fuel l xs r : items close item fuel l = Some (xs, r) -> (length r < length l)%nat.
Proof.
  revert l xs r. induction fuel as [|fuel IH]; intros l xs r; [done|]. cbn [items]. destruct (item l) as [[x r1]|] eqn:E; [|done].
  apply Hitem in E. pose proof (skip_space_length r1) as Hs. destruct (skip_space r1) as [|e r2]; [done|]. cbn [length] in Hs.
  destruct (Ascii.eqb e close); [intros [= <- <-]; lia|]. destruct (Ascii.eqb e ","); [|done].
  destruct (items close item fuel r2) as [[xs' r']|] eqn:E2; [|done]. apply IH in E2. intros [= <- <-]. lia.
Qed.

(** Fuel for every byte is enough: more gives the same. *)
Lemma items_fuel fuel fuel' l : (length l <= fuel)%nat -> (length l <= fuel')%nat -> items close item fuel l = items close item fuel' l.
Proof.
  assert (Hnil : item [] = None).
  { destruct (item []) as [[x r]|] eqn:E; [|done]. apply Hitem in E. cbn in E. lia. }
  revert fuel' l. induction fuel as [|fuel IH]; intros fuel' l Hf Hf'.
  - destruct l; [|cbn in Hf; lia]. destruct fuel'; [done|]. cbn [items]. by rewrite Hnil.
  - destruct fuel' as [|fuel']; [destruct l; [|cbn in Hf'; lia]; cbn [items]; by rewrite Hnil|].
    cbn [items]. destruct (item l) as [[x r1]|] eqn:E; [|done]. apply Hitem in E. pose proof (skip_space_length r1) as Hs.
    destruct (skip_space r1) as [|e r2]; [done|]. cbn [length] in Hs. destruct (Ascii.eqb e close); [done|].
    destruct (Ascii.eqb e ","); [|done]. by rewrite (IH fuel' r2) by lia.
Qed.
End items_fuel.

Lemma container_length {A B} close (item : list ascii -> option (A * list ascii)) (make : list A -> B) t j r :
  consuming item -> container close item make t = Some (j, r) -> (length r <= length t)%nat.
Proof.
  intros Hi. unfold container. pose proof (skip_space_length t) as Hs. destruct (skip_space t) as [|e k]; [done|]. cbn [length] in Hs.
  destruct (Ascii.eqb e close); [intros [= <- <-]; lia|]. destruct (items _ _ _ _) as [[xs r']|] eqn:E; [|done].
  apply items_length in E; [|done]. intros [= <- <-]. lia.
Qed.

Lemma member_consuming value : consuming value -> consuming (member value).
Proof.
  intros Hv l x r. unfold member. pose proof (skip_space_length l) as Hs. destruct (skip_space l) as [|q t]; [done|]. cbn [length] in Hs.
  destruct (Ascii.eqb q quote_char); [|done]. destruct (scan_string t) as [[key r1]|] eqn:E; [|done]. apply scan_string_length in E.
  pose proof (skip_space_length r1) as Hs1. destruct (skip_space r1) as [|c r2]; [done|]. cbn [length] in Hs1.
  destruct (Ascii.eqb c ":"); [|done]. destruct (value r2) as [[j r3]|] eqn:Ev; [|done]. apply Hv in Ev. intros [= <- <-]. lia.
Qed.

Lemma value_consuming depth : consuming (value depth).
Proof.
  induction depth as [|depth IH]; intros l j r; cbn [value]; pose proof (skip_space_length l) as Hs;
    destruct (skip_space l) as [|c t]; try done; cbn [length] in Hs.
  all: assert (Hw : forall w j', (0 < length (bytes_of w))%nat -> scan_word w j' (c :: t) = Some (j, r) -> (length r < length l)%nat)
    by (intros w j' Hpos; unfold scan_word; destruct (is_prefix _ _); [|done]; intros [= <- <-]; rewrite length_drop; cbn [length] in *; lia).
  all: destruct (Ascii.eqb c "{"); [first [done|intros E%container_length; [lia|by apply member_consuming]]|].
  all: destruct (Ascii.eqb c "["); [first [done|intros E%container_length; [lia|exact IH]]|].
  all: destruct (Ascii.eqb c quote_char);
    [destruct (scan_string t) as [[raw k]|] eqn:E; [|done]; apply scan_string_length in E; intros [= <- <-]; lia|].
  all: destruct (Ascii.eqb c "t"); [apply Hw; cbn; lia|]. all: destruct (Ascii.eqb c "f"); [apply Hw; cbn; lia|].
  all: destruct (Ascii.eqb c "n"); [apply Hw; cbn; lia|].
  all: destruct (scan_number (c :: t)) as [[lit k]|] eqn:E; [|done]; apply scan_number_length in E; intros [= <- <-]; cbn [length] in E; lia.
Qed.

Lemma maxNestingDepth_ge n : Z.of_nat n <= 10000 -> (n <= maxNestingDepth)%nat.
Proof. intros Hn. unfold maxNestingDepth. apply Nat2Z.inj_le. by rewrite Z2Nat.id. Qed.

Lemma scan_render j k : wf j = true -> (nesting j <= maxNestingDepth)%nat -> stop k = true -> scan_value (render j ++ k) = Some (j, k).
Proof. apply value_render. Qed.

(** The scanner is never unfolded to its ten thousand levels. *)
#[global] Opaque maxNestingDepth scan_value.
