(* ===== verification/FloatText.v ===== *)
(** The decimal text of a [float64]: [strconv.ParseFloat], correctly rounded,
    and the shortest text [encoding/json] writes, which it reads back.

    A finite value is [m * 2^e] with [e] from -1074 up; both directions are
    computed exactly on ratios of integers. *)
From Stdlib Require Import SpecFloat.
From S2P Require Import Prelude GoStrings GoFloat Decimal JsonText.

#[local] Open Scope Z_scope.

(** ** Rounding to binary64 *)

(** The nearest integer to [n / d], ties to even. *)
Definition div_round (n d : Z) : Z :=
  let q := n / d in let r := n mod d in
  if 2 * r <? d then q else if d <? 2 * r then q + 1 else if Z.even q then q else q + 1.

Definition unit_inv : Z := 2 ^ 1074.

(** The mantissa and exponent nearest to [n / d]; [None] is the range error
    of a value too large. *)
Definition round_ratio (n d : Z) : option (Z * Z) :=
  let e := Z.max (-1074) (Z.log2 (n * unit_inv / d) - 1126) in
  let m := div_round (n * 2 ^ Z.max (- e) 0) (d * 2 ^ Z.max e 0) in
  let '(m, e) := if m =? 2 ^ 53 then (2 ^ 52, e + 1) else (m, e) in
  if 971 <? e then None else Some (m, e).

(** The float nearest to [c * 10^e], [c] not negative. *)
Definition round_decimal (neg : bool) (c e : Z) : option float64 :=
  match round_ratio (c * 10 ^ Z.max e 0) (10 ^ Z.max (- e) 0) with
  | Some (m, e) => Some (match m with Zpos p => S754_finite neg p e | _ => S754_zero neg end)
  | None => None
  end.

(** ** [ParseFloat] of a number literal *)

(** The exponent saturates above 10000. *)
Fixpoint exp_value (acc : Z) (l : list ascii) : Z :=
  match l with
  | [] => acc
  | c :: t => exp_value (if acc <? 10000 then acc * 10 + default 0 (digit_val c) else acc) t
  end.
Definition exponent (l : list ascii) : Z :=
  match l with
  | _ :: s :: t =>
      if Ascii.eqb s "-"%char then - exp_value 0 t
      else if Ascii.eqb s "+"%char then exp_value 0 t else exp_value 0 (s :: t)
  | _ => 0
  end.
(** Sign, digits and exponent of a literal. *)
Definition decimal_of (l : list ascii) : bool * Z * Z :=
  let '(neg, l) := match l with c :: t => if Ascii.eqb c "-"%char then (true, t) else (false, l) | [] => (false, l) end in
  let '(int, l) := span_digits l in
  let '(frac, l) := match l with c :: t => if Ascii.eqb c "."%char then span_digits t else ([], l) | [] => ([], l) end in
  (neg, default 0 (parse_digits 0 (int ++ frac)), exponent l - Z.of_nat (length frac)).

Definition ParseFloat (l : list ascii) : option float64 :=
  let '(neg, c, e) := decimal_of l in round_decimal neg c e.

(** ** The shortest text *)

Definition ndigits (z : Z) : Z := Z.of_nat (length (bytes_of (Itoa z))).

(** The place of the decimal point of [n / d]: [10^(k-1) <= n/d <= 10^k]. *)
Definition point (n d : Z) : Z := if d <=? n then ndigits (n / d) else 1 - ndigits (d / n).

(** A decimal of [i] digits that has come to [10^i] is a one. *)
Definition carry (i c e : Z) : Z * Z := if c =? 10 ^ i then (1, e + i) else (c, e).

(** [i] digits for [n / d]: the nearest decimal and its neighbour on the
    other side. *)
Definition candidates (n d i : Z) : list (Z * Z) :=
  let e := point n d - i in
  let num := n * 10 ^ Z.max (- e) 0 in let den := d * 10 ^ Z.max e 0 in
  let lo := num / den in let near := div_round num den in
  [carry i near e; carry i (if near =? lo then lo + 1 else lo) e].

Definition reads_back (f : float64) (d : Z * Z) : bool :=
  bool_decide (round_decimal false (fst d) (snd d) = Some f).

(** The first number of digits, up to seventeen, that identifies the value. *)
Fixpoint shortest (f : float64) (n d i : Z) (fuel : nat) : Z * Z :=
  match List.find (reads_back f) (candidates n d i), fuel with
  | Some x, _ => x
  | None, S fuel => shortest f n d (i + 1) fuel
  | None, O => hd (0, 0) (candidates n d i)
  end.

(** The formats [%e] and [%f]: [encoding/json] takes [%e] for magnitudes
    below 1e-6 and from 1e21 on, which is where the decimal point lies more
    than five places before or twenty-one places into the shortest digits,
    and drops the zero that pads a one-digit negative exponent. *)
Definition exp_text (e : Z) : list ascii :=
  if e <? 0 then "e"%char :: "-"%char :: bytes_of (Itoa (- e))
  else "e"%char :: "+"%char :: (if e <? 10 then ["0"%char] else []) ++ bytes_of (Itoa e).
Definition zeros (n : Z) : list ascii := replicate (Z.to_nat n) "0"%char.

Definition positive_text (c e : Z) : list ascii :=
  let ds := bytes_of (Itoa c) in
  let nd := Z.of_nat (length ds) in
  let dp := nd + e in
  if (dp <? -5) || (21 <? dp) then
    match ds with
    | d :: [] => d :: exp_text (dp - 1)
    | d :: rest => d :: "."%char :: rest ++ exp_text (dp - 1)
    | [] => []
    end
  else if dp <=? 0 then "0"%char :: "."%char :: zeros (- dp) ++ ds
  else if nd <=? dp then ds ++ zeros (dp - nd)
  else take (Z.to_nat dp) ds ++ "."%char :: drop (Z.to_nat dp) ds.

Definition sign_text (neg : bool) (l : list ascii) : list ascii := if neg then "-"%char :: l else l.

(** [floatEncoder]: infinities and NaN are no JSON values. *)
Definition float_text (f : float64) : Result (list ascii) :=
  match f with
  | S754_zero s => Ok (sign_text s ["0"%char])
  | S754_finite s m e =>
      let '(c, k) := shortest (S754_finite false m e) (Zpos m * 2 ^ Z.max e 0) (2 ^ Z.max (- e) 0) 1 16 in
      Ok (sign_text s (positive_text c k))
  | _ => Err (LibErr "json.UnsupportedValueError" "float64")
  end.

Example float_text_ex :
  map (fun f : float64 => match float_text f with Ok l => string_of l | Err _ => "" end)
    [f_of_Z 0; f_of_Z 1500; f_div (f_of_Z 1) (f_of_Z 10); f_mul (f_of_Z (10 ^ 15)) (f_of_Z (10 ^ 9)); f_div (f_of_Z (-5)) (f_of_Z (10 ^ 8))]
  = ["0"; "1500"; "0.1"; "1e+24"; "-5e-8"].
Proof. vm_compute. reflexivity. Qed.

(** ** Correct rounding *)

Lemma div_round_near n d m : 2 * Z.abs (n - m * d) < d -> div_round n d = m.
Proof.
  intros H. unfold div_round. assert (Hd : 0 < d) by lia. destruct (Z.le_gt_cases (m * d) n) as [Hle|Hgt].
  - rewrite <- (Z.div_unique n d m (n - m * d)), <- (Z.mod_unique n d m (n - m * d)) by lia.
    destruct (Z.ltb_spec (2 * (n - m * d)) d); [done|lia].
  - rewrite <- (Z.div_unique n d (m - 1) (n - m * d + d)), <- (Z.mod_unique n d (m - 1) (n - m * d + d)) by lia.
    destruct (Z.ltb_spec (2 * (n - m * d + d)) d); [lia|]. destruct (Z.ltb_spec d (2 * (n - m * d + d))); lia.
Qed.

Lemma div_round_close n d : 0 < d -> 2 * Z.abs (n - div_round n d * d) <= d.
Proof.
  intros Hd. unfold div_round. pose proof (Z.div_mod n d). pose proof (Z.mod_pos_bound n d Hd).
  destruct (Z.ltb_spec (2 * (n mod d)) d); [lia|]. destruct (Z.ltb_spec d (2 * (n mod d))); [nia|]. destruct (Z.even _); nia.
Qed.

Lemma div_round_scale n d c : 0 < c -> 0 < d -> div_round (n * c) (d * c) = div_round n d.
Proof.
  intros Hc Hd. unfold div_round. rewrite Z.div_mul_cancel_r, Z.mul_mod_distr_r by lia.
  assert (E1 : (2 * (n mod d * c) <? d * c) = (2 * (n mod d) <? d)) by (apply Z.b2z_inj; destruct (Z.ltb_spec (2 * (n mod d * c)) (d * c)), (Z.ltb_spec (2 * (n mod d)) d); cbn; nia).
  assert (E2 : (d * c <? 2 * (n mod d * c)) = (d <? 2 * (n mod d))) by (apply Z.b2z_inj; destruct (Z.ltb_spec (d * c) (2 * (n mod d * c))), (Z.ltb_spec d (2 * (n mod d))); cbn; nia).
  by rewrite E1, E2.
Qed.

(** Both sides of a ratio scaled to multiples of the smallest value. *)
Lemma scale_exponent e : -1074 <= e -> exists c, 0 < c /\ 2 ^ Z.max (- e) 0 * c = unit_inv /\ 2 ^ Z.max e 0 * c = 2 ^ (e + 1074).
Proof.
  intros He. exists (2 ^ (1074 - Z.max (- e) 0)). unfold unit_inv. rewrite <- !Z.pow_add_r by lia.
  split_and!; [apply Z.pow_pos_nonneg; lia|f_equal; lia|f_equal; lia].
Qed.

#[global] Opaque unit_inv.

Lemma div_round_exponent n d e : 0 < d -> -1074 <= e ->
  div_round (n * 2 ^ Z.max (- e) 0) (d * 2 ^ Z.max e 0) = div_round (n * unit_inv) (d * 2 ^ (e + 1074)).
Proof.
  intros Hd He. destruct (scale_exponent e He) as (c & Hc & E1 & E2). rewrite <- E1, <- E2, !Z.mul_assoc.
  symmetry. apply div_round_scale; [done|]. apply Z.mul_pos_pos; [done|]. apply Z.pow_pos_nonneg; lia.
Qed.

(** The mantissas and exponents of binary64. *)
Definition binary64 (m e : Z) : Prop := 0 < m < 2 ^ 53 /\ -1074 <= e <= 971 /\ (e = -1074 \/ 2 ^ 52 <= m).

(** A ratio within half a unit of the seventeenth digit of a value rounds to
    that value. *)
Lemma round_ratio_near m e n d : binary64 m e -> 0 < d ->
  2 * 10 ^ 16 * Z.abs (n * unit_inv - m * 2 ^ (e + 1074) * d) <= m * 2 ^ (e + 1074) * d -> round_ratio n d = Some (m, e).
Proof.
  intros ([Hm0 Hm] & He & Hnorm) Hd Hclose. unfold round_ratio. set (p := n * unit_inv) in *.
  assert (HU : 0 < 2 ^ (e + 1074)) by (apply Z.pow_pos_nonneg; lia).
  assert (Hlog : forall B, 0 <= B -> 2 ^ 52 * 2 ^ B <= p / d < 2 ^ 53 * 2 ^ B -> Z.log2 (p / d) = 52 + B).
  { intros B HB. rewrite <- !Z.pow_add_r by lia. intros Hr. apply Z.log2_unique; [lia|]. by replace (Z.succ (52 + B)) with (53 + B) by lia. }
  assert (Hdiv : forall lo hi, lo * d <= p < hi * d -> lo <= p / d < hi).
  { intros lo hi Hr. pose proof (Z.div_mod p d). pose proof (Z.mod_pos_bound p d Hd). nia. }
  destruct (decide (e = -1074 \/ 2 ^ 52 < m \/ m * 2 ^ (e + 1074) * d <= p)) as [Hsame|Hbelow].
  - assert (Z.max (-1074) (Z.log2 (p / d) - 1126) = e) as ->.
    { destruct (decide (e = -1074)) as [->|Hne].
      - enough (Z.log2 (p / d) <= 52) by lia. change (2 ^ (-1074 + 1074)) with 1 in *.
        destruct (Hdiv 0 (2 ^ 53)) as [_ Hlt]; [nia|]. destruct (decide (0 < p / d)) as [Hpos|]; [|rewrite Z.log2_nonpos; lia].
        apply Z.lt_succ_r. by apply Z.log2_lt_pow2.
      - rewrite (Hlog (e + 1074)); [lia|lia|]. apply Hdiv. set (U := 2 ^ (e + 1074)) in *. clearbody U p. clear Hlog Hdiv.
        assert (HUd : 0 < U * d) by nia. nia. }
    rewrite div_round_exponent by lia. fold p. rewrite (div_round_near _ _ m).
    + destruct (Z.eqb_spec m (2 ^ 53)); [lia|]. destruct (Z.ltb_spec 971 e); [lia|done].
    + set (U := 2 ^ (e + 1074)) in *. clearbody U p. assert (HUd : 0 < U * d) by nia.
      replace (m * (d * U)) with (m * U * d) by lia. nia.
  - apply Decidable.not_or in Hbelow as [Hne [Hm2 Hp]%Decidable.not_or].
    assert (Em : m = 2 ^ 52) by lia. assert (EU : 2 ^ (e + 1074) = 2 * 2 ^ (e - 1 + 1074))
      by (rewrite <- Z.pow_succ_r by lia; f_equal; lia). rewrite EU in *. clear EU.
    assert (HU' : 0 < 2 ^ (e - 1 + 1074)) by (apply Z.pow_pos_nonneg; lia).
    assert (Z.max (-1074) (Z.log2 (p / d) - 1126) = e - 1) as ->.
    { rewrite (Hlog (e - 1 + 1074)); [lia|lia|]. apply Hdiv. set (U := 2 ^ (e - 1 + 1074)) in *. clearbody U p. subst m.
      assert (HUd : 0 < U * d) by nia. nia. }
    rewrite div_round_exponent by lia. fold p. rewrite (div_round_near _ _ (2 ^ 53)).
    + rewrite Z.eqb_refl, Em. replace (e - 1 + 1) with e by lia. destruct (Z.ltb_spec 971 e); [lia|done].
    + set (U := 2 ^ (e - 1 + 1074)) in *. clearbody U p. subst m. assert (HUd : 0 < U * d) by nia. nia.
Qed.

(** ** Seventeen digits suffice *)

Lemma ndigits_spec z : 0 < z -> 1 <= ndigits z /\ 10 ^ (ndigits z - 1) <= z < 10 ^ ndigits z.
Proof.
  intros Hz. unfold ndigits. destruct (Itoa_text z) as [|z d ds _ _ _ Hp Hl|z d ds ? _ _ _ _]; [lia| |lia].
  apply parse_digits_bound in Hp. cbn [length] in *. rewrite Nat2Z.inj_succ in *.
  replace (Z.succ (Z.of_nat (length ds)) - 1) with (Z.of_nat (length ds)) by lia. lia.
Qed.

Lemma pow10_pos k : 0 <= k -> 0 < 10 ^ k.
Proof. intros Hk. by apply Z.pow_pos_nonneg. Qed.

(** The decimal point of a ratio. *)
Lemma point_spec n d : 0 < n -> 0 < d ->
  d * 10 ^ Z.max (point n d - 1) 0 <= n * 10 ^ Z.max (1 - point n d) 0 /\
  n * 10 ^ Z.max (- point n d) 0 <= d * 10 ^ Z.max (point n d) 0.
Proof.
  intros Hn Hd. unfold point. destruct (Z.leb_spec d n) as [Hle|Hlt].
  - destruct (ndigits_spec (n / d)) as (H1 & Hlo & Hhi); [apply Z.div_str_pos; lia|]. set (k := ndigits (n / d)) in *.
    rewrite (Z.max_l (k - 1)), (Z.max_l k), !Z.max_r by lia. change (10 ^ 0) with 1. pose proof (Z.div_mod n d). pose proof (Z.mod_pos_bound n d Hd). nia.
  - destruct (ndigits_spec (d / n)) as (H1 & Hlo & Hhi); [apply Z.div_str_pos; lia|]. set (k := ndigits (d / n)) in *.
    pose proof (Z.div_mod d n). pose proof (Z.mod_pos_bound d n Hn).
    replace (Z.max (1 - k - 1) 0) with 0 by lia. replace (Z.max (1 - (1 - k)) 0) with k by lia.
    replace (Z.max (- (1 - k)) 0) with (k - 1) by lia. replace (Z.max (1 - k) 0) with 0 by lia. change (10 ^ 0) with 1. nia.
Qed.

(** A decimal as a ratio. *)
Abbreviation dec_num := (fun x : Z * Z => fst x * 10 ^ Z.max (snd x) 0).
Abbreviation dec_den := (fun x : Z * Z => 10 ^ Z.max (- snd x) 0).

Definition close (n d : Z) (x : Z * Z) : Prop := 2 * 10 ^ 16 * Z.abs (dec_num x * d - n * dec_den x) <= n * dec_den x.

(** [carry] does not change the value. *)
Lemma carry_value i c e : 0 <= i -> dec_num (carry i c e) * dec_den (c, e) = dec_num (c, e) * dec_den (carry i c e).
Proof.
  intros Hi. unfold carry. destruct (Z.eqb_spec c (10 ^ i)) as [->|_]; [|done]. cbn [fst snd].
  rewrite Z.mul_1_l, <- !Z.pow_add_r by lia. f_equal. lia.
Qed.

Lemma close_value n d x y : 0 < d -> dec_num y * dec_den x = dec_num x * dec_den y -> close n d x -> close n d y.
Proof.
  unfold close. cbv beta. intros Hd E H. assert (Hdx : 0 < dec_den x) by (apply pow10_pos; lia).
  assert (Hdy : 0 < dec_den y) by (apply pow10_pos; lia). cbv beta in Hdx, Hdy.
  set (dx := 10 ^ Z.max (- x.2) 0) in *. set (dy := 10 ^ Z.max (- y.2) 0) in *.
  set (nx := x.1 * _) in *. set (ny := y.1 * _) in *. clearbody dx dy nx ny.
  assert (Ea : Z.abs (ny * d - n * dy) * dx = Z.abs (nx * d - n * dx) * dy).
  { rewrite <- (Z.abs_eq dx) at 1 by lia. rewrite <- (Z.abs_eq dy) at 2 by lia. rewrite <- !Z.abs_mul. f_equal.
    transitivity ((ny * dx) * d - n * dx * dy); [ring|]. rewrite E. ring. }
  nia.
Qed.

Lemma near_close n d i : 0 < n -> 0 < d -> 17 <= i -> close n d (hd (0, 0) (candidates n d i)).
Proof.
  intros Hn Hd Hi. cbn [hd candidates]. eapply close_value; [done|apply carry_value; lia|].
  destruct (point_spec n d Hn Hd) as [Hp _]. set (k := point n d) in *. unfold close. cbn [fst snd].
  assert (Hb : 0 < 10 ^ Z.max (k - i) 0) by (apply pow10_pos; lia).
  pose proof (div_round_close (n * 10 ^ Z.max (- (k - i)) 0) (d * 10 ^ Z.max (k - i) 0) ltac:(lia)) as Hc.
  set (near := div_round _ _) in *.
  enough (10 ^ 16 * (d * 10 ^ Z.max (k - i) 0) <= n * 10 ^ Z.max (- (k - i)) 0) by lia.
  assert (Hs : exists s, 0 < s /\ 10 ^ (i - 1) * 10 ^ Z.max (k - i) 0 = 10 ^ Z.max (k - 1) 0 * s /\
                10 ^ Z.max (- (k - i)) 0 = 10 ^ Z.max (1 - k) 0 * s).
  { exists (10 ^ (i - 1 + Z.max (k - i) 0 - Z.max (k - 1) 0)). split; [apply pow10_pos; lia|].
    rewrite <- !Z.pow_add_r by lia. split; f_equal; lia. }
  destruct Hs as (s & Hs & E1 & E2). rewrite E2.
  assert (10 ^ 16 <= 10 ^ (i - 1)) by (apply Z.pow_le_mono_r; lia). nia.
Qed.

(** The ratio of a value. *)
Lemma close_rounds m e x : binary64 m e -> close (m * 2 ^ Z.max e 0) (2 ^ Z.max (- e) 0) x ->
  round_ratio (dec_num x) (dec_den x) = Some (m, e).
Proof.
  intros Hb Hc. pose proof Hb as (Hm & He & _). assert (Hden : 0 < dec_den x) by (apply pow10_pos; lia).
  apply round_ratio_near; [done|done|]. destruct (scale_exponent e) as (c & Hpos & E1 & E2); [lia|].
  rewrite <- E1, <- E2. unfold close in Hc. cbv beta in *.
  set (A := 2 ^ Z.max (- e) 0) in *. set (B := 2 ^ Z.max e 0) in *.
  set (N := x.1 * _) in *. set (D := 10 ^ Z.max (- x.2) 0) in *. clearbody A B N D.
  replace (N * (A * c) - Z.mul m (B * c) * D) with ((N * A - m * B * D) * c) by ring.
  rewrite Z.abs_mul, (Z.abs_eq c) by lia. nia.
Qed.

Lemma shortest_reads_back m e i fuel : binary64 (Zpos m) e -> i + Z.of_nat fuel = 17 ->
  let x := shortest (S754_finite false m e) (Zpos m * 2 ^ Z.max e 0) (2 ^ Z.max (- e) 0) i fuel in
  round_decimal false (fst x) (snd x) = Some (S754_finite false m e).
Proof.
  intros Hb. set (n := Zpos m * 2 ^ Z.max e 0). set (d := 2 ^ Z.max (- e) 0).
  revert i. induction fuel as [|fuel IH]; intros i Hi; cbn [shortest];
    destruct (List.find _ _) as [x|] eqn:Ef; try (apply List.find_some in Ef as [_ Ef%bool_decide_eq_true]; exact Ef).
  - unfold round_decimal. rewrite close_rounds with (m := Zpos m) (e := e); [done|done|].
    apply near_close; [apply Z.mul_pos_pos; [done|apply Z.pow_pos_nonneg; lia]|apply Z.pow_pos_nonneg; lia|lia].
  - apply IH. lia.
Qed.

(** ** The size of the digits and of the exponent *)

Lemma ndigits_bound z k : 0 < z < 10 ^ k -> 0 <= k -> ndigits z <= k.
Proof.
  intros Hz Hk. destruct (ndigits_spec z) as (H1 & Hlo & _); [lia|]. apply Z.nlt_ge. intros Hlt.
  assert (10 ^ k <= 10 ^ (ndigits z - 1)) by (apply Z.pow_le_mono_r; lia). lia.
Qed.

Lemma point_range n d : 0 < n < 10 ^ 400 -> 0 < d < 10 ^ 400 -> -400 <= point n d <= 400.
Proof.
  intros Hn Hd. assert (Hle : forall a b, 0 < b -> 0 < a -> a / b <= a) by (intros; apply Z.div_le_upper_bound; nia).
  unfold point. destruct (Z.leb_spec d n) as [Hdn|Hdn].
  - destruct (ndigits_spec (n / d)) as [H1 _]; [apply Z.div_str_pos; lia|].
    assert (ndigits (n / d) <= 400) by (apply ndigits_bound; [split; [apply Z.div_str_pos; lia|specialize (Hle n d); lia]|lia]). lia.
  - destruct (ndigits_spec (d / n)) as [H1 _]; [apply Z.div_str_pos; lia|].
    assert (ndigits (d / n) <= 400) by (apply ndigits_bound; [split; [apply Z.div_str_pos; lia|specialize (Hle d n); lia]|lia]). lia.
Qed.

Lemma carry_range i c e : 0 <= i <= 17 -> 0 <= c <= 10 ^ i + 1 -> -417 <= e <= 400 ->
  0 <= fst (carry i c e) <= 10 ^ 18 /\ -500 <= snd (carry i c e) <= 500.
Proof.
  intros Hi Hc He. assert (10 ^ i <= 10 ^ 17) by (apply Z.pow_le_mono_r; lia). unfold carry.
  destruct (c =? 10 ^ i); cbn [fst snd]; lia.
Qed.

Lemma candidates_range n d i : 0 < n < 10 ^ 400 -> 0 < d < 10 ^ 400 -> 0 <= i <= 17 ->
  Forall (fun x => 0 <= fst x <= 10 ^ 18 /\ -500 <= snd x <= 500) (candidates n d i).
Proof.
  intros Hn Hd Hi. pose proof (point_range n d Hn Hd) as Hk. destruct (point_spec n d) as [_ Hp]; [lia..|].
  unfold candidates. set (k := point n d) in *. set (num := n * 10 ^ Z.max (- (k - i)) 0). set (den := d * 10 ^ Z.max (k - i) 0).
  assert (Hden : 0 < den) by (apply Z.mul_pos_pos; [lia|apply pow10_pos; lia]).
  assert (Hnum : 0 <= num <= 10 ^ i * den).
  { split; [apply Z.mul_nonneg_nonneg; [lia|apply Z.pow_nonneg; lia]|].
    assert (Hs : exists s, 0 < s /\ 10 ^ Z.max (- (k - i)) 0 = 10 ^ Z.max (- k) 0 * s /\
                10 ^ i * 10 ^ Z.max (k - i) 0 = 10 ^ Z.max k 0 * s).
    { exists (10 ^ (Z.max (- (k - i)) 0 - Z.max (- k) 0)). split; [apply pow10_pos; lia|].
      rewrite <- !Z.pow_add_r by lia. split; f_equal; lia. }
    destruct Hs as (s & Hs & E1 & E2). subst num den. rewrite E1.
    replace (10 ^ i * (d * 10 ^ Z.max (k - i) 0)) with (d * (10 ^ i * 10 ^ Z.max (k - i) 0)) by ring. rewrite E2. nia. }
  assert (Hlo : 0 <= num / den <= 10 ^ i) by (split; [apply Z.div_pos; lia|apply Z.div_le_upper_bound; lia]).
  assert (Hnear : 0 <= div_round num den <= 10 ^ i + 1).
  { unfold div_round. repeat case_match; lia. }
  constructor; [apply carry_range; lia|constructor; [|constructor]]. apply carry_range; [lia| |lia].
  destruct (_ =? _); lia.
Qed.

Lemma shortest_candidate f n d i fuel : exists j, i <= j <= i + Z.of_nat fuel /\ shortest f n d i fuel ∈ candidates n d j.
Proof.
  revert i. induction fuel as [|fuel IH]; intros i; cbn [shortest];
    destruct (List.find _ _) as [x|] eqn:Ef; try (apply List.find_some in Ef as [Ef%list_elem_of_In _]; exists i; split; [lia|done]).
  - exists i. split; [lia|]. cbn [hd candidates]. apply list_elem_of_here.
  - destruct (IH (i + 1)) as (j & ? & ?). exists j. split; [lia|done].
Qed.

(** The digits and exponent of a value: positive, bounded, and read back. *)
Lemma shortest_spec m e : binary64 (Zpos m) e -> exists c k,
  shortest (S754_finite false m e) (Zpos m * 2 ^ Z.max e 0) (2 ^ Z.max (- e) 0) 1 16 = (c, k) /\
  0 < c <= 10 ^ 18 /\ -500 <= k <= 500 /\ round_decimal false c k = Some (S754_finite false m e).
Proof.
  intros Hb. pose proof (shortest_reads_back m e 1 16 Hb eq_refl) as Hr. pose proof Hb as (Hm & He & _).
  set (n := Zpos m * 2 ^ Z.max e 0) in *. set (d := 2 ^ Z.max (- e) 0) in *. destruct (shortest_candidate (S754_finite false m e) n d 1 16) as (i & Hi & Hx).
  assert (Hn : 0 < n < 10 ^ 400).
  { assert (0 < 2 ^ Z.max e 0 <= 2 ^ 971) by (split; [apply Z.pow_pos_nonneg; lia|apply Z.pow_le_mono_r; lia]).
    assert (2 ^ 53 * 2 ^ 971 < 10 ^ 400) by (vm_compute; done). subst n. clear Hx Hr. nia. }
  assert (Hd : 0 < d < 10 ^ 400).
  { split; [apply Z.pow_pos_nonneg; lia|]. assert (d <= 2 ^ 1074) by (apply Z.pow_le_mono_r; lia).
    assert (2 ^ 1074 < 10 ^ 400) by (vm_compute; done). lia. }
  pose proof (candidates_range n d i Hn Hd ltac:(lia)) as Hc. rewrite Forall_forall in Hc. specialize (Hc _ Hx).
  destruct (shortest _ _ _ _ _) as [c k]. cbn [fst snd] in *. exists c, k. split_and!; try done; try lia.
  destruct (decide (c = 0)) as [->|]; [|lia]. exfalso. revert Hr. unfold round_decimal. rewrite Z.mul_0_l.
  unfold round_ratio. rewrite !Z.mul_0_l, Z.div_0_l by (apply Z.pow_nonzero; lia).
  assert (E : forall x, 0 < x -> div_round 0 x = 0) by (intros x Hx'; apply div_round_near; lia).
  rewrite E by (apply Z.mul_pos_pos; apply Z.pow_pos_nonneg; lia). done.
Qed.

(** ** The text is a number literal and is read back *)

Definition int_digits (l : list ascii) : Prop :=
  l = ["0"%char] \/ exists d ds, l = d :: ds /\ Ascii.eqb d "0"%char = false /\ forallb is_digit l = true.
Definition frac_text (ds : list ascii) : list ascii := match ds with [] => [] | _ => "."%char :: ds end.
Inductive exp_ok : list ascii -> Prop :=
| exp_none : exp_ok []
| exp_some s ds : Ascii.eqb s "+"%char || Ascii.eqb s "-"%char = true -> ds <> [] -> forallb is_digit ds = true ->
    exp_ok ("e"%char :: s :: ds).

Lemma scan_digits_all p l k : l <> [] -> forallb is_digit l = true -> no_digit k = true -> scan_digits p (l ++ k) = Some (p ++ l, k).
Proof. intros Hne Hl Hk. unfold scan_digits. rewrite span_digits_all by done. by destruct l. Qed.

Lemma exp_no_digit l : exp_ok l -> no_digit l = true /\ scan_frac l = Some ([], l) /\ scan_exp l = Some (l, []).
Proof.
  destruct 1 as [|s ds Hs Hne Hd]; [done|]. split_and!; [done..|]. cbn [scan_exp]. rewrite Hs. cbn.
  rewrite <- (app_nil_r ds) at 1. by rewrite scan_digits_all.
Qed.

Lemma number_parts neg int frac ex : int_digits int -> forallb is_digit frac = true -> exp_ok ex ->
  number_ok (sign_text neg (int ++ frac_text frac ++ ex)) = true.
Proof.
  intros Hi Hf He. destruct (exp_no_digit ex He) as (Hnd & Hef & Hex).
  assert (Hfr : scan_frac (frac_text frac ++ ex) = Some (frac_text frac, ex) /\ no_digit (frac_text frac ++ ex) = true).
  { destruct frac as [|d ds]; [done|]. split; [|done]. cbn [frac_text app scan_frac]. change (Ascii.eqb "." ".") with true. cbn iota.
    exact (scan_digits_all ["."%char] (d :: ds) ex ltac:(done) Hf Hnd). }
  destruct Hfr as [Hfr Hfn]. set (k := frac_text frac ++ ex) in *.
  assert (Hint : scan_int (int ++ k) = Some (int, k)).
  { destruct Hi as [->|(d & ds & -> & Hz & Hd)]; [done|]. cbn [app scan_int]. rewrite Hz.
    exact (scan_digits_all [] (d :: ds) k ltac:(done) Hd Hfn). }
  assert (Hu : scan_unsigned (int ++ k) = Some (int ++ k, [])).
  { unfold scan_unsigned. rewrite Hint. cbn [and_then]. rewrite Hfr. cbn [prepend and_then]. rewrite Hex. cbn [prepend].
    subst k. by rewrite <- app_assoc. }
  apply bool_decide_eq_true. destruct neg; cbn [sign_text scan_number].
  - change (Ascii.eqb "-" "-") with true. cbn iota. by rewrite Hu.
  - assert (exists c t, int ++ k = c :: t /\ Ascii.eqb c "-" = false) as (c & t & E & Hc).
    { destruct Hi as [->|(d & ds & -> & _ & Hd)]; [by do 2 eexists|]. do 2 eexists. split; [done|].
      apply andb_true_iff in Hd as [Hd _]. by apply digit_ne. }
    rewrite E in Hu |- *. cbn [scan_number]. rewrite Hc. exact Hu.
Qed.

Lemma decimal_parts neg int frac ex v : int_digits int -> forallb is_digit frac = true -> exp_ok ex ->
  parse_digits 0 (int ++ frac) = Some v ->
  decimal_of (sign_text neg (int ++ frac_text frac ++ ex)) = (neg, v, exponent ex - Z.of_nat (length frac)).
Proof.
  intros Hi Hf He Hv. destruct (exp_no_digit ex He) as (Hnd & _).
  assert (Hid : forallb is_digit int = true) by (by destruct Hi as [->|(d & ds & -> & _ & ?)]).
  assert (Hu : match sign_text neg (int ++ frac_text frac ++ ex) with
    | c :: t => if Ascii.eqb c "-" then (true, t) else (false, sign_text neg (int ++ frac_text frac ++ ex))
    | [] => (false, sign_text neg (int ++ frac_text frac ++ ex)) end = (neg, int ++ frac_text frac ++ ex)).
  { destruct neg; [done|]. cbn [sign_text]. destruct Hi as [->|(d & ds & -> & _ & Hd)]; [done|]. cbn [app].
    apply andb_true_iff in Hd as [Hd _]. by rewrite (digit_ne d "-"). }
  unfold decimal_of. rewrite Hu, span_digits_all; [|done|by destruct frac].
  destruct frac as [|d ds]; cbn [frac_text app].
  - assert (match ex with c :: t => if Ascii.eqb c "." then span_digits t else ([], ex) | [] => ([], ex) end = ([], ex)) as ->
      by (by destruct He). by rewrite Hv.
  - change (Ascii.eqb "." ".") with true. cbn iota. change (d :: ds ++ ex) with ((d :: ds) ++ ex). rewrite span_digits_all by done. by rewrite Hv.
Qed.

Lemma exp_value_parse acc l v : 0 <= acc -> parse_digits acc l = Some v -> v < 10000 -> exp_value acc l = v.
Proof.
  revert acc. induction l as [|c l IH]; intros acc Ha Hp Hv; [by injection Hp|]. pose proof (parse_digits_bound _ _ _ Hp) as Hb.
  assert (0 < 10 ^ Z.of_nat (length (c :: l))) by (apply pow10_pos; lia).
  cbn [parse_digits exp_value] in *. destruct (Z.ltb_spec acc 10000); [|nia].
  unfold digit_val in *. destruct (_ && _) eqn:E; [|done]. bools. cbn [default from_option id]. apply IH; [lia|done|done].
Qed.

(** The digits of a positive number. *)
Lemma Itoa_positive z : 0 < z -> exists d ds, bytes_of (Itoa z) = d :: ds /\ Ascii.eqb d "0" = false /\
  forallb is_digit (d :: ds) = true /\ parse_digits 0 (d :: ds) = Some z.
Proof.
  intros Hz. destruct (Itoa_text z) as [|z d ds _ Hnz Hd Hp|]; [lia| |lia]. exists d, ds. split_and!; try done.
  apply Ascii.eqb_neq. by intros ->.
Qed.

Lemma exp_text_ok e : -1000 < e < 1000 -> exp_ok (exp_text e) /\ exponent (exp_text e) = e /\ (length (exp_text e) <= 25)%nat.
Proof.
  intros He. assert (Hl : forall z, -1000 < z < 1000 -> (length (bytes_of (Itoa z)) <= 20)%nat) by (intros; apply Itoa_length; unfold in_i64; lia).
  unfold exp_text. destruct (Z.ltb_spec e 0).
  - destruct (Itoa_positive (- e)) as (d & ds & E & _ & Hd & Hp); [lia|]. specialize (Hl (- e)). rewrite E in *.
    split_and!; [by constructor| |cbn [length] in *; lia]. cbn [exponent]. rewrite Ascii.eqb_refl, (exp_value_parse _ _ (- e)); [lia|done..|lia].
  - specialize (Hl e). destruct (decide (e = 0)) as [->|Hne]; [split_and!; [by constructor|done|cbn; lia]|].
    destruct (Itoa_positive e) as (d & ds & E & _ & Hd & Hp); [lia|]. rewrite E in *. destruct (e <? 10); cbn [app].
    + split_and!; [by constructor| |cbn [length] in *; lia]. cbn [exponent]. change (Ascii.eqb "+" "-") with false. change (Ascii.eqb "+" "+") with true.
      cbn iota. apply exp_value_parse; [done|exact Hp|lia].
    + split_and!; [by constructor| |cbn [length] in *; lia]. cbn [exponent]. change (Ascii.eqb "+" "-") with false. change (Ascii.eqb "+" "+") with true.
      cbn iota. apply exp_value_parse; [done|exact Hp|lia].
Qed.

Lemma zeros_spec n : forallb is_digit (zeros n) = true /\ length (zeros n) = Z.to_nat n.
Proof. unfold zeros. split; [by induction (Z.to_nat n)|apply length_replicate]. Qed.

(** A literal in its parts denotes [c * 10^k], as the same ratio. *)
Inductive denotes (c k : Z) : list ascii -> Prop :=
| denotes_parts int frac ex v : int_digits int -> forallb is_digit frac = true -> exp_ok ex ->
    parse_digits 0 (int ++ frac) = Some v ->
    v * 10 ^ Z.max (exponent ex - Z.of_nat (length frac)) 0 = c * 10 ^ Z.max k 0 ->
    Z.max (- (exponent ex - Z.of_nat (length frac))) 0 = Z.max (- k) 0 ->
    denotes c k (int ++ frac_text frac ++ ex).

(** The same exponent, or an integer. *)
Lemma denotes_exact c k int frac ex : int_digits int -> forallb is_digit frac = true -> exp_ok ex ->
  parse_digits 0 (int ++ frac) = Some c -> exponent ex - Z.of_nat (length frac) = k -> denotes c k (int ++ frac_text frac ++ ex).
Proof. intros Hi Hf He Hp <-. by econstructor. Qed.

Lemma frac_text_cons a d ds : frac_text (a ++ d :: ds) = "."%char :: a ++ d :: ds.
Proof. by destruct a. Qed.

Lemma positive_text_denotes c k : 0 < c <= 10 ^ 18 -> -500 <= k <= 500 ->
  denotes c k (positive_text c k) /\ (length (positive_text c k) <= 100)%nat.
Proof.
  intros Hc Hk. destruct (Itoa_positive c) as (d & ds & E & Hz & Hd & Hp); [lia|].
  assert (Hlen : Z.of_nat (length (d :: ds)) <= 19) by (rewrite <- E; apply ndigits_bound; lia).
  unfold positive_text. rewrite E. set (nd := Z.of_nat (length (d :: ds))) in *. assert (1 <= nd) by (subst nd; cbn [length]; lia).
  assert (Hi : int_digits (d :: ds)) by (right; by exists d, ds).
  destruct ((nd + k <? -5) || (21 <? nd + k)) eqn:Ef.
  - destruct (exp_text_ok (nd + k - 1)) as (Hx & Ex & Hxl); [lia|]. split.
    + assert (Hd1 : int_digits [d]) by (right; exists d, []; split_and!; [done|done|]; apply andb_true_iff in Hd as [Hd _]; cbn [forallb]; by rewrite Hd).
      pose proof (denotes_exact c k [d] ds (exp_text (nd + k - 1)) Hd1) as Hden.
      destruct ds as [|d2 ds]; apply Hden; try done; try (rewrite Ex; subst nd; cbn [length]; lia).
      by apply andb_true_iff in Hd as [_ Hd].
    + destruct ds as [|d2 ds]; cbn [length]; [lia|]. rewrite length_app. subst nd. cbn [length] in *. lia.
  - bools. destruct (Z.leb_spec (nd + k) 0); [|destruct (Z.leb_spec nd (nd + k))].
    + destruct (zeros_spec (- (nd + k))) as [Hzd Hzl]. split.
      * pose proof (denotes_exact c k ["0"%char] (zeros (- (nd + k)) ++ d :: ds) []) as Hden.
        rewrite app_nil_r, frac_text_cons in Hden. apply Hden; [by left| |constructor| |].
        -- by rewrite forallb_app, Hzd.
        -- change ((["0"%char] ++ zeros (- (nd + k)) ++ d :: ds)) with (zeros (1 + 0) ++ zeros (- (nd + k)) ++ d :: ds).
           assert (Hzero : forall n l, parse_digits 0 (zeros n ++ l) = parse_digits 0 l)
             by (intros n l; unfold zeros; induction (Z.to_nat n); [done|exact IHn0]). by rewrite !Hzero.
        -- cbn [exponent]. rewrite length_app, Nat2Z.inj_add, Hzl. fold nd. lia.
      * cbn [length]. rewrite length_app, Hzl. lia.
    + destruct (zeros_spec (nd + k - nd)) as [Hzd Hzl]. replace (nd + k - nd) with k in * by lia. split.
      * rewrite <- (app_nil_r (_ ++ zeros k)). eapply (denotes_parts c k ((d :: ds) ++ zeros k) [] []);
          [right; eexists d, (ds ++ zeros k); split_and!; [done|done|cbn [app]; by rewrite app_comm_cons, forallb_app, Hd, Hzd]|done|constructor| | |].
        -- rewrite app_nil_r, parse_digits_app, Hp. unfold zeros. apply parse_zeros.
        -- rewrite Z2Nat.id, (Z.max_l k) by lia. change (10 ^ Z.max (exponent [] - Z.of_nat (length (A:=ascii) [])) 0) with 1. lia.
        -- cbn. lia.
      * rewrite length_app, Hzl. subst nd. lia.
    + rewrite <- (take_drop (Z.to_nat (nd + k)) (d :: ds)) in Hd, Hp. rewrite forallb_app in Hd. apply andb_true_iff in Hd as [Ht Hdr].
      assert (Hdl : length (drop (Z.to_nat (nd + k)) (d :: ds)) = Z.to_nat (- k)) by (rewrite length_drop; subst nd; lia). split.
      * pose proof (denotes_exact c k (take (Z.to_nat (nd + k)) (d :: ds)) (drop (Z.to_nat (nd + k)) (d :: ds)) []) as Hden.
        rewrite app_nil_r in Hden. destruct (drop (Z.to_nat (nd + k)) (d :: ds)) as [|d2 r] eqn:Edr; [cbn in Hdl; lia|].
        apply Hden; [|done|constructor|done|cbn [exponent]; rewrite Hdl; lia].
        right. destruct (Z.to_nat (nd + k)) as [|n] eqn:En; [lia|]. cbn [take] in *. by exists d, (take n ds).
      * rewrite length_app. cbn [length]. rewrite Hdl, length_take. lia.
Qed.

(** A canonical finite value is written and read back exactly; the text is a
    number of at most a hundred and one bytes. *)
Lemma valid_binary64 s m e : valid_binary 53 1024 (S754_finite s m e) = true -> binary64 (Zpos m) e.
Proof.
  cbn [valid_binary]. unfold bounded, canonical_mantissa, fexp, emin. intros H. bools.
  assert (Hd : forall p, 2 ^ (Zpos (digits2_pos p) - 1) <= Zpos p < 2 ^ Zpos (digits2_pos p)).
  { induction p as [p IH|p IH|]; cbn [digits2_pos]; [| |cbn; lia];
      rewrite Pos2Z.inj_succ; replace (Z.succ (Zpos (digits2_pos p)) - 1) with (Z.succ (Zpos (digits2_pos p) - 1)) by lia;
      rewrite !Z.pow_succ_r by lia; lia. }
  specialize (Hd m). set (k := Zpos (digits2_pos m)) in *. clearbody k. unfold binary64.
  assert (k <= 53) by lia. assert (2 ^ k <= 2 ^ 53) by (apply Z.pow_le_mono_r; lia). split; [lia|]. split; [lia|].
  destruct (decide (e = -1074)) as [|Hne]; [by left|right]. assert (k = 53) as -> by lia. cbn in *. lia.
Qed.

Definition finite (f : float64) : bool := match f with S754_zero _ | S754_finite _ _ _ => true | _ => false end.

Lemma float_text_spec f : finite f = true -> valid_binary 53 1024 f = true ->
  exists l, float_text f = Ok l /\ number_ok l = true /\ ParseFloat l = Some f /\ (length l <= 101)%nat.
Proof.
  destruct f as [s| | |s m e]; try done; intros _ Hv.
  { exists (sign_text s ["0"%char]). destruct s; (split_and!; [done|done|vm_compute; done|cbn; lia]). }
  apply valid_binary64 in Hv. destruct (shortest_spec m e Hv) as (c & k & E & Hc & Hk & Hr). cbn [float_text]. rewrite E.
  eexists. split; [done|]. destruct (positive_text_denotes c k Hc Hk) as [Hden Hl]. split_and!.
  - destruct Hden. by apply number_parts.
  - unfold ParseFloat. destruct Hden as [int frac ex v Hi Hf He Hp Ev Ek]. rewrite (decimal_parts s int frac ex v) by done.
    unfold round_decimal in *. rewrite Ev, Ek. revert Hr. destruct (round_ratio _ _) as [[[|p|p] e']|]; try done. by intros [= -> ->].
  - destruct s; cbn [sign_text length]; lia.
Qed.
