(* ===== verification/JsonCodec.v ===== *)
(** [encoding/json] on Go values: a Go type with its struct tags, a value of
    it, [json.Marshal], and the decoder of [json.Decoder.Decode] and
    [json.Unmarshal].

    As in package reflect, both directions are driven by the type.  A slice
    decoded over an older one reuses the older one's elements as long as
    there are some; elements an even older value left beyond its length are
    not modelled. *)
From S2P Require Import Prelude GoStrings GoFloat GoTime Decimal GoDate JsonText FloatText.

#[local] Open Scope Z_scope.

(** Fields carry their name and whether they are tagged [omitempty]. *)
#[warnings="-register-all"]
Inductive gtype :=
| TString | TInt | TFloat | TBool | TTime
| TPointer (t : gtype) | TSlice (t : gtype) | TStruct (fields : list (string * bool * gtype)).

(** [VNil] is the nil pointer and the nil slice. *)
#[warnings="-register-all"]
Inductive gval :=
| VString (s : string) | VInt (z : Z) | VFloat (f : float64) | VBool (b : bool) | VTime (t : time)
| VNil | VPtr (v : gval) | VSlice (l : list gval) | VStruct (l : list gval).

Fixpoint zero (t : gtype) : gval :=
  match t with
  | TString => VString ""
  | TInt => VInt 0
  | TFloat => VFloat (f_of_Z 0)
  | TBool => VBool false
  | TTime => VTime 0
  | TPointer _ | TSlice _ => VNil
  | TStruct fs => VStruct (map (fun f => zero f.2) fs)
  end.

(** ** Encoding *)

Fixpoint mapR {A B} (f : A -> Result B) (l : list A) : Result (list B) :=
  match l with
  | [] => Ok []
  | x :: r => y <-- f x ;; ys <-- mapR f r ;; Ok (y :: ys)
  end.

(** [isEmptyValue]; the zero of either sign is empty. *)
Definition isEmptyValue (v : gval) : bool :=
  match v with
  | VString s => (s =? "")%string
  | VInt z => z =? 0
  | VFloat f => f_eqb f (f_of_Z 0)
  | VBool b => negb b
  | VNil | VSlice [] => true
  | _ => false
  end.

Definition type_mismatch : GoError := LibErr "reflect" "value of another type".

Section struct_encoder.
Context (encode : gtype -> gval -> Result json).
Fixpoint encode_fields (fs : list (string * bool * gtype)) (vs : list gval) : Result (list (list ascii * json)) :=
  match fs, vs with
  | [], [] => Ok []
  | (name, omitempty, t) :: fs, v :: vs =>
      if omitempty && isEmptyValue v then encode_fields fs vs
      else j <-- encode t v ;; ms <-- encode_fields fs vs ;; Ok ((quote (bytes_of name), j) :: ms)
  | _, _ => Err type_mismatch
  end.
End struct_encoder.

(** [zone] gives the offset of an instant's location. *)
Fixpoint encode (zone : time -> Z) (t : gtype) (v : gval) : Result json :=
  match t, v with
  | TString, VString s => Ok (JString (quote (bytes_of s)))
  | TInt, VInt z => Ok (JNumber (bytes_of (Itoa z)))
  | TFloat, VFloat f => l <-- float_text f ;; Ok (JNumber l)
  | TBool, VBool b => Ok (JBool b)
  | TTime, VTime i => l <-- marshalTime (zone i) i ;; Ok (JString l)
  | TPointer _, VNil | TSlice _, VNil => Ok JNull
  | TPointer t, VPtr v => encode zone t v
  | TSlice t, VSlice l => js <-- mapR (encode zone t) l ;; Ok (JArray js)
  | TStruct fs, VStruct vs => ms <-- encode_fields (encode zone) fs vs ;; Ok (JObject ms)
  | _, _ => Err type_mismatch
  end.

(** [json.Marshal]. *)
Definition marshal (zone : time -> Z) (t : gtype) (v : gval) : Result (list ascii) := j <-- encode zone t v ;; Ok (render j).

(** ** Decoding *)

(** What decoding a value yields: an error that stops it, or the value stored
    and the first error that does not ([saveError]). *)
Abbreviation Stored := (Result (gval * option GoError)).

Definition stored (v : gval) : Stored := Ok (v, None).
Definition type_error (v : gval) (target : string) : Stored := Ok (v, Some (LibErr "json.UnmarshalTypeError" target)).
Definition first_error (a b : option GoError) : option GoError := match a with Some e => Some e | None => b end.

(** The folding of field names: [foldName] on what can equal an ASCII name
    ([K] and [S] have a non-ASCII equivalent each). *)
Fixpoint foldName (l : list ascii) : list ascii :=
  match l with
  | [] => []
  | a :: t1 =>
      let here := (if byte_in 97 122 a then chr (byteZ a - 32) else a) :: foldName t1 in
      match t1 with
      | b :: t2 =>
          if (byteZ a =? 197) && (byteZ b =? 191) then "S"%char :: foldName t2
          else match t2 with
               | c :: t3 => if (byteZ a =? 226) && (byteZ b =? 132) && (byteZ c =? 170) then "K"%char :: foldName t3 else here
               | [] => here
               end
      | [] => here
      end
  end.

Fixpoint index_of {A} (p : A -> bool) (l : list A) : option nat :=
  match l with
  | [] => None
  | x :: r => if p x then Some O else S <$> index_of p r
  end.
(** The field a key names: the exact name first, then any capitalisation. *)
Definition field_of (names : list string) (key : list ascii) : option nat :=
  match index_of (fun n => bool_decide (bytes_of n = key)) names with
  | Some i => Some i
  | None => index_of (fun n => bool_decide (foldName (bytes_of n) = foldName key)) names
  end.

Section struct_decoder.
Context (strict : bool) (fields : list (string * (json -> gval -> Stored))).
Fixpoint store_members (ms : list (list ascii * json)) (vs : list gval) (saved : option GoError) : Stored :=
  match ms with
  | [] => Ok (VStruct vs, saved)
  | (key, j) :: ms =>
      match field_of (map fst fields) (unquote key) with
      | None =>
          store_members ms vs
            (if strict then first_error saved (Some (Errorf "json: unknown field %q" [string_of (unquote key)])) else saved)
      | Some i =>
          match fields !! i, vs !! i with
          | Some (_, store), Some old =>
              match store j old with
              | Err e => Err e
              | Ok (v, e) => store_members ms (<[i := v]> vs) (first_error saved e)
              end
          | _, _ => Err type_mismatch
          end
      end
  end.
End struct_decoder.

Section slice_decoder.
Context (store : json -> gval -> Stored) (fresh : gval).
Fixpoint store_elements (js : list json) (old : list gval) : Result (list gval * option GoError) :=
  match js with
  | [] => Ok ([], None)
  | j :: js =>
      match store j (match old with o :: _ => o | [] => fresh end) with
      | Err e => Err e
      | Ok (v, e) =>
          match store_elements js (tl old) with
          | Err e => Err e
          | Ok (vs, e') => Ok (v :: vs, first_error e e')
          end
      end
  end.
End slice_decoder.

(** [d.value] of a scanned value, into a variable that holds [old]. *)
Fixpoint store (strict : bool) (t : gtype) (j : json) (old : gval) : Stored :=
  match t with
  | TString => match j with JString raw => stored (VString (string_of (unquote raw))) | JNull => stored old | _ => type_error old "string" end
  | TInt =>
      match j with
      | JNumber l => match Atoi (string_of l) with Some z => stored (VInt z) | None => type_error old "int" end
      | JNull => stored old
      | _ => type_error old "int"
      end
  | TFloat =>
      match j with
      | JNumber l => match ParseFloat l with Some f => stored (VFloat f) | None => type_error old "float64" end
      | JNull => stored old
      | _ => type_error old "float64"
      end
  | TBool => match j with JBool b => stored (VBool b) | JNull => stored old | _ => type_error old "bool" end
  | TTime =>
      match j with
      | JNull => stored old
      | JString raw => match parseRFC3339 raw with Some i => stored (VTime i) | None => Err (LibErr "time.Parse" (string_of raw)) end
      | _ => Err (Errorf "Time.UnmarshalJSON: input is not a JSON string" [])
      end
  | TPointer t =>
      match j with
      | JNull => stored VNil
      | _ => match store strict t j (match old with VPtr v => v | _ => zero t end) with
             | Err e => Err e
             | Ok (v, e) => Ok (VPtr v, e)
             end
      end
  | TSlice t =>
      match j with
      | JNull => stored VNil
      | JArray js =>
          match store_elements (store strict t) (zero t) js (match old with VSlice l => l | _ => [] end) with
          | Err e => Err e
          | Ok (vs, e) => Ok (VSlice vs, e)
          end
      | _ => type_error old "slice"
      end
  | TStruct fs =>
      match j, old with
      | JNull, _ => stored old
      | JObject ms, VStruct vs => store_members strict (map (fun f => (f.1.1, store strict f.2)) fs) ms vs None
      | _, _ => type_error old "struct"
      end
  end.

Definition finish_store {A} (r : Stored) (k : gval -> Result A) : Result A :=
  match r with
  | Err e => Err e
  | Ok (_, Some e) => Err e
  | Ok (v, None) => k v
  end.

(** [Decoder.Decode] with [DisallowUnknownFields], into a zero variable. *)
Definition decode (t : gtype) (l : list ascii) : Result (gval * list ascii) :=
  match scan_value l with
  | None => Err (LibErr "json.Decoder.Decode" (string_of l))
  | Some (j, rest) => finish_store (store true t j (zero t)) (fun v => Ok (v, rest))
  end.

(** [json.Unmarshal]: one value and white space. *)
Definition unmarshal (t : gtype) (l : list ascii) : Result gval :=
  match scan_value l with
  | Some (j, rest) =>
      if forallb is_space rest then finish_store (store false t j (zero t)) Ok
      else Err (LibErr "json.Unmarshal" (string_of l))
  | None => Err (LibErr "json.Unmarshal" (string_of l))
  end.

(** ** Round trip *)

Section gtype_induction.
Context (P : gtype -> Prop).
Context (Hstring : P TString) (Hint : P TInt) (Hfloat : P TFloat) (Hbool : P TBool) (Htime : P TTime).
Context (Hptr : forall t, P t -> P (TPointer t)) (Hslice : forall t, P t -> P (TSlice t)).
Context (Hstruct : forall fs, Forall (fun f => P f.2) fs -> P (TStruct fs)).
Fixpoint gtype_ind' (t : gtype) : P t :=
  match t with
  | TString => Hstring | TInt => Hint | TFloat => Hfloat | TBool => Hbool | TTime => Htime
  | TPointer t => Hptr t (gtype_ind' t)
  | TSlice t => Hslice t (gtype_ind' t)
  | TStruct fs =>
      Hstruct fs (list_ind (Forall (fun f => P f.2)) (Forall_nil_2 _)
                    (fun x r IH => Forall_cons_2 (fun f => P f.2) x r (gtype_ind' x.2) IH) fs)
  end.
End gtype_induction.

(** Types that decode what they encode: distinct field names, and no pointer
    to something that may be [null]. *)
Definition nullable (t : gtype) : bool := match t with TPointer _ | TSlice _ => true | _ => false end.
Fixpoint type_ok (t : gtype) : bool :=
  match t with
  | TPointer t => negb (nullable t) && type_ok t
  | TSlice t => type_ok t
  | TStruct fs =>
      bool_decide (NoDup (map (fun f => f.1.1) fs)) && forallb (fun f => valid_utf8 f.1.1) fs && forallb (fun f => type_ok f.2) fs
  | _ => true
  end.

(** Values the text can carry: UTF-8, 64-bit integers, finite floats, years
    of four digits; what is omitted must be the zero value. *)
Section struct_carried.
Context (carried : gtype -> gval -> Prop).
Fixpoint carried_fields (fs : list (string * bool * gtype)) (vs : list gval) : Prop :=
  match fs, vs with
  | [], [] => True
  | (_, omitempty, t) :: fs, v :: vs =>
      carried t v /\ (omitempty && isEmptyValue v = true -> v = zero t) /\ carried_fields fs vs
  | _, _ => False
  end.
End struct_carried.

Fixpoint carried (zone : time -> Z) (t : gtype) (v : gval) : Prop :=
  match t, v with
  | TString, VString s => valid_utf8 s = true
  | TInt, VInt z => in_i64 z
  | TFloat, VFloat f => finite f = true /\ SpecFloat.valid_binary 53 1024 f = true
  | TBool, VBool _ => True
  | TTime, VTime i => writable (zone i) i
  | TPointer _, VNil | TSlice _, VNil => True
  | TPointer t, VPtr v => carried zone t v
  | TSlice t, VSlice l => Forall (carried zone t) l
  | TStruct fs, VStruct vs => carried_fields (carried zone) fs vs
  | _, _ => False
  end.

(** A bound on the text: names and strings may grow sixfold. *)
Section struct_bound.
Context (text_bound : gtype -> gval -> nat).
Fixpoint bound_fields (fs : list (string * bool * gtype)) (vs : list gval) : nat :=
  match fs, vs with
  | (name, _, t) :: fs, v :: vs => 4 + 6 * length (bytes_of name) + text_bound t v + bound_fields fs vs
  | _, _ => 0
  end%nat.
End struct_bound.

Fixpoint text_bound (t : gtype) (v : gval) : nat :=
  match t, v with
  | TString, VString s => 2 + 6 * length (bytes_of s)
  | TInt, VInt _ => 20
  | TFloat, VFloat _ => 101
  | TTime, VTime _ => 37
  | TPointer t, VPtr v => text_bound t v
  | TSlice t, VSlice l => 2 + sum_list (map (fun v => 1 + text_bound t v) l)
  | TStruct fs, VStruct vs => 2 + bound_fields text_bound fs vs
  | _, _ => 5
  end%nat.

Fixpoint type_depth (t : gtype) : nat :=
  match t with
  | TPointer t => type_depth t
  | TSlice t => S (type_depth t)
  | TStruct fs => S (list_max (map (fun f => type_depth f.2) fs))
  | _ => O
  end.

Lemma index_of_middle {A} (p : A -> bool) l1 x l2 : p x = true -> (forall y, y ∈ l1 -> p y = false) ->
  index_of p (l1 ++ x :: l2) = Some (length l1).
Proof.
  intros Hx. induction l1 as [|y l1 IH]; intros Hl; cbn [app index_of length]; [by rewrite Hx|].
  rewrite Hl by left. rewrite IH; [done|]. intros z Hz. apply Hl. by right.
Qed.

Lemma field_of_name names1 name names2 : NoDup (names1 ++ name :: names2) ->
  field_of (names1 ++ name :: names2) (bytes_of name) = Some (length names1).
Proof.
  intros Hnd. unfold field_of. rewrite index_of_middle; [done|by apply bool_decide_eq_true|].
  intros y Hy. apply bool_decide_eq_false. intros ->%bytes_of_inj. apply NoDup_app in Hnd as (_ & Hd & _). apply (Hd name Hy). by left.
Qed.

Lemma quote_length l : (length (quote l) <= 6 * length l)%nat.
Proof.
  rewrite <- (runes_bytes l) at 2. unfold quote. induction (runes_shape l) as [|r rs Hr _ IH]; [done|]. cbn [map concat].
  rewrite !length_app. enough (length (quote_rune r) <= 6 * length (match r with Valid b => b | Invalid c => [c] end))%nat by lia.
  destruct Hr as [a _|a b _ _|a b c _ _ _|a b c d _ _ _ _|a _]; cbn [quote_rune length]; repeat case_bool_decide; cbn [length]; try (cbn; lia).
  destruct a as [[] [] [] [] [] [] [] []]; vm_compute; lia.
Qed.

(** Text made of ASCII other than quotes, backslashes, controls and the three
    characters escaped for HTML is quoted as it is. *)
Definition plain (c : ascii) : bool := is_ascii c && bool_decide (quote_ascii c = [c]).

Lemma runes_ascii l : forallb is_ascii l = true -> runes l = map (fun c => Valid [c]) l.
Proof. induction l as [|c l IH]; [done|]. cbn [forallb runes map]. intros [-> ?]%andb_true_iff. by rewrite IH. Qed.

Lemma quote_plain l : forallb plain l = true -> quote l = l.
Proof.
  intros H. unfold quote. rewrite runes_ascii.
  - induction l as [|c l IH]; [done|]. cbn [forallb map concat quote_rune] in *. apply andb_true_iff in H as [Hc Hl].
    apply andb_true_iff in Hc as [_ Hc%bool_decide_eq_true]. by rewrite IH, Hc.
  - revert H. clear. induction l as [|c l IH]; [done|]. cbn [forallb]. intros [[-> _]%andb_true_iff ?]%andb_true_iff. by apply IH.
Qed.

Lemma is_digit_plain c : is_digit c = true -> plain c = true.
Proof. destruct c as [[] [] [] [] [] [] [] []]; vm_compute; done. Qed.

Lemma forallb_impl {A} (p q : A -> bool) l : (forall x, p x = true -> q x = true) -> forallb p l = true -> forallb q l = true.
Proof. intros Hpq. rewrite !forallb_forall. eauto. Qed.

Lemma fixed_plain n z : forallb plain (fixed n z) = true.
Proof. eapply forallb_impl; [apply is_digit_plain|apply fixed_spec]. Qed.

Lemma formatRFC3339_plain zone t : forallb plain (formatRFC3339 zone t) = true.
Proof.
  unfold formatRFC3339. destruct (yearDay _) as [year yday], (monthDay year yday) as [month day].
  assert (Hf : forall n, forallb plain (fraction n) = true).
  { intros n. unfold fraction. destruct (trim_zeros_spec (fixed 9 n)) as [k E]. pose proof (fixed_plain 9 n) as H.
    rewrite E, forallb_app in H. apply andb_true_iff in H as [H _]. by destruct (trim_zeros _). }
  assert (Hz : forallb plain (zone_text zone) = true).
  { unfold zone_text. destruct (zone =? 0); [done|]. cbn [forallb]. rewrite forallb_app. cbn [forallb]. rewrite !fixed_plain. by destruct (zone <? 0). }
  repeat (rewrite forallb_app || rewrite fixed_plain || cbn [forallb andb]). by rewrite Hf, Hz.
Qed.

Lemma quoted_length raw : length (quoted raw) = (2 + length raw)%nat.
Proof. unfold quoted. cbn [length]. rewrite length_app. cbn [length]. lia. Qed.

Section round_trip.
Context (zone : time -> Z).

(** What encoding a carried value yields. *)
Record encoded (t : gtype) (v : gval) (j : json) : Prop := {
  ec_wf : wf j = true;
  ec_depth : (nesting j <= type_depth t)%nat;
  ec_length : (length (render j) <= text_bound t v)%nat;
  ec_null : nullable t = false -> j <> JNull;
  ec_store : forall strict, store strict t j (zero t) = stored v
}.

Definition encodes (t : gtype) : Prop := type_ok t = true -> forall v, carried zone t v -> exists j, encode zone t v = Ok j /\ encoded t v j.

Lemma encodes_scalar t : In t [TString; TInt; TFloat; TBool; TTime] -> encodes t.
Proof.
  intros Ht _ v Hv. cbn in Ht. destruct Ht as [<-|[<-|[<-|[<-|[<-|[]]]]]]; destruct v; try done; cbn [carried encode rbind] in *.
  - eexists. split; [done|]. split; try done; [apply quote_literal| |].
    + cbn. rewrite length_app. pose proof (quote_length (bytes_of s)). cbn. lia.
    + intros strict. cbn. by rewrite unquote_quote, sanitize_valid, string_of_bytes_of.
  - eexists. split; [done|]. split; try done; [|by apply Itoa_length|].
    + pose proof (Itoa_text z) as H. cbn [wf]. destruct H as [|z d ds _ Hnz Hd _ _|z d ds _ Hnz Hd _ _]; [done| |];
        (assert (Hi : int_digits (d :: ds)) by (right; exists d, ds; split_and!; [done|apply Ascii.eqb_neq; by intros ->|done])).
      * pose proof (number_parts false (d :: ds) [] [] Hi eq_refl exp_none) as H. by rewrite app_nil_r in H.
      * pose proof (number_parts true (d :: ds) [] [] Hi eq_refl exp_none) as H. by rewrite app_nil_r in H.
    + intros strict. cbn. by rewrite string_of_bytes_of, Atoi_Itoa.
  - destruct Hv as [Hf Hb]. destruct (float_text_spec f Hf Hb) as (l & -> & Hn & Hp & Hl). eexists. split; [done|].
    split; try done. intros strict. cbn. by rewrite Hp.
  - eexists. split; [done|]. split; try done. destruct b; cbn; lia.
  - destruct Hv as [Hy Hz]. unfold marshalTime. rewrite (proj2 (Z.leb_le 0 _)), (proj2 (Z.leb_le _ 9999)), (proj2 (Z.ltb_lt _ 1440)) by lia.
    cbn [andb rbind]. eexists. split; [done|]. split; try done.
    + cbn [wf]. rewrite <- (quote_plain (formatRFC3339 (zone t) t)) by apply formatRFC3339_plain. apply quote_literal.
    + cbn [render text_bound]. rewrite quoted_length. pose proof (formatRFC3339_length (zone t) t). lia.
    + intros strict. cbn [store]. by rewrite parse_formatRFC3339.
Qed.

Lemma list_max_cons x l : list_max (x :: l) = Nat.max x (list_max l).
Proof. done. Qed.

Lemma join_sum (l : list (list ascii)) : (length (join l) <= sum_list (map (fun x => 1 + length x) l))%nat.
Proof.
  induction l as [|x l IH]; [done|]. destruct l as [|y l]; [cbn; lia|].
  change (join (x :: y :: l)) with (x ++ ","%char :: join (y :: l)). rewrite length_app. cbn [map sum_list_with id length] in *. lia.
Qed.

Lemma mapR_encode t l : encodes t -> type_ok t = true -> Forall (carried zone t) l ->
  exists js, mapR (encode zone t) l = Ok js /\ forallb wf js = true /\ (list_max (map nesting js) <= type_depth t)%nat /\
    (sum_list (map (fun x => 1 + length (render x)) js) <= sum_list (map (fun v => 1 + text_bound t v) l))%nat /\
    forall strict, store_elements (store strict t) (zero t) js [] = Ok (l, None).
Proof.
  intros Ht Hok. induction 1 as [|v l Hv _ (js & E & Hwf & Hd & Hl & Hs)]; [exists []; split_and!; cbn; try done; lia|].
  destruct (Ht Hok v Hv) as (j & Ej & [Jwf Jd Jl _ Js]). exists (j :: js). cbn [mapR]. rewrite Ej, E. cbn [rbind].
  split_and!; [done|cbn [forallb]; by rewrite Jwf|cbn [map]; rewrite list_max_cons; lia|cbn [map sum_list_with id] in *; lia|].
  intros strict. cbn [store_elements tl]. rewrite Js. cbn. by rewrite Hs.
Qed.

Lemma store_field strict (fs1 : list (string * bool * gtype)) name om t fs2 j v vs1 vs2 ms :
  NoDup (map (fun f => f.1.1) (fs1 ++ (name, om, t) :: fs2)) -> valid_utf8 name = true -> length vs1 = length fs1 ->
  store strict t j (zero t) = stored v ->
  let fields := map (fun f => (f.1.1, store strict f.2)) (fs1 ++ (name, om, t) :: fs2) in
  store_members strict fields ((quote (bytes_of name), j) :: ms) (vs1 ++ zero t :: vs2) None =
  store_members strict fields ms (vs1 ++ v :: vs2) None.
Proof.
  intros Hnd Hname Hlen Hs fields. cbn [store_members]. rewrite unquote_quote, sanitize_valid by done.
  assert (Hn : map fst fields = map (fun f => f.1.1) fs1 ++ name :: map (fun f => f.1.1) fs2)
    by (unfold fields; by rewrite map_map, map_app). rewrite map_app in Hnd.
  rewrite Hn, field_of_name, length_map by exact Hnd.
  assert (fields !! length fs1 = Some (name, store strict t)) as ->
    by (unfold fields; rewrite map_app; apply list_lookup_middle; by rewrite length_map).
  rewrite <- Hlen, list_lookup_middle, Hs by done. cbn [stored first_error].
  replace (length vs1) with (length vs1 + 0)%nat by lia. by rewrite insert_app_r.
Qed.

(** The fields of a struct, after those before them. *)
Lemma encode_fields_spec fs vs : Forall (fun f => encodes f.2) fs -> forallb (fun f => type_ok f.2) fs = true ->
  forallb (fun f => valid_utf8 f.1.1) fs = true -> carried_fields (carried zone) fs vs ->
  exists ms, encode_fields (encode zone) fs vs = Ok ms /\ forallb (fun m => literal_ok m.1 && wf m.2) ms = true /\
    (list_max (map (fun m => nesting m.2) ms) <= list_max (map (fun f => type_depth f.2) fs))%nat /\
    (sum_list (map (fun m => 1 + length (quoted m.1 ++ ":"%char :: render m.2)) ms) <= bound_fields text_bound fs vs)%nat /\
    forall strict fs1 vs1, NoDup (map (fun f => f.1.1) (fs1 ++ fs)) -> length vs1 = length fs1 ->
      store_members strict (map (fun f => (f.1.1, store strict f.2)) (fs1 ++ fs)) ms (vs1 ++ map (fun f => zero f.2) fs) None =
      Ok (VStruct (vs1 ++ vs), None).
Proof.
  intros Henc. revert vs. induction Henc as [|[[name om] t] fs Ht _ IH]; intros [|v vs] Hty Hna Hc; try done.
  { exists []. by split_and!. }
  cbn [forallb fst snd] in Hty, Hna, Ht. apply andb_true_iff in Hty as [Hty1 Hty], Hna as [Hna1 Hna]. destruct Hc as (Hv & Hz & Hc).
  destruct (IH vs Hty Hna Hc) as (ms & E & Hwf & Hd & Hl & Hs). cbn [encode_fields].
  destruct (om && isEmptyValue v) eqn:Eom.
  - exists ms. split_and!; [done|done|cbn [map]; rewrite list_max_cons; lia|cbn [bound_fields]; lia|]. intros strict fs1 vs1 Hnd Hlen.
    rewrite (Hz eq_refl). specialize (Hs strict (fs1 ++ [(name, om, t)]) (vs1 ++ [zero t])). rewrite <- !app_assoc in Hs. cbn [app] in Hs.
    apply Hs; [done|]. rewrite !length_app, Hlen. done.
  - destruct (Ht Hty1 v Hv) as (j & Ej & [Jwf Jd Jl _ Js]). exists ((quote (bytes_of name), j) :: ms). rewrite Ej, E. cbn [rbind].
    split_and!; [done|cbn [forallb fst snd]; by rewrite quote_literal, Jwf|cbn [map fst snd]; rewrite !list_max_cons; lia| |].
    + cbn [map sum_list_with id bound_fields fst snd]. pose proof (quote_length (bytes_of name)).
      rewrite length_app, quoted_length. cbn [length]. lia.
    + intros strict fs1 vs1 Hnd Hlen. cbn [map fst snd]. rewrite store_field with (v := v) by done.
      specialize (Hs strict (fs1 ++ [(name, om, t)]) (vs1 ++ [v])). rewrite <- !app_assoc in Hs. cbn [app] in Hs.
      apply Hs; [done|]. rewrite !length_app, Hlen. done.
Qed.

(** Every carried value is encoded to well-formed text and stored back. *)
Lemma encode_spec t : encodes t.
Proof.
  induction t as [| | | | |t IH|t IH|fs IH] using gtype_ind'; try (apply encodes_scalar; cbn; tauto); intros Hok v Hv;
    cbn [type_ok] in Hok; bools; destruct v as [| | | | | |v|l|vs]; try done; cbn [carried encode] in *.
  - eexists. split; [done|]. split; try done; cbn; lia.
  - destruct (IH ltac:(done) v Hv) as (j & E & [Jwf Jd Jl Jn Js]). exists j. split; [done|]. split; try done.
    intros strict. cbn [store zero]. specialize (Jn ltac:(done)). destruct j; try done; by rewrite Js.
  - eexists. split; [done|]. split; try done; cbn; lia.
  - destruct (mapR_encode t l IH Hok Hv) as (js & -> & Hwf & Hd & Hl & Hs). cbn [rbind]. eexists. split; [done|]. split; try done.
    + cbn [nesting type_depth]. lia.
    + cbn [render text_bound length]. rewrite length_app. pose proof (join_sum (map render js)) as Hj. rewrite map_map in Hj. cbn [length]. lia.
    + intros strict. cbn [store zero]. by rewrite Hs.
  - destruct (encode_fields_spec fs vs IH) as (ms & -> & Hwf & Hd & Hl & Hs); [done..|]. cbn [rbind]. eexists. split; [done|].
    split; try done.
    + cbn [nesting type_depth]. lia.
    + cbn [render text_bound length]. rewrite length_app.
      pose proof (join_sum (map (fun m => quoted m.1 ++ ":"%char :: render m.2) ms)) as Hj. rewrite map_map in Hj. cbn [length]. lia.
    + intros strict. cbn [store zero]. by apply (Hs strict [] []).
Qed.

(** The text of a carried value, followed by nothing that continues a
    number, decodes to the value and leaves what follows. *)
Lemma marshal_spec t v : type_ok t = true -> (type_depth t <= maxNestingDepth)%nat -> carried zone t v ->
  exists l, marshal zone t v = Ok l /\ (length l <= text_bound t v)%nat /\
    (forall k, stop k = true -> decode t (l ++ k) = Ok (v, k)) /\
    (forall k, stop k = true -> forallb is_space k = true -> unmarshal t (l ++ k) = Ok v).
Proof.
  intros Hok Hdepth Hv. destruct (encode_spec t Hok v Hv) as (j & E & [Hwf Hd Hl _ Hs]).
  exists (render j). unfold marshal. rewrite E. split_and!; [done|done| |].
  - intros k Hk. unfold decode. rewrite scan_render by (done || lia). by rewrite Hs.
  - intros k Hk Hsp. unfold unmarshal. rewrite scan_render by (done || lia). by rewrite Hsp, Hs.
Qed.
End round_trip.

(** ** Strictness *)

(** An error once saved is not forgotten, and with
    [DisallowUnknownFields] every key must name a field. *)
Lemma store_members_strict fields ms vs saved v : store_members true fields ms vs saved = Ok (v, None) ->
  saved = None /\ Forall (fun m => is_Some (field_of (map fst fields) (unquote m.1))) ms.
Proof.
  revert vs saved. induction ms as [|[key j] ms IH]; intros vs saved; cbn [store_members]; [by intros [= _ ->]|].
  destruct (field_of _ _) as [i|] eqn:Ef.
  - destruct (fields !! i) as [[name st]|]; [|done]. destruct (vs !! i) as [old|]; [|done]. destruct (st j old) as [[v' e]|]; [|done].
    intros [Hs Hms]%IH. destruct saved; [done|]. split; [done|]. constructor; [|done]. cbn. rewrite Ef. by eexists.
  - intros [Hs _]%IH. by destruct saved.
Qed.

(** The keys of a document. *)
Definition keys (j : json) : list (list ascii) := match j with JObject ms => map (fun m => unquote m.1) ms | _ => [] end.

Lemma decode_strict fs l v rest : decode (TStruct fs) l = Ok (v, rest) ->
  exists j, scan_value l = Some (j, rest) /\ (j = JNull \/ exists ms, j = JObject ms) /\
    Forall (fun key => is_Some (field_of (map (fun f => f.1.1) fs) key)) (keys j).
Proof.
  unfold decode. destruct (scan_value l) as [[j rest']|]; [|done]. cbn [store zero]. unfold finish_store.
  destruct j as [| | | | |ms]; cbn [type_error stored]; try done.
  - intros [= _ <-]. exists JNull. split_and!; [done|by left|constructor].
  - destruct (store_members _ _ _ _ _) as [[v' [e|]]|] eqn:E; try done. intros [= _ <-]. exists (JObject ms).
    split_and!; [done|right; by eexists|]. apply store_members_strict in E as [_ E]. rewrite map_map in E. by apply Forall_map.
Qed.
