(* ===== verification/AgentFlow.v ===== *)
(** The agent's flow accumulator: [agent/internal/flow] and the event type
    of [agent/internal/pipeline].

    Collector events ([FlowMetric]) are folded into one [State] per [Key].
    The accumulator's map from keys to state pointers is a [gmap] from keys
    to states: a pointer is held by the map alone between two calls. *)
From S2P Require Import Prelude GoStrings GoFloat GoTime Reducers Netip.

#[local] Open Scope Z_scope.

(** ** pipeline/event.go *)
Module Pipeline.

Record FlowMetric := {
  AgentID : string;
  SrcIP : string; DstIP : string; SrcPort : Z; DstPort : Z;
  Protocol : string; FlowDirection : string; Interface : string; Source : string;
  ByteCount : Z; PacketCount : Z; ConnectionCount : Z; RequestCount : Z;
  ErrorCount : Z; RetransmissionCount : Z;
  RTTMs : float64; AppDelayMs : float64;
  HTTPStatus : Z;
  FirstSeen : time; LastSeen : time
}.

Definition FlowMetricEventType : string := "flow.metric".
Definition Type_ (e : FlowMetric) : string := FlowMetricEventType.

Definition Time (e : FlowMetric) : time :=
  if negb (IsZero (LastSeen e)) then LastSeen e
  else if negb (IsZero (FirstSeen e)) then FirstSeen e
  else time_zero.

End Pipeline.

(** ** flow/key.go *)
Record Key := {
  KAgentID : string; KSrcIP : string; KDstIP : string; KDstPort : Z;
  KProtocol : string; KDirection : string; KInterface : string
}.

#[export] Instance Key_eq_dec : EqDecision Key.
Proof. solve_decision. Defined.

#[export] Instance Key_countable : Countable Key.
Proof.
  refine (inj_countable'
    (fun k => (KAgentID k, KSrcIP k, KDstIP k, KDstPort k, KProtocol k, KDirection k, KInterface k))
    (fun '(a, b, c, d, e, f, g) => Build_Key a b c d e f g) _).
  by intros [].
Defined.

Definition KeyFromMetric (event : Pipeline.FlowMetric) : Key :=
  {| KAgentID := Pipeline.AgentID event;
     KSrcIP := Pipeline.SrcIP event;
     KDstIP := Pipeline.DstIP event;
     KDstPort := Pipeline.DstPort event;
     KProtocol := Pipeline.Protocol event;
     KDirection := Pipeline.FlowDirection event;
     KInterface := Pipeline.Interface event |}.

(** ** flow/state.go *)
Record TrafficState := {
  TBytes : Bytes.Model; TPackets : Packets.Model; TDirection : Direction.Model
}.

Record TCPState := {
  Conn : Connection.Model; RTT : Rtt.Model float64; Retr : Retrans.Model
}.

Record ApplicationState := {
  AvgDelayMs : float64; AppSamples : Z; HTTP : Http.StatusCounters
}.

Record State := {
  SKey : Key; SSrcPort : Z;
  Traffic : TrafficState; TCP : TCPState; App : ApplicationState;
  Class_ : Classification.Model;
  SFirstSeen : time; SLastSeen : time
}.

Definition zero_class : Classification.Model :=
  {| Classification.Network := ""; Classification.Transport := ""; Classification.Application := "" |}.

(** The zero value [State{Key: key}]. *)
Definition newState (key : Key) : State :=
  {| SKey := key; SSrcPort := 0;
     Traffic := {| TBytes := Bytes.zero; TPackets := {| Packets.Count := 0 |};
                   TDirection := {| Direction.Current := "" |} |};
     TCP := {| Conn := Connection.zero; RTT := Rtt.zero; Retr := {| Retrans.Count := 0 |} |};
     App := {| AvgDelayMs := f_of_Z 0; AppSamples := 0; HTTP := Http.zero |};
     Class_ := zero_class; SFirstSeen := time_zero; SLastSeen := time_zero |}.

(** ** flow/store.go *)
Definition nonNegative (value : Z) : Z := if value <? 0 then 0 else value.

(** Ranging over a string yields its code points; the byte [':'] occurs only
    as the code point [':'] of valid or invalid UTF-8. *)
Definition networkFromIP (ip : string) : string :=
  if existsb (fun c => Ascii.eqb c ":"%char) (bytes_of ip) then Classification.NetworkIPv6
  else if negb (ip =? "")%string then Classification.NetworkIPv4
  else "".

Fixpoint firstNonEmpty (values : list string) : string :=
  match values with
  | [] => ""
  | v :: r => if negb (v =? "")%string then v else firstNonEmpty r
  end.

(** [applyAppDelay] and [mergeAppDelay] on the pair of fields they touch. *)
Definition applyAppDelay `{Float64 F} (avg : F) (samples : Z) (valueMs : F) : F * Z :=
  if f_leb valueMs (f_of_Z 0) then (avg, samples)
  else let samples := u64 (samples + 1) in
       (f_add avg (f_div (f_sub valueMs avg) (f_of_Z samples)), samples).

Definition mergeAppDelay `{Float64 F} (avg : F) (samples : Z) (avg' : F) (samples' : Z) : F * Z :=
  if samples' =? 0 then (avg, samples)
  else let total := u64 (samples + samples') in
       if total =? 0 then (avg, samples)
       else (f_div (f_add (f_mul avg (f_of_Z samples)) (f_mul avg' (f_of_Z samples')))
               (f_of_Z total), total).

(** [s.FirstSeen.IsZero() || (!t.IsZero() && t.Before(s.FirstSeen))] *)
Definition earliest (seen t : time) : time :=
  if IsZero seen || (negb (IsZero t) && Before t seen) then t else seen.
Definition latest (seen t : time) : time := if After t seen then t else seen.

Definition event_connection (event : Pipeline.FlowMetric) : Connection.Event :=
  {| Connection.Protocol := Pipeline.Protocol event;
     Connection.FlowDirection := Pipeline.FlowDirection event;
     Connection.EvBytes := Pipeline.ByteCount event;
     Connection.Connections := u32 (nonNegative (Pipeline.ConnectionCount event));
     Connection.Requests := u32 (nonNegative (Pipeline.RequestCount event));
     Connection.Errors := u32 (nonNegative (Pipeline.ErrorCount event)) |}.

Definition Apply (s : State) (event : Pipeline.FlowMetric) : State :=
  let '(avg, samples) :=
    applyAppDelay (AvgDelayMs (App s)) (AppSamples (App s)) (Pipeline.AppDelayMs event) in
  {| SKey := SKey s;
     SSrcPort := if (SSrcPort s =? 0) && (0 <? Pipeline.SrcPort event)
                 then Pipeline.SrcPort event else SSrcPort s;
     Traffic :=
       {| TBytes := Bytes.Apply (TBytes (Traffic s)) (Pipeline.FlowDirection event)
                      (u64 (nonNegative (Pipeline.ByteCount event)));
          TPackets := Packets.Apply (TPackets (Traffic s))
                        (u64 (nonNegative (Pipeline.PacketCount event)));
          TDirection := {| Direction.Current := Pipeline.FlowDirection event |} |};
     TCP :=
       {| Conn := Connection.Apply (Conn (TCP s)) (event_connection event);
          RTT := Rtt.Apply (RTT (TCP s)) (Pipeline.RTTMs event);
          Retr := Retrans.Apply (Retr (TCP s))
                    (u64 (nonNegative (Pipeline.RetransmissionCount event))) |};
     App :=
       {| AvgDelayMs := avg; AppSamples := samples;
          HTTP := Http.ApplyStatus (HTTP (App s)) (Pipeline.HTTPStatus event) |};
     Class_ :=
       {| Classification.Network := networkFromIP (Pipeline.SrcIP event);
          Classification.Transport := Pipeline.Protocol event;
          Classification.Application :=
            Classification.ApplicationFromPort (Pipeline.Protocol event) (Pipeline.DstPort event) |};
     SFirstSeen := earliest (SFirstSeen s) (Pipeline.FirstSeen event);
     SLastSeen := latest (SLastSeen s) (Pipeline.LastSeen event) |}.

Definition Merge (s next : State) : State :=
  let b := TBytes (Traffic s) in let b' := TBytes (Traffic next) in
  let c := Conn (TCP s) in let c' := Conn (TCP next) in
  let '(avg, samples) :=
    mergeAppDelay (AvgDelayMs (App s)) (AppSamples (App s))
      (AvgDelayMs (App next)) (AppSamples (App next)) in
  {| SKey := SKey s;
     SSrcPort := if (SSrcPort s =? 0) && (0 <? SSrcPort next) then SSrcPort next else SSrcPort s;
     Traffic :=
       {| TBytes := {| Bytes.Sent := u64 (Bytes.Sent b + Bytes.Sent b');
                       Bytes.Received := u64 (Bytes.Received b + Bytes.Received b') |};
          TPackets := {| Packets.Count := u64 (Packets.Count (TPackets (Traffic s))
                                               + Packets.Count (TPackets (Traffic next))) |};
          TDirection := {| Direction.Current :=
            firstNonEmpty [Direction.Current (TDirection (Traffic next));
                           Direction.Current (TDirection (Traffic s))] |} |};
     TCP :=
       {| Conn := {| Connection.OpenCount := u64 (Connection.OpenCount c + Connection.OpenCount c');
                     Connection.ErrorCount := u64 (Connection.ErrorCount c + Connection.ErrorCount c');
                     Connection.RequestHint := u64 (Connection.RequestHint c + Connection.RequestHint c') |};
          RTT := Rtt.mergeRTT (RTT (TCP s)) (RTT (TCP next));
          Retr := {| Retrans.Count := u64 (Retrans.Count (Retr (TCP s))
                                           + Retrans.Count (Retr (TCP next))) |} |};
     App := {| AvgDelayMs := avg; AppSamples := samples;
               HTTP := Http.MergeStatus (HTTP (App s)) (HTTP (App next)) |};
     Class_ := if decide (Class_ next = zero_class) then Class_ s else Class_ next;
     SFirstSeen := earliest (SFirstSeen s) (SFirstSeen next);
     SLastSeen := latest (SLastSeen s) (SLastSeen next) |}.

(** *** Accumulator *)
Abbreviation Accumulator := (gmap Key State).

Definition NewAccumulator : Accumulator := ∅.

Definition Add (flows : Accumulator) (event : Pipeline.FlowMetric) : Accumulator :=
  let key := KeyFromMetric event in
  let current := default (newState key) (flows !! key) in
  <[key := Apply current event]> flows.

Definition AddState (flows : Accumulator) (state : State) : Accumulator :=
  let key := SKey state in
  match flows !! key with
  | None => <[key := state]> flows
  | Some current => <[key := Merge current state]> flows
  end.

Definition AddAll (flows : Accumulator) (states : list State) : Accumulator :=
  foldl AddState flows states.

(** [Drain] returns the states in the iteration order of the map and leaves
    an empty accumulator.  Go leaves that order unspecified: the theorems
    are stated for every permutation of the list returned here. *)
Definition Drain (flows : Accumulator) : list State * Accumulator :=
  ((map_to_list flows).*2, ∅).

(** * Facts *)

(** ** Additive counters

    [FlowCounter c d]: the counter [c] of a flow state starts at 0, grows by
    [d e] modulo 2^64 when an event [e] is applied and adds up when two
    states are merged.  Conservation through the accumulator and the main
    loop is proved once, against this interface. *)
Class FlowCounter (c : State -> Z) (d : Pipeline.FlowMetric -> Z) : Prop := {
  counter_new : forall k, c (newState k) = 0;
  counter_apply : forall s e, c (Apply s e) ≡64 c s + d e;
  counter_merge : forall s t, c (Merge s t) ≡64 c s + c t
}.

Definition bytes_sent (s : State) : Z := Bytes.Sent (TBytes (Traffic s)).
Definition bytes_received (s : State) : Z := Bytes.Received (TBytes (Traffic s)).
Definition packet_count (s : State) : Z := Packets.Count (TPackets (Traffic s)).
Definition open_count (s : State) : Z := Connection.OpenCount (Conn (TCP s)).
Definition error_count (s : State) : Z := Connection.ErrorCount (Conn (TCP s)).
Definition request_hint (s : State) : Z := Connection.RequestHint (Conn (TCP s)).
Definition retrans_count (s : State) : Z := Retrans.Count (Retr (TCP s)).
Definition rtt_samples (s : State) : Z := Rtt.Samples (RTT (TCP s)).
Definition http_total (s : State) : Z := Http.Total (HTTP (App s)).

(** What one event adds to each counter. *)
Definition event_is_ingress (e : Pipeline.FlowMetric) : bool :=
  (Pipeline.FlowDirection e =? Direction.Ingress)%string.
Definition event_sent (e : Pipeline.FlowMetric) : Z :=
  if event_is_ingress e then 0 else nonNegative (Pipeline.ByteCount e).
Definition event_received (e : Pipeline.FlowMetric) : Z :=
  if event_is_ingress e then nonNegative (Pipeline.ByteCount e) else 0.
Definition event_requests (e : Pipeline.FlowMetric) : Z :=
  Z.max 0 (Connection.requests_of (event_connection e)).
Definition event_status (e : Pipeline.FlowMetric) : Z :=
  if (100 <=? Pipeline.HTTPStatus e) && (Pipeline.HTTPStatus e <=? 599) then 1 else 0.

Lemma Apply_Traffic s e :
  Traffic (Apply s e) =
  {| TBytes := Bytes.Apply (TBytes (Traffic s)) (Pipeline.FlowDirection e)
                 (u64 (nonNegative (Pipeline.ByteCount e)));
     TPackets := Packets.Apply (TPackets (Traffic s)) (u64 (nonNegative (Pipeline.PacketCount e)));
     TDirection := {| Direction.Current := Pipeline.FlowDirection e |} |}.
Proof. unfold Apply. by destruct (applyAppDelay _ _ _). Qed.

Lemma Apply_TCP s e :
  TCP (Apply s e) =
  {| Conn := Connection.Apply (Conn (TCP s)) (event_connection e);
     RTT := Rtt.Apply (RTT (TCP s)) (Pipeline.RTTMs e);
     Retr := Retrans.Apply (Retr (TCP s)) (u64 (nonNegative (Pipeline.RetransmissionCount e))) |}.
Proof. unfold Apply. by destruct (applyAppDelay _ _ _). Qed.

Lemma Apply_HTTP s e :
  HTTP (App (Apply s e)) = Http.ApplyStatus (HTTP (App s)) (Pipeline.HTTPStatus e).
Proof. unfold Apply. by destruct (applyAppDelay _ _ _). Qed.

Lemma Apply_SKey s e : SKey (Apply s e) = SKey s.
Proof. unfold Apply. by destruct (applyAppDelay _ _ _). Qed.

Lemma Merge_SKey s t : SKey (Merge s t) = SKey s.
Proof. unfold Merge. by destruct (mergeAppDelay _ _ _ _). Qed.

Create Rewrite HintDb vm_flow.
#[export] Hint Rewrite Apply_Traffic Apply_TCP Apply_HTTP Apply_SKey Merge_SKey : vm_flow.

Ltac counter_merge := intros s t; unfold Merge;
  destruct (mergeAppDelay _ _ _ _); simpl; apply cong64_u64.

#[export] Instance bytes_sent_counter : FlowCounter bytes_sent event_sent.
Proof.
  split; [done| |counter_merge]. intros s e. unfold bytes_sent, event_sent, event_is_ingress.
  rewrite Apply_Traffic. simpl. unfold Bytes.Apply.
  destruct (Z.eqb_spec (u64 (nonNegative (Pipeline.ByteCount e))) 0) as [E|_];
    destruct (_ =? _)%string; simpl; cong64_lia.
Qed.

#[export] Instance bytes_received_counter : FlowCounter bytes_received event_received.
Proof.
  split; [done| |counter_merge]. intros s e. unfold bytes_received, event_received, event_is_ingress.
  rewrite Apply_Traffic. simpl. unfold Bytes.Apply.
  destruct (Z.eqb_spec (u64 (nonNegative (Pipeline.ByteCount e))) 0) as [E|_];
    destruct (_ =? _)%string; simpl; cong64_lia.
Qed.

#[export] Instance packet_counter :
  FlowCounter packet_count (fun e => nonNegative (Pipeline.PacketCount e)).
Proof.
  split; [done| |counter_merge]. intros s e. unfold packet_count.
  rewrite Apply_Traffic. simpl. cong64_lia.
Qed.

#[export] Instance retrans_counter :
  FlowCounter retrans_count (fun e => nonNegative (Pipeline.RetransmissionCount e)).
Proof.
  split; [done| |counter_merge]. intros s e. unfold retrans_count.
  rewrite Apply_TCP. simpl. cong64_lia.
Qed.

Lemma Connection_Apply_spec m e :
  Connection.OpenCount (Connection.Apply m e)
    = (if 0 <? Connection.Connections e
       then u64 (Connection.OpenCount m + Connection.Connections e) else Connection.OpenCount m) /\
  Connection.ErrorCount (Connection.Apply m e)
    = (if 0 <? Connection.Errors e
       then u64 (Connection.ErrorCount m + Connection.Errors e) else Connection.ErrorCount m) /\
  Connection.RequestHint (Connection.Apply m e)
    = (if 0 <? Connection.requests_of e
       then u64 (Connection.RequestHint m + u64 (Connection.requests_of e)) else Connection.RequestHint m).
Proof. unfold Connection.Apply. cbv zeta. by repeat (destruct (0 <? _)). Qed.

#[export] Instance open_counter :
  FlowCounter open_count (fun e => u32 (nonNegative (Pipeline.ConnectionCount e))).
Proof.
  split; [done| |counter_merge]. intros s e. unfold open_count. rewrite Apply_TCP. simpl.
  rewrite (proj1 (Connection_Apply_spec _ _)). simpl. destruct (Z.ltb_spec 0 (u32 (nonNegative (Pipeline.ConnectionCount e)))) as [?|?].
  - cong64_lia.
  - pose proof (u32_range (nonNegative (Pipeline.ConnectionCount e))). cong64_lia.
Qed.

#[export] Instance error_counter :
  FlowCounter error_count (fun e => u32 (nonNegative (Pipeline.ErrorCount e))).
Proof.
  split; [done| |counter_merge]. intros s e. unfold error_count. rewrite Apply_TCP. simpl.
  rewrite (proj1 (proj2 (Connection_Apply_spec _ _))). simpl.
  destruct (Z.ltb_spec 0 (u32 (nonNegative (Pipeline.ErrorCount e)))) as [?|?].
  - cong64_lia.
  - pose proof (u32_range (nonNegative (Pipeline.ErrorCount e))). cong64_lia.
Qed.

#[export] Instance request_counter : FlowCounter request_hint event_requests.
Proof.
  split; [done| |counter_merge]. intros s e. unfold request_hint, event_requests.
  rewrite Apply_TCP. simpl. rewrite (proj2 (proj2 (Connection_Apply_spec _ _))).
  generalize (Connection.requests_of (event_connection e)). intros r.
  destruct (Z.ltb_spec 0 r).
  - rewrite Z.max_r by lia. cong64_lia.
  - rewrite Z.max_l by lia. cong64_lia.
Qed.

#[export] Instance rtt_samples_counter :
  FlowCounter rtt_samples (fun e => if f_leb (Pipeline.RTTMs e) (f_of_Z 0) then 0 else 1).
Proof.
  split; [done| |].
  - intros s e. unfold rtt_samples. rewrite Apply_TCP. simpl. unfold Rtt.Apply.
    destruct (f_leb _ _); simpl; cong64_lia.
  - intros s t. unfold rtt_samples, Merge. destruct (mergeAppDelay _ _ _ _). simpl.
    unfold Rtt.mergeRTT. destruct (Z.eqb_spec (Rtt.Samples (RTT (TCP t))) 0) as [->|_];
      [by rewrite Z.add_0_r|].
    destruct (Z.eqb_spec (Rtt.Samples (RTT (TCP s))) 0) as [->|_]; [done|]. simpl. cong64_lia.
Qed.

#[export] Instance http_counter : FlowCounter http_total event_status.
Proof.
  split; [done| |].
  - intros s e. unfold http_total, event_status. rewrite Apply_HTTP. unfold Http.ApplyStatus.
    set (st := Pipeline.HTTPStatus e). destruct (HTTP (App s)) as [i ok r ce se l].
    destruct (Z.ltb_spec st 100); simpl.
    { rewrite (proj2 (Z.leb_gt 100 st)) by lia. simpl. by rewrite Z.add_0_r. }
    destruct (Z.ltb_spec 599 st); simpl.
    { rewrite (proj2 (Z.leb_gt st 599)), andb_false_r by lia. by rewrite Z.add_0_r. }
    rewrite !(proj2 (Z.leb_le _ _)) by lia. simpl.
    assert (1 <= Z.quot st 100 <= 5) by (Z.to_euclidean_division_equations; lia).
    assert (Z.quot st 100 = 1 \/ Z.quot st 100 = 2 \/ Z.quot st 100 = 3
            \/ Z.quot st 100 = 4 \/ Z.quot st 100 = 5) as [->|[->|[->|[->| ->]]]] by lia;
      unfold Http.Total; simpl; rewrite !cong64_u64; cong64_lia.
  - intros s t. unfold http_total, Merge. destruct (mergeAppDelay _ _ _ _). simpl.
    unfold Http.MergeStatus, Http.Total. simpl. rewrite !cong64_u64. cong64_lia.
Qed.

(** ** The accumulator *)

(** Every state is filed under its own key. *)
Definition keyed (flows : Accumulator) : Prop := map_Forall (fun k s => SKey s = k) flows.

Lemma keyed_empty : keyed ∅.
Proof. apply map_Forall_empty. Qed.

Lemma keyed_Add flows e : keyed flows -> keyed (Add flows e).
Proof.
  intros Hk. unfold Add. apply map_Forall_insert_2; [|done]. rewrite Apply_SKey.
  destruct (flows !! KeyFromMetric e) eqn:E; simpl; [by apply Hk|done].
Qed.

Lemma keyed_AddState flows s : keyed flows -> keyed (AddState flows s).
Proof.
  intros Hk. unfold AddState. destruct (flows !! SKey s) as [t|] eqn:E;
    apply map_Forall_insert_2; try done.
  rewrite Merge_SKey. by apply Hk.
Qed.

Lemma keyed_AddAll flows l : keyed flows -> keyed (AddAll flows l).
Proof.
  unfold AddAll. revert flows. induction l as [|s l IH]; intros flows Hk; [done|].
  simpl. by apply IH, keyed_AddState.
Qed.

#[export] Hint Resolve keyed_empty keyed_Add keyed_AddState keyed_AddAll : vm.

Lemma keyed_states flows : keyed flows -> SKey <$> (map_to_list flows).*2 = (map_to_list flows).*1.
Proof.
  intros Hk. rewrite <- list_fmap_compose. apply list_fmap_ext. intros i [k s] Hi.
  simpl. apply Hk. apply elem_of_map_to_list. by eapply list_elem_of_lookup_2.
Qed.

(** Adding states with fresh distinct keys only inserts them. *)
Lemma AddAll_fresh flows l :
  NoDup (SKey <$> l) -> (forall s, s ∈ l -> flows !! SKey s = None) ->
  AddAll flows l = list_to_map ((fun s => (SKey s, s)) <$> l) ∪ flows.
Proof.
  unfold AddAll. revert flows. induction l as [|s l IH]; intros flows Hnd Hfresh.
  { simpl. by rewrite (left_id_L ∅ (∪)). }
  rewrite fmap_cons, list_to_map_cons. cbn [foldl].
  apply NoDup_cons in Hnd as [Hs Hnd].
  unfold AddState at 2. rewrite Hfresh by apply list_elem_of_here.
  rewrite IH; [|done|].
  - rewrite <- insert_union_r, insert_union_l; [done|].
    apply not_elem_of_list_to_map_1. rewrite <- list_fmap_compose. exact Hs.
  - intros t Ht. rewrite lookup_insert_ne; [apply Hfresh; by apply list_elem_of_further|].
    intros E. apply Hs. rewrite E. by apply list_elem_of_fmap_2.
Qed.

(** Putting drained states back restores the accumulator, whatever order the
    map iteration produced. *)
Lemma drain_addall_restores (flows : Accumulator) (batch : list State) :
  keyed flows -> batch ≡ₚ fst (Drain flows) ->
  AddAll (snd (Drain flows)) batch = flows.
Proof.
  intros Hk Hb. simpl in *. rewrite AddAll_fresh.
  - rewrite (right_id_L ∅ (∪)). symmetry.
    transitivity (list_to_map (map_to_list flows) : Accumulator);
      [symmetry; apply list_to_map_to_list|].
    apply list_to_map_proper; [apply NoDup_fst_map_to_list|].
    rewrite Hb, <- list_fmap_compose. rewrite <- (list_fmap_id (map_to_list flows)) at 1.
    apply Permutation_refl', list_fmap_ext. intros i [k s] Hi. simpl. f_equal.
    symmetry. apply Hk. apply elem_of_map_to_list. by eapply list_elem_of_lookup_2.
  - rewrite Hb, keyed_states by done. apply NoDup_fst_map_to_list.
  - intros. apply lookup_empty.
Qed.

(** ** Conservation of counters *)
Section conservation.
Context (c : State -> Z) (d : Pipeline.FlowMetric -> Z) `{FlowCounter c d}.

(** The counter restricted to the flow [k]. *)
Definition at_key (k : Key) (s : State) : Z := if decide (SKey s = k) then c s else 0.
Definition event_at_key (k : Key) (e : Pipeline.FlowMetric) : Z :=
  if decide (KeyFromMetric e = k) then d e else 0.

Lemma Add_conserves k flows e :
  keyed flows ->
  mapsum (at_key k) (Add flows e) ≡64 mapsum (at_key k) flows + event_at_key k e.
Proof.
  intros Hk. unfold Add.
  destruct (flows !! KeyFromMetric e) as [s|] eqn:E; simpl.
  - rewrite (mapsum_insert _ _ _ _ _ E). unfold at_key at 1 2, event_at_key.
    rewrite Apply_SKey, (Hk _ _ E). case_decide; [|apply cong64_eq; lia].
    rewrite counter_apply. apply cong64_eq. lia.
  - rewrite mapsum_insert_new by done. unfold at_key at 1, event_at_key.
    rewrite Apply_SKey. simpl. case_decide; [|apply cong64_eq; lia].
    rewrite counter_apply, counter_new. apply cong64_eq. lia.
Qed.

Lemma AddState_conserves k flows s :
  keyed flows ->
  mapsum (at_key k) (AddState flows s) ≡64 mapsum (at_key k) flows + at_key k s.
Proof.
  intros Hk. unfold AddState. destruct (flows !! SKey s) as [t|] eqn:E.
  - rewrite (mapsum_insert _ _ _ _ _ E). unfold at_key at 1 2 5.
    rewrite Merge_SKey, (Hk _ _ E). case_decide; [|apply cong64_eq; lia].
    rewrite counter_merge. apply cong64_eq. lia.
  - rewrite mapsum_insert_new by done. apply cong64_eq. lia.
Qed.

Lemma AddAll_conserves k flows l :
  keyed flows ->
  mapsum (at_key k) (AddAll flows l) ≡64 mapsum (at_key k) flows + sumZ (at_key k) l.
Proof.
  unfold AddAll. revert flows. induction l as [|s l IH]; intros flows Hk; cbn [foldl].
  - by rewrite sumZ_nil, Z.add_0_r.
  - rewrite IH by auto with vm. rewrite AddState_conserves by done.
    rewrite sumZ_cons. apply cong64_eq. lia.
Qed.
End conservation.

(** ** Well-formed events and states

    [event_ok] is what the collectors guarantee of an event (proved in
    [Collector]); [state_ok] is what it makes of the accumulated states. *)
Definition protocol_ok (p : string) : Prop :=
  p = Classification.ProtocolTCP \/ p = Classification.ProtocolUDP \/ p = Classification.ProtocolICMP.
Definition direction_ok (d : string) : Prop := d = Direction.Ingress \/ d = Direction.Egress.
Definition port_ok (p : Z) : Prop := 0 <= p <= 65535.
Definition ip_ok (s : string) : Prop := exists a, ParseAddr s = Ok a.
Definition status_ok (z : Z) : Prop := z = 0 \/ 100 <= z <= 599.

Record event_ok (e : Pipeline.FlowMetric) : Prop := {
  ev_agent : TrimSpace (Pipeline.AgentID e) <> "";
  ev_src : ip_ok (Pipeline.SrcIP e);
  ev_dst : ip_ok (Pipeline.DstIP e);
  ev_sport : port_ok (Pipeline.SrcPort e);
  ev_dport : port_ok (Pipeline.DstPort e);
  ev_proto : protocol_ok (Pipeline.Protocol e);
  ev_dir : direction_ok (Pipeline.FlowDirection e);
  ev_first : 0 < Pipeline.FirstSeen e;
  ev_last : Pipeline.FirstSeen e <= Pipeline.LastSeen e
}.

Record key_ok (k : Key) : Prop := {
  key_agent : TrimSpace (KAgentID k) <> "";
  key_src : ip_ok (KSrcIP k);
  key_dst : ip_ok (KDstIP k);
  key_dport : port_ok (KDstPort k);
  key_proto : protocol_ok (KProtocol k);
  key_dir : direction_ok (KDirection k)
}.

Record state_ok (s : State) : Prop := {
  st_key : key_ok (SKey s);
  st_sport : port_ok (SSrcPort s);
  st_status : status_ok (Http.Last (HTTP (App s)));
  st_first : 0 < SFirstSeen s;
  st_last : SFirstSeen s <= SLastSeen s
}.

Lemma key_ok_event e : event_ok e -> key_ok (KeyFromMetric e).
Proof. intros []. by split. Qed.

Lemma Apply_SSrcPort s e :
  SSrcPort (Apply s e) = (if (SSrcPort s =? 0) && (0 <? Pipeline.SrcPort e) then Pipeline.SrcPort e else SSrcPort s).
Proof. unfold Apply. by destruct (applyAppDelay _ _ _). Qed.

Lemma Apply_seen s e :
  SFirstSeen (Apply s e) = earliest (SFirstSeen s) (Pipeline.FirstSeen e) /\
  SLastSeen (Apply s e) = latest (SLastSeen s) (Pipeline.LastSeen e).
Proof. unfold Apply. by destruct (applyAppDelay _ _ _). Qed.

Lemma Merge_fields s t :
  SSrcPort (Merge s t) = (if (SSrcPort s =? 0) && (0 <? SSrcPort t) then SSrcPort t else SSrcPort s) /\
  HTTP (App (Merge s t)) = Http.MergeStatus (HTTP (App s)) (HTTP (App t)) /\
  SFirstSeen (Merge s t) = earliest (SFirstSeen s) (SFirstSeen t) /\
  SLastSeen (Merge s t) = latest (SLastSeen s) (SLastSeen t).
Proof. unfold Merge. by destruct (mergeAppDelay _ _ _ _). Qed.

Lemma ApplyStatus_Last c status :
  status_ok (Http.Last c) -> status_ok (Http.Last (Http.ApplyStatus c status)).
Proof.
  unfold Http.ApplyStatus, status_ok. intros Hc. destruct c as [i ok r ce se l].
  destruct (Z.ltb_spec status 100); [done|]. destruct (Z.ltb_spec 599 status); [done|]. simpl in *.
  repeat case_match; simpl; lia.
Qed.

Lemma earliest_spec seen t :
  0 <= seen -> 0 < t -> earliest seen t = if seen =? 0 then t else Z.min seen t.
Proof.
  intros Hs Ht. unfold earliest, IsZero, Before.
  destruct (Z.eqb_spec seen 0); [done|]. destruct (Z.eqb_spec t 0); [lia|]. simpl.
  destruct (Z.ltb_spec t seen); lia.
Qed.

Lemma latest_spec seen t : latest seen t = Z.max seen t.
Proof. unfold latest, After. destruct (Z.ltb_spec seen t); lia. Qed.

Lemma port_choice p q : port_ok p -> port_ok q -> port_ok (if (p =? 0) && (0 <? q) then q else p).
Proof. intros. by destruct (_ && _). Qed.

Lemma Apply_ok s e :
  event_ok e -> (state_ok s \/ s = newState (KeyFromMetric e)) -> state_ok (Apply s e).
Proof.
  intros He Hs. destruct (Apply_seen s e) as [E1 E2]. pose proof (ev_first _ He). pose proof (ev_last _ He).
  assert (0 <= SFirstSeen s <= SLastSeen s) by (destruct Hs as [[]| ->]; [lia|done]).
  split; rewrite ?Apply_SKey, ?Apply_SSrcPort, ?Apply_HTTP, ?E1, ?E2, ?latest_spec.
  - destruct Hs as [[]| ->]; [done|]. by apply key_ok_event.
  - apply port_choice; [|apply He]. destruct Hs as [[]| ->]; [done|]. unfold port_ok. simpl. lia.
  - apply ApplyStatus_Last. destruct Hs as [[]| ->]; [done|by left].
  - rewrite earliest_spec by lia. case_match; bools; lia.
  - rewrite earliest_spec by lia. case_match; bools; lia.
Qed.

Lemma Merge_ok s t : state_ok s -> state_ok t -> state_ok (Merge s t).
Proof.
  intros Hs Ht. destruct (Merge_fields s t) as (E0 & E1 & E2 & E3).
  pose proof (st_first _ Hs). pose proof (st_first _ Ht).
  pose proof (st_last _ Hs). pose proof (st_last _ Ht).
  split; rewrite ?Merge_SKey, ?E0, ?E1, ?E2, ?E3, ?latest_spec; rewrite ?earliest_spec by lia.
  - apply Hs.
  - apply port_choice; [apply Hs|apply Ht].
  - unfold Http.MergeStatus. simpl. destruct (negb _); [apply Ht|apply Hs].
  - destruct (Z.eqb_spec (SFirstSeen s) 0); lia.
  - destruct (Z.eqb_spec (SFirstSeen s) 0); lia.
Qed.

(** All states of an accumulator are well-formed. *)
Definition flows_ok (flows : Accumulator) : Prop := map_Forall (fun _ s => state_ok s) flows.

Lemma flows_ok_empty : flows_ok ∅.
Proof. apply map_Forall_empty. Qed.

Lemma flows_ok_Add flows e : event_ok e -> flows_ok flows -> flows_ok (Add flows e).
Proof.
  intros He Hf. apply map_Forall_insert_2; [|done]. apply Apply_ok; [done|].
  destruct (flows !! KeyFromMetric e) as [s|] eqn:E; [left; by eapply Hf|by right].
Qed.

Lemma flows_ok_AddState flows s : state_ok s -> flows_ok flows -> flows_ok (AddState flows s).
Proof.
  intros Hs Hf. unfold AddState. destruct (flows !! SKey s) as [t|] eqn:E;
    apply map_Forall_insert_2; try done. apply Merge_ok; [by eapply Hf|done].
Qed.

Lemma flows_ok_AddAll flows l : Forall state_ok l -> flows_ok flows -> flows_ok (AddAll flows l).
Proof.
  unfold AddAll. intros Hl. revert flows. induction Hl as [|s l Hs Hl IH]; intros flows Hf; [done|].
  simpl. by apply IH, flows_ok_AddState.
Qed.

Lemma flows_ok_Drain flows batch :
  flows_ok flows -> batch ≡ₚ fst (Drain flows) -> Forall state_ok batch.
Proof.
  intros Hf ->. simpl. apply Forall_forall. intros s ([k s'] & -> & Hk)%list_elem_of_fmap.
  apply elem_of_map_to_list in Hk. by eapply Hf.
Qed.

#[export] Hint Resolve flows_ok_empty flows_ok_Add flows_ok_AddState flows_ok_AddAll : vm.
