(* ===== verification/AgentMain.v ===== *)
(** The agent's main program: [agent/cmd/agent/main.go], with the exporter
    payloads and retry helpers of [agent/internal/exporter] it uses.

    Filters first, then the retry loops, then the concurrent part: the main
    loop and the sender goroutine share the pending accumulator and a
    32-slot channel of batches; they are a labelled step relation. *)
From S2P Require Import Prelude GoStrings GoFloat GoTime Reducers Netip AgentFlow.

#[local] Open Scope Z_scope.

(** ** exporter/flow_payload.go *)
Record FlowEvent := {
  AgentID : string; SrcIP : string; DstIP : string; SrcPort : Z; DstPort : Z;
  Protocol : string; FlowDirection : string;
  BytesSent : Z; BytesReceived : Z; PacketCount : Z; ConnectionCount : Z; RequestCount : Z;
  ErrorCount : Z; Retransmissions : Z; AvgRTTMs : float64; AvgAppDelayMs : float64;
  HTTP1xx : Z; HTTP2xx : Z; HTTP3xx : Z; HTTP4xx : Z; HTTP5xx : Z; LastHTTPStatus : Z;
  FirstSeen : time; LastSeen : time; Interface : string
}.

Definition FromFlowState (state : State) : FlowEvent :=
  let http := HTTP (App state) in
  {| AgentID := KAgentID (SKey state); SrcIP := KSrcIP (SKey state); DstIP := KDstIP (SKey state);
     SrcPort := SSrcPort state; DstPort := KDstPort (SKey state);
     Protocol := KProtocol (SKey state); FlowDirection := KDirection (SKey state);
     BytesSent := i64 (Bytes.Sent (TBytes (Traffic state)));
     BytesReceived := i64 (Bytes.Received (TBytes (Traffic state)));
     PacketCount := i64 (Packets.Count (TPackets (Traffic state)));
     ConnectionCount := i64 (Connection.OpenCount (Conn (TCP state)));
     RequestCount := i64 (Connection.RequestHint (Conn (TCP state)));
     ErrorCount := i64 (Connection.ErrorCount (Conn (TCP state)));
     Retransmissions := i64 (Retrans.Count (Retr (TCP state)));
     AvgRTTMs := Rtt.AvgMs (RTT (TCP state)); AvgAppDelayMs := AvgDelayMs (App state);
     HTTP1xx := i64 (Http.Informational http); HTTP2xx := i64 (Http.Success http);
     HTTP3xx := i64 (Http.Redirect http); HTTP4xx := i64 (Http.ClientError http);
     HTTP5xx := i64 (Http.ServerError http); LastHTTPStatus := Http.Last http;
     FirstSeen := SFirstSeen state; LastSeen := SLastSeen state; Interface := KInterface (SKey state) |}.

(** ** exporter/batcher.go

    The batcher holds the events not yet handed out and its limit.  Each
    operation returns the batch to send ([nil] is the empty list) and the
    new batcher. *)
Module Batcher.
Record t := { events : list FlowEvent; limit : Z }.

Definition NewBatcher (limit : Z) : t :=
  {| events := []; limit := if limit <=? 0 then 100 else limit |}.

Definition Flush (b : t) : list FlowEvent * t :=
  match events b with
  | [] => ([], b)
  | out => (out, {| events := []; limit := limit b |})
  end.

Definition Add (b : t) (event : FlowEvent) : list FlowEvent * t :=
  let b := {| events := events b ++ [event]; limit := limit b |} in
  if Z.of_nat (length (events b)) <? limit b then ([], b) else Flush b.
End Batcher.

(** ** Retry loops

    The calls a loop makes are a function of the attempt number: [call i] is
    the outcome of the i-th call and [cancelled i] tells whether the context
    is done during the i-th wait. *)
Definition context_canceled : GoError := LibErr "context" "canceled".

(** exporter/retry.go.  [last] is the last error; Go's nil [last] cannot be
    returned since at least one attempt is made. *)
Fixpoint retry_loop (left : nat) (i : nat) (delay : duration) (call : nat -> Result unit)
    (cancelled : nat -> bool) (last : Result unit) : Result unit * nat :=
  match left with
  | O => (last, i)
  | S left' =>
      match call i with
      | Ok _ => (Ok tt, S i)
      | Err e =>
          if (left' =? 0)%nat || (delay <=? 0) then retry_loop left' (S i) delay call cancelled (Err e)
          else if cancelled i then (Err context_canceled, S i)
          else retry_loop left' (S i) delay call cancelled (Err e)
      end
  end.

(** The result and the number of calls made. *)
Definition Retry (attempts : Z) (delay : duration) (call : nat -> Result unit)
    (cancelled : nat -> bool) : Result unit * nat :=
  let attempts := if attempts <=? 0 then 1 else attempts in
  retry_loop (Z.to_nat attempts) 0 delay call cancelled (Ok tt).

(** [sendFlow] of main.go: three attempts, with a pause of 0.5 s, 1 s and
    1.5 s after each failed one.  The result, the number of calls made and
    the pauses. *)
Fixpoint sendFlow_loop (left : nat) (attempt : nat) (call : nat -> Result unit)
    (cancelled : nat -> bool) (last : Result unit) : Result unit * nat * list duration :=
  match left with
  | O => (last, attempt, [])
  | S left' =>
      match call attempt with
      | Ok _ => (Ok tt, S attempt, [])
      | Err e =>
          let pause := (Z.of_nat attempt + 1) * 500 * Millisecond in
          if cancelled attempt then (Err context_canceled, S attempt, [pause])
          else let '(r, n, pauses) := sendFlow_loop left' (S attempt) call cancelled (Err e) in
               (r, n, pause :: pauses)
      end
  end.

Definition sendFlow (call : nat -> Result unit) (cancelled : nat -> bool)
  : Result unit * nat * list duration := sendFlow_loop 3 0 call cancelled (Ok tt).

(** [registerUntilReady]: [None] when [fuel] calls were not enough; else the
    result and the delays waited. *)
Definition next_delay (delay : duration) : duration :=
  let delay := if delay <? 30 * Second then delay * 2 else delay in
  if 30 * Second <? delay then 30 * Second else delay.

Section register.
Context {RegistrationResult : Type}.

Fixpoint register_loop (fuel : nat) (i : nat) (delay : duration)
    (call : nat -> Result RegistrationResult) (cancelled : nat -> bool)
  : option (Result RegistrationResult * list duration) :=
  match fuel with
  | O => None
  | S fuel' =>
      match call i with
      | Ok r => Some (Ok r, [])
      | Err _ =>
          if cancelled i then Some (Err context_canceled, [delay])
          else match register_loop fuel' (S i) (next_delay delay) call cancelled with
               | Some (r, ds) => Some (r, delay :: ds)
               | None => None
               end
      end
  end.

Definition registerUntilReady (fuel : nat) (call : nat -> Result RegistrationResult)
    (cancelled : nat -> bool) := register_loop fuel 0 Second call cancelled.
End register.

(** ** Filters *)

(** What the filters ask of the host: the host name of a URL ([url.Parse]
    and [URL.Hostname], [None] on a parse error) and the resolver. *)
Class HostEnv := {
  url_hostname : string -> option string;
  LookupIP : string -> option (list IP)
}.

Abbreviation endpointFilter := (gset string).

Definition add_ignored (addresses : endpointFilter) (raw : string) : endpointFilter :=
  match ParseIP raw with Some ip => {[ ip_String ip ]} ∪ addresses | None => addresses end.

Definition newEndpointFilter `{HostEnv} (rawURL : string) (ignoredIPs : list string) : endpointFilter :=
  let filter := foldl add_ignored ∅ ignoredIPs in
  match url_hostname rawURL with
  | None => filter
  | Some host =>
      match ParseIP host with
      | Some ip => {[ ip_String ip ]} ∪ filter
      | None =>
          match LookupIP host with
          | Some addresses => foldl (fun f a => {[ ip_String a ]} ∪ f) filter addresses
          | None => filter
          end
      end
  end.

Definition endpoint_matches (f : endpointFilter) (ip : string) : bool :=
  match ParseIP ip with
  | None => false
  | Some parsed => bool_decide (ip_String parsed ∈ f)
  end.

Definition ignoreFlow (controlPlane : endpointFilter) (event : Pipeline.FlowMetric)
    (ignoredPorts : list Z) : bool :=
  match ParseIP (Pipeline.DstIP event) with
  | None => true
  | Some address =>
      if ip_IsUnspecified address || ip_IsLoopback address then true
      else if endpoint_matches controlPlane (Pipeline.DstIP event) then true
      else existsb (fun port => (port =? Pipeline.SrcPort event) || (port =? Pipeline.DstPort event))
             ignoredPorts
  end.

Record flowFilter := { allow : list Prefix; deny : list Prefix }.

(** The local function [parse] of [newFlowFilter]. *)
Fixpoint parse_prefixes (label : string) (values : list string) : Result (list Prefix) :=
  match values with
  | [] => Ok []
  | value :: rest =>
      prefix <-- match ParsePrefix value with
                 | Ok p => Ok p
                 | Err err =>
                     match ParseAddr value with
                     | Err _ => Err (ErrorfW "parse %s %q: %w" [label; value] err)
                     | Ok addr => Ok (PrefixFrom addr (BitLen addr))
                     end
                 end ;;
      prefixes <-- parse_prefixes label rest ;;
      Ok (Masked prefix :: prefixes)
  end.

Definition newFlowFilter (rawAllow rawDeny : list string) : Result flowFilter :=
  allow <-- parse_prefixes "FLOW_ALLOW_CIDRS" rawAllow ;;
  deny <-- parse_prefixes "FLOW_DENY_CIDRS" rawDeny ;;
  Ok {| allow := allow; deny := deny |}.

(** [parseAddr] and [flowFilter.matches]: an address that does not parse
    matches nothing. *)
Definition parseAddr (value : string) : option Addr :=
  match ParseAddr value with Ok a => Some a | Err _ => None end.

Definition prefixes_match (prefixes : list Prefix) (addr : option Addr) : bool :=
  match addr with
  | None => false
  | Some a => existsb (fun prefix => Contains prefix a) prefixes
  end.

Definition allows (f : flowFilter) (event : Pipeline.FlowMetric) : bool :=
  let src := parseAddr (Pipeline.SrcIP event) in
  let dst := parseAddr (Pipeline.DstIP event) in
  if negb (isSome src) && negb (isSome dst) then false
  else if prefixes_match (deny f) src || prefixes_match (deny f) dst then false
  else if (length (allow f) =? 0)%nat then true
  else prefixes_match (allow f) src || prefixes_match (allow f) dst.

(** ** The main loop and the sender *)

Record AgentConfig := {
  controlPlane : endpointFilter; filter_ : flowFilter; IgnorePorts : list Z
}.

(** [pending] is [pendingFlows], [batches] the channel [flowBatches] (oldest
    first), [sending] what the sender has left of the batch it took.
    [delivered] and [lost] record, for the theorems, what the backend
    acknowledged and what was given up after the third attempt. *)
Record Agent := {
  pending : Accumulator; batches : list (list State); sending : list State;
  delivered : list FlowEvent; lost : list State
}.

Definition backlog : nat := 32.

Definition agent_start : Agent :=
  {| pending := NewAccumulator; batches := []; sending := []; delivered := []; lost := [] |}.

(** One iteration of the main loop's [case event]. *)
Definition on_event (cfg : AgentConfig) (a : Agent) (event : Pipeline.FlowMetric) : Agent :=
  if ignoreFlow (controlPlane cfg) event (IgnorePorts cfg) then a
  else if negb (allows (filter_ cfg) event) then a
  else {| pending := Add (pending a) event; batches := batches a; sending := sending a;
          delivered := delivered a; lost := lost a |}.

(** One iteration of [case <-flowTicker.C], with [batch] the drained states
    in the order the map iteration produced. *)
Definition on_tick (a : Agent) (batch : list State) : Agent :=
  match batch with
  | [] => {| pending := ∅; batches := batches a; sending := sending a;
             delivered := delivered a; lost := lost a |}
  | _ =>
      if (length (batches a) <? backlog)%nat
      then {| pending := ∅; batches := batches a ++ [batch]; sending := sending a;
              delivered := delivered a; lost := lost a |}
      else {| pending := AddAll ∅ batch; batches := batches a; sending := sending a;
              delivered := delivered a; lost := lost a |}
  end.

(** The sender receives a batch; it sends the next state of its batch. *)
Definition on_take (a : Agent) (batch : list State) (rest : list (list State)) : Agent :=
  {| pending := pending a; batches := rest; sending := batch; delivered := delivered a; lost := lost a |}.

Definition on_send (a : Agent) (state : State) (rest : list State) (outcome : Result unit) : Agent :=
  {| pending := pending a; batches := batches a; sending := rest;
     delivered := if is_ok outcome then delivered a ++ [FromFlowState state] else delivered a;
     lost := if is_ok outcome then lost a else lost a ++ [state] |}.

(** The steps of [runFlowSender]. *)
Inductive sender_step : Agent -> Agent -> Prop :=
| sender_take a batch rest :
    sending a = [] -> batches a = batch :: rest -> sender_step a (on_take a batch rest)
| sender_send a state rest call cancelled :
    sending a = state :: rest ->
    sender_step a (on_send a state rest (fst (fst (sendFlow call cancelled)))).

(** All steps; labels carry the event a step observes. *)
Inductive step (cfg : AgentConfig) : Agent -> option Pipeline.FlowMetric -> Agent -> Prop :=
| step_event a e : step cfg a (Some e) (on_event cfg a e)
| step_tick a batch :
    batch ≡ₚ fst (Drain (pending a)) -> step cfg a None (on_tick a batch)
| step_sender a a' : sender_step a a' -> step cfg a None a'.

(** [runs cfg es a]: from the start, the agent observed the events [es] (in
    order) and reached [a]. *)
Inductive runs (cfg : AgentConfig) : list Pipeline.FlowMetric -> Agent -> Prop :=
| runs_start : runs cfg [] agent_start
| runs_step es a label a' :
    runs cfg es a -> step cfg a label a' -> runs cfg (es ++ option_list label) a'.

(** The events that pass the filters. *)
Definition captured (cfg : AgentConfig) (e : Pipeline.FlowMetric) : bool :=
  negb (ignoreFlow (controlPlane cfg) e (IgnorePorts cfg)) && allows (filter_ cfg) e.

(** * Facts *)

(** ** Conservation through the agent

    [ExportCounter c p]: the payload field [p] carries the counter [c]. *)
Class ExportCounter (c : State -> Z) (p : FlowEvent -> Z) : Prop :=
  export_counter : forall s, p (FromFlowState s) ≡64 c s.

#[export] Instance bytes_sent_export : ExportCounter bytes_sent BytesSent.
Proof. intros s. apply cong64_i64. Qed.
#[export] Instance bytes_received_export : ExportCounter bytes_received BytesReceived.
Proof. intros s. apply cong64_i64. Qed.
#[export] Instance packet_export : ExportCounter packet_count PacketCount.
Proof. intros s. apply cong64_i64. Qed.
#[export] Instance open_export : ExportCounter open_count ConnectionCount.
Proof. intros s. apply cong64_i64. Qed.
#[export] Instance request_export : ExportCounter request_hint RequestCount.
Proof. intros s. apply cong64_i64. Qed.
#[export] Instance error_export : ExportCounter error_count ErrorCount.
Proof. intros s. apply cong64_i64. Qed.
#[export] Instance retrans_export : ExportCounter retrans_count Retransmissions.
Proof. intros s. apply cong64_i64. Qed.

(** The flow a payload reports on. *)
Definition payload_key (p : FlowEvent) : Key :=
  {| KAgentID := AgentID p; KSrcIP := SrcIP p; KDstIP := DstIP p; KDstPort := DstPort p;
     KProtocol := Protocol p; KDirection := FlowDirection p; KInterface := Interface p |}.

Lemma payload_key_FromFlowState s : payload_key (FromFlowState s) = SKey s.
Proof. by destruct s as [[]]. Qed.

(** The invariant of the running agent. *)
Record agent_inv (a : Agent) : Prop := {
  inv_keyed : keyed (pending a);
  inv_backlog : (length (batches a) <= backlog)%nat;
  inv_batches : Forall (fun b => b <> [] /\ NoDup (SKey <$> b)) (batches a);
  inv_sending : NoDup (SKey <$> sending a)
}.

Lemma drained_keys flows batch :
  keyed flows -> batch ≡ₚ fst (Drain flows) -> NoDup (SKey <$> batch).
Proof.
  intros Hk ->. simpl. rewrite keyed_states by done. apply NoDup_fst_map_to_list.
Qed.

Lemma step_inv cfg a l a' : agent_inv a -> step cfg a l a' -> agent_inv a'.
Proof.
  intros [Hk Hl Hb Hs] Hstep. destruct Hstep as [a e|a batch Hp|? ? [a batch rest E1 E2|a s rest call can E]].
  - unfold on_event. repeat case_match; split; simpl; auto with vm.
  - pose proof (drained_keys _ _ Hk Hp) as Hnd. unfold on_tick.
    destruct batch as [|s batch]; [split; simpl; auto with vm|].
    destruct (Nat.ltb_spec (length (batches a)) backlog); split; simpl; auto with vm.
    + rewrite length_app. simpl. lia.
    + apply Forall_app. auto.
  - rewrite E2 in *. apply Forall_cons in Hb as [[_ Hb] Hr]. split; simpl in *; auto with lia.
  - rewrite E in Hs. apply NoDup_cons in Hs as [_ Hs]. split; simpl; auto.
Qed.

Lemma runs_inv cfg es a : runs cfg es a -> agent_inv a.
Proof.
  induction 1 as [|es a l a' _ IH Hs]; [|by eapply step_inv].
  split; simpl; auto with vm; [lia|constructor].
Qed.

Section agent_conservation.
Context (c : State -> Z) (d : Pipeline.FlowMetric -> Z) (p : FlowEvent -> Z)
        `{!FlowCounter c d} `{!ExportCounter c p}.

Definition payload_at_key (k : Key) (e : FlowEvent) : Z :=
  if decide (payload_key e = k) then p e else 0.

(** What the agent holds or has handled of the counter of flow [k]. *)
Definition agent_total (k : Key) (a : Agent) : Z :=
  mapsum (at_key c k) (pending a)
  + sumZ (at_key c k) (concat (batches a)) + sumZ (at_key c k) (sending a)
  + sumZ (payload_at_key k) (delivered a) + sumZ (at_key c k) (lost a).

Lemma payload_at_key_export k s : payload_at_key k (FromFlowState s) ≡64 at_key c k s.
Proof.
  unfold payload_at_key, at_key. rewrite payload_key_FromFlowState.
  case_decide; [apply export_counter|done].
Qed.

Lemma concat_snoc {A} (ll : list (list A)) l : concat (ll ++ [l]) = concat ll ++ l.
Proof. rewrite concat_app. simpl. by rewrite app_nil_r. Qed.

Lemma step_conserves cfg k a l a' :
  agent_inv a -> step cfg a l a' ->
  agent_total k a' ≡64
    agent_total k a + sumZ (event_at_key d k) (List.filter (captured cfg) (option_list l)).
Proof.
  intros [Hk _ _ _] Hstep. unfold agent_total.
  destruct Hstep as [a e|a batch Hp|? ? [a batch rest E1 E2|a s rest call can E]]; simpl.
  - unfold on_event, captured.
    destruct (ignoreFlow _ _ _); simpl; [by rewrite sumZ_nil, Z.add_0_r|].
    destruct (allows _ _); simpl; [|by rewrite sumZ_nil, Z.add_0_r].
    rewrite (Add_conserves c d) by done. rewrite sumZ_cons, sumZ_nil. apply cong64_eq. lia.
  - rewrite sumZ_nil. assert (Hm : mapsum (at_key c k) (pending a) = sumZ (at_key c k) batch).
    { unfold mapsum. by rewrite (sumZ_perm _ _ _ Hp). }
    rewrite Hm. unfold on_tick. destruct batch as [|s batch]; cbn [pending batches sending delivered lost].
    + rewrite mapsum_empty, sumZ_nil. apply cong64_eq. lia.
    + destruct (_ <? _)%nat; cbn [pending batches sending delivered lost].
      * rewrite concat_snoc, sumZ_app, mapsum_empty. apply cong64_eq. lia.
      * rewrite (AddAll_conserves c d k ∅) by auto with vm. rewrite mapsum_empty. apply cong64_eq. lia.
  - rewrite E1, E2, sumZ_nil. cbn [concat]. rewrite sumZ_app, !sumZ_nil. apply cong64_eq. lia.
  - rewrite E, sumZ_nil, sumZ_cons. destruct (is_ok _); rewrite sumZ_app, sumZ_cons, sumZ_nil.
    + rewrite payload_at_key_export. apply cong64_eq. lia.
    + apply cong64_eq. lia.
Qed.

Lemma runs_conserves cfg k es a :
  runs cfg es a ->
  agent_total k a ≡64 sumZ (event_at_key d k) (List.filter (captured cfg) es).
Proof.
  induction 1 as [|es a l a' Hr IH Hs]; [by unfold agent_total, agent_start, NewAccumulator; simpl; rewrite mapsum_empty, !sumZ_nil|].
  rewrite (step_conserves _ _ _ _ _ (runs_inv _ _ _ Hr) Hs), IH.
  rewrite List.filter_app, sumZ_app. done.
Qed.
End agent_conservation.

(** C5: no captured traffic is lost or counted twice inside the agent.  In
    every reachable state, for every flow key and every additive counter,
    the total over the captured events equals, modulo 2^64, what is pending
    in the accumulator, queued for the sender, being sent, acknowledged by
    the backend and given up after three attempts. *)
Theorem agent_conserves_counters (cfg : AgentConfig) (c : State -> Z)
    (d : Pipeline.FlowMetric -> Z) (p : FlowEvent -> Z)
    `{!FlowCounter c d} `{!ExportCounter c p} (k : Key) (es : list Pipeline.FlowMetric) (a : Agent) :
  runs cfg es a ->
  sumZ (event_at_key d k) (List.filter (captured cfg) es)
    ≡64 mapsum (at_key c k) (pending a)
        + sumZ (at_key c k) (concat (batches a)) + sumZ (at_key c k) (sending a)
        + sumZ (payload_at_key p k) (delivered a) + sumZ (at_key c k) (lost a).
Proof. intros Hr. symmetry. by apply (runs_conserves c d p cfg k es a). Qed.

(** Retaining a batch is exact.  When the channel is full, the tick puts
    the drained states back, whatever order the map iteration produced; the
    agent is in exactly the state it was in: no counter, average, timestamp
    or port has changed. *)
Theorem full_backlog_retains (cfg : AgentConfig) es (a : Agent) (batch : list State) :
  runs cfg es a -> length (batches a) = backlog ->
  batch ≡ₚ fst (Drain (pending a)) -> on_tick a batch = a.
Proof.
  intros Hr Hfull Hp. apply runs_inv in Hr. unfold on_tick.
  pose proof (drain_addall_restores _ _ (inv_keyed _ Hr) Hp) as E.
  destruct batch as [|s batch].
  - simpl in E. destruct a; simpl in *. by rewrite <- E.
  - destruct (Nat.ltb_spec (length (batches a)) backlog); [lia|].
    change (snd (Drain (pending a))) with (∅ : Accumulator) in E. destruct a; simpl in *. by rewrite E.
Qed.

(** The sender alone empties its batch when the backend accepts. *)
Lemma sender_drains_batch a :
  exists a', rtc sender_step a a' /\ sending a' = [] /\ batches a' = batches a /\
    pending a' = pending a /\ lost a' = lost a /\
    delivered a' = delivered a ++ map FromFlowState (sending a).
Proof.
  remember (sending a) as l eqn:El. revert a El.
  induction l as [|s l IH]; intros a El.
  { exists a. simpl. rewrite app_nil_r. by split_and!. }
  set (ok := fun _ : nat => Ok tt). set (no := fun _ : nat => false).
  destruct (IH (on_send a s l (fst (fst (sendFlow ok no))))) as (a' & Hr' & H1 & H2 & H3 & H4 & H5); [done|].
  exists a'. split_and!; try done.
  - eapply rtc_l; [|done]. by apply sender_send.
  - rewrite H5. simpl. by rewrite <- app_assoc.
Qed.

(** The sender never wedges.  From any state the sender goroutine alone,
    with a backend that accepts, reaches a state with an empty channel in
    which everything that was queued has been delivered in order, once each,
    while nothing pending was touched. *)
Theorem sender_drains_queue (a : Agent) :
  exists a', rtc sender_step a a' /\ sending a' = [] /\ batches a' = [] /\
    pending a' = pending a /\ lost a' = lost a /\
    delivered a' = delivered a ++ map FromFlowState (sending a ++ concat (batches a)).
Proof.
  remember (batches a) as bs eqn:Eb. revert a Eb. induction bs as [|b bs IH]; intros a Eb;
    destruct (sender_drains_batch a) as (a1 & Hr1 & H1 & H2 & H3 & H4 & H5).
  { exists a1. simpl. rewrite app_nil_r. split_and!; try done. by rewrite H2. }
  destruct (IH (on_take a1 b bs)) as (a2 & Hr2 & G1 & G2 & G3 & G4 & G5); [done|].
  exists a2. split_and!; try done; [|by rewrite G3|by rewrite G4|].
  - etrans; [done|]. eapply rtc_l; [|done]. apply sender_take; [done|]. by rewrite H2.
  - rewrite G5. simpl. rewrite H5, !map_app, <- !app_assoc. done.
Qed.

(** ** Retry loops *)

(** The number of leading failures of a call sequence, among [n]. *)
Fixpoint failures (call : nat -> Result unit) (i n : nat) : nat :=
  match n with
  | O => O
  | S n' => if is_ok (call i) then O else S (failures call (S i) n')
  end.

(** [sendFlow] makes at most three calls, stops at the first success,
    and reports a success exactly when one of the calls made succeeded; the
    pauses between attempts are 0.5 s, 1 s and 1.5 s, one per failed call. *)
Theorem sendFlow_spec (call : nat -> Result unit) (cancelled : nat -> bool) :
  let '(r, n, pauses) := sendFlow call cancelled in
  (1 <= n <= 3)%nat /\
  (forall i, (S i < n)%nat -> is_ok (call i) = false /\ cancelled i = false) /\
  is_ok r = is_ok (call (n - 1)%nat) /\
  (is_ok r = false -> n = 3%nat \/ cancelled (n - 1)%nat = true) /\
  pauses = take (if is_ok r then n - 1 else n)%nat [500 * Millisecond; 1000 * Millisecond; 1500 * Millisecond].
Proof.
  unfold sendFlow. cbn [sendFlow_loop].
  destruct (call 0%nat) as [[]|e0] eqn:C0; [|destruct (cancelled 0%nat) eqn:D0];
    [..|destruct (call 1%nat) as [[]|e1] eqn:C1; [|destruct (cancelled 1%nat) eqn:D1]];
    [..|destruct (call 2%nat) as [[]|e2] eqn:C2; [|destruct (cancelled 2%nat) eqn:D2]];
    simpl; rewrite ?C0, ?C1, ?C2; simpl;
    (split; [lia|]; split; [|by auto]);
    intros i Hi; (destruct i as [|[|[|i]]]; [..|lia]); rewrite ?C0, ?C1, ?D0, ?D1; (done || lia).
Qed.

(** The delay before attempt [i + 1]: 1 s doubled [i] times, at most 30 s. *)
Definition backoff (i : nat) : duration := Z.min (30 * Second) (2 ^ Z.of_nat i * Second).

Lemma next_delay_backoff i : next_delay (backoff i) = backoff (S i).
Proof.
  unfold next_delay, backoff, Second. rewrite Nat2Z.inj_succ, Z.pow_succ_r by lia.
  pose proof (Z.pow_pos_nonneg 2 (Z.of_nat i)).
  repeat (case_match; bools); lia.
Qed.

Lemma register_loop_spec {R} (call : nat -> Result R) cancelled r n i fuel :
  (forall j, (i <= j < i + n)%nat -> is_ok (call j) = false /\ cancelled j = false) ->
  call (i + n)%nat = Ok r -> (n < fuel)%nat ->
  register_loop fuel i (backoff i) call cancelled = Some (Ok r, map backoff (seq i n)).
Proof.
  revert i fuel. induction n as [|n IH]; intros i fuel Hf Hr Hfuel; (destruct fuel as [|fuel]; [lia|]);
    cbn [register_loop].
  - rewrite Nat.add_0_r in Hr. by rewrite Hr.
  - destruct (Hf i ltac:(lia)) as [E1 E2]. destruct (call i); [done|]. rewrite E2.
    rewrite next_delay_backoff, IH; [done| |by rewrite Nat.add_succ_comm|lia].
    intros j Hj. apply Hf. lia.
Qed.

(** C39: Registration retries until it succeeds.  If the first [n] calls
    fail, the agent is not stopped while waiting and call [n] succeeds, then
    [registerUntilReady] returns its result after exactly [n] waits of 1, 2,
    4, 8, 16 and from then on 30 seconds; any [fuel] above [n] is enough. *)
Theorem registerUntilReady_spec {R : Type} (call : nat -> Result R) (cancelled : nat -> bool)
    (r : R) (n fuel : nat) :
  (forall j, (j < n)%nat -> is_ok (call j) = false /\ cancelled j = false) ->
  call n = Ok r -> (n < fuel)%nat ->
  registerUntilReady fuel call cancelled
    = Some (Ok r, map (fun i => Z.min (30 * Second) (2 ^ Z.of_nat i * Second)) (seq 0 n)).
Proof.
  intros Hf Hr Hfuel. apply (register_loop_spec call cancelled r n 0 fuel); [|done|done].
  intros j Hj. apply Hf. lia.
Qed.

(** ** The batcher *)

(** Feeding events one by one: the batches handed out and the final state. *)
Fixpoint batcher_run (b : Batcher.t) (es : list FlowEvent) : list (list FlowEvent) * Batcher.t :=
  match es with
  | [] => ([], b)
  | e :: r => let '(out, b') := Batcher.Add b e in
              let '(outs, b'') := batcher_run b' r in
              ((if decide (out = []) then [] else [out]) ++ outs, b'')
  end.

Lemma batcher_run_spec b es :
  0 < Batcher.limit b -> Z.of_nat (length (Batcher.events b)) < Batcher.limit b ->
  let '(outs, b') := batcher_run b es in
  concat outs ++ Batcher.events b' = Batcher.events b ++ es /\
  Forall (fun o => Z.of_nat (length o) = Batcher.limit b) outs /\
  Batcher.limit b' = Batcher.limit b /\
  Z.of_nat (length (Batcher.events b')) < Batcher.limit b.
Proof.
  revert b. induction es as [|e es IH]; intros b Hl Hb; cbn [batcher_run].
  { simpl. rewrite app_nil_r. auto. }
  unfold Batcher.Add, Batcher.Flush. cbn [Batcher.events Batcher.limit].
  rewrite length_app. cbn [length].
  destruct (Z.ltb_spec (Z.of_nat (length (Batcher.events b) + 1)) (Batcher.limit b)) as [Hlt|Hge].
  - specialize (IH {| Batcher.events := Batcher.events b ++ [e]; Batcher.limit := Batcher.limit b |}).
    simpl in IH. rewrite length_app in IH. simpl in IH. specialize (IH Hl Hlt).
    destruct (batcher_run _ es) as [outs b']. destruct (decide _); [|done]. simpl.
    rewrite <- app_assoc in IH. done.
  - destruct (Batcher.events b ++ [e]) as [|x xs] eqn:Ex; [by destruct (Batcher.events b)|].
    specialize (IH {| Batcher.events := []; Batcher.limit := Batcher.limit b |} Hl Hl).
    destruct (batcher_run _ es) as [outs b']. destruct (decide _); [done|]. simpl in *.
    destruct IH as (E & Ho & El & Hn). split_and!; try done.
    + rewrite <- app_assoc, E. change (x :: xs ++ es) with ((x :: xs) ++ es).
      by rewrite <- Ex, <- app_assoc.
    + constructor; [|done]. change (S (length xs)) with (length (x :: xs)).
      rewrite <- Ex, length_app. simpl. lia.
Qed.

(** The batcher neither loses, duplicates nor reorders events: the
    batches handed out followed by the buffered events are the events added;
    every batch has exactly [limit] events (100 when the configured limit is
    not positive) and fewer than that stay buffered. *)
Theorem batcher_preserves_order (limit : Z) (es : list FlowEvent) :
  let n := if limit <=? 0 then 100 else limit in
  let '(outs, b) := batcher_run (Batcher.NewBatcher limit) es in
  concat outs ++ Batcher.events b = es /\
  Forall (fun o => Z.of_nat (length o) = n) outs /\
  Z.of_nat (length (Batcher.events b)) < n.
Proof.
  intros n. assert (0 < n) by (subst n; destruct (Z.leb_spec limit 0); lia).
  pose proof (batcher_run_spec (Batcher.NewBatcher limit) es) as H0. simpl in H0. fold n in H0.
  specialize (H0 ltac:(done) ltac:(done)).
  destruct (batcher_run _ es) as [outs b]. naive_solver.
Qed.

(** ** Filters *)

Lemma add_ignored_spec l f s :
  s ∈ foldl add_ignored f l <-> s ∈ f \/ exists raw ip, raw ∈ l /\ ParseIP raw = Some ip /\ s = ip_String ip.
Proof.
  revert f. induction l as [|x l IH]; intros f; simpl; [set_solver|].
  rewrite IH. unfold add_ignored. setoid_rewrite elem_of_cons.
  destruct (ParseIP x) as [ip|] eqn:E.
  - rewrite elem_of_union, elem_of_singleton. naive_solver.
  - naive_solver.
Qed.

Lemma add_resolved_spec (l : list IP) (f : endpointFilter) s :
  s ∈ foldl (fun f a => {[ ip_String a ]} ∪ f) f l <-> s ∈ f \/ exists ip, ip ∈ l /\ s = ip_String ip.
Proof.
  revert f. induction l as [|x l IH]; intros f; simpl; [set_solver|].
  rewrite IH, elem_of_union, elem_of_singleton. setoid_rewrite elem_of_cons. naive_solver.
Qed.

Section filters.
Context `{HostEnv}.

(** The addresses of the agent's own traffic: the configured ones, and the
    backend's, literal or resolved. *)
Definition own_address (rawURL : string) (ignoredIPs : list string) (ip : IP) : Prop :=
  (exists raw, raw ∈ ignoredIPs /\ ParseIP raw = Some ip) \/
  (exists host, url_hostname rawURL = Some host /\
     (ParseIP host = Some ip \/
      (ParseIP host = None /\ exists l, LookupIP host = Some l /\ ip ∈ l))).

Lemma newEndpointFilter_spec rawURL ignoredIPs s :
  s ∈ newEndpointFilter rawURL ignoredIPs <->
  exists ip, own_address rawURL ignoredIPs ip /\ s = ip_String ip.
Proof.
  unfold newEndpointFilter, own_address.
  pose proof (add_ignored_spec ignoredIPs ∅ s) as Hi. rewrite elem_of_empty in Hi.
  destruct (url_hostname rawURL) as [host|]; [|naive_solver].
  destruct (ParseIP host) as [ip|] eqn:E.
  - rewrite elem_of_union, elem_of_singleton, Hi. split.
    + intros [->|[[]|(raw & ip' & ? & ? & ->)]]; [|by eauto 6].
      exists ip. split; [|done]. right. exists host. auto.
    + intros (ip' & [(raw & ? & ?)|(h & [= <-] & [Eh|[Eh _]])] & ->); [by eauto 8| |congruence].
      left. congruence.
  - destruct (LookupIP host) as [l|] eqn:El; [rewrite add_resolved_spec|]; rewrite Hi; split.
    + intros [[[]|(raw & ip' & ? & ? & ->)]|(ip' & ? & ->)]; [by eauto 6|].
      exists ip'. split; [|done]. right. exists host. eauto 6.
    + intros (ip' & [(raw & ? & ?)|(h & [= <-] & [Eh|(_ & l' & E' & ?)])] & ->);
        [by eauto 8|congruence|]. simplify_eq. eauto.
    + intros [[]|(raw & ip' & ? & ? & ->)]; by eauto 6.
    + intros (ip' & [(raw & ? & ?)|(h & [= <-] & [Eh|(_ & l' & E' & ?)])] & ->);
        [by eauto 8|congruence|congruence].
Qed.

End filters.

(** The agent does not observe itself.  Whatever the other options, an
    event whose destination is one of the ignored addresses or one of the
    backend's addresses (given literally in the URL or resolved), however
    the address is spelled, leaves the agent's state unchanged. *)
Theorem control_plane_not_observed (env : HostEnv) (cfg : AgentConfig) (rawURL : string)
    (ignoredIPs : list string) (a : Agent) (e : Pipeline.FlowMetric) (ip : IP) :
  controlPlane cfg = newEndpointFilter rawURL ignoredIPs ->
  own_address rawURL ignoredIPs ip -> ParseIP (Pipeline.DstIP e) = Some ip ->
  on_event cfg a e = a.
Proof.
  intros Hcp Hown Hp. unfold on_event, ignoreFlow. rewrite Hp.
  destruct (ip_IsUnspecified ip || ip_IsLoopback ip); [done|].
  unfold endpoint_matches. rewrite Hp, bool_decide_eq_true_2; [done|].
  rewrite Hcp. apply newEndpointFilter_spec. eauto.
Qed.

(** The prefix a filter entry denotes: a CIDR, or a single address. *)
Definition entry_prefix (value : string) : option Prefix :=
  match ParsePrefix value with
  | Ok p => Some p
  | Err _ => match ParseAddr value with
             | Ok a => Some (PrefixFrom a (BitLen a))
             | Err _ => None
             end
  end.

(** [a] lies in one of the entries: same family, no zone, equal leading bits. *)
Definition in_entry (a : Addr) (value : string) : Prop :=
  exists p, entry_prefix value = Some p /\
    match PAddr p, a with
    | Addr4 p4, Addr4 ip => leading 32 (PBits p) ip = leading 32 (PBits p) p4
    | Addr6 p6 _, Addr6 ip zone => zone = "" /\ leading 128 (PBits p) ip = leading 128 (PBits p) p6
    | _, _ => False
    end.

Lemma entry_prefix_ok value p : entry_prefix value = Some p -> prefix_ok p.
Proof.
  unfold entry_prefix. destruct (ParsePrefix value) as [q|] eqn:E.
  - intros [= ->]. by eapply ParsePrefix_ok.
  - destruct (ParseAddr value) as [a|] eqn:Ea; [|done]. intros [= <-].
    apply ParseAddr_ok in Ea. unfold prefix_ok. destruct a; simpl in *; lia.
Qed.

Lemma parse_prefixes_spec label values :
  match parse_prefixes label values with
  | Ok ps => exists qs, mapM entry_prefix values = Some qs /\ ps = map Masked qs
  | Err _ => exists value, value ∈ values /\ entry_prefix value = None
  end.
Proof.
  induction values as [|v vs IH]; [by exists []|]. cbn [parse_prefixes].
  assert (Hv : match ParsePrefix v with
               | Ok p => Ok p
               | Err err => match ParseAddr v with
                            | Err _ => Err (ErrorfW "parse %s %q: %w" [label; v] err)
                            | Ok addr => Ok (PrefixFrom addr (BitLen addr))
                            end
               end = match entry_prefix v with
                     | Some p => Ok p
                     | None => Err (ErrorfW "parse %s %q: %w" [label; v] (LibErr "netip.ParsePrefix" v))
                     end).
  { unfold entry_prefix. destruct (ParsePrefix v) eqn:E; [done|].
    destruct (ParseAddr v); [done|]. f_equal. f_equal. revert E. unfold ParsePrefix.
    repeat case_match; congruence. }
  rewrite Hv. destruct (entry_prefix v) as [p|] eqn:E; cbn [rbind].
  - destruct (parse_prefixes label vs) as [ps|]; cbn [rbind].
    + destruct IH as (qs & Hq & ->). exists (p :: qs). cbn [mapM]. rewrite E, Hq. done.
    + destruct IH as (x & Hx & Ex). exists x. split; [by apply list_elem_of_further|done].
  - exists v. split; [apply list_elem_of_here|done].
Qed.

Lemma prefixes_match_spec label values ps s :
  parse_prefixes label values = Ok ps ->
  prefixes_match ps (parseAddr s) = true <->
  exists a value, ParseAddr s = Ok a /\ value ∈ values /\ in_entry a value.
Proof.
  intros Hp. pose proof (parse_prefixes_spec label values) as Hs. rewrite Hp in Hs.
  destruct Hs as (qs & Hq & ->). apply mapM_Some in Hq.
  unfold parseAddr. destruct (ParseAddr s) as [a|] eqn:Ea; simpl; [|naive_solver].
  apply ParseAddr_ok in Ea. rewrite existsb_exists. setoid_rewrite in_map_iff. split.
  - intros (q & (p & <- & Hin%list_elem_of_In) & Hc).
    apply list_elem_of_lookup in Hin as [i Hi].
    destruct (Forall2_lookup_r _ _ _ _ _ Hq Hi) as (v & Hv & Ev).
    assert (prefix_ok p) by (by eapply entry_prefix_ok).
    rewrite Masked_Contains in Hc by done. apply Contains_spec in Hc; [|done..].
    exists a, v. split_and!; [done|by eapply list_elem_of_lookup_2|by exists p].
  - intros (a' & v & [= <-] & Hv & p & Ep & Hc).
    apply list_elem_of_lookup in Hv as [i Hi].
    destruct (Forall2_lookup_l _ _ _ _ _ Hq Hi) as (q & Hq' & Eq). simplify_eq.
    assert (prefix_ok p) by (by eapply entry_prefix_ok).
    exists (Masked p). split; [exists p; split; [done|]; apply list_elem_of_In; by eapply list_elem_of_lookup_2|].
    rewrite Masked_Contains by done. by apply Contains_spec.
Qed.

Lemma endpoint_match_spec label values ps src dst :
  parse_prefixes label values = Ok ps ->
  (exists a value, (ParseAddr src = Ok a \/ ParseAddr dst = Ok a) /\ value ∈ values /\ in_entry a value)
  <-> prefixes_match ps (parseAddr src) || prefixes_match ps (parseAddr dst) = true.
Proof.
  intros Hp. rewrite orb_true_iff, !(prefixes_match_spec _ _ _ _ Hp). split.
  - intros (a & v & [?|?] & ?); [left|right]; eauto.
  - intros [(a & v & ? & ?)|(a & v & ? & ?)]; eauto 6.
Qed.

(** The CIDR filter means what its configuration says.  With a filter
    built from the configured lists, an event passes exactly when one of its
    addresses parses, neither address lies in a denied entry, and the allow
    list is empty or one of the addresses lies in an allowed entry (deny
    wins); membership is equality of the leading bits of the entry as
    written, so masking loses nothing. *)
Theorem flow_filter_spec (rawAllow rawDeny : list string) (f : flowFilter) (e : Pipeline.FlowMetric) :
  newFlowFilter rawAllow rawDeny = Ok f ->
  allows f e = true <->
  let endpoint a := ParseAddr (Pipeline.SrcIP e) = Ok a \/ ParseAddr (Pipeline.DstIP e) = Ok a in
  (exists a, endpoint a) /\
  ~ (exists a value, endpoint a /\ value ∈ rawDeny /\ in_entry a value) /\
  (rawAllow = [] \/ exists a value, endpoint a /\ value ∈ rawAllow /\ in_entry a value).
Proof.
  unfold newFlowFilter. rewrite rbind_Ok. setoid_rewrite rbind_Ok.
  intros (al & Ha & de & Hd & [= <-]). unfold allows. cbn [allow deny]. cbv zeta.
  rewrite (endpoint_match_spec _ _ _ (Pipeline.SrcIP e) (Pipeline.DstIP e) Ha).
  rewrite (endpoint_match_spec _ _ _ (Pipeline.SrcIP e) (Pipeline.DstIP e) Hd).
  assert (Hnil : (length al =? 0)%nat = true <-> rawAllow = []).
  { pose proof (parse_prefixes_spec "FLOW_ALLOW_CIDRS" rawAllow) as Hs. rewrite Ha in Hs.
    destruct Hs as (qs & Hq%mapM_Some%Forall2_length & ->). rewrite length_map, Nat.eqb_eq, <- Hq.
    apply length_zero_iff_nil. }
  assert (Hsome : negb (isSome (parseAddr (Pipeline.SrcIP e)))
                  && negb (isSome (parseAddr (Pipeline.DstIP e))) = false
                  <-> exists a, ParseAddr (Pipeline.SrcIP e) = Ok a \/ ParseAddr (Pipeline.DstIP e) = Ok a).
  { unfold parseAddr. destruct (ParseAddr (Pipeline.SrcIP e)), (ParseAddr (Pipeline.DstIP e)); naive_solver. }
  rewrite <- Hnil, <- Hsome. destruct (_ && _); [naive_solver|].
  destruct (prefixes_match de _ || prefixes_match de _); [naive_solver|].
  destruct (length al =? 0)%nat; naive_solver.
Qed.

(** ** Well-formedness of what the agent sends *)

Record agent_ok (a : Agent) : Prop := {
  ok_pending : flows_ok (pending a);
  ok_batches : Forall (Forall state_ok) (batches a);
  ok_sending : Forall state_ok (sending a);
  ok_delivered : Forall (fun p => exists s, state_ok s /\ p = FromFlowState s) (delivered a)
}.

Lemma agent_step_ok cfg a l a' :
  Forall event_ok (option_list l) -> agent_ok a -> step cfg a l a' -> agent_ok a'.
Proof.
  intros He [Hp Hb Hs Hd] Hstep. destruct Hstep as [a e|a batch Hperm|? ? [a batch rest E1 E2|a s rest call can E]].
  - apply Forall_cons in He as [He _]. unfold on_event. repeat case_match; split; simpl; auto with vm.
  - pose proof (flows_ok_Drain _ _ Hp Hperm) as Hok. unfold on_tick.
    destruct batch as [|s batch]; [split; simpl; auto with vm|].
    destruct (_ <? _)%nat; split; simpl; auto with vm.
    + apply Forall_app. auto.
    + change (flows_ok (AddAll ∅ (s :: batch))). auto with vm.
  - rewrite E2 in Hb. apply Forall_cons in Hb as [? ?]. split; simpl; auto.
  - rewrite E in Hs. apply Forall_cons in Hs as [? ?]. split; simpl; auto.
    destruct (is_ok _); [|done]. apply Forall_app. split; [done|]. repeat constructor. eauto.
Qed.

Lemma runs_ok cfg es a : Forall event_ok es -> runs cfg es a -> agent_ok a.
Proof.
  intros He Hr. induction Hr as [|es a l a' Hr IH Hs]; [split; simpl; auto with vm|].
  apply Forall_app in He as [He Hl]. eapply agent_step_ok; eauto.
Qed.

(** * Concrete runs

    The theorems at concrete inputs: one event sent over and over. *)
Definition sample_event : Pipeline.FlowMetric :=
  {| Pipeline.AgentID := "agent-1"; Pipeline.SrcIP := "10.0.0.5"; Pipeline.DstIP := "10.0.0.9";
     Pipeline.SrcPort := 40000; Pipeline.DstPort := 443; Pipeline.Protocol := "tcp";
     Pipeline.FlowDirection := "egress"; Pipeline.Interface := "eth0"; Pipeline.Source := "ebpf";
     Pipeline.ByteCount := 1500; Pipeline.PacketCount := 1; Pipeline.ConnectionCount := 1;
     Pipeline.RequestCount := 0; Pipeline.ErrorCount := 0; Pipeline.RetransmissionCount := 0;
     Pipeline.RTTMs := f_of_Z 0; Pipeline.AppDelayMs := f_of_Z 0; Pipeline.HTTPStatus := 200;
     Pipeline.FirstSeen := 1000; Pipeline.LastSeen := 2000 |}.
Definition sample_cfg : AgentConfig :=
  {| controlPlane := ∅; filter_ := {| allow := []; deny := [] |}; IgnorePorts := [] |}.

(** [n] events, each followed by a tick. *)
Fixpoint spin (n : nat) : Agent :=
  match n with
  | O => agent_start
  | S m => let a := on_event sample_cfg (spin m) sample_event in on_tick a (fst (Drain (pending a)))
  end.

Lemma spin_runs n : exists es, runs sample_cfg es (spin n).
Proof.
  induction n as [|n [es IH]]; [by exists []; constructor|]. simpl.
  eexists. eapply (runs_step _ _ _ None); [eapply (runs_step _ _ _ (Some sample_event)); [exact IH|constructor]|].
  by constructor.
Qed.

Lemma agent_conserves_counters_witness :
  1500 ≡64 mapsum (at_key bytes_sent (KeyFromMetric sample_event)) (pending (on_event sample_cfg agent_start sample_event)).
Proof.
  pose proof (agent_conserves_counters sample_cfg bytes_sent event_sent BytesSent (KeyFromMetric sample_event)
                [sample_event] (on_event sample_cfg agent_start sample_event)
                (runs_step _ [] agent_start (Some sample_event) _ (runs_start _) (step_event _ _ _))) as E.
  etransitivity; [etransitivity; [|exact E]|]; apply cong64_eq; vm_compute; reflexivity.
Defined.

Lemma full_backlog_retains_witness :
  let a := on_event sample_cfg (spin 32) sample_event in
  length (batches a) = 32%nat /\ on_tick a (fst (Drain (pending a))) = a.
Proof.
  split; [vm_compute; reflexivity|]. destruct (spin_runs 32) as [es H].
  apply (full_backlog_retains sample_cfg (es ++ [sample_event])); [|vm_compute; reflexivity|reflexivity].
  apply (runs_step _ _ _ (Some sample_event) _ H). constructor.
Defined.

Lemma registerUntilReady_witness :
  registerUntilReady 9 (fun i => if (i <? 7)%nat then Err (Errorf "refused" []) else Ok i) (fun _ => false)
    = Some (Ok 7%nat, [1 * Second; 2 * Second; 4 * Second; 8 * Second; 16 * Second; 30 * Second; 30 * Second]).
Proof.
  rewrite (registerUntilReady_spec _ _ 7%nat 7 9); [reflexivity| |reflexivity|lia].
  intros j Hj. apply Nat.ltb_lt in Hj. by rewrite Hj.
Defined.

Definition literal_host : HostEnv :=
  {| url_hostname := fun url => if (url =? "http://10.0.0.1:8080")%string then Some "10.0.0.1" else None;
     LookupIP := fun _ => None |}.

Lemma control_plane_not_observed_witness :
  let cfg := {| controlPlane := newEndpointFilter (H := literal_host) "http://10.0.0.1:8080" ["10.0.0.9"];
                filter_ := {| allow := []; deny := [] |}; IgnorePorts := [] |} in
  on_event cfg agent_start sample_event = agent_start.
Proof.
  intros cfg. apply (control_plane_not_observed literal_host cfg "http://10.0.0.1:8080" ["10.0.0.9"] agent_start
    sample_event [0; 0; 0; 0; 0; 0; 0; 0; 0; 0; 255; 255; 10; 0; 0; 9]); [reflexivity| |vm_compute; reflexivity].
  left. exists "10.0.0.9". split; [left|vm_compute; reflexivity].
Defined.

Lemma flow_filter_witness :
  exists f, newFlowFilter ["10.0.0.0/8"] ["192.168.0.0/16"] = Ok f /\ allows f sample_event = true.
Proof.
  eexists. split; [vm_compute; reflexivity|].
  apply (proj2 (flow_filter_spec ["10.0.0.0/8"] ["192.168.0.0/16"] _ sample_event eq_refl)). split_and!.
  - eexists. left. vm_compute. reflexivity.
  - intros (a & value & Ha & Hv & Hin). apply list_elem_of_singleton in Hv as ->.
    destruct Ha as [Ha|Ha]; vm_compute in Ha; injection Ha as <-; vm_compute in Hin; naive_solver.
  - right. eexists _, "10.0.0.0/8". split; [left; vm_compute; reflexivity|]. split; [left|]. eexists. split; vm_compute; reflexivity.
Defined.
