(* ===== verification/Collector.v ===== *)
(** The agent's collectors: [agent/internal/features/traffic/packet] (the
    eBPF ring-buffer collector), [.../protocols/network] (ICMP packet socket,
    IPv4 and IPv6 headers) and [.../protocols/transport/udp].

    Packets are lists of byte values.  Where the source indexes or slices a
    packet, the model returns [option]: [None] is the run-time panic of an
    index out of range. *)
From S2P Require Import Prelude GoStrings GoFloat GoTime Reducers Netip AgentFlow.

#[local] Open Scope Z_scope.

(** exporter/registration_payload.go *)
Record Interface := { IfName : string; IPAddress : string; MACAddress : string }.
Record Registration := {
  RAgentID : string; Hostname : string; MachineID : string; TenantID : string; PrivateIPs : list string;
  PublicIP : option string; MACAddresses : list string; Interfaces : list Interface;
  OS : string; KernelVersion : string; AgentVersion : string; Environment : string
}.

(** ** The ring-buffer record *)

Record rawFlowEvent := {
  TimestampNS : Z; RBytes : Z; SrcAddr : list Z; DstAddr : list Z;
  Connections : Z; RSrcPort : Z; RDstPort : Z; Family : Z; RProtocol : Z; RDirection : Z;
  RPackets : Z; RErrorCount : Z; Retransmits : Z; RTTUS : Z; AppDelayUS : Z; RHTTPStatus : Z
}.

(** Little-endian values, [encoding/binary]. *)
Definition le (l : list Z) : Z := foldr (fun b acc => b + 256 * acc) 0 l.

Fixpoint le_bytes (n : nat) (z : Z) : list Z :=
  match n with
  | O => []
  | S n' => z mod 256 :: le_bytes n' (z / 256)
  end.

Definition readLE (n : nat) (s : list Z) : Z * list Z := (le (take n s), drop n s).
Definition readArray (n : nat) (s : list Z) : list Z * list Z := (take n s, drop n s).

(** [binary.Size(raw)]: the sizes of the fields, without padding. *)
Definition rawFlowEvent_size : nat := 8 + 8 + 16 + 16 + 4 + 2 + 2 + 2 + 1 + 1 + 4 + 4 + 4 + 4 + 4 + 2.

Definition decodeRawFlowEvent (sample : list Z) : Result rawFlowEvent :=
  let expected := rawFlowEvent_size in
  if negb (length sample =? expected)%nat
  then Err (Errorf "unexpected eBPF event size %d, want %d"
              [Itoa (Z.of_nat (length sample)); Itoa (Z.of_nat expected)])
  else
    let '(ts, s) := readLE 8 sample in
    let '(bytes, s) := readLE 8 s in
    let '(src, s) := readArray 16 s in
    let '(dst, s) := readArray 16 s in
    let '(conns, s) := readLE 4 s in
    let '(sport, s) := readLE 2 s in
    let '(dport, s) := readLE 2 s in
    let '(family, s) := readLE 2 s in
    let '(proto, s) := readLE 1 s in
    let '(dir, s) := readLE 1 s in
    let '(pkts, s) := readLE 4 s in
    let '(errs, s) := readLE 4 s in
    let '(retr, s) := readLE 4 s in
    let '(rtt, s) := readLE 4 s in
    let '(delay, s) := readLE 4 s in
    let '(status, _) := readLE 2 s in
    Ok (Build_rawFlowEvent ts bytes src dst conns sport dport family proto dir pkts errs retr rtt delay status).

(** ** Conversion to pipeline events *)

Definition socketIP (value : list Z) (family : Z) : string :=
  if family =? 10 then ip_String value else ip_String (take 4 value).

Record EBPFCollector := { registration : Registration; ifaceName : string }.

Fixpoint first_global_v6 (interfaces : list Interface) : string :=
  match interfaces with
  | [] => ""
  | iface :: rest =>
      match ParseIP (IPAddress iface) with
      | Some ip => if negb (isSome (To4 ip)) && negb (ip_IsUnspecified ip) then ip_String ip
                   else first_global_v6 rest
      | None => first_global_v6 rest
      end
  end.

Definition fallbackSource (c : EBPFCollector) (family : Z) : string :=
  if family =? 10 then first_global_v6 (Interfaces (registration c))
  else match PrivateIPs (registration c) with ip :: _ => ip | [] => "" end.

Definition rawEventSource (raw : rawFlowEvent) : string :=
  if (RBytes raw =? 0) && (RPackets raw =? 0) && (Connections raw =? 0)
     && ((0 <? Retransmits raw) || (0 <? RTTUS raw))
  then "tcp_metric_ebpf" else "tc_ebpf".

Definition source_ip (c : EBPFCollector) (raw : rawFlowEvent) : string :=
  let sourceIP := socketIP (SrcAddr raw) (Family raw) in
  if match ParseIP sourceIP with None => true | Some parsed => ip_IsUnspecified parsed end
  then let fallback := fallbackSource c (Family raw) in
       if negb (fallback =? "")%string then fallback else sourceIP
  else sourceIP.

Definition raw_protocol (raw : rawFlowEvent) : string :=
  if (RProtocol raw =? 1) || (RProtocol raw =? 58) then Classification.ProtocolICMP
  else if RProtocol raw =? 17 then Classification.ProtocolUDP
  else Classification.ProtocolTCP.

Definition convert (c : EBPFCollector) (now : time) (raw : rawFlowEvent) : Pipeline.FlowMetric :=
  let protocol := raw_protocol raw in
  let '(srcPort, dstPort) := Classification.NormalizePorts protocol (RSrcPort raw) (RDstPort raw) in
  {| Pipeline.AgentID := RAgentID (registration c);
     Pipeline.SrcIP := source_ip c raw;
     Pipeline.DstIP := socketIP (DstAddr raw) (Family raw);
     Pipeline.SrcPort := srcPort; Pipeline.DstPort := dstPort; Pipeline.Protocol := protocol;
     Pipeline.FlowDirection := Direction.FromKernel (RDirection raw);
     Pipeline.Interface :=
       if negb (ifaceName c =? "")%string then ifaceName c
       else match Interfaces (registration c) with i :: _ => IfName i | [] => "" end;
     Pipeline.Source := rawEventSource raw;
     Pipeline.ByteCount := i64 (RBytes raw); Pipeline.PacketCount := RPackets raw;
     Pipeline.ConnectionCount := Connections raw; Pipeline.RequestCount := 0;
     Pipeline.ErrorCount := RErrorCount raw; Pipeline.RetransmissionCount := Retransmits raw;
     Pipeline.RTTMs := f_div (f_of_Z (RTTUS raw)) (f_of_Z 1000);
     Pipeline.AppDelayMs := f_div (f_of_Z (AppDelayUS raw)) (f_of_Z 1000);
     Pipeline.HTTPStatus := RHTTPStatus raw;
     Pipeline.FirstSeen := now; Pipeline.LastSeen := now |}.

(** One round of the reading goroutine: an event or an error. *)
Definition collect (c : EBPFCollector) (now : time) (sample : list Z) : Result Pipeline.FlowMetric :=
  raw <-- decodeRawFlowEvent sample ;; Ok (convert c now raw).

Definition ignoredPortKeys (ports : list Z) : list Z :=
  snd (foldl (fun '(seen, keys) port =>
    if (port <=? 0) || (65535 <? port) then (seen, keys)
    else let key := u32 port in
         if bool_decide (key ∈ seen) then (seen, keys)
         else ({[ key ]} ∪ seen, keys ++ [key])) (∅ : gset Z, []) ports).

(** ** Kprobe attachment and start-up *)

Record kprobeAttachment := { program : string; symbol : string; ret : bool; required : bool }.

Definition connectionAttachments : list kprobeAttachment :=
  [ Build_kprobeAttachment "trace_tcp_connect" "tcp_v4_connect" false true;
    Build_kprobeAttachment "trace_tcp_v6_connect" "tcp_v6_connect" false false;
    Build_kprobeAttachment "trace_tcp_accept" "inet_csk_accept" true true;
    Build_kprobeAttachment "trace_tcp_send" "tcp_sendmsg" false true;
    Build_kprobeAttachment "trace_tcp_send_ret" "tcp_sendmsg" true true;
    Build_kprobeAttachment "trace_tcp_recv" "tcp_recvmsg" false true;
    Build_kprobeAttachment "trace_tcp_recv_ret" "tcp_recvmsg" true true;
    Build_kprobeAttachment "trace_udp_send" "udp_sendmsg" false false;
    Build_kprobeAttachment "trace_udp_send_ret" "udp_sendmsg" true false;
    Build_kprobeAttachment "trace_udp_recv" "udp_recvmsg" false false;
    Build_kprobeAttachment "trace_udp_recv_ret" "udp_recvmsg" true false ].

Definition tcpMetricAttachments : list kprobeAttachment :=
  [ Build_kprobeAttachment "trace_tcp_rtt" "tcp_rcv_established" false false;
    Build_kprobeAttachment "trace_tcp_retransmit" "tcp_retransmit_skb" false false;
    Build_kprobeAttachment "trace_tcp_delay_send" "tcp_sendmsg" false false;
    Build_kprobeAttachment "trace_tcp_delay_recv" "tcp_recvmsg" false false;
    Build_kprobeAttachment "trace_tcp_delay_recv_ret" "tcp_recvmsg" true false ].

(** The kernel and the eBPF library, as the collector sees them: which
    programs the object holds and the outcome of each call. *)
Class EBPFHost := {
  has_program : string -> bool;
  attach_probe : kprobeAttachment -> Result unit;
  RemoveMemlock : Result unit;
  LoadCollectionSpec : string -> Result unit;
  NewCollection : Result unit;
  put_ignored_port : Z -> Result unit;
  has_ignored_ports_map : bool;
  InterfaceByName : string -> Result unit;
  attach_tcx : string -> bool -> Result unit; (* interface, ingress? *)
  has_events_map : bool;
  NewReader : Result unit
}.

Section ebpf.
Context `{EBPFHost} `{UnicodeCase}.

(** A link is named by the program it holds; [kprobes] and [kprobeMisses]
    are the reports of [AttachedKprobes] and [DisabledKprobes] (a miss is
    the program and, unless it is absent from the object, the error). *)
Record Links := { links : list string; kprobes : list string; kprobeMisses : list (string * option GoError) }.

Fixpoint attachKprobes (l : Links) (attachments : list kprobeAttachment) : Result unit * Links :=
  match attachments with
  | [] => (Ok tt, l)
  | item :: rest =>
      if negb (has_program (program item)) then
        if required item then (Err (Errorf "program %s missing" [program item]), l)
        else attachKprobes {| links := links l; kprobes := kprobes l;
               kprobeMisses := kprobeMisses l ++ [(program item, None)] |} rest
      else match attach_probe item with
      | Err err =>
          if required item then (Err (ErrorfW "attach %s: %w" [program item] err), l)
          else attachKprobes {| links := links l; kprobes := kprobes l;
                 kprobeMisses := kprobeMisses l ++ [(program item, Some err)] |} rest
      | Ok _ =>
          attachKprobes {| links := links l ++ [program item];
            kprobes := kprobes l ++ [program item +:+ "/" +:+ symbol item];
            kprobeMisses := kprobeMisses l |} rest
      end
  end.

Definition defaultInterfaceName (c : EBPFCollector) : string :=
  (fix loop (l : list Interface) := match l with
     | [] => ""
     | iface :: r => if negb (IfName iface =? "")%string then IfName iface else loop r
     end) (Interfaces (registration c)).

(** [attachTCX] with the resolved interface name; both links or none. *)
Definition attachTCX (c : EBPFCollector) (l : Links) : Result string * Links :=
  let name := if (ifaceName c =? "")%string
              then defaultInterfaceName c
              else ifaceName c in
  if (name =? "")%string then (Err (Errorf "capture interface is empty" []), l)
  else match InterfaceByName name with
  | Err err => (Err (ErrorfW "lookup capture interface %q: %w" [name] err), l)
  | Ok _ =>
      if negb (has_program "tc_ingress") || negb (has_program "tc_egress")
      then (Err (Errorf "tc_ingress/tc_egress programs missing" []), l)
      else match attach_tcx name true with
      | Err err => (Err (ErrorfW "attach tc ingress on %s: %w" [name] err), l)
      | Ok _ =>
          match attach_tcx name false with
          | Err err => (Err (ErrorfW "attach tc egress on %s: %w" [name] err), l) (* ingress link closed *)
          | Ok _ => (Ok name, {| links := links l ++ ["tc_ingress"; "tc_egress"];
                                 kprobes := kprobes l; kprobeMisses := kprobeMisses l |})
          end
      end
  end.

Fixpoint configureIgnoredPorts (keys : list Z) : Result unit :=
  match keys with
  | [] => Ok tt
  | port :: rest =>
      match put_ignored_port port with
      | Err err => Err (ErrorfW "configure ignored port %d: %w" [Itoa port] err)
      | Ok _ => configureIgnoredPorts rest
      end
  end.

Record Started := { captureMode : string; capture_interface : string; attached : Links }.

(** [NewEBPF]: on an error the collector is closed ([fail]), which detaches
    every link, and only the error remains. *)
Definition open_reader (mode : string) (iface : string) (l : Links) : Result Started :=
  if negb has_events_map then Err (Errorf "events ring buffer missing" [])
  else _ <-- NewReader ;; Ok {| captureMode := mode; capture_interface := iface; attached := l |}.

Record EBPFOptions := { ObjectPath : string; CaptureMode : string; CaptureInterface : string; OIgnorePorts : list Z }.

Definition NewEBPF (reg : Registration) (options : EBPFOptions) : Result Started :=
  let '(Build_EBPFOptions ObjectPath CaptureMode CaptureInterface IgnorePorts) := options in
  let mode := ToLower (TrimSpace CaptureMode) in
  let mode := if (mode =? "")%string then "auto" else mode in
  guard_err (negb (mode =? "auto")%string && negb (mode =? "tc")%string && negb (mode =? "kprobe")%string)
    as (Errorf "unsupported capture mode %q" [CaptureMode]) ;;
  _ <-- match RemoveMemlock with Ok _ => Ok tt | Err e => Err (ErrorfW "remove memlock: %w" [] e) end ;;
  _ <-- match LoadCollectionSpec ObjectPath with
        | Ok _ => Ok tt | Err e => Err (ErrorfW "read eBPF object %q: %w" [ObjectPath] e) end ;;
  _ <-- match NewCollection with
        | Ok _ => Ok tt | Err e => Err (ErrorfW "load eBPF object (root/CAP_BPF required): %w" [] e) end ;;
  let c := {| registration := reg; ifaceName := TrimSpace CaptureInterface |} in
  let none := {| links := []; kprobes := []; kprobeMisses := [] |} in
  _ <-- (if has_ignored_ports_map then configureIgnoredPorts (ignoredPortKeys IgnorePorts) else Ok tt) ;;
  let kprobe_path :=
    match attachKprobes none (connectionAttachments ++ tcpMetricAttachments) with
    | (Err e, _) => Err e
    | (Ok _, l) => open_reader "kprobe" (ifaceName c) l
    end in
  if (mode =? "tc")%string || (mode =? "auto")%string then
    match attachTCX c none with
    | (Ok iface, l) =>
        match attachKprobes l tcpMetricAttachments with
        | (Err e, _) => Err e
        | (Ok _, l) => open_reader "tc" iface l
        end
    | (Err e, _) => if (mode =? "tc")%string then Err e else kprobe_path
    end
  else kprobe_path.

Definition Mode (c : Started) : string := captureMode c.
Definition AttachedKprobes (c : option Started) : list string :=
  match c with None => [] | Some c => kprobes (attached c) end.
Definition DisabledKprobes (c : option Started) : list (string * option GoError) :=
  match c with None => [] | Some c => kprobeMisses (attached c) end.
End ebpf.

(** ** Packet parsers *)

(** [packet[i]] and [packet[i:j]]; out of range is a panic. *)
Definition index (packet : list Z) (i : nat) : option Z := packet !! i.
Definition slice (packet : list Z) (i j : nat) : option (list Z) :=
  if (i <=? j)%nat && (j <=? length packet)%nat then Some (take (j - i) (drop i packet)) else None.

Definition BE16 (l : list Z) : Z := be l.

(** protocols/network/icmp/collector.go *)
Definition ethernetHeaderLen : nat := 14.
Definition ethPIP : Z := 2048.
Definition ethPIPv6 : Z := 34525.
Definition ipProtocolICMP : Z := 1.
Definition ipProtocolICMPv6 : Z := 58.
Definition packetOutgoing : Z := 4.

Definition parseIPv4ICMP (packet : list Z) : option (string * string) :=
  if (length packet <? 20)%nat then Some ("", "")
  else
    versionIHL ← index packet 0;
    if negb (Z.shiftr versionIHL 4 =? 4) then Some ("", "")
    else
      let headerLen := Z.land versionIHL 15 * 4 in
      if (headerLen <? 20) || (Z.of_nat (length packet) <? headerLen + 1) then Some ("", "")
      else
        protocol ← index packet 9;
        if negb (protocol =? ipProtocolICMP) then Some ("", "")
        else
          src ← slice packet 12 16;
          dst ← slice packet 16 20;
          Some (ip_String src, ip_String dst).

Definition parseIPv6ICMP (packet : list Z) : option (string * string) :=
  if (length packet <? 40)%nat then Some ("", "")
  else
    version ← index packet 0;
    if negb (Z.shiftr version 4 =? 6) then Some ("", "")
    else
      next ← index packet 6;
      if negb (next =? ipProtocolICMPv6) then Some ("", "")
      else
        src ← slice packet 8 24;
        dst ← slice packet 24 40;
        Some (ip_String src, ip_String dst).

(** [parse] on a packet and the packet type of its link-layer address
    ([None] for another address family).  The inner [None] is [ok == false]. *)
Definition icmp_parse (reg : Registration) (iface : string) (now : time)
    (packet : list Z) (pkttype : option Z) : option (option Pipeline.FlowMetric) :=
  if (length packet <? ethernetHeaderLen)%nat then Some None
  else
    let flowDirection :=
      if match pkttype with Some t => t =? packetOutgoing | None => false end
      then Direction.Egress else Direction.Ingress in
    proto ← slice packet 12 14;
    body ← slice packet ethernetHeaderLen (length packet);
    ips ← (if BE16 proto =? ethPIP then Some <$> parseIPv4ICMP body
           else if BE16 proto =? ethPIPv6 then Some <$> parseIPv6ICMP body
           else Some None);
    match ips with
    | None => Some None
    | Some (sourceIP, destinationIP) =>
        if (sourceIP =? "")%string || (destinationIP =? "")%string then Some None
        else
          let '(sourceIP, destinationIP) :=
            if (flowDirection =? Direction.Ingress)%string then (destinationIP, sourceIP)
            else (sourceIP, destinationIP) in
          Some (Some {|
            Pipeline.AgentID := RAgentID reg; Pipeline.SrcIP := sourceIP; Pipeline.DstIP := destinationIP;
            Pipeline.SrcPort := 0; Pipeline.DstPort := 0;
            Pipeline.Protocol := Classification.ProtocolICMP; Pipeline.FlowDirection := flowDirection;
            Pipeline.Interface := iface; Pipeline.Source := "packet_socket_icmp";
            Pipeline.ByteCount := Z.of_nat (length packet); Pipeline.PacketCount := 1;
            Pipeline.ConnectionCount := 0; Pipeline.RequestCount := 1; Pipeline.ErrorCount := 0;
            Pipeline.RetransmissionCount := 0; Pipeline.RTTMs := f_of_Z 0; Pipeline.AppDelayMs := f_of_Z 0;
            Pipeline.HTTPStatus := 0; Pipeline.FirstSeen := now; Pipeline.LastSeen := now |})
    end.

(** protocols/network/icmp/decoder.go and reducer.go *)
Record ICMPEvent := { SourceIP : string; DestinationIP : string; EBytes : Z }.

Definition DecodePacket (packet : list Z) : option (Result ICMPEvent) :=
  v4 ← parseIPv4ICMP packet;
  if negb (fst v4 =? "")%string && negb (snd v4 =? "")%string
  then Some (Ok {| SourceIP := fst v4; DestinationIP := snd v4; EBytes := Z.of_nat (length packet) |})
  else
    v6 ← parseIPv6ICMP packet;
    if negb (fst v6 =? "")%string && negb (snd v6 =? "")%string
    then Some (Ok {| SourceIP := fst v6; DestinationIP := snd v6; EBytes := Z.of_nat (length packet) |})
    else Some (Err (Errorf "packet is not ICMP" [])).

Record ICMPModel := { Requests : Z; Replies : Z; MBytes : Z }.

Definition ICMP_Apply (model : ICMPModel) (event : ICMPEvent) : ICMPModel :=
  {| Requests := u64 (Requests model + 1); Replies := Replies model;
     MBytes := if 0 <? EBytes event then u64 (MBytes model + u64 (EBytes event)) else MBytes model |}.

(** protocols/network/ipv4/parser.go, ipv6/parser.go, transport/udp/parser.go *)
Record IPHeader := { HSource : string; HDestination : string; HProtocol : Z; HeaderBytes : Z }.

Definition ipv4_Parse (packet : list Z) : option (option IPHeader) :=
  if (length packet <? 20)%nat then Some None
  else
    b0 ← index packet 0;
    if negb (Z.shiftr b0 4 =? 4) then Some None
    else
      let headerLen := Z.land b0 15 * 4 in
      if (headerLen <? 20) || (Z.of_nat (length packet) <? headerLen) then Some None
      else
        src ← slice packet 12 16;
        dst ← slice packet 16 20;
        proto ← index packet 9;
        Some (Some {| HSource := ip_String src; HDestination := ip_String dst;
                      HProtocol := proto; HeaderBytes := headerLen |}).

Definition ipv6_Parse (packet : list Z) : option (option IPHeader) :=
  if (length packet <? 40)%nat then Some None
  else
    b0 ← index packet 0;
    if negb (Z.shiftr b0 4 =? 6) then Some None
    else
      src ← slice packet 8 24;
      dst ← slice packet 24 40;
      next ← index packet 6;
      Some (Some {| HSource := ip_String src; HDestination := ip_String dst;
                    HProtocol := next; HeaderBytes := 40 |}).

Record UDPHeader := { SourcePort : Z; DestinationPort : Z; Length : Z }.

Definition udp_Parse (packet : list Z) : option (option UDPHeader) :=
  if (length packet <? 8)%nat then Some None
  else
    sport ← slice packet 0 2;
    dport ← slice packet 2 4;
    len ← slice packet 4 6;
    Some (Some {| SourcePort := BE16 sport; DestinationPort := BE16 dport; Length := BE16 len |}).

(** protocols/transport/tcp/retrans/decoder.go *)
Definition retrans_Decode (sample : list Z) : Result Z :=
  if negb (length sample =? 8)%nat
  then Err (Errorf "unexpected retrans sample size %d, want 8" [Itoa (Z.of_nat (length sample))])
  else Ok (le sample).

(** protocols/application/http/parser.go, dns/parser.go, tls/parser.go *)
Definition LooksLikeRequest (payload : string) : bool :=
  HasPrefix payload "GET " || HasPrefix payload "POST " || HasPrefix payload "PUT "
  || HasPrefix payload "DELETE " || HasPrefix payload "PATCH ".

Definition LooksLikeDNS (port : Z) : bool := port =? 53.
Definition LooksLikeTLS (port : Z) : bool := port =? 443.

(** * Facts *)

Definition byte_list (n : nat) (l : list Z) : Prop := length l = n /\ Forall byte_ok l.

(** ** The ring-buffer record *)

(** The layout of [struct flow_event] (packed, little-endian). *)
Definition encodeRawFlowEvent (r : rawFlowEvent) : list Z :=
  le_bytes 8 (TimestampNS r) ++ le_bytes 8 (RBytes r) ++ SrcAddr r ++ DstAddr r
  ++ le_bytes 4 (Connections r) ++ le_bytes 2 (RSrcPort r) ++ le_bytes 2 (RDstPort r)
  ++ le_bytes 2 (Family r) ++ le_bytes 1 (RProtocol r) ++ le_bytes 1 (RDirection r)
  ++ le_bytes 4 (RPackets r) ++ le_bytes 4 (RErrorCount r) ++ le_bytes 4 (Retransmits r)
  ++ le_bytes 4 (RTTUS r) ++ le_bytes 4 (AppDelayUS r) ++ le_bytes 2 (RHTTPStatus r).

Record raw_ok (r : rawFlowEvent) : Prop := {
  raw_ts : in_u64 (TimestampNS r); raw_bytes : in_u64 (RBytes r);
  raw_src : byte_list 16 (SrcAddr r); raw_dst : byte_list 16 (DstAddr r);
  raw_conns : in_u32 (Connections r); raw_sport : in_u16 (RSrcPort r); raw_dport : in_u16 (RDstPort r);
  raw_family : in_u16 (Family r); raw_proto : in_u8 (RProtocol r); raw_dir : in_u8 (RDirection r);
  raw_pkts : in_u32 (RPackets r); raw_errs : in_u32 (RErrorCount r); raw_retr : in_u32 (Retransmits r);
  raw_rtt : in_u32 (RTTUS r); raw_delay : in_u32 (AppDelayUS r); raw_status : in_u16 (RHTTPStatus r)
}.

Lemma length_le_bytes n z : length (le_bytes n z) = n.
Proof. revert z. induction n as [|n IH]; intros z; simpl; [done|]. by rewrite IH. Qed.

Lemma le_le_bytes n z : 0 <= z < 256 ^ Z.of_nat n -> le (le_bytes n z) = z.
Proof.
  revert z. induction n as [|n IH]; intros z Hz; [simpl in *; lia|].
  rewrite Nat2Z.inj_succ, Z.pow_succ_r in Hz by lia. cbn [le_bytes]. unfold le in *. cbn [foldr].
  rewrite IH; [int_lia|]. split; [int_lia|]. apply Z.div_lt_upper_bound; lia.
Qed.

Lemma le_range l : Forall byte_ok l -> 0 <= le l < 256 ^ Z.of_nat (length l).
Proof.
  induction 1 as [|b l Hb Hl IH]; [done|]. unfold le in *. cbn [foldr length].
  rewrite Nat2Z.inj_succ, Z.pow_succ_r by lia. unfold byte_ok in Hb. lia.
Qed.

Lemma le_bytes_le l : Forall byte_ok l -> le_bytes (length l) (le l) = l.
Proof.
  induction 1 as [|b l Hb Hl IH]; [done|]. cbn [length le_bytes]. unfold le in *. cbn [foldr].
  unfold byte_ok in Hb. f_equal.
  - generalize (foldr (fun b acc => b + 256 * acc) 0 l). intros z. clear IH.
    rewrite Z.mul_comm, Z.mod_add by lia. apply Z.mod_small. lia.
  - etransitivity; [|exact IH]. f_equal. generalize (foldr (fun b acc => b + 256 * acc) 0 l). intros z.
    rewrite Z.mul_comm, Z.div_add, Z.div_small by lia. done.
Qed.

Lemma readLE_app n z s : 0 <= z < 256 ^ Z.of_nat n -> readLE n (le_bytes n z ++ s) = (z, s).
Proof.
  intros Hz. unfold readLE.
  rewrite take_app_length', drop_app_length' by (by rewrite length_le_bytes). by rewrite le_le_bytes.
Qed.

Lemma readArray_app n l s : length l = n -> readArray n (l ++ s) = (l, s).
Proof. intros Hl. unfold readArray. by rewrite take_app_length', drop_app_length'. Qed.

(** Reading from enough bytes, inverted. *)
Lemma readLE_inv n m s :
  length s = (n + m)%nat -> Forall byte_ok s ->
  exists z s', readLE n s = (z, s') /\ s = le_bytes n z ++ s' /\ 0 <= z < 256 ^ Z.of_nat n /\
    length s' = m /\ Forall byte_ok s'.
Proof.
  intros Hn Hs. exists (le (take n s)), (drop n s).
  assert (Ht : Forall byte_ok (take n s)) by (by apply Forall_take).
  assert (Hl : length (take n s) = n) by (rewrite length_take; lia).
  pose proof (le_bytes_le _ Ht) as E. pose proof (le_range _ Ht) as R. rewrite Hl in E, R.
  split_and!; try done.
  - by rewrite E, take_drop.
  - lia.
  - lia.
  - rewrite length_drop. lia.
  - by apply Forall_drop.
Qed.

Lemma readArray_inv n m s :
  length s = (n + m)%nat -> Forall byte_ok s ->
  exists l s', readArray n s = (l, s') /\ s = l ++ s' /\ byte_list n l /\
    length s' = m /\ Forall byte_ok s'.
Proof.
  intros Hn Hs. exists (take n s), (drop n s). unfold byte_list.
  rewrite take_drop, length_take, length_drop. split_and!; auto using Forall_take, Forall_drop; lia.
Qed.

Ltac read_step n m :=
  match goal with
  | Hl : length ?s = _, Hb : Forall byte_ok ?s |- context [readLE n ?s] =>
      let z := fresh "z" in let s' := fresh "s" in let R := fresh "R" in let E := fresh "E" in
      let Hr := fresh "Hr" in let Hl' := fresh "Hl" in let Hb' := fresh "Hb" in
      destruct (readLE_inv n m s Hl Hb) as (z & s' & R & E & Hr & Hl' & Hb');
      rewrite R; clear R; rewrite E; clear Hl Hb E
  | Hl : length ?s = _, Hb : Forall byte_ok ?s |- context [readArray n ?s] =>
      let z := fresh "z" in let s' := fresh "s" in let R := fresh "R" in let E := fresh "E" in
      let Hr := fresh "Hr" in let Hl' := fresh "Hl" in let Hb' := fresh "Hb" in
      destruct (readArray_inv n m s Hl Hb) as (z & s' & R & E & Hr & Hl' & Hb');
      rewrite R; clear R; rewrite E; clear Hl Hb E
  end.

Lemma encode_length raw : raw_ok raw -> length (encodeRawFlowEvent raw) = 82%nat.
Proof.
  intros Hraw. pose proof (raw_src _ Hraw) as [Hs _]. pose proof (raw_dst _ Hraw) as [Hd _].
  unfold encodeRawFlowEvent. by rewrite !length_app, !length_le_bytes, Hs, Hd.
Qed.

Lemma le_bytes_ok n z : Forall byte_ok (le_bytes n z).
Proof. revert z. induction n as [|n IH]; intros z; constructor; [apply Z.mod_pos_bound; lia|apply IH]. Qed.

Lemma encode_bytes raw : raw_ok raw -> Forall byte_ok (encodeRawFlowEvent raw).
Proof.
  intros Hraw. unfold encodeRawFlowEvent. rewrite !Forall_app. pose proof (raw_src _ Hraw) as [_ Hs]. pose proof (raw_dst _ Hraw) as [_ Hd].
  split_and!; try done; apply le_bytes_ok.
Qed.

Lemma decode_encode raw : raw_ok raw -> decodeRawFlowEvent (encodeRawFlowEvent raw) = Ok raw.
Proof.
  intros Hraw. pose proof (raw_src _ Hraw) as [Hs _]. pose proof (raw_dst _ Hraw) as [Hd _].
  unfold decodeRawFlowEvent.
  rewrite (encode_length raw Hraw : _ = rawFlowEvent_size), Nat.eqb_refl. cbn [negb]. unfold encodeRawFlowEvent. destruct Hraw.
  do 2 (rewrite readLE_app by done). do 2 (rewrite readArray_app by done).
  do 11 (rewrite readLE_app by done).
  rewrite <- (app_nil_r (le_bytes 2 (RHTTPStatus raw))), readLE_app by done.
  by destruct raw.
Qed.

Lemma encode_decode sample :
  length sample = 82%nat -> Forall byte_ok sample ->
  exists raw, decodeRawFlowEvent sample = Ok raw /\ raw_ok raw /\ encodeRawFlowEvent raw = sample.
Proof.
  intros Hl Hb. unfold decodeRawFlowEvent. change rawFlowEvent_size with 82%nat.
  rewrite Hl. cbn [negb Nat.eqb].
  read_step 8%nat 74%nat. read_step 8%nat 66%nat. read_step 16%nat 50%nat. read_step 16%nat 34%nat.
  read_step 4%nat 30%nat. read_step 2%nat 28%nat. read_step 2%nat 26%nat. read_step 2%nat 24%nat.
  read_step 1%nat 23%nat. read_step 1%nat 22%nat. read_step 4%nat 18%nat. read_step 4%nat 14%nat.
  read_step 4%nat 10%nat. read_step 4%nat 6%nat. read_step 4%nat 2%nat. read_step 2%nat 0%nat.
  eexists. split; [done|]. apply nil_length_inv in Hl as ->. split; [by split|].
  unfold encodeRawFlowEvent. simpl. by rewrite ?app_nil_r.
Qed.

(** The record decoder inverts the kernel's layout.  Every record of
    in-range fields, written as the packed little-endian struct of the eBPF
    program, is decoded to itself; conversely any 82 bytes decode to an
    in-range record that is written back to the same bytes, and a sample of
    any other size is rejected. *)
Theorem raw_event_roundtrip :
  (forall raw, raw_ok raw -> decodeRawFlowEvent (encodeRawFlowEvent raw) = Ok raw) /\
  (forall sample, Forall byte_ok sample ->
     if decide (length sample = 82%nat)
     then exists raw, decodeRawFlowEvent sample = Ok raw /\ raw_ok raw /\ encodeRawFlowEvent raw = sample
     else is_ok (decodeRawFlowEvent sample) = false).
Proof.
  split; [exact decode_encode|]. intros sample Hb.
  destruct (decide _) as [E|E]; [by apply encode_decode|].
  unfold decodeRawFlowEvent. change rawFlowEvent_size with 82%nat.
  apply Nat.eqb_neq in E. by rewrite E.
Qed.

(** ** Addresses the collectors print *)

Lemma ip_String_ok4 l : byte_list 4 l -> ParseAddr (ip_String l) = Ok (Addr4 (be l)).
Proof.
  intros [Hl Hb]. unfold ip_String, To4. rewrite Hl. cbn [Nat.eqb].
  apply be_range in Hb. rewrite Hl in Hb. apply ParseAddr_AddrString; [simpl; lia|done].
Qed.

Lemma ip_String_ok16 l :
  byte_list 16 l ->
  ParseAddr (ip_String l)
  = Ok (if isSome (To4 l) then Addr4 (be (drop 12 l)) else Addr6 (be l) "").
Proof.
  intros [Hl Hb]. unfold ip_String, To4. rewrite Hl. cbn [Nat.eqb andb].
  destruct (bool_decide _); cbn [isSome].
  - apply ParseAddr_AddrString; [|done]. apply (Forall_drop _ 12), be_range in Hb.
    rewrite length_drop, Hl in Hb. simpl in *. lia.
  - apply ParseAddr_AddrString; [|done]. apply be_range in Hb. rewrite Hl in Hb. simpl. lia.
Qed.

Lemma ip_String_ok l : byte_list 4 l \/ byte_list 16 l -> ip_ok (ip_String l).
Proof. intros [H|H]; [apply ip_String_ok4 in H|apply ip_String_ok16 in H]; by eexists. Qed.

Lemma socketIP_ok value family : byte_list 16 value -> ip_ok (socketIP value family).
Proof.
  intros [Hl Hb]. unfold socketIP. destruct (_ =? _); apply ip_String_ok; [by right|left].
  split; [rewrite length_take; lia|by apply Forall_take].
Qed.

(** Only samples of the record's size are decoded. *)
Lemma collect_size c now sample e : collect c now sample = Ok e -> length sample = 82%nat.
Proof.
  unfold collect, decodeRawFlowEvent. change rawFlowEvent_size with 82%nat.
  destruct (Nat.eqb_spec (length sample) 82); [done|]. by cbn [negb rbind].
Qed.

(** What [identity.Collect] gives the collectors. *)
Record registration_ok (r : Registration) : Prop := {
  reg_agent : TrimSpace (RAgentID r) <> "";
  reg_ips : Forall ip_ok (PrivateIPs r)
}.

Lemma ParseIP_bytes s ip : ParseIP s = Some ip -> byte_list 16 ip.
Proof.
  unfold ParseIP. destruct (ParseAddr s) as [a|]; [|done]. destruct (hasZone a); [done|].
  intros E. apply (inj Some) in E as <-. apply As16_ok.
Qed.

Lemma fallbackSource_ok c family :
  registration_ok (registration c) -> fallbackSource c family <> "" -> ip_ok (fallbackSource c family).
Proof.
  intros [_ Hr]. unfold fallbackSource. destruct (family =? 10).
  - induction (Interfaces (registration c)) as [|i l IH]; [done|]. simpl.
    destruct (ParseIP (IPAddress i)) as [ip|] eqn:E; [|done].
    destruct (_ && _); [|done]. intros _. apply ip_String_ok. right. by eapply ParseIP_bytes.
  - destruct (PrivateIPs (registration c)); [done|]. intros _. by apply Forall_cons in Hr as [? _].
Qed.

Lemma source_ip_ok c raw :
  registration_ok (registration c) -> raw_ok raw -> ip_ok (source_ip c raw).
Proof.
  intros Hc Hr. unfold source_ip. pose proof (socketIP_ok _ (Family raw) (raw_src _ Hr)).
  destruct (match ParseIP (socketIP (SrcAddr raw) (Family raw)) with
            | None => true | Some p => ip_IsUnspecified p end); [|done].
  destruct (negb _) eqn:E; [|done]. bools. by apply fallbackSource_ok.
Qed.

(** The eBPF collector only emits well-formed events.  From any ring
    buffer sample of 82 bytes, on a registered host, the reading goroutine
    produces an event with a non-empty agent, parseable addresses, ports in
    range (0 for ICMP), a known protocol and direction, non-negative counts
    below 2^32 apart from the bytes, and ordered timestamps. *)
Theorem collector_events_ok (c : EBPFCollector) (now : time) (sample : list Z) :
  registration_ok (registration c) -> 0 < now ->
  length sample = 82%nat -> Forall byte_ok sample ->
  exists e, collect c now sample = Ok e /\ event_ok e /\
    (Pipeline.Protocol e = Classification.ProtocolICMP -> Pipeline.SrcPort e = 0 /\ Pipeline.DstPort e = 0) /\
    in_u32 (Pipeline.PacketCount e) /\ in_u32 (Pipeline.ConnectionCount e) /\
    in_u32 (Pipeline.ErrorCount e) /\ in_u32 (Pipeline.RetransmissionCount e) /\
    Pipeline.RequestCount e = 0.
Proof.
  intros Hc Hnow Hl Hb. destruct (encode_decode sample Hl Hb) as (raw & E & Hr & _).
  unfold collect. rewrite E. cbn [rbind]. eexists. split; [done|].
  pose proof (raw_sport _ Hr). pose proof (raw_dport _ Hr).
  unfold convert, Classification.NormalizePorts.
  assert (Hp : protocol_ok (raw_protocol raw)).
  { unfold raw_protocol, protocol_ok. repeat case_match; auto. }
  split; [split|split_and!]; destruct (String.eqb_spec (raw_protocol raw) Classification.ProtocolICMP);
    cbn; try (apply Hc || apply Hr || done || by apply source_ip_ok || by apply socketIP_ok, Hr);
    try (unfold port_ok, in_u16 in *; lia).
  - unfold direction_ok, Direction.FromKernel. case_match; auto.
  - unfold direction_ok, Direction.FromKernel. case_match; auto.
Qed.

(** ** ICMP packets *)

Lemma index_lt packet i : (i < length packet)%nat -> exists b, index packet i = Some b.
Proof. intros H. unfold index. destruct (lookup_lt_is_Some_2 packet i H) as [b Hb]. eauto. Qed.

Lemma slice_ok packet i j :
  (i <= j <= length packet)%nat -> exists l, slice packet i j = Some l /\ length l = (j - i)%nat /\
    (Forall byte_ok packet -> Forall byte_ok l).
Proof.
  intros H. unfold slice. rewrite (proj2 (Nat.leb_le i j)), (proj2 (Nat.leb_le j _)) by lia. simpl.
  eexists. split; [done|]. rewrite length_take, length_drop. split; [lia|].
  auto using Forall_take, Forall_drop.
Qed.

Ltac index_at i :=
  match goal with |- context [index ?p i] =>
    destruct (index_lt p i ltac:(lia)) as [? ->]; cbn [mbind option_bind] end.
Ltac slice_at i j :=
  match goal with |- context [slice ?p i j] =>
    destruct (slice_ok p i j ltac:(lia)) as (? & -> & ? & ?); cbn [mbind option_bind] end.

(** The header parsers do not panic and print parseable addresses. *)
Lemma parseIPv4ICMP_safe packet :
  Forall byte_ok packet ->
  exists s d, parseIPv4ICMP packet = Some (s, d) /\ (s = "" /\ d = "" \/ ip_ok s /\ ip_ok d).
Proof.
  intros Hb. unfold parseIPv4ICMP. destruct (Nat.ltb_spec (length packet) 20); [eauto 6|].
  index_at 0%nat. destruct (negb _); [eauto 6|]. destruct (_ || _); [eauto 6|].
  index_at 9%nat. destruct (negb _); [eauto 6|]. slice_at 12%nat 16%nat. slice_at 16%nat 20%nat.
  eexists _, _. split; [done|]. right.
  split; apply ip_String_ok; left; split; auto.
Qed.

Lemma parseIPv6ICMP_safe packet :
  Forall byte_ok packet ->
  exists s d, parseIPv6ICMP packet = Some (s, d) /\ (s = "" /\ d = "" \/ ip_ok s /\ ip_ok d).
Proof.
  intros Hb. unfold parseIPv6ICMP. destruct (Nat.ltb_spec (length packet) 40); [eauto 6|].
  index_at 0%nat. destruct (negb _); [eauto 6|].
  index_at 6%nat. destruct (negb _); [eauto 6|]. slice_at 8%nat 24%nat. slice_at 24%nat 40%nat.
  eexists _, _. split; [done|]. right.
  split; apply ip_String_ok; right; split; auto.
Qed.

(** [parse] never indexes out of range. *)
Lemma icmp_parse_total reg iface now packet pkttype : Forall byte_ok packet -> is_Some (icmp_parse reg iface now packet pkttype).
Proof.
  intros Hb. unfold icmp_parse, ethernetHeaderLen.
  destruct (Nat.ltb_spec (length packet) 14); [done|]. slice_at 12%nat 14%nat.
  destruct (slice_ok packet 14 (length packet) ltac:(lia)) as (body & -> & _ & Hbody).
  cbn [mbind option_bind].
  destruct (_ =? ethPIP); [|destruct (_ =? ethPIPv6); [|done]].
  1: destruct (parseIPv4ICMP_safe body (Hbody Hb)) as (s & d & -> & _).
  2: destruct (parseIPv6ICMP_safe body (Hbody Hb)) as (s & d & -> & _).
  all: cbn; repeat case_match; done.
Qed.

(** The ICMP collector survives any packet.  Whatever bytes the packet
    socket delivers, [parse] does not index out of range; it either skips
    the packet or produces a well-formed ICMP event that counts one packet,
    one request and the bytes of the frame, with ports 0. *)
Theorem icmp_parse_safe (reg : Registration) (iface : string) (now : time)
    (packet : list Z) (pkttype : option Z) :
  registration_ok reg -> 0 < now -> Forall byte_ok packet ->
  exists r, icmp_parse reg iface now packet pkttype = Some r /\
    match r with
    | None => True
    | Some e => event_ok e /\ Pipeline.Protocol e = Classification.ProtocolICMP /\
        Pipeline.ByteCount e = Z.of_nat (length packet) /\ Pipeline.PacketCount e = 1 /\
        Pipeline.RequestCount e = 1 /\ Pipeline.SrcPort e = 0 /\ Pipeline.DstPort e = 0
    end.
Proof.
  intros Hreg Hnow Hb. unfold icmp_parse, ethernetHeaderLen.
  destruct (Nat.ltb_spec (length packet) 14); [by exists None|]. slice_at 12%nat 14%nat.
  destruct (slice_ok packet 14 (length packet) ltac:(lia)) as (body & -> & _ & Hbody).
  cbn [mbind option_bind].
  set (ips := if _ =? ethPIP then _ else _).
  assert (Hips : exists r, ips = Some r /\
    match r with None => True | Some (s, d) => s = "" /\ d = "" \/ ip_ok s /\ ip_ok d end).
  { subst ips. destruct (_ =? ethPIP); [|destruct (_ =? ethPIPv6); [|by exists None]].
    - destruct (parseIPv4ICMP_safe body (Hbody Hb)) as (s & d & -> & Hsd). eexists. split; [done|exact Hsd].
    - destruct (parseIPv6ICMP_safe body (Hbody Hb)) as (s & d & -> & Hsd). eexists. split; [done|exact Hsd]. }
  destruct Hips as (r & -> & Hr). cbn [mbind option_bind]. destruct r as [[s d]|]; [|by exists None].
  destruct (String.eqb_spec s ""); [by exists None|]. destruct (String.eqb_spec d ""); [by exists None|]. cbn [orb].
  destruct Hr as [[? ?]|[Hs Hd]]; [done|].
  destruct (match pkttype with Some t => t =? packetOutgoing | None => false end); cbn;
    eexists; (split; [done|]); (split; [|done]); split; cbn; try done; try apply Hreg;
    unfold port_ok, protocol_ok, direction_ok; auto; lia.
Qed.

(** * Concrete samples *)

Definition sample_registration : Registration :=
  {| RAgentID := "agent-1"; Hostname := "web"; MachineID := "m-1"; TenantID := ""; PrivateIPs := ["10.0.0.5"];
     PublicIP := None; MACAddresses := []; Interfaces := []; OS := "linux"; KernelVersion := "6.8";
     AgentVersion := "dev"; Environment := "" |}.
Definition sample_raw : rawFlowEvent :=
  {| TimestampNS := 7; RBytes := 1500; SrcAddr := [10; 0; 0; 5] ++ repeat 0 12;
     DstAddr := [10; 0; 0; 9] ++ repeat 0 12; Connections := 1; RSrcPort := 40000; RDstPort := 443; Family := 4;
     RProtocol := 6; RDirection := 1; RPackets := 3; RErrorCount := 0; Retransmits := 0; RTTUS := 250;
     AppDelayUS := 0; RHTTPStatus := 200 |}.

Lemma sample_registration_ok : registration_ok sample_registration.
Proof. split; [vm_compute; discriminate|]. constructor; [|constructor]. eexists. vm_compute. reflexivity. Qed.

Lemma raw_event_roundtrip_witness :
  decodeRawFlowEvent (encodeRawFlowEvent sample_raw) = Ok sample_raw.
Proof.
  apply (proj1 raw_event_roundtrip). split; try (vm_compute; intuition discriminate); vm_compute; repeat constructor;
    discriminate.
Defined.

Lemma collector_events_ok_witness :
  exists e, collect {| registration := sample_registration; ifaceName := "eth0" |} 1000000 (repeat 1 82) = Ok e /\
    event_ok e.
Proof.
  destruct (collector_events_ok {| registration := sample_registration; ifaceName := "eth0" |} 1000000 (repeat 1 82))
    as (e & He & Hok & _).
  - apply sample_registration_ok.
  - reflexivity.
  - reflexivity.
  - repeat constructor; discriminate.
  - by exists e.
Defined.

(** An Ethernet frame with an IPv4 header and an echo request. *)
Definition sample_frame : list Z :=
  repeat 0 12 ++ [8; 0] ++ [69; 0; 0; 28; 0; 0; 0; 0; 64; 1; 0; 0; 10; 0; 0; 5; 10; 0; 0; 9] ++ [8; 0; 0; 0; 0; 0; 0; 0].

Lemma icmp_parse_safe_witness :
  exists e, icmp_parse sample_registration "eth0" 1000000 sample_frame None = Some (Some e) /\ event_ok e.
Proof.
  destruct (icmp_parse_safe sample_registration "eth0" 1000000 sample_frame None) as (r & Hr & Hok).
  - apply sample_registration_ok.
  - reflexivity.
  - repeat constructor; discriminate.
  - destruct r as [e|]; [exists e; split; [exact Hr|apply Hok]|]. exfalso. vm_compute in Hr. discriminate.
Defined.
