(* ===== verification/Kernel.v ===== *)
(** The kernel programs of the agent: [flow_tracker.bpf.c] with the headers it
    includes, under [agent/internal/features] and [agent/internal/shared/bpf].

    A program is a function on the BPF maps and the ring buffer ([Maps]); what
    it asks the kernel for (clock readings, the running thread, kernel memory,
    whether the ring buffer has room and a map takes an entry) is its [Ctx].
    [struct flow_event] is [Collector.rawFlowEvent]: the C and the Go struct
    have the same fields in the same order.  Addresses are bytes in memory
    order, which is how the C code moves them.

    The least-recently-used maps may lose any entry at any time ([step]). *)
From S2P Require Import Prelude GoStrings GoFloat GoTime Reducers Netip AgentFlow Collector.

#[local] Open Scope Z_scope.

(** ** Constants: flow_defs.h *)

Definition DIR_INGRESS : Z := 1.
Definition DIR_EGRESS : Z := 2.
Definition IPPROTO_TCP_VALUE : Z := 6.
Definition IPPROTO_UDP_VALUE : Z := 17.
Definition IPPROTO_ICMP_VALUE : Z := 1.
Definition IPPROTO_ICMPV6_VALUE : Z := 58.
Definition AF_INET_VALUE : Z := 2.
Definition AF_INET6_VALUE : Z := 10.
Definition ETH_P_IP_VALUE : Z := 2048.
Definition ETH_P_IPV6_VALUE : Z := 34525.
Definition ETH_HEADER_LEN : nat := 14.
Definition ETH_PROTOCOL_OFFSET : nat := 12.
Definition IPV4_MIN_HEADER_LEN : Z := 20.
Definition IPV4_PROTOCOL_OFFSET : nat := 9.
Definition IPV4_SRC_OFFSET : nat := 12.
Definition IPV4_DST_OFFSET : nat := 16.
Definition IPV6_HEADER_LEN : nat := 40.
Definition IPV6_NEXT_HEADER_OFFSET : nat := 6.
Definition IPV6_SRC_OFFSET : nat := 8.
Definition IPV6_DST_OFFSET : nat := 24.
Definition TCP_FLAGS_OFFSET : nat := 13.
Definition TCP_SYN : Z := 2.
Definition TCP_RST : Z := 4.
Definition TCP_ACK : Z := 16.

(** ** Maps: flow_maps.h, delay.bpf.h, rtt.bpf.h *)

Inductive Stat :=
| SEEN | EMITTED | ETH_READ_FAIL | ETH_UNSUPPORTED | IPV4_READ_FAIL | IPV4_INVALID | IPV6_READ_FAIL
| IP_PROTOCOL_UNSUPPORTED | TRANSPORT_READ_FAIL | TCP_READ_FAIL | RINGBUF_FULL | PORT_IGNORED.
#[export] Instance Stat_dec : EqDecision Stat.
Proof. solve_decision. Defined.

(** [events] are the records submitted so far, oldest first; [capture_stats] is
    the total over the CPUs of the per-CPU array of counters. *)
Record Maps := {
  events : list rawFlowEvent; capture_stats : Stat -> Z; ignored_ports : gset Z;
  pending_io : gmap Z rawFlowEvent; app_delay_start : gmap Z Z; app_delay_recv_sock : gmap Z Z;
  rtt_last_emit : gmap Z Z
}.

Definition with_events (m : Maps) (l : list rawFlowEvent) : Maps :=
  {| events := l; capture_stats := capture_stats m; ignored_ports := ignored_ports m; pending_io := pending_io m;
     app_delay_start := app_delay_start m; app_delay_recv_sock := app_delay_recv_sock m; rtt_last_emit := rtt_last_emit m |}.
Definition with_pending (m : Maps) (p : gmap Z rawFlowEvent) : Maps :=
  {| events := events m; capture_stats := capture_stats m; ignored_ports := ignored_ports m; pending_io := p;
     app_delay_start := app_delay_start m; app_delay_recv_sock := app_delay_recv_sock m; rtt_last_emit := rtt_last_emit m |}.
Definition with_start (m : Maps) (p : gmap Z Z) : Maps :=
  {| events := events m; capture_stats := capture_stats m; ignored_ports := ignored_ports m; pending_io := pending_io m;
     app_delay_start := p; app_delay_recv_sock := app_delay_recv_sock m; rtt_last_emit := rtt_last_emit m |}.
Definition with_recv (m : Maps) (p : gmap Z Z) : Maps :=
  {| events := events m; capture_stats := capture_stats m; ignored_ports := ignored_ports m; pending_io := pending_io m;
     app_delay_start := app_delay_start m; app_delay_recv_sock := p; rtt_last_emit := rtt_last_emit m |}.
Definition with_rtt (m : Maps) (p : gmap Z Z) : Maps :=
  {| events := events m; capture_stats := capture_stats m; ignored_ports := ignored_ports m; pending_io := pending_io m;
     app_delay_start := app_delay_start m; app_delay_recv_sock := app_delay_recv_sock m; rtt_last_emit := p |}.

Definition count_capture_stat (key : Stat) (m : Maps) : Maps :=
  {| events := events m;
     capture_stats := fun s => if decide (s = key) then u64 (capture_stats m s + 1) else capture_stats m s;
     ignored_ports := ignored_ports m; pending_io := pending_io m; app_delay_start := app_delay_start m;
     app_delay_recv_sock := app_delay_recv_sock m; rtt_last_emit := rtt_last_emit m |}.
Definition submit (e : rawFlowEvent) (m : Maps) : Maps := with_events m (events m ++ [e]).

(** The maps after loading, with the ports the agent configures. *)
Definition loaded (ports : gset Z) : Maps :=
  {| events := []; capture_stats := fun _ => 0; ignored_ports := ports; pending_io := ∅; app_delay_start := ∅;
     app_delay_recv_sock := ∅; rtt_last_emit := ∅ |}.

(** ** What a program asks the kernel for *)

(** The fields of [struct sock] and [struct tcp_sock] the programs read. *)
Record Sock := {
  skc_family : Z; skc_rcv_saddr : list Z; skc_daddr : list Z; skc_v6_rcv_saddr : list Z; skc_v6_daddr : list Z;
  skc_num : Z; skc_dport : Z; srtt_us : Z
}.

(** [ktime] are the successive readings of [bpf_ktime_get_ns], [sock_at]
    kernel memory as [BPF_CORE_READ] reads it, [room] whether
    [bpf_ringbuf_reserve] succeeds and [stores] whether
    [bpf_map_update_elem] does. *)
Record Ctx := { ktime : nat -> Z; pid_tgid : Z; sock_at : Z -> Sock; room : bool; stores : bool }.

Record SkBuff := { skb_data : list Z; skb_len : Z }.

(** ** Events *)

(** The event after [__builtin_memset] with zero. *)
Definition zero_event : rawFlowEvent :=
  {| TimestampNS := 0; RBytes := 0; SrcAddr := repeat 0 16; DstAddr := repeat 0 16; Connections := 0; RSrcPort := 0;
     RDstPort := 0; Family := 0; RProtocol := 0; RDirection := 0; RPackets := 0; RErrorCount := 0; Retransmits := 0;
     RTTUS := 0; AppDelayUS := 0; RHTTPStatus := 0 |}.

Definition set_time (now : Z) (e : rawFlowEvent) : rawFlowEvent :=
  Build_rawFlowEvent now (RBytes e) (SrcAddr e) (DstAddr e) (Connections e) (RSrcPort e) (RDstPort e) (Family e) (RProtocol e)
    (RDirection e) (RPackets e) (RErrorCount e) (Retransmits e) (RTTUS e) (AppDelayUS e) (RHTTPStatus e).
Definition set_bytes (bytes : Z) (e : rawFlowEvent) : rawFlowEvent :=
  Build_rawFlowEvent (TimestampNS e) bytes (SrcAddr e) (DstAddr e) (Connections e) (RSrcPort e) (RDstPort e) (Family e) (RProtocol e)
    (RDirection e) (RPackets e) (RErrorCount e) (Retransmits e) (RTTUS e) (AppDelayUS e) (RHTTPStatus e).
Definition set_addrs (src dst : list Z) (e : rawFlowEvent) : rawFlowEvent :=
  Build_rawFlowEvent (TimestampNS e) (RBytes e) src dst (Connections e) (RSrcPort e) (RDstPort e) (Family e) (RProtocol e)
    (RDirection e) (RPackets e) (RErrorCount e) (Retransmits e) (RTTUS e) (AppDelayUS e) (RHTTPStatus e).
Definition set_ports (src dst : Z) (e : rawFlowEvent) : rawFlowEvent :=
  Build_rawFlowEvent (TimestampNS e) (RBytes e) (SrcAddr e) (DstAddr e) (Connections e) src dst (Family e) (RProtocol e)
    (RDirection e) (RPackets e) (RErrorCount e) (Retransmits e) (RTTUS e) (AppDelayUS e) (RHTTPStatus e).
Definition set_kind (family protocol direction : Z) (e : rawFlowEvent) : rawFlowEvent :=
  Build_rawFlowEvent (TimestampNS e) (RBytes e) (SrcAddr e) (DstAddr e) (Connections e) (RSrcPort e) (RDstPort e) family protocol
    direction (RPackets e) (RErrorCount e) (Retransmits e) (RTTUS e) (AppDelayUS e) (RHTTPStatus e).
Definition set_status (status : Z) (e : rawFlowEvent) : rawFlowEvent :=
  Build_rawFlowEvent (TimestampNS e) (RBytes e) (SrcAddr e) (DstAddr e) (Connections e) (RSrcPort e) (RDstPort e) (Family e) (RProtocol e)
    (RDirection e) (RPackets e) (RErrorCount e) (Retransmits e) (RTTUS e) (AppDelayUS e) status.
Definition set_marks (connections errors : Z) (e : rawFlowEvent) : rawFlowEvent :=
  Build_rawFlowEvent (TimestampNS e) (RBytes e) (SrcAddr e) (DstAddr e) connections (RSrcPort e) (RDstPort e) (Family e) (RProtocol e)
    (RDirection e) (RPackets e) errors (Retransmits e) (RTTUS e) (AppDelayUS e) (RHTTPStatus e).
Definition set_tcp (retransmissions rtt_us app_delay_us : Z) (e : rawFlowEvent) : rawFlowEvent :=
  Build_rawFlowEvent (TimestampNS e) (RBytes e) (SrcAddr e) (DstAddr e) (Connections e) (RSrcPort e) (RDstPort e) (Family e) (RProtocol e)
    (RDirection e) (RPackets e) (RErrorCount e) retransmissions rtt_us app_delay_us (RHTTPStatus e).
Definition count_packet (e : rawFlowEvent) : rawFlowEvent :=
  Build_rawFlowEvent (TimestampNS e) (RBytes e) (SrcAddr e) (DstAddr e) (Connections e) (RSrcPort e) (RDstPort e) (Family e) (RProtocol e)
    (RDirection e) 1 (RErrorCount e) (Retransmits e) (RTTUS e) (AppDelayUS e) (RHTTPStatus e).

(** ** Packets *)

Section packets.
Context (data : list Z).

(** packet_reader.bpf.h: [data] are the bytes from [skb->data] to
    [skb->data_end]. *)
Definition read_packet_bytes (offset size : nat) : option (list Z) :=
  if (length data <? offset + size)%nat then None else Some (take size (drop offset data)).
Definition read_packet_byte (offset : nat) : option Z := default 0 ∘ head <$> read_packet_bytes offset 1.
(** A [__u16] read from the packet and passed to [bpf_ntohs]. *)
Definition read_packet_be16 (offset : nat) : option Z := be <$> read_packet_bytes offset 2.

(** network_parser.bpf.h: the metadata, or the counter of the failure. *)
Record network_metadata := { l4_offset : nat; src_addr : list Z; dst_addr : list Z; family : Z; protocol : Z }.

Definition is_supported_ip_protocol (protocol : Z) : bool :=
  (protocol =? IPPROTO_TCP_VALUE) || (protocol =? IPPROTO_UDP_VALUE) || (protocol =? IPPROTO_ICMP_VALUE)
  || (protocol =? IPPROTO_ICMPV6_VALUE).

Definition store_ipv4_address (value : list Z) : list Z := value ++ repeat 0 12.

Definition parse_ipv4_metadata (l3_offset : nat) : network_metadata + Stat :=
  match read_packet_byte l3_offset, read_packet_byte (l3_offset + IPV4_PROTOCOL_OFFSET) with
  | Some version_ihl, Some protocol =>
      if negb (Z.shiftr version_ihl 4 =? 4) then inr IPV4_INVALID
      else
        let ihl := u8 (Z.land version_ihl 15 * 4) in
        if ihl <? IPV4_MIN_HEADER_LEN then inr IPV4_INVALID
        else if negb (is_supported_ip_protocol protocol) then inr IP_PROTOCOL_UNSUPPORTED
        else match read_packet_bytes (l3_offset + IPV4_SRC_OFFSET) 4, read_packet_bytes (l3_offset + IPV4_DST_OFFSET) 4 with
             | Some saddr, Some daddr =>
                 inl {| l4_offset := l3_offset + Z.to_nat ihl; src_addr := store_ipv4_address saddr;
                        dst_addr := store_ipv4_address daddr; family := AF_INET_VALUE; protocol := protocol |}
             | _, _ => inr IPV4_READ_FAIL
             end
  | _, _ => inr IPV4_READ_FAIL
  end.

Definition parse_ipv6_metadata (l3_offset : nat) : network_metadata + Stat :=
  match read_packet_byte (l3_offset + IPV6_NEXT_HEADER_OFFSET) with
  | None => inr IPV6_READ_FAIL
  | Some protocol =>
      if negb (is_supported_ip_protocol protocol) then inr IP_PROTOCOL_UNSUPPORTED
      else match read_packet_bytes (l3_offset + IPV6_SRC_OFFSET) 16, read_packet_bytes (l3_offset + IPV6_DST_OFFSET) 16 with
           | Some src, Some dst =>
               inl {| l4_offset := l3_offset + IPV6_HEADER_LEN; src_addr := src; dst_addr := dst;
                      family := AF_INET6_VALUE; protocol := protocol |}
           | _, _ => inr IPV6_READ_FAIL
           end
  end.

Definition parse_network_metadata : network_metadata + Stat :=
  match read_packet_be16 ETH_PROTOCOL_OFFSET with
  | None => inr ETH_READ_FAIL
  | Some eth_proto =>
      if eth_proto =? ETH_P_IP_VALUE then parse_ipv4_metadata ETH_HEADER_LEN
      else if eth_proto =? ETH_P_IPV6_VALUE then parse_ipv6_metadata ETH_HEADER_LEN
      else inr ETH_UNSUPPORTED
  end.

(** transport_parser.bpf.h *)
Record transport_metadata := { src_port : Z; dst_port : Z; tcp_flags : Z }.

Definition parse_transport_metadata (l4_offset : nat) (protocol : Z) : transport_metadata + Stat :=
  if negb (protocol =? IPPROTO_TCP_VALUE) && negb (protocol =? IPPROTO_UDP_VALUE)
  then inl {| src_port := 0; dst_port := 0; tcp_flags := 0 |}
  else match read_packet_be16 l4_offset, read_packet_be16 (l4_offset + 2) with
       | Some sport, Some dport =>
           if protocol =? IPPROTO_TCP_VALUE
           then match read_packet_byte (l4_offset + TCP_FLAGS_OFFSET) with
                | Some flags => inl {| src_port := sport; dst_port := dport; tcp_flags := flags |}
                | None => inr TCP_READ_FAIL
                end
           else inl {| src_port := sport; dst_port := dport; tcp_flags := 0 |}
       | _, _ => inr TRANSPORT_READ_FAIL
       end.

(** application/http/status.bpf.h *)
Definition TCP_DATA_OFFSET_FIELD : nat := 12.
Definition HTTP_STATUS_PREFIX_LEN : nat := 9.
Definition HTTP_STATUS_DIGITS : nat := 3.

Definition tcp_header_length (l4_offset : nat) : Z :=
  match read_packet_byte (l4_offset + TCP_DATA_OFFSET_FIELD) with
  | None => 0
  | Some data_offset =>
      let length := Z.shiftr data_offset 4 * 4 in
      if (length <? 20) || (60 <? length) then 0 else length
  end.

Definition is_http_response_prefix (prefix : list Z) : bool :=
  match prefix with
  | [p0; p1; p2; p3; p4; p5; p6; p7; p8] =>
      (p0 =? 72) && (p1 =? 84) && (p2 =? 84) && (p3 =? 80) && (p4 =? 47) && (p5 =? 49) && (p6 =? 46)
      && (48 <=? p7) && (p7 <=? 57) && (p8 =? 32)
  | _ => false
  end.

(** The loop over the digits; [None] is its early return. *)
Fixpoint status_digits (digits : list Z) (status : Z) : option Z :=
  match digits with
  | [] => Some status
  | d :: rest => if (d <? 48) || (57 <? d) then None else status_digits rest (u16 (status * 10 + (d - 48)))
  end.

Definition http_response_status (l4_offset : nat) (protocol : Z) : Z :=
  if negb (protocol =? IPPROTO_TCP_VALUE) then 0
  else
    let header_length := tcp_header_length l4_offset in
    if header_length =? 0 then 0
    else
      let payload_offset := (l4_offset + Z.to_nat header_length)%nat in
      match read_packet_bytes payload_offset HTTP_STATUS_PREFIX_LEN with
      | None => 0
      | Some prefix =>
          if negb (is_http_response_prefix prefix) then 0
          else match read_packet_bytes (payload_offset + HTTP_STATUS_PREFIX_LEN) HTTP_STATUS_DIGITS with
               | None => 0
               | Some digits =>
                   match status_digits digits 0 with
                   | None => 0
                   | Some status => if (status <? 100) || (599 <? status) then 0 else status
                   end
               end
      end.
End packets.

(** ** Capture at the traffic-control hooks *)

(** filter/port_filter.bpf.h *)
Definition ignored_port (m : Maps) (port : Z) : bool := if port =? 0 then false else bool_decide (port ∈ ignored_ports m).
Definition ignored_transport_ports (m : Maps) (protocol src_port dst_port : Z) : bool :=
  if negb (protocol =? IPPROTO_TCP_VALUE) && negb (protocol =? IPPROTO_UDP_VALUE) then false
  else ignored_port m src_port || ignored_port m dst_port.

(** connection/tcp_state.bpf.h and request_response.bpf.h *)
Definition tcp_is_connect_attempt (protocol tcp_flags : Z) : bool :=
  (protocol =? IPPROTO_TCP_VALUE) && negb (Z.land tcp_flags TCP_SYN =? 0) && (Z.land tcp_flags TCP_ACK =? 0).
Definition tcp_is_reset (protocol tcp_flags : Z) : bool :=
  (protocol =? IPPROTO_TCP_VALUE) && negb (Z.land tcp_flags TCP_RST =? 0).
Definition mark_tc_request_response (protocol tcp_flags : Z) (e : rawFlowEvent) : rawFlowEvent :=
  set_marks (if tcp_is_connect_attempt protocol tcp_flags then 1 else 0) (if tcp_is_reset protocol tcp_flags then 1 else 0) e.
Definition mark_connection (e : rawFlowEvent) : rawFlowEvent := set_marks 1 (RErrorCount e) e.

(** classification/ports.bpf.h *)
Definition set_directional_ports (direction src_port dst_port : Z) (e : rawFlowEvent) : rawFlowEvent :=
  if direction =? DIR_INGRESS then set_ports dst_port src_port e else set_ports src_port dst_port e.

(** traffic/packet/parser.bpf.h *)
Definition fill_directional_tuple (direction : Z) (src_addr dst_addr : list Z) (src_port dst_port : Z) (e : rawFlowEvent) : rawFlowEvent :=
  if direction =? DIR_INGRESS then set_directional_ports direction src_port dst_port (set_addrs dst_addr src_addr e)
  else set_directional_ports direction src_port dst_port (set_addrs src_addr dst_addr e).

Definition populate_tc_event (c : Ctx) (skb : SkBuff) (direction : Z) (network : network_metadata) (transport : transport_metadata)
    (http_status : Z) : rawFlowEvent :=
  let e := set_time (ktime c 0) zero_event in
  let e := set_bytes (skb_len skb) e in
  let e := set_kind (family network) (protocol network) direction e in
  let e := set_status http_status e in
  let e := count_packet e in
  let e := mark_tc_request_response (protocol network) (tcp_flags transport) e in
  fill_directional_tuple direction (src_addr network) (dst_addr network) (src_port transport) (dst_port transport) e.

Definition emit_tc_packet (c : Ctx) (skb : SkBuff) (direction : Z) (m : Maps) : Maps :=
  let m := count_capture_stat SEEN m in
  match parse_network_metadata (skb_data skb) with
  | inr stat => count_capture_stat stat m
  | inl network =>
      match parse_transport_metadata (skb_data skb) (l4_offset network) (protocol network) with
      | inr stat => count_capture_stat stat m
      | inl transport =>
          if ignored_transport_ports m (protocol network) (src_port transport) (dst_port transport)
          then count_capture_stat PORT_IGNORED m
          else
            let http_status := http_response_status (skb_data skb) (l4_offset network) (protocol network) in
            if negb (room c) then count_capture_stat RINGBUF_FULL m
            else count_capture_stat EMITTED (submit (populate_tc_event c skb direction network transport http_status) m)
      end
  end.
Definition tc_ingress (c : Ctx) (skb : SkBuff) (m : Maps) : Maps := emit_tc_packet c skb DIR_INGRESS m.
Definition tc_egress (c : Ctx) (skb : SkBuff) (m : Maps) : Maps := emit_tc_packet c skb DIR_EGRESS m.

(** ** Capture at the sockets *)

(** connection/socket_capture.bpf.h; the clock is read last.  [memcpy] of an
    IPv4 address leaves the other twelve bytes of the array. *)
Definition bswap16 (z : Z) : Z := Z.lor (u16 (Z.shiftl z 8)) (Z.shiftr z 8).

Definition socket_metadata (now : Z) (sk : Sock) (protocol direction : Z) (e : rawFlowEvent) : rawFlowEvent :=
  let e := if skc_family sk =? AF_INET6_VALUE
           then set_kind (skc_family sk) protocol direction (set_addrs (skc_v6_rcv_saddr sk) (skc_v6_daddr sk) e)
           else set_kind AF_INET_VALUE protocol direction
                  (set_addrs (skc_rcv_saddr sk ++ drop 4 (SrcAddr e)) (skc_daddr sk ++ drop 4 (DstAddr e)) e) in
  set_time now (set_ports (skc_num sk) (bswap16 (skc_dport sk)) e).

Definition emit_connection (c : Ctx) (sk : Z) (protocol direction : Z) (m : Maps) : Maps :=
  if negb (room c) then m
  else submit (mark_connection (socket_metadata (ktime c 0) (sock_at c sk) protocol direction zero_event)) m.

Definition remember_io (c : Ctx) (sk : Z) (protocol direction : Z) (m : Maps) : Maps :=
  if stores c then with_pending m (<[pid_tgid c := socket_metadata (ktime c 0) (sock_at c sk) protocol direction zero_event]> (pending_io m))
  else m.

(** [result] is the [int] the traced function returned. *)
Definition finish_io (c : Ctx) (result : Z) (m : Maps) : Maps :=
  match pending_io m !! pid_tgid c with
  | None => m
  | Some saved =>
      let m := if (0 <? result) && room c then submit (set_bytes result saved) m else m in
      with_pending m (delete (pid_tgid c) (pending_io m))
  end.

Definition trace_tcp_accept (c : Ctx) (sk : Z) (m : Maps) : Maps :=
  if sk =? 0 then m else emit_connection c sk IPPROTO_TCP_VALUE DIR_INGRESS m.

(** rtt/rtt.bpf.h *)
Definition RTT_EMIT_INTERVAL_NS : Z := 1000000000.
Definition tcp_smoothed_rtt_us (sk : Sock) : Z := Z.shiftr (srtt_us sk) 3.

Definition should_emit_rtt_sample (c : Ctx) (sk now_ns : Z) (m : Maps) : bool * Maps :=
  if match rtt_last_emit m !! sk with Some last => u64 (now_ns - last) <? RTT_EMIT_INTERVAL_NS | None => false end
  then (false, m)
  else (true, if stores c then with_rtt m (<[sk := now_ns]> (rtt_last_emit m)) else m).

Definition emit_tcp_rtt_sample (c : Ctx) (sk : Z) (m : Maps) : Maps :=
  if sk =? 0 then m
  else
    let rtt_us := tcp_smoothed_rtt_us (sock_at c sk) in
    if rtt_us =? 0 then m
    else
      let now_ns := ktime c 0 in
      match should_emit_rtt_sample c sk now_ns m with
      | (false, m) => m
      | (true, m) =>
          if negb (room c) then count_capture_stat RINGBUF_FULL m
          else submit (set_tcp 0 rtt_us 0 (set_time now_ns
                 (socket_metadata (ktime c 1) (sock_at c sk) IPPROTO_TCP_VALUE DIR_EGRESS zero_event))) m
      end.

(** retrans/retransmit.bpf.h *)
Definition emit_tcp_retransmission (c : Ctx) (sk : Z) (m : Maps) : Maps :=
  if sk =? 0 then m
  else if negb (room c) then count_capture_stat RINGBUF_FULL m
  else submit (set_tcp 1 (tcp_smoothed_rtt_us (sock_at c sk)) 0
         (socket_metadata (ktime c 0) (sock_at c sk) IPPROTO_TCP_VALUE DIR_EGRESS zero_event)) m.

(** application/delay/delay.bpf.h and delay.bpf.c *)
Definition APP_DELAY_MAX_US : Z := 60000000.

Definition mark_request_sent (c : Ctx) (sk : Z) (m : Maps) : Maps :=
  if sk =? 0 then m
  else match app_delay_start m !! sk with
       | Some _ => m
       | None => if stores c then with_start m (<[sk := ktime c 0]> (app_delay_start m)) else m
       end.

Definition take_response_delay_us (c : Ctx) (sk : Z) (m : Maps) : Z * Maps :=
  if sk =? 0 then (0, m)
  else match app_delay_start m !! sk with
       | None => (0, m)
       | Some started =>
           let now := ktime c 0 in
           let elapsed_ns := u64 (now - started) in
           let m := with_start m (delete sk (app_delay_start m)) in
           if now <? started then (0, m)
           else
             let elapsed_us := elapsed_ns / 1000 in
             if (elapsed_us =? 0) || (APP_DELAY_MAX_US <? elapsed_us) then (0, m) else (u32 elapsed_us, m)
       end.

Definition trace_tcp_delay_recv (c : Ctx) (sk : Z) (m : Maps) : Maps :=
  if sk =? 0 then m
  else if stores c then with_recv m (<[pid_tgid c := sk]> (app_delay_recv_sock m)) else m.

Definition trace_tcp_delay_recv_ret (c : Ctx) (result : Z) (m : Maps) : Maps :=
  match app_delay_recv_sock m !! pid_tgid c with
  | None => m
  | Some sk =>
      let m := with_recv m (delete (pid_tgid c) (app_delay_recv_sock m)) in
      if result <=? 0 then m
      else
        let '(delay_us, m) := take_response_delay_us c sk m in
        if delay_us =? 0 then m
        else if negb (room c) then count_capture_stat RINGBUF_FULL m
        else submit (set_tcp 0 0 delay_us
               (socket_metadata (ktime c 1) (sock_at c sk) IPPROTO_TCP_VALUE DIR_INGRESS zero_event)) m
  end.

(** ** The programs of flow_tracker.bpf.c *)

Inductive Program :=
| PIngress (skb : SkBuff) | PEgress (skb : SkBuff)
| PConnect (sk : Z) | PConnect6 (sk : Z) | PAccept (sk : Z)
| PTcpSend (sk : Z) | PTcpSendRet (result : Z) | PTcpRecv (sk : Z) | PTcpRecvRet (result : Z)
| PUdpSend (sk : Z) | PUdpSendRet (result : Z) | PUdpRecv (sk : Z) | PUdpRecvRet (result : Z)
| PRtt (sk : Z) | PRetransmit (sk : Z)
| PDelaySend (sk : Z) | PDelayRecv (sk : Z) | PDelayRecvRet (result : Z).

Definition exec (p : Program) (c : Ctx) (m : Maps) : Maps :=
  match p with
  | PIngress skb => tc_ingress c skb m
  | PEgress skb => tc_egress c skb m
  | PConnect sk | PConnect6 sk => emit_connection c sk IPPROTO_TCP_VALUE DIR_EGRESS m
  | PAccept sk => trace_tcp_accept c sk m
  | PTcpSend sk => remember_io c sk IPPROTO_TCP_VALUE DIR_EGRESS m
  | PTcpRecv sk => remember_io c sk IPPROTO_TCP_VALUE DIR_INGRESS m
  | PUdpSend sk => remember_io c sk IPPROTO_UDP_VALUE DIR_EGRESS m
  | PUdpRecv sk => remember_io c sk IPPROTO_UDP_VALUE DIR_INGRESS m
  | PTcpSendRet r | PTcpRecvRet r | PUdpSendRet r | PUdpRecvRet r => finish_io c r m
  | PRtt sk => emit_tcp_rtt_sample c sk m
  | PRetransmit sk => emit_tcp_retransmission c sk m
  | PDelaySend sk => mark_request_sent c sk m
  | PDelayRecv sk => trace_tcp_delay_recv c sk m
  | PDelayRecvRet r => trace_tcp_delay_recv_ret c r m
  end.

(** One step: a program runs, or a map makes room by forgetting an entry. *)
Inductive Label :=
| LRun (p : Program) (c : Ctx)
| LEvictIO (key : Z) | LEvictStart (key : Z) | LEvictRecv (key : Z) | LEvictRtt (key : Z).

Definition step (l : Label) (m : Maps) : Maps :=
  match l with
  | LRun p c => exec p c m
  | LEvictIO key => with_pending m (delete key (pending_io m))
  | LEvictStart key => with_start m (delete key (app_delay_start m))
  | LEvictRecv key => with_recv m (delete key (app_delay_recv_sock m))
  | LEvictRtt key => with_rtt m (delete key (rtt_last_emit m))
  end.

Definition trace (ls : list Label) (m : Maps) : Maps := foldl (fun m l => step l m) m ls.

(** * Facts *)

(** ** Reading packets *)

Lemma read_at data a b c : data = a ++ b ++ c -> read_packet_bytes data (length a) (length b) = Some b.
Proof.
  intros ->. unfold read_packet_bytes. destruct (Nat.ltb_spec (length (a ++ b ++ c)) (length a + length b)) as [H|_].
  - rewrite !length_app in H. lia.
  - by rewrite drop_app_length, take_app_length.
Qed.

Lemma read_in data off n a b c : data = a ++ b ++ c -> length a = off -> length b = n -> read_packet_bytes data off n = Some b.
Proof. intros E <- <-. by eapply read_at. Qed.

Lemma read_byte_in data off a x c : data = a ++ x :: c -> length a = off -> read_packet_byte data off = Some x.
Proof. intros E Ha. unfold read_packet_byte. by rewrite (read_in data off 1 a [x] c). Qed.

Lemma read_be16_in data off a b c : data = a ++ b ++ c -> length a = off -> length b = 2%nat -> read_packet_be16 data off = Some (be b).
Proof. intros E Ha Hb. unfold read_packet_be16. by rewrite (read_in data off 2 a b c). Qed.

Lemma read_packet_bytes_ok data off n l : Forall byte_ok data -> read_packet_bytes data off n = Some l -> byte_list n l.
Proof.
  unfold read_packet_bytes. destruct (Nat.ltb_spec (length data) (off + n)); [done|]. intros Hb [= <-]. split.
  - rewrite length_take, length_drop. lia.
  - by apply Forall_take, Forall_drop.
Qed.

Lemma read_packet_byte_ok data off x : Forall byte_ok data -> read_packet_byte data off = Some x -> byte_ok x.
Proof.
  unfold read_packet_byte. intros Hb (l & [Hl Hf]%(read_packet_bytes_ok _ _ _ _ Hb) & ->)%fmap_Some.
  destruct l as [|y l]; [done|]. by apply Forall_cons in Hf as [? _].
Qed.

Lemma read_packet_be16_ok data off x : Forall byte_ok data -> read_packet_be16 data off = Some x -> in_u16 x.
Proof.
  unfold read_packet_be16. intros Hb (l & [Hl Hf]%(read_packet_bytes_ok _ _ _ _ Hb) & ->)%fmap_Some.
  apply be_range in Hf. rewrite Hl in Hf. exact Hf.
Qed.

(** ** The HTTP status *)

(** What a TCP payload says: an HTTP/1.x status line with a status code in
    range, or nothing. *)
Definition digit (d : Z) : bool := (48 <=? d) && (d <=? 57).
Definition HTTP1 : list Z := map byteZ (bytes_of "HTTP/1.").
Definition status_line (payload : list Z) : Z :=
  if bool_decide (take 7 payload = HTTP1) then
    match drop 7 payload with
    | minor :: space :: a :: b :: c :: _ =>
        let status := (a - 48) * 100 + (b - 48) * 10 + (c - 48) in
        if digit minor && (space =? 32) && (digit a && digit b && digit c) && ((100 <=? status) && (status <=? 599)) then status else 0
    | _ => 0
    end
  else 0.

Lemma status_digits_3 a b c : status_digits [a; b; c] 0 =
  if digit a && digit b && digit c then Some ((a - 48) * 100 + (b - 48) * 10 + (c - 48)) else None.
Proof.
  cbn [status_digits]. unfold digit. rewrite !Z.ltb_antisym.
  destruct (Z.leb_spec 48 a), (Z.leb_spec a 57); cbn [negb andb orb]; try done.
  destruct (Z.leb_spec 48 b), (Z.leb_spec b 57); cbn [negb andb orb]; try done.
  destruct (Z.leb_spec 48 c), (Z.leb_spec c 57); cbn [negb andb orb]; try done.
  f_equal. unfold u16, wrapU. rewrite (Z.mod_small (0 * 10 + (a - 48))) by lia.
  rewrite (Z.mod_small ((0 * 10 + (a - 48)) * 10 + (b - 48))) by lia. rewrite Z.mod_small by lia. lia.
Qed.

Lemma prefix_spec p0 p1 p2 p3 p4 p5 p6 minor space :
  is_http_response_prefix [p0; p1; p2; p3; p4; p5; p6; minor; space] =
    bool_decide ([p0; p1; p2; p3; p4; p5; p6] = HTTP1) && (digit minor && (space =? 32)).
Proof.
  unfold digit. change HTTP1 with [72; 84; 84; 80; 47; 49; 46]. cbn [is_http_response_prefix].
  destruct (Z.eqb_spec p0 72), (Z.eqb_spec p1 84), (Z.eqb_spec p2 84), (Z.eqb_spec p3 80), (Z.eqb_spec p4 47), (Z.eqb_spec p5 49),
    (Z.eqb_spec p6 46); cbn [andb]; try (rewrite bool_decide_false by congruence; done).
  subst. rewrite bool_decide_true by done. by rewrite andb_assoc.
Qed.

(** The parser reads exactly the status line. *)
Lemma http_response_status_spec data off hl : tcp_header_length data off = hl -> hl <> 0 ->
  http_response_status data off IPPROTO_TCP_VALUE = status_line (drop (off + Z.to_nat hl) data).
Proof.
  intros Hh Hne. unfold http_response_status. rewrite Hh, (proj2 (Z.eqb_neq _ _) Hne). cbn [Z.eqb negb IPPROTO_TCP_VALUE Pos.eqb].
  set (o := (off + Z.to_nat hl)%nat). unfold read_packet_bytes, HTTP_STATUS_PREFIX_LEN, HTTP_STATUS_DIGITS, status_line.
  rewrite <- drop_drop. pose proof (length_drop data o) as Hl. set (p := drop o data) in *.
  assert (Hlen : (length data <? o + 9)%nat = (length p <? 9)%nat /\ (length data <? o + 9 + 3)%nat = (length p <? 12)%nat).
  { split; (destruct (Nat.ltb_spec (length p) 9), (Nat.ltb_spec (length p) 12); (apply Nat.ltb_lt || apply Nat.ltb_ge)); lia. }
  destruct Hlen as [-> ->]. clearbody p. clear Hl.
  do 9 (destruct p as [|? p]; [cbn; by case_bool_decide|]). cbn [length Nat.ltb Nat.leb take drop]. rewrite prefix_spec.
  case_bool_decide as Hb; cbn [andb negb]; [|done]. destruct (digit _ && (_ =? 32)) eqn:Em; cbn [andb negb].
  2: { do 3 (destruct p as [|? p]; [done|]). done. }
  do 3 (destruct p as [|? p]; [done|]). cbn [length Nat.ltb Nat.leb take drop]. rewrite status_digits_3.
  destruct (digit _ && digit _ && digit _); cbn [andb]; [|done]. rewrite !Z.ltb_antisym.
  destruct (_ <=? _), (_ <=? _); done.
Qed.

Lemma http_response_status_range data off proto : let status := http_response_status data off proto in status = 0 \/ 100 <= status <= 599.
Proof.
  cbv zeta. unfold http_response_status. repeat case_match; auto.
  match goal with H : _ || _ = false |- _ => apply orb_false_iff in H as [? ?] end. lia.
Qed.

(** ** Packets as they are on the wire *)

(** The network header of a packet: its fields in order, the ones no program
    reads as bytes. *)
Inductive L3 :=
| V4 (ihl : Z) (fields checksum src dst options : list Z)
| V6 (fields : list Z) (hop : Z) (src dst : list Z).
Inductive L4 :=
| TCP (sport dport : list Z) (seqack : list Z) (off reserved flags : Z) (rest : list Z)
| UDP (sport dport : list Z) (rest : list Z)
| ICMP (v6 : bool).

Definition l4_proto (t : L4) : Z :=
  match t with TCP _ _ _ _ _ _ _ => IPPROTO_TCP_VALUE | UDP _ _ _ => IPPROTO_UDP_VALUE
  | ICMP v6 => if v6 then IPPROTO_ICMPV6_VALUE else IPPROTO_ICMP_VALUE end.
Definition ethertype (h : L3) : list Z := match h with V4 _ _ _ _ _ _ => [8; 0] | V6 _ _ _ _ => [134; 221] end.
Definition l3_bytes (h : L3) (proto : Z) : list Z :=
  match h with
  | V4 ihl fields checksum src dst options => (64 + ihl) :: fields ++ proto :: checksum ++ src ++ dst ++ options
  | V6 fields hop src dst => fields ++ proto :: hop :: src ++ dst
  end.
Definition l4_bytes (t : L4) : list Z :=
  match t with
  | TCP sport dport seqack off reserved flags rest => sport ++ dport ++ seqack ++ (off * 16 + reserved) :: flags :: rest
  | UDP sport dport rest => sport ++ dport ++ rest
  | ICMP _ => []
  end.
Definition frame (macs : list Z) (h : L3) (t : L4) (payload : list Z) : list Z :=
  macs ++ ethertype h ++ l3_bytes h (l4_proto t) ++ l4_bytes t ++ payload.

Definition l3_ok (h : L3) : Prop :=
  match h with
  | V4 ihl fields checksum src dst options =>
      5 <= ihl <= 15 /\ length fields = 8%nat /\ length checksum = 2%nat /\ byte_list 4 src /\ byte_list 4 dst /\
      Z.of_nat (length options) = 4 * (ihl - 5)
  | V6 fields hop src dst => length fields = 6%nat /\ byte_list 16 src /\ byte_list 16 dst
  end.
Definition l4_ok (t : L4) : Prop :=
  match t with
  | TCP sport dport seqack off reserved flags rest =>
      byte_list 2 sport /\ byte_list 2 dport /\ length seqack = 8%nat /\ 5 <= off <= 15 /\ 0 <= reserved < 16 /\
      Z.of_nat (length rest) = 6 + 4 * (off - 5)
  | UDP sport dport rest => byte_list 2 sport /\ byte_list 2 dport
  | ICMP _ => True
  end.

Definition l3_src (h : L3) : list Z := match h with V4 _ _ _ src _ _ => store_ipv4_address src | V6 _ _ src _ => src end.
Definition l3_dst (h : L3) : list Z := match h with V4 _ _ _ _ dst _ => store_ipv4_address dst | V6 _ _ _ dst => dst end.
Definition l3_family (h : L3) : Z := match h with V4 _ _ _ _ _ _ => AF_INET_VALUE | V6 _ _ _ _ => AF_INET6_VALUE end.
Definition l4_sport (t : L4) : Z := match t with TCP p _ _ _ _ _ _ => be p | UDP p _ _ => be p | ICMP _ => 0 end.
Definition l4_dport (t : L4) : Z := match t with TCP _ p _ _ _ _ _ => be p | UDP _ p _ => be p | ICMP _ => 0 end.
Definition l4_flags (t : L4) : Z := match t with TCP _ _ _ _ _ flags _ => flags | _ => 0 end.
Definition l4_status (t : L4) (payload : list Z) : Z := match t with TCP _ _ _ _ _ _ _ => status_line payload | _ => 0 end.

Ltac flat := cbn [app]; repeat (progress (rewrite <- ?app_assoc; cbn [app])); reflexivity.
Ltac sized :=
  cbv delta [ETH_HEADER_LEN ETH_PROTOCOL_OFFSET IPV4_PROTOCOL_OFFSET IPV4_SRC_OFFSET IPV4_DST_OFFSET IPV6_NEXT_HEADER_OFFSET IPV6_SRC_OFFSET
    IPV6_DST_OFFSET IPV6_HEADER_LEN TCP_FLAGS_OFFSET TCP_DATA_OFFSET_FIELD];
  repeat (progress (rewrite ?length_app; cbn [length])); lia.

Lemma nibble_high hi lo : 0 <= lo < 16 -> Z.shiftr (hi * 16 + lo) 4 = hi.
Proof. intros Hlo. rewrite Z.shiftr_div_pow2 by lia. change (2 ^ 4) with 16. rewrite Z.div_add_l, (Z.div_small lo) by lia. lia. Qed.
Lemma nibble_low hi lo : 0 <= lo < 16 -> Z.land (hi * 16 + lo) 15 = lo.
Proof. intros Hlo. change 15 with (Z.ones 4). rewrite Z.land_ones by lia. change (2 ^ 4) with 16. rewrite Z.add_comm, Z.mod_add by lia. by apply Z.mod_small. Qed.

Lemma supported_proto t : is_supported_ip_protocol (l4_proto t) = true.
Proof. by destruct t as [| |[]]. Qed.

(** The network parser recovers the header. *)
Lemma parse_network_frame macs h t payload : length macs = 12%nat -> l3_ok h ->
  parse_network_metadata (frame macs h t payload) =
    inl {| l4_offset := 14 + length (l3_bytes h (l4_proto t)); src_addr := l3_src h; dst_addr := l3_dst h; family := l3_family h;
           protocol := l4_proto t |}.
Proof.
  intros Hm Hh. unfold parse_network_metadata. rewrite (read_be16_in _ _ macs (ethertype h) (l3_bytes h (l4_proto t) ++ l4_bytes t ++ payload));
    [|done|done|by destruct h]. pose proof (supported_proto t) as Hp. destruct h as [ihl fields checksum src dst options|fields hop src dst].
  - destruct Hh as (Hi & Hf & Hc & [Hs _] & [Hd _] & Ho). change (be _ =? ETH_P_IP_VALUE) with true. cbn iota. unfold frame, parse_ipv4_metadata.
    set (tail := l4_bytes t ++ payload). cbn [l3_bytes ethertype].
    rewrite (read_byte_in _ _ (macs ++ [8; 0]) (64 + ihl) (fields ++ l4_proto t :: checksum ++ src ++ dst ++ options ++ tail)); [|flat|sized].
    rewrite (read_byte_in _ _ (macs ++ [8; 0] ++ (64 + ihl) :: fields) (l4_proto t) (checksum ++ src ++ dst ++ options ++ tail)); [|flat|sized].
    replace (64 + ihl) with (4 * 16 + ihl) by lia. rewrite nibble_high, nibble_low by lia. cbn [Z.eqb negb Pos.eqb].
    unfold u8, wrapU, IPV4_MIN_HEADER_LEN. rewrite Z.mod_small by lia. destruct (Z.ltb_spec (ihl * 4) 20); [lia|]. rewrite Hp. cbn [negb].
    rewrite (read_in _ _ _ (macs ++ [8; 0] ++ (4 * 16 + ihl) :: fields ++ l4_proto t :: checksum) src (dst ++ options ++ tail)); [|flat|sized|done].
    rewrite (read_in _ _ _ (macs ++ [8; 0] ++ (4 * 16 + ihl) :: fields ++ l4_proto t :: checksum ++ src) dst (options ++ tail)); [|flat|sized|done].
    do 2 f_equal. sized.
  - destruct Hh as (Hf & [Hs _] & [Hd _]). change (be _ =? ETH_P_IP_VALUE) with false. change (be _ =? ETH_P_IPV6_VALUE) with true. cbn iota.
    unfold frame, parse_ipv6_metadata. set (tail := l4_bytes t ++ payload). cbn [l3_bytes ethertype].
    rewrite (read_byte_in _ _ (macs ++ [134; 221] ++ fields) (l4_proto t) (hop :: src ++ dst ++ tail)); [|flat|sized]. rewrite Hp. cbn [negb].
    rewrite (read_in _ _ _ (macs ++ [134; 221] ++ fields ++ [l4_proto t; hop]) src (dst ++ tail)); [|flat|sized|done].
    rewrite (read_in _ _ _ (macs ++ [134; 221] ++ fields ++ [l4_proto t; hop] ++ src) dst tail); [|flat|sized|done].
    do 2 f_equal. sized.
Qed.

(** The transport parser and the status reader, wherever the header starts. *)
Lemma parse_transport_at pre t payload : l4_ok t ->
  parse_transport_metadata (pre ++ l4_bytes t ++ payload) (length pre) (l4_proto t) =
    inl {| src_port := l4_sport t; dst_port := l4_dport t; tcp_flags := l4_flags t |}.
Proof.
  intros Ht. unfold parse_transport_metadata. destruct t as [sport dport seqack off reserved flags rest|sport dport rest|[]]; [| |done|done].
  - destruct Ht as ([Hs _] & [Hd _] & Hq & _). cbn [l4_proto Z.eqb Pos.eqb negb andb IPPROTO_TCP_VALUE l4_bytes].
    set (tail := seqack ++ (off * 16 + reserved) :: flags :: rest ++ payload).
    rewrite (read_be16_in _ _ pre sport (dport ++ tail)); [|unfold tail; flat|done|done].
    rewrite (read_be16_in _ _ (pre ++ sport) dport tail); [|unfold tail; flat|sized|done].
    rewrite (read_byte_in _ _ (pre ++ sport ++ dport ++ seqack ++ [off * 16 + reserved]) flags (rest ++ payload)); [done|flat|sized].
  - destruct Ht as ([Hs _] & [Hd _]). cbn [l4_proto Z.eqb Pos.eqb negb andb IPPROTO_TCP_VALUE IPPROTO_UDP_VALUE l4_bytes].
    rewrite (read_be16_in _ _ pre sport (dport ++ rest ++ payload)); [|flat|done|done].
    rewrite (read_be16_in _ _ (pre ++ sport) dport (rest ++ payload)); [done|flat|sized|done].
Qed.

Lemma http_status_at pre t payload : l4_ok t ->
  http_response_status (pre ++ l4_bytes t ++ payload) (length pre) (l4_proto t) = l4_status t payload.
Proof.
  intros Ht. destruct t as [sport dport seqack off reserved flags rest|sport dport rest|[]]; [|done|done|done].
  destruct Ht as ([Hs _] & [Hd _] & Hq & Ho & Hr & Hl). cbn [l4_proto l4_bytes l4_status].
  assert (E : tcp_header_length (pre ++ (sport ++ dport ++ seqack ++ (off * 16 + reserved) :: flags :: rest) ++ payload) (length pre) = off * 4).
  { unfold tcp_header_length. rewrite (read_byte_in _ _ (pre ++ sport ++ dport ++ seqack) (off * 16 + reserved) (flags :: rest ++ payload)); [|flat|sized].
    rewrite nibble_high by lia. destruct (Z.ltb_spec (off * 4) 20), (Z.ltb_spec 60 (off * 4)); (lia || done). }
  rewrite (http_response_status_spec _ _ _ E) by lia. f_equal. rewrite app_assoc. apply drop_app_length'. sized.
Qed.

(** ** What a packet becomes *)

Section event.
Context (c : Ctx) (macs : list Z) (h : L3) (t : L4) (payload : list Z) (len : Z) (direction : Z).
Context (Hmacs : length macs = 12%nat) (Hl3 : l3_ok h) (Hl4 : l4_ok t).

Abbreviation packet := {| skb_data := frame macs h t payload; skb_len := len |}.

(** The record of the packet: the local end is the source. *)
Definition packet_record : rawFlowEvent :=
  let local := direction =? DIR_EGRESS in
  {| TimestampNS := ktime c 0; RBytes := len;
     SrcAddr := if local then l3_src h else l3_dst h; DstAddr := if local then l3_dst h else l3_src h;
     Connections := if tcp_is_connect_attempt (l4_proto t) (l4_flags t) then 1 else 0;
     RSrcPort := if local then l4_sport t else l4_dport t; RDstPort := if local then l4_dport t else l4_sport t;
     Family := l3_family h; RProtocol := l4_proto t; RDirection := direction; RPackets := 1;
     RErrorCount := if tcp_is_reset (l4_proto t) (l4_flags t) then 1 else 0;
     Retransmits := 0; RTTUS := 0; AppDelayUS := 0; RHTTPStatus := l4_status t payload |}.

Lemma emit_packet m : direction = DIR_INGRESS \/ direction = DIR_EGRESS ->
  emit_tc_packet c packet direction m =
    let m := count_capture_stat SEEN m in
    if ignored_transport_ports m (l4_proto t) (l4_sport t) (l4_dport t) then count_capture_stat PORT_IGNORED m
    else if negb (room c) then count_capture_stat RINGBUF_FULL m
    else count_capture_stat EMITTED (submit packet_record m).
Proof.
  intros Hd. unfold emit_tc_packet. cbn [skb_data]. rewrite parse_network_frame by done. cbn [l4_offset protocol].
  assert (E : frame macs h t payload = (macs ++ ethertype h ++ l3_bytes h (l4_proto t)) ++ l4_bytes t ++ payload) by (unfold frame; flat).
  assert (El : (14 + length (l3_bytes h (l4_proto t)))%nat = length (macs ++ ethertype h ++ l3_bytes h (l4_proto t)))
    by (rewrite !length_app, Hmacs; by destruct h).
  rewrite El, E, parse_transport_at, http_status_at by done. cbn [src_port dst_port]. repeat case_match; try done.
  do 2 f_equal. unfold populate_tc_event, packet_record. cbn [family protocol src_addr dst_addr tcp_flags src_port dst_port].
  by destruct Hd as [-> | ->].
Qed.
End event.

(** ** Addresses *)

Lemma be_bytes_be l : Forall byte_ok l -> be_bytes (length l) (be l) = l.
Proof.
  induction l as [|x l IH] using rev_ind; intros Hb; [done|]. apply Forall_app in Hb as [Hl Hx].
  apply Forall_cons in Hx as [Hx _]. unfold byte_ok in Hx.
  rewrite length_app, Nat.add_comm. cbn [length Nat.add be_bytes]. unfold be in *. rewrite foldl_app. cbn [foldl].
  set (n := foldl _ 0 l) in *. rewrite Z.shiftr_div_pow2 by lia. change (2 ^ 8) with 256. rewrite Z.div_add_l by lia. rewrite (Z.div_small x 256), Z.add_0_r by lia.
  rewrite IH by done. f_equal. change 255 with (Z.ones 8). rewrite Z.land_ones by lia. change (2 ^ 8) with 256.
  by rewrite Z.add_comm, Z.mod_add, Z.mod_small by lia.
Qed.

(** Parsing the text of an address gives the address. *)
Lemma ParseIP_String l : byte_list 4 l \/ byte_list 16 l -> ParseIP (ip_String l) = Some (ip_norm l).
Proof.
  unfold ParseIP, ip_norm. intros [Hl|Hl].
  - rewrite (ip_String_ok4 l Hl). destruct Hl as [Hl Hb]. rewrite Hl. cbn [hasZone Nat.eqb As16].
    pose proof (be_bytes_be l Hb) as E. rewrite Hl in E. by rewrite E.
  - rewrite (ip_String_ok16 l Hl). destruct Hl as [Hl Hb]. unfold To4. rewrite Hl. cbn [Nat.eqb andb].
    case_bool_decide as Ht; cbn [isSome hasZone As16].
    + pose proof (be_bytes_be (drop 12 l) (Forall_drop _ _ _ Hb)) as E. rewrite length_drop, Hl in E. cbn [Nat.sub] in E.
      rewrite E, <- Ht. by rewrite take_drop.
    + pose proof (be_bytes_be l Hb) as E. rewrite Hl in E. by rewrite E.
Qed.

Lemma unspecified_norm l : ip_IsUnspecified (ip_norm l) = ip_IsUnspecified l.
Proof.
  unfold ip_IsUnspecified, ip_equal. replace (ip_norm (ip_norm l)) with (ip_norm l); [done|].
  unfold ip_norm. destruct (Nat.eqb_spec (length l) 4) as [E|E]; [|by apply Nat.eqb_neq in E; rewrite E].
  rewrite length_app, E. done.
Qed.

(** The address of an end of the packet, as bytes. *)
Definition address (h : L3) (source : bool) : list Z :=
  match h with V4 _ _ _ src dst _ | V6 _ _ src dst => if source then src else dst end.

Lemma address_ok h source : l3_ok h -> byte_list 4 (address h source) \/ byte_list 16 (address h source).
Proof. destruct h; intros Hh; [left|right]; destruct source; cbn; apply Hh. Qed.

Lemma socketIP_address h source : l3_ok h ->
  socketIP (if source : bool then l3_src h else l3_dst h) (l3_family h) = ip_String (address h source).
Proof.
  destruct h as [ihl fields checksum src dst options|fields hop src dst]; intros Hh; unfold socketIP; cbn [l3_family l3_src l3_dst address].
  - destruct Hh as (_ & _ & _ & [Hs _] & [Hd _] & _). cbn [Z.eqb AF_INET_VALUE]. unfold store_ipv4_address.
    destruct source; by rewrite take_app_length'.
  - by destruct source.
Qed.

Lemma padded_ok l : byte_list 4 l -> byte_list 16 (store_ipv4_address l).
Proof.
  intros [Hl Hb]. unfold store_ipv4_address. split; [by rewrite length_app, Hl|]. apply Forall_app. split; [done|].
  repeat constructor; lia.
Qed.

Lemma l3_addrs_ok h : l3_ok h -> byte_list 16 (l3_src h) /\ byte_list 16 (l3_dst h).
Proof. destruct h; cbn; intros Hh; [|by destruct Hh as (_ & ? & ?)]. split; apply padded_ok; apply Hh. Qed.

Lemma l4_ports_ok t : l4_ok t -> in_u16 (l4_sport t) /\ in_u16 (l4_dport t).
Proof.
  assert (Hbe : forall p, byte_list 2 p -> in_u16 (be p)) by (intros p [Hl Hb]; apply be_range in Hb; by rewrite Hl in Hb).
  destruct t as [sport dport ? ? ? ? ?|sport dport ?|]; cbn; intros Ht; [destruct Ht as (? & ? & _); auto|destruct Ht; auto|by split].
Qed.

Lemma l4_status_ok t payload : in_u16 (l4_status t payload).
Proof.
  assert (Hs : status_line payload = 0 \/ 100 <= status_line payload <= 599).
  { unfold status_line. repeat case_match; auto. bools. lia. }
  destruct t; cbn; unfold in_u16; lia.
Qed.

(** ** From the wire to the agent *)

Lemma land_bit f n : 0 <= n -> (Z.land f (2 ^ n) =? 0) = negb (Z.testbit f n).
Proof.
  intros Hn. destruct (Z.testbit f n) eqn:Eb; cbn [negb].
  - apply Z.eqb_neq. intros E. assert (Ht : Z.testbit (Z.land f (2 ^ n)) n = false) by (by rewrite E, Z.bits_0).
    by rewrite Z.land_spec, Eb, Z.pow2_bits_true in Ht by done.
  - apply Z.eqb_eq, Z.bits_inj'. intros k Hk. rewrite Z.land_spec, Z.bits_0, Z.pow2_bits_eqb by done.
    destruct (Z.eqb_spec n k) as [->|_]; [by rewrite Eb|apply andb_false_r].
Qed.

(** Opening a connection and resetting one, by the flags of a segment. *)
Definition opens (t : L4) : bool := match t with TCP _ _ _ _ _ flags _ => Z.testbit flags 1 && negb (Z.testbit flags 4) | _ => false end.
Definition resets (t : L4) : bool := match t with TCP _ _ _ _ _ flags _ => Z.testbit flags 2 | _ => false end.

Lemma flags_spec t : tcp_is_connect_attempt (l4_proto t) (l4_flags t) = opens t /\ tcp_is_reset (l4_proto t) (l4_flags t) = resets t.
Proof.
  unfold tcp_is_connect_attempt, tcp_is_reset. destruct t as [sport dport seqack off reserved flags rest|sport dport rest|[]]; try done.
  change TCP_SYN with (2 ^ 1). change TCP_ACK with (2 ^ 4). change TCP_RST with (2 ^ 2). cbn [l4_proto l4_flags opens resets].
  rewrite !land_bit by lia. change (IPPROTO_TCP_VALUE =? IPPROTO_TCP_VALUE) with true. cbn [andb]. by rewrite !negb_involutive.
Qed.

Definition protocol_name (t : L4) : string :=
  match t with TCP _ _ _ _ _ _ _ => Classification.ProtocolTCP | UDP _ _ _ => Classification.ProtocolUDP
  | ICMP _ => Classification.ProtocolICMP end.

Lemma packet_record_ok c h t payload len direction : l3_ok h -> l4_ok t -> in_u32 len -> in_u64 (ktime c 0) ->
  direction = DIR_INGRESS \/ direction = DIR_EGRESS -> raw_ok (packet_record c h t payload len direction).
Proof.
  intros Hh Ht Hlen Hk Hd. destruct (l3_addrs_ok h Hh), (l4_ports_ok t Ht). pose proof (l4_status_ok t payload).
  assert (Hlen' : in_u64 len) by (unfold in_u32, in_u64 in *; lia).
  destruct Hd as [-> | ->]; split; cbn; try done; unfold in_u32, in_u16, in_u8; repeat case_match; try lia.
  all: destruct h; cbn; unfold AF_INET_VALUE, AF_INET6_VALUE; try lia; destruct t as [| |[]]; cbn; vm_compute; intuition congruence.
Qed.

(** The direction of a hook. *)
Definition hook (ingress : bool) : Z := if ingress then DIR_INGRESS else DIR_EGRESS.

Lemma record_source c h t payload len ingress : l3_ok h ->
  socketIP (SrcAddr (packet_record c h t payload len (hook ingress))) (l3_family h) = ip_String (address h (negb ingress)).
Proof. intros Hh. by rewrite <- socketIP_address by done; destruct ingress. Qed.
Lemma record_destination c h t payload len ingress : l3_ok h ->
  socketIP (DstAddr (packet_record c h t payload len (hook ingress))) (l3_family h) = ip_String (address h ingress).
Proof. intros Hh. by rewrite <- socketIP_address by done; destruct ingress. Qed.

Lemma record_source_ip col c h t payload len ingress : l3_ok h -> ip_IsUnspecified (address h (negb ingress)) = false ->
  source_ip col (packet_record c h t payload len (hook ingress)) = ip_String (address h (negb ingress)).
Proof.
  intros Hh Hu. unfold source_ip. change (Family (packet_record _ _ _ _ _ _)) with (l3_family h).
  rewrite record_source by done. rewrite ParseIP_String by (by apply address_ok). by rewrite unspecified_norm, Hu.
Qed.

Lemma record_protocol c h t payload len direction : raw_protocol (packet_record c h t payload len direction) = protocol_name t.
Proof. by destruct t as [| |[]]. Qed.

(** C4: what is on the wire is what the agent counts.  A packet with an
    Ethernet, an IPv4 (with any options) or IPv6, and a TCP (with any
    options), UDP or ICMP header, passing a traffic-control hook with room in
    the ring buffer and not on an ignored port, becomes one record, which the
    collector reads as one event: the local end first, the addresses and
    ports of the headers, the length of the packet, one connection for a SYN
    without ACK, one error for a RST, and the status of an HTTP/1.x status
    line at the start of a TCP payload. *)
Theorem packet_becomes_event (col : EBPFCollector) (now : time) (c : Ctx) (macs : list Z) (h : L3) (t : L4) (payload : list Z) (len : Z)
    (ingress : bool) (m : Maps) :
  length macs = 12%nat -> l3_ok h -> l4_ok t -> in_u32 len -> in_u64 (ktime c 0) -> room c = true ->
  ignored_transport_ports m (l4_proto t) (l4_sport t) (l4_dport t) = false ->
  ip_IsUnspecified (address h (negb ingress)) = false ->
  let packet := {| skb_data := frame macs h t payload; skb_len := len |} in
  exists r e, events (exec (if ingress then PIngress packet else PEgress packet) c m) = events m ++ [r] /\
    collect col now (encodeRawFlowEvent r) = Ok e /\
    Pipeline.SrcIP e = ip_String (address h (negb ingress)) /\ Pipeline.DstIP e = ip_String (address h ingress) /\
    Pipeline.SrcPort e = (if ingress then l4_dport t else l4_sport t) /\ Pipeline.DstPort e = (if ingress then l4_sport t else l4_dport t) /\
    Pipeline.Protocol e = protocol_name t /\ Pipeline.FlowDirection e = (if ingress then Direction.Ingress else Direction.Egress) /\
    Pipeline.ByteCount e = len /\ Pipeline.PacketCount e = 1 /\ Pipeline.ConnectionCount e = Z.b2z (opens t) /\
    Pipeline.ErrorCount e = Z.b2z (resets t) /\ Pipeline.HTTPStatus e = l4_status t payload.
Proof.
  intros Hm Hh Ht Hlen Hk Hroom Hi Hu packet.
  assert (Hd : hook ingress = DIR_INGRESS \/ hook ingress = DIR_EGRESS) by (destruct ingress; auto).
  pose proof (packet_record_ok c h t payload len _ Hh Ht Hlen Hk Hd) as Hok. set (r := packet_record c h t payload len (hook ingress)) in *.
  assert (Hp : Classification.NormalizePorts (raw_protocol r) (RSrcPort r) (RDstPort r) =
            if ingress then (l4_dport t, l4_sport t) else (l4_sport t, l4_dport t)).
  { unfold r. rewrite record_protocol. by destruct ingress, t. }
  exists r, (convert col now r). split.
  - assert (E : exec (if ingress then PIngress packet else PEgress packet) c m = emit_tc_packet c packet (hook ingress) m) by (by destruct ingress).
    rewrite E. unfold packet. rewrite (emit_packet c macs h t payload len) by done. cbv zeta.
    unfold ignored_transport_ports, ignored_port in *. cbn [ignored_ports count_capture_stat]. by rewrite Hi, Hroom.
  - split; [unfold collect; by rewrite decode_encode|]. unfold convert. rewrite Hp.
    assert (Hs : source_ip col r = ip_String (address h (negb ingress))) by (by apply record_source_ip).
    assert (Hds : socketIP (DstAddr r) (Family r) = ip_String (address h ingress)) by (by apply record_destination).
    assert (Hlen' : i64 (RBytes r) = len) by (unfold in_u32 in Hlen; unfold i64, wrapS; rewrite Z.mod_small; cbn; lia).
    destruct (flags_spec t) as [Ho Hr]. rewrite Hs, Hds, Hlen'.
    assert (Hdir : Direction.FromKernel (RDirection r) = if ingress then Direction.Ingress else Direction.Egress) by (by destruct ingress).
    assert (Hc : Connections r = Z.b2z (opens t)) by (cbn; rewrite Ho; by destruct (opens t)).
    assert (He : RErrorCount r = Z.b2z (resets t)) by (cbn; rewrite Hr; by destruct (resets t)).
    assert (Hname : raw_protocol r = protocol_name t) by apply record_protocol.
    assert (Hpk : RPackets r = 1) by done. assert (Hst : RHTTPStatus r = l4_status t payload) by done.
    clearbody r. clear - Hdir Hc He Hname Hpk Hst. destruct ingress; cbn iota beta; repeat (split; [assumption || reflexivity|]); assumption.
Qed.

(** ** The payload stays in the kernel *)

Section agree.
Context (data data' : list Z) (Hlen : length data' = length data).

Lemma read_agree n off size : take n data' = take n data -> (off + size <= n)%nat -> read_packet_bytes data' off size = read_packet_bytes data off size.
Proof.
  intros Ht Hn. unfold read_packet_bytes. rewrite Hlen. destruct (_ <? _)%nat; [done|]. f_equal.
  rewrite !take_drop_commute. f_equal. replace (off + size)%nat with (Nat.min (off + size) n) by lia. by rewrite <- !take_take, Ht.
Qed.
Lemma read_byte_agree n off : take n data' = take n data -> (off + 1 <= n)%nat -> read_packet_byte data' off = read_packet_byte data off.
Proof. intros. unfold read_packet_byte. by erewrite read_agree. Qed.
Lemma read_be16_agree n off : take n data' = take n data -> (off + 2 <= n)%nat -> read_packet_be16 data' off = read_packet_be16 data off.
Proof. intros. unfold read_packet_be16. by erewrite read_agree. Qed.

(** The network header lies before the transport header. *)
Lemma parse_ipv4_offset network : parse_ipv4_metadata data ETH_HEADER_LEN = inl network -> (34 <= l4_offset network)%nat.
Proof.
  unfold parse_ipv4_metadata, ETH_HEADER_LEN, IPV4_MIN_HEADER_LEN. destruct (read_packet_byte _ _) as [v|]; [|done].
  destruct (read_packet_byte _ _); [|done]. destruct (negb _); [done|]. cbv zeta. set (ihl := u8 _).
  destruct (Z.ltb_spec ihl 20); [done|]. repeat case_match; intros [= <-]. cbn [l4_offset]. lia.
Qed.
Lemma parse_ipv6_offset network : parse_ipv6_metadata data ETH_HEADER_LEN = inl network -> l4_offset network = 54%nat.
Proof. unfold parse_ipv6_metadata, ETH_HEADER_LEN, IPV6_HEADER_LEN. by repeat case_match; intros [= <-]. Qed.

Lemma parse_network_agree network : parse_network_metadata data = inl network ->
  take (l4_offset network) data' = take (l4_offset network) data -> parse_network_metadata data' = inl network.
Proof.
  intros E Ht. unfold parse_network_metadata in *. destruct (read_packet_be16 data ETH_PROTOCOL_OFFSET) as [proto|] eqn:Ep; [|done].
  destruct (Z.eqb_spec proto ETH_P_IP_VALUE) as [->|Hne].
  - pose proof (parse_ipv4_offset _ E) as Ho. rewrite (read_be16_agree _ _ Ht), Ep by sized. cbn [Z.eqb].
    rewrite Z.eqb_refl. rewrite <- E. unfold parse_ipv4_metadata.
    rewrite !(read_byte_agree _ _ Ht), !(read_agree _ _ _ Ht) by sized. done.
  - destruct (Z.eqb_spec proto ETH_P_IPV6_VALUE) as [->|]; [|done].
    pose proof (parse_ipv6_offset _ E) as Ho. rewrite (read_be16_agree _ _ Ht), Ep by sized.
    change (ETH_P_IPV6_VALUE =? ETH_P_IP_VALUE) with false. rewrite Z.eqb_refl. rewrite <- E. unfold parse_ipv6_metadata.
    rewrite !(read_byte_agree _ _ Ht), !(read_agree _ _ _ Ht) by sized. done.
Qed.

Lemma parse_transport_agree off proto : take (off + 14) data' = take (off + 14) data ->
  parse_transport_metadata data' off proto = parse_transport_metadata data off proto.
Proof.
  intros Ht. unfold parse_transport_metadata. rewrite !(read_be16_agree _ _ Ht), (read_byte_agree _ _ Ht) by sized. done.
Qed.
End agree.

Definition status_ok (status : Z) : Prop := status = 0 \/ 100 <= status <= 599.

(** C10: nothing of a payload leaves the kernel but a status code.  Two packets
    of the same size that agree up to the TCP flags, whatever else they
    carry, leave the same counters and maps and either no record or two
    records that differ at most in an HTTP status between 100 and 599, or
    0. *)
Theorem payload_stays_private (c : Ctx) (skb skb' : SkBuff) (direction : Z) (m : Maps) (network : network_metadata) :
  parse_network_metadata (skb_data skb) = inl network -> skb_len skb' = skb_len skb ->
  length (skb_data skb') = length (skb_data skb) ->
  take (l4_offset network + 14) (skb_data skb') = take (l4_offset network + 14) (skb_data skb) ->
  let m1 := emit_tc_packet c skb direction m in let m2 := emit_tc_packet c skb' direction m in
  with_events m1 [] = with_events m2 [] /\
  (events m1 = events m /\ events m2 = events m \/
   exists e status status', status_ok status /\ status_ok status' /\
     events m1 = events m ++ [set_status status e] /\ events m2 = events m ++ [set_status status' e]).
Proof.
  intros Hn Hlen Hl Ht. cbv zeta. unfold emit_tc_packet.
  assert (Ht' : take (l4_offset network) (skb_data skb') = take (l4_offset network) (skb_data skb)).
  { replace (l4_offset network) with (Nat.min (l4_offset network) (l4_offset network + 14)) by lia. by rewrite <- !take_take, Ht. }
  rewrite Hn, (parse_network_agree _ _ Hl _ Hn Ht'), (parse_transport_agree _ _ Hl _ _ Ht).
  destruct (parse_transport_metadata (skb_data skb) (l4_offset network) (protocol network)) as [transport|stat]; [|by split; [|left]].
  destruct (ignored_transport_ports _ _ _ _); [by split; [|left]|]. destruct (room c); cbn [negb]; [|by split; [|left]].
  split; [done|]. right. exists (populate_tc_event c skb direction network transport 0).
  pose proof (http_response_status_range (skb_data skb) (l4_offset network) (protocol network)) as H1.
  pose proof (http_response_status_range (skb_data skb') (l4_offset network) (protocol network)) as H2. cbv zeta in H1, H2.
  do 2 eexists. split; [exact H1|]. split; [exact H2|]. unfold populate_tc_event, fill_directional_tuple, set_directional_ports. rewrite Hlen.
  by destruct (direction =? DIR_INGRESS).
Qed.

(** ** Every packet is accounted for *)

Definition is_tc (l : Label) : bool := match l with LRun (PIngress _) _ | LRun (PEgress _) _ => true | _ => false end.
Definition packets (ls : list Label) : Z := sumZ (fun l => Z.b2z (is_tc l)) ls.
Definition outcomes : list Stat :=
  [EMITTED; ETH_READ_FAIL; ETH_UNSUPPORTED; IPV4_READ_FAIL; IPV4_INVALID; IPV6_READ_FAIL; IP_PROTOCOL_UNSUPPORTED;
   TRANSPORT_READ_FAIL; TCP_READ_FAIL; RINGBUF_FULL; PORT_IGNORED].

(** Records of the hooks, and samples of the socket programs the ring buffer
    had no room for. *)
Definition grown (l : Label) (m : Maps) : Z :=
  if is_tc l then Z.of_nat (length (events (step l m))) - Z.of_nat (length (events m)) else 0.
Definition refused (l : Label) (m : Maps) : Z :=
  if is_tc l then 0 else Z.b2z (bool_decide (capture_stats (step l m) RINGBUF_FULL <> capture_stats m RINGBUF_FULL)).
Fixpoint along (f : Label -> Maps -> Z) (ls : list Label) (m : Maps) : Z :=
  match ls with [] => 0 | l :: rest => f l m + along f rest (step l m) end.

Definition adds (m m' : Maps) (d : Stat -> Z) : Prop := forall s, capture_stats m' s ≡64 capture_stats m s + d s.

Lemma adds_count key m : adds m (count_capture_stat key m) (fun s => Z.b2z (bool_decide (s = key))).
Proof.
  intros s. cbn. destruct (decide (s = key)) as [E|E].
  - rewrite bool_decide_true by done. cbn [Z.b2z]. by rewrite cong64_u64.
  - rewrite bool_decide_false by done. cbn [Z.b2z]. by rewrite Z.add_0_r.
Qed.
Lemma adds_trans m1 m2 m3 d1 d2 : adds m1 m2 d1 -> adds m2 m3 d2 -> adds m1 m3 (fun s => d1 s + d2 s).
Proof. intros H1 H2 s. specialize (H1 s). specialize (H2 s). by rewrite H2, H1, Z.add_assoc. Qed.
Lemma adds_none m m' : capture_stats m' = capture_stats m -> adds m m' (fun _ => 0).
Proof. intros E s. by rewrite E, Z.add_0_r. Qed.

(** The parsers report failures, never a success. *)
Definition failure (s : Stat) : Prop := s <> SEEN /\ s <> EMITTED /\ s <> RINGBUF_FULL.
Lemma parse_network_failure data s : parse_network_metadata data = inr s -> failure s.
Proof.
  unfold parse_network_metadata, parse_ipv4_metadata, parse_ipv6_metadata. repeat case_match; intros [= <-]; done.
Qed.
Lemma parse_transport_failure data off proto s : parse_transport_metadata data off proto = inr s -> failure s.
Proof. unfold parse_transport_metadata. repeat case_match; intros [= <-]; done. Qed.

(** What one packet does to the counters: it is seen, and has one outcome. *)
Lemma tc_counted c skb direction m : exists s, s <> SEEN /\
  adds m (emit_tc_packet c skb direction m) (fun k => Z.b2z (bool_decide (k = SEEN)) + Z.b2z (bool_decide (k = s))) /\
  length (events (emit_tc_packet c skb direction m)) = (length (events m) + if bool_decide (s = EMITTED) then 1 else 0)%nat.
Proof.
  assert (Hf : forall s, failure s -> exists s0, s0 <> SEEN /\
    adds m (count_capture_stat s (count_capture_stat SEEN m)) (fun k => Z.b2z (bool_decide (k = SEEN)) + Z.b2z (bool_decide (k = s0))) /\
    length (events (count_capture_stat s (count_capture_stat SEEN m))) = (length (events m) + if bool_decide (s0 = EMITTED) then 1 else 0)%nat).
  { intros s (H1 & H2 & _). exists s. split_and!; [done|eapply adds_trans; apply adds_count|]. rewrite bool_decide_false by done. cbn. lia. }
  unfold emit_tc_packet. destruct (parse_network_metadata _) as [network|s] eqn:En; [|by apply Hf, (parse_network_failure _ _ En)].
  destruct (parse_transport_metadata _ _ _) as [transport|s] eqn:Et; [|by apply Hf, (parse_transport_failure _ _ _ _ Et)].
  destruct (ignored_transport_ports _ _ _ _); [by apply Hf|]. destruct (room c); cbn [negb].
  - exists EMITTED. split_and!; [done| |cbn; by rewrite length_app]. eapply (adds_trans _ (submit _ _)); [exact (adds_count SEEN m)|apply adds_count].
  - exists RINGBUF_FULL. split_and!; [done|eapply adds_trans; apply adds_count|]. by rewrite bool_decide_false, Nat.add_0_r.
Qed.

(** Only an exhausted ring buffer is counted elsewhere. *)
Lemma other_counted l m : is_tc l = false ->
  capture_stats (step l m) = capture_stats m \/ capture_stats (step l m) = capture_stats (count_capture_stat RINGBUF_FULL m).
Proof.
  destruct l as [[]| | | |]; cbn [is_tc step exec]; intros Hl; try discriminate; auto;
    unfold emit_connection, trace_tcp_accept, remember_io, finish_io, emit_tcp_rtt_sample, should_emit_rtt_sample, emit_tcp_retransmission,
      mark_request_sent, trace_tcp_delay_recv, trace_tcp_delay_recv_ret, take_response_delay_us, emit_connection;
    repeat case_match; simplify_eq; auto.
Qed.

Lemma u64_succ_ne x : u64 (x + 1) <> x.
Proof. unfold u64, wrapU. intros E. pose proof (Z.div_mod (x + 1) (2 ^ 64)). lia. Qed.

Lemma outcome_single s : s <> SEEN -> sumZ (fun k => Z.b2z (bool_decide (k = SEEN)) + Z.b2z (bool_decide (k = s))) outcomes = 1.
Proof. intros Hs. by destruct s. Qed.

Lemma step_counted l m : exists d, adds m (step l m) d /\
  d SEEN = Z.b2z (is_tc l) /\ d EMITTED = grown l m /\ sumZ d outcomes = Z.b2z (is_tc l) + refused l m.
Proof.
  unfold grown, refused. destruct (is_tc l) eqn:El.
  - assert (exists c skb direction, step l m = emit_tc_packet c skb direction m) as (c & skb & direction & ->)
      by (destruct l as [[]| | | |]; try discriminate; by repeat eexists).
    destruct (tc_counted c skb direction m) as (s & Hs & Ha & Hl). eexists. split; [exact Ha|]. cbv beta. rewrite Hl, outcome_single by done.
    split_and!; [by destruct s| |done]. change (bool_decide (EMITTED = SEEN)) with false.
    destruct (decide (s = EMITTED)) as [->|Hn]; [rewrite !bool_decide_true by done|rewrite !bool_decide_false by congruence]; cbn [Z.b2z]; lia.
  - destruct (other_counted l m El) as [E|E].
    + exists (fun _ => 0). rewrite E, bool_decide_false by congruence. split; [by apply adds_none|done].
    + exists (fun s => Z.b2z (bool_decide (s = RINGBUF_FULL))). split; [intros s; rewrite E; apply adds_count|].
      assert (bool_decide (capture_stats (step l m) RINGBUF_FULL <> capture_stats m RINGBUF_FULL) = true) as ->; [|done].
      apply bool_decide_eq_true. rewrite E. apply u64_succ_ne.
Qed.

(** C9: no packet escapes the counters.  Whatever runs in the kernel, the
    packets that passed the hooks are, modulo 2^64, the packets counted as
    seen; each of them is counted under exactly one outcome, next to the
    socket samples the ring buffer had no room for; and the emitted ones are
    the records of packets in the ring buffer. *)
Theorem packets_accounted (ports : gset Z) (ls : list Label) :
  let m := trace ls (loaded ports) in
  capture_stats m SEEN ≡64 packets ls /\
  sumZ (capture_stats m) outcomes ≡64 packets ls + along refused ls (loaded ports) /\
  capture_stats m EMITTED ≡64 along grown ls (loaded ports).
Proof.
  cbv zeta.
  assert (Hg : forall m, exists d, adds m (trace ls m) d /\ d SEEN = packets ls /\ d EMITTED = along grown ls m /\
    sumZ d outcomes = packets ls + along refused ls m).
  { induction ls as [|l ls IH]; intros m.
    - exists (fun _ => 0). split; [by apply adds_none|done].
    - destruct (step_counted l m) as (d1 & Ha1 & Hs1 & He1 & Ho1). destruct (IH (step l m)) as (d2 & Ha2 & Hs2 & He2 & Ho2).
      exists (fun s => d1 s + d2 s). split; [by eapply adds_trans|]. unfold packets in *. rewrite sumZ_cons. cbn [along].
      split_and!; [lia|lia|]. rewrite sumZ_add. lia. }
  destruct (Hg (loaded ports)) as (d & Ha & Hs & He & Ho). split_and!.
  - rewrite (Ha SEEN), Hs. done.
  - rewrite <- Ho. apply sumZ_cong. intros s _. by rewrite (Ha s).
  - rewrite (Ha EMITTED), He. done.
Qed.

(** ** Every record is well formed *)

Record sock_ok (sk : Sock) : Prop := {
  so_family : in_u16 (skc_family sk); so_src : byte_list 4 (skc_rcv_saddr sk); so_dst : byte_list 4 (skc_daddr sk);
  so_src6 : byte_list 16 (skc_v6_rcv_saddr sk); so_dst6 : byte_list 16 (skc_v6_daddr sk);
  so_num : in_u16 (skc_num sk); so_dport : in_u16 (skc_dport sk); so_srtt : in_u32 (srtt_us sk)
}.
Record ctx_ok (c : Ctx) : Prop := { cx_time : forall i, in_u64 (ktime c i); cx_sock : forall sk, sock_ok (sock_at c sk) }.
Definition skb_ok (skb : SkBuff) : Prop := Forall byte_ok (skb_data skb) /\ in_u32 (skb_len skb).

(** The values have their C types; a result is an [int]. *)
Definition label_ok (l : Label) : Prop :=
  match l with
  | LRun p c => ctx_ok c /\
      match p with
      | PIngress skb | PEgress skb => skb_ok skb
      | PTcpSendRet r | PTcpRecvRet r | PUdpSendRet r | PUdpRecvRet r | PDelayRecvRet r => r < 2 ^ 31
      | _ => True
      end
  | _ => True
  end.

(** What the kernel promises of a record, beyond the widths of its fields. *)
Record record_ok (r : rawFlowEvent) : Prop := {
  re_raw : raw_ok r; re_bytes : RBytes r < 2 ^ 32; re_status : status_ok (RHTTPStatus r);
  re_delay : AppDelayUS r <= APP_DELAY_MAX_US; re_rtt : RTTUS r < 2 ^ 29;
  re_marks : Connections r <= 1 /\ RPackets r <= 1 /\ RErrorCount r <= 1 /\ Retransmits r <= 1;
  re_kind : is_supported_ip_protocol (RProtocol r) = true /\ (Family r = AF_INET_VALUE \/ Family r = AF_INET6_VALUE) /\
            (RDirection r = DIR_INGRESS \/ RDirection r = DIR_EGRESS)
}.

Lemma lor_bound a b n : 0 <= n -> 0 <= a < 2 ^ n -> 0 <= b < 2 ^ n -> 0 <= Z.lor a b < 2 ^ n.
Proof.
  intros Hn Ha Hb. assert (Hp : 0 <= Z.lor a b) by (apply Z.lor_nonneg; lia). split; [done|].
  destruct (Z.eq_dec n 0) as [->|Hn0]; [by replace a with 0 by lia; replace b with 0 by lia|].
  destruct (Z.eq_dec (Z.lor a b) 0) as [->|Hne]; [lia|]. apply Z.log2_lt_pow2; [lia|]. rewrite Z.log2_lor by lia.
  apply Z.max_lub_lt; [destruct (Z.eq_dec a 0) as [->|]|destruct (Z.eq_dec b 0) as [->|]]; try (cbn; lia); apply Z.log2_lt_pow2; lia.
Qed.

Lemma bswap16_ok z : in_u16 z -> in_u16 (bswap16 z).
Proof.
  unfold in_u16, bswap16, u16, wrapU. intros Hz. apply lor_bound; [lia|apply Z.mod_pos_bound; lia|].
  rewrite Z.shiftr_div_pow2 by lia. change (2 ^ 8) with 256. pose proof (Z.div_pos z 256). pose proof (Z.div_le_upper_bound z 256 z). lia.
Qed.

Lemma zero_bytes n : Forall byte_ok (repeat 0 n).
Proof. induction n; constructor; [unfold byte_ok; lia|done]. Qed.

Lemma supported_u8 proto : is_supported_ip_protocol proto = true -> in_u8 proto.
Proof. unfold is_supported_ip_protocol. rewrite !orb_true_iff, !Z.eqb_eq. intros [[[-> | ->]| ->]| ->]; vm_compute; intuition discriminate. Qed.

Lemma socket_record now sk proto direction : sock_ok sk -> in_u64 now -> is_supported_ip_protocol proto = true ->
  direction = DIR_INGRESS \/ direction = DIR_EGRESS -> record_ok (socket_metadata now sk proto direction zero_event).
Proof.
  intros [Hf Hs Hd Hs6 Hd6 Hn Hp _] Hk Hpr Hdir.
  pose proof (supported_u8 _ Hpr) as Hu8.
  pose proof (bswap16_ok _ Hp) as Hp'. unfold socket_metadata. set (port := bswap16 _) in *. clearbody port.
  assert (Hpad : forall l, byte_list 4 l -> byte_list 16 (l ++ drop 4 (repeat 0 16))) by (intros l Hl; exact (padded_ok l Hl)).
  destruct (Z.eqb_spec (skc_family sk) AF_INET6_VALUE) as [E|E].
  - split; [split|..]; cbn; try done; try (unfold in_u32, in_u16, in_u64 in *; lia); auto.
    all: destruct Hdir as [-> | ->]; vm_compute; intuition congruence.
  - split; [split|..]; cbn; try done; try (unfold in_u32, in_u16, in_u64 in *; lia); auto.
    all: destruct Hdir as [-> | ->]; vm_compute; intuition congruence.
Qed.

Record network_ok (n : network_metadata) : Prop := {
  nw_src : byte_list 16 (src_addr n); nw_dst : byte_list 16 (dst_addr n);
  nw_family : family n = AF_INET_VALUE \/ family n = AF_INET6_VALUE; nw_proto : is_supported_ip_protocol (protocol n) = true
}.

Lemma parse_network_ok data n : Forall byte_ok data -> parse_network_metadata data = inl n -> network_ok n.
Proof.
  intros Hb. unfold parse_network_metadata, parse_ipv4_metadata, parse_ipv6_metadata. repeat case_match; intros [= <-];
    repeat match goal with
    | H : negb _ = false |- _ => apply negb_false_iff in H
    | H : read_packet_bytes _ _ _ = Some _ |- _ => apply (read_packet_bytes_ok _ _ _ _ Hb) in H
    end; split; cbn; auto; by apply padded_ok.
Qed.

Lemma parse_transport_ok data off proto t : Forall byte_ok data -> parse_transport_metadata data off proto = inl t ->
  in_u16 (src_port t) /\ in_u16 (dst_port t).
Proof.
  intros Hb. unfold parse_transport_metadata. repeat case_match; intros [= <-]; cbn;
    repeat match goal with H : read_packet_be16 _ _ = Some _ |- _ => apply (read_packet_be16_ok _ _ _ Hb) in H end; by split.
Qed.

Lemma tc_record c skb direction n t status : ctx_ok c -> skb_ok skb -> direction = DIR_INGRESS \/ direction = DIR_EGRESS ->
  network_ok n -> in_u16 (src_port t) /\ in_u16 (dst_port t) -> status_ok status -> record_ok (populate_tc_event c skb direction n t status).
Proof.
  intros [Hk _] [_ Hl] Hd [Hs Hds Hf Hp] [Hsp Hdp] Hst. pose proof (supported_u8 _ Hp). specialize (Hk 0%nat).
  unfold populate_tc_event, fill_directional_tuple, set_directional_ports, mark_tc_request_response.
  set (conns := if tcp_is_connect_attempt _ _ then 1 else 0). set (errs := if tcp_is_reset _ _ then 1 else 0).
  assert (0 <= conns <= 1) by (unfold conns; case_match; lia). assert (0 <= errs <= 1) by (unfold errs; case_match; lia). clearbody conns errs.
  assert (in_u16 (family n)) by (destruct Hf as [-> | ->]; vm_compute; intuition discriminate).
  assert (in_u16 status) by (unfold status_ok, in_u16 in *; lia). unfold in_u32 in Hl.
  destruct Hd as [-> | ->]; cbn [Z.eqb DIR_INGRESS DIR_EGRESS Pos.eqb]; (split; [split|..]; cbn; try done; try (unfold in_u32, in_u64, in_u8, APP_DELAY_MAX_US; lia);
    split_and!; auto; lia).
Qed.

(** The records in the ring buffer and those waiting for a return probe. *)
Record maps_ok (m : Maps) : Prop := {
  mo_events : Forall record_ok (events m); mo_pending : map_Forall (fun _ r => record_ok r) (pending_io m)
}.

Lemma submit_ok e m : maps_ok m -> record_ok e -> maps_ok (submit e m).
Proof. intros [He Hp] Hr. split; cbn; [|done]. apply Forall_app. by split; [|constructor]. Qed.
Lemma count_ok s m : maps_ok m -> maps_ok (count_capture_stat s m).
Proof. by intros [? ?]. Qed.
Lemma same_ok m m' : events m' = events m -> pending_io m' = pending_io m -> maps_ok m -> maps_ok m'.
Proof. intros He Hp [? ?]. by split; rewrite ?He, ?Hp. Qed.

Lemma set_bytes_ok r b : record_ok r -> 0 <= b < 2 ^ 32 -> record_ok (set_bytes b r).
Proof. intros [[] ? ? ? ? ? ?] Hb. split; [split|..]; cbn; try done; unfold in_u64; lia. Qed.
Lemma set_tcp_ok r n rtt delay : record_ok r -> 0 <= n <= 1 -> 0 <= rtt < 2 ^ 29 -> 0 <= delay <= APP_DELAY_MAX_US -> record_ok (set_tcp n rtt delay r).
Proof.
  intros [[] ? ? ? ? (? & ? & ? & ?) ?] Hn Hrtt Hd. unfold APP_DELAY_MAX_US in *.
  split; [split|..]; cbn; try done; unfold in_u32, APP_DELAY_MAX_US; lia.
Qed.
Lemma set_time_ok r t : record_ok r -> in_u64 t -> record_ok (set_time t r).
Proof. intros [[] ? ? ? ? ? ?] Ht. by split; [split|..]. Qed.
Lemma set_marks_ok r : record_ok r -> record_ok (mark_connection r).
Proof. intros [[] ? ? ? ? (? & ? & ? & ?) ?]. split; [split|..]; cbn; try done; unfold in_u32; lia. Qed.

Lemma smoothed_ok sk : sock_ok sk -> 0 <= tcp_smoothed_rtt_us sk < 2 ^ 29.
Proof.
  intros [_ _ _ _ _ _ _ Hr]. unfold tcp_smoothed_rtt_us, in_u32 in *. rewrite Z.shiftr_div_pow2 by lia. change (2 ^ 3) with 8.
  pose proof (Z.div_pos (srtt_us sk) 8). pose proof (Z.div_lt_upper_bound (srtt_us sk) 8 (2 ^ 29)). lia.
Qed.

Lemma delay_ok c sk m delay m' : take_response_delay_us c sk m = (delay, m') ->
  0 <= delay <= APP_DELAY_MAX_US /\ events m' = events m /\ pending_io m' = pending_io m.
Proof.
  unfold take_response_delay_us. destruct (sk =? 0); [intros [= <- <-]; unfold APP_DELAY_MAX_US; auto with lia|].
  destruct (app_delay_start m !! sk) as [started|]; [|intros [= <- <-]; unfold APP_DELAY_MAX_US; auto with lia]. cbv zeta.
  set (elapsed := u64 _ / 1000). assert (0 <= elapsed) by (apply Z.div_pos; [apply Z.mod_pos_bound; lia|lia]). clearbody elapsed.
  destruct (_ <? _); [intros [= <- <-]; unfold APP_DELAY_MAX_US; split_and!; (lia || done)|].
  destruct ((elapsed =? 0) || _) eqn:E; intros [= <- <-]; unfold APP_DELAY_MAX_US in *; [split_and!; (lia || done)|].
  apply orb_false_iff in E as [_ E]. apply Z.ltb_ge in E. unfold u32, wrapU. rewrite Z.mod_small by lia. split_and!; (lia || done).
Qed.

Lemma tc_ok c skb direction m : ctx_ok c -> skb_ok skb -> direction = DIR_INGRESS \/ direction = DIR_EGRESS ->
  maps_ok m -> maps_ok (emit_tc_packet c skb direction m).
Proof.
  intros Hc Hs Hd Hm. apply (count_ok SEEN) in Hm. unfold emit_tc_packet. set (m0 := count_capture_stat SEEN m) in *. cbv zeta.
  destruct (parse_network_metadata _) as [n|s] eqn:En; [|by apply count_ok].
  destruct (parse_transport_metadata _ _ _) as [t|s] eqn:Et; [|by apply count_ok].
  destruct (ignored_transport_ports _ _ _ _); [by apply count_ok|]. destruct (room c); cbn [negb]; [|by apply count_ok].
  apply count_ok, submit_ok; [done|]. destruct Hs as [Hb Hl]. apply tc_record; try done.
  - by eapply parse_network_ok.
  - by eapply parse_transport_ok.
  - apply http_response_status_range.
Qed.

Lemma delete_pending_ok k m : maps_ok m -> maps_ok (with_pending m (delete k (pending_io m))).
Proof. intros [He Hp]. split; [done|]. by apply map_Forall_delete. Qed.

(** The socket programs that emit samples. *)
Lemma sample_ok c i sk dir n rtt delay m : ctx_ok c -> maps_ok m -> dir = DIR_INGRESS \/ dir = DIR_EGRESS -> 0 <= n <= 1 -> 0 <= rtt < 2 ^ 29 ->
  0 <= delay <= APP_DELAY_MAX_US ->
  maps_ok (submit (set_tcp n rtt delay (socket_metadata (ktime c i) (sock_at c sk) IPPROTO_TCP_VALUE dir zero_event)) m).
Proof. intros Hc Hm Hd Hn Hr Hdl. apply submit_ok; [done|]. apply set_tcp_ok; try done. by apply socket_record; [apply Hc..| |]. Qed.

Lemma rtt_ok c sk m : ctx_ok c -> maps_ok m -> maps_ok (emit_tcp_rtt_sample c sk m).
Proof.
  intros Hc Hm. unfold emit_tcp_rtt_sample, should_emit_rtt_sample. destruct (sk =? 0); [done|]. cbv zeta.
  pose proof (smoothed_ok _ (cx_sock c Hc sk)) as Hr. destruct (_ =? 0); [done|]. destruct (match rtt_last_emit m !! sk with Some _ => _ | None => _ end); [done|].
  assert (Hm' : maps_ok (if stores c then with_rtt m (<[sk := ktime c 0]> (rtt_last_emit m)) else m)) by (destruct (stores c); [by apply (same_ok m)|done]).
  destruct (room c); cbn [negb]; [|by apply count_ok]. apply submit_ok; [done|]. apply set_tcp_ok; unfold APP_DELAY_MAX_US; try lia.
  apply set_time_ok; [|apply Hc]. by apply socket_record; [apply Hc..| |right].
Qed.

Lemma retransmit_ok c sk m : ctx_ok c -> maps_ok m -> maps_ok (emit_tcp_retransmission c sk m).
Proof.
  intros Hc Hm. unfold emit_tcp_retransmission. destruct (sk =? 0); [done|]. destruct (room c); cbn [negb]; [|by apply count_ok].
  apply sample_ok; auto; unfold APP_DELAY_MAX_US; try lia. apply smoothed_ok, Hc.
Qed.

Lemma delay_ret_ok c r m : ctx_ok c -> maps_ok m -> maps_ok (trace_tcp_delay_recv_ret c r m).
Proof.
  intros Hc Hm. unfold trace_tcp_delay_recv_ret. destruct (app_delay_recv_sock m !! _) as [sk|]; [|done]. cbv zeta.
  set (m0 := with_recv m _). assert (Hm0 : maps_ok m0) by (by apply (same_ok m)). destruct (r <=? 0); [done|].
  destruct (take_response_delay_us c sk m0) as [delay m1] eqn:Ed. apply delay_ok in Ed as (Hd & He & Hp).
  assert (Hm1 : maps_ok m1) by (by apply (same_ok m0)). destruct (delay =? 0); [done|]. destruct (room c); cbn [negb]; [|by apply count_ok].
  apply sample_ok; auto; lia.
Qed.

Lemma step_ok l m : label_ok l -> maps_ok m -> maps_ok (step l m).
Proof.
  assert (Htcp : is_supported_ip_protocol IPPROTO_TCP_VALUE = true) by done. assert (Hudp : is_supported_ip_protocol IPPROTO_UDP_VALUE = true) by done.
  assert (Hin : DIR_INGRESS = DIR_INGRESS \/ DIR_INGRESS = DIR_EGRESS) by auto. assert (Hout : DIR_EGRESS = DIR_INGRESS \/ DIR_EGRESS = DIR_EGRESS) by auto.
  destruct l as [p c|k|k|k|k]; cbn [label_ok step]; [|intros _; apply delete_pending_ok|intros _; by apply same_ok|intros _; by apply same_ok|intros _; by apply same_ok].
  intros [Hc Hp] Hm.
  assert (Hsock : forall i sk proto dir, is_supported_ip_protocol proto = true -> dir = DIR_INGRESS \/ dir = DIR_EGRESS ->
    record_ok (socket_metadata (ktime c i) (sock_at c sk) proto dir zero_event)) by (intros; apply socket_record; try done; apply Hc).
  assert (Hio : forall sk proto dir, is_supported_ip_protocol proto = true -> dir = DIR_INGRESS \/ dir = DIR_EGRESS -> maps_ok (remember_io c sk proto dir m)).
  { intros. unfold remember_io. destruct (stores c); [|done]. destruct Hm as [He Hpend]. split; [done|]. by apply map_Forall_insert_2; [apply Hsock|]. }
  assert (Hfin : forall r, r < 2 ^ 31 -> maps_ok (finish_io c r m)).
  { intros r Hr. unfold finish_io. destruct (pending_io m !! pid_tgid c) as [saved|] eqn:Es; [|done]. cbv zeta. apply delete_pending_ok.
    destruct (Z.ltb_spec 0 r); cbn [andb]; [|done]. destruct (room c); [|done]. apply submit_ok; [done|]. apply set_bytes_ok; [|lia].
    exact (mo_pending m Hm _ _ Es). }
  assert (Hconn : forall sk dir, dir = DIR_INGRESS \/ dir = DIR_EGRESS -> maps_ok (emit_connection c sk IPPROTO_TCP_VALUE dir m)).
  { intros. unfold emit_connection. destruct (room c); cbn [negb]; [|done]. apply submit_ok; [done|]. by apply set_marks_ok, Hsock. }
  destruct p; cbn [exec]; auto; try (by apply tc_ok).
  - unfold trace_tcp_accept. destruct (_ =? 0); auto.
  - exact (rtt_ok c sk m Hc Hm).
  - exact (retransmit_ok c sk m Hc Hm).
  - unfold mark_request_sent. repeat case_match; try done; by apply (same_ok m).
  - unfold trace_tcp_delay_recv. repeat case_match; try done; by apply (same_ok m).
  - exact (delay_ret_ok c result m Hc Hm).
Qed.

Lemma trace_records ports ls : Forall label_ok ls -> Forall record_ok (events (trace ls (loaded ports))).
Proof.
  intros Hls. assert (Hm : forall m, maps_ok m -> maps_ok (trace ls m)).
  { induction Hls as [|l ls Hl _ IH]; intros m Hm; [done|]. apply IH. by apply step_ok. }
  destruct (Hm (loaded ports)) as [He _]; [by split; [constructor|apply map_Forall_empty]|done].
Qed.

(** C23: whatever runs in the kernel, in whatever order and with whatever entries
    the maps forget, the collector reads every record, as a well-formed event
    whose byte count is non-negative and below 2^32, whose application delay
    is at most a minute and whose HTTP status is 0 or between 100 and 599. *)
Theorem kernel_records_read (col : EBPFCollector) (now : time) (ports : gset Z) (ls : list Label) (r : rawFlowEvent) :
  registration_ok (registration col) -> 0 < now -> Forall label_ok ls -> r ∈ events (trace ls (loaded ports)) ->
  collect col now (encodeRawFlowEvent r) = Ok (convert col now r) /\ event_ok (convert col now r) /\
  0 <= Pipeline.ByteCount (convert col now r) < 2 ^ 32 /\ AppDelayUS r <= APP_DELAY_MAX_US /\
  status_ok (Pipeline.HTTPStatus (convert col now r)).
Proof.
  intros Hreg Hnow Hls Hr.
  pose proof (trace_records ports ls Hls) as He. apply (proj1 (Forall_forall _ _) He) in Hr as [Hraw Hb Hs Hd _ _ _].
  assert (E : collect col now (encodeRawFlowEvent r) = Ok (convert col now r)) by (unfold collect; by rewrite decode_encode).
  split; [done|]. split.
  - destruct (collector_events_ok col now (encodeRawFlowEvent r) Hreg Hnow) as (e & E' & Hok & _); [by apply encode_length|by apply encode_bytes|].
    rewrite E in E'. by injection E' as <-.
  - destruct Hraw as [_ Hu _ _ _ _ _ _ _ _ _ _ _ _ _ _]. unfold in_u64 in Hu. unfold convert.
    destruct (Classification.NormalizePorts _ _ _) as [srcPort dstPort]. split_and!; [..|done|exact Hs];
      change (Pipeline.ByteCount _) with (i64 (RBytes r)); unfold i64, wrapS; rewrite Z.mod_small by lia; lia.
Qed.

(** ** Round-trip samples are rate limited *)

(** The instants at which the program decided to emit a sample of a socket. *)
Definition samples_rtt (sk : Z) (l : Label) (m : Maps) : option Z :=
  match l with
  | LRun (PRtt sk') c =>
      if (sk' =? sk) && negb (sk' =? 0) && negb (tcp_smoothed_rtt_us (sock_at c sk') =? 0) && fst (should_emit_rtt_sample c sk' (ktime c 0) m)
      then Some (ktime c 0) else None
  | _ => None
  end.
Fixpoint rtt_times (sk : Z) (ls : list Label) (m : Maps) : list Z :=
  match ls with
  | [] => []
  | l :: rest => option_list (samples_rtt sk l m) ++ rtt_times sk rest (step l m)
  end.

(** The map keeps the entry of the socket, and takes the new one. *)
Definition keeps_rtt (sk : Z) (l : Label) : Prop :=
  match l with LEvictRtt key => key <> sk | LRun (PRtt sk') c => sk' = sk -> stores c = true | _ => True end.

Lemma rtt_entry sk l m : keeps_rtt sk l ->
  rtt_last_emit (step l m) !! sk = match samples_rtt sk l m with Some t => Some t | None => rtt_last_emit m !! sk end.
Proof.
  destruct l as [p c|key|key|key|key]; cbn [keeps_rtt samples_rtt step]; intros Hk; try done; [|by cbn; rewrite lookup_delete_ne].
  destruct p as [skb|skb|s|s|s|s|r|s|r|s|r|s|r|s|s|s|s|r]; cbn [exec samples_rtt].
  14: { unfold emit_tcp_rtt_sample, should_emit_rtt_sample. destruct (Z.eqb_spec s 0) as [->|Hs]; [by rewrite andb_false_r|]. cbn [negb].
    destruct (tcp_smoothed_rtt_us _ =? 0); [by rewrite andb_false_r|]. cbn [negb]. rewrite !andb_true_r.
    destruct (match rtt_last_emit m !! s with Some _ => _ | None => _ end); cbn [fst]; [by rewrite andb_false_r|]. rewrite andb_true_r.
    destruct (Z.eqb_spec s sk) as [->|Hne].
    - rewrite Hk by done. by destruct (room c); cbn; rewrite lookup_insert_eq.
    - destruct (stores c), (room c); cbn; by rewrite ?lookup_insert_ne. }
  all: unfold tc_ingress, tc_egress, emit_tc_packet, emit_connection, trace_tcp_accept, emit_connection, remember_io, finish_io,
    emit_tcp_retransmission, mark_request_sent, trace_tcp_delay_recv, trace_tcp_delay_recv_ret, take_response_delay_us;
    repeat case_match; simplify_eq; done.
Qed.

(** C40: a socket yields at most one round-trip sample per second, as long as
    the map does not forget the socket: consecutive samples are at least
    10^9 nanoseconds of the kernel's clock apart. *)
Theorem rtt_rate_limited (sk : Z) (ls : list Label) (m : Maps) : Forall (keeps_rtt sk) ls ->
  Sorted (fun t1 t2 => RTT_EMIT_INTERVAL_NS <= u64 (t2 - t1)) (rtt_times sk ls m).
Proof.
  intros Hk. set (R := fun t1 t2 => RTT_EMIT_INTERVAL_NS <= u64 (t2 - t1)).
  assert (Hg : forall m, Sorted R (option_list (rtt_last_emit m !! sk) ++ rtt_times sk ls m)).
  { induction Hk as [|l ls Hl _ IH]; intros m0; [destruct (rtt_last_emit m0 !! sk); repeat constructor|]. cbn [rtt_times].
    specialize (IH (step l m0)). rewrite rtt_entry in IH by done. destruct (samples_rtt sk l m0) as [t|] eqn:Es; [|exact IH].
    destruct (rtt_last_emit m0 !! sk) as [last|] eqn:El; [|exact IH]. constructor; [exact IH|]. constructor. unfold R.
    unfold samples_rtt in Es. destruct l as [[]| | | |]; try discriminate. case_match eqn:Ec; [|discriminate]. injection Es as <-.
    unfold should_emit_rtt_sample in Ec. bools. subst. rewrite El in *. destruct (Z.ltb_spec (u64 (ktime c 0 - last)) RTT_EMIT_INTERVAL_NS); [done|lia]. }
  specialize (Hg m). destruct (rtt_last_emit m !! sk); [by apply Sorted_inv in Hg as [? _]|exact Hg].
Qed.

(** ** The delay of a server *)

(** The send that starts the clock is any send: on the serving side of a
    connection it is the answer, so the next request is reported as a
    response that took as long as the client was idle. *)
Definition quiet_sock : Sock :=
  {| skc_family := AF_INET_VALUE; skc_rcv_saddr := [10; 0; 0; 5]; skc_daddr := [10; 0; 0; 9]; skc_v6_rcv_saddr := repeat 0 16;
     skc_v6_daddr := repeat 0 16; skc_num := 443; skc_dport := 16540; srtt_us := 0 |}.
Definition at_time (now : Z) : Ctx := {| ktime := fun _ => now; pid_tgid := 7; sock_at := fun _ => quiet_sock; room := true; stores := true |}.

Lemma server_idle_reported :
  map AppDelayUS (events (trace
    [LRun (PDelayRecv 1) (at_time 1000000); LRun (PDelayRecvRet 100) (at_time 2000000); LRun (PDelaySend 1) (at_time 3000000);
     LRun (PDelayRecv 1) (at_time 4000000); LRun (PDelayRecvRet 100) (at_time 5003000000)] (loaded ∅))) = [5000000].
Proof. vm_compute. reflexivity. Qed.

(** ** Concrete packets *)

Definition sample_macs : list Z := repeat 2 12.
Definition sample_l3 : L3 := V4 5 [0; 0; 60; 0; 0; 64; 0; 64] [0; 0] [10; 0; 0; 9] [10; 0; 0; 5] [].
Definition sample_l4 : L4 := TCP [1; 187] [156; 64] (repeat 0 8) 5 0 24 (repeat 0 6).
Definition sample_payload : list Z := map byteZ (bytes_of "HTTP/1.1 404 Not Found").

Lemma sample_l3_ok : l3_ok sample_l3.
Proof. repeat split; try (vm_compute; congruence); repeat constructor; vm_compute; congruence. Qed.
Lemma sample_l4_ok : l4_ok sample_l4.
Proof. repeat split; try (vm_compute; congruence); repeat constructor; vm_compute; congruence. Qed.
Lemma at_time_ok now : in_u64 now -> ctx_ok (at_time now).
Proof.
  intros Hn. split; [done|]. intros sk. change (sock_at (at_time now) sk) with quiet_sock.
  split; split; try (vm_compute; congruence); repeat constructor; vm_compute; congruence.
Qed.

Definition sample_collector : EBPFCollector := {| registration := sample_registration; ifaceName := "eth0" |}.
Definition sample_skb : SkBuff := {| skb_data := frame sample_macs sample_l3 sample_l4 sample_payload; skb_len := 74 |}.

(** A response arrives at port 40000. *)
Lemma packet_becomes_event_witness :
  exists r e, events (exec (PIngress sample_skb) (at_time 5) (loaded ∅)) = [r] /\
    collect sample_collector 1000000 (encodeRawFlowEvent r) = Ok e /\ Pipeline.SrcIP e = "10.0.0.5" /\ Pipeline.DstIP e = "10.0.0.9" /\
    Pipeline.SrcPort e = 40000 /\ Pipeline.DstPort e = 443 /\ Pipeline.ByteCount e = 74 /\ Pipeline.HTTPStatus e = 404.
Proof.
  destruct (packet_becomes_event sample_collector 1000000 (at_time 5) sample_macs sample_l3 sample_l4 sample_payload 74 true (loaded ∅))
    as (r & e & H1 & H2 & H3 & H4 & H5 & H6 & _ & _ & H9 & _ & _ & _ & H13);
    [reflexivity|exact sample_l3_ok|exact sample_l4_ok|split; vm_compute; congruence|split; vm_compute; congruence|reflexivity|vm_compute; reflexivity|
     vm_compute; reflexivity|].
  exists r, e. split; [exact H1|]. split; [exact H2|]. split; [exact H3|]. split; [exact H4|]. split; [exact H5|]. split; [exact H6|]. split; [exact H9|].
  rewrite H13. vm_compute. reflexivity.
Defined.

Definition secret_skb : SkBuff :=
  {| skb_data := frame sample_macs sample_l3 sample_l4 (map byteZ (bytes_of "HTTP/1.1 200 password!")); skb_len := 74 |}.

Lemma payload_stays_private_witness :
  with_events (emit_tc_packet (at_time 5) sample_skb DIR_INGRESS (loaded ∅)) [] =
  with_events (emit_tc_packet (at_time 5) secret_skb DIR_INGRESS (loaded ∅)) [].
Proof.
  refine (proj1 (payload_stays_private (at_time 5) sample_skb secret_skb DIR_INGRESS (loaded ∅)
    {| l4_offset := 34; src_addr := [10; 0; 0; 9] ++ repeat 0 12; dst_addr := [10; 0; 0; 5] ++ repeat 0 12; family := 2; protocol := 6 |} _ _ _ _));
    vm_compute; reflexivity.
Defined.

Lemma sample_skb_ok : skb_ok sample_skb.
Proof. split; [|split; vm_compute; congruence]. apply Forall_forall. intros x Hx. revert x Hx. apply Forall_forall. vm_compute. repeat constructor; discriminate. Qed.

Lemma kernel_records_read_witness :
  exists r, events (trace [LRun (PIngress sample_skb) (at_time 5)] (loaded ∅)) = [r] /\
    collect sample_collector 1000000 (encodeRawFlowEvent r) = Ok (convert sample_collector 1000000 r).
Proof.
  destruct (events (trace [LRun (PIngress sample_skb) (at_time 5)] (loaded ∅))) as [|r [|r' l]] eqn:E; try (vm_compute in E; discriminate E).
  exists r. split; [reflexivity|].
  refine (proj1 (kernel_records_read sample_collector 1000000 ∅ [LRun (PIngress sample_skb) (at_time 5)] r sample_registration_ok eq_refl _ _)).
  - constructor; [|constructor]. split; [apply at_time_ok; split; vm_compute; congruence|exact sample_skb_ok].
  - rewrite E. left.
Defined.

Lemma rtt_rate_limited_witness :
  let busy now := {| ktime := fun _ => now; pid_tgid := 7; sock_at := fun _ =>
    {| skc_family := 2; skc_rcv_saddr := [10; 0; 0; 5]; skc_daddr := [10; 0; 0; 9]; skc_v6_rcv_saddr := repeat 0 16; skc_v6_daddr := repeat 0 16;
       skc_num := 443; skc_dport := 16540; srtt_us := 800 |}; room := true; stores := true |} in
  let ls := [LRun (PRtt 1) (busy 5); LRun (PRtt 1) (busy 600000000); LRun (PRtt 1) (busy 1200000000)] in
  rtt_times 1 ls (loaded ∅) = [5; 1200000000] /\ Sorted (fun t1 t2 => RTT_EMIT_INTERVAL_NS <= u64 (t2 - t1)) (rtt_times 1 ls (loaded ∅)).
Proof.
  cbv zeta. split; [vm_compute; reflexivity|]. apply rtt_rate_limited. repeat constructor.
Defined.
