(* ===== verification/Protocols.v ===== *)
(** The agent's small packages: the latency decoder of [tcp/rtt], the
    placeholder collectors of [tcp/*], the records of [dns], [http] and
    [tls], [flow/processor.go], [shared/network] and the log lines of
    [flow/debug.go].

    [fmt]'s [%.2f] rounds the exact value of a float64 to two decimals,
    halves to even. *)
From Stdlib Require Import SpecFloat.
From S2P Require Import Prelude GoStrings GoFloat GoTime Reducers Netip FloatText AgentFlow Collector.

#[local] Open Scope Z_scope.

(** ** math.Float64frombits *)

Definition Float64frombits (b : Z) : float64 :=
  let s := Z.testbit b 63 in
  let e := Z.land (Z.shiftr b 52) 2047 in
  let m := Z.land b (2 ^ 52 - 1) in
  if e =? 2047 then (if m =? 0 then S754_infinity s else S754_nan)
  else match (if e =? 0 then m else m + 2 ^ 52) with
       | Zpos p => S754_finite s p (if e =? 0 then -1074 else e - 1075)
       | _ => S754_zero s
       end.

(** [math.Float64bits], the layout of IEEE 754. *)
Definition pack (s : bool) (e m : Z) : Z := Z.b2z s * 2 ^ 63 + e * 2 ^ 52 + m.
Definition Float64bits (f : float64) : Z :=
  match f with
  | S754_zero s => pack s 0 0
  | S754_infinity s => pack s 2047 0
  | S754_nan => pack false 2047 (2 ^ 51 + 1)
  | S754_finite s m e => if Zpos m <? 2 ^ 52 then pack s 0 (Zpos m) else pack s (e + 1075) (Zpos m - 2 ^ 52)
  end.

(** ** tcp/rtt/decoder.go *)

Record RttEvent := { ValueMs : float64 }.

Definition rtt_Decode (sample : list Z) : Result RttEvent :=
  if negb (Z.of_nat (length sample) =? 8) then Err (Errorf "unexpected RTT sample size %d, want 8" [Itoa (Z.of_nat (length sample))])
  else Ok {| ValueMs := Float64frombits (fst (readLE 8 sample)) |}.

(** [Run] of the placeholder collectors: both channels are closed at once,
    so a receiver sees no event and no error. *)
Definition placeholder_Run {E : Type} : list E * list GoError := ([], []).

(** ** application/dns, http and tls *)

Record Query := { q_Name : string; q_Type : Z; q_ResponseMs : float64 }.
Definition NewQuery (name : string) (queryType : Z) : Query :=
  {| q_Name := name; q_Type := queryType; q_ResponseMs := f_of_Z 0 |}.

Record HTTPRequest := { rq_Method : string; rq_Path : string }.
Record HTTPResponse := { rs_StatusCode : Z }.
Record Transaction := { tx_Method : string; tx_Path : string; tx_StatusCode : Z; tx_LatencyMs : float64 }.
Definition NewTransaction (request : HTTPRequest) (response : HTTPResponse) (latencyMs : float64) : Transaction :=
  {| tx_Method := rq_Method request; tx_Path := rq_Path request; tx_StatusCode := rs_StatusCode response; tx_LatencyMs := latencyMs |}.
Definition Correlate (request : HTTPRequest) (response : HTTPResponse) (latencyMs : float64) : Transaction :=
  NewTransaction request response latencyMs.

Record Handshake := { hs_ServerName : string; hs_Version : string; hs_Success : bool }.
Record Metadata := { md_ServerName : string; md_Version : string }.
Definition FromHandshake (handshake : Handshake) : Metadata :=
  {| md_ServerName := hs_ServerName handshake; md_Version := hs_Version handshake |}.

(** ** shared/network *)

Definition IsPrivateIP (ip : Addr) : bool := IsPrivate ip.
Definition IsLoopbackIP (ip : Addr) : bool := IsLoopback ip.

(** ** flow/processor.go *)

(** A nil processor or a nil store ([None]) ignores events and yields none. *)
Record Processor := { store : option Accumulator }.
Definition NewProcessor : option Processor := Some {| store := Some NewAccumulator |}.

Definition processor_Handle (p : option Processor) (event : Pipeline.FlowMetric) : option Processor :=
  match p with
  | Some {| store := Some flows |} => Some {| store := Some (Add flows event) |}
  | _ => p
  end.

Definition processor_Drain (p : option Processor) : list State * option Processor :=
  match p with
  | Some {| store := Some flows |} => let '(states, flows) := Drain flows in (states, Some {| store := Some flows |})
  | _ => ([], p)
  end.

(** ** flow/debug.go *)

(** [n / d] rounded to the nearest integer, halves to even. *)
Definition round_half_even (n d : Z) : Z :=
  let q := n / d in
  let r := n mod d in
  if 2 * r <? d then q else if d <? 2 * r then q + 1 else if Z.even q then q else q + 1.

(** The hundredths of a finite value without its sign. *)
Definition hundredths (m e : Z) : Z :=
  if 0 <=? e then m * 2 ^ e * 100 else round_half_even (m * 100) (2 ^ (- e)).

Definition two_digits (n : Z) : string := if n <? 10 then "0" +:+ Itoa n else Itoa n.
Definition unsigned_f2 (n : Z) : string := Itoa (n / 100) +:+ "." +:+ two_digits (n mod 100).
Definition minus (s : bool) (text : string) : string := if s then "-" +:+ text else text.

(** [%.2f] *)
Definition f2 (f : float64) : string :=
  match f with
  | S754_nan => "NaN"
  | S754_infinity s => if s then "-Inf" else "+Inf"
  | S754_zero s => minus s (unsigned_f2 0)
  | S754_finite s m e => minus s (unsigned_f2 (hundredths (Zpos m) e))
  end.

Definition DescribeEvent (stage : string) (event : Pipeline.FlowMetric) : string :=
  "flow_debug stage=" +:+ stage +:+ " event=" +:+ Pipeline.Type_ event +:+ " source=" +:+ Pipeline.Source event
  +:+ " agent=" +:+ Pipeline.AgentID event +:+ " iface=" +:+ Pipeline.Interface event
  +:+ " " +:+ Pipeline.SrcIP event +:+ ":" +:+ Itoa (Pipeline.SrcPort event) +:+ " -> "
  +:+ Pipeline.DstIP event +:+ ":" +:+ Itoa (Pipeline.DstPort event)
  +:+ " protocol=" +:+ Pipeline.Protocol event +:+ " direction=" +:+ Pipeline.FlowDirection event
  +:+ " byte_count=" +:+ Itoa (Pipeline.ByteCount event) +:+ " packets=" +:+ Itoa (Pipeline.PacketCount event)
  +:+ " conn=" +:+ Itoa (Pipeline.ConnectionCount event) +:+ " req=" +:+ Itoa (Pipeline.RequestCount event)
  +:+ " err=" +:+ Itoa (Pipeline.ErrorCount event) +:+ " retrans=" +:+ Itoa (Pipeline.RetransmissionCount event)
  +:+ " rtt_ms=" +:+ f2 (Pipeline.RTTMs event) +:+ " app_ms=" +:+ f2 (Pipeline.AppDelayMs event).

Definition DescribeState (stage : string) (state : State) : string :=
  "flow_debug stage=" +:+ stage +:+ " agent=" +:+ KAgentID (SKey state) +:+ " iface=" +:+ KInterface (SKey state)
  +:+ " " +:+ KSrcIP (SKey state) +:+ ":" +:+ Itoa (SSrcPort state) +:+ " -> "
  +:+ KDstIP (SKey state) +:+ ":" +:+ Itoa (KDstPort (SKey state))
  +:+ " protocol=" +:+ KProtocol (SKey state) +:+ " direction=" +:+ KDirection (SKey state)
  +:+ " sent=" +:+ Itoa (Bytes.Sent (TBytes (Traffic state))) +:+ " received=" +:+ Itoa (Bytes.Received (TBytes (Traffic state)))
  +:+ " packets=" +:+ Itoa (Packets.Count (TPackets (Traffic state)))
  +:+ " conn=" +:+ Itoa (Connection.OpenCount (Conn (TCP state))) +:+ " req=" +:+ Itoa (Connection.RequestHint (Conn (TCP state)))
  +:+ " err=" +:+ Itoa (Connection.ErrorCount (Conn (TCP state))) +:+ " retrans=" +:+ Itoa (Retrans.Count (Retr (TCP state)))
  +:+ " rtt_avg_ms=" +:+ f2 (Rtt.AvgMs (RTT (TCP state))) +:+ " app_avg_ms=" +:+ f2 (AvgDelayMs (App state))
  +:+ " classification=" +:+ Classification.Network (Class_ state) +:+ "/" +:+ Classification.Transport (Class_ state)
  +:+ "/" +:+ Classification.Application (Class_ state).

Definition DescribeBatch (stage : string) (states : list State) : string :=
  "flow_debug stage=" +:+ stage +:+ " batch_size=" +:+ Itoa (Z.of_nat (length states)).

(** * Facts *)

Lemma round_half_even_near n d : 0 < d -> 0 <= n -> 2 * Z.abs (round_half_even n d * d - n) <= d.
Proof.
  intros Hd Hn. unfold round_half_even. pose proof (Z.mod_pos_bound n d Hd). pose proof (Z.div_mod n d ltac:(lia)).
  destruct (Z.ltb_spec (2 * (n mod d)) d); [nia|]. destruct (Z.ltb_spec d (2 * (n mod d))); [nia|]. destruct (Z.even (n / d)); nia.
Qed.

(** The hundredths printed by [%.2f] are within half a hundredth of the value
    [m * 2 ^ e]. *)
Lemma hundredths_near m e : 0 <= m -> 2 * Z.abs (hundredths m e * 2 ^ Z.max 0 (- e) - m * 100 * 2 ^ Z.max 0 e) <= 2 ^ Z.max 0 (- e).
Proof.
  intros Hm. unfold hundredths. destruct (Z.leb_spec 0 e).
  - rewrite (Z.max_l 0 (- e)), (Z.max_r 0 e) by lia. replace (_ - _) with 0 by lia. cbn. lia.
  - rewrite (Z.max_r 0 (- e)), (Z.max_l 0 e), Z.mul_1_r by lia. apply round_half_even_near; [apply Z.pow_pos_nonneg; lia|lia].
Qed.

Lemma unpack s e m : 0 <= e < 2048 -> 0 <= m < 2 ^ 52 ->
  Z.testbit (pack s e m) 63 = s /\ Z.land (Z.shiftr (pack s e m) 52) 2047 = e /\ Z.land (pack s e m) (2 ^ 52 - 1) = m /\ 0 <= pack s e m < 2 ^ 64.
Proof.
  intros He Hm. unfold pack. assert (Hs : 0 <= Z.b2z s <= 1) by (destruct s; cbn; lia). split_and!; [| | |destruct s; cbn in *; lia|destruct s; cbn in *; lia].
  - rewrite Z.testbit_odd, Z.shiftr_div_pow2 by lia. replace ((_ + _ + m) / 2 ^ 63) with (Z.b2z s).
    + by destruct s.
    + apply Z.div_unique with (e * 2 ^ 52 + m); [left; lia|lia].
  - change 2047 with (Z.ones 11). rewrite Z.land_ones, Z.shiftr_div_pow2 by lia. replace ((_ + _ + m) / 2 ^ 52) with (Z.b2z s * 2 ^ 11 + e).
    + symmetry. apply Z.mod_unique with (Z.b2z s); [left; lia|lia].
    + apply Z.div_unique with m; [left; lia|lia].
  - change (2 ^ 52 - 1) with (Z.ones 52). rewrite Z.land_ones by lia. symmetry. apply Z.mod_unique with (Z.b2z s * 2 ^ 11 + e); [left; lia|lia].
Qed.

(** Every float64 is recovered from its bits. *)
Lemma frombits_bits f : valid_binary 53 1024 f = true -> Float64frombits (Float64bits f) = f /\ 0 <= Float64bits f < 2 ^ 64.
Proof.
  assert (Hz : forall s e m, 0 <= e < 2048 -> 0 <= m < 2 ^ 52 -> Float64frombits (pack s e m) =
    (if e =? 2047 then (if m =? 0 then S754_infinity s else S754_nan)
     else match (if e =? 0 then m else m + 2 ^ 52) with Zpos p => S754_finite s p (if e =? 0 then -1074 else e - 1075) | _ => S754_zero s end)).
  { intros s e m He Hm. destruct (unpack s e m He Hm) as (H1 & H2 & H3 & _). unfold Float64frombits. by rewrite H1, H2, H3. }
  destruct f as [s|s| |s m e]; intros Hv; cbn [Float64bits].
  1-3: split; [rewrite Hz by (cbn; lia); reflexivity|by apply unpack].
  apply valid_binary64 in Hv as (Hm & He & Hcase). destruct (Z.ltb_spec (Zpos m) (2 ^ 52)).
  - split; [|apply unpack; lia]. rewrite Hz by lia. destruct Hcase as [-> |?]; [reflexivity|lia].
  - split; [|apply unpack; lia]. rewrite Hz by lia.
    destruct (Z.eqb_spec (e + 1075) 2047); [lia|]. destruct (Z.eqb_spec (e + 1075) 0); [lia|].
    replace (Zpos m - 2 ^ 52 + 2 ^ 52) with (Zpos m) by lia. f_equal. lia.
Qed.

(** A latency sample is decoded to the float whose bytes it holds, and
    samples of another size are refused. *)
Lemma rtt_Decode_spec f sample : valid_binary 53 1024 f = true ->
  rtt_Decode (le_bytes 8 (Float64bits f)) = Ok {| ValueMs := f |} /\
  (length sample <> 8%nat -> is_ok (rtt_Decode sample) = false).
Proof.
  intros Hv. destruct (frombits_bits f Hv) as [Hf Hb]. split.
  - unfold rtt_Decode. rewrite length_le_bytes. cbn [Z.of_nat Z.eqb negb Pos.eqb].
    pose proof (readLE_app 8 (Float64bits f) [] Hb) as Hr. rewrite app_nil_r in Hr. rewrite Hr. cbn [fst]. by rewrite Hf.
  - intros Hl. unfold rtt_Decode. destruct (Z.eqb_spec (Z.of_nat (length sample)) 8); [lia|done].
Qed.

(** A processor is an accumulator: draining it after some events gives what
    the accumulator of those events holds. *)
Lemma processor_accumulates es :
  fst (processor_Drain (foldl processor_Handle NewProcessor es)) = fst (Drain (foldl Add NewAccumulator es)).
Proof.
  unfold NewProcessor. generalize NewAccumulator as flows. induction es as [|e es IH]; intros flows; [done|]. cbn [foldl processor_Handle]. apply IH.
Qed.

(** The log line of a small event. *)
Example describe_halves : f2 (f_div (f_of_Z 1) (f_of_Z 8)) = "0.12" /\ f2 (f_div (f_of_Z 3) (f_of_Z 8)) = "0.38" /\ f2 (f_of_Z 1500) = "1500.00".
Proof. vm_compute. done. Qed.
