(* ===== verification/Metrics.v ===== *)
(** The backend's telemetry rules: [backend/internal/telemetry/metrics] and
    the ingest payload of [backend/internal/model/flow.go]. *)
From S2P Require Import Prelude GoStrings GoFloat GoTime Reducers Netip AgentFlow.
From S2P Require AgentMain.

#[local] Open Scope Z_scope.

(** model/flow.go *)
Record FlowEvent := {
  AgentID : string; SrcIP : string; DstIP : string; SrcPort : Z; DstPort : Z;
  Protocol : string; Direction_ : string;
  BytesSent : Z; BytesReceived : Z; PacketCount : Z; ConnectionCount : Z; RequestCount : Z;
  ErrorCount : Z; Retransmissions : Z; AvgRTTMs : float64; AvgAppDelayMs : float64;
  HTTP1xx : Z; HTTP2xx : Z; HTTP3xx : Z; HTTP4xx : Z; HTTP5xx : Z; LastHTTPStatus : Z;
  FirstSeen : time; LastSeen : time; Interface : string
}.

(** metrics/model.go *)
Definition ProtocolTCP : string := "tcp".
Definition ProtocolUDP : string := "udp".
Definition ProtocolICMP : string := "icmp".
Definition DirectionIngress : string := "ingress".
Definition DirectionEgress : string := "egress".
Definition SeverityNormal : string := "normal".
Definition SeverityWarning : string := "warning".
Definition SeverityError : string := "error".

Definition TotalBytes (flow : FlowEvent) : Z := i64 (BytesSent flow + BytesReceived flow).

(** metrics/errors.go: [LastErrorAtArg] and [LastErrorAtPtr] differ only in
    the Go type of the optional instant. *)
Definition LastErrorAtArg (errorCount : Z) (observedAt : time) : option time :=
  if errorCount <=? 0 then None else Some observedAt.
Definition LastErrorAtPtr (errorCount : Z) (observedAt : time) : option time :=
  if errorCount <=? 0 then None else Some observedAt.

Definition NormalizePorts (protocol : string) (srcPort dstPort : Z) : Z * Z :=
  if (protocol =? ProtocolICMP)%string then (0, 0) else (srcPort, dstPort).

Definition ValidatePortRange (srcPort dstPort : Z) : Result unit :=
  if (srcPort <? 0) || (65535 <? srcPort) || (dstPort <? 0) || (65535 <? dstPort)
  then Err (Errorf "ports must be between 0 and 65535" [])
  else Ok tt.

Definition RatePerSecond `{Float64 F} (count : Z) (firstSeen lastSeen : time) : F :=
  if count <=? 0 then f_of_Z 0
  else
    let seconds := Seconds (Sub lastSeen firstSeen) in
    let seconds := if f_ltb seconds (f_of_Z 1) then f_of_Z 1 else seconds in
    f_div (f_of_Z count) seconds.

Definition InferRequestCount (event : FlowEvent) : Z :=
  if 0 <? ErrorCount event then 0
  else if 0 <? ConnectionCount event then ConnectionCount event
  else if (Protocol event =? ProtocolUDP)%string || (Protocol event =? ProtocolICMP)%string then
    if (Direction_ event =? DirectionEgress)%string then if 0 <? BytesSent event then 1 else 0
    else if (Direction_ event =? DirectionIngress)%string then if 0 <? BytesReceived event then 1 else 0
    else 0
  else 0.

Definition ConnectionSeverity `{Float64 F} (success : bool) (rttMs : F) (errorCount : Z)
    (slowRTTThresholdMs : F) : string :=
  if negb success || (0 <? errorCount) then SeverityError
  else if f_ltb (f_of_Z 0) slowRTTThresholdMs && f_leb slowRTTThresholdMs rttMs then SeverityWarning
  else SeverityNormal.

(** [*event] with the fields [ValidateFlowEvent] may assign replaced. *)
Definition with_fields (e : FlowEvent) (agentID protocol direction : string) (srcPort dstPort : Z)
    (requestCount : Z) (firstSeen lastSeen : time) : FlowEvent :=
  {| AgentID := agentID; SrcIP := SrcIP e; DstIP := DstIP e; SrcPort := srcPort; DstPort := dstPort;
     Protocol := protocol; Direction_ := direction;
     BytesSent := BytesSent e; BytesReceived := BytesReceived e; PacketCount := PacketCount e;
     ConnectionCount := ConnectionCount e; RequestCount := requestCount;
     ErrorCount := ErrorCount e; Retransmissions := Retransmissions e;
     AvgRTTMs := AvgRTTMs e; AvgAppDelayMs := AvgAppDelayMs e;
     HTTP1xx := HTTP1xx e; HTTP2xx := HTTP2xx e; HTTP3xx := HTTP3xx e; HTTP4xx := HTTP4xx e;
     HTTP5xx := HTTP5xx e; LastHTTPStatus := LastHTTPStatus e;
     FirstSeen := firstSeen; LastSeen := lastSeen; Interface := Interface e |}.

Section validation.
Context `{UnicodeCase}.

(** [ValidateFlowEvent]; [now] is [time.Now().UTC()].  The event is passed
    by pointer: [Ok] carries its final value (callers drop it on an error). *)
Definition ValidateFlowEvent (now : time) (event : FlowEvent) : Result FlowEvent :=
  let agentID := TrimSpace (AgentID event) in
  let protocol := ToLower (TrimSpace (Protocol event)) in
  let direction := ToLower (TrimSpace (Direction_ event)) in
  guard_err (agentID =? "")%string as (Errorf "agent_id is required" []) ;;
  guard_err (negb (protocol =? ProtocolTCP)%string && negb (protocol =? ProtocolUDP)%string
             && negb (protocol =? ProtocolICMP)%string)
    as (Errorf "protocol must be tcp, udp, or icmp" []) ;;
  let '(srcPort, dstPort) := NormalizePorts protocol (SrcPort event) (DstPort event) in
  let direction := if (direction =? "")%string then DirectionEgress else direction in
  guard_err (negb (direction =? DirectionIngress)%string && negb (direction =? DirectionEgress)%string)
    as (Errorf "direction must be ingress or egress" []) ;;
  _ <-- match ParseAddr (SrcIP event) with
        | Ok _ => Ok tt | Err err => Err (ErrorfW "invalid src_ip: %w" [] err) end ;;
  _ <-- match ParseAddr (DstIP event) with
        | Ok _ => Ok tt | Err err => Err (ErrorfW "invalid dst_ip: %w" [] err) end ;;
  _ <-- ValidatePortRange srcPort dstPort ;;
  guard_err ((BytesSent event <? 0) || (BytesReceived event <? 0) || (PacketCount event <? 0)
             || (ConnectionCount event <? 0) || (RequestCount event <? 0) || (ErrorCount event <? 0)
             || (Retransmissions event <? 0))
    as (Errorf "flow counters cannot be negative" []) ;;
  guard_err (f_ltb (AvgRTTMs event) (f_of_Z 0) || f_ltb (AvgAppDelayMs event) (f_of_Z 0))
    as (Errorf "flow latency metrics cannot be negative" []) ;;
  guard_err ((HTTP1xx event <? 0) || (HTTP2xx event <? 0) || (HTTP3xx event <? 0)
             || (HTTP4xx event <? 0) || (HTTP5xx event <? 0))
    as (Errorf "http status counters cannot be negative" []) ;;
  guard_err (negb (LastHTTPStatus event =? 0)
             && ((LastHTTPStatus event <? 100) || (599 <? LastHTTPStatus event)))
    as (Errorf "last_http_status must be between 100 and 599" []) ;;
  let firstSeen := if IsZero (FirstSeen event) then now else FirstSeen event in
  let lastSeen := if IsZero (LastSeen event) then firstSeen else LastSeen event in
  guard_err (Before lastSeen firstSeen) as (Errorf "last_seen cannot be before first_seen" []) ;;
  let e := with_fields event agentID protocol direction srcPort dstPort (RequestCount event) firstSeen lastSeen in
  Ok (if RequestCount event =? 0
      then with_fields event agentID protocol direction srcPort dstPort (InferRequestCount e) firstSeen lastSeen
      else e).

End validation.

(** The payload the agent posts, as the handler decodes it: the JSON field
    names of exporter/flow_payload.go and model/flow.go coincide and omitted
    fields decode to their zero values. *)
Definition received (p : AgentMain.FlowEvent) : FlowEvent :=
  {| AgentID := AgentMain.AgentID p; SrcIP := AgentMain.SrcIP p; DstIP := AgentMain.DstIP p;
     SrcPort := AgentMain.SrcPort p; DstPort := AgentMain.DstPort p;
     Protocol := AgentMain.Protocol p; Direction_ := AgentMain.FlowDirection p;
     BytesSent := AgentMain.BytesSent p; BytesReceived := AgentMain.BytesReceived p;
     PacketCount := AgentMain.PacketCount p; ConnectionCount := AgentMain.ConnectionCount p;
     RequestCount := AgentMain.RequestCount p; ErrorCount := AgentMain.ErrorCount p;
     Retransmissions := AgentMain.Retransmissions p;
     AvgRTTMs := AgentMain.AvgRTTMs p; AvgAppDelayMs := AgentMain.AvgAppDelayMs p;
     HTTP1xx := AgentMain.HTTP1xx p; HTTP2xx := AgentMain.HTTP2xx p; HTTP3xx := AgentMain.HTTP3xx p;
     HTTP4xx := AgentMain.HTTP4xx p; HTTP5xx := AgentMain.HTTP5xx p;
     LastHTTPStatus := AgentMain.LastHTTPStatus p;
     FirstSeen := AgentMain.FirstSeen p; LastSeen := AgentMain.LastSeen p; Interface := AgentMain.Interface p |}.

(** * Facts *)

(** What the rest of the backend may rely on after validation. *)
Record valid_flow (e : FlowEvent) : Prop := {
  vf_agent : AgentID e <> "" /\ TrimSpace (AgentID e) = AgentID e;
  vf_proto : protocol_ok (Protocol e);
  vf_dir : direction_ok (Direction_ e);
  vf_src : ip_ok (SrcIP e);
  vf_dst : ip_ok (DstIP e);
  vf_ports : port_ok (SrcPort e) /\ port_ok (DstPort e);
  vf_icmp : Protocol e = ProtocolICMP -> SrcPort e = 0 /\ DstPort e = 0;
  vf_counters : 0 <= BytesSent e /\ 0 <= BytesReceived e /\ 0 <= PacketCount e /\
    0 <= ConnectionCount e /\ 0 <= RequestCount e /\ 0 <= ErrorCount e /\ 0 <= Retransmissions e;
  vf_latency : f_ltb (AvgRTTMs e) (f_of_Z 0) = false /\ f_ltb (AvgAppDelayMs e) (f_of_Z 0) = false;
  vf_http : 0 <= HTTP1xx e /\ 0 <= HTTP2xx e /\ 0 <= HTTP3xx e /\ 0 <= HTTP4xx e /\ 0 <= HTTP5xx e;
  vf_status : status_ok (LastHTTPStatus e);
  vf_seen : FirstSeen e <= LastSeen e /\ FirstSeen e <> 0 /\ LastSeen e <> 0;
  vf_requests : RequestCount e = 0 -> InferRequestCount e = 0
}.

Section facts.
Context `{UnicodeCase}.

Lemma InferRequestCount_nonneg e : 0 <= ConnectionCount e -> 0 <= InferRequestCount e.
Proof. intros. unfold InferRequestCount. repeat case_match; lia. Qed.

Lemma protocol_guard p :
  negb (p =? ProtocolTCP)%string && negb (p =? ProtocolUDP)%string && negb (p =? ProtocolICMP)%string = false
  <-> protocol_ok p.
Proof.
  unfold protocol_ok, Classification.ProtocolTCP, Classification.ProtocolUDP, Classification.ProtocolICMP,
    ProtocolTCP, ProtocolUDP, ProtocolICMP.
  rewrite !andb_false_iff, !negb_false_iff, !String.eqb_eq. tauto.
Qed.

Lemma direction_guard d :
  negb (d =? DirectionIngress)%string && negb (d =? DirectionEgress)%string = false <-> direction_ok d.
Proof.
  unfold direction_ok, Direction.Ingress, Direction.Egress, DirectionIngress, DirectionEgress.
  by rewrite !andb_false_iff, !negb_false_iff, !String.eqb_eq.
Qed.

Lemma ToLower_protocol p : protocol_ok p -> ToLower (TrimSpace p) = p.
Proof. intros [-> | [-> | ->]]; vm_compute; done. Qed.

Lemma ToLower_direction d : direction_ok d -> ToLower (TrimSpace d) = d.
Proof. intros [-> | ->]; vm_compute; done. Qed.

Lemma ValidatePortRange_spec s d : ValidatePortRange s d = Ok tt <-> port_ok s /\ port_ok d.
Proof.
  unfold ValidatePortRange, port_ok. split.
  - destruct (_ || _) eqn:E; [done|]. bools. lia.
  - intros. replace (_ || _) with false; [done|]. symmetry. rewrite !orb_false_iff, !Z.ltb_ge. lia.
Qed.

Lemma seen_ok now first last :
  now <> 0 ->
  let firstSeen := if IsZero first then now else first in
  let lastSeen := if IsZero last then firstSeen else last in
  Before lastSeen firstSeen = false -> firstSeen <= lastSeen /\ firstSeen <> 0 /\ lastSeen <> 0.
Proof.
  intros Hn. unfold IsZero, Before. cbv zeta.
  destruct (Z.eqb_spec first 0), (Z.eqb_spec last 0); rewrite Z.ltb_ge; lia.
Qed.

Lemma status_guard z :
  negb (z =? 0) && ((z <? 100) || (599 <? z)) = false <-> status_ok z.
Proof.
  unfold status_ok. rewrite andb_false_iff, negb_false_iff, orb_false_iff, Z.eqb_eq, !Z.ltb_ge. lia.
Qed.

Lemma guards_spec (e : FlowEvent) :
  ((BytesSent e <? 0) || (BytesReceived e <? 0) || (PacketCount e <? 0)
     || (ConnectionCount e <? 0) || (RequestCount e <? 0) || (ErrorCount e <? 0)
     || (Retransmissions e <? 0) = false <->
   0 <= BytesSent e /\ 0 <= BytesReceived e /\ 0 <= PacketCount e /\
    0 <= ConnectionCount e /\ 0 <= RequestCount e /\ 0 <= ErrorCount e /\ 0 <= Retransmissions e) /\
  ((HTTP1xx e <? 0) || (HTTP2xx e <? 0) || (HTTP3xx e <? 0) || (HTTP4xx e <? 0) || (HTTP5xx e <? 0) = false <->
   0 <= HTTP1xx e /\ 0 <= HTTP2xx e /\ 0 <= HTTP3xx e /\ 0 <= HTTP4xx e /\ 0 <= HTTP5xx e).
Proof. rewrite !orb_false_iff, !Z.ltb_ge. tauto. Qed.

(** The fields validation never touches. *)
Definition same_measurements (e e' : FlowEvent) : Prop :=
  SrcIP e' = SrcIP e /\ DstIP e' = DstIP e /\ BytesSent e' = BytesSent e /\ BytesReceived e' = BytesReceived e /\
  PacketCount e' = PacketCount e /\ ConnectionCount e' = ConnectionCount e /\ ErrorCount e' = ErrorCount e /\
  Retransmissions e' = Retransmissions e /\ AvgRTTMs e' = AvgRTTMs e /\ AvgAppDelayMs e' = AvgAppDelayMs e /\
  HTTP1xx e' = HTTP1xx e /\ HTTP2xx e' = HTTP2xx e /\ HTTP3xx e' = HTTP3xx e /\ HTTP4xx e' = HTTP4xx e /\
  HTTP5xx e' = HTTP5xx e /\ LastHTTPStatus e' = LastHTTPStatus e /\ Interface e' = Interface e.

Lemma Validate_sound now e e' :
  now <> 0 -> ValidateFlowEvent now e = Ok e' ->
  valid_flow e' /\ same_measurements e e' /\
  (RequestCount e <> 0 -> RequestCount e' = RequestCount e) /\
  (RequestCount e = 0 -> RequestCount e' = InferRequestCount e').
Proof.
  intros Hnow. unfold ValidateFlowEvent.
  destruct (String.eqb_spec (TrimSpace (AgentID e)) "") as [|Ha]; [done|].
  set (proto := ToLower (TrimSpace (Protocol e))). set (dir := ToLower (TrimSpace (Direction_ e))).
  destruct (_ && _ && _) eqn:Hp; [done|]. apply protocol_guard in Hp.
  destruct (NormalizePorts proto (SrcPort e) (DstPort e)) as [sp dp] eqn:Hn.
  set (dir' := if (dir =? "")%string then DirectionEgress else dir).
  destruct (negb (dir' =? DirectionIngress)%string && _) eqn:Hd; [done|]. apply direction_guard in Hd.
  destruct (ParseAddr (SrcIP e)) as [src|] eqn:Hs; [|done].
  destruct (ParseAddr (DstIP e)) as [dst|] eqn:Hds; [|done]. cbn [rbind].
  destruct (ValidatePortRange sp dp) as [[]|] eqn:Hport; [|done]. cbn [rbind].
  apply ValidatePortRange_spec in Hport.
  destruct (_ || (Retransmissions e <? 0)) eqn:Hc; [done|]. apply (proj1 (guards_spec e)) in Hc.
  destruct (f_ltb (AvgRTTMs e) _ || _) eqn:Hl; [done|]. apply orb_false_iff in Hl.
  destruct (_ || (HTTP5xx e <? 0)) eqn:Hh; [done|]. apply (proj2 (guards_spec e)) in Hh.
  destruct (negb (LastHTTPStatus e =? 0) && _) eqn:Hst; [done|]. apply status_guard in Hst.
  destruct (Before _ _) eqn:Hb; [done|]. apply (seen_ok now (FirstSeen e) (LastSeen e) Hnow) in Hb.
  set (fs := if IsZero (FirstSeen e) then now else FirstSeen e) in *.
  set (ls := if IsZero (LastSeen e) then fs else LastSeen e) in *.
  set (base := with_fields e _ proto dir' sp dp _ fs ls).
  assert (Hi : proto = ProtocolICMP -> sp = 0 /\ dp = 0).
  { intros ->. unfold NormalizePorts in Hn. rewrite String.eqb_refl in Hn. by simplify_eq. }
  assert (Hnn : 0 <= InferRequestCount base) by (apply InferRequestCount_nonneg; apply Hc).
  intros [= <-]. destruct (Z.eqb_spec (RequestCount e) 0) as [E|E];
    (split; [split|split; [|split]]); cbn; try (done || lia || by eexists || by rewrite ?TrimSpace_idemp).
  all: try (split; [done|apply TrimSpace_idemp]).
  all: destruct Hc as (? & ? & ? & ? & ? & ? & ?); split_and!; try done.
Qed.

Lemma Validate_valid now e : valid_flow e -> ValidateFlowEvent now e = Ok e.
Proof.
  intros [Ha Hp Hd [src Hs] [dst Hds] Hport Hi Hc Hl Hh Hst Hb Hr].
  unfold ValidateFlowEvent. destruct Ha as [Ha ->]. rewrite (proj2 (String.eqb_neq _ _) Ha).
  rewrite (ToLower_protocol _ Hp), (ToLower_direction _ Hd).
  rewrite (proj2 (protocol_guard _) Hp).
  assert (Hn : NormalizePorts (Protocol e) (SrcPort e) (DstPort e) = (SrcPort e, DstPort e)).
  { unfold NormalizePorts. destruct (String.eqb_spec (Protocol e) ProtocolICMP) as [E|]; [|done].
    by destruct (Hi E) as [-> ->]. }
  rewrite Hn. replace (if (Direction_ e =? "")%string then DirectionEgress else Direction_ e) with (Direction_ e)
    by (destruct Hd as [-> | ->]; done).
  rewrite (proj2 (direction_guard _) Hd), Hs, Hds. cbn [rbind].
  rewrite (proj2 (ValidatePortRange_spec _ _) Hport). cbn [rbind].
  destruct (guards_spec e) as [G1 G2]. rewrite (proj2 G1 Hc), (proj2 G2 Hh), (proj2 (status_guard _) Hst).
  destruct Hl as [-> ->]. cbn [orb]. unfold IsZero, Before.
  rewrite (proj2 (Z.eqb_neq (FirstSeen e) 0)), (proj2 (Z.eqb_neq (LastSeen e) 0)) by tauto.
  rewrite (proj2 (Z.ltb_ge _ _)) by lia.
  assert (Hid : with_fields e (AgentID e) (Protocol e) (Direction_ e) (SrcPort e) (DstPort e) (RequestCount e)
                  (FirstSeen e) (LastSeen e) = e) by (by destruct e).
  rewrite Hid. destruct (Z.eqb_spec (RequestCount e) 0) as [E0|]; [|done].
  rewrite (Hr E0), <- E0. by rewrite Hid.
Qed.
End facts.

(** Validation is sound.  An accepted event has a trimmed non-empty
    agent, a known protocol and direction, parseable addresses, ports in
    range (0 for ICMP), non-negative counters and latencies, a status that
    is 0 or in 100..599 and ordered timestamps; every measurement is passed
    on unchanged, and an explicit request count is kept while a missing one
    is inferred. *)
Theorem validate_sound (uc : UnicodeCase) (now : time) (e e' : FlowEvent) :
  now <> 0 -> ValidateFlowEvent now e = Ok e' ->
  valid_flow e' /\ same_measurements e e' /\
  (RequestCount e <> 0 -> RequestCount e' = RequestCount e) /\
  (RequestCount e = 0 -> RequestCount e' = InferRequestCount e').
Proof. apply Validate_sound. Qed.

(** Validation is idempotent.  An accepted event is accepted again,
    unchanged, at any later time: normalisation reaches a fixed point in one
    round and the inferred request count is not inferred twice. *)
Theorem validate_idempotent (uc : UnicodeCase) (now now' : time) (e e' : FlowEvent) :
  now <> 0 -> ValidateFlowEvent now e = Ok e' -> ValidateFlowEvent now' e' = Ok e'.
Proof. intros Hn He. apply Validate_valid. by apply (Validate_sound now e). Qed.

(** ** From the agent's payload to acceptance *)

Lemma Validate_accepts `{UnicodeCase} now e :
  TrimSpace (AgentID e) <> "" -> protocol_ok (Protocol e) -> direction_ok (Direction_ e) ->
  ip_ok (SrcIP e) -> ip_ok (DstIP e) -> port_ok (SrcPort e) -> port_ok (DstPort e) ->
  (0 <= BytesSent e /\ 0 <= BytesReceived e /\ 0 <= PacketCount e /\
    0 <= ConnectionCount e /\ 0 <= RequestCount e /\ 0 <= ErrorCount e /\ 0 <= Retransmissions e) ->
  f_ltb (AvgRTTMs e) (f_of_Z 0) = false /\ f_ltb (AvgAppDelayMs e) (f_of_Z 0) = false ->
  (0 <= HTTP1xx e /\ 0 <= HTTP2xx e /\ 0 <= HTTP3xx e /\ 0 <= HTTP4xx e /\ 0 <= HTTP5xx e) ->
  status_ok (LastHTTPStatus e) -> 0 < FirstSeen e <= LastSeen e ->
  exists e', ValidateFlowEvent now e = Ok e'.
Proof.
  intros Ha Hp Hd [src Hs] [dst Hds] Hsp Hdp Hc Hl Hh Hst Hb. unfold ValidateFlowEvent.
  rewrite (proj2 (String.eqb_neq _ _) Ha), (ToLower_protocol _ Hp), (ToLower_direction _ Hd).
  rewrite (proj2 (protocol_guard _) Hp).
  destruct (NormalizePorts (Protocol e) (SrcPort e) (DstPort e)) as [sp dp] eqn:Hn.
  replace (if (Direction_ e =? "")%string then DirectionEgress else Direction_ e) with (Direction_ e)
    by (destruct Hd as [-> | ->]; done).
  rewrite (proj2 (direction_guard _) Hd), Hs, Hds. cbn [rbind].
  rewrite (proj2 (ValidatePortRange_spec sp dp)).
  2:{ unfold NormalizePorts in Hn. destruct (_ =? _)%string; simplify_eq; unfold port_ok in *; lia. }
  cbn [rbind]. destruct (guards_spec e) as [G1 G2].
  rewrite (proj2 G1 Hc), (proj2 G2 Hh), (proj2 (status_guard _) Hst).
  destruct Hl as [-> ->]. cbn [orb]. unfold IsZero, Before.
  rewrite (proj2 (Z.eqb_neq (FirstSeen e) 0)), (proj2 (Z.eqb_neq (LastSeen e) 0)) by lia.
  rewrite (proj2 (Z.ltb_ge _ _)) by lia. eauto.
Qed.

(** No counter of the payload has reached 2^63 (it would be negative as an
    [int64]) and its averages are not negative. *)
Definition payload_sane (p : AgentMain.FlowEvent) : Prop :=
  (0 <= AgentMain.BytesSent p /\ 0 <= AgentMain.BytesReceived p /\ 0 <= AgentMain.PacketCount p /\
   0 <= AgentMain.ConnectionCount p /\ 0 <= AgentMain.RequestCount p /\ 0 <= AgentMain.ErrorCount p /\
   0 <= AgentMain.Retransmissions p) /\
  (f_ltb (AgentMain.AvgRTTMs p) (f_of_Z 0) = false /\ f_ltb (AgentMain.AvgAppDelayMs p) (f_of_Z 0) = false) /\
  (0 <= AgentMain.HTTP1xx p /\ 0 <= AgentMain.HTTP2xx p /\ 0 <= AgentMain.HTTP3xx p /\
   0 <= AgentMain.HTTP4xx p /\ 0 <= AgentMain.HTTP5xx p).


(** * Concrete events *)

(** Lower-casing beyond ASCII does not occur below. *)
Definition ascii_only : UnicodeCase := fun s => s.

Definition sample_event : FlowEvent :=
  {| AgentID := " agent-1 "; SrcIP := "10.0.0.5"; DstIP := "10.0.0.9"; SrcPort := 40000; DstPort := 443;
     Protocol := "TCP"; Direction_ := ""; BytesSent := 1500; BytesReceived := 40; PacketCount := 3;
     ConnectionCount := 2; RequestCount := 0; ErrorCount := 0; Retransmissions := 0;
     AvgRTTMs := f_of_Z 3; AvgAppDelayMs := f_of_Z 0; HTTP1xx := 0; HTTP2xx := 1; HTTP3xx := 0; HTTP4xx := 0;
     HTTP5xx := 0; LastHTTPStatus := 200; FirstSeen := 1000000; LastSeen := 2000000; Interface := "eth0" |}.

Definition sample_validated : FlowEvent :=
  with_fields sample_event "agent-1" "tcp" "egress" 40000 443 2 1000000 2000000.

Lemma sample_validates : @ValidateFlowEvent ascii_only 5 sample_event = Ok sample_validated.
Proof. vm_compute. reflexivity. Qed.

Lemma validate_sound_witness : valid_flow sample_validated /\ RequestCount sample_validated = 2.
Proof.
  destruct (validate_sound ascii_only 5 sample_event sample_validated) as (Hv & _ & _ & Hr);
    [discriminate|apply sample_validates|]. split; [exact Hv|]. rewrite Hr; reflexivity.
Defined.

Lemma validate_idempotent_witness : @ValidateFlowEvent ascii_only 9 sample_validated = Ok sample_validated.
Proof. apply (validate_idempotent ascii_only 5 9 sample_event); [discriminate|apply sample_validates]. Defined.

(** One event, a tick, and the sender delivering the batch. *)
Definition sample_state : State :=
  Apply (newState (KeyFromMetric AgentMain.sample_event)) AgentMain.sample_event.

Lemma sample_delivery : exists a,
  AgentMain.runs AgentMain.sample_cfg [AgentMain.sample_event] a /\
  AgentMain.delivered a = [AgentMain.FromFlowState sample_state].
Proof.
  set (a1 := AgentMain.on_event AgentMain.sample_cfg AgentMain.agent_start AgentMain.sample_event).
  set (a2 := AgentMain.on_tick a1 [sample_state]).
  set (a3 := AgentMain.on_take a2 [sample_state] []).
  exists (AgentMain.on_send a3 sample_state [] (fst (fst (AgentMain.sendFlow (fun _ => Ok tt) (fun _ => false))))).
  split; [|vm_compute; reflexivity].
  assert (H1 : AgentMain.runs AgentMain.sample_cfg [AgentMain.sample_event] a1).
  { apply (AgentMain.runs_step _ [] _ (Some AgentMain.sample_event) _ (AgentMain.runs_start _)), AgentMain.step_event. }
  assert (H2 : AgentMain.runs AgentMain.sample_cfg [AgentMain.sample_event] a2).
  { apply (AgentMain.runs_step _ _ _ None _ H1), AgentMain.step_tick. vm_compute. reflexivity. }
  assert (H3 : AgentMain.runs AgentMain.sample_cfg [AgentMain.sample_event] a3).
  { apply (AgentMain.runs_step _ _ _ None _ H2), AgentMain.step_sender, AgentMain.sender_take; vm_compute; reflexivity. }
  apply (AgentMain.runs_step _ _ _ None _ H3), AgentMain.step_sender, AgentMain.sender_send. vm_compute. reflexivity.
Qed.

