(* ===== verification/Classifier.v ===== *)
(** Scope and service classification and graph visibility:
    [classifier.go], [service_classifier.go], [visibility.go] and the small
    helpers of [resolver.go] under [backend/internal/service]. *)
From S2P Require Import Prelude GoStrings Netip.

#[local] Open Scope Z_scope.

(** ** classifier.go *)
Definition ScopeInternalSameTenant : string := "internal_same_tenant".
Definition ScopeInternalCrossTenant : string := "internal_cross_tenant".
Definition ScopeUnknownInternal : string := "unknown_internal".
Definition ScopeExternalPublic : string := "external_public".
Definition ScopeExternalPrivate : string := "external_private".
Definition ScopeUnknown : string := "unknown".

Record Classifier := { prefixes : list Prefix; unregisteredInternalScope : string }.

Fixpoint parse_cidrs (cidrs : list string) : Result (list Prefix) :=
  match cidrs with
  | [] => Ok []
  | cidr :: rest =>
      match ParsePrefix cidr with
      | Err err => Err (ErrorfW "parse internal CIDR %q: %w" [cidr] err)
      | Ok prefix => ps <-- parse_cidrs rest ;; Ok (Masked prefix :: ps)
      end
  end.

Definition NewClassifier (cidrs : list string) (unregisteredInternalScope : string) : Result Classifier :=
  let scope := if (unregisteredInternalScope =? "")%string then ScopeExternalPrivate
               else unregisteredInternalScope in
  guard_err (negb (scope =? ScopeExternalPrivate)%string && negb (scope =? ScopeUnknownInternal)%string)
    as (Errorf "unsupported unregistered internal scope %q" [scope]) ;;
  ps <-- parse_cidrs cidrs ;;
  Ok {| prefixes := ps; unregisteredInternalScope := scope |}.

Definition IsConfiguredInternal (c : Classifier) (ip : string) : bool :=
  match ParseAddr ip with
  | Err _ => false
  | Ok addr => existsb (fun prefix => Contains prefix addr) (prefixes c)
  end.

Definition IsInternal (c : Classifier) (ip : string) : bool := IsConfiguredInternal c ip.

Definition Scope (c : Classifier) (sourceTenant destinationTenant : string)
    (destinationRegistered : bool) (dstIP : string) : string :=
  if destinationRegistered then
    if (sourceTenant =? destinationTenant)%string then ScopeInternalSameTenant
    else ScopeInternalCrossTenant
  else match ParseAddr dstIP with
  | Err _ => ScopeUnknown
  | Ok addr =>
      if IsConfiguredInternal c dstIP then unregisteredInternalScope c
      else if IsPrivate addr || IsLoopback addr || IsLinkLocalUnicast addr then ScopeExternalPrivate
      else ScopeExternalPublic
  end.

(** ** service_classifier.go *)
Definition tcpServices : list (Z * string) :=
  [(20, "ftp-data"); (21, "ftp"); (22, "ssh"); (25, "smtp"); (53, "dns"); (80, "http");
   (110, "pop3"); (143, "imap"); (443, "https"); (445, "smb"); (465, "smtps"); (587, "smtp");
   (636, "ldaps"); (873, "rsync"); (1883, "mqtt"); (2379, "etcd"); (2380, "etcd-peer");
   (3000, "development-http"); (3306, "mysql"); (4222, "nats"); (5432, "postgresql");
   (5671, "rabbitmq-tls"); (5672, "rabbitmq"); (6379, "redis"); (6443, "kubernetes-api");
   (8080, "http-alt"); (8081, "http-alt"); (8443, "https-alt"); (9090, "prometheus");
   (9092, "kafka"); (9100, "node-exporter"); (9200, "elasticsearch"); (9418, "git");
   (10250, "kubelet"); (15672, "rabbitmq-management"); (27017, "mongodb")].

Definition udpServices : list (Z * string) :=
  [(53, "dns"); (67, "dhcp-server"); (68, "dhcp-client"); (123, "ntp"); (161, "snmp");
   (443, "quic"); (514, "syslog"); (8125, "statsd")].

(** A Go map literal has distinct keys: lookup in the list is map lookup. *)
Fixpoint service_lookup (services : list (Z * string)) (port : Z) : option string :=
  match services with
  | [] => None
  | (p, name) :: rest => if p =? port then Some name else service_lookup rest port
  end.

(** [isEphemeralPort] of graph_service.go. *)
Definition isEphemeralPort (port : Z) : bool := 32768 <=? port.

Definition proto_port (protocol : string) (port : Z) : string := protocol +:+ "/" +:+ Itoa port.

Definition classifyService (protocol direction : string) (srcPort dstPort : Z) : string * Z :=
  if (protocol =? "icmp")%string then ("icmp", 0)
  else
    let services := if (protocol =? "udp")%string then udpServices else tcpServices in
    match service_lookup services dstPort with
    | Some name => (name, dstPort)
    | None =>
        match service_lookup services srcPort with
        | Some name => (name, srcPort)
        | None =>
            if (protocol =? "tcp")%string && (30000 <=? dstPort) && (dstPort <=? 32767)
            then ("kubernetes-nodeport", dstPort)
            else if (0 <? srcPort) && (0 <? dstPort)
                    && negb (isEphemeralPort srcPort) && isEphemeralPort dstPort
            then (proto_port protocol srcPort, srcPort)
            else if (0 <? srcPort) && (0 <? dstPort)
                    && isEphemeralPort srcPort && negb (isEphemeralPort dstPort)
            then (proto_port protocol dstPort, dstPort)
            else if (direction =? "ingress")%string
            then (proto_port protocol srcPort, srcPort)
            else (proto_port protocol dstPort, dstPort)
        end
    end.

(** ** visibility.go *)
Record GraphVisibility := {
  ExcludedPorts : list Z; AllowedPorts : list Z; ExcludedIPs : list string; IncludeIdle : bool
}.

Fixpoint intIn (value : Z) (values : list Z) : bool :=
  match values with
  | [] => false
  | item :: rest => if value =? item then true else intIn value rest
  end.

Fixpoint portMatchesAny (values : list Z) (ports : list Z) : bool :=
  match ports with
  | [] => false
  | port :: rest => if intIn port values then true else portMatchesAny values rest
  end.

Definition isGraphNoiseIP (ip : string) : bool :=
  match ParseAddr (TrimSpace ip) with
  | Err _ => false
  | Ok addr => IsLoopback addr || IsMulticast addr || IsLinkLocalUnicast addr || IsUnspecified addr
  end.

Definition hiddenByGraphIPs (visibility : GraphVisibility) (srcIP dstIP : string) : bool :=
  if isGraphNoiseIP srcIP || isGraphNoiseIP dstIP then true
  else existsb (fun ip => negb (ip =? "")%string && ((srcIP =? ip)%string || (dstIP =? ip)%string))
         (ExcludedIPs visibility).

Definition hiddenByGraphVisibility (visibility : GraphVisibility) (srcPort dstPort : Z)
    (srcIP dstIP : string) : bool :=
  if (0 <? length (AllowedPorts visibility))%nat
     && negb (portMatchesAny (AllowedPorts visibility) [srcPort; dstPort]) then true
  else if portMatchesAny (ExcludedPorts visibility) [srcPort; dstPort] then true
  else hiddenByGraphIPs visibility srcIP dstIP.

Definition hiddenByServicePort (visibility : GraphVisibility) (servicePort : Z) : bool :=
  if servicePort <=? 0 then false
  else if (0 <? length (AllowedPorts visibility))%nat
          && negb (intIn servicePort (AllowedPorts visibility)) then true
  else intIn servicePort (ExcludedPorts visibility).

Definition shouldFlipServiceResponse (srcPort dstPort : Z) : bool :=
  (0 <? srcPort) && (0 <? dstPort) && negb (isEphemeralPort srcPort) && isEphemeralPort dstPort.

(** ** resolver.go helpers: [nil] arguments are [None]. *)
Definition nullIfEmpty (value : string) : option string :=
  if (value =? "")%string then None else Some value.
Definition nullIfZeroStatus (status : Z) : option Z :=
  if (status <? 100) || (599 <? status) then None else Some status.

(** * Facts *)

Lemma intIn_spec value values : intIn value values = true <-> value ∈ values.
Proof.
  induction values as [|x l IH]; simpl; [by rewrite elem_of_nil|].
  destruct (Z.eqb_spec value x); rewrite elem_of_cons; naive_solver.
Qed.

Lemma portMatchesAny_spec values ports :
  portMatchesAny values ports = true <-> exists p, p ∈ ports /\ p ∈ values.
Proof.
  induction ports as [|x l IH]; simpl; [split; [done|by intros (p & Hp%elem_of_nil & _)]|].
  destruct (intIn x values) eqn:E.
  - apply intIn_spec in E. split; [|done]. intros _. exists x. split; [left|done].
  - rewrite IH. split.
    + intros (p & ? & ?). exists p. split; [by right|done].
    + intros (p & [->|?]%elem_of_cons & Hv); [|by exists p].
      apply intIn_spec in Hv. congruence.
Qed.

(** The scopes the tables admit are the ones the classifier gives. *)
Lemma Scope_known cidrs setting c s d r ip :
  NewClassifier cidrs setting = Ok c ->
  Scope c s d r ip ∈ [ScopeInternalSameTenant; ScopeInternalCrossTenant; ScopeUnknownInternal;
                      ScopeExternalPublic; ScopeExternalPrivate; ScopeUnknown].
Proof.
  unfold NewClassifier. set (sc := if (setting =? "")%string then _ else _).
  destruct (negb _ && _) eqn:E; [done|]. intros (ps & _ & [= <-])%rbind_Ok.
  assert (Hsc : sc = ScopeExternalPrivate \/ sc = ScopeUnknownInternal).
  { apply andb_false_iff in E. rewrite !negb_false_iff, !String.eqb_eq in E. done. }
  unfold Scope. simpl. repeat case_match; destruct Hsc as [-> | ->]; set_solver.
Qed.

(** A flow is classified into exactly one of the five scopes, and
    which: registered destinations by tenant equality; otherwise an
    unparseable address is unknown; an address inside a configured CIDR (its
    leading bits, as written, unmasked) gets the configured scope; and the
    rest is private (private, loopback or link-local, also IPv4-mapped) or
    public. *)
Theorem scope_spec (cidrs : list string) (scope : string) (c : Classifier)
    (sourceTenant destinationTenant : string) (registered : bool) (dstIP : string) :
  NewClassifier cidrs scope = Ok c ->
  Scope c sourceTenant destinationTenant registered dstIP =
    if registered then
      if decide (sourceTenant = destinationTenant) then ScopeInternalSameTenant else ScopeInternalCrossTenant
    else match ParseAddr dstIP with
    | Err _ => ScopeUnknown
    | Ok addr =>
        if existsb (fun cidr => match ParsePrefix cidr with Ok p => Contains p addr | Err _ => false end) cidrs
        then if (scope =? "")%string then ScopeExternalPrivate else scope
        else if IsPrivate addr || IsLoopback addr || IsLinkLocalUnicast addr then ScopeExternalPrivate
        else ScopeExternalPublic
    end.
Proof.
  unfold NewClassifier. destruct (_ && _); [done|]. intros (ps & Hps & [= <-])%rbind_Ok.
  unfold Scope. destruct registered.
  { destruct (String.eqb_spec sourceTenant destinationTenant); by case_decide. }
  unfold IsConfiguredInternal. destruct (ParseAddr dstIP) as [addr|] eqn:Ea; [|done].
  apply ParseAddr_ok in Ea. cbn [prefixes unregisteredInternalScope].
  assert (E : existsb (fun prefix => Contains prefix addr) ps
    = existsb (fun cidr => match ParsePrefix cidr with Ok p => Contains p addr | Err _ => false end) cidrs).
  { clear scope. revert ps Hps. induction cidrs as [|x l IH]; intros ps Hps; simpl in *; [by simplify_eq|].
    destruct (ParsePrefix x) as [p|] eqn:Ep; [|done].
    apply rbind_Ok in Hps as (qs & Hqs & [= <-]). simpl.
    rewrite (IH _ Hqs), Masked_Contains; [done|by eapply ParsePrefix_ok|done]. }
  rewrite E. done.
Qed.

(** The service port of a flow is one of its two ports (0 for ICMP),
    it is a well-known one whenever either port is, and both directions of a
    conversation between a non-ephemeral and an ephemeral port are
    classified alike: swapping the ports does not change the service. *)
Theorem classifyService_spec (protocol direction direction' : string) (srcPort dstPort : Z) :
  let services := if (protocol =? "udp")%string then udpServices else tcpServices in
  let '(name, port) := classifyService protocol direction srcPort dstPort in
  (if (protocol =? "icmp")%string then name = "icmp" /\ port = 0
   else (port = srcPort \/ port = dstPort) /\
        (isSome (service_lookup services srcPort) || isSome (service_lookup services dstPort) = true ->
         service_lookup services port = Some name)) /\
  (0 < srcPort < 30000 -> 32768 <= dstPort -> service_lookup services dstPort = None ->
   classifyService protocol direction' dstPort srcPort = (name, port)).
Proof.
  intros services. destruct (classifyService protocol direction srcPort dstPort) as [name port] eqn:E.
  unfold classifyService in *. fold services in E |- *.
  destruct (protocol =? "icmp")%string; [by simplify_eq|].
  assert (Heph : 0 < srcPort < 30000 -> 32768 <= dstPort ->
    isEphemeralPort srcPort = false /\ isEphemeralPort dstPort = true /\
    (0 <? srcPort) = true /\ (0 <? dstPort) = true /\ (30000 <=? srcPort) = false /\ (dstPort <=? 32767) = false).
  { intros. unfold isEphemeralPort. rewrite !Z.leb_le, !Z.leb_gt, !Z.ltb_lt. lia. }
  split.
  - split.
    + repeat case_match; simplify_eq; auto.
    + intros Hs. destruct (service_lookup services dstPort) eqn:Ed; [by simplify_eq|].
      destruct (service_lookup services srcPort) eqn:Es; [by simplify_eq|done].
  - intros Hsrc Hdst Hd. rewrite Hd in *.
    destruct (Heph Hsrc Hdst) as (H1 & H2 & H3 & H4 & H5 & H6).
    rewrite H1, H2, H3, H4, H5, H6, ?andb_false_r in *. cbn [andb negb] in *.
    by destruct (service_lookup services srcPort).
Qed.

(** Visibility is what the configuration says: a flow is hidden
    exactly when an allow list is set and neither port is on it, or one of
    the ports is excluded, or one of the addresses is noise (loopback,
    multicast, link-local or unspecified) or a non-empty excluded address. *)
Theorem hiddenByGraphVisibility_spec (v : GraphVisibility) (srcPort dstPort : Z) (srcIP dstIP : string) :
  hiddenByGraphVisibility v srcPort dstPort srcIP dstIP = true <->
  (~ (AllowedPorts v = []) /\ ~ (srcPort ∈ AllowedPorts v) /\ ~ (dstPort ∈ AllowedPorts v)) \/
  (srcPort ∈ ExcludedPorts v \/ dstPort ∈ ExcludedPorts v) \/
  isGraphNoiseIP srcIP = true \/ isGraphNoiseIP dstIP = true \/
  (srcIP <> "" /\ srcIP ∈ ExcludedIPs v) \/ (dstIP <> "" /\ dstIP ∈ ExcludedIPs v).
Proof.
  assert (Hip : hiddenByGraphIPs v srcIP dstIP = true <->
    isGraphNoiseIP srcIP = true \/ isGraphNoiseIP dstIP = true \/
    (srcIP <> "" /\ srcIP ∈ ExcludedIPs v) \/ (dstIP <> "" /\ dstIP ∈ ExcludedIPs v)).
  { unfold hiddenByGraphIPs. destruct (isGraphNoiseIP srcIP); [naive_solver|].
    destruct (isGraphNoiseIP dstIP); [naive_solver|]. simpl. rewrite existsb_exists. split.
    - intros (ip & Hin%list_elem_of_In & H). apply andb_true_iff in H as [H1 H2]. bools.
      apply orb_true_iff in H2 as [H2|H2]; bools; subst; auto.
    - intros [?|[?|[[H1 H2]|[H1 H2]]]]; try done; eexists; (split; [apply list_elem_of_In; exact H2|]);
        rewrite (proj2 (String.eqb_neq _ _) H1), String.eqb_refl, ?orb_true_r; done. }
  unfold hiddenByGraphVisibility.
  assert (Ha : (0 <? length (AllowedPorts v))%nat = true <-> AllowedPorts v <> [])
    by (destruct (AllowedPorts v); done).
  pose proof (portMatchesAny_spec (AllowedPorts v) [srcPort; dstPort]) as Hall.
  pose proof (portMatchesAny_spec (ExcludedPorts v) [srcPort; dstPort]) as Hexc.
  assert (Hany : forall l : list Z, (exists p, p ∈ [srcPort; dstPort] /\ p ∈ l) <-> srcPort ∈ l \/ dstPort ∈ l).
  { intros l. setoid_rewrite elem_of_cons. setoid_rewrite list_elem_of_singleton. naive_solver. }
  rewrite Hany in Hall, Hexc.
  destruct (0 <? _)%nat, (portMatchesAny (AllowedPorts v) _), (portMatchesAny (ExcludedPorts v) _);
    cbn [andb negb]; rewrite ?Hip; clear Hip;
    repeat match goal with
    | H : true = true <-> _ |- _ => apply (proj1) in H; specialize (H eq_refl)
    | H : false = true <-> _ |- _ => assert (~ (false = true)) by done; apply not_iff_compat in H
    end; tauto.
Qed.

Lemma scope_spec_witness :
  exists c, NewClassifier ["10.1.2.3/8"] "unknown_internal" = Ok c /\
    Scope c "t" "" false "10.200.0.1" = ScopeUnknownInternal.
Proof.
  eexists. split; [vm_compute; reflexivity|].
  rewrite (scope_spec ["10.1.2.3/8"] "unknown_internal"); vm_compute; reflexivity.
Defined.
