(* ===== verification/Graph.v ===== *)
(** The communication graph: [backend/internal/service/graph_service.go]
    (with the types of model/graph.go).

    [Get] fetches flow rows, probe rows and VMs, then folds them into a map
    of nodes and a map of edges and returns both sorted by identifier.  The
    fold is modelled whole, one function per loop body; the maps of pointers
    are finite maps, updated where the source writes through a pointer. *)
From S2P Require Import Prelude GoStrings GoFloat GoTime Netip Classifier.

#[local] Open Scope Z_scope.

(** model/graph.go *)
Record GraphNode := {
  NID : string; NType : string; NLabel : string; NIP : string; NStatus : string;
  NTenantID : string; NRole : string; TrafficIn : Z; TrafficOut : Z
}.

Record GraphEdge := {
  EID : string; Source : string; Target : string; EProtocol : string; EDstPort : Z; EScope : string;
  EBytesSent : Z; EBytesReceived : Z; EPackets : Z; EConnectionCount : Z; ERequestCount : Z;
  EErrorCount : Z; ERetransmissions : Z;
  EFirstSeen : time; ELastSeen : time; LastObservedAt : time;
  Active : bool; ActiveUntil : time; Failed : bool; FailedUntil : time; ELastErrorAt : option time;
  Weight : Z; Kind : string; Reachable : bool; EAvgRTTMs : float64; EAvgAppDelayMs : float64;
  EHTTP2xx : Z; EHTTP4xx : Z; EHTTP5xx : Z; ELastHTTPStatus : Z
}.

Record GraphFilter := {
  FAgentID : string; FTenantID : string; FProjectID : string; FVMID : string; FScope : string;
  FProtocol : string; FPort : Z; TimeRange : duration; MinBytes : Z; FStatus : string
}.

(** The fields of model/vm.go the graph uses. *)
Record VM := {
  VID : string; VName : string; VTenantID : string; VProjectID : string; VPrivateIP : string;
  VRole : string; VAgentID : string; VStatus : string
}.

Record graphFlowRow := {
  AgentID : string; SrcVMID : string; DstVMID : string; SrcIP : string; DstIP : string;
  SrcPort : Z; DstPort : Z; Protocol : string; Direction : string; RScope : string;
  BytesSent : Z; BytesReceived : Z; PacketCount : Z; Connections : Z; Requests : Z; Errors : Z;
  Retransmits : Z; AvgRTTMs : float64; AvgAppDelayMs : float64;
  HTTP2xx : Z; HTTP4xx : Z; HTTP5xx : Z; LastHTTPStatus : Z;
  FirstSeen : time; LastSeen : time; ObservedAt : time; LastErrorAt : option time;
  SrcName : string; SrcTenant : string; SrcPrivateIP : string; SrcStatus : string;
  SrcRole : string; SrcAgentID : string;
  DstName : string; DstTenant : string; DstPrivateIP : string; DstStatus : string;
  DstRole : string; DstAgentID : string
}.

Record graphProbeRow := {
  PAgentID : string; PSrcVMID : string; PDstVMID : string; PSrcIP : string; PDstIP : string;
  PProtocol : string; PDstPort : Z; PScope : string; PSuccess : bool; PRTTMs : float64; PError : string;
  PFirstSeen : time; PLastSeen : time; PObservedAt : time;
  PSrcName : string; PSrcTenant : string; PSrcPrivateIP : string; PSrcStatus : string; PSrcRole : string;
  PDstName : string; PDstTenant : string; PDstPrivateIP : string; PDstStatus : string; PDstRole : string
}.

Definition graphEdgeKindTraffic : string := "traffic".
Definition graphEdgeKindReachability : string := "reachability".
Definition connectionProbeGraphTTL : duration := 30 * Second.

Definition valueOr (value fallback : string) : string :=
  if (value =? "")%string then fallback else value.

(** ** Helpers *)

Definition normalizeGraphRow (row : graphFlowRow) : graphFlowRow :=
  if negb (shouldFlipServiceResponse (SrcPort row) (DstPort row)) then row
  else
    let egress := (Direction row =? "egress")%string in
    {| AgentID := AgentID row; SrcVMID := DstVMID row; DstVMID := SrcVMID row;
       SrcIP := DstIP row; DstIP := SrcIP row; SrcPort := DstPort row; DstPort := SrcPort row;
       Protocol := Protocol row; Direction := Direction row; RScope := RScope row;
       BytesSent := BytesReceived row; BytesReceived := BytesSent row; PacketCount := PacketCount row;
       Connections := if egress then 0 else Connections row;
       Requests := if egress then 0 else Requests row;
       Errors := Errors row; Retransmits := Retransmits row;
       AvgRTTMs := AvgRTTMs row; AvgAppDelayMs := AvgAppDelayMs row;
       HTTP2xx := HTTP2xx row; HTTP4xx := HTTP4xx row; HTTP5xx := HTTP5xx row;
       LastHTTPStatus := LastHTTPStatus row;
       FirstSeen := FirstSeen row; LastSeen := LastSeen row; ObservedAt := ObservedAt row;
       LastErrorAt := LastErrorAt row;
       SrcName := DstName row; SrcTenant := DstTenant row; SrcPrivateIP := DstPrivateIP row;
       SrcStatus := DstStatus row; SrcRole := DstRole row; SrcAgentID := DstAgentID row;
       DstName := SrcName row; DstTenant := SrcTenant row; DstPrivateIP := SrcPrivateIP row;
       DstStatus := SrcStatus row; DstRole := SrcRole row; DstAgentID := SrcAgentID row |}.

Definition graphEdgeID (sourceID targetID protocol scope : string) : string :=
  sourceID +:+ "->" +:+ targetID +:+ ":" +:+ protocol +:+ "/" +:+ scope.

Definition preferredGraphPort (current next : Z) : Z :=
  if current =? 0 then next
  else if isEphemeralPort current && negb (isEphemeralPort next) then next
  else current.

Definition vmNode (id name ip status tenant role : string) : GraphNode :=
  {| NID := id; NType := "vm"; NLabel := name; NIP := ip; NStatus := status;
     NTenantID := tenant; NRole := role; TrafficIn := 0; TrafficOut := 0 |}.

Definition plainNode (id nodeType ip status : string) : GraphNode :=
  {| NID := id; NType := nodeType; NLabel := ip; NIP := ip; NStatus := status;
     NTenantID := ""; NRole := ""; TrafficIn := 0; TrafficOut := 0 |}.

Definition nodeSafe (value : string) : string :=
  string_of (map (fun c => if Ascii.eqb c ":"%char || Ascii.eqb c "/"%char || Ascii.eqb c "%"%char
                           then "_"%char else c) (bytes_of value)).

Definition edgeWeight (bytes : Z) : Z :=
  if 100 * 1024 * 1024 <=? bytes then 5
  else if 10 * 1024 * 1024 <=? bytes then 4
  else if 1024 * 1024 <=? bytes then 3
  else if 100 * 1024 <=? bytes then 2
  else 1.

Definition mergeAverageMetric `{Float64 F} (current next : F) : F :=
  if f_leb next (f_of_Z 0) then current
  else if f_leb current (f_of_Z 0) then next
  else f_div (f_add current next) (f_of_Z 2).

Definition visibleVM (vm : VM) (requestedStatus : string) : bool :=
  if negb (requestedStatus =? "")%string then (VStatus vm =? requestedStatus)%string
  else negb (VStatus vm =? "deleted")%string.

Definition hideFlow (v : GraphVisibility) (row : graphFlowRow) : bool :=
  hiddenByGraphVisibility v (SrcPort row) (DstPort row) (SrcIP row) (DstIP row).

(** ** The fold *)

(** The maps [nodes] and [edges] and the identifiers of [vmByID]. *)
Record Build := { nodes : gmap string GraphNode; edges : gmap string GraphEdge; vmByID : gset string }.

(** The VM loop: all VMs are registered, those matching the filter are
    seeded as nodes. *)
Definition seeds (filter : GraphFilter) (vm : VM) : bool :=
  if negb (FAgentID filter =? "")%string && negb (VAgentID vm =? FAgentID filter)%string then false
  else if negb (FTenantID filter =? "")%string && negb (VTenantID vm =? FTenantID filter)%string then false
  else if negb (FProjectID filter =? "")%string && negb (VProjectID vm =? FProjectID filter)%string then false
  else if negb (FVMID filter =? "")%string && negb (VID vm =? FVMID filter)%string then false
  else visibleVM vm (FStatus filter).

Definition seed_vm (filter : GraphFilter) (b : Build) (vm : VM) : Build :=
  {| nodes := if seeds filter vm
              then <[VID vm := vmNode (VID vm) (VName vm) (VPrivateIP vm) (VStatus vm) (VTenantID vm) (VRole vm)]>
                     (nodes b)
              else nodes b;
     edges := edges b; vmByID := {[ VID vm ]} ∪ vmByID b |}.

(** [nodes[id]] is set when absent. *)
Definition ensure_node (n : GraphNode) (m : gmap string GraphNode) : gmap string GraphNode :=
  match m !! NID n with Some _ => m | None => <[NID n := n]> m end.

(** A registered VM that is not a node is not resurrected. *)
Definition invisible_vm (b : Build) (id : string) : bool :=
  bool_decide (id ∈ vmByID b) && negb (isSome (nodes b !! id)).

(** The guards of the flow loop, on a normalised row. *)
Definition keeps_flow (v : GraphVisibility) (b : Build) (row : graphFlowRow) : bool :=
  if hideFlow v row then false
  else if (SrcIP row =? DstIP row)%string
          || (negb (SrcVMID row =? "")%string && (SrcVMID row =? DstVMID row)%string) then false
  else if invisible_vm b (SrcVMID row) then false
  else if invisible_vm b (DstVMID row) then false
  else true.

Definition sourceNode (row : graphFlowRow) : GraphNode :=
  if (SrcVMID row =? "")%string then
    let nodeType := if (RScope row =? ScopeUnknownInternal)%string || HasPrefix (RScope row) "internal_"
                    then "unknown_internal" else "unknown" in
    plainNode ("unknown-source-" +:+ nodeSafe (SrcIP row)) nodeType (SrcIP row) "unknown"
  else vmNode (SrcVMID row) (valueOr (SrcName row) (SrcIP row)) (valueOr (SrcPrivateIP row) (SrcIP row))
         (valueOr (SrcStatus row) "unknown") (SrcTenant row) (SrcRole row).

Definition targetNode (row : graphFlowRow) : GraphNode :=
  if negb (DstVMID row =? "")%string then
    vmNode (DstVMID row) (valueOr (DstName row) (DstIP row)) (valueOr (DstPrivateIP row) (DstIP row))
      (valueOr (DstStatus row) "unknown") (DstTenant row) (DstRole row)
  else
    let '(nodeType, prefix, status) :=
      if (RScope row =? ScopeExternalPublic)%string || (RScope row =? ScopeExternalPrivate)%string
      then ("external", "external-", "external")
      else if (RScope row =? ScopeUnknownInternal)%string
      then ("unknown_internal", "unknown-internal-", "unknown")
      else ("unknown", "unknown-", "unknown") in
    plainNode (prefix +:+ nodeSafe (DstIP row)) nodeType (DstIP row) status.

(** A fresh traffic edge, before the row's counters are added. *)
Definition newTrafficEdge (edgeID sourceID targetID : string) (row : graphFlowRow) : GraphEdge :=
  {| EID := edgeID; Source := sourceID; Target := targetID; EProtocol := Protocol row;
     EDstPort := DstPort row; EScope := RScope row;
     EBytesSent := 0; EBytesReceived := 0; EPackets := 0; EConnectionCount := 0; ERequestCount := 0;
     EErrorCount := 0; ERetransmissions := 0;
     EFirstSeen := FirstSeen row; ELastSeen := LastSeen row; LastObservedAt := time_zero;
     Active := false; ActiveUntil := time_zero; Failed := false; FailedUntil := time_zero;
     ELastErrorAt := None; Weight := 0; Kind := graphEdgeKindTraffic; Reachable := false;
     EAvgRTTMs := f_of_Z 0; EAvgAppDelayMs := f_of_Z 0;
     EHTTP2xx := 0; EHTTP4xx := 0; EHTTP5xx := 0; ELastHTTPStatus := 0 |}.

(** Adding a row to an edge; [known] tells whether the edge existed. *)
Definition addFlowRow (known : bool) (e : GraphEdge) (row : graphFlowRow) : GraphEdge :=
  let sent := i64 (EBytesSent e + BytesSent row) in
  let received := i64 (EBytesReceived e + BytesReceived row) in
  {| EID := EID e; Source := Source e; Target := Target e; EProtocol := EProtocol e;
     EDstPort := if known then preferredGraphPort (EDstPort e) (DstPort row) else EDstPort e;
     EScope := EScope e;
     EBytesSent := sent; EBytesReceived := received;
     EPackets := i64 (EPackets e + PacketCount row);
     EConnectionCount := i64 (EConnectionCount e + Connections row);
     ERequestCount := i64 (ERequestCount e + Requests row);
     EErrorCount := i64 (EErrorCount e + Errors row);
     ERetransmissions := i64 (ERetransmissions e + Retransmits row);
     EFirstSeen := if Before (FirstSeen row) (EFirstSeen e) then FirstSeen row else EFirstSeen e;
     ELastSeen := if After (LastSeen row) (ELastSeen e) then LastSeen row else ELastSeen e;
     LastObservedAt := if After (ObservedAt row) (LastObservedAt e) then ObservedAt row else LastObservedAt e;
     Active := Active e; ActiveUntil := ActiveUntil e; Failed := Failed e; FailedUntil := FailedUntil e;
     ELastErrorAt := match LastErrorAt row with
                     | Some t => later (ELastErrorAt e) t
                     | None => ELastErrorAt e
                     end;
     Weight := edgeWeight (i64 (sent + received));
     Kind := if known && (Kind e =? "")%string then graphEdgeKindTraffic else Kind e;
     Reachable := Reachable e;
     EAvgRTTMs := mergeAverageMetric (EAvgRTTMs e) (AvgRTTMs row);
     EAvgAppDelayMs := mergeAverageMetric (EAvgAppDelayMs e) (AvgAppDelayMs row);
     EHTTP2xx := i64 (EHTTP2xx e + HTTP2xx row); EHTTP4xx := i64 (EHTTP4xx e + HTTP4xx row);
     EHTTP5xx := i64 (EHTTP5xx e + HTTP5xx row);
     ELastHTTPStatus := if negb (LastHTTPStatus row =? 0) then LastHTTPStatus row else ELastHTTPStatus e |}.

Definition addTraffic (incoming outgoing : Z) (n : GraphNode) : GraphNode :=
  {| NID := NID n; NType := NType n; NLabel := NLabel n; NIP := NIP n; NStatus := NStatus n;
     NTenantID := NTenantID n; NRole := NRole n;
     TrafficIn := i64 (TrafficIn n + incoming); TrafficOut := i64 (TrafficOut n + outgoing) |}.

(** One iteration of the flow loop. *)
Definition flow_step (v : GraphVisibility) (b : Build) (raw : graphFlowRow) : Build :=
  let row := normalizeGraphRow raw in
  if negb (keeps_flow v b row) then b
  else
    let source := sourceNode row in
    let target := targetNode row in
    let ns := ensure_node target (ensure_node source (nodes b)) in
    let edgeID := graphEdgeID (NID source) (NID target) (Protocol row) (RScope row) in
    let edge := match edges b !! edgeID with
                | Some e => addFlowRow true e row
                | None => addFlowRow false (newTrafficEdge edgeID (NID source) (NID target) row) row
                end in
    let ns := alter (addTraffic (BytesReceived row) (BytesSent row)) (NID source) ns in
    let ns := alter (addTraffic (BytesSent row) (BytesReceived row)) (NID target) ns in
    {| nodes := ns; edges := <[edgeID := edge]> (edges b); vmByID := vmByID b |}.

(** ** Reachability probes *)

Definition keeps_probe (v : GraphVisibility) (b : Build) (row : graphProbeRow) : bool :=
  if hiddenByGraphIPs v (PSrcIP row) (PDstIP row) then false
  else if (PSrcVMID row =? "")%string || (PDstVMID row =? "")%string
          || (PSrcVMID row =? PDstVMID row)%string || (PSrcIP row =? PDstIP row)%string then false
  else if invisible_vm b (PSrcVMID row) then false
  else if invisible_vm b (PDstVMID row) then false
  else true.

Definition newProbeEdge (edgeID : string) (row : graphProbeRow) : GraphEdge :=
  {| EID := edgeID; Source := PSrcVMID row; Target := PDstVMID row; EProtocol := PProtocol row;
     EDstPort := PDstPort row; EScope := PScope row;
     EBytesSent := 0; EBytesReceived := 0; EPackets := 0; EConnectionCount := 0; ERequestCount := 0;
     EErrorCount := 0; ERetransmissions := 0;
     EFirstSeen := PFirstSeen row; ELastSeen := PLastSeen row; LastObservedAt := PObservedAt row;
     Active := false; ActiveUntil := time_zero; Failed := false; FailedUntil := time_zero;
     ELastErrorAt := None; Weight := 1; Kind := graphEdgeKindReachability; Reachable := PSuccess row;
     EAvgRTTMs := PRTTMs row; EAvgAppDelayMs := f_of_Z 0;
     EHTTP2xx := 0; EHTTP4xx := 0; EHTTP5xx := 0; ELastHTTPStatus := 0 |}.

(** The branch for an edge that exists. *)
Definition refreshProbeEdge (now : time) (e : GraphEdge) (row : graphProbeRow) : GraphEdge :=
  let newer := After (PObservedAt row) (LastObservedAt e) in
  {| EID := EID e; Source := Source e; Target := Target e; EProtocol := EProtocol e;
     EDstPort := if PSuccess row
                 then if negb (Failed e) && negb (After (FailedUntil e) now)
                      then preferredGraphPort (EDstPort e) (PDstPort row) else EDstPort e
                 else PDstPort row;
     EScope := EScope e;
     EBytesSent := EBytesSent e; EBytesReceived := EBytesReceived e; EPackets := EPackets e;
     EConnectionCount := EConnectionCount e; ERequestCount := ERequestCount e;
     EErrorCount := EErrorCount e; ERetransmissions := ERetransmissions e;
     EFirstSeen := if Before (PFirstSeen row) (EFirstSeen e) then PFirstSeen row else EFirstSeen e;
     ELastSeen := if After (PLastSeen row) (ELastSeen e) then PLastSeen row else ELastSeen e;
     LastObservedAt := if newer then PObservedAt row else LastObservedAt e;
     Active := Active e; ActiveUntil := ActiveUntil e; Failed := Failed e; FailedUntil := FailedUntil e;
     ELastErrorAt := ELastErrorAt e; Weight := Weight e; Kind := graphEdgeKindReachability;
     Reachable := if newer then PSuccess row else Reachable e;
     EAvgRTTMs := if newer then PRTTMs row else EAvgRTTMs e; EAvgAppDelayMs := EAvgAppDelayMs e;
     EHTTP2xx := EHTTP2xx e; EHTTP4xx := EHTTP4xx e; EHTTP5xx := EHTTP5xx e;
     ELastHTTPStatus := ELastHTTPStatus e |}.

(** The outcome of the probe. *)
Definition markProbe (activeWindow : duration) (e : GraphEdge) (row : graphProbeRow) : GraphEdge :=
  let failedUntil := Add (PObservedAt row) activeWindow in
  let ok := PSuccess row in
  {| EID := EID e; Source := Source e; Target := Target e; EProtocol := EProtocol e;
     EDstPort := EDstPort e; EScope := EScope e;
     EBytesSent := EBytesSent e; EBytesReceived := EBytesReceived e; EPackets := EPackets e;
     EConnectionCount := EConnectionCount e; ERequestCount := ERequestCount e;
     EErrorCount := if ok then EErrorCount e else i64 (EErrorCount e + 1);
     ERetransmissions := ERetransmissions e;
     EFirstSeen := EFirstSeen e; ELastSeen := ELastSeen e; LastObservedAt := LastObservedAt e;
     Active := Active e; ActiveUntil := ActiveUntil e;
     Failed := if ok then Failed e else true;
     FailedUntil := if ok then FailedUntil e
                    else if After failedUntil (FailedUntil e) then failedUntil else FailedUntil e;
     ELastErrorAt := if ok then ELastErrorAt e else later (ELastErrorAt e) (PObservedAt row);
     Weight := Weight e; Kind := Kind e;
     Reachable := if ok then true else Reachable e;
     EAvgRTTMs := EAvgRTTMs e; EAvgAppDelayMs := EAvgAppDelayMs e;
     EHTTP2xx := EHTTP2xx e; EHTTP4xx := EHTTP4xx e; EHTTP5xx := EHTTP5xx e;
     ELastHTTPStatus := ELastHTTPStatus e |}.

Definition probe_step (v : GraphVisibility) (now : time) (activeWindow : duration)
    (b : Build) (row : graphProbeRow) : Build :=
  if negb (keeps_probe v b row) then b
  else
    let source := vmNode (PSrcVMID row) (valueOr (PSrcName row) (PSrcIP row))
      (valueOr (PSrcPrivateIP row) (PSrcIP row)) (valueOr (PSrcStatus row) "unknown") (PSrcTenant row) (PSrcRole row) in
    let target := vmNode (PDstVMID row) (valueOr (PDstName row) (PDstIP row))
      (valueOr (PDstPrivateIP row) (PDstIP row)) (valueOr (PDstStatus row) "unknown") (PDstTenant row) (PDstRole row) in
    let edgeID := graphEdgeID (PSrcVMID row) (PDstVMID row) (PProtocol row) graphEdgeKindReachability in
    let edge := match edges b !! edgeID with
                | Some e => refreshProbeEdge now e row
                | None => newProbeEdge edgeID row
                end in
    {| nodes := ensure_node target (ensure_node source (nodes b));
       edges := <[edgeID := markProbe activeWindow edge row]> (edges b); vmByID := vmByID b |}.

(** ** The result *)

Definition setEdgeActivity (now : time) (activeWindow : duration) (e : GraphEdge) : GraphEdge :=
  let activeUntil := Add (LastObservedAt e) activeWindow in
  let errorSeen := match ELastErrorAt e with Some t => if IsZero t then None else Some t | None => None end in
  {| EID := EID e; Source := Source e; Target := Target e; EProtocol := EProtocol e;
     EDstPort := EDstPort e; EScope := EScope e;
     EBytesSent := EBytesSent e; EBytesReceived := EBytesReceived e; EPackets := EPackets e;
     EConnectionCount := EConnectionCount e; ERequestCount := ERequestCount e;
     EErrorCount := EErrorCount e; ERetransmissions := ERetransmissions e;
     EFirstSeen := EFirstSeen e; ELastSeen := ELastSeen e; LastObservedAt := LastObservedAt e;
     Active := Before now activeUntil; ActiveUntil := activeUntil;
     Failed := match errorSeen with Some t => Before now (Add t activeWindow) | None => Failed e end;
     FailedUntil := match errorSeen with Some t => Add t activeWindow | None => FailedUntil e end;
     ELastErrorAt := ELastErrorAt e; Weight := Weight e; Kind := Kind e; Reachable := Reachable e;
     EAvgRTTMs := EAvgRTTMs e; EAvgAppDelayMs := EAvgAppDelayMs e;
     EHTTP2xx := EHTTP2xx e; EHTTP4xx := EHTTP4xx e; EHTTP5xx := EHTTP5xx e;
     ELastHTTPStatus := ELastHTTPStatus e |}.

Record Graph := { Nodes : list GraphNode; Edges : list GraphEdge }.

Definition node_le (a b : GraphNode) : Prop := string_le (NID a) (NID b).
Definition edge_le (a b : GraphEdge) : Prop := string_le (EID a) (EID b).
#[export] Instance node_le_dec : RelDecision node_le.
Proof. intros a b. apply string_le_dec. Defined.
#[export] Instance edge_le_dec : RelDecision edge_le.
Proof. intros a b. apply string_le_dec. Defined.

(** [es] and [ns] are the values of the two maps in the order the iteration
    yields them. *)
Definition visible_edges (v : GraphVisibility) (now : time) (activeWindow : duration)
    (es : list GraphEdge) : list GraphEdge :=
  List.filter (fun e => IncludeIdle v || Active e) (map (setEdgeActivity now activeWindow) es).

Definition connected (es : list GraphEdge) (id : string) : bool :=
  existsb (fun e => (Source e =? id)%string || (Target e =? id)%string) es.

Definition finish (v : GraphVisibility) (now : time) (activeWindow : duration)
    (ns : list GraphNode) (es : list GraphEdge) : Graph :=
  let es' := visible_edges v now activeWindow es in
  {| Nodes := merge_sort node_le
       (List.filter (fun n => (NType n =? "vm")%string || connected es' (NID n)) ns);
     Edges := merge_sort edge_le es' |}.

Definition build (v : GraphVisibility) (now : time) (activeWindow : duration) (filter : GraphFilter)
    (vms : list VM) (flowRows : list graphFlowRow) (probeRows : list graphProbeRow) : Build :=
  let b := foldl (seed_vm filter) {| nodes := ∅; edges := ∅; vmByID := ∅ |} vms in
  let b := foldl (flow_step v) b flowRows in
  foldl (probe_step v now activeWindow) b probeRows.

(** [Get] on the rows it fetched. *)
Definition Get (v : GraphVisibility) (now : time) (activeWindow : duration) (filter : GraphFilter)
    (vms : list VM) (flowRows : list graphFlowRow) (probeRows : list graphProbeRow) : Graph :=
  let b := build v now activeWindow filter vms flowRows probeRows in
  finish v now activeWindow (map_to_list (nodes b)).*2 (map_to_list (edges b)).*2.

(** * Facts *)

#[export] Instance node_le_trans : Transitive node_le.
Proof. intros a b c. apply string_le_trans. Qed.
#[export] Instance node_le_total : Total node_le.
Proof. intros a b. apply string_le_total. Qed.
#[export] Instance edge_le_trans : Transitive edge_le.
Proof. intros a b c. apply string_le_trans. Qed.
#[export] Instance edge_le_total : Total edge_le.
Proof. intros a b. apply string_le_total. Qed.

(** ** The invariant of the fold *)

Record build_inv (b : Build) : Prop := {
  nodes_keyed : map_Forall (fun id n => NID n = id) (nodes b);
  edges_keyed : map_Forall (fun id e => EID e = id) (edges b);
  edges_closed : map_Forall (fun _ e => is_Some (nodes b !! Source e) /\ is_Some (nodes b !! Target e)) (edges b)
}.

Lemma ensure_node_lookup n m id :
  ensure_node n m !! id = match m !! id with
                          | Some x => Some x
                          | None => if decide (NID n = id) then Some n else None
                          end.
Proof.
  unfold ensure_node. destruct (m !! NID n) eqn:E.
  - destruct (m !! id) eqn:E'; [done|]. case_decide; [congruence|done].
  - destruct (decide (NID n = id)) as [<-|Hne].
    + by rewrite lookup_insert_eq, E.
    + rewrite lookup_insert_ne by done. by destruct (m !! id).
Qed.

Lemma ensure_node_mono n m id : is_Some (m !! id) -> is_Some (ensure_node n m !! id).
Proof. intros [x E]. rewrite ensure_node_lookup, E. eauto. Qed.

Lemma ensure_node_there n m : is_Some (ensure_node n m !! NID n).
Proof. rewrite ensure_node_lookup. destruct (m !! NID n); [eauto|]. rewrite decide_True by done. eauto. Qed.

Lemma ensure_node_keyed n m :
  map_Forall (fun id x => NID x = id) m -> map_Forall (fun id x => NID x = id) (ensure_node n m).
Proof.
  intros H. unfold ensure_node. destruct (m !! NID n); [done|]. by apply map_Forall_insert_2.
Qed.

Lemma alter_keyed g k (m : gmap string GraphNode) :
  (forall n, NID (g n) = NID n) ->
  map_Forall (fun id x => NID x = id) m -> map_Forall (fun id x => NID x = id) (alter g k m).
Proof.
  intros Hg H id x Hx. destruct (decide (k = id)) as [->|Hne].
  - rewrite lookup_alter_eq in Hx. destruct (m !! id) as [y|] eqn:E; simplify_eq/=. rewrite Hg. by apply H.
  - rewrite lookup_alter_ne in Hx by done. by apply H.
Qed.

Lemma alter_is_Some {A} (g : A -> A) k (m : gmap string A) id :
  is_Some (m !! id) -> is_Some (alter g k m !! id).
Proof.
  intros [x E]. destruct (decide (k = id)) as [->|Hne].
  - rewrite lookup_alter_eq, E. simpl. eauto.
  - rewrite lookup_alter_ne, E by done. eauto.
Qed.

(** Growing the node set keeps edges closed. *)
Lemma closed_mono (ns ns' : gmap string GraphNode) (es : gmap string GraphEdge) :
  (forall id, is_Some (ns !! id) -> is_Some (ns' !! id)) ->
  map_Forall (fun _ e => is_Some (ns !! Source e) /\ is_Some (ns !! Target e)) es ->
  map_Forall (fun _ e => is_Some (ns' !! Source e) /\ is_Some (ns' !! Target e)) es.
Proof. intros Hm H id e He. destruct (H id e He). auto. Qed.

Lemma seed_vm_inv filter b vm : edges b = ∅ -> build_inv b -> build_inv (seed_vm filter b vm).
Proof.
  intros He [H1 H2 H3]. split; simpl; [|done|rewrite He; apply map_Forall_empty].
  destruct (seeds filter vm); [by apply map_Forall_insert_2|done].
Qed.

Lemma addFlowRow_fields known e row :
  EID (addFlowRow known e row) = EID e /\ Source (addFlowRow known e row) = Source e /\
  Target (addFlowRow known e row) = Target e.
Proof. done. Qed.

Lemma flow_step_inv v b raw : build_inv b -> build_inv (flow_step v b raw).
Proof.
  intros [H1 H2 H3]. unfold flow_step. destruct (negb _); [by split|].
  set (row := normalizeGraphRow raw). set (src := sourceNode row). set (dst := targetNode row).
  set (id := graphEdgeID _ _ _ _).
  assert (Hm : forall x, is_Some (nodes b !! x) ->
    is_Some (alter (addTraffic (BytesSent row) (BytesReceived row)) (NID dst)
      (alter (addTraffic (BytesReceived row) (BytesSent row)) (NID src)
        (ensure_node dst (ensure_node src (nodes b)))) !! x))
    by (intros; do 2 apply alter_is_Some; by do 2 apply ensure_node_mono).
  split; simpl.
  - do 2 (apply alter_keyed; [done|]). by do 2 apply ensure_node_keyed.
  - apply map_Forall_insert_2; [|done]. destruct (edges b !! id) eqn:E; simpl; [by apply (H2 id)|done].
  - apply map_Forall_insert_2; [|by apply (closed_mono (nodes b))].
    destruct (edges b !! id) as [e|] eqn:E; simpl.
    + destruct (H3 id e E). auto.
    + split; do 2 apply alter_is_Some; [apply ensure_node_mono|]; apply ensure_node_there.
Qed.

Lemma probe_step_inv v now w b row : build_inv b -> build_inv (probe_step v now w b row).
Proof.
  intros [H1 H2 H3]. unfold probe_step. destruct (negb _); [by split|].
  set (src := vmNode (PSrcVMID row) _ _ _ _ _). set (dst := vmNode (PDstVMID row) _ _ _ _ _).
  set (id := graphEdgeID _ _ _ _).
  assert (Hm : forall x, is_Some (nodes b !! x) -> is_Some (ensure_node dst (ensure_node src (nodes b)) !! x))
    by (intros; by do 2 apply ensure_node_mono).
  split; simpl.
  - by do 2 apply ensure_node_keyed.
  - apply map_Forall_insert_2; [|done]. destruct (edges b !! id) eqn:E; simpl; [by apply (H2 id)|done].
  - apply map_Forall_insert_2; [|by apply (closed_mono (nodes b))].
    destruct (edges b !! id) as [e|] eqn:E; simpl.
    + destruct (H3 id e E). auto.
    + split; [apply ensure_node_mono; apply (ensure_node_there src)|apply (ensure_node_there dst)].
Qed.

Lemma seed_inv filter vms :
  let b := foldl (seed_vm filter) {| nodes := ∅; edges := ∅; vmByID := ∅ |} vms in
  build_inv b /\ edges b = ∅.
Proof.
  cbv zeta. induction vms as [|vm vms [IH1 IH2]] using rev_ind.
  - split; [|done]. by split; apply map_Forall_empty.
  - rewrite foldl_app. simpl. split; [by apply seed_vm_inv|done].
Qed.

Lemma build_ok v now w filter vms flows probes : build_inv (build v now w filter vms flows probes).
Proof.
  unfold build. destruct (seed_inv filter vms) as [Hs _].
  set (b0 := foldl (seed_vm filter) _ vms) in *. clearbody b0.
  assert (Hf : build_inv (foldl (flow_step v) b0 flows)).
  { induction flows as [|r l IH] using rev_ind; [done|]. rewrite foldl_app. by apply flow_step_inv. }
  revert Hf. generalize (foldl (flow_step v) b0 flows). intros b1 Hf.
  induction probes as [|r l IH] using rev_ind; [done|]. rewrite foldl_app. by apply probe_step_inv.
Qed.

(** The graph is closed: both endpoints of every edge of the result
    are nodes of the result, whatever rows, visibility and filters. *)
Theorem graph_endpoints_exist (v : GraphVisibility) (now : time) (w : duration) (filter : GraphFilter)
    (vms : list VM) (flowRows : list graphFlowRow) (probeRows : list graphProbeRow) (e : GraphEdge) :
  e ∈ Edges (Get v now w filter vms flowRows probeRows) ->
  (exists n, n ∈ Nodes (Get v now w filter vms flowRows probeRows) /\ NID n = Source e) /\
  (exists n, n ∈ Nodes (Get v now w filter vms flowRows probeRows) /\ NID n = Target e).
Proof.
  unfold Get. pose proof (build_ok v now w filter vms flowRows probeRows) as [H1 H2 H3].
  set (b := build _ _ _ _ _ _ _) in *. clearbody b. unfold finish. simpl.
  rewrite merge_sort_Permutation. set (es := visible_edges _ _ _ _).
  intros He. assert (He' := He).
  apply list_elem_of_In, filter_In in He' as [He' _]. apply in_map_iff in He' as (e0 & <- & He0).
  apply list_elem_of_In, list_elem_of_fmap in He0 as ([id e1] & -> & Hid). simpl in *.
  apply elem_of_map_to_list in Hid. destruct (H3 id e1 Hid) as [[n Hn] [m Hm]].
  setoid_rewrite merge_sort_Permutation. setoid_rewrite list_elem_of_In. setoid_rewrite filter_In.
  assert (Hin : forall x k, nodes b !! k = Some x -> In x (map_to_list (nodes b)).*2).
  { intros x k Hk. apply list_elem_of_In, list_elem_of_fmap. exists (k, x). split; [done|].
    by apply elem_of_map_to_list. }
  assert (Hc : forall x, NID x = Source e1 \/ NID x = Target e1 -> connected es (NID x) = true).
  { intros x Hx. apply existsb_exists. exists (setEdgeActivity now w e1).
    split; [by apply list_elem_of_In|]. simpl. apply orb_true_iff. rewrite !String.eqb_eq.
    destruct Hx; auto. }
  split; [exists n|exists m]; (split; [split; [by eapply Hin|]|by apply H1]);
    rewrite Hc, orb_true_r; try done; [left|right]; by apply H1.
Qed.

(** ** Determinism *)

Lemma keyed_unique {A} (id : A -> string) (m : gmap string A) :
  map_Forall (fun k x => id x = k) m ->
  forall x y, x ∈ (map_to_list m).*2 -> y ∈ (map_to_list m).*2 -> id x = id y -> x = y.
Proof.
  intros H x y Hx Hy E. apply list_elem_of_fmap in Hx as ([k x'] & -> & Hx).
  apply list_elem_of_fmap in Hy as ([j y'] & -> & Hy). simpl in *.
  apply elem_of_map_to_list in Hx, Hy. pose proof (H _ _ Hx). pose proof (H _ _ Hy). congruence.
Qed.

Lemma keyed_NoDup {A} (id : A -> string) (m : gmap string A) :
  map_Forall (fun k x => id x = k) m -> NoDup (id <$> (map_to_list m).*2).
Proof.
  intros H. rewrite <- list_fmap_compose.
  rewrite (list_fmap_ext (id ∘ snd) fst); [apply NoDup_fst_map_to_list|].
  intros i [k x] Hi. simpl. apply H. apply elem_of_map_to_list. by eapply list_elem_of_lookup_2.
Qed.

(** A list sorted by distinct identifiers is determined by its elements. *)
Lemma sorted_by_id_unique {A} (id : A -> string) (l1 l2 : list A) :
  (forall x y, x ∈ l1 -> y ∈ l1 -> id x = id y -> x = y) -> l1 ≡ₚ l2 ->
  StronglySorted (fun a b => string_le (id a) (id b)) l1 ->
  StronglySorted (fun a b => string_le (id a) (id b)) l2 -> l1 = l2.
Proof.
  intros Hinj Hp. intros H1 H2. eapply StronglySorted_unique_strong; [|exact H1|exact H2|done].
  intros x y Hx Hy Hxy Hyx. rewrite <- Hp in Hy. apply Hinj; [done|done|].
  by apply (anti_symm string_le).
Qed.

Lemma filter_perm {A} (f : A -> bool) l1 l2 : l1 ≡ₚ l2 -> List.filter f l1 ≡ₚ List.filter f l2.
Proof.
  induction 1; simpl; repeat case_match; eauto using Permutation.
Qed.

Lemma connected_perm es es' id : es ≡ₚ es' -> connected es id = connected es' id.
Proof.
  intros Hp. apply eq_true_iff_eq. unfold connected. rewrite !existsb_exists.
  setoid_rewrite <- list_elem_of_In. by setoid_rewrite Hp.
Qed.

Lemma activity_id now w e : EID (setEdgeActivity now w e) = EID e.
Proof. done. Qed.

(** Sorting by identifier, generically. *)
Section sort_by_id.
Context {A : Type} (id : A -> string).
Definition id_le (a b : A) : Prop := string_le (id a) (id b).
#[local] Instance id_le_dec : RelDecision id_le.
Proof. intros a b. apply string_le_dec. Defined.
#[local] Instance id_le_trans : Transitive id_le.
Proof. intros a b c. apply string_le_trans. Qed.
#[local] Instance id_le_total : Total id_le.
Proof. intros a b. apply string_le_total. Qed.

(** [l] without duplicate identifiers: its sorted form is unique. *)
Lemma sort_by_id_spec (l : list A) :
  NoDup (id <$> l) ->
  NoDup (id <$> merge_sort id_le l) /\ StronglySorted id_le (merge_sort id_le l) /\
  forall l', l' ≡ₚ l -> StronglySorted id_le l' -> l' = merge_sort id_le l.
Proof.
  intros Hnd. split_and!.
  - by rewrite merge_sort_Permutation.
  - apply (StronglySorted_merge_sort id_le).
  - intros l' Hp Hs. apply (sorted_by_id_unique id).
    + intros x y. rewrite Hp. intros Hx Hy E.
      apply list_elem_of_lookup in Hx as [i Hi]. apply list_elem_of_lookup in Hy as [j Hj].
      assert (i = j) as ->; [|congruence].
      eapply (NoDup_lookup (id <$> l)); [done|by rewrite list_lookup_fmap, Hi|].
      by rewrite list_lookup_fmap, Hj, E.
    + by rewrite merge_sort_Permutation.
    + exact Hs.
    + apply (StronglySorted_merge_sort id_le).
Qed.
End sort_by_id.

Lemma NoDup_filter_map {A} (id : A -> string) (f : A -> bool) l :
  NoDup (id <$> l) -> NoDup (id <$> List.filter f l).
Proof.
  induction l as [|x l IH]; [done|]. rewrite fmap_cons. intros [Hx Hl]%NoDup_cons. simpl.
  destruct (f x); [|by apply IH]. rewrite fmap_cons. apply NoDup_cons. split; [|by apply IH].
  intros (y & E & Hy)%list_elem_of_fmap. apply Hx. apply list_elem_of_fmap. exists y. split; [done|].
  apply list_elem_of_In, filter_In in Hy as [? _]. by apply list_elem_of_In.
Qed.

Lemma finish_nodup v now w ns es :
  NoDup (NID <$> ns) -> NoDup (EID <$> es) ->
  NoDup (NID <$> List.filter (fun n => (NType n =? "vm")%string || connected (visible_edges v now w es) (NID n)) ns)
  /\ NoDup (EID <$> visible_edges v now w es).
Proof.
  intros Hn He. split; apply NoDup_filter_map; [done|].
  rewrite <- (list_fmap_compose (setEdgeActivity now w) EID). exact He.
Qed.

Lemma finish_perm v now w ns es ns' es' :
  NoDup (NID <$> ns) -> NoDup (EID <$> es) -> ns' ≡ₚ ns -> es' ≡ₚ es ->
  finish v now w ns' es' = finish v now w ns es.
Proof.
  intros Hn He Pn Pe. unfold finish.
  assert (Hes : visible_edges v now w es' ≡ₚ visible_edges v now w es)
    by (apply filter_perm; by apply Permutation_map).
  assert (Hns : List.filter (fun n => (NType n =? "vm")%string || connected (visible_edges v now w es') (NID n)) ns'
    ≡ₚ List.filter (fun n => (NType n =? "vm")%string || connected (visible_edges v now w es) (NID n)) ns).
  { rewrite (filter_perm _ _ _ Pn). apply Permutation_refl', List.filter_ext.
    intros n. by rewrite (connected_perm _ _ _ Hes). }
  destruct (finish_nodup v now w ns es Hn He) as [Nn Ne].
  f_equal.
  - apply (sort_by_id_spec NID _ Nn); [by rewrite merge_sort_Permutation|].
    apply (StronglySorted_merge_sort node_le).
  - apply (sort_by_id_spec EID _ Ne); [by rewrite merge_sort_Permutation|].
    apply (StronglySorted_merge_sort edge_le).
Qed.

(** The result does not depend on the order in which Go iterates over
    its maps, nor on how the sort orders equal elements: for every order of
    the node and edge maps the same graph comes out; its identifiers are
    unique and in increasing order, and any other arrangement of the same
    nodes or edges by identifier is the same list. *)
Theorem graph_order_independent (v : GraphVisibility) (now : time) (w : duration) (filter : GraphFilter)
    (vms : list VM) (flowRows : list graphFlowRow) (probeRows : list graphProbeRow)
    (ns : list GraphNode) (es : list GraphEdge) :
  let b := build v now w filter vms flowRows probeRows in
  ns ≡ₚ (map_to_list (nodes b)).*2 -> es ≡ₚ (map_to_list (edges b)).*2 ->
  let g := Get v now w filter vms flowRows probeRows in
  finish v now w ns es = g /\
  NoDup (NID <$> Nodes g) /\ NoDup (EID <$> Edges g) /\
  StronglySorted node_le (Nodes g) /\ StronglySorted edge_le (Edges g) /\
  (forall l, l ≡ₚ Nodes g -> StronglySorted node_le l -> l = Nodes g) /\
  (forall l, l ≡ₚ Edges g -> StronglySorted edge_le l -> l = Edges g).
Proof.
  intros b Hn He g. pose proof (build_ok v now w filter vms flowRows probeRows) as [H1 H2 _].
  fold b in H1, H2. subst g. unfold Get. fold b. clearbody b.
  pose proof (keyed_NoDup NID _ H1) as Nn. pose proof (keyed_NoDup EID _ H2) as Ne.
  destruct (finish_nodup v now w _ _ Nn Ne) as [Fn Fe].
  destruct (sort_by_id_spec NID _ Fn) as (A1 & A2 & A3).
  destruct (sort_by_id_spec EID _ Fe) as (B1 & B2 & B3).
  split; [by apply finish_perm|]. split_and!; try done.
  - intros l Hl Hs. unfold finish in Hl. simpl in Hl. apply A3; [by rewrite Hl, merge_sort_Permutation|done].
  - intros l Hl Hs. unfold finish in Hl. simpl in Hl. apply B3; [by rewrite Hl, merge_sort_Permutation|done].
Qed.

(** ** Conservation of traffic *)

(** The rows the flow loop folds in, normalised. *)
Fixpoint kept_rows (v : GraphVisibility) (b : Build) (rows : list graphFlowRow) : list graphFlowRow :=
  match rows with
  | [] => []
  | r :: rs => (if keeps_flow v b (normalizeGraphRow r) then [normalizeGraphRow r] else [])
               ++ kept_rows v (flow_step v b r) rs
  end.

Definition row_bytes (r : graphFlowRow) : Z := BytesSent r + BytesReceived r.
Definition edge_bytes (e : GraphEdge) : Z := EBytesSent e + EBytesReceived e.

Lemma mapsum_ensure f n m : f n = 0 -> mapsum f (ensure_node n m) = mapsum f m.
Proof.
  intros Hf. unfold ensure_node. destruct (m !! NID n) eqn:E; [done|].
  rewrite mapsum_insert_new by done. lia.
Qed.

Lemma mapsum_alter {A} (f : A -> Z) (g : A -> A) (m : gmap string A) k d :
  is_Some (m !! k) -> (forall x, f (g x) ≡64 f x + d) -> mapsum f (alter g k m) ≡64 mapsum f m + d.
Proof.
  intros [x Hx] Hg.
  assert (E : alter g k m = <[k := g x]> m).
  { apply map_eq. intros i. destruct (decide (k = i)) as [<-|].
    - by rewrite lookup_alter_eq, lookup_insert_eq, Hx.
    - by rewrite lookup_alter_ne, lookup_insert_ne. }
  rewrite E, (mapsum_insert _ _ _ _ _ Hx), Hg. apply cong64_eq. lia.
Qed.

Lemma flow_step_traffic v b r :
  let rows := if keeps_flow v b (normalizeGraphRow r) then [normalizeGraphRow r] else [] in
  mapsum TrafficIn (nodes (flow_step v b r)) ≡64 mapsum TrafficIn (nodes b) + sumZ row_bytes rows /\
  mapsum TrafficOut (nodes (flow_step v b r)) ≡64 mapsum TrafficOut (nodes b) + sumZ row_bytes rows /\
  mapsum edge_bytes (edges (flow_step v b r)) ≡64 mapsum edge_bytes (edges b) + sumZ row_bytes rows.
Proof.
  cbv zeta. unfold flow_step. set (row := normalizeGraphRow r).
  destruct (keeps_flow v b row); cbn [negb nodes edges];
    [|rewrite !sumZ_nil; split_and!; apply cong64_eq; lia].
  set (src := sourceNode row). set (dst := targetNode row). rewrite sumZ_cons, sumZ_nil.
  assert (Hz : forall f, f src = 0 -> f dst = 0 ->
    mapsum f (ensure_node dst (ensure_node src (nodes b))) = mapsum f (nodes b))
    by (intros f ? ?; by rewrite !mapsum_ensure).
  assert (Hs : is_Some (ensure_node dst (ensure_node src (nodes b)) !! NID src))
    by apply ensure_node_mono, ensure_node_there.
  assert (Hd : is_Some (ensure_node dst (ensure_node src (nodes b)) !! NID dst)) by apply ensure_node_there.
  assert (Zsrc : TrafficIn src = 0 /\ TrafficOut src = 0) by (unfold src, sourceNode; by case_match).
  assert (Zdst : TrafficIn dst = 0 /\ TrafficOut dst = 0)
    by (unfold dst, targetNode; repeat case_match; by simplify_eq).
  split_and!.
  - rewrite (mapsum_alter _ _ _ _ (BytesSent row)), (mapsum_alter _ _ _ _ (BytesReceived row)), Hz;
      try (done || tauto || by apply alter_is_Some);
      [unfold row_bytes; apply cong64_eq; lia|intros; apply cong64_i64..].
  - rewrite (mapsum_alter _ _ _ _ (BytesReceived row)), (mapsum_alter _ _ _ _ (BytesSent row)), Hz;
      try (done || tauto || by apply alter_is_Some);
      [unfold row_bytes; apply cong64_eq; lia|intros; apply cong64_i64..].
  - set (id := graphEdgeID _ _ _ _). destruct (edges b !! id) as [e|] eqn:E.
    + rewrite (mapsum_insert _ _ _ _ _ E). unfold edge_bytes at 1, row_bytes. simpl.
      rewrite !cong64_i64. apply cong64_eq. unfold edge_bytes. lia.
    + rewrite mapsum_insert_new by done. unfold edge_bytes at 1, row_bytes. simpl.
      rewrite !cong64_i64. apply cong64_eq. lia.
Qed.

Lemma flow_fold_traffic v b rows :
  let b' := foldl (flow_step v) b rows in
  mapsum TrafficIn (nodes b') ≡64 mapsum TrafficIn (nodes b) + sumZ row_bytes (kept_rows v b rows) /\
  mapsum TrafficOut (nodes b') ≡64 mapsum TrafficOut (nodes b) + sumZ row_bytes (kept_rows v b rows) /\
  mapsum edge_bytes (edges b') ≡64 mapsum edge_bytes (edges b) + sumZ row_bytes (kept_rows v b rows).
Proof.
  cbv zeta. revert b. induction rows as [|r rs IH]; intros b; cbn [foldl kept_rows].
  - rewrite sumZ_nil. split_and!; apply cong64_eq; lia.
  - destruct (IH (flow_step v b r)) as (I1 & I2 & I3).
    destruct (flow_step_traffic v b r) as (S1 & S2 & S3).
    rewrite sumZ_app. rewrite I1, I2, I3, S1, S2, S3. split_and!; apply cong64_eq; lia.
Qed.

Lemma probe_step_traffic v now w b r :
  mapsum TrafficIn (nodes (probe_step v now w b r)) = mapsum TrafficIn (nodes b) /\
  mapsum TrafficOut (nodes (probe_step v now w b r)) = mapsum TrafficOut (nodes b) /\
  mapsum edge_bytes (edges (probe_step v now w b r)) = mapsum edge_bytes (edges b).
Proof.
  unfold probe_step. destruct (negb _); [done|]. cbn [nodes edges]. rewrite !mapsum_ensure by done.
  split_and!; [done|done|].
  destruct (edges b !! _) as [e|] eqn:E.
  - rewrite (mapsum_insert _ _ _ _ _ E). unfold edge_bytes at 1 2. simpl. lia.
  - rewrite mapsum_insert_new by done. done.
Qed.

Lemma seed_traffic filter vms :
  let b := foldl (seed_vm filter) {| nodes := ∅; edges := ∅; vmByID := ∅ |} vms in
  mapsum TrafficIn (nodes b) = 0 /\ mapsum TrafficOut (nodes b) = 0 /\ mapsum edge_bytes (edges b) = 0.
Proof.
  cbv zeta.
  cut (forall b, map_Forall (fun _ n => TrafficIn n = 0 /\ TrafficOut n = 0) (nodes b) -> edges b = ∅ ->
    let b' := foldl (seed_vm filter) b vms in
    map_Forall (fun _ n => TrafficIn n = 0 /\ TrafficOut n = 0) (nodes b') /\ edges b' = ∅).
  { intros H. destruct (H {| nodes := ∅; edges := ∅; vmByID := ∅ |}) as [Hn He];
      [apply map_Forall_empty|done|]. rewrite He, mapsum_empty.
    assert (Hin : forall n, n ∈ (map_to_list (nodes (foldl (seed_vm filter)
      {| nodes := ∅; edges := ∅; vmByID := ∅ |} vms))).*2 -> TrafficIn n = 0 /\ TrafficOut n = 0).
    { intros n ([k n'] & -> & Hk)%list_elem_of_fmap. apply elem_of_map_to_list in Hk. by eapply Hn. }
    unfold mapsum. rewrite !sumZ_zero; [done|..]; intros n Hn'; by apply Hin. }
  induction vms as [|vm vms IH]; intros b Hn He; [done|]. cbn [foldl]. apply IH; [|done]. simpl.
  destruct (seeds filter vm); [by apply map_Forall_insert_2|done].
Qed.

Lemma build_traffic v now w filter vms flows probes :
  let b0 := foldl (seed_vm filter) {| nodes := ∅; edges := ∅; vmByID := ∅ |} vms in
  let b := build v now w filter vms flows probes in
  let total := sumZ row_bytes (kept_rows v b0 flows) in
  mapsum TrafficIn (nodes b) ≡64 total /\ mapsum TrafficOut (nodes b) ≡64 total /\
  mapsum edge_bytes (edges b) ≡64 total.
Proof.
  cbv zeta. unfold build. destruct (seed_traffic filter vms) as (Z1 & Z2 & Z3).
  set (b0 := foldl (seed_vm filter) _ vms) in *. clearbody b0.
  destruct (flow_fold_traffic v b0 flows) as (F1 & F2 & F3). rewrite Z1 in F1. rewrite Z2 in F2. rewrite Z3 in F3.
  set (b1 := foldl (flow_step v) b0 flows) in *. clearbody b1.
  induction probes as [|r l IH] using rev_ind; [done|]. rewrite foldl_app. cbn [foldl].
  destruct (probe_step_traffic v now w (foldl (probe_step v now w) b1 l) r) as (-> & -> & ->). exact IH.
Qed.

Lemma Get_traffic (v : GraphVisibility) (now : time) (w : duration) (filter : GraphFilter)
    (vms : list VM) (flowRows : list graphFlowRow) (probeRows : list graphProbeRow) :
  IncludeIdle v = true ->
  let b0 := foldl (seed_vm filter) {| nodes := ∅; edges := ∅; vmByID := ∅ |} vms in
  let b := build v now w filter vms flowRows probeRows in
  let total := sumZ row_bytes (kept_rows v b0 flowRows) in
  mapsum TrafficIn (nodes b) ≡64 total /\ mapsum TrafficOut (nodes b) ≡64 total /\
  sumZ edge_bytes (Edges (Get v now w filter vms flowRows probeRows)) ≡64 total.
Proof.
  intros Hi b0 b total. destruct (build_traffic v now w filter vms flowRows probeRows) as (T1 & T2 & T3).
  split; [done|]. split; [done|]. transitivity (mapsum edge_bytes (edges b)); [|exact T3].
  apply cong64_eq. unfold Get, finish. cbn [Edges].
  rewrite (sumZ_perm _ _ _ (merge_sort_Permutation _ _)). unfold visible_edges. rewrite Hi.
  rewrite (List.filter_ext _ (fun _ => true)) by done. rewrite List.filter_true.
  unfold mapsum, sumZ. induction (map_to_list _).*2 as [|e l IH]; [done|]. simpl. by rewrite IH.
Qed.

(** Traffic is conserved in the graph.  Over all nodes, the incoming
    and the outgoing traffic both equal, modulo 2^64, the bytes of the rows
    that passed the filters, each counted once; and with idle edges included
    so do the bytes shown on the edges of the result. *)
Theorem graph_traffic_balanced (v : GraphVisibility) (now : time) (w : duration) (filter : GraphFilter)
    (vms : list VM) (flowRows : list graphFlowRow) (probeRows : list graphProbeRow) :
  IncludeIdle v = true ->
  let b0 := foldl (seed_vm filter) {| nodes := ∅; edges := ∅; vmByID := ∅ |} vms in
  let b := build v now w filter vms flowRows probeRows in
  let total := sumZ row_bytes (kept_rows v b0 flowRows) in
  mapsum TrafficIn (nodes b) ≡64 total /\ mapsum TrafficOut (nodes b) ≡64 total /\
  sumZ edge_bytes (Edges (Get v now w filter vms flowRows probeRows)) ≡64 total.
Proof. apply Get_traffic. Qed.

(** ** Edges and rows *)

(** The edge a normalised row belongs to. *)
Definition row_edge_id (row : graphFlowRow) : string :=
  graphEdgeID (NID (sourceNode row)) (NID (targetNode row)) (Protocol row) (RScope row).

Definition add_row (o : option GraphEdge) (row : graphFlowRow) : option GraphEdge :=
  Some (match o with
        | Some e => addFlowRow true e row
        | None => addFlowRow false (newTrafficEdge (row_edge_id row) (NID (sourceNode row)) (NID (targetNode row)) row) row
        end).

(** An edge is the fold of the kept rows that belong to it. *)
Lemma edge_of_rows v b rows id :
  edges (foldl (flow_step v) b rows) !! id
  = foldl add_row (edges b !! id)
      (List.filter (fun r => (row_edge_id r =? id)%string) (kept_rows v b rows)).
Proof.
  revert b. induction rows as [|r l IH]; intros b; [done|]. cbn [foldl kept_rows].
  rewrite IH, List.filter_app, foldl_app. f_equal. unfold flow_step.
  destruct (keeps_flow v b (normalizeGraphRow r)); [|done].
  cbn [negb edges List.filter]. fold (row_edge_id (normalizeGraphRow r)).
  destruct (String.eqb_spec (row_edge_id (normalizeGraphRow r)) id) as [<-|Hne].
  - rewrite lookup_insert_eq. cbn [foldl]. unfold add_row. done.
  - by rewrite lookup_insert_ne.
Qed.

(** The last non-zero element. *)
Definition last_nonzero (start : Z) (l : list Z) : Z :=
  foldl (fun acc s => if negb (s =? 0) then s else acc) start l.

Lemma addFlowRow_window k e r :
  EFirstSeen (addFlowRow k e r) = Z.min (EFirstSeen e) (FirstSeen r) /\
  ELastSeen (addFlowRow k e r) = Z.max (ELastSeen e) (LastSeen r) /\
  LastObservedAt (addFlowRow k e r) = Z.max (LastObservedAt e) (ObservedAt r).
Proof.
  simpl. unfold Before, After.
  destruct (Z.ltb_spec (FirstSeen r) (EFirstSeen e)), (Z.ltb_spec (ELastSeen e) (LastSeen r)),
    (Z.ltb_spec (LastObservedAt e) (ObservedAt r)); lia.
Qed.

Lemma fold_rows e rows :
  exists e', foldl add_row (Some e) rows = Some e' /\
  EFirstSeen e' = foldl Z.min (EFirstSeen e) (map FirstSeen rows) /\
  ELastSeen e' = foldl Z.max (ELastSeen e) (map LastSeen rows) /\
  LastObservedAt e' = foldl Z.max (LastObservedAt e) (map ObservedAt rows) /\
  ELastHTTPStatus e' = last_nonzero (ELastHTTPStatus e) (map LastHTTPStatus rows).
Proof.
  revert e. induction rows as [|r l IH]; intros e; [by exists e|].
  destruct (IH (addFlowRow true e r)) as (e' & E & H1 & H2 & H3 & H4).
  exists e'. cbn [foldl map]. split; [exact E|].
  destruct (addFlowRow_window true e r) as (W1 & W2 & W3). by rewrite H1, H2, H3, H4, W1, W2, W3.
Qed.

(** What an edge reports of its rows.  After the flow loop, an edge is
    made of the kept rows [r :: rs] with its identifier, in query order; its
    window is the union of theirs and [LastObservedAt] their latest
    observation, whatever the order; but its HTTP status is that of the last
    row, in query order, that has one.  As the query returns the most
    recently observed rows first, this is the oldest status seen, not the
    most recent. *)
Theorem edge_window_and_status (v : GraphVisibility) (b : Build) (rows : list graphFlowRow)
    (id : string) (r : graphFlowRow) (rs : list graphFlowRow) :
  edges b !! id = None ->
  List.filter (fun r => (row_edge_id r =? id)%string) (kept_rows v b rows) = r :: rs ->
  exists e, edges (foldl (flow_step v) b rows) !! id = Some e /\
    EFirstSeen e = foldl Z.min (FirstSeen r) (map FirstSeen rs) /\
    ELastSeen e = foldl Z.max (LastSeen r) (map LastSeen rs) /\
    LastObservedAt e = foldl Z.max (Z.max time_zero (ObservedAt r)) (map ObservedAt rs) /\
    ELastHTTPStatus e = last_nonzero 0 (map LastHTTPStatus (r :: rs)).
Proof.
  intros Hn Hf. rewrite edge_of_rows, Hn, Hf. cbn [foldl].
  set (e0 := newTrafficEdge (row_edge_id r) (NID (sourceNode r)) (NID (targetNode r)) r).
  destruct (fold_rows (addFlowRow false e0 r) rs) as (e' & E & H1 & H2 & H3 & H4).
  exists e'. destruct (addFlowRow_window false e0 r) as (W1 & W2 & W3).
  split; [exact E|]. rewrite H1, H2, H3, H4, W1, W2, W3. unfold e0. simpl.
  rewrite Z.min_id, Z.max_id. done.
Qed.

(** * A concrete graph: one machine calling an external address. *)

Definition sample_filter : GraphFilter :=
  {| FAgentID := ""; FTenantID := ""; FProjectID := ""; FVMID := ""; FScope := ""; FProtocol := ""; FPort := 0;
     TimeRange := 0; MinBytes := 0; FStatus := "" |}.
Definition sample_vis : GraphVisibility :=
  {| ExcludedPorts := [22]; AllowedPorts := []; ExcludedIPs := []; IncludeIdle := true |}.
Definition sample_vm : VM :=
  {| VID := "vm-1"; VName := "web"; VTenantID := "t"; VProjectID := ""; VPrivateIP := "10.0.0.5"; VRole := "";
     VAgentID := "agent-1"; VStatus := "online" |}.
Definition sample_row (status : Z) : graphFlowRow :=
  {| AgentID := "agent-1"; SrcVMID := "vm-1"; DstVMID := ""; SrcIP := "10.0.0.5"; DstIP := "93.184.216.34";
     SrcPort := 40000; DstPort := 443; Protocol := "tcp"; Direction := "egress"; RScope := "external_public";
     BytesSent := 100; BytesReceived := 900; PacketCount := 4; Connections := 1; Requests := 1; Errors := 0;
     Retransmits := 0; AvgRTTMs := f_of_Z 3; AvgAppDelayMs := f_of_Z 0; HTTP2xx := 1; HTTP4xx := 0; HTTP5xx := 0;
     LastHTTPStatus := status; FirstSeen := 1000; LastSeen := 2000; ObservedAt := 3000; LastErrorAt := None;
     SrcName := "web"; SrcTenant := "t"; SrcPrivateIP := "10.0.0.5"; SrcStatus := "online"; SrcRole := "";
     SrcAgentID := "agent-1"; DstName := ""; DstTenant := ""; DstPrivateIP := ""; DstStatus := ""; DstRole := "";
     DstAgentID := "" |}.
Definition sample_graph : Graph := Get sample_vis 5000 1000 sample_filter [sample_vm] [sample_row 200] [].

Lemma graph_endpoints_exist_witness :
  exists e n m, Edges sample_graph = [e] /\ n ∈ Nodes sample_graph /\ NID n = Source e /\
    m ∈ Nodes sample_graph /\ NID m = Target e.
Proof.
  assert (E : exists e, Edges sample_graph = [e]) by (eexists; vm_compute; reflexivity).
  destruct E as [e E].
  destruct (graph_endpoints_exist sample_vis 5000 1000 sample_filter [sample_vm] [sample_row 200] [] e)
    as [(n & Hn & En) (m & Hm & Em)]; [fold sample_graph; rewrite E; left|].
  exists e, n, m. split_and!; assumption.
Defined.

Lemma graph_order_independent_witness :
  let b := build sample_vis 5000 1000 sample_filter [sample_vm] [sample_row 200] [] in
  finish sample_vis 5000 1000 (rev (map_to_list (nodes b)).*2) (map_to_list (edges b)).*2 = sample_graph /\
  length (Nodes sample_graph) = 2%nat.
Proof.
  intros b. split; [|vm_compute; reflexivity].
  apply (graph_order_independent sample_vis 5000 1000 sample_filter [sample_vm] [sample_row 200] []);
    [symmetry; apply Permutation_rev|reflexivity].
Defined.

Lemma graph_traffic_balanced_witness :
  mapsum TrafficOut (nodes (build sample_vis 5000 1000 sample_filter [sample_vm] [sample_row 200] [])) ≡64 1000.
Proof.
  destruct (graph_traffic_balanced sample_vis 5000 1000 sample_filter [sample_vm] [sample_row 200] [] eq_refl)
    as (_ & H & _).
  etransitivity; [exact H|]. apply cong64_eq. vm_compute. reflexivity.
Defined.

(** Rows come newest first: the newest status is 200, the edge shows 500. *)
Lemma edge_window_and_status_witness :
  exists e, edges (foldl (flow_step sample_vis) {| nodes := ∅; edges := ∅; vmByID := ∅ |}
                     [sample_row 200; sample_row 500]) !! row_edge_id (sample_row 200) = Some e /\
    ELastHTTPStatus e = 500.
Proof.
  destruct (edge_window_and_status sample_vis {| nodes := ∅; edges := ∅; vmByID := ∅ |}
              [sample_row 200; sample_row 500] (row_edge_id (sample_row 200)) (sample_row 200) [sample_row 500])
    as (e & He & _ & _ & _ & Hst); [vm_compute; reflexivity|vm_compute; reflexivity|].
  exists e. split; [exact He|]. rewrite Hst. vm_compute. reflexivity.
Defined.
