(* ===== verification/Hub.v ===== *)
(** The server-sent-events hub: [backend/internal/realtime/hub.go].

    Concurrent calls are labelled steps, one per critical section (the hub's
    mutexes serialise them).  A client is a channel with 32 slots; a timer
    armed by [BroadcastLatest] is the presence of its event type in
    [throttled], and its expiry the step [Flush]. *)
From S2P Require Import Prelude GoTime.

#[local] Open Scope Z_scope.

Section hub.
(** Payloads are the marshalled events; [json.Marshal] may fail. *)
Context {Payload : Type}.

Definition client_slots : nat := 32.

(** [buffer] is the channel.  [received] and [offered] record, for the
    theorems, what the handler has written to its response and what was
    broadcast since the client connected. *)
Record Client := { buffer : list Payload; received : list Payload; offered : list Payload }.

(** [clients] by channel, [throttled] by event type; [sent] records the
    broadcasts in order. *)
Record Hub := { clients : gmap nat Client; throttled : gmap string Payload; sent : list Payload }.

Definition New : Hub := {| clients := ∅; throttled := ∅; sent := [] |}.

(** [select { case client <- payload: default: }] *)
Definition offer (payload : Payload) (c : Client) : Client :=
  {| buffer := if (length (buffer c) <? client_slots)%nat then buffer c ++ [payload] else buffer c;
     received := received c; offered := offered c ++ [payload] |}.

Definition broadcastPayload (h : Hub) (payload : Payload) : Hub :=
  {| clients := offer payload <$> clients h; throttled := throttled h; sent := sent h ++ [payload] |}.

(** [payload = None] is a marshalling error. *)
Definition Broadcast (h : Hub) (payload : option Payload) : Hub :=
  match payload with
  | None => h
  | Some p => broadcastPayload h p
  end.

Definition BroadcastLatest (h : Hub) (eventType : string) (payload : option Payload)
    (interval : duration) : Hub :=
  if interval <=? 0 then Broadcast h payload
  else match payload with
  | None => h
  | Some p =>
      match throttled h !! eventType with
      | Some _ => {| clients := clients h; throttled := <[eventType := p]> (throttled h); sent := sent h |}
      | None => {| clients := clients h; throttled := <[eventType := p]> (throttled h); sent := sent h |}
      end
  end.

Definition flushLatest (h : Hub) (eventType : string) : Hub :=
  match throttled h !! eventType with
  | None => h
  | Some payload =>
      broadcastPayload {| clients := clients h; throttled := delete eventType (throttled h); sent := sent h |} payload
  end.

(** [ServeHTTP]: connecting, writing one payload, disconnecting. *)
Definition connect (h : Hub) (client : nat) : Hub :=
  {| clients := <[client := {| buffer := []; received := []; offered := [] |}]> (clients h);
     throttled := throttled h; sent := sent h |}.

Definition deliver (h : Hub) (client : nat) (c : Client) (payload : Payload) (rest : list Payload) : Hub :=
  {| clients := <[client := {| buffer := rest; received := received c ++ [payload]; offered := offered c |}]>
                  (clients h);
     throttled := throttled h; sent := sent h |}.

Definition disconnect (h : Hub) (client : nat) : Hub :=
  {| clients := delete client (clients h); throttled := throttled h; sent := sent h |}.

Inductive Label :=
| LBroadcast (payload : option Payload)
| LLatest (eventType : string) (payload : option Payload) (interval : duration)
| LFlush (eventType : string)
| LConnect (client : nat)
| LDeliver (client : nat)
| LDisconnect (client : nat).

Inductive step : Hub -> Label -> Hub -> Prop :=
| step_broadcast h p : step h (LBroadcast p) (Broadcast h p)
| step_latest h t p i : step h (LLatest t p i) (BroadcastLatest h t p i)
| step_flush h t : is_Some (throttled h !! t) -> step h (LFlush t) (flushLatest h t)
| step_connect h c : clients h !! c = None -> step h (LConnect c) (connect h c)
| step_deliver h c cl payload rest :
    clients h !! c = Some cl -> buffer cl = payload :: rest ->
    step h (LDeliver c) (deliver h c cl payload rest)
| step_disconnect h c : is_Some (clients h !! c) -> step h (LDisconnect c) (disconnect h c).

Inductive runs : list Label -> Hub -> Prop :=
| runs_start : runs [] New
| runs_step ls h l h' : runs ls h -> step h l h' -> runs (ls ++ [l]) h'.

(** ** Facts *)

(** [offered] lost at most what did not fit: what the client got and will
    get is what it was offered, in order, minus the payloads offered while
    its 32 slots were full. *)
Definition client_ok (c : Client) : Prop :=
  (length (buffer c) <= client_slots)%nat /\ sublist (received c ++ buffer c) (offered c) /\
  ((length (offered c) <= client_slots)%nat -> received c ++ buffer c = offered c).

Lemma offer_ok p c : client_ok c -> client_ok (offer p c).
Proof.
  intros (Hl & Hs & He). unfold offer, client_ok. simpl. rewrite length_app. simpl.
  destruct (Nat.ltb_spec (length (buffer c)) client_slots); simpl.
  - rewrite length_app, app_assoc. split_and!; [simpl; lia|by apply sublist_app|].
    intros Hle. rewrite He by lia. done.
  - split_and!; [done|by apply sublist_inserts_r|]. intros Hle.
    specialize (He ltac:(lia)). apply (f_equal length) in He. rewrite length_app in He. lia.
Qed.

Definition hub_ok (h : Hub) : Prop := map_Forall (fun _ c => client_ok c) (clients h).

Lemma broadcastPayload_ok h p : hub_ok h -> hub_ok (broadcastPayload h p).
Proof.
  intros H c x. unfold broadcastPayload. simpl. rewrite lookup_fmap.
  destruct (clients h !! c) as [y|] eqn:E; [|done]. simpl. intros [= <-]. apply offer_ok. by eapply H.
Qed.

Lemma Broadcast_ok h p : hub_ok h -> hub_ok (Broadcast h p).
Proof. intros H. destruct p; [by apply broadcastPayload_ok|done]. Qed.

Lemma hub_step_ok h l h' : hub_ok h -> step h l h' -> hub_ok h'.
Proof.
  intros H Hs. destruct Hs as [h p|h t p i|h t _|h c Hc|h c cl p rest Hc Hb|h c _].
  - by apply Broadcast_ok.
  - unfold BroadcastLatest. destruct (i <=? 0); [by apply Broadcast_ok|].
    destruct p as [p|]; [|done]. by destruct (throttled h !! t).
  - unfold flushLatest. destruct (throttled h !! t); [|done]. by apply broadcastPayload_ok.
  - apply map_Forall_insert_2; [|done]. split_and!; simpl; [lia|done|done].
  - apply map_Forall_insert_2; [|done]. destruct (H _ _ Hc) as (Hl & Hsub & He).
    rewrite Hb in Hl, Hsub, He. unfold client_ok. simpl in *. rewrite <- app_assoc. simpl.
    split_and!; [lia|done|done].
  - apply map_Forall_delete. done.
Qed.

(** The payload an event type still owes its clients: the last one passed to
    [BroadcastLatest] with a positive interval. *)
Definition owes (t : string) (l : Label) (o : option Payload) : option Payload :=
  match l with
  | LLatest t' (Some p) i => if decide (t' = t) then if i <=? 0 then o else Some p else o
  | _ => o
  end.
Definition latest (t : string) (ls : list Label) : option Payload :=
  foldl (fun o l => owes t l o) None ls.

Definition flush_inv (ls : list Label) (h : Hub) : Prop :=
  forall t p, latest t ls = Some p ->
    throttled h !! t = Some p \/ (throttled h !! t = None /\ p ∈ sent h).

Lemma runs_flush ls h : runs ls h -> flush_inv ls h.
Proof.
  induction 1 as [|ls h l h' Hr IH Hs]; [done|]. intros t p. unfold latest. rewrite foldl_app. simpl.
  fold (latest t ls).
  assert (Hsent : forall (q : Payload), p ∈ sent h -> p ∈ sent h ++ [q]) by (intros; by apply elem_of_app; left).
  destruct Hs as [h q|h t' q i|h t' [q Hq]|h c _|h c cl q rest _ _|h c _]; simpl; try apply IH.
  - intros Hp. destruct q; [|by apply IH]. simpl. destruct (IH t p Hp) as [?|[? ?]]; auto.
  - unfold BroadcastLatest. destruct q as [q|]; [|destruct (i <=? 0); apply IH].
    destruct (decide (t' = t)) as [->|Hne].
    + destruct (i <=? 0); [|intros [= ->]; left; destruct (throttled h !! t); apply lookup_insert_eq].
      intros Hp. simpl. destruct (IH t p Hp) as [?|[? ?]]; auto.
    + intros Hp. destruct (i <=? 0); simpl.
      * destruct (IH t p Hp) as [?|[? ?]]; auto.
      * destruct (throttled h !! t'); simpl; rewrite lookup_insert_ne by done; by apply IH.
  - intros Hp. unfold flushLatest. rewrite Hq. simpl. destruct (decide (t' = t)) as [->|Hne].
    + right. rewrite lookup_delete_eq. split; [done|]. apply elem_of_app. right.
      destruct (IH t p Hp) as [E|[E _]]; [|congruence]. rewrite Hq in E. injection E as ->.
      apply list_elem_of_here.
    + rewrite lookup_delete_ne by done. destruct (IH t p Hp) as [?|[? ?]]; auto.
Qed.
End hub.
Arguments Client : clear implicits.
Arguments Hub : clear implicits.
Arguments Label : clear implicits.

(** A slow client never blocks the hub and is never sent reordered or
    duplicated events: in every reachable state a client's queue holds at
    most 32 payloads; what it received and has queued is, in order, a part
    of what was broadcast since it connected, and all of it as long as it
    was offered at most 32; and every broadcast step is enabled. *)
Theorem hub_clients_bounded (Payload : Type) (ls : list (Label Payload)) (h : Hub Payload)
    (client : nat) (c : Client Payload) :
  runs ls h -> clients h !! client = Some c ->
  (length (buffer c) <= 32)%nat /\ sublist (received c ++ buffer c) (offered c) /\
  ((length (offered c) <= 32)%nat -> received c ++ buffer c = offered c) /\
  forall p, exists h', step h (LBroadcast p) h'.
Proof.
  intros Hr Hc. assert (hub_ok h) as Hok.
  { clear c Hc. induction Hr; [apply map_Forall_empty|by eapply hub_step_ok]. }
  destruct (Hok _ _ Hc) as (? & ? & ?). split_and!; try done. intros p. eexists. apply step_broadcast.
Qed.


Lemma hub_clients_bounded_witness :
  exists h c, runs (Payload := nat) [LConnect 0%nat; LBroadcast (Some 7%nat)] h /\ clients h !! 0%nat = Some c /\
    received c ++ buffer c = [7%nat].
Proof.
  set (h := broadcastPayload (connect (New (Payload := nat)) 0%nat) 7%nat).
  assert (Hr : runs [LConnect 0%nat; LBroadcast (Some 7%nat)] h).
  { apply (runs_step [LConnect 0%nat] (connect New 0%nat)); [apply (runs_step [] New)|].
    - constructor.
    - by constructor.
    - apply (step_broadcast _ (Some 7%nat)). }
  exists h, {| buffer := [7%nat]; received := []; offered := [7%nat] |}. split; [exact Hr|]. split; [reflexivity|].
  apply (hub_clients_bounded nat _ h 0%nat _ Hr eq_refl). simpl. lia.
Defined.

