(* ===== verification/Stream.v ===== *)
(** The stream of server-sent events: [Event] and [Hub.ServeHTTP] of
    [backend/internal/realtime/hub.go], with the text that reaches a browser.

    The hub of Hub.v is run with the marshalled events as payloads.  A
    browser reads the stream by the rules of the event-stream format: lines
    end in LF, CR or both, a line with [data:] adds to the event, a line that
    starts with a colon is a comment and an empty line ends the event. *)
From S2P Require Import Prelude GoStrings GoTime Decimal GoDate JsonText JsonCodec Hub.

#[local] Open Scope Z_scope.

(** ** Event *)

(** [Data] is nil or a value with its type. *)
Record Event := { ev_Type : string; ev_Data : option (gtype * gval); ev_Timestamp : time }.

Definition event_type (data : option gtype) : gtype :=
  TStruct ([("type", false, TString)] ++ match data with None => [] | Some t => [("data", false, t)] end
           ++ [("timestamp", false, TTime)]).
Definition event_value (e : Event) : gval :=
  VStruct ([VString (ev_Type e)] ++ match ev_Data e with None => [] | Some (_, v) => [v] end ++ [VTime (ev_Timestamp e)]).
Definition type_of (e : Event) : gtype := event_type (fst <$> ev_Data e).

(** [json.Marshal(Event{...})] in [Broadcast] and [BroadcastLatest]. *)
Definition event_payload (zone : time -> Z) (e : Event) : option (list ascii) :=
  match marshal zone (type_of e) (event_value e) with Ok l => Some l | Err _ => None end.

(** ** [ServeHTTP] *)

Definition LF : ascii := chr 10.
Definition CR : ascii := chr 13.
Definition data_frame (payload : list ascii) : list ascii := bytes_of "data: " ++ payload ++ [LF; LF].
Definition keepalive_frame : list ascii := bytes_of ": keepalive" ++ [LF; LF].

(** What the handler has written after it took [received] from its channel:
    first the initial event, then payloads and keep-alives as they come. *)
Inductive written (initial : list ascii) : list (list ascii) -> list ascii -> Prop :=
| written_initial : written initial [] (data_frame initial)
| written_payload received out payload :
    written initial received out -> written initial (received ++ [payload]) (out ++ data_frame payload)
| written_keepalive received out : written initial received out -> written initial received (out ++ keepalive_frame).

Definition connected (now : time) : Event := {| ev_Type := "connected"; ev_Data := None; ev_Timestamp := now |}.

(** ** The event-stream format *)

(** The complete lines. *)
Fixpoint lines (afterCR : bool) (line : list ascii) (l : list ascii) : list (list ascii) :=
  match l with
  | [] => []
  | c :: t =>
      if Ascii.eqb c LF then (if afterCR then lines false [] t else line :: lines false [] t)
      else if Ascii.eqb c CR then line :: lines true [] t
      else lines false (line ++ [c]) t
  end.

(** Name and value: the value starts after the colon and at most one space. *)
Definition field (line : list ascii) : list ascii * list ascii :=
  match split_first ":"%char line with
  | None => (line, [])
  | Some (name, value) => (name, match value with c :: t => if Ascii.eqb c " "%char then t else value | [] => [] end)
  end.

Fixpoint dispatch (data : list ascii) (ls : list (list ascii)) : list (list ascii) :=
  match ls with
  | [] => []
  | [] :: rest => match data with [] => dispatch [] rest | _ => removelast data :: dispatch [] rest end
  | line :: rest =>
      let '(name, value) := field line in
      if bool_decide (name = bytes_of "data") then dispatch (data ++ value ++ [LF]) rest else dispatch data rest
  end.

(** The data of the events a browser dispatches. *)
Definition browser (l : list ascii) : list (list ascii) := dispatch [] (lines false [] l).

(** * Facts *)

(** ** Marshalled text has no control characters *)

Definition printable (c : ascii) : Prop := 32 <= byteZ c.

Lemma simple_escape_printable e : simple_escape e = true -> printable e.
Proof. destruct e as [[] [] [] [] [] [] [] []]; intros H; try discriminate H; unfold printable; vm_compute; discriminate. Qed.

Lemma is_hex_printable e : is_hex e = true -> printable e.
Proof. destruct e as [[] [] [] [] [] [] [] []]; intros H; try discriminate H; unfold printable; vm_compute; discriminate. Qed.

Lemma is_digit_printable c : is_digit c = true -> printable c.
Proof. destruct c as [[] [] [] [] [] [] [] []]; intros H; try discriminate H; unfold printable; vm_compute; discriminate. Qed.

Lemma eqb_printable c d : printable d -> Ascii.eqb c d = true -> printable c.
Proof. by intros H ->%Ascii.eqb_eq. Qed.

Ltac concrete := unfold printable; vm_compute; discriminate.

Lemma scan_string_printable l raw r : scan_string l = Some (raw, r) -> Forall printable raw.
Proof.
  revert raw. induction l as [l IH] using (induction_ltof1 _ (@length ascii)). unfold ltof in IH. intros raw.
  assert (Hp : forall p t, (length t < length l)%nat -> Forall printable p -> prepend p (scan_string t) = Some (raw, r) -> Forall printable raw).
  { intros p t Ht Hpr (raw' & E & ->)%prepend_Some. apply Forall_app. split; [done|by eapply IH]. }
  destruct l as [|c t]; [done|]. cbn [scan_string]. destruct (Ascii.eqb c quote_char); [by intros [= <- <-]|].
  destruct (Ascii.eqb c backslash) eqn:Eb; [apply (eqb_printable c) in Eb; [|concrete]|].
  - destruct t as [|e t2]; [done|]. destruct (simple_escape e) eqn:Ee.
    { apply Hp; [cbn; lia|]. repeat constructor; [done|by apply simple_escape_printable]. }
    destruct (Ascii.eqb e "u"%char) eqn:Eu; [|done]. apply (eqb_printable e) in Eu; [|concrete]. do 4 (destruct t2 as [|? t2]; [done|]).
    destruct (_ && _) eqn:Eh; [|done]. bools. apply Hp; [cbn; lia|]. repeat constructor; try done; by apply is_hex_printable.
  - destruct (Z.ltb_spec (byteZ c) 32); [done|]. apply Hp; [cbn; lia|]. by repeat constructor.
Qed.

Lemma scan_digits_printable p l raw r : Forall printable p -> scan_digits p l = Some (raw, r) -> Forall printable raw.
Proof.
  intros Hp. unfold scan_digits. assert (Hd : Forall printable (span_digits l).1).
  { induction l as [|c l IH]; [done|]. cbn [span_digits]. destruct (is_digit c) eqn:E; [|done]. destruct (span_digits l).
    constructor; [by apply is_digit_printable|done]. }
  destruct (span_digits l) as [[|d ds] r']; [done|]. intros [= <- <-]. by apply Forall_app.
Qed.

Lemma scan_unsigned_printable l raw r : scan_unsigned l = Some (raw, r) -> Forall printable raw.
Proof.
  unfold scan_unsigned. destruct (scan_int l) as [[p1 r1]|] eqn:E1; [|done]. cbn [and_then].
  destruct (scan_frac r1) as [[p2 r2]|] eqn:E2; [|done]. cbn [prepend and_then]. intros (p3 & E3 & ->)%prepend_Some.
  assert (H1 : Forall printable p1).
  { destruct l as [|c l]; [done|]. cbn [scan_int] in E1. destruct (Ascii.eqb c "0") eqn:Ec; [|by eapply scan_digits_printable; [|exact E1]].
    injection E1 as <- <-. constructor; [|done]. eapply eqb_printable; [|exact Ec]. concrete. }
  assert (H2 : Forall printable p2).
  { destruct r1 as [|c r1]; cbn [scan_frac] in E2; [by injection E2 as <- <-|]. destruct (Ascii.eqb c ".") eqn:Ec; [|by injection E2 as <- <-].
    eapply scan_digits_printable; [|exact E2]. constructor; [|done]. eapply eqb_printable; [|exact Ec]. concrete. }
  assert (H3 : Forall printable p3); [|by apply Forall_app; split; [apply Forall_app|]].
  destruct r2 as [|c r2]; cbn [scan_exp] in E3; [by injection E3 as <- <-|]. destruct (_ || _) eqn:Ec; [|by injection E3 as <- <-].
  assert (Hc : printable c) by (apply orb_true_iff in Ec as [Ec|Ec]; (eapply eqb_printable; [|exact Ec]); concrete).
  destruct r2 as [|s r2]; [done|]. destruct (Ascii.eqb s "+" || Ascii.eqb s "-") eqn:Es; (eapply scan_digits_printable; [|exact E3]); [|by repeat constructor].
  repeat constructor; [done|]. apply orb_true_iff in Es as [Es|Es]; (eapply eqb_printable; [|exact Es]); concrete.
Qed.

Lemma number_printable l : number_ok l = true -> Forall printable l.
Proof.
  unfold number_ok. intros E%bool_decide_eq_true. destruct l as [|c t]; [done|]. cbn [scan_number] in E.
  destruct (Ascii.eqb c "-") eqn:Ec; [|by eapply scan_unsigned_printable].
  apply prepend_Some in E as (raw' & E & Eq). injection Eq as <-. constructor; [eapply eqb_printable; [|exact Ec]; concrete|].
  by eapply scan_unsigned_printable.
Qed.

Lemma quoted_printable raw : literal_ok raw = true -> Forall printable (quoted raw).
Proof.
  unfold literal_ok. intros E%bool_decide_eq_true%scan_string_printable. constructor; [concrete|]. apply Forall_app. split; [done|].
  constructor; [concrete|done].
Qed.

Lemma join_printable ls : Forall (Forall printable) ls -> Forall printable (join ls).
Proof.
  induction 1 as [|x ls Hx Hls IH]; [done|]. cbn [join]. destruct ls; [done|]. apply Forall_app. split; [done|]. constructor; [concrete|done].
Qed.

Lemma bracketed_printable a l b : printable a -> Forall printable l -> printable b -> Forall printable (a :: l ++ [b]).
Proof. intros. constructor; [done|]. apply Forall_app. by repeat constructor. Qed.

Lemma render_printable j : wf j = true -> Forall printable (render j).
Proof.
  induction j as [|b|l|raw|l IH|ms IH] using json_ind'; cbn [wf render]; intros Hw.
  - repeat constructor; concrete.
  - destruct b; repeat constructor; concrete.
  - by apply number_printable.
  - by apply quoted_printable.
  - apply bracketed_printable; [concrete| |concrete]. apply join_printable, Forall_map. rewrite forallb_forall in Hw.
    rewrite Forall_forall in IH |- *. intros x Hx. apply IH; [done|]. by apply Hw, list_elem_of_In.
  - apply bracketed_printable; [concrete| |concrete]. apply join_printable, Forall_map. rewrite forallb_forall in Hw.
    rewrite Forall_forall in IH |- *. intros x Hx. specialize (Hw x). apply andb_true_iff in Hw as [? ?]; [|by apply list_elem_of_In].
    apply Forall_app. split; [by apply quoted_printable|]. constructor; [concrete|by apply IH].
Qed.

Lemma marshal_printable zone t v l : type_ok t = true -> carried zone t v -> marshal zone t v = Ok l -> Forall printable l.
Proof.
  intros Hok Hv. destruct (encode_spec zone t Hok v Hv) as (j & E & [Hwf _ _ _ _]). unfold marshal. rewrite E. intros [= <-]. by apply render_printable.
Qed.

(** ** Framing *)

Lemma printable_ends c : printable c -> Ascii.eqb c LF = false /\ Ascii.eqb c CR = false.
Proof.
  intros H. split; [destruct (Ascii.eqb_spec c LF) as [->|]|destruct (Ascii.eqb_spec c CR) as [->|]]; try done; vm_compute in H; by destruct H.
Qed.

Lemma lines_line line p t : Forall printable p -> lines false line (p ++ LF :: t) = (line ++ p) :: lines false [] t.
Proof.
  intros Hp. revert line. induction Hp as [|c p Hc _ IH]; intros line; [by rewrite app_nil_r|]. cbn [app lines].
  destruct (printable_ends c Hc) as [-> ->]. rewrite IH, <- app_assoc. done.
Qed.

Lemma printable_text (s : string) : forallb (fun c => 32 <=? byteZ c) (bytes_of s) = true -> Forall printable (bytes_of s).
Proof. rewrite forallb_forall. intros H. apply Forall_forall. intros c Hc. by apply Z.leb_le, H, list_elem_of_In. Qed.

(** A browser reads a frame as its payload, and a keep-alive as nothing. *)
Lemma browser_data p t : Forall printable p -> browser (data_frame p ++ t) = p :: browser t.
Proof.
  intros Hp. unfold browser, data_frame. replace ((bytes_of "data: " ++ p ++ [LF; LF]) ++ t) with ((bytes_of "data: " ++ p) ++ LF :: LF :: t)
    by (by rewrite <- !app_assoc). rewrite lines_line by (apply Forall_app; split; [by apply printable_text|done]).
  cbn [lines app]. change (Ascii.eqb LF LF) with true. cbn [dispatch bytes_of String.list_ascii_of_string app].
  change (field ("d" :: "a" :: "t" :: "a" :: ":" :: " " :: p)%char) with (bytes_of "data", p). cbn iota beta.
  rewrite bool_decide_eq_true_2 by done. cbn [app dispatch].
  destruct (p ++ [LF]) as [|c l] eqn:E; [by destruct p|]. rewrite <- E, removelast_last. done.
Qed.

Lemma browser_keepalive t : browser (keepalive_frame ++ t) = browser t.
Proof.
  unfold browser, keepalive_frame. rewrite <- app_assoc. cbn [app]. rewrite lines_line by (by apply printable_text).
  cbn [lines app]. change (Ascii.eqb LF LF) with true. done.
Qed.

Lemma browser_written initial received out t : Forall printable initial -> Forall (Forall printable) received -> written initial received out ->
  browser (out ++ t) = initial :: received ++ browser t.
Proof.
  intros Hi Hr Hw. revert t. induction Hw as [|received out payload _ IH|received out _ IH]; intros t.
  - by rewrite browser_data.
  - apply Forall_app in Hr as [Hr Hp]. apply Forall_cons in Hp as [Hp _]. rewrite <- app_assoc, IH, browser_data by done. by rewrite <- app_assoc.
  - by rewrite <- app_assoc, IH, browser_keepalive.
Qed.

(** ** What is in the hub was broadcast *)

Definition of_label {A} (P : A -> Prop) (l : Label A) : Prop :=
  match l with LBroadcast (Some p) | LLatest _ (Some p) _ => P p | _ => True end.
Definition client_holds {A} (P : A -> Prop) (c : Client A) : Prop := Forall P (buffer c) /\ Forall P (received c).
Definition hub_holds {A} (P : A -> Prop) (h : Hub A) : Prop :=
  map_Forall (fun _ c => client_holds P c) (clients h) /\ map_Forall (fun _ p => P p) (throttled h).

Lemma broadcast_holds {A} (P : A -> Prop) h p : P p -> hub_holds P h -> hub_holds P (broadcastPayload h p).
Proof.
  intros Hp [Hc Ht]. split; [|done]. intros c x. cbn. rewrite lookup_fmap. destruct (clients h !! c) as [y|] eqn:E; [|done]. cbn.
  intros [= <-]. destruct (Hc c y E) as [Hb Hr]. split; [|done]. unfold offer. cbn [buffer].
  destruct (Nat.ltb (length (buffer y)) client_slots); [|done]. apply Forall_app. by repeat constructor.
Qed.

Lemma runs_hold {A} (P : A -> Prop) ls h : runs ls h -> Forall (of_label P) ls -> hub_holds P h.
Proof.
  induction 1 as [|ls h l h' Hr IH Hs]; [split; apply map_Forall_empty|]. intros [Hls Hl]%Forall_app. apply Forall_cons in Hl as [Hl _].
  specialize (IH Hls). destruct Hs as [h p|h t p i|h t [q Hq]|h c Hc|h c cl p rest Hc Hb|h c _].
  - destruct p as [p|]; [by apply broadcast_holds|done].
  - unfold BroadcastLatest. destruct (i <=? 0); destruct p as [p|]; try done; [by apply broadcast_holds|]. destruct IH as [IHc IHt].
    destruct (throttled h !! t); (split; [done|by apply map_Forall_insert_2]).
  - unfold flushLatest. rewrite Hq. destruct IH as [IHc IHt]. apply broadcast_holds; [by eapply IHt|]. split; [done|]. by apply map_Forall_delete.
  - destruct IH as [IHc IHt]. split; [|done]. apply map_Forall_insert_2; [by repeat constructor|done].
  - destruct IH as [IHc IHt]. split; [|done]. destruct (IHc c cl Hc) as [Hbuf Hrec]. rewrite Hb in Hbuf. apply Forall_cons in Hbuf as [? ?].
    apply map_Forall_insert_2; [|done]. split; [done|]. apply Forall_app. by repeat constructor.
  - destruct IH as [IHc IHt]. split; [|done]. by apply map_Forall_delete.
Qed.

(** ** Theorem *)

(** Events the text carries. *)
Record sendable (zone : time -> Z) (e : Event) : Prop := {
  sd_type : type_ok (type_of e) = true;
  sd_depth : (type_depth (type_of e) <= maxNestingDepth)%nat;
  sd_value : carried zone (type_of e) (event_value e)
}.

(** A payload that is an event's text: without control characters, and read
    back as the event. *)
Definition event_line (zone : time -> Z) (l : list ascii) : Prop :=
  Forall printable l /\ exists e, event_payload zone e = Some l /\ unmarshal (type_of e) l = Ok (event_value e).

Lemma sendable_line zone e : sendable zone e -> exists l, event_payload zone e = Some l /\ event_line zone l.
Proof.
  intros [Ht Hd Hv]. destruct (marshal_spec zone _ _ Ht Hd Hv) as (l & Hm & _ & _ & Hu). exists l. unfold event_payload. rewrite Hm.
  split; [done|]. split; [by eapply marshal_printable|]. exists e. unfold event_payload. rewrite Hm. split; [done|].
  specialize (Hu [] eq_refl eq_refl). by rewrite app_nil_r in Hu.
Qed.

(** The broadcasts of a run are those of some events. *)
Definition broadcasts (zone : time -> Z) (l : Label (list ascii)) : Prop :=
  match l with
  | LBroadcast p | LLatest _ p _ => exists e, sendable zone e /\ event_payload zone e = p
  | _ => True
  end.

Lemma broadcasts_lines zone ls : Forall (broadcasts zone) ls -> Forall (of_label (event_line zone)) ls.
Proof.
  intros Hls. eapply Forall_impl; [exact Hls|]. intros [p|t p i| | | |] Hl; try done; destruct Hl as (e & He & <-); destruct (sendable_line zone e He) as (l & -> & ?); done.
Qed.

(** C38: A browser sees what was broadcast.  However the hub is used, the
    stream written to a client, keep-alives included, is read as the
    [connected] event followed by an ordered part of the events broadcast
    since it connected, all of them as long as at most 32 were; each is one
    message whose data decodes to the event, whatever its strings contain. *)
Theorem stream_understood (zone : time -> Z) (ls : list (Label (list ascii))) (h : Hub (list ascii)) (client : nat) (c : Client (list ascii))
    (now : time) (initial out : list ascii) :
  runs ls h -> Forall (broadcasts zone) ls -> clients h !! client = Some c ->
  writable (zone now) now -> event_payload zone (connected now) = Some initial -> written initial (received c) out ->
  browser out = initial :: received c /\ sublist (received c) (offered c) /\
  ((length (offered c) <= 32)%nat -> received c ++ buffer c = offered c) /\
  Forall (fun l => exists e, event_payload zone e = Some l /\ unmarshal (type_of e) l = Ok (event_value e)) (initial :: received c).
Proof.
  intros Hr Hls Hc Hnow Hi Hw.
  assert (Hinit : event_line zone initial).
  { destruct (sendable_line zone (connected now)) as (l & El & Hl); [|congruence]. split; [done|by apply maxNestingDepth_ge|by split_and!]. }
  destruct (runs_hold _ ls h Hr (broadcasts_lines zone ls Hls)) as [Hh _]. destruct (Hh client c Hc) as [_ Hrec].
  assert (hub_ok h) as Hok by (clear -Hr; induction Hr; [apply map_Forall_empty|by eapply hub_step_ok]).
  destruct (Hok client c Hc) as (_ & Hsub & Hall). split_and!.
  - pose proof (browser_written initial (received c) out [] (proj1 Hinit)) as Hb. rewrite app_nil_r in Hb. rewrite Hb; [by rewrite app_nil_r| |done].
    eapply Forall_impl; [exact Hrec|]. by intros l [? _].
  - etrans; [|exact Hsub]. by apply sublist_inserts_r.
  - exact Hall.
  - constructor; [apply Hinit|]. eapply Forall_impl; [exact Hrec|]. by intros l [_ ?].
Qed.

(** ** A small run *)

(** A name with a line feed and a quote. *)
Definition sample_stream_event : Event :=
  {| ev_Type := "vm.updated";
     ev_Data := Some (TStruct [("name", false, TString); ("port", false, TInt)],
                      VStruct [VString (string_of (map chr [97; 10; 34; 98])); VInt 443]);
     ev_Timestamp := Hour |}.
Definition sample_zone (t : time) : Z := 0.
Definition sample_stream_payload : list ascii := default [] (event_payload sample_zone sample_stream_event).
Definition sample_initial : list ascii := default [] (event_payload sample_zone (connected Hour)).
Definition sample_labels : list (Label (list ascii)) := [LConnect 0%nat; LBroadcast (Some sample_stream_payload); LDeliver 0%nat].
Definition sample_stream_client : Client (list ascii) :=
  {| buffer := []; received := [sample_stream_payload]; offered := [sample_stream_payload] |}.
Definition sample_stream_hub : Hub (list ascii) :=
  deliver (broadcastPayload (connect New 0%nat) sample_stream_payload) 0
    {| buffer := [sample_stream_payload]; received := []; offered := [sample_stream_payload] |} sample_stream_payload [].

Lemma stream_understood_witness :
  browser ((data_frame sample_initial ++ keepalive_frame) ++ data_frame sample_stream_payload) = [sample_initial; sample_stream_payload].
Proof.
  assert (Ei : event_payload sample_zone (connected Hour) = Some sample_initial) by (vm_compute; reflexivity).
  assert (Ep : event_payload sample_zone sample_stream_event = Some sample_stream_payload) by (vm_compute; reflexivity).
  assert (Hs : sendable sample_zone sample_stream_event).
  { split; [vm_compute; reflexivity|apply maxNestingDepth_ge; vm_compute; discriminate|].
    cbn -[writable in_i64 valid_utf8]. repeat split; try discriminate; vm_compute; congruence. }
  assert (Hw : writable (sample_zone Hour) Hour) by (split; vm_compute; [split; discriminate|reflexivity]).
  assert (Hr : runs sample_labels sample_stream_hub).
  { apply (runs_step [LConnect 0%nat; LBroadcast (Some sample_stream_payload)] (broadcastPayload (connect New 0%nat) sample_stream_payload)).
    - apply (runs_step [LConnect 0%nat] (connect New 0%nat)); [apply (runs_step [] New); [constructor|by constructor]|].
      apply (step_broadcast _ (Some sample_stream_payload)).
    - apply step_deliver; reflexivity. }
  assert (Hl : Forall (broadcasts sample_zone) sample_labels).
  { repeat constructor. exists sample_stream_event. split; [exact Hs|exact Ep]. }
  refine (proj1 (stream_understood sample_zone sample_labels sample_stream_hub 0 sample_stream_client Hour sample_initial _ Hr Hl _ Hw Ei _)).
  - reflexivity.
  - apply (written_payload sample_initial []), written_keepalive, written_initial.
Defined.
