(* ===== verification/ConnectionState.v ===== *)
(** Connection views: [backend/internal/service/connection_state_service.go]
    with the types of model/cloud.go it uses.

    [List] folds declared intents, synced configurations, observed flows and
    probes into one view per connection; the map of pointers is a finite map
    updated in place.  The rows are what the four queries return. *)
From S2P Require Import Prelude GoStrings GoFloat GoTime Graph.

#[local] Open Scope Z_scope.

Record ConnectionIntent := {
  IID : string; ITenantID : string; IProjectID : string; ISourceVMID : string; IDestVMID : string;
  IProtocol : string; IPort : Z; Purpose : string; Exposure : string; Required : bool;
  IStatus : string; CreatedBy : string; CreatedAt : time; UpdatedAt : time
}.

Record ConnectionConfiguration := {
  CID : string; CTenantID : string; CProjectID : string; IntentID : string;
  CSourceVMID : string; CDestVMID : string; CProtocol : string; CPort : Z;
  FirewallRuleID : string; RouteID : string; NetworkID : string;
  ConfigState : string; CSecurityState : string; LastSyncedAt : option time
}.

Record ConnectionObservedState := {
  OSourceVMID : string; ODestVMID : string; OProtocol : string; OPort : Z; OScope : string;
  Observed : bool; OReachable : bool; OActive : bool; OFailed : bool;
  RequestCount : Z; ErrorCount : Z; BytesTotal : Z; OAvgRTTMs : float64;
  OLastObservedAt : option time; OLastErrorAt : option time
}.

Record ConnectionView := {
  VWID : string; VWTenantID : string; VWProjectID : string;
  SourceVMID : string; SourceName : string; SourceIP : string;
  DestVMID : string; DestName : string; DestIP : string; VWProtocol : string; Port : Z; VWScope : string;
  Intent : option ConnectionIntent; Configuration : option ConnectionConfiguration;
  ObservedV : ConnectionObservedState;
  IntendedState : string; ConfigurationState : string; ObservedState : string;
  ValidationState : string; HealthState : string; SecurityState : string;
  Description : string; LastChangedAt : option time
}.

Record observedConnectionRow := {
  RSourceVMID : string; RDestVMID : string; RSourceName : string; RDestName : string;
  RSourceIP : string; RDestIP : string; RTenantID : string; RProjectID : string;
  RProtocol : string; RPort : Z; ROScope : string; RRequestCount : Z; RErrorCount : Z; RBytesTotal : Z;
  RLastObservedAt : time; RLastErrorAt : option time
}.

Record probeConnectionRow := {
  PSourceVMID : string; PDestVMID : string; PRProtocol : string; PPort : Z; Success : bool;
  RTTMs : float64; PRObservedAt : time; LastErrorText : string
}.

Definition connectionStateKey (sourceVMID destVMID protocol : string) (port : Z) : string :=
  sourceVMID +:+ "|" +:+ destVMID +:+ "|" +:+ protocol +:+ "|" +:+ Itoa port.

Definition maxTimePtr (current : option time) (candidate : time) : option time := later current candidate.

Definition zeroObserved : ConnectionObservedState :=
  {| OSourceVMID := ""; ODestVMID := ""; OProtocol := ""; OPort := 0; OScope := "";
     Observed := false; OReachable := false; OActive := false; OFailed := false;
     RequestCount := 0; ErrorCount := 0; BytesTotal := 0; OAvgRTTMs := f_of_Z 0;
     OLastObservedAt := None; OLastErrorAt := None |}.

(** The view [ensureConnectionView] creates. *)
Definition newView (sourceVMID destVMID protocol : string) (port : Z) : ConnectionView :=
  {| VWID := sourceVMID +:+ "->" +:+ destVMID +:+ ":" +:+ protocol +:+ "/" +:+ Itoa port;
     VWTenantID := ""; VWProjectID := "";
     SourceVMID := sourceVMID; SourceName := ""; SourceIP := "";
     DestVMID := destVMID; DestName := ""; DestIP := ""; VWProtocol := protocol; Port := port; VWScope := "";
     Intent := None; Configuration := None; ObservedV := zeroObserved;
     IntendedState := "not_declared"; ConfigurationState := "unknown"; ObservedState := "not_observed";
     ValidationState := "unknown"; HealthState := "unknown"; SecurityState := "unknown";
     Description := ""; LastChangedAt := None |}.

Abbreviation Views := (gmap string ConnectionView).

(** [ensureConnectionView] followed by the caller's writes [f] through the
    pointer it returns. *)
Definition update_view (views : Views) (key sourceVMID destVMID protocol : string) (port : Z)
    (f : ConnectionView -> ConnectionView) : Views :=
  <[key := f (default (newView sourceVMID destVMID protocol port) (views !! key))]> views.

(** ** The four loops *)

Definition apply_intent (intent : ConnectionIntent) (v : ConnectionView) : ConnectionView :=
  {| VWID := VWID v; VWTenantID := valueOr (VWTenantID v) (ITenantID intent);
     VWProjectID := valueOr (VWProjectID v) (IProjectID intent);
     SourceVMID := SourceVMID v; SourceName := SourceName v; SourceIP := SourceIP v;
     DestVMID := DestVMID v; DestName := DestName v; DestIP := DestIP v; VWProtocol := VWProtocol v;
     Port := Port v; VWScope := VWScope v; Intent := Some intent; Configuration := Configuration v;
     ObservedV := ObservedV v; IntendedState := IStatus intent; ConfigurationState := ConfigurationState v;
     ObservedState := ObservedState v; ValidationState := ValidationState v; HealthState := HealthState v;
     SecurityState := Exposure intent; Description := Description v;
     LastChangedAt := maxTimePtr (LastChangedAt v) (UpdatedAt intent) |}.

Definition step_intent (views : Views) (i : ConnectionIntent) : Views :=
  update_view views (connectionStateKey (ISourceVMID i) (IDestVMID i) (IProtocol i) (IPort i))
    (ISourceVMID i) (IDestVMID i) (IProtocol i) (IPort i) (apply_intent i).

Definition apply_config (cfg : ConnectionConfiguration) (v : ConnectionView) : ConnectionView :=
  {| VWID := VWID v; VWTenantID := valueOr (VWTenantID v) (CTenantID cfg);
     VWProjectID := valueOr (VWProjectID v) (CProjectID cfg);
     SourceVMID := SourceVMID v; SourceName := SourceName v; SourceIP := SourceIP v;
     DestVMID := DestVMID v; DestName := DestName v; DestIP := DestIP v; VWProtocol := VWProtocol v;
     Port := Port v; VWScope := VWScope v; Intent := Intent v; Configuration := Some cfg;
     ObservedV := ObservedV v; IntendedState := IntendedState v; ConfigurationState := ConfigState cfg;
     ObservedState := ObservedState v; ValidationState := ValidationState v; HealthState := HealthState v;
     SecurityState := valueOr (SecurityState v) (CSecurityState cfg); Description := Description v;
     LastChangedAt := match LastSyncedAt cfg with
                      | Some t => maxTimePtr (LastChangedAt v) t
                      | None => LastChangedAt v
                      end |}.

Definition step_config (views : Views) (c : ConnectionConfiguration) : Views :=
  update_view views (connectionStateKey (CSourceVMID c) (CDestVMID c) (CProtocol c) (CPort c))
    (CSourceVMID c) (CDestVMID c) (CProtocol c) (CPort c) (apply_config c).

(** [time.Since] is taken at [now]. *)
Definition observed_of (now : time) (activeWindow : duration) (row : observedConnectionRow) : ConnectionObservedState :=
  {| OSourceVMID := RSourceVMID row; ODestVMID := RDestVMID row; OProtocol := RProtocol row;
     OPort := RPort row; OScope := ROScope row; Observed := true; OReachable := false;
     OActive := Sub now (RLastObservedAt row) <=? activeWindow;
     OFailed := match RLastErrorAt row with Some t => Sub now t <=? activeWindow | None => false end;
     RequestCount := RRequestCount row; ErrorCount := RErrorCount row; BytesTotal := RBytesTotal row;
     OAvgRTTMs := f_of_Z 0; OLastObservedAt := Some (RLastObservedAt row);
     OLastErrorAt := RLastErrorAt row |}.

Definition apply_observed (now : time) (activeWindow : duration) (row : observedConnectionRow)
    (v : ConnectionView) : ConnectionView :=
  {| VWID := VWID v; VWTenantID := valueOr (VWTenantID v) (RTenantID row);
     VWProjectID := valueOr (VWProjectID v) (RProjectID row);
     SourceVMID := SourceVMID v; SourceName := valueOr (SourceName v) (RSourceName row);
     SourceIP := valueOr (SourceIP v) (RSourceIP row);
     DestVMID := DestVMID v; DestName := valueOr (DestName v) (RDestName row);
     DestIP := valueOr (DestIP v) (RDestIP row); VWProtocol := VWProtocol v; Port := Port v;
     VWScope := valueOr (VWScope v) (ROScope row); Intent := Intent v; Configuration := Configuration v;
     ObservedV := observed_of now activeWindow row;
     IntendedState := IntendedState v; ConfigurationState := ConfigurationState v;
     ObservedState := ObservedState v; ValidationState := ValidationState v; HealthState := HealthState v;
     SecurityState := SecurityState v; Description := Description v;
     LastChangedAt := maxTimePtr (LastChangedAt v) (RLastObservedAt row) |}.

Definition step_observed (now : time) (activeWindow : duration) (views : Views) (r : observedConnectionRow) : Views :=
  update_view views (connectionStateKey (RSourceVMID r) (RDestVMID r) (RProtocol r) (RPort r))
    (RSourceVMID r) (RDestVMID r) (RProtocol r) (RPort r) (apply_observed now activeWindow r).

Definition probed (probe : probeConnectionRow) (o : ConnectionObservedState) : ConnectionObservedState :=
  {| OSourceVMID := PSourceVMID probe; ODestVMID := PDestVMID probe; OProtocol := PRProtocol probe;
     OPort := PPort probe; OScope := OScope o; Observed := true; OReachable := Success probe;
     OActive := OActive o; OFailed := if Success probe then OFailed o else true;
     RequestCount := RequestCount o;
     ErrorCount := if Success probe then ErrorCount o else i64 (ErrorCount o + 1);
     BytesTotal := BytesTotal o; OAvgRTTMs := RTTMs probe;
     OLastObservedAt := later (OLastObservedAt o) (PRObservedAt probe);
     OLastErrorAt := if Success probe then OLastErrorAt o else Some (PRObservedAt probe) |}.

Definition apply_probe (probe : probeConnectionRow) (v : ConnectionView) : ConnectionView :=
  {| VWID := VWID v; VWTenantID := VWTenantID v; VWProjectID := VWProjectID v;
     SourceVMID := SourceVMID v; SourceName := SourceName v; SourceIP := SourceIP v;
     DestVMID := DestVMID v; DestName := DestName v; DestIP := DestIP v; VWProtocol := VWProtocol v;
     Port := Port v; VWScope := VWScope v; Intent := Intent v; Configuration := Configuration v;
     ObservedV := probed probe (ObservedV v);
     IntendedState := IntendedState v; ConfigurationState := ConfigurationState v;
     ObservedState := ObservedState v; ValidationState := ValidationState v; HealthState := HealthState v;
     SecurityState := SecurityState v; Description := Description v;
     LastChangedAt := maxTimePtr (LastChangedAt v) (PRObservedAt probe) |}.

Definition step_probe (views : Views) (p : probeConnectionRow) : Views :=
  update_view views (connectionStateKey (PSourceVMID p) (PDestVMID p) (PRProtocol p) (PPort p))
    (PSourceVMID p) (PDestVMID p) (PRProtocol p) (PPort p) (apply_probe p).

(** ** finalizeConnectionView *)

Definition connectionDescription (intent : bool) (configured : bool) (observed : bool) (health : string) : string :=
  if negb intent && observed then
    "Active but undocumented: VMLens observed traffic/probe, but no connection intent exists yet."
  else if intent && negb observed then
    "Intended but inactive: connection exists in the model, but VMLens has not observed recent traffic or probe evidence."
  else if negb configured then
    "Observed connectivity exists, but firewall/route configuration has not been synced from a cloud provider yet."
  else if (health =? "degraded")%string then
    "Connection is reachable, but latency is above the configured slow RTT threshold."
  else if (health =? "failed")%string then
    "Recent connection evidence contains failed attempts or probe failures."
  else if (health =? "blocked")%string then
    "Connection is blocked by intended/configured network state."
  else "Connection has model context and recent observability evidence.".

(** The observed, validation and health states of an observed connection. *)
Definition observed_states (slowRTTMS : float64) (o : ConnectionObservedState) : string * string * string :=
  let '(os, vs, hs) :=
    if OFailed o || (0 <? ErrorCount o) then ("failed", "failed", "failed")
    else if OReachable o || OActive o || (0 <? RequestCount o) then ("active", "connectivity_validated", "healthy")
    else ("inactive", "not_recently_validated", "inactive") in
  if f_leb slowRTTMS (OAvgRTTMs o) then (os, "connectivity_slow", "degraded") else (os, vs, hs).

Definition finalizeConnectionView (slowRTTMS : float64) (v : ConnectionView) : ConnectionView :=
  let intended := match Intent v with
                  | Some i => if (IntendedState v =? "")%string then IStatus i else IntendedState v
                  | None => IntendedState v
                  end in
  let '(configuration, security) :=
    match Configuration v with
    | Some c => (valueOr (ConfigurationState v) (ConfigState c), valueOr (SecurityState v) (CSecurityState c))
    | None => (ConfigurationState v, SecurityState v)
    end in
  let '(os, vs, hs) :=
    if Observed (ObservedV v) then observed_states slowRTTMS (ObservedV v)
    else if isSome (Intent v) then ("not_observed", "not_validated", "inactive")
    else (ObservedState v, ValidationState v, HealthState v) in
  let '(vs, hs) :=
    if (configuration =? "denied")%string || (configuration =? "blocked")%string || (intended =? "blocked")%string
    then ("blocked_by_config", "blocked") else (vs, hs) in
  {| VWID := VWID v; VWTenantID := VWTenantID v; VWProjectID := VWProjectID v;
     SourceVMID := SourceVMID v; SourceName := SourceName v; SourceIP := SourceIP v;
     DestVMID := DestVMID v; DestName := DestName v; DestIP := DestIP v; VWProtocol := VWProtocol v;
     Port := Port v; VWScope := VWScope v; Intent := Intent v; Configuration := Configuration v;
     ObservedV := ObservedV v; IntendedState := intended; ConfigurationState := configuration;
     ObservedState := os; ValidationState := vs; HealthState := hs; SecurityState := security;
     Description := connectionDescription (isSome (Intent v)) (isSome (Configuration v)) (Observed (ObservedV v)) hs;
     LastChangedAt := LastChangedAt v |}.

(** ** List *)

Definition collect_views (now : time) (activeWindow : duration) (intents : list ConnectionIntent)
    (configs : list ConnectionConfiguration) (observed : list observedConnectionRow)
    (probes : list probeConnectionRow) : Views :=
  let views := foldl step_intent ∅ intents in
  let views := foldl step_config views configs in
  let views := foldl (step_observed now activeWindow) views observed in
  foldl step_probe views probes.

Definition config_by_key (configs : list ConnectionConfiguration) : gmap string ConnectionConfiguration :=
  foldl (fun m c => <[connectionStateKey (CSourceVMID c) (CDestVMID c) (CProtocol c) (CPort c) := c]> m) ∅ configs.

(** The last loop's body: a missing configuration is looked up by key. *)
Definition finish_view (slowRTTMS : float64) (configs : gmap string ConnectionConfiguration)
    (v : ConnectionView) : ConnectionView :=
  let v :=
    match Configuration v with
    | Some _ => v
    | None =>
        match configs !! connectionStateKey (SourceVMID v) (DestVMID v) (VWProtocol v) (Port v) with
        | None => v
        | Some c =>
            {| VWID := VWID v; VWTenantID := VWTenantID v; VWProjectID := VWProjectID v;
               SourceVMID := SourceVMID v; SourceName := SourceName v; SourceIP := SourceIP v;
               DestVMID := DestVMID v; DestName := DestName v; DestIP := DestIP v; VWProtocol := VWProtocol v;
               Port := Port v; VWScope := VWScope v; Intent := Intent v; Configuration := Some c;
               ObservedV := ObservedV v; IntendedState := IntendedState v;
               ConfigurationState := ConfigurationState v; ObservedState := ObservedState v;
               ValidationState := ValidationState v; HealthState := HealthState v;
               SecurityState := SecurityState v; Description := Description v;
               LastChangedAt := LastChangedAt v |}
        end
    end in
  finalizeConnectionView slowRTTMS v.

(** The comparison function given to [sort.Slice]. *)
Definition view_less (a b : ConnectionView) : bool :=
  match LastChangedAt a, LastChangedAt b with
  | Some l, Some r => After l r
  | _, _ => negb (String.leb (VWID b) (VWID a))
  end.

(** [List] on the rows of its four queries: the views, in map order. *)
Definition List_views (now : time) (activeWindow : duration) (slowRTTMS : float64)
    (intents : list ConnectionIntent) (configs : list ConnectionConfiguration)
    (observed : list observedConnectionRow) (probes : list probeConnectionRow) : list ConnectionView :=
  map (finish_view slowRTTMS (config_by_key configs))
    (map_to_list (collect_views now activeWindow intents configs observed probes)).*2.

(** * Facts *)

Lemma update_view_dom (views : Views) key sv dv pr po f :
  dom (update_view views key sv dv pr po f) = {[ key ]} ∪ dom views.
Proof. apply dom_insert_L. Qed.

Definition intent_key (i : ConnectionIntent) : string :=
  connectionStateKey (ISourceVMID i) (IDestVMID i) (IProtocol i) (IPort i).
Definition config_key (c : ConnectionConfiguration) : string :=
  connectionStateKey (CSourceVMID c) (CDestVMID c) (CProtocol c) (CPort c).
Definition observed_key (r : observedConnectionRow) : string :=
  connectionStateKey (RSourceVMID r) (RDestVMID r) (RProtocol r) (RPort r).
Definition probe_key (p : probeConnectionRow) : string :=
  connectionStateKey (PSourceVMID p) (PDestVMID p) (PRProtocol p) (PPort p).

Lemma fold_dom {A} (step : Views -> A -> Views) (key : A -> string) (l : list A) (views : Views) :
  (forall m x, dom (step m x) = {[ key x ]} ∪ dom m) ->
  dom (foldl step views l) = list_to_set (map key l) ∪ dom views.
Proof.
  intros Hs. revert views. induction l as [|x l IH]; intros views; simpl; [set_solver|].
  rewrite IH, Hs. set_solver.
Qed.

(** The keys of all the evidence. *)
Definition evidence_keys (intents : list ConnectionIntent) (configs : list ConnectionConfiguration)
    (observed : list observedConnectionRow) (probes : list probeConnectionRow) : list string :=
  map intent_key intents ++ map config_key configs ++ map observed_key observed ++ map probe_key probes.

Lemma collect_views_dom now w intents configs observed probes :
  dom (collect_views now w intents configs observed probes)
  = list_to_set (evidence_keys intents configs observed probes).
Proof.
  unfold collect_views.
  rewrite (fold_dom step_probe probe_key), (fold_dom (step_observed now w) observed_key),
    (fold_dom step_config config_key), (fold_dom step_intent intent_key)
    by (intros; apply update_view_dom).
  unfold evidence_keys. rewrite !list_to_set_app_L, dom_empty_L. set_solver.
Qed.

(** One view per connection.  The views [List] returns are in one to
    one correspondence with the distinct (source, destination, protocol,
    port) keys of the intents, configurations, observed flows and probes: no
    source is dropped and none is listed twice. *)
Theorem one_view_per_connection (now : time) (w : duration) (slow : float64)
    (intents : list ConnectionIntent) (configs : list ConnectionConfiguration)
    (observed : list observedConnectionRow) (probes : list probeConnectionRow) :
  let keys := evidence_keys intents configs observed probes in
  dom (collect_views now w intents configs observed probes) = list_to_set keys /\
  length (List_views now w slow intents configs observed probes) = size (list_to_set keys : gset string).
Proof.
  intros keys. pose proof (collect_views_dom now w intents configs observed probes) as Hd. split; [done|].
  unfold List_views. rewrite length_map, length_fmap, length_map_to_list. unfold keys. rewrite <- Hd. by rewrite size_dom.
Qed.

(** The part of the configuration that blocks a connection. *)
Definition blocked (v : ConnectionView) : bool :=
  (ConfigurationState v =? "denied")%string || (ConfigurationState v =? "blocked")%string
  || (IntendedState v =? "blocked")%string.

(** A property of every view: it holds of new views and the loops' writes
    keep it. *)
Section view_invariant.
Context (P : ConnectionView -> Prop).
Context (P_new : forall sv dv pr po, P (newView sv dv pr po)).

Lemma update_view_Forall (views : Views) key sv dv pr po f :
  (forall v, P v -> P (f v)) -> map_Forall (fun _ v => P v) views ->
  map_Forall (fun _ v => P v) (update_view views key sv dv pr po f).
Proof.
  intros Hf Hm. apply map_Forall_insert_2; [|done]. apply Hf.
  destruct (views !! key) eqn:E; simpl; [by eapply Hm|apply P_new].
Qed.

Lemma fold_Forall {A} (step : Views -> A -> Views) (l : list A) (views : Views) :
  (forall m x, map_Forall (fun _ v => P v) m -> map_Forall (fun _ v => P v) (step m x)) ->
  map_Forall (fun _ v => P v) views -> map_Forall (fun _ v => P v) (foldl step views l).
Proof. intros Hs. revert views. induction l as [|x l IH]; intros m Hm; [done|]. simpl. apply IH. by apply Hs. Qed.

Lemma collect_views_Forall now w intents configs observed probes :
  (forall i v, i ∈ intents -> P v -> P (apply_intent i v)) -> (forall c v, P v -> P (apply_config c v)) ->
  (forall r v, P v -> P (apply_observed now w r v)) -> (forall p v, P v -> P (apply_probe p v)) ->
  map_Forall (fun _ v => P v) (collect_views now w intents configs observed probes).
Proof.
  intros Hi Hc Ho Hp. unfold collect_views.
  do 3 (apply fold_Forall; [intros m x Hm; apply update_view_Forall; auto|]).
  assert (Hin : forall i v, i ∈ intents -> P v -> P (apply_intent i v)) by done. clear Hi.
  assert (Hm : map_Forall (fun _ v => P v) (∅ : Views)) by apply map_Forall_empty. revert Hm.
  generalize (∅ : Views). induction intents as [|i l IH]; intros m Hm; [done|]. simpl.
  apply IH; [intros j v Hj; apply Hin; by right|]. apply update_view_Forall; [|done]. intros v. apply Hin. left.
Qed.

(** Every listed view is a finished one. *)
Lemma List_views_elem now w slow intents configs observed probes v :
  map_Forall (fun _ v => P v) (collect_views now w intents configs observed probes) ->
  v ∈ List_views now w slow intents configs observed probes ->
  exists u, P u /\ v = finish_view slow (config_by_key configs) u.
Proof.
  intros Hall. unfold List_views. rewrite list_elem_of_In, in_map_iff. intros (u & <- & Hu%list_elem_of_In).
  apply list_elem_of_fmap in Hu as ([k u'] & -> & Hu). apply elem_of_map_to_list in Hu.
  exists u'. split; [by eapply Hall|done].
Qed.
End view_invariant.

Lemma finalize_health (slow : float64) (v : ConnectionView) :
  HealthState v <> "healthy" -> HealthState v <> "blocked" ->
  let r := finalizeConnectionView slow v in
  (HealthState r = "healthy" ->
   Observed (ObservedV r) = true /\ OFailed (ObservedV r) = false /\ ErrorCount (ObservedV r) <= 0 /\
   (OReachable (ObservedV r) = true \/ OActive (ObservedV r) = true \/ 0 < RequestCount (ObservedV r)) /\
   f_leb slow (OAvgRTTMs (ObservedV r)) = false /\ blocked r = false) /\
  (HealthState r = "blocked" <-> blocked r = true).
Proof.
  intros Hnh Hnb r. subst r. unfold finalizeConnectionView.
  set (intended := match Intent v with Some _ => _ | None => _ end).
  destruct (match Configuration v with Some _ => _ | None => _ end) as [configuration security] eqn:Ec.
  destruct (if Observed (ObservedV v) then _ else _) as [[os vs] hs] eqn:Eo.
  unfold blocked.
  destruct ((configuration =? "denied")%string || _ || _) eqn:Eb; cbn; rewrite Eb; [done|].
  split.
  - intros ->. destruct (Observed (ObservedV v)); [|destruct (isSome (Intent v)); simplify_eq].
    unfold observed_states in Eo. destruct (OFailed (ObservedV v) || _) eqn:Ef.
    { destruct (f_leb _ _); simplify_eq. }
    destruct (OReachable (ObservedV v) || OActive (ObservedV v) || _) eqn:Er;
      destruct (f_leb _ _) eqn:El; simplify_eq.
    bools. split_and!; try done. apply orb_true_iff in Er as [Er|Er]; [|bools; auto].
    apply orb_true_iff in Er as [?|?]; auto.
  - split; [|done]. intros ->. destruct (Observed (ObservedV v)); [|destruct (isSome (Intent v)); simplify_eq].
    unfold observed_states in Eo. repeat case_match; simplify_eq.
Qed.

(** The health verdict is sound.  A listed view is "healthy" only if it
    was observed, no failure is recent, no error was counted, it is reachable
    or active or served requests, its latency is below the slow threshold and
    neither configuration nor intent blocks it; and it is "blocked" exactly
    when configuration or intent says so. *)
Theorem health_sound (now : time) (w : duration) (slow : float64)
    (intents : list ConnectionIntent) (configs : list ConnectionConfiguration)
    (observed : list observedConnectionRow) (probes : list probeConnectionRow) (v : ConnectionView) :
  v ∈ List_views now w slow intents configs observed probes ->
  (HealthState v = "healthy" ->
   Observed (ObservedV v) = true /\ OFailed (ObservedV v) = false /\ ErrorCount (ObservedV v) <= 0 /\
   (OReachable (ObservedV v) = true \/ OActive (ObservedV v) = true \/ 0 < RequestCount (ObservedV v)) /\
   f_leb slow (OAvgRTTMs (ObservedV v)) = false /\ blocked v = false) /\
  (HealthState v = "blocked" <-> blocked v = true).
Proof.
  intros Hv. apply (List_views_elem (fun v => HealthState v = "unknown")) in Hv as (u & Hu & ->);
    [|by apply collect_views_Forall].
  unfold finish_view. repeat case_match; apply finalize_health; simpl; by rewrite Hu.
Qed.

(** Latency outranks failure.  Whenever the last round trip is at or
    above the slow threshold, an observed connection that is not blocked is
    reported "degraded" and "connectivity_slow", also when every recent
    attempt failed: the failure shows only in the observed state, and with
    intent and configuration present the description says it is reachable. *)
Theorem slow_failure_reported_degraded (slow : float64) (v : ConnectionView) :
  Observed (ObservedV v) = true -> OFailed (ObservedV v) = true ->
  f_leb slow (OAvgRTTMs (ObservedV v)) = true ->
  let r := finalizeConnectionView slow v in
  blocked r = false ->
  ObservedState r = "failed" /\ HealthState r = "degraded" /\ ValidationState r = "connectivity_slow" /\
  (isSome (Intent v) = true -> isSome (Configuration v) = true ->
   Description r = "Connection is reachable, but latency is above the configured slow RTT threshold.").
Proof.
  intros Ho Hf Hs r. subst r. unfold finalizeConnectionView, blocked.
  set (intended := match Intent v with Some _ => _ | None => _ end).
  destruct (match Configuration v with Some _ => _ | None => _ end) as [configuration security].
  rewrite Ho. unfold observed_states. rewrite Hf, Hs. cbn [orb].
  destruct ((configuration =? "denied")%string || _ || _) eqn:Eb; cbn; rewrite Eb; [done|].
  intros _. split_and!; try done. by intros -> ->.
Qed.

(** A configuration never reaches the security state: the view starts at
    "unknown", which [valueOr] keeps. *)
Lemma security_from_config c v : SecurityState v <> "" -> SecurityState (apply_config c v) = SecurityState v.
Proof. intros H. simpl. unfold valueOr. by rewrite (proj2 (String.eqb_neq _ _) H). Qed.

(** Synced security states are not shown.  Without a declared intent,
    every view [List] returns has the security state "unknown", whatever the
    configurations' own security states are. *)
Theorem config_security_ignored (now : time) (w : duration) (slow : float64)
    (configs : list ConnectionConfiguration) (observed : list observedConnectionRow)
    (probes : list probeConnectionRow) (v : ConnectionView) :
  v ∈ List_views now w slow [] configs observed probes -> SecurityState v = "unknown".
Proof.
  intros Hv. apply (List_views_elem (fun v => SecurityState v = "unknown")) in Hv as (u & Hu & ->).
  2:{ apply collect_views_Forall; try done; [by intros i x ?%elem_of_nil|].
      intros c x Hx. rewrite security_from_config; [done|]. by rewrite Hx. }
  assert (Hf : forall x, SecurityState x = "unknown" -> SecurityState (finalizeConnectionView slow x) = "unknown").
  { intros x Hx. unfold finalizeConnectionView. destruct (Configuration x) as [c|];
      rewrite Hx; repeat case_match; simplify_eq; done. }
  unfold finish_view. repeat case_match; by apply Hf.
Qed.

(** ** Order and concrete views *)

Definition sample_config (source : string) (synced : option time) : ConnectionConfiguration :=
  {| CID := "cfg"; CTenantID := ""; CProjectID := ""; IntentID := ""; CSourceVMID := source; CDestVMID := "db";
     CProtocol := "tcp"; CPort := 5432; FirewallRuleID := ""; RouteID := ""; NetworkID := "";
     ConfigState := "allowed"; CSecurityState := "restricted"; LastSyncedAt := synced |}.

Definition sample_probe (success : bool) (rtt : float64) : probeConnectionRow :=
  {| PSourceVMID := "a"; PDestVMID := "db"; PRProtocol := "tcp"; PPort := 5432; Success := success; RTTMs := rtt;
     PRObservedAt := 1000; LastErrorText := "" |}.

(** The listing order is not an order.  The comparison [List] sorts by
    uses the change time when both views have one and the identifier
    otherwise; three configurations, one of them never synced, give views
    that it orders in a cycle, so the result depends on the map's iteration
    order. *)
Theorem view_order_cyclic :
  exists x y z,
    [x; y; z] ≡ₚ List_views 5000 1000 (f_of_Z 100) []
      [sample_config "a" (Some 1); sample_config "b" None; sample_config "c" (Some 2)] [] [] /\
    view_less x y = true /\ view_less y z = true /\ view_less z x = true.
Proof.
  set (configs := [sample_config "a" (Some 1); sample_config "b" None; sample_config "c" (Some 2)]).
  set (view s c := finish_view (f_of_Z 100) (config_by_key configs)
                     (apply_config c (newView s "db" "tcp" 5432))).
  exists (view "a" (sample_config "a" (Some 1))), (view "b" (sample_config "b" None)),
    (view "c" (sample_config "c" (Some 2))).
  split; [|split_and!; vm_compute; reflexivity].
  assert (E : (map_to_list (collect_views 5000 1000 [] configs [] [])).*2 ≡ₚ
    [apply_config (sample_config "a" (Some 1)) (newView "a" "db" "tcp" 5432);
     apply_config (sample_config "b" None) (newView "b" "db" "tcp" 5432);
     apply_config (sample_config "c" (Some 2)) (newView "c" "db" "tcp" 5432)]).
  { unfold collect_views, configs. simpl. unfold step_config at 1 2 3, update_view at 1 2 3.
    rewrite lookup_empty, !lookup_insert_ne, lookup_empty by (vm_compute; discriminate). simpl.
    rewrite !map_to_list_insert, map_to_list_empty by (vm_compute; reflexivity). simpl.
    apply Permutation_rev. }
  unfold List_views. fold configs. rewrite E. reflexivity.
Qed.

Lemma health_sound_witness :
  exists v, v ∈ List_views 5000 1000 (f_of_Z 100) [] [sample_config "a" (Some 1)] [] [sample_probe true (f_of_Z 3)] /\
    HealthState v = "healthy" /\ OFailed (ObservedV v) = false.
Proof.
  assert (Hv : exists v, List_views 5000 1000 (f_of_Z 100) [] [sample_config "a" (Some 1)] []
      [sample_probe true (f_of_Z 3)] = [v] /\ HealthState v = "healthy").
  { eexists. split; vm_compute; reflexivity. }
  destruct Hv as (v & Hl & Hh). exists v. rewrite Hl. split; [left|]. split; [exact Hh|].
  apply (health_sound 5000 1000 (f_of_Z 100) [] [sample_config "a" (Some 1)] [] [sample_probe true (f_of_Z 3)]);
    [rewrite Hl; left|exact Hh].
Defined.

Lemma slow_failure_witness :
  let v := apply_probe (sample_probe false (f_of_Z 250)) (newView "a" "db" "tcp" 5432) in
  HealthState (finalizeConnectionView (f_of_Z 100) v) = "degraded".
Proof.
  intros v. apply (slow_failure_reported_degraded (f_of_Z 100) v); vm_compute; reflexivity.
Defined.

Lemma config_security_ignored_witness :
  exists v, v ∈ List_views 5000 1000 (f_of_Z 100) [] [sample_config "a" (Some 1)] [] [] /\ SecurityState v = "unknown".
Proof.
  assert (Hv : exists v, v ∈ List_views 5000 1000 (f_of_Z 100) [] [sample_config "a" (Some 1)] [] []).
  { eexists. vm_compute. left. }
  destruct Hv as [v Hv]. exists v. split; [exact Hv|].
  exact (config_security_ignored 5000 1000 (f_of_Z 100) [sample_config "a" (Some 1)] [] [] v Hv).
Defined.
