(* ===== verification/Inventory.v ===== *)
(** The operator's machine inventory: [backend/internal/service/vm_inventory.go]
    and the string helpers of [agent_service.go] it shares. *)
From S2P Require Import Prelude GoStrings Netip.

#[local] Open Scope Z_scope.

(** agent_service.go *)
Fixpoint firstNonEmpty_group (group : list string) : option string :=
  match group with
  | [] => None
  | value :: rest =>
      let value := TrimSpace value in
      if (value =? "")%string then firstNonEmpty_group rest else Some value
  end.

Fixpoint firstNonEmpty (groups : list (list string)) : string :=
  match groups with
  | [] => ""
  | group :: rest => match firstNonEmpty_group group with Some value => value | None => firstNonEmpty rest end
  end.

Record VMInventoryEntry := {
  Alias : string; Host : string; SSHUser : string; SSHKey : string; RemoteBackend : string;
  LocalBackend : string; ProxyJump : string; Role : string; Type_ : string; Environment : string;
  Owner : string; TenantID : string; ProjectID : string; Region : string; Zone : string; NetworkID : string;
  SubnetID : string; PublicIP : string; ProviderID : string; ProbeProtocol : string; ProbePort : Z;
  CaptureIface : string; IgnorePorts : list Z; IgnoreIPs : list string; FlowAllowCIDRs : list string;
  FlowDenyCIDRs : list string; Notes : string
}.

Definition cleanInventoryField (value : string) : string :=
  let value := TrimSpace value in
  if (value =? "-")%string then "" else value.

Definition inventoryField (fields : list string) (index : nat) : string :=
  match fields !! index with None => "" | Some value => cleanInventoryField value end.

Fixpoint clean_items (parts : list string) : list string :=
  match parts with
  | [] => []
  | part :: rest =>
      let item := cleanInventoryField part in
      if (item =? "")%string then clean_items rest else item :: clean_items rest
  end.

Definition inventoryCSV (fields : list string) (index : nat) : list string :=
  let value := inventoryField fields index in
  if (value =? "")%string then [] else clean_items (Split "," value).

Fixpoint valid_ports (values : list string) : list Z :=
  match values with
  | [] => []
  | value :: rest =>
      match Atoi value with
      | Some port => if (0 <? port) && (port <=? 65535) then port :: valid_ports rest else valid_ports rest
      | None => valid_ports rest
      end
  end.

Definition inventoryPorts (fields : list string) (index : nat) : list Z := valid_ports (inventoryCSV fields index).

Definition inventoryPort (fields : list string) (index : nat) : Z :=
  let value := inventoryField fields index in
  if (value =? "")%string then 0
  else match Atoi value with
  | Some port => if (port <? 1) || (65535 <? port) then 0 else port
  | None => 0
  end.

Section parser.
Context `{UnicodeCase}.

(** [Ok None] is [(VMInventoryEntry{}, false, nil)]. *)
Definition parseVMInventoryEntry (line : string) : Result (option VMInventoryEntry) :=
  let fields := Split "|" line in
  if (length fields <? 2)%nat then Ok None
  else
    let entry := {|
      Alias := inventoryField fields 0; Host := inventoryField fields 1; SSHUser := inventoryField fields 2;
      SSHKey := inventoryField fields 3; RemoteBackend := inventoryField fields 4;
      LocalBackend := inventoryField fields 5; ProxyJump := inventoryField fields 6; Role := inventoryField fields 7;
      Type_ := inventoryField fields 8; Environment := inventoryField fields 9; Owner := inventoryField fields 10;
      TenantID := inventoryField fields 11; ProjectID := inventoryField fields 12; Region := inventoryField fields 13;
      Zone := inventoryField fields 14; NetworkID := inventoryField fields 15; SubnetID := inventoryField fields 16;
      PublicIP := inventoryField fields 17; ProviderID := inventoryField fields 18;
      ProbeProtocol := ToLower (inventoryField fields 19); ProbePort := inventoryPort fields 20;
      CaptureIface := inventoryField fields 21; IgnorePorts := inventoryPorts fields 22;
      IgnoreIPs := inventoryCSV fields 23; FlowAllowCIDRs := inventoryCSV fields 24;
      FlowDenyCIDRs := inventoryCSV fields 25; Notes := inventoryField fields 26 |} in
    if (Alias entry =? "")%string || (Host entry =? "")%string then Ok None
    else
      guard_err (negb (ProbeProtocol entry =? "")%string && negb (ProbeProtocol entry =? "tcp")%string
                 && negb (ProbeProtocol entry =? "udp")%string && negb (ProbeProtocol entry =? "icmp")%string)
        as (Errorf "inventory %s: unsupported probe protocol %q" [Alias entry; ProbeProtocol entry]) ;;
      guard_err (negb (PublicIP entry =? "")%string && negb (is_ok (ParseAddr (PublicIP entry))))
        as (Errorf "inventory %s: invalid public_ip %q" [Alias entry; PublicIP entry]) ;;
      Ok (Some entry).

(** The loop of [LoadEntries] over the scanned lines. *)
Fixpoint scan_lines (lines : list string) : Result (list VMInventoryEntry) :=
  match lines with
  | [] => Ok []
  | text :: rest =>
      let line := TrimSpace text in
      if (line =? "")%string || HasPrefix line "#" then scan_lines rest
      else
        entry <-- parseVMInventoryEntry line ;;
        entries <-- scan_lines rest ;;
        Ok (match entry with None => entries | Some e => e :: entries end)
  end.

(** What opening and reading the file gives. *)
Inductive OpenFile :=
| NotExist
| OpenFailed (e : GoError)
| Opened (lines : list string) (scan_error : option GoError).

Definition LoadEntries (path : string) (open : string -> OpenFile) : Result (list VMInventoryEntry) :=
  if (path =? "")%string then Ok []
  else match open path with
  | NotExist => Ok []
  | OpenFailed e => Err e
  | Opened lines scan_error =>
      entries <-- scan_lines lines ;;
      match scan_error with Some e => Err e | None => Ok entries end
  end.

Record VMInventory := { entries : list VMInventoryEntry; entriesIP : gmap string VMInventoryEntry }.

(** The map [Load] builds: a later entry for an address replaces an earlier one. *)
Definition index_entries (l : list VMInventoryEntry) : gmap string VMInventoryEntry :=
  foldl (fun m entry => match ParseAddr (Host entry) with
                        | Ok addr => <[AddrString addr := entry]> m
                        | Err _ => m
                        end) ∅ l.

Definition Load (path : string) (open : string -> OpenFile) : Result VMInventory :=
  l <-- LoadEntries path open ;; Ok {| entries := l; entriesIP := index_entries l |}.

Definition LoadAliases (path : string) (open : string -> OpenFile) : Result (gmap string string) :=
  entries <-- LoadEntries path open ;;
  Ok (foldl (fun aliases entry => match ParseAddr (Host entry) with
                                  | Ok addr => <[AddrString addr := Alias entry]> aliases
                                  | Err _ => aliases
                                  end) ∅ entries).

(** [NewVMInventory]: a failing load leaves it empty. *)
Definition NewVMInventory (path : string) (open : string -> OpenFile) : VMInventory :=
  match Load (TrimSpace path) open with
  | Ok i => i
  | Err _ => {| entries := []; entriesIP := ∅ |}
  end.
End parser.

(** [Entries]: a copy; nil for a nil inventory. *)
Definition Entries (i : option VMInventory) : list VMInventoryEntry := match i with None => [] | Some i => entries i end.

Definition EntryForIP (i : VMInventory) (ip : string) : option VMInventoryEntry := entriesIP i !! TrimSpace ip.

Definition AliasForIP (i : VMInventory) (ip : string) : string :=
  match EntryForIP i ip with None => "" | Some entry => Alias entry end.

Definition ProbeForIP (i : VMInventory) (ip fallbackProtocol : string) (fallbackPort : Z) : string * Z :=
  match EntryForIP i ip with
  | None => (fallbackProtocol, fallbackPort)
  | Some entry =>
      (firstNonEmpty [[ProbeProtocol entry]; [fallbackProtocol]],
       if 0 <? ProbePort entry then ProbePort entry else fallbackPort)
  end.

(** The loops with [seen]: append what satisfies [keep] and is new. *)
Fixpoint append_new {A} `{Countable A} (keep : A -> bool) (seen : gset A) (l : list A) : list A :=
  match l with
  | [] => []
  | x :: rest =>
      if keep x && negb (bool_decide (x ∈ seen)) then x :: append_new keep ({[x]} ∪ seen) rest
      else append_new keep seen rest
  end.

Definition IgnoredPorts (i : VMInventory) : list Z :=
  append_new (fun port => 0 <? port) ∅ (flat_map (fun e => ProbePort e :: IgnorePorts e) (entries i)).

Definition IgnoredIPs (i : VMInventory) : list string :=
  append_new (fun ip => negb (ip =? "")%string) ∅ (flat_map IgnoreIPs (entries i)).

(** * Facts *)

Lemma append_new_spec {A} `{Countable A} keep (seen : gset A) l :
  NoDup (append_new keep seen l) /\
  forall x, x ∈ append_new keep seen l <-> x ∈ l /\ keep x = true /\ x ∉ seen.
Proof.
  revert seen. induction l as [|y l IH]; intros seen; simpl.
  - split; [constructor|]. intros x. split; [by intros ?%elem_of_nil|by intros [?%elem_of_nil _]].
  - destruct (IH seen) as [Hn Hx]. destruct (keep y) eqn:Ek; simpl.
    + destruct (bool_decide (y ∈ seen)) eqn:Es; bools; simpl.
      * split; [done|]. intros x. rewrite Hx, elem_of_cons. split; [tauto|].
        intros ([-> |?] & ? & ?); [done|tauto].
      * destruct (IH ({[y]} ∪ seen)) as [Hn' Hx']. split.
        -- apply NoDup_cons. split; [|done]. rewrite Hx', elem_of_union, elem_of_singleton. tauto.
        -- intros x. rewrite !elem_of_cons, Hx', elem_of_union, elem_of_singleton.
           destruct (decide (x = y)) as [->|]; tauto.
    + split; [done|]. intros x. rewrite Hx, elem_of_cons. split; [tauto|].
      intros ([-> |?] & ? & ?); [congruence|tauto].
Qed.

Definition port_or_zero (z : Z) : Prop := 0 <= z <= 65535.

Lemma inventoryPort_range fields i : port_or_zero (inventoryPort fields i).
Proof.
  unfold inventoryPort, port_or_zero. destruct (_ =? _)%string; [lia|]. destruct (Atoi _) as [p|]; [|lia].
  destruct (_ || _) eqn:E; bools; lia.
Qed.

Lemma valid_ports_range values : Forall (fun p => 1 <= p <= 65535) (valid_ports values).
Proof.
  induction values as [|v l IH]; simpl; [constructor|]. destruct (Atoi v) as [p|]; [|done].
  destruct (_ && _) eqn:E; [|done]. bools. constructor; [lia|done].
Qed.

Lemma clean_items_nonempty parts : Forall (fun s => s <> "") (clean_items parts).
Proof.
  induction parts as [|p l IH]; simpl; [constructor|].
  destruct (String.eqb_spec (cleanInventoryField p) ""); [done|]. by constructor.
Qed.

Record entry_ok (e : VMInventoryEntry) : Prop := {
  en_named : Alias e <> "" /\ Host e <> "";
  en_protocol : ProbeProtocol e ∈ [""; "tcp"; "udp"; "icmp"];
  en_port : port_or_zero (ProbePort e);
  en_ports : Forall (fun p => 1 <= p <= 65535) (IgnorePorts e);
  en_ips : Forall (fun s => s <> "") (IgnoreIPs e);
  en_public : PublicIP e = "" \/ is_ok (ParseAddr (PublicIP e)) = true
}.

Lemma parse_entry_ok `{UnicodeCase} line e : parseVMInventoryEntry line = Ok (Some e) -> entry_ok e.
Proof.
  unfold parseVMInventoryEntry. destruct (_ <? 2)%nat; [done|].
  set (entry := {| Alias := _ |}). destruct (_ || _) eqn:Ea; [done|].
  destruct (_ && _ && _ && _) eqn:Ep; [done|]. destruct (negb (PublicIP entry =? "")%string && _) eqn:Epub; [done|].
  intros [= <-]. bools. split; try done.
  - rewrite !andb_false_iff, !negb_false_iff, !String.eqb_eq in Ep. rewrite !elem_of_cons. tauto.
  - apply inventoryPort_range.
  - apply valid_ports_range.
  - unfold entry, inventoryCSV. simpl.
    destruct (inventoryField (Split "|" line) 23 =? "")%string; [constructor|apply clean_items_nonempty].
  - apply andb_false_iff in Epub as [E|E]; bools; auto.
Qed.

Lemma scan_lines_ok `{UnicodeCase} lines l : scan_lines lines = Ok l -> Forall entry_ok l.
Proof.
  revert l. induction lines as [|t lines IH]; intros l; simpl; [intros [= <-]; constructor|].
  destruct (_ || _); [apply IH|]. intros (e & He & (rest & Hr & [= <-])%rbind_Ok)%rbind_Ok.
  apply IH in Hr. destruct e as [e|]; [|done]. constructor; [by eapply parse_entry_ok|done].
Qed.

Lemma index_entries_spec l k e :
  index_entries l !! k = Some e <->
  exists l1 l2, l = l1 ++ e :: l2 /\ (exists a, ParseAddr (Host e) = Ok a /\ AddrString a = k) /\
    Forall (fun e' => forall a, ParseAddr (Host e') = Ok a -> AddrString a <> k) l2.
Proof.
  unfold index_entries. induction l as [|x l IH] using rev_ind.
  { simpl. rewrite lookup_empty. split; [done|]. intros (l1 & l2 & E & _). by destruct l1. }
  rewrite foldl_app. simpl. destruct (ParseAddr (Host x)) as [a|] eqn:Ex.
  - rewrite lookup_insert_Some. split.
    + intros [[<- <-]|[Hne Hk]].
      * exists l, []. split_and!; [done|by exists a|constructor].
      * apply IH in Hk as (l1 & l2 & -> & He & Hl). exists l1, (l2 ++ [x]). rewrite <- app_assoc.
        split_and!; [done|done|]. apply Forall_snoc. split; [done|]. intros b Hb. congruence.
    + intros (l1 & l2 & E & He & Hl). destruct l2 as [|y l2 _] using rev_ind.
      * apply app_inj_tail in E as [-> ->]. left. destruct He as (b & Hb & <-). split; congruence.
      * rewrite app_comm_cons, app_assoc in E. apply app_inj_tail in E as [-> ->].
        apply Forall_snoc in Hl as [Hl Hy]. right. split; [by apply Hy|]. apply IH. by exists l1, l2.
  - rewrite IH. split.
    + intros (l1 & l2 & -> & He & Hl). exists l1, (l2 ++ [x]). rewrite <- app_assoc. split_and!; [done|done|].
      apply Forall_snoc. split; [done|]. intros b Hb. congruence.
    + intros (l1 & l2 & E & He & Hl). destruct l2 as [|y l2 _] using rev_ind.
      * apply app_inj_tail in E as [-> ->]. destruct He as (b & Hb & _). congruence.
      * rewrite app_comm_cons, app_assoc in E. apply app_inj_tail in E as [-> ->].
        apply Forall_snoc in Hl as [Hl _]. by exists l1, l2.
Qed.

Lemma LoadEntries_ok `{UnicodeCase} path open l : LoadEntries path open = Ok l -> Forall entry_ok l.
Proof.
  unfold LoadEntries. destruct (_ =? _)%string; [intros [= <-]; constructor|].
  destruct (open path) as [|e|lines err]; [intros [= <-]; constructor|done|].
  intros (l' & Hl' & E)%rbind_Ok. destruct err; [done|]. injection E as <-. by eapply scan_lines_ok.
Qed.

Lemma IgnoredPorts_spec i : NoDup (IgnoredPorts i) /\
  forall p, p ∈ IgnoredPorts i <-> 0 < p /\ exists e, e ∈ entries i /\ (p = ProbePort e \/ p ∈ IgnorePorts e).
Proof.
  split; [apply append_new_spec|]. intros p. unfold IgnoredPorts. rewrite (proj2 (append_new_spec _ _ _)). simpl.
  rewrite Z.ltb_lt, list_elem_of_In, in_flat_map. split.
  - intros ((e & He & Hp) & ? & _). split; [done|]. exists e. rewrite list_elem_of_In. split; [done|].
    destruct Hp as [<- |Hp]; [by left|right; by apply list_elem_of_In].
  - intros (? & e & He & Hp). split_and!; [|done|apply not_elem_of_empty]. exists e.
    rewrite <- list_elem_of_In. split; [done|]. destruct Hp as [-> |Hp]; [by left|right; by apply list_elem_of_In].
Qed.

(** Whatever the file contains, the inventory in use is well formed. *)
Lemma NewVMInventory_ok `{UnicodeCase} path open : Forall entry_ok (entries (NewVMInventory path open)).
Proof.
  unfold NewVMInventory, Load. destruct (LoadEntries _ open) as [l|] eqn:E; [|constructor]. by eapply LoadEntries_ok.
Qed.

Lemma IgnoredPorts_range i : Forall entry_ok (entries i) -> Forall (fun p => 1 <= p <= 65535) (IgnoredPorts i).
Proof.
  intros Ho. apply Forall_forall. intros p (Hp & e & He & Hin)%IgnoredPorts_spec.
  rewrite Forall_forall in Ho. destruct (Ho e He) as [_ _ [? ?] Hports _ _]. destruct Hin as [-> |Hin]; [lia|].
  rewrite Forall_forall in Hports. by apply Hports.
Qed.

(** Every entry the address index answers with is an entry of the list. *)
Lemma NewVMInventory_indexed `{UnicodeCase} path open ip e :
  EntryForIP (NewVMInventory path open) ip = Some e -> entry_ok e.
Proof.
  unfold EntryForIP, NewVMInventory, Load. destruct (LoadEntries _ open) as [l|] eqn:E; cbn; [|done].
  intros (l1 & l2 & -> & _)%index_entries_spec. apply LoadEntries_ok, Forall_middle in E as [? _]. done.
Qed.

(** The aliases of the file are those of the loaded inventory. *)
Lemma LoadAliases_spec `{UnicodeCase} path open i : Load path open = Ok i ->
  LoadAliases path open = Ok (Alias <$> entriesIP i).
Proof.
  unfold Load, LoadAliases. destruct (LoadEntries path open) as [l|]; [|done]. intros [= <-]. cbn [rbind entriesIP]. f_equal. unfold index_entries.
  enough (forall m : gmap string VMInventoryEntry, foldl (fun (aliases : gmap string string) entry => match ParseAddr (Host entry) with Ok addr => <[AddrString addr := Alias entry]> aliases | Err _ => aliases end)
    (Alias <$> m) l = Alias <$> foldl (fun m entry => match ParseAddr (Host entry) with Ok addr => <[AddrString addr := entry]> m | Err _ => m end) m l) as Hm
    by (specialize (Hm ∅); by rewrite fmap_empty in Hm).
  induction l as [|e l IH]; intros m; [done|]. cbn [foldl]. destruct (ParseAddr (Host e)); [|apply IH]. by rewrite <- fmap_insert, IH.
Qed.

(** ** Theorems *)

(** The inventory is well formed.  Whatever the file contains, a load
    that succeeds yields only entries with an alias and a host, a supported
    probe protocol, ports in range and a parseable public address; the
    ignored ports are, each once, the positive probe and ignore ports of the
    entries; and an address resolves to the last entry whose host is that
    address, however the file spells it. *)
Theorem inventory_sound (uc : UnicodeCase) (path : string) (open : string -> OpenFile) (i : VMInventory) :
  Load path open = Ok i ->
  Forall entry_ok (entries i) /\
  (NoDup (IgnoredPorts i) /\
   forall p, p ∈ IgnoredPorts i <->
     0 < p /\ exists e, e ∈ entries i /\ (p = ProbePort e \/ p ∈ IgnorePorts e)) /\
  (forall a e, TrimSpace (AddrString a) = AddrString a ->
     EntryForIP i (AddrString a) = Some e <->
     exists l1 l2, entries i = l1 ++ e :: l2 /\
       (exists b, ParseAddr (Host e) = Ok b /\ AddrString b = AddrString a) /\
       Forall (fun e' => forall b, ParseAddr (Host e') = Ok b -> AddrString b <> AddrString a) l2).
Proof.
  unfold Load. intros (l & Hl%LoadEntries_ok & [= <-])%rbind_Ok. simpl. split_and!; [done|apply IgnoredPorts_spec..|].
  intros a e Ha. unfold EntryForIP. simpl. rewrite Ha. apply index_entries_spec.
Qed.

Lemma inventory_sound_witness :
  exists i, @Load (fun s => s) "vms" (fun _ => Opened ["# lab"; "web|10.0.0.5||||||||||||||||||tcp|8080"] None) = Ok i /\
    Forall entry_ok (entries i) /\ IgnoredPorts i = [8080].
Proof.
  eexists. split; [vm_compute; reflexivity|]. split; [|vm_compute; reflexivity].
  apply (inventory_sound (fun s => s) "vms" (fun _ => Opened ["# lab"; "web|10.0.0.5||||||||||||||||||tcp|8080"] None)).
  vm_compute. reflexivity.
Defined.
