(* ===== verification/Sql.v ===== *)
(** The SQL the backend's queries use, over lists of rows.

    A query is its [WHERE] clause as a filter, its [ORDER BY] as a stable sort
    and its [LIMIT] as a prefix; rows with equal keys, whose order SQL leaves
    open, keep the table's order.  Conditions on nullable columns are values
    of the three-valued logic. *)
From S2P Require Import Prelude GoFloat GoTime.

#[local] Open Scope Z_scope.

(** [ORDER BY f DESC] *)
Section order.
Context {A : Type} (f : A -> time).
Definition newer (a b : A) : Prop := f b <= f a.
#[export] Instance newer_dec : RelDecision newer.
Proof. intros a b. unfold newer. apply _. Defined.
#[export] Instance newer_total : Total newer.
Proof. intros a b. unfold newer. lia. Qed.
#[export] Instance newer_trans : Transitive newer.
Proof. intros a b c. unfold newer. lia. Qed.
Definition order_desc (l : list A) : list A := merge_sort newer l.
End order.

(** SQL's three-valued logic: [None] is [NULL]. *)
Definition sql_not (a : option bool) : option bool := negb <$> a.
Definition sql_or (a b : option bool) : option bool :=
  match a, b with
  | Some true, _ | _, Some true => Some true
  | Some false, Some false => Some false
  | _, _ => None
  end.
Definition sql_and (a b : option bool) : option bool := sql_not (sql_or (sql_not a) (sql_not b)).
(** [x = ANY(array)] *)
Definition sql_any {A} (eqb : A -> A -> bool) (x : A) (array : option (list A)) : option bool :=
  existsb (eqb x) <$> array.
Definition sql_holds (a : option bool) : bool := match a with Some true => true | _ => false end.

(** [a = b] on a nullable column and a parameter. *)
Definition sql_eq {A} `{EqDecision A} (a : option A) (b : A) : option bool := (fun x => bool_decide (x = b)) <$> a.
(** [COALESCE(a, '')] *)
Definition text (a : option string) : string := default "" a.

(** [fmt.Sprintf("%f seconds", d.Seconds())] read back as an [interval]: the
    seconds as a [float64], printed with six decimals (the nearest, ties to
    even), in nanoseconds. *)
Definition round_even (n d : Z) : Z :=
  let q := n / d in
  match 2 * (n mod d) ?= d with
  | Lt => q
  | Gt => q + 1
  | Eq => if Z.even q then q else q + 1
  end.
Definition micros (x : float64) : Z :=
  match x with
  | SpecFloat.S754_finite s m e =>
      let n := Z.pos m * 1000000 in
      let u := if 0 <=? e then n * 2 ^ e else round_even n (2 ^ (- e)) in
      if s then - u else u
  | _ => 0
  end.
Definition sql_interval (d : duration) : duration := 1000 * micros (Seconds d).

(** [SELECT ... WHERE p ORDER BY key DESC LIMIT limit] *)
Definition query {A} (p : A -> bool) (key : A -> time) (limit : nat) (l : list A) : list A :=
  take limit (order_desc key (List.filter p l)).

(** [GROUP BY key]: one group per key, in the order of first occurrence. *)
Definition group_by {A K} `{EqDecision K} (key : A -> K) (l : list A) : list (K * list A) :=
  map (fun k => (k, List.filter (fun x => bool_decide (key x = k)) l)) (remove_dups (key <$> l)).

(** [MAX] of a non-empty group. *)
Definition sql_max (l : list Z) : Z := match l with [] => 0 | x :: rest => foldl Z.max x rest end.

(** * Facts *)

Lemma order_desc_sorted {A} (f : A -> time) l : Sorted.StronglySorted (newer f) (order_desc f l).
Proof. apply StronglySorted_merge_sort; apply _. Qed.

Lemma sorted_take {A} (R : A -> A -> Prop) n l : Sorted.StronglySorted R l -> Sorted.StronglySorted R (take n l).
Proof.
  intros Hl. revert n. induction Hl as [|x l Hl IH Hx]; intros [|n]; simpl; try constructor; [apply IH|].
  by apply Forall_take.
Qed.

Lemma omap_sorted {A B} (R : A -> A -> Prop) (S : B -> B -> Prop) (f : A -> option B) l :
  Sorted.StronglySorted R l -> (forall x y a b, f x = Some a -> f y = Some b -> R x y -> S a b) ->
  Sorted.StronglySorted S (omap f l).
Proof.
  intros Hl Hf. induction Hl as [|x l Hl IH Hx]; simpl; [constructor|].
  destruct (f x) as [a|] eqn:Ea; [|done]. constructor; [done|].
  apply Forall_forall. intros b (y & Hy & Eb)%list_elem_of_omap. rewrite Forall_forall in Hx. eauto.
Qed.

Lemma sorted_map {A B} (f : A -> time) (g : B -> time) (h : A -> B) l :
  (forall x, g (h x) = f x) -> Sorted.StronglySorted (newer f) l -> Sorted.StronglySorted (newer g) (map h l).
Proof.
  intros Hh Hl. induction Hl as [|x l Hl IH Hx]; simpl; constructor; [done|]. apply Forall_fmap.
  eapply Forall_impl; [exact Hx|]. intros y. unfold newer. simpl. by rewrite !Hh.
Qed.

Lemma sql_eq_holds {A} `{EqDecision A} (a : option A) b : sql_holds (sql_eq a b) = bool_decide (a = Some b).
Proof. destruct a as [x|]; simpl; [|done]. repeat case_bool_decide; simplify_eq; done. Qed.

Lemma sql_or_holds a b : sql_holds (sql_or a b) = sql_holds a || sql_holds b.
Proof. by destruct a as [[]|], b as [[]|]. Qed.

Lemma sql_and_holds a b : sql_holds (sql_and a b) = sql_holds a && sql_holds b.
Proof. by destruct a as [[]|], b as [[]|]. Qed.

Lemma order_desc_perm {A} (key : A -> time) l : order_desc key l ≡ₚ l.
Proof. apply merge_sort_Permutation. Qed.

Lemma elem_of_filter_In {A} (p : A -> bool) l x : x ∈ List.filter p l <-> x ∈ l /\ p x = true.
Proof. by rewrite !list_elem_of_In, filter_In. Qed.

(** What a query returns: matching rows only, at most [limit], latest first;
    all of them when fewer than [limit] are returned, and otherwise none that
    is older than one left out. *)
Section query.
Context {A : Type} (p : A -> bool) (key : A -> time) (limit : nat) (l : list A).

Lemma query_elem x : x ∈ query p key limit l -> x ∈ l /\ p x = true.
Proof. unfold query. intros Hx%subseteq_take. rewrite order_desc_perm in Hx. by apply elem_of_filter_In. Qed.

Lemma query_length : (length (query p key limit l) <= limit)%nat.
Proof. unfold query. rewrite length_take. lia. Qed.

Lemma query_sorted : Sorted.StronglySorted (newer key) (query p key limit l).
Proof. apply sorted_take, order_desc_sorted. Qed.

Lemma query_sub : exists rest, query p key limit l ++ rest ≡ₚ List.filter p l.
Proof.
  exists (drop limit (order_desc key (List.filter p l))). unfold query. rewrite take_drop. apply order_desc_perm.
Qed.

Lemma query_all : (length (query p key limit l) < limit)%nat -> query p key limit l ≡ₚ List.filter p l.
Proof.
  unfold query. rewrite length_take. intros Hl. rewrite take_ge by lia. apply order_desc_perm.
Qed.

Lemma query_complete x : x ∈ l -> p x = true -> (length (query p key limit l) < limit)%nat -> x ∈ query p key limit l.
Proof. intros Hx Hp Hl. rewrite (query_all Hl). by apply elem_of_filter_In. Qed.

Lemma query_top x y : x ∈ query p key limit l -> y ∈ l -> p y = true -> y ∉ query p key limit l -> key y <= key x.
Proof.
  unfold query. set (m := List.filter p l). intros Hx Hy Hp Hn.
  assert (Hd : y ∈ drop limit (order_desc key m)).
  { assert (y ∈ order_desc key m) as Hin by (rewrite order_desc_perm; by apply elem_of_filter_In).
    rewrite <- (take_drop limit (order_desc key m)) in Hin. by apply elem_of_app in Hin as [?|?]. }
  pose proof (order_desc_sorted key m) as Hs. rewrite <- (take_drop limit (order_desc key m)) in Hs.
  revert Hs Hx Hd. generalize (take limit (order_desc key m)) (drop limit (order_desc key m)).
  intros l1 l2 Hs Hx Hd. induction l1 as [|z l1 IH]; [by apply elem_of_nil in Hx|].
  simpl in Hs. inversion_clear Hs as [|? ? Hs' Hz]. apply elem_of_cons in Hx as [->|Hx]; [|by apply IH].
  rewrite Forall_forall in Hz. apply Hz, elem_of_app. by right.
Qed.
End query.

Lemma group_by_elem {A K} `{EqDecision K} (key : A -> K) l k g :
  (k, g) ∈ group_by key l <-> k ∈ (key <$> l) /\ g = List.filter (fun x => bool_decide (key x = k)) l.
Proof.
  unfold group_by. rewrite (list_elem_of_In _ (k, g)), in_map_iff. split.
  - intros (k' & E & Hk). injection E as -> <-. rewrite <- list_elem_of_In, elem_of_remove_dups in Hk. by split.
  - intros [Hk ->]. exists k. split; [done|]. by apply list_elem_of_In, elem_of_remove_dups.
Qed.

Lemma group_by_keys {A K} `{EqDecision K} (key : A -> K) (l : list A) : NoDup (fst <$> group_by key l).
Proof.
  unfold group_by. change (fst <$> ?x) with (map fst x). rewrite map_map. cbn. rewrite map_id. apply NoDup_remove_dups.
Qed.

Lemma sql_max_spec l : l <> [] -> sql_max l ∈ l /\ forall x, x ∈ l -> x <= sql_max l.
Proof.
  destruct l as [|a l]; [done|]. intros _. simpl. revert a. induction l as [|b l IH]; intros a; simpl.
  - split; [left|]. intros x [->|Hx]%elem_of_cons; [done|by apply elem_of_nil in Hx].
  - destruct (IH (Z.max a b)) as [H1 H2]. split.
    + apply elem_of_cons in H1 as [E|H1]; [|by do 2 right]. rewrite E.
      destruct (Z.max_spec a b) as [[_ ->]|[_ ->]]; [right; left|left].
    + intros x. rewrite !elem_of_cons. intros [->|[->|Hx]].
      * etrans; [|apply H2; left]. lia.
      * etrans; [|apply H2; left]. lia.
      * apply H2. by right.
Qed.
