(* ===== verification/Store.v ===== *)
(** The backend's database: the tables of [backend/internal/db/migrations]
    the services read and write, transactions, and [resolveVMByIP] of
    [backend/internal/service/resolver.go].

    A statement of the source is a function on the tables; PostgreSQL itself
    is a parameter: the [inet] type with its input and output functions, the
    rounding of instants to the column precision, and a fault oracle that
    may make any statement fail. *)
From S2P Require Import Prelude GoStrings GoFloat GoTime Netip.

#[local] Open Scope Z_scope.

(** What the services rely on of PostgreSQL. *)
Class Postgres := {
  inet : Type;
  inet_eq_dec :: EqDecision inet;
  inet_in : string -> option inet;   (* the cast [$1::inet], [None] is an error *)
  host : inet -> string;             (* the function [host(inet)] *)
  timestamptz : time -> time         (* an instant as the column stores it *)
}.

Section tables.
Context `{Postgres}.

Record AgentRow := {
  ag_vm_id : option string; ag_hostname : string; ag_machine_id : option string;
  ag_os : option string; ag_kernel : option string; ag_agent_version : option string;
  ag_environment : option string; ag_project_id : option string;
  ag_status : string; ag_first_seen : time; ag_last_seen : time
}.

Record VMRow := {
  vm_name : string; vm_tenant_id : option string; vm_project_id : option string;
  vm_private_ip : option inet; vm_public_ip : option inet; vm_mac_address : option string;
  vm_host_id : option string; vm_role : option string; vm_host_type : option string;
  vm_environment : option string; vm_owner : option string; vm_region : option string; vm_zone : option string;
  vm_network_id : option string; vm_subnet_id : option string;
  vm_discovered_by : string; vm_agent_id : option string; vm_machine_id : option string;
  vm_status : string; vm_first_seen : time; vm_last_seen : time; vm_created_at : time
}.

Record InterfaceRow := {
  if_vm_id : string; if_name : string; if_ip_address : option inet;
  if_mac_address : option string; if_updated_at : time
}.

Record HostRow := { h_ip : inet; h_first_seen : time; h_last_seen : time; h_resolved_vm_id : option string }.

Record FlowRow := {
  fl_id : string; fl_agent_id : option string; fl_src_vm_id : option string; fl_dst_vm_id : option string;
  fl_src_ip : inet; fl_dst_ip : inet; fl_src_port : Z; fl_dst_port : Z;
  fl_protocol : string; fl_direction : string; fl_scope : string;
  fl_bytes_sent : Z; fl_bytes_received : Z; fl_packets : Z; fl_connection_count : Z;
  fl_request_count : Z; fl_error_count : Z; fl_retransmission_count : Z;
  fl_avg_rtt_ms : float64; fl_avg_app_delay_ms : float64;
  fl_first_seen : time; fl_last_seen : time; fl_observed_at : time; fl_created_at : time;
  fl_last_error_at : option time; fl_interface_name : option string;
  fl_http_1xx : Z; fl_http_2xx : Z; fl_http_3xx : Z; fl_http_4xx : Z; fl_http_5xx : Z;
  fl_last_http_status : option Z
}.

Record ObservationRow := {
  ob_id : string; ob_flow_id : string; ob_agent_id : option string; ob_src_vm_id : option string; ob_dst_vm_id : option string;
  ob_src_ip : inet; ob_dst_ip : inet; ob_src_port : Z; ob_dst_port : Z;
  ob_protocol : string; ob_direction : string; ob_scope : string;
  ob_bytes_sent : Z; ob_bytes_received : Z; ob_packets : Z; ob_connection_count : Z;
  ob_request_count : Z; ob_error_count : Z; ob_retransmission_count : Z;
  ob_avg_rtt_ms : float64; ob_avg_app_delay_ms : float64;
  ob_first_seen : time; ob_last_seen : time; ob_observed_at : time;
  ob_http_1xx : Z; ob_http_2xx : Z; ob_http_3xx : Z; ob_http_4xx : Z; ob_http_5xx : Z;
  ob_last_http_status : option Z
}.

Record ProbeRow := {
  pr_agent_id : string; pr_src_vm_id : string; pr_dst_vm_id : option string;
  pr_src_ip : inet; pr_dst_ip : inet; pr_protocol : string; pr_dst_port : Z;
  pr_source : string; pr_probe_type : string; pr_success : bool; pr_rtt_ms : float64; pr_error : option string;
  pr_first_seen : time; pr_last_seen : time; pr_observed_at : time
}.

Record DB := {
  agents : gmap string AgentRow; vms : gmap string VMRow; vm_interfaces : list InterfaceRow;
  network_flows : list FlowRow; flow_observations : list ObservationRow;
  external_hosts : list HostRow; unknown_internal_hosts : list HostRow;
  connection_probes : list ProbeRow
}.

(** ** Errors and transactions *)

Definition pg_error (msg : string) : GoError := LibErr "postgres" msg.

(** [$1::inet] *)
Definition cast_inet (s : string) : Result inet :=
  match inet_in s with Some i => Ok i | None => Err (pg_error "invalid input syntax for type inet") end.

(** Addition of [BIGINT] columns: out of range is an error. *)
Definition bigint_add (a b : Z) : Result Z :=
  if (- 2 ^ 63 <=? a + b) && (a + b <? 2 ^ 63) then Ok (a + b)
  else Err (pg_error "bigint out of range").

(** Comparison, addition and division of [DOUBLE PRECISION]: NaN is above
    every other value, and a result that overflows or underflows is an
    error. *)
Definition float8_gt (x y : float64) : bool :=
  if is_nan x then negb (is_nan y) else f_ltb y x.
Definition is_inf (x : float64) : bool := match x with SpecFloat.S754_infinity _ => true | _ => false end.
Definition is_zero (x : float64) : bool := match x with SpecFloat.S754_zero _ => true | _ => false end.
Definition float8_add (x y : float64) : Result float64 :=
  let r := f_add x y in
  if is_inf r && negb (is_inf x) && negb (is_inf y) then Err (pg_error "value out of range: overflow") else Ok r.
Definition float8_half (x : float64) : Result float64 :=
  let r := f_div x (f_of_Z 2) in
  if is_zero r && negb (is_zero x) then Err (pg_error "value out of range: underflow") else Ok r.

(** The [CHECK] constraints of network_flows and flow_observations (the
    tables have the same ones on the columns they share). *)
Definition sample_checks (protocol direction scope : string) (counters : list Z)
    (latencies : list float64) (status : option Z) : bool :=
  forallb (fun c => 0 <=? c) counters
  && forallb (fun x => negb (float8_gt (f_of_Z 0) x)) latencies
  && existsb (String.eqb protocol) ["tcp"; "udp"; "icmp"]
  && existsb (String.eqb direction) ["ingress"; "egress"]
  && existsb (String.eqb scope) ["internal_same_tenant"; "internal_cross_tenant"; "unknown_internal";
                                 "external_public"; "external_private"; "unknown"]
  && match status with None => true | Some s => (100 <=? s) && (s <=? 599) end.

(** A transaction body reads and writes a working copy of the tables and
    counts its statements; [fault k] makes statement [k] fail. *)
Definition Tx (A : Type) : Type := nat -> DB -> Result (A * DB) * nat.

Definition tx_ret {A} (a : A) : Tx A := fun k db => (Ok (a, db), k).
Definition tx_err {A} (e : GoError) : Tx A := fun k db => (Err e, k).
Definition tx_bind {A B} (m : Tx A) (f : A -> Tx B) : Tx B := fun k db =>
  match m k db with
  | (Ok (a, db'), k') => f a k' db'
  | (Err e, k') => (Err e, k')
  end.

(** Statement [f], which may be made to fail. *)
Definition stmt (fault : nat -> option GoError) {A} (f : DB -> Result (A * DB)) : Tx A := fun k db =>
  match fault k with
  | Some e => (Err e, S k)
  | None => (f db, S k)
  end.

(** [fmt.Errorf(format, args, err)] around a statement. *)
Definition tx_wrap {A} (format : string) (args : list string) (m : Tx A) : Tx A := fun k db =>
  match m k db with
  | (Err e, k') => (Err (ErrorfW format args e), k')
  | r => r
  end.

(** [Begin], the body and [Commit], with [defer tx.Rollback]: the tables
    change only when the commit succeeds. *)
Definition transaction (fault : nat -> option GoError) {A} (body : Tx A) (db : DB) : Result A * DB :=
  match fault 0%nat with
  | Some e => (Err e, db)
  | None =>
      match body 1%nat db with
      | (Err e, _) => (Err e, db)
      | (Ok (a, db'), k) =>
          match fault k with
          | Some e => (Err e, db)
          | None => (Ok a, db')
          end
      end
  end.

(** ** resolver.go *)

(** [ORDER BY f DESC LIMIT 1]: the first row with the greatest key. *)
Definition latest_by {A} (f : A -> time) (l : list A) : option A :=
  foldl (fun best x => match best with
                       | None => Some x
                       | Some b => if f b <? f x then Some x else Some b
                       end) None l.

Record resolvedVM := { r_ID : string; r_Name : string; r_TenantID : string; r_AgentID : string }.

Definition vm_has_ip (db : DB) (ip : inet) (id : string) (v : VMRow) : bool :=
  bool_decide (vm_private_ip v = Some ip) || bool_decide (vm_public_ip v = Some ip)
  || existsb (fun i => (if_vm_id i =? id)%string && bool_decide (if_ip_address i = Some ip)) (vm_interfaces db).

Definition resolved (id : string) (v : VMRow) : resolvedVM :=
  {| r_ID := id; r_Name := vm_name v; r_TenantID := default "" (vm_tenant_id v);
     r_AgentID := default "" (vm_agent_id v) |}.

(** The query of [resolveVMByIP]; [None] is [found == false]. *)
Definition resolveVMByIP (ip : string) (db : DB) : Result (option resolvedVM) :=
  addr <-- cast_inet ip ;;
  Ok ((fun '(id, v) => resolved id v) <$>
      latest_by (fun '(_, v) => vm_last_seen v)
        (List.filter (fun '(id, v) => vm_has_ip db addr id v) (map_to_list (vms db)))).

(** * Facts *)

Lemma latest_by_elem {A} (f : A -> time) (l : list A) x : latest_by f l = Some x -> x ∈ l.
Proof.
  unfold latest_by. cut (forall best, (foldl (fun best x => match best with
    | None => Some x | Some b => if f b <? f x then Some x else Some b end) best l = Some x -> best = Some x \/ x ∈ l)).
  { intros H0 E. by destruct (H0 None E). }
  induction l as [|y l IH]; intros best; simpl; [by left|]. intros E. apply IH in E.
  destruct E as [E|E]; [|right; by apply list_elem_of_further].
  destruct best as [b|]; [destruct (f b <? f y)|]; simplify_eq; auto; right; apply list_elem_of_here.
Qed.

Lemma latest_by_max {A} (f : A -> time) (l : list A) x y : latest_by f l = Some x -> y ∈ l -> f y <= f x.
Proof.
  unfold latest_by. cut (forall best, foldl (fun best x => match best with
    | None => Some x | Some b => if f b <? f x then Some x else Some b end) best l = Some x ->
    (forall b, best = Some b -> f b <= f x) /\ (y ∈ l -> f y <= f x)).
  { intros H0 E Hy. by apply (H0 None E). }
  induction l as [|z l IH]; intros best; simpl.
  - intros ->. split; [intros b [= ->]; lia|by intros ?%elem_of_nil].
  - intros E. apply IH in E as [E1 E2]. split.
    + intros b ->. destruct (Z.ltb_spec (f b) (f z)); specialize (E1 _ eq_refl); lia.
    + intros [->|Hy]%elem_of_cons; [|auto].
      destruct best as [b|]; [|by specialize (E1 _ eq_refl)].
      destruct (Z.ltb_spec (f b) (f z)); specialize (E1 _ eq_refl); lia.
Qed.

Lemma latest_by_None {A} (f : A -> time) (l : list A) : latest_by f l = None -> l = [].
Proof.
  destruct l as [|x l]; [done|]. unfold latest_by. simpl.
  cut (forall b, foldl (fun best x => match best with
    | None => Some x | Some b => if f b <? f x then Some x else Some b end) (Some b) l <> None); [by intros H0 ?%H0|].
  induction l as [|y l IH]; intros b; simpl; [done|]. destruct (f b <? f y); apply IH.
Qed.

Lemma transaction_err fault {A} (body : Tx A) db e db' :
  transaction fault body db = (Err e, db') -> db' = db.
Proof. unfold transaction. intros E. repeat case_match; by simplify_eq. Qed.

Lemma transaction_Ok fault {A} (body : Tx A) db a db' :
  transaction fault body db = (Ok a, db') -> exists k, body 1%nat db = (Ok (a, db'), k).
Proof. unfold transaction. intros E. repeat case_match; simplify_eq. eauto. Qed.

Lemma tx_bind_Ok {A B} (m : Tx A) (f : A -> Tx B) k db b db' k' :
  tx_bind m f k db = (Ok (b, db'), k') <->
  exists a db1 k1, m k db = (Ok (a, db1), k1) /\ f a k1 db1 = (Ok (b, db'), k').
Proof.
  unfold tx_bind. split.
  - destruct (m k db) as [[[a db1]|] k1]; [|done]. eauto 6.
  - by intros (a & db1 & k1 & -> & ->).
Qed.

Lemma stmt_Ok fault {A} (f : DB -> Result (A * DB)) k db a db' k' :
  stmt fault f k db = (Ok (a, db'), k') <-> fault k = None /\ f db = Ok (a, db') /\ k' = S k.
Proof. unfold stmt. destruct (fault k); [by split; [|intros (? & _)]|]. split; [by intros [= -> <-]|by intros (_ & -> & ->)]. Qed.

Lemma tx_wrap_Ok {A} format args (m : Tx A) k db x k' :
  tx_wrap format args m k db = (Ok x, k') <-> m k db = (Ok x, k').
Proof. unfold tx_wrap. destruct (m k db) as [[|] ?]; [done|]. by split. Qed.

(** What a body that starts in [P] and reaches its end guarantees. *)
Definition hoare {A} (P : DB -> Prop) (m : Tx A) (Q : A -> DB -> Prop) : Prop :=
  forall k db a db' k', P db -> m k db = (Ok (a, db'), k') -> Q a db'.

Lemma hoare_ret {A} (P : DB -> Prop) (a : A) (Q : A -> DB -> Prop) :
  (forall db, P db -> Q a db) -> hoare P (tx_ret a) Q.
Proof. intros HQ k db b db' k' HP [= <- <- _]. by apply HQ. Qed.

Lemma hoare_bind {A B} (P : DB -> Prop) (m : Tx A) (f : A -> Tx B) (R : A -> DB -> Prop) (Q : B -> DB -> Prop) :
  hoare P m R -> (forall a, hoare (R a) (f a) Q) -> hoare P (tx_bind m f) Q.
Proof. intros Hm Hf k db b db' k' HP (a & db1 & k1 & E1 & E2)%tx_bind_Ok. eapply Hf; eauto. Qed.

Lemma hoare_stmt {A} fault (P : DB -> Prop) (f : DB -> Result (A * DB)) (Q : A -> DB -> Prop) :
  (forall db a db', P db -> f db = Ok (a, db') -> Q a db') -> hoare P (stmt fault f) Q.
Proof. intros HQ k db a db' k' HP (_ & E & _)%stmt_Ok. eauto. Qed.

Lemma hoare_wrap {A} format args (P : DB -> Prop) (m : Tx A) (Q : A -> DB -> Prop) :
  hoare P m Q -> hoare P (tx_wrap format args m) Q.
Proof. intros Hm k db a db' k' HP E%tx_wrap_Ok. eauto. Qed.

Lemma hoare_pre {A} (P P' : DB -> Prop) (m : Tx A) (Q : A -> DB -> Prop) :
  (forall db, P db -> P' db) -> hoare P' m Q -> hoare P m Q.
Proof. intros HP Hm k db a db' k' Hd E. eauto. Qed.

Lemma hoare_transaction {A} fault (P : DB -> Prop) (m : Tx A) (Q : A -> DB -> Prop) db a db' :
  hoare P m Q -> P db -> transaction fault m db = (Ok a, db') -> Q a db'.
Proof. intros Hm HP [k E]%transaction_Ok. eauto. Qed.

(** A transaction body that reaches its end. *)
Definition succeeds {A} (m : Tx A) (k : nat) (db : DB) : Prop :=
  exists a db' k', m k db = (Ok (a, db'), k').

Lemma succeeds_bind {A B} (m : Tx A) (f : A -> Tx B) k db a db1 k1 :
  m k db = (Ok (a, db1), k1) -> succeeds (f a) k1 db1 -> succeeds (tx_bind m f) k db.
Proof. intros Hm (b & db' & k' & Hf). exists b, db', k'. apply tx_bind_Ok. eauto. Qed.

Lemma stmt_no_fault fault {A} (f : DB -> Result (A * DB)) k db :
  (forall j, fault j = None) -> stmt fault f k db = (f db, S k).
Proof. intros Hf. unfold stmt. by rewrite Hf. Qed.

Lemma succeeds_commit fault {A} (body : Tx A) db :
  (forall j, fault j = None) -> succeeds body 1%nat db -> exists a db', transaction fault body db = (Ok a, db').
Proof. intros Hf (a & db' & k & E). exists a, db'. unfold transaction. rewrite Hf, E. by rewrite Hf. Qed.

Lemma cast_inet_Ok s i : cast_inet s = Ok i <-> inet_in s = Some i.
Proof. unfold cast_inet. destruct (inet_in s); split; by intros [= ->]. Qed.

Lemma bigint_add_Ok a b c : bigint_add a b = Ok c <-> c = a + b /\ - 2 ^ 63 <= a + b < 2 ^ 63.
Proof.
  unfold bigint_add. destruct ((_ <=? _) && _) eqn:E; bools.
  - split; [intros [= <-]; lia|by intros [-> _]].
  - split; [done|]. intros [_ ?]. apply andb_false_iff in E as [E|E]; bools; lia.
Qed.

Lemma resolveVMByIP_total ip addr db : inet_in ip = Some addr -> exists r, resolveVMByIP ip db = Ok r.
Proof. intros Hip. unfold resolveVMByIP, cast_inet. rewrite Hip. by eexists. Qed.

Lemma resolveVMByIP_known ip db vm : resolveVMByIP ip db = Ok (Some vm) -> is_Some (vms db !! r_ID vm).
Proof.
  intros (addr & _ & [= E])%rbind_Ok. apply fmap_Some in E as ([id v] & E & ->).
  apply latest_by_elem, list_elem_of_In, filter_In in E as [E _]. apply list_elem_of_In, elem_of_map_to_list in E. by exists v.
Qed.

(** Addresses resolve to the most recently seen machine that carries
    them: [resolveVMByIP] finds a VM exactly when some VM has the address as
    its private, public or interface address; the one found has it, and no
    VM with the address was seen later. *)
Theorem resolveVMByIP_spec (ip : string) (addr : inet) (db : DB) :
  inet_in ip = Some addr ->
  exists r, resolveVMByIP ip db = Ok r /\
  match r with
  | None => forall id v, vms db !! id = Some v -> vm_has_ip db addr id v = false
  | Some vm => exists v, vms db !! r_ID vm = Some v /\ vm_has_ip db addr (r_ID vm) v = true /\
      vm = resolved (r_ID vm) v /\
      forall id v', vms db !! id = Some v' -> vm_has_ip db addr id v' = true -> vm_last_seen v' <= vm_last_seen v
  end.
Proof.
  intros Hip. unfold resolveVMByIP, cast_inet. rewrite Hip. cbn [rbind]. eexists. split; [done|].
  set (l := List.filter _ _).
  assert (Hl : forall id v, (id, v) ∈ l <-> vms db !! id = Some v /\ vm_has_ip db addr id v = true).
  { intros id v. unfold l. rewrite list_elem_of_In, filter_In, <- list_elem_of_In, elem_of_map_to_list. done. }
  destruct (latest_by _ l) as [[id v]|] eqn:E; simpl.
  - pose proof (latest_by_elem _ _ _ E) as Hin. apply Hl in Hin as [Hv Hh].
    exists v. split_and!; try done. intros id' v' Hv' Hh'.
    apply (latest_by_max _ _ _ (id', v') E). by apply Hl.
  - apply latest_by_None in E. intros id v Hv. apply not_true_iff_false. intros Hh.
    assert ((id, v) ∈ l) as Hin by (by apply Hl). rewrite E in Hin. by apply elem_of_nil in Hin.
Qed.
End tables.

(** ** A concrete PostgreSQL

    Addresses as [net/netip] reads and prints them and instants cut to
    microseconds: an instance of the interface on which statements evaluate. *)
Definition netip_postgres : Postgres := {|
  inet := Addr;
  inet_in s := match ParseAddr s with Ok a => Some a | Err _ => None end;
  host := AddrString;
  timestamptz t := t / 1000 * 1000
|}.

Definition sample_vm (seen : time) (ip : Addr) : @VMRow netip_postgres :=
  @Build_VMRow netip_postgres "web" (Some "t") None (Some ip) None None None None None None None None None
    None None "agent" (Some "agent-1") None "online" 0 seen 0.
Definition sample_db : @DB netip_postgres :=
  @Build_DB netip_postgres
    {[ "agent-1" := {| ag_vm_id := Some "vm-1"; ag_hostname := "web"; ag_machine_id := None; ag_os := None;
                       ag_kernel := None; ag_agent_version := None; ag_environment := None; ag_project_id := None;
                       ag_status := "stale"; ag_first_seen := 0; ag_last_seen := 0 |} ]}
    {[ "vm-1" := sample_vm 10 (Addr4 167772165); "vm-2" := sample_vm 20 (Addr4 167772165) ]} [] [] [] [] [] [].

Lemma resolveVMByIP_witness :
  exists r, @resolveVMByIP netip_postgres "10.0.0.5" sample_db = Ok (Some r) /\ r_ID r = "vm-2".
Proof.
  destruct (resolveVMByIP_spec (H := netip_postgres) "10.0.0.5" (Addr4 167772165) sample_db eq_refl)
    as ([r|] & Hr & H).
  - exists r. split; [exact Hr|]. destruct H as (v & Hv & _ & _ & Hmax).
    assert (E : vms sample_db !! "vm-2" = Some (sample_vm 20 (Addr4 167772165))) by reflexivity.
    specialize (Hmax "vm-2" _ E eq_refl). unfold sample_db in Hv. simpl in Hv.
    rewrite lookup_insert_Some, lookup_singleton_Some in Hv.
    destruct Hv as [[_ <-]|[_ [<- _]]]; [simpl in Hmax; lia|reflexivity].
  - exfalso. specialize (H "vm-1" _ eq_refl). discriminate.
Defined.
