(* ===== verification/FlowService.v ===== *)
(** Ingestion and listing of flows: [backend/internal/service/flow_service.go].

    [Ingest] is the transaction the handler runs per posted event, statement
    by statement over the tables of Store; what is outside the process (the
    clocks, the identifiers PostgreSQL draws, the faults of its statements)
    is the record [Env]. *)
From S2P Require Import Prelude GoStrings GoFloat GoTime Netip AgentFlow Metrics Classifier Hub Store.
From S2P Require Graph.

#[local] Open Scope Z_scope.

(** model/flow.go *)
Record Flow := {
  fw_ID : string; fw_AgentID : string; fw_SrcVMID : string; fw_DstVMID : string;
  fw_SrcIP : string; fw_DstIP : string; fw_SrcPort : Z; fw_DstPort : Z;
  fw_Protocol : string; fw_Direction : string; fw_Scope : string; fw_Service : string; fw_ServicePort : Z;
  fw_BytesSent : Z; fw_BytesReceived : Z; fw_Packets : Z; fw_ConnectionCount : Z;
  fw_RequestCount : Z; fw_ErrorCount : Z; fw_Retransmissions : Z;
  fw_AvgRTTMs : float64; fw_AvgAppDelayMs : float64;
  fw_HTTP1xx : Z; fw_HTTP2xx : Z; fw_HTTP3xx : Z; fw_HTTP4xx : Z; fw_HTTP5xx : Z; fw_LastHTTPStatus : Z;
  fw_RequestsPerSec : float64; fw_ConnectionsPerSec : float64;
  fw_FirstSeen : time; fw_LastSeen : time; fw_ObservedAt : time; fw_LastErrorAt : option time;
  fw_InterfaceName : string; fw_CreatedAt : time
}.

Record Env := {
  env_now : time;            (* time.Now() of the validation *)
  env_observedAt : time;     (* time.Now() of Ingest *)
  env_pgnow : time;          (* NOW() of the transaction *)
  env_flow_id : string;      (* gen_random_uuid() for network_flows *)
  env_ob_id : string;        (* gen_random_uuid() for flow_observations *)
  env_fault : nat -> option GoError
}.

Notation "x <~ m ;; k" := (tx_bind m (fun x => k))
  (at level 100, m at next level, right associativity) : vm_scope.

Section ingest.
Context `{Postgres} `{UnicodeCase}.
Context {Payload : Type}.
(** [json.Marshal] of the envelope of an event type and its data. *)
Context (marshal : string -> Flow -> option Payload).
Context (classifier : Classifier).

(** The agent's machine: [agents a JOIN vms v ON v.id = a.vm_id]. *)
Definition sourceOfAgent (agentID : string) (db : DB) : option resolvedVM :=
  match agents db !! agentID with
  | None => None
  | Some a =>
      match ag_vm_id a with
      | None => None
      | Some vmID => resolved vmID <$> vms db !! vmID
      end
  end.

(** [INSERT ... ON CONFLICT (ip) DO UPDATE SET last_seen = GREATEST(...)] *)
Definition upsertHost (ip : inet) (first last : time) (l : list HostRow) : list HostRow :=
  if existsb (fun h => bool_decide (h_ip h = ip)) l then
    map (fun h => if bool_decide (h_ip h = ip)
                  then {| h_ip := h_ip h; h_first_seen := h_first_seen h;
                          h_last_seen := Z.max (h_last_seen h) last; h_resolved_vm_id := h_resolved_vm_id h |}
                  else h) l
  else l ++ [{| h_ip := ip; h_first_seen := first; h_last_seen := last; h_resolved_vm_id := None |}].

Definition with_unknown_internal (db : DB) (l : list HostRow) : DB :=
  {| agents := agents db; vms := vms db; vm_interfaces := vm_interfaces db; network_flows := network_flows db;
     flow_observations := flow_observations db; external_hosts := external_hosts db;
     unknown_internal_hosts := l; connection_probes := connection_probes db |}.
Definition with_external (db : DB) (l : list HostRow) : DB :=
  {| agents := agents db; vms := vms db; vm_interfaces := vm_interfaces db; network_flows := network_flows db;
     flow_observations := flow_observations db; external_hosts := l;
     unknown_internal_hosts := unknown_internal_hosts db; connection_probes := connection_probes db |}.
Definition with_flows (db : DB) (l : list FlowRow) : DB :=
  {| agents := agents db; vms := vms db; vm_interfaces := vm_interfaces db; network_flows := l;
     flow_observations := flow_observations db; external_hosts := external_hosts db;
     unknown_internal_hosts := unknown_internal_hosts db; connection_probes := connection_probes db |}.
Definition with_observations (db : DB) (l : list ObservationRow) : DB :=
  {| agents := agents db; vms := vms db; vm_interfaces := vm_interfaces db; network_flows := network_flows db;
     flow_observations := l; external_hosts := external_hosts db;
     unknown_internal_hosts := unknown_internal_hosts db; connection_probes := connection_probes db |}.
Definition with_agents (db : DB) (m : gmap string AgentRow) : DB :=
  {| agents := m; vms := vms db; vm_interfaces := vm_interfaces db; network_flows := network_flows db;
     flow_observations := flow_observations db; external_hosts := external_hosts db;
     unknown_internal_hosts := unknown_internal_hosts db; connection_probes := connection_probes db |}.
Definition with_vms (db : DB) (m : gmap string VMRow) : DB :=
  {| agents := agents db; vms := m; vm_interfaces := vm_interfaces db; network_flows := network_flows db;
     flow_observations := flow_observations db; external_hosts := external_hosts db;
     unknown_internal_hosts := unknown_internal_hosts db; connection_probes := connection_probes db |}.

(** The [switch scope] of [Ingest]. *)
Definition recordDestination (fault : nat -> option GoError) (scope : string) (event : FlowEvent) : Tx unit :=
  if (scope =? ScopeUnknownInternal)%string then
    stmt fault (fun db => ip <-- cast_inet (DstIP event) ;;
      Ok (tt, with_unknown_internal db (upsertHost ip (timestamptz (FirstSeen event)) (timestamptz (LastSeen event))
                                          (unknown_internal_hosts db))))
  else if (scope =? ScopeExternalPublic)%string || (scope =? ScopeExternalPrivate)%string then
    stmt fault (fun db => ip <-- cast_inet (DstIP event) ;;
      Ok (tt, with_external db (upsertHost ip (timestamptz (FirstSeen event)) (timestamptz (LastSeen event))
                                  (external_hosts db))))
  else tx_ret tt.

(** [fmt.Sprintf("%s|%s|%s|%s|%s|%d|%s", ...)] *)
Definition lockKey (sourceID destinationID scope : string) (event : FlowEvent) : string :=
  sourceID +:+ "|" +:+ Graph.valueOr (SrcIP event) sourceID +:+ "|" +:+ Graph.valueOr destinationID (DstIP event)
  +:+ "|" +:+ Protocol event +:+ "|" +:+ Direction_ event +:+ "|" +:+ Itoa (DstPort event) +:+ "|" +:+ scope.

(** The columns a flow row is aggregated by. *)
Definition AggKey : Type := option string * option string * inet * inet * string * Z * string * string.
Definition flow_key (r : FlowRow) : AggKey :=
  (fl_src_vm_id r, fl_dst_vm_id r, fl_src_ip r, fl_dst_ip r, fl_protocol r, fl_dst_port r, fl_scope r,
   fl_direction r).

(** [SELECT id::text FROM network_flows WHERE ... LIMIT 1 FOR UPDATE]; at
    most one row matches when keys are unique. *)
Definition selectFlow (key : AggKey) (l : list FlowRow) : option string :=
  fl_id <$> List.find (fun r => bool_decide (flow_key r = key)) l.

Definition flow_checks (r : FlowRow) : bool :=
  sample_checks (fl_protocol r) (fl_direction r) (fl_scope r)
    [fl_bytes_sent r; fl_bytes_received r; fl_packets r; fl_connection_count r; fl_request_count r;
     fl_error_count r; fl_retransmission_count r; fl_http_1xx r; fl_http_2xx r; fl_http_3xx r;
     fl_http_4xx r; fl_http_5xx r]
    [fl_avg_rtt_ms r; fl_avg_app_delay_ms r] (fl_last_http_status r).

Definition check_violation : GoError := pg_error "violates check constraint".
Definition duplicate_key : GoError := pg_error "duplicate key value violates unique constraint".

(** The inserted row; observed_at and created_at default to [NOW()]. *)
Definition newFlowRow (env : Env) (event : FlowEvent) (sourceID : string) (destinationID : option string)
    (scope : string) (src dst : inet) : FlowRow :=
  {| fl_id := env_flow_id env; fl_agent_id := Some (AgentID event); fl_src_vm_id := Some sourceID;
     fl_dst_vm_id := destinationID; fl_src_ip := src; fl_dst_ip := dst;
     fl_src_port := SrcPort event; fl_dst_port := DstPort event;
     fl_protocol := Protocol event; fl_direction := Direction_ event; fl_scope := scope;
     fl_bytes_sent := BytesSent event; fl_bytes_received := BytesReceived event; fl_packets := PacketCount event;
     fl_connection_count := ConnectionCount event; fl_request_count := RequestCount event;
     fl_error_count := ErrorCount event; fl_retransmission_count := Retransmissions event;
     fl_avg_rtt_ms := AvgRTTMs event; fl_avg_app_delay_ms := AvgAppDelayMs event;
     fl_first_seen := timestamptz (FirstSeen event); fl_last_seen := timestamptz (LastSeen event);
     fl_observed_at := timestamptz (env_pgnow env); fl_created_at := timestamptz (env_pgnow env);
     fl_last_error_at := timestamptz <$> LastErrorAtArg (ErrorCount event) (env_observedAt env);
     fl_interface_name := nullIfEmpty (Interface event);
     fl_http_1xx := HTTP1xx event; fl_http_2xx := HTTP2xx event; fl_http_3xx := HTTP3xx event;
     fl_http_4xx := HTTP4xx event; fl_http_5xx := HTTP5xx event;
     fl_last_http_status := nullIfZeroStatus (LastHTTPStatus event) |}.

Definition insertFlow (row : FlowRow) (db : DB) : Result (string * DB) :=
  guard_err (negb (flow_checks row)) as check_violation ;;
  guard_err (existsb (fun r => (fl_id r =? fl_id row)%string) (network_flows db)) as duplicate_key ;;
  Ok (fl_id row, with_flows db (network_flows db ++ [row])).

(** [CASE WHEN $n > 0 AND avg > 0 THEN (avg + $n) / 2 WHEN $n > 0 THEN $n ELSE avg END] *)
Definition mergeAvg (avg next : float64) : Result float64 :=
  if float8_gt next (f_of_Z 0) && float8_gt avg (f_of_Z 0) then
    s <-- float8_add avg next ;; float8_half s
  else if float8_gt next (f_of_Z 0) then Ok next
  else Ok avg.

(** The [SET] clause of the [UPDATE]. *)
Definition updateFlowRow (env : Env) (event : FlowEvent) (r : FlowRow) : Result FlowRow :=
  bytes_sent <-- bigint_add (fl_bytes_sent r) (BytesSent event) ;;
  bytes_received <-- bigint_add (fl_bytes_received r) (BytesReceived event) ;;
  packets <-- bigint_add (fl_packets r) (PacketCount event) ;;
  connection_count <-- bigint_add (fl_connection_count r) (ConnectionCount event) ;;
  request_count <-- bigint_add (fl_request_count r) (RequestCount event) ;;
  error_count <-- bigint_add (fl_error_count r) (ErrorCount event) ;;
  retransmission_count <-- bigint_add (fl_retransmission_count r) (Retransmissions event) ;;
  http_1xx <-- bigint_add (fl_http_1xx r) (HTTP1xx event) ;;
  http_2xx <-- bigint_add (fl_http_2xx r) (HTTP2xx event) ;;
  http_3xx <-- bigint_add (fl_http_3xx r) (HTTP3xx event) ;;
  http_4xx <-- bigint_add (fl_http_4xx r) (HTTP4xx event) ;;
  http_5xx <-- bigint_add (fl_http_5xx r) (HTTP5xx event) ;;
  avg_rtt_ms <-- mergeAvg (fl_avg_rtt_ms r) (AvgRTTMs event) ;;
  avg_app_delay_ms <-- mergeAvg (fl_avg_app_delay_ms r) (AvgAppDelayMs event) ;;
  let observedAt := timestamptz (env_observedAt env) in
  Ok {| fl_id := fl_id r; fl_agent_id := Some (AgentID event); fl_src_vm_id := fl_src_vm_id r;
        fl_dst_vm_id := fl_dst_vm_id r; fl_src_ip := fl_src_ip r; fl_dst_ip := fl_dst_ip r;
        fl_src_port := fl_src_port r; fl_dst_port := fl_dst_port r;
        fl_protocol := fl_protocol r; fl_direction := fl_direction r; fl_scope := fl_scope r;
        fl_bytes_sent := bytes_sent; fl_bytes_received := bytes_received; fl_packets := packets;
        fl_connection_count := connection_count; fl_request_count := request_count;
        fl_error_count := error_count; fl_retransmission_count := retransmission_count;
        fl_avg_rtt_ms := avg_rtt_ms; fl_avg_app_delay_ms := avg_app_delay_ms;
        fl_first_seen := Z.min (fl_first_seen r) (timestamptz (FirstSeen event));
        fl_last_seen := Z.max (fl_last_seen r) (timestamptz (LastSeen event));
        fl_observed_at := observedAt; fl_created_at := fl_created_at r;
        fl_last_error_at := if 0 <? ErrorCount event
                            then Some (Z.max (default observedAt (fl_last_error_at r)) observedAt)
                            else fl_last_error_at r;
        fl_interface_name := match nullIfEmpty (Interface event) with
                             | Some name => Some name | None => fl_interface_name r end;
        fl_http_1xx := http_1xx; fl_http_2xx := http_2xx; fl_http_3xx := http_3xx;
        fl_http_4xx := http_4xx; fl_http_5xx := http_5xx;
        fl_last_http_status := match nullIfZeroStatus (LastHTTPStatus event) with
                               | Some s => Some s | None => fl_last_http_status r end |}.

(** [UPDATE network_flows SET ... WHERE id = $1::uuid] *)
Fixpoint updateFlows (env : Env) (event : FlowEvent) (flowID : string) (l : list FlowRow) : Result (list FlowRow) :=
  match l with
  | [] => Ok []
  | r :: rest =>
      r' <-- (if (fl_id r =? flowID)%string then
                r' <-- updateFlowRow env event r ;;
                guard_err (negb (flow_checks r')) as check_violation ;; Ok r'
              else Ok r) ;;
      rest' <-- updateFlows env event flowID rest ;;
      Ok (r' :: rest')
  end.

Definition newObservation (env : Env) (event : FlowEvent) (flowID sourceID : string)
    (destinationID : option string) (scope : string) (src dst : inet) : ObservationRow :=
  {| ob_id := env_ob_id env; ob_flow_id := flowID; ob_agent_id := Some (AgentID event);
     ob_src_vm_id := Some sourceID; ob_dst_vm_id := destinationID; ob_src_ip := src; ob_dst_ip := dst;
     ob_src_port := SrcPort event; ob_dst_port := DstPort event;
     ob_protocol := Protocol event; ob_direction := Direction_ event; ob_scope := scope;
     ob_bytes_sent := BytesSent event; ob_bytes_received := BytesReceived event; ob_packets := PacketCount event;
     ob_connection_count := ConnectionCount event; ob_request_count := RequestCount event;
     ob_error_count := ErrorCount event; ob_retransmission_count := Retransmissions event;
     ob_avg_rtt_ms := AvgRTTMs event; ob_avg_app_delay_ms := AvgAppDelayMs event;
     ob_first_seen := timestamptz (FirstSeen event); ob_last_seen := timestamptz (LastSeen event);
     ob_observed_at := timestamptz (env_observedAt env);
     ob_http_1xx := HTTP1xx event; ob_http_2xx := HTTP2xx event; ob_http_3xx := HTTP3xx event;
     ob_http_4xx := HTTP4xx event; ob_http_5xx := HTTP5xx event;
     ob_last_http_status := nullIfZeroStatus (LastHTTPStatus event) |}.

Definition observation_checks (o : ObservationRow) : bool :=
  sample_checks (ob_protocol o) (ob_direction o) (ob_scope o)
    [ob_bytes_sent o; ob_bytes_received o; ob_packets o; ob_connection_count o; ob_request_count o;
     ob_error_count o; ob_retransmission_count o; ob_http_1xx o; ob_http_2xx o; ob_http_3xx o;
     ob_http_4xx o; ob_http_5xx o]
    [ob_avg_rtt_ms o; ob_avg_app_delay_ms o] (ob_last_http_status o).

Definition insertObservation (o : ObservationRow) (db : DB) : Result (unit * DB) :=
  guard_err (negb (observation_checks o)) as check_violation ;;
  guard_err (existsb (fun r => (ob_id r =? ob_id o)%string) (flow_observations db)) as duplicate_key ;;
  Ok (tt, with_observations db (flow_observations db ++ [o])).

(** [UPDATE agents / vms SET last_seen = NOW(), status = 'online' WHERE id = $1] *)
Definition touchAgent (pgnow : time) (a : AgentRow) : AgentRow :=
  {| ag_vm_id := ag_vm_id a; ag_hostname := ag_hostname a; ag_machine_id := ag_machine_id a; ag_os := ag_os a;
     ag_kernel := ag_kernel a; ag_agent_version := ag_agent_version a; ag_environment := ag_environment a;
     ag_project_id := ag_project_id a;
     ag_status := "online"; ag_first_seen := ag_first_seen a; ag_last_seen := timestamptz pgnow |}.
Definition touchVM (pgnow : time) (v : VMRow) : VMRow :=
  {| vm_name := vm_name v; vm_tenant_id := vm_tenant_id v; vm_project_id := vm_project_id v;
     vm_private_ip := vm_private_ip v; vm_public_ip := vm_public_ip v; vm_mac_address := vm_mac_address v;
     vm_host_id := vm_host_id v; vm_role := vm_role v; vm_host_type := vm_host_type v;
     vm_environment := vm_environment v; vm_owner := vm_owner v; vm_region := vm_region v; vm_zone := vm_zone v;
     vm_network_id := vm_network_id v; vm_subnet_id := vm_subnet_id v;
     vm_discovered_by := vm_discovered_by v; vm_agent_id := vm_agent_id v; vm_machine_id := vm_machine_id v;
     vm_status := "online"; vm_first_seen := vm_first_seen v; vm_last_seen := timestamptz pgnow;
     vm_created_at := vm_created_at v |}.

(** The aggregation of one event: select, then insert or update. *)
Definition aggregate (env : Env) (event : FlowEvent) (sourceID : string) (destinationID : option string)
    (scope : string) : Tx string :=
  found <~ stmt (env_fault env) (fun db =>
    src <-- cast_inet (SrcIP event) ;;
    dst <-- cast_inet (DstIP event) ;;
    Ok (selectFlow (Some sourceID, destinationID, src, dst, Protocol event, DstPort event, scope, Direction_ event)
          (network_flows db), db)) ;;
  let flowID := default "" found in
  tx_wrap "aggregate flow: %w" []
    (if (flowID =? "")%string then
       stmt (env_fault env) (fun db =>
         src <-- cast_inet (SrcIP event) ;;
         dst <-- cast_inet (DstIP event) ;;
         insertFlow (newFlowRow env event sourceID destinationID scope src dst) db)
     else
       stmt (env_fault env) (fun db =>
         l <-- updateFlows env event flowID (network_flows db) ;;
         Ok (flowID, with_flows db l))).

(** The statements of [Ingest] between [Begin] and [Commit]; the value is
    what the code after the commit uses. *)
Definition ingestBody (env : Env) (event : FlowEvent)
    : Tx (string * resolvedVM * option resolvedVM * string) :=
  let fault := env_fault env in
  found <~ stmt fault (fun db => Ok (sourceOfAgent (AgentID event) db, db)) ;;
  match found with
  | None => tx_err (Errorf "agent %q is not registered" [AgentID event])
  | Some source =>
      destination <~ stmt fault (fun db => r <-- resolveVMByIP (DstIP event) db ;; Ok (r, db)) ;;
      let scope := Scope classifier (r_TenantID source) (default "" (r_TenantID <$> destination))
                     (isSome destination) (DstIP event) in
      let destinationID := r_ID <$> destination in
      _ <~ recordDestination fault scope event ;;
      _ <~ stmt fault (fun db => Ok (lockKey (r_ID source) (default "" destinationID) scope event, db)) ;;
      flowID <~ aggregate env event (r_ID source) destinationID scope ;;
      _ <~ tx_wrap "record flow observation: %w" []
             (stmt fault (fun db =>
                src <-- cast_inet (SrcIP event) ;;
                dst <-- cast_inet (DstIP event) ;;
                insertObservation (newObservation env event flowID (r_ID source) destinationID scope src dst) db)) ;;
      _ <~ stmt fault (fun db => Ok (tt, with_agents db (alter (touchAgent (env_pgnow env)) (AgentID event) (agents db)))) ;;
      _ <~ stmt fault (fun db => Ok (tt, with_vms db (alter (touchVM (env_pgnow env)) (r_ID source) (vms db)))) ;;
      tx_ret (flowID, source, destination, scope)
  end.

(** The [model.Flow] returned and broadcast. *)
Definition ingestedFlow (env : Env) (event : FlowEvent) (flowID : string) (source : resolvedVM)
    (destination : option resolvedVM) (scope : string) : Flow :=
  let '(serviceName, servicePort) :=
    classifyService (Protocol event) (Direction_ event) (SrcPort event) (DstPort event) in
  {| fw_ID := flowID; fw_AgentID := AgentID event; fw_SrcVMID := r_ID source;
     fw_DstVMID := default "" (r_ID <$> destination); fw_SrcIP := SrcIP event; fw_DstIP := DstIP event;
     fw_SrcPort := SrcPort event; fw_DstPort := DstPort event; fw_Protocol := Protocol event;
     fw_Direction := Direction_ event; fw_Scope := scope; fw_Service := serviceName;
     fw_ServicePort := servicePort; fw_BytesSent := BytesSent event; fw_BytesReceived := BytesReceived event;
     fw_Packets := PacketCount event; fw_ConnectionCount := ConnectionCount event;
     fw_RequestCount := RequestCount event; fw_ErrorCount := ErrorCount event;
     fw_Retransmissions := Retransmissions event; fw_AvgRTTMs := AvgRTTMs event;
     fw_AvgAppDelayMs := AvgAppDelayMs event;
     fw_HTTP1xx := HTTP1xx event; fw_HTTP2xx := HTTP2xx event; fw_HTTP3xx := HTTP3xx event;
     fw_HTTP4xx := HTTP4xx event; fw_HTTP5xx := HTTP5xx event; fw_LastHTTPStatus := LastHTTPStatus event;
     fw_RequestsPerSec := RatePerSecond (RequestCount event) (FirstSeen event) (LastSeen event);
     fw_ConnectionsPerSec := RatePerSecond (ConnectionCount event) (FirstSeen event) (LastSeen event);
     fw_FirstSeen := FirstSeen event; fw_LastSeen := LastSeen event; fw_ObservedAt := env_observedAt env;
     fw_LastErrorAt := LastErrorAtPtr (ErrorCount event) (env_observedAt env);
     fw_InterfaceName := Interface event; fw_CreatedAt := time_zero |}.

Definition Ingest (env : Env) (event : FlowEvent) (db : DB) (hub : Hub Payload)
    : Result Flow * DB * Hub Payload :=
  match ValidateFlowEvent (env_now env) event with
  | Err e => (Err e, db, hub)
  | Ok event =>
      match transaction (env_fault env) (ingestBody env event) db with
      | (Err e, db') => (Err e, db', hub)
      | (Ok (flowID, source, destination, scope), db') =>
          let flow := ingestedFlow env event flowID source destination scope in
          (Ok flow, db', BroadcastLatest hub "flow.updated" (marshal "flow.updated" flow) (500 * Millisecond))
      end
  end.

End ingest.

(** * Facts *)

(** The additive columns, uniformly. *)
Inductive Counter :=
| CBytesSent | CBytesReceived | CPackets | CConnections | CRequests | CErrors | CRetransmissions
| CHTTP1xx | CHTTP2xx | CHTTP3xx | CHTTP4xx | CHTTP5xx.

Section facts.
Context `{Postgres}.

Definition ev_counter (c : Counter) (e : FlowEvent) : Z :=
  match c with
  | CBytesSent => BytesSent e | CBytesReceived => BytesReceived e | CPackets => PacketCount e
  | CConnections => ConnectionCount e | CRequests => RequestCount e | CErrors => ErrorCount e
  | CRetransmissions => Retransmissions e | CHTTP1xx => HTTP1xx e | CHTTP2xx => HTTP2xx e
  | CHTTP3xx => HTTP3xx e | CHTTP4xx => HTTP4xx e | CHTTP5xx => HTTP5xx e
  end.
Definition fl_counter (c : Counter) (r : FlowRow) : Z :=
  match c with
  | CBytesSent => fl_bytes_sent r | CBytesReceived => fl_bytes_received r | CPackets => fl_packets r
  | CConnections => fl_connection_count r | CRequests => fl_request_count r | CErrors => fl_error_count r
  | CRetransmissions => fl_retransmission_count r | CHTTP1xx => fl_http_1xx r | CHTTP2xx => fl_http_2xx r
  | CHTTP3xx => fl_http_3xx r | CHTTP4xx => fl_http_4xx r | CHTTP5xx => fl_http_5xx r
  end.
Definition ob_counter (c : Counter) (o : ObservationRow) : Z :=
  match c with
  | CBytesSent => ob_bytes_sent o | CBytesReceived => ob_bytes_received o | CPackets => ob_packets o
  | CConnections => ob_connection_count o | CRequests => ob_request_count o | CErrors => ob_error_count o
  | CRetransmissions => ob_retransmission_count o | CHTTP1xx => ob_http_1xx o | CHTTP2xx => ob_http_2xx o
  | CHTTP3xx => ob_http_3xx o | CHTTP4xx => ob_http_4xx o | CHTTP5xx => ob_http_5xx o
  end.
Definition ob_key (o : ObservationRow) : AggKey :=
  (ob_src_vm_id o, ob_dst_vm_id o, ob_src_ip o, ob_dst_ip o, ob_protocol o, ob_dst_port o, ob_scope o,
   ob_direction o).

(** The total of counter [c] over the observations of flow [id]. *)
Definition observed (c : Counter) (id : string) (l : list ObservationRow) : Z :=
  sumZ (fun o => if (ob_flow_id o =? id)%string then ob_counter c o else 0) l.

(** What the rows of an update keep and change. *)
Lemma updateFlowRow_Ok env e r r' :
  updateFlowRow env e r = Ok r' ->
  fl_id r' = fl_id r /\ flow_key r' = flow_key r /\
  (forall c, fl_counter c r' = fl_counter c r + ev_counter c e).
Proof.
  unfold updateFlowRow. intros E.
  repeat (apply rbind_Ok in E; destruct E as (? & ?%bigint_add_Ok & E)).
  apply rbind_Ok in E as (? & _ & E). apply rbind_Ok in E as (? & _ & E).
  injection E as <-. destruct_and!. subst. split_and!; [done|done|]. by intros [].
Qed.

Lemma updateFlows_other env e id l : id ∉ (fl_id <$> l) -> updateFlows env e id l = Ok l.
Proof.
  induction l as [|r l IH]; [done|]. rewrite fmap_cons, not_elem_of_cons. intros [Hr Hl]. simpl.
  rewrite (proj2 (String.eqb_neq _ _)) by congruence. simpl. by rewrite IH.
Qed.

(** An update by identifier touches the one row that has it. *)
Lemma updateFlows_split env e l1 r l2 l' :
  NoDup (fl_id <$> (l1 ++ r :: l2)) -> updateFlows env e (fl_id r) (l1 ++ r :: l2) = Ok l' ->
  exists r', updateFlowRow env e r = Ok r' /\ flow_checks r' = true /\ l' = l1 ++ r' :: l2.
Proof.
  revert l'. induction l1 as [|x l1 IH]; intros l'; rewrite ?app_nil_l, <- ?app_comm_cons, fmap_cons, NoDup_cons;
    intros [Hn Hd]; simpl.
  - rewrite String.eqb_refl. intros (y & E & (l2' & E2 & [= <-])%rbind_Ok)%rbind_Ok.
    apply rbind_Ok in E as (r' & Hr' & E). destruct (flow_checks r') eqn:Hc; [|done]. injection E as <-.
    rewrite updateFlows_other in E2 by done. injection E2 as <-. by exists r'.
  - rewrite (proj2 (String.eqb_neq (fl_id x) (fl_id r))).
    2:{ intros E. apply Hn. rewrite E, fmap_app, fmap_cons. set_solver. }
    simpl. intros (lr & E & [= <-])%rbind_Ok. apply IH in E as (r' & ? & ? & ->); [|done]. by exists r'.
Qed.

Lemma selectFlow_None key l : selectFlow key l = None <-> key ∉ (flow_key <$> l).
Proof.
  unfold selectFlow. rewrite fmap_None. split.
  - intros E Hin. apply list_elem_of_fmap in Hin as (r & Hk & Hr). subst key.
    apply list_elem_of_In in Hr. pose proof (find_none _ _ E r Hr) as F. simpl in F.
    by rewrite bool_decide_eq_true_2 in F.
  - intros Hn. match goal with |- ?x = None => destruct x as [r|] eqn:E; [|done] end. apply find_some in E as [Hr E].
    apply bool_decide_eq_true in E as <-. destruct Hn. apply list_elem_of_fmap_2. by apply list_elem_of_In.
Qed.

Lemma selectFlow_Some key l id : selectFlow key l = Some id ->
  exists l1 r l2, l = l1 ++ r :: l2 /\ flow_key r = key /\ fl_id r = id.
Proof.
  unfold selectFlow. intros (r & E & ->)%fmap_Some. apply find_some in E as [Hr E]. apply bool_decide_eq_true in E.
  apply list_elem_of_In, list_elem_of_split in Hr as (l1 & l2 & ->). eauto 6.
Qed.
(** ** The aggregation step *)

(** [agg_step env e key row l id l'] : aggregating [e], whose key is [key]
    and whose new row would be [row], into [l] gives [l'] and flow [id]. *)
Inductive agg_step (env : Env) (e : FlowEvent) (key : AggKey) (row : FlowRow)
    : list FlowRow -> string -> list FlowRow -> Prop :=
| agg_insert l :
    key ∉ (flow_key <$> l) -> fl_id row ∉ (fl_id <$> l) -> flow_checks row = true ->
    agg_step env e key row l (fl_id row) (l ++ [row])
| agg_update l1 r r' l2 :
    flow_key r = key -> updateFlowRow env e r = Ok r' -> flow_checks r' = true ->
    agg_step env e key row (l1 ++ r :: l2) (fl_id r) (l1 ++ r' :: l2).

(** The tables network_flows and flow_observations fit together: flows are
    unique by identifier and by aggregation key, satisfy the constraints of
    the table, and every counter of a flow is the total of its observations,
    which carry the key of the flow they reference. *)
Record flows_ok (l : list FlowRow) (obs : list ObservationRow) : Prop := {
  ok_ids : NoDup (fl_id <$> l);
  ok_keys : NoDup (flow_key <$> l);
  ok_named : Forall (fun r => fl_id r <> "") l;
  ok_checks : Forall (fun r => flow_checks r = true) l;
  ok_obs_checks : Forall (fun o => observation_checks o = true) obs;
  ok_obs : Forall (fun o => exists r, r ∈ l /\ fl_id r = ob_flow_id o /\ flow_key r = ob_key o) obs;
  ok_total : forall r c, r ∈ l -> fl_counter c r = observed c (fl_id r) obs
}.

Lemma aggregate_Ok env e s d scope k db flowID db' k' :
  flows_ok (network_flows db) (flow_observations db) ->
  aggregate env e s d scope k db = (Ok (flowID, db'), k') ->
  exists src dst l', inet_in (SrcIP e) = Some src /\ inet_in (DstIP e) = Some dst /\
    db' = with_flows db l' /\
    agg_step env e (Some s, d, src, dst, Protocol e, DstPort e, scope, Direction_ e)
      (newFlowRow env e s d scope src dst) (network_flows db) flowID l'.
Proof.
  intros Hok. unfold aggregate. intros (found & db1 & k1 & (_ & E & ->)%stmt_Ok & E2)%tx_bind_Ok.
  apply rbind_Ok in E as (src & Hs & E). apply rbind_Ok in E as (dst & Hd & E). injection E as Hf ->.
  apply (proj1 (cast_inet_Ok _ _)) in Hs as Hsi. apply (proj1 (cast_inet_Ok _ _)) in Hd as Hdi.
  exists src, dst. apply tx_wrap_Ok in E2. destruct found as [id|]; simpl in E2.
  - apply selectFlow_Some in Hf as (l1 & r & l2 & Hl & Hk & <-).
    assert (Hne : fl_id r <> "").
    { destruct Hok as [_ _ Hn _ _ _ _]. rewrite Hl in Hn. rewrite Forall_forall in Hn. apply Hn. set_solver. }
    rewrite (proj2 (String.eqb_neq _ _) Hne) in E2. apply stmt_Ok in E2 as (_ & E2 & _).
    apply rbind_Ok in E2 as (l' & E2 & [= <- <-]). rewrite Hl in E2 |- *.
    apply updateFlows_split in E2 as (r' & ? & ? & ->); [|rewrite <- Hl; apply Hok].
    exists (l1 ++ r' :: l2). split_and!; try done. by constructor.
  - apply selectFlow_None in Hf. apply stmt_Ok in E2 as (_ & E2 & _).
    rewrite Hs, Hd in E2. cbn [rbind] in E2. unfold insertFlow in E2.
    destruct (flow_checks _) eqn:Hc; [|done]. simpl in E2.
    destruct (existsb _ _) eqn:Hx; [done|]. injection E2 as <- <-.
    eexists. split_and!; try done. apply agg_insert; try done.
    intros (r & Hr & Hin)%list_elem_of_fmap. apply not_true_iff_false in Hx. apply Hx.
    apply existsb_exists. exists r. split; [by apply list_elem_of_In|]. by apply String.eqb_eq.
Qed.

Lemma observed_snoc c id obs o :
  observed c id (obs ++ [o]) = observed c id obs + (if (ob_flow_id o =? id)%string then ob_counter c o else 0).
Proof. unfold observed. rewrite sumZ_app. unfold sumZ at 2. simpl. lia. Qed.

(** No observation references an identifier that no flow has. *)
Lemma observed_absent l obs c id : flows_ok l obs -> id ∉ (fl_id <$> l) -> observed c id obs = 0.
Proof.
  intros Hok Hid. unfold observed. apply sumZ_zero. intros o Ho.
  destruct (String.eqb_spec (ob_flow_id o) id) as [<-|]; [|done].
  pose proof (ok_obs _ _ Hok) as F. rewrite Forall_forall in F. destruct (F o Ho) as (r & Hr & E & _).
  destruct Hid. rewrite <- E. by apply list_elem_of_fmap_2.
Qed.

(** A new flow with its first observation. *)
Lemma flows_ok_insert l obs row o :
  flows_ok l obs -> flow_key row ∉ (flow_key <$> l) -> fl_id row ∉ (fl_id <$> l) -> flow_checks row = true ->
  fl_id row <> "" -> ob_flow_id o = fl_id row -> ob_key o = flow_key row ->
  (forall c, fl_counter c row = ob_counter c o) -> observation_checks o = true ->
  flows_ok (l ++ [row]) (obs ++ [o]).
Proof.
  intros Hok Hkey Hid Hc Hne Hoid Hokey Hcnt Hochk.
  pose proof (fun c => observed_absent l obs c (fl_id row) Hok Hid) as Habs.
  destruct Hok as [Hids Hkeys Hnamed Hchecks Hobs1 Hobs Htotal]. split.
  - rewrite fmap_app. by apply NoDup_snoc.
  - rewrite fmap_app. by apply NoDup_snoc.
  - by apply Forall_snoc.
  - by apply Forall_snoc.
  - by apply Forall_snoc.
  - apply Forall_snoc. split.
    + eapply Forall_impl; [exact Hobs|]. intros o' (r & ? & ?). exists r. rewrite elem_of_snoc. auto.
    + exists row. rewrite elem_of_snoc. auto.
  - intros r c [Hr| ->]%elem_of_snoc; rewrite observed_snoc, Hoid.
    + rewrite (Htotal r c Hr). destruct (String.eqb_spec (fl_id row) (fl_id r)) as [E|]; [|lia].
      destruct Hid. rewrite E. by apply list_elem_of_fmap_2.
    + rewrite String.eqb_refl, Habs, Hcnt. lia.
Qed.

(** A flow updated with a further observation. *)
Lemma flows_ok_update l1 r r' l2 obs o :
  flows_ok (l1 ++ r :: l2) obs -> fl_id r' = fl_id r -> flow_key r' = flow_key r -> flow_checks r' = true ->
  ob_flow_id o = fl_id r -> ob_key o = flow_key r ->
  (forall c, fl_counter c r' = fl_counter c r + ob_counter c o) -> observation_checks o = true ->
  flows_ok (l1 ++ r' :: l2) (obs ++ [o]).
Proof.
  intros [Hids Hkeys Hnamed Hchecks Hobs1 Hobs Htotal] Hid Hkey Hc Hoid Hokey Hcnt Hochk.
  assert (Hfid : fl_id <$> (l1 ++ r' :: l2) = fl_id <$> (l1 ++ r :: l2))
    by (rewrite !fmap_app, !fmap_cons; congruence).
  assert (Hnot : fl_id r ∉ (fl_id <$> (l1 ++ l2))).
  { rewrite fmap_app, fmap_cons in Hids. rewrite fmap_app.
    by apply (NoDup_Permutation_proper _ _ (Permutation_sym (Permutation_middle _ _ _))), NoDup_cons in Hids as [? _]. }
  split.
  - by rewrite Hfid.
  - rewrite fmap_app, fmap_cons, Hkey in *. done.
  - rewrite Forall_middle in *. by rewrite Hid.
  - rewrite Forall_middle in *. by destruct Hchecks.
  - by apply Forall_snoc.
  - apply Forall_snoc. split.
    + eapply Forall_impl; [exact Hobs|]. intros o' (x & [-> |Hx]%elem_of_middle & ? & ?).
      * exists r'. rewrite elem_of_middle, Hid, Hkey. auto.
      * exists x. rewrite elem_of_middle. auto.
    + exists r'. rewrite elem_of_middle, Hid, Hkey. auto.
  - intros x c [-> |Hx]%elem_of_middle; rewrite observed_snoc, Hoid.
    + rewrite Hcnt, Hid, String.eqb_refl, (Htotal r c); [done|]. apply elem_of_middle. by left.
    + destruct (String.eqb_spec (fl_id r) (fl_id x)) as [E|_].
      { destruct Hnot. rewrite E. by apply list_elem_of_fmap_2. }
      rewrite Z.add_0_r. apply Htotal. apply elem_of_middle. by right.
Qed.

(** Aggregating an event and recording its observation preserves the fit of
    the two tables. *)
Lemma agg_step_ok env e key row l obs id l' o :
  flows_ok l obs -> agg_step env e key row l id l' ->
  fl_id row <> "" -> flow_key row = key -> (forall c, fl_counter c row = ev_counter c e) ->
  ob_flow_id o = id -> ob_key o = key -> (forall c, ob_counter c o = ev_counter c e) ->
  observation_checks o = true ->
  flows_ok l' (obs ++ [o]).
Proof.
  intros Hok Hs Hne Hk Hrc Hoid Hokey Hoc Hochk. destruct Hs as [l Hkey Hid Hc|l1 r r' l2 Hkey Hu Hc].
  - apply flows_ok_insert; try done; [by rewrite Hk|congruence|intros c; by rewrite Hrc, Hoc].
  - apply updateFlowRow_Ok in Hu as (Hid' & Hkey' & Hcnt).
    apply (flows_ok_update l1 r); try done; [congruence|intros c; by rewrite Hcnt, Hoc].
Qed.
End facts.

(** ** A committed ingestion *)

Definition flow_counter (c : Counter) (f : Flow) : Z :=
  match c with
  | CBytesSent => fw_BytesSent f | CBytesReceived => fw_BytesReceived f | CPackets => fw_Packets f
  | CConnections => fw_ConnectionCount f | CRequests => fw_RequestCount f | CErrors => fw_ErrorCount f
  | CRetransmissions => fw_Retransmissions f | CHTTP1xx => fw_HTTP1xx f | CHTTP2xx => fw_HTTP2xx f
  | CHTTP3xx => fw_HTTP3xx f | CHTTP4xx => fw_HTTP4xx f | CHTTP5xx => fw_HTTP5xx f
  end.

Section committed.
Context `{Postgres} `{UnicodeCase}.
Context (classifier : Classifier).

(** What a committed ingestion of the (validated) event [e] does. *)
Record committed (env : Env) (e : FlowEvent) (db : DB) (flowID : string) (source : resolvedVM)
    (destination : option resolvedVM) (scope : string) (db' : DB) : Prop := {
  cm_source : sourceOfAgent (AgentID e) db = Some source;
  cm_destination : resolveVMByIP (DstIP e) db = Ok destination;
  cm_scope : scope = Scope classifier (r_TenantID source) (default "" (r_TenantID <$> destination))
                       (isSome destination) (DstIP e);
  cm_tables : exists src dst,
    let key := (Some (r_ID source), r_ID <$> destination, src, dst, Protocol e, DstPort e, scope, Direction_ e) in
    let obs := newObservation env e flowID (r_ID source) (r_ID <$> destination) scope src dst in
    inet_in (SrcIP e) = Some src /\ inet_in (DstIP e) = Some dst /\
    agg_step env e key (newFlowRow env e (r_ID source) (r_ID <$> destination) scope src dst)
      (network_flows db) flowID (network_flows db') /\
    observation_checks obs = true /\
    flow_observations db' = flow_observations db ++ [obs] /\
    (unknown_internal_hosts db' = if (scope =? ScopeUnknownInternal)%string
       then upsertHost dst (timestamptz (FirstSeen e)) (timestamptz (LastSeen e)) (unknown_internal_hosts db)
       else unknown_internal_hosts db) /\
    (external_hosts db' = if (scope =? ScopeExternalPublic)%string || (scope =? ScopeExternalPrivate)%string
       then upsertHost dst (timestamptz (FirstSeen e)) (timestamptz (LastSeen e)) (external_hosts db)
       else external_hosts db);
  cm_agents : agents db' = alter (touchAgent (env_pgnow env)) (AgentID e) (agents db);
  cm_vms : vms db' = alter (touchVM (env_pgnow env)) (r_ID source) (vms db);
  cm_interfaces : vm_interfaces db' = vm_interfaces db
}.

(** The host tables after the [switch scope]; the others are as before. *)
Lemma recordDestination_Ok fault scope e k db x db' k' dst :
  inet_in (DstIP e) = Some dst ->
  recordDestination fault scope e k db = (Ok (x, db'), k') ->
  agents db' = agents db /\ vms db' = vms db /\ vm_interfaces db' = vm_interfaces db /\
  network_flows db' = network_flows db /\ flow_observations db' = flow_observations db /\
  (unknown_internal_hosts db' = if (scope =? ScopeUnknownInternal)%string
     then upsertHost dst (timestamptz (FirstSeen e)) (timestamptz (LastSeen e)) (unknown_internal_hosts db)
     else unknown_internal_hosts db) /\
  (external_hosts db' = if (scope =? ScopeExternalPublic)%string || (scope =? ScopeExternalPrivate)%string
     then upsertHost dst (timestamptz (FirstSeen e)) (timestamptz (LastSeen e)) (external_hosts db)
     else external_hosts db).
Proof.
  intros Hd. unfold recordDestination, cast_inet. rewrite Hd. cbn [rbind].
  destruct (String.eqb_spec scope ScopeUnknownInternal) as [->|_].
  - intros (_ & [= _ <-] & _)%stmt_Ok. split_and!; done.
  - destruct (_ || _); [|by intros [= _ <-]]. intros (_ & [= _ <-] & _)%stmt_Ok. split_and!; done.
Qed.

Lemma ingestBody_Ok env e k db flowID source destination scope db' k' :
  flows_ok (network_flows db) (flow_observations db) ->
  ingestBody classifier env e k db = (Ok (flowID, source, destination, scope, db'), k') ->
  committed env e db flowID source destination scope db'.
Proof.
  intros Hok. unfold ingestBody.
  intros (found & ? & ? & (_ & [= Hsrc ->] & ->)%stmt_Ok & E)%tx_bind_Ok.
  destruct found as [src|]; [|done].
  apply tx_bind_Ok in E as (dest & db1 & ? & (_ & (r & Hr & [= -> ->])%rbind_Ok & ->)%stmt_Ok & E).
  apply tx_bind_Ok in E as (u & db2 & k2 & Erec & E).
  apply tx_bind_Ok in E as (? & ? & ? & (_ & [= _ ->] & ->)%stmt_Ok & E).
  apply tx_bind_Ok in E as (id & db3 & k3 & Eagg & E).
  apply tx_bind_Ok in E as (? & db4 & ? & (_ & Eobs & ->)%tx_wrap_Ok%stmt_Ok & E).
  apply tx_bind_Ok in E as (? & ? & ? & (_ & [= _ <-] & ->)%stmt_Ok & E).
  apply tx_bind_Ok in E as (? & ? & ? & (_ & [= _ <-] & ->)%stmt_Ok & E).
  injection E as <- <- <- <- <- _.
  assert (exists ip, inet_in (DstIP e) = Some ip) as [ip Hip].
  { apply rbind_Ok in Eobs as (s & _ & Eobs). apply rbind_Ok in Eobs as (d & Hd & _).
    exists d. by apply cast_inet_Ok. }
  apply (recordDestination_Ok _ _ _ _ _ _ _ _ ip Hip) in Erec as (Ha & Hv & Hi & Hf & Ho & Hu & Hx).
  rewrite <- Hf, <- Ho in Hok.
  apply (aggregate_Ok _ _ _ _ _ _ _ _ _ _ Hok) in Eagg as (s & d & l' & Hs & Hd & -> & Hagg).
  apply (proj2 (cast_inet_Ok _ _)) in Hs as Cs. apply (proj2 (cast_inet_Ok _ _)) in Hd as Cd.
  rewrite Cs, Cd in Eobs. cbn [rbind] in Eobs. unfold insertObservation in Eobs.
  destruct (observation_checks _) eqn:Hc; [|done]. simpl in Eobs.
  destruct (existsb _ _); [done|]. injection Eobs as _ <-. simpl in *.
  assert (d = ip) as -> by congruence. rewrite Ho in *. rewrite Hf in *.
  split; simpl; rewrite ?Ha, ?Hv, ?Hi; try done. exists s, ip. by split_and!.
Qed.

Lemma ingested_counter env e id src dst scope c :
  flow_counter c (ingestedFlow env e id src dst scope) = ev_counter c e.
Proof. unfold ingestedFlow. destruct (classifyService _ _ _ _). by destruct c. Qed.

Lemma committed_ok env e db id src dst scope db' :
  flows_ok (network_flows db) (flow_observations db) -> env_flow_id env <> "" ->
  committed env e db id src dst scope db' ->
  flows_ok (network_flows db') (flow_observations db').
Proof.
  intros Hok Hid [_ _ _ (s & d & _ & _ & Hagg & Hc & -> & _) _ _ _].
  eapply agg_step_ok; try done; by intros [].
Qed.

(** The aggregate grows by exactly the event. *)
Lemma agg_step_total env e key row l id l' c :
  (forall c, fl_counter c row = ev_counter c e) -> agg_step env e key row l id l' ->
  sumZ (fl_counter c) l' = sumZ (fl_counter c) l + ev_counter c e.
Proof.
  intros Hrow [l0 _ _ _|l1 r r' l2 _ Hu _]; rewrite !sumZ_app, ?sumZ_cons.
  - rewrite sumZ_nil, Hrow. lia.
  - apply updateFlowRow_Ok in Hu as (_ & _ & ->). lia.
Qed.
End committed.

(** ** Ingestion goes through *)

Section progress.
Context `{Postgres} `{UnicodeCase}.

Definition known_scopes : list string :=
  [ScopeInternalSameTenant; ScopeInternalCrossTenant; ScopeUnknownInternal; ScopeExternalPublic;
   ScopeExternalPrivate; ScopeUnknown].

Lemma existsb_eqb s l : existsb (String.eqb s) l = true <-> s ∈ l.
Proof.
  rewrite existsb_exists. split.
  - intros (x & Hx & ->%String.eqb_eq). by apply list_elem_of_In.
  - intros Hx. exists s. split; [by apply list_elem_of_In|apply String.eqb_refl].
Qed.

Lemma sample_checks_ok p d sc counters latencies st :
  protocol_ok p -> direction_ok d -> sc ∈ known_scopes -> Forall (fun c => 0 <= c) counters ->
  Forall (fun x => unsigned x = true) latencies -> (forall s, st = Some s -> 100 <= s <= 599) ->
  sample_checks p d sc counters latencies st = true.
Proof.
  intros Hp Hd Hsc Hc Hl Hst. unfold sample_checks. rewrite !andb_true_iff. split_and!.
  - apply forallb_forall. intros x Hx. apply Z.leb_le. rewrite Forall_forall in Hc. by apply Hc, list_elem_of_In.
  - apply forallb_forall. intros x Hx. rewrite Forall_forall in Hl.
    unfold float8_gt. change (is_nan (f_of_Z 0)) with false. cbn iota. rewrite f_ltb_zero, negb_involutive.
    by apply Hl, list_elem_of_In.
  - by destruct Hp as [-> | [-> | ->]].
  - by destruct Hd as [-> | ->].
  - by apply existsb_eqb.
  - destruct st as [s|]; [|done]. specialize (Hst s eq_refl). apply andb_true_iff. rewrite !Z.leb_le. lia.
Qed.

Lemma nullIfZeroStatus_range s st : nullIfZeroStatus s = Some st -> 100 <= st <= 599.
Proof. unfold nullIfZeroStatus. destruct (_ || _) eqn:E; [done|]. intros [= <-]. bools. lia. Qed.

Lemma valid_event_checks e sc : valid_flow e -> sc ∈ known_scopes ->
  sample_checks (Protocol e) (Direction_ e) sc
    [BytesSent e; BytesReceived e; PacketCount e; ConnectionCount e; RequestCount e; ErrorCount e;
     Retransmissions e; HTTP1xx e; HTTP2xx e; HTTP3xx e; HTTP4xx e; HTTP5xx e]
    [AvgRTTMs e; AvgAppDelayMs e] (nullIfZeroStatus (LastHTTPStatus e)) = true.
Proof.
  intros [_ Hp Hd _ _ _ _ Hc Hl Hh _ _ _] Hsc. rewrite !f_ltb_zero, !negb_false_iff in Hl.
  apply sample_checks_ok; try done.
  - destruct_and!. by repeat apply Forall_cons_2.
  - destruct Hl. by repeat apply Forall_cons_2.
  - intros st. apply nullIfZeroStatus_range.
Qed.

Lemma mergeAvg_unsigned avg next m :
  unsigned avg = true -> unsigned next = true -> mergeAvg avg next = Ok m -> unsigned m = true.
Proof.
  intros Ha Hn. unfold mergeAvg. destruct (_ && _); [|destruct (float8_gt _ _); by intros [= <-]].
  intros (s & Hs & Hm)%rbind_Ok. unfold float8_add in Hs. destruct (_ && _); [done|]. injection Hs as <-.
  unfold float8_half in Hm. destruct (_ && _); [done|]. injection Hm as <-.
  by apply f_half_unsigned, f_add_unsigned.
Qed.

(** The event fits the flow it is aggregated into: no counter leaves
    [BIGINT] and no average leaves [DOUBLE PRECISION]. *)
Definition fits (e : FlowEvent) (r : FlowRow) : Prop :=
  (forall c, fl_counter c r + ev_counter c e < 2 ^ 63) /\
  is_ok (mergeAvg (fl_avg_rtt_ms r) (AvgRTTMs e)) = true /\
  is_ok (mergeAvg (fl_avg_app_delay_ms r) (AvgAppDelayMs e)) = true.

Lemma flow_checks_inv r : flow_checks r = true ->
  (forall c, 0 <= fl_counter c r) /\ unsigned (fl_avg_rtt_ms r) = true /\ unsigned (fl_avg_app_delay_ms r) = true /\
  (forall s, fl_last_http_status r = Some s -> 100 <= s <= 599).
Proof.
  unfold flow_checks, sample_checks, float8_gt. change (is_nan (f_of_Z 0)) with false. cbn [forallb].
  rewrite !f_ltb_zero, !negb_involutive, !andb_true_iff, !Z.leb_le. intros Hc. destruct_and!.
  split_and!; try done; [by intros []|].
  intros s Hs. destruct (fl_last_http_status r); simplify_eq. rewrite andb_true_iff, !Z.leb_le in *. done.
Qed.

Lemma valid_counter e c : valid_flow e -> 0 <= ev_counter c e.
Proof. intros [_ _ _ _ _ _ _ Hc _ Hh _ _ _]. destruct_and!. by destruct c. Qed.

Lemma bigint_fits a b : 0 <= a -> 0 <= b -> a + b < 2 ^ 63 -> bigint_add a b = Ok (a + b).
Proof. intros. apply bigint_add_Ok. split; [done|]. lia. Qed.

(** An update keeps the constraints of the table. *)
Lemma updateFlowRow_checks env e r r' :
  valid_flow e -> flow_checks r = true -> updateFlowRow env e r = Ok r' -> flow_checks r' = true.
Proof.
  intros He Hr E. destruct (flow_checks_inv _ Hr) as (Hc & Hu1 & Hu2 & Hst).
  assert (Hcnt : forall c, 0 <= fl_counter c r').
  { intros c. apply updateFlowRow_Ok in E as (_ & _ & ->). pose proof (Hc c). pose proof (valid_counter e c He). lia. }
  pose proof (vf_latency _ He) as Hl. rewrite !f_ltb_zero, !negb_false_iff in Hl. destruct Hl as [Hl1 Hl2].
  assert (Hp : forall p, existsb (String.eqb p) ["tcp"; "udp"; "icmp"] = true -> protocol_ok p)
    by (intros p Hp; apply existsb_eqb in Hp; rewrite !elem_of_cons in Hp; unfold protocol_ok; set_solver).
  assert (Hd : forall d, existsb (String.eqb d) ["ingress"; "egress"] = true -> direction_ok d)
    by (intros d Hd; apply existsb_eqb in Hd; rewrite !elem_of_cons in Hd; unfold direction_ok; set_solver).
  unfold flow_checks, sample_checks in Hr. rewrite !andb_true_iff in Hr. destruct Hr as (((((_ & _) & Pp) & Pd) & Psc) & _).
  unfold updateFlowRow in E. repeat (apply rbind_Ok in E; destruct E as (? & ?%bigint_add_Ok & E)).
  apply rbind_Ok in E as (rtt & E1 & E). apply rbind_Ok in E as (delay & E2 & E). injection E as <-.
  apply sample_checks_ok; cbn [fl_protocol fl_direction fl_scope fl_last_http_status]; [by auto|by auto| | | |].
  - by apply existsb_eqb.
  - repeat apply Forall_cons_2;
      [apply (Hcnt CBytesSent)|apply (Hcnt CBytesReceived)|apply (Hcnt CPackets)|apply (Hcnt CConnections)
      |apply (Hcnt CRequests)|apply (Hcnt CErrors)|apply (Hcnt CRetransmissions)|apply (Hcnt CHTTP1xx)
      |apply (Hcnt CHTTP2xx)|apply (Hcnt CHTTP3xx)|apply (Hcnt CHTTP4xx)|apply (Hcnt CHTTP5xx)|by apply Forall_nil_2].
  - repeat apply Forall_cons_2; [exact (mergeAvg_unsigned _ _ _ Hu1 Hl1 E1)|exact (mergeAvg_unsigned _ _ _ Hu2 Hl2 E2)|by apply Forall_nil_2].
  - destruct (nullIfZeroStatus _) eqn:En; [|apply Hst]. intros s [= <-]. by eapply nullIfZeroStatus_range.
Qed.

Lemma updateFlowRow_fits env e r :
  valid_flow e -> flow_checks r = true -> fits e r -> exists r', updateFlowRow env e r = Ok r'.
Proof.
  intros He Hr (Hfit & Hrtt & Hdelay). destruct (flow_checks_inv _ Hr) as (Hc & _).
  assert (Hadd : forall c, bigint_add (fl_counter c r) (ev_counter c e) = Ok (fl_counter c r + ev_counter c e)).
  { intros c. apply bigint_fits; [apply Hc|by apply valid_counter|apply Hfit]. }
  destruct (mergeAvg (fl_avg_rtt_ms r) _) as [rtt|] eqn:E1; [|done].
  destruct (mergeAvg (fl_avg_app_delay_ms r) _) as [delay|] eqn:E2; [|done].
  unfold updateFlowRow.
  let add c := (let E := fresh in pose proof (Hadd c) as E; cbn [fl_counter ev_counter] in E; rewrite E; clear E; cbn [rbind]) in
  add CBytesSent; add CBytesReceived; add CPackets; add CConnections; add CRequests; add CErrors;
  add CRetransmissions; add CHTTP1xx; add CHTTP2xx; add CHTTP3xx; add CHTTP4xx; add CHTTP5xx.
  rewrite E1, E2. by eexists.
Qed.

Lemma updateFlows_fits env e id l :
  (forall r, r ∈ l -> fl_id r = id -> exists r', updateFlowRow env e r = Ok r' /\ flow_checks r' = true) ->
  exists l', updateFlows env e id l = Ok l'.
Proof.
  induction l as [|r l IH]; intros Hl; [by exists []|]. simpl.
  destruct IH as [l' ->]; [intros x Hx; apply Hl; by right|].
  destruct (String.eqb_spec (fl_id r) id) as [E|_]; [|by eexists].
  destruct (Hl r) as (r' & -> & Hc); [by left|done|]. cbn [rbind]. rewrite Hc. by eexists.
Qed.

Lemma aggregate_progress env e s d scope src dst k db :
  (forall j, env_fault env j = None) -> flows_ok (network_flows db) (flow_observations db) ->
  valid_flow e -> scope ∈ known_scopes -> inet_in (SrcIP e) = Some src -> inet_in (DstIP e) = Some dst ->
  env_flow_id env ∉ (fl_id <$> network_flows db) ->
  (forall r, r ∈ network_flows db ->
     flow_key r = (Some s, d, src, dst, Protocol e, DstPort e, scope, Direction_ e) -> fits e r) ->
  succeeds (aggregate env e s d scope) k db.
Proof.
  intros Hf Hok He Hsc Hs Hd Hfresh Hfit. unfold aggregate.
  eapply succeeds_bind; [rewrite stmt_no_fault, (proj2 (cast_inet_Ok _ _) Hs), (proj2 (cast_inet_Ok _ _) Hd) by done; done|].
  unfold succeeds. setoid_rewrite tx_wrap_Ok.
  destruct (selectFlow _ _) as [id|] eqn:Esel; simpl.
  - apply selectFlow_Some in Esel as (l1 & r & l2 & Hl & Hk & <-).
    assert (Hin : r ∈ network_flows db) by (rewrite Hl; apply elem_of_middle; by left).
    pose proof (proj1 (Forall_forall _ _) (ok_named _ _ Hok) r Hin) as Hne.
    rewrite (proj2 (String.eqb_neq _ _) Hne). setoid_rewrite stmt_no_fault; [|done].
    destruct (updateFlows_fits env e (fl_id r) (network_flows db)) as [l' ->].
    { intros x Hx Hid. assert (x = r) as ->.
      { pose proof (ok_ids _ _ Hok) as Hnd. apply list_elem_of_lookup_1 in Hx as [i Hi], Hin as [j Hj].
        assert (i = j) as <-; [|congruence].
        eapply (NoDup_lookup _ i j (fl_id r) Hnd); rewrite list_lookup_fmap; [rewrite Hi|rewrite Hj]; simpl; congruence. }
      pose proof (proj1 (Forall_forall _ _) (ok_checks _ _ Hok) r Hin) as Hc.
      destruct (updateFlowRow_fits env e r He Hc (Hfit r Hin Hk)) as [r' Hr'].
      exists r'. split; [done|]. exact (updateFlowRow_checks env e r r' He Hc Hr'). }
    cbn [rbind]. by repeat eexists.
  - setoid_rewrite stmt_no_fault; [|done].
    rewrite (proj2 (cast_inet_Ok _ _) Hs), (proj2 (cast_inet_Ok _ _) Hd). cbn [rbind]. unfold insertFlow.
    rewrite (valid_event_checks e scope He Hsc : flow_checks (newFlowRow env e s d scope src dst) = true).
    cbn [negb]. destruct (existsb _ _) eqn:Hx; [|by repeat eexists].
    apply existsb_exists in Hx as (r & Hr & E%String.eqb_eq). destruct Hfresh. simpl in E. rewrite <- E.
    apply list_elem_of_fmap_2. by apply list_elem_of_In.
Qed.

Lemma recordDestination_progress fault scope e dst k db :
  (forall j, fault j = None) -> inet_in (DstIP e) = Some dst -> succeeds (recordDestination fault scope e) k db.
Proof.
  intros Hf Hd. unfold recordDestination, succeeds.
  destruct (_ =? _)%string; [|destruct (_ || _); [|by repeat eexists]];
    rewrite stmt_no_fault, (proj2 (cast_inet_Ok _ _) Hd) by done; by repeat eexists.
Qed.

Lemma ingestBody_progress classifier cidrs setting env e source src dst db :
  NewClassifier cidrs setting = Ok classifier ->
  (forall j, env_fault env j = None) -> flows_ok (network_flows db) (flow_observations db) ->
  valid_flow e -> sourceOfAgent (AgentID e) db = Some source ->
  inet_in (SrcIP e) = Some src -> inet_in (DstIP e) = Some dst ->
  env_flow_id env ∉ (fl_id <$> network_flows db) -> env_ob_id env ∉ (ob_id <$> flow_observations db) ->
  (forall r, r ∈ network_flows db -> fits e r) ->
  succeeds (ingestBody classifier env e) 1%nat db.
Proof.
  intros Hcl Hf Hok He Hsrc Hs Hd Hfresh Hofresh Hfit. unfold ingestBody.
  eapply succeeds_bind; [rewrite stmt_no_fault, Hsrc by done; done|]. cbn iota beta.
  pose proof (proj2 (cast_inet_Ok _ _) Hd) as Cd. pose proof (proj2 (cast_inet_Ok _ _) Hs) as Cs.
  destruct (resolveVMByIP_total (DstIP e) dst db Hd) as [dest Hdest].
  eapply succeeds_bind; [rewrite stmt_no_fault, Hdest by done; done|].
  set (scope := Scope _ _ _ _ _).
  destruct (recordDestination_progress (env_fault env) scope e dst 3 db Hf Hd) as ([] & db1 & k1 & Erec).
  eapply succeeds_bind; [exact Erec|].
  apply (recordDestination_Ok _ _ _ _ _ _ _ _ dst Hd) in Erec as (_ & _ & _ & Hfl & Hob & _ & _).
  eapply succeeds_bind; [rewrite stmt_no_fault by done; done|].
  assert (Hsc : scope ∈ known_scopes) by (by eapply Scope_known).
  rewrite <- Hfl in Hok, Hfresh, Hfit. rewrite <- Hob in Hok, Hofresh.
  destruct (aggregate_progress env e (r_ID source) (r_ID <$> dest) scope src dst (S k1) db1)
    as (id & db2 & k2 & Eagg); [done..|by auto|].
  eapply succeeds_bind; [exact Eagg|].
  apply aggregate_Ok in Eagg as (_ & _ & l' & _ & _ & -> & _); [|done].
  eapply succeeds_bind.
  { apply tx_wrap_Ok. rewrite stmt_no_fault, Cs, Cd by done. cbn [rbind]. unfold insertObservation.
    rewrite (valid_event_checks e scope He Hsc :
               observation_checks (newObservation env e id _ _ scope src dst) = true). cbn [negb].
    destruct (existsb _ _) eqn:Hx; [|done]. apply existsb_exists in Hx as (o & Ho & E%String.eqb_eq).
    destruct Hofresh. simpl in E. rewrite <- E. apply list_elem_of_fmap_2. by apply list_elem_of_In. }
  eapply succeeds_bind; [rewrite stmt_no_fault by done; done|].
  eapply succeeds_bind; [rewrite stmt_no_fault by done; done|]. by repeat eexists.
Qed.
End progress.

(** ** Theorems *)

Section theorems.
Context `{Postgres} `{UnicodeCase} {Payload : Type}.
Context (marshal : string -> Flow -> option Payload) (classifier : Classifier).

(** A sequence of requests; the flows of the accepted ones are collected. *)
Fixpoint ingestAll (calls : list (Env * FlowEvent)) (db : DB) (hub : Hub Payload)
    : list Flow * DB * Hub Payload :=
  match calls with
  | [] => ([], db, hub)
  | (env, event) :: rest =>
      let '(r, db', hub') := Ingest marshal classifier env event db hub in
      let '(flows, db'', hub'') := ingestAll rest db' hub' in
      (match r with Ok flow => flow :: flows | Err _ => flows end, db'', hub'')
  end.

(** An accepted request: its validated event and its committed effect. *)
Lemma Ingest_Ok env event db hub flow db' hub' :
  flows_ok (network_flows db) (flow_observations db) ->
  Ingest marshal classifier env event db hub = (Ok flow, db', hub') ->
  exists e id source destination scope,
    ValidateFlowEvent (env_now env) event = Ok e /\
    committed classifier env e db id source destination scope db' /\
    flow = ingestedFlow env e id source destination scope /\
    hub' = BroadcastLatest hub "flow.updated" (marshal "flow.updated" flow) (500 * Millisecond).
Proof.
  intros Hok. unfold Ingest. destruct (ValidateFlowEvent _ _) as [e|]; [|done].
  destruct (transaction _ _ db) as [[[[[id source] destination] scope]|] db1] eqn:Et; [|done].
  intros [= <- <- <-]. apply transaction_Ok in Et as [k Et].
  exists e, id, source, destination, scope. split_and!; try done. by eapply ingestBody_Ok.
Qed.

Lemma Ingest_Err env event db hub x db' hub' :
  Ingest marshal classifier env event db hub = (Err x, db', hub') -> db' = db /\ hub' = hub.
Proof.
  unfold Ingest. destruct (ValidateFlowEvent _ _) as [e|]; [|by intros [= _ <- <-]].
  destruct (transaction _ _ db) as [[[[[id source] destination] scope]|] db1] eqn:Et; [done|].
  intros [= _ <- <-]. by apply transaction_err in Et as ->.
Qed.

Lemma Ingest_keeps env event db hub r db' hub' :
  flows_ok (network_flows db) (flow_observations db) -> env_flow_id env <> "" ->
  Ingest marshal classifier env event db hub = (r, db', hub') ->
  flows_ok (network_flows db') (flow_observations db') /\
  (forall c, sumZ (fl_counter c) (network_flows db') =
     sumZ (fl_counter c) (network_flows db) + match r with Ok flow => flow_counter c flow | Err _ => 0 end).
Proof.
  intros Hok Hid E. destruct r as [flow|x].
  - apply Ingest_Ok in E as (e & id & source & destination & scope & _ & Hc & -> & _); [|done].
    split; [by eapply committed_ok|]. intros c. rewrite ingested_counter.
    destruct Hc as [_ _ _ (s & d & _ & _ & Hagg & _) _ _ _].
    eapply agg_step_total; [|exact Hagg]. by intros [].
  - apply Ingest_Err in E as [-> _]. split; [done|]. intros c. lia.
Qed.

(** Ingestion is all or nothing.  Whatever fails, the validation, any
    statement or the commit, the tables are exactly as before and nothing is
    broadcast. *)
Theorem ingest_atomic (env : Env) (event : FlowEvent) (db : DB) (hub : Hub Payload)
    (x : GoError) (db' : DB) (hub' : Hub Payload) :
  Ingest marshal classifier env event db hub = (Err x, db', hub') -> db' = db /\ hub' = hub.
Proof. apply Ingest_Err. Qed.

(** C6: the backend neither loses nor double counts traffic.  After any
    sequence of requests, failing ones included, aggregated flows are still
    unique by key, every counter of a flow is exactly the total of its
    recorded observations, and over all flows every counter has grown by
    exactly the total of the accepted events (a sum that would leave
    [BIGINT] is rejected, never wrapped). *)
Theorem ingest_conserves_counters (calls : list (Env * FlowEvent)) (db : DB) (hub : Hub Payload)
    (flows : list Flow) (db' : DB) (hub' : Hub Payload) :
  flows_ok (network_flows db) (flow_observations db) ->
  Forall (fun '(env, _) => env_flow_id env <> "") calls ->
  ingestAll calls db hub = (flows, db', hub') ->
  flows_ok (network_flows db') (flow_observations db') /\
  forall c, sumZ (fl_counter c) (network_flows db') =
            sumZ (fl_counter c) (network_flows db) + sumZ (flow_counter c) flows.
Proof.
  revert db hub flows. induction calls as [|[env event] rest IH]; intros db hub flows Hok Hids; simpl.
  - intros [= <- <- _]. split; [done|]. intros c. rewrite sumZ_nil. lia.
  - inversion_clear Hids as [|? ? Hid Hrest].
    destruct (Ingest _ _ _ _ _ _) as [[r db1] hub1] eqn:E1.
    destruct (ingestAll rest db1 hub1) as [[fs db2] hub2] eqn:E2. intros [= <- <- <-].
    apply Ingest_keeps in E1 as [Hok1 Ht1]; [|done..].
    destruct (IH db1 hub1 fs Hok1 Hrest E2) as [Hok2 Ht2]. split; [done|].
    intros c. rewrite Ht2, Ht1. destruct r; rewrite ?sumZ_cons; lia.
Qed.


(** C25: ingestion accepts every good event.  If no statement faults, the
    event passes validation, the agent is registered, PostgreSQL reads both
    addresses, the drawn identifiers are new and no aggregate leaves its
    column type, then the request succeeds: in particular no [CHECK]
    constraint of the tables ever rejects a validated event. *)
Theorem ingest_accepts (cidrs : list string) (setting : string) (env : Env) (event e : FlowEvent)
    (db : DB) (hub : Hub Payload) (source : resolvedVM) (src dst : inet) :
  NewClassifier cidrs setting = Ok classifier ->
  (forall k, env_fault env k = None) -> env_now env <> 0 ->
  flows_ok (network_flows db) (flow_observations db) ->
  ValidateFlowEvent (env_now env) event = Ok e ->
  sourceOfAgent (AgentID e) db = Some source ->
  inet_in (SrcIP e) = Some src -> inet_in (DstIP e) = Some dst ->
  env_flow_id env ∉ (fl_id <$> network_flows db) -> env_ob_id env ∉ (ob_id <$> flow_observations db) ->
  (forall r, r ∈ network_flows db -> fits e r) ->
  exists flow db' hub', Ingest marshal classifier env event db hub = (Ok flow, db', hub').
Proof.
  intros Hcl Hf Hnow Hok Hv Hsrc Hs Hd Hid Hob Hfit. unfold Ingest. rewrite Hv.
  destruct (succeeds_commit (env_fault env) (ingestBody classifier env e) db Hf) as ([[[id s] d] sc] & db' & ->);
    [|by repeat eexists].
  eapply ingestBody_progress; try done. by eapply Validate_sound.
Qed.
End theorems.

(** * Concrete requests *)

Definition quiet_env (flowID obID : string) : Env :=
  {| env_now := 5000000; env_observedAt := 5000000; env_pgnow := 5000000; env_flow_id := flowID;
     env_ob_id := obID; env_fault := fun _ => None |}.
Definition sample_classifier : Classifier :=
  {| prefixes := [Masked {| PAddr := Addr4 167772160; PBits := 8 |}]; unregisteredInternalScope := ScopeExternalPrivate |}.
Definition sample_marshal (t : string) (f : Flow) : option (string * Flow) := Some (t, f).
Definition sample_Ingest := @Ingest netip_postgres ascii_only _ sample_marshal sample_classifier.

Lemma empty_flows_ok (pg : Postgres) : flows_ok [] [].
Proof. split; try constructor. by intros r c ?%elem_of_nil. Qed.

Lemma ingest_atomic_witness :
  exists x, sample_Ingest (quiet_env "flow-1" "ob-1")
    (with_fields sample_event "nobody" "tcp" "egress" 40000 443 2 1000000 2000000) sample_db New
    = (Err x, sample_db, New).
Proof.
  set (e := with_fields _ _ _ _ _ _ _ _ _).
  destruct (sample_Ingest (quiet_env "flow-1" "ob-1") e sample_db New) as [[[f|x] db'] hub'] eqn:E.
  - exfalso. assert (F : is_ok (fst (fst (sample_Ingest (quiet_env "flow-1" "ob-1") e sample_db New))) = false)
      by (vm_compute; reflexivity). rewrite E in F. discriminate.
  - exists x. unfold sample_Ingest in E. apply ingest_atomic in E as E'. destruct E' as [-> ->]. reflexivity.
Defined.

Lemma ingest_accepts_witness :
  exists flow db' hub', sample_Ingest (quiet_env "flow-1" "ob-1") sample_event sample_db New = (Ok flow, db', hub').
Proof.
  apply (@ingest_accepts netip_postgres ascii_only _ sample_marshal sample_classifier ["10.0.0.0/8"] "external_private"
    (quiet_env "flow-1" "ob-1") sample_event sample_validated sample_db New
    {| r_ID := "vm-1"; r_Name := "web"; r_TenantID := "t"; r_AgentID := "agent-1" |}
    (Addr4 167772165) (Addr4 167772169)).
  - vm_compute. reflexivity.
  - reflexivity.
  - discriminate.
  - apply empty_flows_ok.
  - vm_compute. reflexivity.
  - reflexivity.
  - reflexivity.
  - reflexivity.
  - apply not_elem_of_nil.
  - apply not_elem_of_nil.
  - intros r Hr. exfalso. exact (not_elem_of_nil r Hr).
Defined.

Lemma sample_accepted :
  exists flow db' hub', sample_Ingest (quiet_env "flow-1" "ob-1") sample_event sample_db New = (Ok flow, db', hub') /\
    fw_BytesSent flow = 1500.
Proof.
  destruct (sample_Ingest (quiet_env "flow-1" "ob-1") sample_event sample_db New) as [[[f|x] db'] hub'] eqn:E.
  - exists f, db', hub'. split; [done|].
    assert (F : match fst (fst (sample_Ingest (quiet_env "flow-1" "ob-1") sample_event sample_db New)) with
                | Ok f => fw_BytesSent f | Err _ => 0 end = 1500) by (vm_compute; reflexivity).
    by rewrite E in F.
  - exfalso. assert (F : is_ok (fst (fst (sample_Ingest (quiet_env "flow-1" "ob-1") sample_event sample_db New))) = true)
      by (vm_compute; reflexivity). rewrite E in F. discriminate.
Qed.


Lemma ingest_conserves_counters_witness :
  exists flow db' hub', ingestAll (H := netip_postgres) (H0 := ascii_only) sample_marshal sample_classifier
    [(quiet_env "flow-1" "ob-1", sample_event)] sample_db New = ([flow], db', hub') /\
    sumZ (fl_counter CBytesSent) (network_flows db') = 1500.
Proof.
  destruct sample_accepted as (flow & db' & hub' & E & Hb). exists flow, db', hub'.
  assert (Ea : ingestAll (H := netip_postgres) (H0 := ascii_only) sample_marshal sample_classifier
    [(quiet_env "flow-1" "ob-1", sample_event)] sample_db New = ([flow], db', hub')).
  { simpl. unfold sample_Ingest in E. by rewrite E. }
  split; [exact Ea|].
  destruct (ingest_conserves_counters (H := netip_postgres) (H0 := ascii_only) sample_marshal sample_classifier
    [(quiet_env "flow-1" "ob-1", sample_event)] sample_db New [flow] db' hub') as [_ Hs].
  - apply empty_flows_ok.
  - constructor; [discriminate|constructor].
  - exact Ea.
  - rewrite (Hs CBytesSent). unfold sumZ. simpl. lia.
Defined.
