(* ===== verification/IngestLock.v ===== *)
(** Concurrent ingestion: the advisory lock of
    [backend/internal/service/flow_service.go].

    Requests run in parallel, each in its own [READ COMMITTED] transaction:
    a statement sees what has been committed before it starts.  The step
    relation below interleaves the transactions at the points where that
    matters, taking the lock, selecting the aggregate row and writing with
    the commit; a transaction may roll back at any point.  The lock is held
    until the transaction ends.  The statements are those of FlowService. *)
From S2P Require Import Prelude GoStrings GoFloat GoTime Metrics Classifier Store FlowService.
From S2P Require Graph.

#[local] Open Scope Z_scope.

Section interleaving.
Context `{Postgres}.
(** [hashtextextended($1, 0)] *)
Context {Hash : Type} (hash : string -> Hash).

Inductive Phase := Begun | Locked | Selected (found : option string).

(** A transaction after the resolution of its source and destination. *)
Record Session := {
  s_env : Env; s_event : FlowEvent; s_source : string; s_destination : option string; s_scope : string;
  s_src : inet; s_dst : inet; s_phase : Phase
}.

Definition session_key (s : Session) : AggKey :=
  (Some (s_source s), s_destination s, s_src s, s_dst s, Protocol (s_event s), DstPort (s_event s), s_scope s,
   Direction_ (s_event s)).
Definition session_lock (s : Session) : Hash :=
  hash (lockKey (s_source s) (default "" (s_destination s)) (s_scope s) (s_event s)).
Definition holds_lock (s : Session) : bool := match s_phase s with Begun => false | _ => true end.
Definition at_phase (p : Phase) (s : Session) : Session :=
  {| s_env := s_env s; s_event := s_event s; s_source := s_source s; s_destination := s_destination s;
     s_scope := s_scope s; s_src := s_src s; s_dst := s_dst s; s_phase := p |}.

Record State := { committed_flows : list FlowRow; sessions : gmap nat Session }.

(** The rows after the write of a session that found [found] and its commit. *)
Definition write (s : Session) (found : option string) (l : list FlowRow) : Result (list FlowRow) :=
  let flowID := default "" found in
  if (flowID =? "")%string then
    let row := newFlowRow (s_env s) (s_event s) (s_source s) (s_destination s) (s_scope s) (s_src s) (s_dst s) in
    guard_err (negb (flow_checks row)) as check_violation ;;
    guard_err (existsb (fun r => (fl_id r =? fl_id row)%string) l) as duplicate_key ;;
    Ok (l ++ [row])
  else updateFlows (s_env s) (s_event s) flowID l.

Inductive step (admissible : Session -> Prop) : State -> State -> Prop :=
| step_begin i s l m :
    m !! i = None -> s_phase s = Begun -> admissible s ->
    step admissible {| committed_flows := l; sessions := m |}
                    {| committed_flows := l; sessions := <[i := s]> m |}
| step_lock i s l m :
    m !! i = Some s -> s_phase s = Begun ->
    (forall j t, m !! j = Some t -> holds_lock t = true -> session_lock t <> session_lock s) ->
    step admissible {| committed_flows := l; sessions := m |}
                    {| committed_flows := l; sessions := <[i := at_phase Locked s]> m |}
| step_select i s l m :
    m !! i = Some s -> s_phase s = Locked ->
    step admissible {| committed_flows := l; sessions := m |}
                    {| committed_flows := l;
                       sessions := <[i := at_phase (Selected (selectFlow (session_key s) l)) s]> m |}
| step_commit i s found l l' m :
    m !! i = Some s -> s_phase s = Selected found -> write s found l = Ok l' ->
    step admissible {| committed_flows := l; sessions := m |}
                    {| committed_flows := l'; sessions := delete i m |}
| step_rollback i l m :
    step admissible {| committed_flows := l; sessions := m |}
                    {| committed_flows := l; sessions := delete i m |}.

Definition start (l : list FlowRow) : State := {| committed_flows := l; sessions := ∅ |}.

(** The addresses are spelled the way PostgreSQL prints them, and the drawn
    identifier is not empty. *)
Definition canonical (s : Session) : Prop :=
  SrcIP (s_event s) = host (s_src s) /\ DstIP (s_event s) = host (s_dst s) /\ env_flow_id (s_env s) <> "".

(** * Facts *)

Lemma canonical_lock s t : canonical s -> canonical t -> session_key s = session_key t -> session_lock s = session_lock t.
Proof.
  intros (Hs1 & Hs2 & _) (Ht1 & Ht2 & _) E. unfold session_key in E.
  injection E as E1 E2 E3 E4 E5 E6 E7 E8. unfold session_lock, lockKey.
  by rewrite Hs1, Hs2, Ht1, Ht2, E1, E2, E3, E4, E5, E6, E7, E8.
Qed.

Lemma at_phase_key p s : session_key (at_phase p s) = session_key s.
Proof. done. Qed.
Lemma at_phase_lock p s : session_lock (at_phase p s) = session_lock s.
Proof. done. Qed.

Record state_ok (st : State) : Prop := {
  so_ids : NoDup (fl_id <$> committed_flows st);
  so_keys : NoDup (flow_key <$> committed_flows st);
  so_named : Forall (fun r => fl_id r <> "") (committed_flows st);
  so_canonical : map_Forall (fun _ s => canonical s) (sessions st);
  so_exclusive : forall i j s t, sessions st !! i = Some s -> sessions st !! j = Some t ->
    holds_lock s = true -> holds_lock t = true -> session_lock s = session_lock t -> i = j;
  so_absent : forall i s, sessions st !! i = Some s -> s_phase s = Selected None ->
    session_key s ∉ (flow_key <$> committed_flows st);
  so_present : forall i s id, sessions st !! i = Some s -> s_phase s = Selected (Some id) -> id <> ""
}.

Lemma updateFlows_keys env e id l l' : updateFlows env e id l = Ok l' ->
  fl_id <$> l' = fl_id <$> l /\ flow_key <$> l' = flow_key <$> l.
Proof.
  revert l'. induction l as [|r l IH]; intros l'; simpl; [by intros [= <-]|].
  intros (r' & Hr & (l2 & Hl & [= <-])%rbind_Ok)%rbind_Ok. apply IH in Hl as [E1 E2].
  rewrite !fmap_cons, E1, E2. destruct (_ =? _)%string; [|by injection Hr as <-].
  apply rbind_Ok in Hr as (r2 & Hr & E). destruct (negb _); [done|]. injection E as <-.
  apply updateFlowRow_Ok in Hr as (-> & -> & _). done.
Qed.

(** The rows a commit leaves: keys as before, or one more that was absent. *)
Lemma write_keys s found l l' : write s found l = Ok l' ->
  (default "" found = "" /\ flow_key <$> l' = (flow_key <$> l) ++ [session_key s] /\
     fl_id <$> l' = (fl_id <$> l) ++ [env_flow_id (s_env s)] /\ env_flow_id (s_env s) ∉ (fl_id <$> l)) \/
  (default "" found <> "" /\ flow_key <$> l' = flow_key <$> l /\ fl_id <$> l' = fl_id <$> l).
Proof.
  unfold write. destruct (String.eqb_spec (default "" found) "") as [E|E].
  - destruct (flow_checks _); [|done]. simpl. destruct (existsb _ _) eqn:Hx; [done|]. intros [= <-].
    left. rewrite !fmap_app. split_and!; try done. intros (r & Hr & Hin)%list_elem_of_fmap.
    apply not_true_iff_false in Hx. apply Hx, existsb_exists. exists r.
    split; [by apply list_elem_of_In|]. by apply String.eqb_eq.
  - intros Hu. apply updateFlows_keys in Hu as [-> ->]. by right.
Qed.

Lemma write_new s l :
  let row := newFlowRow (s_env s) (s_event s) (s_source s) (s_destination s) (s_scope s) (s_src s) (s_dst s) in
  flow_checks row = true -> existsb (fun r => (fl_id r =? fl_id row)%string) l = false ->
  write s None l = Ok (l ++ [row]).
Proof. intros row Hc Hi. unfold write. cbn [default]. fold row. by rewrite Hc, Hi. Qed.

Lemma step_begin_ok i s l m :
  state_ok {| committed_flows := l; sessions := m |} -> s_phase s = Begun -> canonical s ->
  state_ok {| committed_flows := l; sessions := <[i := s]> m |}.
Proof.
  intros [H1 H2 H3 H4 H5 H6 H7] Hp Hc. simpl in *. split; simpl; try done.
  - by apply map_Forall_insert_2.
  - intros a b x y Hx Hy. apply lookup_insert_Some in Hx as [[<- <-]|[_ Hx]], Hy as [[<- <-]|[_ Hy]];
      unfold holds_lock; rewrite ?Hp; try done. by apply (H5 a b x y).
  - intros a x [[<- <-]|[_ Hx]]%lookup_insert_Some; [by rewrite Hp|by apply (H6 a)].
  - intros a x id [[<- <-]|[_ Hx]]%lookup_insert_Some; [by rewrite Hp|by apply (H7 a)].
Qed.

Lemma step_lock_ok i s l m :
  state_ok {| committed_flows := l; sessions := m |} -> m !! i = Some s -> s_phase s = Begun ->
  (forall j t, m !! j = Some t -> holds_lock t = true -> session_lock t <> session_lock s) ->
  state_ok {| committed_flows := l; sessions := <[i := at_phase Locked s]> m |}.
Proof.
  intros [H1 H2 H3 H4 H5 H6 H7] Hi Hp Hfree. simpl in *. split; simpl; try done.
  - apply map_Forall_insert_2; [|done]. exact (H4 i s Hi).
  - intros a b x y Hx Hy Lx Ly E. apply lookup_insert_Some in Hx as [[<- <-]|[Hai Hx]], Hy as [[<- <-]|[Hbi Hy]];
      rewrite ?at_phase_lock in E; try done; [| |by apply (H5 a b x y)].
    + destruct (Hfree b y Hy Ly). done.
    + destruct (Hfree a x Hx Lx). done.
  - intros a x [[<- <-]|[_ Hx]]%lookup_insert_Some; [done|by apply (H6 a)].
  - intros a x id [[<- <-]|[_ Hx]]%lookup_insert_Some; [done|by apply (H7 a)].
Qed.

Lemma step_select_ok i s l m :
  state_ok {| committed_flows := l; sessions := m |} -> m !! i = Some s -> s_phase s = Locked ->
  state_ok {| committed_flows := l;
              sessions := <[i := at_phase (Selected (selectFlow (session_key s) l)) s]> m |}.
Proof.
  intros [H1 H2 H3 H4 H5 H6 H7] Hi Hp. simpl in *.
  assert (Hl : holds_lock s = true) by (unfold holds_lock; by rewrite Hp). split; simpl; try done.
  - apply map_Forall_insert_2; [|done]. exact (H4 i s Hi).
  - intros a b x y Hx Hy Lx Ly E. apply lookup_insert_Some in Hx as [[<- <-]|[_ Hx]], Hy as [[<- <-]|[_ Hy]];
      rewrite ?at_phase_lock in E; try done;
      [by apply (H5 i b s y)|by apply (H5 a i x s)|by apply (H5 a b x y)].
  - intros a x [[<- <-]|[_ Hx]]%lookup_insert_Some Hsel; [|by apply (H6 a)].
    injection Hsel as Hsel. by apply selectFlow_None in Hsel.
  - intros a x id [[<- <-]|[_ Hx]]%lookup_insert_Some Hsel; [|by apply (H7 a x)].
    injection Hsel as Hsel. apply selectFlow_Some in Hsel as (l1 & r & l2 & -> & _ & <-).
    by apply Forall_middle in H3 as [? _].
Qed.

Lemma step_commit_ok i s found l l' m :
  state_ok {| committed_flows := l; sessions := m |} -> m !! i = Some s -> s_phase s = Selected found ->
  write s found l = Ok l' ->
  state_ok {| committed_flows := l'; sessions := delete i m |}.
Proof.
  intros [H1 H2 H3 H4 H5 H6 H7] Hi Hp Hw. simpl in *.
  destruct (H4 i s Hi) as (_ & _ & Hid).
  apply write_keys in Hw as [(Hnew & Ek & Ei & Hfresh)|(Hold & Ek & Ei)].
  - assert (found = None) as -> by (destruct found as [id|]; [by destruct (H7 i s id Hi Hp)|done]).
    pose proof (H6 i s Hi Hp) as Habs. split; simpl; rewrite ?Ek, ?Ei.
    + by apply NoDup_snoc.
    + by apply NoDup_snoc.
    + apply (proj1 (Forall_fmap (A:=FlowRow) fl_id (fun x => x <> "") l')). rewrite Ei. apply Forall_snoc.
      split; [by apply Forall_fmap|done].
    + by apply map_Forall_delete.
    + intros a b x y [_ Hx]%lookup_delete_Some [_ Hy]%lookup_delete_Some. by apply (H5 a b x y).
    + intros a x [Hne Hx]%lookup_delete_Some Hsel. rewrite elem_of_snoc. intros [Hin|Hk]; [by apply (H6 a x Hx Hsel)|].
      apply Hne. apply (H5 i a s x); try done; [by unfold holds_lock; rewrite Hp|by unfold holds_lock; rewrite Hsel|].
      apply canonical_lock; [by apply (H4 i)|by apply (H4 a)|done].
    + intros a x id [_ Hx]%lookup_delete_Some. by apply (H7 a).
  - split; simpl; rewrite ?Ek, ?Ei; try done.
    + apply (proj1 (Forall_fmap (A:=FlowRow) fl_id (fun x => x <> "") l')). rewrite Ei. by apply Forall_fmap.
    + by apply map_Forall_delete.
    + intros a b x y [_ Hx]%lookup_delete_Some [_ Hy]%lookup_delete_Some. by apply (H5 a b x y).
    + intros a x [_ Hx]%lookup_delete_Some. by apply (H6 a).
    + intros a x id [_ Hx]%lookup_delete_Some. by apply (H7 a).
Qed.

Lemma lock_step_ok st st' : state_ok st -> step canonical st st' -> state_ok st'.
Proof.
  intros Hok Hs. destruct Hs; [by apply step_begin_ok|by apply step_lock_ok|by apply step_select_ok
    |by eapply step_commit_ok|].
  destruct Hok as [H1 H2 H3 H4 H5 H6 H7]. split; simpl in *; try done.
  - by apply map_Forall_delete.
  - intros a b x y [_ Hx]%lookup_delete_Some [_ Hy]%lookup_delete_Some. by apply (H5 a b x y).
  - intros a x [_ Hx]%lookup_delete_Some. by apply (H6 a).
  - intros a x id [_ Hx]%lookup_delete_Some. by apply (H7 a).
Qed.
End interleaving.

(** C19: the advisory lock keeps aggregated flows unique under concurrent
    ingestion.  However the transactions of requests whose addresses are
    spelled canonically interleave, roll back or collide in the lock's hash,
    no two committed rows share an aggregation key. *)
Theorem lock_keeps_flows_unique (pg : Postgres) (Hash : Type) (hash : string -> Hash)
    (l : list FlowRow) (st : State) :
  NoDup (fl_id <$> l) -> NoDup (flow_key <$> l) -> Forall (fun r => fl_id r <> "") l ->
  rtc (step hash canonical) (start l) st ->
  NoDup (flow_key <$> committed_flows st).
Proof.
  intros Hi Hk Hn Hr. assert (Hok : state_ok hash (start l)) by (by split).
  apply (so_keys hash). revert Hok. induction Hr as [|? ? ? Hs _ IH]; [done|].
  intros Hok. apply IH. by eapply lock_step_ok.
Qed.

(** ** Spellings of an address *)

Definition spelled_event (srcIP : string) : FlowEvent :=
  {| AgentID := "agent-1"; SrcIP := srcIP; DstIP := "10.0.0.9"; SrcPort := 40000; DstPort := 443;
     Protocol := "tcp"; Direction_ := "egress"; BytesSent := 10; BytesReceived := 20; PacketCount := 2;
     ConnectionCount := 1; RequestCount := 1; ErrorCount := 0; Retransmissions := 0;
     AvgRTTMs := f_of_Z 1; AvgAppDelayMs := f_of_Z 0; HTTP1xx := 0; HTTP2xx := 0; HTTP3xx := 0;
     HTTP4xx := 0; HTTP5xx := 0; LastHTTPStatus := 0; FirstSeen := 1000000; LastSeen := 2000000;
     Interface := "eth0" |}.
Definition spelled_session (srcIP flowID obID : string) (src dst : Netip.Addr) (p : Phase)
    : @Session netip_postgres :=
  @Build_Session netip_postgres (quiet_env flowID obID) (spelled_event srcIP) "vm-1" None ScopeExternalPrivate
    src dst p.

(** The addresses are the ones PostgreSQL reads from the event. *)
Definition resolved_addresses `{Postgres} (s : Session) : Prop :=
  inet_in (SrcIP (s_event s)) = Some (s_src s) /\ inet_in (DstIP (s_event s)) = Some (s_dst s).

(** The canonical spelling is needed.  The lock key contains the
    address as the request spells it while the aggregation key contains the
    address itself, so two concurrent requests that spell one IPv6 address
    differently take different locks and may both insert a row for the same
    aggregation key. *)
Theorem spelling_defeats_lock :
  exists st : @State netip_postgres,
    rtc (@step netip_postgres string (fun k => k) resolved_addresses) (start []) st /\
    exists r1 r2, committed_flows st = [r1; r2] /\ flow_key r1 = flow_key r2.
Proof.
  set (src := Netip.Addr6 1 ""). set (dst := Netip.Addr4 167772169).
  set (a := spelled_session "::1" "flow-a" "ob-a" src dst).
  set (b := spelled_session "0::1" "flow-b" "ob-b" src dst).
  eexists. split.
  - eapply rtc_l; [apply (step_begin _ _ 0%nat (a Begun)); [done|done|by vm_compute]|].
    eapply rtc_l; [apply (step_begin _ _ 1%nat (b Begun)); [done|done|by vm_compute]|].
    eapply rtc_l; [apply (step_lock _ _ 0%nat (a Begun)); [done|done|]|].
    { intros j t Hj Ht. rewrite !lookup_insert_Some, lookup_empty in Hj.
      repeat destruct Hj as [[_ <-]|[_ Hj]]; try discriminate; vm_compute; discriminate. }
    eapply rtc_l; [apply (step_lock _ _ 1%nat (b Begun)); [done|done|]|].
    { intros j t Hj Ht. rewrite !lookup_insert_Some, lookup_empty in Hj.
      repeat destruct Hj as [[_ <-]|[_ Hj]]; try discriminate; vm_compute; discriminate. }
    eapply rtc_l; [apply (step_select _ _ 0%nat (a Locked)); [|done]|].
    { rewrite lookup_insert_ne by done. apply lookup_insert_eq. }
    eapply rtc_l; [apply (step_select _ _ 1%nat (b Locked)); [|done]|].
    { rewrite lookup_insert_ne by done. apply lookup_insert_eq. }
    eapply rtc_l; [eapply (step_commit _ _ 0%nat (a (Selected None)) None); [|done|apply write_new; vm_compute; done]|].
    { rewrite lookup_insert_ne by done. apply lookup_insert_eq. }
    eapply rtc_l; [eapply (step_commit _ _ 1%nat (b (Selected None)) None); [|done|apply write_new; vm_compute; done]|].
    { rewrite lookup_delete_ne by done. apply lookup_insert_eq. }
    apply rtc_refl.
  - do 2 eexists. split; reflexivity.
Qed.

Lemma lock_keeps_flows_unique_witness :
  exists st : @State netip_postgres,
    rtc (@step netip_postgres string (fun k => k) canonical) (start []) st /\
    length (committed_flows st) = 1%nat /\ NoDup (flow_key <$> committed_flows st).
Proof.
  set (a := spelled_session "10.0.0.5" "flow-a" "ob-a" (Netip.Addr4 167772165) (Netip.Addr4 167772169)).
  assert (Hr : exists st : @State netip_postgres,
    rtc (@step netip_postgres string (fun k => k) canonical) (start []) st /\ length (committed_flows st) = 1%nat).
  { eexists. split.
    - eapply rtc_l; [apply (step_begin _ _ 0%nat (a Begun)); [done|done|by vm_compute]|].
      eapply rtc_l; [apply (step_lock _ _ 0%nat (a Begun)); [done|done|]|].
      { intros j t Hj Ht. rewrite lookup_insert_Some, lookup_empty in Hj. by destruct Hj as [[_ <-]|[_ ?]]. }
      eapply rtc_l; [apply (step_select _ _ 0%nat (a Locked)); [apply lookup_insert_eq|done]|].
      eapply rtc_l; [eapply (step_commit _ _ 0%nat (a (Selected None)) None);
        [apply lookup_insert_eq|done|apply write_new; vm_compute; done]|].
      apply rtc_refl.
    - reflexivity. }
  destruct Hr as (st & Hr & Hl). exists st. split; [exact Hr|]. split; [exact Hl|].
  apply (lock_keeps_flows_unique netip_postgres string (fun k => k) [] st); [constructor|constructor|constructor|exact Hr].
Defined.
