(* ===== verification/FlowList.v ===== *)
(** Listings of flows: [List] and [ListInternalActivity] of
    [backend/internal/service/flow_service.go].

    A query is its [WHERE] clause as a boolean filter, its [ORDER BY] as a
    stable sort and its [LIMIT] as a prefix; rows with equal keys, whose
    order SQL leaves open, keep the table's order. *)
From S2P Require Import Prelude GoStrings GoFloat GoTime Metrics Classifier Sql Store FlowService.
From S2P Require Graph.

#[local] Open Scope Z_scope.

(** model/flow.go *)
Record InternalActivity := {
  ac_ID : string; ac_ObserverVMID : string; ac_ObserverName : string; ac_ObserverIP : string;
  ac_PeerVMID : string; ac_PeerName : string; ac_PeerIP : string;
  ac_SourceVMID : string; ac_SourceName : string; ac_SourceIP : string;
  ac_DestinationVMID : string; ac_DestinationName : string; ac_DestinationIP : string;
  ac_Protocol : string; ac_Direction : string; ac_Scope : string; ac_Service : string; ac_ServicePort : Z;
  ac_LocalPort : Z; ac_PeerPort : Z; ac_BytesSent : Z; ac_BytesReceived : Z;
  ac_ConnectionCount : Z; ac_RequestCount : Z; ac_ErrorCount : Z; ac_Retransmissions : Z;
  ac_AvgRTTMs : float64; ac_AvgAppDelayMs : float64;
  ac_RequestsPerSec : float64; ac_ConnectionsPerSec : float64;
  ac_FirstSeen : time; ac_LastSeen : time; ac_ObservedAt : time
}.

Section listings.
Context `{Postgres}.

(** ** List *)

Definition listLimit (limit : Z) : Z := if (limit <=? 0) || (2000 <? limit) then 500 else limit.

Definition scanFlow (r : FlowRow) : Flow :=
  let '(service, servicePort) := classifyService (fl_protocol r) (fl_direction r) (fl_src_port r) (fl_dst_port r) in
  {| fw_ID := fl_id r; fw_AgentID := default "" (fl_agent_id r); fw_SrcVMID := default "" (fl_src_vm_id r);
     fw_DstVMID := default "" (fl_dst_vm_id r); fw_SrcIP := host (fl_src_ip r); fw_DstIP := host (fl_dst_ip r);
     fw_SrcPort := fl_src_port r; fw_DstPort := fl_dst_port r; fw_Protocol := fl_protocol r;
     fw_Direction := fl_direction r; fw_Scope := fl_scope r; fw_Service := service; fw_ServicePort := servicePort;
     fw_BytesSent := fl_bytes_sent r; fw_BytesReceived := fl_bytes_received r; fw_Packets := fl_packets r;
     fw_ConnectionCount := fl_connection_count r; fw_RequestCount := fl_request_count r;
     fw_ErrorCount := fl_error_count r; fw_Retransmissions := fl_retransmission_count r;
     fw_AvgRTTMs := fl_avg_rtt_ms r; fw_AvgAppDelayMs := fl_avg_app_delay_ms r;
     fw_HTTP1xx := fl_http_1xx r; fw_HTTP2xx := fl_http_2xx r; fw_HTTP3xx := fl_http_3xx r;
     fw_HTTP4xx := fl_http_4xx r; fw_HTTP5xx := fl_http_5xx r;
     fw_LastHTTPStatus := default 0 (fl_last_http_status r);
     fw_RequestsPerSec := RatePerSecond (fl_request_count r) (fl_first_seen r) (fl_last_seen r);
     fw_ConnectionsPerSec := RatePerSecond (fl_connection_count r) (fl_first_seen r) (fl_last_seen r);
     fw_FirstSeen := fl_first_seen r; fw_LastSeen := fl_last_seen r; fw_ObservedAt := fl_observed_at r;
     fw_LastErrorAt := fl_last_error_at r; fw_InterfaceName := default "" (fl_interface_name r);
     fw_CreatedAt := fl_created_at r |}.

Definition List_ (limit : Z) (db : DB) : list Flow :=
  map scanFlow (take (Z.to_nat (listLimit limit)) (order_desc fl_observed_at (network_flows db))).

(** ** ListInternalActivity *)

(** The interval PostgreSQL reads from [fmt.Sprintf("%f seconds", window.Seconds())]. *)
Context (interval_in : duration -> duration).
Context (visibility : GraphVisibility).
(** Whether the driver sends a nil slice as [NULL] (pgx does). *)
Context (nil_is_null : bool).

(** The slices of the visibility settings as query arguments: [AllowedPorts]
    is built by [make] and never nil, [ExcludedPorts] and [ExcludedIPs] come
    from [mergeInts] and [mergeStrings] and are nil when empty. *)
Definition merged_arg {A} (l : list A) : option (list A) :=
  match l with [] => if nil_is_null then None else Some [] | _ => Some l end.
Definition allowedArg : option (list Z) := Some (AllowedPorts visibility).
Definition excludedArg : option (list Z) := merged_arg (ExcludedPorts visibility).
Definition excludedIPsArg : option (list string) := merged_arg (ExcludedIPs visibility).

Definition activityLimit (limit : Z) : Z := if (limit <=? 0) || (500 <? limit) then 100 else limit.
Definition activityWindow (window : duration) : duration := if window <=? 0 then 5 * Minute else window.
Definition queryLimit (limit : Z) : Z :=
  let q := limit * 20 in
  let q := if q <? 200 then 200 else q in
  if 5000 <? q then 5000 else q.

(** A row of the query: the observation and its two machines. *)
Definition joinVMs (db : DB) (o : ObservationRow) : option (ObservationRow * (string * VMRow) * (string * VMRow)) :=
  match ob_src_vm_id o, ob_dst_vm_id o with
  | Some s, Some d =>
      match vms db !! s, vms db !! d with
      | Some observer, Some peer => Some (o, (s, observer), (d, peer))
      | _, _ => None
      end
  | _, _ => None
  end.

(** The [WHERE] clause. *)
Definition activityWhere (pgnow : time) (window : duration) (o : ObservationRow) : bool :=
  ((ob_scope o =? ScopeInternalSameTenant)%string || (ob_scope o =? ScopeInternalCrossTenant)%string)
  && ((0 <? ob_request_count o) || (0 <? ob_connection_count o) || (0 <? ob_error_count o))
  && (pgnow - interval_in window <=? ob_observed_at o)
  && sql_holds (sql_or ((fun l => (length l =? 0)%nat) <$> allowedArg)
       (sql_or (sql_any Z.eqb (ob_src_port o) allowedArg) (sql_any Z.eqb (ob_dst_port o) allowedArg)))
  && sql_holds (sql_not (sql_or (sql_any Z.eqb (ob_src_port o) excludedArg) (sql_any Z.eqb (ob_dst_port o) excludedArg)))
  && sql_holds (sql_not (sql_or (sql_any String.eqb (host (ob_src_ip o)) excludedIPsArg)
                                (sql_any String.eqb (host (ob_dst_ip o)) excludedIPsArg))).

Definition activityRows (pgnow : time) (window : duration) (limit : Z) (db : DB)
    : list (ObservationRow * (string * VMRow) * (string * VMRow)) :=
  take (Z.to_nat (queryLimit limit))
    (order_desc (fun '(o, _, _) => ob_observed_at o)
       (omap (joinVMs db) (List.filter (activityWhere pgnow window) (flow_observations db)))).

(** One iteration of the loop: [None] is [continue]. *)
Definition activity (row : ObservationRow * (string * VMRow) * (string * VMRow)) : option InternalActivity :=
  let '(o, (observerID, observer), (peerID, peer)) := row in
  let observerIP := host (ob_src_ip o) in
  let peerIP := host (ob_dst_ip o) in
  let '(service, servicePort) := classifyService (ob_protocol o) (ob_direction o) (ob_src_port o) (ob_dst_port o) in
  if (observerIP =? peerIP)%string || (negb (observerID =? "")%string && (observerID =? peerID)%string) then None
  else if hiddenByGraphVisibility visibility (ob_src_port o) (ob_dst_port o) observerIP peerIP
          || hiddenByServicePort visibility servicePort then None
  else
    let observerName := Graph.valueOr (vm_name observer) observerIP in
    let peerName := Graph.valueOr (vm_name peer) peerIP in
    let flip := shouldFlipServiceResponse (ob_src_port o) (ob_dst_port o) in
    Some {| ac_ID := ob_id o; ac_ObserverVMID := observerID; ac_ObserverName := observerName;
            ac_ObserverIP := observerIP; ac_PeerVMID := peerID; ac_PeerName := peerName; ac_PeerIP := peerIP;
            ac_SourceVMID := if flip then peerID else observerID;
            ac_SourceName := if flip then peerName else observerName;
            ac_SourceIP := if flip then peerIP else observerIP;
            ac_DestinationVMID := if flip then observerID else peerID;
            ac_DestinationName := if flip then observerName else peerName;
            ac_DestinationIP := if flip then observerIP else peerIP;
            ac_Protocol := ob_protocol o; ac_Direction := ob_direction o; ac_Scope := ob_scope o;
            ac_Service := service; ac_ServicePort := servicePort;
            ac_LocalPort := ob_src_port o; ac_PeerPort := ob_dst_port o;
            ac_BytesSent := if flip then ob_bytes_received o else ob_bytes_sent o;
            ac_BytesReceived := if flip then ob_bytes_sent o else ob_bytes_received o;
            ac_ConnectionCount := ob_connection_count o; ac_RequestCount := ob_request_count o;
            ac_ErrorCount := ob_error_count o; ac_Retransmissions := ob_retransmission_count o;
            ac_AvgRTTMs := ob_avg_rtt_ms o; ac_AvgAppDelayMs := ob_avg_app_delay_ms o;
            ac_RequestsPerSec := RatePerSecond (ob_request_count o) (ob_first_seen o) (ob_last_seen o);
            ac_ConnectionsPerSec := RatePerSecond (ob_connection_count o) (ob_first_seen o) (ob_last_seen o);
            ac_FirstSeen := ob_first_seen o; ac_LastSeen := ob_last_seen o; ac_ObservedAt := ob_observed_at o |}.

(** The loop, with its [break]; [result] is what was appended so far. *)
Fixpoint activityLoop (limit : Z) (result : list InternalActivity)
    (rows : list (ObservationRow * (string * VMRow) * (string * VMRow))) : list InternalActivity :=
  match rows with
  | [] => result
  | row :: rest =>
      match activity row with
      | None => activityLoop limit result rest
      | Some a =>
          let result := result ++ [a] in
          if limit <=? Z.of_nat (length result) then result else activityLoop limit result rest
      end
  end.

Definition ListInternalActivity (pgnow : time) (limit : Z) (window : duration) (db : DB) : list InternalActivity :=
  let limit := activityLimit limit in
  activityLoop limit [] (activityRows pgnow (activityWindow window) limit db).

(** * Facts *)

(** The loop collects the first [limit] activities. *)
Lemma activityLoop_take limit result rows :
  (length result < Z.to_nat limit)%nat ->
  activityLoop limit result rows = take (Z.to_nat limit) (result ++ omap activity rows).
Proof.
  revert result. induction rows as [|row rows IH]; intros result Hlen; simpl.
  - rewrite app_nil_r, take_ge by lia. done.
  - destruct (activity row) as [a|] eqn:Ea; cbn [omap list_omap]; [|by apply IH].
    change (list_omap _ _ activity rows) with (omap activity rows).
    replace (result ++ a :: omap activity rows) with ((result ++ [a]) ++ omap activity rows)
      by (by rewrite <- app_assoc).
    destruct (Z.leb_spec limit (Z.of_nat (length (result ++ [a])))) as [Hb|Hb].
    + rewrite take_app_le by (rewrite length_app in *; cbn [length] in *; lia).
      rewrite take_ge by (rewrite length_app in *; cbn [length] in *; lia). done.
    + apply IH. rewrite length_app in *. cbn [length] in *. lia.
Qed.

Lemma activityLimit_range limit : 1 <= activityLimit limit <= 500.
Proof. unfold activityLimit. destruct (_ || _) eqn:E; bools; lia. Qed.

Lemma activity_time o v w a : activity (o, v, w) = Some a -> ac_ObservedAt a = ob_observed_at o.
Proof.
  unfold activity. destruct v as [s observer], w as [d peer], (classifyService _ _ _ _) as [n p].
  destruct (_ || _); [done|]. destruct (_ || _); [done|]. by intros [= <-].
Qed.

(** What an activity says of its observation. *)
Definition describes (a : InternalActivity) (o : ObservationRow) : Prop :=
  ac_ID a = ob_id o /\ ac_ObserverIP a = host (ob_src_ip o) /\ ac_PeerIP a = host (ob_dst_ip o) /\
  ob_src_vm_id o = Some (ac_ObserverVMID a) /\ ob_dst_vm_id o = Some (ac_PeerVMID a) /\
  ac_ObserverIP a <> ac_PeerIP a /\ (ac_ObserverVMID a <> "" -> ac_ObserverVMID a <> ac_PeerVMID a) /\
  hiddenByGraphVisibility visibility (ac_LocalPort a) (ac_PeerPort a) (ac_ObserverIP a) (ac_PeerIP a) = false /\
  hiddenByServicePort visibility (ac_ServicePort a) = false /\
  ((ac_SourceVMID a, ac_SourceIP a, ac_DestinationVMID a, ac_DestinationIP a, ac_BytesSent a, ac_BytesReceived a)
     = (ac_ObserverVMID a, ac_ObserverIP a, ac_PeerVMID a, ac_PeerIP a, ob_bytes_sent o, ob_bytes_received o) \/
   (ac_SourceVMID a, ac_SourceIP a, ac_DestinationVMID a, ac_DestinationIP a, ac_BytesSent a, ac_BytesReceived a)
     = (ac_PeerVMID a, ac_PeerIP a, ac_ObserverVMID a, ac_ObserverIP a, ob_bytes_received o, ob_bytes_sent o)).

Lemma activity_describes db o row a :
  joinVMs db o = Some row -> activity row = Some a -> describes a o.
Proof.
  unfold joinVMs. destruct (ob_src_vm_id o) as [s|] eqn:Es; [|done]. destruct (ob_dst_vm_id o) as [d|] eqn:Ed; [|done].
  destruct (vms db !! s) as [observer|]; [|done]. destruct (vms db !! d) as [peer|]; [|done]. intros [= <-].
  unfold activity, describes. destruct (classifyService _ _ _ _) as [n p].
  destruct (_ || _) eqn:E1; [done|]. destruct (hiddenByGraphVisibility _ _ _ _ _ || _) eqn:E2; [done|].
  intros [= <-]. simpl. apply orb_false_iff in E1 as [E1 E3], E2 as [E2 E4]. bools.
  rewrite Es, Ed. split_and!; try done.
  - intros Hne ->. rewrite String.eqb_refl, andb_true_r in E3. by apply negb_false_iff, String.eqb_eq in E3.
  - destruct (shouldFlipServiceResponse _ _); auto.
Qed.

(** The activity listing.  At most the requested number (100 when the
    request is out of range) of activities is returned, newest first; each
    stands for one recorded observation inside the window between two
    distinct registered machines, is not hidden by the visibility settings,
    and names the observer and the peer once each as source and destination,
    with the bytes attributed to the source; and an observation that
    qualifies is missing only when the listing is full or the query was
    cut. *)
Theorem internal_activity_spec (pgnow : time) (limit : Z) (window : duration) (db : DB) :
  let result := ListInternalActivity pgnow limit window db in
  let matching := omap (joinVMs db) (List.filter (activityWhere pgnow (activityWindow window)) (flow_observations db)) in
  Z.of_nat (length result) <= activityLimit limit /\ activityLimit limit <= 500 /\
  Sorted.StronglySorted (newer ac_ObservedAt) result /\
  (forall a, a ∈ result -> exists o, o ∈ flow_observations db /\
     activityWhere pgnow (activityWindow window) o = true /\ describes a o) /\
  (forall row a, row ∈ matching -> activity row = Some a ->
     Z.of_nat (length result) < activityLimit limit ->
     Z.of_nat (length matching) <= queryLimit (activityLimit limit) -> a ∈ result).
Proof.
  intros result matching. pose proof (activityLimit_range limit) as Hl.
  assert (E : result = take (Z.to_nat (activityLimit limit))
                (omap activity (activityRows pgnow (activityWindow window) (activityLimit limit) db))).
  { unfold result, ListInternalActivity. apply activityLoop_take. simpl. lia. }
  unfold activityRows in E. fold matching in E.
  set (sorted := order_desc _ matching) in E.
  assert (Hs : sorted ≡ₚ matching) by apply merge_sort_Permutation.
  split_and!.
  - rewrite E, length_take. lia.
  - lia.
  - rewrite E. apply sorted_take. apply (omap_sorted (newer (fun '(o, _, _) => ob_observed_at o)));
      [apply sorted_take, order_desc_sorted|].
    intros [[o1 v1] w1] [[o2 v2] w2] a b Ha Hb. unfold newer.
    by rewrite (activity_time _ _ _ _ Ha), (activity_time _ _ _ _ Hb).
  - intros a Ha. rewrite E in Ha. apply elem_of_take in Ha as (i & Ha & _).
    apply list_elem_of_lookup_2, list_elem_of_omap in Ha as (row & Hrow & Hrow').
    apply subseteq_take in Hrow. rewrite Hs in Hrow. apply list_elem_of_omap in Hrow as (o & Ho & Hj).
    apply list_elem_of_In, filter_In in Ho as [Ho Hw]. exists o.
    split_and!; [by apply list_elem_of_In|done|by eapply activity_describes].
  - intros row a Hrow Ha Hlen Hq. rewrite E, length_take in Hlen. rewrite E.
    rewrite take_ge by lia. apply list_elem_of_omap. exists row. split; [|done].
    rewrite take_ge by (rewrite Hs; lia). by rewrite Hs.
Qed.

(** An empty exclusion list hides everything.  With a driver that sends
    nil slices as [NULL], no excluded ports, or no excluded addresses, make
    the query's condition [NULL] for every row: the listing is empty whatever
    was observed, although nothing is excluded. *)
Theorem empty_exclusions_hide_all (pgnow : time) (limit : Z) (window : duration) (db : DB) :
  nil_is_null = true -> ExcludedPorts visibility = [] \/ ExcludedIPs visibility = [] ->
  ListInternalActivity pgnow limit window db = [].
Proof.
  intros Hn He. unfold ListInternalActivity, activityRows.
  assert (Hw : forall o, activityWhere pgnow (activityWindow window) o = false).
  { intros o. unfold activityWhere, excludedArg, excludedIPsArg, merged_arg. rewrite Hn.
    destruct He as [-> | ->]; simpl; by rewrite ?andb_false_r. }
  assert (E : List.filter (activityWhere pgnow (activityWindow window)) (flow_observations db) = []).
  { induction (flow_observations db) as [|o l IH]; simpl; [done|]. by rewrite Hw. }
  rewrite E. change (order_desc (fun '(o, _, _) => ob_observed_at o) (omap (joinVMs db) [])) with (@nil (ObservationRow * (string * VMRow) * (string * VMRow))).
  by rewrite take_nil.
Qed.
End listings.

Lemma empty_exclusions_witness :
  @ListInternalActivity netip_postgres (fun d => d)
    {| ExcludedPorts := []; AllowedPorts := []; ExcludedIPs := ["127.0.0.1"]; IncludeIdle := true |}
    true 0 100 0 sample_db = [].
Proof. apply empty_exclusions_hide_all; [reflexivity|left; reflexivity]. Defined.
