(* ===== verification/AgentService.v ===== *)
(** Agents on the backend: [backend/internal/service/agent_service.go].

    Registration with its resolution of a machine's identity, heartbeats, the
    status sweep and the removal of expired machines, statement by statement
    over the tables of Store. *)
From S2P Require Import Prelude GoStrings GoFloat GoTime Netip Classifier Hub Sql Store Inventory FlowService.

#[local] Open Scope Z_scope.

(** model/agent.go, model/interface.go *)
Record Interface := { IName : string; IIPAddress : string; IMACAddress : string }.

Record AgentRegistration := {
  RgAgentID : string; RgHostname : string; RgMachineID : string; RgTenantID : string; RgProjectID : string;
  RgPrivateIPs : list string; RgPublicIP : option string; RgMACAddresses : list string;
  RgInterfaces : list Interface; RgOS : string; RgKernel : string; RgAgentVersion : string; RgEnvironment : string
}.

Record RegistrationResult := { RrAgentID : string; RrVMID : string; RrStatus : string }.
Record AgentHeartbeat := { HbAgentID : string; HbStatus : string; HbTimestamp : time }.

(** The data of the events the service broadcasts. *)
Inductive Message :=
| MRegistered (result : RegistrationResult)
| MHeartbeat (heartbeat : AgentHeartbeat)
| MUpdated (updated : Z)
| MDeleted (vm_ids : list string).

Definition agentOnlineWindow : duration := Minute.
Definition agentStaleWindow : duration := 5 * Minute.

(** ** Helpers *)

Definition interfaceIPs (interfaces : list Interface) : list string := map IIPAddress interfaces.
Definition interfaceMACs (interfaces : list Interface) : list string := map IMACAddress interfaces.

(** The loop of [normalizeInterfaces] from index [i] on. *)
Fixpoint named_interfaces (i : nat) (ips macs : list string) : list Interface :=
  match ips with
  | [] => []
  | ip :: rest =>
      {| IName := "interface-" +:+ Itoa (Z.of_nat i); IIPAddress := ip; IMACAddress := default "" (macs !! i) |}
      :: named_interfaces (S i) rest macs
  end.

Definition normalizeInterfaces (reg : AgentRegistration) : list Interface :=
  match RgInterfaces reg with
  | [] => named_interfaces 0 (RgPrivateIPs reg) (RgMACAddresses reg)
  | l => l
  end.

Fixpoint firstValidIP_loop (ips : list string) : string :=
  match ips with
  | [] => ""
  | ip :: rest =>
      match ParseAddr (TrimSpace ip) with
      | Ok addr => if IsLoopback addr then firstValidIP_loop rest else AddrString addr
      | Err _ => firstValidIP_loop rest
      end
  end.
Definition firstValidIP (ips : list string) (interfaces : list Interface) : string :=
  firstValidIP_loop (ips ++ interfaceIPs interfaces).

Definition agentStatusForLastSeen (now lastSeen : time) : string :=
  let age := Sub now lastSeen in
  if age <=? agentOnlineWindow then "online" else if age <=? agentStaleWindow then "stale" else "offline".

Section service.
Context `{Postgres}.
(** [fmt.Sprintf("vm-%x", sum[:8])] of the SHA-256 digest. *)
Context (vm_digest : string -> string).

Definition stableVMID (reg : AgentRegistration) (ip mac : string) : string :=
  vm_digest (firstNonEmpty [[RgMachineID reg; RgAgentID reg; mac; RgHostname reg +:+ "|" +:+ ip]]).

(** [ORDER BY last_seen DESC LIMIT 1] over the machines that satisfy [p]. *)
Definition latestVM (p : VMRow -> bool) (db : DB) : option string :=
  fst <$> latest_by (fun '(_, v) => vm_last_seen v) (List.filter (fun '(_, v) => p v) (map_to_list (vms db))).

Definition byMachineID (machineID : string) (db : DB) : Result (option string * DB) :=
  Ok (latestVM (fun v => bool_decide (vm_machine_id v = Some machineID)) db, db).
Definition byAgentID (agentID : string) (db : DB) : Result (option string * DB) :=
  Ok (match agents db !! agentID with Some a => ag_vm_id a | None => None end, db).
Definition byMAC (mac : string) (db : DB) : Result (option string * DB) :=
  Ok (if_vm_id <$> latest_by if_updated_at
        (List.filter (fun i => bool_decide (if_mac_address i = Some mac)) (vm_interfaces db)), db).
Definition byPrivateIP (ip : string) (db : DB) : Result (option string * DB) :=
  addr <-- cast_inet ip ;;
  Ok (latestVM (fun v => bool_decide (vm_private_ip v = Some addr)) db, db).
Definition byNameAndIP (name ip : string) (db : DB) : Result (option string * DB) :=
  addr <-- cast_inet ip ;;
  Ok (latestVM (fun v => (vm_name v =? name)%string && bool_decide (vm_private_ip v = Some addr)) db, db).

Definition identityQueries (reg : AgentRegistration) (primaryIP primaryMAC : string)
    : list (DB -> Result (option string * DB)) :=
  (if (RgMachineID reg =? "")%string then [] else [byMachineID (RgMachineID reg)])
  ++ [byAgentID (RgAgentID reg)]
  ++ (if (primaryMAC =? "")%string then [] else [byMAC primaryMAC])
  ++ (if (primaryIP =? "")%string then []
      else [byPrivateIP primaryIP; byNameAndIP (RgHostname reg) primaryIP]).

(** The loop of [resolveIdentity]: the first query with a row decides. *)
Fixpoint runQueries (fault : nat -> option GoError) (queries : list (DB -> Result (option string * DB))) : Tx string :=
  match queries with
  | [] => tx_ret ""
  | query :: rest =>
      found <~ stmt fault query ;;
      match found with Some id => tx_ret id | None => runQueries fault rest end
  end.

Definition resolveIdentity (fault : nat -> option GoError) (reg : AgentRegistration)
    (primaryIP primaryMAC : string) : Tx string :=
  runQueries fault (identityQueries reg primaryIP primaryMAC).

(** ** Upserts *)

(** [COALESCE(EXCLUDED.c, t.c)] *)
Definition coalesce {A} (a b : option A) : option A := match a with Some x => Some x | None => b end.

Definition upsertVM (id : string) (row : VMRow) (pgnow : time) (m : gmap string VMRow) : gmap string VMRow :=
  match m !! id with
  | None => <[id := row]> m
  | Some v =>
      <[id := {| vm_name := vm_name row; vm_tenant_id := coalesce (vm_tenant_id row) (vm_tenant_id v);
                 vm_project_id := coalesce (vm_project_id row) (vm_project_id v);
                 vm_private_ip := coalesce (vm_private_ip row) (vm_private_ip v);
                 vm_public_ip := coalesce (vm_public_ip row) (vm_public_ip v);
                 vm_mac_address := coalesce (vm_mac_address row) (vm_mac_address v);
                 vm_host_id := coalesce (vm_host_id row) (vm_host_id v);
                 vm_role := coalesce (vm_role row) (vm_role v);
                 vm_host_type := coalesce (vm_host_type row) (vm_host_type v);
                 vm_environment := coalesce (vm_environment row) (vm_environment v);
                 vm_owner := coalesce (vm_owner row) (vm_owner v);
                 vm_region := coalesce (vm_region row) (vm_region v);
                 vm_zone := coalesce (vm_zone row) (vm_zone v);
                 vm_network_id := coalesce (vm_network_id row) (vm_network_id v);
                 vm_subnet_id := coalesce (vm_subnet_id row) (vm_subnet_id v);
                 vm_discovered_by := vm_discovered_by v; vm_agent_id := vm_agent_id row;
                 vm_machine_id := coalesce (vm_machine_id row) (vm_machine_id v);
                 vm_status := "online"; vm_first_seen := vm_first_seen v; vm_last_seen := timestamptz pgnow;
                 vm_created_at := vm_created_at v |}]> m
  end.

Definition upsertAgent (id : string) (row : AgentRow) (pgnow : time) (m : gmap string AgentRow) : gmap string AgentRow :=
  match m !! id with
  | None => <[id := row]> m
  | Some a =>
      <[id := {| ag_vm_id := ag_vm_id row; ag_hostname := ag_hostname row;
                 ag_machine_id := coalesce (ag_machine_id row) (ag_machine_id a); ag_os := ag_os row;
                 ag_kernel := ag_kernel row; ag_agent_version := ag_agent_version row;
                 ag_environment := ag_environment row;
                 ag_project_id := coalesce (ag_project_id row) (ag_project_id a);
                 ag_status := "online"; ag_first_seen := ag_first_seen a; ag_last_seen := timestamptz pgnow |}]> m
  end.

(** The unique index on interfaces treats [NULL]s as equal. *)
Definition upsertInterface (row : InterfaceRow) (l : list InterfaceRow) : list InterfaceRow :=
  let same i := (if_vm_id i =? if_vm_id row)%string && (if_name i =? if_name row)%string
                && bool_decide (if_ip_address i = if_ip_address row)
                && bool_decide (if_mac_address i = if_mac_address row) in
  if existsb same l then
    map (fun i => if same i then {| if_vm_id := if_vm_id i; if_name := if_name i; if_ip_address := if_ip_address i;
                                    if_mac_address := if_mac_address i; if_updated_at := if_updated_at row |}
                  else i) l
  else l ++ [row].

Definition with_interfaces (db : DB) (l : list InterfaceRow) : DB :=
  {| agents := agents db; vms := vms db; vm_interfaces := l; network_flows := network_flows db;
     flow_observations := flow_observations db; external_hosts := external_hosts db;
     unknown_internal_hosts := unknown_internal_hosts db; connection_probes := connection_probes db |}.

(** A nullable [inet] parameter. *)
Definition cast_inet_opt (s : string) : Result (option inet) :=
  match nullIfEmpty s with None => Ok None | Some s => a <-- cast_inet s ;; Ok (Some a) end.

(** ** resolveUnknownHost *)

Definition with_destination (r : FlowRow) (vmID scope : string) : FlowRow :=
  {| fl_id := fl_id r; fl_agent_id := fl_agent_id r; fl_src_vm_id := fl_src_vm_id r; fl_dst_vm_id := Some vmID;
     fl_src_ip := fl_src_ip r; fl_dst_ip := fl_dst_ip r; fl_src_port := fl_src_port r; fl_dst_port := fl_dst_port r;
     fl_protocol := fl_protocol r; fl_direction := fl_direction r; fl_scope := scope;
     fl_bytes_sent := fl_bytes_sent r; fl_bytes_received := fl_bytes_received r; fl_packets := fl_packets r;
     fl_connection_count := fl_connection_count r; fl_request_count := fl_request_count r;
     fl_error_count := fl_error_count r; fl_retransmission_count := fl_retransmission_count r;
     fl_avg_rtt_ms := fl_avg_rtt_ms r; fl_avg_app_delay_ms := fl_avg_app_delay_ms r;
     fl_first_seen := fl_first_seen r; fl_last_seen := fl_last_seen r; fl_observed_at := fl_observed_at r;
     fl_created_at := fl_created_at r; fl_last_error_at := fl_last_error_at r;
     fl_interface_name := fl_interface_name r; fl_http_1xx := fl_http_1xx r; fl_http_2xx := fl_http_2xx r;
     fl_http_3xx := fl_http_3xx r; fl_http_4xx := fl_http_4xx r; fl_http_5xx := fl_http_5xx r;
     fl_last_http_status := fl_last_http_status r |}.

(** One row of [UPDATE network_flows f SET ... FROM vms src WHERE ...] *)
Definition resolveFlow (m : gmap string VMRow) (vmID tenantID : string) (ip : inet) (r : FlowRow) : FlowRow :=
  match fl_src_vm_id r, fl_dst_vm_id r with
  | Some s, None =>
      match m !! s with
      | Some src =>
          if bool_decide (fl_dst_ip r = ip)
          then with_destination r vmID (if (default "" (vm_tenant_id src) =? tenantID)%string
                                        then ScopeInternalSameTenant else ScopeInternalCrossTenant)
          else r
      | None => r
      end
  | _, _ => r
  end.

Definition resolveHost (vmID : string) (pgnow : time) (ip : inet) (h : HostRow) : HostRow :=
  if bool_decide (h_ip h = ip)
  then {| h_ip := h_ip h; h_first_seen := h_first_seen h; h_last_seen := timestamptz pgnow;
          h_resolved_vm_id := Some vmID |}
  else h.

Definition resolveUnknownHost (fault : nat -> option GoError) (pgnow : time) (vmID tenantID ip : string) : Tx unit :=
  _ <~ tx_wrap "resolve unknown host: %w" []
         (stmt fault (fun db => addr <-- cast_inet ip ;;
            Ok (tt, with_unknown_internal db (map (resolveHost vmID pgnow addr) (unknown_internal_hosts db))))) ;;
  stmt fault (fun db => addr <-- cast_inet ip ;;
    Ok (tt, with_flows db (map (resolveFlow (vms db) vmID tenantID addr) (network_flows db)))).

(** ** Register *)

(** The loop over the interfaces. *)
Fixpoint registerInterfaces (fault : nat -> option GoError) (pgnow : time) (vmID tenantID : string)
    (interfaces : list Interface) : Tx unit :=
  match interfaces with
  | [] => tx_ret tt
  | iface :: rest =>
      if (IName iface =? "")%string then registerInterfaces fault pgnow vmID tenantID rest
      else
        _ <~ tx_wrap "upsert interface %s: %w" [IName iface]
               (stmt fault (fun db => addr <-- cast_inet_opt (IIPAddress iface) ;;
                  Ok (tt, with_interfaces db (upsertInterface
                       {| if_vm_id := vmID; if_name := IName iface; if_ip_address := addr;
                          if_mac_address := nullIfEmpty (IMACAddress iface); if_updated_at := timestamptz pgnow |}
                       (vm_interfaces db))))) ;;
        _ <~ (if (IIPAddress iface =? "")%string then tx_ret tt
              else resolveUnknownHost fault pgnow vmID tenantID (IIPAddress iface)) ;;
        registerInterfaces fault pgnow vmID tenantID rest
  end.

(** The fields the inventory may override. *)
Record Assignment := {
  as_name : string; as_tenant : string; as_project : string; as_environment : string; as_public : string;
  as_host : string; as_role : string; as_type : string; as_owner : string; as_region : string; as_zone : string;
  as_network : string; as_subnet : string
}.

Definition assignment (inventory : option VMInventory) (reg : AgentRegistration) (primaryIP publicIP : string)
    : Assignment :=
  let plain := {| as_name := RgHostname reg; as_tenant := RgTenantID reg; as_project := RgProjectID reg;
                  as_environment := RgEnvironment reg; as_public := publicIP; as_host := ""; as_role := "";
                  as_type := ""; as_owner := ""; as_region := ""; as_zone := ""; as_network := ""; as_subnet := "" |} in
  match inventory with
  | None => plain
  | Some i =>
      match EntryForIP i primaryIP with
      | None => plain
      | Some e =>
          {| as_name := firstNonEmpty [[Alias e]; [as_name plain]];
             as_tenant := firstNonEmpty [[TenantID e]; [as_tenant plain]];
             as_project := firstNonEmpty [[ProjectID e]; [as_project plain]];
             as_environment := firstNonEmpty [[Environment e]; [as_environment plain]];
             as_public := firstNonEmpty [[PublicIP e]; [publicIP]];
             as_host := ProviderID e; as_role := Role e; as_type := Type_ e; as_owner := Owner e;
             as_region := Region e; as_zone := Zone e; as_network := NetworkID e; as_subnet := SubnetID e |}
      end
  end.

(** The statements of [Register] between [Begin] and [Commit]. *)
Definition registerBody (fault : nat -> option GoError) (pgnow : time) (inventory : option VMInventory)
    (reg : AgentRegistration) (primaryIP primaryMAC publicIP : string) : Tx string :=
  found <~ resolveIdentity fault reg primaryIP primaryMAC ;;
  let vmID := if (found =? "")%string then stableVMID reg primaryIP primaryMAC else found in
  let a := assignment inventory reg primaryIP publicIP in
  _ <~ tx_wrap "upsert VM: %w" []
         (stmt fault (fun db =>
            private <-- cast_inet_opt primaryIP ;;
            public <-- cast_inet_opt (as_public a) ;;
            Ok (tt, with_vms db (upsertVM vmID
              {| vm_name := as_name a; vm_tenant_id := nullIfEmpty (as_tenant a);
                 vm_project_id := nullIfEmpty (as_project a); vm_private_ip := private; vm_public_ip := public;
                 vm_mac_address := nullIfEmpty primaryMAC; vm_host_id := nullIfEmpty (as_host a);
                 vm_role := nullIfEmpty (as_role a); vm_host_type := nullIfEmpty (as_type a);
                 vm_environment := nullIfEmpty (as_environment a); vm_owner := nullIfEmpty (as_owner a);
                 vm_region := nullIfEmpty (as_region a); vm_zone := nullIfEmpty (as_zone a);
                 vm_network_id := nullIfEmpty (as_network a); vm_subnet_id := nullIfEmpty (as_subnet a);
                 vm_discovered_by := "agent"; vm_agent_id := Some (RgAgentID reg);
                 vm_machine_id := nullIfEmpty (RgMachineID reg); vm_status := "online";
                 vm_first_seen := timestamptz pgnow; vm_last_seen := timestamptz pgnow;
                 vm_created_at := timestamptz pgnow |} pgnow (vms db))))) ;;
  _ <~ tx_wrap "upsert agent: %w" []
         (stmt fault (fun db =>
            Ok (tt, with_agents db (upsertAgent (RgAgentID reg)
              {| ag_vm_id := Some vmID; ag_hostname := RgHostname reg; ag_machine_id := nullIfEmpty (RgMachineID reg);
                 ag_os := nullIfEmpty (RgOS reg); ag_kernel := nullIfEmpty (RgKernel reg);
                 ag_agent_version := nullIfEmpty (RgAgentVersion reg);
                 ag_environment := nullIfEmpty (as_environment a); ag_project_id := nullIfEmpty (as_project a);
                 ag_status := "online"; ag_first_seen := timestamptz pgnow; ag_last_seen := timestamptz pgnow |}
              pgnow (agents db))))) ;;
  _ <~ registerInterfaces fault pgnow vmID (as_tenant a) (RgInterfaces reg) ;;
  _ <~ (if (primaryIP =? "")%string then tx_ret tt
        else resolveUnknownHost fault pgnow vmID (as_tenant a) primaryIP) ;;
  tx_ret vmID.

(** The registration with its first assignments: trimmed identifiers and
    normalised interfaces. *)
Definition cleaned (reg : AgentRegistration) : AgentRegistration :=
  {| RgAgentID := TrimSpace (RgAgentID reg); RgHostname := TrimSpace (RgHostname reg);
     RgMachineID := RgMachineID reg; RgTenantID := RgTenantID reg; RgProjectID := RgProjectID reg;
     RgPrivateIPs := RgPrivateIPs reg; RgPublicIP := RgPublicIP reg; RgMACAddresses := RgMACAddresses reg;
     RgInterfaces := normalizeInterfaces reg; RgOS := RgOS reg; RgKernel := RgKernel reg;
     RgAgentVersion := RgAgentVersion reg; RgEnvironment := RgEnvironment reg |}.

Definition publicIPOf (reg : AgentRegistration) : Result string :=
  match RgPublicIP reg with
  | None => Ok ""
  | Some raw =>
      let publicIP := TrimSpace raw in
      if (publicIP =? "")%string then Ok ""
      else match ParseAddr publicIP with
      | Ok _ => Ok publicIP
      | Err err => Err (ErrorfW "invalid public_ip: %w" [] err)
      end
  end.

(** ** Events *)

(** [json.Marshal] of the envelope of an event type and its data. *)
Context {Payload : Type} (marshal : string -> Message -> option Payload).

Definition Register (fault : nat -> option GoError) (pgnow : time) (inventory : option VMInventory)
    (registration : AgentRegistration) (db : DB) (hub : Hub Payload)
    : Result RegistrationResult * DB * Hub Payload :=
  let reg := cleaned registration in
  if (RgAgentID reg =? "")%string || (RgHostname reg =? "")%string
  then (Err (Errorf "agent_id and hostname are required" []), db, hub)
  else
    let primaryIP := firstValidIP (RgPrivateIPs reg) (RgInterfaces reg) in
    let primaryMAC := firstNonEmpty [RgMACAddresses reg; interfaceMACs (RgInterfaces reg)] in
    match publicIPOf reg with
    | Err e => (Err e, db, hub)
    | Ok publicIP =>
        match transaction fault (registerBody fault pgnow inventory reg primaryIP primaryMAC publicIP) db with
        | (Err e, db') => (Err e, db', hub)
        | (Ok vmID, db') =>
            let result := {| RrAgentID := RgAgentID reg; RrVMID := vmID; RrStatus := "online" |} in
            (Ok result, db', Broadcast hub (marshal "agent.registered" (MRegistered result)))
        end
    end.

(** The two statements of [Heartbeat] are separate transactions. *)
Definition Heartbeat (fault : nat -> option GoError) (now : time) (heartbeat : AgentHeartbeat)
    (db : DB) (hub : Hub Payload) : Result unit * DB * Hub Payload :=
  let agentID := HbAgentID heartbeat in
  if (agentID =? "")%string then (Err (Errorf "agent_id is required" []), db, hub)
  else match fault 0%nat with
  | Some err => (Err err, db, hub)
  | None =>
      match agents db !! agentID with
      | None => (Err (Errorf "agent %q is not registered" [agentID]), db, hub)
      | Some a =>
          let db := with_agents db (<[agentID := touchAgent now a]> (agents db)) in
          match fault 1%nat with
          | Some err => (Err err, db, hub)
          | None =>
              (Ok tt, with_vms db ((fun v => if bool_decide (vm_agent_id v = Some agentID) then touchVM now v else v)
                                   <$> vms db),
               Broadcast hub (marshal "agent.heartbeat" (MHeartbeat heartbeat)))
          end
      end
  end.

(** ** List *)

(** model/agent.go *)
Record Agent := {
  la_ID : string; la_VMID : string; la_Hostname : string; la_MachineID : string; la_OS : string; la_Kernel : string;
  la_AgentVersion : string; la_Environment : string; la_Status : string; la_FirstSeen : time; la_LastSeen : time
}.

Definition scanAgent (row : string * AgentRow) : Agent :=
  let '(id, a) := row in
  {| la_ID := id; la_VMID := default "" (ag_vm_id a); la_Hostname := ag_hostname a;
     la_MachineID := default "" (ag_machine_id a); la_OS := default "" (ag_os a);
     la_Kernel := default "" (ag_kernel a); la_AgentVersion := default "" (ag_agent_version a);
     la_Environment := default "" (ag_environment a); la_Status := ag_status a; la_FirstSeen := ag_first_seen a;
     la_LastSeen := ag_last_seen a |}.

(** [fault] is the error of the query or of its rows. *)
Definition ListAgents (fault : option GoError) (db : DB) : Result (list Agent) :=
  match fault with
  | Some err => Err err
  | None => Ok (map scanAgent (order_desc (fun row => ag_last_seen row.2) (map_to_list (agents db))))
  end.

(** ** UpdateStatuses *)

(** The [CASE] of both statements of [UpdateStatuses]. *)
Definition statusCase (pgnow last_seen : time) : string :=
  if timestamptz pgnow - sql_interval agentOnlineWindow <=? last_seen then "online"
  else if timestamptz pgnow - sql_interval agentStaleWindow <=? last_seen then "stale" else "offline".

Definition agent_with_status (status : string) (a : AgentRow) : AgentRow :=
  {| ag_vm_id := ag_vm_id a; ag_hostname := ag_hostname a; ag_machine_id := ag_machine_id a; ag_os := ag_os a;
     ag_kernel := ag_kernel a; ag_agent_version := ag_agent_version a; ag_environment := ag_environment a;
     ag_project_id := ag_project_id a; ag_status := status; ag_first_seen := ag_first_seen a;
     ag_last_seen := ag_last_seen a |}.
Definition vm_with_status (status : string) (v : VMRow) : VMRow :=
  {| vm_name := vm_name v; vm_tenant_id := vm_tenant_id v; vm_project_id := vm_project_id v;
     vm_private_ip := vm_private_ip v; vm_public_ip := vm_public_ip v; vm_mac_address := vm_mac_address v;
     vm_host_id := vm_host_id v; vm_role := vm_role v; vm_host_type := vm_host_type v;
     vm_environment := vm_environment v; vm_owner := vm_owner v; vm_region := vm_region v; vm_zone := vm_zone v;
     vm_network_id := vm_network_id v; vm_subnet_id := vm_subnet_id v; vm_discovered_by := vm_discovered_by v;
     vm_agent_id := vm_agent_id v; vm_machine_id := vm_machine_id v; vm_status := status;
     vm_first_seen := vm_first_seen v; vm_last_seen := vm_last_seen v; vm_created_at := vm_created_at v |}.

(** [UPDATE t SET ... WHERE p]: the rows and [RowsAffected]. *)
Definition update_where {A} (p : A -> bool) (f : A -> A) (m : gmap string A) : Z * gmap string A :=
  (Z.of_nat (size (filter (fun kv => p kv.2) m)), (fun x => if p x then f x else x) <$> m).

Definition updateStatusesBody (fault : nat -> option GoError) (pgnow : time) : Tx Z :=
  agentTag <~ stmt fault (fun db =>
    let '(n, m) := update_where (fun a => negb (ag_status a =? statusCase pgnow (ag_last_seen a))%string)
                     (fun a => agent_with_status (statusCase pgnow (ag_last_seen a)) a) (agents db) in
    Ok (n, with_agents db m)) ;;
  vmTag <~ stmt fault (fun db =>
    let '(n, m) := update_where (fun v => negb (vm_status v =? statusCase pgnow (vm_last_seen v))%string)
                     (fun v => vm_with_status (statusCase pgnow (vm_last_seen v)) v) (vms db) in
    Ok (n, with_vms db m)) ;;
  tx_ret (agentTag + vmTag).

Definition UpdateStatuses (fault : nat -> option GoError) (pgnow : time) (db : DB) (hub : Hub Payload)
    : Result unit * DB * Hub Payload :=
  match transaction fault (updateStatusesBody fault pgnow) db with
  | (Err err, db') => (Err err, db', hub)
  | (Ok updated, db') =>
      (Ok tt, db', if 0 <? updated then Broadcast hub (marshal "status.changed" (MUpdated updated)) else hub)
  end.

(** ** DeleteExpired *)

(** The rows of the [SELECT]: a machine once per expired agent of it.
    [lockedVM] and [lockedAgent] are the rows other transactions hold, which
    [SKIP LOCKED] passes over. *)
Definition expired (cutoff : time) (v : VMRow) (a : AgentRow) : bool :=
  (vm_discovered_by v =? "agent")%string && (Z.max (vm_last_seen v) (ag_last_seen a) <? cutoff).
Definition expiredRows (lockedVM lockedAgent : string -> bool) (cutoff : time) (db : DB) : list string :=
  omap (fun '(agentID, a) =>
    match ag_vm_id a with
    | None => None
    | Some id =>
        match vms db !! id with
        | None => None
        | Some v => if expired cutoff v a && negb (lockedVM id) && negb (lockedAgent agentID) then Some id else None
        end
    end) (map_to_list (agents db)).

(** The loop over the rows, with [seenVMs]. *)
Fixpoint collectVMs (seenVMs : gset string) (rows : list string) : list string :=
  match rows with
  | [] => []
  | id :: rest => if bool_decide (id ∈ seenVMs) then collectVMs seenVMs rest
                  else id :: collectVMs ({[ id ]} ∪ seenVMs) rest
  end.

(** [ON DELETE SET NULL] of one column. *)
Definition set_null (gone : string -> bool) (ref : option string) : option string :=
  match ref with Some id => if gone id then None else Some id | None => None end.

Definition flow_with_refs (r : FlowRow) (agent src dst : option string) : FlowRow :=
  {| fl_id := fl_id r; fl_agent_id := agent; fl_src_vm_id := src; fl_dst_vm_id := dst;
     fl_src_ip := fl_src_ip r; fl_dst_ip := fl_dst_ip r; fl_src_port := fl_src_port r; fl_dst_port := fl_dst_port r;
     fl_protocol := fl_protocol r; fl_direction := fl_direction r; fl_scope := fl_scope r;
     fl_bytes_sent := fl_bytes_sent r; fl_bytes_received := fl_bytes_received r; fl_packets := fl_packets r;
     fl_connection_count := fl_connection_count r; fl_request_count := fl_request_count r;
     fl_error_count := fl_error_count r; fl_retransmission_count := fl_retransmission_count r;
     fl_avg_rtt_ms := fl_avg_rtt_ms r; fl_avg_app_delay_ms := fl_avg_app_delay_ms r;
     fl_first_seen := fl_first_seen r; fl_last_seen := fl_last_seen r; fl_observed_at := fl_observed_at r;
     fl_created_at := fl_created_at r; fl_last_error_at := fl_last_error_at r;
     fl_interface_name := fl_interface_name r; fl_http_1xx := fl_http_1xx r; fl_http_2xx := fl_http_2xx r;
     fl_http_3xx := fl_http_3xx r; fl_http_4xx := fl_http_4xx r; fl_http_5xx := fl_http_5xx r;
     fl_last_http_status := fl_last_http_status r |}.
Definition observation_with_refs (o : ObservationRow) (agent src dst : option string) : ObservationRow :=
  {| ob_id := ob_id o; ob_flow_id := ob_flow_id o; ob_agent_id := agent; ob_src_vm_id := src; ob_dst_vm_id := dst;
     ob_src_ip := ob_src_ip o; ob_dst_ip := ob_dst_ip o; ob_src_port := ob_src_port o; ob_dst_port := ob_dst_port o;
     ob_protocol := ob_protocol o; ob_direction := ob_direction o; ob_scope := ob_scope o;
     ob_bytes_sent := ob_bytes_sent o; ob_bytes_received := ob_bytes_received o; ob_packets := ob_packets o;
     ob_connection_count := ob_connection_count o; ob_request_count := ob_request_count o;
     ob_error_count := ob_error_count o; ob_retransmission_count := ob_retransmission_count o;
     ob_avg_rtt_ms := ob_avg_rtt_ms o; ob_avg_app_delay_ms := ob_avg_app_delay_ms o;
     ob_first_seen := ob_first_seen o; ob_last_seen := ob_last_seen o; ob_observed_at := ob_observed_at o;
     ob_http_1xx := ob_http_1xx o; ob_http_2xx := ob_http_2xx o; ob_http_3xx := ob_http_3xx o;
     ob_http_4xx := ob_http_4xx o; ob_http_5xx := ob_http_5xx o; ob_last_http_status := ob_last_http_status o |}.

(** [DELETE FROM agents WHERE p]: flows and observations forget them, their
    probes go with them. *)
Definition deleteAgents (p : AgentRow -> bool) (db : DB) : DB :=
  let gone id := match agents db !! id with Some a => p a | None => false end in
  {| agents := filter (fun kv => negb (p kv.2)) (agents db); vms := vms db; vm_interfaces := vm_interfaces db;
     network_flows := map (fun r => flow_with_refs r (set_null gone (fl_agent_id r)) (fl_src_vm_id r)
                                      (fl_dst_vm_id r)) (network_flows db);
     flow_observations := map (fun o => observation_with_refs o (set_null gone (ob_agent_id o)) (ob_src_vm_id o)
                                          (ob_dst_vm_id o)) (flow_observations db);
     external_hosts := external_hosts db; unknown_internal_hosts := unknown_internal_hosts db;
     connection_probes := List.filter (fun q => negb (gone (pr_agent_id q))) (connection_probes db) |}.

(** The columns of the unique index on probes, which treats [NULL]s as
    equal. *)
Definition probe_key (q : ProbeRow) : string * string * option string * inet * string * Z :=
  (pr_agent_id q, pr_src_vm_id q, pr_dst_vm_id q, pr_dst_ip q, pr_protocol q, pr_dst_port q).

Definition without_target (q : ProbeRow) : ProbeRow :=
  {| pr_agent_id := pr_agent_id q; pr_src_vm_id := pr_src_vm_id q; pr_dst_vm_id := None; pr_src_ip := pr_src_ip q;
     pr_dst_ip := pr_dst_ip q; pr_protocol := pr_protocol q; pr_dst_port := pr_dst_port q;
     pr_source := pr_source q; pr_probe_type := pr_probe_type q; pr_success := pr_success q;
     pr_rtt_ms := pr_rtt_ms q; pr_error := pr_error q; pr_first_seen := pr_first_seen q;
     pr_last_seen := pr_last_seen q; pr_observed_at := pr_observed_at q |}.

(** The foreign-key triggers of the deletion of machine [id]: its probes go
    with it, probes of it forget it; the unique index may refuse that. *)
Definition forgetProbes (id : string) (l : list ProbeRow) : Result (list ProbeRow) :=
  let l := map (fun q => if bool_decide (pr_dst_vm_id q = Some id) then without_target q else q)
             (List.filter (fun q => negb (pr_src_vm_id q =? id)%string) l) in
  guard_err (negb (bool_decide (NoDup (probe_key <$> l)))) as duplicate_key ;; Ok l.
Fixpoint forgetAllProbes (ids : list string) (l : list ProbeRow) : Result (list ProbeRow) :=
  match ids with
  | [] => Ok l
  | id :: rest => l <-- forgetProbes id l ;; forgetAllProbes rest l
  end.

(** [DELETE FROM vms WHERE id = ANY(ids)]: interfaces and probes go with
    their machine, flows, observations, unknown hosts and probes of it forget
    it. *)
Definition deleteVMs (ids : list string) (db : DB) : Result DB :=
  let gone id := isSome (vms db !! id) && bool_decide (id ∈ ids) in
  probes <-- forgetAllProbes (List.filter gone ids) (connection_probes db) ;;
  Ok {| agents := agents db; vms := filter (fun kv => negb (bool_decide (kv.1 ∈ ids))) (vms db);
     vm_interfaces := List.filter (fun i => negb (gone (if_vm_id i))) (vm_interfaces db);
     network_flows := map (fun r => flow_with_refs r (fl_agent_id r) (set_null gone (fl_src_vm_id r))
                                      (set_null gone (fl_dst_vm_id r))) (network_flows db);
     flow_observations := map (fun o => observation_with_refs o (ob_agent_id o) (set_null gone (ob_src_vm_id o))
                                          (set_null gone (ob_dst_vm_id o))) (flow_observations db);
     external_hosts := external_hosts db;
     unknown_internal_hosts := map (fun h => {| h_ip := h_ip h; h_first_seen := h_first_seen h;
                                                h_last_seen := h_last_seen h;
                                                h_resolved_vm_id := set_null gone (h_resolved_vm_id h) |})
                                   (unknown_internal_hosts db);
     connection_probes := probes |}.

Definition deleteExpiredBody (fault : nat -> option GoError) (lockedVM lockedAgent : string -> bool)
    (pgnow : time) (deleteAfter : duration) : Tx (list string) :=
  rows <~ stmt fault (fun db =>
    Ok (expiredRows lockedVM lockedAgent (timestamptz pgnow - sql_interval deleteAfter) db, db)) ;;
  let vmIDs := collectVMs ∅ rows in
  match vmIDs with
  | [] => tx_ret []
  | _ =>
      _ <~ tx_wrap "delete expired agents: %w" []
             (stmt fault (fun db => Ok (tt, deleteAgents (fun a => match ag_vm_id a with
                                                                   | Some id => bool_decide (id ∈ vmIDs)
                                                                   | None => false end) db))) ;;
      _ <~ tx_wrap "delete expired VMs: %w" []
             (stmt fault (fun db => db' <-- deleteVMs vmIDs db ;; Ok (tt, db'))) ;;
      tx_ret vmIDs
  end.

Definition DeleteExpired (fault : nat -> option GoError) (lockedVM lockedAgent : string -> bool) (pgnow : time)
    (deleteAfter : duration) (db : DB) (hub : Hub Payload) : Result Z * DB * Hub Payload :=
  if deleteAfter <=? 0 then (Ok 0, db, hub)
  else match transaction fault (deleteExpiredBody fault lockedVM lockedAgent pgnow deleteAfter) db with
  | (Err err, db') => (Err err, db', hub)
  | (Ok [], db') => (Ok 0, db', hub)
  | (Ok vmIDs, db') =>
      (Ok (Z.of_nat (length vmIDs)), db', Broadcast hub (marshal "vm.deleted" (MDeleted vmIDs)))
  end.
End service.

(** * Facts *)

Section facts.
Context `{Postgres} (vm_digest : string -> string).
Context {Payload : Type} (marshal : string -> Message -> option Payload).

Lemma cast_inet_opt_Some s addr : s <> "" -> inet_in s = Some addr -> cast_inet_opt s = Ok (Some addr).
Proof. intros Hs Ha. unfold cast_inet_opt, nullIfEmpty. destruct (String.eqb_spec s ""); [done|]. simpl.
  unfold cast_inet. by rewrite Ha. Qed.

(** ** What a registration settles *)

(** A flow row that only gained its destination. *)
Definition settled_row (vmID : string) (r r' : FlowRow) : Prop :=
  r' = r \/ (fl_dst_vm_id r = None /\ exists scope,
    (scope = ScopeInternalSameTenant \/ scope = ScopeInternalCrossTenant) /\ r' = with_destination r vmID scope).

(** No unknown host and no flow of a known machine still waits for the
    machine at [addr]. *)
Definition settled (vmID : string) (addr : inet) (db : DB) : Prop :=
  Forall (fun h => h_ip h = addr -> h_resolved_vm_id h = Some vmID) (unknown_internal_hosts db) /\
  Forall (fun r => fl_dst_ip r = addr -> fl_dst_vm_id r = None -> forall s, fl_src_vm_id r = Some s ->
            vms db !! s = None) (network_flows db).

Definition has_interface (vmID : string) (addr : inet) (db : DB) : Prop :=
  Exists (fun i => if_vm_id i = vmID /\ if_ip_address i = Some addr) (vm_interfaces db).

#[local] Instance settled_row_preorder vmID : PreOrder (settled_row vmID).
Proof.
  split; [by left|]. intros r1 r2 r3 [->|(Hn & sc & Hsc & ->)]; [done|].
  intros [->|(Hn' & _)]; [right; eauto|done].
Qed.

Lemma resolveFlow_settles m vmID tenant ip r : settled_row vmID r (resolveFlow m vmID tenant ip r).
Proof.
  unfold resolveFlow. destruct (fl_src_vm_id r) as [s|]; [|by left]. destruct (fl_dst_vm_id r) eqn:E; [by left|].
  destruct (m !! s); [|by left]. destruct (bool_decide _); [|by left]. right. split; [done|].
  eexists. split; [|done]. destruct (_ =? _)%string; auto.
Qed.

Lemma resolveFlow_done m vmID tenant ip r s : fl_src_vm_id (resolveFlow m vmID tenant ip r) = Some s ->
  fl_dst_ip (resolveFlow m vmID tenant ip r) = ip -> fl_dst_vm_id (resolveFlow m vmID tenant ip r) = None -> m !! s = None.
Proof.
  unfold resolveFlow. destruct (fl_src_vm_id r) as [s'|] eqn:Es; [|congruence].
  destruct (fl_dst_vm_id r) eqn:E; [congruence|]. destruct (m !! s') eqn:Em; [|congruence].
  case_bool_decide; [done|]. congruence.
Qed.

(** What the loop over the interfaces and the last resolution keep:
    everything but interfaces, unknown hosts and destinations of flows. *)
Record settling (vmID : string) (db1 db : DB) : Prop := {
  st_agents : agents db = agents db1;
  st_vms : vms db = vms db1;
  st_observations : flow_observations db = flow_observations db1;
  st_external : external_hosts db = external_hosts db1;
  st_flows : Forall2 (settled_row vmID) (network_flows db1) (network_flows db);
  st_interfaces : forall id addr, has_interface id addr db1 -> has_interface id addr db;
  st_settled : forall addr, settled vmID addr db1 -> settled vmID addr db
}.

#[local] Instance settling_preorder vmID : PreOrder (settling vmID).
Proof.
  split; [by split|]. intros db1 db2 db3 [] []. split; try congruence; [by etrans|auto..].
Qed.

Lemma resolve_settling vmID tenant now ip db :
  let db' := with_flows (with_unknown_internal db (map (resolveHost vmID now ip) (unknown_internal_hosts db)))
               (map (resolveFlow (vms db) vmID tenant ip) (network_flows db)) in
  settling vmID db db' /\ settled vmID ip db'.
Proof.
  intros db'. split; [split; try done|split].
  - unfold db'; cbn [network_flows with_flows]. apply Forall2_fmap_r, Forall_Forall2_diag, Forall_true.
    intros r. apply resolveFlow_settles.
  - intros addr [Hh Hf]. unfold db'. split; cbn.
    + apply Forall_fmap. eapply Forall_impl; [exact Hh|]. intros h Hx. cbn. unfold resolveHost.
      destruct (bool_decide (h_ip h = ip)); [done|exact Hx].
    + apply Forall_fmap. eapply Forall_impl; [exact Hf|]. intros r Hx. cbn.
      destruct (resolveFlow_settles (vms db) vmID tenant ip r) as [->|(_ & sc & _ & ->)]; [done|done].
  - unfold db'; cbn. apply Forall_fmap, Forall_true. intros h. cbn. unfold resolveHost.
    case_bool_decide; [done|]. done.
  - unfold db'; cbn. apply Forall_fmap, Forall_true. intros r Hi Hn s Hs. by eapply resolveFlow_done.
Qed.

Lemma resolveUnknownHost_hoare fault now vmID tenant ip db1 :
  hoare (settling vmID db1) (resolveUnknownHost fault now vmID tenant ip)
    (fun _ db => settling vmID db1 db /\ exists addr, inet_in ip = Some addr /\ settled vmID addr db).
Proof.
  intros k db a db' k' Hs. unfold resolveUnknownHost.
  intros (? & db2 & ? & (_ & E & ->)%tx_wrap_Ok%stmt_Ok & (_ & E2 & _)%stmt_Ok)%tx_bind_Ok.
  apply rbind_Ok in E as (addr & Ha & [= _ <-]). rewrite Ha in E2. cbn [rbind] in E2. injection E2 as _ <-.
  apply cast_inet_Ok in Ha. cbn [vms network_flows with_unknown_internal].
  destruct (resolve_settling vmID tenant now addr db) as [H1 H2].
  split; [by etrans|]. eauto.
Qed.

Lemma upsertInterface_has row l addr :
  Exists (fun i => if_vm_id i = if_vm_id row /\ if_ip_address i = if_ip_address row) (upsertInterface row l) /\
  (forall id, Exists (fun i => if_vm_id i = id /\ if_ip_address i = Some addr) l ->
     Exists (fun i => if_vm_id i = id /\ if_ip_address i = Some addr) (upsertInterface row l)).
Proof.
  unfold upsertInterface. destruct (existsb _ l) eqn:E; split.
  - apply existsb_exists in E as (i & Hi & E). bools. apply Exists_exists.
    eexists. split; [apply list_elem_of_fmap; exists i; split; [reflexivity|by apply list_elem_of_In]|].
    by destruct (_ && _).
  - intros id (i & Hi & Hx)%Exists_exists. apply Exists_exists.
    eexists. split; [apply list_elem_of_fmap; exists i; split; [reflexivity|done]|]. by destruct (_ && _).
  - apply Exists_app. right. by constructor.
  - intros id Hx. apply Exists_app. by left.
Qed.

Lemma interface_settling vmID row db :
  settling vmID db (with_interfaces db (upsertInterface row (vm_interfaces db))).
Proof.
  split; try done. intros id addr. apply (upsertInterface_has row (vm_interfaces db) addr).
Qed.

(** What every registered interface with an address has at the end. *)
Definition iface_done (vmID : string) (db : DB) (iface : Interface) : Prop :=
  IName iface <> "" -> IIPAddress iface <> "" ->
  exists addr, inet_in (IIPAddress iface) = Some addr /\ has_interface vmID addr db /\ settled vmID addr db.

Lemma iface_done_settling vmID db db' iface : settling vmID db db' -> iface_done vmID db iface -> iface_done vmID db' iface.
Proof. intros [] Hd Hn Hi. destruct (Hd Hn Hi) as (addr & ? & ? & ?). exists addr. eauto. Qed.

Lemma registerInterfaces_hoare fault now vmID tenant interfaces db1 :
  hoare (settling vmID db1) (registerInterfaces fault now vmID tenant interfaces)
    (fun _ db => settling vmID db1 db /\ Forall (iface_done vmID db) interfaces).
Proof.
  revert db1. induction interfaces as [|iface rest IH]; intros db1; simpl.
  { apply hoare_ret. by intros. }
  destruct (String.eqb_spec (IName iface) "") as [En|En].
  { intros k db a db' k' Hs E. destruct (IH _ _ _ _ _ _ Hs E). split; [done|]. constructor; [by intros ?|done]. }
  intros k db a db' k' Hs (? & db2 & k2 & (_ & E & ->)%tx_wrap_Ok%stmt_Ok & E2)%tx_bind_Ok.
  apply rbind_Ok in E as (addr & Ha & [= _ <-]). set (row := Build_InterfaceRow _ _ _ _ _) in E2.
  assert (Hs2 : settling vmID db1 (with_interfaces db (upsertInterface row (vm_interfaces db)))).
  { etrans; [done|]. apply interface_settling. }
  set (db2 := with_interfaces _ _) in *.
  apply tx_bind_Ok in E2 as (? & db3 & k3 & E2 & E3).
  assert (settling vmID db1 db3 /\ iface_done vmID db3 iface) as [Hs3 Hd].
  { destruct (String.eqb_spec (IIPAddress iface) "") as [Ei|Ei].
    { injection E2 as _ <- _. split; [done|]. by intros _ ?. }
    destruct (resolveUnknownHost_hoare _ _ _ _ _ db2 _ _ _ _ _ ltac:(reflexivity) E2) as [Hs3 (ip & Hip & Hset)].
    split; [by etrans|]. intros _ _. exists ip. split_and!; [done| |done]. apply Hs3.
    rewrite (cast_inet_opt_Some _ ip) in Ha by done. injection Ha as <-.
    exact (proj1 (upsertInterface_has row (vm_interfaces db) ip)). }
  destruct (IH db3 _ _ _ _ _ ltac:(reflexivity) E3) as [Hs4 Hrest].
  split; [by etrans|]. constructor; [|done]. by eapply iface_done_settling.
Qed.

(** The rows a committed registration leaves for its agent and machine. *)
Record registered (reg : AgentRegistration) (pgnow : time) (vmID : string) (db db' : DB) (v : VMRow) : Prop := {
  rg_vm : vms db' !! vmID = Some v;
  rg_vm_agent : vm_agent_id v = Some (RgAgentID reg);
  rg_vm_status : vm_status v = "online";
  rg_vm_seen : vm_last_seen v = timestamptz pgnow;
  rg_vm_machine : RgMachineID reg <> "" -> vm_machine_id v = Some (RgMachineID reg);
  rg_vm_others : forall id, id <> vmID -> vms db' !! id = vms db !! id;
  rg_agent : exists a, agents db' !! RgAgentID reg = Some a /\ ag_vm_id a = Some vmID /\
    ag_hostname a = RgHostname reg /\ ag_status a = "online" /\ ag_last_seen a = timestamptz pgnow;
  rg_agent_others : forall id, id <> RgAgentID reg -> agents db' !! id = agents db !! id;
  rg_flows : Forall2 (settled_row vmID) (network_flows db) (network_flows db');
  rg_observations : flow_observations db' = flow_observations db;
  rg_external : external_hosts db' = external_hosts db
}.

Lemma upsertVM_spec id row now m : vm_last_seen row = timestamptz now -> vm_status row = "online" ->
  exists v, upsertVM id row now m = <[id := v]> m /\ vm_agent_id v = vm_agent_id row /\
    vm_status v = "online" /\ vm_last_seen v = timestamptz now /\
    (forall x, vm_machine_id row = Some x -> vm_machine_id v = Some x) /\
    (forall x, vm_private_ip row = Some x -> vm_private_ip v = Some x).
Proof.
  intros Hl Hs. unfold upsertVM. destruct (m !! id) as [v|]; eexists; split_and!; try done; simpl.
  - by intros x ->.
  - by intros x ->.
Qed.

Lemma upsertAgent_spec id row now m : ag_last_seen row = timestamptz now -> ag_status row = "online" ->
  exists a, upsertAgent id row now m = <[id := a]> m /\ ag_vm_id a = ag_vm_id row /\
    ag_hostname a = ag_hostname row /\ ag_status a = "online" /\ ag_last_seen a = timestamptz now.
Proof. intros Hl Hs. unfold upsertAgent. destruct (m !! id) as [v|]; eexists; by split_and!. Qed.

(** Identity resolution only reads. *)
Lemma resolveIdentity_reads fault reg ip mac db1 :
  hoare (eq db1) (resolveIdentity fault reg ip mac) (fun _ db => db = db1).
Proof.
  unfold resolveIdentity.
  assert (Hq : Forall (fun q => forall db x db', q db = Ok (x, db') -> db' = db) (identityQueries reg ip mac)).
  { unfold identityQueries. rewrite !Forall_app. split_and!; repeat case_match; repeat constructor;
      unfold byMachineID, byAgentID, byMAC, byPrivateIP, byNameAndIP; intros db x db'.
    all: try (intros (? & _ & E)%rbind_Ok; revert E). all: by intros [= _ <-]. }
  induction Hq as [|q l Hq _ IH]; simpl; [by apply hoare_ret|].
  eapply (hoare_bind _ _ _ (fun _ => eq db1)).
  - apply hoare_stmt. intros db a db' -> E. symmetry. by eapply Hq.
  - intros [id|]; [by apply hoare_ret|done].
Qed.

Lemma registerBody_hoare fault pgnow inventory reg primaryIP primaryMAC publicIP db :
  hoare (eq db) (registerBody vm_digest fault pgnow inventory reg primaryIP primaryMAC publicIP)
    (fun vmID db' => (exists v, registered reg pgnow vmID db db' v /\
       (primaryIP <> "" -> exists addr, inet_in primaryIP = Some addr /\ vm_private_ip v = Some addr /\
          settled vmID addr db')) /\
       Forall (iface_done vmID db') (RgInterfaces reg)).
Proof.
  intros k db0 vmID db' k' <-. unfold registerBody.
  intros (found & db1 & k1 & Ei & E)%tx_bind_Ok. apply (resolveIdentity_reads _ _ _ _ db) in Ei as ->; [|done].
  set (id := if (found =? "")%string then _ else _) in E. set (a := assignment _ _ _ _) in E.
  apply tx_bind_Ok in E as (? & ? & ? & (_ & Ev & ->)%tx_wrap_Ok%stmt_Ok & E).
  apply rbind_Ok in Ev as (private & Hprivate & Ev). apply rbind_Ok in Ev as (public & _ & [= _ <-]).
  set (row := Build_VMRow _ _ _ _ _ _ _ _ _ _ _ _ _ _ _ _ _ _ _ _ _ _) in E.
  destruct (upsertVM_spec id row pgnow (vms db) eq_refl eq_refl) as (v & Ev & Hva & Hvs & Hvl & Hvm & Hvp).
  apply tx_bind_Ok in E as (? & ? & ? & (_ & [= _ <-] & ->)%tx_wrap_Ok%stmt_Ok & E).
  set (arow := Build_AgentRow _ _ _ _ _ _ _ _ _ _ _) in E.
  destruct (upsertAgent_spec (RgAgentID reg) arow pgnow (agents db) eq_refl eq_refl) as (ag & Ea & Hag & Hah & Has & Hal).
  cbn [agents with_vms] in E. rewrite Ea, Ev in E. set (db2 := with_agents _ _) in E.
  apply tx_bind_Ok in E as (? & db3 & k3 & E3 & E).
  destruct (registerInterfaces_hoare _ _ _ _ _ db2 _ _ _ _ _ ltac:(reflexivity) E3) as [Hs3 Hd3].
  apply tx_bind_Ok in E as (? & db4 & k4 & E4 & [= <- <- _]).
  assert (settling id db3 db4 /\ (primaryIP <> "" -> exists addr, inet_in primaryIP = Some addr /\ settled id addr db4))
    as [Hs4 Hp].
  { destruct (String.eqb_spec primaryIP "") as [->|Hp]; [by injection E4 as _ <- _; split|].
    destruct (resolveUnknownHost_hoare _ _ _ _ _ db3 _ _ _ _ _ ltac:(reflexivity) E4) as [? ?]. by split. }
  assert (Hs : settling id db2 db4) by (by etrans). split.
  - exists v. split.
    + destruct Hs as [Sa Sv So Sx Sf _ _]. cbn [agents vms with_agents with_vms] in *.
      split; try done.
      all: rewrite ?Sa, ?Sv; cbn; try (intros; by rewrite lookup_insert_ne).
      * apply lookup_insert_eq.
      * intros Hm. apply Hvm. cbn. unfold nullIfEmpty. by destruct (String.eqb_spec (RgMachineID reg) "").
      * exists ag. rewrite lookup_insert_eq. by split_and!.
    + intros Hne. destruct (Hp Hne) as (addr & Hin & Hset). exists addr. split_and!; [done| |done].
      apply Hvp. cbn. rewrite (cast_inet_opt_Some _ addr) in Hprivate by done. by injection Hprivate as <-.
  - eapply Forall_impl; [exact Hd3|]. intros i. by apply iface_done_settling.
Qed.

(** ** Registering again *)

(** Every address the statements cast is readable. *)
Definition readable (reg : AgentRegistration) (primaryIP public : string) : Prop :=
  is_ok (cast_inet_opt primaryIP) = true /\ is_ok (cast_inet_opt public) = true /\
  Forall (fun i => IName i <> "" -> is_ok (cast_inet_opt (IIPAddress i)) = true) (RgInterfaces reg).

Lemma is_ok_spec {A} (r : Result A) : is_ok r = true <-> exists a, r = Ok a.
Proof. destruct r; split; [eauto|done|done|by intros [? [=]]]. Qed.

Lemma readable_cast ip : ip <> "" -> is_ok (cast_inet_opt ip) = true -> exists a, cast_inet ip = Ok a.
Proof.
  intros Hn [o E]%is_ok_spec. unfold cast_inet_opt, nullIfEmpty in E. destruct (String.eqb_spec ip ""); [done|].
  apply rbind_Ok in E as (a & -> & _). eauto.
Qed.

Lemma registerInterfaces_readable fault now vmID tenant interfaces k db r db' k' :
  registerInterfaces fault now vmID tenant interfaces k db = (Ok (r, db'), k') ->
  Forall (fun i => IName i <> "" -> is_ok (cast_inet_opt (IIPAddress i)) = true) interfaces.
Proof.
  revert k db. induction interfaces as [|i l IH]; intros k db; simpl; [constructor|].
  destruct (String.eqb_spec (IName i) "") as [En|En]; [constructor; [done|by eapply IH]|].
  intros (? & ? & ? & (_ & (addr & Ha & _)%rbind_Ok & _)%tx_wrap_Ok%stmt_Ok & E)%tx_bind_Ok.
  apply tx_bind_Ok in E as (? & ? & ? & _ & E). constructor; [|by eapply IH].
  intros _. apply is_ok_spec. eauto.
Qed.

(** The identifier a registration ends with, and that its addresses are
    readable. *)
Lemma registerBody_Ok fault now inventory reg ip mac public k db vmID db' k' :
  registerBody vm_digest fault now inventory reg ip mac public k db = (Ok (vmID, db'), k') ->
  (exists found, vmID = if (found =? "")%string then stableVMID vm_digest reg ip mac else found) /\
  readable reg ip (as_public (assignment inventory reg ip public)).
Proof.
  unfold registerBody. intros (found & ? & ? & _ & E)%tx_bind_Ok.
  apply tx_bind_Ok in E as (? & ? & ? & (_ & Ev & ->)%tx_wrap_Ok%stmt_Ok & E).
  apply rbind_Ok in Ev as (p & Hp & Ev). apply rbind_Ok in Ev as (q & Hq & _).
  apply tx_bind_Ok in E as (? & ? & ? & _ & E). apply tx_bind_Ok in E as (? & ? & ? & E3 & E).
  apply tx_bind_Ok in E as (? & ? & ? & _ & [= <- _ _]). split; [eauto|].
  split_and!; [apply is_ok_spec; eauto..|]. by eapply registerInterfaces_readable.
Qed.

Section no_faults.
Context (fault : nat -> option GoError) (Hfault : forall j, fault j = None).

Lemma resolveUnknownHost_progress now vmID tenant ip k db : ip <> "" -> is_ok (cast_inet_opt ip) = true ->
  succeeds (resolveUnknownHost fault now vmID tenant ip) k db.
Proof.
  intros Hn Hc. destruct (readable_cast ip Hn Hc) as [a Ha]. unfold resolveUnknownHost.
  eapply succeeds_bind; [unfold tx_wrap; by rewrite stmt_no_fault, Ha by done|].
  do 3 eexists. by rewrite stmt_no_fault, Ha by done.
Qed.

Lemma registerInterfaces_progress now vmID tenant interfaces k db :
  Forall (fun i => IName i <> "" -> is_ok (cast_inet_opt (IIPAddress i)) = true) interfaces ->
  succeeds (registerInterfaces fault now vmID tenant interfaces) k db.
Proof.
  intros Hf. revert k db. induction Hf as [|i l Hi _ IH]; intros k db; simpl; [by do 3 eexists|].
  destruct (String.eqb_spec (IName i) "") as [En|En]; [done|].
  apply Hi in En as Hc. destruct (proj1 (is_ok_spec _) Hc) as [o Ho].
  eapply succeeds_bind; [unfold tx_wrap; by rewrite stmt_no_fault, Ho by done|].
  destruct (String.eqb_spec (IIPAddress i) "") as [Ei|Ei]; [eapply succeeds_bind; [done|apply IH]|].
  edestruct (resolveUnknownHost_progress now vmID tenant (IIPAddress i)) as (? & ? & ? & E); [done..|].
  eapply succeeds_bind; [exact E|apply IH].
Qed.

Lemma registerBody_progress now inventory reg ip mac public k k1 db found :
  readable reg ip (as_public (assignment inventory reg ip public)) ->
  resolveIdentity fault reg ip mac k db = (Ok (found, db), k1) ->
  exists db' k', registerBody vm_digest fault now inventory reg ip mac public k db =
    (Ok (if (found =? "")%string then stableVMID vm_digest reg ip mac else found, db'), k').
Proof.
  intros ([p Hp]%is_ok_spec & [q Hq]%is_ok_spec & Hi) Hid. unfold registerBody.
  set (id := if (found =? "")%string then _ else _). set (a := assignment _ _ _ _) in *.
  enough (exists x db' k', registerBody vm_digest fault now inventory reg ip mac public k db = (Ok (x, db'), k'))
    as (x & db' & k' & E).
  { pose proof E as E'. unfold registerBody in E. apply tx_bind_Ok in E as (f & ? & ? & Ef & E).
    rewrite Hid in Ef. injection Ef as <- _ _.
    do 4 apply tx_bind_Ok in E as (? & ? & ? & _ & E). injection E as <- _ _. eauto. }
  unfold registerBody. eapply succeeds_bind; [exact Hid|]. fold id a.
  eapply succeeds_bind; [unfold tx_wrap; rewrite stmt_no_fault by done; by rewrite Hp, Hq|].
  eapply succeeds_bind; [unfold tx_wrap; by rewrite stmt_no_fault by done|].
  edestruct (registerInterfaces_progress now id (as_tenant a) (RgInterfaces reg)) as (? & ? & ? & E); [done|].
  eapply succeeds_bind; [exact E|].
  destruct (String.eqb_spec ip "") as [Ei|Ei]; [by do 3 eexists|].
  edestruct (resolveUnknownHost_progress now id (as_tenant a) ip) as (? & ? & ? & E2); [done|by rewrite Hp|].
  eapply succeeds_bind; [exact E2|by do 3 eexists].
Qed.

(** Without faults, identification always ends, with a machine or without. *)
Lemma runQueries_total queries k db : Forall (fun q => exists found, q db = Ok (found, db)) queries ->
  exists found k1, runQueries fault queries k db = (Ok (found, db), k1).
Proof.
  intros Hq. revert k. induction Hq as [|q l [found Hf] _ IH]; intros k; cbn [runQueries]; [by do 2 eexists|].
  unfold tx_bind. rewrite stmt_no_fault, Hf by done. destruct found as [id|]; [by do 2 eexists|apply IH].
Qed.

Lemma resolveIdentity_total reg ip mac k db : is_ok (cast_inet_opt ip) = true ->
  exists found k1, resolveIdentity fault reg ip mac k db = (Ok (found, db), k1).
Proof.
  intros Hc. apply runQueries_total. unfold identityQueries. rewrite !Forall_app. split_and!.
  - destruct (_ =? _)%string; [constructor|]. constructor; [by eexists|constructor].
  - constructor; [by eexists|constructor].
  - destruct (_ =? _)%string; [constructor|]. constructor; [by eexists|constructor].
  - destruct (String.eqb_spec ip ""); [constructor|]. destruct (readable_cast ip) as [a Ha]; [done..|].
    constructor; [|constructor; [|constructor]]; unfold byPrivateIP, byNameAndIP; rewrite Ha; by eexists.
Qed.

(** A machine that registered is found again: by its machine identifier,
    when no other machine has it and was seen since, or by its agent. *)
Lemma resolveIdentity_again reg ip mac k db vmID :
  (RgMachineID reg = "" -> exists a, agents db !! RgAgentID reg = Some a /\ ag_vm_id a = Some vmID) ->
  (RgMachineID reg <> "" -> exists v, vms db !! vmID = Some v /\ vm_machine_id v = Some (RgMachineID reg) /\
     forall id v', id <> vmID -> vms db !! id = Some v' -> vm_machine_id v' = Some (RgMachineID reg) ->
       vm_last_seen v' < vm_last_seen v) ->
  exists k1, resolveIdentity fault reg ip mac k db = (Ok (vmID, db), k1).
Proof.
  intros Ha Hv. unfold resolveIdentity, identityQueries.
  destruct (String.eqb_spec (RgMachineID reg) "") as [E|E]; cbn [app runQueries]; unfold tx_bind;
    rewrite stmt_no_fault by done.
  - destruct (Ha E) as (a & Ea & Hvm). unfold byAgentID. rewrite Ea, Hvm. by eexists.
  - destruct (Hv E) as (v & Ev & Hm & Hmax). unfold byMachineID, latestVM.
    set (l := List.filter _ _).
    assert (Hl : forall id w, (id, w) ∈ l <-> vms db !! id = Some w /\ vm_machine_id w = Some (RgMachineID reg)).
    { intros id w. unfold l. rewrite list_elem_of_In, filter_In, <- list_elem_of_In, elem_of_map_to_list.
      by rewrite bool_decide_eq_true. }
    assert (Hin : (vmID, v) ∈ l) by (by apply Hl).
    destruct (latest_by _ l) as [[id w]|] eqn:El.
    + simpl. destruct (decide (id = vmID)) as [->|Hne]; [by eexists|]. exfalso.
      pose proof (latest_by_max _ _ _ _ El Hin) as Hle. apply latest_by_elem, Hl in El as [Hw Hwm].
      specialize (Hmax _ _ Hne Hw Hwm). simpl in Hle. lia.
    + apply latest_by_None in El. rewrite El in Hin. by apply elem_of_nil in Hin.
Qed.
End no_faults.

Lemma Register_Ok fault pgnow inventory registration db hub result db' hub' :
  Register vm_digest marshal fault pgnow inventory registration db hub = (Ok result, db', hub') ->
  let reg := cleaned registration in
  let ip := firstValidIP (RgPrivateIPs reg) (RgInterfaces reg) in
  let mac := firstNonEmpty [RgMACAddresses reg; interfaceMACs (RgInterfaces reg)] in
  exists publicIP k, ((RgAgentID reg =? "")%string || (RgHostname reg =? "")%string) = false /\
    publicIPOf reg = Ok publicIP /\
    registerBody vm_digest fault pgnow inventory reg ip mac publicIP 1%nat db = (Ok (RrVMID result, db'), k) /\
    result = {| RrAgentID := RgAgentID reg; RrVMID := RrVMID result; RrStatus := "online" |} /\
    hub' = Broadcast hub (marshal "agent.registered" (MRegistered result)).
Proof.
  unfold Register. cbv zeta. destruct (_ || _); [done|]. destruct (publicIPOf _) as [publicIP|]; [|done].
  destruct (transaction _ _ db) as [[vmID|] db1] eqn:Et; [|done]. intros [= <- <- <-].
  apply transaction_Ok in Et as [k Et]. by exists publicIP, k.
Qed.

Lemma Register_Err fault pgnow inventory registration db hub e db' hub' :
  Register vm_digest marshal fault pgnow inventory registration db hub = (Err e, db', hub') -> db' = db /\ hub' = hub.
Proof.
  unfold Register. cbv zeta. destruct (_ || _); [by intros [= _ <- <-]|].
  destruct (publicIPOf _) as [publicIP|]; [|by intros [= _ <- <-]].
  destruct (transaction _ _ db) as [[vmID|] db1] eqn:Et; [done|]. intros [= _ <- <-].
  by apply transaction_err in Et as ->.
Qed.

(** The addresses a registration announces: the primary one and those of its
    named interfaces. *)
Definition announces (registration : AgentRegistration) (addr : inet) : Prop :=
  let reg := cleaned registration in
  (exists ip, ip = firstValidIP (RgPrivateIPs reg) (RgInterfaces reg) /\ ip <> "" /\ inet_in ip = Some addr) \/
  (exists i, i ∈ RgInterfaces reg /\ IName i <> "" /\ IIPAddress i <> "" /\ inet_in (IIPAddress i) = Some addr).

Lemma has_interface_vm_has_ip vmID addr db v : has_interface vmID addr db -> vm_has_ip db addr vmID v = true.
Proof.
  intros (i & Hi & Hv & Ha)%Exists_exists. unfold vm_has_ip. apply orb_true_iff. right.
  apply existsb_exists. exists i. split; [by apply list_elem_of_In|]. apply andb_true_iff.
  by rewrite Hv, String.eqb_refl, bool_decide_eq_true.
Qed.

Lemma Register_cases (fault : nat -> option GoError) (pgnow : time) (inventory : option VMInventory)
    (registration : AgentRegistration) (db : DB) (hub : Hub Payload)
    (r : Result RegistrationResult) (db' : DB) (hub' : Hub Payload) :
  Register vm_digest marshal fault pgnow inventory registration db hub = (r, db', hub') ->
  match r with
  | Err _ => db' = db /\ hub' = hub
  | Ok result =>
      let vmID := RrVMID result in
      hub' = Broadcast hub (marshal "agent.registered" (MRegistered result)) /\
      exists v, registered (cleaned registration) pgnow vmID db db' v /\
        sourceOfAgent (TrimSpace (RgAgentID registration)) db' = Some (resolved vmID v) /\
        forall addr, announces registration addr -> vm_has_ip db' addr vmID v = true /\ settled vmID addr db'
  end.
Proof.
  destruct r as [result|e]; [|apply Register_Err].
  intros (publicIP & k & _ & _ & Hbody & _ & Hhub)%Register_Ok. split; [done|].
  destruct (registerBody_hoare _ _ _ _ _ _ _ db _ _ _ _ _ eq_refl Hbody) as [(v & Hr & Hprim) Hif].
  exists v. split_and!; [done| |].
  - destruct Hr as [Hv _ _ _ _ _ (a & Ha & Hvm & _) _ _ _ _]. unfold sourceOfAgent.
    change (TrimSpace (RgAgentID registration)) with (RgAgentID (cleaned registration)).
    by rewrite Ha, Hvm, Hv.
  - intros addr [(ip & -> & Hne & Ha)|(i & Hi & Hn & Hne & Ha)].
    + destruct (Hprim Hne) as (addr' & Ha' & Hp & Hs). rewrite Ha in Ha'. injection Ha' as <-.
      split; [|done]. unfold vm_has_ip. by rewrite (bool_decide_eq_true_2 _ Hp).
    + rewrite Forall_forall in Hif. destruct (Hif i Hi Hn Hne) as (addr' & Ha' & Hh & Hs).
      rewrite Ha in Ha'. injection Ha' as <-. split; [by apply has_interface_vm_has_ip|done].
Qed.

(** A registration that was accepted once is accepted whenever no statement
    fails, whatever happened to the tables since. *)
Lemma Register_again fault1 fault2 pgnow1 pgnow2 inventory registration db1 db2 hub1 hub2 result db1' hub1' :
  Register vm_digest marshal fault1 pgnow1 inventory registration db1 hub1 = (Ok result, db1', hub1') ->
  (forall j, fault2 j = None) ->
  exists result2 db2' hub2',
    Register vm_digest marshal fault2 pgnow2 inventory registration db2 hub2 = (Ok result2, db2', hub2').
Proof.
  intros (publicIP & k & Hid & Hpub & [_ Hr]%registerBody_Ok & _ & _)%Register_Ok Hf.
  unfold Register. cbv zeta. rewrite Hid, Hpub.
  destruct (resolveIdentity_total fault2 Hf (cleaned registration) _
    (firstNonEmpty [RgMACAddresses (cleaned registration); interfaceMACs (RgInterfaces (cleaned registration))])
    1%nat db2 (proj1 Hr)) as (found & k1 & Hfound).
  destruct (registerBody_progress fault2 Hf pgnow2 inventory _ _ _ publicIP _ _ _ _ Hr Hfound) as (db' & k' & E).
  unfold transaction. rewrite Hf, E, Hf. by do 3 eexists.
Qed.



End facts.

(** ** Probes of removed machines *)

Section probes.
Context `{Postgres}.

(** The probes without the machines [ids]: those they sent are gone, those
    to them have no target. *)
Definition target_gone (ids : list string) (q : ProbeRow) : bool :=
  match pr_dst_vm_id q with Some id => bool_decide (id ∈ ids) | None => false end.
Definition forgotten (ids : list string) (l : list ProbeRow) : list ProbeRow :=
  map (fun q => if target_gone ids q then without_target q else q)
    (List.filter (fun q => negb (bool_decide (pr_src_vm_id q ∈ ids))) l).

Lemma target_gone_nil q : (if target_gone [] q then without_target q else q) = q.
Proof.
  unfold target_gone. destruct (pr_dst_vm_id q); [|done]. rewrite bool_decide_eq_false_2; [done|apply not_elem_of_nil].
Qed.

Lemma forgotten_nil l : forgotten [] l = l.
Proof.
  unfold forgotten. rewrite (map_ext _ id) by apply target_gone_nil. rewrite map_id. apply forallb_filter_id, forallb_forall.
  intros q _. rewrite bool_decide_eq_false_2; [done|apply not_elem_of_nil].
Qed.

Lemma forgotten_cons id ids l :
  forgotten ids (map (fun q => if bool_decide (pr_dst_vm_id q = Some id) then without_target q else q)
                   (List.filter (fun q => negb (pr_src_vm_id q =? id)%string) l)) = forgotten (id :: ids) l.
Proof.
  unfold forgotten. induction l as [|q l IH]; [done|]. cbn [List.filter].
  rewrite (bool_decide_ext (pr_src_vm_id q ∈ id :: ids) (pr_src_vm_id q = id \/ pr_src_vm_id q ∈ ids)) by apply elem_of_cons.
  destruct (String.eqb_spec (pr_src_vm_id q) id) as [E|E]; cbn [negb].
  - rewrite bool_decide_eq_true_2 by (by left). cbn [negb]. exact IH.
  - rewrite (bool_decide_ext (pr_src_vm_id q = id \/ pr_src_vm_id q ∈ ids) (pr_src_vm_id q ∈ ids)) by tauto.
    assert (Hs : pr_src_vm_id (if bool_decide (pr_dst_vm_id q = Some id) then without_target q else q) = pr_src_vm_id q)
      by (by case_bool_decide).
    cbn [map List.filter]. rewrite Hs. destruct (bool_decide (pr_src_vm_id q ∈ ids)); cbn [negb]; [exact IH|].
    cbn [map]. f_equal; [|exact IH]. unfold target_gone.
    case_bool_decide as Ed; [rewrite Ed; cbn; by rewrite bool_decide_eq_true_2 by (by left)|].
    destruct (pr_dst_vm_id q) as [d|]; [|done].
    rewrite (bool_decide_ext (d ∈ id :: ids) (d ∈ ids)); [done|]. rewrite elem_of_cons. split; [|by right].
    intros [->|?]; [done|done].
Qed.

Lemma forgetAllProbes_Ok ids l l' : forgetAllProbes ids l = Ok l' -> l' = forgotten ids l.
Proof.
  revert l. induction ids as [|id ids IH]; intros l; simpl.
  - intros [= <-]. by rewrite forgotten_nil.
  - intros (l1 & E & ->%IH)%rbind_Ok. unfold forgetProbes in E. destruct (negb _); [done|]. injection E as <-.
    apply forgotten_cons.
Qed.
End probes.

(** ** Status sweep *)

Section sweeps.
Context `{Postgres} {Payload : Type} (marshal : string -> Message -> option Payload).

Lemma statusCase_spec now last_seen :
  statusCase now last_seen = agentStatusForLastSeen (timestamptz now) last_seen.
Proof.
  unfold statusCase, agentStatusForLastSeen.
  assert (sql_interval agentOnlineWindow = agentOnlineWindow) as -> by (vm_compute; reflexivity).
  assert (sql_interval agentStaleWindow = agentStaleWindow) as -> by (vm_compute; reflexivity).
  set (t := timestamptz now). unfold Sub, agentOnlineWindow, agentStaleWindow, Minute, Second.
  destruct (Z.ltb_spec (t - last_seen) (- 2 ^ 63)), (Z.ltb_spec (2 ^ 63 - 1) (t - last_seen));
    repeat (case_match; bools; try done; try lia).
Qed.

(** The rows with the status their last sign of life calls for. *)
Definition swept_agent (now : time) (a : AgentRow) : AgentRow :=
  agent_with_status (agentStatusForLastSeen (timestamptz now) (ag_last_seen a)) a.
Definition swept_vm (now : time) (v : VMRow) : VMRow :=
  vm_with_status (agentStatusForLastSeen (timestamptz now) (vm_last_seen v)) v.

Definition agent_stale (now : time) (a : AgentRow) : bool :=
  negb (ag_status a =? statusCase now (ag_last_seen a))%string.
Definition vm_stale (now : time) (v : VMRow) : bool :=
  negb (vm_status v =? statusCase now (vm_last_seen v))%string.

Lemma swept_agent_fix now a : agent_stale now a = false -> swept_agent now a = a.
Proof.
  unfold agent_stale, swept_agent. rewrite statusCase_spec. intros E. bools. rewrite <- E. by destruct a.
Qed.
Lemma swept_vm_fix now v : vm_stale now v = false -> swept_vm now v = v.
Proof. unfold vm_stale, swept_vm. rewrite statusCase_spec. intros E. bools. rewrite <- E. by destruct v. Qed.

(** The sweep of a whole database, and the number of rows it changes. *)
Definition swept (now : time) (db : DB) : DB :=
  with_vms (with_agents db (swept_agent now <$> agents db)) (swept_vm now <$> vms db).
Definition changed_rows (now : time) (db : DB) : Z :=
  Z.of_nat (size (filter (fun kv => agent_stale now kv.2) (agents db)))
  + Z.of_nat (size (filter (fun kv => vm_stale now kv.2) (vms db))).

Lemma updateStatusesBody_Ok fault now k db n db' k' :
  updateStatusesBody fault now k db = (Ok (n, db'), k') -> n = changed_rows now db /\ db' = swept now db.
Proof.
  unfold updateStatusesBody.
  intros (na & db1 & ? & (_ & E1 & ->)%stmt_Ok & (nv & db2 & ? & (_ & E2 & ->)%stmt_Ok & [= <- <- _])%tx_bind_Ok)%tx_bind_Ok.
  injection E1 as <- <-. cbn [vms with_agents] in E2. injection E2 as <- <-. split; [done|].
  unfold swept. f_equal; [f_equal|]; apply map_fmap_ext; intros i x _.
  - destruct (negb _) eqn:E; [|by rewrite swept_agent_fix]. unfold swept_agent. by rewrite <- statusCase_spec.
  - destruct (negb _) eqn:E; [|by rewrite swept_vm_fix]. unfold swept_vm. by rewrite <- statusCase_spec.
Qed.

Lemma update_where_none {A} (p : A -> bool) (m : gmap string A) :
  (forall i x, m !! i = Some x -> p x = false) -> size (filter (fun kv => p kv.2) m) = 0%nat.
Proof.
  intros Hp. rewrite (proj2 (map_empty_filter _ _)); [done|]. intros i x Hx. simpl. rewrite (Hp i x Hx). by intros [].
Qed.

Lemma swept_twice now db : swept now (swept now db) = swept now db /\ changed_rows now (swept now db) = 0.
Proof.
  assert (Ha : forall a, agent_stale now (swept_agent now a) = false).
  { intros a. unfold agent_stale. rewrite statusCase_spec. simpl. by rewrite String.eqb_refl. }
  assert (Hv : forall v, vm_stale now (swept_vm now v) = false).
  { intros v. unfold vm_stale. rewrite statusCase_spec. simpl. by rewrite String.eqb_refl. }
  split.
  - unfold swept, with_vms, with_agents. cbn. f_equal; rewrite <- map_fmap_compose; apply map_fmap_ext; intros i x _.
    + apply swept_agent_fix, Ha.
    + apply swept_vm_fix, Hv.
  - unfold changed_rows, swept. cbn. rewrite !update_where_none; [done|..].
    all: intros i x; rewrite lookup_fmap; intros (y & _ & ->)%fmap_Some; auto.
Qed.

Lemma UpdateStatuses_Ok fault now db hub x db' hub' :
  UpdateStatuses marshal fault now db hub = (Ok x, db', hub') -> db' = swept now db.
Proof.
  unfold UpdateStatuses. destruct (transaction _ _ db) as [[n|e] db1] eqn:Et; [|done]. intros [= _ <- _].
  by apply transaction_Ok in Et as [k [_ ->]%updateStatusesBody_Ok].
Qed.

(** C30: the two [UPDATE]s of the status sweep implement
    [agentStatusForLastSeen]: a sweep that succeeds gives every agent and
    machine the status this function computes from its last sign of life at
    the transaction's time, changes nothing else, and tells the clients the
    number of rows changed, if any; one that fails changes nothing; without
    a fault it succeeds; and a further sweep at the same time changes and
    broadcasts nothing. *)
Theorem statuses_spec (fault : nat -> option GoError) (pgnow : time) (db : DB) (hub : Hub Payload)
    (r : Result unit) (db' : DB) (hub' : Hub Payload) :
  UpdateStatuses marshal fault pgnow db hub = (r, db', hub') ->
  ((forall j, fault j = None) -> r = Ok tt) /\
  match r with
  | Err _ => db' = db /\ hub' = hub
  | Ok _ =>
      db' = swept pgnow db /\
      hub' = (if 0 <? changed_rows pgnow db
              then Broadcast hub (marshal "status.changed" (MUpdated (changed_rows pgnow db))) else hub) /\
      forall hub2, UpdateStatuses marshal (fun _ => None) pgnow db' hub2 = (Ok tt, db', hub2)
  end.
Proof.
  intros E. split.
  { intros Hf. revert E. unfold UpdateStatuses, transaction, updateStatusesBody, tx_bind.
    rewrite Hf, !stmt_no_fault by done. cbn. rewrite !stmt_no_fault by done. cbn. rewrite Hf. by intros [= <- _ _]. }
  revert E. unfold UpdateStatuses at 1. destruct (transaction _ _ db) as [[n|e] db1] eqn:Et.
  - intros [= <- <- <-]. apply transaction_Ok in Et as [k [-> ->]%updateStatusesBody_Ok]. split_and!; [done|done|].
    intros hub2. unfold UpdateStatuses. destruct (transaction _ _ (swept pgnow db)) as [[n|e] db2] eqn:Et.
    + apply transaction_Ok in Et as [k' [-> ->]%updateStatusesBody_Ok].
      destruct (swept_twice pgnow db) as [-> ->]. done.
    + done.
  - intros [= <- <- <-]. by apply transaction_err in Et as ->.
Qed.

(** ** Removal of expired machines *)

Lemma collectVMs_spec seen rows :
  NoDup (collectVMs seen rows) /\ (forall id, id ∈ collectVMs seen rows <-> id ∈ rows /\ id ∉ seen).
Proof.
  revert seen. induction rows as [|x rows IH]; intros seen; simpl.
  { split; [constructor|]. intros id. split; [by intros ?%elem_of_nil|by intros [?%elem_of_nil _]]. }
  case_bool_decide as Hx.
  - destruct (IH seen) as [Hn He]. split; [done|]. intros id. rewrite He, elem_of_cons. split; [tauto|].
    by intros [[->|?] ?].
  - destruct (IH ({[ x ]} ∪ seen)) as [Hn He]. split.
    + constructor; [|done]. rewrite He. set_solver.
    + intros id. rewrite !elem_of_cons, He. destruct (decide (id = x)) as [->|]; set_solver.
Qed.

(** A machine the sweep may remove at [cutoff]. *)
Definition removable (lockedVM lockedAgent : string -> bool) (cutoff : time) (db : DB) (id : string) : Prop :=
  exists v agentID a, vms db !! id = Some v /\ agents db !! agentID = Some a /\ ag_vm_id a = Some id /\
    vm_discovered_by v = "agent" /\ vm_last_seen v < cutoff /\ ag_last_seen a < cutoff /\
    lockedVM id = false /\ lockedAgent agentID = false.

Lemma expiredRows_spec lv la cutoff db id :
  id ∈ expiredRows lv la cutoff db <-> removable lv la cutoff db id.
Proof.
  unfold expiredRows, removable, expired. rewrite list_elem_of_omap. split.
  - intros ([agentID a] & Ha%elem_of_map_to_list & E). destruct (ag_vm_id a) as [x|] eqn:Ex; [|done].
    destruct (vms db !! x) as [v|] eqn:Ev; [|done]. destruct (_ && _) eqn:Ec; [|done]. injection E as ->.
    bools. exists v, agentID, a. split_and!; try done; lia.
  - intros (v & agentID & a & Hv & Ha & Hx & Hd & Hs & Hl & Hlv & Hla). exists (agentID, a).
    split; [by apply elem_of_map_to_list|]. rewrite Hx, Hv, Hd, Hlv, Hla. simpl.
    rewrite (proj2 (Z.ltb_lt _ _)); [done|]. lia.
Qed.

(** The tables without the machines [ids]. *)
Definition agent_of (ids : list string) (a : AgentRow) : bool :=
  match ag_vm_id a with Some id => bool_decide (id ∈ ids) | None => false end.
Record forgets (ids : list string) (db db' : DB) : Prop := {
  fg_vms : forall id, vms db' !! id = if bool_decide (id ∈ ids) then None else vms db !! id;
  fg_agents : forall id a, agents db' !! id = Some a <-> agents db !! id = Some a /\ agent_of ids a = false;
  fg_interfaces : forall i, i ∈ vm_interfaces db' <-> i ∈ vm_interfaces db /\ if_vm_id i ∉ ids;
  fg_flows : Forall2 (fun r r' => exists agent, r' = flow_with_refs r agent
                 (set_null (fun id => bool_decide (id ∈ ids)) (fl_src_vm_id r))
                 (set_null (fun id => bool_decide (id ∈ ids)) (fl_dst_vm_id r)))
               (network_flows db) (network_flows db');
  fg_observations : Forall2 (fun o o' => exists agent, o' = observation_with_refs o agent
                 (set_null (fun id => bool_decide (id ∈ ids)) (ob_src_vm_id o))
                 (set_null (fun id => bool_decide (id ∈ ids)) (ob_dst_vm_id o)))
               (flow_observations db) (flow_observations db');
  fg_external : external_hosts db' = external_hosts db;
  fg_probes : connection_probes db' =
    forgotten ids (List.filter (fun q => match agents db !! pr_agent_id q with
                                         | Some a => negb (agent_of ids a) | None => true end)
                     (connection_probes db))
}.

Lemma set_null_ext f g o : (forall x, f x = g x) -> set_null f o = set_null g o.
Proof. intros E. destruct o; simpl; [|done]. by rewrite E. Qed.

Lemma set_null_none f o : (forall x, f x = false) -> set_null f o = o.
Proof. intros E. destruct o; simpl; [|done]. by rewrite E. Qed.

Lemma forgets_none db : forgets [] db db.
Proof.
  assert (Hf : forall id : string, bool_decide (id ∈ []) = false).
  { intros id. apply bool_decide_eq_false. apply not_elem_of_nil. }
  split; try done.
  - intros id a. unfold agent_of. destruct (ag_vm_id a); rewrite ?Hf; tauto.
  - intros i. split; [|tauto]. intros. split; [done|apply not_elem_of_nil].
  - apply Forall_Forall2_diag, Forall_true. intros r. exists (fl_agent_id r). rewrite !set_null_none by done. by destruct r.
  - apply Forall_Forall2_diag, Forall_true. intros o. exists (ob_agent_id o). rewrite !set_null_none by done. by destruct o.
  - rewrite forallb_filter_id; [by apply forgetAllProbes_Ok|]. apply forallb_forall. intros q _.
    destruct (agents db !! pr_agent_id q) as [a|]; [|done]. unfold agent_of. destruct (ag_vm_id a); [by rewrite Hf|done].
Qed.

Lemma forgets_delete ids db db' : (forall id, id ∈ ids -> is_Some (vms db !! id)) ->
  deleteVMs ids (deleteAgents (agent_of ids) db) = Ok db' -> forgets ids db db'.
Proof.
  intros Hids.
  assert (Hg : forall id, isSome (vms db !! id) && bool_decide (id ∈ ids) = bool_decide (id ∈ ids)).
  { intros id. case_bool_decide as Hi; [|apply andb_false_r]. by destruct (Hids id Hi) as [? ->]. }
  intros (probes & Hp%forgetAllProbes_Ok & [= <-])%rbind_Ok. split; cbn.
  - intros id. case_bool_decide as Hi.
    + apply map_lookup_filter_None. right. intros v _. simpl. rewrite bool_decide_eq_true_2 by done. by intros [].
    + destruct (vms db !! id) as [v|] eqn:Ev.
      * apply map_lookup_filter_Some. simpl. rewrite bool_decide_eq_false_2 by done. done.
      * apply map_lookup_filter_None. by left.
  - intros id a. rewrite map_lookup_filter_Some. simpl. destruct (agent_of ids a); simpl; [|tauto].
    split; [by intros [_ []]|by intros [_ ?]].
  - intros i. rewrite !list_elem_of_In, filter_In, Hg, negb_true_iff, bool_decide_eq_false, list_elem_of_In. done.
  - rewrite map_map. apply Forall2_fmap_r, Forall_Forall2_diag, Forall_true. intros r. eexists.
    cbn. by rewrite !(set_null_ext _ _ _ Hg).
  - rewrite map_map. apply Forall2_fmap_r, Forall_Forall2_diag, Forall_true. intros o. eexists.
    cbn. by rewrite !(set_null_ext _ _ _ Hg).
  - done.
  - rewrite Hp. cbn [vms connection_probes deleteAgents]. assert (E : List.filter (fun id => isSome (vms db !! id) && bool_decide (id ∈ ids)) ids = ids).
    { rewrite (List.filter_ext _ _ Hg). apply forallb_filter_id, forallb_forall. intros id Hi.
      apply bool_decide_eq_true. by apply list_elem_of_In. }
    rewrite E. f_equal. apply List.filter_ext. intros q. by destruct (agents db !! pr_agent_id q).
Qed.

Lemma deleteExpiredBody_Ok fault lv la now d k db ids db' k' :
  deleteExpiredBody fault lv la now d k db = (Ok (ids, db'), k') ->
  NoDup ids /\ (forall id, id ∈ ids <-> removable lv la (timestamptz now - sql_interval d) db id) /\ forgets ids db db'.
Proof.
  unfold deleteExpiredBody. intros (rows & db1 & k1 & (_ & [= <- <-] & ->)%stmt_Ok & E)%tx_bind_Ok.
  set (rows := expiredRows _ _ _ _) in *. destruct (collectVMs_spec ∅ rows) as [Hn He].
  assert (Hr : forall id, id ∈ collectVMs ∅ rows <-> removable lv la (timestamptz now - sql_interval d) db id).
  { intros id. rewrite He, <- expiredRows_spec. fold rows. set_solver. }
  destruct (collectVMs ∅ rows) as [|x l] eqn:Ec; [injection E as <- <- _; split_and!; [done..|apply forgets_none]|].
  apply tx_bind_Ok in E as (? & ? & ? & (_ & [= _ <-] & ->)%tx_wrap_Ok%stmt_Ok & E).
  apply tx_bind_Ok in E as (? & ? & ? & (_ & (db2 & Ed & [= _ <-])%rbind_Ok & ->)%tx_wrap_Ok%stmt_Ok & [= <- <- _]).
  split_and!; [done..|]. apply forgets_delete; [|exact Ed]. intros id (v & ? & ? & Hv & _)%Hr. eauto.
Qed.

Lemma DeleteExpired_cases (fault : nat -> option GoError) (lockedVM lockedAgent : string -> bool) (pgnow : time)
    (deleteAfter : duration) (db : DB) (hub : Hub Payload) (r : Result Z) (db' : DB) (hub' : Hub Payload) :
  DeleteExpired marshal fault lockedVM lockedAgent pgnow deleteAfter db hub = (r, db', hub') ->
  match r with
  | Err _ => db' = db /\ hub' = hub
  | Ok n => exists ids, NoDup ids /\ n = Z.of_nat (length ids) /\ forgets ids db db' /\
      (forall id, id ∈ ids <->
         0 < deleteAfter /\ removable lockedVM lockedAgent (timestamptz pgnow - sql_interval deleteAfter) db id) /\
      hub' = match ids with [] => hub | _ => Broadcast hub (marshal "vm.deleted" (MDeleted ids)) end
  end.
Proof.
  unfold DeleteExpired. destruct (Z.leb_spec deleteAfter 0).
  { intros [= <- <- <-]. exists []. split_and!; [constructor|done|apply forgets_none| |done].
    intros id. split; [by intros ?%elem_of_nil|lia]. }
  destruct (transaction _ _ db) as [[ids|e] db1] eqn:Et; [|intros [= <- <- <-]; by apply transaction_err in Et as ->].
  apply transaction_Ok in Et as [k (Hn & Hr & Hf)%deleteExpiredBody_Ok].
  intros E. assert (r = Ok (Z.of_nat (length ids)) /\ db' = db1 /\
    hub' = match ids with [] => hub | _ => Broadcast hub (marshal "vm.deleted" (MDeleted ids)) end) as (-> & -> & ->)
    by (destruct ids; by injection E as <- <- <-).
  exists ids. split_and!; try done. intros id. rewrite Hr. tauto.
Qed.

(** C29: expiry removes silent machines only.  With a window of zero or
    less nothing happens; when a statement fails nothing changes; otherwise
    the machines removed, each once, are exactly those discovered by an
    agent such that the machine and one of its agents were last seen before
    the window, and that no other transaction holds.  Their agents and
    interfaces and the probes they sent go with them; flows, observations and
    probes of them are kept with their measurements and lose only the
    references to them; and the answer and the broadcast name the machines
    removed. *)
Theorem delete_expired_spec (fault : nat -> option GoError) (lockedVM lockedAgent : string -> bool) (pgnow : time)
    (deleteAfter : duration) (db : DB) (hub : Hub Payload) (r : Result Z) (db' : DB) (hub' : Hub Payload) :
  DeleteExpired marshal fault lockedVM lockedAgent pgnow deleteAfter db hub = (r, db', hub') ->
  match r with
  | Err _ => db' = db /\ hub' = hub
  | Ok n => exists ids, NoDup ids /\ n = Z.of_nat (length ids) /\ forgets ids db db' /\
      (forall id, id ∈ ids <->
         0 < deleteAfter /\ removable lockedVM lockedAgent (timestamptz pgnow - sql_interval deleteAfter) db id) /\
      hub' = match ids with [] => hub | _ => Broadcast hub (marshal "vm.deleted" (MDeleted ids)) end
  end.
Proof. apply DeleteExpired_cases. Qed.
End sweeps.

(** * Concrete calls *)

Definition sample_registration (agentID ip : string) : AgentRegistration :=
  {| RgAgentID := agentID; RgHostname := "web"; RgMachineID := ""; RgTenantID := "t"; RgProjectID := "";
     RgPrivateIPs := [ip]; RgPublicIP := None; RgMACAddresses := []; RgInterfaces := []; RgOS := "linux";
     RgKernel := "6.1"; RgAgentVersion := "1"; RgEnvironment := "" |}.
Definition no_fault (_ : nat) : option GoError := None.
Definition sample_digest (s : string) : string := "vm-" +:+ s.
Definition agent_marshal (t : string) (m : Message) : option (string * Message) := Some (t, m).
Definition empty_db : @DB netip_postgres := @Build_DB netip_postgres ∅ ∅ [] [] [] [] [] [].
Definition sample_Register := @Register netip_postgres sample_digest _ agent_marshal.

(** The registered identifier, or the empty string. *)
Definition result_vm (r : Result RegistrationResult) : string :=
  match r with Ok result => RrVMID result | Err _ => "" end.

Lemma sample_registered :
  exists result db' hub', sample_Register no_fault Hour None (sample_registration "agent-7" "10.0.0.7") empty_db New
    = (Ok result, db', hub') /\ RrVMID result = "vm-agent-7".
Proof.
  destruct (sample_Register no_fault Hour None (sample_registration "agent-7" "10.0.0.7") empty_db New)
    as [[r db'] hub'] eqn:E.
  assert (F : result_vm (fst (fst (sample_Register no_fault Hour None (sample_registration "agent-7" "10.0.0.7")
    empty_db New))) = "vm-agent-7") by (vm_compute; reflexivity).
  rewrite E in F. destruct r as [result|e]; [|discriminate]. by exists result, db', hub'.
Qed.



Lemma statuses_witness :
  exists hub', @UpdateStatuses netip_postgres _ agent_marshal no_fault Hour sample_db New
    = (Ok tt, swept Hour sample_db, hub') /\
    ag_status <$> agents (swept Hour sample_db) !! "agent-1" = Some "offline".
Proof.
  destruct (@UpdateStatuses netip_postgres _ agent_marshal no_fault Hour sample_db New) as [[r db'] hub'] eqn:E.
  destruct (@statuses_spec netip_postgres _ agent_marshal no_fault Hour sample_db New r db' hub' E) as [Hok Hr].
  specialize (Hok (fun _ => eq_refl)). subst r. destruct Hr as (-> & _). exists hub'.
  split; [reflexivity|vm_compute; reflexivity].
Defined.

Lemma delete_expired_witness :
  exists hub' db', @DeleteExpired netip_postgres _ agent_marshal no_fault (fun _ => false) (fun _ => false) (2 * Hour) Hour
    sample_db New = (Ok 1, db', hub') /\ vms db' !! "vm-1" = None /\ is_Some (vms db' !! "vm-2").
Proof.
  destruct (@DeleteExpired netip_postgres _ agent_marshal no_fault (fun _ => false) (fun _ => false) (2 * Hour) Hour
    sample_db New) as [[r db'] hub'] eqn:E.
  assert (F : match fst (fst (@DeleteExpired netip_postgres _ agent_marshal no_fault (fun _ => false) (fun _ => false)
    (2 * Hour) Hour sample_db New)) with Ok n => n | Err _ => 0 end = 1) by (vm_compute; reflexivity).
  rewrite E in F. destruct r as [n|e]; [|discriminate]. simpl in F. subst n.
  destruct (@delete_expired_spec netip_postgres _ agent_marshal no_fault (fun _ => false) (fun _ => false) (2 * Hour)
    Hour sample_db New (Ok 1) db' hub' E) as (ids & _ & _ & Hf & Hids & _).
  exists hub', db'. split; [reflexivity|]. rewrite !(fg_vms _ _ _ Hf).
  assert (H1 : "vm-1" ∈ ids).
  { apply Hids. split; [reflexivity|]. eexists _, "agent-1", _.
    split; [reflexivity|]. split; [reflexivity|]. repeat split; reflexivity. }
  assert (H2 : "vm-2" ∉ ids).
  { intros (_ & v & aid & a & _ & Ha & Hx & _)%Hids. unfold sample_db in Ha. cbn [agents] in Ha.
    apply lookup_singleton_Some in Ha as [_ <-]. discriminate Hx. }
  rewrite (bool_decide_eq_true_2 _ H1), (bool_decide_eq_false_2 _ H2). split; [reflexivity|]. by eexists.
Defined.
