(* ===== verification/VMService.v ===== *)
(** The listing of machines, [backend/internal/service/vm_service.go], and
    the statistics of [stats_service.go].

    [ORDER BY name] uses the database's collation, a parameter; machines with
    equal names come in any order. *)
From S2P Require Import Prelude GoStrings GoFloat GoTime Sql Store FlowService AgentService.

#[local] Open Scope Z_scope.

(** model/vm.go *)
Record ListedVM := {
  lv_ID : string; lv_Name : string; lv_Type : string; lv_TenantID : string; lv_ProjectID : string;
  lv_Region : string; lv_Zone : string; lv_PrivateIP : string; lv_PublicIP : string; lv_NetworkID : string;
  lv_SubnetID : string; lv_MACAddress : string; lv_HostID : string; lv_Role : string; lv_Environment : string;
  lv_Owner : string; lv_DiscoveredBy : string; lv_AgentID : string; lv_MachineID : string; lv_Status : string;
  lv_FirstSeen : time; lv_LastSeen : time; lv_CreatedAt : time; lv_Interfaces : list Interface
}.

(** model/stats.go *)
Record Summary := {
  TotalVMs : Z; OnlineVMs : Z; StaleVMs : Z; OfflineVMs : Z; TotalFlows : Z; InternalFlows : Z; ExternalFlows : Z;
  InternalBytes : Z; InternalSent : Z; InternalRecv : Z; ExternalBytes : Z; ExternalSent : Z; ExternalRecv : Z;
  UnknownInternal : Z; RequestTotal : Z; RequestLastMinute : Z; RequestsPerSec : float64; ConnectionsPerSec : float64;
  UpdatedAt : time
}.

Record TopTalker := { tt_VMID : string; tt_Name : string; tt_BytesSent : Z; tt_BytesReceived : Z; tt_TotalBytes : Z }.

(** [ORDER BY key] on text. *)
Section collation.
Context (collate : string -> string -> bool).
Definition before {A} (key : A -> string) (a b : A) : Prop := collate (key a) (key b) = true.
#[export] Instance before_dec {A} (key : A -> string) : RelDecision (before key).
Proof. intros a b. unfold before. apply _. Defined.
Definition order_by {A} (key : A -> string) (l : list A) : list A := merge_sort (before key) l.
End collation.

Section service.
Context `{Postgres} (collate : string -> string -> bool).

(** ** VMService.List *)

(** A scanned row of the first query. *)
Definition listedVM (id : string) (v : VMRow) : ListedVM :=
  {| lv_ID := id; lv_Name := vm_name v; lv_Type := text (vm_host_type v); lv_TenantID := text (vm_tenant_id v);
     lv_ProjectID := text (vm_project_id v); lv_Region := text (vm_region v); lv_Zone := text (vm_zone v);
     lv_PrivateIP := text (host <$> vm_private_ip v); lv_PublicIP := text (host <$> vm_public_ip v);
     lv_NetworkID := text (vm_network_id v); lv_SubnetID := text (vm_subnet_id v);
     lv_MACAddress := text (vm_mac_address v); lv_HostID := text (vm_host_id v); lv_Role := text (vm_role v);
     lv_Environment := text (vm_environment v); lv_Owner := text (vm_owner v);
     lv_DiscoveredBy := vm_discovered_by v; lv_AgentID := text (vm_agent_id v);
     lv_MachineID := text (vm_machine_id v); lv_Status := vm_status v; lv_FirstSeen := vm_first_seen v;
     lv_LastSeen := vm_last_seen v; lv_CreatedAt := vm_created_at v; lv_Interfaces := [] |}.

Definition with_interface (iface : Interface) (vm : ListedVM) : ListedVM :=
  {| lv_ID := lv_ID vm; lv_Name := lv_Name vm; lv_Type := lv_Type vm; lv_TenantID := lv_TenantID vm;
     lv_ProjectID := lv_ProjectID vm; lv_Region := lv_Region vm; lv_Zone := lv_Zone vm;
     lv_PrivateIP := lv_PrivateIP vm; lv_PublicIP := lv_PublicIP vm; lv_NetworkID := lv_NetworkID vm;
     lv_SubnetID := lv_SubnetID vm; lv_MACAddress := lv_MACAddress vm; lv_HostID := lv_HostID vm;
     lv_Role := lv_Role vm; lv_Environment := lv_Environment vm; lv_Owner := lv_Owner vm;
     lv_DiscoveredBy := lv_DiscoveredBy vm; lv_AgentID := lv_AgentID vm; lv_MachineID := lv_MachineID vm;
     lv_Status := lv_Status vm; lv_FirstSeen := lv_FirstSeen vm; lv_LastSeen := lv_LastSeen vm;
     lv_CreatedAt := lv_CreatedAt vm; lv_Interfaces := lv_Interfaces vm ++ [iface] |}.

(** The first loop: the rows and the map [byID] from identifier to index. *)
Fixpoint scanVMs (vms : list ListedVM) (byID : gmap string nat) (rows : list (string * VMRow))
    : list ListedVM * gmap string nat :=
  match rows with
  | [] => (vms, byID)
  | (id, v) :: rest => scanVMs (vms ++ [listedVM id v]) (<[id := length vms]> byID) rest
  end.

(** The second loop: an interface is appended to its machine, if listed. *)
Fixpoint attachInterfaces (byID : gmap string nat) (rows : list InterfaceRow) (vms : list ListedVM) : list ListedVM :=
  match rows with
  | [] => vms
  | i :: rest =>
      let iface := {| IName := if_name i; IIPAddress := text (host <$> if_ip_address i);
                      IMACAddress := text (if_mac_address i) |} in
      attachInterfaces byID rest
        (match byID !! if_vm_id i with Some index => alter (with_interface iface) index vms | None => vms end)
  end.

Definition ListVMs (fault : nat -> option GoError) (db : DB) : Result (list ListedVM) :=
  match fault 0%nat with
  | Some err => Err err
  | None =>
      let '(vms, byID) := scanVMs [] ∅ (order_by collate (fun '(_, v) => vm_name v) (map_to_list (vms db))) in
      match fault 1%nat with
      | Some err => Err err
      | None => Ok (attachInterfaces byID (order_by collate if_name (vm_interfaces db)) vms)
      end
  end.

(** ** StatsService *)

Definition internalScopes : list string := ["internal_same_tenant"; "internal_cross_tenant"; "unknown_internal"].
Definition externalScopes : list string := ["external_public"; "external_private"].
Definition flowsIn (scopes : list string) (db : DB) : list FlowRow :=
  List.filter (fun f => existsb (String.eqb (fl_scope f)) scopes) (network_flows db).

(** [SUM] of a bigint column is a [numeric]; scanning it into an [int64]
    fails out of range. *)
Definition scan_int64 (z : Z) : Result Z :=
  guard_err (negb ((- 2 ^ 63 <=? z) && (z <? 2 ^ 63))) as (pg_error "cannot scan numeric into int64") ;; Ok z.
(** [SUM(a + b)]: the addition is on bigint. *)
Fixpoint sum_bytes (l : list FlowRow) : Result Z :=
  match l with
  | [] => Ok 0
  | f :: rest =>
      row <-- bigint_add (fl_bytes_sent f) (fl_bytes_received f) ;;
      total <-- sum_bytes rest ;;
      Ok (row + total)
  end.

Definition count_status (status : string) (db : DB) : Z :=
  Z.of_nat (length (List.filter (fun '(_, v) => vm_status v =? status)%string (map_to_list (vms db)))).
Definition lastMinute (pgnow : time) (db : DB) : list ObservationRow :=
  List.filter (fun o => timestamptz pgnow - 60 * Second <=? ob_observed_at o) (flow_observations db).

Definition Summary_ (fault : option GoError) (now pgnow : time) (db : DB) : Result Summary :=
  match fault with
  | Some err => Err err
  | None =>
      let internal := flowsIn internalScopes db in
      let external := flowsIn externalScopes db in
      ibytes <-- sum_bytes internal ;;
      ibytes <-- scan_int64 ibytes ;;
      isent <-- scan_int64 (sumZ fl_bytes_sent internal) ;;
      irecv <-- scan_int64 (sumZ fl_bytes_received internal) ;;
      ebytes <-- sum_bytes external ;;
      ebytes <-- scan_int64 ebytes ;;
      esent <-- scan_int64 (sumZ fl_bytes_sent external) ;;
      erecv <-- scan_int64 (sumZ fl_bytes_received external) ;;
      requests <-- scan_int64 (sumZ fl_request_count (network_flows db)) ;;
      minute <-- scan_int64 (sumZ ob_request_count (lastMinute pgnow db)) ;;
      Ok {| TotalVMs := Z.of_nat (size (vms db)); OnlineVMs := count_status "online" db;
            StaleVMs := count_status "stale" db; OfflineVMs := count_status "offline" db;
            TotalFlows := Z.of_nat (length (network_flows db)); InternalFlows := Z.of_nat (length internal);
            ExternalFlows := Z.of_nat (length external); InternalBytes := ibytes; InternalSent := isent;
            InternalRecv := irecv; ExternalBytes := ebytes; ExternalSent := esent; ExternalRecv := erecv;
            UnknownInternal := Z.of_nat (length (List.filter (fun h => negb (isSome (h_resolved_vm_id h)))
                                                   (unknown_internal_hosts db)));
            RequestTotal := requests; RequestLastMinute := minute;
            RequestsPerSec := f_div (f_of_Z (sumZ ob_request_count (lastMinute pgnow db))) (f_of_Z 60);
            ConnectionsPerSec := f_div (f_of_Z (sumZ ob_connection_count (lastMinute pgnow db))) (f_of_Z 60);
            UpdatedAt := now |}
  end.

(** The [LEFT JOIN] and [GROUP BY] of [TopTalkers], one row per machine. *)
Definition bigint (z : Z) : Result Z :=
  guard_err (negb ((- 2 ^ 63 <=? z) && (z <? 2 ^ 63))) as (pg_error "bigint out of range") ;; Ok z.
Definition talker (db : DB) (row : string * VMRow) : Result TopTalker :=
  let flows := List.filter (fun f => sql_holds (sql_eq (fl_src_vm_id f) row.1)) (network_flows db) in
  sent <-- bigint (sumZ fl_bytes_sent flows) ;;
  received <-- bigint (sumZ fl_bytes_received flows) ;;
  total <-- sum_bytes flows ;;
  total <-- bigint total ;;
  Ok {| tt_VMID := row.1; tt_Name := vm_name row.2; tt_BytesSent := sent; tt_BytesReceived := received;
        tt_TotalBytes := total |}.

Fixpoint talkers (db : DB) (rows : list (string * VMRow)) : Result (list TopTalker) :=
  match rows with
  | [] => Ok []
  | row :: rest => t <-- talker db row ;; ts <-- talkers db rest ;; Ok (t :: ts)
  end.

Definition TopTalkers (fault : option GoError) (limit : Z) (db : DB) : Result (list TopTalker) :=
  let limit := if (limit <=? 0) || (100 <? limit) then 10 else limit in
  match fault with
  | Some err => Err err
  | None => l <-- talkers db (map_to_list (vms db)) ;; Ok (query (fun _ => true) tt_TotalBytes (Z.to_nat limit) l)
  end.
End service.

(** * Facts *)

Section facts.
Context `{Postgres} (collate : string -> string -> bool).

Lemma order_by_perm {A} (key : A -> string) l : order_by collate key l ≡ₚ l.
Proof. apply merge_sort_Permutation. Qed.

(** What the first loop leaves: the machines in order, and their indices. *)
Lemma scanVMs_spec rows vms byID :
  NoDup (rows.*1) -> (forall id, id ∈ rows.*1 -> byID !! id = None) ->
  (forall id k, byID !! id = Some k <-> lv_ID <$> vms !! k = Some id) ->
  let '(vms', byID') := scanVMs vms byID rows in
  vms' = vms ++ map (fun '(id, v) => listedVM id v) rows /\
  (forall id k, byID' !! id = Some k <-> lv_ID <$> vms' !! k = Some id).
Proof.
  revert vms byID. induction rows as [|[id v] rows IH]; intros vms byID Hn Hf Hb; cbn [scanVMs map].
  { by rewrite app_nil_r. }
  rewrite fmap_cons in Hn, Hf. apply NoDup_cons in Hn as [Hid Hn].
  specialize (IH (vms ++ [listedVM id v]) (<[id := length vms]> byID)).
  destruct (scanVMs _ _ rows) as [vms' byID']. destruct IH as [-> Hb'].
  - done.
  - intros id' Hid'. rewrite lookup_insert_ne by (intros ->; done). apply Hf. by right.
  - intros id' k. rewrite lookup_insert_Some, Hb. destruct (decide (k < length vms)%nat) as [Hk|Hk].
    + rewrite lookup_app_l by done. split; [intros [[<- <-]|[? ?]]; [lia|done]|]. intros E. right. split; [|done].
      intros ->. apply Hb in E. rewrite (Hf id') in E; [done|left].
    + rewrite lookup_app_r by lia. split.
      * intros [[<- <-]|[_ E]]; [by rewrite Nat.sub_diag|]. rewrite lookup_ge_None_2 in E by lia. done.
      * destruct (k - length vms)%nat eqn:Ek; cbn; [|done]. intros [= <-]. left. split; [done|lia].
  - split; [by rewrite <- app_assoc|done].
Qed.

Definition scannedInterface (i : InterfaceRow) : Interface :=
  {| IName := if_name i; IIPAddress := text (host <$> if_ip_address i); IMACAddress := text (if_mac_address i) |}.

Definition add_interfaces (l : list Interface) (vm : ListedVM) : ListedVM := foldl (fun vm i => with_interface i vm) vm l.

Lemma add_interfaces_ID l vm : lv_ID (add_interfaces l vm) = lv_ID vm.
Proof. revert vm. induction l as [|i l IH]; intros vm; [done|]. apply (IH (with_interface i vm)). Qed.

Lemma add_interfaces_status l vm : lv_Status (add_interfaces l vm) = lv_Status vm.
Proof. revert vm. induction l as [|i l IH]; intros vm; [done|]. apply (IH (with_interface i vm)). Qed.

Lemma add_interfaces_list l vm : lv_Interfaces (add_interfaces l vm) = lv_Interfaces vm ++ l.
Proof.
  revert vm. induction l as [|i l IH]; intros vm; [by rewrite app_nil_r|].
  change (add_interfaces (i :: l) vm) with (add_interfaces l (with_interface i vm)). rewrite IH. cbn. by rewrite <- app_assoc.
Qed.

Lemma attachInterfaces_spec byID rows vms :
  (forall id k, byID !! id = Some k <-> lv_ID <$> vms !! k = Some id) ->
  attachInterfaces byID rows vms =
  map (fun vm => add_interfaces (map scannedInterface (List.filter (fun i => if_vm_id i =? lv_ID vm)%string rows)) vm) vms.
Proof.
  revert vms. induction rows as [|i rows IH]; intros vms Hb; cbn [attachInterfaces List.filter]; [by rewrite map_id|].
  fold (scannedInterface i).
  assert (E : match byID !! if_vm_id i with Some k => alter (with_interface (scannedInterface i)) k vms | None => vms end =
    map (fun vm => if (if_vm_id i =? lv_ID vm)%string then with_interface (scannedInterface i) vm else vm) vms).
  { apply list_eq. intros k. change (map ?f vms) with (f <$> vms). rewrite list_lookup_fmap.
    destruct (byID !! if_vm_id i) as [k'|] eqn:Ek.
    - destruct (decide (k = k')) as [->|Hne].
      + rewrite list_lookup_alter_eq. apply Hb in Ek. destruct (vms !! k') as [vm|]; [|done]. cbn in *. injection Ek as <-.
        by rewrite String.eqb_refl.
      + rewrite list_lookup_alter_ne by done. destruct (vms !! k) as [vm|] eqn:Ev; [|done]. cbn.
        destruct (String.eqb_spec (if_vm_id i) (lv_ID vm)) as [Ei|]; [|done]. exfalso. apply Hne.
        assert (byID !! if_vm_id i = Some k) by (apply Hb; rewrite Ev, Ei; done). congruence.
    - destruct (vms !! k) as [vm|] eqn:Ev; [|done]. cbn.
      destruct (String.eqb_spec (if_vm_id i) (lv_ID vm)) as [Ei|]; [|done].
      assert (byID !! if_vm_id i = Some k) by (apply Hb; rewrite Ev, Ei; done). congruence. }
  rewrite E. rewrite IH.
  - rewrite map_map. apply map_ext. intros vm. destruct (String.eqb_spec (if_vm_id i) (lv_ID vm)) as [Ei|]; done.
  - intros id k. rewrite Hb. change (map ?f vms) with (f <$> vms). rewrite list_lookup_fmap.
    destruct (vms !! k) as [vm|]; [|done]. cbn. by destruct (_ =? _)%string.
Qed.

(** The machines of the table as [ListVMs] shows them. *)
Definition shown (db : DB) (id : string) (v : VMRow) : ListedVM :=
  add_interfaces (map scannedInterface (List.filter (fun i => if_vm_id i =? id)%string
                                          (order_by collate if_name (vm_interfaces db)))) (listedVM id v).

Lemma ListVMs_Ok fault db l : ListVMs collate fault db = Ok l ->
  l = map (fun '(id, v) => shown db id v) (order_by collate (fun '(_, v) => vm_name v) (map_to_list (vms db))).
Proof.
  unfold ListVMs. destruct (fault 0%nat); [done|]. set (rows := order_by _ _ _).
  assert (Hp : rows ≡ₚ map_to_list (vms db)) by apply order_by_perm.
  pose proof (scanVMs_spec rows [] ∅) as Hs. destruct (scanVMs [] ∅ rows) as [vms byID].
  destruct Hs as [-> Hb].
  - rewrite Hp. apply NoDup_fst_map_to_list.
  - intros id _. apply lookup_empty.
  - intros id k. by rewrite lookup_empty, lookup_nil.
  - destruct (fault 1%nat); [done|]. intros [= <-]. rewrite attachInterfaces_spec by done. cbn [app]. rewrite map_map.
    apply map_ext. by intros [id v].
Qed.

(** Every machine of the table is listed once, with its columns and its
    interfaces in order. *)
Lemma ListVMs_elem fault db l : ListVMs collate fault db = Ok l ->
  NoDup (lv_ID <$> l) /\ forall vm, vm ∈ l <-> exists id v, vms db !! id = Some v /\ vm = shown db id v.
Proof.
  intros ->%ListVMs_Ok. set (rows := order_by _ _ _).
  assert (Hp : rows ≡ₚ map_to_list (vms db)) by apply order_by_perm. split.
  - assert (E : lv_ID <$> map (fun '(id, v) => shown db id v) rows = rows.*1).
    { change (map ?f rows) with (f <$> rows). rewrite <- list_fmap_compose. apply list_fmap_ext. intros _ [id v] _. cbn.
      unfold shown. by rewrite add_interfaces_ID. }
    rewrite E, Hp. apply NoDup_fst_map_to_list.
  - intros vm. change (map ?f rows) with (f <$> rows). rewrite list_elem_of_fmap. setoid_rewrite Hp. split.
    + intros ([id v] & -> & Hin%elem_of_map_to_list). eauto.
    + intros (id & v & Hv & ->). exists (id, v). split; [done|]. by apply elem_of_map_to_list.
Qed.

(** ** Statistics *)

Lemma sum_bytes_Ok l n : sum_bytes l = Ok n -> n = sumZ fl_bytes_sent l + sumZ fl_bytes_received l.
Proof.
  revert n. induction l as [|f l IH]; intros n; cbn [sum_bytes]; [by intros [= <-]|].
  intros (row & [-> _]%bigint_add_Ok & (t & Ht%IH & [= <-])%rbind_Ok)%rbind_Ok. rewrite !sumZ_cons. lia.
Qed.

Lemma scan_int64_Ok z n : scan_int64 z = Ok n -> n = z /\ in_i64 z.
Proof.
  unfold scan_int64. destruct (negb _) eqn:E; [done|]. intros [= <-]. bools. unfold in_i64. lia.
Qed.

Lemma bigint_Ok z n : bigint z = Ok n -> n = z.
Proof. unfold bigint. destruct (negb _); [done|]. by intros [= <-]. Qed.

Lemma filter_length_disjoint {A} (p q : A -> bool) l : (forall x, p x = true -> q x = true -> False) ->
  (length (List.filter p l) + length (List.filter q l) <= length l)%nat.
Proof.
  intros Hd. induction l as [|x l IH]; cbn; [lia|]. destruct (p x) eqn:Ep, (q x) eqn:Eq; cbn; try lia. by destruct (Hd x).
Qed.

Lemma length_filter_or {A} (p q : A -> bool) l : (forall x, p x = true -> q x = true -> False) ->
  length (List.filter (fun x => p x || q x) l) = (length (List.filter p l) + length (List.filter q l))%nat.
Proof.
  intros Hd. induction l as [|x l IH]; cbn; [done|]. destruct (p x) eqn:Ep, (q x) eqn:Eq; cbn; try lia. by destruct (Hd x).
Qed.

Lemma count_status_sum db :
  count_status "online" db + count_status "stale" db + count_status "offline" db =
  Z.of_nat (length (List.filter (fun kv => existsb (String.eqb (vm_status kv.2)) ["online"; "stale"; "offline"])
                      (map_to_list (vms db)))).
Proof.
  set (st k := fun kv : string * VMRow => (vm_status kv.2 =? k)%string).
  assert (Hc : forall k, count_status k db = Z.of_nat (length (List.filter (st k) (map_to_list (vms db))))).
  { intros k. unfold count_status. do 2 f_equal. apply List.filter_ext. by intros [? ?]. }
  assert (Hd : forall k k' kv, k <> k' -> st k kv = true -> st k' kv = true -> False).
  { intros k k' kv Hne E1%String.eqb_eq E2%String.eqb_eq. congruence. }
  rewrite !Hc, <- !Nat2Z.inj_add. f_equal.
  rewrite <- (length_filter_or (st "online")) by (intros; by eapply (Hd "online" "stale")).
  rewrite <- (length_filter_or _ (st "offline")).
  - f_equal. apply List.filter_ext. intros kv. cbn. by rewrite orb_false_r, <- orb_assoc.
  - intros kv [E|E]%orb_true_iff E2; (eapply Hd; [|exact E|exact E2]); done.
Qed.

(** The statistics add up.  A summary counts every machine whose status
    is one of the three in use exactly once, no flow as both internal and
    external, and its byte totals are the sums of the bytes sent and
    received; it fails, rather than wrap, when a total exceeds 64 bits. *)
Theorem summary_consistent (fault : option GoError) (now pgnow : time) (db : DB) (s : Summary) :
  Summary_ fault now pgnow db = Ok s ->
  InternalBytes s = InternalSent s + InternalRecv s /\ ExternalBytes s = ExternalSent s + ExternalRecv s /\
  InternalSent s = sumZ fl_bytes_sent (flowsIn internalScopes db) /\
  ExternalSent s = sumZ fl_bytes_sent (flowsIn externalScopes db) /\
  RequestTotal s = sumZ fl_request_count (network_flows db) /\
  InternalFlows s + ExternalFlows s <= TotalFlows s /\
  OnlineVMs s + StaleVMs s + OfflineVMs s <= TotalVMs s /\
  ((forall id v, vms db !! id = Some v -> vm_status v ∈ ["online"; "stale"; "offline"]) ->
   OnlineVMs s + StaleVMs s + OfflineVMs s = TotalVMs s) /\
  Forall in_i64 [InternalBytes s; InternalSent s; InternalRecv s; ExternalBytes s; ExternalSent s; ExternalRecv s;
                 RequestTotal s; RequestLastMinute s].
Proof.
  unfold Summary_. destruct fault; [done|]. cbv zeta. intros (? & E1%sum_bytes_Ok & E)%rbind_Ok.
  apply rbind_Ok in E as (? & [-> H1]%scan_int64_Ok & E). apply rbind_Ok in E as (? & [-> H2]%scan_int64_Ok & E).
  apply rbind_Ok in E as (? & [-> H3]%scan_int64_Ok & E). apply rbind_Ok in E as (? & E2%sum_bytes_Ok & E).
  apply rbind_Ok in E as (? & [-> H4]%scan_int64_Ok & E). apply rbind_Ok in E as (? & [-> H5]%scan_int64_Ok & E).
  apply rbind_Ok in E as (? & [-> H6]%scan_int64_Ok & E). apply rbind_Ok in E as (? & [-> H7]%scan_int64_Ok & E).
  apply rbind_Ok in E as (? & [-> H8]%scan_int64_Ok & [= <-]).
  cbn [InternalBytes InternalSent InternalRecv ExternalBytes ExternalSent ExternalRecv RequestTotal RequestLastMinute
       InternalFlows ExternalFlows TotalFlows OnlineVMs StaleVMs OfflineVMs TotalVMs].
  rewrite count_status_sum. split_and!; try done.
  - unfold flowsIn. rewrite <- Nat2Z.inj_add. apply inj_le, filter_length_disjoint. intros f. cbn.
    rewrite !orb_true_iff, !String.eqb_eq. intros Hi He. destruct Hi as [Hi|[Hi|[Hi|]]], He as [He|[He|]]; congruence.
  - apply inj_le. rewrite <- length_map_to_list. apply filter_length_le.
  - intros Hk. f_equal. rewrite <- length_map_to_list. rewrite forallb_filter_id; [done|].
    apply forallb_forall. intros [id v] Hin%list_elem_of_In%elem_of_map_to_list. apply Hk in Hin. apply existsb_exists.
    exists (vm_status v). split; [by apply list_elem_of_In|apply String.eqb_refl].
  - by rewrite !Forall_cons, Forall_nil.
Qed.

(** ** Top talkers *)

Definition flowsFrom (db : DB) (id : string) : list FlowRow :=
  List.filter (fun f => sql_holds (sql_eq (fl_src_vm_id f) id)) (network_flows db).

Lemma talker_Ok db id v t : talker db (id, v) = Ok t ->
  t = {| tt_VMID := id; tt_Name := vm_name v; tt_BytesSent := sumZ fl_bytes_sent (flowsFrom db id);
         tt_BytesReceived := sumZ fl_bytes_received (flowsFrom db id);
         tt_TotalBytes := sumZ fl_bytes_sent (flowsFrom db id) + sumZ fl_bytes_received (flowsFrom db id) |}.
Proof.
  unfold talker. cbv zeta. intros (? & ->%bigint_Ok & E)%rbind_Ok. apply rbind_Ok in E as (? & ->%bigint_Ok & E).
  apply rbind_Ok in E as (? & ->%sum_bytes_Ok & E). apply rbind_Ok in E as (? & ->%bigint_Ok & [= <-]). done.
Qed.

Lemma talkers_Ok db rows l : talkers db rows = Ok l -> Forall2 (fun row t => talker db row = Ok t) rows l.
Proof.
  revert l. induction rows as [|row rows IH]; intros l; cbn [talkers]; [intros [= <-]; constructor|].
  intros (t & Ht & (ts & Hts%IH & [= <-])%rbind_Ok)%rbind_Ok. by constructor.
Qed.

(** The top talkers are the top.  At most as many as asked for (ten when
    the limit is out of range) are listed, largest total first; each carries
    the exact sums of its flows; and no machine left out sent and received
    more than one that is listed. *)
Theorem top_talkers_spec (fault : option GoError) (limit : Z) (db : DB) (l : list TopTalker) :
  TopTalkers fault limit db = Ok l ->
  let total id := sumZ fl_bytes_sent (flowsFrom db id) + sumZ fl_bytes_received (flowsFrom db id) in
  (length l <= 100)%nat /\ (1 <= limit <= 100 -> (length l <= Z.to_nat limit)%nat) /\
  Sorted.StronglySorted (newer tt_TotalBytes) l /\
  (forall t, t ∈ l -> exists v, vms db !! tt_VMID t = Some v /\ tt_Name t = vm_name v /\
     tt_TotalBytes t = tt_BytesSent t + tt_BytesReceived t /\ tt_TotalBytes t = total (tt_VMID t)) /\
  (forall t id v, t ∈ l -> vms db !! id = Some v -> id ∉ (tt_VMID <$> l) -> total id <= tt_TotalBytes t).
Proof.
  unfold TopTalkers. destruct fault; [done|]. intros (ts & Hts%talkers_Ok & [= <-])%rbind_Ok. cbv zeta.
  set (n := Z.to_nat (if _ || _ then 10 else limit)).
  assert (Hn : (n <= 100)%nat /\ (1 <= limit <= 100 -> n = Z.to_nat limit)).
  { unfold n. destruct (Z.leb_spec limit 0), (Z.ltb_spec 100 limit); cbn [orb]; lia. }
  assert (Hel : forall t, t ∈ ts -> exists id v, vms db !! id = Some v /\ talker db (id, v) = Ok t).
  { intros t (i & Hi)%list_elem_of_lookup. destruct (Forall2_lookup_r _ _ _ _ _ Hts Hi) as ([id v] & Hr & Ht).
    apply list_elem_of_lookup_2, elem_of_map_to_list in Hr. eauto. }
  split_and!.
  - etrans; [apply query_length|]. lia.
  - intros Hl. destruct Hn as [_ <-]; [apply query_length|done].
  - apply query_sorted.
  - intros t [(id & v & Hv & ->%talker_Ok)%Hel _]%query_elem. exists v. by split_and!.
  - intros t id v Ht Hv Hid.
    assert (Hin : (id, v) ∈ map_to_list (vms db)) by (by apply elem_of_map_to_list).
    apply list_elem_of_lookup in Hin as [i Hi]. destruct (Forall2_lookup_l _ _ _ _ _ Hts Hi) as (t' & Ht' & E%talker_Ok).
    apply list_elem_of_lookup_2 in Ht'.
    assert (tt_TotalBytes t' <= tt_TotalBytes t) as Hle; [|by rewrite E in Hle].
    eapply (query_top (fun _ => true) tt_TotalBytes n ts t t'); [done..|]. intros Hq. apply Hid, list_elem_of_fmap.
    exists t'. split; [by rewrite E|done].
Qed.
End facts.
