(* ===== verification/InventoryAssign.v ===== *)
(** The operator's inventory applied to the machines: [ApplyToDatabase] of
    [backend/internal/service/vm_inventory.go] and
    [ApplyInventoryAssignments] of [vm_service.go], which the backend calls
    once at its start.

    Every entry is a statement of its own, so an error leaves the entries
    before it applied. *)
From S2P Require Import Prelude GoStrings GoFloat GoTime Netip Classifier Sql Store Inventory FlowService AgentService.

#[local] Open Scope Z_scope.

Section assign.
Context `{Postgres}.

(** The [SET] clause. *)
Definition assignVM (e : VMInventoryEntry) (public : option inet) (v : VMRow) : VMRow :=
  {| vm_name := Alias e; vm_tenant_id := coalesce (nullIfEmpty (TenantID e)) (vm_tenant_id v);
     vm_project_id := coalesce (nullIfEmpty (ProjectID e)) (vm_project_id v);
     vm_private_ip := vm_private_ip v; vm_public_ip := coalesce public (vm_public_ip v);
     vm_mac_address := vm_mac_address v; vm_host_id := coalesce (nullIfEmpty (ProviderID e)) (vm_host_id v);
     vm_role := coalesce (nullIfEmpty (Role e)) (vm_role v);
     vm_host_type := coalesce (nullIfEmpty (Type_ e)) (vm_host_type v);
     vm_environment := coalesce (nullIfEmpty (Environment e)) (vm_environment v);
     vm_owner := coalesce (nullIfEmpty (Owner e)) (vm_owner v);
     vm_region := coalesce (nullIfEmpty (Region e)) (vm_region v);
     vm_zone := coalesce (nullIfEmpty (Zone e)) (vm_zone v);
     vm_network_id := coalesce (nullIfEmpty (NetworkID e)) (vm_network_id v);
     vm_subnet_id := coalesce (nullIfEmpty (SubnetID e)) (vm_subnet_id v);
     vm_discovered_by := vm_discovered_by v; vm_agent_id := vm_agent_id v; vm_machine_id := vm_machine_id v;
     vm_status := vm_status v; vm_first_seen := vm_first_seen v; vm_last_seen := vm_last_seen v;
     vm_created_at := vm_created_at v |}.

(** [UPDATE vms ... WHERE private_ip = $14::inet] *)
Definition assignEntry (e : VMInventoryEntry) (db : DB) : Result DB :=
  public <-- cast_inet_opt (PublicIP e) ;;
  addr <-- cast_inet (Host e) ;;
  Ok (with_vms db ((fun v => if bool_decide (vm_private_ip v = Some addr) then assignVM e public v else v) <$> vms db)).

(** The entries from the [i]-th on; [fault] is the error of a statement. *)
Fixpoint assignEntries (fault : nat -> option GoError) (i : nat) (l : list VMInventoryEntry) (db : DB)
    : Result unit * DB :=
  match l with
  | [] => (Ok tt, db)
  | e :: rest =>
      if negb (is_ok (ParseAddr (Host e))) then assignEntries fault i rest db
      else
        match match fault i with Some err => Err err | None => assignEntry e db end with
        | Err err => (Err (ErrorfW "apply VM inventory assignment %s=%s: %w" [Host e; Alias e] err), db)
        | Ok db => assignEntries fault (S i) rest db
        end
  end.

Definition ApplyToDatabase (fault : nat -> option GoError) (inventory : VMInventory) (db : DB) : Result unit * DB :=
  assignEntries fault 0 (entries inventory) db.

Definition ApplyInventoryAssignments (fault : nat -> option GoError) (inventory : option VMInventory) (db : DB)
    : Result unit * DB :=
  match inventory with
  | None => (Ok tt, db)
  | Some inventory => ApplyToDatabase fault inventory db
  end.
End assign.

(** ** Facts *)

Section facts.
Context `{Postgres}.

(** The entry is written to rows with this address. *)
Definition matches (v : VMRow) (e : VMInventoryEntry) : Prop :=
  is_ok (ParseAddr (Host e)) = true /\ exists addr, inet_in (Host e) = Some addr /\ vm_private_ip v = Some addr.

(** What an assignment never touches. *)
Definition same_machine (v v' : VMRow) : Prop :=
  vm_private_ip v' = vm_private_ip v /\ vm_agent_id v' = vm_agent_id v /\ vm_machine_id v' = vm_machine_id v /\
  vm_mac_address v' = vm_mac_address v /\ vm_status v' = vm_status v /\ vm_last_seen v' = vm_last_seen v.

(** What the last matching entry leaves: its alias, and each of its fields
    that is not empty. *)
Definition assigned (e : VMInventoryEntry) (v : VMRow) : Prop :=
  vm_name v = Alias e /\ (TenantID e <> "" -> vm_tenant_id v = Some (TenantID e)) /\
  (ProjectID e <> "" -> vm_project_id v = Some (ProjectID e)) /\ (Role e <> "" -> vm_role v = Some (Role e)) /\
  (Owner e <> "" -> vm_owner v = Some (Owner e)) /\ (Zone e <> "" -> vm_zone v = Some (Zone e)) /\
  (Region e <> "" -> vm_region v = Some (Region e)) /\ (NetworkID e <> "" -> vm_network_id v = Some (NetworkID e)).

Lemma coalesce_field s o : s <> "" -> coalesce (nullIfEmpty s) o = Some s.
Proof. intros Hs. unfold nullIfEmpty. by destruct (String.eqb_spec s ""). Qed.

Lemma assignVM_spec e public v : assigned e (assignVM e public v) /\ same_machine v (assignVM e public v).
Proof. split; [|done]. unfold assigned. cbn. split_and!; [done|intros; by apply coalesce_field..]. Qed.

Lemma assignEntry_Ok e db db' : assignEntry e db = Ok db' ->
  exists public addr, inet_in (Host e) = Some addr /\
    db' = with_vms db ((fun v => if bool_decide (vm_private_ip v = Some addr) then assignVM e public v else v) <$> vms db).
Proof.
  unfold assignEntry, cast_inet. intros (public & _ & (addr & Ha & [= <-])%rbind_Ok)%rbind_Ok. exists public, addr.
  split; [|done]. destruct (inet_in (Host e)); [by injection Ha as ->|done].
Qed.

(** The rows after the entries, one row at a time. *)
Lemma assignEntries_Ok fault i l db db' : assignEntries fault i l db = (Ok tt, db') ->
  forall id v, vms db !! id = Some v -> exists v', vms db' !! id = Some v' /\ same_machine v v' /\
    ((forall e, e ∈ l -> ~ matches v e) -> v' = v) /\
    (forall l1 e l2, l = l1 ++ e :: l2 -> matches v e -> (forall e', e' ∈ l2 -> ~ matches v e') -> assigned e v').
Proof.
  revert i db. induction l as [|e l IH]; intros i db; cbn [assignEntries].
  { intros [= <-] id v Hv. exists v. split_and!; [done..|]. intros l1 e l2 E. by destruct l1. }
  intros E id v Hv. destruct (is_ok (ParseAddr (Host e))) eqn:Hp; cbn [negb] in E.
  - destruct (fault i); [done|]. destruct (assignEntry e db) as [db1|] eqn:Ea; [|done].
    apply assignEntry_Ok in Ea as (public & addr & Haddr & ->).
    set (w := if bool_decide (vm_private_ip v = Some addr) then assignVM e public v else v).
    assert (Hw : same_machine v w) by (unfold w; by destruct (bool_decide _)).
    assert (Hm : forall x, matches w x <-> matches v x) by (intros x; unfold matches; by destruct Hw as [-> _]).
    destruct (IH _ _ E id w) as (v' & Hv' & Hs & Hnone & Hlast); [cbn; by rewrite lookup_fmap, Hv|].
    exists v'. split_and!; [done|unfold same_machine in *; intuition congruence| |].
    + intros Hno. assert (w = v) as Ew.
      { unfold w. rewrite bool_decide_false; [done|]. intros Ev. apply (Hno e); [left|]. split; [done|by exists addr]. }
      rewrite Ew in Hnone. apply Hnone. intros x Hx. apply Hno. by right.
    + intros l1 x l2 El Hx Hafter. destruct l1 as [|y l1]; injection El as -> ->.
      * rewrite Hnone by (intros y Hy; rewrite Hm; by apply Hafter).
        unfold w. destruct Hx as [_ (addr' & Ha' & Hpa)]. rewrite Haddr in Ha'. injection Ha' as <-.
        rewrite bool_decide_true by done. apply assignVM_spec.
      * apply (Hlast l1 x l2); [done|by apply Hm|]. intros y' Hy'. rewrite Hm. by apply Hafter.
  - destruct (IH _ _ E id v Hv) as (v' & Hv' & Hs & Hnone & Hlast). exists v'. split_and!; [done|done| |].
    + intros Hno. apply Hnone. intros x Hx. apply Hno. by right.
    + intros l1 x l2 El Hx Hafter. destruct l1 as [|y l1]; injection El as -> ->; [by destruct Hx as [? _]; congruence|].
      by apply (Hlast l1 x l2).
Qed.

(** The operator's inventory wins.  When the assignments are applied
    without an error, a machine whose address an entry names carries the
    alias and every non-empty field of the last such entry, a machine no
    entry names is unchanged, and none changes its address, agent, status or
    times. *)
Theorem inventory_applied (fault : nat -> option GoError) (inventory : VMInventory) (db db' : DB) (id : string)
    (v : VMRow) :
  ApplyInventoryAssignments fault (Some inventory) db = (Ok tt, db') -> vms db !! id = Some v ->
  exists v', vms db' !! id = Some v' /\ same_machine v v' /\
    ((forall e, e ∈ entries inventory -> ~ matches v e) -> v' = v) /\
    (forall l1 e l2, entries inventory = l1 ++ e :: l2 -> matches v e -> (forall e', e' ∈ l2 -> ~ matches v e') ->
       assigned e v').
Proof. intros E Hv. exact (assignEntries_Ok _ _ _ _ _ E id v Hv). Qed.
End facts.
