(* ===== verification/GraphService.v ===== *)
(** The queries of the communication graph,
    [backend/internal/service/graph_service.go], composed with the fold of
    Graph over the tables of Store.

    An error of a statement, a bigint overflow in the [min_bytes] condition
    included, is a fault of that statement. *)
From S2P Require Import Prelude GoStrings GoFloat GoTime Netip Classifier Graph Sql Store FlowService AgentService VMService.

#[local] Open Scope Z_scope.

Section service.
Context `{Postgres} (collate : string -> string -> bool).

(** The machine a nullable reference joins, and its columns. *)
Definition joined (db : DB) (id : option string) : option VMRow := id ≫= fun i => vms db !! i.

(** A condition the query has only when the filter asks for it. *)
Definition when_text (value : string) (c : bool) : bool := (value =? "")%string || c.
Definition when_pos (value : Z) (c : bool) : bool := negb (0 <? value) || c.

Definition either (a b : option string) (value : string) : bool := sql_holds (sql_or (sql_eq a value) (sql_eq b value)).

(** The conditions on the joined machines that both queries share. *)
Definition machineConditions (filter : GraphFilter) (src dst : option string) (sv dv : option VMRow) : bool :=
  when_text (FTenantID filter) (either (sv ≫= vm_tenant_id) (dv ≫= vm_tenant_id) (FTenantID filter))
  && when_text (FProjectID filter) (either (sv ≫= vm_project_id) (dv ≫= vm_project_id) (FProjectID filter))
  && when_text (FVMID filter) (either src dst (FVMID filter))
  && when_text (FStatus filter) (either (vm_status <$> sv) (vm_status <$> dv) (FStatus filter)).

Definition flowConditions (filter : GraphFilter) (cutoff : time) (db : DB) (f : FlowRow) : bool :=
  (cutoff <=? fl_observed_at f)
  && when_text (FAgentID filter) (sql_holds (sql_eq (fl_agent_id f) (FAgentID filter)))
  && machineConditions filter (fl_src_vm_id f) (fl_dst_vm_id f) (joined db (fl_src_vm_id f)) (joined db (fl_dst_vm_id f))
  && when_text (FScope filter) (fl_scope f =? FScope filter)%string
  && when_text (FProtocol filter) (fl_protocol f =? FProtocol filter)%string
  && when_pos (FPort filter) (fl_dst_port f =? FPort filter)
  && when_pos (MinBytes filter) (MinBytes filter <=? fl_bytes_sent f + fl_bytes_received f).

Definition flowRow (db : DB) (f : FlowRow) : graphFlowRow :=
  let sv := joined db (fl_src_vm_id f) in
  let dv := joined db (fl_dst_vm_id f) in
  {| AgentID := text (fl_agent_id f); SrcVMID := text (fl_src_vm_id f); DstVMID := text (fl_dst_vm_id f);
     SrcIP := host (fl_src_ip f); DstIP := host (fl_dst_ip f); SrcPort := fl_src_port f; DstPort := fl_dst_port f;
     Protocol := fl_protocol f; Direction := fl_direction f; RScope := fl_scope f;
     BytesSent := fl_bytes_sent f; BytesReceived := fl_bytes_received f; PacketCount := fl_packets f;
     Connections := fl_connection_count f; Requests := fl_request_count f; Errors := fl_error_count f;
     Retransmits := fl_retransmission_count f; AvgRTTMs := fl_avg_rtt_ms f; AvgAppDelayMs := fl_avg_app_delay_ms f;
     HTTP2xx := fl_http_2xx f; HTTP4xx := fl_http_4xx f; HTTP5xx := fl_http_5xx f;
     LastHTTPStatus := default 0 (fl_last_http_status f);
     FirstSeen := fl_first_seen f; LastSeen := fl_last_seen f; ObservedAt := fl_observed_at f;
     LastErrorAt := fl_last_error_at f;
     SrcName := text (vm_name <$> sv); SrcTenant := text (sv ≫= vm_tenant_id);
     SrcPrivateIP := text (host <$> (sv ≫= vm_private_ip)); SrcStatus := text (vm_status <$> sv);
     SrcRole := text (sv ≫= vm_role); SrcAgentID := text (sv ≫= vm_agent_id);
     DstName := text (vm_name <$> dv); DstTenant := text (dv ≫= vm_tenant_id);
     DstPrivateIP := text (host <$> (dv ≫= vm_private_ip)); DstStatus := text (vm_status <$> dv);
     DstRole := text (dv ≫= vm_role); DstAgentID := text (dv ≫= vm_agent_id) |}.

(** The flow rows of [Get]. *)
Definition flowRows (pgnow : time) (filter : GraphFilter) (db : DB) : list graphFlowRow :=
  let cutoff := timestamptz pgnow - sql_interval (TimeRange filter) in
  map (flowRow db) (query (flowConditions filter cutoff db) fl_observed_at 5000 (network_flows db)).

(** The joins of [connectionProbeRows] need both machines. *)
Definition probeConditions (filter : GraphFilter) (cutoff : time) (db : DB) (q : ProbeRow) : bool :=
  isSome (vms db !! pr_src_vm_id q) && isSome (joined db (pr_dst_vm_id q))
  && (pr_source q =? "vmlens_probe")%string && (pr_probe_type q =? "connectivity_check")%string
  && (cutoff <=? pr_observed_at q)
  && when_text (FAgentID filter) (pr_agent_id q =? FAgentID filter)%string
  && machineConditions filter (Some (pr_src_vm_id q)) (pr_dst_vm_id q) (vms db !! pr_src_vm_id q) (joined db (pr_dst_vm_id q))
  && when_text (FProtocol filter) (pr_protocol q =? FProtocol filter)%string
  && when_pos (FPort filter) (pr_dst_port q =? FPort filter).

Definition probeRow (db : DB) (q : ProbeRow) : graphProbeRow :=
  let sv := vms db !! pr_src_vm_id q in
  let dv := joined db (pr_dst_vm_id q) in
  {| PAgentID := pr_agent_id q; PSrcVMID := pr_src_vm_id q; PDstVMID := text (pr_dst_vm_id q);
     PSrcIP := host (pr_src_ip q); PDstIP := host (pr_dst_ip q); PProtocol := pr_protocol q; PDstPort := pr_dst_port q;
     PScope := if (text (sv ≫= vm_tenant_id) =? text (dv ≫= vm_tenant_id))%string
               then "internal_same_tenant" else "internal_cross_tenant";
     PSuccess := pr_success q; PRTTMs := pr_rtt_ms q; PError := text (pr_error q);
     PFirstSeen := pr_first_seen q; PLastSeen := pr_last_seen q; PObservedAt := pr_observed_at q;
     PSrcName := text (vm_name <$> sv); PSrcTenant := text (sv ≫= vm_tenant_id);
     PSrcPrivateIP := text (host <$> (sv ≫= vm_private_ip)); PSrcStatus := text (vm_status <$> sv);
     PSrcRole := text (sv ≫= vm_role);
     PDstName := text (vm_name <$> dv); PDstTenant := text (dv ≫= vm_tenant_id);
     PDstPrivateIP := text (host <$> (dv ≫= vm_private_ip)); PDstStatus := text (vm_status <$> dv);
     PDstRole := text (dv ≫= vm_role) |}.

Definition connectionProbeRows (pgnow : time) (filter : GraphFilter) (db : DB) : list graphProbeRow :=
  let cutoff := timestamptz pgnow - sql_interval connectionProbeGraphTTL in
  map (probeRow db) (query (probeConditions filter cutoff db) pr_observed_at 1000 (connection_probes db)).

(** The fields of a listed machine the graph uses. *)
Definition graphVM (vm : ListedVM) : VM :=
  {| VID := lv_ID vm; VName := lv_Name vm; VTenantID := lv_TenantID vm; VProjectID := lv_ProjectID vm;
     VPrivateIP := lv_PrivateIP vm; VRole := lv_Role vm; VAgentID := lv_AgentID vm; VStatus := lv_Status vm |}.

Definition default_range (filter : GraphFilter) : GraphFilter :=
  {| FAgentID := FAgentID filter; FTenantID := FTenantID filter; FProjectID := FProjectID filter; FVMID := FVMID filter;
     FScope := FScope filter; FProtocol := FProtocol filter; FPort := FPort filter;
     TimeRange := if TimeRange filter <=? 0 then 15 * Minute else TimeRange filter;
     MinBytes := MinBytes filter; FStatus := FStatus filter |}.

(** [GraphService.Get]: statement 0 fetches the flows, 1 the probes, 2 and 3
    the machines. *)
Definition GetGraph (fault : nat -> option GoError) (v : GraphVisibility) (activeWindow : duration) (now pgnow : time)
    (filter : GraphFilter) (db : DB) : Result Graph :=
  let filter := default_range filter in
  match fault 0%nat with
  | Some err => Err err
  | None =>
      match fault 1%nat with
      | Some err => Err err
      | None =>
          vms <-- ListVMs collate (fun i => fault (2 + i)%nat) db ;;
          Ok (Get v now activeWindow filter (map graphVM vms) (flowRows pgnow filter db)
                (connectionProbeRows pgnow filter db))
      end
  end.
End service.

(** * Facts *)

(** When every registered machine is a node, the flow loop drops only rows
    the visibility rules hide and rows from an endpoint to itself. *)
Definition all_visible (b : Build) : Prop := forall id, id ∈ vmByID b -> is_Some (nodes b !! id).

Definition self_row (row : graphFlowRow) : bool :=
  (SrcIP row =? DstIP row)%string || (negb (SrcVMID row =? "")%string && (SrcVMID row =? DstVMID row)%string).
Definition shows (v : GraphVisibility) (row : graphFlowRow) : bool := negb (hideFlow v row) && negb (self_row row).

Lemma all_visible_invisible b id : all_visible b -> invisible_vm b id = false.
Proof.
  intros Hb. unfold invisible_vm. case_bool_decide as Hid; [|done]. by destruct (Hb id Hid) as [n ->].
Qed.

Lemma keeps_flow_visible v b row : all_visible b -> keeps_flow v b row = shows v row.
Proof.
  intros Hb. unfold keeps_flow, shows, self_row. rewrite !all_visible_invisible by done.
  destruct (hideFlow v row); [done|]. by destruct (_ || _).
Qed.

Lemma flow_step_visible v b raw : all_visible b -> all_visible (flow_step v b raw).
Proof.
  intros Hb. unfold flow_step. destruct (negb _); [done|]. intros id Hid. cbn [nodes vmByID] in *.
  by apply alter_is_Some, alter_is_Some, ensure_node_mono, ensure_node_mono, Hb.
Qed.

Lemma kept_rows_visible v b rows : all_visible b ->
  kept_rows v b rows = List.filter (shows v) (map normalizeGraphRow rows).
Proof.
  revert b. induction rows as [|r rows IH]; intros b Hb; cbn [kept_rows map List.filter]; [done|].
  rewrite keeps_flow_visible, IH by (done || by apply flow_step_visible). by destruct (shows v _).
Qed.

Lemma seed_visible filter vms :
  (forall vm, vm ∈ vms -> seeds filter vm = true) ->
  let b := foldl (seed_vm filter) {| nodes := ∅; edges := ∅; vmByID := ∅ |} vms in
  all_visible b /\ (forall vm, vm ∈ vms -> exists n, nodes b !! VID vm = Some n /\ NType n = "vm").
Proof.
  cbv zeta. induction vms as [|vm vms IH] using rev_ind; intros Hs.
  { split; [|by intros ? ?%elem_of_nil]. intros id Hid. by apply elem_of_empty in Hid. }
  destruct IH as [Hb Hn]; [intros; apply Hs, elem_of_app; by left|].
  rewrite foldl_app. cbn [foldl]. unfold seed_vm at 1 3. rewrite (Hs vm) by (apply elem_of_app; right; left).
  set (b := foldl _ _ vms) in *. split.
  - intros id. cbn [vmByID nodes]. rewrite elem_of_union, elem_of_singleton.
    destruct (decide (id = VID vm)) as [->|]; [by rewrite lookup_insert_eq|].
    rewrite lookup_insert_ne by done. intros [?|?]; [done|by apply Hb].
  - intros vm' [Hin| ->%list_elem_of_singleton]%elem_of_app; cbn [nodes]; [|rewrite lookup_insert_eq; by eexists].
    destruct (decide (VID vm = VID vm')) as [->|]; [rewrite lookup_insert_eq; by eexists|].
    rewrite lookup_insert_ne by done. by apply Hn.
Qed.

Lemma normalize_bytes row : row_bytes (normalizeGraphRow row) = row_bytes row.
Proof. unfold normalizeGraphRow, row_bytes. destruct (negb _); cbn; lia. Qed.

Lemma sumZ_filter_map {A B} (f : B -> Z) (p : B -> bool) (g : A -> B) (l : list A) :
  sumZ f (List.filter p (map g l)) = sumZ (fun x => f (g x)) (List.filter (fun x => p (g x)) l).
Proof. induction l as [|x l IH]; [done|]. cbn [map List.filter].
  destruct (p (g x)); rewrite ?sumZ_cons, IH; done.
Qed.

Section shown_traffic.
Context `{Postgres} (collate : string -> string -> bool).

(** A filter that selects flows only. *)
Definition flow_filter (filter : GraphFilter) : Prop :=
  FAgentID filter = "" /\ FTenantID filter = "" /\ FProjectID filter = "" /\ FVMID filter = "" /\ FStatus filter = "".

Definition flow_bytes (f : FlowRow) : Z := fl_bytes_sent f + fl_bytes_received f.

Lemma seeds_flow_filter filter vm : flow_filter filter -> VStatus vm <> "deleted" -> seeds filter vm = true.
Proof.
  intros (Ha & Ht & Hp & Hv & Hs) Hd. unfold seeds. rewrite Ha, Ht, Hp, Hv, Hs. cbn. unfold visibleVM. cbn.
  destruct (String.eqb_spec (VStatus vm) "deleted"); done.
Qed.

Lemma GetGraph_Ok fault v w now pgnow filter db g : GetGraph collate fault v w now pgnow filter db = Ok g ->
  exists vms, ListVMs collate (fun i => fault (2 + i)%nat) db = Ok vms /\
    g = Get v now w (default_range filter) (map graphVM vms) (flowRows pgnow (default_range filter) db)
          (connectionProbeRows pgnow (default_range filter) db).
Proof.
  unfold GetGraph. destruct (fault 0%nat); [done|]. destruct (fault 1%nat); [done|].
  intros (l & Hl & [= <-])%rbind_Ok. by exists l.
Qed.

End shown_traffic.
