(* ===== verification/ConnectionViews.v ===== *)
(** The queries of connection views,
    [backend/internal/service/connection_state_service.go], composed with the
    fold of ConnectionState over the tables.

    Intents and configurations are tables of migration 009 that the program
    only reads. *)
From S2P Require Import Prelude GoStrings GoFloat GoTime Netip Graph ConnectionState Sql Store FlowService AgentService VMService GraphService.

#[local] Open Scope Z_scope.

Record ConnectionViewFilter := { vf_TenantID : string; vf_ProjectID : string; vf_VMID : string; vf_TimeRange : duration }.

Record IntentRow := {
  in_id : string; in_tenant_id : option string; in_project_id : option string; in_source_vm_id : string;
  in_dest_vm_id : string; in_protocol : string; in_port : Z; in_purpose : option string; in_exposure : string;
  in_required : bool; in_status : string; in_created_by : option string; in_created_at : time; in_updated_at : time
}.

Record ConfigRow := {
  cf_id : string; cf_tenant_id : option string; cf_project_id : option string; cf_intent_id : option string;
  cf_source_vm_id : string; cf_dest_vm_id : string; cf_protocol : string; cf_port : Z;
  cf_firewall_rule_id : option string; cf_route_id : option string; cf_network_id : option string;
  cf_config_state : string; cf_security_state : string; cf_last_synced_at : option time; cf_updated_at : time
}.

Definition defaultConnectionViewWindow : duration := 15 * Minute.
Definition slowRTTMS : float64 := f_of_Z 100.

(** [NewConnectionStateService] on the configured window. *)
Definition stateWindow (activeWindow : duration) : duration := if activeWindow <=? 0 then 5 * Second else activeWindow.

(** The condition [addConnectionFilter] appends. *)
Definition addConnectionFilter (column : option string) (value : string) : bool :=
  let value := TrimSpace value in
  when_text value (sql_holds (sql_eq column value)).

Section service.
Context `{Postgres}.

Definition intentConditions (filter : ConnectionViewFilter) (r : IntentRow) : bool :=
  addConnectionFilter (in_tenant_id r) (vf_TenantID filter)
  && addConnectionFilter (in_project_id r) (vf_ProjectID filter)
  && when_text (vf_VMID filter) (either (Some (in_source_vm_id r)) (Some (in_dest_vm_id r)) (vf_VMID filter)).

Definition scanIntent (r : IntentRow) : ConnectionIntent :=
  {| IID := in_id r; ITenantID := text (in_tenant_id r); IProjectID := text (in_project_id r);
     ISourceVMID := in_source_vm_id r; IDestVMID := in_dest_vm_id r; IProtocol := in_protocol r; IPort := in_port r;
     Purpose := text (in_purpose r); Exposure := in_exposure r; Required := in_required r; IStatus := in_status r;
     CreatedBy := text (in_created_by r); CreatedAt := in_created_at r; ConnectionState.UpdatedAt := in_updated_at r |}.

Definition listIntents (filter : ConnectionViewFilter) (intents : list IntentRow) : list ConnectionIntent :=
  map scanIntent (query (intentConditions filter) in_updated_at 2000 intents).

Definition configConditions (filter : ConnectionViewFilter) (r : ConfigRow) : bool :=
  addConnectionFilter (cf_tenant_id r) (vf_TenantID filter)
  && addConnectionFilter (cf_project_id r) (vf_ProjectID filter)
  && when_text (vf_VMID filter) (either (Some (cf_source_vm_id r)) (Some (cf_dest_vm_id r)) (vf_VMID filter)).

Definition scanConfiguration (r : ConfigRow) : ConnectionConfiguration :=
  {| CID := cf_id r; CTenantID := text (cf_tenant_id r); CProjectID := text (cf_project_id r);
     IntentID := text (cf_intent_id r); CSourceVMID := cf_source_vm_id r; CDestVMID := cf_dest_vm_id r;
     CProtocol := cf_protocol r; CPort := cf_port r; FirewallRuleID := text (cf_firewall_rule_id r);
     RouteID := text (cf_route_id r); NetworkID := text (cf_network_id r); ConfigState := cf_config_state r;
     CSecurityState := cf_security_state r; LastSyncedAt := cf_last_synced_at r |}.

Definition listConfigurations (filter : ConnectionViewFilter) (configs : list ConfigRow) : list ConnectionConfiguration :=
  map scanConfiguration (query (configConditions filter) cf_updated_at 2000 configs).

(** ** Observed flows *)

(** The conditions on the two machines of a flow or probe. *)
Definition pairConditions (filter : ConnectionViewFilter) (src dst : option string) (sv dv : option VMRow) : bool :=
  isSome sv && isSome dv
  && when_text (vf_TenantID filter) (either (sv ≫= vm_tenant_id) (dv ≫= vm_tenant_id) (vf_TenantID filter))
  && when_text (vf_ProjectID filter) (either (sv ≫= vm_project_id) (dv ≫= vm_project_id) (vf_ProjectID filter))
  && when_text (vf_VMID filter) (either src dst (vf_VMID filter)).

Definition observedConditions (filter : ConnectionViewFilter) (cutoff : time) (db : DB) (f : FlowRow) : bool :=
  (cutoff <=? fl_observed_at f)
  && pairConditions filter (fl_src_vm_id f) (fl_dst_vm_id f) (joined db (fl_src_vm_id f)) (joined db (fl_dst_vm_id f)).

(** The [GROUP BY] columns; the names, tenant and project of a machine are
    determined by its identifier. *)
Definition observedGroup (f : FlowRow) : option string * option string * inet * inet * string * Z * string :=
  (fl_src_vm_id f, fl_dst_vm_id f, fl_src_ip f, fl_dst_ip f, fl_protocol f, fl_dst_port f, fl_scope f).

(** [MAX] of a nullable column. *)
Definition max_time (l : list (option time)) : option time :=
  foldl (fun acc o => match o with Some t => later acc t | None => acc end) None l.

(** An aggregated row; the sum of [bytes_sent + bytes_received] may overflow. *)
Definition aggregateRow (db : DB) (g : list FlowRow) : Result observedConnectionRow :=
  match g with
  | [] => Err (pg_error "empty group")
  | f :: _ =>
      let sv := joined db (fl_src_vm_id f) in
      let dv := joined db (fl_dst_vm_id f) in
      bytes <-- sum_bytes g ;;
      Ok {| RSourceVMID := text (fl_src_vm_id f); RDestVMID := text (fl_dst_vm_id f);
            RSourceName := text (vm_name <$> sv); RDestName := text (vm_name <$> dv);
            RSourceIP := host (fl_src_ip f); RDestIP := host (fl_dst_ip f);
            RTenantID := text (sv ≫= vm_tenant_id); RProjectID := text (sv ≫= vm_project_id);
            RProtocol := fl_protocol f; RPort := fl_dst_port f; ROScope := fl_scope f;
            RRequestCount := sumZ fl_request_count g; RErrorCount := sumZ fl_error_count g; RBytesTotal := bytes;
            RLastObservedAt := sql_max (map fl_observed_at g); RLastErrorAt := max_time (map fl_last_error_at g) |}
  end.

Fixpoint traverse {A B} (f : A -> Result B) (l : list A) : Result (list B) :=
  match l with
  | [] => Ok []
  | x :: rest => y <-- f x ;; ys <-- traverse f rest ;; Ok (y :: ys)
  end.

(** Scanning a row: the sums must fit an [int64]. *)
Definition scanObserved (r : observedConnectionRow) : Result observedConnectionRow :=
  _ <-- scan_int64 (RRequestCount r) ;;
  _ <-- scan_int64 (RErrorCount r) ;;
  _ <-- scan_int64 (RBytesTotal r) ;;
  Ok r.

Definition listObserved (pgnow : time) (filter : ConnectionViewFilter) (db : DB) : Result (list observedConnectionRow) :=
  let cutoff := timestamptz pgnow - sql_interval (vf_TimeRange filter) in
  let flows := List.filter (observedConditions filter cutoff db) (network_flows db) in
  rows <-- traverse (aggregateRow db) (group_by observedGroup flows).*2 ;;
  traverse scanObserved (query (fun _ => true) RLastObservedAt 5000 rows).

(** ** Probes *)

Definition probeViewConditions (filter : ConnectionViewFilter) (cutoff : time) (db : DB) (q : ProbeRow) : bool :=
  (pr_source q =? "vmlens_probe")%string && (pr_probe_type q =? "connectivity_check")%string
  && (cutoff <=? pr_observed_at q)
  && pairConditions filter (Some (pr_src_vm_id q)) (pr_dst_vm_id q) (vms db !! pr_src_vm_id q) (joined db (pr_dst_vm_id q)).

Definition scanProbe (q : ProbeRow) : probeConnectionRow :=
  {| PSourceVMID := pr_src_vm_id q; PDestVMID := text (pr_dst_vm_id q); PRProtocol := pr_protocol q;
     PPort := pr_dst_port q; Success := pr_success q; RTTMs := pr_rtt_ms q; PRObservedAt := pr_observed_at q;
     LastErrorText := text (pr_error q) |}.

Definition listProbes (pgnow : time) (filter : ConnectionViewFilter) (db : DB) : list probeConnectionRow :=
  let cutoff := timestamptz pgnow - sql_interval (vf_TimeRange filter) in
  map scanProbe (query (probeViewConditions filter cutoff db) pr_observed_at 5000 (connection_probes db)).

(** [ConnectionStateService.List]: statements 0 to 3 are the four queries. *)
Definition ListConnections (fault : nat -> option GoError) (activeWindow : duration) (now pgnow : time)
    (filter : ConnectionViewFilter) (intents : list IntentRow) (configs : list ConfigRow) (db : DB)
    : Result (list ConnectionView) :=
  let filter := {| vf_TenantID := vf_TenantID filter; vf_ProjectID := vf_ProjectID filter; vf_VMID := vf_VMID filter;
                   vf_TimeRange := if vf_TimeRange filter <=? 0 then defaultConnectionViewWindow
                                   else vf_TimeRange filter |} in
  let statement k {A} (r : Result A) : Result A := match fault k with Some err => Err err | None => r end in
  intents <-- statement 0%nat (Ok (listIntents filter intents)) ;;
  configs <-- statement 1%nat (Ok (listConfigurations filter configs)) ;;
  observed <-- statement 2%nat (listObserved pgnow filter db) ;;
  probes <-- statement 3%nat (Ok (listProbes pgnow filter db)) ;;
  Ok (List_views now (stateWindow activeWindow) slowRTTMS intents configs observed probes).
End service.

(** * Facts *)

(** ** The key of a view *)

Definition view_key (v : ConnectionView) : string :=
  connectionStateKey (SourceVMID v) (DestVMID v) (VWProtocol v) (Port v).

Definition keyed (views : Views) : Prop := map_Forall (fun k v => view_key v = k) views.

Lemma update_view_keyed views sv dv pr po f : (forall v, view_key (f v) = view_key v) -> keyed views ->
  keyed (update_view views (connectionStateKey sv dv pr po) sv dv pr po f).
Proof.
  intros Hf Hv. apply map_Forall_insert_2; [|done]. rewrite Hf. destruct (views !! _) as [v|] eqn:E; [by apply Hv|done].
Qed.

Lemma fold_keyed {A} (step : Views -> A -> Views) l views :
  (forall m x, keyed m -> keyed (step m x)) -> keyed views -> keyed (foldl step views l).
Proof. intros Hs. revert views. induction l as [|x l IH]; intros m Hm; [done|]. cbn. by apply IH, Hs. Qed.

Lemma collect_views_keyed now w intents configs observed probes :
  keyed (collect_views now w intents configs observed probes).
Proof.
  unfold collect_views.
  do 4 (apply fold_keyed; [intros m x Hm; by apply update_view_keyed|]). apply map_Forall_empty.
Qed.

Lemma finish_view_key slow configs v : view_key (finish_view slow configs v) = view_key v.
Proof.
  assert (Hf : forall u, view_key (finalizeConnectionView slow u) = view_key u).
  { intros u. unfold finalizeConnectionView. by repeat case_match. }
  unfold finish_view. rewrite Hf. by repeat case_match.
Qed.

Lemma finish_view_observed slow configs v : ObservedV (finish_view slow configs v) = ObservedV v.
Proof.
  assert (Hf : forall u, ObservedV (finalizeConnectionView slow u) = ObservedV u).
  { intros u. unfold finalizeConnectionView. by repeat case_match. }
  unfold finish_view. rewrite Hf. by repeat case_match.
Qed.

(** The views of [List_views] by their keys. *)
Lemma List_views_keys now w slow intents configs observed probes :
  let views := List_views now w slow intents configs observed probes in
  NoDup (view_key <$> views) /\
  forall v, v ∈ views <-> exists u, collect_views now w intents configs observed probes !! view_key v = Some u /\
    v = finish_view slow (config_by_key configs) u.
Proof.
  cbv zeta. unfold List_views. set (m := collect_views _ _ _ _ _ _).
  assert (Hk : keyed m) by apply collect_views_keyed. split.
  - change (map ?f ?l) with (f <$> l). rewrite <- !list_fmap_compose.
    rewrite (list_fmap_ext _ fst).
    + apply NoDup_fst_map_to_list.
    + intros i [k u] Hu. cbn. rewrite finish_view_key. apply Hk.
      by apply elem_of_map_to_list, (list_elem_of_lookup_2 _ i).
  - intros v. change (map ?f ?l) with (f <$> l). rewrite <- list_fmap_compose, list_elem_of_fmap. split.
    + intros ([k u] & -> & Hu%elem_of_map_to_list). exists u. cbn. rewrite finish_view_key. by rewrite (Hk _ _ Hu).
    + intros (u & Hu & E). exists (view_key v, u). split; [done|]. by apply elem_of_map_to_list.
Qed.

(** ** The row a view shows *)

(** After the loop over observed rows, a view shows the last of its rows. *)
Lemma fold_observed_last now w views rows k v : foldl (step_observed now w) views rows !! k = Some v ->
  k ∈ map observed_key rows ->
  exists l1 r l2, rows = l1 ++ r :: l2 /\ observed_key r = k /\ (k ∉ map observed_key l2) /\
    ObservedV v = observed_of now w r.
Proof.
  revert v. induction rows as [|r rows IH] using rev_ind; intros v; [by intros _ ?%elem_of_nil|].
  rewrite foldl_app. cbn [foldl]. unfold step_observed at 1, update_view. fold (observed_key r).
  destruct (decide (observed_key r = k)) as [Hk|Hk].
  - rewrite <- Hk, lookup_insert_eq. intros [= <-] _. exists rows, r, []. split_and!; [done..|by intros ?%elem_of_nil|done].
  - rewrite lookup_insert_ne by done. intros Hv. rewrite map_app, elem_of_app. intros [Hin|Hin].
    + destruct (IH v Hv Hin) as (l1 & r0 & l2 & -> & ? & ? & ?). exists l1, r0, (l2 ++ [r]).
      split_and!; [by rewrite <- app_assoc|done| |done]. rewrite map_app, elem_of_app. cbn.
      intros [?|E%list_elem_of_singleton]; [done|by destruct Hk].
    + cbn in Hin. apply list_elem_of_singleton in Hin. by destruct Hk.
Qed.

Lemma traverse_Ok {A B} (f : A -> Result B) l r : traverse f l = Ok r -> Forall2 (fun x y => f x = Ok y) l r.
Proof.
  revert r. induction l as [|x l IH]; intros r; cbn [traverse]; [intros [= <-]; constructor|].
  intros (y & Hy & (ys & Hys%IH & [= <-])%rbind_Ok)%rbind_Ok. by constructor.
Qed.

Lemma scanObserved_Ok r r' : scanObserved r = Ok r' -> r' = r.
Proof. unfold scanObserved. by intros (? & _ & (? & _ & (? & _ & [= <-])%rbind_Ok)%rbind_Ok)%rbind_Ok. Qed.

Section listed.
Context `{Postgres}.

Lemma listObserved_Ok pgnow filter db observed : listObserved pgnow filter db = Ok observed ->
  exists rows, let cutoff := timestamptz pgnow - sql_interval (vf_TimeRange filter) in
  traverse (aggregateRow db) (group_by observedGroup (List.filter (observedConditions filter cutoff db)
    (network_flows db))).*2 = Ok rows /\ observed = query (fun _ => true) RLastObservedAt 5000 rows.
Proof.
  unfold listObserved. cbv zeta. intros (rows & Hr & E%traverse_Ok)%rbind_Ok. exists rows. split; [done|]. clear Hr.
  symmetry. induction E as [|x y l l' Hx%scanObserved_Ok E IH]; [done|]. by rewrite Hx, IH.
Qed.

(** A connection seen in several rows shows its oldest one.  Rows are
    read newest first and each overwrites the observed state of its
    connection, so when the flows of two machines fall into several rows
    (several addresses or scopes), the counters, the last observation and the
    activity of the view are those of a row observed no later than any
    other. *)
Theorem view_shows_oldest_row (now pgnow : time) (w : duration) (filter : ConnectionViewFilter) (db : DB)
    (intents : list ConnectionIntent) (configs : list ConnectionConfiguration) (observed : list observedConnectionRow)
    (v : ConnectionView) (r : observedConnectionRow) :
  listObserved pgnow filter db = Ok observed ->
  v ∈ List_views now w slowRTTMS intents configs observed [] ->
  r ∈ observed -> observed_key r = view_key v ->
  exists r0, r0 ∈ observed /\ observed_key r0 = view_key v /\ ObservedV v = observed_of now w r0 /\
    RLastObservedAt r0 <= RLastObservedAt r.
Proof.
  intros (rows & _ & ->)%listObserved_Ok Hv Hr Hk. apply List_views_keys in Hv as (u & Hu & E).
  rewrite E, finish_view_observed in *. rewrite <- Hk in Hu |- *. unfold collect_views in Hu. cbn [foldl] in Hu.
  set (q := query _ _ _ rows) in *.
  assert (Hin : observed_key r ∈ map observed_key q) by (apply list_elem_of_fmap; eauto).
  destruct (fold_observed_last now w _ q _ u Hu Hin) as (l1 & r0 & l2 & Hq & Hk0 & Hn & Ho).
  exists r0. split_and!; [rewrite Hq; apply elem_of_app; right; left|done|done|].
  assert (Hs : Sorted.StronglySorted (newer RLastObservedAt) q) by apply query_sorted.
  rewrite Hq in Hs, Hr. apply elem_of_app in Hr as [Hr|[-> |Hr]%elem_of_cons]; [|lia|].
  - clear -Hs Hr. induction l1 as [|x l1 IH]; [by apply elem_of_nil in Hr|]. cbn in Hs. inversion Hs as [|? ? Hs' Hall]; subst.
    apply elem_of_cons in Hr as [-> |Hr]; [|by apply IH]. rewrite Forall_forall in Hall. apply Hall.
    apply elem_of_app. right. left.
  - exfalso. apply Hn, list_elem_of_fmap. eauto.
Qed.

(** ** Completeness *)

Lemma ListConnections_Ok fault window now pgnow filter intents configs db views :
  ListConnections fault window now pgnow filter intents configs db = Ok views ->
  exists observed, let range := {| vf_TenantID := vf_TenantID filter; vf_ProjectID := vf_ProjectID filter;
      vf_VMID := vf_VMID filter;
      vf_TimeRange := if vf_TimeRange filter <=? 0 then defaultConnectionViewWindow else vf_TimeRange filter |} in
    listObserved pgnow range db = Ok observed /\
    views = List_views now (stateWindow window) slowRTTMS (listIntents range intents) (listConfigurations range configs)
              observed (listProbes pgnow range db).
Proof.
  unfold ListConnections. cbv zeta. destruct (fault 0%nat), (fault 1%nat), (fault 2%nat); try done; cbn [rbind].
  intros (observed & Ho & E)%rbind_Ok. destruct (fault 3%nat); [done|]. injection E as <-. by exists observed.
Qed.

Lemma List_views_evidence now w slow intents configs observed probes k :
  k ∈ (view_key <$> List_views now w slow intents configs observed probes) <->
  k ∈ evidence_keys intents configs observed probes.
Proof.
  transitivity (k ∈ (list_to_set (evidence_keys intents configs observed probes) : gset string));
    [|apply elem_of_list_to_set].
  rewrite <- (collect_views_dom now w), elem_of_dom.
  destruct (List_views_keys now w slow intents configs observed probes) as [_ Hv]. rewrite list_elem_of_fmap. split.
  - intros (v & -> & (u & Hu & _)%Hv). by eexists.
  - intros [u Hu]. exists (finish_view slow (config_by_key configs) u).
    assert (Ek : view_key u = k) by (by apply (collect_views_keyed now w intents configs observed probes)).
    rewrite finish_view_key. split; [done|]. apply Hv. exists u. by rewrite finish_view_key, Ek.
Qed.

(** The connection a stored flow is evidence of. *)
Definition flow_connection (f : FlowRow) : string :=
  connectionStateKey (text (fl_src_vm_id f)) (text (fl_dst_vm_id f)) (fl_protocol f) (fl_dst_port f).
Definition probe_connection (q : ProbeRow) : string :=
  connectionStateKey (pr_src_vm_id q) (text (pr_dst_vm_id q)) (pr_protocol q) (pr_dst_port q).

Lemma aggregateRow_Ok db g r f : aggregateRow db g = Ok r -> f ∈ g ->
  (forall x y, x ∈ g -> y ∈ g -> observedGroup x = observedGroup y) -> observed_key r = flow_connection f.
Proof.
  destruct g as [|f0 g]; [done|]. cbn [aggregateRow]. cbv zeta. intros (bytes & _ & [= <-])%rbind_Ok Hf Hg.
  assert (E : observedGroup f = observedGroup f0) by (apply Hg; [done|left]). injection E as E1 E2 _ _ E3 E4 _.
  unfold observed_key, flow_connection. cbn. by rewrite E1, E2, E3, E4.
Qed.

Lemma aggregateRow_key db g r : aggregateRow db g = Ok r -> exists f, f ∈ g /\ observed_key r = flow_connection f.
Proof.
  destruct g as [|f0 g]; [done|]. cbn [aggregateRow]. cbv zeta. intros (bytes & _ & [= <-])%rbind_Ok.
  exists f0. split; [left|done].
Qed.

Lemma listObserved_elem pgnow filter db observed : listObserved pgnow filter db = Ok observed ->
  let cutoff := timestamptz pgnow - sql_interval (vf_TimeRange filter) in
  (forall r, r ∈ observed -> exists f, f ∈ network_flows db /\ observedConditions filter cutoff db f = true /\
     observed_key r = flow_connection f) /\
  ((length observed < 5000)%nat -> forall f, f ∈ network_flows db -> observedConditions filter cutoff db f = true ->
     flow_connection f ∈ map observed_key observed).
Proof.
  intros (rows & Ht%traverse_Ok & ->)%listObserved_Ok. cbv zeta in *. set (flows := List.filter _ _) in *. split.
  - intros r [Hr _]%query_elem. apply list_elem_of_lookup in Hr as [i Hi].
    destruct (Forall2_lookup_r _ _ _ _ _ Ht Hi) as (g & Hg & Er). apply aggregateRow_key in Er as (f & Hf & Ek).
    apply list_elem_of_lookup_2, list_elem_of_fmap in Hg as ([k g'] & -> & [_ ->]%group_by_elem).
    cbn in Hf. apply elem_of_filter_In in Hf as [[Hin Hc]%elem_of_filter_In _]. by exists f.
  - intros Hlen f Hin Hc. assert (Hf : f ∈ flows) by (by apply elem_of_filter_In).
    set (g := List.filter (fun x => bool_decide (observedGroup x = observedGroup f)) flows).
    assert (Hg : (observedGroup f, g) ∈ group_by observedGroup flows).
    { apply group_by_elem. split; [|done]. apply list_elem_of_fmap. eauto. }
    assert (Hg2 : g ∈ (group_by observedGroup flows).*2) by (apply list_elem_of_fmap; by exists (observedGroup f, g)).
    apply list_elem_of_lookup in Hg2 as [i Hi]. destruct (Forall2_lookup_l _ _ _ _ _ Ht Hi) as (r & Hr & Er).
    apply list_elem_of_lookup_2 in Hr. apply list_elem_of_fmap. exists r. split.
    + symmetry. eapply aggregateRow_Ok; [exact Er| |].
      * apply elem_of_filter_In. split; [done|]. by rewrite bool_decide_eq_true.
      * intros x y [_ Hx%bool_decide_eq_true]%elem_of_filter_In [_ Hy%bool_decide_eq_true]%elem_of_filter_In. congruence.
    + by apply query_complete.
Qed.

End listed.
