(* ===== verification/CloudContext.v ===== *)
(** The cloud context: [backend/internal/service/cloud_context_service.go]
    with [backend/internal/cloud/provider.go] and the types of
    model/cloud.go.

    The tables of migration 009 are read only by the program; [cidr] columns
    are kept as the text the query casts them to. *)
From S2P Require Import Prelude GoStrings GoFloat GoTime Netip Sql Store FlowService AgentService VMService GraphService ConnectionViews.

#[local] Open Scope Z_scope.

Record CloudContextFilter := { ccf_TenantID : string; ccf_ProjectID : string; ccf_VMID : string }.

Record CloudProviderStatus := {
  ps_Name : string; ps_Mode : string; ps_Connected : bool; ps_Capabilities : list string;
  ps_LastSyncAt : option time; ps_Error : string
}.

Record CloudHost := {
  ho_ID : string; ho_ProviderID : string; ho_Name : string; ho_Hostname : string; ho_TenantID : string;
  ho_ProjectID : string; ho_Region : string; ho_Zone : string; ho_Role : string; ho_Type : string;
  ho_Environment : string; ho_Owner : string; ho_PrivateIP : string; ho_PublicIP : string; ho_NetworkID : string;
  ho_SubnetID : string; ho_Status : string; ho_LastSeen : time; ho_Interfaces : list Interface; ho_ObservedOnly : bool
}.

Record PublicIPItem := {
  ip_ID : string; ip_TenantID : string; ip_ProjectID : string; ip_VMID : string; ip_IPAddress : string;
  ip_ProviderID : string; ip_Status : string; ip_AssignedAt : option time; ip_LastSeenAt : option time
}.

Record FirewallRule := {
  fw_ID : string; fw_TenantID : string; fw_ProjectID : string; fw_ProviderID : string; fw_Name : string;
  fw_Direction : string; fw_Protocol : string; fw_PortMin : Z; fw_PortMax : Z; fw_SourceCIDR : string;
  fw_DestCIDR : string; fw_SourceVMID : string; fw_DestVMID : string; fw_Action : string; fw_Scope : string;
  fw_Description : string; fw_LastSyncedAt : option time
}.

Record NetworkRoute := {
  ro_ID : string; ro_TenantID : string; ro_ProjectID : string; ro_ProviderID : string; ro_NetworkID : string;
  ro_SubnetID : string; ro_Destination : string; ro_NextHop : string; ro_RouteType : string; ro_Description : string;
  ro_LastSyncedAt : option time
}.

Record NetworkPolicy := {
  po_ID : string; po_TenantID : string; po_ProjectID : string; po_Name : string; po_Zone : string;
  po_SourceVMID : string; po_DestVMID : string; po_Protocol : string; po_Port : Z; po_Action : string;
  po_Description : string; po_LastSyncedAt : option time
}.

Record CloudContext := {
  cc_Provider : CloudProviderStatus; cc_Hosts : list CloudHost; cc_PublicIPs : list PublicIPItem;
  cc_FirewallRules : list FirewallRule; cc_Routes : list NetworkRoute; cc_NetworkPolicies : list NetworkPolicy
}.

(** ** The provider *)

Record OwnershipScope := { os_TenantID : string; os_ProjectID : string }.

(** [NoopProvider.Status] *)
Definition noopStatus : CloudProviderStatus :=
  {| ps_Name := "local-db"; ps_Mode := "read_only_model"; ps_Connected := true;
     ps_Capabilities := ["vm_inventory_model"; "public_ip_model"; "firewall_rule_model"; "route_model";
                         "network_policy_model"; "connection_intent_model"; "observed_connection_model"];
     ps_LastSyncAt := None; ps_Error := "" |}.

(** The interface between the backend and a cloud platform. *)
Class Provider := {
  provider_Name : string;
  provider_Status : Result CloudProviderStatus;
  ListHosts : OwnershipScope -> Result (list CloudHost);
  ListPublicIPs : OwnershipScope -> Result (list PublicIPItem);
  ListFirewallRules : OwnershipScope -> Result (list FirewallRule);
  ListRoutes : OwnershipScope -> Result (list NetworkRoute);
  ListNetworkPolicies : OwnershipScope -> Result (list NetworkPolicy)
}.
Definition NoopProvider : Provider := {|
  provider_Name := "local-db"; provider_Status := Ok noopStatus; ListHosts _ := Ok []; ListPublicIPs _ := Ok [];
  ListFirewallRules _ := Ok []; ListRoutes _ := Ok []; ListNetworkPolicies _ := Ok [] |}.

(** The service's [Status]: of the provider it has, or of the local one. *)
Definition Status (provider : option (Result CloudProviderStatus)) : Result CloudProviderStatus :=
  match provider with None => Ok noopStatus | Some status => status end.

(** ** The tables *)

Section service.
Context `{Postgres} (collate : string -> string -> bool).

Record PublicIPRow := {
  pi_id : string; pi_tenant_id : option string; pi_project_id : option string; pi_vm_id : option string;
  pi_ip_address : inet; pi_provider_id : option string; pi_status : string; pi_assigned_at : option time;
  pi_last_seen_at : option time; pi_updated_at : time
}.

Record FirewallRow := {
  fr_id : string; fr_tenant_id : option string; fr_project_id : option string; fr_provider_id : option string;
  fr_name : option string; fr_direction : string; fr_protocol : string; fr_port_min : option Z; fr_port_max : option Z;
  fr_source_cidr : option string; fr_dest_cidr : option string; fr_source_vm_id : option string;
  fr_dest_vm_id : option string; fr_action : string; fr_scope : string; fr_description : option string;
  fr_last_synced_at : option time; fr_updated_at : time
}.

Record RouteRow := {
  rr_id : string; rr_tenant_id : option string; rr_project_id : option string; rr_provider_id : option string;
  rr_network_id : option string; rr_subnet_id : option string; rr_destination : string; rr_next_hop : option inet;
  rr_route_type : string; rr_description : option string; rr_last_synced_at : option time; rr_updated_at : time
}.

Record PolicyRow := {
  np_id : string; np_tenant_id : option string; np_project_id : option string; np_name : string; np_zone : option string;
  np_source_vm_id : option string; np_dest_vm_id : option string; np_protocol : option string; np_port : option Z;
  np_action : string; np_description : option string; np_last_synced_at : option time; np_updated_at : time
}.

Record CloudTables := {
  cloud_public_ips : list PublicIPRow; cloud_firewall_rules : list FirewallRow; cloud_routes : list RouteRow;
  cloud_network_policies : list PolicyRow
}.

(** The condition [addCloudFilter] appends. *)
Definition addCloudFilter (column : option string) (value : string) : bool :=
  let value := TrimSpace value in
  when_text value (sql_holds (sql_eq column value)).

Definition owned (filter : CloudContextFilter) (tenant project : option string) : bool :=
  addCloudFilter tenant (ccf_TenantID filter) && addCloudFilter project (ccf_ProjectID filter).

(** ** The queries *)

Definition scanHost (row : string * VMRow) : CloudHost :=
  let '(id, v) := row in
  {| ho_ID := id; ho_ProviderID := text (vm_host_id v); ho_Name := vm_name v; ho_Hostname := vm_name v;
     ho_TenantID := text (vm_tenant_id v); ho_ProjectID := text (vm_project_id v); ho_Region := text (vm_region v);
     ho_Zone := text (vm_zone v); ho_Role := text (vm_role v); ho_Type := default "virtual_machine" (vm_host_type v);
     ho_Environment := text (vm_environment v); ho_Owner := text (vm_owner v);
     ho_PrivateIP := text (host <$> vm_private_ip v); ho_PublicIP := text (host <$> vm_public_ip v);
     ho_NetworkID := text (vm_network_id v); ho_SubnetID := text (vm_subnet_id v); ho_Status := vm_status v;
     ho_LastSeen := vm_last_seen v; ho_Interfaces := []; ho_ObservedOnly := (vm_discovered_by v =? "agent")%string |}.

Definition hosts (filter : CloudContextFilter) (db : DB) : list CloudHost :=
  map scanHost (order_by collate (fun '(_, v) => vm_name v)
    (List.filter (fun '(id, v) => owned filter (vm_tenant_id v) (vm_project_id v)
                                  && addCloudFilter (Some id) (ccf_VMID filter)) (map_to_list (vms db)))).

Definition scanPublicIP (r : PublicIPRow) : PublicIPItem :=
  {| ip_ID := pi_id r; ip_TenantID := text (pi_tenant_id r); ip_ProjectID := text (pi_project_id r);
     ip_VMID := text (pi_vm_id r); ip_IPAddress := host (pi_ip_address r); ip_ProviderID := text (pi_provider_id r);
     ip_Status := pi_status r; ip_AssignedAt := pi_assigned_at r; ip_LastSeenAt := pi_last_seen_at r |}.

Definition publicIPs (filter : CloudContextFilter) (t : CloudTables) : list PublicIPItem :=
  map scanPublicIP (query (fun r => owned filter (pi_tenant_id r) (pi_project_id r)
                                    && addCloudFilter (pi_vm_id r) (ccf_VMID filter))
                      pi_updated_at 1000 (cloud_public_ips t)).

Definition scanRule (r : FirewallRow) : FirewallRule :=
  {| fw_ID := fr_id r; fw_TenantID := text (fr_tenant_id r); fw_ProjectID := text (fr_project_id r);
     fw_ProviderID := text (fr_provider_id r); fw_Name := text (fr_name r); fw_Direction := fr_direction r;
     fw_Protocol := fr_protocol r; fw_PortMin := default 0 (fr_port_min r); fw_PortMax := default 0 (fr_port_max r);
     fw_SourceCIDR := text (fr_source_cidr r); fw_DestCIDR := text (fr_dest_cidr r);
     fw_SourceVMID := text (fr_source_vm_id r); fw_DestVMID := text (fr_dest_vm_id r); fw_Action := fr_action r;
     fw_Scope := fr_scope r; fw_Description := text (fr_description r); fw_LastSyncedAt := fr_last_synced_at r |}.

Definition firewallRules (filter : CloudContextFilter) (t : CloudTables) : list FirewallRule :=
  map scanRule (query (fun r => owned filter (fr_tenant_id r) (fr_project_id r)
                                && when_text (ccf_VMID filter)
                                     (either (fr_source_vm_id r) (fr_dest_vm_id r) (ccf_VMID filter)))
                  fr_updated_at 2000 (cloud_firewall_rules t)).

Definition scanRoute (r : RouteRow) : NetworkRoute :=
  {| ro_ID := rr_id r; ro_TenantID := text (rr_tenant_id r); ro_ProjectID := text (rr_project_id r);
     ro_ProviderID := text (rr_provider_id r); ro_NetworkID := text (rr_network_id r);
     ro_SubnetID := text (rr_subnet_id r); ro_Destination := rr_destination r;
     ro_NextHop := text (host <$> rr_next_hop r); ro_RouteType := rr_route_type r;
     ro_Description := text (rr_description r); ro_LastSyncedAt := rr_last_synced_at r |}.

(** Routes have no machine: the machine filter does not apply. *)
Definition routes (filter : CloudContextFilter) (t : CloudTables) : list NetworkRoute :=
  map scanRoute (query (fun r => owned filter (rr_tenant_id r) (rr_project_id r)) rr_updated_at 2000 (cloud_routes t)).

Definition scanPolicy (r : PolicyRow) : NetworkPolicy :=
  {| po_ID := np_id r; po_TenantID := text (np_tenant_id r); po_ProjectID := text (np_project_id r);
     po_Name := np_name r; po_Zone := text (np_zone r); po_SourceVMID := text (np_source_vm_id r);
     po_DestVMID := text (np_dest_vm_id r); po_Protocol := text (np_protocol r); po_Port := default 0 (np_port r);
     po_Action := np_action r; po_Description := text (np_description r); po_LastSyncedAt := np_last_synced_at r |}.

Definition networkPolicies (filter : CloudContextFilter) (t : CloudTables) : list NetworkPolicy :=
  map scanPolicy (query (fun r => owned filter (np_tenant_id r) (np_project_id r)
                                  && when_text (ccf_VMID filter)
                                       (either (np_source_vm_id r) (np_dest_vm_id r) (ccf_VMID filter)))
                    np_updated_at 2000 (cloud_network_policies t)).

(** [CloudContextService.Context]; statements 0 to 4 are the queries. *)
Definition Context_ (provider : option (Result CloudProviderStatus)) (fault : nat -> option GoError)
    (filter : CloudContextFilter) (t : CloudTables) (db : DB) : Result CloudContext :=
  let statement k {A} (r : A) : Result A := match fault k with Some err => Err err | None => Ok r end in
  status <-- Status provider ;;
  hosts <-- statement 0%nat (hosts filter db) ;;
  publicIPs <-- statement 1%nat (publicIPs filter t) ;;
  firewallRules <-- statement 2%nat (firewallRules filter t) ;;
  routes <-- statement 3%nat (routes filter t) ;;
  policies <-- statement 4%nat (networkPolicies filter t) ;;
  Ok {| cc_Provider := status; cc_Hosts := hosts; cc_PublicIPs := publicIPs; cc_FirewallRules := firewallRules;
        cc_Routes := routes; cc_NetworkPolicies := policies |}.

(** * Facts *)

Lemma addCloudFilter_spec column value : addCloudFilter column value = true <->
  TrimSpace value = "" \/ column = Some (TrimSpace value).
Proof.
  unfold addCloudFilter, when_text. cbv zeta. rewrite orb_true_iff, String.eqb_eq. destruct column as [c|]; cbn.
  - destruct (bool_decide _) eqn:E; bools; split; intros [?|?]; auto; [right; congruence|done|simplify_eq].
  - split; intros [?|?]; auto; done.
Qed.

(** The tenant and project of an item, as shown, under a filter. *)
Definition belongs (filter : CloudContextFilter) (tenant project : string) : Prop :=
  (TrimSpace (ccf_TenantID filter) <> "" -> tenant = TrimSpace (ccf_TenantID filter)) /\
  (TrimSpace (ccf_ProjectID filter) <> "" -> project = TrimSpace (ccf_ProjectID filter)).

Lemma owned_belongs filter tenant project : owned filter tenant project = true ->
  belongs filter (text tenant) (text project).
Proof.
  unfold owned. rewrite andb_true_iff, !addCloudFilter_spec. intros [Ht Hp].
  split; intros Hne; [destruct Ht as [?| ->]|destruct Hp as [?| ->]]; done.
Qed.

Lemma Context_Ok provider fault filter t db c : Context_ provider fault filter t db = Ok c ->
  exists status, Status provider = Ok status /\
  c = {| cc_Provider := status; cc_Hosts := hosts filter db; cc_PublicIPs := publicIPs filter t;
         cc_FirewallRules := firewallRules filter t; cc_Routes := routes filter t;
         cc_NetworkPolicies := networkPolicies filter t |}.
Proof.
  unfold Context_. cbv zeta. intros (status & Hs & E)%rbind_Ok. exists status. split; [done|].
  destruct (fault 0%nat), (fault 1%nat), (fault 2%nat), (fault 3%nat), (fault 4%nat); try done. by injection E as <-.
Qed.

Lemma hosts_elem filter db h : h ∈ hosts filter db <-> exists id v, vms db !! id = Some v /\ h = scanHost (id, v) /\
  owned filter (vm_tenant_id v) (vm_project_id v) = true /\ addCloudFilter (Some id) (ccf_VMID filter) = true.
Proof.
  unfold hosts. change (map ?f ?l) with (f <$> l). rewrite list_elem_of_fmap. setoid_rewrite order_by_perm.
  setoid_rewrite elem_of_filter_In. split.
  - intros ([id v] & -> & Hv%elem_of_map_to_list & [? ?]%andb_true_iff). by exists id, v.
  - intros (id & v & Hv & -> & Ho & Hi). exists (id, v). split_and!; [done|by apply elem_of_map_to_list|].
    by rewrite Ho, Hi.
Qed.

Lemma either_spec a b value : either a b value = true <-> a = Some value \/ b = Some value.
Proof.
  unfold either. destruct a as [a|], b as [b|]; cbn; try destruct (bool_decide (a = value)) eqn:Ea;
    try destruct (bool_decide (b = value)) eqn:Eb; bools; subst; naive_solver.
Qed.

Lemma when_either value a b : value <> "" -> when_text value (either a b value) = true ->
  text a = value \/ text b = value.
Proof.
  unfold when_text. intros Hne [E%String.eqb_eq|[-> | ->]%either_spec]%orb_true_iff; auto; done.
Qed.

(** A property of every scanned row of a query. *)
Lemma scanned_Forall {A B} (P : B -> Prop) (scan : A -> B) p key limit l :
  (forall r, p r = true -> P (scan r)) -> Forall P (map scan (query p key limit l)).
Proof. intros Hp. apply Forall_fmap, Forall_forall. intros r [_ Hr]%query_elem. by apply Hp. Qed.

(** Tenants and projects are isolated.  Whatever the tables contain,
    every machine, address, rule, route and policy of a context that is asked
    for with a tenant (or project) carries that tenant (or project); a
    machine is listed exactly when it meets the whole filter; and a context
    that is asked for a machine has only addresses, rules and policies of that
    machine, provided the name is given without surrounding blanks. *)
Theorem cloud_context_isolated (provider : option (Result CloudProviderStatus)) (fault : nat -> option GoError)
    (filter : CloudContextFilter) (t : CloudTables) (db : DB) (c : CloudContext) :
  Context_ provider fault filter t db = Ok c ->
  Forall (fun h => belongs filter (ho_TenantID h) (ho_ProjectID h)) (cc_Hosts c) /\
  Forall (fun i => belongs filter (ip_TenantID i) (ip_ProjectID i)) (cc_PublicIPs c) /\
  Forall (fun r => belongs filter (fw_TenantID r) (fw_ProjectID r)) (cc_FirewallRules c) /\
  Forall (fun r => belongs filter (ro_TenantID r) (ro_ProjectID r)) (cc_Routes c) /\
  Forall (fun p => belongs filter (po_TenantID p) (po_ProjectID p)) (cc_NetworkPolicies c) /\
  (forall h, h ∈ cc_Hosts c <-> exists id v, vms db !! id = Some v /\ h = scanHost (id, v) /\
     owned filter (vm_tenant_id v) (vm_project_id v) = true /\ addCloudFilter (Some id) (ccf_VMID filter) = true) /\
  (ccf_VMID filter <> "" -> TrimSpace (ccf_VMID filter) = ccf_VMID filter ->
   Forall (fun h => ho_ID h = ccf_VMID filter) (cc_Hosts c) /\
   Forall (fun i => ip_VMID i = ccf_VMID filter) (cc_PublicIPs c) /\
   Forall (fun r => fw_SourceVMID r = ccf_VMID filter \/ fw_DestVMID r = ccf_VMID filter) (cc_FirewallRules c) /\
   Forall (fun p => po_SourceVMID p = ccf_VMID filter \/ po_DestVMID p = ccf_VMID filter) (cc_NetworkPolicies c)).
Proof.
  intros (status & _ & ->)%Context_Ok. cbn [cc_Hosts cc_PublicIPs cc_FirewallRules cc_Routes cc_NetworkPolicies].
  split_and!; try (apply scanned_Forall; intros r Hr; bools; by apply owned_belongs).
  - apply Forall_forall. intros h (id & v & _ & -> & Ho & _)%hosts_elem. by apply owned_belongs.
  - intros h. apply hosts_elem.
  - intros Hne Ht. split_and!; [|apply scanned_Forall; intros r Hr; bools..].
    + apply Forall_forall. intros h (id & v & _ & -> & _ & [Hi|[= ->]]%addCloudFilter_spec)%hosts_elem; [|done].
      by rewrite Ht in Hi.
    + cbn. match goal with Hc : addCloudFilter _ _ = true |- _ => apply addCloudFilter_spec in Hc as [Hc| ->]; [|done] end.
      congruence.
    + by apply when_either.
    + by apply when_either.
Qed.
End service.
