(* ===== verification/Http.v ===== *)
(** What the API uses of Go's HTTP server, and its middleware:
    [net/url] queries and path escapes, the [ServeMux] of literal patterns
    with a catch-all, response writers, and
    [backend/internal/api/middleware.go].

    A handler runs to its end or to a panic, on a response writer and the
    state behind it; a body is kept as the value that is encoded. *)
From S2P Require Import Prelude GoStrings Netip.

#[local] Open Scope Z_scope.

(** ** Requests *)

(** The method, the escaped path, the raw query, the [Origin] header and the
    body. *)
Record Request := {
  Method : string; EscapedPath : string; RawQuery : string; Origin : string; ReqBody : list ascii
}.

(** [url.QueryUnescape] ([plus]) and [url.PathUnescape]. *)
Fixpoint unescape (plus : bool) (l : list ascii) : option (list ascii) :=
  match l with
  | [] => Some []
  | c :: r =>
      if Ascii.eqb c "%"%char then
        match r with
        | a :: b :: r' =>
            match hex_val a, hex_val b with
            | Some x, Some y => cons (chr (16 * x + y)) <$> unescape plus r'
            | _, _ => None
            end
        | _ => None
        end
      else cons (if plus && Ascii.eqb c "+"%char then " "%char else c) <$> unescape plus r
  end.
Definition QueryUnescape (s : string) : option string := string_of <$> unescape true (bytes_of s).
Definition pathUnescape (s : string) : string :=
  match unescape false (bytes_of s) with Some l => string_of l | None => s end.

(** [url.ParseQuery] without its error: a piece that holds a semicolon or a
    broken escape is left out. *)
Definition parsePair (piece : string) : option (string * string) :=
  if existsb (Ascii.eqb ";"%char) (bytes_of piece) || (piece =? "")%string then None
  else
    let '(key, value) := default (piece, "") (Cut "="%char piece) in
    match QueryUnescape key, QueryUnescape value with
    | Some key, Some value => Some (key, value)
    | _, _ => None
    end.
Definition Query (r : Request) : list (string * string) :=
  omap parsePair (Split "&"%char (RawQuery r)).

(** [url.Values.Get]: the first value of the key. *)
Fixpoint Get (query : list (string * string)) (key : string) : string :=
  match query with
  | [] => ""
  | (k, v) :: rest => if (k =? key)%string then v else Get rest key
  end.

(** [io.LimitReader]: at most [n] bytes. *)
Fixpoint LimitReader (n : Z) (l : list ascii) : list ascii :=
  match l with
  | c :: r => if 0 <? n then c :: LimitReader (n - 1) r else []
  | [] => []
  end.

(** ** Response writers *)

(** A piece of a body: a JSON document, a plain text, the link of a redirect
    or an event of a stream. *)
Inductive Chunk (B : Type) :=
| CJSON (value : B)
| CText (text : string)
| CMoved (url : string)
| CEvent (type : string).
Arguments CJSON {B} value.
Arguments CText {B} text.
Arguments CMoved {B} url.
Arguments CEvent {B} type.

Abbreviation Headers := (gmap string string).

(** [w_sent]: the status and the headers as they were when it was sent. *)
Record Writer (B : Type) := {
  w_header : Headers; w_sent : option (Z * Headers); w_body : list (Chunk B)
}.
Arguments w_header {B} w.
Arguments w_sent {B} w.
Arguments w_body {B} w.

Section writers.
Context {B : Type}.

Definition newWriter : Writer B := {| w_header := ∅; w_sent := None; w_body := [] |}.

Definition Set_ (key value : string) (w : Writer B) : Writer B :=
  {| w_header := <[key := value]> (w_header w); w_sent := w_sent w; w_body := w_body w |}.

(** A second call is superfluous and changes nothing. *)
Definition WriteHeader (status : Z) (w : Writer B) : Writer B :=
  {| w_header := w_header w; w_sent := Some (default (status, w_header w) (w_sent w)); w_body := w_body w |}.

(** The first write sends status 200. *)
Definition Write_ (chunk : Chunk B) (w : Writer B) : Writer B :=
  let w := WriteHeader 200 w in
  {| w_header := w_header w; w_sent := w_sent w; w_body := w_body w ++ [chunk] |}.

Definition statusOf (w : Writer B) : option Z := fst <$> w_sent w.

(** handlers.go *)
Definition writeJSON (status : Z) (value : B) (w : Writer B) : Writer B :=
  Write_ (CJSON value) (WriteHeader status (Set_ "Content-Type" "application/json" w)).

(** [http.Error] *)
Definition Error (text : string) (status : Z) (w : Writer B) : Writer B :=
  Write_ (CText text) (WriteHeader status
    (Set_ "X-Content-Type-Options" "nosniff" (Set_ "Content-Type" "text/plain; charset=utf-8" w))).

Definition location (path query : string) : string :=
  if (query =? "")%string then path else path +:+ "?" +:+ query.

(** [http.Redirect], of a path that [url.URL.String] prints as it is. *)
Definition Redirect (r : Request) (url : string) (status : Z) (w : Writer B) : Writer B :=
  let hadCT := isSome (w_header w !! "Content-Type") in
  let w := Set_ "Location" url w in
  let w := if negb hadCT && ((Method r =? "GET")%string || (Method r =? "HEAD")%string)
           then Set_ "Content-Type" "text/html; charset=utf-8" w else w in
  let w := WriteHeader status w in
  if negb hadCT && (Method r =? "GET")%string then Write_ (CMoved url) w else w.
End writers.

(** ** Handlers and the mux *)

Inductive Outcome (B S : Type) :=
| Returned (w : Writer B) (s : S)
| Panicked (w : Writer B) (s : S).
Arguments Returned {B S} w s.
Arguments Panicked {B S} w s.

Definition Handler (B S : Type) : Type := Request -> Writer B -> S -> Outcome B S.

(** [path.Clean] of a rooted path and the mux's [cleanPath]. *)
Definition cleanStep (stack : list string) (segment : string) : list string :=
  if (segment =? "")%string || (segment =? ".")%string then stack
  else if (segment =? "..")%string then tail stack
  else segment :: stack.
Definition Clean (path : string) : string :=
  "/" +:+ String.concat "/" (rev (foldl cleanStep [] (Split "/"%char path))).
Definition cleanPath (p : string) : string :=
  if (p =? "")%string then "/"
  else
    let p := if HasPrefix p "/" then p else "/" +:+ p in
    let np := Clean p in
    if HasSuffix p "/" && negb (np =? "/")%string then np +:+ "/" else np.

(** The unescaped segments after the leading slash. *)
Definition segments (path : string) : list string :=
  map pathUnescape (tail (Split "/"%char path)).

Section mux.
Context {B S : Type}.

(** A pattern of literal segments, with its method. *)
Record Route := { rt_method : string; rt_segments : list string; rt_handler : Handler B S }.

Definition route (method path : string) (handler : Handler B S) : Route :=
  {| rt_method := method; rt_segments := segments path; rt_handler := handler |}.

(** A [GET] pattern also takes [HEAD] requests. *)
Definition methodMatches (pattern method : string) : bool :=
  (pattern =? method)%string || ((pattern =? "GET")%string && (method =? "HEAD")%string).

Definition matchRoute (method : string) (segs : list string) (rt : Route) : bool :=
  methodMatches (rt_method rt) method && bool_decide (rt_segments rt = segs).

(** The methods of the [Allow] header, sorted: the catch-all accepts [GET]
    and [HEAD] everywhere, the literal patterns have only [GET] and [POST]. *)
Definition allowed (routes : list Route) (segs : list string) : string :=
  if existsb (matchRoute "POST" segs) routes then "GET, HEAD, POST" else "GET, HEAD".

(** [ServeMux.ServeHTTP] with literal patterns and a catch-all [GET /]. *)
Definition serveMux (routes : list Route) (root : Handler B S) : Handler B S := fun r w s =>
  let path := EscapedPath r in
  let cleaned := if (Method r =? "CONNECT")%string then path else cleanPath path in
  if negb (cleaned =? path)%string then Returned (Redirect r (location cleaned (RawQuery r)) 301 w) s
  else
    let segs := segments path in
    match find (matchRoute (Method r) segs) routes with
    | Some rt => rt_handler rt r w s
    | None =>
        if methodMatches "GET" (Method r) then root r w s
        else Returned (Error "Method Not Allowed" 405 (Set_ "Allow" (allowed routes segs) w)) s
    end.

(** ** Middleware *)

(** [logger] only logs. *)
Definition logger (next : Handler B S) : Handler B S := next.

Definition cors (next : Handler B S) (allowedOrigins : list string) : Handler B S := fun r w s =>
  let origin := Origin r in
  let w :=
    if negb (origin =? "")%string && bool_decide (origin ∈ allowedOrigins) then
      Set_ "Access-Control-Allow-Headers" "Content-Type"
        (Set_ "Access-Control-Allow-Methods" "GET,POST,OPTIONS"
          (Set_ "Vary" "Origin" (Set_ "Access-Control-Allow-Origin" origin w)))
    else w in
  if (Method r =? "OPTIONS")%string then Returned (WriteHeader 204 w) s
  else next r w s.

(** [fail] is the document of [writeError]. *)
Definition recoverer (fail : string -> B) (next : Handler B S) : Handler B S := fun r w s =>
  match next r w s with
  | Returned w s => Returned w s
  | Panicked w s => Returned (writeJSON 500 (fail "internal server error") w) s
  end.

Definition Middleware (fail : string -> B) (next : Handler B S) (allowedOrigins : list string) : Handler B S :=
  recoverer fail (cors (logger next) allowedOrigins).
End mux.
Arguments Route : clear implicits.

(** ** Facts *)

#[local] Arguments String.eqb : simpl never.

Lemma methodMatches_get m : methodMatches "GET" m = true <-> m = "GET" \/ m = "HEAD".
Proof.
  unfold methodMatches. rewrite orb_true_iff, andb_true_iff, !String.eqb_eq. split; [|naive_solver].
  intros [<-|[_ ->]]; auto.
Qed.

Lemma methodMatches_post m : methodMatches "POST" m = true <-> m = "POST".
Proof.
  unfold methodMatches. rewrite orb_true_iff, andb_true_iff, !String.eqb_eq. split; [|naive_solver].
  by intros [<-|[? _]].
Qed.

Lemma matchRoute_true {B S} m segs (rt : Route B S) :
  matchRoute m segs rt = true <-> methodMatches (rt_method rt) m = true /\ rt_segments rt = segs.
Proof. unfold matchRoute. by rewrite andb_true_iff, bool_decide_eq_true. Qed.
