(* ===== verification/Identity.v ===== *)
(** The identity an agent registers with: [agent/internal/identity/identity.go].

    The host is a record: its name, its files and its network interfaces as
    [os] and [net] report them; [sha256] is a parameter.  The registration is
    the record the collectors of Collector are built with. *)
From S2P Require Import Prelude GoStrings GoFloat GoTime Netip AgentFlow Inventory Collector AgentConfig.

#[local] Open Scope Z_scope.

(** ** Library functions *)

(** [bufio.Scanner] on lines: up to each newline, without a final carriage
    return; it stops at a line that does not fit its buffer. *)
Definition MaxScanTokenSize : Z := 65536.
Definition drop_cr (l : list ascii) : list ascii :=
  match rev l with c :: r => if Ascii.eqb c "013"%char then rev r else l | [] => l end.
Fixpoint take_fitting (l : list (list ascii)) : list (list ascii) :=
  match l with
  | [] => []
  | x :: rest => if Z.of_nat (length x) <? MaxScanTokenSize then x :: take_fitting rest else []
  end.
Definition scanner_lines (content : string) : list string :=
  let pieces := split_bytes "010"%char (bytes_of content) in
  let pieces := match rev pieces with [] :: r => rev r | _ => pieces end in
  map (fun l => string_of (drop_cr l)) (take_fitting pieces).

(** [strings.Fields]: the maximal runs without white space. *)
Fixpoint fields_from (fuel : nat) (word l : list ascii) : list (list ascii) :=
  let flush rest := match word with [] => rest | _ => rev word :: rest end in
  match fuel with
  | O => flush []
  | S n =>
      match l with
      | [] => flush []
      | c :: r =>
          match strip_one space_runes l with
          | Some l' => flush (fields_from n [] l')
          | None => fields_from n (c :: word) r
          end
      end
  end.
Definition Fields (s : string) : list string :=
  map string_of (fields_from (S (length (bytes_of s))) [] (bytes_of s)).

(** [strconv.ParseUint] in base 16, 32 bits. *)
Fixpoint hex_digits (acc : Z) (l : list ascii) : option Z :=
  match l with
  | [] => Some acc
  | c :: r => match hex_val c with Some d => hex_digits (acc * 16 + d) r | None => None end
  end.
Definition ParseUint16_32 (s : string) : option Z :=
  match bytes_of s with
  | [] => None
  | l => match hex_digits 0 l with Some v => if v <? 2 ^ 32 then Some v else None | None => None end
  end.

(** [net.ParseCIDR], the address only; [dtoi] reads at most 0xFFFFFF. *)
Fixpoint dtoi (acc : Z) (l : list ascii) : option (Z * list ascii) :=
  match l with
  | [] => Some (acc, [])
  | c :: r =>
      match digit_val c with
      | Some d => let n := acc * 10 + d in if 16777215 <=? n then None else dtoi n r
      | None => Some (acc, l)
      end
  end.
Definition ParseCIDR (s : string) : option IP :=
  match split_first "/"%char (bytes_of s) with
  | None => None
  | Some (addr, mask) =>
      match ParseAddr (string_of addr) with
      | Err _ => None
      | Ok a =>
          if hasZone a then None
          else match mask with
          | [] => None
          | _ =>
              match dtoi 0 mask with
              | Some (n, []) => if (0 <=? n) && (n <=? BitLen a) then Some (As16 a) else None
              | _ => None
              end
          end
      end
  end.

(** [strings.Trim] of a byte. *)
Fixpoint trim_byte (c : ascii) (l : list ascii) : list ascii :=
  match l with x :: r => if Ascii.eqb x c then trim_byte c r else l | [] => [] end.
Definition Trim (c : ascii) (s : string) : string :=
  string_of (rev (trim_byte c (rev (trim_byte c (bytes_of s))))).

(** The verb [%x] on bytes. *)
Definition hex_digit (z : Z) : ascii := chr (if z <? 10 then 48 + z else 87 + z).
Definition hex_bytes (l : list Z) : string :=
  string_of (concat (map (fun b => [hex_digit (b / 16 mod 16); hex_digit (b mod 16)]) l)).

(** ** The host *)

Record NetInterface := {
  ni_Name : string; ni_Loopback : bool; ni_Up : bool; ni_HardwareAddr : string; ni_Addrs : list string
}.

Record Host := {
  h_Hostname : string;                    (* os.Hostname, "" on an error *)
  h_ReadFile : string -> option string;
  h_Interfaces : list NetInterface;
  h_GOOS : string
}.

Definition readTrimmed (h : Host) (path : string) : string :=
  match h_ReadFile h path with Some data => TrimSpace data | None => "" end.

(** First occurrences of non-empty values. *)
Definition unique (values : list string) : list string :=
  append_new (fun value => negb (value =? "")%string) ∅ values.

Definition defaultRoute (line : string) : option string :=
  match Fields line with
  | iface :: dest :: _ :: flags :: _ =>
      if (iface =? "Iface")%string || negb (dest =? "00000000")%string then None
      else match ParseUint16_32 flags with
           | Some f => if negb (Z.land f 1 =? 0) then Some iface else None
           | None => None
           end
  | _ => None
  end.

Definition parseDefaultRouteInterfaces (content : string) : gset string :=
  list_to_set (omap defaultRoute (scanner_lines content)).

Definition defaultRouteInterfaces (h : Host) : gset string :=
  match h_ReadFile h "/proc/net/route" with
  | None => ∅
  | Some content => parseDefaultRouteInterfaces content
  end.

Fixpoint os_release (lines : list string) : option string :=
  match lines with
  | [] => None
  | line :: rest =>
      match Cut "="%char line with
      | Some (key, value) => if (key =? "ID")%string then Some (Trim "034"%char value) else os_release rest
      | None => os_release rest
      end
  end.

Definition operatingSystem (h : Host) : string :=
  match h_ReadFile h "/etc/os-release" with
  | None => h_GOOS h
  | Some content => default (h_GOOS h) (os_release (scanner_lines content))
  end.

(** The loop over the addresses of one interface: the interfaces and private
    addresses it appends. *)
Definition addressEntry (iface : NetInterface) (address : string) : option (Interface * option string) :=
  match ParseCIDR address with
  | None => None
  | Some ip =>
      if ip_IsLoopback ip then None
      else
        let value := ip_String ip in
        Some ({| IfName := ni_Name iface; IPAddress := value; MACAddress := ni_HardwareAddr iface |},
              if isSome (To4 ip) then Some value else None)
  end.

Definition interfaceEntries (iface : NetInterface) : list Interface * list string :=
  let found := omap (addressEntry iface) (ni_Addrs iface) in
  ((match ni_Addrs iface with
    | [] => [{| IfName := ni_Name iface; IPAddress := ""; MACAddress := ni_HardwareAddr iface |}]
    | _ => []
    end) ++ found.*1,
   omap snd found).

Definition usesInterface (defaultInterfaces : gset string) (iface : NetInterface) : bool :=
  negb (ni_Loopback iface) && ni_Up iface
  && (bool_decide (defaultInterfaces = ∅) || bool_decide (ni_Name iface ∈ defaultInterfaces)).

Definition networkIdentity (h : Host) : list Interface * list string * list string :=
  let used := List.filter (usesInterface (defaultRouteInterfaces h)) (h_Interfaces h) in
  (mjoin (map (fun i => fst (interfaceEntries i)) used),
   unique (mjoin (map (fun i => snd (interfaceEntries i)) used)),
   unique (List.filter (fun mac => negb (mac =? "")%string) (map ni_HardwareAddr used))).

(** The interfaces made up for configured addresses. *)
Fixpoint mockInterfaces (index : nat) (ips macs : list string) : list Interface :=
  match ips with
  | [] => []
  | ip :: rest =>
      {| IfName := "mock" +:+ Itoa (Z.of_nat index); IPAddress := ip;
         MACAddress := match macs with mac :: _ => mac | [] => "" end |}
      :: mockInterfaces (S index) rest (tail macs)
  end.

Section collect.
Context (sha256 : string -> list Z).

Definition Collect (cfg : Config) (h : Host) : Registration :=
  let hostname := TrimSpace (Hostname cfg) in
  let hostname := if (hostname =? "")%string then h_Hostname h else hostname in
  let machineID := TrimSpace (MachineID cfg) in
  let machineID := if (machineID =? "")%string then readTrimmed h "/etc/machine-id" else machineID in
  let '(interfaces, privateIPs, macs) := networkIdentity h in
  let '(interfaces, privateIPs) :=
    match PrivateIPs cfg with
    | [] => (interfaces, privateIPs)
    | ips => (mockInterfaces 0 ips (MACAddresses cfg), ips)
    end in
  let macs := match MACAddresses cfg with [] => macs | l => l end in
  let agentID := TrimSpace (AgentID cfg) in
  let agentID := if (agentID =? "")%string
                 then "agent-" +:+ hex_bytes (take 6 (sha256 (machineID +:+ "|" +:+ hostname))) else agentID in
  {| RAgentID := agentID; Collector.Hostname := hostname; Collector.MachineID := machineID;
     Collector.TenantID := TenantID cfg; Collector.PrivateIPs := privateIPs;
     Collector.PublicIP := if (PublicIP cfg =? "")%string then None else Some (PublicIP cfg);
     Collector.MACAddresses := macs; Interfaces := interfaces; OS := operatingSystem h;
     KernelVersion := readTrimmed h "/proc/sys/kernel/osrelease"; Collector.AgentVersion := AgentVersion cfg;
     Collector.Environment := Environment cfg |}.
End collect.

(** The test of the source. *)
Definition nl : string := String "010"%char EmptyString.
Definition sample_routes : string :=
  "Iface Destination Gateway Flags RefCnt Use Metric Mask" +:+ nl
  +:+ "eth0 00000000 0101A8C0 0003 0 0 100 00000000" +:+ nl
  +:+ "eth0 0001A8C0 00000000 0001 0 0 100 00FFFFFF" +:+ nl
  +:+ "docker0 000011AC 00000000 0001 0 0 0 0000FFFF" +:+ nl
  +:+ "eth1 00000000 0100000A 0003 0 0 200 00000000".
Example parse_sample_routes : parseDefaultRouteInterfaces sample_routes = {[ "eth0"; "eth1" ]}.
Proof. vm_compute. reflexivity. Qed.

(** * Facts *)

Lemma unique_spec values : NoDup (unique values) /\ forall x, x ∈ unique values <-> x ∈ values /\ x <> "".
Proof.
  destruct (append_new_spec (fun value => negb (value =? "")%string) ∅ values) as [Hn He]. split; [exact Hn|].
  intros x. unfold unique. rewrite He, negb_true_iff, String.eqb_neq. pose proof (not_elem_of_empty (C := gset string) x). tauto.
Qed.

(** Text between two hexadecimal digits is not trimmed. *)
Lemma hex_digit_cases z : exists k, (k < 16)%nat /\ hex_digit (z mod 16) = hex_digit (Z.of_nat k).
Proof.
  exists (Z.to_nat (z mod 16)). pose proof (Z.mod_pos_bound z 16). split; [lia|]. by rewrite Z2Nat.id by lia.
Qed.

Lemma hex_digit_no_space z l : strip_one (map (@rev ascii) space_runes) (hex_digit (z mod 16) :: l) = None.
Proof.
  destruct (hex_digit_cases z) as (k & Hk & ->).
  do 16 (destruct k as [|k]; [reflexivity|]). lia.
Qed.

Lemma TrimSpace_id s : strip_one space_runes (bytes_of s) = None ->
  strip_one (map (@rev ascii) space_runes) (rev (bytes_of s)) = None -> TrimSpace s = s.
Proof.
  intros Hl Hr. unfold TrimSpace, trim_left, trim_right. rewrite (strip_all_id _ _ _ Hl), strip_all_id by done.
  by rewrite rev_involutive, string_of_bytes_of.
Qed.

Lemma hex_bytes_end l : l <> [] -> exists rest z, bytes_of (hex_bytes l) = rest ++ [hex_digit (z mod 16)].
Proof.
  intros Hl. destruct l as [|b l _] using rev_ind; [done|]. unfold hex_bytes. rewrite bytes_of_string_of, map_app, concat_app.
  cbn. eexists (_ ++ [_]), b. rewrite <- app_assoc. done.
Qed.

Lemma agent_name_clean l : clean ("agent-" +:+ hex_bytes l).
Proof.
  split; [done|]. apply TrimSpace_id; rewrite bytes_of_app; [done|]. rewrite rev_app_distr.
  destruct (decide (l = [])) as [->|Hl]; [done|]. destruct (hex_bytes_end l Hl) as (rest & z & ->).
  rewrite rev_app_distr. cbn [rev app]. apply hex_digit_no_space.
Qed.

Lemma ParseCIDR_Some s ip : ParseCIDR s = Some ip -> exists a, addr_ok a /\ hasZone a = false /\ ip = As16 a.
Proof.
  unfold ParseCIDR. destruct (split_first _ _) as [[addr mask]|]; [|done].
  destruct (ParseAddr _) as [a|] eqn:Ea; [|done]. destruct (hasZone a) eqn:Ez; [done|]. destruct mask as [|c mask]; [done|].
  destruct (dtoi 0 (c :: mask)) as [[n [|? ?]]|]; [|done..]. destruct (_ && _); [|done]. intros [= <-].
  exists a. split_and!; [by eapply ParseAddr_ok|done|done].
Qed.

(** The text of a private address is an IPv4 address outside the loopback
    network. *)
Definition private_text (s : string) : Prop :=
  exists ip, 0 <= ip < 2 ^ 32 /\ ParseAddr s = Ok (Addr4 ip) /\ s = AddrString (Addr4 ip) /\ ip / 2 ^ 24 <> 127.

Lemma addressEntry_private iface address i s : addressEntry iface address = Some (i, Some s) -> private_text s.
Proof.
  unfold addressEntry. destruct (ParseCIDR address) as [ip|] eqn:Ec; [|done].
  apply ParseCIDR_Some in Ec as (a & _ & _ & ->). destruct (As16_ok a) as [Hlen Hok].
  destruct (ip_IsLoopback (As16 a)) eqn:El; [done|]. cbv zeta. destruct (To4 (As16 a)) as [p4|] eqn:E4; [|done].
  cbn [isSome]. intros [= _ <-]. unfold ip_String, ip_IsLoopback in *. rewrite E4 in *. unfold To4 in E4. rewrite Hlen in E4.
  cbn [Nat.eqb andb] in E4. case_bool_decide; [|done]. injection E4 as <-.
  assert (Hl4 : length (drop 12 (As16 a)) = 4%nat) by (rewrite length_drop, Hlen; done).
  assert (Ho4 : Forall byte_ok (drop 12 (As16 a))) by (by apply Forall_drop).
  destruct (drop 12 (As16 a)) as [|b0 [|b1 [|b2 [|b3 [|? ?]]]]]; try done. clear Hlen Hok.
  pose proof (be_range _ Ho4) as Hr. cbn [length] in Hr. change (256 ^ Z.of_nat 4) with (2 ^ 32) in Hr.
  exists (be [b0; b1; b2; b3]). split_and!; [lia..|by apply ParseAddr_AddrString4|done|].
  apply Z.eqb_neq in El. rewrite !Forall_cons in Ho4. destruct Ho4 as (? & ? & ? & ? & _). unfold byte_ok, be in *. cbn [foldl].
  Z.to_euclidean_division_equations; lia.
Qed.

Lemma networkIdentity_private h interfaces ips macs : networkIdentity h = (interfaces, ips, macs) ->
  NoDup ips /\ Forall private_text ips /\
  forall s, s ∈ ips -> exists iface address i, iface ∈ h_Interfaces h /\ ni_Up iface = true /\
    ni_Loopback iface = false /\ (defaultRouteInterfaces h = ∅ \/ ni_Name iface ∈ defaultRouteInterfaces h) /\
    address ∈ ni_Addrs iface /\ addressEntry iface address = Some (i, Some s).
Proof.
  unfold networkIdentity. intros [= _ <- _]. set (used := List.filter _ _).
  destruct (unique_spec (mjoin (map (fun i => (interfaceEntries i).2) used))) as [Hn He].
  assert (Hel : forall s, s ∈ unique (mjoin (map (fun i => (interfaceEntries i).2) used)) ->
    exists iface address i, iface ∈ h_Interfaces h /\ usesInterface (defaultRouteInterfaces h) iface = true /\
      address ∈ ni_Addrs iface /\ addressEntry iface address = Some (i, Some s)).
  { intros s [(l & Hs & (iface & -> & Hi)%list_elem_of_fmap)%list_elem_of_join _]%He.
    apply list_elem_of_In, filter_In in Hi as [Hi%list_elem_of_In Hu]. cbn in Hs.
    apply list_elem_of_omap in Hs as ([i o] & Hin & Eo). cbn in Eo. subst o.
    apply list_elem_of_omap in Hin as (address & Ha & Ee). by exists iface, address, i. }
  split_and!; [done| |].
  - apply Forall_forall. intros s (iface & address & i & _ & _ & _ & E)%Hel. by eapply addressEntry_private.
  - intros s (iface & address & i & Hi & Hu & Ha & E)%Hel. exists iface, address, i.
    unfold usesInterface in Hu. bools. apply orb_true_iff in H0 as [Hd|Hd]; bools; split_and!; auto.
Qed.

Lemma Collect_agent_clean sha256 cfg h : clean (RAgentID (Collect sha256 cfg h)).
Proof.
  unfold Collect. cbv zeta. destruct (networkIdentity h) as [[interfaces ips] macs].
  destruct (match PrivateIPs cfg with [] => _ | _ => _ end) as [interfaces' ips']. cbn [RAgentID].
  destruct (String.eqb_spec (TrimSpace (AgentID cfg)) "") as [|Hne]; [apply agent_name_clean|].
  split; [done|apply TrimSpace_idemp].
Qed.

(** An agent's identity is usable.  The agent identifier is never empty
    and has no surrounding blanks, whatever the configuration; when the
    configured addresses, if any, parse, the registration is what the
    collectors rely on; and when none are configured, the private addresses
    are canonical IPv4 addresses outside the loopback network, each once, of
    interfaces that are up, are not loopbacks and, when the host has default
    routes, carry one. *)
Theorem identity_sound (sha256 : string -> list Z) (cfg : Config) (h : Host) :
  let r := Collect sha256 cfg h in
  clean (RAgentID r) /\ (Forall ip_ok (PrivateIPs cfg) -> registration_ok r) /\
  (PrivateIPs cfg = [] ->
   NoDup (Collector.PrivateIPs r) /\ Forall private_text (Collector.PrivateIPs r) /\
   forall s, s ∈ Collector.PrivateIPs r -> exists iface address i, iface ∈ h_Interfaces h /\ ni_Up iface = true /\
     ni_Loopback iface = false /\ (defaultRouteInterfaces h = ∅ \/ ni_Name iface ∈ defaultRouteInterfaces h) /\
     address ∈ ni_Addrs iface /\ addressEntry iface address = Some (i, Some s)).
Proof.
  cbv zeta. pose proof (Collect_agent_clean sha256 cfg h) as Hid. split; [exact Hid|].
  unfold Collect in *. cbv zeta in *. destruct (networkIdentity h) as [[interfaces ips] macs] eqn:En.
  set (known := match PrivateIPs cfg with [] => _ | _ => _ end) in *. destruct known as [interfaces' ips'] eqn:Ek.
  destruct (networkIdentity_private h interfaces ips macs En) as (Hn & Hp & Hel). split.
  - intros Hok. split; cbn [RAgentID Collector.PrivateIPs] in *; [by destruct Hid as [? ->]|]. unfold known in Ek.
    destruct (PrivateIPs cfg) eqn:Ep; injection Ek as <- <-; [|done].
    eapply Forall_impl; [exact Hp|]. intros s (ip & _ & E & _). by eexists.
  - intros Ep. unfold known in Ek. rewrite Ep in Ek. by injection Ek as <- <-.
Qed.
