(* ===== verification/Lifecycle.v ===== *)
(** The agent's life cycle against the backend:
    [agent/internal/lifecycle/heartbeat.go], with the registration payload of
    [exporter/registration_payload.go] as the backend decodes it.

    One tick sends a heartbeat and, when it fails for any reason, registers
    again (AgentLink runs it over the exporter); here is what the two
    requests do to the backend. *)
From S2P Require Import Prelude GoStrings GoFloat GoTime Netip Metrics Inventory Collector AgentConfig Identity Hub Sql Store FlowService AgentService.

#[local] Open Scope Z_scope.

(** The JSON of a [Registration] read as an [AgentRegistration]: the agent
    sends no project. *)
Definition payload (r : Registration) : AgentRegistration :=
  {| RgAgentID := RAgentID r; RgHostname := Collector.Hostname r; RgMachineID := Collector.MachineID r;
     RgTenantID := Collector.TenantID r; RgProjectID := ""; RgPrivateIPs := Collector.PrivateIPs r;
     RgPublicIP := Collector.PublicIP r; RgMACAddresses := Collector.MACAddresses r;
     RgInterfaces := map (fun i => {| IName := IfName i; IIPAddress := IPAddress i; IMACAddress := MACAddress i |})
                       (Interfaces r);
     RgOS := OS r; RgKernel := KernelVersion r; RgAgentVersion := Collector.AgentVersion r;
     RgEnvironment := Collector.Environment r |}.

Definition request_lost : GoError := LibErr "http.Client.Do" "request lost".

Section lifecycle.
Context `{Postgres} (vm_digest : string -> string).
Context {Payload : Type} (marshal : string -> Message -> option Payload) (inventory : option VMInventory).

(** The agent is known to the backend and its flows find their source. *)
Definition online (agentID : string) (db : DB) : Prop :=
  exists a, agents db !! agentID = Some a /\ ag_status a = "online".

(** A heartbeat succeeds only for a known agent, which is online
    afterwards. *)
Lemma Heartbeat_known fault now hb (db : DB) (hub : Hub Payload) u (db' : DB) (hub' : Hub Payload) :
  Heartbeat marshal fault now hb db hub = (Ok u, db', hub') -> is_Some (agents db !! HbAgentID hb) /\ online (HbAgentID hb) db'.
Proof.
  unfold Heartbeat. destruct (_ =? _)%string; [done|]. destruct (fault 0%nat); [done|]. destruct (agents db !! HbAgentID hb) as [a|] eqn:Ea; [|done].
  destruct (fault 1%nat); [done|]. intros [= _ <- _]. split; [done|]. exists (touchAgent now a). split; [apply (lookup_insert_eq (agents db))|done].
Qed.

(** Registering again after a registration that succeeded once. *)
Lemma Register_back fault0 pgnow0 fault pgnow (r : Registration) (db0 : DB) (hub0 : Hub Payload) result (db0' : DB) (hub0' : Hub Payload)
    (db : DB) (hub : Hub Payload) :
  clean (RAgentID r) ->
  Register vm_digest marshal fault0 pgnow0 inventory (payload r) db0 hub0 = (Ok result, db0', hub0') -> (forall j, fault j = None) ->
  exists result' db' hub', Register vm_digest marshal fault pgnow inventory (payload r) db hub = (Ok result', db', hub') /\
    online (RAgentID r) db' /\ exists source, sourceOfAgent (RAgentID r) db' = Some source.
Proof.
  intros [Hne Htrim] HR0 Hf.
  destruct (Register_again vm_digest marshal _ fault _ pgnow _ _ _ db _ hub _ _ _ HR0 Hf) as (result2 & db2 & hub2 & E).
  exists result2, db2, hub2. split; [done|].
  apply Register_cases in E as (_ & v & Hreg & Hsrc & _). change (TrimSpace (RgAgentID (payload r))) with (TrimSpace (RAgentID r)) in Hsrc.
  rewrite Htrim in Hsrc. split; [|by eexists]. destruct Hreg as [_ _ _ _ _ _ (a & Ha & _ & _ & Hs & _) _ _ _ _].
  change (RgAgentID (cleaned (payload r))) with (TrimSpace (RAgentID r)) in Ha. rewrite Htrim in Ha. by exists a.
Qed.
End lifecycle.
