(* ===== verification/BackendMain.v ===== *)
(** The backend's start-up and its periodic sweep: [backend/cmd/api/main.go].

    [start] wires the configuration into the services; [sweep] is one tick of
    the goroutine that refreshes statuses and removes expired machines. *)
From S2P Require Import Prelude GoStrings GoFloat GoTime GoParse AgentConfig BackendConfig Netip Classifier Hub Sql Store Inventory FlowService AgentService InventoryAssign.

#[local] Open Scope Z_scope.

(** What a start ends in: [time.NewTicker] panics on an interval that is not
    positive, and no goroutine recovers. *)
Inductive Started (A : Type) :=
| Running (a : A)
| Failed (e : GoError)
| Panicked (message : string).
Arguments Running {A} a.
Arguments Failed {A} e.
Arguments Panicked {A} message.

Definition ticker_panic : string := "non-positive interval for NewTicker".

Definition mergeInts (groups : list (list Z)) : list Z :=
  append_new (fun value => negb (value <=? 0)) ∅ (mjoin groups).

Definition mergeStrings (groups : list (list string)) : list string :=
  append_new (fun value => negb (value =? "")%string) ∅ (mjoin groups).

(** The services, by what they are made of. *)
Record Backend := {
  b_classifier : Classifier; b_inventory : VMInventory; b_visibility : GraphVisibility;
  b_activeWindow : duration; b_allowedOrigins : list string; b_sweepPeriod : duration; b_deleteAfter : duration
}.

Section start.
Context `{UnicodeCase}.

(** [dbOpen] is the outcome of [db.Open], [open] the file system. *)
Definition start (getenv : Environ) (dbOpen : string -> option GoError) (open : string -> OpenFile) : Started Backend :=
  match BackendConfig.Load getenv with
  | Err err => Failed err
  | Ok cfg =>
      match dbOpen (DatabaseURL cfg) with
      | Some err => Failed err
      | None =>
          match NewClassifier (InternalCIDRs cfg) (UnregisteredInternalScope cfg) with
          | Err err => Failed err
          | Ok classifier =>
              let vmInventory := NewVMInventory (VMInventoryPath cfg) open in
              let graph := Graph cfg in
              if StatusSweepPeriod cfg <=? 0 then Panicked ticker_panic
              else Running {|
                b_classifier := classifier; b_inventory := vmInventory;
                b_visibility := {|
                  ExcludedPorts := mergeInts [gc_ExcludedPorts graph; IgnoredPorts vmInventory];
                  AllowedPorts := gc_AllowedPorts graph;
                  ExcludedIPs := mergeStrings [gc_ExcludedIPs graph; IgnoredIPs vmInventory];
                  IncludeIdle := gc_IncludeIdle graph |};
                b_activeWindow := FlowActiveWindow cfg; b_allowedOrigins := AllowedOrigins cfg;
                b_sweepPeriod := StatusSweepPeriod cfg; b_deleteAfter := VMDeleteAfter cfg |}
          end
      end
  end.

(** The start with its one write to the database: once the services are made
    the inventory is applied to the machines, and an error of that is only
    logged.  [fault] is the error of its statements. *)
Definition boot `{Postgres} (fault : nat -> option GoError) (getenv : Environ) (dbOpen : string -> option GoError)
    (open : string -> OpenFile) (db : DB) : Started Backend * DB :=
  let started := start getenv dbOpen open in
  match started, BackendConfig.Load getenv with
  | Failed _, _ | _, Err _ => (started, db)
  | _, Ok cfg => (started, snd (ApplyInventoryAssignments fault (Some (NewVMInventory (VMInventoryPath cfg) open)) db))
  end.
End start.

Section sweep.
Context `{Postgres} {Payload : Type} (marshal : string -> Message -> option Payload).

(** What one tick meets: the clocks of its two transactions, their faults
    and the rows other transactions hold. *)
Record Tick := {
  t_statuses : time; t_delete : time; t_faultStatuses : nat -> option GoError; t_faultDelete : nat -> option GoError;
  t_lockedVM : string -> bool; t_lockedAgent : string -> bool
}.

(** Errors of either step are logged, and the tick goes on. *)
Definition sweep (b : Backend) (t : Tick) (db : DB) (hub : Hub Payload) : Result unit * Result Z * DB * Hub Payload :=
  let '(r1, db1, hub1) := UpdateStatuses marshal (t_faultStatuses t) (t_statuses t) db hub in
  let '(r2, db2, hub2) := DeleteExpired marshal (t_faultDelete t) (t_lockedVM t) (t_lockedAgent t) (t_delete t)
                            (b_deleteAfter b) db1 hub1 in
  (r1, r2, db2, hub2).
End sweep.

(** ** The end of [run] *)

(** The final [select]: the context is done, or the server stopped by
    itself, with an error that is [http.ErrServerClosed] or not; the
    program's exit error. *)
Inductive Ending := ContextDone (shutdown : option GoError) | ServerStopped (isServerClosed : bool) (err : GoError).
Definition run_end (e : Ending) : option GoError :=
  match e with
  | ContextDone shutdown => shutdown
  | ServerStopped isServerClosed err => if isServerClosed then None else Some err
  end.

(** ** Facts *)

Lemma mjoin_elem {A} (x : A) (ls : list (list A)) : x ∈ mjoin ls <-> exists l, l ∈ ls /\ x ∈ l.
Proof. rewrite list_elem_of_join. split; intros (l & ? & ?); by exists l. Qed.

Lemma mergeInts_spec groups : NoDup (mergeInts groups) /\
  forall p, p ∈ mergeInts groups <-> 0 < p /\ exists g, g ∈ groups /\ p ∈ g.
Proof.
  destruct (append_new_spec (fun value => negb (value <=? 0)) ∅ (mjoin groups)) as [Hn He]. split; [exact Hn|].
  intros p. unfold mergeInts. rewrite He, mjoin_elem, negb_true_iff, Z.leb_gt. set_solver.
Qed.

Lemma mergeStrings_spec groups : NoDup (mergeStrings groups) /\
  forall s, s ∈ mergeStrings groups <-> s <> "" /\ exists g, g ∈ groups /\ s ∈ g.
Proof.
  destruct (append_new_spec (fun value => negb (value =? "")%string) ∅ (mjoin groups)) as [Hn He]. split; [exact Hn|].
  intros p. unfold mergeStrings. rewrite He, mjoin_elem, negb_true_iff, String.eqb_neq. set_solver.
Qed.

(** A configured scope is never what makes [NewClassifier] fail, and it is
    the scope of the classifier. *)
Lemma NewClassifier_configured cidrs scope : scope = "external_private" \/ scope = "unknown_internal" ->
  NewClassifier cidrs scope = (ps <-- parse_cidrs cidrs ;; Ok {| prefixes := ps; unregisteredInternalScope := scope |}).
Proof. by intros [-> | ->]. Qed.

(** The backend a start ends in. *)
Record backend_ok (b : Backend) : Prop := {
  bk_scope : unregisteredInternalScope (b_classifier b) ∈ [ScopeExternalPrivate; ScopeUnknownInternal];
  bk_inventory : Forall entry_ok (entries (b_inventory b));
  bk_excluded : NoDup (ExcludedPorts (b_visibility b));
  bk_ports : Forall port (ExcludedPorts (b_visibility b) ++ AllowedPorts (b_visibility b));
  bk_ignored : forall p, p ∈ IgnoredPorts (b_inventory b) -> p ∈ ExcludedPorts (b_visibility b);
  bk_ips : NoDup (ExcludedIPs (b_visibility b)) /\ Forall (fun ip => ip <> "") (ExcludedIPs (b_visibility b));
  bk_window : 500 * Millisecond <= b_activeWindow b <= Minute;
  bk_sweep : 0 < b_sweepPeriod b;
  bk_retention : b_deleteAfter b = 0 \/ agentStaleWindow < b_deleteAfter b
}.

(** C35: the backend starts well configured or says why not.  For every
    environment: a running backend has a known scope for unregistered
    addresses, a well-formed inventory, excluded ports that are valid ports,
    each once, and include every port the inventory ignores, an active window
    between half a second and a minute, a positive sweep period and a
    retention that is off or longer than the time after which an agent counts
    as offline; it panics exactly when everything else is in order and the
    configured sweep period is not positive, which the configuration does not
    check. *)
Theorem backend_start_sound (uc : UnicodeCase) (getenv : Environ) (dbOpen : string -> option GoError)
    (open : string -> OpenFile) :
  match start getenv dbOpen open with
  | Running b => backend_ok b
  | Failed _ => True
  | Panicked _ => exists cfg, BackendConfig.Load getenv = Ok cfg /\ StatusSweepPeriod cfg <= 0
  end /\
  (forall cfg ps, BackendConfig.Load getenv = Ok cfg -> dbOpen (DatabaseURL cfg) = None ->
     parse_cidrs (InternalCIDRs cfg) = Ok ps ->
     if 0 <? StatusSweepPeriod cfg then exists b, start getenv dbOpen open = Running b
     else start getenv dbOpen open = Panicked ticker_panic).
Proof.
  unfold start. destruct (BackendConfig.Load getenv) as [cfg|e] eqn:El; [|split; [done|by intros]].
  pose proof (backend_Load_ok _ _ El) as [_ _ Hs Hw Hr _ Hp]. rewrite (NewClassifier_configured _ _ Hs).
  split; [|intros cfg' ps [= <-] -> ->; cbn -[mergeInts mergeStrings];
           destruct (Z.ltb_spec 0 (StatusSweepPeriod cfg)), (Z.leb_spec (StatusSweepPeriod cfg) 0); try lia; eauto].
  destruct (dbOpen _); [done|]. destruct (parse_cidrs _) as [ps|]; [|done]. cbn -[mergeInts mergeStrings].
  destruct (Z.leb_spec (StatusSweepPeriod cfg) 0); [by exists cfg|].
  set (inv := NewVMInventory _ open). pose proof (NewVMInventory_ok (VMInventoryPath cfg) open : Forall entry_ok (entries inv)) as Hi.
  apply Forall_app in Hp as [Hp Ha]. split; cbn -[mergeInts mergeStrings].
  - unfold ScopeExternalPrivate, ScopeUnknownInternal. rewrite !elem_of_cons. tauto.
  - exact Hi.
  - apply mergeInts_spec.
  - apply Forall_app. split; [|done]. apply Forall_forall. intros p (_ & g & Hg & Hpg)%mergeInts_spec.
    apply elem_of_cons in Hg as [-> | ->%list_elem_of_singleton]; [by eapply Forall_forall in Hp|].
    pose proof (IgnoredPorts_range inv Hi) as Hr'. by eapply Forall_forall in Hr'.
  - intros p Hpi. apply mergeInts_spec. split; [by apply IgnoredPorts_spec in Hpi as [? _]|].
    exists (IgnoredPorts inv). split; [|done]. right. left.
  - split; [apply mergeStrings_spec|]. apply Forall_forall. by intros s [? _]%mergeStrings_spec.
  - done.
  - done.
  - unfold agentStaleWindow. lia.
Qed.

Section swept_machines.
Context `{Postgres} {Payload : Type} (marshal : string -> Message -> option Payload).

Lemma offline_before now last : last < timestamptz now - agentStaleWindow ->
  agentStatusForLastSeen (timestamptz now) last = "offline".
Proof.
  intros Hl. rewrite <- statusCase_spec. unfold statusCase.
  change (sql_interval agentOnlineWindow) with agentOnlineWindow. change (sql_interval agentStaleWindow) with agentStaleWindow.
  assert (agentOnlineWindow < agentStaleWindow) by reflexivity.
  destruct (Z.leb_spec (timestamptz now - agentOnlineWindow) last); [lia|].
  by destruct (Z.leb_spec (timestamptz now - agentStaleWindow) last); [lia|].
Qed.

End swept_machines.
