(* ===== verification/ConnectionService.v ===== *)
(** Connectivity probes on the backend:
    [backend/internal/service/connection_service.go].

    [Targets] answers an agent with the machines it recently talked to;
    [RecordProbe] stores the result of one probe, statement by statement over
    the tables of Store. *)
From S2P Require Import Prelude GoStrings GoFloat GoTime Netip Classifier Hub Sql Store Inventory FlowService AgentService.

#[local] Open Scope Z_scope.

(** model/connection.go *)
Record ConnectionProbeTarget := {
  tg_SourceVMID : string; tg_SourceIP : string; tg_DestVMID : string; tg_DestName : string;
  tg_DestIP : string; tg_Protocol : string; tg_DestPort : Z; tg_LastSeen : time
}.

Record ConnectionProbeEvent := {
  pe_AgentID : string; pe_SourceIP : string; pe_DestIP : string; pe_Protocol : string; pe_DestPort : Z;
  pe_Success : bool; pe_RTTMs : float64; pe_Error : string; pe_Source : string; pe_Type : string;
  pe_CountedAsRequest : bool; pe_CountedAsUserTraffic : bool; pe_Timestamp : time
}.

Definition probeSource : string := "vmlens_probe".
Definition probeTypeConnectivity : string := "connectivity_check".
Definition probeDefaultProtocol : string := "tcp".
Definition probeDefaultPort : Z := 18081.
Definition probeTargetHistoryWindow : duration := 30 * Minute.

Section service.
Context `{Postgres}.

(** ** Targets *)

(** The query's [self]: the machine of the agent and its address. *)
Definition selfOfAgent (agentID : string) (db : DB) : option (string * string) :=
  match agents db !! agentID with
  | None => None
  | Some a =>
      match ag_vm_id a with
      | None => None
      | Some vmID => (fun v => (vmID, text (host <$> vm_private_ip v))) <$> vms db !! vmID
      end
  end.

(** The join condition of [peer_flows]. *)
Definition peerFlow (cutoff : time) (self : string) (f : FlowRow) : bool :=
  existsb (String.eqb (fl_scope f)) [ScopeInternalSameTenant; ScopeInternalCrossTenant]
  && sql_holds (sql_or (sql_eq (fl_src_vm_id f) self) (sql_eq (fl_dst_vm_id f) self))
  && (cutoff <=? fl_observed_at f).

(** [CASE WHEN f.src_vm_id = self.vm_id THEN f.dst_vm_id ... END] *)
Definition destVM (self : string) (f : FlowRow) : option string :=
  if sql_holds (sql_eq (fl_src_vm_id f) self) then fl_dst_vm_id f
  else if sql_holds (sql_eq (fl_dst_vm_id f) self) then fl_src_vm_id f
  else None.

Definition peer_flows (cutoff : time) (self : string) (db : DB) : list (option string * time) :=
  map (fun '(dest, g) => (dest, sql_max (map fl_observed_at g)))
    (group_by (destVM self) (List.filter (peerFlow cutoff self) (network_flows db))).

(** The join with the peer, and the query's [WHERE]. *)
Definition targetRow (self sourceIP : string) (db : DB) (row : option string * time) : option ConnectionProbeTarget :=
  let '(dest, last_seen) := row in
  match dest with
  | None => None
  | Some peerID =>
      match vms db !! peerID with
      | None => None
      | Some peer =>
          match vm_private_ip peer with
          | None => None
          | Some ip =>
              if (peerID =? self)%string || (sourceIP =? "")%string then None
              else Some {| tg_SourceVMID := self; tg_SourceIP := sourceIP; tg_DestVMID := peerID;
                           tg_DestName := vm_name peer; tg_DestIP := host ip;
                           tg_Protocol := probeDefaultProtocol; tg_DestPort := probeDefaultPort;
                           tg_LastSeen := last_seen |}
          end
      end
  end.

Definition targetRows (pgnow : time) (agentID : string) (db : DB) : list ConnectionProbeTarget :=
  match selfOfAgent agentID db with
  | None => []
  | Some (self, sourceIP) =>
      let cutoff := timestamptz pgnow - sql_interval probeTargetHistoryWindow in
      query (fun _ => true) tg_LastSeen 200 (omap (targetRow self sourceIP db) (peer_flows cutoff self db))
  end.

(** [s.inventory.ProbeForIP] on a scanned row. *)
Definition withInventory (inventory : option VMInventory) (target : ConnectionProbeTarget) : ConnectionProbeTarget :=
  match inventory with
  | None => target
  | Some i =>
      let '(protocol, port) := ProbeForIP i (tg_DestIP target) (tg_Protocol target) (tg_DestPort target) in
      {| tg_SourceVMID := tg_SourceVMID target; tg_SourceIP := tg_SourceIP target; tg_DestVMID := tg_DestVMID target;
         tg_DestName := tg_DestName target; tg_DestIP := tg_DestIP target; tg_Protocol := protocol;
         tg_DestPort := port; tg_LastSeen := tg_LastSeen target |}
  end.

Definition Targets (fault : option GoError) (pgnow : time) (inventory : option VMInventory) (agentID : string)
    (db : DB) : Result (list ConnectionProbeTarget) :=
  let agentID := TrimSpace agentID in
  guard_err (agentID =? "")%string as (Errorf "agent_id is required" []) ;;
  match fault with
  | Some err => Err err
  | None => Ok (map (withInventory inventory) (targetRows pgnow agentID db))
  end.

(** ** RecordProbe *)

Context `{UnicodeCase}.

(** The checks and defaults before the transaction. *)
Definition normalizeProbe (now : time) (event : ConnectionProbeEvent) : Result ConnectionProbeEvent :=
  let agentID := TrimSpace (pe_AgentID event) in
  let destIP := TrimSpace (pe_DestIP event) in
  let protocol := ToLower (TrimSpace (pe_Protocol event)) in
  let source := TrimSpace (pe_Source event) in
  let type := TrimSpace (pe_Type event) in
  guard_err (agentID =? "")%string as (Errorf "agent_id is required" []) ;;
  guard_err (destIP =? "")%string as (Errorf "dest_ip is required" []) ;;
  let protocol := if (protocol =? "")%string then probeDefaultProtocol else protocol in
  guard_err (negb (protocol =? "tcp")%string && negb (protocol =? "udp")%string && negb (protocol =? "icmp")%string)
    as (Errorf "unsupported protocol %q" [protocol]) ;;
  let destPort := if pe_DestPort event <=? 0 then probeDefaultPort else pe_DestPort event in
  let source := if (source =? "")%string then probeSource else source in
  let type := if (type =? "")%string then probeTypeConnectivity else type in
  let timestamp := if IsZero (pe_Timestamp event) then now else pe_Timestamp event in
  guard_err (negb (source =? probeSource)%string || negb (type =? probeTypeConnectivity)%string
             || pe_CountedAsRequest event || pe_CountedAsUserTraffic event)
    as (Errorf "connectivity probe must be uncounted vmlens_probe connectivity_check" []) ;;
  Ok {| pe_AgentID := agentID; pe_SourceIP := TrimSpace (pe_SourceIP event); pe_DestIP := destIP;
        pe_Protocol := protocol; pe_DestPort := destPort; pe_Success := pe_Success event; pe_RTTMs := pe_RTTMs event;
        pe_Error := TrimSpace (pe_Error event); pe_Source := source; pe_Type := type;
        pe_CountedAsRequest := pe_CountedAsRequest event; pe_CountedAsUserTraffic := pe_CountedAsUserTraffic event;
        pe_Timestamp := timestamp |}.

(** The [QueryRow] for the source: the machine and its address as text. *)
Definition probeSourceRow (agentID : string) (db : DB) : option (resolvedVM * string) :=
  match agents db !! agentID with
  | None => None
  | Some a =>
      match ag_vm_id a with
      | None => None
      | Some vmID => (fun v => (resolved vmID v, text (host <$> vm_private_ip v))) <$> vms db !! vmID
      end
  end.

Definition with_source_ip (event : ConnectionProbeEvent) (ip : string) : ConnectionProbeEvent :=
  {| pe_AgentID := pe_AgentID event; pe_SourceIP := ip; pe_DestIP := pe_DestIP event;
     pe_Protocol := pe_Protocol event; pe_DestPort := pe_DestPort event; pe_Success := pe_Success event;
     pe_RTTMs := pe_RTTMs event; pe_Error := pe_Error event; pe_Source := pe_Source event; pe_Type := pe_Type event;
     pe_CountedAsRequest := pe_CountedAsRequest event; pe_CountedAsUserTraffic := pe_CountedAsUserTraffic event;
     pe_Timestamp := pe_Timestamp event |}.

Definition with_probes (db : DB) (l : list ProbeRow) : DB :=
  {| agents := agents db; vms := vms db; vm_interfaces := vm_interfaces db; network_flows := network_flows db;
     flow_observations := flow_observations db; external_hosts := external_hosts db;
     unknown_internal_hosts := unknown_internal_hosts db; connection_probes := l |}.

Definition newProbe (pgnow : time) (event : ConnectionProbeEvent) (sourceID : string) (destinationID : option string)
    (src dst : inet) : ProbeRow :=
  {| pr_agent_id := pe_AgentID event; pr_src_vm_id := sourceID; pr_dst_vm_id := destinationID; pr_src_ip := src;
     pr_dst_ip := dst; pr_protocol := pe_Protocol event; pr_dst_port := pe_DestPort event;
     pr_source := pe_Source event; pr_probe_type := pe_Type event; pr_success := pe_Success event;
     pr_rtt_ms := pe_RTTMs event; pr_error := nullIfEmpty (pe_Error event);
     pr_first_seen := timestamptz (pe_Timestamp event); pr_last_seen := timestamptz (pe_Timestamp event);
     pr_observed_at := timestamptz pgnow |}.

(** The [DO UPDATE SET] on the row in conflict. *)
Definition refreshProbe (new old : ProbeRow) : ProbeRow :=
  {| pr_agent_id := pr_agent_id old; pr_src_vm_id := pr_src_vm_id old; pr_dst_vm_id := pr_dst_vm_id old;
     pr_src_ip := pr_src_ip old; pr_dst_ip := pr_dst_ip old; pr_protocol := pr_protocol old;
     pr_dst_port := pr_dst_port old; pr_source := pr_source old; pr_probe_type := pr_probe_type old;
     pr_success := pr_success new; pr_rtt_ms := pr_rtt_ms new; pr_error := pr_error new;
     pr_first_seen := pr_first_seen old; pr_last_seen := pr_last_seen new; pr_observed_at := pr_observed_at new |}.

(** The column checks of connection_probes; dst_port is an [INTEGER]. *)
Definition probe_checks (q : ProbeRow) : Result unit :=
  guard_err (negb ((- 2 ^ 31 <=? pr_dst_port q) && (pr_dst_port q <? 2 ^ 31))) as (pg_error "integer out of range") ;;
  guard_err (negb (existsb (String.eqb (pr_protocol q)) ["tcp"; "udp"; "icmp"]
                   && negb (float8_gt (f_of_Z 0) (pr_rtt_ms q)))) as check_violation ;;
  Ok tt.

Definition upsertProbe (row : ProbeRow) (db : DB) : Result (unit * DB) :=
  _ <-- probe_checks row ;;
  Ok (tt, with_probes db
        (if existsb (fun q => bool_decide (probe_key q = probe_key row)) (connection_probes db)
         then map (fun q => if bool_decide (probe_key q = probe_key row) then refreshProbe row q else q)
                (connection_probes db)
         else connection_probes db ++ [row])).

(** The statements between [Begin] and [Commit]; the value is the event with
    the source address of the machine. *)
Definition probeBody (fault : nat -> option GoError) (pgnow : time) (event : ConnectionProbeEvent)
    : Tx ConnectionProbeEvent :=
  found <~ stmt fault (fun db => Ok (probeSourceRow (pe_AgentID event) db, db)) ;;
  match found with
  | None => tx_err (Errorf "agent %q is not registered" [pe_AgentID event])
  | Some (source, sourceIP) =>
      let event := with_source_ip event sourceIP in
      destination <~ stmt fault (fun db => r <-- resolveVMByIP (pe_DestIP event) db ;; Ok (r, db)) ;;
      let destinationID := r_ID <$> destination in
      _ <~ tx_wrap "record connection probe: %w" []
             (stmt fault (fun db =>
                src <-- cast_inet (pe_SourceIP event) ;;
                dst <-- cast_inet (pe_DestIP event) ;;
                upsertProbe (newProbe pgnow event (r_ID source) destinationID src dst) db)) ;;
      _ <~ stmt fault (fun db => Ok (tt, with_agents db (alter (touchAgent pgnow) (pe_AgentID event) (agents db)))) ;;
      _ <~ stmt fault (fun db => Ok (tt, with_vms db (alter (touchVM pgnow) (r_ID source) (vms db)))) ;;
      tx_ret event
  end.

Context {Payload : Type} (marshal : string -> ConnectionProbeEvent -> option Payload).

Definition RecordProbe (fault : nat -> option GoError) (now pgnow : time) (event : ConnectionProbeEvent)
    (db : DB) (hub : Hub Payload) : Result unit * DB * Hub Payload :=
  match normalizeProbe now event with
  | Err err => (Err err, db, hub)
  | Ok event =>
      match transaction fault (probeBody fault pgnow event) db with
      | (Err err, db') => (Err err, db', hub)
      | (Ok event, db') =>
          (Ok tt, db', if pe_Success event
                       then BroadcastLatest hub "connection.probe" (marshal "connection.probe" event) (500 * Millisecond)
                       else hub)
      end
  end.
End service.

(** * Facts *)

Section facts.
Context `{Postgres}.

(** A flow between [self] and [peer] in the window. *)
Definition talked (cutoff : time) (self peer : string) (f : FlowRow) : Prop :=
  (fl_scope f = ScopeInternalSameTenant \/ fl_scope f = ScopeInternalCrossTenant) /\ cutoff <= fl_observed_at f /\
  ((fl_src_vm_id f = Some self /\ fl_dst_vm_id f = Some peer) \/
   (fl_dst_vm_id f = Some self /\ fl_src_vm_id f = Some peer)).

Lemma peerFlow_talked cutoff self peer f : peer <> self ->
  (peerFlow cutoff self f = true /\ destVM self f = Some peer) <-> talked cutoff self peer f.
Proof.
  intros Hne. unfold peerFlow, destVM, talked. rewrite sql_or_holds, !sql_eq_holds. cbn [existsb].
  rewrite !andb_true_iff, Z.leb_le, orb_true_iff, orb_false_r, orb_true_iff, !String.eqb_eq.
  repeat case_bool_decide; intuition congruence.
Qed.

(** The groups of [peer_flows]: a peer with its latest flow. *)
Lemma peer_flows_spec cutoff self db peer seen : peer <> self ->
  (Some peer, seen) ∈ peer_flows cutoff self db <->
  (exists f, f ∈ network_flows db /\ talked cutoff self peer f /\ fl_observed_at f = seen) /\
  (forall f, f ∈ network_flows db -> talked cutoff self peer f -> fl_observed_at f <= seen).
Proof.
  intros Hne. unfold peer_flows. set (l := List.filter _ _).
  assert (Hl : forall f, f ∈ l /\ destVM self f = Some peer <-> f ∈ network_flows db /\ talked cutoff self peer f).
  { intros f. unfold l. rewrite elem_of_filter_In, <- peerFlow_talked by done. tauto. }
  set (g := List.filter (fun x => bool_decide (destVM self x = Some peer)) l).
  assert (Hg : forall f, f ∈ g <-> f ∈ network_flows db /\ talked cutoff self peer f).
  { intros f. unfold g. by rewrite elem_of_filter_In, bool_decide_eq_true, Hl. }
  rewrite (list_elem_of_In _ (Some peer, seen)), in_map_iff. split.
  - intros ([k g'] & E & Hin%list_elem_of_In). injection E as -> <-. apply group_by_elem in Hin as [Hk ->]. fold g.
    apply list_elem_of_fmap in Hk as (f0 & E0 & Hf0).
    assert (Hne' : map fl_observed_at g <> []).
    { assert (f0 ∈ g) as Hf by (apply Hg, Hl; by split). by destruct g; [apply elem_of_nil in Hf|]. }
    destruct (sql_max_spec _ Hne') as [H1 H2]. split.
    + apply list_elem_of_In, in_map_iff in H1 as (f & E & Hf%list_elem_of_In%Hg). exists f. tauto.
    + intros f Hf Ht. apply H2, list_elem_of_In, in_map, list_elem_of_In, Hg. done.
  - intros [(f & Hf & Ht & <-) Hmax]. exists (Some peer, g). split.
    + f_equal. assert (Hne' : map fl_observed_at g <> []).
      { assert (f ∈ g) as Hin by (by apply Hg). by destruct g; [apply elem_of_nil in Hin|]. }
      destruct (sql_max_spec _ Hne') as [H1 H2].
      apply list_elem_of_In, in_map_iff in H1 as (f' & E & Hf'%list_elem_of_In%Hg).
      assert (fl_observed_at f <= sql_max (map fl_observed_at g)).
      { apply H2, list_elem_of_In, in_map, list_elem_of_In, Hg. done. }
      destruct Hf' as [Hf1 Hf2]. specialize (Hmax f' Hf1 Hf2). lia.
    + apply list_elem_of_In, group_by_elem. split; [|done]. apply list_elem_of_fmap. exists f.
      assert (f ∈ l /\ destVM self f = Some peer) as [? ?] by (by apply Hl). done.
Qed.

Lemma peer_flows_latest cutoff self peer f db : peer <> self -> f ∈ network_flows db -> talked cutoff self peer f ->
  exists seen, (Some peer, seen) ∈ peer_flows cutoff self db.
Proof.
  intros Hne Hf Ht. apply (peerFlow_talked _ _ _ _ Hne) in Ht as [Hp Hd].
  unfold peer_flows. eexists. apply list_elem_of_In, in_map_iff. eexists (Some peer, _). split; [reflexivity|].
  apply list_elem_of_In, group_by_elem. split; [|reflexivity]. apply list_elem_of_fmap. exists f.
  split; [done|]. by apply elem_of_filter_In.
Qed.

Lemma targetRow_Some self ip db row t : targetRow self ip db row = Some t ->
  exists peer addr, row = (Some (tg_DestVMID t), tg_LastSeen t) /\ vms db !! tg_DestVMID t = Some peer /\
    vm_private_ip peer = Some addr /\ tg_DestVMID t <> self /\ ip <> "" /\
    t = {| tg_SourceVMID := self; tg_SourceIP := ip; tg_DestVMID := tg_DestVMID t; tg_DestName := vm_name peer;
           tg_DestIP := host addr; tg_Protocol := probeDefaultProtocol; tg_DestPort := probeDefaultPort;
           tg_LastSeen := tg_LastSeen t |}.
Proof.
  destruct row as [[peerID|] seen]; [|done]. unfold targetRow. destruct (vms db !! peerID) as [peer|] eqn:Ep; [|done].
  destruct (vm_private_ip peer) as [addr|] eqn:Ea; [|done]. destruct (_ || _) eqn:E; [done|]. intros [= <-].
  bools. exists peer, addr. by split_and!.
Qed.

Lemma withInventory_keeps inventory t :
  let t' := withInventory inventory t in
  tg_SourceVMID t' = tg_SourceVMID t /\ tg_SourceIP t' = tg_SourceIP t /\ tg_DestVMID t' = tg_DestVMID t /\
  tg_DestIP t' = tg_DestIP t /\ tg_LastSeen t' = tg_LastSeen t.
Proof. destruct inventory as [i|]; [|done]. unfold withInventory. by destruct (ProbeForIP _ _ _ _). Qed.

(** One row per peer. *)
Lemma targets_NoDup cutoff self ip db :
  NoDup (tg_DestVMID <$> omap (targetRow self ip db) (peer_flows cutoff self db)).
Proof.
  assert (Hk : NoDup (fst <$> peer_flows cutoff self db)).
  { unfold peer_flows. change (fst <$> ?x) with (map fst x). rewrite map_map.
    erewrite (map_ext _ fst); [apply group_by_keys|by intros []]. }
  induction (peer_flows cutoff self db) as [|row rows IH]; [constructor|]. apply NoDup_cons in Hk as [Hn Hk].
  cbn [omap list_omap]. destruct (targetRow self ip db row) as [t|] eqn:Et; [|by apply IH].
  rewrite fmap_cons. constructor; [|by apply IH]. intros (t' & E & Hin)%list_elem_of_fmap. apply Hn.
  apply list_elem_of_omap in Hin as (row' & Hrow' & Et').
  apply targetRow_Some in Et as (? & ? & -> & _). apply targetRow_Some in Et' as (? & ? & -> & _).
  apply list_elem_of_fmap. exists (Some (tg_DestVMID t'), tg_LastSeen t'). simpl. by rewrite E.
Qed.

Lemma Targets_Ok fault pgnow inventory agentID db result :
  Targets fault pgnow inventory agentID db = Ok result ->
  TrimSpace agentID <> "" /\ result = map (withInventory inventory) (targetRows pgnow (TrimSpace agentID) db).
Proof.
  unfold Targets. destruct (String.eqb_spec (TrimSpace agentID) ""); [done|]. destruct fault; [done|].
  by intros [= <-].
Qed.

Lemma selfOfAgent_Some agentID db self ip : selfOfAgent agentID db = Some (self, ip) ->
  exists a v, agents db !! agentID = Some a /\ ag_vm_id a = Some self /\ vms db !! self = Some v /\
    ip = text (host <$> vm_private_ip v).
Proof.
  unfold selfOfAgent. destruct (agents db !! agentID) as [a|] eqn:Ea; [|done].
  destruct (ag_vm_id a) as [id|] eqn:Ei; [|done]. intros (v & Hv & [= -> ->])%fmap_Some. by exists a, v.
Qed.

(** What a listed target is. *)
Lemma targetRows_elem pgnow agentID db t : t ∈ targetRows pgnow agentID db ->
  exists self ip peer addr, selfOfAgent agentID db = Some (self, ip) /\ vms db !! tg_DestVMID t = Some peer /\
    vm_private_ip peer = Some addr /\ tg_DestVMID t <> self /\ ip <> "" /\
    (Some (tg_DestVMID t), tg_LastSeen t) ∈
      peer_flows (timestamptz pgnow - sql_interval probeTargetHistoryWindow) self db /\
    t = {| tg_SourceVMID := self; tg_SourceIP := ip; tg_DestVMID := tg_DestVMID t; tg_DestName := vm_name peer;
           tg_DestIP := host addr; tg_Protocol := probeDefaultProtocol; tg_DestPort := probeDefaultPort;
           tg_LastSeen := tg_LastSeen t |}.
Proof.
  unfold targetRows. destruct (selfOfAgent agentID db) as [[self ip]|] eqn:Es; [|by intros ?%elem_of_nil].
  intros Hin. apply query_elem in Hin as [Hin _].
  apply list_elem_of_omap in Hin as (row & Hrow & Ht).
  apply targetRow_Some in Ht as (peer & addr & -> & Hp & Ha & Hne & Hip & Ht). by exists self, ip, peer, addr.
Qed.

(** Probe targets are exactly the peers an agent talked to.  A target
    list has at most 200 entries, one per machine, the latest first; each is
    another machine with an address that exchanged an internal flow with the
    agent's machine in the last 30 minutes, seen last when the entry says;
    and when fewer than 200 are listed no such peer is missing. *)
Theorem targets_spec (fault : option GoError) (pgnow : time) (inventory : option VMInventory) (agentID : string)
    (db : DB) (result : list ConnectionProbeTarget) :
  Targets fault pgnow inventory agentID db = Ok result ->
  let cutoff := timestamptz pgnow - 30 * Minute in
  (length result <= 200)%nat /\ NoDup (tg_DestVMID <$> result) /\ Sorted.StronglySorted (newer tg_LastSeen) result /\
  (forall t, t ∈ result -> exists v addr f,
     selfOfAgent (TrimSpace agentID) db = Some (tg_SourceVMID t, tg_SourceIP t) /\ tg_DestVMID t <> tg_SourceVMID t /\
     vms db !! tg_DestVMID t = Some v /\ vm_private_ip v = Some addr /\ tg_DestIP t = host addr /\
     f ∈ network_flows db /\ talked cutoff (tg_SourceVMID t) (tg_DestVMID t) f /\ fl_observed_at f = tg_LastSeen t /\
     forall f', f' ∈ network_flows db -> talked cutoff (tg_SourceVMID t) (tg_DestVMID t) f' ->
       fl_observed_at f' <= tg_LastSeen t) /\
  (forall self ip peer v addr f, selfOfAgent (TrimSpace agentID) db = Some (self, ip) -> ip <> "" -> peer <> self ->
     vms db !! peer = Some v -> vm_private_ip v = Some addr -> f ∈ network_flows db -> talked cutoff self peer f ->
     (length result < 200)%nat -> peer ∈ (tg_DestVMID <$> result)).
Proof.
  intros [_ ->]%Targets_Ok cutoff.
  assert (Hw : timestamptz pgnow - sql_interval probeTargetHistoryWindow = cutoff) by reflexivity.
  set (rows := targetRows pgnow (TrimSpace agentID) db).
  assert (Hdest : tg_DestVMID <$> map (withInventory inventory) rows = tg_DestVMID <$> rows).
  { change (tg_DestVMID <$> ?x) with (map tg_DestVMID x). rewrite map_map. apply map_ext. intros t.
    apply withInventory_keeps. }
  rewrite length_map, Hdest. split_and!.
  - unfold rows, targetRows. destruct (selfOfAgent _ db) as [[self ip]|]; [apply query_length|simpl; lia].
  - unfold rows, targetRows. destruct (selfOfAgent _ db) as [[self ip]|]; [|constructor].
    set (l := omap _ _). destruct (query_sub (fun _ => true) tg_LastSeen 200%nat l) as [rest Hp].
    rewrite forallb_filter_id in Hp by (by apply forallb_forall).
    apply (fmap_Permutation tg_DestVMID) in Hp. rewrite fmap_app in Hp.
    assert (Hn : NoDup (tg_DestVMID <$> l)) by apply targets_NoDup. rewrite <- Hp in Hn. by apply NoDup_app in Hn as [? _].
  - unfold rows, targetRows. destruct (selfOfAgent _ db) as [[self ip]|]; [|constructor].
    apply (sorted_map tg_LastSeen); [|apply query_sorted]. intros t. apply withInventory_keeps.
  - intros t' (t & -> & Ht)%list_elem_of_fmap. destruct (withInventory_keeps inventory t) as (-> & -> & -> & -> & ->).
    apply targetRows_elem in Ht as (self & ip & peer & addr & Hs & Hp & Ha & Hne & Hip & Hpf & ->). cbn in *.
    rewrite Hw in Hpf. apply peer_flows_spec in Hpf as [(f & Hf & Ht & Hl) Hmax]; [|done].
    exists peer, addr, f. by split_and!.
  - intros self ip peer v addr f Hs Hip Hne Hv Ha Hf Ht Hlen. unfold rows, targetRows in *. rewrite Hs in *.
    rewrite Hw in *.
    destruct (peer_flows_latest cutoff self peer f db) as [seen Hseen]; [done..|].
    assert (Hrow : exists t, targetRow self ip db (Some peer, seen) = Some t /\ tg_DestVMID t = peer).
    { unfold targetRow. rewrite Hv, Ha, (proj2 (String.eqb_neq _ _) Hne), (proj2 (String.eqb_neq _ _) Hip). by eexists. }
    destruct Hrow as (t & Et & <-). apply list_elem_of_fmap. exists t. split; [done|].
    apply query_complete; [|done|done]. apply list_elem_of_omap. by exists (Some (tg_DestVMID t), seen).
Qed.
End facts.

(** ** Recorded probes *)

Section recorded.
Context `{Postgres} `{UnicodeCase} {Payload : Type} (marshal : string -> ConnectionProbeEvent -> option Payload).

(** The rows after an upsert of [row]. *)
Record upserted (row : ProbeRow) (l l' : list ProbeRow) : Prop := {
  up_row : exists q, q ∈ l' /\ probe_key q = probe_key row /\ pr_success q = pr_success row /\
    pr_rtt_ms q = pr_rtt_ms row /\ pr_error q = pr_error row /\ pr_last_seen q = pr_last_seen row /\
    pr_observed_at q = pr_observed_at row;
  up_others : forall q, probe_key q <> probe_key row -> q ∈ l' <-> q ∈ l;
  up_unique : NoDup (probe_key <$> l) -> NoDup (probe_key <$> l')
}.

Lemma refreshProbe_key row q : probe_key (refreshProbe row q) = probe_key q.
Proof. done. Qed.

Lemma upsertProbe_Ok row db x db' : upsertProbe row db = Ok (x, db') ->
  exists l', db' = with_probes db l' /\ upserted row (connection_probes db) l'.
Proof.
  unfold upsertProbe. intros (? & _ & [= _ <-])%rbind_Ok. eexists. split; [done|].
  set (l := connection_probes db). destruct (existsb _ l) eqn:E.
  - set (f := fun q => if bool_decide (probe_key q = probe_key row) then refreshProbe row q else q).
    assert (Hk : forall q, probe_key (f q) = probe_key q) by (intros q; unfold f; by case_bool_decide).
    split.
    + apply existsb_exists in E as (q & Hq & E%bool_decide_eq_true). exists (f q).
      split; [by apply list_elem_of_In, in_map|]. rewrite Hk. unfold f. rewrite bool_decide_eq_true_2 by done. done.
    + intros q Hne. rewrite list_elem_of_In, in_map_iff. split.
      * intros (q0 & Eq & Hq%list_elem_of_In). unfold f in Eq. case_bool_decide as Eb; [|by subst].
        subst q. by rewrite refreshProbe_key in Hne.
      * intros Hq. exists q. split; [|by apply list_elem_of_In]. unfold f. by rewrite bool_decide_eq_false_2.
    + intros Hn. change (probe_key <$> ?x) with (map probe_key x). rewrite map_map. erewrite map_ext; [exact Hn|exact Hk].
  - assert (Hn : probe_key row ∉ (probe_key <$> l)).
    { intros (q & Eq & Hq)%list_elem_of_fmap. apply not_true_iff_false in E. apply E, existsb_exists.
      exists q. split; [by apply list_elem_of_In|]. by rewrite bool_decide_eq_true. }
    split.
    + exists row. split; [apply elem_of_app; right; left|done].
    + intros q Hne. rewrite elem_of_app, list_elem_of_singleton. intuition congruence.
    + intros Hnd. rewrite fmap_app. apply NoDup_app. split_and!; [done| |apply NoDup_singleton].
      intros k Hk ->%list_elem_of_singleton. done.
Qed.

(** A committed probe. *)
Record probed (pgnow : time) (e : ConnectionProbeEvent) (db : DB) (e' : ConnectionProbeEvent) (db' : DB) : Prop := {
  pb_effect : exists source ip destination src dst,
    probeSourceRow (pe_AgentID e) db = Some (source, ip) /\ resolveVMByIP (pe_DestIP e) db = Ok destination /\
    inet_in ip = Some src /\ inet_in (pe_DestIP e) = Some dst /\ e' = with_source_ip e ip /\
    upserted (newProbe pgnow e' (r_ID source) (r_ID <$> destination) src dst)
      (connection_probes db) (connection_probes db') /\
    vms db' = alter (touchVM pgnow) (r_ID source) (vms db);
  pb_agents : agents db' = alter (touchAgent pgnow) (pe_AgentID e) (agents db);
  pb_interfaces : vm_interfaces db' = vm_interfaces db;
  pb_flows : network_flows db' = network_flows db;
  pb_observations : flow_observations db' = flow_observations db;
  pb_external : external_hosts db' = external_hosts db;
  pb_unknown : unknown_internal_hosts db' = unknown_internal_hosts db
}.

Lemma probeBody_Ok fault pgnow e k db e' db' k' :
  probeBody fault pgnow e k db = (Ok (e', db'), k') -> probed pgnow e db e' db'.
Proof.
  unfold probeBody. intros (found & ? & ? & (_ & [= Hs <-] & ->)%stmt_Ok & E)%tx_bind_Ok.
  destruct found as [[source ip]|]; [|done].
  apply tx_bind_Ok in E as (dest & ? & ? & (_ & (d & Hd & [= <- <-])%rbind_Ok & ->)%stmt_Ok & E).
  apply tx_bind_Ok in E as (? & db2 & ? & (_ & Ei & ->)%tx_wrap_Ok%stmt_Ok & E).
  apply rbind_Ok in Ei as (src & Hsrc%cast_inet_Ok & Ei). apply rbind_Ok in Ei as (dst & Hdst%cast_inet_Ok & Ei).
  apply upsertProbe_Ok in Ei as (l' & -> & Hup).
  apply tx_bind_Ok in E as (? & ? & ? & (_ & [= _ <-] & ->)%stmt_Ok & E).
  apply tx_bind_Ok in E as (? & ? & ? & (_ & [= _ <-] & ->)%stmt_Ok & [= <- <- _]).
  split; try done. by exists source, ip, d, src, dst.
Qed.

Lemma normalizeProbe_Ok now event e : normalizeProbe now event = Ok e ->
  pe_Success e = pe_Success event /\ pe_RTTMs e = pe_RTTMs event /\ pe_AgentID e = TrimSpace (pe_AgentID event) /\
  pe_DestIP e = TrimSpace (pe_DestIP event) /\
  (pe_Protocol e = "tcp" \/ pe_Protocol e = "udp" \/ pe_Protocol e = "icmp") /\ 0 < pe_DestPort e /\
  pe_Source e = probeSource /\ pe_Type e = probeTypeConnectivity /\
  pe_CountedAsRequest event = false /\ pe_CountedAsUserTraffic event = false.
Proof.
  unfold normalizeProbe. cbv zeta. set (protocol := if (_ =? "")%string then probeDefaultProtocol else _).
  set (port := if pe_DestPort event <=? 0 then _ else _).
  set (source := if (TrimSpace (pe_Source event) =? "")%string then _ else _).
  set (type := if (TrimSpace (pe_Type event) =? "")%string then _ else _).
  destruct (TrimSpace (pe_AgentID event) =? "")%string; [done|]. destruct (TrimSpace (pe_DestIP event) =? "")%string; [done|].
  destruct (negb (protocol =? "tcp")%string && _ && _) eqn:Ep; [done|].
  destruct (negb (source =? probeSource)%string || _ || _ || _) eqn:Es; [done|]. intros [= <-]. cbn.
  assert (0 < port) by (unfold port, probeDefaultPort; destruct (Z.leb_spec (pe_DestPort event) 0); lia).
  bools. split_and!; try done. destruct (String.eqb_spec protocol "tcp"), (String.eqb_spec protocol "udp"),
    (String.eqb_spec protocol "icmp"); auto; done.
Qed.

Lemma RecordProbe_Ok fault now pgnow event db hub x db' hub' :
  RecordProbe marshal fault now pgnow event db hub = (Ok x, db', hub') ->
  exists e e', normalizeProbe now event = Ok e /\ probed pgnow e db e' db' /\
    hub' = if pe_Success event
           then BroadcastLatest hub "connection.probe" (marshal "connection.probe" e') (500 * Millisecond) else hub.
Proof.
  unfold RecordProbe. destruct (normalizeProbe now event) as [e|] eqn:En; [|done].
  destruct (transaction _ _ db) as [[e'|] db1] eqn:Et; [|done]. intros [= _ <- <-].
  apply transaction_Ok in Et as [k Hp%probeBody_Ok]. exists e, e'. split_and!; [done..|].
  assert (pe_Success e' = pe_Success event) as ->; [|done].
  destruct Hp as [(? & ? & ? & ? & ? & _ & _ & _ & _ & -> & _) _ _ _ _ _ _]. simpl.
  by apply normalizeProbe_Ok in En as [-> _].
Qed.

Lemma RecordProbe_Err fault now pgnow event db hub e db' hub' :
  RecordProbe marshal fault now pgnow event db hub = (Err e, db', hub') -> db' = db /\ hub' = hub.
Proof.
  unfold RecordProbe. destruct (normalizeProbe now event) as [e1|]; [|by intros [= _ <- <-]].
  destruct (transaction _ _ db) as [[e'|] db1] eqn:Et; [done|]. intros [= _ <- <-].
  by apply transaction_err in Et as ->.
Qed.

End recorded.
