(* ===== verification/References.v ===== *)
(** The backend as a whole: requests of agents and the periodic sweeps, in
    any order, over one database.

    Foreign keys are not checked by the statements of FlowService and
    AgentService; the invariant of this file shows that no statement of the
    services violates one.  The last theorems are about what the operations
    do in combination. *)
From S2P Require Import Prelude GoStrings GoFloat GoTime Netip AgentFlow Metrics Classifier Hub Sql Store Inventory FlowService AgentService ConnectionService.

#[local] Open Scope Z_scope.

(** One call of a service: [FlowService.Ingest], the operations of
    [AgentService] and [ConnectionService.RecordProbe], with the clocks,
    faults and locks it meets. *)
Inductive Op :=
| OIngest (env : Env) (event : FlowEvent)
| ORegister (fault : nat -> option GoError) (pgnow : time) (registration : AgentRegistration)
| OHeartbeat (fault : nat -> option GoError) (now : time) (heartbeat : AgentHeartbeat)
| OStatuses (fault : nat -> option GoError) (pgnow : time)
| ODelete (fault : nat -> option GoError) (lockedVM lockedAgent : string -> bool) (pgnow : time)
    (deleteAfter : duration)
| ORecordProbe (fault : nat -> option GoError) (now pgnow : time) (event : ConnectionProbeEvent).

Section backend.
Context `{Postgres} `{UnicodeCase} {Payload : Type}.
Context (marshalFlow : string -> Flow -> option Payload) (marshalAgent : string -> Message -> option Payload).
Context (marshalProbe : string -> ConnectionProbeEvent -> option Payload).
Context (vm_digest : string -> string) (inventory : option VMInventory) (classifier : Classifier).

Definition run (op : Op) (st : DB * Hub Payload) : DB * Hub Payload :=
  let '(db, hub) := st in
  match op with
  | OIngest env event => let '(_, db', hub') := Ingest marshalFlow classifier env event db hub in (db', hub')
  | ORegister fault pgnow registration =>
      let '(_, db', hub') := Register vm_digest marshalAgent fault pgnow inventory registration db hub in (db', hub')
  | OHeartbeat fault now heartbeat =>
      let '(_, db', hub') := Heartbeat marshalAgent fault now heartbeat db hub in (db', hub')
  | OStatuses fault pgnow => let '(_, db', hub') := UpdateStatuses marshalAgent fault pgnow db hub in (db', hub')
  | ODelete fault lockedVM lockedAgent pgnow deleteAfter =>
      let '(_, db', hub') := DeleteExpired marshalAgent fault lockedVM lockedAgent pgnow deleteAfter db hub in
      (db', hub')
  | ORecordProbe fault now pgnow event =>
      let '(_, db', hub') := RecordProbe marshalProbe fault now pgnow event db hub in (db', hub')
  end.

Definition runAll (ops : list Op) (st : DB * Hub Payload) : DB * Hub Payload :=
  foldl (fun st op => run op st) st ops.

(** ** Referential integrity *)

Definition ref (P : string -> Prop) (o : option string) : Prop := forall id, o = Some id -> P id.

(** The foreign keys of the tables, for sets of agents and machines. *)
Record refs (A V : string -> Prop) (db : DB) : Prop := {
  rf_interfaces : Forall (fun i => V (if_vm_id i)) (vm_interfaces db);
  rf_flows : Forall (fun r => ref A (fl_agent_id r) /\ ref V (fl_src_vm_id r) /\ ref V (fl_dst_vm_id r))
               (network_flows db);
  rf_observations : Forall (fun o => (ref A (ob_agent_id o) /\ ref V (ob_src_vm_id o) /\ ref V (ob_dst_vm_id o)) /\
                      ob_flow_id o ∈ (fl_id <$> network_flows db)) (flow_observations db);
  rf_hosts : Forall (fun h => ref V (h_resolved_vm_id h)) (unknown_internal_hosts db);
  rf_probes : Forall (fun q => A (pr_agent_id q) /\ V (pr_src_vm_id q) /\ ref V (pr_dst_vm_id q))
                (connection_probes db)
}.

Definition in_agents (db : DB) (id : string) : Prop := is_Some (agents db !! id).
Definition in_vms (db : DB) (id : string) : Prop := is_Some (vms db !! id).
Definition refs_ok (db : DB) : Prop := refs (in_agents db) (in_vms db) db.

Lemma ref_mono (P Q : string -> Prop) o : (forall id, P id -> Q id) -> ref P o -> ref Q o.
Proof. intros HPQ Ho id E. by apply HPQ, Ho. Qed.

Lemma refs_mono (A A' V V' : string -> Prop) db :
  (forall id, A id -> A' id) -> (forall id, V id -> V' id) -> refs A V db -> refs A' V' db.
Proof.
  intros HA HV [Hi Hf Ho Hh Hp]. split.
  - eapply Forall_impl; [exact Hi|auto].
  - eapply Forall_impl; [exact Hf|]. intros r (? & ? & ?). split_and!; by eapply ref_mono.
  - eapply Forall_impl; [exact Ho|]. intros o ((? & ? & ?) & ?). split_and!; [by eapply ref_mono..|done].
  - eapply Forall_impl; [exact Hh|]. intros h ?. by eapply ref_mono.
  - eapply Forall_impl; [exact Hp|]. intros q (? & ? & ?). split_and!; [auto..|by eapply ref_mono].
Qed.

(** Agents and machines may be added and changed, not removed. *)
Lemma refs_ok_grow db db' :
  (forall id, in_agents db id -> in_agents db' id) -> (forall id, in_vms db id -> in_vms db' id) ->
  refs_ok db -> refs (in_agents db') (in_vms db') db.
Proof. intros. by eapply refs_mono. Qed.

(** ** Registration *)

Lemma resolveFlow_ref V A m vmID tenant ip r : V vmID ->
  ref A (fl_agent_id r) /\ ref V (fl_src_vm_id r) /\ ref V (fl_dst_vm_id r) ->
  let r' := resolveFlow m vmID tenant ip r in
  ref A (fl_agent_id r') /\ ref V (fl_src_vm_id r') /\ ref V (fl_dst_vm_id r').
Proof.
  intros Hv Hr. destruct (resolveFlow_settles m vmID tenant ip r) as [->|(_ & scope & _ & ->)]; [done|].
  destruct Hr as (? & ? & _). split_and!; [done|done|]. by intros id [= <-].
Qed.

Lemma resolveFlow_id m vmID tenant ip r : fl_id (resolveFlow m vmID tenant ip r) = fl_id r.
Proof. by destruct (resolveFlow_settles m vmID tenant ip r) as [->|(_ & scope & _ & ->)]. Qed.

Lemma resolveUnknownHost_refs A V fault now vmID tenant ip : V vmID ->
  hoare (refs A V) (resolveUnknownHost fault now vmID tenant ip) (fun _ => refs A V).
Proof.
  intros Hv. apply (hoare_bind _ _ _ (fun _ => refs A V)); [apply hoare_wrap|intros _]; apply hoare_stmt;
    intros db a db' [Hi Hf Ho Hh Hp] (addr & _ & [= _ <-])%rbind_Ok; split; cbn; try done.
  - apply Forall_fmap. eapply Forall_impl; [exact Hh|]. intros h Hx. cbn. unfold resolveHost.
    destruct (bool_decide _); [|done]. by intros id [= <-].
  - apply Forall_fmap. eapply Forall_impl; [exact Hf|]. intros r Hx. by apply resolveFlow_ref.
  - eapply Forall_impl; [exact Ho|]. intros o [Hx Hin]. split; [done|].
    apply list_elem_of_fmap in Hin as (r & -> & Hr). rewrite <- (resolveFlow_id (vms db) vmID tenant addr r).
    apply list_elem_of_fmap. eexists. split; [reflexivity|]. apply list_elem_of_fmap. eauto.
Qed.

Lemma upsertInterface_refs (V : string -> Prop) row l : V (if_vm_id row) ->
  Forall (fun i => V (if_vm_id i)) l -> Forall (fun i => V (if_vm_id i)) (upsertInterface row l).
Proof.
  intros Hr Hl. unfold upsertInterface. destruct (existsb _ l).
  - apply Forall_fmap. eapply Forall_impl; [exact Hl|]. intros i Hi. cbn. by destruct (_ && _).
  - apply Forall_app. by repeat constructor.
Qed.

Lemma registerInterfaces_refs A V fault now vmID tenant interfaces : V vmID ->
  hoare (refs A V) (registerInterfaces fault now vmID tenant interfaces) (fun _ => refs A V).
Proof.
  intros Hv. induction interfaces as [|i l IH]; simpl; [by apply hoare_ret|].
  destruct (_ =? "")%string; [done|]. apply (hoare_bind _ _ _ (fun _ => refs A V)); [apply hoare_wrap, hoare_stmt|].
  - intros db a db' [Hi Hf Ho Hh Hp] (addr & _ & [= _ <-])%rbind_Ok. split; cbn; try done. by apply upsertInterface_refs.
  - intros _. apply (hoare_bind _ _ _ (fun _ => refs A V)); [|done].
    destruct (_ =? "")%string; [by apply hoare_ret|by apply resolveUnknownHost_refs].
Qed.

Lemma refs_tables A V db db' :
  vm_interfaces db' = vm_interfaces db -> network_flows db' = network_flows db ->
  flow_observations db' = flow_observations db -> unknown_internal_hosts db' = unknown_internal_hosts db ->
  connection_probes db' = connection_probes db -> refs A V db -> refs A V db'.
Proof. intros Ei Ef Eo Eh Ep [? ? ? ? ?]. split; by rewrite ?Ei, ?Ef, ?Eo, ?Eh, ?Ep. Qed.

(** The identifiers of a table and one more. *)
Definition or_new (P : string -> Prop) (new id : string) : Prop := P id \/ id = new.

Lemma registerBody_refs fault now reg ip mac public (A V : string -> Prop) :
  hoare (refs A V) (registerBody vm_digest fault now inventory reg ip mac public)
    (fun vmID => refs A (or_new V vmID)).
Proof.
  unfold registerBody. apply (hoare_bind _ _ _ (fun _ => refs A V)).
  { intros k db found db' k' Hr E. by apply (resolveIdentity_reads _ _ _ _ db) in E as ->. }
  intros found. set (vmID := if (found =? "")%string then _ else _). set (a := assignment _ _ _ _). clearbody vmID.
  assert (Hv : or_new V vmID vmID) by (by right).
  apply (hoare_bind _ _ _ (fun _ => refs A (or_new V vmID))).
  { apply hoare_wrap, hoare_stmt. intros db x db' Hr (? & _ & (? & _ & [= _ <-])%rbind_Ok)%rbind_Ok.
    eapply refs_tables; [..|eapply refs_mono; [| |exact Hr]]; try done. intros id Hid. by left. }
  intros _. apply (hoare_bind _ _ _ (fun _ => refs A (or_new V vmID))).
  { apply hoare_wrap, hoare_stmt. intros db x db' Hr [= _ <-]. eapply refs_tables; [..|exact Hr]; done. }
  intros _. apply (hoare_bind _ _ _ (fun _ => refs A (or_new V vmID))); [by apply registerInterfaces_refs|].
  intros _. apply (hoare_bind _ _ _ (fun _ => refs A (or_new V vmID))); [|intros _; apply hoare_ret; intros db Hd; exact Hd].
  destruct (_ =? "")%string; [by apply hoare_ret|by apply resolveUnknownHost_refs].
Qed.

Lemma Register_refs fault now registration db hub r db' hub' :
  Register vm_digest marshalAgent fault now inventory registration db hub = (r, db', hub') ->
  refs_ok db -> refs_ok db'.
Proof.
  intros E Hr. destruct r as [result|e]; [|by apply Register_Err in E as [-> _]].
  apply Register_Ok in E as (publicIP & k & _ & _ & Hbody & _).
  destruct (registerBody_hoare _ _ _ _ _ _ _ _ db _ _ _ _ _ eq_refl Hbody) as [(v & Hreg & _) _].
  apply (registerBody_refs _ _ _ _ _ _ (in_agents db) (in_vms db)) in Hbody; [|done].
  destruct Hreg as [Hv _ _ _ _ Hvo (a & Ha & _) Hao _ _ _]. eapply refs_mono; [| |exact Hbody].
  - intros id Hid. unfold in_agents. destruct (decide (id = RgAgentID (cleaned registration))) as [->|Hne]; [by eexists|].
    by rewrite Hao.
  - intros id Hid. unfold in_vms. destruct (decide (id = RrVMID result)) as [->|Hne]; [by eexists|].
    destruct Hid; [|done]. by rewrite Hvo.
Qed.

(** ** Heartbeats and sweeps *)

Lemma Heartbeat_refs fault now heartbeat db hub r db' hub' :
  Heartbeat marshalAgent fault now heartbeat db hub = (r, db', hub') -> refs_ok db -> refs_ok db'.
Proof.
  unfold Heartbeat. intros E Hr. destruct (_ =? "")%string; [by injection E as _ <- _|].
  destruct (fault 0%nat); [by injection E as _ <- _|].
  destruct (agents db !! _) as [a|] eqn:Ea; [|by injection E as _ <- _].
  assert (Ha : forall id x (m : gmap string AgentRow), is_Some (m !! id) -> is_Some (<[HbAgentID heartbeat := x]> m !! id)).
  { intros id x m Hid. destruct (decide (id = HbAgentID heartbeat)) as [->|].
    - rewrite lookup_insert_eq. by eexists.
    - by rewrite lookup_insert_ne. }
  destruct (fault 1%nat); injection E as _ <- _.
  all: eapply refs_tables; [..|eapply refs_mono; [| |exact Hr]]; try done.
  all: try (intros id; apply Ha). intros id [v Hv]. unfold in_vms. cbn. rewrite lookup_fmap, Hv. by eexists.
Qed.

Lemma Statuses_refs fault now db hub r db' hub' :
  UpdateStatuses marshalAgent fault now db hub = (r, db', hub') -> refs_ok db -> refs_ok db'.
Proof.
  unfold UpdateStatuses. destruct (transaction _ _ db) as [[n|e] db1] eqn:Et; intros [= _ <- _] Hr.
  - apply transaction_Ok in Et as [k [_ ->]%updateStatusesBody_Ok].
    eapply refs_tables; [..|eapply refs_mono; [| |exact Hr]]; try done.
    all: intros id [x Hx]; unfold in_agents, in_vms; cbn; rewrite lookup_fmap, Hx; by eexists.
  - by apply transaction_err in Et as ->.
Qed.

Lemma set_null_ref gone (P Q : string -> Prop) o :
  (forall id, P id -> gone id = false -> Q id) -> ref P o -> ref Q (set_null gone o).
Proof. intros HQ Ho id. destruct o as [x|]; simpl; [|done]. destruct (gone x) eqn:E; [done|]. intros [= <-]. auto. Qed.

Lemma deleteAgents_refs p db : refs_ok db -> refs_ok (deleteAgents p db).
Proof.
  intros [Hi Hf Ho Hh Hp].
  set (gone := fun id => match agents db !! id with Some a => p a | None => false end).
  assert (Hg : forall o, ref (in_agents db) o -> ref (in_agents (deleteAgents p db)) (set_null gone o)).
  { intros o. apply set_null_ref. intros id [a Ha] Hid. unfold gone in Hid. rewrite Ha in Hid. exists a.
    apply map_lookup_filter_Some. simpl. by rewrite Hid. }
  split; [done| | |done|]; cbn [network_flows flow_observations connection_probes deleteAgents].
  - apply Forall_fmap. eapply Forall_impl; [exact Hf|]. intros r (Hr & ? & ?). cbn. split_and!; [by apply Hg|done..].
  - apply Forall_fmap. eapply Forall_impl; [exact Ho|]. intros o [(Hr & ? & ?) Hin]. cbn.
    split; [split_and!; [by apply Hg|done..]|]. rewrite <- list_fmap_compose. exact Hin.
  - rewrite Forall_forall in Hp |- *. intros q. rewrite list_elem_of_In, filter_In, <- list_elem_of_In.
    intros [(Ha & ? & ?)%Hp Hq%negb_true_iff]. split_and!; [|done..].
    specialize (Hg (Some (pr_agent_id q))). simpl in Hg. fold (gone (pr_agent_id q)) in Hq. rewrite Hq in Hg.
    apply Hg; [|done]. by intros id [= <-].
Qed.

Lemma deleteVMs_refs ids db db' : deleteVMs ids db = Ok db' -> refs_ok db -> refs_ok db'.
Proof.
  intros (probes & Epr%forgetAllProbes_Ok & [= <-])%rbind_Ok [Hi Hf Ho Hh Hp]. set (db' := Build_DB _ _ _ _ _ _ _ _).
  set (gone := fun id => isSome (vms db !! id) && bool_decide (id ∈ ids)) in *.
  assert (Hk : forall id, in_vms db id -> gone id = false -> in_vms db' id).
  { intros id [v Hv] Hid. unfold gone in Hid. rewrite Hv in Hid. simpl in Hid. exists v.
    apply map_lookup_filter_Some. simpl. by rewrite Hid. }
  assert (Hg : forall o, ref (in_vms db) o -> ref (in_vms db') (set_null gone o)).
  { intros o. by apply set_null_ref. }
  split; cbn [vm_interfaces network_flows flow_observations unknown_internal_hosts connection_probes db'].
  - rewrite Forall_forall in Hi |- *. intros i. rewrite list_elem_of_In, filter_In, <- list_elem_of_In.
    intros [Hin Hn%negb_true_iff]. auto.
  - apply Forall_fmap. eapply Forall_impl; [exact Hf|]. intros r (Hr & ? & ?). cbn. split_and!; [done|by apply Hg..].
  - apply Forall_fmap. eapply Forall_impl; [exact Ho|]. intros o [(Hr & ? & ?) Hin]. cbn.
    split; [split_and!; [done|by apply Hg..]|]. rewrite <- list_fmap_compose. exact Hin.
  - apply Forall_fmap. eapply Forall_impl; [exact Hh|]. intros h Hr. cbn. by apply Hg.
  - rewrite Epr. set (l := List.filter gone ids).
    assert (Hl : forall id, in_vms db id -> id ∉ l -> in_vms db' id).
    { intros id Hid Hn. apply Hk; [done|]. destruct (gone id) eqn:E; [|done]. destruct Hn.
      apply list_elem_of_In, filter_In. split; [|done]. unfold gone in E. bools. by apply list_elem_of_In. }
    apply Forall_fmap. rewrite Forall_forall in Hp |- *. intros q.
    rewrite list_elem_of_In, filter_In, <- list_elem_of_In.
    intros [(Ha & Hs & Hd)%Hp Hq%negb_true_iff%bool_decide_eq_false].
    unfold target_gone. cbn. destruct (pr_dst_vm_id q) as [d|] eqn:Ed; [case_bool_decide as Hin|]; cbn.
    + split_and!; [done|by apply Hl|done].
    + split_and!; [done|by apply Hl|]. rewrite Ed. intros id [= <-]. apply Hl; [by apply Hd|done].
    + split_and!; [done|by apply Hl|]. by rewrite Ed.
Qed.

Lemma Delete_refs fault lv la now d db hub r db' hub' :
  DeleteExpired marshalAgent fault lv la now d db hub = (r, db', hub') -> refs_ok db -> refs_ok db'.
Proof.
  unfold DeleteExpired. destruct (d <=? 0); [by intros [= _ <- _]|].
  destruct (transaction _ _ db) as [[ids|e] db1] eqn:Et; [|intros [= _ <- _]; by apply transaction_err in Et as ->].
  intros E Hr. assert (db' = db1) as -> by (destruct ids; by injection E as _ <- _). revert Hr Et.
  apply (hoare_transaction _ refs_ok _ (fun _ => refs_ok)). unfold deleteExpiredBody.
  apply (hoare_bind _ _ _ (fun _ => refs_ok)); [apply hoare_stmt; by intros db2 a db3 Hr [= _ <-]|].
  intros rows. destruct (collectVMs ∅ rows); [by apply hoare_ret|].
  apply (hoare_bind _ _ _ (fun _ => refs_ok)).
  { apply hoare_wrap, hoare_stmt. intros db2 a db3 Hr [= _ <-]. by apply deleteAgents_refs. }
  intros _. apply (hoare_bind _ _ _ (fun _ => refs_ok)); [|by intros _; apply hoare_ret].
  apply hoare_wrap, hoare_stmt. intros db2 a db3 Hr (db4 & Ed & [= _ <-])%rbind_Ok. by eapply deleteVMs_refs.
Qed.

(** ** Ingestion *)

Lemma upsertHost_refs (V : string -> Prop) ip first last l :
  Forall (fun h => ref V (h_resolved_vm_id h)) l ->
  Forall (fun h => ref V (h_resolved_vm_id h)) (upsertHost ip first last l).
Proof.
  intros Hl. unfold upsertHost. destruct (existsb _ l).
  - apply Forall_fmap. eapply Forall_impl; [exact Hl|]. intros h Hh. cbn. by destruct (bool_decide _).
  - apply Forall_app. by repeat constructor.
Qed.

Lemma recordDestination_refs A V fault scope event :
  hoare (refs A V) (recordDestination fault scope event) (fun _ => refs A V).
Proof.
  unfold recordDestination. destruct (scope =? _)%string; [|destruct (_ || _); [|by apply hoare_ret]];
    apply hoare_stmt; intros db a db' [Hi Hf Ho Hh Hp] (ip & _ & [= _ <-])%rbind_Ok; split; cbn; try done.
  by apply upsertHost_refs.
Qed.

Lemma updateFlows_refs (A V : string -> Prop) env event id l l' : A (AgentID event) ->
  updateFlows env event id l = Ok l' ->
  fl_id <$> l' = fl_id <$> l /\
  (Forall (fun r => ref A (fl_agent_id r) /\ ref V (fl_src_vm_id r) /\ ref V (fl_dst_vm_id r)) l ->
   Forall (fun r => ref A (fl_agent_id r) /\ ref V (fl_src_vm_id r) /\ ref V (fl_dst_vm_id r)) l').
Proof.
  intros Ha. revert l'. induction l as [|r l IH]; intros l'; simpl; [by intros [= <-]|].
  intros (r' & Er & (l2 & El & [= <-])%rbind_Ok)%rbind_Ok. destruct (IH l2 El) as [Hid Hall].
  assert (fl_id r' = fl_id r /\ (fl_agent_id r' = Some (AgentID event) \/ fl_agent_id r' = fl_agent_id r) /\
          fl_src_vm_id r' = fl_src_vm_id r /\ fl_dst_vm_id r' = fl_dst_vm_id r) as (E1 & E2 & E3 & E4).
  { destruct (_ =? id)%string; [|injection Er as <-; auto]. apply rbind_Ok in Er as (r2 & Er & E).
    destruct (negb _); [done|]. injection E as <-. unfold updateFlowRow in Er.
    repeat (apply rbind_Ok in Er; destruct Er as (? & _ & Er)). injection Er as <-. cbn. auto. }
  split; [by rewrite !fmap_cons, E1, Hid|]. rewrite !Forall_cons, E3, E4. intros [(? & ? & ?) ?]. split; [|auto].
  split_and!; [|done..]. destruct E2 as [->| ->]; [by intros x [= <-]|done].
Qed.

Lemma aggregate_refs (A V : string -> Prop) env event src dst scope : A (AgentID event) -> V src -> ref V dst ->
  hoare (refs A V) (aggregate env event src dst scope)
    (fun flowID db => refs A V db /\ flowID ∈ (fl_id <$> network_flows db)).
Proof.
  intros Ha Hs Hd. unfold aggregate.
  apply (hoare_bind _ _ _ (fun found db => refs A V db /\ ref (fun id => id ∈ (fl_id <$> network_flows db)) found)).
  { apply hoare_stmt. intros db a db' Hr (? & _ & (? & _ & [= Hf <-])%rbind_Ok)%rbind_Ok. split; [done|].
    intros id ->. apply selectFlow_Some in Hf as (l1 & r & l2 & -> & _ & <-).
    apply list_elem_of_fmap. exists r. split; [done|]. apply elem_of_app. right. apply list_elem_of_here. }
  intros found. apply hoare_wrap. destruct (default "" found =? "")%string eqn:E; apply hoare_stmt; intros db a db'.
  - intros [[Hi Hf Ho Hh Hp] _] (s & _ & (d & _ & Ei)%rbind_Ok)%rbind_Ok. unfold insertFlow in Ei.
    destruct (negb _); [done|]. destruct (existsb _ _); [done|]. injection Ei as <- <-.
    assert (Hin : forall id, id ∈ (fl_id <$> network_flows db) ->
      id ∈ (fl_id <$> (network_flows db ++ [newFlowRow env event src dst scope s d]))).
    { intros id Hid. rewrite fmap_app. apply elem_of_app. by left. }
    split; [split; cbn; try done|].
    + apply Forall_app. split; [done|]. constructor; [|constructor]. cbn. split_and!; [|by intros x [= <-]|done].
      by intros x [= <-].
    + eapply Forall_impl; [exact Ho|]. intros o [? ?]. auto.
    + cbn [network_flows with_flows]. rewrite fmap_app. apply elem_of_app. right. apply list_elem_of_here.
  - intros [[Hi Hf Ho Hh Hp] Hid] (l & El & [= <- <-])%rbind_Ok.
    destruct (updateFlows_refs A V _ _ _ _ _ Ha El) as [Hids Hall]. destruct found as [id|]; [|done].
    split; [split; cbn; rewrite ?Hids; auto|]. cbn [network_flows with_flows]. rewrite Hids. by apply Hid.
Qed.

(** Up to the last two statements, [Ingest] leaves agents and machines
    alone. *)
Definition same_hosts (db0 db : DB) : Prop := agents db = agents db0 /\ vms db = vms db0.

Lemma recordDestination_hosts db0 fault scope event :
  hoare (same_hosts db0) (recordDestination fault scope event) (fun _ => same_hosts db0).
Proof.
  unfold recordDestination. destruct (scope =? _)%string; [|destruct (_ || _); [|by apply hoare_ret]];
    apply hoare_stmt; by intros db a db' Hs (ip & _ & [= _ <-])%rbind_Ok.
Qed.

Lemma aggregate_hosts db0 env event src dst scope :
  hoare (same_hosts db0) (aggregate env event src dst scope) (fun _ => same_hosts db0).
Proof.
  unfold aggregate. apply (hoare_bind _ _ _ (fun _ => same_hosts db0)).
  { apply hoare_stmt. by intros db a db' Hs (? & _ & (? & _ & [= _ <-])%rbind_Ok)%rbind_Ok. }
  intros found. apply hoare_wrap. destruct (_ =? "")%string; apply hoare_stmt; intros db a db' Hs.
  - intros (? & _ & (? & _ & E)%rbind_Ok)%rbind_Ok. unfold insertFlow in E. destruct (negb _); [done|].
    destruct (existsb _ _); [done|]. by injection E as _ <-.
  - by intros (? & _ & [= _ <-])%rbind_Ok.
Qed.

Lemma Ingest_refs env event db hub r db' hub' :
  Ingest marshalFlow classifier env event db hub = (r, db', hub') -> refs_ok db -> refs_ok db'.
Proof.
  intros E Hr. destruct r as [flow|e]; [|by apply Ingest_Err in E as [-> _]].
  unfold Ingest in E. destruct (ValidateFlowEvent _ _) as [e|]; [|done].
  destruct (transaction _ _ db) as [[[[[id src] dst] scope]|] db1] eqn:Et; [|done]. injection E as _ <- _.
  apply transaction_Ok in Et as [k E]. unfold ingestBody in E.
  apply tx_bind_Ok in E as (found & ? & ? & (_ & [= Hsrc <-] & ->)%stmt_Ok & E).
  destruct found as [source|]; [|done].
  assert (in_agents db (AgentID e) /\ in_vms db (r_ID source)) as [Ha Hs].
  { unfold sourceOfAgent in Hsrc. destruct (agents db !! AgentID e) eqn:Ea; [|done].
    destruct (ag_vm_id _); [|done]. apply fmap_Some in Hsrc as (v & Hv & ->). split; by eexists. }
  apply tx_bind_Ok in E as (dest & ? & ? & (_ & (d & Hd & [= <- <-])%rbind_Ok & ->)%stmt_Ok & E).
  assert (Hdst : ref (in_vms db) (r_ID <$> d)).
  { intros x (vm & -> & ->)%fmap_Some. by eapply resolveVMByIP_known. }
  apply tx_bind_Ok in E as (u & db2 & k2 & E2 & E).
  pose proof (recordDestination_hosts db _ _ _ _ _ _ _ _ (conj eq_refl eq_refl) E2) as Hh2.
  apply (recordDestination_refs (in_agents db) (in_vms db)) in E2 as Hr2; [|done].
  apply tx_bind_Ok in E as (? & ? & ? & (_ & [= _ <-] & ->)%stmt_Ok & E).
  apply tx_bind_Ok in E as (flowID & db3 & k3 & E3 & E).
  apply (aggregate_hosts db) in E3 as Hh3; [|done].
  apply (aggregate_refs (in_agents db) (in_vms db)) in E3 as [[Hi Hf Ho Hh Hp] Hid]; [|done..].
  apply tx_bind_Ok in E as (? & db4 & ? & (_ & Eobs & ->)%tx_wrap_Ok%stmt_Ok & E).
  apply rbind_Ok in Eobs as (s & _ & Eobs). apply rbind_Ok in Eobs as (ip & _ & Eobs).
  unfold insertObservation in Eobs. destruct (negb _); [done|]. destruct (existsb _ _); [done|]. injection Eobs as _ <-.
  apply tx_bind_Ok in E as (? & ? & ? & (_ & [= _ <-] & ->)%stmt_Ok & E).
  apply tx_bind_Ok in E as (? & ? & ? & (_ & [= _ <-] & ->)%stmt_Ok & [= _ _ _ _ <- _]).
  destruct Hh3 as [Ea Ev].
  apply (refs_mono (in_agents db) _ (in_vms db)); unfold in_agents, in_vms; cbn; rewrite ?Ea, ?Ev.
  - intros y Hy. by rewrite lookup_alter_is_Some.
  - intros y Hy. by rewrite lookup_alter_is_Some.
  - split; try done. cbn [flow_observations with_vms with_agents with_observations]. apply Forall_app. split; [done|].
    constructor; [|constructor]. cbn. split_and!; [by intros ? [= <-]|by intros ? [= <-]|done|done].
Qed.

Lemma upserted_elem row l l' q : upserted row l l' -> q ∈ l' -> probe_key q = probe_key row \/ q ∈ l.
Proof.
  intros [_ Ho _] Hq. destruct (decide (probe_key q = probe_key row)); [by left|right]. by apply Ho.
Qed.

Lemma RecordProbe_refs fault now pgnow event db hub r db' hub' :
  RecordProbe marshalProbe fault now pgnow event db hub = (r, db', hub') -> refs_ok db -> refs_ok db'.
Proof.
  intros E [Hi Hf Ho Hh Hp]. destruct r as [x|e]; [|by apply RecordProbe_Err in E as [-> _]].
  apply RecordProbe_Ok in E as (e & e' & _ & [(source & ip & d & src & dst & Hs & Hd & _ & _ & -> & Hup & Hv) Ha Hi' Hf' Ho' _ Hu'] & _).
  assert (in_agents db (pe_AgentID e) /\ in_vms db (r_ID source)) as [Hag Hvm].
  { unfold probeSourceRow in Hs. destruct (agents db !! _) eqn:Ea; [|done]. destruct (ag_vm_id _); [|done].
    apply fmap_Some in Hs as (v & Hvm & [= -> _]). split; by eexists. }
  apply (refs_mono (in_agents db) _ (in_vms db)); unfold in_agents, in_vms; rewrite ?Ha, ?Hv.
  - intros y Hy. by rewrite lookup_alter_is_Some.
  - intros y Hy. by rewrite lookup_alter_is_Some.
  - split; rewrite ?Hi', ?Hf', ?Ho', ?Hu'; try done. apply Forall_forall. intros q Hq.
    apply (upserted_elem _ _ _ _ Hup) in Hq as [[= -> -> -> _ _ _]|Hq]; [|by eapply Forall_forall in Hp].
    split_and!; [done..|]. intros z (vm & -> & ->)%fmap_Some. by eapply resolveVMByIP_known.
Qed.

(** C20: referential integrity.  Whatever requests and sweeps the backend
    serves, in whatever order and with whatever faults, every interface,
    flow, observation, probe and resolved unknown host refers to agents,
    machines and flows that exist: no statement of the services can violate a foreign
    key, and removing machines leaves no dangling reference. *)
Theorem references_hold (ops : list Op) (db : DB) (hub : Hub Payload) :
  refs_ok db -> refs_ok (runAll ops (db, hub)).1.
Proof.
  revert db hub. induction ops as [|op ops IH]; intros db hub Hr; [done|]. unfold runAll. cbn [foldl].
  destruct (run op (db, hub)) as [db' hub'] eqn:E. apply (IH db' hub'). unfold run in E.
  destruct op; repeat case_match; injection E as <- <-.
  - by eapply Ingest_refs.
  - by eapply Register_refs.
  - by eapply Heartbeat_refs.
  - by eapply Statuses_refs.
  - by eapply Delete_refs.
  - by eapply RecordProbe_refs.
Qed.
End backend.

(** * Operations in combination *)

Definition backend_payload : Type := string * (Flow + Message + ConnectionProbeEvent).
Definition sample_runAll : list Op -> @DB netip_postgres * Hub backend_payload -> @DB netip_postgres * Hub backend_payload :=
  @runAll netip_postgres ascii_only backend_payload (fun t f => Some (t, inl (inl f))) (fun t m => Some (t, inl (inr m)))
    (fun t p => Some (t, inr p)) sample_digest None sample_classifier.

(** Two agents of one machine (here recognised by its address): the second
    falls silent, the first keeps sending heartbeats. *)
Definition two_agents : list Op :=
  [ORegister no_fault Hour (sample_registration "agent-1" "10.0.0.5");
   ORegister no_fault (Hour + Second) (sample_registration "agent-2" "10.0.0.5");
   OHeartbeat no_fault (10 * Hour) {| HbAgentID := "agent-1"; HbStatus := "online"; HbTimestamp := 10 * Hour |}].
Definition expire_two_hours : Op :=
  ODelete no_fault (fun _ => false) (fun _ => false) (10 * Hour + Second) (2 * Hour).

(** Expiry can remove a live agent.  [Heartbeat] refreshes only the
    machines whose agent_id is the sender, the agent that registered last;
    so when two agents share a machine and the last one falls silent, the
    machine and both agents are removed one second after a heartbeat of the
    first, with a retention of two hours. *)
Theorem live_agent_deleted :
  let before := (sample_runAll two_agents (empty_db, New)).1 in
  let after := (sample_runAll (two_agents ++ [expire_two_hours]) (empty_db, New)).1 in
  ag_last_seen <$> agents before !! "agent-1" = Some (10 * Hour) /\
  ag_status <$> agents before !! "agent-1" = Some "online" /\
  agents after !! "agent-1" = None /\ isSome (vms after !! "vm-agent-1") = false.
Proof. cbv zeta. repeat split; vm_compute; reflexivity. Qed.

(** A machine is removed and deployed again while another keeps talking to
    its address. *)
Definition redeploy : list Op :=
  [ORegister no_fault Hour (sample_registration "agent-1" "10.0.0.5");
   OIngest (quiet_env "flow-1" "ob-1") sample_event;
   ORegister no_fault Hour (sample_registration "agent-2" "10.0.0.9");
   OHeartbeat no_fault (10 * Hour) {| HbAgentID := "agent-1"; HbStatus := "online"; HbTimestamp := 10 * Hour |};
   expire_two_hours;
   OIngest (quiet_env "flow-2" "ob-2") sample_event;
   ORegister no_fault (11 * Hour) (sample_registration "agent-2" "10.0.0.9")].

Definition same_keys `{Postgres} (l : list FlowRow) : bool :=
  match l with [r1; r2] => bool_decide (flow_key r1 = flow_key r2) | _ => false end.

(** Aggregation keys do not stay unique across a redeployment.
    Removing a machine clears the destination of its flows but keeps their
    scope, so the next event opens a second row; when the machine registers
    again, [resolveUnknownHost] gives both rows the same destination and
    scope. *)
Theorem redeploy_duplicates_flows :
  ~ NoDup (flow_key <$> network_flows (sample_runAll redeploy (empty_db, New)).1).
Proof.
  assert (E : same_keys (network_flows (sample_runAll redeploy (empty_db, New)).1) = true) by (vm_compute; reflexivity).
  destruct (network_flows _) as [|r1 [|r2 [|]]]; try discriminate E. simpl in E. apply bool_decide_eq_true in E.
  rewrite !fmap_cons, E. intros [Hn _]%NoDup_cons. apply Hn, list_elem_of_here.
Qed.

Lemma references_hold_witness : refs_ok (sample_runAll redeploy (empty_db, New)).1.
Proof. apply references_hold. split; constructor. Defined.

(** A machine that another probes is removed, deployed again, probed again
    and falls silent again; a third machine is silent too. *)
Definition sample_probe (at_ : time) : ConnectionProbeEvent :=
  {| pe_AgentID := "agent-1"; pe_SourceIP := "10.0.0.5"; pe_DestIP := "10.0.0.9"; pe_Protocol := "tcp";
     pe_DestPort := 18081; pe_Success := true; pe_RTTMs := f_of_Z 1; pe_Error := ""; pe_Source := "vmlens_probe";
     pe_Type := "connectivity_check"; pe_CountedAsRequest := false; pe_CountedAsUserTraffic := false;
     pe_Timestamp := at_ |}.
Definition probe_redeployed : list Op :=
  [ORegister no_fault Hour (sample_registration "agent-1" "10.0.0.5");
   ORegister no_fault Hour (sample_registration "agent-2" "10.0.0.9");
   ORecordProbe no_fault (10 * Hour) (10 * Hour) (sample_probe (10 * Hour));
   expire_two_hours;
   ORegister no_fault (11 * Hour) (sample_registration "agent-2" "10.0.0.9");
   ORegister no_fault (11 * Hour) (sample_registration "agent-3" "10.0.0.7");
   ORecordProbe no_fault (20 * Hour) (20 * Hour) (sample_probe (20 * Hour))].

Definition sample_DeleteExpired (pgnow : time) (db : @DB netip_postgres) : Result Z :=
  (@DeleteExpired netip_postgres backend_payload (fun t m => Some (t, inl (inr m))) no_fault (fun _ => false)
     (fun _ => false) pgnow (2 * Hour) db New).1.1.

(** Expiry can be wedged by a probe.  Forgetting a removed machine gives
    its probes the key of an older probe of the same address, which the
    unique index refuses; so once a probed machine was removed, deployed and
    probed again, the sweep that is due again fails without any fault, as do
    the ones after it while the probing agent lives, and a machine that has
    nothing to do with it stays too. *)
Theorem expiry_wedged :
  let db := (sample_runAll probe_redeployed (empty_db, New)).1 in
  @vm_last_seen netip_postgres <$> vms db !! "vm-agent-3" = Some (11 * Hour) /\
  ag_last_seen <$> agents db !! "agent-3" = Some (11 * Hour) /\
  Forall (fun minutes => sample_DeleteExpired (20 * Hour + minutes * Minute) db =
                         Err (ErrorfW "delete expired VMs: %w" [] duplicate_key)) [0; 1; 30; 60; 119].
Proof. cbv zeta. split_and!; [vm_compute; reflexivity..|]. repeat constructor; vm_compute; reflexivity. Qed.
