(* ===== verification/API.v ===== *)
(** The backend's HTTP API: [backend/internal/api/handlers.go] and
    [routes.go].

    A handler reads the request, calls one service and writes one response;
    the state behind the handlers is the database and the real-time hub.
    [json.Decoder.Decode] into a request's type is a class, with what is left
    of the input as its second result; a response body is the value that is
    encoded. *)
From S2P Require Import Prelude GoStrings GoFloat GoTime GoParse Netip Metrics Classifier Hub Sql Store Inventory JsonText.
From S2P Require Import FlowService FlowList AgentService VMService GraphService ConnectionViews CloudContext.
From S2P Require Import ConnectionService References Http.
From S2P Require ConnectionState Graph.

#[local] Open Scope Z_scope.

(** ** Query parameters *)

(** [strings.TrimSuffix] of one byte. *)
Definition trim_last (s : string) : string := string_of (removelast (bytes_of s)).

(** A duration, or a number of days: [time.Duration(days) * 24 * time.Hour]
    wraps around. *)
Definition parseDuration (raw : string) : Result duration :=
  if HasSuffix raw "d" then
    match Atoi (trim_last raw) with
    | None => Err (LibErr "strconv.Atoi" (trim_last raw))
    | Some days => Ok (i64 (i64 (days * 24) * Hour))
    end
  else ParseDuration raw.

(** The [time_range] parameter of three of the handlers. *)
Definition timeRange (raw : string) (unset : duration) : Result duration :=
  if (raw =? "")%string then Ok unset
  else match parseDuration raw with
       | Err err => Err (ErrorfW "invalid time_range: %w" [] err)
       | Ok duration => Ok duration
       end.

Section filters.
Context `{UnicodeCase}.

Definition graphFilter (r : Request) : Result Graph.GraphFilter :=
  let query := Query r in
  port <-- (let raw := Get query "port" in
            if (raw =? "")%string then Ok 0
            else match Atoi raw with
                 | None => Err (Errorf "invalid port" [])
                 | Some port => guard_err ((port <? 1) || (65535 <? port)) as (Errorf "invalid port" []) ;; Ok port
                 end) ;;
  minBytes <-- (let raw := Get query "min_bytes" in
                if (raw =? "")%string then Ok 0
                else match Atoi raw with
                     | None => Err (Errorf "invalid min_bytes" [])
                     | Some value => guard_err (value <? 0) as (Errorf "invalid min_bytes" []) ;; Ok value
                     end) ;;
  range <-- timeRange (Get query "time_range") 0 ;;
  Ok {| Graph.FAgentID := Get query "agent_id"; Graph.FTenantID := Get query "tenant_id";
        Graph.FProjectID := Get query "project_id"; Graph.FVMID := Get query "vm_id";
        Graph.FScope := Get query "scope"; Graph.FProtocol := ToLower (Get query "protocol");
        Graph.FPort := port; Graph.TimeRange := range; Graph.MinBytes := minBytes;
        Graph.FStatus := Get query "status" |}.
End filters.

Definition connectionViewFilter (r : Request) : Result ConnectionViewFilter :=
  let query := Query r in
  range <-- timeRange (Get query "time_range") 0 ;;
  Ok {| vf_TenantID := Get query "tenant_id"; vf_ProjectID := Get query "project_id"; vf_VMID := Get query "vm_id";
        vf_TimeRange := range |}.

Definition cloudContextFilter (r : Request) : CloudContextFilter :=
  let query := Query r in
  {| ccf_TenantID := Get query "tenant_id"; ccf_ProjectID := Get query "project_id"; ccf_VMID := Get query "vm_id" |}.

(** The magnitude [strconv.ParseUint] returns, with a range error or without
    one; [None] is a syntax error. *)
Fixpoint uint_value (n : Z) (l : list ascii) : option Z :=
  match l with
  | [] => Some n
  | c :: r =>
      match digit_val c with
      | None => None
      | Some d => if 2 ^ 64 <=? n * 10 + d then Some (2 ^ 64 - 1) else uint_value (n * 10 + d) r
      end
  end.

(** [limit, _ := strconv.Atoi(raw)]: the value that comes with the error is
    the nearest [int] of a number out of range, and zero otherwise. *)
Definition limitOf (r : Request) : Z :=
  let '(neg, digits) :=
    match bytes_of (Get (Query r) "limit") with
    | c :: rest => if Ascii.eqb c "-"%char then (true, rest)
                   else if Ascii.eqb c "+"%char then (false, rest) else (false, c :: rest)
    | [] => (false, [])
    end in
  match digits with
  | [] => 0
  | _ => match uint_value 0 digits with
         | None => 0
         | Some n => if neg : bool then - Z.min n (2 ^ 63) else Z.min n (2 ^ 63 - 1)
         end
  end.

(** ** Bodies *)

(** [json.Decoder.Decode] into a zero value of type [A]. *)
Class JSONDecoder (A : Type) := Decode : list ascii -> Result (A * list ascii).

(** The second [Decode] meets [io.EOF] exactly when only white space is left. *)
Definition decodeJSON `{JSONDecoder A} (r : Request) : Result A :=
  match Decode (LimitReader (2 ^ 20) (ReqBody r)) with
  | Err err => Err (ErrorfW "invalid JSON: %w" [] err)
  | Ok (request, rest) =>
      guard_err (negb (forallb is_space rest)) as (Errorf "request must contain one JSON object" []) ;;
      Ok request
  end.

(** The documents of the responses. *)
Inductive Body :=
| BRoot
| BHealth (now : time)
| BStatus (status : string)
| BError (message : GoError)
| BRegistration (result : RegistrationResult)
| BAgents (result : list Agent)
| BVMs (result : list ListedVM)
| BFlow (result : Flow)
| BFlows (result : list Flow)
| BActivity (result : list InternalActivity)
| BTargets (result : list ConnectionProbeTarget)
| BConnections (result : list ConnectionState.ConnectionView)
| BCloudStatus (result : CloudProviderStatus)
| BCloudContext (result : CloudContext)
| BGraph (result : Graph.Graph)
| BSummary (result : Summary)
| BTopTalkers (result : list TopTalker).

Definition writeError (status : Z) (message : GoError) (w : Writer Body) : Writer Body :=
  writeJSON status (BError message) w.

(** ** Handlers *)

(** What one request meets besides the tables of the services that write:
    clocks, identifiers and faults, the answer to a ping, whether the
    connection can be flushed and its place among the hub's clients, and the
    tables of connection intents and configurations and of the cloud. *)
Record World `{Postgres} := {
  wd_env : Env; wd_ping : option GoError; wd_flusher : bool; wd_client : nat;
  wd_intents : list IntentRow; wd_configs : list ConfigRow; wd_cloud : CloudTables
}.

Section api.
Context `{Postgres} `{UnicodeCase} {Payload : Type}.
Context (marshalFlow : string -> Flow -> option Payload) (marshalAgent : string -> Message -> option Payload).
Context (marshalProbe : string -> ConnectionProbeEvent -> option Payload).
Context (vm_digest : string -> string) (inventory : option VMInventory) (classifier : Classifier).
Context (collate : string -> string -> bool) (interval_in : duration -> duration) (nil_is_null : bool).
Context (visibility : GraphVisibility) (activeWindow : duration) (provider : option (Result CloudProviderStatus)).
Context `{JSONDecoder AgentRegistration} `{JSONDecoder AgentHeartbeat}.
Context `{JSONDecoder FlowEvent} `{JSONDecoder ConnectionProbeEvent}.
Context (wd : World).

Abbreviation State := (DB * Hub Payload)%type.
Abbreviation fault := (env_fault (wd_env wd)).
Abbreviation now := (env_now (wd_env wd)).
Abbreviation pgnow := (env_pgnow (wd_env wd)).

Definition no_store : Writer Body -> Writer Body := Set_ "Cache-Control" "no-store".

Definition Handlers_Root : Handler Body State := fun r w s => Returned (writeJSON 200 BRoot w) s.

Definition Handlers_Health : Handler Body State := fun r w s =>
  match wd_ping wd with
  | Some err => Returned (writeError 503 (Errorf "database unavailable" []) w) s
  | None => Returned (writeJSON 200 (BHealth now) w) s
  end.

Definition Handlers_RegisterAgent : Handler Body State := fun r w s =>
  match decodeJSON r with
  | Err err => Returned (writeError 400 err w) s
  | Ok request =>
      match Register vm_digest marshalAgent fault pgnow inventory request s.1 s.2 with
      | (Err err, db, hub) => Returned (writeError 400 err w) (db, hub)
      | (Ok result, db, hub) => Returned (writeJSON 200 (BRegistration result) w) (db, hub)
      end
  end.

Definition Handlers_Heartbeat : Handler Body State := fun r w s =>
  match decodeJSON r with
  | Err err => Returned (writeError 400 err w) s
  | Ok request =>
      match Heartbeat marshalAgent fault now request s.1 s.2 with
      | (Err err, db, hub) => Returned (writeError 400 err w) (db, hub)
      | (Ok _, db, hub) => Returned (writeJSON 200 (BStatus "ok") w) (db, hub)
      end
  end.

Definition Handlers_ListAgents : Handler Body State := fun r w s =>
  match ListAgents (fault 0%nat) s.1 with
  | Err err => Returned (writeError 500 err w) s
  | Ok result => Returned (writeJSON 200 (BAgents result) w) s
  end.

Definition Handlers_ListVMs : Handler Body State := fun r w s =>
  match ListVMs collate fault s.1 with
  | Err err => Returned (writeError 500 err w) s
  | Ok result => Returned (writeJSON 200 (BVMs result) w) s
  end.

Definition Handlers_IngestFlow : Handler Body State := fun r w s =>
  match decodeJSON r with
  | Err err => Returned (writeError 400 err w) s
  | Ok request =>
      match Ingest marshalFlow classifier (wd_env wd) request s.1 s.2 with
      | (Err err, db, hub) => Returned (writeError 400 err w) (db, hub)
      | (Ok result, db, hub) => Returned (writeJSON 202 (BFlow result) w) (db, hub)
      end
  end.

Definition Handlers_ListConnectionTargets : Handler Body State := fun r w s =>
  let agentID := TrimSpace (Get (Query r) "agent_id") in
  match Targets (fault 0%nat) pgnow inventory agentID s.1 with
  | Err err => Returned (writeError 400 err w) s
  | Ok result => Returned (writeJSON 200 (BTargets result) (no_store w)) s
  end.

Definition Handlers_ListConnections : Handler Body State := fun r w s =>
  let w := no_store w in
  match connectionViewFilter r with
  | Err err => Returned (writeError 400 err w) s
  | Ok filter =>
      match ListConnections fault activeWindow now pgnow filter (wd_intents wd) (wd_configs wd) s.1 with
      | Err err => Returned (writeError 500 err w) s
      | Ok result => Returned (writeJSON 200 (BConnections result) w) s
      end
  end.

Definition Handlers_CloudStatus : Handler Body State := fun r w s =>
  let w := no_store w in
  match Status provider with
  | Err err => Returned (writeError 500 err w) s
  | Ok result => Returned (writeJSON 200 (BCloudStatus result) w) s
  end.

Definition Handlers_CloudContext : Handler Body State := fun r w s =>
  let w := no_store w in
  match Context_ collate provider fault (cloudContextFilter r) (wd_cloud wd) s.1 with
  | Err err => Returned (writeError 500 err w) s
  | Ok result => Returned (writeJSON 200 (BCloudContext result) w) s
  end.

Definition Handlers_RecordConnectionProbe : Handler Body State := fun r w s =>
  match decodeJSON r with
  | Err err => Returned (writeError 400 err w) s
  | Ok request =>
      match RecordProbe marshalProbe fault now pgnow request s.1 s.2 with
      | (Err err, db, hub) => Returned (writeError 400 err w) (db, hub)
      | (Ok _, db, hub) => Returned (writeJSON 202 (BStatus "ok") w) (db, hub)
      end
  end.

(** The listings of flows fail with the error of their query. *)
Definition Handlers_ListFlows : Handler Body State := fun r w s =>
  match fault 0%nat with
  | Some err => Returned (writeError 500 err w) s
  | None => Returned (writeJSON 200 (BFlows (List_ (limitOf r) s.1)) w) s
  end.

Definition Handlers_ListInternalActivity : Handler Body State := fun r w s =>
  match timeRange (Get (Query r) "time_range") (5 * Minute) with
  | Err err => Returned (writeError 400 err w) s
  | Ok window =>
      match fault 0%nat with
      | Some err => Returned (writeError 500 err w) s
      | None =>
          let result := ListInternalActivity interval_in visibility nil_is_null pgnow (limitOf r) window s.1 in
          Returned (writeJSON 200 (BActivity result) (no_store w)) s
      end
  end.

Definition Handlers_GetGraph : Handler Body State := fun r w s =>
  let w := no_store w in
  match graphFilter r with
  | Err err => Returned (writeError 400 err w) s
  | Ok filter =>
      match GetGraph collate fault visibility activeWindow now pgnow filter s.1 with
      | Err err => Returned (writeError 500 err w) s
      | Ok result => Returned (writeJSON 200 (BGraph result) w) s
      end
  end.

Definition Handlers_Summary : Handler Body State := fun r w s =>
  match Summary_ (fault 0%nat) now pgnow s.1 with
  | Err err => Returned (writeError 500 err w) s
  | Ok result => Returned (writeJSON 200 (BSummary result) w) s
  end.

Definition Handlers_TopTalkers : Handler Body State := fun r w s =>
  match TopTalkers (fault 0%nat) (limitOf r) s.1 with
  | Err err => Returned (writeError 500 err w) s
  | Ok result => Returned (writeJSON 200 (BTopTalkers result) w) s
  end.

(** realtime/hub.go, [ServeHTTP] up to its loop: the client is connected and
    greeted; what it then receives and its departure are steps of the hub. *)
Definition Hub_ServeHTTP : Handler Body State := fun r w s =>
  if negb (wd_flusher wd) then Returned (Error "streaming unsupported" 500 w) s
  else
    let w := Set_ "X-Accel-Buffering" "no" (Set_ "Connection" "keep-alive"
               (Set_ "Cache-Control" "no-cache" (Set_ "Content-Type" "text/event-stream" w))) in
    Returned (Write_ (CEvent "connected") w) (s.1, connect s.2 (wd_client wd)).

Definition routes : list (Route Body State) := [
  route "GET" "/health" Handlers_Health;
  route "POST" "/api/agents/register" Handlers_RegisterAgent;
  route "POST" "/api/agents/heartbeat" Handlers_Heartbeat;
  route "GET" "/api/agents" Handlers_ListAgents;
  route "GET" "/api/vms" Handlers_ListVMs;
  route "GET" "/api/flows" Handlers_ListFlows;
  route "GET" "/api/internal/activity" Handlers_ListInternalActivity;
  route "POST" "/api/flows/ingest" Handlers_IngestFlow;
  route "GET" "/api/connections" Handlers_ListConnections;
  route "GET" "/api/connections/targets" Handlers_ListConnectionTargets;
  route "POST" "/api/connections/probe" Handlers_RecordConnectionProbe;
  route "GET" "/api/cloud/status" Handlers_CloudStatus;
  route "GET" "/api/cloud/context" Handlers_CloudContext;
  route "GET" "/api/graph" Handlers_GetGraph;
  route "GET" "/api/stats/summary" Handlers_Summary;
  route "GET" "/api/stats/top-talkers" Handlers_TopTalkers;
  route "GET" "/api/realtime" Hub_ServeHTTP
].

Definition Routes (allowedOrigins : list string) : Handler Body State :=
  Middleware (fun message => BError (Errorf message [])) (serveMux routes Handlers_Root) allowedOrigins.

(** ** What a request does *)

(** The call of a service a request stands for: its method, path and body
    decide. *)
Definition decoded {A} (result : Result A) (op : A -> Op) : option Op :=
  match result with Ok request => Some (op request) | Err _ => None end.

Definition opOf (r : Request) : option Op :=
  if negb (Method r =? "POST")%string || negb (cleanPath (EscapedPath r) =? EscapedPath r)%string then None
  else
    let segs := segments (EscapedPath r) in
    if bool_decide (segs = ["api"; "agents"; "register"]) then decoded (decodeJSON r) (ORegister fault pgnow)
    else if bool_decide (segs = ["api"; "agents"; "heartbeat"]) then decoded (decodeJSON r) (OHeartbeat fault now)
    else if bool_decide (segs = ["api"; "flows"; "ingest"]) then decoded (decodeJSON r) (OIngest (wd_env wd))
    else if bool_decide (segs = ["api"; "connections"; "probe"])
         then decoded (decodeJSON r) (ORecordProbe fault now pgnow)
    else None.

Abbreviation runOp := (run marshalFlow marshalAgent marshalProbe vm_digest inventory classifier).

Definition effect (op : option Op) (s s' : State) : Prop :=
  match op with
  | Some op => s' = runOp op s
  | None => s' = s \/ s' = (s.1, connect s.2 (wd_client wd))
  end.

Definition is_heartbeat (op : option Op) : bool :=
  match op with Some (OHeartbeat _ _ _) => true | _ => false end.

(** The headers no handler sets. *)
Definition cors_header (key : string) : Prop :=
  key = "Access-Control-Allow-Origin" \/ key = "Vary" \/ key = "Access-Control-Allow-Methods" \/
  key = "Access-Control-Allow-Headers".

(** A handler's answer: one status, the headers of the middleware kept, and
    the effect of the service call; an error leaves the state as it was. *)
Record reply (op : option Op) (header : Headers) (s : State) (status : Z) (sent : Headers) (s' : State) : Prop := {
  rp_status : 200 <= status < 600;
  rp_headers : forall key, cors_header key -> sent !! key = header !! key;
  rp_effect : effect op s s';
  rp_error : 400 <= status -> is_heartbeat op = false -> s' = s
}.

Definition replies (h : Handler Body State) (r : Request) (op : option Op) : Prop :=
  forall w s, w_sent w = None -> exists w' s' status sent,
    h r w s = Returned w' s' /\ w_sent w' = Some (status, sent) /\ reply op (w_header w) s status sent s'.
End api.

(** ** Facts *)

Ltac other_header :=
  intros ? [->|[->|[->| ->]]]; rewrite ?lookup_insert_ne by discriminate; reflexivity.

Section facts.
Context `{Postgres} `{UnicodeCase} {Payload : Type}.
Context (marshalFlow : string -> Flow -> option Payload) (marshalAgent : string -> Message -> option Payload).
Context (marshalProbe : string -> ConnectionProbeEvent -> option Payload).
Context (vm_digest : string -> string) (inventory : option VMInventory) (classifier : Classifier).
Context (collate : string -> string -> bool) (interval_in : duration -> duration) (nil_is_null : bool).
Context (visibility : GraphVisibility) (activeWindow : duration) (provider : option (Result CloudProviderStatus)).
Context `{JSONDecoder AgentRegistration} `{JSONDecoder AgentHeartbeat}.
Context `{JSONDecoder FlowEvent} `{JSONDecoder ConnectionProbeEvent}.
Context (wd : World).

Abbreviation Reply := (reply marshalFlow marshalAgent marshalProbe vm_digest inventory classifier wd).
Abbreviation Replies := (replies marshalFlow marshalAgent marshalProbe vm_digest inventory classifier wd).

Lemma reply_none header s status sent : 200 <= status < 600 ->
  (forall key, cors_header key -> sent !! key = header !! key) -> Reply None header s status sent s.
Proof. intros Hs Hh. split; [done|done|by left|done]. Qed.

(** A handler that only reads. *)
Lemma replies_read (h : Handler Body (DB * Hub Payload)) r :
  (forall w s, exists status value, (h r w s = Returned (writeJSON status value w) s \/
     h r w s = Returned (writeJSON status value (no_store w)) s) /\ 200 <= status < 600) ->
  Replies h r None.
Proof.
  intros Hh w s Hw. destruct (Hh w s) as (status & value & [->| ->] & Hs);
    (do 4 eexists; split; [reflexivity|]); cbn; rewrite Hw; (split; [reflexivity|apply reply_none; [done|other_header]]).
Qed.

(** A handler that decodes a request and calls a service with it. *)
Lemma replies_call {A R} `{JSONDecoder A} (h : Handler Body (DB * Hub Payload)) r ok (value : R -> Body)
    (call : A -> DB -> Hub Payload -> Result R * DB * Hub Payload) (op : A -> Op) :
  200 <= ok < 400 ->
  (forall w s, h r w s =
     match decodeJSON r with
     | Err err => Returned (writeError 400 err w) s
     | Ok request =>
         match call request s.1 s.2 with
         | (Err err, db, hub) => Returned (writeError 400 err w) (db, hub)
         | (Ok result, db, hub) => Returned (writeJSON ok (value result) w) (db, hub)
         end
     end) ->
  (forall request s, run marshalFlow marshalAgent marshalProbe vm_digest inventory classifier (op request) s =
     let '(_, db, hub) := call request s.1 s.2 in (db, hub)) ->
  (forall request db hub err db' hub', is_heartbeat (Some (op request)) = false ->
     call request db hub = (Err err, db', hub') -> db' = db /\ hub' = hub) ->
  Replies h r (decoded (decodeJSON r) op).
Proof.
  intros Hok Hh Hrun Herr w s Hw. rewrite Hh. destruct (decodeJSON r) as [request|err]; cbn [decoded].
  - specialize (Hrun request s). destruct (call request s.1 s.2) as [[[result|err] db] hub] eqn:E;
      (do 4 eexists; split; [reflexivity|]); cbn; rewrite Hw; (split; [reflexivity|]).
    + split; [lia|other_header|done|lia].
    + split; [lia|other_header|done|]. intros _ Hb. destruct s. by destruct (Herr _ _ _ _ _ _ Hb E) as [-> ->].
  - do 4 eexists. split; [reflexivity|]. cbn. rewrite Hw. split; [reflexivity|]. apply reply_none; [lia|other_header].
Qed.

Lemma register_replies r :
  Replies (Handlers_RegisterAgent marshalAgent vm_digest inventory wd) r
    (decoded (decodeJSON r) (ORegister (env_fault (wd_env wd)) (env_pgnow (wd_env wd)))).
Proof.
  eapply (replies_call _ _ 200 BRegistration); [lia|reflexivity|by intros ? []|].
  intros request db hub err db' hub' _. apply Register_Err.
Qed.

Lemma heartbeat_replies r :
  Replies (Handlers_Heartbeat marshalAgent wd) r
    (decoded (decodeJSON r) (OHeartbeat (env_fault (wd_env wd)) (env_now (wd_env wd)))).
Proof. by eapply (replies_call _ _ 200 (fun _ => BStatus "ok")); [lia|reflexivity|intros ? []|]. Qed.

Lemma ingest_replies r :
  Replies (Handlers_IngestFlow marshalFlow classifier wd) r (decoded (decodeJSON r) (OIngest (wd_env wd))).
Proof.
  eapply (replies_call _ _ 202 BFlow); [lia|reflexivity|by intros ? []|].
  intros request db hub err db' hub' _. apply Ingest_Err.
Qed.

Lemma probe_replies r :
  Replies (Handlers_RecordConnectionProbe marshalProbe wd) r
    (decoded (decodeJSON r) (ORecordProbe (env_fault (wd_env wd)) (env_now (wd_env wd)) (env_pgnow (wd_env wd)))).
Proof.
  eapply (replies_call _ _ 202 (fun _ => BStatus "ok")); [lia|reflexivity|by intros ? []|].
  intros request db hub err db' hub' _. apply RecordProbe_Err.
Qed.

Lemma realtime_replies r : Replies (Hub_ServeHTTP wd) r None.
Proof.
  intros w s Hw. unfold Hub_ServeHTTP. destruct (wd_flusher wd); cbn [negb];
    (do 4 eexists; split; [reflexivity|]); cbn; rewrite Hw; (split; [reflexivity|]).
  - split; [lia|other_header|by right|lia].
  - apply reply_none; [lia|other_header].
Qed.

Abbreviation Rts := (routes marshalFlow marshalAgent marshalProbe vm_digest inventory classifier collate interval_in
                       nil_is_null visibility activeWindow provider wd).

Ltac reads := apply replies_read; intros w s; unfold route; cbn [rt_handler]; cbv beta zeta delta
  [Handlers_Root Handlers_Health Handlers_ListAgents Handlers_ListVMs Handlers_ListFlows Handlers_ListInternalActivity
   Handlers_ListConnections Handlers_ListConnectionTargets Handlers_CloudStatus Handlers_CloudContext Handlers_GetGraph
   Handlers_Summary Handlers_TopTalkers writeError];
  repeat case_match; do 2 eexists; (split; [by (left + right)|lia]).

(** What each pattern answers, by its method. *)
Lemma opOf_get r : methodMatches "GET" (Method r) = true -> opOf wd r = None.
Proof.
  intros [E|E]%methodMatches_get; unfold opOf; by rewrite E.
Qed.

Lemma opOf_post r : Method r = "POST" -> cleanPath (EscapedPath r) = EscapedPath r ->
  negb (Method r =? "POST")%string || negb (cleanPath (EscapedPath r) =? EscapedPath r)%string = false.
Proof. intros -> ->. by rewrite !String.eqb_refl. Qed.

Lemma get_replies r path (h : Handler Body (DB * Hub Payload)) :
  Replies h r None -> matchRoute (Method r) (segments (EscapedPath r)) (route "GET" path h) = true ->
  Replies h r (opOf wd r).
Proof. intros Hr [Hm _]%matchRoute_true. by rewrite opOf_get. Qed.

Lemma post_replies r path (h : Handler Body (DB * Hub Payload)) :
  matchRoute (Method r) (segments (EscapedPath r)) (route "POST" path h) = true ->
  cleanPath (EscapedPath r) = EscapedPath r ->
  negb (Method r =? "POST")%string || negb (cleanPath (EscapedPath r) =? EscapedPath r)%string = false /\
  segments (EscapedPath r) = segments path.
Proof.
  intros [Hm Hs]%matchRoute_true Hc. split; [|done]. apply opOf_post; [|done]. by apply methodMatches_post.
Qed.

Lemma routes_reply r : cleanPath (EscapedPath r) = EscapedPath r -> Forall (fun rt =>
    matchRoute (Method r) (segments (EscapedPath r)) rt = true -> Replies (rt_handler rt) r (opOf wd r)) Rts.
Proof.
  assert (E1 : segments "/api/agents/register" = ["api"; "agents"; "register"]) by reflexivity.
  assert (E2 : segments "/api/agents/heartbeat" = ["api"; "agents"; "heartbeat"]) by reflexivity.
  assert (E3 : segments "/api/flows/ingest" = ["api"; "flows"; "ingest"]) by reflexivity.
  assert (E4 : segments "/api/connections/probe" = ["api"; "connections"; "probe"]) by reflexivity.
  intros Hc. unfold routes. repeat (apply Forall_cons; split; [|]); [..|by apply Forall_nil].
  all: first
    [ apply get_replies; reads
    | apply get_replies, realtime_replies
    | intros [Hp Hs]%post_replies; [|done]; rewrite ?E1, ?E2, ?E3, ?E4 in Hs; unfold opOf; rewrite Hp, Hs;
      repeat (rewrite bool_decide_false by discriminate); rewrite bool_decide_true by reflexivity;
      first [apply register_replies|apply heartbeat_replies|apply ingest_replies|apply probe_replies] ].
Qed.

Lemma opOf_unrouted r :
  find (matchRoute (Method r) (segments (EscapedPath r))) Rts = None -> opOf wd r = None.
Proof.
  intros Hf. unfold opOf. destruct (String.eqb_spec (Method r) "POST") as [E|E]; [|done].
  destruct (cleanPath (EscapedPath r) =? EscapedPath r)%string; [|done]. cbn [negb orb].
  assert (Hno : forall path h, In (route "POST" path h) Rts -> segments (EscapedPath r) <> segments path).
  { intros path h Hin Hs. apply (find_none _ _ Hf) in Hin.
    assert (matchRoute (Method r) (segments (EscapedPath r)) (route "POST" path h) = true) as Hm; [|by rewrite Hm in Hin].
    apply matchRoute_true. by rewrite methodMatches_post. }
  rewrite !bool_decide_false; [done|..];
    first [refine (Hno "/api/agents/register" _ _)|refine (Hno "/api/agents/heartbeat" _ _)
          |refine (Hno "/api/flows/ingest" _ _)|refine (Hno "/api/connections/probe" _ _)];
    unfold routes; repeat first [left; reflexivity|right].
Qed.

Lemma routes_methods : Forall (fun rt => rt_method rt = "GET" \/ rt_method rt = "POST") Rts.
Proof. unfold routes. repeat (apply Forall_cons; split; [by (left + right)|]). by apply Forall_nil. Qed.

Lemma root_replies r : Replies Handlers_Root r None.
Proof. reads. Qed.

Lemma redirect_replies r url s (w : Writer Body) : w_sent w = None ->
  exists sent, w_sent (Redirect r url 301 w) = Some (301, sent) /\
    Reply None (w_header w) s 301 sent s.
Proof.
  intros Hw. unfold Redirect.
  destruct (negb _ && (_ || _)), (negb _ && _); eexists; cbn; rewrite Hw;
    (split; [reflexivity|apply reply_none; [lia|other_header]]).
Qed.

Lemma mux_replies r : Replies (serveMux Rts Handlers_Root) r (opOf wd r).
Proof.
  intros w s Hw. unfold serveMux.
  destruct (String.eqb_spec (if (Method r =? "CONNECT")%string then EscapedPath r else cleanPath (EscapedPath r))
              (EscapedPath r)) as [Hc|Hc]; cbn [negb].
  - destruct (find _ Rts) as [rt|] eqn:Hf.
    + apply find_some in Hf as [Hin%list_elem_of_In Hm]. destruct (String.eqb_spec (Method r) "CONNECT") as [E|E].
      * exfalso. apply matchRoute_true in Hm as [Hm _]. rewrite E in Hm.
        by destruct (proj1 (Forall_forall _ _) routes_methods _ Hin) as [Hr|Hr]; rewrite Hr in Hm.
      * by apply (proj1 (Forall_forall _ _) (routes_reply r Hc) _ Hin Hm).
    + rewrite (opOf_unrouted r Hf). destruct (methodMatches "GET" (Method r)); [by apply root_replies|].
      do 4 eexists. split; [reflexivity|]. cbn. rewrite Hw. split; [reflexivity|]. apply reply_none; [lia|other_header].
  - destruct (redirect_replies r (location (if (Method r =? "CONNECT")%string then EscapedPath r
      else cleanPath (EscapedPath r)) (RawQuery r)) s w Hw) as (sent & Hs & Hr).
    do 4 eexists. split; [reflexivity|]. split; [exact Hs|].
    enough (opOf wd r = None) as -> by done. unfold opOf.
    destruct (Method r =? "CONNECT")%string; [done|]. apply String.eqb_neq in Hc. rewrite Hc. by rewrite orb_true_r.
Qed.

(** ** Theorems *)

Abbreviation Serve := (Routes marshalFlow marshalAgent marshalProbe vm_digest inventory classifier collate interval_in
                         nil_is_null visibility activeWindow provider wd).

(** The headers of the middleware. *)
Definition crossOrigin (allowedOrigins : list string) (r : Request) : bool :=
  negb (Origin r =? "")%string && bool_decide (Origin r ∈ allowedOrigins).

Lemma Serve_reply origins r s : exists w s' status sent header,
  Serve origins r newWriter s = Returned w s' /\ w_sent w = Some (status, sent) /\
  header = (if crossOrigin origins r then
              <["Access-Control-Allow-Headers" := "Content-Type"]>
                (<["Access-Control-Allow-Methods" := "GET,POST,OPTIONS"]>
                  (<["Vary" := "Origin"]> {["Access-Control-Allow-Origin" := Origin r]}))
            else ∅ : Headers) /\
  Reply (opOf wd r) header s status sent s' /\ (Method r = "OPTIONS" -> status = 204).
Proof.
  unfold Routes, Middleware, recoverer, cors, logger, crossOrigin.
  set (w0 := if _ && _ then _ else newWriter).
  assert (Hw : w_sent w0 = None) by (unfold w0; by destruct (_ && _)).
  assert (Hh : w_header w0 = if negb (Origin r =? "")%string && bool_decide (Origin r ∈ origins) then
              <["Access-Control-Allow-Headers" := "Content-Type"]>
                (<["Access-Control-Allow-Methods" := "GET,POST,OPTIONS"]>
                  (<["Vary" := "Origin"]> {["Access-Control-Allow-Origin" := Origin r]}))
            else ∅ : Headers) by (unfold w0; by destruct (_ && _)).
  rewrite <- Hh. clearbody w0. destruct (String.eqb_spec (Method r) "OPTIONS") as [E|E].
  - do 5 eexists. split; [reflexivity|]. cbn. rewrite Hw. split_and!; [reflexivity..| |done].
    assert (opOf wd r = None) as -> by (unfold opOf; by rewrite E). apply reply_none; [lia|done].
  - destruct (mux_replies r w0 s Hw) as (w' & s' & status & sent & -> & Hs & Hr).
    do 5 eexists. split_and!; [reflexivity|exact Hs|reflexivity|exact Hr|done].
Qed.

(** What a request meets whose handler answers with one document. *)
Lemma Serve_answered origins r s s' handle st value :
  Method r <> "OPTIONS" -> (forall w0, serveMux Rts Handlers_Root r w0 s = handle w0) ->
  (forall w0, w_sent w0 = None -> exists w, handle w0 = Returned w s' /\ statusOf w = Some st /\ w_body w = w_body w0 ++ [CJSON value]) ->
  exists w, Serve origins r newWriter s = Returned w s' /\ statusOf w = Some st /\ w_body w = [CJSON value].
Proof.
  intros Hm Hmux HH. unfold Routes, Middleware, recoverer, cors, logger. destruct (String.eqb_spec (Method r) "OPTIONS"); [done|].
  set (w0 := if _ && _ then _ else newWriter).
  assert (Hw : w_sent w0 = None /\ w_body w0 = []) by (unfold w0; by destruct (_ && _)). clearbody w0. destruct Hw as [Hw Hb].
  rewrite Hmux. destruct (HH w0 Hw) as (w & -> & Hst & Hbody). exists w. split; [done|]. split; [done|]. by rewrite Hbody, Hb.
Qed.

Lemma writeJSON_answer status value (w : Writer Body) : w_sent w = None ->
  statusOf (writeJSON status value w) = Some status /\ w_body (writeJSON status value w) = w_body w ++ [CJSON value].
Proof. intros Hw. unfold statusOf, writeJSON. cbn. by rewrite Hw. Qed.

Ltac answered_tac Hm Hp :=
  intros; unfold serveMux; rewrite Hm, Hp; reflexivity.
Ltac handled_tac :=
  let w0 := fresh "w0" in let Hw := fresh in
  intros w0 Hw; eexists; (split; [reflexivity|]); by apply writeJSON_answer.

(** The writing requests that reach the API. *)
Lemma Serve_ingest origins r s event db hub result :
  Method r = "POST" -> EscapedPath r = "/api/flows/ingest" -> decodeJSON r = Ok event ->
  Ingest marshalFlow classifier (wd_env wd) event s.1 s.2 = (result, db, hub) ->
  exists w, Serve origins r newWriter s = Returned w (db, hub) /\
    statusOf w = Some (match result with Ok _ => 202 | Err _ => 400 end) /\
    w_body w = [CJSON (match result with Ok flow => BFlow flow | Err err => BError err end)].
Proof.
  intros Hm Hp Hd Hi. apply (Serve_answered _ _ _ _ (fun w0 => Handlers_IngestFlow marshalFlow classifier wd r w0 s));
    [by rewrite Hm|answered_tac Hm Hp|]. unfold Handlers_IngestFlow. rewrite Hd, Hi. destruct result; handled_tac.
Qed.

Lemma Serve_register origins r s request db hub result :
  Method r = "POST" -> EscapedPath r = "/api/agents/register" -> decodeJSON r = Ok request ->
  Register vm_digest marshalAgent (env_fault (wd_env wd)) (env_pgnow (wd_env wd)) inventory request s.1 s.2 = (result, db, hub) ->
  exists w, Serve origins r newWriter s = Returned w (db, hub) /\
    statusOf w = Some (match result with Ok _ => 200 | Err _ => 400 end) /\
    w_body w = [CJSON (match result with Ok result => BRegistration result | Err err => BError err end)].
Proof.
  intros Hm Hp Hd Hi. apply (Serve_answered _ _ _ _ (fun w0 => Handlers_RegisterAgent marshalAgent vm_digest inventory wd r w0 s));
    [by rewrite Hm|answered_tac Hm Hp|]. unfold Handlers_RegisterAgent. rewrite Hd, Hi. destruct result; handled_tac.
Qed.

Lemma Serve_heartbeat origins r s request db hub result :
  Method r = "POST" -> EscapedPath r = "/api/agents/heartbeat" -> decodeJSON r = Ok request ->
  Heartbeat marshalAgent (env_fault (wd_env wd)) (env_now (wd_env wd)) request s.1 s.2 = (result, db, hub) ->
  exists w, Serve origins r newWriter s = Returned w (db, hub) /\
    statusOf w = Some (match result with Ok _ => 200 | Err _ => 400 end) /\
    w_body w = [CJSON (match result with Ok _ => BStatus "ok" | Err err => BError err end)].
Proof.
  intros Hm Hp Hd Hi. apply (Serve_answered _ _ _ _ (fun w0 => Handlers_Heartbeat marshalAgent wd r w0 s));
    [by rewrite Hm|answered_tac Hm Hp|]. unfold Handlers_Heartbeat. rewrite Hd, Hi. destruct result; handled_tac.
Qed.

Lemma Serve_probe origins r s request db hub result :
  Method r = "POST" -> EscapedPath r = "/api/connections/probe" -> decodeJSON r = Ok request ->
  RecordProbe marshalProbe (env_fault (wd_env wd)) (env_now (wd_env wd)) (env_pgnow (wd_env wd)) request s.1 s.2 = (result, db, hub) ->
  exists w, Serve origins r newWriter s = Returned w (db, hub) /\
    statusOf w = Some (match result with Ok _ => 202 | Err _ => 400 end) /\
    w_body w = [CJSON (match result with Ok _ => BStatus "ok" | Err err => BError err end)].
Proof.
  intros Hm Hp Hd Hi. apply (Serve_answered _ _ _ _ (fun w0 => Handlers_RecordConnectionProbe marshalProbe wd r w0 s));
    [by rewrite Hm|answered_tac Hm Hp|]. unfold Handlers_RecordConnectionProbe. rewrite Hd, Hi. destruct result; handled_tac.
Qed.

(** The agent's question for its targets. *)
Lemma Serve_targets origins r s :
  Method r = "GET" -> EscapedPath r = "/api/connections/targets" ->
  let result := Targets (env_fault (wd_env wd) 0%nat) (env_pgnow (wd_env wd)) inventory (TrimSpace (Get (Query r) "agent_id")) s.1 in
  exists w, Serve origins r newWriter s = Returned w s /\
    statusOf w = Some (match result with Ok _ => 200 | Err _ => 400 end) /\
    w_body w = [CJSON (match result with Ok targets => BTargets targets | Err err => BError err end)].
Proof.
  intros Hm Hp result. apply (Serve_answered _ _ _ _ (fun w0 => Handlers_ListConnectionTargets inventory wd r w0 s));
    [by rewrite Hm|answered_tac Hm Hp|]. unfold Handlers_ListConnectionTargets. fold result. destruct result; [|handled_tac].
  intros w0 Hw. eexists. split; [reflexivity|]. by apply (writeJSON_answer 200 _ (no_store w0)).
Qed.


(** An error answer has no effect.  When the API answers with a status
    of 400 or more, the database and the hub are as before, except for a
    heartbeat, whose two statements are not one transaction. *)
Theorem api_errors_change_nothing (allowedOrigins : list string) (r : Request) (s s' : DB * Hub Payload)
    (w : Writer Body) (status : Z) :
  Serve allowedOrigins r newWriter s = Returned w s' -> statusOf w = Some status -> 400 <= status ->
  segments (EscapedPath r) <> ["api"; "agents"; "heartbeat"] -> s' = s.
Proof.
  intros E Hst Hle Hb.
  destruct (Serve_reply allowedOrigins r s) as (w1 & s1 & status1 & sent & header & Hs & Hw & _ & [_ _ _ He] & _).
  rewrite E in Hs. injection Hs as <- <-. unfold statusOf in Hst. rewrite Hw in Hst. injection Hst as ->.
  apply He; [done|]. unfold opOf. destruct (_ || _); [done|].
  rewrite (bool_decide_false (segments (EscapedPath r) = ["api"; "agents"; "heartbeat"])) by done.
  repeat case_bool_decide; try done; by destruct (decodeJSON r).
Qed.

(** Cross-origin access.  A response names an allowed origin exactly
    when the request's origin is one of the configured ones, and then names
    that origin only; a preflight request is answered with 204 and changes
    nothing. *)
Theorem cors_spec (allowedOrigins : list string) (r : Request) (s : DB * Hub Payload) :
  exists w s' status sent,
    Routes marshalFlow marshalAgent marshalProbe vm_digest inventory classifier collate interval_in nil_is_null
      visibility activeWindow provider wd allowedOrigins r newWriter s = Returned w s' /\ w_sent w = Some (status, sent) /\
    (forall origin, sent !! "Access-Control-Allow-Origin" = Some origin <->
       origin = Origin r /\ Origin r <> "" /\ Origin r ∈ allowedOrigins) /\
    (Method r = "OPTIONS" -> status = 204 /\ s' = s).
Proof.
  destruct (Serve_reply allowedOrigins r s) as (w & s' & status & sent & header & Hs & Hw & Hh & [_ Hc _ _] & Ho).
  exists w, s', status, sent. split_and!; [done..| |].
  - intros origin. rewrite Hc by (by left). rewrite Hh. unfold crossOrigin.
    destruct (String.eqb_spec (Origin r) "") as [E|E]; cbn [negb andb].
    + rewrite lookup_empty. naive_solver.
    + destruct (bool_decide_reflect (Origin r ∈ allowedOrigins)).
      * rewrite !lookup_insert_ne by done. rewrite lookup_singleton_eq. naive_solver.
      * rewrite lookup_empty. naive_solver.
  - intros Hm. split; [by apply Ho|]. unfold Routes, Middleware, recoverer, cors in Hs. rewrite Hm in Hs.
    by injection Hs as _ <-.
Qed.
End facts.

(** ** Parameters *)

Lemma parseDuration_range raw d : parseDuration raw = Ok d -> in_i64 d.
Proof.
  unfold parseDuration. destruct (HasSuffix raw "d").
  - destruct (Atoi _) as [days|]; [|done]. intros [= <-]. apply i64_range.
  - apply ParseDuration_range.
Qed.

Lemma timeRange_range raw unset d : in_i64 unset -> timeRange raw unset = Ok d -> in_i64 d.
Proof.
  unfold timeRange. intros Hu. destruct (_ =? "")%string; [by intros [= <-]|].
  destruct (parseDuration raw) as [d'|] eqn:E; [|done]. intros [= <-]. by eapply parseDuration_range.
Qed.

(** A numeric parameter that is checked by [bad]. *)
Lemma param_Ok raw (bad : Z -> bool) (e e' : GoError) v :
  (if (raw =? "")%string then Ok 0
   else match Atoi raw with None => Err e | Some x => guard_err (bad x) as e' ;; Ok x end) = Ok v ->
  if (raw =? "")%string then v = 0 else Atoi raw = Some v /\ bad v = false.
Proof.
  destruct (raw =? "")%string; [by intros [= <-]|]. destruct (Atoi raw) as [x|]; [|done].
  destruct (bad x) eqn:Hb; [done|]. by intros [= <-].
Qed.

(** The graph's filter is checked.  A filter the API passes on carries
    the number its [port] parameter spells, between 1 and 65535, or no port;
    a [min_bytes] that is a non-negative [int64]; and a time range that fits
    an [int64]. *)
Theorem graphFilter_spec (uc : UnicodeCase) (r : Request) (f : Graph.GraphFilter) :
  graphFilter r = Ok f ->
  (if (Get (Query r) "port" =? "")%string then Graph.FPort f = 0
   else Atoi (Get (Query r) "port") = Some (Graph.FPort f) /\ 1 <= Graph.FPort f <= 65535) /\
  (if (Get (Query r) "min_bytes" =? "")%string then Graph.MinBytes f = 0
   else Atoi (Get (Query r) "min_bytes") = Some (Graph.MinBytes f) /\ 0 <= Graph.MinBytes f < 2 ^ 63) /\
  in_i64 (Graph.TimeRange f).
Proof.
  unfold graphFilter. intros (port & Hp & (bytes & Hb & (range & Hr & [= <-])%rbind_Ok)%rbind_Ok)%rbind_Ok. cbn.
  apply param_Ok in Hp, Hb. split_and!.
  - revert Hp. destruct (Get (Query r) "port" =? "")%string; [done|]. by intros [? [?%Z.ltb_ge ?%Z.ltb_ge]%orb_false_iff].
  - revert Hb. destruct (Get (Query r) "min_bytes" =? "")%string; [done|]. intros [Ha ?%Z.ltb_ge]. apply Atoi_range in Ha as Hi. unfold in_i64 in Hi. split; [done|lia].
  - eapply timeRange_range; [|exact Hr]. unfold in_i64. lia.
Qed.

(** Ranges given in days wrap around.  The duration of [<n>d] is [n]
    days exactly when [n] is at most 106751 in magnitude; beyond that the
    product leaves [int64] silently, so that asking for 213504 days, 584
    years, shows 25 minutes. *)
Theorem day_ranges_wrap (raw : string) (days : Z) :
  HasSuffix raw "d" = true -> Atoi (trim_last raw) = Some days ->
  (parseDuration raw = Ok (days * 24 * Hour) <-> - 106751 <= days <= 106751) /\
  parseDuration "213504d" = Ok 1526290448384.
Proof.
  intros Hs Ha. split; [|by vm_compute]. unfold parseDuration. rewrite Hs, Ha.
  assert (Hr : i64 (i64 (days * 24) * Hour) ≡64 days * 24 * Hour).
  { etransitivity; [apply cong64_i64|]. destruct (cong64_i64 (days * 24)) as [k ->]. exists (k * Hour). lia. }
  pose proof (i64_range (i64 (days * 24) * Hour)) as Hi. split.
  - intros [= E]. rewrite E in Hi. unfold in_i64, Hour, Minute, Second in Hi. lia.
  - intros Hd. f_equal. destruct Hr as [k Hk]. rewrite Hk in Hi |- *. unfold in_i64 in Hi.
    assert (k = 0) as ->; [|lia]. unfold Hour, Minute, Second in Hi. lia.
Qed.
