(* ===== verification/Exporter.v ===== *)
(** The agent's requests to the backend: [agent/internal/exporter/backend.go]
    over the API, and what the retries of [sendFlow] mean for the backend's
    counters.

    A request may be lost, and so may its response: the exporter cannot tell
    the two apart.  [http.NewRequest] and [json.Marshal] are parameters; the
    exporter's paths are clean, so no redirect is answered. *)
From S2P Require Import Prelude GoStrings GoFloat GoTime GoParse Netip Metrics Classifier Hub Sql Store Inventory.
From S2P Require Import FlowService FlowList AgentService VMService GraphService ConnectionViews CloudContext.
From S2P Require Import ConnectionService References Http API.
From S2P Require AgentMain Collector Identity Lifecycle.

#[local] Open Scope Z_scope.

(** [json.Marshal] *)
Class JSONEncoder (A : Type) := Marshal : A -> Result (list ascii).

(** exporter/registration_payload.go: the agent writes the instant as text. *)
Module Payload.
Record Heartbeat := { AgentID : string; Status : string; Timestamp : string }.
End Payload.

(** What becomes of one request. *)
Inductive Delivery := Delivered | RequestLost | ResponseLost.

(** [url.QueryEscape] of the bytes that need it. *)
Definition query_safe (c : ascii) : bool :=
  let z := byteZ c in
  ((48 <=? z) && (z <=? 57)) || ((65 <=? z) && (z <=? 90)) || ((97 <=? z) && (z <=? 122))
  || existsb (Ascii.eqb c) ["-"%char; "_"%char; "."%char; "~"%char].
Definition upper_hex (z : Z) : ascii := chr (if z <? 10 then 48 + z else 55 + z).
Definition escape_byte (c : ascii) : list ascii :=
  if Ascii.eqb c " "%char then ["+"%char]
  else if query_safe c then [c]
  else ["%"%char; upper_hex (byteZ c / 16); upper_hex (byteZ c mod 16)].
Definition QueryEscape (s : string) : string := string_of (concat (map escape_byte (bytes_of s))).

Section exporter.
Context `{Postgres} {Payload : Type}.
(** The backend: its handler for what a request meets. *)
Context (serve : World -> Handler Body (DB * Hub Payload)).
(** [http.NewRequestWithContext]: method, URL and body. *)
Context (newRequest : string -> string -> list ascii -> Result Request).
Context `{JSONEncoder AgentMain.FlowEvent} `{JSONEncoder Collector.Registration}.
Context `{JSONEncoder Payload.Heartbeat} `{JSONEncoder ConnectionProbeEvent}.

Record Sender := { baseURL : string }.

Definition New (url : string) : Sender :=
  {| baseURL := string_of (rev (Identity.trim_byte "/"%char (rev (bytes_of url)))) |}.

(** [client.Do] and the read of the body. *)
Definition Do (net : Delivery) (wd : World) (req : Request) (st : DB * Hub Payload)
    : Result (Z * list (Chunk Body)) * (DB * Hub Payload) :=
  match net with
  | RequestLost => (Err Lifecycle.request_lost, st)
  | _ =>
      match serve wd req newWriter st with
      | Returned w st' | Panicked w st' =>
          match net with
          | Delivered => (Ok (default 200 (statusOf w), w_body w), st')
          | _ => (Err Lifecycle.request_lost, st')
          end
      end
  end.

(** The end both of [get] and [post]: the status, then the document.  Of the
    error's arguments the text of the body is left out. *)
Definition finish {R} (path : string) (unmarshal : list (Chunk Body) -> Result R)
    (answer : Result (Z * list (Chunk Body)) * (DB * Hub Payload)) : Result R * (DB * Hub Payload) :=
  match answer with
  | (Err err, st) => (Err err, st)
  | (Ok (status, body), st) =>
      if (status <? 200) || (300 <=? status)
      then (Err (Errorf "backend %s returned %s: %s" [path; Itoa status; ""]), st)
      else (unmarshal body, st)
  end.

Definition get {R} (s : Sender) (net : Delivery) (wd : World) (path : string)
    (unmarshal : list (Chunk Body) -> Result R) (st : DB * Hub Payload) : Result R * (DB * Hub Payload) :=
  match newRequest "GET" (baseURL s +:+ path) [] with
  | Err err => (Err err, st)
  | Ok req => finish path unmarshal (Do net wd req st)
  end.

Definition post {A R} `{JSONEncoder A} (s : Sender) (net : Delivery) (wd : World) (path : string) (request : A)
    (unmarshal : list (Chunk Body) -> Result R) (st : DB * Hub Payload) : Result R * (DB * Hub Payload) :=
  match Marshal request with
  | Err err => (Err err, st)
  | Ok payload =>
      match newRequest "POST" (baseURL s +:+ path) payload with
      | Err err => (Err err, st)
      | Ok req => finish path unmarshal (Do net wd req st)
      end
  end.

(** [response == nil]: the body is not read. *)
Definition ignore (body : list (Chunk Body)) : Result unit := Ok tt.

Definition RegisterWith (s : Sender) (net : Delivery) (wd : World)
    (unmarshal : list (Chunk Body) -> Result RegistrationResult) (registration : Collector.Registration)
    (st : DB * Hub Payload) : Result RegistrationResult * (DB * Hub Payload) :=
  post s net wd "/api/agents/register" registration unmarshal st.

Definition HeartbeatWith (s : Sender) (net : Delivery) (wd : World) (heartbeat : Payload.Heartbeat)
    (st : DB * Hub Payload) : Result unit * (DB * Hub Payload) :=
  post s net wd "/api/agents/heartbeat" heartbeat ignore st.

Definition Flow_ (s : Sender) (net : Delivery) (wd : World) (flow : AgentMain.FlowEvent) (st : DB * Hub Payload)
    : Result unit * (DB * Hub Payload) :=
  post s net wd "/api/flows/ingest" flow ignore st.

Definition ConnectionTargets (s : Sender) (net : Delivery) (wd : World)
    (unmarshal : list (Chunk Body) -> Result (list ConnectionProbeTarget)) (agentID : string)
    (st : DB * Hub Payload) : Result (list ConnectionProbeTarget) * (DB * Hub Payload) :=
  get s net wd ("/api/connections/targets?agent_id=" +:+ QueryEscape agentID) unmarshal st.

Definition ConnectionProbe (s : Sender) (net : Delivery) (wd : World) (probe : ConnectionProbeEvent)
    (st : DB * Hub Payload) : Result unit * (DB * Hub Payload) :=
  post s net wd "/api/connections/probe" probe ignore st.

(** [sendFlow] of main.go on the backend's state: the i-th attempt meets
    [attempt i]; the state after [n] attempts. *)
Fixpoint stateAfter (s : Sender) (attempt : nat -> Delivery * World) (flow : AgentMain.FlowEvent)
    (st : DB * Hub Payload) (n : nat) : DB * Hub Payload :=
  match n with
  | O => st
  | S n => let st := stateAfter s attempt flow st n in snd (Flow_ s (fst (attempt n)) (snd (attempt n)) flow st)
  end.

Definition deliver (s : Sender) (attempt : nat -> Delivery * World) (cancelled : nat -> bool)
    (flow : AgentMain.FlowEvent) (st : DB * Hub Payload) : Result unit * nat * (DB * Hub Payload) :=
  let call i := fst (Flow_ s (fst (attempt i)) (snd (attempt i)) flow (stateAfter s attempt flow st i)) in
  let '(r, n, _) := AgentMain.sendFlow call cancelled in
  (r, n, stateAfter s attempt flow st n).
End exporter.

(** ** Escaping *)

Lemma escape_byte_cases c :
  (escape_byte c = ["+"%char] /\ c = " "%char) \/
  (escape_byte c = [c] /\ Ascii.eqb c "%"%char = false /\ Ascii.eqb c "+"%char = false) \/
  exists a b x y, escape_byte c = ["%"%char; a; b] /\ hex_val a = Some x /\ hex_val b = Some y /\ chr (16 * x + y) = c.
Proof.
  destruct c as [[] [] [] [] [] [] [] []];
    first [left; split; reflexivity|right; left; repeat split; reflexivity
          |right; right; do 4 eexists; repeat split; reflexivity].
Qed.

Lemma unescape_escaped c r : unescape true (escape_byte c ++ r) = cons c <$> unescape true r.
Proof.
  destruct (escape_byte_cases c) as [[-> ->]|[(-> & E1 & E2)|(a & b & x & y & -> & Ha & Hb & Hc)]].
  - reflexivity.
  - cbn [app unescape]. by rewrite E1, E2.
  - cbn [app unescape]. by rewrite Ha, Hb, Hc.
Qed.

Lemma QueryUnescape_Escape s : QueryUnescape (QueryEscape s) = Some s.
Proof.
  unfold QueryUnescape, QueryEscape. rewrite bytes_of_string_of.
  enough (unescape true (concat (map escape_byte (bytes_of s))) = Some (bytes_of s)) as ->.
  { cbn. by rewrite string_of_bytes_of. }
  induction (bytes_of s) as [|c l IH]; [done|]. cbn [map concat]. by rewrite unescape_escaped, IH.
Qed.

(** The bytes that separate the parts of a query do not occur in an escaped
    value. *)
Lemma escape_byte_no c x : x ∈ escape_byte c ->
  Ascii.eqb x "&"%char = false /\ Ascii.eqb ";"%char x = false /\ Ascii.eqb x "="%char = false.
Proof.
  intros Hx. assert (forallb (fun x => negb (Ascii.eqb x "&"%char) && negb (Ascii.eqb ";"%char x)
                                        && negb (Ascii.eqb x "="%char)) (escape_byte c) = true) as Hf
    by (clear; destruct c as [[] [] [] [] [] [] [] []]; reflexivity).
  rewrite forallb_forall in Hf. apply list_elem_of_In, Hf in Hx.
  by apply andb_true_iff in Hx as [[?%negb_true_iff ?%negb_true_iff]%andb_true_iff ?%negb_true_iff].
Qed.

Lemma QueryEscape_no s x : x ∈ bytes_of (QueryEscape s) ->
  Ascii.eqb x "&"%char = false /\ Ascii.eqb ";"%char x = false /\ Ascii.eqb x "="%char = false.
Proof.
  unfold QueryEscape. rewrite bytes_of_string_of. intros (l & (c & <- & _)%in_map_iff & Hx%list_elem_of_In)%list_elem_of_In%in_concat.
  by apply escape_byte_no in Hx.
Qed.

Lemma split_bytes_none sep l : (forall x, x ∈ l -> Ascii.eqb x sep = false) -> split_bytes sep l = [l].
Proof.
  induction l as [|c l IH]; intros Hl; [done|]. cbn [split_bytes]. rewrite Hl by left.
  rewrite IH; [done|]. intros x Hx. apply Hl. by right.
Qed.

(** The agent asks for its own targets.  The query string the exporter
    builds for an agent identifier is read back by the API as exactly that
    identifier, whatever bytes it holds. *)
Theorem agent_query_roundtrip (agentID method path origin : string) (body : list ascii) :
  Get (Query {| Method := method; EscapedPath := path; RawQuery := "agent_id=" +:+ QueryEscape agentID;
                Origin := origin; ReqBody := body |}) "agent_id" = agentID.
Proof.
  unfold Query, Split. cbn [RawQuery]. rewrite bytes_of_app.
  assert (Hl : forall x, x ∈ bytes_of "agent_id=" ++ bytes_of (QueryEscape agentID) ->
            Ascii.eqb x "&"%char = false /\ Ascii.eqb ";"%char x = false).
  { intros x [Hx|Hx]%elem_of_app; [|by apply QueryEscape_no in Hx as (? & ? & _)].
    repeat (apply elem_of_cons in Hx as [->|Hx]; [by split|]). by apply elem_of_nil in Hx. }
  rewrite split_bytes_none by (by intros x [? _]%Hl). cbn [map omap list_omap].
  unfold parsePair. rewrite bytes_of_string_of.
  assert (existsb (Ascii.eqb ";"%char) (bytes_of "agent_id=" ++ bytes_of (QueryEscape agentID)) = false) as ->.
  { apply not_true_is_false. intros (x & Hx%list_elem_of_In & E)%existsb_exists. apply Hl in Hx as [_ Hx]. congruence. }
  unfold Cut. rewrite bytes_of_string_of.
  change (split_first "="%char (bytes_of "agent_id=" ++ bytes_of (QueryEscape agentID)))
    with (Some (bytes_of "agent_id", bytes_of (QueryEscape agentID))).
  change (string_of (bytes_of "agent_id=" ++ bytes_of (QueryEscape agentID)) =? "")%string with false.
  cbn [orb fmap option_fmap option_map default from_option id].
  change (QueryUnescape (string_of (bytes_of "agent_id"))) with (Some "agent_id").
  rewrite (string_of_bytes_of (QueryEscape agentID)), QueryUnescape_Escape. reflexivity.
Qed.

(** ** Deliveries *)

Lemma LimitReader_all n l : Z.of_nat (length l) <= n -> LimitReader n l = l.
Proof.
  revert n. induction l as [|c l IH]; intros n Hn; [done|]. cbn [LimitReader length] in *.
  destruct (Z.ltb_spec 0 n); [|lia]. f_equal. apply IH. lia.
Qed.

Section deliveries.
Context `{Postgres} `{UnicodeCase} {Payload : Type}.
Context (marshalFlow : string -> Flow -> option Payload) (marshalAgent : string -> Message -> option Payload).
Context (marshalProbe : string -> ConnectionProbeEvent -> option Payload).
Context (vm_digest : string -> string) (inventory : option VMInventory) (classifier : Classifier).
Context (collate : string -> string -> bool) (interval_in : duration -> duration) (nil_is_null : bool).
Context (visibility : GraphVisibility) (activeWindow : duration) (provider : option (Result CloudProviderStatus)).
Context `{JSONDecoder AgentRegistration} `{JSONDecoder AgentHeartbeat}.
Context `{JSONDecoder FlowEvent} `{JSONDecoder ConnectionProbeEvent}.
Context (allowedOrigins : list string) (newRequest : string -> string -> list ascii -> Result Request).
Context `{JSONEncoder AgentMain.FlowEvent}.

Abbreviation backend := (fun wd => Routes marshalFlow marshalAgent marshalProbe vm_digest inventory classifier collate
  interval_in nil_is_null visibility activeWindow provider wd allowedOrigins).
Abbreviation Sent := (Flow_ backend newRequest).

(** The flow's request as the backend reads it: a [POST] to the ingest path
    whose body, of at most 1 MiB, decodes to the event the agent means. *)
Definition wired (s : Sender) (flow : AgentMain.FlowEvent) : Prop :=
  exists payload req, Marshal flow = Ok payload /\
    newRequest "POST" (baseURL s +:+ "/api/flows/ingest") payload = Ok req /\
    Method req = "POST" /\ EscapedPath req = "/api/flows/ingest" /\ ReqBody req = payload /\
    Z.of_nat (length payload) <= 2 ^ 20 /\ Decode payload = Ok (Metrics.received flow, []).

Definition arrives (net : Delivery) : bool := match net with RequestLost => false | _ => true end.
Definition answered (net : Delivery) : bool := match net with Delivered => true | _ => false end.

(** The i-th request reached the backend and was ingested. *)
Definition ingested (wd : World) (flow : AgentMain.FlowEvent) (st : DB * Hub Payload) : bool :=
  is_ok (fst (fst (Ingest marshalFlow classifier (wd_env wd) (Metrics.received flow) (fst st) (snd st)))).

Lemma Flow_spec s net wd flow st : wired s flow ->
  exists r, Sent s net wd flow st =
    (r, if arrives net then let '(_, db, hub) := Ingest marshalFlow classifier (wd_env wd) (Metrics.received flow) st.1 st.2 in (db, hub)
        else st) /\
    is_ok r = answered net && ingested wd flow st.
Proof.
  intros (payload & req & Hm & Hn & Hmeth & Hpath & Hbody & Hlen & Hdec). unfold Flow_, post, ingested. rewrite Hm, Hn.
  assert (Hd : decodeJSON req = Ok (Metrics.received flow)).
  { unfold decodeJSON. rewrite Hbody, LimitReader_all by done. by rewrite Hdec. }
  destruct (Ingest _ _ _ _ st.1 st.2) as [[result db] hub] eqn:Ei.
  destruct (Serve_ingest marshalFlow marshalAgent marshalProbe vm_digest inventory classifier collate interval_in
    nil_is_null visibility activeWindow provider wd allowedOrigins req st _ db hub result Hmeth Hpath Hd Ei) as (w & Hs & Hst & _).
  unfold Do. destruct net; cbn [arrives answered]; [|by eexists|].
  - rewrite Hs, Hst. destruct result; by eexists.
  - rewrite Hs. by eexists.
Qed.

Abbreviation State_after := (stateAfter backend newRequest).
Abbreviation Deliver := (deliver backend newRequest).

(** The attempts among the first [n] whose request was ingested. *)
Definition ingestions (s : Sender) (attempt : nat -> Delivery * World) (flow : AgentMain.FlowEvent)
    (st : DB * Hub Payload) (n : nat) : list nat :=
  List.filter (fun i => arrives (attempt i).1 && ingested (attempt i).2 flow (State_after s attempt flow st i)) (seq 0 n).

(** A counter the validation does not infer. *)
Definition measured (c : Counter) : Prop := c <> CRequests.

Lemma measured_counter c now e e' : measured c -> now <> 0 -> ValidateFlowEvent now e = Ok e' -> ev_counter c e' = ev_counter c e.
Proof.
  intros Hc Hn (_ & Hs & _)%Validate_sound; [|done]. unfold measured in Hc.
  destruct Hs as (_ & _ & ? & ? & ? & ? & ? & ? & _ & _ & ? & ? & ? & ? & ? & _). by destruct c.
Qed.

Lemma stateAfter_counts s attempt flow st n c :
  wired s flow -> measured c -> flows_ok (network_flows st.1) (flow_observations st.1) ->
  (forall i, env_flow_id (wd_env (attempt i).2) <> "" /\ env_now (wd_env (attempt i).2) <> 0) ->
  let db := (State_after s attempt flow st n).1 in
  flows_ok (network_flows db) (flow_observations db) /\
  sumZ (fl_counter c) (network_flows db) =
    sumZ (fl_counter c) (network_flows st.1) +
    Z.of_nat (length (ingestions s attempt flow st n)) * ev_counter c (Metrics.received flow).
Proof.
  intros Hw Hc Hok Henv. induction n as [|n [IHok IH]]; [by rewrite Z.mul_0_l, Z.add_0_r|].
  cbn zeta. unfold ingestions in *. rewrite seq_S, List.filter_app, length_app. cbn [plus stateAfter].
  set (st' := State_after s attempt flow st n) in *. destruct (attempt n) as [net wd] eqn:Ea. cbn [fst snd].
  destruct (Flow_spec s net wd flow st' Hw) as (r & -> & _). cbn [snd List.filter]. rewrite Ea. cbn [fst snd].
  destruct (arrives net); cbn [andb]; [|rewrite IH; split; [done|cbn; lia]].
  fold st'. destruct (Ingest _ _ _ _ st'.1 st'.2) as [[result db] hub] eqn:Ei. cbn [fst].
  assert (ingested wd flow st' = is_ok result) as -> by (unfold ingested; by rewrite Ei).
  destruct (Henv n) as [Hid Hnow]. rewrite Ea in Hid, Hnow. cbn [snd] in Hid, Hnow.
  destruct (Ingest_keeps _ _ _ _ _ _ _ _ _ IHok Hid Ei) as [Hok' Hsum]. split; [done|].
  rewrite Hsum, IH. destruct result as [fl|e]; cbn [is_ok]; [|cbn [length]; lia].
  apply Ingest_Ok in Ei as (e & id & src & dst & scope & Hv & _ & -> & _); [|done].
  rewrite ingested_counter, (measured_counter c _ _ _ Hc Hnow Hv). cbn [length]. lia.
Qed.

Lemma call_ok s attempt flow st i : wired s flow ->
  is_ok (Sent s (attempt i).1 (attempt i).2 flow (State_after s attempt flow st i)).1 =
  answered (attempt i).1 && ingested (attempt i).2 flow (State_after s attempt flow st i).
Proof. intros Hw. by destruct (Flow_spec s (attempt i).1 (attempt i).2 flow (State_after s attempt flow st i) Hw) as (r & -> & <-). Qed.

Lemma filter_none {A} (f : A -> bool) l : (forall x, x ∈ l -> f x = false) -> List.filter f l = [].
Proof.
  induction l as [|x l IH]; intros Hl; [done|]. cbn. rewrite Hl by left. apply IH. intros y Hy. apply Hl. by right.
Qed.

Lemma deliver_ingestions s attempt cancelled flow st r n st' : wired s flow ->
  Deliver s attempt cancelled flow st = (r, n, st') ->
  (1 <= n <= 3)%nat /\ st' = State_after s attempt flow st n /\
  (is_ok r = true -> (1 <= length (ingestions s attempt flow st n))%nat) /\
  ((forall i, (i < n)%nat -> (attempt i).1 <> ResponseLost) ->
     length (ingestions s attempt flow st n) = if is_ok r then 1%nat else 0%nat).
Proof.
  intros Hw. unfold deliver. set (call := fun i => _). pose proof (AgentMain.sendFlow_spec call cancelled) as Hs.
  destruct (AgentMain.sendFlow call cancelled) as [[r0 n0] pauses]. intros [= <- <- <-].
  destruct Hs as (Hn & Hfail & Hlast & _ & _).
  assert (Hcall : forall i, is_ok (call i) = answered (attempt i).1 && ingested (attempt i).2 flow (State_after s attempt flow st i))
    by (intros i; by apply call_ok).
  destruct n0 as [|m]; [lia|]. rewrite Nat.sub_succ, Nat.sub_0_r in Hlast. rewrite Hlast, Hcall.
  unfold ingestions. rewrite seq_S, List.filter_app, length_app. cbn [plus List.filter].
  split_and!; [lia|lia|done| |].
  - intros [Ha Hi]%andb_true_iff. rewrite Hi. revert Ha. destruct (attempt m).1; [cbn; lia|done|done].
  - intros Hnet. rewrite filter_none.
    + specialize (Hnet m ltac:(lia)). destruct (attempt m).1; cbn [arrives answered andb]; [|done|done].
      by destruct (ingested _ _ _).
    + intros i [_ Hi]%elem_of_seq. destruct (Hfail i) as [Hf _]; [lia|]. rewrite Hcall in Hf.
      specialize (Hnet i ltac:(lia)). by destruct (attempt i).1.
Qed.

(** What one flow adds to the backend's counters.  Whatever happens to
    the requests and responses of its at most three attempts, each counter
    grows by the flow's value once per ingested attempt; a reported success
    means at least one was ingested, and when no response is lost the flow
    is counted exactly once on success and not at all on failure. *)
Lemma delivery_counts (s : Sender) (attempt : nat -> Delivery * World) (cancelled : nat -> bool)
    (flow : AgentMain.FlowEvent) (st st' : DB * Hub Payload) (r : Result unit) (n : nat) (c : Counter) :
  wired s flow -> measured c -> flows_ok (network_flows st.1) (flow_observations st.1) ->
  (forall i, env_flow_id (wd_env (attempt i).2) <> "" /\ env_now (wd_env (attempt i).2) <> 0) ->
  Deliver s attempt cancelled flow st = (r, n, st') ->
  exists k, (k <= n <= 3)%nat /\
    sumZ (fl_counter c) (network_flows st'.1) =
      sumZ (fl_counter c) (network_flows st.1) + Z.of_nat k * ev_counter c (Metrics.received flow) /\
    (is_ok r = true -> (1 <= k)%nat) /\
    ((forall i, (i < n)%nat -> (attempt i).1 <> ResponseLost) -> k = if is_ok r then 1%nat else 0%nat).
Proof.
  intros Hw Hc Hok Henv (Hn & -> & Hone & Hexact)%deliver_ingestions; [|done].
  exists (length (ingestions s attempt flow st n)). split_and!; [|lia| |done|done].
  - unfold ingestions. etrans; [apply List.filter_length_le|]. by rewrite length_seq.
  - by apply stateAfter_counts.
Qed.

(** A lost response counts a flow twice.  When the backend commits the
    first attempt but its response is lost, the retry is committed as well:
    the agent sees one success and every counter of the flow is added
    twice, since a request carries nothing that identifies it. *)
Theorem lost_response_counts_twice (s : Sender) (attempt : nat -> Delivery * World) (cancelled : nat -> bool)
    (flow : AgentMain.FlowEvent) (st : DB * Hub Payload) (c : Counter) :
  wired s flow -> measured c -> flows_ok (network_flows st.1) (flow_observations st.1) ->
  (forall i, env_flow_id (wd_env (attempt i).2) <> "" /\ env_now (wd_env (attempt i).2) <> 0) ->
  (attempt 0%nat).1 = ResponseLost -> (attempt 1%nat).1 = Delivered -> cancelled 0%nat = false ->
  ingested (attempt 0%nat).2 flow st = true ->
  ingested (attempt 1%nat).2 flow (State_after s attempt flow st 1) = true ->
  exists st', Deliver s attempt cancelled flow st = (Ok tt, 2%nat, st') /\
    sumZ (fl_counter c) (network_flows st'.1) =
      sumZ (fl_counter c) (network_flows st.1) + 2 * ev_counter c (Metrics.received flow).
Proof.
  intros Hw Hc Hok Henv E0 E1 Hcan I0 I1. exists (State_after s attempt flow st 2). split.
  - unfold deliver, AgentMain.sendFlow. cbn [AgentMain.sendFlow_loop].
    pose proof (call_ok s attempt flow st 0 Hw) as H0'. pose proof (call_ok s attempt flow st 1 Hw) as H1'.
    rewrite E0 in H0' at 2. rewrite I1 in H1'. rewrite E1 in H1' at 2. cbn [answered andb] in H0', H1'.
    destruct (Sent s (attempt 0%nat).1 (attempt 0%nat).2 flow _).1 as [|e]; [done|]. rewrite Hcan.
    by destruct (Sent s (attempt 1%nat).1 (attempt 1%nat).2 flow _).1 as [[]|].
  - destruct (stateAfter_counts s attempt flow st 2 c Hw Hc Hok Henv) as [_ ->]. unfold ingestions. cbn [seq List.filter].
    rewrite E0, E1, I1. change (State_after s attempt flow st 0) with st. by rewrite I0.
Qed.
End deliveries.
