(* ===== verification/Wire.v ===== *)
(** The wire between the two programs: the structs the agent marshals
    ([agent/internal/exporter/*_payload.go]) and those the backend decodes
    ([backend/internal/model]), with their JSON tags.

    Every request of the exporter is read by the API as the value the rest of
    the development takes it for. *)
From S2P Require Import Prelude GoStrings GoFloat GoTime Decimal GoDate GoParse Netip JsonText FloatText JsonCodec Metrics Classifier Hub Sql Store Inventory.
From S2P Require Import FlowService FlowList AgentService VMService GraphService ConnectionViews CloudContext.
From S2P Require Import ConnectionService References Http API Exporter.
From S2P Require AgentMain Collector Identity Lifecycle.

#[local] Open Scope Z_scope.

(** ** Struct types *)

Definition req (name : string) (t : gtype) : string * bool * gtype := (name, false, t).
Definition opt (name : string) (t : gtype) : string * bool * gtype := (name, true, t).

(** exporter/flow_payload.go *)
Definition agent_FlowEvent : gtype := TStruct
  [req "agent_id" TString; req "src_ip" TString; req "dst_ip" TString; req "src_port" TInt; req "dst_port" TInt;
   req "protocol" TString; req "direction" TString; req "bytes_sent" TInt; req "bytes_received" TInt; req "packets" TInt;
   req "connection_count" TInt; req "request_count" TInt; req "error_count" TInt; opt "retransmission_count" TInt;
   opt "avg_rtt_ms" TFloat; opt "avg_app_delay_ms" TFloat; opt "http_1xx_count" TInt; opt "http_2xx_count" TInt;
   opt "http_3xx_count" TInt; opt "http_4xx_count" TInt; opt "http_5xx_count" TInt; opt "last_http_status" TInt;
   req "first_seen" TTime; req "last_seen" TTime; req "interface" TString].

(** model/flow.go *)
Definition model_FlowEvent : gtype := TStruct
  [req "agent_id" TString; req "src_ip" TString; req "dst_ip" TString; req "src_port" TInt; req "dst_port" TInt;
   req "protocol" TString; req "direction" TString; req "bytes_sent" TInt; req "bytes_received" TInt; req "packets" TInt;
   req "connection_count" TInt; req "request_count" TInt; req "error_count" TInt; req "retransmission_count" TInt;
   req "avg_rtt_ms" TFloat; req "avg_app_delay_ms" TFloat; req "http_1xx_count" TInt; req "http_2xx_count" TInt;
   req "http_3xx_count" TInt; req "http_4xx_count" TInt; req "http_5xx_count" TInt; req "last_http_status" TInt;
   req "first_seen" TTime; req "last_seen" TTime; req "interface" TString].

(** exporter/registration_payload.go *)
Definition agent_Interface : gtype :=
  TStruct [req "name" TString; opt "ip_address" TString; opt "mac_address" TString].
Definition registration_fields : list (string * bool * gtype) :=
  [req "agent_id" TString; req "hostname" TString; opt "machine_id" TString; opt "tenant_id" TString;
   opt "private_ips" (TSlice TString); opt "public_ip" (TPointer TString); opt "mac_addresses" (TSlice TString);
   opt "interfaces" (TSlice agent_Interface); opt "os" TString; opt "kernel" TString; req "agent_version" TString;
   opt "environment" TString].
Definition agent_Registration : gtype := TStruct registration_fields.
Definition agent_Heartbeat : gtype := TStruct [req "agent_id" TString; req "status" TString; req "timestamp" TString].
Definition agent_RegistrationResult : gtype := TStruct [req "agent_id" TString; req "vm_id" TString; req "status" TString].

(** model/interface.go and model/agent.go *)
Definition model_Interface : gtype :=
  TStruct [req "name" TString; opt "ip_address" TString; opt "mac_address" TString].
Definition model_AgentRegistration : gtype := TStruct
  [req "agent_id" TString; req "hostname" TString; opt "machine_id" TString; opt "tenant_id" TString; opt "project_id" TString;
   opt "private_ips" (TSlice TString); opt "public_ip" (TPointer TString); opt "mac_addresses" (TSlice TString);
   opt "interfaces" (TSlice model_Interface); opt "os" TString; opt "kernel" TString; opt "agent_version" TString;
   opt "environment" TString].
Definition model_AgentHeartbeat : gtype := TStruct [req "agent_id" TString; req "status" TString; req "timestamp" TTime].
Definition model_RegistrationResult : gtype := TStruct [req "agent_id" TString; req "vm_id" TString; req "status" TString].

(** exporter/connection_payload.go and model/connection.go *)
Definition agent_ConnectionProbeEvent : gtype := TStruct
  [req "agent_id" TString; opt "source_ip" TString; req "dest_ip" TString; req "protocol" TString; req "dest_port" TInt;
   req "success" TBool; opt "rtt_ms" TFloat; opt "error" TString; req "source" TString; req "type" TString;
   req "counted_as_request" TBool; req "counted_as_user_traffic" TBool; req "timestamp" TTime].
Definition model_ConnectionProbeEvent : gtype := TStruct
  [req "agent_id" TString; opt "source_ip" TString; req "dest_ip" TString; req "protocol" TString; req "dest_port" TInt;
   req "success" TBool; opt "rtt_ms" TFloat; opt "error" TString; req "source" TString; req "type" TString;
   req "counted_as_request" TBool; req "counted_as_user_traffic" TBool; req "timestamp" TTime].
Definition agent_ConnectionProbeTarget : gtype := TStruct
  [req "source_vm_id" TString; req "source_ip" TString; req "dest_vm_id" TString; req "dest_name" TString;
   req "dest_ip" TString; req "protocol" TString; req "dest_port" TInt; req "last_seen" TTime].
Definition model_ConnectionProbeTarget : gtype := TStruct
  [req "source_vm_id" TString; req "source_ip" TString; req "dest_vm_id" TString; req "dest_name" TString;
   req "dest_ip" TString; req "protocol" TString; req "dest_port" TInt; req "last_seen" TTime].

(** ** Values

    A record as a Go value, and back. *)

Definition flow_value (p : AgentMain.FlowEvent) : gval := VStruct
  [VString (AgentMain.AgentID p); VString (AgentMain.SrcIP p); VString (AgentMain.DstIP p);
   VInt (AgentMain.SrcPort p); VInt (AgentMain.DstPort p); VString (AgentMain.Protocol p);
   VString (AgentMain.FlowDirection p); VInt (AgentMain.BytesSent p); VInt (AgentMain.BytesReceived p);
   VInt (AgentMain.PacketCount p); VInt (AgentMain.ConnectionCount p); VInt (AgentMain.RequestCount p);
   VInt (AgentMain.ErrorCount p); VInt (AgentMain.Retransmissions p); VFloat (AgentMain.AvgRTTMs p);
   VFloat (AgentMain.AvgAppDelayMs p); VInt (AgentMain.HTTP1xx p); VInt (AgentMain.HTTP2xx p); VInt (AgentMain.HTTP3xx p);
   VInt (AgentMain.HTTP4xx p); VInt (AgentMain.HTTP5xx p); VInt (AgentMain.LastHTTPStatus p);
   VTime (AgentMain.FirstSeen p); VTime (AgentMain.LastSeen p); VString (AgentMain.Interface p)].

Definition flow_of (v : gval) : option Metrics.FlowEvent :=
  match v with
  | VStruct
      [VString a; VString src; VString dst; VInt sp; VInt dp; VString proto; VString dir; VInt bs; VInt br; VInt pk;
       VInt cc; VInt rc; VInt ec; VInt rt; VFloat rtt; VFloat app; VInt h1; VInt h2; VInt h3; VInt h4; VInt h5; VInt st;
       VTime fs; VTime ls; VString iface] =>
      Some {| Metrics.AgentID := a; Metrics.SrcIP := src; Metrics.DstIP := dst; Metrics.SrcPort := sp; Metrics.DstPort := dp; Metrics.Protocol := proto; Metrics.Direction_ := dir;
              Metrics.BytesSent := bs; Metrics.BytesReceived := br; Metrics.PacketCount := pk; Metrics.ConnectionCount := cc; Metrics.RequestCount := rc;
              Metrics.ErrorCount := ec; Metrics.Retransmissions := rt; Metrics.AvgRTTMs := rtt; Metrics.AvgAppDelayMs := app; Metrics.HTTP1xx := h1; Metrics.HTTP2xx := h2;
              Metrics.HTTP3xx := h3; Metrics.HTTP4xx := h4; Metrics.HTTP5xx := h5; Metrics.LastHTTPStatus := st; Metrics.FirstSeen := fs; Metrics.LastSeen := ls;
              Metrics.Interface := iface |}
  | _ => None
  end.

(** A slice that is empty is taken for nil: both are omitted. *)
Definition slice_value {A} (f : A -> gval) (l : list A) : gval := match l with [] => VNil | _ => VSlice (map f l) end.
Definition slice_of {A} (f : gval -> option A) (v : gval) : option (list A) :=
  match v with VNil => Some [] | VSlice l => mapM f l | _ => None end.
Definition string_value (v : gval) : option string := match v with VString s => Some s | _ => None end.

Definition interface_value (i : Collector.Interface) : gval :=
  VStruct [VString (Collector.IfName i); VString (Collector.IPAddress i); VString (Collector.MACAddress i)].
Definition interface_of (v : gval) : option AgentService.Interface :=
  match v with
  | VStruct [VString n; VString ip; VString mac] => Some {| IName := n; IIPAddress := ip; IMACAddress := mac |}
  | _ => None
  end.

Definition registration_value (r : Collector.Registration) : gval := VStruct
  [VString (Collector.RAgentID r); VString (Collector.Hostname r); VString (Collector.MachineID r);
   VString (Collector.TenantID r); slice_value VString (Collector.PrivateIPs r);
   match Collector.PublicIP r with Some ip => VPtr (VString ip) | None => VNil end;
   slice_value VString (Collector.MACAddresses r); slice_value interface_value (Collector.Interfaces r);
   VString (Collector.OS r); VString (Collector.KernelVersion r); VString (Collector.AgentVersion r);
   VString (Collector.Environment r)].

Definition registration_of (v : gval) : option AgentRegistration :=
  match v with
  | VStruct [VString a; VString h; VString m; VString t; VString p; ips; ip; macs; ifs; VString os; VString k; VString ver; VString env] =>
      ips ← slice_of string_value ips;
      ip ← (match ip with VNil => Some None | VPtr (VString s) => Some (Some s) | _ => None end);
      macs ← slice_of string_value macs; ifs ← slice_of interface_of ifs;
      Some {| RgAgentID := a; RgHostname := h; RgMachineID := m; RgTenantID := t; RgProjectID := p; RgPrivateIPs := ips;
              RgPublicIP := ip; RgMACAddresses := macs; RgInterfaces := ifs; RgOS := os; RgKernel := k;
              RgAgentVersion := ver; RgEnvironment := env |}
  | _ => None
  end.

Definition heartbeat_value (h : Payload.Heartbeat) : gval :=
  VStruct [VString (Payload.AgentID h); VString (Payload.Status h); VString (Payload.Timestamp h)].
Definition heartbeat_of (v : gval) : option AgentHeartbeat :=
  match v with
  | VStruct [VString a; VString s; VTime t] => Some {| HbAgentID := a; HbStatus := s; HbTimestamp := t |}
  | _ => None
  end.

Definition probe_value (e : ConnectionProbeEvent) : gval := VStruct
  [VString (pe_AgentID e); VString (pe_SourceIP e); VString (pe_DestIP e); VString (pe_Protocol e); VInt (pe_DestPort e);
   VBool (pe_Success e); VFloat (pe_RTTMs e); VString (pe_Error e); VString (pe_Source e); VString (pe_Type e);
   VBool (pe_CountedAsRequest e); VBool (pe_CountedAsUserTraffic e); VTime (pe_Timestamp e)].
Definition probe_of (v : gval) : option ConnectionProbeEvent :=
  match v with
  | VStruct [VString a; VString src; VString dst; VString p; VInt port; VBool ok; VFloat rtt; VString err; VString source;
             VString ty; VBool r; VBool u; VTime t] =>
      Some {| pe_AgentID := a; pe_SourceIP := src; pe_DestIP := dst; pe_Protocol := p; pe_DestPort := port; pe_Success := ok;
              pe_RTTMs := rtt; pe_Error := err; pe_Source := source; pe_Type := ty; pe_CountedAsRequest := r;
              pe_CountedAsUserTraffic := u; pe_Timestamp := t |}
  | _ => None
  end.

Definition target_value (t : ConnectionProbeTarget) : gval := VStruct
  [VString (tg_SourceVMID t); VString (tg_SourceIP t); VString (tg_DestVMID t); VString (tg_DestName t); VString (tg_DestIP t);
   VString (tg_Protocol t); VInt (tg_DestPort t); VTime (tg_LastSeen t)].
Definition target_of (v : gval) : option ConnectionProbeTarget :=
  match v with
  | VStruct [VString sv; VString si; VString dv; VString dn; VString di; VString p; VInt port; VTime t] =>
      Some {| tg_SourceVMID := sv; tg_SourceIP := si; tg_DestVMID := dv; tg_DestName := dn; tg_DestIP := di; tg_Protocol := p;
              tg_DestPort := port; tg_LastSeen := t |}
  | _ => None
  end.

Definition result_value (r : RegistrationResult) : gval :=
  VStruct [VString (RrAgentID r); VString (RrVMID r); VString (RrStatus r)].
Definition result_of (v : gval) : option RegistrationResult :=
  match v with
  | VStruct [VString a; VString vm; VString s] => Some {| RrAgentID := a; RrVMID := vm; RrStatus := s |}
  | _ => None
  end.

(** ** The codecs

    The agent's instants are in UTC. *)
Definition utc (t : time) : Z := 0.

Definition decode_as {A} (t : gtype) (back : gval -> option A) : JSONDecoder A := fun l =>
  match decode t l with
  | Err e => Err e
  | Ok (v, rest) => match back v with Some a => Ok (a, rest) | None => Err type_mismatch end
  end.

#[export] Instance flow_encoder : JSONEncoder AgentMain.FlowEvent := fun p => marshal utc agent_FlowEvent (flow_value p).
#[export] Instance registration_encoder : JSONEncoder Collector.Registration := fun r => marshal utc agent_Registration (registration_value r).
#[export] Instance heartbeat_encoder : JSONEncoder Payload.Heartbeat := fun h => marshal utc agent_Heartbeat (heartbeat_value h).
#[export] Instance probe_encoder : JSONEncoder ConnectionProbeEvent := fun e => marshal utc agent_ConnectionProbeEvent (probe_value e).

#[export] Instance flow_decoder : JSONDecoder Metrics.FlowEvent := decode_as model_FlowEvent flow_of.
#[export] Instance registration_decoder : JSONDecoder AgentRegistration := decode_as model_AgentRegistration registration_of.
#[export] Instance heartbeat_decoder : JSONDecoder AgentHeartbeat := decode_as model_AgentHeartbeat heartbeat_of.
#[export] Instance probe_decoder : JSONDecoder ConnectionProbeEvent := decode_as model_ConnectionProbeEvent probe_of.

(** [lifecycle.Run]: the heartbeat of a tick. *)
Definition heartbeatAt (now : time) (registration : Collector.Registration) : Payload.Heartbeat :=
  {| Payload.AgentID := Collector.RAgentID registration; Payload.Status := "online";
     Payload.Timestamp := string_of (formatRFC3339 0 now) |}.

(** The responses the agent reads: [json.NewEncoder(w).Encode] ends the
    document with a newline, and the exporter reads at most 1 MiB of it.
    [zone] is where the database driver puts an instant. *)
Definition responseText (zone : time -> Z) (t : gtype) (v : gval) : Result (list ascii) :=
  l <-- marshal zone t v ;; Ok (l ++ [chr 10]).
Definition readResponse {A} (t : gtype) (back : gval -> option A) (body : list ascii) : Result A :=
  match LimitReader (2 ^ 20) body with
  | [] => match back (zero t) with Some a => Ok a | None => Err type_mismatch end
  | body => v <-- unmarshal t body ;; match back v with Some a => Ok a | None => Err type_mismatch end
  end.

(** ** Requests *)

(** A float the text carries: finite, and no negative zero, which
    [omitempty] would drop. *)
Definition json_float (f : float64) : Prop :=
  finite f = true /\ SpecFloat.valid_binary 53 1024 f = true /\ f <> SpecFloat.S754_zero true.

Lemma json_float_carried zone f : json_float f -> carried zone TFloat (VFloat f).
Proof. by intros (? & ? & _). Qed.

Lemma json_float_zero f : json_float f -> isEmptyValue (VFloat f) = true -> f = f_of_Z 0.
Proof.
  intros (_ & _ & Hz) H. destruct f as [[]|[]| |[] m e]; try done.
Qed.

Definition chars (l : list string) : nat := sum_list (map (fun s => length (bytes_of s)) l).

(** Every Go value of these types is one, but for text that is not UTF-8,
    floats and years JSON cannot write, and absurd sizes. *)
Record flow_carried (p : AgentMain.FlowEvent) : Prop := {
  fc_strings : Forall (fun s => valid_utf8 s = true)
    [AgentMain.AgentID p; AgentMain.SrcIP p; AgentMain.DstIP p; AgentMain.Protocol p; AgentMain.FlowDirection p; AgentMain.Interface p];
  fc_ints : Forall in_i64
    [AgentMain.SrcPort p; AgentMain.DstPort p; AgentMain.BytesSent p; AgentMain.BytesReceived p; AgentMain.PacketCount p;
     AgentMain.ConnectionCount p; AgentMain.RequestCount p; AgentMain.ErrorCount p; AgentMain.Retransmissions p;
     AgentMain.HTTP1xx p; AgentMain.HTTP2xx p; AgentMain.HTTP3xx p; AgentMain.HTTP4xx p; AgentMain.HTTP5xx p;
     AgentMain.LastHTTPStatus p];
  fc_floats : Forall json_float [AgentMain.AvgRTTMs p; AgentMain.AvgAppDelayMs p];
  fc_times : Forall (writable 0) [AgentMain.FirstSeen p; AgentMain.LastSeen p];
  fc_size : Z.of_nat (chars [AgentMain.AgentID p; AgentMain.SrcIP p; AgentMain.DstIP p; AgentMain.Protocol p; AgentMain.FlowDirection p;
                    AgentMain.Interface p]) <= 100000
}.

Record registration_carried (r : Collector.Registration) : Prop := {
  rc_strings : Forall (fun s => valid_utf8 s = true)
    ([Collector.RAgentID r; Collector.Hostname r; Collector.MachineID r; Collector.TenantID r; Collector.OS r;
      Collector.KernelVersion r; Collector.AgentVersion r; Collector.Environment r] ++ Collector.PrivateIPs r ++
     Collector.MACAddresses r ++ option_list (Collector.PublicIP r));
  rc_interfaces : Forall (fun i => valid_utf8 (Collector.IfName i) = true /\ valid_utf8 (Collector.IPAddress i) = true /\
                                   valid_utf8 (Collector.MACAddress i) = true) (Collector.Interfaces r);
  rc_size : Z.of_nat (text_bound agent_Registration (registration_value r)) <= 1000000
}.

Record probe_carried (e : ConnectionProbeEvent) : Prop := {
  pc_strings : Forall (fun s => valid_utf8 s = true)
    [pe_AgentID e; pe_SourceIP e; pe_DestIP e; pe_Protocol e; pe_Error e; pe_Source e; pe_Type e];
  pc_port : in_i64 (pe_DestPort e);
  pc_rtt : json_float (pe_RTTMs e);
  pc_time : writable 0 (pe_Timestamp e);
  pc_size : Z.of_nat (chars [pe_AgentID e; pe_SourceIP e; pe_DestIP e; pe_Protocol e; pe_Error e; pe_Source e; pe_Type e]) <= 100000
}.

(** The API reads the body as [a]. *)
Definition understood {A} `{JSONDecoder A} (body : Result (list ascii)) (a : A) : Prop :=
  exists l, body = Ok l /\ Z.of_nat (length l) <= 2 ^ 20 /\ Decode l = Ok (a, []) /\
    forall r, ReqBody r = l -> decodeJSON r = Ok a.

(** The type the agent marshals and the one the backend decodes into differ
    in tags only. *)
Lemma marshal_understood {A} (t t' : gtype) (back : gval -> option A) v a :
  (forall j, store true t' j (zero t') = store true t j (zero t)) -> type_ok t = true -> (type_depth t <= maxNestingDepth)%nat ->
  carried utc t v -> back v = Some a -> Z.of_nat (text_bound t v) <= 2 ^ 20 ->
  @understood A (decode_as t' back) (marshal utc t v) a.
Proof.
  intros Htags Hok Hdepth Hv Hof Hsize. destruct (marshal_spec utc t v Hok Hdepth Hv) as (l & E & Hl & Hd & _).
  exists l. specialize (Hd [] eq_refl). rewrite app_nil_r in Hd.
  assert (Hdec : decode_as t' back l = Ok (a, [])) by (unfold decode_as, decode in *; destruct (scan_value l) as [[j rest]|]; [|done]; by rewrite Htags, Hd, Hof).
  split_and!; [done|lia|done|]. intros r Hr. unfold decodeJSON. rewrite Hr, LimitReader_all by lia. unfold Decode. by rewrite Hdec.
Qed.

(** The fields of a struct one by one. *)
Ltac carried_tac :=
  repeat match goal with H : Forall _ (_ :: _) |- _ => apply Forall_cons in H as [? H] end;
  cbn -[writable in_i64 valid_utf8 isEmptyValue json_float Z.eqb f_eqb];
  repeat match goal with
  | |- _ /\ _ => split
  | |- False -> _ => intros []
  | |- false = true -> _ => discriminate
  | |- isEmptyValue (VString _) = true -> _ => intros ->%String.eqb_eq; reflexivity
  | |- isEmptyValue (VInt _) = true -> _ => intros ->%Z.eqb_eq; reflexivity
  | |- isEmptyValue (VFloat _) = true -> _ => intros ->%json_float_zero; [reflexivity|assumption]
  | H : json_float ?f |- finite ?f = true => apply H
  | H : json_float ?f |- SpecFloat.valid_binary _ _ ?f = true => apply H
  | |- True => exact I
  end; try assumption; try reflexivity.

(** A bound on the text from the sizes of its strings. *)
Ltac bound_tac Hsize :=
  unfold chars in Hsize; cbn [map sum_list_with id] in Hsize;
  cbn [text_bound bound_fields req opt];
  repeat match goal with
  | |- context [length (bytes_of (?f ?x))] => is_var x; set (length (bytes_of (f x))) in *
  end;
  repeat match goal with |- context [length (bytes_of ?s)] => let n := eval vm_compute in (length (bytes_of s)) in change (length (bytes_of s)) with n end;
  lia.

Lemma flow_understood p : flow_carried p -> understood (Marshal p) (Metrics.received p).
Proof.
  intros [Hs Hi Hf Ht Hsize]. apply (marshal_understood agent_FlowEvent model_FlowEvent flow_of (flow_value p)).
  - intros j. reflexivity.
  - vm_compute. reflexivity.
  - apply maxNestingDepth_ge. vm_compute. discriminate.
  - carried_tac.
  - reflexivity.
  - unfold agent_FlowEvent, flow_value. bound_tac Hsize.
Qed.

Lemma probe_understood e : probe_carried e -> understood (Marshal e) e.
Proof.
  intros [Hs Hp Hr Ht Hsize]. apply (marshal_understood agent_ConnectionProbeEvent model_ConnectionProbeEvent probe_of (probe_value e)).
  - intros j. reflexivity.
  - vm_compute. reflexivity.
  - apply maxNestingDepth_ge. vm_compute. discriminate.
  - carried_tac.
  - by destruct e.
  - unfold agent_ConnectionProbeEvent, probe_value. bound_tac Hsize.
Qed.

(** The heartbeat's text is the one of the instant. *)
Lemma heartbeat_understood now r : writable 0 now -> valid_utf8 (Collector.RAgentID r) = true ->
  Z.of_nat (length (bytes_of (Collector.RAgentID r))) <= 170000 ->
  understood (Marshal (heartbeatAt now r)) {| HbAgentID := Collector.RAgentID r; HbStatus := "online"; HbTimestamp := now |}.
Proof.
  intros Ht Hs Hsize.
  assert (E : Marshal (heartbeatAt now r) =
              marshal utc model_AgentHeartbeat (VStruct [VString (Collector.RAgentID r); VString "online"; VTime now])).
  { unfold Marshal, heartbeat_encoder, marshal, heartbeatAt, heartbeat_value, agent_Heartbeat, model_AgentHeartbeat, req.
    cbn [Payload.AgentID Payload.Status Payload.Timestamp encode encode_fields andb rbind]. unfold marshalTime, utc.
    destruct Ht as [Hy Hz]. rewrite (proj2 (Z.leb_le 0 _)), (proj2 (Z.leb_le _ 9999)) by lia.
    cbn [andb Z.abs Z.ltb Z.compare rbind]. by rewrite bytes_of_string_of, (quote_plain (formatRFC3339 0 now)) by apply formatRFC3339_plain. }
  rewrite E. apply (marshal_understood model_AgentHeartbeat model_AgentHeartbeat heartbeat_of).
  - intros j. reflexivity.
  - vm_compute. reflexivity.
  - apply maxNestingDepth_ge. vm_compute. discriminate.
  - carried_tac.
  - reflexivity.
  - unfold model_AgentHeartbeat. bound_tac Hsize.
Qed.

Lemma slice_carried {A} zone t (f : A -> gval) l : Forall (fun x => carried zone t (f x)) l -> carried zone (TSlice t) (slice_value f l).
Proof. intros H. destruct l; [done|]. cbn [slice_value carried]. by apply Forall_map. Qed.

Lemma slice_empty {A} (f : A -> gval) l : isEmptyValue (slice_value f l) = true -> slice_value f l = VNil.
Proof. by destruct l. Qed.

Lemma slice_of_value {A B} (f : A -> gval) (g : gval -> option B) (h : A -> B) l :
  (forall x, g (f x) = Some (h x)) -> slice_of g (slice_value f l) = Some (map h l).
Proof.
  intros H. assert (E : mapM g (map f l) = Some (map h l)).
  { induction l as [|x l IH]; [done|]. cbn [map mapM]. rewrite H. cbn [mbind option_bind]. by rewrite IH. }
  by destruct l.
Qed.

(** The registration as a value of the backend's type: the agent sends no
    project. *)
Definition sent_fields : list (string * bool * gtype) :=
  take 4 registration_fields ++ opt "project_id" TString :: drop 4 registration_fields.
Definition sent_Registration : gtype := TStruct sent_fields.
Definition sent_value (r : Collector.Registration) : gval :=
  match registration_value r with
  | VStruct (a :: h :: m :: t :: rest) => VStruct (a :: h :: m :: t :: VString "" :: rest)
  | v => v
  end.

Lemma sent_marshal r : Marshal r = marshal utc sent_Registration (sent_value r).
Proof.
  assert (E : exists vs vs', registration_value r = VStruct vs /\ sent_value r = VStruct vs' /\
            encode_fields (encode utc) registration_fields vs = encode_fields (encode utc) sent_fields vs').
  { do 2 eexists. split; [reflexivity|]. split; [reflexivity|]. unfold sent_fields, registration_fields, req, opt.
    cbn [take drop app encode_fields]. change (isEmptyValue (VString "")) with true. cbn [andb]. reflexivity. }
  destruct E as (vs & vs' & E1 & E2 & E). unfold Marshal, registration_encoder, marshal, agent_Registration, sent_Registration.
  rewrite E1, E2. cbn [encode]. by rewrite E.
Qed.

Lemma registration_understood r : registration_carried r -> understood (Marshal r) (Lifecycle.payload r).
Proof.
  intros [Hs Hifs Hsize]. rewrite sent_marshal.
  apply Forall_app in Hs as [Hs [Hips [Hmacs Hip]%Forall_app]%Forall_app].
  apply (marshal_understood sent_Registration model_AgentRegistration registration_of (sent_value r)).
  - intros j. reflexivity.
  - vm_compute. reflexivity.
  - apply maxNestingDepth_ge. vm_compute. discriminate.
  - repeat match goal with H : Forall _ (_ :: _) |- _ => apply Forall_cons in H as [? H] end.
    change (carried_fields (carried utc) sent_fields (match sent_value r with VStruct l => l | _ => [] end)).
    unfold sent_value, registration_value, sent_fields, registration_fields, req, opt. cbn [take drop app carried_fields andb].
    assert (Hslice : forall l : list string, Forall (fun s => valid_utf8 s = true) l -> carried utc (TSlice TString) (slice_value VString l))
      by (intros l Hl; by apply slice_carried).
    assert (Hptr : carried utc (TPointer TString) match Collector.PublicIP r with Some ip => VPtr (VString ip) | None => VNil end)
      by (destruct (Collector.PublicIP r); [by apply Forall_cons in Hip as [? _]|done]).
    assert (Hi : carried utc (TSlice agent_Interface) (slice_value interface_value (Collector.Interfaces r))).
    { apply slice_carried. eapply Forall_impl; [exact Hifs|]. intros i (? & ? & ?). carried_tac. }
    repeat match goal with
    | |- _ /\ _ => split
    | |- carried _ (TSlice TString) _ => by apply Hslice
    | |- isEmptyValue (slice_value _ _) = true -> _ => apply slice_empty
    | |- isEmptyValue (VString _) = true -> _ => intros ->%String.eqb_eq; reflexivity
    | |- false = true -> _ => discriminate
    | |- True => exact I
    end; try assumption; [reflexivity|reflexivity|by destruct (Collector.PublicIP r)].
  - unfold sent_value, registration_value, registration_of. rewrite !(slice_of_value VString string_value id) by done.
    rewrite (slice_of_value interface_value interface_of (fun i => {| IName := Collector.IfName i; IIPAddress := Collector.IPAddress i; IMACAddress := Collector.MACAddress i |})) by done.
    cbn [mbind option_bind]. rewrite !map_id. unfold Lifecycle.payload. by destruct (Collector.PublicIP r).
  - assert (E : text_bound sent_Registration (sent_value r) = (66 + text_bound agent_Registration (registration_value r))%nat).
    { unfold sent_value, registration_value, sent_Registration, agent_Registration, sent_fields, registration_fields. cbn [take drop app text_bound bound_fields req opt].
      change (length (bytes_of "project_id")) with 10%nat. change (length (bytes_of "")) with 0%nat. lia. }
    rewrite E. lia.
Qed.

Lemma registered_heartbeat now r : registration_carried r -> writable 0 now ->
  understood (Marshal (heartbeatAt now r)) {| HbAgentID := Collector.RAgentID r; HbStatus := "online"; HbTimestamp := now |}.
Proof.
  intros [Hs _ Hsize] Hnow. apply Forall_app in Hs as [Hs _]. apply Forall_cons in Hs as [Hid _].
  apply heartbeat_understood; [done|done|]. revert Hsize. unfold agent_Registration, registration_value, registration_fields.
  cbn [text_bound bound_fields req]. lia.
Qed.

(** C13: the backend reads what the agent says.  The bytes the agent posts for a
    flow, a registration, a heartbeat and a probe result, with their
    [omitempty] tags, a heartbeat's instant written as text and everything
    escaped as JSON requires, pass the strict decoder of the API and give
    exactly the flow, registration (without a project), heartbeat and probe
    the agent meant. *)
Theorem requests_understood (p : AgentMain.FlowEvent) (r : Collector.Registration) (now : time) (e : ConnectionProbeEvent) :
  flow_carried p -> registration_carried r -> writable 0 now -> probe_carried e ->
  understood (Marshal p) (Metrics.received p) /\
  understood (Marshal r) (Lifecycle.payload r) /\
  understood (Marshal (heartbeatAt now r)) {| HbAgentID := Collector.RAgentID r; HbStatus := "online"; HbTimestamp := now |} /\
  understood (Marshal e) e.
Proof.
  intros Hp Hr Hnow He. split_and!; [by apply flow_understood|by apply registration_understood| |by apply probe_understood].
  by apply registered_heartbeat.
Qed.

(** ** Strict input *)

Definition field_names (t : gtype) : list string := match t with TStruct fs => map (fun f => f.1.1) fs | _ => [] end.

(** A body the API accepts for type [t]: within the first 1 MiB there is one
    document, [null] or an object all of whose keys name fields of the type
    in some capitalisation, and nothing but white space after it. *)
Definition strict_body (t : gtype) (r : Request) : Prop :=
  exists j rest, scan_value (LimitReader (2 ^ 20) (ReqBody r)) = Some (j, rest) /\ forallb is_space rest = true /\
    (j = JNull \/ exists ms, j = JObject ms) /\ Forall (fun key => is_Some (field_of (field_names t) key)) (keys j).

Lemma decodeJSON_strict {A} fs (back : gval -> option A) r a :
  @decodeJSON A (decode_as (TStruct fs) back) r = Ok a -> strict_body (TStruct fs) r.
Proof.
  unfold decodeJSON, Decode, decode_as, strict_body. destruct (decode (TStruct fs) _) as [[v rest]|] eqn:E; [|done].
  destruct (back v); [|done]. destruct (forallb is_space rest) eqn:Es; [|done]. intros _.
  apply decode_strict in E as (j & Hs & Hj & Hk). by exists j, rest.
Qed.

(** C15: nothing unknown gets in.  A flow, registration, heartbeat or probe
    reaches its service only from a body that is one document with no field
    the type does not have and nothing after it: a misspelt field, a second
    document or a body cut off at 1 MiB is refused. *)
Theorem api_input_strict (r : Request) :
  (forall e : Metrics.FlowEvent, decodeJSON r = Ok e -> strict_body model_FlowEvent r) /\
  (forall e : AgentRegistration, decodeJSON r = Ok e -> strict_body model_AgentRegistration r) /\
  (forall e : AgentHeartbeat, decodeJSON r = Ok e -> strict_body model_AgentHeartbeat r) /\
  (forall e : ConnectionProbeEvent, decodeJSON r = Ok e -> strict_body model_ConnectionProbeEvent r).
Proof. split_and!; intros e H; by eapply decodeJSON_strict. Qed.

(** ** Responses *)

(** The agent reads the document as [a]. *)
Lemma response_read {A} zone (t t' : gtype) (back : gval -> option A) v a :
  (forall j, store false t' j (zero t') = store false t j (zero t)) -> type_ok t = true -> (type_depth t <= maxNestingDepth)%nat ->
  carried zone t v -> back v = Some a -> Z.of_nat (text_bound t v) < 2 ^ 20 ->
  exists body, responseText zone t v = Ok body /\ readResponse t' back body = Ok a.
Proof.
  intros Htags Hok Hdepth Hv Hof Hsize. destruct (marshal_spec zone t v Hok Hdepth Hv) as (l & E & Hl & _ & Hu).
  exists (l ++ [chr 10]). unfold responseText. rewrite E. split; [done|]. unfold readResponse.
  rewrite LimitReader_all by (rewrite length_app; cbn [length]; lia). specialize (Hu [chr 10] eq_refl eq_refl).
  destruct (l ++ [chr 10]) as [|c k] eqn:El; [by destruct l|]. rewrite <- El in *. clear El.
  unfold unmarshal in *. destruct (scan_value (l ++ [chr 10])) as [[j rest]|]; [|done]. destruct (forallb is_space rest); [|done].
  rewrite Htags. rewrite Hu. cbn [rbind]. by rewrite Hof.
Qed.

Definition target_carried (zone : time -> Z) (t : ConnectionProbeTarget) : Prop :=
  Forall (fun s => valid_utf8 s = true)
    [tg_SourceVMID t; tg_SourceIP t; tg_DestVMID t; tg_DestName t; tg_DestIP t; tg_Protocol t] /\
  in_i64 (tg_DestPort t) /\ writable (zone (tg_LastSeen t)) (tg_LastSeen t).

Definition targets_value (targets : list ConnectionProbeTarget) : gval := VSlice (map target_value targets).

Definition result_carried (result : RegistrationResult) : Prop :=
  Forall (fun s => valid_utf8 s = true) [RrAgentID result; RrVMID result; RrStatus result] /\
  Z.of_nat (chars [RrAgentID result; RrVMID result; RrStatus result]) <= 100000.
Definition targets_carried (zone : time -> Z) (targets : list ConnectionProbeTarget) : Prop :=
  Forall (target_carried zone) targets /\
  Z.of_nat (text_bound (TSlice model_ConnectionProbeTarget) (targets_value targets)) < 2 ^ 20.

Lemma result_read zone result : result_carried result ->
  exists body, responseText zone model_RegistrationResult (result_value result) = Ok body /\
    readResponse agent_RegistrationResult result_of body = Ok result.
Proof.
  intros [Hs Hsize]. apply (response_read zone model_RegistrationResult).
  - intros j. reflexivity.
  - vm_compute. reflexivity.
  - apply maxNestingDepth_ge. vm_compute. discriminate.
  - carried_tac.
  - by destruct result.
  - unfold model_RegistrationResult, result_value. bound_tac Hsize.
Qed.

Lemma targets_read zone targets : targets_carried zone targets ->
  exists body, responseText zone (TSlice model_ConnectionProbeTarget) (targets_value targets) = Ok body /\
    readResponse (TSlice agent_ConnectionProbeTarget) (slice_of target_of) body = Ok targets.
Proof.
  intros [Ht Htsize]. apply (response_read zone (TSlice model_ConnectionProbeTarget)).
  - intros j. reflexivity.
  - vm_compute. reflexivity.
  - apply maxNestingDepth_ge. vm_compute. discriminate.
  - cbn [carried targets_value]. apply Forall_map. eapply Forall_impl; [exact Ht|]. intros t (Hts & Hport & Htime). carried_tac.
  - unfold targets_value, slice_of. clear. induction targets as [|t ts IH]; [done|]. cbn [map mapM].
    assert (target_of (target_value t) = Some t) as -> by (by destruct t). cbn [mbind option_bind]. by rewrite IH.
  - done.
Qed.

(** C14: the agent reads what the backend answers.  The result of a registration
    and the list of probe targets, whatever the time zone the backend writes
    instants in and even when the list is empty, are read by the agent as
    they were, as long as the document stays below the 1 MiB the agent
    reads. *)
Theorem responses_understood (zone : time -> Z) (result : RegistrationResult) (targets : list ConnectionProbeTarget) :
  result_carried result -> targets_carried zone targets ->
  (exists body, responseText zone model_RegistrationResult (result_value result) = Ok body /\
     readResponse agent_RegistrationResult result_of body = Ok result) /\
  (exists body, responseText zone (TSlice model_ConnectionProbeTarget) (targets_value targets) = Ok body /\
     readResponse (TSlice agent_ConnectionProbeTarget) (slice_of target_of) body = Ok targets).
Proof. intros Hr Ht. split; [by apply result_read|by apply targets_read]. Qed.

(** ** Delivery over JSON *)

Section deliveries.
Context `{Postgres} `{UnicodeCase} {Payload : Type}.
Context (marshalFlow : string -> Flow -> option Payload) (marshalAgent : string -> Message -> option Payload).
Context (marshalProbe : string -> ConnectionProbeEvent -> option Payload).
Context (vm_digest : string -> string) (inventory : option VMInventory) (classifier : Classifier).
Context (collate : string -> string -> bool) (interval_in : duration -> duration) (nil_is_null : bool).
Context (visibility : GraphVisibility) (activeWindow : duration) (provider : option (Result CloudProviderStatus)).
Context (allowedOrigins : list string) (newRequest : string -> string -> list ascii -> Result Request).

Abbreviation backend := (fun wd => Routes marshalFlow marshalAgent marshalProbe vm_digest inventory classifier collate
  interval_in nil_is_null visibility activeWindow provider wd allowedOrigins).
Abbreviation Deliver := (deliver backend newRequest).

(** [http.NewRequest] on the exporter's URL: the method, the path and the
    body are those asked for. *)
Definition posts (s : Sender) (path : string) : Prop :=
  forall body, exists request, newRequest "POST" (baseURL s +:+ path) body = Ok request /\
    Method request = "POST" /\ EscapedPath request = path /\ ReqBody request = body.

Lemma carried_wired s flow : posts s "/api/flows/ingest" -> flow_carried flow -> wired newRequest s flow.
Proof.
  intros Hpost Hf. destruct (flow_understood flow Hf) as (l & Hm & Hl & Hd & _).
  destruct (Hpost l) as (request & Hn & Hmeth & Hpath & Hbody). by exists l, request.
Qed.

End deliveries.
