(* ===== verification/Prober.v ===== *)
(** Connectivity probes on the agent: [agent/internal/probe/probe.go].

    The agent asks for its targets, connects to each and reports the outcome;
    the records are those of ConnectionService, whose JSON the two programs
    share.  The network is a parameter: a dial ends in success or in an error
    text. *)
From S2P Require Import Prelude GoStrings GoFloat GoTime AgentConfig Netip Metrics Classifier Hub Sql Store Inventory FlowService AgentService ConnectionService References.

#[local] Open Scope Z_scope.

Definition sourceVMLensProbe : string := "vmlens_probe".
Definition typeConnectivity : string := "connectivity_check".
Definition defaultProbeNetwork : string := "tcp".

(** [net.JoinHostPort]: brackets around a host with a colon or a zone. *)
Definition JoinHostPort (host port : string) : string :=
  if existsb (fun c => Ascii.eqb c ":"%char || Ascii.eqb c "%"%char) (bytes_of host)
  then "[" +:+ host +:+ "]:" +:+ port else host +:+ ":" +:+ port.

(** [Dialer.DialContext] on an address, with the timeout: the error text. *)
Abbreviation Dial := (string -> string -> duration -> option string) (only parsing).

Definition tcpConnect (dial : Dial) (host : string) (port : Z) (timeout : duration) : bool * string :=
  match dial "tcp" (JoinHostPort host (Itoa port)) timeout with
  | Some err => (false, err)
  | None => (true, "")
  end.

(** [now] is the instant read before the connection and [elapsed] the time it
    took. *)
Definition probeTarget (dial : Dial) (now : time) (elapsed : duration) (cfg : Config) (agentID : string)
    (target : ConnectionProbeTarget) : ConnectionProbeEvent :=
  let protocol := if (tg_Protocol target =? "")%string then defaultProbeNetwork else tg_Protocol target in
  let port := if tg_DestPort target <=? 0 then 18081 else tg_DestPort target in
  let timeout := if ConnectivityProbeTimeout cfg <=? 0 then Second else ConnectivityProbeTimeout cfg in
  let '(success, errText) := tcpConnect dial (tg_DestIP target) port timeout in
  {| pe_AgentID := agentID; pe_SourceIP := tg_SourceIP target; pe_DestIP := tg_DestIP target;
     pe_Protocol := protocol; pe_DestPort := port; pe_Success := success;
     pe_RTTMs := f_div (f_of_Z (Z.quot elapsed Microsecond)) (f_of_Z 1000);
     pe_Error := errText; pe_Source := sourceVMLensProbe; pe_Type := typeConnectivity;
     pe_CountedAsRequest := false; pe_CountedAsUserTraffic := false; pe_Timestamp := now |}.

Definition skipTarget (target : ConnectionProbeTarget) : bool :=
  (tg_DestIP target =? "")%string || (tg_SourceIP target =? tg_DestIP target)%string.

(** What the agent meets while it probes one target. *)
Record Attempt := { at_dial : Dial; at_now : time; at_elapsed : duration }.

(** The events reported, in order, when the targets were obtained; failing
    reports are logged and the loop goes on. *)
Fixpoint probeEach (attempt : nat -> Attempt) (i : nat) (cfg : Config) (agentID : string)
    (targets : list ConnectionProbeTarget) : list ConnectionProbeEvent :=
  match targets with
  | [] => []
  | target :: rest =>
      if skipTarget target then probeEach attempt (S i) cfg agentID rest
      else probeTarget (at_dial (attempt i)) (at_now (attempt i)) (at_elapsed (attempt i)) cfg agentID target
           :: probeEach attempt (S i) cfg agentID rest
  end.

Definition probeTargets (attempt : nat -> Attempt) (cfg : Config) (agentID : string)
    (targets : Result (list ConnectionProbeTarget)) : list ConnectionProbeEvent :=
  match targets with
  | Err _ => []
  | Ok targets => probeEach attempt 0 cfg agentID targets
  end.

(** The period of [runTargetLoop]'s ticker. *)
Definition probeInterval (cfg : Config) : duration :=
  if ConnectivityProbeInterval cfg <=? 0 then 5 * Second else ConnectivityProbeInterval cfg.

(** [runTargetLoop]: what each tick met, until the context is done. *)
Definition runTargetLoop (cfg : Config) (agentID : string)
    (ticks : list ((nat -> Attempt) * Result (list ConnectionProbeTarget))) : list ConnectionProbeEvent :=
  concat (map (fun '(attempt, targets) => probeTargets attempt cfg agentID targets) ticks).

(** [listener.Accept]: a connection, or an error and whether the context is
    done by then. *)
Inductive AcceptResult := Accepted (conn : nat) | AcceptFailed (done : bool) (err : GoError).

(** The connections closed by the accepting loop, and whether it has
    returned. *)
Fixpoint acceptLoop (accepts : list AcceptResult) : list nat * bool :=
  match accepts with
  | [] => ([], false)
  | Accepted conn :: rest => let '(closed, returned) := acceptLoop rest in (conn :: closed, returned)
  | AcceptFailed done _ :: rest => if done then ([], true) else acceptLoop rest
  end.

(** [None]: the listener is disabled. *)
Definition serveTCP (listen : string -> string -> option GoError) (address : string) (accepts : list AcceptResult)
    : option (list nat * bool) :=
  match listen "tcp" address with Some _ => None | None => Some (acceptLoop accepts) end.

(** [Run]: both goroutines, unless probing is disabled. *)
Definition Run (cfg : Config) (agentID : string) (listen : string -> string -> option GoError) (accepts : list AcceptResult)
    (ticks : list ((nat -> Attempt) * Result (list ConnectionProbeTarget)))
    : option (option (list nat * bool) * list ConnectionProbeEvent) :=
  if negb (ConnectivityProbeEnabled cfg) then None
  else Some (serveTCP listen (ConnectivityProbeListenAddr cfg) accepts, runTargetLoop cfg agentID ticks).

(** * Facts *)

(** Every connection accepted before the loop returns is closed, in order,
    and the loop returns exactly at the first error after the context is
    done. *)
Lemma acceptLoop_spec accepts :
  exists served rest, accepts = served ++ rest /\
    Forall (fun a => match a with AcceptFailed done _ => done = false | _ => True end) served /\
    (acceptLoop accepts).1 = omap (fun a => match a with Accepted conn => Some conn | _ => None end) served /\
    ((acceptLoop accepts).2 = true <-> exists err, head rest = Some (AcceptFailed true err)) /\
    ((acceptLoop accepts).2 = false -> rest = []).
Proof.
  induction accepts as [|[conn|[] err] r (served & rest & -> & Hf & Hc & Hr & Hn)].
  - exists [], []. split_and!; [done|constructor|done| |done]. split; [done|by intros [? ?]].
  - exists (Accepted conn :: served), rest. cbn. destruct (acceptLoop (served ++ rest)) as [closed returned] eqn:E. cbn in *.
    split_and!; [done|by constructor|by rewrite Hc|done|done].
  - exists [], (AcceptFailed true err :: served ++ rest). split_and!; [done|constructor|done| |done]. split; [by exists err|done].
  - exists (AcceptFailed false err :: served), rest. cbn. split_and!; [done|by constructor|done|done|done].
Qed.

(** The loop's ticker never panics. *)
Lemma probeInterval_pos cfg : 0 < probeInterval cfg.
Proof. unfold probeInterval, Second. destruct (Z.leb_spec (ConnectivityProbeInterval cfg) 0); lia. Qed.

Lemma probeEach_elem attempt i cfg agentID targets ev : ev ∈ probeEach attempt i cfg agentID targets ->
  exists j target, target ∈ targets /\ skipTarget target = false /\
    ev = probeTarget (at_dial (attempt j)) (at_now (attempt j)) (at_elapsed (attempt j)) cfg agentID target.
Proof.
  revert i. induction targets as [|t ts IH]; intros i; cbn [probeEach]; [by intros ?%elem_of_nil|].
  destruct (skipTarget t) eqn:Es.
  - intros (a & t' & ? & ?)%IH. exists a, t'. by split; [right|].
  - intros [->|(a & t' & ? & ?)%IH]%elem_of_cons; [exists i, t; by split; [left|]|].
    exists a, t'. by split; [right|].
Qed.

Lemma rtt_unsigned elapsed : 0 <= elapsed ->
  unsigned (f_div (f_of_Z (Z.quot elapsed Microsecond)) (f_of_Z 1000) : float64) = true.
Proof.
  intros He. assert (E : (f_of_Z 1000 : float64) = SpecFloat.S754_finite false 8796093022208000 (-43)) by (vm_compute; done).
  rewrite E. apply f_div_unsigned, f_of_Z_unsigned. apply Z.quot_pos; [done|]. unfold Microsecond. lia.
Qed.

Section accepted.
Context `{Postgres} `{UnicodeCase} {Payload : Type} (marshal : string -> ConnectionProbeEvent -> option Payload).

(** An address of the database whose text the database reads back. *)
Definition castable (a : inet) : Prop := clean (host a) /\ is_Some (inet_in (host a)).
Definition addresses_ok (db : DB) : Prop :=
  forall id v a, vms db !! id = Some v -> vm_private_ip v = Some a -> castable a.

(** What a target promises to the prober, and an event to [RecordProbe]. *)
Definition probeable (protocol : string) (port : Z) : Prop :=
  protocol ∈ ["tcp"; "udp"; "icmp"] /\ 1 <= port <= 65535.

Lemma ProbeForIP_probeable path open ip protocol port :
  ProbeForIP (NewVMInventory path open) ip probeDefaultProtocol probeDefaultPort = (protocol, port) ->
  probeable protocol port.
Proof.
  unfold ProbeForIP, probeable, probeDefaultPort, probeDefaultProtocol.
  destruct (EntryForIP _ ip) as [e|] eqn:Ee; [|intros [= <- <-]; split; [left|lia]].
  apply NewVMInventory_indexed in Ee as [_ Hp [? ?] _ _ _]. intros [= <- <-]. split.
  - rewrite !elem_of_cons, elem_of_nil in Hp. rewrite !elem_of_cons, elem_of_nil.
    destruct Hp as [-> |[-> |[-> |[-> |[]]]]]; vm_compute; auto.
  - destruct (Z.ltb_spec 0 (ProbePort e)); lia.
Qed.

Lemma Targets_elem pgnow path open agentID db targets t :
  Targets None pgnow (Some (NewVMInventory path open)) agentID db = Ok targets -> addresses_ok db -> t ∈ targets ->
  (exists a, tg_DestIP t = host a /\ castable a) /\ probeable (tg_Protocol t) (tg_DestPort t).
Proof.
  intros [_ ->]%Targets_Ok Ha (t0 & -> & Ht0)%list_elem_of_fmap.
  apply targetRows_elem in Ht0 as (self & ip & peer & addr & _ & Hp & Hpa & _ & _ & _ & ->). unfold withInventory. cbn [tg_DestIP tg_Protocol tg_DestPort].
  destruct (ProbeForIP _ _ _ _) as [protocol port] eqn:E. cbn. split; [|by eapply ProbeForIP_probeable].
  exists addr. split; [done|]. by eapply Ha.
Qed.

(** An event that [RecordProbe] stores as it is, up to the spelling of the
    error text. *)
Record reportable (ev : ConnectionProbeEvent) : Prop := {
  rp_agent : clean (pe_AgentID ev);
  rp_dest : exists a, pe_DestIP ev = host a /\ castable a;
  rp_target : probeable (pe_Protocol ev) (pe_DestPort ev);
  rp_rtt : unsigned (pe_RTTMs ev) = true;
  rp_kind : pe_Source ev = probeSource /\ pe_Type ev = probeTypeConnectivity /\ pe_CountedAsRequest ev = false /\
            pe_CountedAsUserTraffic ev = false;
  rp_time : pe_Timestamp ev <> 0
}.

Lemma probeTarget_reportable dial now elapsed cfg agentID t :
  clean agentID -> (exists a, tg_DestIP t = host a /\ castable a) -> probeable (tg_Protocol t) (tg_DestPort t) ->
  now <> 0 -> 0 <= elapsed -> reportable (probeTarget dial now elapsed cfg agentID t).
Proof.
  intros Hid Hd [Hp Hport] Hn He. unfold probeTarget. destruct (tcpConnect _ _ _ _) as [success err].
  split; cbn; try done; [|by apply rtt_unsigned]. split.
  - destruct (String.eqb_spec (tg_Protocol t) ""); [left|done].
  - destruct (Z.leb_spec (tg_DestPort t) 0); lia.
Qed.

Lemma normalizeProbe_reportable now ev : reportable ev -> exists e, normalizeProbe now ev = Ok e /\
  pe_AgentID e = pe_AgentID ev /\ pe_DestIP e = pe_DestIP ev /\ pe_Protocol e = pe_Protocol ev /\
  pe_DestPort e = pe_DestPort ev /\ pe_RTTMs e = pe_RTTMs ev.
Proof.
  intros [[Hid Tid] (a & Ed & [[Hd Td] _]) [Hp Hport] _ (Es & Et & Ec & Eu) Hts]. unfold normalizeProbe. cbv zeta.
  rewrite Tid, Ed, Td, Es, Et, Ec, Eu, (proj2 (String.eqb_neq _ _) Hid), (proj2 (String.eqb_neq _ _) Hd).
  rewrite !elem_of_cons, elem_of_nil in Hp. destruct (Z.leb_spec (pe_DestPort ev) 0); [lia|].
  destruct Hp as [E|[E|[E|[]]]]; rewrite E; vm_compute TrimSpace; vm_compute ToLower; cbn; eexists; by split_and!.
Qed.

Lemma upsertProbe_succeeds row db : probeable (pr_protocol row) (pr_dst_port row) -> unsigned (pr_rtt_ms row) = true ->
  exists db', upsertProbe row db = Ok (tt, db').
Proof.
  intros [Hp Hport] Hu. unfold upsertProbe, probe_checks.
  rewrite (proj2 (Z.leb_le _ _)), (proj2 (Z.ltb_lt _ _)) by lia. cbn [negb andb].
  assert (float8_gt (f_of_Z 0) (pr_rtt_ms row) = false) as ->.
  { unfold float8_gt. cbn [is_nan]. rewrite f_ltb_zero, Hu. done. }
  rewrite !elem_of_cons, elem_of_nil in Hp. destruct Hp as [-> |[-> |[-> |[]]]]; by eexists.
Qed.

Lemma RecordProbe_succeeds fault now pgnow ev db hub source ip :
  (forall j, fault j = None) -> reportable ev -> probeSourceRow (pe_AgentID ev) db = Some (source, ip) ->
  is_Some (inet_in ip) -> exists db' hub', RecordProbe marshal fault now pgnow ev db hub = (Ok tt, db', hub').
Proof.
  intros Hf Hr Hs [src Hsrc]. unfold RecordProbe.
  destruct (normalizeProbe_reportable now ev Hr) as (e & -> & Ea & Ed & Ep & Eport & Ert).
  destruct Hr as [_ (a & Eh & [_ [dst Hdst]]) Hp Hu _ _]. rewrite <- Ed in Eh. rewrite <- Eh in Hdst. rewrite <- Ea in Hs.
  rewrite <- Ep, <- Eport in Hp. rewrite <- Ert in Hu.
  destruct (succeeds_commit fault (probeBody fault pgnow e) db) as (e' & db' & ->); [done| |by repeat eexists].
  unfold probeBody. eapply succeeds_bind; [rewrite stmt_no_fault by done; done|]. rewrite Hs.
  destruct (resolveVMByIP_total (pe_DestIP e) dst db Hdst) as [dest Hdest].
  eapply succeeds_bind; [rewrite stmt_no_fault by done; cbn; rewrite Hdest; done|].
  destruct (upsertProbe_succeeds (newProbe pgnow (with_source_ip e ip) (r_ID source) (r_ID <$> dest) src dst) db)
    as [db1 Hup]; [done..|].
  eapply succeeds_bind.
  { apply tx_wrap_Ok. rewrite stmt_no_fault by done. cbn [pe_SourceIP pe_DestIP with_source_ip].
    rewrite (proj2 (cast_inet_Ok _ _) Hsrc), (proj2 (cast_inet_Ok _ _) Hdst). cbn [rbind]. by rewrite Hup. }
  eapply succeeds_bind; [rewrite stmt_no_fault by done; done|].
  eapply succeeds_bind; [rewrite stmt_no_fault by done; done|]. by repeat eexists.
Qed.

(** C24: what the agent probes, the backend stores.  For any inventory file
    and any targets the backend hands out, every result the agent reports,
    whether the connection succeeded, failed or timed out, is accepted as
    long as the agent's machine is registered with an address and no
    statement fails. *)
Theorem prober_accepted (path : string) (open : string -> OpenFile) (pgnow : time) (agentID : string) (db : DB)
    (targets : list ConnectionProbeTarget) (attempt : nat -> Attempt) (cfg : Config) (ev : ConnectionProbeEvent)
    (fault : nat -> option GoError) (now pgnow2 : time) (db2 : DB) (hub : Hub Payload) (source : resolvedVM) (ip : string) :
  Targets None pgnow (Some (NewVMInventory path open)) agentID db = Ok targets ->
  clean agentID -> addresses_ok db -> (forall i, at_now (attempt i) <> 0 /\ 0 <= at_elapsed (attempt i)) ->
  ev ∈ probeTargets attempt cfg agentID (Ok targets) ->
  (forall j, fault j = None) -> probeSourceRow agentID db2 = Some (source, ip) -> is_Some (inet_in ip) ->
  exists db' hub', RecordProbe marshal fault now pgnow2 ev db2 hub = (Ok tt, db', hub').
Proof.
  intros HT Hid Ha Hat (j & t & Ht & _ & ->)%probeEach_elem Hf Hs Hip.
  destruct (Targets_elem _ _ _ _ _ _ _ HT Ha Ht) as [Hd Hp]. destruct (Hat j) as [Hn He].
  eapply RecordProbe_succeeds; [done|by apply probeTarget_reportable| |done].
  unfold probeTarget. destruct (tcpConnect _ _ _ _). exact Hs.
Qed.
End accepted.

(** ** Concrete probes *)

Definition talking : list Op :=
  [ORegister no_fault Hour (sample_registration "agent-1" "10.0.0.5");
   ORegister no_fault Hour (sample_registration "agent-2" "10.0.0.9");
   OIngest (quiet_env "flow-1" "ob-1") sample_event].
Definition talking_db : @DB netip_postgres := (sample_runAll talking (empty_db, New)).1.
Definition sample_targets (pgnow : time) : Result (list ConnectionProbeTarget) :=
  @Targets netip_postgres None pgnow (Some (@NewVMInventory ascii_only "" (fun _ => NotExist))) "agent-1" talking_db.

Definition castableb `{Postgres} (a : inet) : bool :=
  negb (host a =? "")%string && (TrimSpace (host a) =? host a)%string && isSome (inet_in (host a)).

Lemma addresses_check `{Postgres} db :
  forallb (fun kv => match vm_private_ip kv.2 with Some a => castableb a | None => true end) (map_to_list (vms db)) = true ->
  addresses_ok db.
Proof.
  rewrite forallb_forall. intros Hc id v a Hv Ha.
  specialize (Hc (id, v)). rewrite <- list_elem_of_In, elem_of_map_to_list in Hc. specialize (Hc Hv). cbn in Hc.
  rewrite Ha in Hc. unfold castableb in Hc. bools. repeat split; try done. by destruct (inet_in (host a)).
Qed.

Lemma targets_spec_witness : exists result, sample_targets (10 * Minute) = Ok result /\ (length result <= 200)%nat.
Proof.
  assert (F : is_ok (sample_targets (10 * Minute)) = true) by (vm_compute; reflexivity).
  destruct (sample_targets (10 * Minute)) as [result|] eqn:E; [|discriminate F]. exists result. split; [done|].
  exact (proj1 (@targets_spec netip_postgres _ _ _ _ _ _ E)).
Defined.

Definition sample_marshal_probe (t : string) (e : ConnectionProbeEvent) : option (string * ConnectionProbeEvent) := Some (t, e).
Definition sample_RecordProbe := @RecordProbe netip_postgres ascii_only _ sample_marshal_probe.


Definition refused (_ _ : string) (_ : duration) : option string := Some "connection refused".
Definition sample_attempt (_ : nat) : Attempt := {| at_dial := refused; at_now := Hour; at_elapsed := 1500000 |}.

Lemma prober_accepted_witness :
  exists ev db' hub',
    probeTargets sample_attempt (default_config "dev") "agent-1" (sample_targets (10 * Minute)) = [ev] /\
    pe_Error ev = "connection refused" /\
    sample_RecordProbe no_fault Hour Hour ev talking_db New = (Ok tt, db', hub').
Proof.
  set (ev := {| pe_AgentID := "agent-1"; pe_SourceIP := "10.0.0.5"; pe_DestIP := "10.0.0.9"; pe_Protocol := "tcp";
    pe_DestPort := 18081; pe_Success := false; pe_RTTMs := f_div (f_of_Z 1500) (f_of_Z 1000);
    pe_Error := "connection refused"; pe_Source := "vmlens_probe"; pe_Type := "connectivity_check";
    pe_CountedAsRequest := false; pe_CountedAsUserTraffic := false; pe_Timestamp := Hour |}).
  assert (F : probeTargets sample_attempt (default_config "dev") "agent-1" (sample_targets (10 * Minute)) = [ev])
    by (vm_compute; reflexivity).
  destruct (sample_targets (10 * Minute)) as [targets|e] eqn:E; [|discriminate F].
  destruct (@prober_accepted netip_postgres ascii_only _ sample_marshal_probe "" (fun _ => NotExist) (10 * Minute) "agent-1" talking_db targets
    sample_attempt (default_config "dev") ev no_fault Hour Hour talking_db New
    {| r_ID := "vm-agent-1"; r_Name := "web"; r_TenantID := "t"; r_AgentID := "agent-1" |} "10.0.0.5")
    as (db' & hub' & Hr).
  - exact E.
  - split; [done|vm_compute; reflexivity].
  - apply addresses_check. vm_compute. reflexivity.
  - intros i. split; [done|]. vm_compute. discriminate.
  - rewrite F. left.
  - done.
  - vm_compute. reflexivity.
  - exists (Addr4 167772165). vm_compute. reflexivity.
  - exists ev, db', hub'. split_and!; [done|done|exact Hr].
Defined.
