(* ===== verification/AgentLink.v ===== *)
(** The agent's other requests over the wire: heartbeats and registrations of
    [agent/internal/lifecycle/heartbeat.go] and the probe round of
    [agent/internal/probe/probe.go], through the exporter, JSON and the API.

    Each request does to the backend's state what the service's operation
    does with the value the agent meant, whenever the request arrives; the
    agent learns the outcome when the response arrives too. *)
From S2P Require Import Prelude GoStrings GoFloat GoTime Decimal GoDate GoParse AgentConfig Netip JsonText FloatText JsonCodec Metrics Classifier Hub Sql Store Inventory.
From S2P Require Import FlowService FlowList AgentService VMService GraphService ConnectionViews CloudContext.
From S2P Require Import ConnectionService References Http API Exporter Wire Prober.
From S2P Require AgentMain Collector Identity Lifecycle.

#[local] Open Scope Z_scope.

(** ** Reading an answer *)

(** The text of an answer; a document that cannot be encoded leaves it
    empty.  Other documents are not read by the agent. *)
Definition answerText (zone : time -> Z) (body : list (Chunk Body)) : list ascii :=
  match body with
  | [CJSON (BRegistration result)] =>
      match responseText zone model_RegistrationResult (result_value result) with Ok l => l | Err _ => [] end
  | [CJSON (BTargets targets)] =>
      match responseText zone (TSlice model_ConnectionProbeTarget) (targets_value targets) with Ok l => l | Err _ => [] end
  | _ => []
  end.
Definition readResult (zone : time -> Z) (body : list (Chunk Body)) : Result RegistrationResult :=
  readResponse agent_RegistrationResult result_of (answerText zone body).
Definition readTargets (zone : time -> Z) (body : list (Chunk Body)) : Result (list ConnectionProbeTarget) :=
  readResponse (TSlice agent_ConnectionProbeTarget) (slice_of target_of) (answerText zone body).

Section link.
Context `{Postgres} `{UnicodeCase} {Payload : Type}.
Context (marshalFlow : string -> Flow -> option Payload) (marshalAgent : string -> Message -> option Payload).
Context (marshalProbe : string -> ConnectionProbeEvent -> option Payload).
Context (vm_digest : string -> string) (inventory : option VMInventory) (classifier : Classifier).
Context (collate : string -> string -> bool) (interval_in : duration -> duration) (nil_is_null : bool).
Context (visibility : GraphVisibility) (activeWindow : duration) (provider : option (Result CloudProviderStatus)).
Context (allowedOrigins : list string) (newRequest : string -> string -> list ascii -> Result Request) (zone : time -> Z).

Abbreviation backend := (fun wd => Routes marshalFlow marshalAgent marshalProbe vm_digest inventory classifier collate
  interval_in nil_is_null visibility activeWindow provider wd allowedOrigins).
Abbreviation State := (DB * Hub Payload)%type.

Definition sendHeartbeat (s : Sender) (net : Delivery) (wd : World) (now : time) (r : Collector.Registration) (st : State)
    : Result unit * State := HeartbeatWith backend newRequest s net wd (heartbeatAt now r) st.
Definition sendRegister (s : Sender) (net : Delivery) (wd : World) (r : Collector.Registration) (st : State)
    : Result RegistrationResult * State := RegisterWith backend newRequest s net wd (readResult zone) r st.
Definition sendProbe (s : Sender) (net : Delivery) (wd : World) (e : ConnectionProbeEvent) (st : State)
    : Result unit * State := ConnectionProbe backend newRequest s net wd e st.
Definition askTargets (s : Sender) (net : Delivery) (wd : World) (agentID : string) (st : State)
    : Result (list ConnectionProbeTarget) * State := ConnectionTargets backend newRequest s net wd (readTargets zone) agentID st.

(** [case now := <-ticker.C] of [lifecycle.Run]: what the two requests
    meet. *)
Record Beat := { bt_now : time; bt_heartbeat : Delivery * World; bt_register : Delivery * World }.

Definition lifecycleTick (s : Sender) (b : Beat) (r : Collector.Registration) (st : State) : State :=
  match sendHeartbeat s (bt_heartbeat b).1 (bt_heartbeat b).2 (bt_now b) r st with
  | (Ok _, st) => st
  | (Err _, st) => snd (sendRegister s (bt_register b).1 (bt_register b).2 r st)
  end.

Definition lifecycleRun (s : Sender) (beats : list Beat) (r : Collector.Registration) (st : State) : State :=
  foldl (fun st b => lifecycleTick s b r st) st beats.

(** [probeTargets] of probe.go with its requests: [nets i] is what the report
    on the i-th target meets. *)
Fixpoint reportEach (s : Sender) (nets : nat -> Delivery * World) (i : nat) (events : list ConnectionProbeEvent) (st : State) : State :=
  match events with
  | [] => st
  | e :: rest => reportEach s nets (S i) rest (snd (sendProbe s (nets i).1 (nets i).2 e st))
  end.
Definition probeRound (s : Sender) (ask : Delivery * World) (nets : nat -> Delivery * World) (attempt : nat -> Attempt) (cfg : Config)
    (agentID : string) (st : State) : State :=
  let '(targets, st) := askTargets s ask.1 ask.2 agentID st in
  reportEach s nets 0 (probeTargets attempt cfg agentID targets) st.

(** ** Requests *)

(** [http.NewRequest] on a path with a query. *)
Definition gets (s : Sender) (path query : string) : Prop :=
  exists request, newRequest "GET" (baseURL s +:+ path +:+ "?" +:+ query) [] = Ok request /\
    Method request = "GET" /\ EscapedPath request = path /\ RawQuery request = query.

(** What a request yields when the backend's answer to it is the call of a
    service: the call's state if the request arrived, and what the agent
    [learned] from the call's result if the response did too.  A call that
    fails, or an answer that is lost, is an error. *)
Definition carried_out {A R} (net : Delivery) (st : State) (call : Result A * DB * Hub Payload) (learned : A -> Result R -> Prop)
    (res : Result R * State) : Prop :=
  let '(result, db, hub) := call in
  res.2 = (if arrives net then (db, hub) else st) /\
  match result with
  | Ok a => if answered net then learned a res.1 else is_ok res.1 = false
  | Err _ => is_ok res.1 = false
  end.

(** The answer of a handler that calls a service: the result's document, or
    the error's. *)
Definition answers {A} (wd : World) (req : Request) (st : State) (call : Result A * DB * Hub Payload) (status : Z) (document : A -> Body) : Prop :=
  let '(result, db, hub) := call in
  exists w, backend wd req newWriter st = Returned w (db, hub) /\
    statusOf w = Some (match result with Ok _ => status | Err _ => 400 end) /\
    w_body w = [CJSON (match result with Ok a => document a | Err err => BError err end)].

Lemma Do_carried_out {A R} net wd req st (call : Result A * DB * Hub Payload) status document path
    (unmarshal : list (Chunk Body) -> Result R) (learned : A -> Result R -> Prop) :
  answers wd req st call status document -> 200 <= status < 300 -> (forall a, learned a (unmarshal [CJSON (document a)])) ->
  carried_out net st call learned (finish path unmarshal (Do backend net wd req st)).
Proof.
  unfold answers, carried_out. destruct call as [[result db] hub]. intros (w & Hs & Hst & Hb) Hrange Hl. cbv beta in Hs. unfold Do, finish.
  destruct net; cbn [arrives answered]; rewrite ?Hs; [|by destruct result..]. rewrite Hst, Hb.
  destruct result as [a|err]; cbn [default from_option id]; [|done].
  destruct (Z.ltb_spec status 200), (Z.leb_spec 300 status); try lia. by split; [|apply Hl].
Qed.

Lemma post_carried_out {B A R} `{JSONEncoder B} `{JSONDecoder C} s net wd path (request : B) (meant : C) st (call : Result A * DB * Hub Payload)
    status document (unmarshal : list (Chunk Body) -> Result R) (learned : A -> Result R -> Prop) :
  understood (Marshal request) meant -> posts newRequest s path ->
  (forall req, Method req = "POST" -> EscapedPath req = path -> decodeJSON req = Ok meant -> answers wd req st call status document) ->
  200 <= status < 300 -> (forall a, learned a (unmarshal [CJSON (document a)])) ->
  carried_out net st call learned (post backend newRequest s net wd path request unmarshal st).
Proof.
  intros (body & Hm & _ & _ & Hd) Hp Hserve. unfold post. rewrite Hm. destruct (Hp body) as (req & -> & Hmeth & Hpath & Hbody).
  apply Do_carried_out, Hserve; auto.
Qed.

(** The calls of the services a request stands for. *)
Definition heard (now : time) (r : Collector.Registration) : AgentHeartbeat :=
  {| HbAgentID := Collector.RAgentID r; HbStatus := "online"; HbTimestamp := now |}.
Definition callHeartbeat (wd : World) (now : time) (r : Collector.Registration) (st : State) : Result unit * DB * Hub Payload :=
  Heartbeat marshalAgent (env_fault (wd_env wd)) (env_now (wd_env wd)) (heard now r) st.1 st.2.
Definition callRegister (wd : World) (r : Collector.Registration) (st : State) : Result RegistrationResult * DB * Hub Payload :=
  Register vm_digest marshalAgent (env_fault (wd_env wd)) (env_pgnow (wd_env wd)) inventory (Lifecycle.payload r) st.1 st.2.
Definition callProbe (wd : World) (e : ConnectionProbeEvent) (st : State) : Result unit * DB * Hub Payload :=
  RecordProbe marshalProbe (env_fault (wd_env wd)) (env_now (wd_env wd)) (env_pgnow (wd_env wd)) e st.1 st.2.
Definition callTargets (wd : World) (agentID : string) (st : State) : Result (list ConnectionProbeTarget) * DB * Hub Payload :=
  (Targets (env_fault (wd_env wd) 0%nat) (env_pgnow (wd_env wd)) inventory agentID st.1, st.1, st.2).

Definition told (_ : unit) (res : Result unit) : Prop := res = Ok tt.
Definition told_result (result : RegistrationResult) (res : Result RegistrationResult) : Prop := result_carried result -> res = Ok result.
Definition told_targets (targets : list ConnectionProbeTarget) (res : Result (list ConnectionProbeTarget)) : Prop :=
  targets_carried zone targets -> res = Ok targets.

Ltac served call Serve_ :=
  let E := fresh "E" in
  intros req Hm Hpath Hd; unfold answers; destruct call as [[result db] hub] eqn:E;
  eapply Serve_; [exact Hm|exact Hpath|exact Hd|exact E].

Lemma heartbeat_carried_out s net wd now r st :
  posts newRequest s "/api/agents/heartbeat" -> registration_carried r -> writable 0 now ->
  carried_out net st (callHeartbeat wd now r st) told (sendHeartbeat s net wd now r st).
Proof.
  intros Hp Hr Hnow. eapply (post_carried_out _ _ _ _ _ (heard now r)); [by apply registered_heartbeat|done|served (callHeartbeat wd now r st) @Serve_heartbeat|lia|done].
Qed.

Lemma register_carried_out s net wd r st :
  posts newRequest s "/api/agents/register" -> registration_carried r ->
  carried_out net st (callRegister wd r st) told_result (sendRegister s net wd r st).
Proof.
  intros Hp Hr. eapply (post_carried_out _ _ _ _ _ (Lifecycle.payload r)); [by apply registration_understood|done|served (callRegister wd r st) @Serve_register|lia|].
  intros a Ha. destruct (result_read zone a Ha) as (body & E & Hb). unfold readResult, answerText. by rewrite E.
Qed.

Lemma probe_carried_out s net wd e st :
  posts newRequest s "/api/connections/probe" -> probe_carried e ->
  carried_out net st (callProbe wd e st) told (sendProbe s net wd e st).
Proof.
  intros Hp He. eapply (post_carried_out _ _ _ _ _ (e)); [by apply probe_understood|done|served (callProbe wd e st) @Serve_probe|lia|done].
Qed.

Lemma targets_carried_out s net wd agentID st :
  gets s "/api/connections/targets" ("agent_id=" +:+ QueryEscape agentID) -> clean agentID ->
  carried_out net st (callTargets wd agentID st) told_targets (askTargets s net wd agentID st).
Proof.
  intros (req & E & Hm & Hpath & Hq) [_ Htrim]. unfold askTargets, ConnectionTargets, get.
  change ("/api/connections/targets?agent_id=" +:+ QueryEscape agentID) with ("/api/connections/targets" +:+ "?" +:+ "agent_id=" +:+ QueryEscape agentID).
  rewrite E. eapply (Do_carried_out _ _ _ _ _ 200 BTargets); [|lia|].
  - assert (Ha : Get (Query req) "agent_id" = agentID) by (destruct req; cbn in Hq; subst; apply agent_query_roundtrip).
    unfold answers, callTargets. destruct st as [db hub]. rewrite <- Htrim, <- Ha. by eapply Serve_targets.
  - intros a Ha. destruct (targets_read zone a Ha) as (body & Eb & Hb). unfold readTargets, answerText. by rewrite Eb.
Qed.
Abbreviation RunAll := (runAll marshalFlow marshalAgent marshalProbe vm_digest inventory classifier).

(** The results whose requests arrive, in order, as calls of the service. *)
Fixpoint recorded (nets : nat -> Delivery * World) (i : nat) (events : list ConnectionProbeEvent) : list Op :=
  match events with
  | [] => []
  | e :: rest =>
      let env := wd_env (nets i).2 in
      (if arrives (nets i).1 then [ORecordProbe (env_fault env) (env_now env) (env_pgnow env) e] else []) ++ recorded nets (S i) rest
  end.

Lemma reportEach_run s nets i events st :
  posts newRequest s "/api/connections/probe" -> Forall probe_carried events ->
  reportEach s nets i events st = RunAll (recorded nets i events) st.
Proof.
  intros Hp He. revert i st. induction He as [|e events Hc _ IH]; intros i st; [done|]. cbn [reportEach recorded].
  rewrite IH. pose proof (probe_carried_out s (nets i).1 (nets i).2 e st Hp Hc) as Hs. unfold carried_out in Hs.
  destruct (callProbe _ _ _) as [[result db] hub] eqn:E. destruct Hs as [-> _]. unfold callProbe in E.
  destruct (arrives _); [|done]. unfold runAll. cbn [app foldl run]. destruct st as [db0 hub0]. cbn [fst snd] in E. by cbn [run]; rewrite E.
Qed.

(** ** What the requests do *)

(** C18: every request of the agent is the service's operation.  For a heartbeat,
    a registration, a probe result and the question for targets, encoded by
    the agent, posted, routed, decoded, executed, answered and read: the
    tables and the hub become what the service's operation makes of the value
    the agent meant when the request arrives, and stay as they were when it
    does not; the agent gets the operation's own result when the answer
    arrives, and an error when the operation fails or the answer is lost. *)
Theorem requests_refine_services (s : Sender) (net : Delivery) (wd : World) (now : time) (r : Collector.Registration)
    (e : ConnectionProbeEvent) (agentID : string) (st : State) :
  Forall (posts newRequest s) ["/api/agents/heartbeat"; "/api/agents/register"; "/api/connections/probe"] ->
  gets s "/api/connections/targets" ("agent_id=" +:+ QueryEscape agentID) ->
  registration_carried r -> writable 0 now -> probe_carried e -> clean agentID ->
  carried_out net st (callHeartbeat wd now r st) told (sendHeartbeat s net wd now r st) /\
  carried_out net st (callRegister wd r st) told_result (sendRegister s net wd r st) /\
  carried_out net st (callProbe wd e st) told (sendProbe s net wd e st) /\
  carried_out net st (callTargets wd agentID st) told_targets (askTargets s net wd agentID st).
Proof.
  intros Hp Hg Hr Hnow He Hid. rewrite !Forall_cons in Hp. destruct Hp as (H1' & H2' & H3' & _).
  auto using heartbeat_carried_out, register_carried_out, probe_carried_out, targets_carried_out.
Qed.

(** C32: a live agent always comes back.  An agent with an identity of
    [identity.Collect] that registered once is online after any tick whose
    registration request, should it be sent, arrives and meets no fault:
    whatever happens to the heartbeat and whatever happened to the database
    in the meantime, the agent's own removal included; and when it had been
    removed, its flows find their source machine again. *)
Theorem agent_recovers (sha256 : string -> list Z) (cfg : Config) (h : Identity.Host) (s : Sender) (b : Beat)
    (fault0 : nat -> option GoError) (pgnow0 : time) (db0 : DB) (hub0 : Hub Payload) (result : RegistrationResult)
    (db0' : DB) (hub0' : Hub Payload) (st : State) :
  let r := Identity.Collect sha256 cfg h in
  posts newRequest s "/api/agents/heartbeat" -> posts newRequest s "/api/agents/register" ->
  registration_carried r -> writable 0 (bt_now b) ->
  Register vm_digest marshalAgent fault0 pgnow0 inventory (Lifecycle.payload r) db0 hub0 = (Ok result, db0', hub0') ->
  arrives (bt_register b).1 = true -> (forall j, env_fault (wd_env (bt_register b).2) j = None) ->
  let db' := (lifecycleTick s b r st).1 in
  Lifecycle.online (Collector.RAgentID r) db' /\
  (agents st.1 !! Collector.RAgentID r = None -> exists source, sourceOfAgent (Collector.RAgentID r) db' = Some source).
Proof.
  intros r Hph Hpr Hr Hnow HR0 Harr Hf. unfold lifecycleTick.
  pose proof (heartbeat_carried_out s (bt_heartbeat b).1 (bt_heartbeat b).2 (bt_now b) r st Hph Hr Hnow) as Hh. unfold carried_out in Hh.
  destruct (sendHeartbeat _ _ _ _ _ _) as [res st1].
  destruct res as [u|err].
  - destruct (callHeartbeat _ _ _ _) as [[[u'|err] db1] hub1] eqn:Ec; [|by destruct Hh].
    destruct (bt_heartbeat b).1; cbn in Hh; destruct Hh as [-> Hl]; try done.
    apply Lifecycle.Heartbeat_known in Ec as [[a Ha] Hon]. split; [exact Hon|].
    intros Hn. change (HbAgentID (heard (bt_now b) r)) with (Collector.RAgentID r) in Ha. by rewrite Hn in Ha.
  - pose proof (register_carried_out s (bt_register b).1 (bt_register b).2 r st1 Hpr Hr) as Hg. unfold carried_out, callRegister in Hg.
    destruct (Lifecycle.Register_back vm_digest marshalAgent inventory fault0 pgnow0 (env_fault (wd_env (bt_register b).2))
      (env_pgnow (wd_env (bt_register b).2)) r db0 hub0 result db0' hub0' st1.1 st1.2) as (result' & db' & hub' & E & Hon & Hsrc);
      [apply Identity.Collect_agent_clean|done|done|].
    rewrite E, Harr in Hg. destruct Hg as [-> _]. by split.
Qed.

(** C33: a probe round does what the services do.  When the agent's question is
    answered, the round leaves the backend in the state of recording, in
    order, one result per target the backend handed out that the agent does
    not skip, leaving out exactly those whose request was lost. *)
Theorem probe_round_refines (s : Sender) (ask : Delivery * World) (nets : nat -> Delivery * World) (attempt : nat -> Attempt)
    (cfg : Config) (agentID : string) (st : State) (targets : list ConnectionProbeTarget) :
  posts newRequest s "/api/connections/probe" -> gets s "/api/connections/targets" ("agent_id=" +:+ QueryEscape agentID) ->
  clean agentID -> answered ask.1 = true -> (callTargets ask.2 agentID st).1.1 = Ok targets -> targets_carried zone targets ->
  let events := probeEach attempt 0 cfg agentID targets in
  Forall probe_carried events ->
  probeRound s ask nets attempt cfg agentID st =
    RunAll (recorded nets 0 events) st.
Proof.
  intros Hp Hg Hid Hans Ht Hc events He. unfold probeRound.
  pose proof (targets_carried_out s ask.1 ask.2 agentID st Hg Hid) as Ha. unfold carried_out, callTargets in *. cbn [fst] in Ht.
  rewrite Ht, Hans in Ha. destruct (askTargets _ _ _ _ _) as [res st1]. cbn [fst snd] in Ha. destruct Ha as [-> Hl].
  rewrite (Hl Hc). cbn [probeTargets]. fold events.
  replace (if arrives ask.1 then (st.1, st.2) else st) with st by (destruct st; by destruct (arrives _)).
  exact (reportEach_run s nets 0 events st Hp He).
Qed.
End link.
