(* ===== verification/AgentRun.v ===== *)
(** The agent's start-up ([run] of [agent/cmd/agent/main.go] up to its loop),
    the mock collector's events, and the event dispatcher of
    [agent/internal/pipeline].

    [start] ends in what the loop of AgentMain works with, in an error, or in
    a panic: [time.NewTicker] panics on an interval that is not positive,
    and nothing recovers it. *)
From S2P Require Import Prelude GoStrings GoFloat GoTime GoParse AgentConfig Netip AgentFlow Collector Identity.
From S2P Require AgentMain BackendMain.
From S2P Require Import Classifier.

#[local] Open Scope Z_scope.

(** ** pipeline/dispatcher.go, pipeline.go and registry.go *)

Section dispatcher.
Context {C : Type}.

Definition Handler : Type := C -> Pipeline.FlowMetric -> Result unit.
Record Dispatcher := { handlers : gmap string Handler }.

Definition NewDispatcher : Dispatcher := {| handlers := ∅ |}.
Definition Register (d : Dispatcher) (eventType : string) (handler : Handler) : Dispatcher :=
  {| handlers := <[eventType := handler]> (handlers d) |}.
Definition Dispatch (d : Dispatcher) (ctx : C) (event : Pipeline.FlowMetric) : Result unit :=
  match handlers d !! Pipeline.Type_ event with
  | None => Ok tt
  | Some handler => handler ctx event
  end.

(** A pipeline or its dispatcher may be nil. *)
Definition Handle (p : option (option Dispatcher)) (ctx : C) (event : Pipeline.FlowMetric) : Result unit :=
  match p with
  | Some (Some dispatcher) => Dispatch dispatcher ctx event
  | _ => Ok tt
  end.
End dispatcher.

Definition NewRegistry : gset string := ∅.
Definition Enable (r : gset string) (name : string) : gset string := {[name]} ∪ r.
Definition Enabled (r : gset string) (name : string) : bool := bool_decide (name ∈ r).

(** ** packet/mock_collector.go *)

Record mockDestination := { md_ip : string; md_port : Z; md_protocol : string }.

(** [strings.Contains] *)
Definition Contains (s sub : string) : bool :=
  existsb (fun i => is_prefix (bytes_of sub) (drop i (bytes_of s))) (seq 0 (S (length (bytes_of s)))).

Section mock.
Context `{UnicodeCase}.

Definition destinations (registration : Registration) : list mockDestination :=
  let name := ToLower (Collector.Hostname registration) in
  if Contains name "db" then
    [ {| md_ip := "10.10.1.15"; md_port := 8080; md_protocol := "tcp" |};
      {| md_ip := "1.1.1.1"; md_port := 443; md_protocol := "tcp" |};
      {| md_ip := "10.10.1.40"; md_port := 6379; md_protocol := "tcp" |} ]
  else
    [ {| md_ip := "10.10.1.30"; md_port := 5432; md_protocol := "tcp" |};
      {| md_ip := "8.8.8.8"; md_port := 443; md_protocol := "tcp" |};
      {| md_ip := "10.10.1.99"; md_port := 8080; md_protocol := "tcp" |};
      {| md_ip := "1.1.1.1"; md_port := 53; md_protocol := "udp" |} ].

(** [random.Intn]: the i-th draw below a bound; the code's draws are in the
    order of the indices. *)
Record Random := { Intn : nat -> Z -> Z; Intn_range : forall i n, 0 < n -> 0 <= Intn i n < n }.

Definition event (random : Random) (registration : Registration) (now : time) : Pipeline.FlowMetric :=
  let destinations := destinations registration in
  let destination := nth (Z.to_nat (Intn random 0 (Z.of_nat (length destinations)))) destinations
                         {| md_ip := ""; md_port := 0; md_protocol := "" |} in
  let bytesReceived := 25000 + Intn random 1 2500000 in
  let bytesSent := 2000 + Intn random 2 350000 in
  let connections := 1 + Intn random 3 3 in
  let sourceIP := match Collector.PrivateIPs registration with ip :: _ => ip | [] => "10.10.1.15" end in
  let iface := match Interfaces registration with i :: _ => IfName i | [] => "eth0" end in
  {| Pipeline.AgentID := RAgentID registration; Pipeline.SrcIP := sourceIP; Pipeline.DstIP := md_ip destination;
     Pipeline.SrcPort := 32000 + Intn random 4 25000; Pipeline.DstPort := md_port destination;
     Pipeline.Protocol := md_protocol destination; Pipeline.FlowDirection := "egress"; Pipeline.Source := "mock";
     Pipeline.ByteCount := bytesSent + bytesReceived; Pipeline.PacketCount := (bytesSent + bytesReceived) / 1200 + 1;
     Pipeline.ConnectionCount := connections; Pipeline.RequestCount := connections; Pipeline.ErrorCount := 0;
     Pipeline.RetransmissionCount := 0; Pipeline.RTTMs := f_of_Z 0; Pipeline.AppDelayMs := f_of_Z 0;
     Pipeline.HTTPStatus := 0; Pipeline.FirstSeen := now - (100 + Intn random 5 900) * Millisecond;
     Pipeline.LastSeen := now; Pipeline.Interface := iface |}.
End mock.

(** ** packet/multi_collector.go *)

(** [Close]: every collector is closed, the first error is returned. *)
Definition Close (closes : list (option GoError)) : option GoError :=
  foldl (fun first err => match first with None => err | Some _ => first end) None closes.

(** ** Start-up *)

Section run.
Context `{AgentMain.HostEnv} (Version : string) (sha256 : string -> list Z).

(** What the loop runs with. *)
Record Running := {
  rn_cfg : Config; rn_registration : Registration; rn_filters : AgentMain.AgentConfig; rn_agentID : string
}.

(** [registered] is the outcome of [registerUntilReady], with the agent
    identifier of the backend's result; [collector] that of [NewEBPF]. *)
Definition start (getenv : Environ) (h : Host) (registered : Registration -> Result string)
    (collector : Config -> Result unit) : BackendMain.Started Running :=
  match AgentConfig.Load Version getenv with
  | Err err => BackendMain.Failed err
  | Ok cfg =>
      let registration := Collect sha256 cfg h in
      let controlPlane := AgentMain.newEndpointFilter (BackendURL cfg) (IgnoreIPs cfg) in
      match AgentMain.newFlowFilter (AllowCIDRs cfg) (DenyCIDRs cfg) with
      | Err err => BackendMain.Failed err
      | Ok flowFilter =>
          match registered registration with
          | Err err => BackendMain.Failed err
          | Ok agentID =>
              (* lifecycle.Run *)
              if HeartbeatInterval cfg <=? 0 then BackendMain.Panicked BackendMain.ticker_panic
              else
                let source := if MockMode cfg then Ok tt
                              else match collector cfg with
                                   | Err err => Err (ErrorfW "start real eBPF collector: %w" [] err)
                                   | Ok _ => Ok tt
                                   end in
                match source with
                | Err err => BackendMain.Failed err
                | Ok _ =>
                    (* the mock collector's ticker and the loop's *)
                    if FlowInterval cfg <=? 0 then BackendMain.Panicked BackendMain.ticker_panic
                    else BackendMain.Running {|
                      rn_cfg := cfg; rn_registration := registration;
                      rn_filters := {| AgentMain.controlPlane := controlPlane; AgentMain.filter_ := flowFilter;
                                       AgentMain.IgnorePorts := IgnorePorts cfg |};
                      rn_agentID := agentID |}
                end
          end
      end
  end.
End run.

(** ** Facts *)

(** Dispatching runs the handler registered last for the event's type. *)
Lemma Dispatch_registered {C} (d : @Dispatcher C) handler ctx e :
  Dispatch (Register d Pipeline.FlowMetricEventType handler) ctx e = handler ctx e.
Proof. unfold Dispatch, Register. cbn. by rewrite lookup_insert_eq. Qed.

Lemma Enabled_Enable r name other : Enabled (Enable r name) other = bool_decide (other = name) || Enabled r other.
Proof.
  unfold Enabled, Enable. destruct (bool_decide_reflect (other = name)) as [->|Hn]; cbn [orb].
  - apply bool_decide_true. set_solver.
  - apply bool_decide_ext. set_solver.
Qed.

Lemma destinations_ok `{UnicodeCase} registration :
  Forall (fun d => ip_ok (md_ip d) /\ port_ok (md_port d) /\ protocol_ok (md_protocol d)) (destinations registration).
Proof.
  unfold destinations. destruct (Contains _ _);
    repeat (apply Forall_cons; split; [split_and!|]); try apply Forall_nil; try done.
  all: first [by left|by right; left|eexists; vm_compute; reflexivity|split; cbn; lia].
Qed.

(** The mock collector's events are as good as the real ones: what it emits
    for a registration with readable addresses satisfies [event_ok]. *)
Lemma mock_event_ok `{UnicodeCase} random registration now :
  clean (RAgentID registration) -> Forall ip_ok (Collector.PrivateIPs registration) -> Second <= now ->
  event_ok (event random registration now).
Proof.
  intros [Hne Htrim] Hips Hnow. unfold event. cbv zeta.
  set (l := destinations registration).
  assert (Hl : 0 < Z.of_nat (length l)) by (unfold l, destinations; by destruct (Contains _ _)).
  pose proof (Intn_range random 0 _ Hl) as Hd.
  destruct (proj1 (Forall_forall _ _) (destinations_ok registration)
    (nth (Z.to_nat (Intn random 0 (Z.of_nat (length l)))) l {| md_ip := ""; md_port := 0; md_protocol := "" |}))
    as (Hip & Hport & Hproto); [apply list_elem_of_In, nth_In; fold l; lia|].
  pose proof (Intn_range random 4 25000 ltac:(lia)). pose proof (Intn_range random 5 900 ltac:(lia)).
  unfold Second, Millisecond in *.
  split; cbn [Pipeline.AgentID Pipeline.SrcIP Pipeline.DstIP Pipeline.SrcPort Pipeline.DstPort Pipeline.Protocol
              Pipeline.FlowDirection Pipeline.FirstSeen Pipeline.LastSeen]; try assumption.
  - by rewrite Htrim.
  - destruct (Collector.PrivateIPs registration) as [|ip ips]; [eexists; vm_compute; reflexivity|].
    by apply Forall_cons in Hips as [? _].
  - unfold port_ok. lia.
  - by right.
  - lia.
  - lia.
Qed.

(** ** Theorems *)

(** Where the agent's start leads.  The loop is entered only with a
    loaded configuration whose tickers can run, an identity whose agent
    identifier is trimmed and not empty, and filters built from the
    configured networks; the start fails exactly with the error of the
    configuration, the filters, the registration or the collector, and
    panics only on an interval that is not positive. *)
Theorem agent_start_sound (env : AgentMain.HostEnv) (Version : string) (sha256 : string -> list Z) (getenv : Environ)
    (h : Host) (registered : Registration -> Result string) (collector : Config -> Result unit) :
  match start Version sha256 getenv h registered collector with
  | BackendMain.Running rn =>
      AgentConfig.Load Version getenv = Ok (rn_cfg rn) /\ config_ok (rn_cfg rn) /\
      0 < HeartbeatInterval (rn_cfg rn) /\ 0 < FlowInterval (rn_cfg rn) /\
      clean (RAgentID (rn_registration rn)) /\ registered (rn_registration rn) = Ok (rn_agentID rn) /\
      AgentMain.newFlowFilter (AllowCIDRs (rn_cfg rn)) (DenyCIDRs (rn_cfg rn)) = Ok (AgentMain.filter_ (rn_filters rn))
  | BackendMain.Panicked _ =>
      exists cfg, AgentConfig.Load Version getenv = Ok cfg /\ (HeartbeatInterval cfg <= 0 \/ FlowInterval cfg <= 0)
  | BackendMain.Failed err =>
      AgentConfig.Load Version getenv = Err err \/
      exists cfg, AgentConfig.Load Version getenv = Ok cfg /\
        (AgentMain.newFlowFilter (AllowCIDRs cfg) (DenyCIDRs cfg) = Err err \/
         registered (Collect sha256 cfg h) = Err err \/
         (MockMode cfg = false /\ exists err', collector cfg = Err err' /\ err = ErrorfW "start real eBPF collector: %w" [] err'))
  end.
Proof.
  unfold start. destruct (AgentConfig.Load Version getenv) as [cfg|err] eqn:El; [|by left].
  destruct (AgentMain.newFlowFilter _ _) as [f|err] eqn:Ef; [|right; eauto].
  destruct (registered _) as [id|err] eqn:Er; [|right; eauto 6].
  destruct (Z.leb_spec (HeartbeatInterval cfg) 0); [eauto|].
  destruct (MockMode cfg) eqn:Em; [|destruct (collector cfg) as [[]|err] eqn:Ec; [|right; eauto 10]];
    (destruct (Z.leb_spec (FlowInterval cfg) 0); [by eauto|]);
    (split_and!; [done|by eapply Load_ok|done|done|apply Collect_agent_clean|done|done]).
Qed.

(** The environment that only sets the mock mode and a flow interval of
    zero. *)
Definition zero_interval (key : string) : string :=
  if (key =? "MOCK_MODE")%string then "true" else if (key =? "FLOW_INTERVAL")%string then "0s" else "".

(** An interval that is not positive crashes the agent.  A
    [FLOW_INTERVAL] of zero loads, although [config.Validate], which nothing
    calls, would reject it with an error; once registered the agent panics in
    [time.NewTicker]. *)
Theorem unvalidated_interval_panics (env : AgentMain.HostEnv) (Version : string) (sha256 : string -> list Z)
    (h : Host) (agentID : string) (collector : Config -> Result unit) :
  (exists cfg, AgentConfig.Load Version zero_interval = Ok cfg /\
     Validate cfg = Err (Errorf "FLOW_INTERVAL must be positive" [])) /\
  start Version sha256 zero_interval h (fun _ => Ok agentID) collector = BackendMain.Panicked BackendMain.ticker_panic.
Proof. split; [eexists; split; vm_compute; reflexivity|vm_compute; reflexivity]. Qed.
