(* ===== verification/CollectorRun.v ===== *)
(** The capturing goroutines: [EBPFCollector.Run], [icmp.Collector.Run],
    [MockCollector.Run] and [MultiCollector.Run], with [NewCollector] and the
    [Close] methods.

    Each collector reads, converts and sends on two bounded channels, one of
    events and one of errors, and closes both when it returns; two forwarders
    per collector move them to the channels of [MultiCollector], which are
    closed when all forwarders are done; the main loop receives.  A schedule
    is any sequence of the steps below.  Messages carry the number of the
    collector that sent them, which the code does not look at. *)
From S2P Require Import Prelude GoStrings GoFloat GoTime Reducers AgentConfig Netip AgentFlow Collector AgentRun.
From stdpp Require Import relations.

#[local] Open Scope Z_scope.

(** ** What one round of a reading loop does *)

Inductive Round (E : Type) :=
| Emit (e : E)                  (* events <- e *)
| Report (err : GoError)        (* errorsChannel <- err; continue *)
| Skip                          (* continue *)
| Stop                          (* return *)
| ReportStop (err : GoError).   (* errorsChannel <- err; return *)
Arguments Emit {E} e.
Arguments Report {E} err.
Arguments Skip {E}.
Arguments Stop {E}.
Arguments ReportStop {E} err.

(** [reader.Read()] of the ring buffer. *)
Inductive ReadResult := ReadSample (now : time) (sample : list Z) | ReadClosed | ReadFailed (err : GoError).

Definition ebpf_round (c : EBPFCollector) (r : ReadResult) : Round Pipeline.FlowMetric :=
  match r with
  | ReadClosed => Stop
  | ReadFailed err => ReportStop err
  | ReadSample now sample =>
      match decodeRawFlowEvent sample with
      | Err err => Report err
      | Ok raw => Emit (convert c now raw)
      end
  end.

(** [unix.Recvfrom]: a packet with the packet type of its address, or an
    error, and whether the context is done by then. *)
Inductive RecvResult :=
| Received (now : time) (packet : list Z) (pkttype : option Z)
| RecvFailed (done : bool) (badDescriptor : bool) (err : GoError).

(** [None]: the parser indexes out of range. *)
Definition icmp_round (reg : Registration) (iface : string) (r : RecvResult) : option (Round Pipeline.FlowMetric) :=
  match r with
  | RecvFailed done bad err => Some (if done || bad then Stop else Report (ErrorfW "read icmp packet: %w" [] err))
  | Received now packet pkttype =>
      match icmp_parse reg iface now packet pkttype with
      | None => None
      | Some None => Some Skip
      | Some (Some e) => Some (Emit e)
      end
  end.

(** A tick of the mock collector, or the end of the context. *)
Definition mock_round (event : time -> Pipeline.FlowMetric) (tick : option time) : Round Pipeline.FlowMetric :=
  match tick with Some now => Emit (event now) | None => Stop end.

(** ** [NewCollector] of package icmp *)

Class PacketHost := {
  IfaceByName : string -> Result Z;
  Socket : Z -> Result Z;                    (* protocol *)
  Bind : Z -> Z -> Z -> option GoError       (* descriptor, protocol, interface index *)
}.

Definition htons (value : Z) : Z := Z.lor (u16 (Z.shiftl value 8)) (Z.shiftr value 8).
Definition ETH_P_ALL : Z := 3.

Definition firstInterfaceName (reg : Registration) : string :=
  (fix loop (l : list Interface) := match l with
     | [] => ""
     | iface :: r => if negb (IfName iface =? "")%string then IfName iface else loop r
     end) (Interfaces reg).

(** [unix.Close]: the descriptor is released even when an error is returned. *)
Definition closed (fd : Z) (open : list Z) : list Z := filter (fun x => x <> fd) open.

(** The collector's interface and descriptor, and the descriptors that are
    open afterwards. *)
Definition NewCollector `{PacketHost} (reg : Registration) (ifaceName : string) (open : list Z) : Result (string * Z) * list Z :=
  let ifaceName := firstNonEmpty [ifaceName; firstInterfaceName reg] in
  if (ifaceName =? "")%string then (Err (Errorf "icmp capture interface is empty" []), open)
  else match IfaceByName ifaceName with
  | Err err => (Err (ErrorfW "lookup icmp capture interface %q: %w" [ifaceName] err), open)
  | Ok index =>
      match Socket (htons ETH_P_ALL) with
      | Err err => (Err (ErrorfW "open packet socket for icmp capture: %w" [] err), open)
      | Ok fd =>
          let open := fd :: open in
          match Bind fd (htons ETH_P_ALL) index with
          | Some err => (Err (ErrorfW "bind packet socket on %s: %w" [ifaceName] err), closed fd open)
          | None => (Ok (ifaceName, fd), open)
          end
      end
  end.

(** ** [Close] under [sync.Once] *)

(** The descriptor is closed by the first call; later calls return nil. *)
Definition closeOnce (close : option GoError) (closed : bool) : option GoError * bool :=
  if closed then (None, true) else (close, true).

(** [EBPFCollector.Close]: reader and links in order, the first error. *)
Definition EBPF_Close (reader : option (option GoError)) (links : list (option GoError)) (closed : bool)
    : option GoError * bool :=
  let first := default None reader in
  closeOnce (foldl (fun first err => match first with Some _ => first | None => err end) first links) closed.

(** ** The goroutines *)

Section system.
Context {E : Type}.

(** A message is an event or an error; [false] is the lane of events. *)
Abbreviation Msg := (E + GoError)%type.

Inductive Pc := Reading | Sending (lane : bool) (m : Msg) (last : bool) | Ended.
Inductive Forwarder := Idle | Holding (m : Msg) | Finished.

(** [left] is what the reader will still yield; a collector whose send of an
    event is a [select] with the context is [selecting]. *)
Record Source := {
  selecting : bool; caps : bool -> nat; left : list (Round E); pc : Pc;
  chans : bool -> list Msg; fws : bool -> Forwarder
}.

(** Without [MultiCollector] ([multi] false) the main loop receives from the
    only collector's channels. *)
Record Sys := {
  multi : bool; sources : list Source; outCaps : bool -> nat; outs : bool -> list (nat * Msg); outClosed : bool;
  cancelled : bool; got : bool -> list (nat * Msg)
}.

Definition upd {A} (f : bool -> A) (b : bool) (x : A) : bool -> A := fun b' => if Bool.eqb b b' then x else f b'.

Definition with_pc (s : Source) (left : list (Round E)) (pc : Pc) : Source :=
  {| selecting := selecting s; caps := caps s; left := left; pc := pc; chans := chans s; fws := fws s |}.
Definition with_chan (s : Source) (pc : Pc) (b : bool) (l : list Msg) : Source :=
  {| selecting := selecting s; caps := caps s; left := left s; pc := pc; chans := upd (chans s) b l; fws := fws s |}.
Definition with_fw (s : Source) (b : bool) (l : list Msg) (f : Forwarder) : Source :=
  {| selecting := selecting s; caps := caps s; left := left s; pc := pc s; chans := upd (chans s) b l; fws := upd (fws s) b f |}.
Definition with_source (y : Sys) (i : nat) (s : Source) : Sys :=
  {| multi := multi y; sources := <[i := s]> (sources y); outCaps := outCaps y; outs := outs y; outClosed := outClosed y;
     cancelled := cancelled y; got := got y |}.

(** A collector as [Run] starts it. *)
Definition startSource (selecting : bool) (caps : bool -> nat) (script : list (Round E)) : Source :=
  {| selecting := selecting; caps := caps; left := script; pc := Reading; chans := fun _ => []; fws := fun _ => Idle |}.
Definition startSys (multi : bool) (sources : list Source) (outCaps : bool -> nat) : Sys :=
  {| multi := multi; sources := sources; outCaps := outCaps; outs := fun _ => []; outClosed := false; cancelled := false; got := fun _ => [] |}.

Inductive Label :=
| LRead (i : nat) | LClosed (i : nat) | LSend (i : nat) | LAbandon (i : nat)
| LTake (i : nat) (b : bool) | LPut (i : nat) (b : bool) | LFinish (i : nat) (b : bool)
| LCloseOut | LReceive (b : bool) | LDirect (i : nat) (b : bool) | LCancel.

(** One round of the reading loop up to its send. *)
Definition read (s : Source) : option Source :=
  match pc s, left s with
  | Reading, Emit e :: r => Some (with_pc s r (Sending false (inl e) false))
  | Reading, Report err :: r => Some (with_pc s r (Sending true (inr err) false))
  | Reading, Skip :: r => Some (with_pc s r Reading)
  | Reading, Stop :: _ => Some (with_pc s [] Ended)
  | Reading, ReportStop err :: _ => Some (with_pc s [] (Sending true (inr err) true))
  | _, _ => None
  end.

Definition send (s : Source) : option Source :=
  match pc s with
  | Sending b m last =>
      if (length (chans s b) <? caps s b)%nat
      then Some (with_chan s (if last then Ended else Reading) b (chans s b ++ [m])) else None
  | _ => None
  end.

Definition take_ (s : Source) (b : bool) : option Source :=
  match fws s b, chans s b with
  | Idle, m :: r => Some (with_fw s b r (Holding m))
  | _, _ => None
  end.

(** [range] ends on a channel that is closed and drained; a blocked send
    ends with the context. *)
Definition finish (cancelled : bool) (s : Source) (b : bool) : option Source :=
  match fws s b, pc s, chans s b with
  | Idle, Ended, [] => Some (with_fw s b [] Finished)
  | Holding _, _, l => if cancelled then Some (with_fw s b l Finished) else None
  | _, _, _ => None
  end.

Definition is_finished (f : Forwarder) : bool := match f with Finished => true | _ => false end.

Definition step (l : Label) (y : Sys) : option Sys :=
  match l with
  | LRead i => s ← sources y !! i; with_source y i <$> read s
  | LClosed i =>  (* the reader was closed by the end of the context *)
      s ← sources y !! i;
      match pc s with Reading => if cancelled y then Some (with_source y i (with_pc s [] Ended)) else None | _ => None end
  | LSend i => s ← sources y !! i; with_source y i <$> send s
  | LAbandon i =>
      s ← sources y !! i;
      match pc s with
      | Sending false _ _ => if cancelled y && selecting s then Some (with_source y i (with_pc s [] Ended)) else None
      | _ => None
      end
  | LTake i b => s ← sources y !! i; if multi y then with_source y i <$> take_ s b else None
  | LPut i b =>
      s ← sources y !! i;
      match fws s b with
      | Holding m =>
          if outClosed y then None  (* a panic; never reached *)
          else if (length (outs y b) <? outCaps y b)%nat
          then let y' := with_source y i (with_fw s b (chans s b) Idle) in
               Some {| multi := multi y; sources := sources y'; outCaps := outCaps y; outs := upd (outs y) b (outs y b ++ [(i, m)]);
                       outClosed := outClosed y; cancelled := cancelled y; got := got y |}
          else None
      | _ => None
      end
  | LFinish i b => s ← sources y !! i; if multi y then with_source y i <$> finish (cancelled y) s b else None
  | LCloseOut =>
      if multi y && forallb (fun s => is_finished (fws s false) && is_finished (fws s true)) (sources y)
      then Some {| multi := multi y; sources := sources y; outCaps := outCaps y; outs := outs y; outClosed := true;
                   cancelled := cancelled y; got := got y |} else None
  | LReceive b =>
      match outs y b with
      | m :: r => Some {| multi := multi y; sources := sources y; outCaps := outCaps y; outs := upd (outs y) b r; outClosed := outClosed y;
                          cancelled := cancelled y; got := upd (got y) b (got y b ++ [m]) |}
      | [] => None
      end
  | LDirect i b =>
      s ← sources y !! i;
      match chans s b with
      | m :: r =>
          if multi y then None
          else let y' := with_source y i (with_chan s (pc s) b r) in
               Some {| multi := multi y; sources := sources y'; outCaps := outCaps y; outs := outs y; outClosed := outClosed y;
                       cancelled := cancelled y; got := upd (got y) b (got y b ++ [(i, m)]) |}
      | [] => None
      end
  | LCancel => Some {| multi := multi y; sources := sources y; outCaps := outCaps y; outs := outs y; outClosed := outClosed y;
                       cancelled := true; got := got y |}
  end.

Inductive reachable (y0 : Sys) : Sys -> Prop :=
| reach_start : reachable y0 y0
| reach_step y l y' : reachable y0 y -> step l y = Some y' -> reachable y0 y'.

(** What a script sends on a lane: nothing after the round that stops. *)
Fixpoint emits (b : bool) (script : list (Round E)) : list Msg :=
  match script with
  | [] => []
  | Emit e :: r => if b then emits b r else inl e :: emits b r
  | Report err :: r => if b then inr err :: emits b r else emits b r
  | Skip :: r => emits b r
  | Stop :: _ => []
  | ReportStop err :: _ => if b then [inr err] else []
  end.

(** ** Nothing is lost, doubled or reordered *)

(** The messages of collector [i] in a merged list. *)
Fixpoint from (i : nat) (l : list (nat * Msg)) : list Msg :=
  match l with
  | [] => []
  | (j, m) :: r => if Nat.eqb j i then m :: from i r else from i r
  end.

(** What is still on its way on a lane of a collector. *)
Definition pending (s : Source) (b : bool) : list Msg :=
  match pc s with Sending b' m _ => if Bool.eqb b' b then [m] else [] | _ => [] end ++ emits b (left s).
Definition holding (f : Forwarder) : list Msg := match f with Holding m => [m] | _ => [] end.
Definition coming (s : Source) (b : bool) : list Msg :=
  match fws s b with Finished => [] | f => holding f ++ chans s b ++ pending s b end.
Definition chain (y : Sys) (i : nat) (s : Source) (b : bool) : list Msg :=
  from i (got y b) ++ from i (outs y b) ++ coming s b.

Lemma from_app i l1 l2 : from i (l1 ++ l2) = from i l1 ++ from i l2.
Proof. induction l1 as [|[j m] l1 IH]; [done|]. cbn. rewrite IH. by destruct (Nat.eqb j i). Qed.

Lemma from_snoc i j m l : from i (l ++ [(j, m)]) = from i l ++ (if Nat.eqb j i then [m] else []).
Proof. rewrite from_app. cbn. by destruct (Nat.eqb j i). Qed.

Lemma from_elem i m l : (i, m) ∈ l -> m ∈ from i l.
Proof.
  induction l as [|[j x] l IH]; [set_solver|]. cbn. rewrite elem_of_cons. intros [[= <- <-]|Hin]; [rewrite Nat.eqb_refl; left|].
  destruct (Nat.eqb j i); [right|]; by apply IH.
Qed.

Lemma upd_same {A} (f : bool -> A) b x : upd f b x b = x.
Proof. unfold upd. by rewrite eqb_reflx. Qed.

Lemma upd_other {A} (f : bool -> A) b b' x : Bool.eqb b b' = false -> upd f b x b' = f b'.
Proof. unfold upd. by intros ->. Qed.

(** The state of one collector: a returned loop reads nothing more, and the
    channels keep to their capacity. *)
Definition source_ok (s : Source) : Prop :=
  (pc s = Ended -> left s = []) /\ (forall b m, pc s = Sending b m true -> left s = []) /\
  forall b, (length (chans s b) <= caps s b)%nat.

(** How a step of a collector changes what is coming: not at all, unless the
    context ended, and then it only cuts it short. *)
Definition continues (cancelled : bool) (s s' : Source) : Prop :=
  caps s' = caps s /\ (forall b, fws s b = Finished -> fws s' b = Finished) /\
  forall b, coming s' b `prefix_of` coming s b /\ (cancelled = false -> coming s' b = coming s b).

Lemma continues_same cancelled s s' : caps s' = caps s -> (forall b, fws s b = Finished -> fws s' b = Finished) ->
  (forall b, coming s' b = coming s b) -> continues cancelled s s'.
Proof. intros Hc Hf H. split_and!; [done|done|]. intros b. by rewrite H. Qed.

Lemma read_ok c s s' : source_ok s -> read s = Some s' -> source_ok s' /\ continues c s s'.
Proof.
  intros (He & Hl & Hcap). unfold read. destruct (pc s) eqn:Ep; try done. destruct (left s) as [|[e|err| | |err] r] eqn:El; try done;
    intros [= <-]; (split; [split_and!; cbn; try done; by intros b m [= _ _ ?]|]);
    apply continues_same; try done; intros b; unfold coming, pending; cbn [fws with_pc pc left chans]; rewrite Ep, El; by destruct b.
Qed.

Lemma send_ok c s s' : source_ok s -> send s = Some s' -> source_ok s' /\ continues c s s'.
Proof.
  intros (He & Hl & Hcap). unfold send. destruct (pc s) as [|b m last|] eqn:Ep; try done.
  destruct (Nat.ltb_spec (length (chans s b)) (caps s b)) as [Hlt|]; [|done]. intros [= <-]. split.
  - split_and!; cbn.
    + destruct last; [intros _; by eapply Hl|done].
    + destruct last; done.
    + intros b'. unfold upd. destruct (Bool.eqb b b') eqn:Eb; [|done]. apply eqb_prop in Eb as ->. rewrite length_app. cbn. lia.
  - apply continues_same; [done|done|]. intros b'. unfold coming, pending. cbn [fws with_chan pc left chans]. rewrite Ep.
    assert (Hpc : match (if last then Ended else Reading) with Sending b'0 m0 _ => if Bool.eqb b'0 b' then [m0] else [] | _ => [] end = [])
      by (by destruct last). rewrite Hpc.
    destruct (Bool.eqb b b') eqn:Eb; [apply eqb_prop in Eb as ->; rewrite upd_same|rewrite upd_other by done];
      destruct (fws s b'); try done; by rewrite <- !app_assoc.
Qed.

Lemma take_ok c s b s' : source_ok s -> take_ s b = Some s' -> source_ok s' /\ continues c s s'.
Proof.
  intros (He & Hl & Hcap). unfold take_. destruct (fws s b) eqn:Ef; try done. destruct (chans s b) as [|m r] eqn:Ec; [done|].
  intros [= <-]. split.
  - split_and!; [done|done|]. intros b'. cbn. unfold upd. destruct (Bool.eqb b b') eqn:Eb; [|done]. apply eqb_prop in Eb as ->.
    specialize (Hcap b'). rewrite Ec in Hcap. cbn in Hcap. lia.
  - apply continues_same; [done|intros b'; cbn; unfold upd; destruct (Bool.eqb b b') eqn:Eb; [apply eqb_prop in Eb as ->; by rewrite Ef|done]|].
    intros b'. unfold coming, pending. cbn [fws with_fw pc left chans].
    destruct (Bool.eqb b b') eqn:Eb; [apply eqb_prop in Eb as ->; by rewrite !upd_same, Ef, Ec|by rewrite !upd_other].
Qed.

Lemma finish_ok c s b s' : source_ok s -> finish c s b = Some s' -> source_ok s' /\ continues c s s'.
Proof.
  intros (He & Hl & Hcap). unfold finish. intros H.
  assert (Hs : exists l, s' = with_fw s b l Finished /\ l = chans s b /\ (c = false -> coming s b = [])).
  { destruct (fws s b) eqn:Ef; [| |done].
    - destruct (pc s) eqn:Ep; try done. destruct (chans s b) eqn:Ec; [|done]. injection H as <-. exists []. split_and!; [done|done|].
      intros _. unfold coming, pending. by rewrite Ef, Ec, Ep, He.
    - destruct c; [|by destruct (pc s)]. exists (chans s b). destruct (pc s); injection H as <-; by split_and!. }
  destruct Hs as (l & -> & -> & Hcome). split.
  - split_and!; [done|done|]. intros b'. cbn. unfold upd. destruct (Bool.eqb b b') eqn:Eb; [|done]. by apply eqb_prop in Eb as ->.
  - split_and!; [done|intros b'; cbn; unfold upd; by destruct (Bool.eqb b b')|]. intros b'. destruct (Bool.eqb b b') eqn:Eb.
    + apply eqb_prop in Eb as ->. unfold coming at 1 3. cbn [fws with_fw]. rewrite upd_same. split; [apply prefix_nil|].
      intros Hf. by rewrite Hcome.
    + assert (coming (with_fw s b (chans s b) Finished) b' = coming s b') as ->; [|done].
      unfold coming, pending. cbn [fws with_fw pc left chans]. by rewrite !upd_other.
Qed.

(** Ending a loop with the context drops what it had not sent. *)
Lemma ended_ok s : source_ok s -> source_ok (with_pc s [] Ended) /\ continues true s (with_pc s [] Ended).
Proof.
  intros (He & Hl & Hcap). split; [by split_and!|]. split_and!; [done|done|]. intros b. split; [|done].
  unfold coming, pending. cbn [fws with_pc pc left chans emits]. rewrite !app_nil_r. destruct (fws s b); cbn; try done.
  - by apply prefix_app_r.
  - apply prefix_cons. by apply prefix_app_r.
Qed.

(** Without [MultiCollector] nothing is forwarded. *)
Definition unforwarded (y : Sys) : Prop := multi y = false ->
  (forall b, outs y b = []) /\ forall i s b, sources y !! i = Some s -> fws s b = Idle.

Lemma lookup_with_source y i s s' j t : sources y !! i = Some s -> <[i := s']> (sources y) !! j = Some t ->
  exists t0, sources y !! j = Some t0 /\ ((j = i /\ t = s' /\ t0 = s) \/ (j <> i /\ t = t0)).
Proof.
  intros Hi [(-> & <- & _)|[? ?]]%list_lookup_insert_Some; [exists s; by split; [|left]|]. exists t. split; [done|right]. by split; [congruence|].
Qed.

Lemma unforwarded_with y i s s' : unforwarded y -> sources y !! i = Some s -> fws s' = fws s -> unforwarded (with_source y i s').
Proof.
  intros Hu Hi Hf Hm. destruct (Hu Hm) as [Ho Hfw]. split; [done|].
  intros j t b (t0 & Hj & [(-> & -> & ->)|[_ ->]])%(lookup_with_source _ _ s); [rewrite Hf|..]; by eauto.
Qed.

Lemma unforwarded_step l y y' : unforwarded y -> step l y = Some y' -> unforwarded y'.
Proof.
  intros Hu. destruct l as [i|i|i|i|i b|i b|i b| |b|i b|]; cbn [step].
  1-7, 10: intros (s & Hi & H)%bind_Some.
  - apply fmap_Some in H as (s' & Hr & ->). eapply unforwarded_with; [done..|]. unfold read in Hr. destruct (pc s); try done.
    by destruct (left s) as [|[] r]; simplify_eq.
  - destruct (pc s); try done. destruct (cancelled y); [|done]. injection H as <-. by eapply unforwarded_with.
  - apply fmap_Some in H as (s' & Hr & ->). eapply unforwarded_with; [done..|]. unfold send in Hr. destruct (pc s); try done.
    by destruct (_ <? _)%nat; simplify_eq.
  - destruct (pc s) as [|[] ? ?|]; try done. destruct (_ && _); [|done]. injection H as <-. by eapply unforwarded_with.
  - destruct (multi y) eqn:Em; [|done]. apply fmap_Some in H as (s' & _ & ->). intros Hm. cbn in Hm. congruence.
  - destruct (fws s b) eqn:Ef; try done. destruct (outClosed y); [done|]. destruct (_ <? _)%nat; [|done]. injection H as <-.
    intros Hm. cbn in Hm. destruct (Hu Hm) as [_ Hfw]. by rewrite (Hfw i s b Hi) in Ef.
  - destruct (multi y) eqn:Em; [|done]. apply fmap_Some in H as (s' & _ & ->). intros Hm. cbn in Hm. congruence.
  - destruct (chans s b) as [|m r]; [done|]. destruct (multi y) eqn:Em; [done|]. injection H as <-.
    intros _. exact (unforwarded_with y i s (with_chan s (pc s) b r) Hu Hi eq_refl Em).
  - destruct (multi y && _) eqn:Em; [|done]. intros [= <-]. exact Hu.
  - destruct (outs y b) as [|m r] eqn:Eo; [done|]. intros [= <-] Hm. destruct (Hu Hm) as [Ho _]. by rewrite Ho in Eo.
  - intros [= <-]. exact Hu.
Qed.

(** What no step changes. *)
Definition same_shape (y y' : Sys) : Prop :=
  multi y' = multi y /\ outCaps y' = outCaps y /\ length (sources y') = length (sources y) /\
  forall i s', sources y' !! i = Some s' -> exists s, sources y !! i = Some s /\ caps s' = caps s.

Lemma same_shape_with y i s s' y' : sources y !! i = Some s -> sources y' = <[i := s']> (sources y) -> caps s' = caps s ->
  multi y' = multi y -> outCaps y' = outCaps y -> same_shape y y'.
Proof.
  intros Hi Hs Hc Hm Ho. split_and!; [done|done|by rewrite Hs, length_insert|]. intros j t. rewrite Hs.
  intros (t0 & ? & [(-> & -> & ->)|[_ ->]])%(lookup_with_source _ _ s); eauto.
Qed.

Lemma source_step_caps s s' : (read s = Some s' \/ send s = Some s' \/ (exists b, take_ s b = Some s') \/ exists c b, finish c s b = Some s') ->
  caps s' = caps s.
Proof. intros [H|[H|[[b H]|(c & b & H)]]]; revert H; [unfold read|unfold send|unfold take_|unfold finish]; repeat case_match; try done; by intros [= <-]. Qed.

Lemma shape_step l y y' : step l y = Some y' -> same_shape y y'.
Proof.
  destruct l as [i|i|i|i|i b|i b|i b| |b|i b|]; cbn [step].
  1-7, 10: intros (s & Hi & H)%bind_Some.
  1, 3: apply fmap_Some in H as (s' & Hr & ->); eapply same_shape_with; [done|done|apply source_step_caps; eauto|done..].
  3, 5: destruct (multi y) eqn:Em; [|done]; apply fmap_Some in H as (s' & Hr & ->);
    eapply same_shape_with; [done|done|apply source_step_caps; eauto 6|done..].
  all: repeat (case_match; try done); simplify_eq; first [by eapply same_shape_with|intros [= <-]; split_and!; [done..|]; intros; by eexists].
Qed.

Lemma reachable_outCaps y0 y : reachable y0 y -> outCaps y = outCaps y0.
Proof. induction 1 as [|y l y' _ IH Hs]; [done|]. by destruct (shape_step l y y' Hs) as (_ & -> & _). Qed.

(** Every message the main loop gets is from a collector. *)
Definition known (y : Sys) : Prop := forall b i m, (i, m) ∈ got y b ++ outs y b -> (i < length (sources y))%nat.

Lemma known_step l y y' : known y -> step l y = Some y' -> known y'.
Proof.
  intros Hk Hs. pose proof (shape_step l y y' Hs) as (_ & _ & Hlen & _). intros b' i' m'. rewrite Hlen. revert Hs. clear Hlen.
  specialize (Hk b' i' m').
  destruct l as [i|i|i|i|i b|i b|i b| |b|i b|]; cbn [step].
  1-7, 10: intros (s & Hi & H)%bind_Some; pose proof (lookup_lt_Some _ _ _ Hi).
  1, 3: by apply fmap_Some in H as (s' & Hr & ->).
  3, 5: destruct (multi y); [|done]; by apply fmap_Some in H as (s' & Hr & ->).
  all: repeat (case_match; try done); simplify_eq; try (intros [= <-]); try exact Hk; cbn [got outs]; unfold upd;
    destruct (Bool.eqb b b') eqn:Eb; try exact Hk; apply eqb_prop in Eb as ->.
  - rewrite app_assoc, elem_of_app, list_elem_of_singleton. by intros [?|[= -> _]]; [apply Hk|].
  - rewrite <- app_assoc, !elem_of_app, list_elem_of_singleton. rewrite elem_of_app in Hk. intros [?|[[= -> _]|?]]; [by apply Hk; left|done|by apply Hk; right].
  - rewrite <- app_assoc. cbn [app]. match goal with E : outs y b' = _ |- _ => by rewrite <- E end.
Qed.

(** The main loop forgets nothing. *)
Lemma step_got l y y' b : step l y = Some y' -> exists more, got y' b = got y b ++ more.
Proof.
  destruct l as [i|i|i|i|i c|i c|i c| |c|i c|]; cbn [step].
  1-7, 10: intros (s & Hi & H)%bind_Some.
  1, 3: apply fmap_Some in H as (s' & Hr & ->); by exists []; rewrite app_nil_r.
  3, 5: destruct (multi y); [|done]; apply fmap_Some in H as (s' & Hr & ->); by exists []; rewrite app_nil_r.
  all: repeat (case_match; try done); simplify_eq; try (intros [= <-]); cbn [got]; try (by exists []; rewrite app_nil_r);
    unfold upd; destruct (Bool.eqb c b) eqn:Eb; try (by exists []; rewrite app_nil_r); apply eqb_prop in Eb as ->; by eexists.
Qed.

Section scripts.
Context (scripts : list (list (Round E))).

Record inv (y : Sys) : Prop := {
  inv_length : length (sources y) = length scripts;
  inv_source : forall i s, sources y !! i = Some s -> source_ok s;
  inv_chain : forall i s script, sources y !! i = Some s -> scripts !! i = Some script -> forall b,
    chain y i s b `prefix_of` emits b script /\ (cancelled y = false -> chain y i s b = emits b script);
  inv_out : forall b, (length (outs y b) <= outCaps y b)%nat;
  inv_closed : outClosed y = true -> forall i s b, sources y !! i = Some s -> fws s b = Finished
}.

(** A step of one collector or of its forwarders that leaves the merged
    channels alone. *)
Lemma inv_with_source y i s s' : inv y -> sources y !! i = Some s -> source_ok s' -> continues (cancelled y) s s' ->
  inv (with_source y i s').
Proof.
  intros [Hlen Hok Hch Hout Hcl] Hi Hs' (Hcaps & Hfin & Hcont).
  assert (Hcases : forall j t, sources (with_source y i s') !! j = Some t -> (j = i /\ t = s') \/ (j <> i /\ sources y !! j = Some t)).
  { intros j t. cbn. intros [(-> & <- & _)|[? ?]]%list_lookup_insert_Some; [by left|right]. by split; [congruence|]. }
  split.
  - cbn. by rewrite length_insert.
  - intros j t [[_ ->]|[_ ?]]%Hcases; [done|by eapply Hok].
  - intros j t script Hj Hscr b. apply Hcases in Hj as [[-> ->]|[_ Hj]]; [|by apply Hch].
    destruct (Hch i s script Hi Hscr b) as [Hp He]. destruct (Hcont b) as [Hcp Hce]. unfold chain in *. cbn [got outs with_source cancelled]. split.
    + etrans; [|exact Hp]. by do 2 apply prefix_app.
    + intros Hc. by rewrite Hce, He.
  - done.
  - cbn. intros Hc j t b [[-> ->]|[_ Hj]]%Hcases; [|by eapply Hcl]. apply Hfin. by eapply Hcl.
Qed.

(** A message moves from one place of its way to the next. *)
Lemma inv_move y y' : inv y -> cancelled y' = cancelled y -> length (sources y') = length (sources y) ->
  (forall i s', sources y' !! i = Some s' -> exists s, sources y !! i = Some s /\ source_ok s' /\
     forall b, chain y' i s' b = chain y i s b /\ (fws s b = Finished -> fws s' b = Finished)) ->
  (forall b, (length (outs y' b) <= outCaps y' b)%nat) -> (outClosed y' = outClosed y) -> inv y'.
Proof.
  intros [Hlen Hok Hch Hout Hcl] Hc Hl Hs Ho Hcl'. split; [by rewrite Hl| | |done|].
  - intros i s' Hi. by destruct (Hs i s' Hi) as (s & _ & ? & _).
  - intros i s' script Hi Hscr b. destruct (Hs i s' Hi) as (s & Hi' & _ & Hb). destruct (Hb b) as [-> _]. rewrite Hc. by apply Hch.
  - rewrite Hcl'. intros E' i s' b Hi. destruct (Hs i s' Hi) as (s & Hi' & _ & Hb). apply Hb. by eapply Hcl.
Qed.

(** A forwarder puts its message, or the main loop takes one directly. *)
Lemma inv_put i b y y' : inv y -> step (LPut i b) y = Some y' -> inv y'.
Proof.
  intros Hinv. pose proof Hinv as [Hlen Hok Hch Hout Hcl]. cbn [step]. intros (s & Hi & H)%bind_Some. pose proof (Hok i s Hi) as Hs.
  destruct (fws s b) as [|m|] eqn:Ef; try done. destruct (outClosed y) eqn:Eo; [done|].
  destruct (Nat.ltb_spec (length (outs y b)) (outCaps y b)); [|done]. injection H as <-. apply (inv_move y); cbn [cancelled sources]; try done.
  - by rewrite length_insert.
  - intros j t (t0 & Hj & Hcase)%(lookup_with_source _ _ s); [|done]. exists t0. split; [done|].
    destruct Hcase as [(-> & -> & ->)|[Hne ->]].
    + split; [destruct Hs as (He & Hl & Hcap); split_and!; [done|done|]; intros b'; cbn; unfold upd; destruct (Bool.eqb b b') eqn:Eb;
        [by apply eqb_prop in Eb as ->|done]|].
      intros b'. unfold chain, coming, pending. cbn [got outs fws with_fw pc left chans]. destruct (Bool.eqb b b') eqn:Eb.
      * apply eqb_prop in Eb as ->. rewrite !upd_same, Ef, from_snoc, Nat.eqb_refl. cbn. split; [|done]. by rewrite <- !app_assoc.
      * by rewrite !upd_other.
    + split; [by eapply Hok|]. intros b'. split; [|done]. unfold chain. cbn [got outs]. destruct (Bool.eqb b b') eqn:Eb; [|by rewrite upd_other].
      apply eqb_prop in Eb as ->. rewrite upd_same, from_snoc. rewrite (proj2 (Nat.eqb_neq i j)) by done. by rewrite app_nil_r.
  - intros b'. cbn. unfold upd. destruct (Bool.eqb b b') eqn:Eb; [|done]. apply eqb_prop in Eb as ->. rewrite length_app. cbn. lia.
Qed.

Lemma inv_direct i b y y' : inv y -> unforwarded y -> step (LDirect i b) y = Some y' -> inv y'.
Proof.
  intros Hinv Hdir. pose proof Hinv as [Hlen Hok Hch Hout Hcl]. cbn [step]. intros (s & Hi & H)%bind_Some. pose proof (Hok i s Hi) as Hs.
  destruct (chans s b) as [|m r] eqn:Ec; [done|]. destruct (multi y) eqn:Em; [done|]. injection H as <-. apply (inv_move y); cbn [cancelled sources]; try done.
  - by rewrite length_insert.
  - intros j t (t0 & Hj & Hcase)%(lookup_with_source _ _ s); [|done]. exists t0. split; [done|].
    destruct Hcase as [(-> & -> & ->)|[Hne ->]].
    + split; [destruct Hs as (He & Hl & Hcap); split_and!; [done|done|]; intros b'; cbn; unfold upd; destruct (Bool.eqb b b') eqn:Eb;
        [apply eqb_prop in Eb as ->; specialize (Hcap b'); rewrite Ec in Hcap; cbn in Hcap; lia|done]|].
      destruct (Hdir Em) as [Hod Hfw]. intros b'. unfold chain, coming, pending. cbn [got outs fws with_chan pc left chans].
      rewrite (Hod b'), (Hfw i s b' Hi). split; [|done]. destruct (Bool.eqb b b') eqn:Eb.
      * apply eqb_prop in Eb as ->. rewrite !upd_same, from_snoc, Nat.eqb_refl, Ec. by rewrite <- !app_assoc.
      * by rewrite !upd_other.
    + split; [by eapply Hok|]. intros b'. split; [|done]. unfold chain. cbn [got outs]. destruct (Bool.eqb b b') eqn:Eb; [|by rewrite upd_other].
      apply eqb_prop in Eb as ->. rewrite upd_same, from_snoc. rewrite (proj2 (Nat.eqb_neq i j)) by done. by rewrite app_nil_r.
Qed.

Lemma inv_step l y y' : inv y -> unforwarded y -> step l y = Some y' -> inv y'.
Proof.
  intros Hinv Hdir. pose proof Hinv as [Hlen Hok Hch Hout Hcl]. destruct l as [i|i|i|i|i b|i b|i b| |b|i b|].
  6: by apply inv_put. 9: by apply inv_direct.
  all: cbn [step]. 1-6: intros (s & Hi & H)%bind_Some; pose proof (Hok i s Hi) as Hs.
  - apply fmap_Some in H as (s' & Hr & ->). destruct (read_ok (cancelled y) s s' Hs Hr). by eapply inv_with_source.
  - destruct (pc s); try done. destruct (cancelled y) eqn:Ec; [|done]. injection H as <-. destruct (ended_ok s Hs).
    eapply inv_with_source; [done..|]. by rewrite Ec.
  - apply fmap_Some in H as (s' & Hr & ->). destruct (send_ok (cancelled y) s s' Hs Hr). by eapply inv_with_source.
  - destruct (pc s) as [|[] ? ?|]; try done. destruct (cancelled y) eqn:Ec; [|done]. destruct (selecting s); [|done]. injection H as <-.
    destruct (ended_ok s Hs). eapply inv_with_source; [done..|]. by rewrite Ec.
  - destruct (multi y); [|done]. apply fmap_Some in H as (s' & Hr & ->). destruct (take_ok (cancelled y) s b s' Hs Hr). by eapply inv_with_source.
  - destruct (multi y); [|done]. apply fmap_Some in H as (s' & Hr & ->). destruct (finish_ok (cancelled y) s b s' Hs Hr). by eapply inv_with_source.
  - destruct (multi y && _) eqn:Ef; [|done]. intros [= <-]. split; try done. intros _ i s b Hi. apply andb_true_iff in Ef as [_ Ef]. rewrite forallb_forall in Ef.
    specialize (Ef s). apply andb_true_iff in Ef as [E1 E2]; [|by eapply list_elem_of_In, list_elem_of_lookup_2].
    destruct b; [by destruct (fws s true)|by destruct (fws s false)].
  - destruct (outs y b) as [|[j m] r] eqn:Eo; [done|]. intros [= <-]. apply (inv_move y); cbn [cancelled sources]; try done.
    + intros i s Hi. exists s. split; [done|]. split; [by eapply Hok|]. intros b'. split; [|done]. unfold chain. cbn [got outs].
      destruct (Bool.eqb b b') eqn:Eb; [|by rewrite !upd_other]. apply eqb_prop in Eb as ->.
      rewrite !upd_same, from_snoc, Eo. cbn [from]. destruct (Nat.eqb j i); [|by rewrite app_nil_r]. by rewrite <- app_assoc.
    + intros b'. cbn. unfold upd. destruct (Bool.eqb b b') eqn:Eb; [|done]. apply eqb_prop in Eb as ->.
      specialize (Hout b'). rewrite Eo in Hout. cbn in Hout. lia.
  - intros [= <-]. split; try done. intros i s script Hi Hscr b. split; [|done]. by apply Hch.
Qed.

(** The system as it starts: every collector at the beginning of its script. *)
Definition started (y0 : Sys) : Prop :=
  (exists selecting caps, length selecting = length scripts /\ length caps = length scripts /\
     sources y0 = zip_with (fun f script => f script) (zip_with startSource selecting caps) scripts) /\
  y0 = startSys (multi y0) (sources y0) (outCaps y0).

Lemma started_lookup y0 i s : started y0 -> sources y0 !! i = Some s ->
  exists selecting caps script, s = startSource selecting caps script /\ scripts !! i = Some script.
Proof.
  intros [(sel & caps & _ & _ & ->) _] (f & script & -> & (x & c & -> & _ & _)%lookup_zip_with_Some & Hs)%lookup_zip_with_Some.
  by exists x, c, script.
Qed.

Lemma inv_started y0 : started y0 -> inv y0 /\ unforwarded y0.
Proof.
  intros Hst. pose proof Hst as [(sel & caps & H1 & H2 & Hsrc) Hy]. split; [split|].
  - rewrite Hsrc, !length_zip_with. lia.
  - intros i s (x & c & script & -> & _)%(started_lookup _ _ _ Hst). split_and!; [done|done|]. intros b. cbn. lia.
  - intros i s script Hi Hscr b. destruct (started_lookup _ _ _ Hst Hi) as (x & c & script' & -> & Hscr'). rewrite Hscr in Hscr'.
    injection Hscr' as ->. rewrite Hy. unfold chain. cbn. done.
  - intros b. rewrite Hy. cbn. lia.
  - rewrite Hy. done.
  - intros _. rewrite Hy. split; [done|]. cbn. intros i s b (x & c & script & -> & _)%(started_lookup _ _ _ Hst). done.
Qed.

Lemma reachable_inv y0 y : started y0 -> reachable y0 y -> inv y /\ unforwarded y.
Proof.
  intros Hst. induction 1 as [|y l y' _ [IH IHu] Hs]; [by apply inv_started|].
  split; [by eapply inv_step|by eapply unforwarded_step].
Qed.

Lemma reachable_prefix y0 y : started y0 -> reachable y0 y -> forall i script b, scripts !! i = Some script ->
  from i (got y b) `prefix_of` emits b script.
Proof.
  intros Hst Hr i script b Hs. destruct (reachable_inv y0 y Hst Hr) as [Hinv _].
  destruct (lookup_lt_is_Some_2 (sources y) i) as [src Hsrc]; [rewrite (inv_length y Hinv); by eapply lookup_lt_Some|].
  destruct (inv_chain y Hinv i src script Hsrc Hs b) as [Hp _]. etrans; [|exact Hp]. unfold chain. by apply prefix_app_r.
Qed.

(** ** Everything read is delivered *)

(** While the context lives a forwarder finishes only when nothing more can
    come. *)
Definition finished_ok (y : Sys) : Prop := cancelled y = false ->
  forall i s b, sources y !! i = Some s -> fws s b = Finished -> pc s = Ended /\ chans s b = [].

Lemma finished_with y i s s' : finished_ok y -> sources y !! i = Some s ->
  (cancelled y = false -> forall b, fws s' b = Finished -> (fws s b = Finished -> pc s = Ended /\ chans s b = []) -> pc s' = Ended /\ chans s' b = []) ->
  finished_ok (with_source y i s').
Proof.
  intros Hf Hi Hs Hc j t b (t0 & Hj & [(-> & -> & ->)|[_ ->]])%(lookup_with_source _ _ s); [|by eauto|by eauto].
  intros Hfin. apply Hs; [done|done|]. by eapply Hf.
Qed.

Lemma finished_step l y y' : finished_ok y -> step l y = Some y' -> finished_ok y'.
Proof.
  intros Hf. destruct l as [i|i|i|i|i b|i b|i b| |b|i b|]; cbn [step].
  1-7, 10: intros (s & Hi & H)%bind_Some.
  - apply fmap_Some in H as (s' & Hr & ->). eapply finished_with; [done..|]. unfold read in Hr. intros _ b Hfin Hold. exfalso.
    destruct (pc s) eqn:Ep; try done. assert (fws s b = Finished) as [? _]%Hold by (destruct (left s) as [|[] r]; by simplify_eq). done.
  - destruct (pc s) eqn:Ep; try done. destruct (cancelled y) eqn:Ec; [|done]. injection H as <-. intros Hc. cbn in Hc. congruence.
  - apply fmap_Some in H as (s' & Hr & ->). eapply finished_with; [done..|]. unfold send in Hr. intros _ b Hfin Hold. exfalso.
    destruct (pc s) eqn:Ep; try done. destruct (_ <? _)%nat; [|done]. injection Hr as <-. by apply Hold in Hfin as [? _].
  - destruct (pc s) as [|[] ? ?|]; try done. destruct (cancelled y) eqn:Ec; [|done]. destruct (selecting s); [|done]. injection H as <-.
    intros Hc. cbn in Hc. congruence.
  - destruct (multi y); [|done]. apply fmap_Some in H as (s' & Hr & ->). eapply finished_with; [done..|]. unfold take_ in Hr. intros _ b' Hfin Hold.
    destruct (fws s b) eqn:Ef; try done. destruct (chans s b) as [|m r]; [done|]. injection Hr as <-. cbn in *. unfold upd in *.
    destruct (Bool.eqb b b') eqn:Eb; [done|]. by apply Hold.
  - destruct (fws s b) eqn:Ef; try done. destruct (outClosed y); [done|]. destruct (_ <? _)%nat; [|done]. injection H as <-.
    refine (finished_with y i s _ Hf Hi _). intros _ b' Hfin Hold. cbn in *. unfold upd in *.
    destruct (Bool.eqb b b') eqn:Eb; [done|]. by apply Hold.
  - destruct (multi y); [|done]. apply fmap_Some in H as (s' & Hr & ->). eapply finished_with; [done..|]. unfold finish in Hr. intros Hc b' Hfin Hold.
    rewrite Hc in Hr. destruct (fws s b) eqn:Ef; [|by destruct (pc s)|done]. destruct (pc s) eqn:Ep; try done. destruct (chans s b) eqn:Ech; [|done].
    injection Hr as <-. cbn in *. unfold upd in *. destruct (Bool.eqb b b') eqn:Eb; [by split|]. split; [done|]. by apply Hold.
  - destruct (chans s b) as [|m r] eqn:Ec; [done|]. destruct (multi y); [done|]. injection H as <-.
    refine (finished_with y i s (with_chan s (pc s) b r) Hf Hi _). intros _ b' Hfin Hold. cbn in *. unfold upd.
    destruct (Hold Hfin) as [? Hnil]. split; [done|]. destruct (Bool.eqb b b') eqn:Eb; [|done]. apply eqb_prop in Eb as ->. congruence.
  - destruct (multi y && _); [|done]. intros [= <-]. exact Hf.
  - destruct (outs y b) as [|m r]; [done|]. intros [= <-]. exact Hf.
  - intros [= <-] Hc. done.
Qed.

(** The distance of what is under way from the main loop. *)
Definition flight (f : Forwarder) : Z := match f with Holding _ => 2 | _ => 0 end.
Definition distance (s : Source) : Z :=
  5 * Z.of_nat (length (left s)) + (match pc s with Sending _ _ _ => 4 | _ => 0 end)
  + 3 * Z.of_nat (length (chans s false)) + flight (fws s false) + 3 * Z.of_nat (length (chans s true)) + flight (fws s true).
Definition work (y : Sys) : Z :=
  sumZ distance (sources y) + Z.of_nat (length (outs y false)) + Z.of_nat (length (outs y true)).

Lemma distance_nonneg s : 0 <= distance s.
Proof. unfold distance, flight. destruct (pc s), (fws s false), (fws s true); lia. Qed.

Lemma work_with y i s s' : sources y !! i = Some s -> sumZ distance (<[i := s']> (sources y)) = sumZ distance (sources y) - distance s + distance s'.
Proof.
  intros Hi. rewrite insert_take_drop by (by eapply lookup_lt_Some). rewrite <- (take_drop_middle (sources y) i s Hi) at 3.
  rewrite !sumZ_app, !sumZ_cons. lia.
Qed.

Definition schedule : Sys -> Sys -> Prop := rtc (fun y y' => exists l, step l y = Some y').

(** Every channel that is used has room for a message. *)
Definition capable (y : Sys) : Prop :=
  (multi y = true -> forall i s b, sources y !! i = Some s -> (0 < outCaps y b)%nat) /\
  forall i s script b, sources y !! i = Some s -> scripts !! i = Some script -> caps s b = 0%nat -> emits b script = [].

Record live (y : Sys) : Prop := {
  live_inv : inv y; live_direct : unforwarded y; live_finished : finished_ok y; live_on : cancelled y = false; live_caps : capable y
}.

Lemma capable_shape y y' : capable y -> same_shape y y' -> capable y'.
Proof.
  intros [Ho Hcap] (Em & Eo & _ & Es). split.
  - rewrite Em, Eo. intros Hm i s' b (s & ? & _)%Es. by eapply Ho.
  - intros i s' script b (s & ? & ->)%Es Hscr. by eapply Hcap.
Qed.

Lemma live_step l y y' : live y -> step l y = Some y' -> cancelled y' = false -> live y'.
Proof.
  intros [Hi Hu Hf Hc Hcap] Hs Hc'.
  split; [by eapply inv_step|by eapply unforwarded_step|by eapply finished_step|done|by eapply capable_shape, shape_step].
Qed.

(** A step of one collector that brings it forward. *)
Lemma forward_step l y i s s' outs' got' :
  live y -> sources y !! i = Some s -> caps s' = caps s ->
  step l y = Some {| multi := multi y; sources := <[i := s']> (sources y); outCaps := outCaps y; outs := outs';
                     outClosed := outClosed y; cancelled := cancelled y; got := got' |} ->
  distance s' + Z.of_nat (length (outs' false)) + Z.of_nat (length (outs' true)) <
    distance s + Z.of_nat (length (outs y false)) + Z.of_nat (length (outs y true)) ->
  exists l y', step l y = Some y' /\ live y' /\ work y' < work y.
Proof.
  intros Hl Hi Hc Hs Hd. do 2 eexists. split; [exact Hs|]. split.
  - eapply live_step; [exact Hl|exact Hs|exact (live_on y Hl)].
  - unfold work. cbn [sources outs]. rewrite (work_with y i s s' Hi). lia.
Qed.

Lemma reachable_live y0 y : started y0 -> capable y0 -> reachable y0 y -> cancelled y = false -> live y.
Proof.
  intros Hst Hcap Hr Hc. destruct (reachable_inv y0 y Hst Hr) as [Hi Hu]. assert (finished_ok y /\ capable y) as [? ?]; [|by split].
  clear Hi Hu Hc. induction Hr as [|y l y' _ [IH1 IH2] Hs]; [split; [|done]|split; [by eapply finished_step|by eapply capable_shape, shape_step]].
  intros _ i s b (x & c & script & -> & _)%(started_lookup _ _ _ Hst). done.
Qed.

Lemma reachable_known y0 y : started y0 -> reachable y0 y -> known y.
Proof.
  intros Hst. induction 1 as [|y l y' _ IH Hs]; [|by eapply known_step]. destruct Hst as [_ ->]. intros b i m. cbn. set_solver.
Qed.

Lemma sumZ_pos_elem {A} (f : A -> Z) l : 0 < sumZ f l -> exists i x, l !! i = Some x /\ 0 < f x.
Proof.
  induction l as [|x l IH]; [done|]. rewrite sumZ_cons. intros H. destruct (decide (0 < f x)) as [|Hn]; [by exists 0%nat, x|].
  destruct IH as (i & y & ? & ?); [lia|]. by exists (S i), y.
Qed.

Definition steps_forward (y : Sys) : Prop := exists l y', step l y = Some y' /\ live y' /\ work y' < work y.

Lemma put_forward y i s b m : live y -> (forall b, outs y b = []) -> sources y !! i = Some s -> fws s b = Holding m -> steps_forward y.
Proof.
  intros Hl Ho Hi Ef. pose proof Hl as [Hinv Hu _ _ [Hcap _]].
  destruct (multi y) eqn:Em; [|destruct (Hu Em) as [_ Hidle]; by rewrite (Hidle i s b Hi) in Ef].
  apply (forward_step (LPut i b) y i s (with_fw s b (chans s b) Idle) (upd (outs y) b [(i, m)]) (got y)); [done..| |].
  - cbn [step]. rewrite Hi. cbn. rewrite Em, Ef. destruct (outClosed y) eqn:Eo; [by rewrite (inv_closed y Hinv Eo i s b Hi) in Ef|].
    specialize (Hcap eq_refl i s b Hi). rewrite (Ho b).
    destruct (outCaps y b); [lia|done].
  - rewrite !Ho. unfold distance. cbn [left with_fw pc chans fws]. destruct b; unfold upd; cbn [Bool.eqb]; rewrite ?Ho, Ef; cbn [flight length]; lia.
Qed.

Lemma take_forward y i s b m r : live y -> (forall b, outs y b = []) -> sources y !! i = Some s -> fws s b = Idle -> chans s b = m :: r ->
  steps_forward y.
Proof.
  intros Hl Ho Hi Ef Ec. destruct (multi y) eqn:Em.
  - apply (forward_step (LTake i b) y i s (with_fw s b r (Holding m)) (outs y) (got y)); [done..| |].
    + cbn [step]. rewrite Hi. cbn. unfold take_. rewrite Em, Ef, Ec. cbn. unfold with_source. by rewrite Em.
    + rewrite !Ho. unfold distance. cbn [left with_fw pc chans fws]. destruct b; unfold upd; cbn [Bool.eqb length]; rewrite Ef, Ec; cbn [flight length]; lia.
  - apply (forward_step (LDirect i b) y i s (with_chan s (pc s) b r) (outs y) (upd (got y) b (got y b ++ [(i, m)]))); [done..| |].
    + cbn [step]. rewrite Hi. cbn. by rewrite Ec, Em.
    + rewrite !Ho. unfold distance. cbn [left with_chan pc chans fws]. destruct b; unfold upd; cbn [Bool.eqb length]; rewrite Ec; cbn [length]; lia.
Qed.

Lemma send_forward y i s b m last : live y -> (forall b, outs y b = []) -> sources y !! i = Some s ->
  pc s = Sending b m last -> chans s b = [] -> steps_forward y.
Proof.
  intros Hl Ho Hi Ep Ec. pose proof Hl as [Hinv _ Hf Hc [_ Hcap]].
  assert (Hroom : (0 < caps s b)%nat).
  { destruct (caps s b) eqn:Ecap; [exfalso|lia].
    destruct (lookup_lt_is_Some_2 scripts i) as [script Hscr]; [rewrite <- (inv_length y Hinv); by eapply lookup_lt_Some|].
    destruct (inv_chain y Hinv i s script Hi Hscr b) as [_ Hch]. specialize (Hch Hc). rewrite (Hcap i s script b Hi Hscr Ecap) in Hch.
    unfold chain, coming, pending in Hch. rewrite Ep, eqb_reflx in Hch. destruct (fws s b) eqn:Ef.
    3: { by destruct (Hf Hc i s b Hi Ef) as [? _]; rewrite Ep in *. }
    all: apply app_nil in Hch as [_ Hch]; apply app_nil in Hch as [_ Hch]; apply app_nil in Hch as [_ Hch]; apply app_nil in Hch as [_ Hch]; done. }
  apply (forward_step (LSend i) y i s (with_chan s (if last then Ended else Reading) b [m]) (outs y) (got y)); [done..| |].
  - cbn [step]. rewrite Hi. cbn. unfold send. rewrite Ep, Ec.
    destruct (Nat.ltb_spec (length (@nil Msg)) (caps s b)) as [_|Hge]; [done|cbn in Hge; lia].
  - rewrite !Ho. unfold distance. cbn [left with_chan pc chans fws]. rewrite Ep. destruct b; unfold upd; cbn [Bool.eqb length]; rewrite Ec;
      destruct last; cbn [length]; lia.
Qed.

Lemma read_forward y i s : live y -> (forall b, outs y b = []) -> sources y !! i = Some s -> pc s = Reading -> left s <> [] -> steps_forward y.
Proof.
  intros Hl Ho Hi Ep El. destruct (left s) as [|r rs] eqn:Els; [done|].
  assert (Hr : exists rest pc', read s = Some (with_pc s rest pc') /\
    5 * Z.of_nat (length rest) + match pc' with Sending _ _ _ => 4 | _ => 0 end < 5 * Z.of_nat (length (left s))).
  { unfold read. rewrite Ep, Els. destruct r; do 2 eexists; (split; [reflexivity|]); cbn [length]; lia. }
  destruct Hr as (rest & pc' & Hr & Hd). apply (forward_step (LRead i) y i s (with_pc s rest pc') (outs y) (got y)); [done..| |].
  - cbn [step]. rewrite Hi. cbn. by rewrite Hr.
  - rewrite !Ho. unfold distance. cbn [left with_pc pc chans fws]. rewrite Ep. lia.
Qed.

(** As long as something is under way, a step brings it nearer. *)
Lemma progress y : live y -> 0 < work y -> steps_forward y.
Proof.
  intros Hl Hw. pose proof Hl as [Hinv Hu Hf Hc _].
  assert (Hout : (exists b m r, outs y b = m :: r) \/ (forall b, outs y b = [])).
  { destruct (outs y false) eqn:E1; [|left; by eexists false, _, _]. destruct (outs y true) eqn:E2; [right; by intros []|left; by eexists true, _, _]. }
  destruct Hout as [(b & m & r & Eo)|Ho].
  { do 2 eexists. assert (Hs : step (LReceive b) y = Some {| multi := multi y; sources := sources y; outCaps := outCaps y;
      outs := upd (outs y) b r; outClosed := outClosed y; cancelled := cancelled y; got := upd (got y) b (got y b ++ [m]) |})
      by (cbn [step]; by rewrite Eo). split; [exact Hs|]. split.
    - eapply live_step; [exact Hl|exact Hs|done].
    - unfold work. cbn [sources outs]. destruct b; rewrite Eo; unfold upd; cbn [Bool.eqb length]; lia. }
  unfold work in Hw. rewrite !Ho in Hw. cbn [length] in Hw. destruct (sumZ_pos_elem distance (sources y)) as (i & s & Hi & Hd); [lia|].
  pose proof (inv_source y Hinv i s Hi) as (Hend & _ & _).
  assert (Hlane : forall b, steps_forward y \/ (chans s b = [] /\ flight (fws s b) = 0)).
  { intros b. destruct (fws s b) as [|m|] eqn:Ef; [|left; by eapply put_forward|right; by split; [eapply Hf|]].
    destruct (chans s b) eqn:Ec; [by right|left; by eapply take_forward]. }
  destruct (Hlane false) as [|[E1 F1]]; [done|]. destruct (Hlane true) as [|[E2 F2]]; [done|].
  assert (Ec : forall b, chans s b = []) by (by intros []). unfold distance in Hd. rewrite E1, E2, F1, F2 in Hd. cbn [length] in Hd.
  destruct (pc s) as [|b m last|] eqn:Ep; [|by eapply send_forward|by rewrite Hend in Hd].
  apply (read_forward y i s); [done..|]. intros E0. rewrite E0 in Hd. cbn in Hd. lia.
Qed.

Lemma sumZ_nonneg_zero (l : list Source) i s : sumZ distance l = 0 -> l !! i = Some s -> distance s = 0.
Proof.
  revert i. induction l as [|x l IH]; [done|]. intros i. rewrite sumZ_cons. pose proof (distance_nonneg x).
  pose proof (sumZ_nonneg distance l (fun s _ => distance_nonneg s)). intros Hz Hi. destruct i; [injection Hi as <-; lia|]. eapply IH; [|done]. lia.
Qed.

(** A state with nothing under way: the main loop has it all. *)
Lemma drained y i s script : live y -> work y = 0 -> sources y !! i = Some s -> scripts !! i = Some script ->
  forall b, from i (got y b) = emits b script.
Proof.
  intros [Hinv _ _ Hc _] Hw Hi Hscr b. destruct (inv_chain y Hinv i s script Hi Hscr b) as [_ Hch]. rewrite <- (Hch Hc).
  unfold work in Hw. pose proof (sumZ_nonneg distance (sources y) (fun s _ => distance_nonneg s)).
  assert (sumZ distance (sources y) = 0) as Hz by lia. pose proof (sumZ_nonneg_zero _ _ _ Hz Hi) as Hd.
  assert (Ho : outs y b = []) by (apply nil_length_inv; destruct b; lia). unfold distance in Hd.
  assert (Hl : left s = []) by (apply nil_length_inv; destruct (pc s), (fws s false), (fws s true); cbn [flight] in Hd; lia).
  assert (Hch0 : chans s b = []) by (apply nil_length_inv; destruct b, (pc s), (fws s false), (fws s true); cbn [flight] in Hd; lia).
  assert (Hf : holding (fws s b) = []) by (destruct b, (pc s), (fws s false), (fws s true); cbn [flight] in Hd; try done; lia).
  assert (Hp : match pc s with Sending b' m _ => if Bool.eqb b' b then [m] else [] | _ => [] end = [])
    by (destruct (pc s), (fws s false), (fws s true); cbn [flight] in Hd; try done; lia).
  unfold chain, coming, pending. rewrite Ho, Hl, Hch0, Hp. cbn [from emits app]. destruct (fws s b); by rewrite ?app_nil_r.
Qed.

Lemma work_nonneg y : 0 <= work y.
Proof. unfold work. pose proof (sumZ_nonneg distance (sources y) (fun s _ => distance_nonneg s)). lia. Qed.

Lemma drains y : live y -> exists y', schedule y y' /\ live y' /\ work y' = 0.
Proof.
  intros Hl. remember (Z.to_nat (work y)) as n eqn:En. revert y Hl En. induction (lt_wf n) as [n _ IH]. intros y Hl ->.
  pose proof (work_nonneg y). destruct (decide (work y = 0)) as [|Hne]; [exists y; split_and!; [constructor|done|done]|].
  destruct (progress y Hl) as (l & y1 & Hs & Hl1 & Hw); [lia|]. pose proof (work_nonneg y1).
  destruct (IH (Z.to_nat (work y1))) with (y := y1) as (y' & Hsch & ? & ?); [lia|done|done|].
  exists y'. split_and!; [|done|done]. eapply rtc_l; [by exists l|done].
Qed.
End scripts.
End system.
Arguments Round E : clear implicits.

(** ** The agent's collectors *)

(** A collector with what its reader yields. *)
Inductive Capture :=
| Ebpf (c : EBPFCollector) (reads : list ReadResult)
| Icmp (reg : Registration) (iface : string) (recvs : list RecvResult)
| Mock (reg : Registration) (ticks : list (Random * time)).

Section agent.
Context `{UnicodeCase}.

(** The rounds of its loop; [None] when a parser panics. *)
Definition script (k : Capture) : option (list (Round Pipeline.FlowMetric)) :=
  match k with
  | Ebpf c reads => Some (map (ebpf_round c) reads)
  | Icmp reg iface recvs => mapM (icmp_round reg iface) recvs
  | Mock reg ticks => Some (map (fun '(random, now) => mock_round (event random reg) (Some now)) ticks)
  end.

Definition capacity (k : Capture) (errors : bool) : nat :=
  match k with
  | Ebpf _ _ => if errors then 8 else 1024
  | Icmp _ _ _ => if errors then 4 else 256
  | Mock _ _ => if errors then 0 else 64
  end%nat.
Definition selects (k : Capture) : bool := match k with Icmp _ _ _ => true | _ => false end.

(** The collectors [run] starts and whether they are combined: [mode] is the
    eBPF collector's and [icmp] what [NewCollector] gave. *)
Definition mainSource (MockMode : bool) (mode : string) (mock ebpf : Capture) (icmp : Result Capture) : bool * list Capture :=
  if MockMode then (false, [mock])
  else if negb (mode =? "tc")%string
  then match icmp with Err _ => (false, [ebpf]) | Ok icmpSource => (true, [ebpf; icmpSource]) end
  else (false, [ebpf]).

(** [source.Run]. *)
Definition Run (multi : bool) (ks : list Capture) (scripts : list (list (Round Pipeline.FlowMetric))) : Sys :=
  startSys multi (zip_with (fun k s => startSource (selects k) (capacity k) s) ks scripts)
    (fun errors => if errors then length ks else 1024%nat).

(** *** What a collector owes *)

Fixpoint samples (reads : list ReadResult) : list (time * list Z) :=
  match reads with ReadSample now sample :: r => (now, sample) :: samples r | _ => [] end.
Fixpoint packets (recvs : list RecvResult) : list (time * list Z * option Z) :=
  match recvs with
  | [] => []
  | Received now packet pkttype :: r => (now, packet, pkttype) :: packets r
  | RecvFailed done bad _ :: r => if done || bad then [] else packets r
  end.

(** The events of everything read before the reader failed or was closed. *)
Definition captured (k : Capture) : list Pipeline.FlowMetric :=
  match k with
  | Ebpf c reads => omap (fun '(now, sample) => match collect c now sample with Ok e => Some e | Err _ => None end) (samples reads)
  | Icmp reg iface recvs => omap (fun '(now, packet, pkttype) => mjoin (icmp_parse reg iface now packet pkttype)) (packets recvs)
  | Mock reg ticks => map (fun '(random, now) => event random reg now) ticks
  end.

(** A registered host, a clock past the epoch, and bytes. *)
Definition capture_ok (k : Capture) : Prop :=
  match k with
  | Ebpf c reads => registration_ok (registration c) /\ Forall (fun r => match r with ReadSample now s => 0 < now /\ Forall byte_ok s | _ => True end) reads
  | Icmp reg _ recvs => registration_ok reg /\ Forall (fun r => match r with Received now p _ => 0 < now /\ Forall byte_ok p | _ => True end) recvs
  | Mock reg ticks => clean (RAgentID reg) /\ Forall ip_ok (Collector.PrivateIPs reg) /\ Forall (fun '(_, now) => Second <= now) ticks
  end.

(** *** The collectors' scripts *)

Lemma ebpf_emits c reads : emits false (map (ebpf_round c) reads) = map inl (captured (Ebpf c reads)).
Proof.
  cbn [captured]. induction reads as [|[now sample| |err] r IH]; [done| |done|done]. cbn [map samples omap list_omap ebpf_round].
  unfold collect. destruct (decodeRawFlowEvent sample); cbn; [by f_equal|done].
Qed.

Lemma icmp_script reg iface recvs : Forall (fun r => match r with Received _ p _ => Forall byte_ok p | _ => True end) recvs ->
  exists s, mapM (icmp_round reg iface) recvs = Some s /\ emits false s = map inl (captured (Icmp reg iface recvs)).
Proof.
  cbn [captured]. induction 1 as [|r recvs Hr _ (s & IH & Es)]; [by exists []|].
  assert (Hc : forall x, icmp_round reg iface r = Some x -> mapM (icmp_round reg iface) (r :: recvs) = Some (x :: s))
    by (intros x Hx; cbn [mapM]; by rewrite Hx, IH).
  destruct r as [now packet pkttype|done bad err]; cbn [icmp_round packets] in *.
  - destruct (icmp_parse_total reg iface now packet pkttype Hr) as [[e|] Ep]; rewrite Ep in Hc;
      (eexists; split; [by apply Hc|]); cbn [omap list_omap]; rewrite Ep; cbn; by rewrite Es.
  - eexists. split; [by apply Hc|]. by destruct (done || bad).
Qed.

Lemma mock_emits reg ticks b : emits b (map (fun '(random, now) => mock_round (event random reg) (Some now)) ticks) =
  if b then [] else map inl (captured (Mock reg ticks)).
Proof. cbn [captured]. induction ticks as [|[random now] r IH]; [by destruct b|]. by destruct b; cbn in *; rewrite IH. Qed.

Lemma script_ok k : capture_ok k -> exists s, script k = Some s /\ emits false s = map inl (captured k) /\
  forall b, capacity k b = 0%nat -> emits b s = [].
Proof.
  destruct k as [c reads|reg iface recvs|reg ticks]; cbn [script capture_ok capacity].
  - intros _. eexists. split_and!; [done|apply ebpf_emits|by intros []].
  - intros [_ Hf]. destruct (icmp_script reg iface recvs) as (s & ? & ?); [|exists s; split_and!; [done|done|by intros []]].
    eapply Forall_impl; [done|]. by intros [] ?; naive_solver.
  - intros _. eexists. split_and!; [done|apply (mock_emits reg ticks false)|]. intros [] ?; [apply (mock_emits reg ticks true)|done].
Qed.

(** *** The events are well formed *)

Lemma samples_ok reads : Forall (fun r => match r with ReadSample now s => 0 < now /\ Forall byte_ok s | _ => True end) reads ->
  Forall (fun '(now, s) => 0 < now /\ Forall byte_ok s) (samples reads).
Proof. induction 1 as [|[] ? ? ? IH]; cbn; by try constructor. Qed.

Lemma packets_ok recvs : Forall (fun r => match r with Received now p _ => 0 < now /\ Forall byte_ok p | _ => True end) recvs ->
  Forall (fun '(now, p, _) => 0 < now /\ Forall byte_ok p) (packets recvs).
Proof. induction 1 as [|[|done bad ?] ? ? ? IH]; cbn; [constructor|by constructor|by destruct (done || bad)]. Qed.

Lemma prefix_elem {A} (l1 l2 : list A) x : l1 `prefix_of` l2 -> x ∈ l1 -> x ∈ l2.
Proof. intros [k ->]. rewrite elem_of_app. by left. Qed.

Lemma Forall_omap_intro {A B} (f : A -> option B) (P : B -> Prop) l :
  Forall (fun x => forall y, f x = Some y -> P y) l -> Forall P (omap f l).
Proof. induction 1 as [|x l Hx _ IH]; cbn; [constructor|]. destruct (f x); [constructor; auto|done]. Qed.

Lemma captured_ok k : capture_ok k -> Forall event_ok (captured k).
Proof.
  destruct k as [c reads|reg iface recvs|reg ticks]; cbn [capture_ok captured].
  - intros [Hr Hf%samples_ok]. apply Forall_omap_intro. eapply Forall_impl; [exact Hf|]. intros [now s] [Hnow Hb] e.
    destruct (collect c now s) as [e'|] eqn:Ec; [|done]. intros [= <-].
    destruct (collector_events_ok c now s Hr Hnow (collect_size _ _ _ _ Ec) Hb) as (e & Ee & He & _). congruence.
  - intros [Hr Hf%packets_ok]. apply Forall_omap_intro. eapply Forall_impl; [exact Hf|]. intros [[now p] t] [Hnow Hb] e.
    destruct (icmp_parse_safe reg iface now p t Hr Hnow Hb) as ([e'|] & -> & Hok); [|done]. cbn. intros [= <-]. apply Hok.
  - intros (Hc & Hips & Hf). apply Forall_map. eapply Forall_impl; [exact Hf|]. intros [random now] Hnow. by apply mock_event_ok.
Qed.

(** *** The running system *)

Lemma scripts_ok ks : Forall capture_ok ks -> exists ss, mapM script ks = Some ss /\ length ss = length ks /\
  forall i k s, ks !! i = Some k -> ss !! i = Some s -> emits false s = map inl (captured k) /\ forall b, capacity k b = 0%nat -> emits b s = [].
Proof.
  induction 1 as [|k ks Hk _ (ss & IH & Hlen & Hss)]; [by exists []|]. destruct (script_ok k Hk) as (s & Es & He & Hz).
  exists (s :: ss). split_and!; [cbn [mapM]; by rewrite Es, IH|cbn; by rewrite Hlen|]. intros [|i]; cbn; [by intros ? ? [= ->] [= ->]|apply Hss].
Qed.

Lemma Run_started multi ks ss : length ss = length ks -> started ss (Run multi ks ss).
Proof.
  intros Hlen. split; [|done]. exists (map selects ks), (map capacity ks). rewrite !length_map. split_and!; [done|done|]. cbn.
  rewrite zip_with_fmap_l, zip_with_fmap_r. revert ss Hlen. induction ks as [|k ks IH]; intros [|s ss]; try done. cbn. intros [= ?]. by rewrite <- IH.
Qed.

Lemma Run_source multi ks ss i s : sources (Run multi ks ss) !! i = Some s ->
  exists k sc, ks !! i = Some k /\ ss !! i = Some sc /\ s = startSource (selects k) (capacity k) sc.
Proof. cbn. intros (k & sc & -> & ? & ?)%lookup_zip_with_Some. eauto. Qed.

Lemma Run_drains multi ks ss y : length ss = length ks ->
  (forall i k s, ks !! i = Some k -> ss !! i = Some s -> forall b, capacity k b = 0%nat -> emits b s = []) ->
  reachable (Run multi ks ss) y -> cancelled y = false ->
  exists y', schedule y y' /\ cancelled y' = false /\ forall i s b, ss !! i = Some s -> from i (got y' b) = emits b s.
Proof.
  intros Hlen Hem Hr Hc. assert (Hl : live ss y).
  { eapply reachable_live; [by apply (Run_started multi)| |exact Hr|exact Hc]. split.
    - intros _ i s b (k & sc & Hk & _)%Run_source. cbn. destruct b; [|lia]. apply lookup_lt_Some in Hk. lia.
    - intros i s sc b (k & sc' & Hk & Hs & ->)%Run_source Hs'. rewrite Hs in Hs'. injection Hs' as ->. by apply (Hem i k sc). }
  destruct (drains ss y Hl) as (y' & Hsch & Hl' & Hw). exists y'. split_and!; [done|apply (live_on ss y' Hl')|].
  intros i s b Hs. destruct (lookup_lt_is_Some_2 (sources y') i) as [src Hsrc].
  { rewrite (inv_length ss y' (live_inv ss y' Hl')). by eapply lookup_lt_Some. }
  apply (drained ss y' i src s Hl' Hw Hsrc Hs).
Qed.

(** C16: Nothing captured is lost, doubled or reordered on its way to the
    main loop.  Whatever the readers yield and however the goroutines are
    scheduled, no parser indexes out of range; what the loop has received
    from a collector is at any time the beginning of the events of
    everything that collector read, in order, and of its errors; every event
    is well formed; the combined channels keep to their capacity, and once
    they are closed no forwarder is left that could send on them. *)
Theorem capture_lossless (multi : bool) (ks : list Capture) : Forall capture_ok ks ->
  exists ss, mapM script ks = Some ss /\ length ss = length ks /\
  forall y, reachable (Run multi ks ss) y ->
    (forall i k s, ks !! i = Some k -> ss !! i = Some s ->
       from i (got y false) `prefix_of` map inl (captured k) /\ from i (got y true) `prefix_of` emits true s) /\
    (forall i m, (i, m) ∈ got y false -> exists e, m = inl e /\ event_ok e) /\
    (forall errors, (length (outs y errors) <= if errors then length ks else 1024)%nat) /\
    (outClosed y = true -> forall i s b, sources y !! i = Some s -> fws s b = Finished).
Proof.
  intros Hok. destruct (scripts_ok ks Hok) as (ss & Hss & Hlen & Hem). exists ss. split; [done|]. split; [done|]. intros y Hr.
  pose proof (Run_started multi ks ss Hlen) as Hst. destruct (reachable_inv ss _ y Hst Hr) as [Hinv _].
  pose proof (reachable_prefix ss _ y Hst Hr) as Hpre.
  split_and!.
  - intros i k s Hk Hs. destruct (Hem i k s Hk Hs) as [<- _]. split; by apply Hpre.
  - intros i m Hin. pose proof (reachable_known ss _ y Hst Hr false i m) as Hi. rewrite (inv_length ss y Hinv) in Hi.
    destruct (lookup_lt_is_Some_2 ss i) as [s Hs]; [apply Hi; set_solver|]. destruct (lookup_lt_is_Some_2 ks i) as [k Hk]; [rewrite <- Hlen; by eapply lookup_lt_Some|].
    pose proof (Hpre i s false Hs) as Hp. rewrite (proj1 (Hem i k s Hk Hs)) in Hp.
    assert (m ∈ map inl (captured k)) as (e & -> & He)%list_elem_of_fmap by (eapply prefix_elem; [exact Hp|by apply from_elem]).
    exists e. split; [done|]. eapply Forall_forall; [apply captured_ok|exact He]. by eapply Forall_lookup_1.
  - intros errors. etrans; [apply (inv_out ss y Hinv)|]. by rewrite (reachable_outCaps _ _ Hr).
  - apply (inv_closed ss y Hinv).
Qed.

(** Everything captured is delivered.  From any state the running agent
    can be in before it is told to stop, there are steps after which the
    main loop has received every event and every error of every collector:
    no goroutine is stuck, the combined collector's bounded channels
    included. *)
Theorem capture_drains (multi : bool) (ks : list Capture) : Forall capture_ok ks ->
  exists ss, mapM script ks = Some ss /\
  forall y, reachable (Run multi ks ss) y -> cancelled y = false ->
  exists y', schedule y y' /\ cancelled y' = false /\
    forall i k s, ks !! i = Some k -> ss !! i = Some s ->
      from i (got y' false) = map inl (captured k) /\ from i (got y' true) = emits true s.
Proof.
  intros Hok. destruct (scripts_ok ks Hok) as (ss & Hss & Hlen & Hem). exists ss. split; [done|]. intros y Hr Hc.
  destruct (Run_drains multi ks ss y Hlen (fun i k s Hk Hs => proj2 (Hem i k s Hk Hs)) Hr Hc) as (y' & Hsch & Hc' & Hall).
  exists y'. split_and!; [done|done|]. intros i k s Hk Hs. rewrite !(Hall i s) by done. split; [by apply (Hem i k s)|done].
Qed.
End agent.

(** ** Starting the ICMP collector *)

(** [NewCollector] leaves no descriptor open when it fails, and exactly its
    own when it succeeds. *)
Lemma NewCollector_open `{PacketHost} reg ifaceName open :
  (forall fd, Socket (htons ETH_P_ALL) = Ok fd -> fd ∉ open) ->
  match NewCollector reg ifaceName open with
  | (Err _, open') => open' = open
  | (Ok (iface, fd), open') => open' = (fd :: open) /\ (fd ∉ open) /\ iface <> ""
  end.
Proof.
  intros Hfresh. unfold NewCollector. set (iface := firstNonEmpty _). destruct (String.eqb_spec iface ""); [done|].
  destruct (IfaceByName iface) as [index|]; [|done]. destruct (Socket (htons ETH_P_ALL)) as [fd|] eqn:Es; [|done].
  specialize (Hfresh fd eq_refl). destruct (Bind fd (htons ETH_P_ALL) index); [|by split_and!].
  unfold closed. rewrite filter_cons_False by (by intros ?). clear Es. induction open as [|x l IH]; [done|].
  apply not_elem_of_cons in Hfresh as [? ?]. rewrite filter_cons_True by done. by rewrite IH.
Qed.

(** ** A small run *)

Definition sample_captures : list Capture :=
  [ Ebpf {| registration := sample_registration; ifaceName := "eth0" |}
      [ReadSample 1000000 (encodeRawFlowEvent sample_raw); ReadSample 1000001 [1; 2; 3]; ReadClosed];
    Icmp sample_registration "eth0" [Received 1000000 sample_frame None; RecvFailed false false (Errorf "interrupted" [])] ].

Lemma sample_captures_ok : Forall capture_ok sample_captures.
Proof.
  assert (Hr : Forall byte_ok (encodeRawFlowEvent sample_raw)) by (vm_compute; repeat constructor; discriminate).
  assert (Hf : Forall byte_ok sample_frame) by (repeat constructor; discriminate).
  assert (Hs : Forall byte_ok [1; 2; 3]) by (repeat constructor; discriminate).
  constructor; [|constructor; [|constructor]]; (split; [apply sample_registration_ok|]).
  - constructor; [split; [reflexivity|exact Hr]|]. constructor; [split; [reflexivity|exact Hs]|]. by constructor.
  - constructor; [split; [reflexivity|exact Hf]|]. by constructor.
Qed.

Lemma capture_lossless_witness : exists ss, mapM (@script id) sample_captures = Some ss /\
  forall y, reachable (Run true sample_captures ss) y -> (length (outs y true) <= 2)%nat.
Proof.
  destruct (@capture_lossless id true sample_captures sample_captures_ok) as (ss & Hss & _ & H). exists ss. split; [exact Hss|].
  intros y Hr. apply (proj1 (proj2 (proj2 (H y Hr))) true).
Defined.

Lemma capture_drains_witness : exists ss y', mapM (@script id) sample_captures = Some ss /\ schedule (Run true sample_captures ss) y' /\
  length (from 0 (got y' false)) = 1%nat /\ length (from 1 (got y' false)) = 1%nat /\ length (from 0 (got y' true)) = 1%nat.
Proof.
  destruct (@capture_drains id true sample_captures sample_captures_ok) as (ss & Hss & H).
  destruct (H (Run true sample_captures ss)) as (y' & Hy & _ & Hall); [constructor|reflexivity|]. exists ss, y'. split; [exact Hss|]. split; [exact Hy|].
  vm_compute in Hss. injection Hss as <-. destruct (Hall 0%nat _ _ eq_refl eq_refl) as [-> ->]. destruct (Hall 1%nat _ _ eq_refl eq_refl) as [-> _].
  vm_compute. repeat split.
Defined.
