(* ===== verification/EndToEnd.v ===== *)
(** From the network interface to the database: the collectors of
    CollectorRun, the agent of AgentMain and the exporter in front of the
    backend's API (Wire) as one system.

    [run] of [agent/cmd/agent/main.go] receives from the collectors, its
    ticker hands batches to the sender, and the sender posts every flow; the
    network's behaviour during the k-th post is the parameter [network]. *)
From S2P Require Import Prelude GoStrings GoTime AgentFlow Metrics Classifier Hub Store FlowService AgentService Inventory ConnectionService.
From S2P Require Import CloudContext Http API Exporter Wire.
From S2P Require AgentMain CollectorRun.
From stdpp Require Import relations.

#[local] Open Scope Z_scope.

(** ** Sums over all flow keys *)

Lemma sum_single {K} `{EqDecision K} (x : K) (v : Z) ks : NoDup ks ->
  sumZ (fun k => if decide (x = k) then v else 0) ks = if bool_decide (x ∈ ks) then v else 0.
Proof.
  induction 1 as [|k ks Hk _ IH]; [by rewrite bool_decide_eq_false_2 by set_solver|]. rewrite sumZ_cons, IH.
  destruct (decide (x = k)) as [->|Hne].
  - rewrite bool_decide_eq_false_2 by done. rewrite bool_decide_eq_true_2 by set_solver. lia.
  - destruct (bool_decide_reflect (x ∈ ks)); [rewrite bool_decide_eq_true_2 by set_solver; lia|].
    rewrite bool_decide_eq_false_2 by set_solver. lia.
Qed.

Lemma sumZ_repeat {A} (f : A -> Z) x m : sumZ f (repeat x m) = Z.of_nat m * f x.
Proof. induction m as [|m IH]; [done|]. cbn [repeat]. rewrite sumZ_cons, IH. lia. Qed.

Lemma sum_by_key {A K} `{EqDecision K} (key : A -> K) (f : A -> Z) ks l : NoDup ks -> (forall x, x ∈ l -> key x ∈ ks) ->
  sumZ (fun k => sumZ (fun x => if decide (key x = k) then f x else 0) l) ks = sumZ f l.
Proof.
  intros Hnd. induction l as [|x l IH]; intros Hl; [by apply sumZ_zero|]. rewrite sumZ_cons, <- IH by set_solver.
  rewrite <- (sumZ_ext (fun k => (if decide (key x = k) then f x else 0) + sumZ (fun x => if decide (key x = k) then f x else 0) l))
    by (intros k _; by rewrite sumZ_cons).
  rewrite sumZ_add, sum_single by done. rewrite bool_decide_eq_true_2 by set_solver. done.
Qed.

Lemma sumZ_seq_lookup {A} (g : A -> Z) (F : nat -> Z) (l : list A) : (forall i x, l !! i = Some x -> F i = g x) ->
  sumZ F (seq 0 (length l)) = sumZ g l.
Proof.
  revert F. induction l as [|x l IH]; intros F HF; [done|]. cbn [length seq]. rewrite !sumZ_cons, (HF 0%nat x eq_refl). f_equal.
  rewrite <- seq_shift. rewrite <- (IH (fun i => F (S i))) by (intros i y Hi; exact (HF (S i) y Hi)).
  clear IH HF. induction (seq 0 (length l)) as [|i r IHr]; [done|]. cbn [map]. by rewrite !sumZ_cons, IHr.
Qed.

(** ** Conservation inside the agent, over all flows *)

Section totals.
Context (c : State -> Z) (d : Pipeline.FlowMetric -> Z) (p : AgentMain.FlowEvent -> Z).
Context `{!FlowCounter c d} `{!AgentMain.ExportCounter c p}.

(** What is in the agent's hands: pending, queued or being sent. *)
Definition held (a : AgentMain.Agent) : Z :=
  mapsum c (AgentMain.pending a) + sumZ c (concat (AgentMain.batches a)) + sumZ c (AgentMain.sending a).

Definition keys_of (es : list Pipeline.FlowMetric) (a : AgentMain.Agent) : list Key :=
  remove_dups (map KeyFromMetric es ++ map SKey ((map_to_list (AgentMain.pending a)).*2 ++ concat (AgentMain.batches a) ++
    AgentMain.sending a ++ AgentMain.lost a) ++ map AgentMain.payload_key (AgentMain.delivered a)).

Lemma agent_balance cfg es a : AgentMain.runs cfg es a ->
  sumZ d (List.filter (AgentMain.captured cfg) es) ≡64 held a + sumZ p (AgentMain.delivered a) + sumZ c (AgentMain.lost a).
Proof.
  intros Hr. assert (Hnd : NoDup (keys_of es a)) by apply NoDup_remove_dups.
  assert (Hs : sumZ (fun k => sumZ (event_at_key d k) (List.filter (AgentMain.captured cfg) es)) (keys_of es a) ≡64
               sumZ (fun k => AgentMain.agent_total c p k a) (keys_of es a)).
  { apply sumZ_cong. intros k _. symmetry. by apply (AgentMain.runs_conserves c d p cfg k es a). }
  unfold AgentMain.agent_total, mapsum in Hs. rewrite !sumZ_add in Hs. unfold event_at_key, at_key, AgentMain.payload_at_key in Hs.
  rewrite !sum_by_key in Hs; [exact Hs|done| |done| |done| |done| |done| |done| ].
  all: intros x Hx; apply elem_of_remove_dups; rewrite !map_app, !elem_of_app; try (apply (list_elem_of_fmap_2 SKey) in Hx; tauto).
  - apply (list_elem_of_fmap_2 AgentMain.payload_key) in Hx. tauto.
  - apply list_elem_of_In, List.filter_In in Hx as [Hx _]. apply list_elem_of_In, (list_elem_of_fmap_2 KeyFromMetric) in Hx. tauto.
Qed.
End totals.

(** The counters that the three programs keep: [c] of a flow state, [d] of a
    captured event, [p] of a payload and [C] of the tables. *)
Class Tracked (C : Counter) (c : State -> Z) (d : Pipeline.FlowMetric -> Z) (p : AgentMain.FlowEvent -> Z) : Prop := {
  tracked_flow : FlowCounter c d;
  tracked_export : AgentMain.ExportCounter c p;
  tracked_measured : measured C;
  tracked_received : forall flow, ev_counter C (Metrics.received flow) = p flow
}.
#[export] Instance sent_tracked : Tracked CBytesSent bytes_sent event_sent AgentMain.BytesSent.
Proof. split; [apply _|apply AgentMain.bytes_sent_export|discriminate|done]. Qed.
#[export] Instance received_tracked : Tracked CBytesReceived bytes_received event_received AgentMain.BytesReceived.
Proof. split; [apply _|apply AgentMain.bytes_received_export|discriminate|done]. Qed.
#[export] Instance packets_tracked : Tracked CPackets packet_count (fun e => nonNegative (Pipeline.PacketCount e)) AgentMain.PacketCount.
Proof. split; [apply _|apply AgentMain.packet_export|discriminate|done]. Qed.
#[export] Instance connections_tracked :
  Tracked CConnections open_count (fun e => u32 (nonNegative (Pipeline.ConnectionCount e))) AgentMain.ConnectionCount.
Proof. split; [apply _|apply AgentMain.open_export|discriminate|done]. Qed.
#[export] Instance errors_tracked :
  Tracked CErrors error_count (fun e => u32 (nonNegative (Pipeline.ErrorCount e))) AgentMain.ErrorCount.
Proof. split; [apply _|apply AgentMain.error_export|discriminate|done]. Qed.
#[export] Instance retransmissions_tracked :
  Tracked CRetransmissions retrans_count (fun e => nonNegative (Pipeline.RetransmissionCount e)) AgentMain.Retransmissions.
Proof. split; [apply _|apply AgentMain.retrans_export|discriminate|done]. Qed.

(** ** The system *)

Section whole.
Context `{Postgres} `{UnicodeCase} {Payload : Type}.
Context (marshalFlow : string -> Flow -> option Payload) (marshalAgent : string -> Message -> option Payload).
Context (marshalProbe : string -> ConnectionProbeEvent -> option Payload).
Context (vm_digest : string -> string) (inventory : option VMInventory) (classifier : Classifier).
Context (collate : string -> string -> bool) (interval_in : duration -> duration) (nil_is_null : bool).
Context (visibility : GraphVisibility) (activeWindow : duration) (provider : option (Result CloudProviderStatus)).
Context (allowedOrigins : list string) (newRequest : string -> string -> list ascii -> Result Request).
Context (cfg : AgentMain.AgentConfig) (client : Sender).
Context (network : nat -> (nat -> Delivery * World) * (nat -> bool)).

Abbreviation backend := (fun wd => Routes marshalFlow marshalAgent marshalProbe vm_digest inventory classifier collate
  interval_in nil_is_null visibility activeWindow provider wd allowedOrigins).
Abbreviation Deliver := (deliver backend newRequest).

(** [posted] are the payloads sent so far; [responseLost] whether the
    response of a request that arrived was ever lost. *)
Record Whole := {
  capture : @CollectorRun.Sys Pipeline.FlowMetric; agent : AgentMain.Agent; tables : DB * Hub Payload;
  posted : list AgentMain.FlowEvent; responseLost : bool
}.

Definition events_of (l : list (nat * (Pipeline.FlowMetric + GoError))) : list Pipeline.FlowMetric :=
  omap (fun '(_, m) => match m with inl e => Some e | inr _ => None end) l.

Definition is_lost (net : Delivery) : bool := match net with ResponseLost => true | _ => false end.

Inductive moves : Whole -> Whole -> Prop :=
| move_capture w l y' :
    CollectorRun.step l (capture w) = Some y' ->
    moves w {| capture := y'; tables := tables w; posted := posted w; responseLost := responseLost w;
               agent := foldl (AgentMain.on_event cfg) (agent w)
                          (events_of (drop (length (CollectorRun.got (capture w) false)) (CollectorRun.got y' false))) |}
| move_tick w batch :
    batch ≡ₚ fst (Drain (AgentMain.pending (agent w))) ->
    moves w {| capture := capture w; agent := AgentMain.on_tick (agent w) batch; tables := tables w; posted := posted w;
               responseLost := responseLost w |}
| move_take w batch rest :
    AgentMain.sending (agent w) = [] -> AgentMain.batches (agent w) = batch :: rest ->
    moves w {| capture := capture w; agent := AgentMain.on_take (agent w) batch rest; tables := tables w; posted := posted w;
               responseLost := responseLost w |}
| move_send w s rest r n st' :
    AgentMain.sending (agent w) = s :: rest ->
    Deliver client (network (length (posted w))).1 (network (length (posted w))).2 (AgentMain.FromFlowState s) (tables w) = (r, n, st') ->
    moves w {| capture := capture w; agent := AgentMain.on_send (agent w) s rest r; tables := st';
               posted := posted w ++ [AgentMain.FromFlowState s];
               responseLost := responseLost w || existsb (fun i => is_lost ((network (length (posted w))).1 i).1) (seq 0 n) |}.

Definition whole_start (y0 : @CollectorRun.Sys Pipeline.FlowMetric) (st0 : DB * Hub Payload) : Whole :=
  {| capture := y0; agent := AgentMain.agent_start; tables := st0; posted := []; responseLost := false |}.

Definition stored (C : Counter) (w : Whole) : Z := sumZ (fl_counter C) (network_flows (tables w).1).
Definition received_events (w : Whole) : list Pipeline.FlowMetric := events_of (CollectorRun.got (capture w) false).

(** ** The agent inside the system *)

Lemma runs_events es0 es a : AgentMain.runs cfg es0 a -> AgentMain.runs cfg (es0 ++ es) (foldl (AgentMain.on_event cfg) a es).
Proof.
  revert es0 a. induction es as [|e es IH]; intros es0 a Hr; [by rewrite app_nil_r|]. cbn [foldl].
  change (e :: es) with ([e] ++ es). rewrite app_assoc. apply IH. change [e] with (option_list (Some e)).
  econstructor; [done|constructor].
Qed.

Lemma runs_silent es a a' : AgentMain.runs cfg es a -> AgentMain.step cfg a None a' -> AgentMain.runs cfg es a'.
Proof. intros Hr Hs. rewrite <- (app_nil_r es). by apply (AgentMain.runs_step cfg es a None a'). Qed.

Lemma deliver_outcome s attempt cancelled flow st r n st' : Deliver s attempt cancelled flow st = (r, n, st') ->
  exists call, r = fst (fst (AgentMain.sendFlow call cancelled)).
Proof.
  unfold deliver. intros Hd.
  match type of Hd with context [AgentMain.sendFlow ?f cancelled] => exists f; destruct (AgentMain.sendFlow f cancelled) as [[? ?] ?] end.
  by injection Hd as <- _ _.
Qed.

Lemma moves_runs w w' : AgentMain.runs cfg (received_events w) (agent w) -> moves w w' ->
  AgentMain.runs cfg (received_events w') (agent w').
Proof.
  intros Hr Hm. destruct Hm as [w l y' Hs|w batch Hb|w batch rest H1 H2|w s rest r n st' Hsend Hd].
  - unfold received_events in *. cbn [capture agent]. destruct (CollectorRun.step_got l _ _ false Hs) as [more ->].
    rewrite drop_app_length. unfold events_of at 1. rewrite omap_app. by apply runs_events.
  - eapply runs_silent; [done|by constructor].
  - eapply runs_silent; [done|]. by do 2 constructor.
  - destruct (deliver_outcome _ _ _ _ _ _ _ _ Hd) as [call ->]. eapply runs_silent; [done|]. by do 2 constructor.
Qed.

(** ** The tables *)

Definition worlds_ok : Prop := forall k i, env_flow_id (wd_env ((network k).1 i).2) <> "" /\ env_now (wd_env ((network k).1 i).2) <> 0.
Definition tables_ok (st : DB * Hub Payload) : Prop := flows_ok (network_flows st.1) (flow_observations st.1).

(** What was posted was either acknowledged, with the copies of an attempt
    whose response was lost, or given up. *)
Definition accounted (C : Counter) (st0 : DB * Hub Payload) (w : Whole) (copies : list AgentMain.FlowEvent) : Prop :=
  tables_ok (tables w) /\ (forall f, f ∈ copies -> f ∈ posted w) /\ (responseLost w = false -> copies = []) /\
  stored C w = sumZ (fl_counter C) (network_flows st0.1)
    + sumZ (fun f => ev_counter C (Metrics.received f)) (AgentMain.delivered (agent w) ++ copies).

Lemma on_events_delivered a es : AgentMain.delivered (foldl (AgentMain.on_event cfg) a es) = AgentMain.delivered a.
Proof.
  revert a. induction es as [|e es IH]; intros a; [done|]. cbn [foldl]. rewrite IH. unfold AgentMain.on_event. by repeat case_match.
Qed.

Lemma on_tick_delivered a batch : AgentMain.delivered (AgentMain.on_tick a batch) = AgentMain.delivered a.
Proof. unfold AgentMain.on_tick. by repeat case_match. Qed.

(** What one post adds: [k] times the flow, of which one is acknowledged
    when the sender reports success. *)
Lemma post_counts C attempt cancelled flow st r n st' :
  posts newRequest client "/api/flows/ingest" -> flow_carried flow -> measured C -> tables_ok st ->
  (forall i, env_flow_id (wd_env (attempt i).2) <> "" /\ env_now (wd_env (attempt i).2) <> 0) ->
  Deliver client attempt cancelled flow st = (r, n, st') ->
  tables_ok st' /\ exists k, sumZ (fl_counter C) (network_flows st'.1) =
      sumZ (fl_counter C) (network_flows st.1) + Z.of_nat k * ev_counter C (Metrics.received flow) /\
    (is_ok r = true -> (1 <= k)%nat) /\
    (existsb (fun i => is_lost (attempt i).1) (seq 0 n) = false -> k = if is_ok r then 1%nat else 0%nat).
Proof.
  intros Hpost Hf HC Hok Henv Hd. pose proof (carried_wired newRequest client flow Hpost Hf) as Hw.
  apply deliver_ingestions in Hd as (_ & -> & Hone & Hexact); [|exact Hw].
  match goal with |- tables_ok (stateAfter _ _ client attempt flow st ?m) /\ _ =>
    pose proof (stateAfter_counts marshalFlow marshalAgent marshalProbe vm_digest inventory classifier collate interval_in nil_is_null visibility
      activeWindow provider allowedOrigins newRequest client attempt flow st m C Hw HC Hok Henv) as [Hok' Hsum] end.
  split; [exact Hok'|]. eexists. split; [exact Hsum|]. split; [exact Hone|]. intros Hn. apply Hexact. intros i Hi E.
  apply not_true_iff_false in Hn. apply Hn, existsb_exists. exists i. rewrite E. split; [apply in_seq; lia|done].
Qed.


Lemma moves_accounted C st0 w w' copies : posts newRequest client "/api/flows/ingest" -> worlds_ok -> measured C ->
  moves w w' -> Forall flow_carried (posted w') -> accounted C st0 w copies -> exists copies', accounted C st0 w' copies'.
Proof.
  intros Hpost Hw HC Hm Hf (Hok & Hcop & Hlost & Hsum). destruct Hm as [w l y' Hs|w batch Hb|w batch rest H1' H2'|w s rest r n st' Hsend Hd].
  - exists copies. split_and!; try done. cbn [agent]. by rewrite on_events_delivered.
  - exists copies. split_and!; try done. cbn [agent]. by rewrite on_tick_delivered.
  - by exists copies.
  - apply Forall_app in Hf as [_ Hf]. apply Forall_cons in Hf as [Hf _].
    destruct (post_counts C _ _ _ _ _ _ _ Hpost Hf HC Hok (Hw _) Hd) as (Hok' & k & Hk & Hone & Hexact). unfold stored in *. cbn [tables].
    exists (copies ++ repeat (AgentMain.FromFlowState s) (k - if is_ok r then 1 else 0)). split_and!; cbn [tables posted responseLost agent].
    + done.
    + intros f [?%Hcop|Hin]%elem_of_app; [set_solver|]. apply list_elem_of_In, repeat_spec in Hin. set_solver.
    + intros [Hl Hn]%orb_false_iff. rewrite (Hlost Hl), (Hexact Hn). by destruct (is_ok r).
    + unfold stored. cbn [tables]. rewrite Hk, Hsum. unfold AgentMain.on_send. cbn [AgentMain.delivered].
      destruct (is_ok r) eqn:Er; rewrite !sumZ_app, ?sumZ_cons, ?sumZ_nil, sumZ_repeat.
      * specialize (Hone eq_refl). rewrite Nat2Z.inj_sub by lia. lia.
      * rewrite Nat.sub_0_r. lia.
Qed.

Lemma posted_grows w w' : moves w w' -> exists more, posted w' = posted w ++ more.
Proof. destruct 1; cbn [posted]; try (exists []; by rewrite app_nil_r). by eexists. Qed.

Lemma rtc_posted w w' : rtc moves w w' -> Forall flow_carried (posted w') -> Forall flow_carried (posted w).
Proof. induction 1 as [|w w1 w2 (more & Hp)%posted_grows _ IH]; [done|]. intros Hf%IH. rewrite Hp in Hf. by apply Forall_app in Hf as [? _]. Qed.

Lemma reached_runs y0 st0 w : CollectorRun.got y0 false = [] -> rtc moves (whole_start y0 st0) w ->
  AgentMain.runs cfg (received_events w) (agent w).
Proof.
  intros Hg. assert (H0' : AgentMain.runs cfg (received_events (whole_start y0 st0)) (agent (whole_start y0 st0))).
  { unfold received_events. cbn [capture whole_start agent]. rewrite Hg. constructor. }
  intros Hr. revert H0'. induction Hr as [|w1 w2 w3 Hm _ IH]; [done|]. intros H1'. apply IH. by eapply moves_runs.
Qed.

Lemma reached_accounted C y0 st0 w : posts newRequest client "/api/flows/ingest" -> worlds_ok -> measured C -> tables_ok st0 ->
  rtc moves (whole_start y0 st0) w -> Forall flow_carried (posted w) -> exists copies, accounted C st0 w copies.
Proof.
  intros Hpost Hw HC Hok Hr Hf.
  assert (H0' : exists copies, accounted C st0 (whole_start y0 st0) copies).
  { exists []. split_and!; try done. unfold stored. cbn. rewrite sumZ_nil. lia. }
  revert H0'. induction Hr as [|w1 w2 w3 Hm Hr IH]; [done|]. intros [copies Hc]. apply IH; [done|].
  eapply (moves_accounted C st0 w1); [done..| |done]. by eapply rtc_posted.
Qed.

Lemma reached_capture y0 st0 w : rtc moves (whole_start y0 st0) w -> CollectorRun.reachable y0 (capture w).
Proof.
  intros Hr. assert (H0' : CollectorRun.reachable y0 (capture (whole_start y0 st0))) by constructor.
  revert H0'. induction Hr as [|w1 w2 w3 Hm _ IH]; [done|]. intros H1'. apply IH. destruct Hm; [|done..]. by econstructor.
Qed.

(** ** Draining *)

Lemma schedule_moves w y' : CollectorRun.schedule (capture w) y' ->
  exists w', rtc moves w w' /\ capture w' = y' /\ tables w' = tables w /\ posted w' = posted w.
Proof.
  intros Hs. remember (capture w) as y eqn:E. revert w E. induction Hs as [y|y y1 y2 [l Hl] _ IH]; intros w ->; [by exists w|].
  destruct (IH _ (eq_refl : y1 = capture {| capture := y1; tables := tables w; posted := posted w; responseLost := responseLost w;
    agent := foldl (AgentMain.on_event cfg) (agent w) (events_of (drop (length (CollectorRun.got (capture w) false)) (CollectorRun.got y1 false))) |}))
    as (w' & Hr & ? & ? & ?).
  exists w'. split_and!; [|done..]. eapply rtc_l; [by apply (move_capture w l)|done].
Qed.

(** The sender empties the batch it has. *)
Lemma sending_moves w : exists w', rtc moves w w' /\ capture w' = capture w /\
  AgentMain.sending (agent w') = [] /\ AgentMain.batches (agent w') = AgentMain.batches (agent w) /\
  AgentMain.pending (agent w') = AgentMain.pending (agent w).
Proof.
  remember (AgentMain.sending (agent w)) as l eqn:E. revert w E. induction l as [|s rest IH]; intros w E; [by exists w|].
  destruct (Deliver client (network (length (posted w))).1 (network (length (posted w))).2 (AgentMain.FromFlowState s) (tables w)) as [[r n] st'] eqn:Ed.
  pose proof (move_send w s rest r n st' (eq_sym E) Ed) as Hm. match type of Hm with moves _ ?w1 => destruct (IH w1 eq_refl) as (w' & Hr & ? & ? & ? & ?) end.
  exists w'. split_and!; [|done..]. by eapply rtc_l.
Qed.

Lemma batches_moves w : exists w', rtc moves w w' /\ capture w' = capture w /\
  AgentMain.sending (agent w') = [] /\ AgentMain.batches (agent w') = [] /\ AgentMain.pending (agent w') = AgentMain.pending (agent w).
Proof.
  remember (AgentMain.batches (agent w)) as l eqn:E. revert w E. induction l as [|batch rest IH]; intros w E;
    destruct (sending_moves w) as (w1 & Hr1 & Hc1 & Hs1 & Hb1 & Hp1); [exists w1; by rewrite Hb1|].
  rewrite <- E in Hb1. pose proof (move_take w1 batch rest Hs1 Hb1) as Hm.
  match type of Hm with moves _ ?w2 => destruct (IH w2 eq_refl) as (w' & Hr & ? & ? & ? & ?) end.
  exists w'. split_and!; [|by etrans|done|done|by etrans]. etrans; [exact Hr1|]. by eapply rtc_l.
Qed.

(** A tick and the sender empty the agent. *)
Lemma flush_moves w : exists w', rtc moves w w' /\ capture w' = capture w /\
  AgentMain.sending (agent w') = [] /\ AgentMain.batches (agent w') = [] /\ AgentMain.pending (agent w') = ∅.
Proof.
  destruct (batches_moves w) as (w1 & Hr1 & Hc1 & Hs1 & Hb1 & Hp1).
  pose proof (move_tick w1 _ (reflexivity (fst (Drain (AgentMain.pending (agent w1)))))) as Hm.
  match type of Hm with moves _ ?w2 => assert (Hp2 : AgentMain.pending (agent w2) = ∅);
    [|destruct (batches_moves w2) as (w' & Hr & Hc & ? & ? & Hp)] end.
  { cbn [agent]. unfold AgentMain.on_tick. rewrite Hb1. by destruct (fst (Drain _)). }
  exists w'. split_and!; [|by rewrite Hc|done|done|by rewrite Hp]. etrans; [exact Hr1|]. by eapply rtc_l.
Qed.

(** ** What the main loop received *)

Definition of_message (g : Pipeline.FlowMetric -> Z) (m : Pipeline.FlowMetric + GoError) : Z := match m with inl e => g e | inr _ => 0 end.

Lemma sum_events g l : sumZ g (events_of l) = sumZ (fun x => of_message g x.2) l.
Proof. induction l as [|[i [e|err]] l IH]; [done| |]; unfold events_of in *; cbn; rewrite ?sumZ_cons, IH; cbn; lia. Qed.

Lemma sum_from g i l : sumZ (fun x => if decide (x.1 = i) then of_message g x.2 else 0) l = sumZ (of_message g) (CollectorRun.from i l).
Proof.
  induction l as [|[j m] l IH]; [done|]. cbn [CollectorRun.from]. rewrite sumZ_cons, IH. cbn [fst snd].
  destruct (decide (j = i)) as [->|Hne]; [by rewrite Nat.eqb_refl, sumZ_cons|]. rewrite (proj2 (Nat.eqb_neq j i)) by done. lia.
Qed.

(** When every collector's events have been received, the sum over what was
    received is the sum over what was captured. *)
Lemma received_sum g ks l : (forall i m, (i, m) ∈ l -> (i < length ks)%nat) ->
  (forall i k, ks !! i = Some k -> CollectorRun.from i l = map inl (CollectorRun.captured k)) ->
  sumZ g (events_of l) = sumZ (fun k => sumZ g (CollectorRun.captured k)) ks.
Proof.
  intros Hl Hfrom. rewrite sum_events, <- (sum_by_key fst (fun x => of_message g x.2) (seq 0 (length ks)) l).
  - apply sumZ_seq_lookup. intros i k Hk. rewrite sum_from, (Hfrom i k Hk).
    induction (CollectorRun.captured k) as [|e es IH]; [done|]. cbn [map]. by rewrite !sumZ_cons, IH.
  - apply NoDup_seq.
  - intros [i m] Hin. apply elem_of_seq. apply Hl in Hin. cbn. lia.
Qed.

Lemma filter_sum {A} (f : A -> bool) (g : A -> Z) l : sumZ g (List.filter f l) = sumZ (fun x => if f x then g x else 0) l.
Proof. induction l as [|x l IH]; [done|]. cbn [List.filter]. rewrite sumZ_cons, <- IH. destruct (f x); [by rewrite sumZ_cons|lia]. Qed.

Lemma balance C c d p `{!Tracked C c d p} y0 st0 w : CollectorRun.got y0 false = [] ->
  posts newRequest client "/api/flows/ingest" -> worlds_ok -> tables_ok st0 ->
  rtc moves (whole_start y0 st0) w -> Forall flow_carried (posted w) ->
  exists copies, (forall f, f ∈ copies -> f ∈ posted w) /\ (responseLost w = false -> copies = []) /\
    sumZ d (List.filter (AgentMain.captured cfg) (received_events w)) + sumZ p copies ≡64
      held c (agent w) + (stored C w - sumZ (fl_counter C) (network_flows st0.1)) + sumZ c (AgentMain.lost (agent w)).
Proof.
  intros Hg Hpost Hw Hok Hr Hf. pose proof tracked_flow. pose proof tracked_export.
  destruct (reached_accounted C y0 st0 w Hpost Hw tracked_measured Hok Hr Hf) as (copies & _ & Hcop & Hlost & Hsum).
  exists copies. split_and!; [done|done|].
  rewrite (agent_balance c d p cfg _ _ (reached_runs y0 st0 w Hg Hr)), Hsum, sumZ_app.
  rewrite !(sumZ_ext (fun f => ev_counter C (Metrics.received f)) p) by (intros; apply tracked_received). apply cong64_eq. lia.
Qed.

(** C2: Every captured packet is accounted for from the interface to the
    database.  In every reachable state of the collectors, the agent and the
    backend, whatever the network does to requests and responses: what the
    main loop received from a collector is the beginning of what it
    captured, and the counters of the received events that pass the filters,
    together with the copies of requests whose response was lost, equal,
    modulo 2^64, what the agent still holds, what the database gained and
    what the agent gave up.  Without lost responses there are no copies. *)
Theorem traffic_accounted (C : Counter) (c : State -> Z) (d : Pipeline.FlowMetric -> Z) (p : AgentMain.FlowEvent -> Z) `{!Tracked C c d p}
    (multi : bool) (ks : list CollectorRun.Capture) (ss : list (list (CollectorRun.Round Pipeline.FlowMetric))) (st0 : DB * Hub Payload) (w : Whole) :
  Forall CollectorRun.capture_ok ks -> mapM CollectorRun.script ks = Some ss ->
  posts newRequest client "/api/flows/ingest" -> worlds_ok -> tables_ok st0 ->
  rtc moves (whole_start (CollectorRun.Run multi ks ss) st0) w -> Forall flow_carried (posted w) ->
  (forall i k, ks !! i = Some k -> CollectorRun.from i (CollectorRun.got (capture w) false) `prefix_of` map inl (CollectorRun.captured k)) /\
  exists copies, (forall f, f ∈ copies -> f ∈ posted w) /\ (responseLost w = false -> copies = []) /\
    sumZ d (List.filter (AgentMain.captured cfg) (received_events w)) + sumZ p copies ≡64
      held c (agent w) + (stored C w - sumZ (fl_counter C) (network_flows st0.1)) + sumZ c (AgentMain.lost (agent w)).
Proof.
  intros Hok Hss Hpost Hw Htab Hr Hf. destruct (CollectorRun.scripts_ok ks Hok) as (ss' & Hss' & Hlen & Hem).
  rewrite Hss in Hss'. injection Hss' as <-. split; [|exact (balance C c d p (CollectorRun.Run multi ks ss) st0 w eq_refl Hpost Hw Htab Hr Hf)].
  intros i k Hk. destruct (lookup_lt_is_Some_2 ss i) as [s Hs]; [rewrite Hlen; by eapply lookup_lt_Some|].
  destruct (Hem i k s Hk Hs) as [<- _]. eapply CollectorRun.reachable_prefix; [by apply (CollectorRun.Run_started multi ks)|by eapply reached_capture|done].
Qed.

(** From every reachable state the system can drain. *)
Lemma all_delivered (C : Counter) (c : State -> Z) (d : Pipeline.FlowMetric -> Z) (p : AgentMain.FlowEvent -> Z) `{!Tracked C c d p}
    (multi : bool) (ks : list CollectorRun.Capture) (ss : list (list (CollectorRun.Round Pipeline.FlowMetric))) (st0 : DB * Hub Payload) (w : Whole) :
  Forall CollectorRun.capture_ok ks -> mapM CollectorRun.script ks = Some ss ->
  posts newRequest client "/api/flows/ingest" -> worlds_ok -> tables_ok st0 ->
  rtc moves (whole_start (CollectorRun.Run multi ks ss) st0) w -> CollectorRun.cancelled (capture w) = false ->
  exists w', rtc moves w w' /\
    AgentMain.pending (agent w') = ∅ /\ AgentMain.batches (agent w') = [] /\ AgentMain.sending (agent w') = [] /\
    (forall i k, ks !! i = Some k -> CollectorRun.from i (CollectorRun.got (capture w') false) = map inl (CollectorRun.captured k)) /\
    (Forall flow_carried (posted w') ->
     exists copies, (forall f, f ∈ copies -> f ∈ posted w') /\ (responseLost w' = false -> copies = []) /\
     sumZ (fun k => sumZ d (List.filter (AgentMain.captured cfg) (CollectorRun.captured k))) ks + sumZ p copies ≡64
       (stored C w' - sumZ (fl_counter C) (network_flows st0.1)) + sumZ c (AgentMain.lost (agent w'))).
Proof.
  intros Hok Hss Hpost Hw Htab Hr Hc. destruct (CollectorRun.scripts_ok ks Hok) as (ss' & Hss' & Hlen & Hem).
  rewrite Hss in Hss'. injection Hss' as <-.
  destruct (CollectorRun.Run_drains multi ks ss (capture w) Hlen (fun i k s Hk Hs => proj2 (Hem i k s Hk Hs))) as (y' & Hsch & _ & Hall);
    [by eapply reached_capture|done|].
  destruct (schedule_moves w y' Hsch) as (w1 & Hr1 & Hy1 & _). destruct (flush_moves w1) as (w' & Hr' & Hy' & Hs' & Hb' & Hp').
  assert (Hw' : rtc moves (whole_start (CollectorRun.Run multi ks ss) st0) w') by (by do 2 (etrans; [eassumption|])).
  assert (Hfrom : forall i k, ks !! i = Some k -> CollectorRun.from i (CollectorRun.got (capture w') false) = map inl (CollectorRun.captured k)).
  { intros i k Hk. destruct (lookup_lt_is_Some_2 ss i) as [s Hs]; [rewrite Hlen; by eapply lookup_lt_Some|].
    rewrite Hy', Hy1, (Hall i s false Hs). by apply (Hem i k s). }
  exists w'. split_and!; [by etrans|done|done|done|done|]. intros Hf.
  destruct (balance C c d p (CollectorRun.Run multi ks ss) st0 w' eq_refl Hpost Hw Htab Hw' Hf) as (copies & Hcop & Hlost & Hsum).
  exists copies. split_and!; [done|done|]. unfold held in Hsum. rewrite Hp', Hb', Hs', mapsum_empty, !sumZ_nil in Hsum.
  rewrite filter_sum in Hsum. unfold received_events in Hsum. rewrite (received_sum _ ks) in Hsum; [|clear Hsum..].
  - rewrite (sumZ_ext _ (fun k => sumZ d (List.filter (AgentMain.captured cfg) (CollectorRun.captured k)))) in Hsum by (intros k _; by rewrite filter_sum).
    etrans; [exact Hsum|]. apply cong64_eq. cbn [concat]. rewrite sumZ_nil. lia.
  - intros i m Hin. pose proof (CollectorRun.Run_started multi ks ss Hlen) as Hst. pose proof (reached_capture _ _ _ Hw') as Hreach.
    rewrite <- Hlen, <- (CollectorRun.inv_length ss _ (proj1 (CollectorRun.reachable_inv ss _ _ Hst Hreach))).
    eapply (CollectorRun.reachable_known ss _ _ Hst Hreach false i m). set_solver.
  - exact Hfrom.
Qed.

(** C3: Everything captured arrives.  From every reachable state before the
    agent is told to stop, whatever the network does, the system can go on
    to a state where the agent holds nothing any more, the main loop has
    received every event of every collector, and the counters of all
    captured events that pass the filters equal, modulo 2^64, what the
    database gained and what was given up, less the copies of requests whose
    response was lost. *)
Theorem traffic_arrives (C : Counter) (c : State -> Z) (d : Pipeline.FlowMetric -> Z) (p : AgentMain.FlowEvent -> Z) `{!Tracked C c d p}
    (multi : bool) (ks : list CollectorRun.Capture) (ss : list (list (CollectorRun.Round Pipeline.FlowMetric))) (st0 : DB * Hub Payload) (w : Whole) :
  Forall CollectorRun.capture_ok ks -> mapM CollectorRun.script ks = Some ss ->
  posts newRequest client "/api/flows/ingest" -> worlds_ok -> tables_ok st0 ->
  rtc moves (whole_start (CollectorRun.Run multi ks ss) st0) w -> CollectorRun.cancelled (capture w) = false ->
  exists w', rtc moves w w' /\
    AgentMain.pending (agent w') = ∅ /\ AgentMain.batches (agent w') = [] /\ AgentMain.sending (agent w') = [] /\
    (forall i k, ks !! i = Some k -> CollectorRun.from i (CollectorRun.got (capture w') false) = map inl (CollectorRun.captured k)) /\
    (Forall flow_carried (posted w') ->
     exists copies, (forall f, f ∈ copies -> f ∈ posted w') /\ (responseLost w' = false -> copies = []) /\
     sumZ (fun k => sumZ d (List.filter (AgentMain.captured cfg) (CollectorRun.captured k))) ks + sumZ p copies ≡64
       (stored C w' - sumZ (fl_counter C) (network_flows st0.1)) + sumZ c (AgentMain.lost (agent w'))).
Proof. exact (all_delivered C c d p multi ks ss st0 w). Qed.
End whole.
