(* ===== verification/WirePath.v ===== *)
(** From the wire to the database: the eBPF programs of Kernel in front of
    the system of EndToEnd.

    In the mode [tc] the collector attaches the two packet hooks and the TCP
    metric programs ([tcpMetricAttachments] of
    [agent/internal/features/traffic/packet/ebpf_collector.go]), which a
    comment there says carry no byte or packet accounting.  The records that
    a run of these programs leaves in the ring buffer are what the collector
    reads. *)
From S2P Require Import Prelude GoStrings GoTime Reducers AgentFlow Collector Metrics Classifier Hub Store FlowService AgentService Inventory.
From S2P Require Import ConnectionService CloudContext Http API Exporter Wire EndToEnd Kernel.
From S2P Require AgentMain CollectorRun.
From stdpp Require Import relations.

#[local] Open Scope Z_scope.

(** ** The programs attached in the mode [tc] *)

Definition tc_attached (p : Program) : bool :=
  match p with
  | PIngress _ | PEgress _ | PRtt _ | PRetransmit _ | PDelaySend _ | PDelayRecv _ | PDelayRecvRet _ => true
  | _ => false
  end.
Definition tc_mode (l : Label) : Prop := match l with LRun p _ => tc_attached p = true | _ => True end.

(** What the hooks put on the books for one step: the length of a packet
    whose record was submitted, in its direction, and that it is one packet. *)
Definition wire_bytes (ingress : bool) (l : Label) (m : Maps) : Z :=
  match l with
  | LRun (PIngress skb) _ => if ingress then grown l m * skb_len skb else 0
  | LRun (PEgress skb) _ => if ingress then 0 else grown l m * skb_len skb
  | _ => 0
  end.

(** A measure [f] of records that is [d] of events and [g] of steps. *)
Class OnWire (d : Pipeline.FlowMetric -> Z) (f : rawFlowEvent -> Z) (g : Label -> Maps -> Z) : Prop := {
  wire_step : forall l m, tc_mode l -> sumZ f (events (step l m)) = sumZ f (events m) + g l m;
  wire_event : forall col now r, record_ok r -> d (convert col now r) = f r
}.

Definition record_bytes (ingress : bool) (r : rawFlowEvent) : Z :=
  if Bool.eqb (RDirection r =? DIR_INGRESS) ingress then RBytes r else 0.

(** ** One step *)

(** A hook submits at most one record, of the packet. *)
Lemma emit_tc_events c skb direction m :
  events (emit_tc_packet c skb direction m) = events m \/
  exists r, events (emit_tc_packet c skb direction m) = events m ++ [r] /\
    RBytes r = skb_len skb /\ RPackets r = 1 /\ RDirection r = direction.
Proof.
  unfold emit_tc_packet. destruct (parse_network_metadata _) as [network|]; [|by left].
  destruct (parse_transport_metadata _ _ _) as [transport|]; [|by left].
  destruct (ignored_transport_ports _ _ _ _); [by left|]. destruct (room c); cbn [negb]; [right|by left].
  eexists. split; [reflexivity|]. unfold populate_tc_event, fill_directional_tuple, set_directional_ports.
  by destruct (direction =? DIR_INGRESS).
Qed.

(** The metric programs submit records without bytes and packets. *)
Lemma metric_events l m : tc_mode l -> is_tc l = false ->
  events (step l m) = events m \/ exists r, events (step l m) = events m ++ [r] /\ RBytes r = 0 /\ RPackets r = 0.
Proof.
  assert (Hs : forall now sk p dir, RBytes (socket_metadata now sk p dir zero_event) = 0 /\ RPackets (socket_metadata now sk p dir zero_event) = 0).
  { intros. unfold socket_metadata. by destruct (_ =? _). }
  destruct l as [[] c| | | |]; cbn [tc_mode tc_attached is_tc step exec]; intros Hm Hl; try discriminate; auto;
    unfold emit_tcp_rtt_sample, should_emit_rtt_sample, emit_tcp_retransmission, mark_request_sent, trace_tcp_delay_recv,
      trace_tcp_delay_recv_ret, take_response_delay_us;
    repeat case_match; simplify_eq; auto; right; (eexists; split; [reflexivity|apply Hs]).
Qed.

Lemma sum_snoc (f : rawFlowEvent -> Z) l r : sumZ f (l ++ [r]) = sumZ f l + f r.
Proof. rewrite sumZ_app, sumZ_cons, sumZ_nil. lia. Qed.

Lemma hook_measured (f : rawFlowEvent -> Z) c skb direction m l :
  is_tc l = true -> step l m = emit_tc_packet c skb direction m ->
  (forall r, RBytes r = skb_len skb -> RPackets r = 1 -> RDirection r = direction -> f r = f (set_kind 0 0 direction (set_bytes (skb_len skb) (count_packet zero_event)))) ->
  sumZ f (events (step l m)) = sumZ f (events m) + grown l m * f (set_kind 0 0 direction (set_bytes (skb_len skb) (count_packet zero_event))).
Proof.
  intros Hl Hs Hf. unfold grown. rewrite Hl, Hs. destruct (emit_tc_events c skb direction m) as [->|(r & -> & Hb & Hp & Hd)]; [lia|].
  rewrite sum_snoc, length_app, (Hf r Hb Hp Hd). simpl length. lia.
Qed.

#[export] Instance bytes_on_wire (ingress : bool) :
  OnWire (if ingress then event_received else event_sent) (record_bytes ingress) (wire_bytes ingress).
Proof.
  split.
  - intros l m Hm. destruct (is_tc l) eqn:Hl.
    + assert (Hr : forall skb direction (r : rawFlowEvent), RBytes r = skb_len skb -> RPackets r = 1 -> RDirection r = direction ->
        record_bytes ingress r = record_bytes ingress (set_kind 0 0 direction (set_bytes (skb_len skb) (count_packet zero_event)))).
      { intros skb direction r Hb _ Hd. unfold record_bytes. simpl. by rewrite Hb, Hd. }
      destruct l as [[skb|skb| | | | | | | | | | | | | | | |] c| | | |]; try discriminate Hl;
        rewrite (hook_measured _ c skb _ m _ Hl eq_refl (Hr skb _)); unfold record_bytes, wire_bytes; destruct ingress; cbn; lia.
    + assert (Hw : wire_bytes ingress l m = 0) by (by destruct l as [[]| | | |]). rewrite Hw.
      destruct (metric_events l m Hm Hl) as [->|(r & -> & Hb & _)]; [lia|]. rewrite sum_snoc. unfold record_bytes. rewrite Hb.
      destruct (Bool.eqb _ _); lia.
  - intros col now r [Hraw Hb _ _ _ _ (_ & _ & Hd)]. destruct Hraw as [_ Hu _ _ _ _ _ _ _ _ _ _ _ _ _ _]. unfold in_u64 in Hu.
    assert (Hi : i64 (RBytes r) = RBytes r) by (unfold i64, wrapS; rewrite Z.mod_small by lia; lia).
    unfold convert. destruct (Classification.NormalizePorts _ _ _) as [srcPort dstPort].
    unfold event_received, event_sent, event_is_ingress, record_bytes. destruct ingress; cbn [Pipeline.FlowDirection Pipeline.ByteCount];
      rewrite Hi; unfold nonNegative; (destruct Hd as [->| ->]); cbn; repeat case_match; lia.
Qed.

#[export] Instance packets_on_wire : OnWire (fun e => nonNegative (Pipeline.PacketCount e)) RPackets grown.
Proof.
  split.
  - intros l m Hm. destruct (is_tc l) eqn:Hl.
    + assert (exists c skb direction, step l m = emit_tc_packet c skb direction m) as (c & skb & direction & Hs)
        by (destruct l as [[]| | | |]; try discriminate; by repeat eexists).
      rewrite (hook_measured RPackets c skb direction m l Hl Hs); [cbn; lia|]. by intros r _ -> _.
    + assert (Hg : grown l m = 0) by (unfold grown; by rewrite Hl). rewrite Hg.
      destruct (metric_events l m Hm Hl) as [->|(r & -> & _ & Hp)]; [lia|]. rewrite sum_snoc, Hp. lia.
  - intros col now r [Hraw _ _ _ _ _ _]. destruct Hraw as [_ _ _ _ _ _ _ _ _ _ Hp _ _ _ _ _]. unfold in_u32 in Hp.
    unfold convert. destruct (Classification.NormalizePorts _ _ _) as [srcPort dstPort]. cbn [Pipeline.PacketCount].
    unfold nonNegative. case_match; lia.
Qed.

(** ** A run of the programs, read by the collector *)

Lemma trace_measured d f g `{!OnWire d f g} ls m : Forall tc_mode ls ->
  sumZ f (events (trace ls m)) = sumZ f (events m) + along g ls m.
Proof.
  intros Hls. revert m. induction Hls as [|l ls Hl _ IH]; intros m; [cbn; lia|].
  cbn [trace foldl along]. fold (trace ls (step l m)). rewrite IH, (wire_step (d := d)) by done. lia.
Qed.

(** The reads of the ring buffer at the given times. *)
Definition ring_reads (times : list time) (records : list rawFlowEvent) : list CollectorRun.ReadResult :=
  zip_with (fun now r => CollectorRun.ReadSample now (encodeRawFlowEvent r)) times records.

Lemma reads_captured `{UnicodeCase} col times records : Forall record_ok records ->
  CollectorRun.captured (CollectorRun.Ebpf col (ring_reads times records)) = zip_with (convert col) times records.
Proof.
  intros Hr. revert times. induction Hr as [|r records Hr _ IH]; intros [|now times]; try done.
  assert (E : collect col now (encodeRawFlowEvent r) = Ok (convert col now r)) by (unfold collect; rewrite decode_encode by (by apply re_raw); done).
  specialize (IH times). unfold ring_reads in *. cbn [zip_with CollectorRun.captured CollectorRun.samples] in *. csimpl. rewrite E. by f_equal.
Qed.

Lemma reads_ok col times records : registration_ok (registration col) -> Forall (fun now => 0 < now) times -> Forall record_ok records ->
  CollectorRun.capture_ok (CollectorRun.Ebpf col (ring_reads times records)).
Proof.
  intros Hreg Ht Hr. split; [done|]. revert records Hr. induction Ht as [|now times Hn _ IH]; intros records Hr; [constructor|].
  destruct Hr as [|r records Hr Hrs]; [constructor|]. constructor; [|by apply IH]. split; [done|]. by apply encode_bytes, re_raw.
Qed.

Lemma reads_measured d f g `{!OnWire d f g} col times records : Forall record_ok records -> length times = length records ->
  sumZ d (zip_with (convert col) times records) = sumZ f records.
Proof.
  intros Hr. revert times. induction Hr as [|r records Hr _ IH]; intros [|now times] Hl; try done.
  cbn [zip_with]. rewrite !sumZ_cons, IH by (by injection Hl). by rewrite (wire_event (g := g)).
Qed.

Lemma sum_split {A} (p : A -> bool) (d : A -> Z) l :
  sumZ d l = sumZ d (List.filter p l) + sumZ d (List.filter (fun x => negb (p x)) l).
Proof. induction l as [|x l IH]; [done|]. cbn [List.filter]. rewrite sumZ_cons, IH. destruct (p x); cbn [negb]; rewrite sumZ_cons; lia. Qed.

Section path.
Context `{Postgres} `{UnicodeCase} {Payload : Type}.
Context (marshalFlow : string -> Flow -> option Payload) (marshalAgent : string -> Message -> option Payload).
Context (marshalProbe : string -> ConnectionProbeEvent -> option Payload).
Context (vm_digest : string -> string) (inventory : option VMInventory) (classifier : Classifier).
Context (collate : string -> string -> bool) (interval_in : duration -> duration) (nil_is_null : bool).
Context (visibility : GraphVisibility) (activeWindow : duration) (provider : option (Result CloudProviderStatus)).
Context (allowedOrigins : list string) (newRequest : string -> string -> list ascii -> Result Request).
Context (cfg : AgentMain.AgentConfig) (client : Sender).
Context (network : nat -> (nat -> Delivery * World) * (nat -> bool)).

Abbreviation Moves := (moves marshalFlow marshalAgent marshalProbe vm_digest inventory classifier collate interval_in nil_is_null
  visibility activeWindow provider allowedOrigins newRequest cfg client network).

(** The system with the collector reading the ring buffer of a run. *)
Definition wire_capture (col : EBPFCollector) (times : list time) (ports : gset Z) (ls : list Label) : CollectorRun.Capture :=
  CollectorRun.Ebpf col (ring_reads times (events (trace ls (loaded ports)))).
Definition wire_scripts (k : CollectorRun.Capture) : list (list (CollectorRun.Round Pipeline.FlowMetric)) :=
  match CollectorRun.script k with Some s => [s] | None => [] end.

End path.
