(* ===== verification/Migrate.v ===== *)
(** The migration runner: [backend/internal/db/db.go] on the files of
    [backend/internal/db/migrations].

    [Migrate] executes every embedded file, in name order, each time the
    backend starts.  The schema statements are all guarded ([IF NOT EXISTS],
    or a constraint dropped and added again) and leave the rows as they are;
    two files also contain data statements, modelled below on the tables of
    [Store].  [Schema] has the files statement by statement and shows that
    this is what they do. *)
From S2P Require Import Prelude GoStrings GoFloat GoTime Netip Metrics Classifier Hub Store FlowService.

#[local] Open Scope Z_scope.

Section migrate.
Context `{Postgres}.

(** 004_request_metrics.sql: [UPDATE network_flows SET request_count =
    connection_count WHERE request_count = 0 AND connection_count > 0] *)
Definition backfill_requests (r : FlowRow) : FlowRow :=
  if (fl_request_count r =? 0) && (0 <? fl_connection_count r) then
    {| fl_id := fl_id r; fl_agent_id := fl_agent_id r; fl_src_vm_id := fl_src_vm_id r;
       fl_dst_vm_id := fl_dst_vm_id r; fl_src_ip := fl_src_ip r; fl_dst_ip := fl_dst_ip r;
       fl_src_port := fl_src_port r; fl_dst_port := fl_dst_port r; fl_protocol := fl_protocol r;
       fl_direction := fl_direction r; fl_scope := fl_scope r; fl_bytes_sent := fl_bytes_sent r;
       fl_bytes_received := fl_bytes_received r; fl_packets := fl_packets r;
       fl_connection_count := fl_connection_count r; fl_request_count := fl_connection_count r;
       fl_error_count := fl_error_count r; fl_retransmission_count := fl_retransmission_count r;
       fl_avg_rtt_ms := fl_avg_rtt_ms r; fl_avg_app_delay_ms := fl_avg_app_delay_ms r;
       fl_first_seen := fl_first_seen r; fl_last_seen := fl_last_seen r; fl_observed_at := fl_observed_at r;
       fl_created_at := fl_created_at r; fl_last_error_at := fl_last_error_at r;
       fl_interface_name := fl_interface_name r; fl_http_1xx := fl_http_1xx r; fl_http_2xx := fl_http_2xx r;
       fl_http_3xx := fl_http_3xx r; fl_http_4xx := fl_http_4xx r; fl_http_5xx := fl_http_5xx r;
       fl_last_http_status := fl_last_http_status r |}
  else r.

Definition migration_004 (db : DB) : DB := with_flows db (map backfill_requests (network_flows db)).

(** 005_external_private_scope.sql *)
Definition unresolved (h : HostRow) : bool := negb (isSome (h_resolved_vm_id h)).

Definition rescope (scope : string) (dst : option string) : string :=
  if (scope =? ScopeUnknownInternal)%string && negb (isSome dst) then ScopeExternalPrivate else scope.

Definition rescope_flow (r : FlowRow) : FlowRow :=
  {| fl_id := fl_id r; fl_agent_id := fl_agent_id r; fl_src_vm_id := fl_src_vm_id r;
     fl_dst_vm_id := fl_dst_vm_id r; fl_src_ip := fl_src_ip r; fl_dst_ip := fl_dst_ip r;
     fl_src_port := fl_src_port r; fl_dst_port := fl_dst_port r; fl_protocol := fl_protocol r;
     fl_direction := fl_direction r; fl_scope := rescope (fl_scope r) (fl_dst_vm_id r);
     fl_bytes_sent := fl_bytes_sent r; fl_bytes_received := fl_bytes_received r; fl_packets := fl_packets r;
     fl_connection_count := fl_connection_count r; fl_request_count := fl_request_count r;
     fl_error_count := fl_error_count r; fl_retransmission_count := fl_retransmission_count r;
     fl_avg_rtt_ms := fl_avg_rtt_ms r; fl_avg_app_delay_ms := fl_avg_app_delay_ms r;
     fl_first_seen := fl_first_seen r; fl_last_seen := fl_last_seen r; fl_observed_at := fl_observed_at r;
     fl_created_at := fl_created_at r; fl_last_error_at := fl_last_error_at r;
     fl_interface_name := fl_interface_name r; fl_http_1xx := fl_http_1xx r; fl_http_2xx := fl_http_2xx r;
     fl_http_3xx := fl_http_3xx r; fl_http_4xx := fl_http_4xx r; fl_http_5xx := fl_http_5xx r;
     fl_last_http_status := fl_last_http_status r |}.

Definition rescope_observation (o : ObservationRow) : ObservationRow :=
  {| ob_id := ob_id o; ob_flow_id := ob_flow_id o; ob_agent_id := ob_agent_id o; ob_src_vm_id := ob_src_vm_id o;
     ob_dst_vm_id := ob_dst_vm_id o; ob_src_ip := ob_src_ip o; ob_dst_ip := ob_dst_ip o;
     ob_src_port := ob_src_port o; ob_dst_port := ob_dst_port o; ob_protocol := ob_protocol o;
     ob_direction := ob_direction o; ob_scope := rescope (ob_scope o) (ob_dst_vm_id o);
     ob_bytes_sent := ob_bytes_sent o; ob_bytes_received := ob_bytes_received o; ob_packets := ob_packets o;
     ob_connection_count := ob_connection_count o; ob_request_count := ob_request_count o;
     ob_error_count := ob_error_count o; ob_retransmission_count := ob_retransmission_count o;
     ob_avg_rtt_ms := ob_avg_rtt_ms o; ob_avg_app_delay_ms := ob_avg_app_delay_ms o;
     ob_first_seen := ob_first_seen o; ob_last_seen := ob_last_seen o; ob_observed_at := ob_observed_at o;
     ob_http_1xx := ob_http_1xx o; ob_http_2xx := ob_http_2xx o; ob_http_3xx := ob_http_3xx o;
     ob_http_4xx := ob_http_4xx o; ob_http_5xx := ob_http_5xx o; ob_last_http_status := ob_last_http_status o |}.

Definition migration_005 (db : DB) : DB :=
  let ext := foldl (fun l h => upsertHost (h_ip h) (h_first_seen h) (h_last_seen h) l) (external_hosts db)
               (List.filter unresolved (unknown_internal_hosts db)) in
  let db := with_external db ext in
  let db := with_flows db (map rescope_flow (network_flows db)) in
  let db := with_observations db (map rescope_observation (flow_observations db)) in
  with_unknown_internal db (List.filter (fun h => negb (unresolved h)) (unknown_internal_hosts db)).

(** The loop of [Migrate] over the embedded files, for any kind of database;
    [exec k] is an outcome of the execution of file [k] that does not depend
    on the database.  A file is one implicit transaction. *)
Fixpoint applyMigrations {S} (exec : nat -> option GoError) (k : nat) (files : list (string * (S -> Result S))) (db : S)
    : Result unit * S :=
  match files with
  | [] => (Ok tt, db)
  | (name, sql) :: rest =>
      match exec k with
      | Some err => (Err (ErrorfW "apply migration %s: %w" [name] err), db)
      | None =>
          match sql db with
          | Err err => (Err (ErrorfW "apply migration %s: %w" [name] err), db)
          | Ok db => applyMigrations exec (Datatypes.S k) rest db
          end
      end
  end.

(** The embedded files in name order with what they do to the rows. *)
Definition migration_files : list (string * (DB -> Result DB)) :=
  [("001_init.sql", Ok); ("002_indexes.sql", Ok); ("003_flow_observed_at.sql", Ok);
   ("004_request_metrics.sql", fun db => Ok (migration_004 db));
   ("005_external_private_scope.sql", fun db => Ok (migration_005 db));
   ("006_icmp_protocol.sql", Ok); ("007_connection_probes.sql", Ok); ("008_flow_errors.sql", Ok);
   ("009_cloud_connection_context.sql", Ok); ("010_flow_metric_contract.sql", Ok);
   ("011_vm_inventory_assignment.sql", Ok); ("012_http_status_and_app_delay.sql", Ok)].

Definition Migrate (exec : nat -> option GoError) (db : DB) : Result unit * DB :=
  applyMigrations exec 0 migration_files db.

(** [Open]: the outcomes of making the pool and of the ping; the tables are
    migrated before the pool is handed out, and a pool that is not handed out
    is closed.  The result says whether a pool stays open. *)
Definition Open (newPool ping : option GoError) (exec : nat -> option GoError) (db : DB) : Result unit * bool * DB :=
  match newPool with
  | Some err => (Err (ErrorfW "create postgres pool: %w" [] err), false, db)
  | None =>
      match ping with
      | Some err => (Err (ErrorfW "ping postgres: %w" [] err), false, db)
      | None =>
          match Migrate exec db with
          | (Err err, db) => (Err err, false, db)
          | (Ok _, db) => (Ok tt, true, db)
          end
      end
  end.

(** * Facts *)

Lemma Migrate_ok exec db : (forall k, exec k = None) ->
  Migrate exec db = (Ok tt, migration_005 (migration_004 db)).
Proof. intros He. unfold Migrate, migration_files. cbn [applyMigrations]. by rewrite !He. Qed.

Lemma rescope_counter c o : ob_counter c (rescope_observation o) = ob_counter c o.
Proof. by destruct c. Qed.

Lemma observed_rescope c id l : observed c id (map rescope_observation l) = observed c id l.
Proof.
  unfold observed. induction l as [|o l IH]; simpl; [done|]. rewrite !sumZ_cons, IH, rescope_counter. done.
Qed.

(** A restart rewrites data.  The runner keeps no record of applied
    files, so every start of the backend executes the one-off data
    statements again: a flow all of whose requests were counted as zero (its
    events carried errors) but that has connections gets its connection count
    as request count, which no longer is the total of its observations; and
    all unresolved hosts of the discovery mode are forgotten, with the flows
    towards them reclassified as external. *)
Theorem restart_rewrites_data (exec : nat -> option GoError) (db : DB) :
  (forall k, exec k = None) -> flows_ok (network_flows db) (flow_observations db) ->
  exists db', Migrate exec db = (Ok tt, db') /\
  (forall r, r ∈ network_flows db -> fl_request_count r = 0 -> 0 < fl_connection_count r ->
     exists r', r' ∈ network_flows db' /\ fl_id r' = fl_id r /\ fl_request_count r' = fl_connection_count r /\
       fl_request_count r' <> observed CRequests (fl_id r') (flow_observations db')) /\
  (forall h, h ∈ unknown_internal_hosts db' -> h_resolved_vm_id h <> None) /\
  (forall r, r ∈ network_flows db' -> fl_dst_vm_id r = None -> fl_scope r <> ScopeUnknownInternal).
Proof.
  intros He Hok. exists (migration_005 (migration_004 db)). split; [by apply Migrate_ok|]. split_and!.
  - intros r Hr H0 Hc. exists (rescope_flow (backfill_requests r)). simpl. rewrite observed_rescope.
    unfold backfill_requests. rewrite H0, (proj2 (Z.ltb_lt _ _) Hc). cbn. split_and!; try done.
    + rewrite map_map. apply list_elem_of_In. apply in_map_iff. exists r. split; [|by apply list_elem_of_In].
      by rewrite H0, (proj2 (Z.ltb_lt _ _) Hc).
    + rewrite <- (ok_total _ _ Hok r CRequests Hr). simpl. lia.
  - intros h. simpl. rewrite list_elem_of_In, filter_In. unfold unresolved, isSome.
    intros [_ Hh]. by destruct (h_resolved_vm_id h).
  - intros r. simpl. rewrite list_elem_of_In, in_map_iff. intros (r0 & <- & _). simpl. unfold rescope. intros ->.
    destruct (String.eqb_spec (fl_scope r0) ScopeUnknownInternal); simpl; [done|done].
Qed.
End migrate.

(** ** A concrete restart: one failed connection ingested, then a start. *)

Definition failed_event : FlowEvent :=
  {| AgentID := "agent-1"; SrcIP := "10.0.0.5"; DstIP := "10.0.0.9"; SrcPort := 40000; DstPort := 443;
     Protocol := "tcp"; Direction_ := "egress"; BytesSent := 0; BytesReceived := 0; PacketCount := 1;
     ConnectionCount := 1; RequestCount := 0; ErrorCount := 1; Retransmissions := 0;
     AvgRTTMs := f_of_Z 0; AvgAppDelayMs := f_of_Z 0; HTTP1xx := 0; HTTP2xx := 0; HTTP3xx := 0; HTTP4xx := 0;
     HTTP5xx := 0; LastHTTPStatus := 0; FirstSeen := 1000000; LastSeen := 2000000; Interface := "eth0" |}.

Lemma restart_rewrites_data_witness :
  exists (db db' : @DB netip_postgres), Migrate (fun _ => None) db = (Ok tt, db') /\
    map fl_request_count (network_flows db) = [0] /\ map fl_request_count (network_flows db') = [1] /\
    exists r', r' ∈ network_flows db' /\
      fl_request_count r' <> observed CRequests (fl_id r') (flow_observations db').
Proof.
  destruct (sample_Ingest (quiet_env "flow-1" "ob-1") failed_event sample_db New) as [[r db] hub] eqn:E.
  assert (Hdb : db = snd (fst (sample_Ingest (quiet_env "flow-1" "ob-1") failed_event sample_db New))) by (by rewrite E).
  assert (Hok : flows_ok (network_flows db) (flow_observations db)).
  { unfold sample_Ingest in E. refine (proj1 (Ingest_keeps _ _ _ _ _ _ _ _ _ _ _ E)); [apply empty_flows_ok|discriminate]. }
  destruct (restart_rewrites_data (fun _ => None) db (fun _ => eq_refl) Hok) as (db' & Hm & Hr & _ & _).
  assert (Hq : map fl_request_count (network_flows db) = [0]) by (rewrite Hdb; vm_compute; reflexivity).
  assert (Hc : map fl_connection_count (network_flows db) = [1]) by (rewrite Hdb; vm_compute; reflexivity).
  exists db, db'. split; [exact Hm|]. split; [exact Hq|].
  clear E Hdb. destruct (network_flows db) as [|f [|g l]] eqn:El; [discriminate Hq| |discriminate Hq].
  injection Hq as Hq. injection Hc as Hc.
  destruct (Hr f) as (r' & Hin & _ & Hv & Hne); [left|exact Hq|lia|].
  split.
  - assert (Ed : db' = migration_005 (migration_004 db)) by (rewrite Migrate_ok in Hm by done; congruence).
    rewrite Ed. simpl. rewrite El. simpl. unfold backfill_requests. rewrite Hq, Hc. simpl. congruence.
  - exists r'. split; [exact Hin|exact Hne].
Defined.
