(* ===== verification/Ddl.v ===== *)
(** The part of SQL that the migrations of [backend/internal/db/migrations]
    are written in, as PostgreSQL executes it.

    A database is a catalog (tables with their columns and named constraints,
    and indexes) and the rows of its tables.  A statement changes the catalog
    ([ddl]) and the rows ([dml]) and succeeds only if the rows that result
    satisfy every declared type, [NOT NULL], [CHECK] and unique index
    ([db_ok]); a file of statements is one transaction.  Constraints without a
    name get the one PostgreSQL generates, on which later migrations rely.

    [analyse] is a static analysis of statements on the catalog alone;
    [analyse_sound] shows that the statements it accepts succeed whatever
    rows the database holds. *)
From S2P Require Import Prelude GoFloat GoTime Netip Sql Store.

#[local] Open Scope Z_scope.

(** ** Syntax *)

Inductive SqlType :=
| TEXT | TIMESTAMPTZ | INET | UUID | INTEGER | BIGINT | DOUBLE_PRECISION | BOOLEAN | CIDR | JSONB.

Inductive Cmp := CGe | CLe | CGt | CEq.

(** Conditions of [CHECK] and [WHERE]: [c IN (...)], [c op n], [c = 's'],
    [c IS NULL], [c IS NOT NULL] and their combinations. *)
Inductive Expr :=
| InList (c : string) (values : list string)
| Compare (op : Cmp) (c : string) (n : Z)
| EqText (c s : string)
| IsNull (c : string)
| IsNotNull (c : string)
| And (a b : Expr)
| Or (a b : Expr).

Inductive Default := DNow | DUuid | DText (s : string) | DInt (n : Z) | DBool (b : bool).
Inductive OnDelete := CASCADE | SET_NULL.
Inductive ColumnKey := PRIMARY_KEY | UNIQUE.

(** A column of [CREATE TABLE] or [ADD COLUMN]. *)
Record Column := {
  c_name : string; c_type : SqlType; c_notnull : bool; c_default : option Default;
  c_check : option Expr; c_key : option ColumnKey; c_references : option (string * string * OnDelete)
}.

(** A key of an index: a column, or [COALESCE(c, 's')]. *)
Inductive IndexKey := KCol (c : string) (desc : bool) | KCoalesce (c s : string).

(** The right-hand side of [SET]. *)
Inductive Source := FromColumn (c : string) | TextConst (s : string).

(** The statements; what can exist already is guarded by [IF NOT EXISTS],
    what can be missing by [IF EXISTS]. *)
Inductive Stmt :=
| CreateExtension (name : string)
| CreateTable (t : string) (cols : list Column)
| CreateIndex (unique : bool) (name t : string) (keys : list IndexKey) (nulls_distinct : bool) (cond : option Expr)
| AddColumns (t : string) (cols : list Column)
| DropConstraint (t name : string)
| AddConstraint (t name : string) (check : Expr)
| Update (t c : string) (src : Source) (cond : Expr)
| InsertSelect (into : string) (cols : list string) (from : string) (cond : Expr) (conflict greatest : string)
| Delete (t : string) (cond : Expr).

(** ** The catalog *)

Record ColInfo := { ci_type : SqlType; ci_notnull : bool; ci_default : option Default }.
Inductive Constraint :=
| CheckC (e : Expr)
| KeyC (primary : bool) (c : string)
| ForeignC (c t c' : string) (on_delete : OnDelete).
Record Table := { t_columns : gmap string ColInfo; t_constraints : gmap string Constraint }.
Record Index := {
  i_table : string; i_unique : bool; i_keys : list IndexKey; i_nulls_distinct : bool; i_where : option Expr
}.
Record Schema := { s_tables : gmap string Table; s_indexes : gmap string Index }.

Definition no_schema : Schema := {| s_tables := ∅; s_indexes := ∅ |}.

#[export] Instance SqlType_eq_dec : EqDecision SqlType. Proof. solve_decision. Defined.
#[export] Instance Cmp_eq_dec : EqDecision Cmp. Proof. solve_decision. Defined.
#[export] Instance Expr_eq_dec : EqDecision Expr. Proof. solve_decision. Defined.
#[export] Instance Default_eq_dec : EqDecision Default. Proof. solve_decision. Defined.
#[export] Instance OnDelete_eq_dec : EqDecision OnDelete. Proof. solve_decision. Defined.
#[export] Instance ColInfo_eq_dec : EqDecision ColInfo. Proof. solve_decision. Defined.
#[export] Instance Constraint_eq_dec : EqDecision Constraint. Proof. solve_decision. Defined.
#[export] Instance Table_eq_dec : EqDecision Table. Proof. solve_decision. Defined.
#[export] Instance IndexKey_eq_dec : EqDecision IndexKey. Proof. solve_decision. Defined.
#[export] Instance Index_eq_dec : EqDecision Index. Proof. solve_decision. Defined.
#[export] Instance Schema_eq_dec : EqDecision Schema. Proof. solve_decision. Defined.

Fixpoint expr_columns (e : Expr) : list string :=
  match e with
  | InList c _ | Compare _ c _ | EqText c _ | IsNull c | IsNotNull c => [c]
  | And a b | Or a b => expr_columns a ++ expr_columns b
  end.
Fixpoint rename (c d : string) (e : Expr) : Expr :=
  let f x := if decide (x = c) then d else x in
  match e with
  | InList x vs => InList (f x) vs
  | Compare op x n => Compare op (f x) n
  | EqText x s => EqText (f x) s
  | IsNull x => IsNull (f x)
  | IsNotNull x => IsNotNull (f x)
  | And a b => And (rename c d a) (rename c d b)
  | Or a b => Or (rename c d a) (rename c d b)
  end.
Definition key_column (k : IndexKey) : string := match k with KCol c _ | KCoalesce c _ => c end.
Definition index_columns (i : Index) : list string :=
  map key_column (i_keys i) ++ match i_where i with Some e => expr_columns e | None => [] end.

(** ** Changing the catalog *)

(** Tables and indexes share one name space; names have at most 63 bytes
    (longer ones, which PostgreSQL cuts, are refused here). *)
Definition relation_exists (sch : Schema) (n : string) : bool :=
  isSome (s_tables sch !! n) || isSome (s_indexes sch !! n).
Definition name_ok (n : string) : bool := (String.length n <=? 63)%nat.

(** The generated name of an unnamed constraint: the first that is free of
    [base], [base1], ... *)
Definition choose_name (taken : string -> bool) (base : string) : option string :=
  n ← head (List.filter (fun n => negb (taken n)) (map (fun d => base +:+ d) [""; "1"; "2"; "3"; "4"; "5"; "6"; "7"; "8"; "9"]));
  if name_ok n then Some n else None.

Definition with_table (sch : Schema) (t : string) (tab : Table) : Schema :=
  {| s_tables := <[t := tab]> (s_tables sch); s_indexes := s_indexes sch |}.
Definition with_index (sch : Schema) (n : string) (i : Index) : Schema :=
  {| s_tables := s_tables sch; s_indexes := <[n := i]> (s_indexes sch) |}.
Definition has_columns (tab : Table) (cols : list string) : bool :=
  forallb (fun c => isSome (t_columns tab !! c)) cols.
Definition with_constraint (tab : Table) (n : string) (k : Constraint) : Table :=
  {| t_columns := t_columns tab; t_constraints := <[n := k]> (t_constraints tab) |}.

(** [CONSTRAINT name ...] on an existing table. *)
Definition add_constraint (t n : string) (k : Constraint) (sch : Schema) : option Schema :=
  tab ← s_tables sch !! t;
  if negb (isSome (t_constraints tab !! n)) && name_ok n
  then Some (with_table sch t (with_constraint tab n k)) else None.

Definition constraint_name (t suffix : string) (sch : Schema) : option string :=
  tab ← s_tables sch !! t; choose_name (fun n => isSome (t_constraints tab !! n)) (t +:+ suffix).

(** The constraints of a column definition, on a table that has the column. *)
Definition add_check (t : string) (col : Column) (sch : Schema) : option Schema :=
  match c_check col with
  | None => Some sch
  | Some e =>
      tab ← s_tables sch !! t;
      n ← constraint_name t ("_" +:+ c_name col +:+ "_check") sch;
      if has_columns tab (expr_columns e) then add_constraint t n (CheckC e) sch else None
  end.

Definition is_key_of (c : string) (k : Constraint) : bool :=
  match k with KeyC _ c' => (c' =? c)%string | _ => false end.

Definition add_references (t : string) (col : Column) (sch : Schema) : option Schema :=
  match c_references col with
  | None => Some sch
  | Some (t', c', od) =>
      target ← s_tables sch !! t';
      ci ← t_columns target !! c';
      n ← constraint_name t ("_" +:+ c_name col +:+ "_fkey") sch;
      if existsb (fun '(_, k) => is_key_of c' k) (map_to_list (t_constraints target))
         && bool_decide (ci_type ci = c_type col)
      then add_constraint t n (ForeignC (c_name col) t' c' od) sch else None
  end.

Definition add_key (t : string) (col : Column) (sch : Schema) : option Schema :=
  match c_key col with
  | None => Some sch
  | Some k =>
      let primary := match k with PRIMARY_KEY => true | UNIQUE => false end in
      n ← choose_name (relation_exists sch)
            (if primary then t +:+ "_pkey" else t +:+ "_" +:+ c_name col +:+ "_key");
      sch ← add_constraint t n (KeyC primary (c_name col)) sch;
      Some (with_index sch n {| i_table := t; i_unique := true; i_keys := [KCol (c_name col) false];
                                i_nulls_distinct := true; i_where := None |})
  end.

(** A primary key is [NOT NULL]. *)
Definition col_info (col : Column) : ColInfo :=
  {| ci_type := c_type col;
     ci_notnull := c_notnull col || match c_key col with Some PRIMARY_KEY => true | _ => false end;
     ci_default := c_default col |}.

Definition add_column (t : string) (col : Column) (sch : Schema) : option Schema :=
  tab ← s_tables sch !! t;
  let sch := with_table sch t {| t_columns := <[c_name col := col_info col]> (t_columns tab);
                                 t_constraints := t_constraints tab |} in
  sch ← add_key t col sch; sch ← add_check t col sch; add_references t col sch.

(** [ADD COLUMN IF NOT EXISTS]: an existing column is left alone, with its
    constraints.  A default that differs from row to row is not supported. *)
Definition add_column_if (t : string) (col : Column) (sch : Schema) : option Schema :=
  tab ← s_tables sch !! t;
  if isSome (t_columns tab !! c_name col) then Some sch
  else if bool_decide (c_default col = Some DUuid) then None else add_column t col sch.

Fixpoint foldM {A S} (f : A -> S -> option S) (l : list A) (s : S) : option S :=
  match l with [] => Some s | x :: l => s ← f x s; foldM f l s end.

Lemma foldM_app {A S} (f : A -> S -> option S) (l l' : list A) (s : S) :
  foldM f (l ++ l') s = s' ← foldM f l s; foldM f l' s'.
Proof. revert s. induction l as [|x l IH]; intros s; simpl; [done|]. destruct (f x s); simpl; auto. Qed.

Definition create_table (t : string) (cols : list Column) (sch : Schema) : option Schema :=
  if bool_decide (NoDup (map c_name cols)) && name_ok t
  then foldM (add_column t) cols (with_table sch t {| t_columns := ∅; t_constraints := ∅ |}) else None.

(** [DROP CONSTRAINT IF EXISTS]; only checks are dropped. *)
Definition drop_constraint (t n : string) (sch : Schema) : option Schema :=
  tab ← s_tables sch !! t;
  match t_constraints tab !! n with
  | None => Some sch
  | Some (CheckC _) =>
      Some (with_table sch t {| t_columns := t_columns tab; t_constraints := delete n (t_constraints tab) |})
  | Some _ => None
  end.

Definition source_ok (tab : Table) (c : string) (src : Source) : bool :=
  match src with
  | FromColumn d => bool_decide (ci_type <$> t_columns tab !! c = ci_type <$> t_columns tab !! d)
  | TextConst _ => bool_decide (ci_type <$> t_columns tab !! c = Some TEXT)
  end.

Definition unique_on (t c : string) (i : Index) : bool :=
  bool_decide (i = {| i_table := t; i_unique := true; i_keys := [KCol c false]; i_nulls_distinct := true; i_where := None |}).
Definition has_unique (sch : Schema) (t c : string) : bool :=
  existsb (fun '(_, i) => unique_on t c i) (map_to_list (s_indexes sch)).

Definition references_table (t : string) (k : Constraint) : bool :=
  match k with ForeignC _ t' _ _ => (t' =? t)%string | _ => false end.
Definition referenced (sch : Schema) (t : string) : bool :=
  existsb (fun '(_, tab) => existsb (fun '(_, k) => references_table t k) (map_to_list (t_constraints tab)))
    (map_to_list (s_tables sch)).

(** What a statement does to the catalog; [None] is an error.  The data
    statements leave it as it is and need what they name: the conflict target
    of an [INSERT] needs a unique index on that column, and a [DELETE] of
    referenced rows is not supported. *)
Definition ddl (s : Stmt) (sch : Schema) : option Schema :=
  match s with
  | CreateExtension _ => Some sch
  | CreateTable t cols => if relation_exists sch t then Some sch else create_table t cols sch
  | CreateIndex unique n t keys nulls_distinct cond =>
      tab ← s_tables sch !! t;
      let i := {| i_table := t; i_unique := unique; i_keys := keys; i_nulls_distinct := nulls_distinct;
                  i_where := cond |} in
      if negb (has_columns tab (index_columns i)) then None
      else if relation_exists sch n then Some sch
      else if name_ok n then Some (with_index sch n i) else None
  | AddColumns t cols => if isSome (s_tables sch !! t) then foldM (add_column_if t) cols sch else None
  | DropConstraint t n => drop_constraint t n sch
  | AddConstraint t n e =>
      tab ← s_tables sch !! t;
      if has_columns tab (expr_columns e) then add_constraint t n (CheckC e) sch else None
  | Update t c src cond =>
      tab ← s_tables sch !! t;
      if has_columns tab (c :: expr_columns cond) && source_ok tab c src then Some sch else None
  | InsertSelect into cols from cond conflict greatest =>
      tab ← s_tables sch !! into;
      tab' ← s_tables sch !! from;
      if has_columns tab cols && has_columns tab' (cols ++ expr_columns cond)
         && forallb (fun c => bool_decide (ci_type <$> t_columns tab !! c = ci_type <$> t_columns tab' !! c)) cols
         && has_unique sch into conflict && bool_decide (ci_type <$> t_columns tab !! greatest = Some TIMESTAMPTZ)
      then Some sch else None
  | Delete t cond =>
      tab ← s_tables sch !! t;
      if has_columns tab (expr_columns cond) && negb (referenced sch t) then Some sch else None
  end.

(** ** A statement on a table leaves the others alone *)

Record frame (t : string) (sch sch' : Schema) : Prop := {
  fr_others : forall x, x <> t -> s_tables sch' !! x = s_tables sch !! x;
  fr_here : is_Some (s_tables sch !! t) -> is_Some (s_tables sch' !! t);
  fr_indexes : forall n i, s_indexes sch' !! n = Some i -> s_indexes sch !! n = Some i \/ i_table i = t
}.

#[export] Instance frame_refl t : Reflexive (frame t).
Proof. intros sch. split; auto. Qed.
#[export] Instance frame_trans t : Transitive (frame t).
Proof.
  intros a b c [H1 H2 H3] [K1 K2 K3]. split; [|auto|].
  - intros x Hx. by rewrite K1, H1.
  - intros n i Hn. destruct (K3 n i Hn) as [?|?]; auto.
Qed.

Lemma frame_with_table t sch tab : frame t sch (with_table sch t tab).
Proof.
  split; simpl; [|intros _; rewrite lookup_insert_eq; by eexists|auto].
  intros x Hx. by rewrite lookup_insert_ne.
Qed.

Lemma frame_with_index t sch n i : i_table i = t -> frame t sch (with_index sch n i).
Proof.
  intros Ht. split; simpl; auto. intros m j. rewrite lookup_insert_Some. intros [[_ <-]|[_ ?]]; auto.
Qed.

Lemma add_constraint_frame t n k sch sch' : add_constraint t n k sch = Some sch' ->
  frame t sch sch' /\ s_indexes sch' = s_indexes sch.
Proof.
  unfold add_constraint. intros E. destruct (s_tables sch !! t); [|done]. simpl in E. case_match; [|done].
  injection E as <-. split; [apply frame_with_table|done].
Qed.

Lemma add_check_frame t col sch sch' : add_check t col sch = Some sch' -> frame t sch sch' /\ s_indexes sch' = s_indexes sch.
Proof.
  unfold add_check. intros E. destruct (c_check col); [|by injection E as <-].
  destruct (s_tables sch !! t); [|done]. simpl in E. destruct (constraint_name _ _ _); [|done]. simpl in E.
  case_match; [|done]. by apply add_constraint_frame in E.
Qed.

Lemma add_references_frame t col sch sch' : add_references t col sch = Some sch' ->
  frame t sch sch' /\ s_indexes sch' = s_indexes sch.
Proof.
  unfold add_references. intros E. destruct (c_references col) as [[[t' c'] od]|]; [|by injection E as <-].
  destruct (s_tables sch !! t') as [target|]; [|done]. simpl in E. destruct (t_columns target !! c'); [|done]. simpl in E.
  destruct (constraint_name _ _ _); [|done]. simpl in E. case_match; [|done]. by apply add_constraint_frame in E.
Qed.

Lemma add_key_frame t col sch sch' : add_key t col sch = Some sch' ->
  frame t sch sch' /\ (c_key col = None -> s_indexes sch' = s_indexes sch).
Proof.
  unfold add_key. intros E. destruct (c_key col) as [k|]; [|by injection E as <-].
  destruct (choose_name _ _) as [n|]; [|done]. simpl in E. destruct (add_constraint _ _ _ _) as [sch1|] eqn:E1; [|done].
  simpl in E. injection E as <-. split; [|done]. apply add_constraint_frame in E1 as [Hf _].
  etransitivity; [exact Hf|by apply frame_with_index].
Qed.

Lemma add_column_frame t col sch sch' : add_column t col sch = Some sch' ->
  frame t sch sch' /\ (c_key col = None -> s_indexes sch' = s_indexes sch).
Proof.
  unfold add_column. intros E. destruct (s_tables sch !! t) as [tab|]; [|done]. simpl in E.
  destruct (add_key _ _ _) as [s1|] eqn:E1; [|done]. simpl in E.
  destruct (add_check _ _ _) as [s2|] eqn:E2; [|done]. simpl in E.
  apply add_key_frame in E1 as [F1 I1]. apply add_check_frame in E2 as [F2 I2]. apply add_references_frame in E as [F3 I3].
  split; [|intros Hk; rewrite I3, I2, I1; done].
  etransitivity; [apply frame_with_table|]. etransitivity; [exact F1|]. by etransitivity.
Qed.

Lemma add_column_if_frame t col sch sch' : add_column_if t col sch = Some sch' ->
  frame t sch sch' /\ (c_key col = None -> s_indexes sch' = s_indexes sch).
Proof.
  unfold add_column_if. intros E. destruct (s_tables sch !! t); [|done]. simpl in E. case_match; [by injection E as <-|].
  case_match; [done|]. by apply add_column_frame.
Qed.

Lemma foldM_frame {A} (f : A -> Schema -> option Schema) (keyless : A -> Prop) t l sch sch' :
  (forall x a b, f x a = Some b -> frame t a b /\ (keyless x -> s_indexes b = s_indexes a)) ->
  foldM f l sch = Some sch' -> frame t sch sch' /\ (Forall keyless l -> s_indexes sch' = s_indexes sch).
Proof.
  intros Hf. revert sch. induction l as [|x l IH]; intros sch E; simpl in E; [by injection E as <-|].
  destruct (f x sch) as [s1|] eqn:E1; [|done]. simpl in E. apply Hf in E1 as [F1 I1]. destruct (IH s1 E) as [F2 I2].
  split; [by etransitivity|]. intros [Hx Hl]%Forall_cons. rewrite I2, I1; done.
Qed.

Lemma drop_constraint_frame t n sch sch' : drop_constraint t n sch = Some sch' ->
  frame t sch sch' /\ s_indexes sch' = s_indexes sch.
Proof.
  unfold drop_constraint. intros E. destruct (s_tables sch !! t) as [tab|]; [|done]. simpl in E.
  destruct (t_constraints tab !! n) as [[]|]; try done; injection E as <-; [|done]. split; [apply frame_with_table|done].
Qed.

Lemma create_table_frame t cols sch sch' : create_table t cols sch = Some sch' ->
  frame t sch sch' /\ is_Some (s_tables sch' !! t).
Proof.
  unfold create_table. case_match; [|done]. intros E.
  apply (foldM_frame _ (fun col => c_key col = None) t) in E as [F _]; [|intros; by apply add_column_frame].
  split; [etransitivity; [apply frame_with_table|exact F]|]. apply (fr_here _ _ _ F). simpl.
  rewrite lookup_insert_eq. by eexists.
Qed.

(** ** Rows *)

Section rows.
Context `{Postgres}.

(** A value that is not [NULL]; values of [CIDR] and [JSONB] columns, which
    nothing here looks into, are their text. *)
Inductive Value :=
| VText (s : string) | VTime (t : time) | VInet (a : inet) | VUuid (s : string) | VInt (n : Z)
| VFloat (x : float64) | VBool (b : bool) | VOther (s : string).
#[export] Instance Value_eq_dec : EqDecision Value. Proof. solve_decision. Defined.

(** A row by column; a column that is absent is [NULL]. *)
Abbreviation Row := (gmap string Value).
Abbreviation Rows := (gmap string (list Row)).
Definition rows_of (rows : Rows) (t : string) : list Row := default [] (rows !! t).

Definition has_type (v : Value) (ty : SqlType) : bool :=
  match v, ty with
  | VText _, TEXT | VTime _, TIMESTAMPTZ | VInet _, INET | VUuid _, UUID | VFloat _, DOUBLE_PRECISION
  | VBool _, BOOLEAN | VOther _, CIDR | VOther _, JSONB => true
  | VInt n, INTEGER => (- 2 ^ 31 <=? n) && (n <? 2 ^ 31)
  | VInt n, BIGINT => (- 2 ^ 63 <=? n) && (n <? 2 ^ 63)
  | _, _ => false
  end.

(** Comparison with an integer constant, which is converted for a [DOUBLE
    PRECISION] column. *)
Definition compare (op : Cmp) (v : Value) (n : Z) : option bool :=
  match v with
  | VInt m => Some (match op with CGe => n <=? m | CLe => m <=? n | CGt => n <? m | CEq => m =? n end)
  | VFloat x =>
      let y := f_of_Z n in
      Some (match op with
            | CGe => negb (float8_gt y x) | CLe => negb (float8_gt x y) | CGt => float8_gt x y
            | CEq => negb (float8_gt x y) && negb (float8_gt y x)
            end)
  | _ => None
  end.

(** The value of a condition on a row, in three-valued logic. *)
Fixpoint eval (e : Expr) (r : Row) : option bool :=
  match e with
  | InList c vs => match r !! c with Some (VText s) => Some (existsb (String.eqb s) vs) | _ => None end
  | Compare op c n => v ← r !! c; compare op v n
  | EqText c s => match r !! c with Some (VText s') => Some (s' =? s)%string | _ => None end
  | IsNull c => Some (negb (isSome (r !! c)))
  | IsNotNull c => Some (isSome (r !! c))
  | And a b => sql_and (eval a r) (eval b r)
  | Or a b => sql_or (eval a r) (eval b r)
  end.

(** A check is violated by false, not by [NULL]. *)
Definition passes (e : Expr) (r : Row) : Prop := eval e r <> Some false.

Definition value_ok (ci : ColInfo) (v : option Value) : Prop :=
  match v with Some v => has_type v (ci_type ci) = true | None => ci_notnull ci = false end.
#[export] Instance value_ok_dec ci v : Decision (value_ok ci v).
Proof. destruct v; simpl; apply _. Defined.

Definition constraint_ok (r : Row) (k : Constraint) : Prop := match k with CheckC e => passes e r | _ => True end.
#[export] Instance constraint_ok_dec r k : Decision (constraint_ok r k).
Proof. unfold passes. destruct k; simpl; unfold passes; apply _. Defined.

(** A row as its table declares it. *)
Definition row_ok (tab : Table) (r : Row) : Prop :=
  map_Forall (fun c _ => is_Some (t_columns tab !! c)) r /\
  map_Forall (fun c ci => value_ok ci (r !! c)) (t_columns tab) /\
  map_Forall (fun _ k => constraint_ok r k) (t_constraints tab).

(** The entry of an index for a row, if it has one. *)
Definition key_value (r : Row) (k : IndexKey) : option Value :=
  match k with KCol c _ => r !! c | KCoalesce c s => Some (default (VText s) (r !! c)) end.
Definition index_key (i : Index) (r : Row) : option (list (option Value)) :=
  let ks := map (key_value r) (i_keys i) in
  if match i_where i with Some e => sql_holds (eval e r) | None => true end
     && negb (i_nulls_distinct i && existsb (fun v => negb (isSome v)) ks)
  then Some ks else None.
Definition unique_ok (i : Index) (l : list Row) : Prop := i_unique i = true -> NoDup (omap (index_key i) l).
#[export] Instance unique_ok_dec i l : Decision (unique_ok i l).
Proof. unfold unique_ok. apply _. Defined.

(** The rows satisfy the catalog. *)
Definition db_ok (sch : Schema) (rows : Rows) : Prop :=
  map_Forall (fun t _ => is_Some (s_tables sch !! t)) rows /\
  map_Forall (fun t tab => Forall (row_ok tab) (rows_of rows t)) (s_tables sch) /\
  map_Forall (fun _ i => unique_ok i (rows_of rows (i_table i))) (s_indexes sch).
#[export] Instance db_ok_dec sch rows : Decision (db_ok sch rows).
Proof. unfold db_ok, row_ok. apply _. Defined.

(** ** Changing rows *)

(** [now] is the time of the transaction, [gen k] the [k]-th result of
    [gen_random_uuid()]. *)
Context (now : time) (gen : nat -> string).

Definition default_for (ty : SqlType) (k : nat) (d : Default) : Value :=
  match d with
  | DNow => VTime (timestamptz now)
  | DUuid => VUuid (gen k)
  | DText s => VText s
  | DInt n => match ty with DOUBLE_PRECISION => VFloat (f_of_Z n) | _ => VInt n end
  | DBool b => VBool b
  end.

(** Existing rows get the default of a new column. *)
Definition fill_column (tab : Table) (col : Column) (r : Row) : Row :=
  if isSome (t_columns tab !! c_name col) then r
  else match c_default col with
       | Some d => <[c_name col := default_for (c_type col) 0 d]> r
       | None => r
       end.
Definition fill (tab : Table) (cols : list Column) (r : Row) : Row := foldr (fill_column tab) r cols.

Definition source_value (src : Source) (r : Row) : option Value :=
  match src with FromColumn d => r !! d | TextConst s => Some (VText s) end.
Definition update_row (c : string) (src : Source) (cond : Expr) (r : Row) : Row :=
  if sql_holds (eval cond r) then partial_alter (fun _ => source_value src r) c r else r.

(** [INSERT INTO into (cols) SELECT cols FROM ...]: the columns that are not
    listed get their defaults. *)
Definition new_row (tab : Table) (cols : list string) (k : nat) (r : Row) : Row :=
  map_imap (fun c ci => if bool_decide (c ∈ cols) then r !! c
                        else default_for (ci_type ci) k <$> ci_default ci) (t_columns tab).
(** [GREATEST], which ignores [NULL]s, of timestamps. *)
Definition greatest_of (a b : option Value) : option Value :=
  match a, b with
  | Some (VTime x), Some (VTime y) => Some (VTime (Z.max x y))
  | None, b => b
  | a, _ => a
  end.
Definition bump (g : string) (new r : Row) : Row := partial_alter (fun v => greatest_of v (new !! g)) g r.

(** [ON CONFLICT (conflict) DO UPDATE SET g = GREATEST(t.g, EXCLUDED.g)] for one proposed row:
    the same row must not be affected twice. *)
Definition upsert (tab : Table) (cols : list string) (conflict g : string) (r : Row)
    (st : list Row * list (option Value) * nat) : option (list Row * list (option Value) * nat) :=
  let '(l, touched, k) := st in
  let new := new_row tab cols k r in
  let hit x := isSome (new !! conflict) && bool_decide (x !! conflict = new !! conflict) in
  if existsb hit l then
    if bool_decide ((new !! conflict) ∈ touched) then None
    else Some (map (fun x => if hit x then bump g new x else x) l, new !! conflict :: touched, S k)
  else Some (l ++ [new], new !! conflict :: touched, S k).

(** What a statement does to the rows, the catalog being [sch] before it. *)
Definition dml (s : Stmt) (sch : Schema) (rows : Rows) : option Rows :=
  match s with
  | CreateTable t _ => Some (if relation_exists sch t then rows else <[t := []]> rows)
  | AddColumns t cols =>
      tab ← s_tables sch !! t; Some (<[t := map (fill tab cols) (rows_of rows t)]> rows)
  | Update t c src cond => Some (<[t := map (update_row c src cond) (rows_of rows t)]> rows)
  | InsertSelect into cols from cond conflict greatest =>
      tab ← s_tables sch !! into;
      st ← foldM (upsert tab cols conflict greatest)
             (List.filter (fun r => sql_holds (eval cond r)) (rows_of rows from)) (rows_of rows into, [], 0%nat);
      Some (<[into := fst (fst st)]> rows)
  | Delete t cond =>
      Some (<[t := List.filter (fun r => negb (sql_holds (eval cond r))) (rows_of rows t)]> rows)
  | CreateExtension _ | CreateIndex _ _ _ _ _ _ | DropConstraint _ _ | AddConstraint _ _ _ => Some rows
  end.

Definition Database : Type := Schema * Rows.

(** One statement: the result must satisfy the constraints. *)
Definition exec_stmt (s : Stmt) (d : Database) : option Database :=
  sch ← ddl s (fst d);
  rows ← dml s (fst d) (snd d);
  if decide (db_ok sch rows) then Some (sch, rows) else None.

(** A file, sent as one simple query: all of its statements or none. *)
Definition exec_file (file : list Stmt) (d : Database) : option Database := foldM exec_stmt file d.

(** ** The analysis

    The catalog before and after a statement is compared with decidable
    conditions under which rows that satisfy the one, changed by the
    statement, satisfy the other. *)

(** What is known of a database: its catalog, tables that have no rows,
    conditions that all rows of a table pass though no constraint says so, and
    whether the identifiers of [gen] are still unused. *)
Record Facts := {
  a_schema : Schema; a_empty : list string; a_known : list (string * Expr); a_unused : bool
}.

Definition unused_uuids (rows : Rows) : Prop :=
  Inj (=) (=) gen /\ forall t r c k, r ∈ rows_of rows t -> r !! c <> Some (VUuid (gen k)).

Record facts_hold (a : Facts) (d : Database) : Prop := {
  fh_schema : fst d = a_schema a;
  fh_ok : db_ok (fst d) (snd d);
  fh_empty : forall t, t ∈ a_empty a -> rows_of (snd d) t = [];
  fh_known : forall t e, (t, e) ∈ a_known a -> Forall (passes e) (rows_of (snd d) t);
  fh_unused : a_unused a = true -> unused_uuids (snd d)
}.

(** Tables other than those of [l] are declared as before. *)
Definition same_tables (l : list string) (sch sch' : Schema) : Prop :=
  map_Forall (fun t _ => is_Some (s_tables sch' !! t)) (s_tables sch) /\
  map_Forall (fun t tab => t ∈ l \/ s_tables sch !! t = Some tab) (s_tables sch').
(** Each unique index is an old one or on a table without rows. *)
Definition same_unique (empty : list string) (sch sch' : Schema) : Prop :=
  map_Forall (fun n i => s_indexes sch !! n = Some i \/ i_unique i = false \/ i_table i ∈ empty) (s_indexes sch').
(** Each constraint is an old one or a check that is known to hold. *)
Definition same_checks (known : list (string * Expr)) (t : string) (tab tab' : Table) : Prop :=
  t_columns tab' = t_columns tab /\
  map_Forall (fun n k => t_constraints tab !! n = Some k \/
                match k with CheckC e => (t, e) ∈ known | _ => True end) (t_constraints tab').

Definition new_columns (tab : Table) (cols : list Column) : list string :=
  List.filter (fun c => negb (isSome (t_columns tab !! c))) (map c_name cols).
(** The rows of [tab] with the defaults of new columns are rows of [tab']. *)
Definition columns_fit (cols : list Column) (tab tab' : Table) : Prop :=
  let fresh := new_columns tab cols in
  let filled := fill tab cols ∅ in
  map_Forall (fun c ci => t_columns tab !! c = Some ci \/ c ∈ fresh) (t_columns tab') /\
  map_Forall (fun c _ => is_Some (t_columns tab' !! c)) (t_columns tab) /\
  Forall (fun c => match t_columns tab' !! c with Some ci => value_ok ci (filled !! c) | None => False end) fresh /\
  map_Forall (fun n k => match k with
                         | CheckC e => (t_constraints tab !! n = Some k /\ Forall (fun c => c ∉ fresh) (expr_columns e)) \/
                                       (Forall (fun c => c ∈ fresh) (expr_columns e) /\ passes e filled)
                         | _ => True
                         end) (t_constraints tab').
Definition unique_avoids (cols : list string) (t : string) (sch : Schema) : Prop :=
  map_Forall (fun _ i => i_unique i = true -> i_table i = t -> Forall (fun c => c ∉ cols) (index_columns i)) (s_indexes sch).

(** Setting [c] breaks no check: those on [c] are on [c] alone and hold of
    what is stored, in one case because the same check is on the source. *)
Definition set_fits (tab : Table) (c : string) (src : Source) : Prop :=
  match t_columns tab !! c, src with
  | Some ci, FromColumn d =>
      match t_columns tab !! d with
      | Some di => ci_type ci = ci_type di /\ (ci_notnull ci = true -> ci_notnull di = true)
      | None => False
      end
  | Some ci, TextConst _ => ci_type ci = TEXT
  | None, _ => False
  end /\
  map_Forall (fun _ k => match k with
                         | CheckC e => (Forall (fun x => x <> c) (expr_columns e)) \/
                             (Forall (fun x => x = c) (expr_columns e) /\
                              match src with
                              | FromColumn d => Exists (fun '(_, k) => k = CheckC (rename c d e)) (map_to_list (t_constraints tab))
                              | TextConst s => passes e {[ c := VText s ]}
                              end)
                         | _ => True
                         end) (t_constraints tab).

(** The rows selected from [from] can be merged into [into]. *)
Definition merge_fits (sch : Schema) (into : string) (tab : Table) (cols : list string) (from : string) (tab' : Table)
    (conflict g : string) : Prop :=
  into <> from /\ conflict ∈ cols /\ g <> conflict /\ has_unique sch from conflict = true /\
  is_Some (t_columns tab !! conflict) /\
  match t_columns tab' !! conflict with Some ci => ci_notnull ci = true | None => False end /\
  (ci_type <$> t_columns tab !! g = Some TIMESTAMPTZ) /\
  map_Forall (fun c ci =>
    (c ∈ cols /\ match t_columns tab' !! c with
                 | Some ci' => ci_type ci = ci_type ci' /\ (ci_notnull ci = true -> ci_notnull ci' = true)
                 | None => False
                 end) \/
    (~ (c ∈ cols) /\ value_ok ci (default_for (ci_type ci) 0 <$> ci_default ci))) (t_columns tab) /\
  map_Forall (fun _ k => match k with CheckC _ => False | _ => True end) (t_constraints tab) /\
  map_Forall (fun _ i => i_unique i = true -> i_table i = into ->
    unique_on into conflict i = true \/
    match i_keys i with
    | [KCol c _] => i_where i = None /\ i_nulls_distinct i = true /\ c <> g /\ c <> conflict /\ ~ (c ∈ cols) /\
                    (ci_default <$> t_columns tab !! c) = Some (Some DUuid)
    | _ => False
    end) (s_indexes sch).

#[local] Ltac solve_dec :=
  repeat first
    [ progress intros | apply _ | apply map_Forall_dec | apply and_dec | apply or_dec
    | match goal with
      | |- Decision (match ?x with _ => _ end) => destruct x
      | |- Decision (let _ := _ in _) => cbv zeta
      | |- Decision (_ -> _) => apply impl_dec
      | |- Decision (Forall _ _) => apply Forall_dec
      end ].

#[export] Instance same_checks_dec known t tab tab' : Decision (same_checks known t tab tab').
Proof. unfold same_checks. solve_dec. Defined.
#[export] Instance passes_dec e r : Decision (passes e r).
Proof. unfold passes. apply _. Defined.
#[export] Instance columns_fit_dec cols tab tab' : Decision (columns_fit cols tab tab').
Proof. unfold columns_fit. solve_dec. Defined.
#[export] Instance unique_avoids_dec cols t sch : Decision (unique_avoids cols t sch).
Proof. unfold unique_avoids. apply _. Defined.
#[export] Instance set_fits_dec tab c src : Decision (set_fits tab c src).
Proof. unfold set_fits. solve_dec. Defined.
#[export] Instance merge_fits_dec sch into tab cols from tab' conflict g :
  Decision (merge_fits sch into tab cols from tab' conflict g).
Proof. unfold merge_fits. solve_dec. Defined.

Definition keyless (col : Column) : bool := match c_key col with None => true | Some _ => false end.

Definition analyse (s : Stmt) (a : Facts) : option Facts :=
  let sch := a_schema a in
  sch' ← ddl s sch;
  let next empty known unused := Some {| a_schema := sch'; a_empty := empty; a_known := known; a_unused := unused |} in
  match s with
  | CreateExtension _ | Delete _ _ => next (a_empty a) [] (a_unused a)
  | CreateTable t _ =>
      next (if relation_exists sch t then a_empty a else t :: a_empty a) [] (a_unused a)
  | CreateIndex unique n t _ _ _ =>
      if relation_exists sch n || negb unique || bool_decide (t ∈ a_empty a) then next (a_empty a) [] (a_unused a)
      else None
  | AddColumns t cols =>
      tab ← s_tables sch !! t;
      tab' ← s_tables sch' !! t;
      if decide (columns_fit cols tab tab' /\ unique_avoids (new_columns tab cols) t sch /\
                 Forall (fun col => c_default col <> Some DUuid) cols /\ forallb keyless cols = true)
      then next (a_empty a) [] (a_unused a) else None
  | DropConstraint t _ | AddConstraint t _ _ =>
      tab ← s_tables sch !! t;
      tab' ← s_tables sch' !! t;
      let known := match s with
                   | DropConstraint _ n =>
                       match t_constraints tab !! n with Some (CheckC e) => (t, e) :: a_known a | _ => a_known a end
                   | _ => a_known a
                   end in
      if decide (same_checks known t tab tab') then next (a_empty a) known (a_unused a) else None
  | Update t c src _ =>
      tab ← s_tables sch !! t;
      if decide (set_fits tab c src /\ unique_avoids [c] t sch) then next (a_empty a) [] (a_unused a) else None
  | InsertSelect into cols from _ conflict greatest =>
      tab ← s_tables sch !! into;
      tab' ← s_tables sch !! from;
      if decide (merge_fits sch into tab cols from tab' conflict greatest /\ a_unused a = true)
      then next (List.filter (fun t => negb (t =? into)%string) (a_empty a)) [] false else None
  end.

(** What may become of the rows of a statement: the columns that are set and
    the tables whose rows come and go. *)
Definition sets (s : Stmt) : list string := match s with Update _ c _ _ => [c] | _ => [] end.
Definition merges (s : Stmt) : list string :=
  match s with InsertSelect into _ _ _ _ _ => [into] | Delete t _ => [t] | _ => [] end.
Definition row_kept (except : list string) (r r' : Row) : Prop :=
  forall c v, r !! c = Some v -> c ∈ except \/ r' !! c = Some v.
Definition rows_kept (except merged : list string) (rows rows' : Rows) : Prop :=
  forall t, t ∉ merged -> Forall2 (row_kept except) (rows_of rows t) (rows_of rows' t).

(** ** Conditions, index entries and rows *)

Lemma rows_of_insert rows t l : rows_of (<[t := l]> rows) t = l.
Proof. unfold rows_of. by rewrite lookup_insert_eq. Qed.
Lemma rows_of_insert_ne rows t t' l : t <> t' -> rows_of (<[t := l]> rows) t' = rows_of rows t'.
Proof. intros. unfold rows_of. by rewrite lookup_insert_ne. Qed.

Lemma eval_agree e (r r' : Row) : Forall (fun c => r !! c = r' !! c) (expr_columns e) -> eval e r = eval e r'.
Proof.
  induction e as [c vs|op c n|c s|c|c|a IHa b IHb|a IHa b IHb]; simpl; intros Hc;
    try (apply Forall_cons in Hc as [Hc _]; by rewrite Hc);
    apply Forall_app in Hc as [Ha Hb]; by rewrite IHa, IHb.
Qed.

Lemma eval_rename c d e (r r' : Row) :
  Forall (fun x => x = c) (expr_columns e) -> r !! c = r' !! d -> eval e r = eval (rename c d e) r'.
Proof.
  intros Hc Hv. induction e as [x vs|op x n|x s|x|x|a IHa b IHb|a IHa b IHb]; simpl in *;
    try (apply Forall_cons in Hc as [-> _]; by rewrite decide_True, Hv);
    apply Forall_app in Hc as [Ha Hb]; by rewrite IHa, IHb.
Qed.

Lemma index_key_agree i (r r' : Row) :
  Forall (fun c => r !! c = r' !! c) (index_columns i) -> index_key i r = index_key i r'.
Proof.
  unfold index_columns, index_key. intros [Hk Hw]%Forall_app.
  assert (Hm : map (key_value r) (i_keys i) = map (key_value r') (i_keys i)).
  { apply map_ext_in. intros k Hin. rewrite Forall_forall in Hk.
    specialize (Hk (key_column k)). rewrite list_elem_of_fmap in Hk. destruct k; simpl in *; rewrite Hk; eauto;
      (eexists; split; [|by apply list_elem_of_In]; done). }
  rewrite Hm. destruct (i_where i) as [e|]; [|done]. by rewrite (eval_agree e r r').
Qed.

(** A function that leaves the entries of an index alone keeps it unique. *)
Lemma unique_ok_map i f l : (forall r, r ∈ l -> index_key i (f r) = index_key i r) -> unique_ok i l -> unique_ok i (map f l).
Proof.
  intros Hf Hu Hi. specialize (Hu Hi).
  assert (E : omap (index_key i) (map f l) = omap (index_key i) l); [|exact (eq_ind_r NoDup Hu E)].
  clear Hu. induction l as [|r l IH]; [done|]. csimpl. rewrite Hf by left. rewrite IH; [done|].
  intros x Hx. apply Hf. by right.
Qed.

Lemma unique_ok_filter i p l : unique_ok i l -> unique_ok i (List.filter p l).
Proof.
  intros Hu Hi. specialize (Hu Hi). eapply sublist_NoDup; [exact Hu|].
  clear. induction l as [|r l IH]; [done|]. csimpl. destruct (p r); csimpl; destruct (index_key i r); first [by constructor|done].
Qed.

(** Rows of one table change: the others are as they were. *)
Lemma db_ok_step sch sch' rows t l :
  db_ok sch rows -> same_tables [t] sch sch' -> is_Some (s_tables sch' !! t) ->
  (forall tab, s_tables sch' !! t = Some tab -> Forall (row_ok tab) l) ->
  (forall n i, s_indexes sch' !! n = Some i -> i_table i = t -> unique_ok i l) ->
  (forall n i, s_indexes sch' !! n = Some i -> i_table i <> t -> i_unique i = true -> s_indexes sch !! n = Some i) ->
  db_ok sch' (<[t := l]> rows).
Proof.
  intros (Hd & Hr & Hu) [Hk Hs] Ht Hl Hi Ho. split_and!.
  - intros x lx Hx. destruct (decide (x = t)) as [->|Hne]; [done|].
    rewrite lookup_insert_ne in Hx by done. destruct (Hd _ _ Hx) as [tab Htab]. by apply (Hk x tab).
  - intros x tab Hx. destruct (decide (x = t)) as [->|Hne]; [rewrite rows_of_insert; auto|].
    rewrite rows_of_insert_ne by done. destruct (Hs _ _ Hx) as [Hin|Hx']; [by apply list_elem_of_singleton in Hin|].
    by apply (Hr x tab).
  - intros n i Hn. destruct (decide (i_table i = t)) as [E|Hne]; [rewrite E, rows_of_insert; by apply (Hi n)|].
    rewrite rows_of_insert_ne by done. intros Hq. by apply (Hu n i); [apply Ho|].
Qed.

(** The catalog changes and no row does. *)
Lemma db_ok_catalog sch sch' rows l empty :
  db_ok sch rows -> same_tables l sch sch' -> same_unique empty sch sch' ->
  (forall t, t ∈ empty -> rows_of rows t = []) ->
  (forall t tab, t ∈ l -> s_tables sch' !! t = Some tab -> Forall (row_ok tab) (rows_of rows t)) ->
  db_ok sch' rows.
Proof.
  intros (Hd & Hr & Hu) [Hk Hs] Hq He Hl. split_and!.
  - intros x lx Hx. destruct (Hd _ _ Hx) as [tab Htab]. by apply (Hk x tab).
  - intros x tab Hx. destruct (Hs _ _ Hx) as [Hin|Hx']; [by apply Hl|]. by apply (Hr x tab).
  - intros n i Hn Hq'. destruct (Hq _ _ Hn) as [Ho|[Hf|Hin]]; [by apply (Hu n i)|congruence|].
    rewrite (He _ Hin). apply NoDup_nil_2.
Qed.

Lemma frame_same_tables t sch sch' : frame t sch sch' -> same_tables [t] sch sch'.
Proof.
  intros [Ho Hh _]. split; intros x tab Hx; (destruct (decide (x = t)) as [->|Hne]; [|rewrite (Ho x Hne) in *]).
  - apply Hh. by eexists.
  - by eexists.
  - left. left.
  - by right.
Qed.

Lemma same_tables_refl l sch : same_tables l sch sch.
Proof. split; intros t tab Ht; [by eexists|by right]. Qed.

Lemma rows_kept_refl except merged rows : rows_kept except merged rows rows.
Proof. intros t _. apply Forall2_same_length_lookup. split; [done|]. intros i r r' -> [= ->] c v. auto. Qed.

Lemma rows_kept_map except merged rows t f :
  (forall r, r ∈ rows_of rows t -> row_kept except r (f r)) ->
  rows_kept except merged rows (<[t := map f (rows_of rows t)]> rows).
Proof.
  intros Hf x Hx. destruct (decide (t = x)) as [<-|Hne].
  - rewrite rows_of_insert. apply Forall2_fmap_r, Forall_Forall2_diag, Forall_forall. auto.
  - rewrite rows_of_insert_ne by done. by apply (rows_kept_refl except merged).
Qed.
(** ** Soundness of the analysis *)

Definition sound (s : Stmt) (a : Facts) (d : Database) (a' : Facts) : Prop :=
  exists rows, exec_stmt s d = Some (a_schema a', rows) /\ facts_hold a' (a_schema a', rows) /\
    rows_kept (sets s) (merges s) (snd d) rows.

Lemma sound_intro s a d sch rows empty known unused :
  fst d = a_schema a -> ddl s (a_schema a) = Some sch -> dml s (a_schema a) (snd d) = Some rows -> db_ok sch rows ->
  (forall t, t ∈ empty -> rows_of rows t = []) ->
  (forall t e, (t, e) ∈ known -> Forall (passes e) (rows_of rows t)) ->
  (unused = true -> unused_uuids rows) -> rows_kept (sets s) (merges s) (snd d) rows ->
  sound s a d {| a_schema := sch; a_empty := empty; a_known := known; a_unused := unused |}.
Proof.
  intros Hs Hd Hm Hok He Hk Hu Hr. exists rows. unfold exec_stmt. rewrite Hs, Hd. simpl. rewrite Hm. simpl.
  rewrite decide_True by done. done.
Qed.

Lemma no_known t e rows : (t, e) ∈ ([] : list (string * Expr)) -> Forall (passes e) (rows_of rows t).
Proof. by intros []%elem_of_nil. Qed.

(** Rows of one table change value by value: identifiers stay unused and
    empty tables empty. *)
Lemma unused_insert rows t (l : list Row) :
  unused_uuids rows ->
  (forall r c v, r ∈ l -> r !! c = Some v -> (exists r0 c0, r0 ∈ rows_of rows t /\ r0 !! c0 = Some v) \/ (forall k, v <> VUuid (gen k))) ->
  unused_uuids (<[t := l]> rows).
Proof.
  intros [Hinj Hu] Hl. split; [done|]. intros x r c k Hr Hv. destruct (decide (t = x)) as [<-|Hne].
  - rewrite rows_of_insert in Hr. destruct (Hl _ _ _ Hr Hv) as [(r0 & c0 & Hr0 & Hv0)|Hn]; [by apply (Hu t r0 c0 k)|by apply (Hn k)].
  - rewrite rows_of_insert_ne in Hr by done. by apply (Hu x r c k).
Qed.

Lemma empty_insert rows t l x : (rows_of rows t = [] -> l = []) -> rows_of rows x = [] -> rows_of (<[t := l]> rows) x = [].
Proof.
  intros Hl Hx. destruct (decide (t = x)) as [<-|Hne]; [rewrite rows_of_insert; auto|by rewrite rows_of_insert_ne].
Qed.

Lemma undeclared sch rows t : db_ok sch rows -> s_tables sch !! t = None -> rows_of rows t = [].
Proof.
  intros (Hd & _) Ht. unfold rows_of. destruct (rows !! t) as [l|] eqn:E; [|done].
  destruct (Hd _ _ E) as [tab Htab]. congruence.
Qed.

(** [CREATE TABLE] of a new table. *)
Lemma create_sound t cols a d sch :
  facts_hold a d -> ddl (CreateTable t cols) (a_schema a) = Some sch -> relation_exists (a_schema a) t = false ->
  sound (CreateTable t cols) a d {| a_schema := sch; a_empty := t :: a_empty a; a_known := []; a_unused := a_unused a |}.
Proof.
  intros [Hs Hok He _ Hn] Hd Hx. rewrite Hs in Hok. pose proof Hd as Hd'. simpl in Hd'. rewrite Hx in Hd'.
  apply create_table_frame in Hd' as [Hf Hin].
  assert (E : rows_of (snd d) t = []).
  { apply (undeclared (a_schema a)); [done|]. unfold relation_exists in Hx. apply orb_false_iff in Hx as [Hx _].
    by destruct (s_tables _ !! t). }
  apply (sound_intro _ _ _ _ (<[t := []]> (snd d))); try done.
  - simpl. by rewrite Hx.
  - apply (db_ok_step (a_schema a)); try done; [by apply frame_same_tables|intros n i _ _ _; apply NoDup_nil_2|].
    intros n i Hi Hne Hq. by destruct (fr_indexes _ _ _ Hf n i Hi).
  - intros x [->|Hx']%elem_of_cons; [apply rows_of_insert|]. apply empty_insert; [done|by apply He].
  - intros x e Hk. by apply no_known.
  - intros Ha. apply unused_insert; [by apply Hn|]. by intros r c v []%elem_of_nil.
  - intros x _. destruct (decide (t = x)) as [<-|Hne]; [rewrite rows_of_insert, E; constructor|].
    rewrite rows_of_insert_ne by done. apply (rows_kept_refl [] []), not_elem_of_nil.
Qed.

(** A statement that changes no row. *)
Lemma catalog_sound s a d sch l known :
  facts_hold a d -> ddl s (a_schema a) = Some sch -> dml s (a_schema a) (snd d) = Some (snd d) ->
  same_tables l (a_schema a) sch -> same_unique (a_empty a) (a_schema a) sch ->
  (forall t e, (t, e) ∈ known -> Forall (passes e) (rows_of (snd d) t)) ->
  (forall t tab, t ∈ l -> s_tables sch !! t = Some tab -> Forall (row_ok tab) (rows_of (snd d) t)) ->
  sound s a d {| a_schema := sch; a_empty := a_empty a; a_known := known; a_unused := a_unused a |}.
Proof.
  intros [Hs Hok He _ Hn] Hd Hm Ht Hu Hk Hl. rewrite Hs in Hok.
  apply (sound_intro _ _ _ _ (snd d)); try done; [|apply rows_kept_refl].
  by apply (db_ok_catalog (a_schema a) sch (snd d) l (a_empty a)).
Qed.

(** [ADD CONSTRAINT] of a known check and [DROP CONSTRAINT]. *)
Lemma row_ok_checks known t tab tab' r :
  same_checks known t tab tab' -> row_ok tab r -> (forall e, (t, e) ∈ known -> passes e r) -> row_ok tab' r.
Proof.
  intros [Hc Hk] (Hd & Hv & Hp) He. unfold row_ok. rewrite Hc. split_and!; [done|done|].
  intros n k Hn. destruct (Hk _ _ Hn) as [Ho|Hkn]; [by apply (Hp n)|]. destruct k; simpl; auto.
Qed.

(** [ADD COLUMN] *)
Lemma fill_agree tab cols c (r r' : Row) : r !! c = r' !! c -> fill tab cols r !! c = fill tab cols r' !! c.
Proof.
  intros Hc. induction cols as [|col cols IH]; simpl; [done|]. unfold fill_column.
  destruct (isSome _); [done|]. destruct (c_default col); [|done].
  destruct (decide (c_name col = c)) as [->|Hne]; [by rewrite !lookup_insert_eq|by rewrite !lookup_insert_ne].
Qed.

Lemma elem_of_new_columns tab cols c : c ∈ new_columns tab cols <-> c ∈ map c_name cols /\ t_columns tab !! c = None.
Proof.
  unfold new_columns. rewrite !list_elem_of_In, filter_In. unfold isSome. destruct (t_columns tab !! c); naive_solver.
Qed.

Lemma fill_old tab cols c (r : Row) : c ∉ new_columns tab cols -> fill tab cols r !! c = r !! c.
Proof.
  rewrite elem_of_new_columns. induction cols as [|col cols IH]; simpl; [done|]. intros Hc.
  rewrite <- IH by (intros [Hin Hn]; apply Hc; split; [by right|done]). unfold fill_column.
  destruct (isSome _) eqn:E; [done|]. destruct (c_default col); [|done]. apply lookup_insert_ne. intros <-.
  apply Hc. split; [left|]. by destruct (t_columns tab !! c_name col).
Qed.

Lemma fill_value tab cols c v (r : Row) :
  Forall (fun col => c_default col <> Some DUuid) cols -> fill tab cols r !! c = Some v ->
  r !! c = Some v \/ (forall k, v <> VUuid (gen k)).
Proof.
  intros Hd. induction Hd as [|col cols Hc _ IH]; simpl; [auto|]. unfold fill_column.
  destruct (isSome _); [done|]. destruct (c_default col) as [e|]; [|done].
  rewrite lookup_insert_Some. intros [[_ <-]|[_ Hv]]; [right|auto]. intros k.
  destruct e; simpl; try done. by destruct (c_type col).
Qed.

Lemma row_ok_fill cols tab tab' r : columns_fit cols tab tab' -> row_ok tab r -> row_ok tab' (fill tab cols r).
Proof.
  intros (Hnew & Hold & Hval & Hchk) (Hd & Hv & Hp). rewrite Forall_forall in Hval.
  assert (Hf : forall c, c ∈ new_columns tab cols -> fill tab cols r !! c = fill tab cols ∅ !! c).
  { intros c [_ Hc]%elem_of_new_columns. apply fill_agree. rewrite lookup_empty.
    destruct (r !! c) as [v|] eqn:E; [|done]. destruct (Hd _ _ E). congruence. }
  split_and!.
  - intros c v Hc. destruct (decide (c ∈ new_columns tab cols)) as [Hin|Hin].
    + specialize (Hval c Hin). by destruct (t_columns tab' !! c).
    + rewrite fill_old in Hc by done. destruct (Hd _ _ Hc) as [ci Hci]. by apply (Hold c ci).
  - intros c ci Hci. destruct (decide (c ∈ new_columns tab cols)) as [Hin|Hin].
    + specialize (Hval c Hin). rewrite Hci in Hval. by rewrite Hf.
    + rewrite fill_old by done. destruct (Hnew _ _ Hci) as [Ho|?]; [by apply (Hv c ci)|done].
  - intros n k Hn. specialize (Hchk n k Hn). destruct k as [e| |]; simpl; try done.
    destruct Hchk as [[Ho Ha]|[Ha Hpass]]; unfold passes in *.
    + rewrite (eval_agree e _ r); [exact (Hp n _ Ho)|]. apply (Forall_impl _ _ _ Ha). intros c. apply fill_old.
    + rewrite (eval_agree e _ (fill tab cols ∅)); [done|]. by apply (Forall_impl _ _ _ Ha).
Qed.

Lemma add_columns_sound t cols a d sch tab tab' :
  facts_hold a d -> ddl (AddColumns t cols) (a_schema a) = Some sch -> s_tables (a_schema a) !! t = Some tab ->
  s_tables sch !! t = Some tab' -> columns_fit cols tab tab' -> unique_avoids (new_columns tab cols) t (a_schema a) ->
  Forall (fun col => c_default col <> Some DUuid) cols -> forallb keyless cols = true ->
  sound (AddColumns t cols) a d {| a_schema := sch; a_empty := a_empty a; a_known := []; a_unused := a_unused a |}.
Proof.
  intros [Hs Hok He _ Hn] Hd Ht Ht' Hfit Hav Hdef Hkl. rewrite Hs in Hok.
  assert (same_tables [t] (a_schema a) sch /\ s_indexes sch = s_indexes (a_schema a)) as [Hst Hidx].
  { simpl in Hd. rewrite Ht in Hd. apply (foldM_frame _ (fun col => c_key col = None) t) in Hd as [Hf Hidx];
      [|intros; by apply add_column_if_frame]. split; [by apply frame_same_tables|]. apply Hidx, Forall_forall.
    intros col Hc. rewrite forallb_forall in Hkl. specialize (Hkl col (proj1 (list_elem_of_In _ _) Hc)). unfold keyless in Hkl.
    by destruct (c_key col). }
  pose proof Hok as (_ & Hrows & Huni). pose proof (Hrows _ _ Ht) as Hl.
  apply (sound_intro _ _ _ _ (<[t := map (fill tab cols) (rows_of (snd d) t)]> (snd d))); try done.
  - simpl. by rewrite Ht.
  - apply (db_ok_step (a_schema a)); try done.
    + intros tab0 E. assert (tab0 = tab') as -> by congruence. apply Forall_fmap. apply (Forall_impl _ _ _ Hl).
      intros r. by apply row_ok_fill.
    + intros n i Hi <-. rewrite Hidx in Hi. intros Hq. apply unique_ok_map; [|by apply (Huni n i)|done].
      intros r _. apply index_key_agree. apply (Forall_impl _ _ _ (Hav n i Hi Hq eq_refl)). intros c. apply fill_old.
    + intros n i Hi _ _. by rewrite <- Hidx.
  - intros x Hx. apply empty_insert; [by intros ->|by apply He].
  - intros x e Hk. by apply no_known.
  - intros Ha. apply unused_insert; [by apply Hn|]. intros r c v (r0 & -> & Hr0)%list_elem_of_fmap Hv.
    destruct (fill_value _ _ _ _ _ Hdef Hv) as [Hv0|?]; [left; eauto|by right].
  - apply rows_kept_map. intros r Hr c v Hv. right. rewrite fill_old; [done|]. intros [_ Hc]%elem_of_new_columns.
    rewrite Forall_forall in Hl. destruct (Hl r Hr) as (Hdom & _). destruct (Hdom _ _ Hv). congruence.
Qed.

(** [UPDATE] *)
Definition set_column (c : string) (src : Source) (r : Row) : Row := partial_alter (fun _ => source_value src r) c r.

Lemma set_column_eq c src (r : Row) : set_column c src r !! c = source_value src r.
Proof. apply lookup_partial_alter_eq. Qed.
Lemma set_column_ne c src (r : Row) x : x <> c -> set_column c src r !! x = r !! x.
Proof. intros. by apply lookup_partial_alter_ne. Qed.

Lemma set_value_ok tab c src ci r :
  set_fits tab c src -> row_ok tab r -> t_columns tab !! c = Some ci -> value_ok ci (source_value src r).
Proof.
  intros [Ht _] (_ & Hv & _) Hc. rewrite Hc in Ht. destruct src as [d|s]; simpl; [|by rewrite Ht].
  destruct (t_columns tab !! d) as [di|] eqn:Hd; [|done]. destruct Ht as [Hty Hnn]. specialize (Hv d di Hd).
  unfold value_ok in *. destruct (r !! d); [by rewrite Hty|]. destruct (ci_notnull ci); [|done]. by rewrite Hnn in Hv.
Qed.

Lemma row_ok_set tab c src r : set_fits tab c src -> row_ok tab r -> row_ok tab (set_column c src r).
Proof.
  intros Hfit Hr. pose proof (set_value_ok tab c src) as Hset. pose proof Hfit as [Ht Hchk]. pose proof Hr as (Hd & Hv & Hp). split_and!.
  - intros x v Hx. destruct (decide (x = c)) as [->|Hne]; [|rewrite set_column_ne in Hx by done; by apply (Hd x v)].
    destruct (t_columns tab !! c); [by eexists|done].
  - intros x ci Hx. destruct (decide (x = c)) as [->|Hne]; [rewrite set_column_eq; by apply Hset|].
    rewrite set_column_ne by done. by apply Hv.
  - intros n k Hn. pose proof (Hchk n k Hn) as Hk. pose proof (Hp n k Hn) as Hpn. destruct k as [e| |]; simpl in *; try done.
    unfold passes in *. destruct Hk as [Hne|[Heq Hk]].
    + rewrite (eval_agree e _ r); [done|]. apply (Forall_impl _ _ _ Hne). intros x. apply set_column_ne.
    + destruct src as [d|s].
      * rewrite (eval_rename c d e _ r Heq) by apply set_column_eq.
        apply Exists_exists in Hk as ([n' k'] & Hin & ->). apply elem_of_map_to_list in Hin. exact (Hp n' _ Hin).
      * rewrite (eval_agree e _ {[c := VText s]}); [done|]. apply (Forall_impl _ _ _ Heq). intros x ->.
        by rewrite set_column_eq, lookup_singleton_eq.
Qed.

Lemma update_row_cases c src cond (P : Row -> Prop) r : P r -> P (set_column c src r) -> P (update_row c src cond r).
Proof. unfold update_row. by destruct (sql_holds _). Qed.

Lemma update_sound t c src cond a d sch tab :
  facts_hold a d -> ddl (Update t c src cond) (a_schema a) = Some sch -> s_tables (a_schema a) !! t = Some tab ->
  set_fits tab c src -> unique_avoids [c] t (a_schema a) ->
  sound (Update t c src cond) a d {| a_schema := sch; a_empty := a_empty a; a_known := []; a_unused := a_unused a |}.
Proof.
  intros [Hs Hok He _ Hn] Hd Ht Hfit Hav. rewrite Hs in Hok.
  assert (sch = a_schema a) as ->. { simpl in Hd. rewrite Ht in Hd. simpl in Hd. case_match; congruence. }
  pose proof Hok as (_ & Hrows & Huni). pose proof (Hrows _ _ Ht) as Hl.
  apply (sound_intro _ _ _ _ (<[t := map (update_row c src cond) (rows_of (snd d) t)]> (snd d))); try done.
  - apply (db_ok_step (a_schema a)); try done; [apply same_tables_refl| |].
    + intros tab0 E. assert (tab0 = tab) as -> by congruence. apply Forall_fmap. apply (Forall_impl _ _ _ Hl).
      intros r Hr. apply (update_row_cases _ _ _ (row_ok tab)); [done|by apply row_ok_set].
    + intros n i Hi <- Hq. apply unique_ok_map; [|by apply (Huni n i)|done].
      intros r _. apply (update_row_cases _ _ _ (fun r' => index_key i r' = index_key i r)); [done|].
      apply index_key_agree. apply (Forall_impl _ _ _ (Hav n i Hi Hq eq_refl)). intros x Hx. apply set_column_ne.
      intros ->. apply Hx. left.
  - intros x Hx. apply empty_insert; [by intros ->|by apply He].
  - intros x e Hk. by apply no_known.
  - intros Ha. apply unused_insert; [by apply Hn|]. intros r x v (r0 & -> & Hr0)%list_elem_of_fmap Hv.
    revert Hv. apply (update_row_cases _ _ _ (fun r' => r' !! x = Some v -> _)); [left; eauto|]. intros Hv.
    destruct (decide (x = c)) as [->|Hne]; [|rewrite set_column_ne in Hv by done; left; eauto].
    rewrite set_column_eq in Hv. destruct src; simpl in Hv; [left; eauto|right; intros k; congruence].
  - apply rows_kept_map. intros r Hr x v Hv. apply (update_row_cases _ _ _ (fun r' => x ∈ [c] \/ r' !! x = Some v)); [by right|].
    destruct (decide (x = c)) as [->|Hne]; [left; left|right; by rewrite set_column_ne].
Qed.

(** [DELETE] *)
Lemma delete_sound t cond a d sch :
  facts_hold a d -> ddl (Delete t cond) (a_schema a) = Some sch ->
  sound (Delete t cond) a d {| a_schema := sch; a_empty := a_empty a; a_known := []; a_unused := a_unused a |}.
Proof.
  intros [Hs Hok He _ Hn] Hd. rewrite Hs in Hok.
  destruct (s_tables (a_schema a) !! t) as [tab|] eqn:Ht; [|simpl in Hd; by rewrite Ht in Hd].
  assert (sch = a_schema a) as ->. { simpl in Hd. rewrite Ht in Hd. simpl in Hd. case_match; congruence. }
  pose proof Hok as (_ & Hrows & Huni). pose proof (Hrows _ _ Ht) as Hl.
  set (l := List.filter (fun r => negb (sql_holds (eval cond r))) (rows_of (snd d) t)).
  assert (Hin : forall r, r ∈ l -> r ∈ rows_of (snd d) t).
  { intros r. unfold l. rewrite !list_elem_of_In, filter_In. tauto. }
  apply (sound_intro _ _ _ _ (<[t := l]> (snd d))); try done.
  - apply (db_ok_step (a_schema a)); try done; [apply same_tables_refl| |].
    + intros tab0 E. assert (tab0 = tab) as -> by congruence. rewrite Forall_forall in *. eauto.
    + intros n i Hi <-. apply unique_ok_filter. by apply (Huni n i).
  - intros x Hx. apply empty_insert; [unfold l; by intros ->|by apply He].
  - intros x e Hk. by apply no_known.
  - intros Ha. apply unused_insert; [by apply Hn|]. intros r x v Hr Hv. left. eauto.
  - intros x Hx. rewrite rows_of_insert_ne; [by apply (rows_kept_refl [] [t])|]. intros ->. apply Hx. left.
Qed.

(** [INSERT ... SELECT ... ON CONFLICT] *)

Lemma index_key_single i c b (r : Row) :
  i_keys i = [KCol c b] -> i_where i = None -> i_nulls_distinct i = true ->
  index_key i r = (fun v => [Some v]) <$> r !! c.
Proof. intros Hk Hw Hn. unfold index_key. rewrite Hk, Hw, Hn. simpl. by destruct (r !! c). Qed.

Lemma unique_on_spec t c i : unique_on t c i = true ->
  i_table i = t /\ i_unique i = true /\ i_keys i = [KCol c false] /\ i_where i = None /\ i_nulls_distinct i = true.
Proof. unfold unique_on. intros ->%bool_decide_eq_true. done. Qed.

Section merge.
Context (sch : Schema) (into : string) (tab : Table) (cols : list string) (from : string) (tab' : Table) (conflict g : string).
Hypothesis fits : merge_fits sch into tab cols from tab' conflict g.
Hypothesis gen_inj : Inj (=) (=) gen.

(** The rows of [into] while the statement runs, [k] rows having been
    proposed. *)
Record merging (l : list Row) (k : nat) : Prop := {
  mg_rows : Forall (row_ok tab) l;
  mg_unique : forall n i, s_indexes sch !! n = Some i -> i_table i = into -> unique_ok i l;
  mg_unused : forall r c j, r ∈ l -> (k <= j)%nat -> r !! c <> Some (VUuid (gen j))
}.

(** Each unique index of [into] is on one column: the target of the conflict,
    or one that gets a new identifier. *)
Lemma merge_index n i : s_indexes sch !! n = Some i -> i_unique i = true -> i_table i = into ->
  exists c, (forall r : Row, index_key i r = (fun v => [Some v]) <$> r !! c) /\ c <> g /\
    (c = conflict \/ (~ c ∈ cols) /\ (ci_default <$> t_columns tab !! c) = Some (Some DUuid)).
Proof.
  intros Hn Hu Ht. destruct fits as (_ & _ & Hg & _ & _ & _ & _ & _ & _ & Hidx).
  destruct (Hidx n i Hn Hu Ht) as [(_ & _ & Hk & Hw & Hd)%unique_on_spec|Hk].
  - exists conflict. split; [intros r; by apply (index_key_single i _ false)|]. auto.
  - destruct (i_keys i) as [|[c b|] [|]] eqn:E; try done. destruct Hk as (Hw & Hd & Hcg & _ & Hc & Hdef).
    exists c. split; [intros r; by apply (index_key_single i _ b)|]. auto.
Qed.

Lemma new_row_lookup k (r : Row) c :
  new_row tab cols k r !! c =
  ci ← t_columns tab !! c; if bool_decide (c ∈ cols) then r !! c else default_for (ci_type ci) k <$> ci_default ci.
Proof. unfold new_row. by rewrite map_lookup_imap. Qed.

Lemma new_row_conflict k (r : Row) : new_row tab cols k r !! conflict = r !! conflict.
Proof.
  destruct fits as (_ & Hc & _ & _ & [ci Hci] & _). rewrite new_row_lookup, Hci. simpl.
  by rewrite bool_decide_eq_true_2.
Qed.

Lemma default_for_type ty ty' k k' d : has_type (default_for ty k d) ty' = has_type (default_for ty k' d) ty'.
Proof. by destruct d. Qed.

Lemma new_row_ok k r : row_ok tab' r -> row_ok tab (new_row tab cols k r).
Proof.
  intros (_ & Hv & _). destruct fits as (_ & _ & _ & _ & _ & _ & _ & Hcols & Hchk & _). split_and!.
  - intros c v. rewrite new_row_lookup. destruct (t_columns tab !! c); [by eexists|done].
  - intros c ci Hci. rewrite new_row_lookup, Hci. simpl. destruct (Hcols c ci Hci) as [[Hin Hc]|[Hnin Hc]].
    + rewrite bool_decide_eq_true_2 by done. destruct (t_columns tab' !! c) as [ci'|] eqn:E; [|done].
      destruct Hc as [Hty Hnn]. specialize (Hv c ci' E). unfold value_ok in *. destruct (r !! c); [by rewrite Hty|].
      destruct (ci_notnull ci); [|done]. by rewrite Hnn in Hv.
    + rewrite bool_decide_eq_false_2 by done. destruct (ci_default ci); simpl in *; [|done].
      by rewrite (default_for_type _ _ _ 0).
  - intros n c Hn. specialize (Hchk n c Hn). by destruct c.
Qed.

Lemma row_time r : row_ok tab r -> forall v, r !! g = Some v -> exists t, v = VTime t.
Proof.
  intros (_ & Hv & _) v Hr. destruct fits as (_ & _ & _ & _ & _ & _ & Hg & _).
  destruct (t_columns tab !! g) as [ci|] eqn:E; [|done]. injection Hg as Hg. specialize (Hv g ci E). cbv beta in Hv. rewrite Hr in Hv.
  simpl in Hv. rewrite Hg in Hv. destruct v; try done. eauto.
Qed.

(** The later of the two timestamps is a timestamp. *)
Lemma bump_lookup new r c v : row_ok tab new -> row_ok tab r -> bump g new r !! c = Some v ->
  r !! c = Some v \/ c = g /\ exists t, v = VTime t.
Proof.
  intros Hnew Hr. unfold bump. destruct (decide (c = g)) as [->|Hne]; [|rewrite lookup_partial_alter_ne by done; auto].
  rewrite lookup_partial_alter_eq. intros Hv. right. split; [done|]. revert Hv.
  destruct (r !! g) as [v1|] eqn:E1; [destruct (row_time r Hr _ E1) as [t1 ->]|];
    (destruct (new !! g) as [v2|] eqn:E2; [destruct (row_time new Hnew _ E2) as [t2 ->]|]); simpl; intros [= <-]; eauto.
Qed.
Lemma bump_ne new (r : Row) c : c <> g -> bump g new r !! c = r !! c.
Proof. intros. by apply lookup_partial_alter_ne. Qed.

Lemma bump_ok new r : row_ok tab new -> row_ok tab r -> row_ok tab (bump g new r).
Proof.
  intros Hnew Hr. pose proof Hr as (Hd & Hv & _). pose proof Hnew as (_ & Hvn & _).
  destruct fits as (_ & _ & _ & _ & _ & _ & Hg & _ & Hchk & _). split_and!.
  - intros c v Hb. destruct (bump_lookup _ _ _ _ Hnew Hr Hb) as [Hc|[-> _]]; [by apply (Hd c v)|].
    destruct (t_columns tab !! g); [by eexists|done].
  - intros c ci Hci. destruct (decide (c = g)) as [->|Hne]; [|rewrite bump_ne by done; by apply Hv].
    rewrite Hci in Hg. injection Hg as Hg.
    destruct (bump g new r !! g) as [v|] eqn:E.
    + destruct (bump_lookup _ _ _ _ Hnew Hr E) as [Hc|[_ [t ->]]]; [|simpl; by rewrite Hg].
      specialize (Hv g ci Hci). cbv beta in Hv. by rewrite Hc in Hv.
    + specialize (Hv g ci Hci). cbv beta in Hv. unfold bump in E. rewrite lookup_partial_alter_eq in E.
      destruct (r !! g) as [v|] eqn:E1; [|exact Hv]. exfalso. revert E.
      destruct (row_time r Hr _ E1) as [t ->]. destruct (new !! g) as [[]|]; done.
  - intros n c Hn. specialize (Hchk n c Hn). by destruct c.
Qed.

Definition unused_row (r : Row) : Prop := forall c j, r !! c <> Some (VUuid (gen j)).

Lemma new_row_unused k r c j : unused_row r -> (k < j)%nat -> new_row tab cols k r !! c <> Some (VUuid (gen j)).
Proof.
  intros Hr Hj. rewrite new_row_lookup. destruct (t_columns tab !! c) as [ci|]; [|done]. simpl.
  destruct (bool_decide _); [apply Hr|]. destruct (ci_default ci) as [[]|]; simpl; try done.
  - intros [= E%gen_inj]. lia.
  - by destruct (ci_type ci).
Qed.

(** A proposed row meets a row with the same target. *)
Lemma merging_update l k new (p : Row -> bool) :
  merging l k -> row_ok tab new -> merging (map (fun x => if p x then bump g new x else x) l) (S k).
Proof.
  intros [Hr Hu Hn] Hnew. pose proof Hr as Hr'. rewrite Forall_forall in Hr'. split.
  - apply Forall_fmap. apply (Forall_impl _ _ _ Hr). intros x Hx. simpl. destruct (p x); [by apply bump_ok|done].
  - intros n i Hi Ht Hq. apply unique_ok_map; [|by apply (Hu n i)|done]. intros x _. destruct (p x); [|done].
    destruct (merge_index n i Hi Hq Ht) as (c & Hk & Hg & _). by rewrite !Hk, bump_ne.
  - intros r c j (x & -> & Hx)%list_elem_of_fmap Hj. destruct (p x); [|apply Hn; [done|lia]]. intros Hb.
    destruct (bump_lookup _ _ _ _ Hnew (Hr' x Hx) Hb) as [Hc|[_ [t E]]]; [|done]. eapply Hn; [exact Hx| |exact Hc]. lia.
Qed.

(** A proposed row is inserted. *)
Lemma merging_insert l k r :
  merging l k -> row_ok tab' r -> unused_row r ->
  (forall x v, x ∈ l -> r !! conflict = Some v -> x !! conflict <> Some v) ->
  merging (l ++ [new_row tab cols k r]) (S k).
Proof.
  intros [Hr Hu Hn] Hok Hun Hnew. split.
  - apply Forall_app. split; [done|]. constructor; [by apply new_row_ok|constructor].
  - intros n i Hi Ht Hq. rewrite omap_app. destruct (merge_index n i Hi Hq Ht) as (c & Hk & _ & Hc).
    apply NoDup_app. split_and!; [by apply (Hu n i)| |].
    + intros key (x & Hx & Hkx)%list_elem_of_omap. rewrite list_elem_of_omap. intros (y & ->%list_elem_of_singleton & Hky).
      rewrite Hk in Hkx, Hky. destruct (x !! c) as [v|] eqn:Ex; [|done]. injection Hkx as <-.
      destruct (new_row tab cols k r !! c) as [v'|] eqn:Ey; [|done]. injection Hky as ->.
      destruct Hc as [->|[Hnin Hdef]]; [rewrite new_row_conflict in Ey; by apply (Hnew x v)|].
      rewrite new_row_lookup in Ey. destruct (t_columns tab !! c) as [ci|]; [|done]. injection Hdef as Hdef. simpl in Ey.
      rewrite bool_decide_eq_false_2, Hdef in Ey by done. injection Ey as <-. by apply (Hn x c k).
    + csimpl. destruct (index_key i _); [apply NoDup_singleton|apply NoDup_nil_2].
  - intros x c j [Hx| ->%list_elem_of_singleton]%elem_of_app Hj; [apply Hn; [done|lia]|].
    apply new_row_unused; [done|lia].
Qed.

Lemma upsert_Some l touched k (r : Row) v : r !! conflict = Some v ->
  upsert tab cols conflict g r (l, touched, k) =
  let hit (x : Row) := bool_decide (x !! conflict = Some v) in
  let new := new_row tab cols k r in
  if existsb hit l then
    if bool_decide (Some v ∈ touched) then None
    else Some (map (fun x => if hit x then bump g new x else x) l, Some v :: touched, S k)
  else Some (l ++ [new], Some v :: touched, S k).
Proof. intros Hv. unfold upsert. rewrite new_row_conflict, Hv. done. Qed.

Lemma upsert_fold sel l touched k :
  merging l k -> Forall (row_ok tab') sel -> Forall unused_row sel ->
  Forall (fun r : Row => is_Some (r !! conflict)) sel ->
  NoDup (map (fun r : Row => r !! conflict) sel) -> Forall (fun r : Row => r !! conflict ∉ touched) sel ->
  exists st, foldM (upsert tab cols conflict g) sel (l, touched, k) = Some st /\ exists k', merging (fst (fst st)) k'.
Proof.
  revert l touched k. induction sel as [|r sel IH]; intros l touched k Hm Hok Hun Hs Hnd Ht; [eauto|].
  apply Forall_cons in Hok as [Hr Hok]. apply Forall_cons in Hun as [Hu Hun]. apply Forall_cons in Hs as [[v Hv] Hs].
  apply NoDup_cons in Hnd as [Hnin Hnd]. apply Forall_cons in Ht as [Hrt Ht].
  cbn [foldM]. rewrite (upsert_Some _ _ _ _ _ Hv). cbv zeta. rewrite Hv in Hrt, Hnin.
  assert (Ht' : Forall (fun r : Row => r !! conflict ∉ Some v :: touched) sel).
  { rewrite Forall_forall in *. intros x Hx [E|?]%elem_of_cons; [|by apply (Ht x)]. apply Hnin.
    apply (list_elem_of_fmap (fun r : Row => r !! conflict)). by exists x. }
  destruct (existsb _ l) eqn:E; simpl.
  - rewrite bool_decide_eq_false_2 by done. simpl. apply IH; try done.
    apply (merging_update l k); [done|by apply new_row_ok].
  - apply IH; try done. apply merging_insert; try done. intros x w Hx Hw Hxw.
    apply not_true_iff_false in E. apply E. apply existsb_exists. exists x. split; [by apply list_elem_of_In|].
    apply bool_decide_eq_true_2. congruence.
Qed.
End merge.

(** The rows selected have different targets, since their table has a unique
    index on it. *)
Lemma selected_distinct sch rows t c p :
  db_ok sch rows -> has_unique sch t c = true -> Forall (fun r : Row => is_Some (r !! c)) (List.filter p (rows_of rows t)) ->
  NoDup (map (fun r : Row => r !! c) (List.filter p (rows_of rows t))).
Proof.
  intros (_ & _ & Hu) Hx Hs. unfold has_unique in Hx. apply existsb_exists in Hx as ([n i] & Hin & Hi).
  apply list_elem_of_In, elem_of_map_to_list in Hin.
  destruct (unique_on_spec _ _ _ Hi) as (<- & Hq & Hk & Hw & Hd).
  pose proof (unique_ok_filter i p _ (Hu n i Hin) Hq) as Hnd. revert Hnd Hs. clear -Hk Hw Hd.
  induction (List.filter p (rows_of rows (i_table i))) as [|r l IH]; [intros; apply NoDup_nil_2|].
  csimpl. rewrite (index_key_single i c false) by done. intros Hnd [[v Hv] Hs]%Forall_cons. rewrite Hv in *.
  apply NoDup_cons in Hnd as [Hnin Hnd]. apply NoDup_cons. split; [|by apply IH].
  intros (x & Hxv & Hx)%list_elem_of_fmap. apply Hnin. apply list_elem_of_omap. exists x. split; [done|].
  by rewrite (index_key_single i c false), <- Hxv.
Qed.

Lemma insert_sound into cols from cond conflict g a d sch tab tab' :
  facts_hold a d -> ddl (InsertSelect into cols from cond conflict g) (a_schema a) = Some sch ->
  s_tables (a_schema a) !! into = Some tab -> s_tables (a_schema a) !! from = Some tab' ->
  merge_fits (a_schema a) into tab cols from tab' conflict g -> a_unused a = true ->
  sound (InsertSelect into cols from cond conflict g) a d
    {| a_schema := sch; a_empty := List.filter (fun t => negb (t =? into)%string) (a_empty a); a_known := []; a_unused := false |}.
Proof.
  intros [Hs Hok He _ Hn] Hd Ht Ht' Hfit Ha. rewrite Hs in Hok. destruct (Hn Ha) as [Hinj Hun].
  assert (sch = a_schema a) as ->. { simpl in Hd. rewrite Ht, Ht' in Hd. simpl in Hd. case_match; congruence. }
  pose proof Hok as (_ & Hrows & Huni). pose proof Hfit as (_ & _ & _ & Hhu & _ & Hnn & _).
  set (sel := List.filter (fun r => sql_holds (eval cond r)) (rows_of (snd d) from)).
  assert (Hsel : forall r, r ∈ sel -> r ∈ rows_of (snd d) from).
  { intros r. unfold sel. rewrite !list_elem_of_In, filter_In. tauto. }
  pose proof (Hrows _ _ Ht') as Hl. rewrite Forall_forall in Hl.
  assert (Hc : Forall (fun r : Row => is_Some (r !! conflict)) sel).
  { apply Forall_forall. intros r Hr. destruct (Hl r (Hsel r Hr)) as (_ & Hv & _).
    destruct (t_columns tab' !! conflict) as [ci|] eqn:E; [|done]. specialize (Hv _ _ E). cbv beta in Hv.
    destruct (r !! conflict); [by eexists|]. simpl in Hv. congruence. }
  destruct (upsert_fold _ _ _ _ _ _ _ _ Hfit Hinj sel (rows_of (snd d) into) [] 0%nat) as (st & Hst & k & [Hr Hu _]);
    [split; [by apply (Hrows into)|intros n i Hi <-; by apply (Huni n i)|intros r c j Hr _; by apply (Hun into)]
    |apply Forall_forall; auto|apply Forall_forall; intros r Hr c j; apply (Hun from); auto|done
    |by apply (selected_distinct (a_schema a))|apply Forall_forall; intros r _; apply not_elem_of_nil|].
  apply (sound_intro _ _ _ _ (<[into := fst (fst st)]> (snd d))); try done.
  - simpl. rewrite Ht. simpl. unfold sel in Hst. by rewrite Hst.
  - apply (db_ok_step (a_schema a)); try done; [apply same_tables_refl|]. intros tab0 E. by assert (tab0 = tab) as -> by congruence.
  - intros x. rewrite list_elem_of_In, filter_In, <- list_elem_of_In, negb_true_iff, String.eqb_neq. intros [Hx Hne].
    rewrite rows_of_insert_ne by done. by apply He.
  - intros x e Hk. by apply no_known.
  - intros x Hx. rewrite rows_of_insert_ne; [by apply (rows_kept_refl [] [into])|]. intros ->. apply Hx. left.
Qed.

Lemma same_unique_eq empty sch sch' : s_indexes sch' = s_indexes sch -> same_unique empty sch sch'.
Proof. intros E n i Hn. left. by rewrite <- E. Qed.

(** A statement that leaves the catalog and the rows alone. *)
Lemma noop_sound s a d :
  facts_hold a d -> ddl s (a_schema a) = Some (a_schema a) -> dml s (a_schema a) (snd d) = Some (snd d) ->
  sound s a d {| a_schema := a_schema a; a_empty := a_empty a; a_known := []; a_unused := a_unused a |}.
Proof.
  intros Hf Hd Hm. apply (catalog_sound _ _ _ _ []); try done.
  - apply same_tables_refl.
  - by apply same_unique_eq.
  - intros t e Hk. by apply no_known.
  - by intros t tab []%elem_of_nil.
Qed.

(** [CREATE INDEX]: it exists, is not unique or is on a table without rows. *)
Lemma create_index_sound u n t keys nd cond a d sch :
  facts_hold a d -> ddl (CreateIndex u n t keys nd cond) (a_schema a) = Some sch ->
  relation_exists (a_schema a) n || negb u || bool_decide (t ∈ a_empty a) = true ->
  sound (CreateIndex u n t keys nd cond) a d
    {| a_schema := sch; a_empty := a_empty a; a_known := []; a_unused := a_unused a |}.
Proof.
  intros Hf Hd Hc. pose proof Hd as Hd'. simpl in Hd'. destruct (s_tables (a_schema a) !! t); [|done]. simpl in Hd'.
  case_match; [done|]. destruct (relation_exists (a_schema a) n); [injection Hd' as <-; by apply noop_sound|].
  case_match; [|done]. injection Hd' as <-.
  apply (catalog_sound _ _ _ _ []); try done; [exact (same_tables_refl [] (a_schema a))| |intros t' e Hk; by apply no_known|by intros t' tab []%elem_of_nil].
  intros m i. simpl. rewrite lookup_insert_Some. intros [[_ <-]|[_ Hm]]; [right; simpl|by left].
  apply orb_true_iff in Hc as [Hc|Hc%bool_decide_eq_true]; [left; by destruct u|by right].
Qed.

(** [ADD CONSTRAINT] and [DROP CONSTRAINT], whose check is then known. *)
Lemma checks_sound s a d sch t tab tab' known :
  facts_hold a d -> ddl s (a_schema a) = Some sch -> dml s (a_schema a) (snd d) = Some (snd d) ->
  s_tables (a_schema a) !! t = Some tab -> s_tables sch !! t = Some tab' ->
  frame t (a_schema a) sch /\ s_indexes sch = s_indexes (a_schema a) -> same_checks known t tab tab' ->
  (forall x e, (x, e) ∈ known -> (x, e) ∈ a_known a \/ x = t /\ exists n, t_constraints tab !! n = Some (CheckC e)) ->
  sound s a d {| a_schema := sch; a_empty := a_empty a; a_known := known; a_unused := a_unused a |}.
Proof.
  intros Hf Hd Hm Ht Ht' [Hst Hi] Hc Hk. pose proof Hf as [Hs Hok _ Hkn _]. rewrite Hs in Hok. destruct Hok as (_ & Hr & _).
  specialize (Hr t tab Ht). simpl in Hr.
  assert (Hknown : forall x e, (x, e) ∈ known -> Forall (passes e) (rows_of (snd d) x)).
  { intros x e [Hx|[-> [n Hn]]]%Hk; [by apply Hkn|]. apply (Forall_impl _ _ _ Hr). intros r (_ & _ & Hp). exact (Hp n _ Hn). }
  apply (catalog_sound _ _ _ _ [t]); try done; [by apply frame_same_tables|by apply same_unique_eq|].
  intros x tab0 ->%list_elem_of_singleton E. assert (tab0 = tab') as -> by congruence.
  rewrite Forall_forall in *. intros r Hin. apply (row_ok_checks known t tab tab'); [done|by apply Hr|].
  intros e He. specialize (Hknown t e He). rewrite Forall_forall in Hknown. auto.
Qed.

(** A statement that the analysis accepts succeeds on every database of which
    the facts hold; the facts it predicts hold of the result; and rows are
    kept, but for the columns it sets and the tables it merges. *)
Lemma analyse_sound s a a' d : analyse s a = Some a' -> facts_hold a d -> sound s a d a'.
Proof.
  unfold analyse. intros Ha Hf. destruct (ddl s (a_schema a)) as [sch|] eqn:Hd; [|done]. simpl in Ha.
  destruct s as [n|t cols|u n t keys nd cond|t cols|t n|t n e|t c src cond|into cols from cond conflict g|t cond].
  - injection Ha as <-. injection Hd as <-. by apply noop_sound.
  - injection Ha as <-. destruct (relation_exists (a_schema a) t) eqn:Hx; [|by apply create_sound].
    pose proof Hd as Hd'. simpl in Hd'. rewrite Hx in Hd'. injection Hd' as <-.
    apply noop_sound; [done|done|]. simpl. by rewrite Hx.
  - case_match eqn:Hc; [|done]. injection Ha as <-. by apply create_index_sound.
  - destruct (s_tables (a_schema a) !! t) as [tab|] eqn:Ht; [|done]. simpl in Ha.
    destruct (s_tables sch !! t) as [tab'|] eqn:Ht'; [|done]. simpl in Ha. case_decide as Hc; [|done]. injection Ha as <-.
    destruct Hc as (H1 & H2 & H3 & H4). by apply (add_columns_sound _ _ _ _ _ tab tab').
  - destruct (s_tables (a_schema a) !! t) as [tab|] eqn:Ht; [|done]. simpl in Ha.
    destruct (s_tables sch !! t) as [tab'|] eqn:Ht'; [|done]. simpl in Ha. case_decide as Hc; [|done]. injection Ha as <-.
    apply (checks_sound _ _ _ _ t tab tab'); try done; [by apply (drop_constraint_frame t n)|]. intros x e.
    destruct (t_constraints tab !! n) as [[e'| |]|] eqn:En; auto. intros [[= -> ->]|?]%elem_of_cons; eauto.
  - destruct (s_tables (a_schema a) !! t) as [tab|] eqn:Ht; [|done]. simpl in Ha.
    destruct (s_tables sch !! t) as [tab'|] eqn:Ht'; [|done]. simpl in Ha. case_decide as Hc; [|done]. injection Ha as <-.
    apply (checks_sound _ _ _ _ t tab tab'); try done; [|auto].
    simpl in Hd. rewrite Ht in Hd. simpl in Hd. case_match; [|done]. by apply add_constraint_frame in Hd.
  - destruct (s_tables (a_schema a) !! t) as [tab|] eqn:Ht; [|done]. simpl in Ha. case_decide as Hc; [|done].
    injection Ha as <-. destruct Hc as [H1 H2]. by apply (update_sound _ _ _ _ _ _ _ tab).
  - destruct (s_tables (a_schema a) !! into) as [tab|] eqn:Ht; [|done]. simpl in Ha.
    destruct (s_tables (a_schema a) !! from) as [tab'|] eqn:Ht'; [|done]. simpl in Ha. case_decide as Hc; [|done].
    injection Ha as <-. destruct Hc as [H1 H2]. by apply (insert_sound _ _ _ _ _ _ _ _ _ tab tab').
  - injection Ha as <-. by apply delete_sound.
Qed.

(** ** Files *)

Lemma row_kept_trans e e' r1 r2 r3 : row_kept e r1 r2 -> row_kept e' r2 r3 -> row_kept (e ++ e') r1 r3.
Proof. intros H1 H2 c v Hv. rewrite elem_of_app. destruct (H1 c v Hv) as [?|Hv2]; [tauto|]. destruct (H2 c v Hv2); tauto. Qed.

Lemma rows_kept_trans e e' m m' x y z :
  rows_kept e m x y -> rows_kept e' m' y z -> rows_kept (e ++ e') (m ++ m') x z.
Proof.
  intros H1 H2 t [Hm Hm']%not_elem_of_app. specialize (H1 t Hm). specialize (H2 t Hm'). revert H2.
  generalize (rows_of z t). induction H1 as [|r1 r2 l1 l2 Hr _ IH]; intros l3 H2; inversion H2; subst; constructor; [|auto].
  by apply (row_kept_trans _ _ _ r2).
Qed.

(** The catalog of the analysis is that of the statement. *)
Lemma analyse_ddl s a a' : analyse s a = Some a' -> ddl s (a_schema a) = Some (a_schema a').
Proof.
  unfold analyse. destruct (ddl s (a_schema a)) as [sch|]; [|done]. simpl. intros Ha.
  destruct s; simpl in Ha; repeat (case_match; simplify_eq/=; try done);
    repeat match goal with
           | H : (_ ≫= _) = Some _ |- _ => apply bind_Some in H as (? & _ & H)
           | H : (if _ then _ else _) = Some _ |- _ => case_match; [|done]
           | H : Some _ = Some _ |- _ => injection H as <-
           end; done.
Qed.

Definition analyse_file (file : list Stmt) (a : Facts) : option Facts := foldM analyse file a.

Lemma analyse_file_sound file a a' d : analyse_file file a = Some a' -> facts_hold a d ->
  exists rows, exec_file file d = Some (a_schema a', rows) /\ facts_hold a' (a_schema a', rows) /\
    rows_kept (flat_map sets file) (flat_map merges file) (snd d) rows.
Proof.
  revert a d. induction file as [|s file IH]; simpl; intros a d Ha Hf.
  - injection Ha as <-. destruct d as [sch rows]. pose proof (fh_schema _ _ Hf) as E. simpl in E. subst sch.
    exists rows. split_and!; [done|done|apply rows_kept_refl].
  - change (analyse_file (s :: file) a) with (a1 ← analyse s a; analyse_file file a1) in Ha.
    destruct (analyse s a) as [a1|] eqn:E; [|done]. simpl in Ha. destruct (analyse_sound _ _ _ _ E Hf) as (r1 & He1 & Hf1 & Hk1).
    destruct (IH a1 _ Ha Hf1) as (r2 & He2 & Hf2 & Hk2). exists r2. unfold exec_file in *. simpl. rewrite He1. simpl.
    split_and!; [done|done|]. by apply (rows_kept_trans _ _ _ _ _ r1).
Qed.

Lemma analyse_file_ddl file a a' : analyse_file file a = Some a' -> foldM ddl file (a_schema a) = Some (a_schema a').
Proof.
  unfold analyse_file. revert a. induction file as [|s file IH]; intros a; simpl; [by intros [= ->]|].
  destruct (analyse s a) as [a1|] eqn:E; [|done]. simpl. intros Ha. by rewrite (analyse_ddl _ _ _ E); simpl; apply IH.
Qed.

Lemma rows_kept_weaken e e' m rows rows' : rows_kept e m rows rows' -> (forall c, c ∈ e -> c ∈ e') -> rows_kept e' m rows rows'.
Proof.
  intros Hk He t Ht. apply (Forall2_impl _ _ _ _ (Hk t Ht)). intros r r' Hr c v Hv. destruct (Hr c v Hv); auto.
Qed.

(** What is known of a database to begin with. *)
Lemma facts_start sch d unused :
  fst d = sch -> db_ok (fst d) (snd d) -> (unused = true -> unused_uuids (snd d)) ->
  facts_hold {| a_schema := sch; a_empty := []; a_known := []; a_unused := unused |} d.
Proof. intros Hs Hok Hn. split; simpl; [done|done|by intros t []%elem_of_nil|intros t e Hk; by apply no_known|done]. Qed.

(** Fewer facts. *)
Lemma facts_weaken a d unused :
  facts_hold a d -> (unused = true -> a_unused a = true) ->
  facts_hold {| a_schema := a_schema a; a_empty := []; a_known := []; a_unused := unused |} d.
Proof.
  intros [Hs Hok _ _ Hn] Hu. apply facts_start; auto.
Qed.
End rows.

Abbreviation Row := (gmap string Value).
Abbreviation Rows := (gmap string (list Row)).
