(* ===== verification/Schema.v ===== *)
(** The migrations of [backend/internal/db/migrations], statement by
    statement, and what running them again and again at every start of the
    backend does to a database. *)
From S2P Require Import Prelude GoStrings GoFloat GoTime Netip Metrics Classifier Sql Store FlowService AgentService Migrate Ddl.

#[local] Open Scope Z_scope.

(** ** Column definitions *)

Definition col (n : string) (ty : SqlType) : Column :=
  {| c_name := n; c_type := ty; c_notnull := false; c_default := None; c_check := None; c_key := None;
     c_references := None |}.
Definition NOT_NULL (c : Column) : Column :=
  {| c_name := c_name c; c_type := c_type c; c_notnull := true; c_default := c_default c; c_check := c_check c;
     c_key := c_key c; c_references := c_references c |}.
Definition DEFAULT (d : Default) (c : Column) : Column :=
  {| c_name := c_name c; c_type := c_type c; c_notnull := c_notnull c; c_default := Some d; c_check := c_check c;
     c_key := c_key c; c_references := c_references c |}.
Definition CHECK (e : Expr) (c : Column) : Column :=
  {| c_name := c_name c; c_type := c_type c; c_notnull := c_notnull c; c_default := c_default c; c_check := Some e;
     c_key := c_key c; c_references := c_references c |}.
Definition KEY (k : ColumnKey) (c : Column) : Column :=
  {| c_name := c_name c; c_type := c_type c; c_notnull := c_notnull c; c_default := c_default c; c_check := c_check c;
     c_key := Some k; c_references := c_references c |}.
Definition REFERENCES (t : string) (od : OnDelete) (c : Column) : Column :=
  {| c_name := c_name c; c_type := c_type c; c_notnull := c_notnull c; c_default := c_default c; c_check := c_check c;
     c_key := c_key c; c_references := Some (t, "id", od) |}.

#[local] Notation "c '|>' f" := (f c) (at level 50, left associativity, only parsing).

(** The definitions that many tables share. *)
Definition uuid_id : Column := col "id" UUID |> KEY PRIMARY_KEY |> DEFAULT DUuid.
Definition seen (n : string) : Column := col n TIMESTAMPTZ |> NOT_NULL |> DEFAULT DNow.
Definition one_of (n : string) (values : list string) : Column := col n TEXT |> NOT_NULL |> CHECK (InList n values).
Definition counter (n : string) : Column :=
  col n BIGINT |> NOT_NULL |> DEFAULT (DInt 0) |> CHECK (Compare CGe n 0).
Definition latency (n : string) : Column :=
  col n DOUBLE_PRECISION |> NOT_NULL |> DEFAULT (DInt 0) |> CHECK (Compare CGe n 0).
Definition vm_ref (n : string) : Column := col n TEXT |> REFERENCES "vms" SET_NULL.
Definition owned_vm (n : string) : Column := col n TEXT |> NOT_NULL |> REFERENCES "vms" CASCADE.
Definition http_status (n : string) : Column :=
  col n INTEGER |> CHECK (Or (IsNull n) (And (Compare CGe n 100) (Compare CLe n 599))).
Definition port_or_null (n : string) : Column :=
  col n INTEGER |> CHECK (Or (IsNull n) (And (Compare CGe n 1) (Compare CLe n 65535))).
Definition port_or_zero (n : string) : Column :=
  col n INTEGER |> NOT_NULL |> DEFAULT (DInt 0) |> CHECK (And (Compare CGe n 0) (Compare CLe n 65535)).
Definition index (n t : string) (keys : list IndexKey) : Stmt := CreateIndex false n t keys true None.
Definition asc (c : string) : IndexKey := KCol c false.
Definition desc (c : string) : IndexKey := KCol c true.

Definition statuses : list string := ["online"; "stale"; "offline"].
Definition protocols : list string := ["tcp"; "udp"; "icmp"].
Definition any_protocols : list string := ["tcp"; "udp"; "icmp"; "any"].
Definition directions : list string := ["ingress"; "egress"].
Definition scopes : list string :=
  ["internal_same_tenant"; "internal_cross_tenant"; "unknown_internal"; "external_public"; "external_private"; "unknown"].
Definition exposures : list string := ["private"; "public"; "management"; "unknown"].
Definition actions : list string := ["allow"; "deny"; "reject"].

(** ** 001_init.sql *)

Definition agents_table : Stmt := CreateTable "agents"
  [col "id" TEXT |> KEY PRIMARY_KEY; col "vm_id" TEXT; col "hostname" TEXT |> NOT_NULL; col "machine_id" TEXT;
   col "os" TEXT; col "kernel" TEXT; col "agent_version" TEXT; col "environment" TEXT;
   one_of "status" statuses |> DEFAULT (DText "online"); seen "first_seen"; seen "last_seen"].

Definition vms_table : Stmt := CreateTable "vms"
  [col "id" TEXT |> KEY PRIMARY_KEY; col "name" TEXT |> NOT_NULL; col "tenant_id" TEXT; col "private_ip" INET;
   col "public_ip" INET; col "mac_address" TEXT; col "host_id" TEXT; col "role" TEXT;
   col "discovered_by" TEXT |> NOT_NULL |> DEFAULT (DText "agent"); col "agent_id" TEXT; col "machine_id" TEXT;
   one_of "status" statuses |> DEFAULT (DText "online"); seen "first_seen"; seen "last_seen"; seen "created_at"].

Definition vm_interfaces_table : Stmt := CreateTable "vm_interfaces"
  [uuid_id; owned_vm "vm_id"; col "interface_name" TEXT |> NOT_NULL; col "ip_address" INET; col "mac_address" TEXT;
   seen "created_at"; seen "updated_at"].

Definition network_flows_table : Stmt := CreateTable "network_flows"
  [uuid_id; col "agent_id" TEXT |> REFERENCES "agents" SET_NULL; vm_ref "src_vm_id"; vm_ref "dst_vm_id";
   col "src_ip" INET |> NOT_NULL; col "dst_ip" INET |> NOT_NULL; col "src_port" INTEGER; col "dst_port" INTEGER;
   one_of "protocol" protocols; one_of "direction" directions |> DEFAULT (DText "egress"); one_of "scope" scopes;
   counter "bytes_sent"; counter "bytes_received"; counter "packets"; counter "connection_count";
   col "first_seen" TIMESTAMPTZ |> NOT_NULL; col "last_seen" TIMESTAMPTZ |> NOT_NULL; col "interface_name" TEXT;
   seen "created_at"].

Definition external_hosts_table : Stmt := CreateTable "external_hosts"
  [uuid_id; col "ip" INET |> NOT_NULL |> KEY UNIQUE; col "domain" TEXT; col "asn" TEXT; col "country" TEXT;
   col "provider" TEXT; seen "first_seen"; seen "last_seen"].

Definition unknown_internal_hosts_table : Stmt := CreateTable "unknown_internal_hosts"
  [uuid_id; col "ip" INET |> NOT_NULL |> KEY UNIQUE; seen "first_seen"; seen "last_seen"; vm_ref "resolved_vm_id"].

Definition interfaces_identity : Stmt :=
  CreateIndex true "uq_vm_interfaces_identity" "vm_interfaces"
    [asc "vm_id"; asc "interface_name"; asc "ip_address"; asc "mac_address"] false None.

Definition sql_001 : list Stmt :=
  [CreateExtension "pgcrypto"; agents_table; vms_table; vm_interfaces_table; network_flows_table;
   external_hosts_table; unknown_internal_hosts_table; interfaces_identity].

(** ** 002_indexes.sql *)

Definition sql_002 : list Stmt :=
  [index "idx_agents_vm_id" "agents" [asc "vm_id"];
   index "idx_agents_machine_id" "agents" [asc "machine_id"];
   index "idx_agents_last_seen" "agents" [asc "last_seen"];
   index "idx_vms_agent_id" "vms" [asc "agent_id"];
   index "idx_vms_machine_id" "vms" [asc "machine_id"];
   index "idx_vms_private_ip" "vms" [asc "private_ip"];
   index "idx_vms_public_ip" "vms" [asc "public_ip"];
   index "idx_vms_status" "vms" [asc "status"];
   index "idx_vm_interfaces_vm_id" "vm_interfaces" [asc "vm_id"];
   index "idx_vm_interfaces_ip_address" "vm_interfaces" [asc "ip_address"];
   index "idx_vm_interfaces_mac_address" "vm_interfaces" [asc "mac_address"];
   index "idx_network_flows_agent_id" "network_flows" [asc "agent_id"];
   index "idx_network_flows_src_ip" "network_flows" [asc "src_ip"];
   index "idx_network_flows_dst_ip" "network_flows" [asc "dst_ip"];
   index "idx_network_flows_src_vm_id" "network_flows" [asc "src_vm_id"];
   index "idx_network_flows_dst_vm_id" "network_flows" [asc "dst_vm_id"];
   index "idx_network_flows_scope" "network_flows" [asc "scope"];
   index "idx_network_flows_protocol" "network_flows" [asc "protocol"];
   index "idx_network_flows_last_seen" "network_flows" [desc "last_seen"]].

(** ** 003_flow_observed_at.sql *)

Definition sql_003 : list Stmt :=
  [AddColumns "network_flows" [seen "observed_at"];
   index "idx_network_flows_observed_at" "network_flows" [desc "observed_at"]].

(** ** 004_request_metrics.sql *)

Definition backfill_stmt : Stmt :=
  Update "network_flows" "request_count" (FromColumn "connection_count")
    (And (Compare CEq "request_count" 0) (Compare CGt "connection_count" 0)).

Definition flow_observations_table : Stmt := CreateTable "flow_observations"
  [uuid_id; col "flow_id" UUID |> NOT_NULL |> REFERENCES "network_flows" CASCADE;
   col "agent_id" TEXT |> REFERENCES "agents" SET_NULL; vm_ref "src_vm_id"; vm_ref "dst_vm_id";
   col "src_ip" INET |> NOT_NULL; col "dst_ip" INET |> NOT_NULL; col "src_port" INTEGER; col "dst_port" INTEGER;
   one_of "protocol" protocols; one_of "direction" directions; one_of "scope" scopes;
   counter "bytes_sent"; counter "bytes_received"; counter "packets"; counter "connection_count"; counter "request_count";
   col "first_seen" TIMESTAMPTZ |> NOT_NULL; col "last_seen" TIMESTAMPTZ |> NOT_NULL; seen "observed_at"].

Definition sql_004 : list Stmt :=
  [AddColumns "network_flows" [counter "request_count"]; backfill_stmt; flow_observations_table;
   index "idx_flow_observations_observed_at" "flow_observations" [desc "observed_at"];
   index "idx_flow_observations_scope_observed_at" "flow_observations" [asc "scope"; desc "observed_at"];
   index "idx_flow_observations_flow_id" "flow_observations" [asc "flow_id"]].

(** ** 005_external_private_scope.sql *)

Definition merge_hosts_stmt : Stmt :=
  InsertSelect "external_hosts" ["ip"; "first_seen"; "last_seen"] "unknown_internal_hosts" (IsNull "resolved_vm_id")
    "ip" "last_seen".
Definition rescope_stmt (t : string) : Stmt :=
  Update t "scope" (TextConst "external_private") (And (EqText "scope" "unknown_internal") (IsNull "dst_vm_id")).
Definition forget_hosts_stmt : Stmt := Delete "unknown_internal_hosts" (IsNull "resolved_vm_id").

Definition sql_005 : list Stmt :=
  [DropConstraint "network_flows" "network_flows_scope_check";
   AddConstraint "network_flows" "network_flows_scope_check" (InList "scope" scopes);
   DropConstraint "flow_observations" "flow_observations_scope_check";
   AddConstraint "flow_observations" "flow_observations_scope_check" (InList "scope" scopes);
   merge_hosts_stmt; rescope_stmt "network_flows"; rescope_stmt "flow_observations"; forget_hosts_stmt].

(** ** 006_icmp_protocol.sql *)

Definition sql_006 : list Stmt :=
  [DropConstraint "network_flows" "network_flows_protocol_check";
   AddConstraint "network_flows" "network_flows_protocol_check" (InList "protocol" protocols);
   DropConstraint "flow_observations" "flow_observations_protocol_check";
   AddConstraint "flow_observations" "flow_observations_protocol_check" (InList "protocol" protocols)].

(** ** 007_connection_probes.sql *)

Definition connection_probes_table : Stmt := CreateTable "connection_probes"
  [uuid_id; col "agent_id" TEXT |> NOT_NULL |> REFERENCES "agents" CASCADE; owned_vm "src_vm_id"; vm_ref "dst_vm_id";
   col "src_ip" INET |> NOT_NULL; col "dst_ip" INET |> NOT_NULL; one_of "protocol" protocols |> DEFAULT (DText "tcp");
   col "dst_port" INTEGER |> NOT_NULL |> DEFAULT (DInt 18081);
   col "source" TEXT |> NOT_NULL |> DEFAULT (DText "vmlens_probe");
   col "probe_type" TEXT |> NOT_NULL |> DEFAULT (DText "connectivity_check");
   col "success" BOOLEAN |> NOT_NULL |> DEFAULT (DBool false); latency "rtt_ms"; col "error" TEXT;
   seen "first_seen"; seen "last_seen"; seen "observed_at"].
Definition probes_pair : Stmt :=
  CreateIndex true "uq_connection_probes_pair" "connection_probes"
    [asc "agent_id"; asc "src_vm_id"; asc "dst_vm_id"; asc "dst_ip"; asc "protocol"; asc "dst_port"] false None.

Definition sql_007 : list Stmt :=
  [connection_probes_table; probes_pair;
   index "idx_connection_probes_recent" "connection_probes" [asc "success"; desc "observed_at"];
   index "idx_connection_probes_src_vm" "connection_probes" [asc "src_vm_id"; desc "observed_at"]].

(** ** 008_flow_errors.sql *)

Definition sql_008 : list Stmt :=
  [AddColumns "network_flows" [counter "error_count"];
   AddColumns "network_flows" [col "last_error_at" TIMESTAMPTZ];
   AddColumns "flow_observations" [counter "error_count"];
   CreateIndex false "idx_network_flows_last_error_at" "network_flows" [desc "last_error_at"] true
     (Some (IsNotNull "last_error_at"))].

(** ** 009_cloud_connection_context.sql *)

Definition owner_columns : list Column := [uuid_id; col "tenant_id" TEXT; col "project_id" TEXT].

Definition cloud_public_ips_table : Stmt := CreateTable "cloud_public_ips"
  (owner_columns ++
  [vm_ref "vm_id"; col "ip_address" INET |> NOT_NULL; col "provider_id" TEXT;
   one_of "status" ["assigned"; "available"; "released"; "unknown"] |> DEFAULT (DText "assigned");
   col "assigned_at" TIMESTAMPTZ; col "last_seen_at" TIMESTAMPTZ; seen "created_at"; seen "updated_at"]).

Definition cloud_firewall_rules_table : Stmt := CreateTable "cloud_firewall_rules"
  (owner_columns ++
  [col "provider_id" TEXT; col "name" TEXT; one_of "direction" directions;
   one_of "protocol" any_protocols |> DEFAULT (DText "tcp"); port_or_null "port_min"; port_or_null "port_max";
   col "source_cidr" CIDR; col "dest_cidr" CIDR; vm_ref "source_vm_id"; vm_ref "dest_vm_id";
   one_of "action" actions |> DEFAULT (DText "allow"); one_of "scope" exposures |> DEFAULT (DText "private");
   col "description" TEXT; col "last_synced_at" TIMESTAMPTZ; seen "created_at"; seen "updated_at"]).

Definition cloud_routes_table : Stmt := CreateTable "cloud_routes"
  (owner_columns ++
  [col "provider_id" TEXT; col "network_id" TEXT; col "subnet_id" TEXT; col "destination" CIDR |> NOT_NULL;
   col "next_hop" INET;
   one_of "route_type" ["private"; "public"; "default"; "peering"; "vpn"; "unknown"] |> DEFAULT (DText "private");
   col "description" TEXT; col "last_synced_at" TIMESTAMPTZ; seen "created_at"; seen "updated_at"]).

Definition cloud_network_policies_table : Stmt := CreateTable "cloud_network_policies"
  (owner_columns ++
  [col "name" TEXT |> NOT_NULL; col "zone" TEXT; vm_ref "source_vm_id"; vm_ref "dest_vm_id";
   col "protocol" TEXT |> CHECK (Or (IsNull "protocol") (InList "protocol" any_protocols)); port_or_null "port";
   one_of "action" actions |> DEFAULT (DText "allow"); col "description" TEXT; col "last_synced_at" TIMESTAMPTZ;
   seen "created_at"; seen "updated_at"]).

Definition connection_intents_table : Stmt := CreateTable "connection_intents"
  (owner_columns ++
  [owned_vm "source_vm_id"; owned_vm "dest_vm_id"; one_of "protocol" any_protocols |> DEFAULT (DText "tcp");
   port_or_zero "port"; col "purpose" TEXT; one_of "exposure" exposures |> DEFAULT (DText "private");
   col "required" BOOLEAN |> NOT_NULL |> DEFAULT (DBool true);
   one_of "status" ["intended"; "validated"; "inactive"; "deprecated"; "blocked"] |> DEFAULT (DText "intended");
   col "created_by" TEXT; seen "created_at"; seen "updated_at"]).

Definition connection_configurations_table : Stmt := CreateTable "connection_configurations"
  (owner_columns ++
  [col "intent_id" UUID |> REFERENCES "connection_intents" SET_NULL; owned_vm "source_vm_id"; owned_vm "dest_vm_id";
   one_of "protocol" any_protocols |> DEFAULT (DText "tcp"); port_or_zero "port";
   col "firewall_rule_id" UUID |> REFERENCES "cloud_firewall_rules" SET_NULL;
   col "route_id" UUID |> REFERENCES "cloud_routes" SET_NULL; col "network_id" TEXT;
   one_of "config_state" ["unknown"; "allowed"; "denied"; "blocked"; "missing"; "stale"] |> DEFAULT (DText "unknown");
   one_of "security_state" ["unknown"; "private"; "public"; "management"; "overexposed"; "blocked"]
     |> DEFAULT (DText "unknown");
   col "last_synced_at" TIMESTAMPTZ; seen "created_at"; seen "updated_at"]).

Definition connection_change_events_table : Stmt := CreateTable "connection_change_events"
  (owner_columns ++
  [col "connection_id" UUID; col "change_type" TEXT |> NOT_NULL; col "actor" TEXT; col "before_state" JSONB;
   col "after_state" JSONB; vm_ref "affected_source_vm_id"; vm_ref "affected_dest_vm_id"; col "validation_state" TEXT;
   seen "created_at"]).

Definition provider_index (n t : string) : Stmt :=
  CreateIndex true n t [asc "provider_id"] true (Some (IsNotNull "provider_id")).
Definition ownership_index (n t : string) (cols : list string) : Stmt :=
  index n t (map asc (["tenant_id"; "project_id"] ++ cols)).

Definition sql_009 : list Stmt :=
  [AddColumns "vms" (map (fun n => col n TEXT)
     ["project_id"; "region"; "zone"; "environment"; "owner"; "network_id"; "subnet_id"]);
   AddColumns "agents" [col "project_id" TEXT];
   index "idx_vms_ownership" "vms" [asc "tenant_id"; asc "project_id"; asc "status"; desc "last_seen"];
   cloud_public_ips_table;
   provider_index "uq_cloud_public_ips_provider" "cloud_public_ips";
   ownership_index "idx_cloud_public_ips_ownership" "cloud_public_ips" ["vm_id"];
   cloud_firewall_rules_table;
   provider_index "uq_cloud_firewall_rules_provider" "cloud_firewall_rules";
   ownership_index "idx_cloud_firewall_rules_ownership" "cloud_firewall_rules" ["source_vm_id"; "dest_vm_id"];
   cloud_routes_table;
   provider_index "uq_cloud_routes_provider" "cloud_routes";
   ownership_index "idx_cloud_routes_ownership" "cloud_routes" ["network_id"; "subnet_id"];
   cloud_network_policies_table;
   ownership_index "idx_cloud_network_policies_ownership" "cloud_network_policies" ["source_vm_id"; "dest_vm_id"];
   connection_intents_table;
   CreateIndex true "uq_connection_intents_identity" "connection_intents"
     [asc "source_vm_id"; asc "dest_vm_id"; asc "protocol"; asc "port"; asc "exposure"] true None;
   ownership_index "idx_connection_intents_ownership" "connection_intents" ["source_vm_id"; "dest_vm_id"];
   connection_configurations_table;
   CreateIndex true "uq_connection_configurations_identity" "connection_configurations"
     [asc "source_vm_id"; asc "dest_vm_id"; asc "protocol"; asc "port"; KCoalesce "network_id" ""] true None;
   ownership_index "idx_connection_configurations_ownership" "connection_configurations" ["source_vm_id"; "dest_vm_id"];
   connection_change_events_table;
   index "idx_connection_change_events_ownership" "connection_change_events"
     [asc "tenant_id"; asc "project_id"; desc "created_at"]].

(** ** 010_flow_metric_contract.sql *)

Definition metric_columns : list Column :=
  [counter "retransmission_count"; latency "avg_rtt_ms"; latency "avg_app_delay_ms"].
Definition sql_010 : list Stmt :=
  [AddColumns "network_flows" metric_columns; AddColumns "flow_observations" metric_columns].

(** ** 011_vm_inventory_assignment.sql *)

Definition sql_011 : list Stmt := [AddColumns "vms" [col "host_type" TEXT]].

(** ** 012_http_status_and_app_delay.sql *)

Definition http_columns : list Column :=
  [counter "http_1xx_count"; counter "http_2xx_count"; counter "http_3xx_count"; counter "http_4xx_count";
   counter "http_5xx_count"; http_status "last_http_status"].
Definition sql_012 : list Stmt :=
  [AddColumns "network_flows" http_columns; AddColumns "flow_observations" http_columns;
   CreateIndex false "idx_network_flows_http_5xx" "network_flows" [desc "observed_at"] true
     (Some (Compare CGt "http_5xx_count" 0))].

(** The embedded files in name order. *)
Definition sql_files : list (string * list Stmt) :=
  [("001_init.sql", sql_001); ("002_indexes.sql", sql_002); ("003_flow_observed_at.sql", sql_003);
   ("004_request_metrics.sql", sql_004); ("005_external_private_scope.sql", sql_005);
   ("006_icmp_protocol.sql", sql_006); ("007_connection_probes.sql", sql_007); ("008_flow_errors.sql", sql_008);
   ("009_cloud_connection_context.sql", sql_009); ("010_flow_metric_contract.sql", sql_010);
   ("011_vm_inventory_assignment.sql", sql_011); ("012_http_status_and_app_delay.sql", sql_012)].

(** ** The catalog after the first [k] files *)

Fixpoint catalogs_from (files : list (list Stmt)) (sch : Schema) : list Schema :=
  sch :: match files with
         | [] => []
         | file :: files => catalogs_from files (default sch (foldM ddl file sch))
         end.
Definition catalogs : list Schema := catalogs_from (map snd sql_files) no_schema.
Definition catalog (k : nat) : Schema := default no_schema (catalogs !! k).
Definition final_schema : Schema := catalog 12.

Section history.
Context `{Postgres}.

(** Executing an embedded file. *)
Definition exec_sql (now : time) (gen : nat -> string) (file : list Stmt) (d : Database) : Result Database :=
  match exec_file now gen file d with Some d => Ok d | None => Err (pg_error "statement failed") end.
Definition sql_migrations (now : time) (gen : nat -> string) (k : nat) : list (string * (Database -> Result Database)) :=
  map (fun '(name, file) => (name, exec_sql now gen file)) (take k sql_files).

(** A start of the release that has the first [k] files; [exec] makes files
    fail. *)
Definition start (now : time) (gen : nat -> string) (k : nat) (exec : nat -> option GoError) (d : Database)
    : Result unit * Database :=
  applyMigrations exec 0 (sql_migrations now gen k) d.

(** The databases that deployments arrive at: starts of this or an older
    release, each of which may fail at any file, on a database that is empty
    at first, and in between any writes the constraints allow. *)
Inductive history : Database -> Prop :=
| history_new : history (no_schema, ∅)
| history_start now gen k exec d res d' : history d -> start now gen k exec d = (res, d') -> history d'
| history_write sch rows rows' : history (sch, rows) -> db_ok sch rows' -> history (sch, rows').

(** On a database that has seen the first [j] files, the analysis accepts
    file [i + 1] and predicts the catalog of the first [max j (i + 1)] files;
    identifiers are generated by file 005 only. *)
Lemma file_accepted now gen j i f : (i <= j <= 12)%nat -> sql_files !! i = Some f ->
  exists a, analyse_file now gen (snd f)
              {| a_schema := catalog j; a_empty := []; a_known := []; a_unused := (i <? 5)%nat |} = Some a /\
            a_schema a = catalog (Nat.max j (S i)) /\ ((S i <? 5)%nat = true -> a_unused a = true).
Proof.
  assert (Hc : (let cs := catalogs in
    forallb (fun j =>
      forallb (fun i =>
        match sql_files !! i with
        | Some f =>
            match analyse_file now gen (snd f) {| a_schema := default no_schema (cs !! j); a_empty := []; a_known := [];
                                                  a_unused := (i <? 5)%nat |} with
            | Some a => bool_decide (a_schema a = default no_schema (cs !! Nat.max j (S i))) && implb (S i <? 5)%nat (a_unused a)
            | None => false
            end
        | None => true
        end) (seq 0 (S j))) (seq 0 13)) = true) by (vm_compute; reflexivity).
  intros Hij Hf. cbv zeta in Hc. rewrite forallb_forall in Hc. specialize (Hc j). rewrite in_seq in Hc.
  specialize (Hc ltac:(lia)). rewrite forallb_forall in Hc. specialize (Hc i). rewrite in_seq, Hf in Hc. specialize (Hc ltac:(lia)).
  fold (catalog j) in Hc. fold (catalog (Nat.max j (S i))) in Hc.
  destruct (analyse_file _ _ _ _) as [a|]; [|done]. apply andb_true_iff in Hc as [Ha%bool_decide_eq_true Hu].
  exists a. split_and!; [done|done|]. intros E. by rewrite E in Hu.
Qed.

(** What succeeds satisfies the constraints, and its catalog depends on the
    catalog alone. *)
Lemma exec_file_ddl now gen file d d' : db_ok (fst d) (snd d) -> exec_file now gen file d = Some d' ->
  foldM ddl file (fst d) = Some (fst d') /\ db_ok (fst d') (snd d').
Proof.
  revert d. induction file as [|s file IH]; intros d Hd He; [by injection He as <-|].
  change (exec_file now gen (s :: file) d) with (d1 ← exec_stmt now gen s d; exec_file now gen file d1) in He.
  destruct (exec_stmt now gen s d) as [d1|] eqn:E; [|done]. simpl in He. unfold exec_stmt in E.
  destruct (ddl s (fst d)) as [sch|] eqn:Es; [|done]. simpl in E. destruct (dml _ _ _ _ _) as [rows|]; [|done]. simpl in E.
  case_decide as Hok; [|done]. injection E as <-. simpl. rewrite Es. simpl. by apply (IH (sch, rows)).
Qed.

(** [files] are the embedded files from number [i] on. *)
Definition files_from (i : nat) (files : list (string * list Stmt)) : Prop :=
  forall n f, files !! n = Some f -> sql_files !! (i + n)%nat = Some f.

Lemma files_from_cons i f files : files_from i (f :: files) ->
  sql_files !! i = Some f /\ (i < 12)%nat /\ files_from (S i) files.
Proof.
  intros Hfiles. assert (Hf : sql_files !! i = Some f) by (rewrite <- (Nat.add_0_r i); by apply Hfiles).
  split_and!; [done| |].
  - change 12%nat with (length sql_files). apply lookup_lt_is_Some_1. by eexists.
  - intros n g Hg. replace (S i + n)%nat with (i + S n)%nat by lia. by apply Hfiles.
Qed.

Lemma files_from_take k : files_from 0 (take k sql_files).
Proof. intros n f Hf. simpl. rewrite lookup_take in Hf. by case_decide. Qed.

(** A start, however far it gets, ends in the catalog of a prefix. *)
Lemma start_catalog now gen exec files i j d res d' :
  (i <= j <= 12)%nat -> fst d = catalog j -> db_ok (fst d) (snd d) -> files_from i files ->
  applyMigrations exec i (map (fun '(name, file) => (name, exec_sql now gen file)) files) d = (res, d') ->
  exists j', (j' <= 12)%nat /\ fst d' = catalog j' /\ db_ok (fst d') (snd d').
Proof.
  revert i j d. induction files as [|[name f] files IH]; intros i j d Hij Hd Hok Hfiles; simpl.
  { intros [= _ <-]. exists j. split; [lia|done]. }
  apply files_from_cons in Hfiles as (Hf & Hi & Hfiles).
  destruct (exec i); [intros [= _ <-]; exists j; split; [lia|done]|]. unfold exec_sql at 1.
  destruct (exec_file now gen f d) as [d1|] eqn:E; [|intros [= _ <-]; exists j; split; [lia|done]].
  destruct (exec_file_ddl _ _ _ _ _ Hok E) as [Hs Hok1].
  destruct (file_accepted now gen j i _ Hij Hf) as (a & Ha & Hsch & _). apply analyse_file_ddl in Ha. simpl in Ha.
  rewrite Hd, Ha in Hs. injection Hs as Hs.
  apply (IH (S i) (Nat.max j (S i))); [lia|congruence|done|done].
Qed.

Lemma db_ok_empty : db_ok no_schema ∅.
Proof. split_and!; apply map_Forall_empty. Qed.

Lemma history_catalog d : history d -> exists j, (j <= 12)%nat /\ fst d = catalog j /\ db_ok (fst d) (snd d).
Proof.
  induction 1 as [|now gen k exec d res d' _ (j & Hj & Hd & Hok) Hs|sch rows rows' _ (j & Hj & Hd & Hok) Hw].
  - exists 0%nat. split; [lia|]. split; [done|apply db_ok_empty].
  - apply (start_catalog now gen exec (take k sql_files) 0 j d res); try done; [lia|apply files_from_take].
  - by exists j.
Qed.

(** A start that nothing else disturbs succeeds. *)
Lemma start_succeeds now gen files i j d :
  (i <= j <= 12)%nat -> files_from i files ->
  facts_hold gen {| a_schema := catalog j; a_empty := []; a_known := []; a_unused := (i <? 5)%nat |} d ->
  exists rows, applyMigrations (fun _ => None) i (map (fun '(name, file) => (name, exec_sql now gen file)) files) d
               = (Ok tt, (catalog (Nat.max j (i + length files)), rows)) /\
    db_ok (catalog (Nat.max j (i + length files))) rows /\
    rows_kept (flat_map sets (flat_map snd files)) (flat_map merges (flat_map snd files)) (snd d) rows.
Proof.
  revert i j d. induction files as [|[name f] files IH]; intros i j d Hij Hfiles Hfacts; simpl.
  { pose proof (fh_schema _ _ _ Hfacts) as Hs. pose proof (fh_ok _ _ _ Hfacts) as Hok. destruct d as [sch rows]. simpl in *.
    exists rows. rewrite Nat.add_0_r, Nat.max_l by lia. subst sch. split_and!; [done|done|apply rows_kept_refl]. }
  apply files_from_cons in Hfiles as (Hf & Hi & Hfiles).
  destruct (file_accepted now gen j i _ Hij Hf) as (a & Ha & Hsch & Hu).
  destruct (analyse_file_sound _ _ _ _ _ _ Ha Hfacts) as (rows1 & He & Hfacts1 & Hk1). simpl in He.
  unfold exec_sql at 1. rewrite He. apply (facts_weaken _ _ _ (S i <? 5)%nat) in Hfacts1; [|done]. rewrite Hsch in Hfacts1.
  destruct (IH (S i) (Nat.max j (S i)) _ ltac:(lia) Hfiles Hfacts1) as (rows & Hrun & Hok & Hk). exists rows.
  replace (Nat.max j (i + S (length files))) with (Nat.max (Nat.max j (S i)) (S i + length files)) by lia.
  rewrite Hsch, !flat_map_app. split_and!; [done|done|]. by apply (rows_kept_trans _ _ _ _ _ rows1).
Qed.

(** C8: starting the backend is safe on every database a deployment arrives
    at.  Whatever releases (this one or older ones with fewer migration
    files) were started before, at whichever file those starts failed or were
    interrupted, and whatever rows the constraints allowed to be written in
    between, a start of this release in which the database answers succeeds:
    every statement of every file succeeds although nothing records which
    files were applied, the catalog is the one a fresh database gets, all
    rows satisfy its constraints, and no row of a table is lost or changed
    but for the hosts that file 005 moves and the columns request_count and
    scope that files 004 and 005 rewrite. *)
Theorem start_is_safe (now : time) (gen : nat -> string) (d : Database) :
  history d -> unused_uuids gen (snd d) ->
  exists rows, start now gen 12 (fun _ => None) d = (Ok tt, (final_schema, rows)) /\ db_ok final_schema rows /\
    rows_kept ["request_count"; "scope"] ["external_hosts"; "unknown_internal_hosts"] (snd d) rows.
Proof.
  intros Hh Hu. destruct (history_catalog d Hh) as (j & Hj & Hd & Hok).
  destruct (start_succeeds now gen sql_files 0 j d) as (rows & Hrun & Hok' & Hk); [lia|by intros n f|by apply facts_start|].
  replace (Nat.max j (0 + length sql_files)) with 12%nat in * by (simpl; lia). exists rows. split_and!; [done|done|].
  apply (rows_kept_weaken _ _ _ _ _ Hk). intros c. change (flat_map sets _) with ["request_count"; "scope"; "scope"]. set_solver.
Qed.
End history.
