(* ===== verification/SchemaModel.v ===== *)
(** The tables of [Store] against the schema the migrations create.

    The row records and the constraints that the models of the services check
    by hand are those of the catalog of [Schema]; and the statements the
    migrations execute at every start do to the tables what [Migrate] says. *)
From stdpp Require Import pretty.
From S2P Require Import Prelude GoStrings GoFloat GoTime Netip Metrics Classifier Sql Store FlowService AgentService.
From S2P Require Import ConnectionService Migrate Ddl Schema.

#[local] Open Scope Z_scope.

(** ** Rows of the catalog *)

Section encode.
Context `{Postgres}.

Fixpoint assoc (c : string) (cols : list (string * option Value)) : option Value :=
  match cols with
  | [] => None
  | (k, v) :: cols => if (c =? k)%string then v else assoc c cols
  end.
(** [row] has these columns. *)
Definition encodes (cols : list (string * option Value)) (row : Row) : Prop := forall c, row !! c = assoc c cols.

Definition flow_columns (r : FlowRow) : list (string * option Value) :=
  [("id", Some (VUuid (fl_id r))); ("agent_id", VText <$> fl_agent_id r); ("src_vm_id", VText <$> fl_src_vm_id r);
   ("dst_vm_id", VText <$> fl_dst_vm_id r); ("src_ip", Some (VInet (fl_src_ip r))); ("dst_ip", Some (VInet (fl_dst_ip r)));
   ("src_port", Some (VInt (fl_src_port r))); ("dst_port", Some (VInt (fl_dst_port r)));
   ("protocol", Some (VText (fl_protocol r))); ("direction", Some (VText (fl_direction r)));
   ("scope", Some (VText (fl_scope r))); ("bytes_sent", Some (VInt (fl_bytes_sent r)));
   ("bytes_received", Some (VInt (fl_bytes_received r))); ("packets", Some (VInt (fl_packets r)));
   ("connection_count", Some (VInt (fl_connection_count r))); ("request_count", Some (VInt (fl_request_count r)));
   ("error_count", Some (VInt (fl_error_count r))); ("retransmission_count", Some (VInt (fl_retransmission_count r)));
   ("avg_rtt_ms", Some (VFloat (fl_avg_rtt_ms r))); ("avg_app_delay_ms", Some (VFloat (fl_avg_app_delay_ms r)));
   ("first_seen", Some (VTime (fl_first_seen r))); ("last_seen", Some (VTime (fl_last_seen r)));
   ("observed_at", Some (VTime (fl_observed_at r))); ("created_at", Some (VTime (fl_created_at r)));
   ("last_error_at", VTime <$> fl_last_error_at r); ("interface_name", VText <$> fl_interface_name r);
   ("http_1xx_count", Some (VInt (fl_http_1xx r))); ("http_2xx_count", Some (VInt (fl_http_2xx r)));
   ("http_3xx_count", Some (VInt (fl_http_3xx r))); ("http_4xx_count", Some (VInt (fl_http_4xx r)));
   ("http_5xx_count", Some (VInt (fl_http_5xx r))); ("last_http_status", VInt <$> fl_last_http_status r)].

Definition observation_columns (o : ObservationRow) : list (string * option Value) :=
  [("id", Some (VUuid (ob_id o))); ("flow_id", Some (VUuid (ob_flow_id o))); ("agent_id", VText <$> ob_agent_id o);
   ("src_vm_id", VText <$> ob_src_vm_id o); ("dst_vm_id", VText <$> ob_dst_vm_id o);
   ("src_ip", Some (VInet (ob_src_ip o))); ("dst_ip", Some (VInet (ob_dst_ip o)));
   ("src_port", Some (VInt (ob_src_port o))); ("dst_port", Some (VInt (ob_dst_port o)));
   ("protocol", Some (VText (ob_protocol o))); ("direction", Some (VText (ob_direction o)));
   ("scope", Some (VText (ob_scope o))); ("bytes_sent", Some (VInt (ob_bytes_sent o)));
   ("bytes_received", Some (VInt (ob_bytes_received o))); ("packets", Some (VInt (ob_packets o)));
   ("connection_count", Some (VInt (ob_connection_count o))); ("request_count", Some (VInt (ob_request_count o)));
   ("error_count", Some (VInt (ob_error_count o))); ("retransmission_count", Some (VInt (ob_retransmission_count o)));
   ("avg_rtt_ms", Some (VFloat (ob_avg_rtt_ms o))); ("avg_app_delay_ms", Some (VFloat (ob_avg_app_delay_ms o)));
   ("first_seen", Some (VTime (ob_first_seen o))); ("last_seen", Some (VTime (ob_last_seen o)));
   ("observed_at", Some (VTime (ob_observed_at o)));
   ("http_1xx_count", Some (VInt (ob_http_1xx o))); ("http_2xx_count", Some (VInt (ob_http_2xx o)));
   ("http_3xx_count", Some (VInt (ob_http_3xx o))); ("http_4xx_count", Some (VInt (ob_http_4xx o)));
   ("http_5xx_count", Some (VInt (ob_http_5xx o))); ("last_http_status", VInt <$> ob_last_http_status o)].

(** [ProbeRow] has every column but the identifier, which nothing reads. *)
Definition probe_columns (id : string) (q : ProbeRow) : list (string * option Value) :=
  [("id", Some (VUuid id)); ("agent_id", Some (VText (pr_agent_id q))); ("src_vm_id", Some (VText (pr_src_vm_id q)));
   ("dst_vm_id", VText <$> pr_dst_vm_id q); ("src_ip", Some (VInet (pr_src_ip q)));
   ("dst_ip", Some (VInet (pr_dst_ip q))); ("protocol", Some (VText (pr_protocol q)));
   ("dst_port", Some (VInt (pr_dst_port q))); ("source", Some (VText (pr_source q)));
   ("probe_type", Some (VText (pr_probe_type q))); ("success", Some (VBool (pr_success q)));
   ("rtt_ms", Some (VFloat (pr_rtt_ms q))); ("error", VText <$> pr_error q);
   ("first_seen", Some (VTime (pr_first_seen q))); ("last_seen", Some (VTime (pr_last_seen q)));
   ("observed_at", Some (VTime (pr_observed_at q)))].

(** ** Constraints *)

Definition declared (t : string) : Table :=
  default {| t_columns := ∅; t_constraints := ∅ |} (s_tables final_schema !! t).
Definition checks (tab : Table) : list Expr :=
  omap (fun '(_, k) => match k with CheckC e => Some e | _ => None end) (map_to_list (t_constraints tab)).
(** The row violates no constraint of its table. *)
Definition allowed (tab : Table) (row : Row) : Prop := map_Forall (fun _ k => constraint_ok row k) (t_constraints tab).

Lemma allowed_checks tab row : allowed tab row <-> Forall (fun e => passes e row) (checks tab).
Proof.
  unfold allowed, checks. rewrite Forall_forall. split.
  - intros Ha e. rewrite list_elem_of_omap. intros ([n k] & Hin & Hk). apply elem_of_map_to_list in Hin.
    specialize (Ha n k Hin). destruct k; try done. injection Hk as ->. exact Ha.
  - intros Hp n k Hn. destruct k as [e| |]; simpl; try done. apply Hp. rewrite list_elem_of_omap.
    exists (n, CheckC e). split; [by apply elem_of_map_to_list|done].
Qed.

Lemma Some_passes b : Some b <> Some false <-> b = true.
Proof. destruct b; naive_solver. Qed.

(** The columns of a table, and those of a record of [Store]. *)
Definition same_columns (tab : Table) (cols : list (string * option Value)) : bool :=
  forallb (fun c => isSome (t_columns tab !! c)) (map fst cols)
  && forallb (fun c => existsb (String.eqb c) (map fst cols)) (map fst (map_to_list (t_columns tab))).

#[local] Ltac read_columns row Henc := repeat match goal with |- context [row !! ?c] => rewrite (Henc c) end.
#[local] Ltac eval_checks row Henc :=
  rewrite !Forall_cons, Forall_nil; unfold passes; cbn [eval]; read_columns row Henc;
  cbn [assoc String.eqb Ascii.eqb Bool.eqb flow_columns observation_columns probe_columns mbind option_bind compare];
  rewrite ?Some_passes.

(** [last_http_status IS NULL OR last_http_status BETWEEN 100 AND 599] *)
Lemma status_passes (st : option Z) :
  sql_or (Some (negb (isSome (VInt <$> st))))
    (sql_and ((VInt <$> st) ≫= fun v => compare CGe v 100) ((VInt <$> st) ≫= fun v => compare CLe v 599)) <> Some false <->
  match st with None => true | Some s => (100 <=? s) && (s <=? 599) end = true.
Proof. destruct st as [s|]; simpl; [|naive_solver]. destruct (100 <=? s), (s <=? 599); simpl; naive_solver. Qed.

Lemma flow_allowed r row : encodes (flow_columns r) row -> allowed (declared "network_flows") row <-> flow_checks r = true.
Proof.
  intros Henc. rewrite allowed_checks. set (l := checks _). vm_compute in l. subst l. eval_checks row Henc.
  rewrite status_passes. unfold flow_checks, sample_checks. cbn [forallb]. rewrite !andb_true_iff. tauto.
Qed.

Lemma observation_allowed o row :
  encodes (observation_columns o) row -> allowed (declared "flow_observations") row <-> observation_checks o = true.
Proof.
  intros Henc. rewrite allowed_checks. set (l := checks _). vm_compute in l. subst l. eval_checks row Henc.
  rewrite status_passes. unfold observation_checks, sample_checks. cbn [forallb]. rewrite !andb_true_iff. tauto.
Qed.

Lemma probe_allowed id q row :
  encodes (probe_columns id q) row ->
  allowed (declared "connection_probes") row /\ value_ok {| ci_type := INTEGER; ci_notnull := true; ci_default := None |} (row !! "dst_port") <->
  probe_checks q = Ok tt.
Proof.
  intros Henc. rewrite allowed_checks. set (l := checks _). vm_compute in l. subst l. eval_checks row Henc.
  cbn [assoc String.eqb Ascii.eqb Bool.eqb probe_columns value_ok has_type ci_type].
  unfold probe_checks.
  destruct ((- 2 ^ 31 <=? pr_dst_port q) && (pr_dst_port q <? 2 ^ 31)); simpl negb; cbv iota; [|naive_solver].
  cbn [existsb]. destruct (_ || _), (negb (float8_gt _ _)); simpl; naive_solver.
Qed.

(** ** Unique indexes *)

Definition unique_index (n : string) : Index :=
  default {| i_table := n; i_unique := false; i_keys := []; i_nulls_distinct := true; i_where := None |}
    (s_indexes final_schema !! n).

Lemma VText_inj (a b : option string) : VText <$> a = VText <$> b <-> a = b.
Proof. destruct a, b; simpl; naive_solver. Qed.
Lemma VInet_inj (a b : option inet) : VInet <$> a = VInet <$> b <-> a = b.
Proof. destruct a, b; simpl; naive_solver. Qed.

Lemma probe_index id id' q q' row row' :
  encodes (probe_columns id q) row -> encodes (probe_columns id' q') row' ->
  index_key (unique_index "uq_connection_probes_pair") row = index_key (unique_index "uq_connection_probes_pair") row' <->
  probe_key q = probe_key q'.
Proof.
  intros He He'. set (i := unique_index _). vm_compute in i. subst i. unfold index_key.
  cbn [i_keys i_where i_nulls_distinct map key_value andb negb]. read_columns row He. read_columns row' He'.
  cbn [assoc String.eqb Ascii.eqb Bool.eqb probe_columns].
  unfold probe_key. split; [intros [= E1 E2 E3 E4 E5 E6]; apply VText_inj in E3; congruence|by intros [= -> -> -> -> -> ->]].
Qed.

Definition interface_columns (id : string) (created : time) (i : InterfaceRow) : list (string * option Value) :=
  [("id", Some (VUuid id)); ("vm_id", Some (VText (if_vm_id i))); ("interface_name", Some (VText (if_name i)));
   ("ip_address", VInet <$> if_ip_address i); ("mac_address", VText <$> if_mac_address i);
   ("created_at", Some (VTime created)); ("updated_at", Some (VTime (if_updated_at i)))].

(** What [upsertInterface] compares. *)
Definition interface_key (i : InterfaceRow) : string * string * option inet * option string :=
  (if_vm_id i, if_name i, if_ip_address i, if_mac_address i).

Lemma interface_index id id' t t' q q' row row' :
  encodes (interface_columns id t q) row -> encodes (interface_columns id' t' q') row' ->
  index_key (unique_index "uq_vm_interfaces_identity") row = index_key (unique_index "uq_vm_interfaces_identity") row' <->
  interface_key q = interface_key q'.
Proof.
  intros He He'. set (i := unique_index _). vm_compute in i. subst i. unfold index_key.
  cbn [i_keys i_where i_nulls_distinct map key_value andb negb]. read_columns row He. read_columns row' He'.
  cbn [assoc String.eqb Ascii.eqb Bool.eqb interface_columns].
  unfold interface_key. split; [|by intros [= -> -> -> ->]].
  intros [= E1 E2 E3 E4]. apply VInet_inj in E3. apply VText_inj in E4. congruence.
Qed.

(** ** Foreign keys *)

Definition foreign_keys (t : string) : list (string * string * OnDelete) :=
  omap (fun '(_, k) => match k with ForeignC c t' _ od => Some (c, t', od) | _ => None end)
    (map_to_list (t_constraints (declared t))).
(** The foreign keys of the tables of [Store], as [AgentService] follows them. *)
Definition followed : list (string * list (string * string * OnDelete)) :=
  [("agents", []); ("vms", []); ("external_hosts", []);
   ("vm_interfaces", [("vm_id", "vms", CASCADE)]);
   ("network_flows", [("agent_id", "agents", SET_NULL); ("src_vm_id", "vms", SET_NULL); ("dst_vm_id", "vms", SET_NULL)]);
   ("flow_observations", [("flow_id", "network_flows", CASCADE); ("agent_id", "agents", SET_NULL);
                          ("src_vm_id", "vms", SET_NULL); ("dst_vm_id", "vms", SET_NULL)]);
   ("unknown_internal_hosts", [("resolved_vm_id", "vms", SET_NULL)]);
   ("connection_probes", [("agent_id", "agents", CASCADE); ("src_vm_id", "vms", CASCADE);
                          ("dst_vm_id", "vms", SET_NULL)])].


(** ** A start on the tables of [Store] *)

(** The columns of a host that [HostRow] has. *)
Definition encodes_host (h : HostRow) (row : Row) : Prop :=
  row !! "ip" = Some (VInet (h_ip h)) /\ row !! "first_seen" = Some (VTime (h_first_seen h)) /\
  row !! "last_seen" = Some (VTime (h_last_seen h)).
Definition encodes_unknown (h : HostRow) (row : Row) : Prop :=
  encodes_host h row /\ row !! "resolved_vm_id" = VText <$> h_resolved_vm_id h.

(** The tables that the data statements read and write. *)
Record represents (db : DB) (rows : Rows) : Prop := {
  rep_flows : Forall2 (fun r => encodes (flow_columns r)) (network_flows db) (rows_of rows "network_flows");
  rep_observations : Forall2 (fun o => encodes (observation_columns o)) (flow_observations db) (rows_of rows "flow_observations");
  rep_external : Forall2 encodes_host (external_hosts db) (rows_of rows "external_hosts");
  rep_unknown : Forall2 encodes_unknown (unknown_internal_hosts db) (rows_of rows "unknown_internal_hosts")
}.

Lemma represents_same db rows rows' : (forall t, rows_of rows' t = rows_of rows t) -> represents db rows -> represents db rows'.
Proof. intros E [H1 H2 H3 H4]. split; by rewrite E. Qed.

(** A guarded statement whose object exists. *)
Definition inert (sch : Schema) (s : Stmt) : bool :=
  match s with
  | CreateTable t _ => relation_exists sch t
  | AddColumns t cols => match s_tables sch !! t with Some tab => bool_decide (new_columns tab cols = []) | None => false end
  | Update _ _ _ _ | InsertSelect _ _ _ _ _ _ | Delete _ _ => false
  | _ => true
  end.
Definition inert_run (file : list Stmt) (sch : Schema) : option Schema :=
  foldM (fun s sch => if inert sch s then ddl s sch else None) file sch.

Lemma fill_nothing now gen tab cols (r : Row) : new_columns tab cols = [] -> fill now gen tab cols r = r.
Proof. intros E. apply map_eq. intros c. apply fill_old. rewrite E. apply not_elem_of_nil. Qed.

Lemma dml_inert now gen s sch rows rows' : inert sch s = true -> dml now gen s sch rows = Some rows' ->
  forall t, rows_of rows' t = rows_of rows t.
Proof.
  intros Hi Hd t. destruct s as [n|x cols|u n x keys nd cond|x cols|x n|x n e|x c src cond|into cols from cond conflict g|x cond];
    simpl in Hi, Hd; try done; try (by injection Hd as <-).
  - rewrite Hi in Hd. by injection Hd as <-.
  - destruct (s_tables sch !! x) as [tab|]; [|done]. apply bool_decide_eq_true in Hi. simpl in Hd. injection Hd as <-.
    destruct (decide (x = t)) as [<-|Hne]; [|by apply rows_of_insert_ne]. rewrite rows_of_insert.
    rewrite <- (map_id (rows_of rows x)) at 2. apply map_ext. intros r. by apply fill_nothing.
Qed.

Lemma exec_stmt_dml now gen s sch rows d : exec_stmt now gen s (sch, rows) = Some d ->
  ddl s sch = Some (fst d) /\ dml now gen s sch rows = Some (snd d).
Proof.
  unfold exec_stmt. simpl. destruct (ddl s sch); [|done]. simpl. destruct (dml _ _ _ _ _); [|done]. simpl.
  case_decide; [|done]. by intros [= <-].
Qed.

Lemma exec_inert now gen file sch sch' db rows d : inert_run file sch = Some sch' ->
  exec_file now gen file (sch, rows) = Some d -> represents db rows -> fst d = sch' /\ represents db (snd d).
Proof.
  revert sch rows. induction file as [|s file IH]; intros sch rows Hi He Hr.
  { injection Hi as <-. by injection He as <-. }
  change (inert_run (s :: file) sch) with (c ← (if inert sch s then ddl s sch else None); inert_run file c) in Hi.
  change (exec_file now gen (s :: file) (sch, rows)) with (c ← exec_stmt now gen s (sch, rows); exec_file now gen file c) in He.
  destruct (inert sch s) eqn:Es; [|done]. destruct (exec_stmt now gen s (sch, rows)) as [[sch1 rows1]|] eqn:E1; [|done].
  destruct (exec_stmt_dml _ _ _ _ _ _ E1) as [Hd Hm]. simpl in Hd, Hm. rewrite Hd in Hi. simpl in Hi, He.
  apply (IH sch1 rows1); [done|done|]. eapply represents_same; [|exact Hr]. intros t. by apply (dml_inert now gen s sch).
Qed.

(** ** The data statements *)

Lemma Forall2_insert {A} (R : A -> Row -> Prop) l rows t l' t' :
  t <> t' -> Forall2 R l (rows_of rows t') -> Forall2 R l (rows_of (<[t := l']> rows) t').
Proof. intros Hne. by rewrite rows_of_insert_ne. Qed.

Lemma Forall2_map_rows {A} (R : A -> Row -> Prop) f g l l' :
  Forall2 R l l' -> (forall a r, R a r -> R (f a) (g r)) -> Forall2 R (map f l) (map g l').
Proof. intros Hl Hf. induction Hl; constructor; auto. Qed.

Lemma Forall2_filter_rows {A} (R : A -> Row -> Prop) p q l l' :
  Forall2 R l l' -> (forall a r, R a r -> p a = q r) -> Forall2 R (List.filter p l) (List.filter q l').
Proof.
  intros Hl Hpq. induction Hl as [|a r l l' Ha Hl IH]; simpl; [constructor|]. rewrite (Hpq a r Ha).
  destruct (q r); [by constructor|done].
Qed.

(** [UPDATE] of one column of an encoded row. *)
Lemma update_encodes c src cond cols cols' row (b : bool) v :
  encodes cols row -> sql_holds (eval cond row) = b -> (b = true -> source_value src row = v) ->
  (forall x, assoc x cols' = if b && (x =? c)%string then v else assoc x cols) ->
  encodes cols' (update_row c src cond row).
Proof.
  intros He Hb Hv Hcols x. rewrite Hcols. unfold update_row. rewrite Hb. destruct b; simpl; [|apply He].
  rewrite (Hv eq_refl). destruct (String.eqb_spec x c) as [->|Hne]; [apply lookup_partial_alter_eq|].
  rewrite lookup_partial_alter_ne by done. apply He.
Qed.

Lemma backfill_encodes r row : encodes (flow_columns r) row ->
  encodes (flow_columns (backfill_requests r))
    (update_row "request_count" (FromColumn "connection_count")
       (And (Compare CEq "request_count" 0) (Compare CGt "connection_count" 0)) row).
Proof.
  intros He. apply (update_encodes _ _ _ (flow_columns r) _ _ ((fl_request_count r =? 0) && (0 <? fl_connection_count r))
                      (Some (VInt (fl_connection_count r)))); [done| | |].
  - cbn [eval]. read_columns row He. cbn [assoc String.eqb Ascii.eqb Bool.eqb flow_columns mbind option_bind compare].
    unfold sql_and, sql_not, sql_or. simpl. by destruct (fl_request_count r =? 0), (0 <? fl_connection_count r).
  - intros _. apply (He "connection_count").
  - intros x. unfold backfill_requests. destruct (_ && _); [|done]. simpl andb. unfold flow_columns. cbn -[String.eqb].
    destruct (String.eqb_spec x "request_count") as [->|Hne]; done.
Qed.

Lemma rescope_encodes cols cols' scope dst row :
  encodes cols row -> row !! "scope" = Some (VText scope) -> row !! "dst_vm_id" = VText <$> dst ->
  (forall x, assoc x cols' = if (x =? "scope")%string then Some (VText (rescope scope dst)) else assoc x cols) ->
  encodes cols' (update_row "scope" (TextConst "external_private")
                   (And (EqText "scope" "unknown_internal") (IsNull "dst_vm_id")) row).
Proof.
  intros He Hs Hd Hcols.
  apply (update_encodes _ _ _ cols _ _ ((scope =? ScopeUnknownInternal)%string && negb (isSome dst))
           (Some (VText ScopeExternalPrivate))); [done| |done|].
  - cbn [eval]. rewrite Hs, Hd. unfold sql_and, sql_not, sql_or. simpl.
    change "unknown_internal" with ScopeUnknownInternal. destruct (scope =? ScopeUnknownInternal)%string, dst; done.
  - intros x. rewrite Hcols. unfold rescope. pose proof (He "scope") as E. rewrite Hs in E.
    destruct (String.eqb_spec x "scope") as [->|Hne]; [|by rewrite andb_false_r]. rewrite andb_true_r.
    by destruct (_ && _).
Qed.

Lemma rescope_flow_encodes r row : encodes (flow_columns r) row ->
  encodes (flow_columns (rescope_flow r)) (update_row "scope" (TextConst "external_private")
                   (And (EqText "scope" "unknown_internal") (IsNull "dst_vm_id")) row).
Proof.
  intros He. apply (rescope_encodes (flow_columns r) _ (fl_scope r) (fl_dst_vm_id r)); [done|apply (He "scope")|apply (He "dst_vm_id")|].
  intros x. unfold flow_columns, rescope_flow. cbn -[String.eqb]. destruct (String.eqb_spec x "scope") as [->|Hne]; done.
Qed.

Lemma rescope_observation_encodes o row : encodes (observation_columns o) row ->
  encodes (observation_columns (rescope_observation o)) (update_row "scope" (TextConst "external_private")
                   (And (EqText "scope" "unknown_internal") (IsNull "dst_vm_id")) row).
Proof.
  intros He. apply (rescope_encodes (observation_columns o) _ (ob_scope o) (ob_dst_vm_id o)); [done|apply (He "scope")|apply (He "dst_vm_id")|].
  intros x. unfold observation_columns, rescope_observation. cbn -[String.eqb]. destruct (String.eqb_spec x "scope") as [->|Hne]; done.
Qed.

(** Merging one host. *)
Definition host_columns : list string := ["ip"; "first_seen"; "last_seen"].

Lemma new_host now gen tab k h row :
  has_columns tab host_columns = true -> encodes_host h row -> encodes_host h (new_row now gen tab host_columns k row).
Proof.
  unfold has_columns, host_columns. simpl. rewrite !andb_true_iff. unfold isSome. intros (H1 & H2 & H3 & _) (E1 & E2 & E3).
  unfold encodes_host. rewrite !new_row_lookup.
  destruct (t_columns tab !! "ip"), (t_columns tab !! "first_seen"), (t_columns tab !! "last_seen"); done.
Qed.

Lemma bump_host h h' new row : encodes_host h row -> encodes_host h' new ->
  encodes_host {| h_ip := h_ip h; h_first_seen := h_first_seen h; h_last_seen := Z.max (h_last_seen h) (h_last_seen h');
                  h_resolved_vm_id := h_resolved_vm_id h |} (bump "last_seen" new row).
Proof.
  intros (E1 & E2 & E3) (_ & _ & F3). unfold encodes_host, bump. rewrite lookup_partial_alter_eq, !lookup_partial_alter_ne by done.
  by rewrite E3, F3.
Qed.

Lemma existsb_Forall2 {A} (R : A -> Row -> Prop) p q l l' :
  Forall2 R l l' -> (forall a r, R a r -> p a = q r) -> existsb p l = existsb q l'.
Proof. intros Hl Hpq. induction Hl as [|a r l l' Ha _ IH]; simpl; [done|]. by rewrite (Hpq a r Ha), IH. Qed.

Lemma upsert_host now gen tab h r ext st st' :
  has_columns tab host_columns = true -> encodes_host h r -> Forall2 encodes_host ext (fst (fst st)) ->
  upsert now gen tab host_columns "ip" "last_seen" r st = Some st' ->
  Forall2 encodes_host (upsertHost (h_ip h) (h_first_seen h) (h_last_seen h) ext) (fst (fst st')).
Proof.
  intros Htab Hh. destruct st as [[l touched] k]. simpl. intros Hext. unfold upsert, upsertHost.
  pose proof (new_host now gen tab k h r Htab Hh) as Hnew. pose proof Hnew as (Eip & _). rewrite Eip. simpl.
  assert (Hhit : forall a (x : Row), encodes_host a x ->
    bool_decide (h_ip a = h_ip h) = bool_decide (x !! "ip" = Some (VInet (h_ip h)))).
  { intros a x (Ea & _). rewrite Ea. apply bool_decide_ext. split; congruence. }
  rewrite (existsb_Forall2 encodes_host _ _ _ _ Hext Hhit). destruct (existsb _ l).
  - case_match; [done|]. intros [= <-]. simpl. apply Forall2_map_rows; [done|]. intros a x Ha. cbv beta. rewrite (Hhit a x Ha).
    destruct (decide (x !! "ip" = Some (VInet (h_ip h)))) as [E|E];
      [rewrite !bool_decide_eq_true_2 by done; by apply bump_host|by rewrite !bool_decide_eq_false_2 by done].
  - intros [= <-]. simpl. apply Forall2_app; [done|]. constructor; [done|constructor].
Qed.

Lemma merge_hosts now gen tab hs sel ext st st' :
  has_columns tab host_columns = true -> Forall2 encodes_unknown hs sel -> Forall2 encodes_host ext (fst (fst st)) ->
  foldM (upsert now gen tab host_columns "ip" "last_seen") sel st = Some st' ->
  Forall2 encodes_host (foldl (fun l h => upsertHost (h_ip h) (h_first_seen h) (h_last_seen h) l) ext hs) (fst (fst st')).
Proof.
  intros Htab Hsel. revert ext st. induction Hsel as [|h r hs sel [Hh _] _ IH]; intros ext st Hext Hst; [by injection Hst as <-|].
  simpl in Hst. destruct (upsert _ _ _ _ _ _ r st) as [st1|] eqn:E; [|done]. simpl in Hst.
  apply (IH _ st1); [|done]. by eapply upsert_host.
Qed.

(** ** Migrate *)

Lemma unresolved_rows h row : encodes_unknown h row -> unresolved h = sql_holds (eval (IsNull "resolved_vm_id") row).
Proof. intros [_ E]. unfold unresolved. simpl. rewrite E. by destruct (h_resolved_vm_id h). Qed.

Lemma update_represents f t c src cond sch db rows d now gen :
  exec_stmt now gen (Update t c src cond) (sch, rows) = Some d ->
  (forall rows', represents db rows ->
     rows_of rows' t = map (update_row c src cond) (rows_of rows t) -> (forall x, x <> t -> rows_of rows' x = rows_of rows x) ->
     represents (f db) rows') ->
  represents db rows -> represents (f db) (snd d).
Proof.
  intros He Hf Hr. apply exec_stmt_dml in He as [_ Hm]. simpl in Hm. injection Hm as <-.
  apply Hf; [done|apply rows_of_insert|]. intros x Hx. by apply rows_of_insert_ne.
Qed.

Lemma backfill_represents now gen sch db rows d : exec_stmt now gen backfill_stmt (sch, rows) = Some d ->
  represents db rows -> represents (migration_004 db) (snd d).
Proof.
  intros He. apply (update_represents migration_004 _ _ _ _ _ _ _ _ _ _ He). intros rows' [H1 H2 H3 H4] Ht Hx.
  split; simpl; rewrite ?Ht, ?Hx by done; try done. apply Forall2_map_rows; [done|apply backfill_encodes].
Qed.

(** The statements of [migration_005], one by one. *)
Definition merged (db : DB) : DB :=
  with_external db (foldl (fun l h => upsertHost (h_ip h) (h_first_seen h) (h_last_seen h) l) (external_hosts db)
                      (List.filter unresolved (unknown_internal_hosts db))).
Definition rescoped_flows (db : DB) : DB := with_flows db (map rescope_flow (network_flows db)).
Definition rescoped_observations (db : DB) : DB :=
  with_observations db (map rescope_observation (flow_observations db)).
Definition forgotten (db : DB) : DB :=
  with_unknown_internal db (List.filter (fun h => negb (unresolved h)) (unknown_internal_hosts db)).

Lemma merge_represents now gen sch db rows d tab :
  s_tables sch !! "external_hosts" = Some tab -> has_columns tab host_columns = true ->
  exec_stmt now gen merge_hosts_stmt (sch, rows) = Some d -> represents db rows -> represents (merged db) (snd d).
Proof.
  intros Ht Hc He [H1 H2 H3 H4]. apply exec_stmt_dml in He as [_ Hm]. simpl in Hm. rewrite Ht in Hm. simpl in Hm.
  match type of Hm with (?x ≫= _) = _ => destruct x as [st|] eqn:E end; [|done]. simpl in Hm. injection Hm as <-.
  split; simpl; rewrite ?rows_of_insert, ?rows_of_insert_ne by done; try done.
  refine (merge_hosts now gen tab _ _ _ _ _ Hc _ _ E); [|exact H3]. apply Forall2_filter_rows; [done|exact unresolved_rows].
Qed.

Lemma rescope_flows_represents now gen sch db rows d : exec_stmt now gen (rescope_stmt "network_flows") (sch, rows) = Some d ->
  represents db rows -> represents (rescoped_flows db) (snd d).
Proof.
  intros He. apply (update_represents rescoped_flows _ _ _ _ _ _ _ _ _ _ He). intros rows' [H1 H2 H3 H4] Ht Hx.
  split; simpl; rewrite ?Ht, ?Hx by done; try done. apply Forall2_map_rows; [done|apply rescope_flow_encodes].
Qed.

Lemma rescope_observations_represents now gen sch db rows d :
  exec_stmt now gen (rescope_stmt "flow_observations") (sch, rows) = Some d ->
  represents db rows -> represents (rescoped_observations db) (snd d).
Proof.
  intros He. apply (update_represents rescoped_observations _ _ _ _ _ _ _ _ _ _ He). intros rows' [H1 H2 H3 H4] Ht Hx.
  split; simpl; rewrite ?Ht, ?Hx by done; try done. apply Forall2_map_rows; [done|apply rescope_observation_encodes].
Qed.

Lemma forget_represents now gen sch db rows d : exec_stmt now gen forget_hosts_stmt (sch, rows) = Some d ->
  represents db rows -> represents (forgotten db) (snd d).
Proof.
  intros He [H1 H2 H3 H4]. apply exec_stmt_dml in He as [_ Hm]. simpl in Hm. injection Hm as <-.
  split; simpl; rewrite ?rows_of_insert, ?rows_of_insert_ne by done; try done.
  apply Forall2_filter_rows; [done|]. intros h row Hr. f_equal. by apply unresolved_rows.
Qed.

(** The statements of all files around the data statements. *)
Definition before_backfill : list Stmt := sql_001 ++ sql_002 ++ sql_003 ++ take 1 sql_004.
Definition before_merge : list Stmt := drop 2 sql_004 ++ take 4 sql_005.
Definition after_data : list Stmt := sql_006 ++ sql_007 ++ sql_008 ++ sql_009 ++ sql_010 ++ sql_011 ++ sql_012.

Lemma stmts_split :
  flat_map snd sql_files =
  before_backfill ++ [backfill_stmt] ++ before_merge ++ [merge_hosts_stmt] ++ [rescope_stmt "network_flows"]
  ++ [rescope_stmt "flow_observations"] ++ [forget_hosts_stmt] ++ after_data.
Proof. reflexivity. Qed.

Lemma inert_chain : exists s1 s2 s3 tab,
  inert_run before_backfill final_schema = Some s1 /\ inert_run before_merge s1 = Some s2 /\
  s_tables s2 !! "external_hosts" = Some tab /\ has_columns tab host_columns = true /\
  inert_run after_data s2 = Some s3.
Proof.
  assert (Hc : match inert_run before_backfill final_schema with
               | Some s1 =>
                   match inert_run before_merge s1 with
                   | Some s2 =>
                       match s_tables s2 !! "external_hosts" with
                       | Some tab => has_columns tab host_columns && isSome (inert_run after_data s2)
                       | None => false
                       end
                   | None => false
                   end
               | None => false
               end = true) by (vm_compute; reflexivity).
  destruct (inert_run before_backfill final_schema) as [s1|]; [|done]. destruct (inert_run before_merge s1) as [s2|] eqn:E2; [|done].
  destruct (s_tables s2 !! "external_hosts") as [tab|] eqn:Et; [|done]. apply andb_true_iff in Hc as [Hc H3].
  destruct (inert_run after_data s2) as [s3|] eqn:E3; [|done]. by exists s1, s2, s3, tab.
Qed.

Lemma start_exec now gen files i d d' :
  applyMigrations (fun _ => None) i (map (fun '(name, file) => (name, exec_sql now gen file)) files) d = (Ok tt, d') ->
  exec_file now gen (flat_map snd files) d = Some d'.
Proof.
  revert i d. induction files as [|[name f] files IH]; intros i d; simpl; [by intros [= ->]|]. unfold exec_sql at 1.
  destruct (exec_file now gen f d) as [d1|] eqn:E; [|done]. intros Ha. unfold exec_file in *. rewrite foldM_app, E. simpl.
  by apply (IH (S i)).
Qed.

(** A step of a file, split off. *)
Lemma exec_file_app now gen l l' d d' : exec_file now gen (l ++ l') d = Some d' ->
  exists d1, exec_file now gen l d = Some d1 /\ exec_file now gen l' d1 = Some d'.
Proof. unfold exec_file. rewrite foldM_app. intros (d1 & E1 & E2)%bind_Some. eauto. Qed.

Lemma exec_one now gen s d d' : exec_file now gen [s] d = Some d' -> exec_stmt now gen s d = Some d'.
Proof. unfold exec_file. simpl. destruct (exec_stmt now gen s d); [by intros [= ->]|done]. Qed.

(** A data statement leaves the catalog alone. *)
Lemma data_schema now gen s sch rows d : exec_stmt now gen s (sch, rows) = Some d ->
  match s with Update _ _ _ _ | InsertSelect _ _ _ _ _ _ | Delete _ _ => fst d = sch | _ => True end.
Proof.
  intros [Hd _]%exec_stmt_dml. destruct s; try done; simpl in Hd;
    repeat (apply bind_Some in Hd as (? & _ & Hd)); case_match; congruence.
Qed.

#[local] Ltac next He d sch rows E :=
  apply exec_file_app in He as (d & E & He); destruct d as [sch rows]; apply exec_one in E.

Lemma exec_represents now gen db rows d : exec_file now gen (flat_map snd sql_files) (final_schema, rows) = Some d ->
  represents db rows -> represents (migration_005 (migration_004 db)) (snd d).
Proof.
  intros He Hr. destruct inert_chain as (s1 & s2 & s3 & tab & I1 & I2 & Htab & Hcols & I3). rewrite stmts_split in He.
  apply exec_file_app in He as ([c1 r1] & E1 & He). destruct (exec_inert _ _ _ _ _ _ _ _ I1 E1 Hr) as [Hs R1]. simpl in Hs. subst c1.
  next He d2 c2 r2 E2. pose proof (data_schema _ _ _ _ _ _ E2) as Hs. simpl in Hs. subst c2.
  pose proof (backfill_represents _ _ _ _ _ _ E2 R1) as R2.
  apply exec_file_app in He as ([c3 r3] & E3 & He). destruct (exec_inert _ _ _ _ _ _ _ _ I2 E3 R2) as [Hs R3]. simpl in Hs. subst c3.
  next He d4 c4 r4 E4. pose proof (data_schema _ _ _ _ _ _ E4) as Hs. simpl in Hs. subst c4.
  pose proof (merge_represents _ _ _ _ _ _ _ Htab Hcols E4 R3) as R4.
  next He d5 c5 r5 E5. pose proof (data_schema _ _ _ _ _ _ E5) as Hs. simpl in Hs. subst c5.
  pose proof (rescope_flows_represents _ _ _ _ _ _ E5 R4) as R5.
  next He d6 c6 r6 E6. pose proof (data_schema _ _ _ _ _ _ E6) as Hs. simpl in Hs. subst c6.
  pose proof (rescope_observations_represents _ _ _ _ _ _ E6 R5) as R6.
  next He d7 c7 r7 E7. pose proof (data_schema _ _ _ _ _ _ E7) as Hs. simpl in Hs. subst c7.
  pose proof (forget_represents _ _ _ _ _ _ E7 R6) as R7.
  exact (proj2 (exec_inert _ _ _ _ _ _ _ _ I3 He R7)).
Qed.

(** C12: a start of the backend does to the tables of [Store] what [Migrate]
    says.  On a database whose catalog is the migrated one and whose rows
    satisfy it, executing the SQL of all twelve files, statement by statement
    with its guards, constraint checks and conflict handling, succeeds,
    leaves the catalog as it was, and turns rows that represent flows,
    observations and hosts into rows that represent those after the typed
    migration: a repeated start runs the backfill of request counts, the
    merge of unresolved hosts and the reclassification again, and nothing
    else. *)
Theorem start_refines (now : time) (gen : nat -> string) (db : DB) (rows : Rows) :
  db_ok final_schema rows -> unused_uuids gen rows -> represents db rows ->
  exists rows', start now gen 12 (fun _ => None) (final_schema, rows) = (Ok tt, (final_schema, rows')) /\
    db_ok final_schema rows' /\ represents (snd (Migrate (fun _ => None) db)) rows'.
Proof.
  intros Hok Hu Hr.
  destruct (start_succeeds now gen sql_files 0 12 (final_schema, rows)) as (rows' & Hrun & Hok' & _);
    [lia|by intros n f|by apply facts_start|].
  exists rows'. rewrite Migrate_ok by done. split_and!; [exact Hrun|exact Hok'|].
  by apply (exec_represents _ _ _ _ _ (start_exec _ _ _ _ _ _ Hrun)).
Qed.
End encode.

(** ** A deployment

    A database with a flow whose only connection failed and an unresolved
    host; and one that a release with four files created. *)

Fixpoint row_of `{Postgres} (cols : list (string * option Value)) : Row :=
  match cols with
  | [] => ∅
  | (k, Some v) :: cols => <[k := v]> (row_of cols)
  | (_, None) :: cols => row_of cols
  end.

Lemma row_of_encodes `{Postgres} cols : NoDup (map fst cols) -> encodes cols (row_of cols).
Proof.
  intros Hn c. induction cols as [|[k v] cols IH]; simpl; [apply lookup_empty|].
  apply NoDup_cons in Hn as [Hk Hn]. simpl in Hk. specialize (IH Hn). destruct (String.eqb_spec c k) as [->|Hne].
  - destruct v as [v|]; [apply lookup_insert_eq|]. rewrite IH. clear -Hk. induction cols as [|[k' v] cols IH]; simpl; [done|].
    apply not_elem_of_cons in Hk as [Hne Hk]. rewrite (proj2 (String.eqb_neq k k')) by done. by apply IH.
  - destruct v; [by rewrite lookup_insert_ne|done].
Qed.

Definition sample_flow : @FlowRow netip_postgres :=
  @Build_FlowRow netip_postgres "flow-1" None None None (Addr4 167772165) (Addr4 167772169) 40000 443 "tcp" "egress"
    "unknown_internal" 0 0 1 1 0 1 0 (f_of_Z 0) (f_of_Z 0) 1000 2000 2000 2000 (Some 2000) (Some "eth0") 0 0 0 0 0 None.
Definition sample_unknown : @HostRow netip_postgres := @Build_HostRow netip_postgres (Addr4 167772169) 1000 2000 None.
Definition sample_hosts : @DB netip_postgres :=
  @Build_DB netip_postgres ∅ ∅ [] [sample_flow] [] [] [sample_unknown] [].

Definition unknown_columns (id : string) (h : @HostRow netip_postgres) : list (string * option (@Value netip_postgres)) :=
  [("id", Some (VUuid id)); ("ip", Some (VInet (h_ip h))); ("first_seen", Some (VTime (h_first_seen h)));
   ("last_seen", Some (VTime (h_last_seen h))); ("resolved_vm_id", VText <$> h_resolved_vm_id h)].
Definition host_rows : gmap string (list (gmap string (@Value netip_postgres))) :=
  {[ "unknown_internal_hosts" := [row_of (unknown_columns "host-1" sample_unknown)] ]}.
Definition sample_rows : gmap string (list (gmap string (@Value netip_postgres))) :=
  <[ "network_flows" := [row_of (flow_columns sample_flow)] ]> host_rows.

Definition sample_uuid (k : nat) : string := "new-" +:+ pretty k.

Lemma assoc_elem `{Postgres} c cols v : assoc c cols = Some v -> Some v ∈ map snd cols.
Proof.
  induction cols as [|[k w] cols IH]; simpl; [done|]. case_match; [intros ->; left|intros Hv; right; auto].
Qed.

Lemma sample_encodes :
  encodes (flow_columns sample_flow) (row_of (flow_columns sample_flow)) /\
  encodes (unknown_columns "host-1" sample_unknown) (row_of (unknown_columns "host-1" sample_unknown)).
Proof. split; apply row_of_encodes, (bool_decide_unpack _); vm_compute; exact I. Qed.

Lemma host_rows_of t r : r ∈ rows_of (H := netip_postgres) host_rows t -> encodes (unknown_columns "host-1" sample_unknown) r.
Proof.
  unfold rows_of, host_rows. destruct (decide (t = "unknown_internal_hosts")) as [->|Hn].
  - rewrite lookup_singleton_eq. intros ->%list_elem_of_singleton. apply sample_encodes.
  - rewrite lookup_singleton_ne by done. by intros []%elem_of_nil.
Qed.

Lemma sample_rows_of t r : r ∈ rows_of (H := netip_postgres) sample_rows t ->
  encodes (flow_columns sample_flow) r \/ encodes (unknown_columns "host-1" sample_unknown) r.
Proof.
  unfold sample_rows. destruct (decide (t = "network_flows")) as [->|Hn].
  - rewrite rows_of_insert. intros ->%list_elem_of_singleton. left. apply sample_encodes.
  - rewrite rows_of_insert_ne by done. right. by eapply host_rows_of.
Qed.

Lemma sample_uuid_inj : Inj (=) (=) sample_uuid.
Proof. intros a b E. apply (inj pretty). unfold sample_uuid in E. by injection E. Qed.

Lemma unused_encoded (rows : gmap string (list (gmap string (@Value netip_postgres)))) :
  (forall t r, r ∈ rows_of rows t ->
     encodes (flow_columns sample_flow) r \/ encodes (unknown_columns "host-1" sample_unknown) r) ->
  unused_uuids sample_uuid rows.
Proof.
  intros Hrows. split; [exact sample_uuid_inj|].
  intros t r c k Hr Hv. destruct (Hrows t r Hr) as [He|He]; rewrite (He c) in Hv; apply assoc_elem in Hv; cbn [map snd flow_columns unknown_columns] in Hv;
    repeat (apply elem_of_cons in Hv as [Hv|Hv]; [discriminate Hv|]); by apply elem_of_nil in Hv.
Qed.

Lemma sample_represents : represents (H := netip_postgres) sample_hosts sample_rows.
Proof.
  unfold sample_rows, sample_hosts. split; cbn [network_flows flow_observations external_hosts unknown_internal_hosts].
  - rewrite rows_of_insert. constructor; [apply sample_encodes|constructor].
  - rewrite rows_of_insert_ne by done. constructor.
  - rewrite rows_of_insert_ne by done. constructor.
  - rewrite rows_of_insert_ne by done. constructor; [|constructor]. destruct sample_encodes as [_ He].
    split; [split_and!|]; apply He.
Qed.

Lemma start_refines_witness :
  exists rows', start (H := netip_postgres) 5000 sample_uuid 12 (fun _ => None) (final_schema, sample_rows)
                = (Ok tt, (final_schema, rows')) /\
    represents (snd (Migrate (fun _ => None) sample_hosts)) rows' /\
    map (fun r => (fl_request_count r, fl_scope r)) (network_flows (snd (Migrate (fun _ => None) sample_hosts)))
    = [(1, "external_private")] /\
    map h_ip (external_hosts (snd (Migrate (fun _ => None) sample_hosts))) = [Addr4 167772169].
Proof.
  destruct (start_refines (H := netip_postgres) 5000 sample_uuid sample_hosts sample_rows) as (rows' & Hs & _ & Hr).
  - apply (bool_decide_unpack _). vm_compute. exact I.
  - apply unused_encoded. exact sample_rows_of.
  - exact sample_represents.
  - exists rows'. split; [exact Hs|]. split; [exact Hr|]. split; vm_compute; reflexivity.
Defined.

(** An older release, then one host. *)
Lemma sample_history : history (H := netip_postgres) (catalog 4, host_rows).
Proof.
  destruct (start (H := netip_postgres) 0 sample_uuid 4 (fun _ => None) (no_schema, ∅)) as [res [sch rows]] eqn:E.
  assert (Hs : sch = catalog 4).
  { transitivity (fst (snd (start (H := netip_postgres) 0 sample_uuid 4 (fun _ => None) (no_schema, ∅)))); [by rewrite E|].
    apply (bool_decide_unpack _). vm_compute. exact I. }
  subst sch. apply (history_write _ rows).
  - exact (history_start _ _ _ _ _ _ _ history_new E).
  - apply (bool_decide_unpack _). vm_compute. exact I.
Qed.

Lemma start_is_safe_witness :
  exists rows, start (H := netip_postgres) 5000 sample_uuid 12 (fun _ => None) (catalog 4, host_rows)
               = (Ok tt, (final_schema, rows)) /\ db_ok final_schema rows.
Proof.
  destruct (start_is_safe (H := netip_postgres) 5000 sample_uuid (catalog 4, host_rows)) as (rows & Hs & Hok & _).
  - exact sample_history.
  - apply unused_encoded. intros t r Hr. right. exact (host_rows_of t r Hr).
  - exists rows. split; [exact Hs|exact Hok].
Defined.
