(* ===== verification/Witnesses.v ===== *)
(** Concrete runs of the theorems that need a whole backend: a small
    database filled by the operations of References, with its listings, its
    sweep, the API in front of it and the agent's exporter. *)
From S2P Require Import Prelude GoStrings GoFloat GoTime GoParse AgentConfig BackendConfig Netip Metrics Classifier Hub Sql Store.
From S2P Require Import Inventory FlowService FlowList AgentService VMService InventoryAssign GraphService ConnectionViews.
From S2P Require Import CloudContext Http Lifecycle BackendMain ConnectionService References API Exporter GoDate JsonText JsonCodec Wire Prober AgentLink.
From S2P Require AgentFlow AgentMain Collector CollectorRun EndToEnd Kernel WirePath Identity Graph ConnectionState.

#[local] Open Scope Z_scope.

(** Names in the order of their bytes. *)
Definition by_bytes (a b : string) : bool := String.leb a b.

(** ** Listings *)

Definition sample_summary : Result Summary := @Summary_ netip_postgres None Hour Hour talking_db.

Lemma summary_consistent_witness : exists s, sample_summary = Ok s /\ InternalBytes s = InternalSent s + InternalRecv s.
Proof.
  assert (F : is_ok sample_summary = true) by (vm_compute; reflexivity).
  destruct sample_summary as [s|] eqn:E; [|discriminate F]. exists s. split; [done|].
  exact (proj1 (@summary_consistent netip_postgres _ _ _ _ _ E)).
Defined.

Definition all_flows : Graph.GraphFilter :=
  {| Graph.FAgentID := ""; Graph.FTenantID := ""; Graph.FProjectID := ""; Graph.FVMID := ""; Graph.FScope := "";
     Graph.FProtocol := ""; Graph.FPort := 0; Graph.TimeRange := 24 * Hour; Graph.MinBytes := 0; Graph.FStatus := "" |}.
Definition show_all : GraphVisibility :=
  {| ExcludedPorts := []; AllowedPorts := []; ExcludedIPs := []; IncludeIdle := true |}.
Definition sample_graph : Result Graph.Graph :=
  @GetGraph netip_postgres by_bytes no_fault show_all (4 * Second) Hour Hour all_flows talking_db.

Lemma statuses_check (P : VMRow -> bool) (db : @DB netip_postgres) :
  forallb (fun kv => P kv.2) (map_to_list (vms db)) = true -> forall id v, vms db !! id = Some v -> P v = true.
Proof.
  rewrite forallb_forall. intros Hc id v Hv. specialize (Hc (id, v)).
  rewrite <- list_elem_of_In, elem_of_map_to_list in Hc. exact (Hc Hv).
Qed.


Definition no_filter : ConnectionViewFilter :=
  {| vf_TenantID := ""; vf_ProjectID := ""; vf_VMID := ""; vf_TimeRange := 24 * Hour |}.
Definition sample_connections : Result (list ConnectionState.ConnectionView) :=
  @ListConnections netip_postgres no_fault (4 * Second) Hour Hour no_filter [] [] talking_db.


Definition no_tables : @CloudTables netip_postgres :=
  {| cloud_public_ips := []; cloud_firewall_rules := []; cloud_routes := []; cloud_network_policies := [] |}.
Definition one_machine : CloudContextFilter := {| ccf_TenantID := ""; ccf_ProjectID := ""; ccf_VMID := "vm-agent-1" |}.
Definition sample_context : Result CloudContext :=
  @Context_ netip_postgres by_bytes None no_fault one_machine no_tables talking_db.

Lemma cloud_context_isolated_witness :
  exists c, sample_context = Ok c /\ Forall (fun h => ho_ID h = "vm-agent-1") (cc_Hosts c).
Proof.
  assert (F : is_ok sample_context = true) by (vm_compute; reflexivity).
  destruct sample_context as [c|] eqn:E; [|discriminate F]. exists c. split; [done|].
  destruct (@cloud_context_isolated netip_postgres by_bytes None no_fault one_machine no_tables talking_db c E)
    as (_ & _ & _ & _ & _ & _ & Hv).
  exact (proj1 (Hv ltac:(discriminate) ltac:(vm_compute; reflexivity))).
Defined.

(** ** The inventory, the sweep and the life cycle *)

Definition sample_inventory : VMInventory :=
  @NewVMInventory ascii_only "vms" (fun _ => Opened ["database|10.0.0.9|ubuntu|-|-|-|-|db"] None).
Definition assigned_db : Result unit * @DB netip_postgres :=
  @ApplyInventoryAssignments netip_postgres no_fault (Some sample_inventory) talking_db.

Lemma inventory_applied_witness :
  exists db' v', assigned_db = (Ok tt, db') /\ vms db' !! "vm-agent-2" = Some v' /\
    vm_name v' = "database" /\ vm_role v' = Some "db".
Proof.
  assert (F : is_ok assigned_db.1 = true) by (vm_compute; reflexivity).
  destruct assigned_db as [[[]|] db'] eqn:E; [|discriminate F]. exists db'.
  assert (Fv : isSome (vms talking_db !! "vm-agent-2") = true) by (vm_compute; reflexivity).
  destruct (vms talking_db !! "vm-agent-2") as [v|] eqn:Ev; [|discriminate Fv].
  assert (Fe : length (entries sample_inventory) = 1%nat) by (vm_compute; reflexivity).
  destruct (entries sample_inventory) as [|e [|]] eqn:Ee; try discriminate Fe.
  destruct (@inventory_applied netip_postgres no_fault sample_inventory talking_db db' "vm-agent-2" v E Ev)
    as (v' & Hv' & _ & _ & Ha).
  exists v'. split; [exact eq_refl|]. split; [exact Hv'|].
  assert (Hm : matches v e).
  { assert (Fp : (@vm_private_ip netip_postgres <$> vms talking_db !! "vm-agent-2") =
                 Some <$> @inet_in netip_postgres "10.0.0.9") by (vm_compute; reflexivity).
    assert (Fh : Host <$> entries sample_inventory = ["10.0.0.9"]) by (vm_compute; reflexivity).
    rewrite Ev in Fp. rewrite Ee in Fh. injection Fh as Fh. unfold matches. rewrite Fh. split; [vm_compute; reflexivity|].
    destruct (@inet_in netip_postgres "10.0.0.9") as [a|]; [|discriminate Fp]. exists a. split; [reflexivity|].
    injection Fp as Fp. exact Fp. }
  specialize (Ha [] e []). rewrite Ee in Ha. specialize (Ha eq_refl Hm).
  destruct Ha as (Hn & _ & _ & Hr & _); [intros x Hx; exact (False_ind _ (not_elem_of_nil _ Hx))|].
  assert (Fn : Alias <$> entries sample_inventory = ["database"]) by (vm_compute; reflexivity).
  assert (Fr : Role <$> entries sample_inventory = ["db"]) by (vm_compute; reflexivity).
  rewrite Ee in Fn, Fr. injection Fn as Fn. injection Fr as Fr. rewrite Fn in Hn. rewrite Fr in Hr.
  split; [exact Hn|]. apply Hr. discriminate.
Defined.

Definition sample_backend : Backend :=
  {| b_classifier := sample_classifier; b_inventory := sample_inventory; b_visibility := show_all;
     b_activeWindow := 4 * Second; b_allowedOrigins := ["http://localhost:3000"]; b_sweepPeriod := 30 * Second;
     b_deleteAfter := 2 * Hour |}.
Definition sample_tick : Tick :=
  {| t_statuses := 10 * Hour; t_delete := 10 * Hour; t_faultStatuses := no_fault; t_faultDelete := no_fault;
     t_lockedVM := fun _ => false; t_lockedAgent := fun _ => false |}.
Definition sample_sweep : Result unit * Result Z * @DB netip_postgres * Hub (string * Message) :=
  @sweep netip_postgres _ agent_marshal sample_backend sample_tick talking_db Hub.New.


Definition sample_host : Identity.Host :=
  {| Identity.h_Hostname := "web"; Identity.h_ReadFile := fun _ => None; Identity.h_Interfaces := []; Identity.h_GOOS := "linux" |}.
Definition sample_config : Config := default_config "dev".
Definition sample_sha256 (s : string) : list Z := [1; 2; 3; 4; 5; 6; 7; 8].
Definition sample_identity : Collector.Registration := Identity.Collect sample_sha256 sample_config sample_host.

(** ** The API and the exporter *)

Definition sample_flow : AgentMain.FlowEvent :=
  {| AgentMain.AgentID := "agent-1"; AgentMain.SrcIP := "10.0.0.5"; AgentMain.DstIP := "10.0.0.9";
     AgentMain.SrcPort := 40000; AgentMain.DstPort := 443; AgentMain.Protocol := "tcp";
     AgentMain.FlowDirection := "egress"; AgentMain.BytesSent := 1500; AgentMain.BytesReceived := 40;
     AgentMain.PacketCount := 3; AgentMain.ConnectionCount := 2; AgentMain.RequestCount := 1; AgentMain.ErrorCount := 0;
     AgentMain.Retransmissions := 0; AgentMain.AvgRTTMs := f_of_Z 3; AgentMain.AvgAppDelayMs := f_of_Z 0;
     AgentMain.HTTP1xx := 0; AgentMain.HTTP2xx := 1; AgentMain.HTTP3xx := 0; AgentMain.HTTP4xx := 0;
     AgentMain.HTTP5xx := 0; AgentMain.LastHTTPStatus := 200; AgentMain.FirstSeen := 1000000;
     AgentMain.LastSeen := 2000000; AgentMain.Interface := "eth0" |}.
Definition sample_world : @World netip_postgres :=
  {| wd_env := quiet_env "flow-2" "ob-2"; wd_ping := None; wd_flusher := true; wd_client := 0%nat; wd_intents := [];
     wd_configs := []; wd_cloud := no_tables |}.
Abbreviation sample_serve := (fun wd =>
  @Routes netip_postgres ascii_only backend_payload (fun t f => Some (t, inl (inl f))) (fun t m => Some (t, inl (inr m)))
    (fun t p => Some (t, inr p)) sample_digest None sample_classifier by_bytes (fun d => d) false show_all (4 * Second)
    None registration_decoder heartbeat_decoder flow_decoder probe_decoder wd ["http://localhost:3000"]).

(** A body that is no JSON is refused, and nothing changes. *)
Definition bad_request : Request :=
  {| Method := "POST"; EscapedPath := "/api/flows/ingest"; RawQuery := ""; Origin := ""; ReqBody := bytes_of "{" |}.
Definition outcome_status {S} (o : Outcome Body S) : option Z :=
  match o with Returned w _ | Http.Panicked w _ => statusOf w end.

Lemma api_errors_change_nothing_witness :
  exists w, sample_serve sample_world bad_request newWriter (talking_db, Hub.New) = Returned w (talking_db, Hub.New) /\
    statusOf w = Some 400.
Proof.
  assert (F : outcome_status (sample_serve sample_world bad_request newWriter (talking_db, Hub.New)) = Some 400)
    by (vm_compute; reflexivity).
  assert (Fr : match sample_serve sample_world bad_request newWriter (talking_db, Hub.New) with
               | Returned _ _ => true | Http.Panicked _ _ => false end = true) by (vm_compute; reflexivity).
  destruct (sample_serve sample_world bad_request newWriter (talking_db, Hub.New)) as [w s'|w s'] eqn:E; [|discriminate Fr].
  cbn [outcome_status] in F. exists w. split; [|exact F]. f_equal.
  refine (api_errors_change_nothing _ _ _ _ _ _ _ _ _ _ _ _ _ _ _ _ _ w 400 E F _ _);
    [lia|vm_compute; discriminate].
Defined.

(** The backend's address, as the exporter is configured with it. *)
Definition sample_newRequest (method url : string) (body : list ascii) : Result Request :=
  if HasPrefix url "http://backend" then
    let '(path, query) := default (drop 14 (bytes_of url), []) (split_first "?"%char (drop 14 (bytes_of url))) in
    Ok {| Method := method; EscapedPath := string_of path; RawQuery := string_of query; Origin := ""; ReqBody := body |}
  else Err (LibErr "url.Parse" url).

Definition registered : list Op :=
  [ORegister no_fault Hour (sample_registration "agent-1" "10.0.0.5");
   ORegister no_fault Hour (sample_registration "agent-2" "10.0.0.9")].
Definition registered_state : @DB netip_postgres * Hub backend_payload := sample_runAll registered (empty_db, Hub.New).
Definition sample_attempts (i : nat) : Delivery * @World netip_postgres :=
  (if Nat.eqb i 0 then RequestLost else Delivered, sample_world).
Definition sample_sender : Sender := Exporter.New "http://backend/".
Abbreviation sample_delivery :=
  (@deliver netip_postgres backend_payload sample_serve sample_newRequest flow_encoder sample_sender
    sample_attempts (fun _ => false) sample_flow registered_state).

Lemma sample_posts : posts sample_newRequest sample_sender "/api/flows/ingest".
Proof. intros body. eexists. repeat split. Qed.

Lemma sample_flow_carried : flow_carried sample_flow.
Proof. split; cbn; repeat constructor; try (vm_compute; congruence). Qed.

Lemma flows_ok_nil `{Postgres} : flows_ok [] [].
Proof. split; try constructor. intros x c Hx. by apply elem_of_nil in Hx. Qed.


(** ** The wire *)

Definition sample_probe : ConnectionProbeEvent :=
  {| pe_AgentID := "agent-1"; pe_SourceIP := "10.0.0.5"; pe_DestIP := "10.0.0.9"; pe_Protocol := "tcp"; pe_DestPort := 18081;
     pe_Success := false; pe_RTTMs := f_div (f_of_Z 3) (f_of_Z 2); pe_Error := "dial tcp: <refused> & \closed";
     pe_Source := probeSource; pe_Type := probeTypeConnectivity; pe_CountedAsRequest := false;
     pe_CountedAsUserTraffic := false; pe_Timestamp := Hour |}.

Lemma sample_registration_carried : registration_carried Collector.sample_registration.
Proof. split; cbn; repeat constructor; try (vm_compute; congruence). Qed.

Lemma sample_probe_carried : probe_carried sample_probe.
Proof. split; cbn; repeat constructor; try (vm_compute; congruence). Qed.

Lemma sample_writable : writable 0 Hour.
Proof. split; vm_compute; [split; discriminate|reflexivity]. Qed.

Lemma requests_understood_witness : understood (Marshal sample_probe) sample_probe.
Proof.
  exact (proj2 (proj2 (proj2 (requests_understood sample_flow Collector.sample_registration Hour sample_probe sample_flow_carried
    sample_registration_carried sample_writable sample_probe_carried)))).
Defined.

Definition sample_result : RegistrationResult := {| RrAgentID := "agent-1"; RrVMID := "vm-1"; RrStatus := "registered" |}.
Definition sample_target : ConnectionProbeTarget :=
  {| tg_SourceVMID := "vm-1"; tg_SourceIP := "10.0.0.5"; tg_DestVMID := "vm-2"; tg_DestName := "db"; tg_DestIP := "10.0.0.9";
     tg_Protocol := "tcp"; tg_DestPort := 18081; tg_LastSeen := 48 * Hour |}.

(** A backend seven hours east of UTC. *)
Lemma responses_understood_witness :
  exists body, responseText (fun _ => 420) (TSlice model_ConnectionProbeTarget) (targets_value [sample_target]) = Ok body /\
    readResponse (TSlice agent_ConnectionProbeTarget) (slice_of target_of) body = Ok [sample_target].
Proof.
  refine (proj2 (responses_understood (fun _ => 420) sample_result [sample_target] _ _)).
  - split; [repeat constructor|vm_compute; discriminate].
  - split; [repeat constructor; vm_compute; congruence|vm_compute; reflexivity].
Defined.

Definition probe_request : Request :=
  {| Method := "POST"; EscapedPath := "/api/connections/probes"; RawQuery := ""; Origin := "";
     ReqBody := match Marshal sample_probe with Ok body => body | Err _ => [] end |}.

Lemma api_input_strict_witness : strict_body model_ConnectionProbeEvent probe_request.
Proof.
  refine (proj2 (proj2 (proj2 (api_input_strict probe_request))) sample_probe _). vm_compute. reflexivity.
Defined.

(** ** The agent's requests *)

Abbreviation sample_link def := (def netip_postgres ascii_only backend_payload (fun t f => Some (t, inl (inl f)))
  (fun t m => Some (t, inl (inr m))) (fun t p => Some (t, inr p)) sample_digest None sample_classifier by_bytes (fun d => d) false
  show_all (4 * Second) None ["http://localhost:3000"] sample_newRequest) (only parsing).

Lemma sample_posts_all : Forall (posts sample_newRequest sample_sender) ["/api/agents/heartbeat"; "/api/agents/register"; "/api/connections/probe"].
Proof. repeat constructor; intros body; eexists; repeat split. Qed.

Lemma sample_gets : gets sample_newRequest sample_sender "/api/connections/targets" ("agent_id=" +:+ QueryEscape "agent-1").
Proof. eexists. repeat split. Qed.

Lemma sample_identity_carried : registration_carried sample_identity.
Proof. split; cbn; repeat constructor; try (vm_compute; congruence). Qed.

Definition sample_zone (_ : time) : Z := 420.
Definition timed_world (instant : time) : @World netip_postgres :=
  {| wd_env := {| env_now := instant; env_observedAt := instant; env_pgnow := instant; env_flow_id := "flow-2"; env_ob_id := "ob-2"; env_fault := no_fault |};
     wd_ping := None; wd_flusher := true; wd_client := 0%nat; wd_intents := []; wd_configs := []; wd_cloud := no_tables |}.

(** A registration whose answer is lost: the machine is stored, and the agent
    sees an error. *)
Abbreviation lost_answer :=
  (sample_link (@sendRegister) sample_zone sample_sender ResponseLost (timed_world Hour) sample_identity (empty_db, Hub.New)).
Abbreviation stored_answer :=
  (@callRegister netip_postgres backend_payload (fun t m => Some (t, inl (inr m))) sample_digest None (timed_world Hour) sample_identity
    (empty_db, Hub.New)).

Lemma requests_refine_services_witness :
  exists result db hub, stored_answer = (Ok result, db, hub) /\ lost_answer.2 = (db, hub) /\ is_ok lost_answer.1 = false.
Proof.
  assert (F : is_ok stored_answer.1.1 = true) by (vm_compute; reflexivity).
  pose proof (proj1 (proj2 (sample_link (@requests_refine_services) sample_zone sample_sender ResponseLost (timed_world Hour) Hour sample_identity
    sample_probe "agent-1" (empty_db, Hub.New) sample_posts_all sample_gets sample_identity_carried sample_writable sample_probe_carried
    ltac:(split; [discriminate|reflexivity])))) as Hr. unfold carried_out in Hr.
  destruct stored_answer as [[[result|err] db] hub]; [|discriminate F]. exists result, db, hub. split; [reflexivity|exact Hr].
Defined.

(** The heartbeat is lost and the agent was removed: it registers again. *)
Definition sample_beat : Beat :=
  {| bt_now := Hour; bt_heartbeat := (RequestLost, timed_world Hour); bt_register := (Delivered, timed_world Hour) |}.

Lemma agent_recovers_witness :
  online (Collector.RAgentID sample_identity)
    (sample_link (@lifecycleTick) sample_zone sample_sender sample_beat sample_identity (empty_db, Hub.New)).1.
Proof.
  assert (F : is_ok stored_answer.1.1 = true) by (vm_compute; reflexivity).
  destruct stored_answer as [[[result|] db'] hub'] eqn:E; [|discriminate F].
  pose proof sample_posts_all as Hp. rewrite !Forall_cons in Hp. destruct Hp as (Hh & Hr & _).
  exact (proj1 (sample_link (@agent_recovers) sample_zone sample_sha256 sample_config sample_host sample_sender sample_beat no_fault Hour empty_db
    Hub.New result db' hub' (empty_db, Hub.New) Hh Hr sample_identity_carried sample_writable E eq_refl (fun _ => eq_refl))).
Defined.

(** One target is handed out and the report on it arrives. *)
Definition round_net : Delivery * @World netip_postgres := (Delivered, timed_world (10 * Minute)).
Abbreviation talking_state := (talking_db, Hub.New : Hub backend_payload).
Definition round_targets : list ConnectionProbeTarget :=
  Eval vm_compute in match (@callTargets netip_postgres backend_payload None round_net.2 "agent-1" talking_state).1.1 with
                     | Ok targets => targets | Err _ => [] end.
Definition round_events : list ConnectionProbeEvent := Eval vm_compute in probeEach sample_attempt 0 sample_config "agent-1" round_targets.

Lemma probe_round_refines_witness :
  length round_events = 1%nat /\
  sample_link (@probeRound) sample_zone sample_sender round_net (fun _ => round_net) sample_attempt sample_config "agent-1" talking_state =
    @runAll netip_postgres ascii_only backend_payload (fun t f => Some (t, inl (inl f))) (fun t m => Some (t, inl (inr m)))
      (fun t p => Some (t, inr p)) sample_digest None sample_classifier (@recorded netip_postgres (fun _ => round_net) 0 round_events) talking_state.
Proof.
  split; [reflexivity|]. pose proof sample_posts_all as Hp. rewrite !Forall_cons in Hp. destruct Hp as (_ & _ & Hp & _).
  refine (sample_link (@probe_round_refines) sample_zone sample_sender round_net (fun _ => round_net) sample_attempt sample_config "agent-1"
    talking_state round_targets Hp sample_gets ltac:(split; [discriminate|reflexivity]) eq_refl _ _ _).
  - vm_compute. reflexivity.
  - split; [repeat constructor; vm_compute; congruence|vm_compute; reflexivity].
  - repeat constructor; vm_compute; congruence.
Defined.

(** ** From the interface to the database *)

Definition sample_capture : CollectorRun.Capture :=
  CollectorRun.Ebpf {| Collector.registration := Collector.sample_registration; Collector.ifaceName := "eth0" |}
    [CollectorRun.ReadSample (2 * Hour) (Collector.encodeRawFlowEvent Collector.sample_raw)].
Definition sample_scripts : list (list (CollectorRun.Round AgentFlow.Pipeline.FlowMetric)) := default [] (mapM (@CollectorRun.script ascii_only) [sample_capture]).
Definition sample_network (k : nat) : (nat -> Delivery * @World netip_postgres) * (nat -> bool) := (sample_attempts, fun _ => false).

Definition capture_after (labels : list CollectorRun.Label) : CollectorRun.Sys :=
  foldl (fun y l => default y (CollectorRun.step l y)) (CollectorRun.Run false [sample_capture] sample_scripts) labels.

Definition captured_system : CollectorRun.Sys :=
  capture_after [CollectorRun.LRead 0; CollectorRun.LSend 0; CollectorRun.LDirect 0 false].
Definition captured_agent : AgentMain.Agent :=
  foldl (AgentMain.on_event AgentMain.sample_cfg) AgentMain.agent_start (EndToEnd.events_of (CollectorRun.got captured_system false)).
Definition ticked_batch : list AgentFlow.State := fst (AgentFlow.Drain (AgentMain.pending captured_agent)).
Definition ticked_agent : AgentMain.Agent := AgentMain.on_tick captured_agent ticked_batch.
Definition taking_agent : AgentMain.Agent := AgentMain.on_take ticked_agent ticked_batch [].

Abbreviation sample_moves := (@EndToEnd.moves netip_postgres ascii_only backend_payload (fun t f => Some (t, inl (inl f)))
  (fun t m => Some (t, inl (inr m))) (fun t p => Some (t, inr p)) sample_digest None sample_classifier by_bytes (fun d => d) false
  show_all (4 * Second) None ["http://localhost:3000"] sample_newRequest AgentMain.sample_cfg sample_sender sample_network).

Definition whole_with (y : CollectorRun.Sys) (a : AgentMain.Agent) : EndToEnd.Whole :=
  {| EndToEnd.capture := y; EndToEnd.agent := a; EndToEnd.tables := registered_state; EndToEnd.posted := []; EndToEnd.responseLost := false |}.

Lemma capture_move l y y' a : CollectorRun.step l y = Some y' ->
  sample_moves (whole_with y a) (whole_with y' (foldl (AgentMain.on_event AgentMain.sample_cfg) a
    (EndToEnd.events_of (drop (length (CollectorRun.got y false)) (CollectorRun.got y' false))))).
Proof. intros Hs. by apply EndToEnd.move_capture with (w := whole_with y a) (l := l). Qed.

Definition sent_state : AgentFlow.State :=
  default (AgentFlow.newState (AgentFlow.KeyFromMetric AgentMain.sample_event)) (head ticked_batch).
Definition sample_post : Result unit * nat * (@DB netip_postgres * Hub backend_payload) :=
  @deliver netip_postgres backend_payload sample_serve sample_newRequest flow_encoder sample_sender sample_attempts (fun _ => false)
    (AgentMain.FromFlowState sent_state) registered_state.

(** The packet is captured, aggregated, handed over and posted; the first
    request is lost and the second is stored. *)
Definition sample_whole : EndToEnd.Whole :=
  {| EndToEnd.capture := captured_system; EndToEnd.agent := AgentMain.on_send taking_agent sent_state [] sample_post.1.1;
     EndToEnd.tables := sample_post.2; EndToEnd.posted := [AgentMain.FromFlowState sent_state]; EndToEnd.responseLost := false |}.

Lemma ticked_single : ticked_batch = [sent_state].
Proof. vm_compute. reflexivity. Qed.

Lemma sample_post_outcome : sample_post.1 = (Ok tt, 2%nat).
Proof. vm_compute. reflexivity. Qed.

Abbreviation sample_start := (EndToEnd.whole_start (CollectorRun.Run false [sample_capture] sample_scripts) registered_state).

Lemma sample_captured : rtc sample_moves sample_start (whole_with captured_system captured_agent).
Proof.
  assert (H1 : CollectorRun.step (CollectorRun.LRead 0) (capture_after []) = Some (capture_after [CollectorRun.LRead 0]))
    by (vm_compute; reflexivity).
  assert (H2 : CollectorRun.step (CollectorRun.LSend 0) (capture_after [CollectorRun.LRead 0]) =
               Some (capture_after [CollectorRun.LRead 0; CollectorRun.LSend 0])) by (vm_compute; reflexivity).
  assert (H3 : CollectorRun.step (CollectorRun.LDirect 0 false) (capture_after [CollectorRun.LRead 0; CollectorRun.LSend 0]) =
               Some captured_system) by (vm_compute; reflexivity).
  apply (capture_move _ _ _ AgentMain.agent_start) in H1, H2, H3.
  eapply rtc_l; [exact H1|]. eapply rtc_l; [exact H2|]. eapply rtc_l; [exact H3|]. apply rtc_refl.
Qed.

Lemma send_move y a r n st' : AgentMain.sending a = [sent_state] -> sample_post = (r, n, st') ->
  sample_moves (whole_with y a)
    {| EndToEnd.capture := y; EndToEnd.agent := AgentMain.on_send a sent_state [] r; EndToEnd.tables := st';
       EndToEnd.posted := [AgentMain.FromFlowState sent_state];
       EndToEnd.responseLost := existsb (fun i => EndToEnd.is_lost (sample_attempts i).1) (seq 0 n) |}.
Proof.
  unfold sample_post. intros Hs E.
  apply EndToEnd.move_send with (w := whole_with y a) (s := sent_state) (rest := []) (r := r) (n := n) (st' := st'); [exact Hs|exact E].
Qed.

Lemma sample_reached : rtc sample_moves sample_start sample_whole.
Proof.
  etrans; [exact sample_captured|]. eapply rtc_l; [by apply EndToEnd.move_tick with (batch := ticked_batch)|].
  eapply rtc_l; [apply EndToEnd.move_take with (batch := ticked_batch) (rest := []); [reflexivity|vm_compute; reflexivity]|].
  eapply rtc_l; [|apply rtc_refl].
  pose proof (surjective_pairing sample_post) as E. rewrite sample_post_outcome in E.
  unfold sample_whole. rewrite sample_post_outcome. exact (send_move captured_system taking_agent (Ok tt) 2 sample_post.2 ticked_single E).
Qed.

Lemma sample_capture_ok : Forall CollectorRun.capture_ok [sample_capture].
Proof.
  constructor; [|constructor]. split; [apply Collector.sample_registration_ok|]. constructor; [|constructor].
  split; [reflexivity|]. vm_compute. repeat constructor; discriminate.
Qed.

Lemma sample_worlds_ok : EndToEnd.worlds_ok sample_network.
Proof. intros k i. split; discriminate. Qed.

Lemma registered_tables_ok : EndToEnd.tables_ok registered_state.
Proof.
  assert (F0 : length (network_flows registered_state.1) = 0%nat) by (vm_compute; reflexivity).
  assert (F1 : length (flow_observations registered_state.1) = 0%nat) by (vm_compute; reflexivity).
  apply nil_length_inv in F0, F1. unfold EndToEnd.tables_ok. rewrite F0, F1. exact flows_ok_nil.
Qed.

Definition sent_payload : AgentMain.FlowEvent := Eval vm_compute in AgentMain.FromFlowState sent_state.

Lemma sent_state_carried : flow_carried (AgentMain.FromFlowState sent_state).
Proof.
  assert (AgentMain.FromFlowState sent_state = sent_payload) as -> by (vm_compute; reflexivity).
  split; cbn; repeat constructor; try (vm_compute; congruence).
Qed.

#[local] Existing Instance EndToEnd.received_tracked.

(** The 1500 bytes of the packet are in the database. *)
Lemma traffic_accounted_witness :
  rtc sample_moves sample_start sample_whole /\ EndToEnd.stored CBytesReceived sample_whole ≡64 1500.
Proof.
  split; [exact sample_reached|].
  assert (Hss : mapM (@CollectorRun.script ascii_only) [sample_capture] = Some sample_scripts) by (vm_compute; reflexivity).
  destruct (EndToEnd.traffic_accounted _ _ _ _ _ _ _ _ _ _ _ _ _ _ _ _ sample_network CBytesReceived AgentFlow.bytes_received AgentFlow.event_received
    AgentMain.BytesReceived false [sample_capture] sample_scripts registered_state
    sample_whole sample_capture_ok Hss sample_posts sample_worlds_ok registered_tables_ok sample_reached
    (Forall_cons_2 _ _ _ sent_state_carried (Forall_nil_2 _))) as [_ (copies & _ & Hc & Hsum)].
  rewrite (Hc eq_refl) in Hsum. clear Hc.
  assert (Hd : sumZ AgentFlow.event_received (List.filter (AgentMain.captured AgentMain.sample_cfg) (EndToEnd.received_events sample_whole)) = 1500)
    by (vm_compute; reflexivity).
  assert (Hh : EndToEnd.held AgentFlow.bytes_received (EndToEnd.agent sample_whole) = 0) by (vm_compute; reflexivity).
  assert (Hl : sumZ AgentFlow.bytes_received (AgentMain.lost (EndToEnd.agent sample_whole)) = 0) by (vm_compute; reflexivity).
  assert (F0 : sumZ (fl_counter CBytesReceived) (network_flows registered_state.1) = 0) by (vm_compute; reflexivity).
  rewrite Hd, Hh, Hl, F0 in Hsum. symmetry. etrans; [|etrans; [exact Hsum|]]; apply cong64_eq; [reflexivity|lia].
Defined.

Lemma traffic_arrives_witness :
  exists w', rtc sample_moves sample_start w' /\ AgentMain.pending (EndToEnd.agent w') = ∅ /\
    length (CollectorRun.from 0 (CollectorRun.got (EndToEnd.capture w') false)) = 1%nat.
Proof.
  assert (Hss : mapM (@CollectorRun.script ascii_only) [sample_capture] = Some sample_scripts) by (vm_compute; reflexivity).
  destruct (EndToEnd.traffic_arrives _ _ _ _ _ _ _ _ _ _ _ _ _ _ _ _ sample_network CBytesReceived AgentFlow.bytes_received AgentFlow.event_received
    AgentMain.BytesReceived false [sample_capture] sample_scripts registered_state sample_start sample_capture_ok Hss sample_posts sample_worlds_ok
    registered_tables_ok (rtc_refl sample_moves sample_start) eq_refl) as (w' & Hr & Hp & _ & _ & Hall & _).
  exists w'. split; [exact Hr|]. split; [exact Hp|]. rewrite (Hall 0%nat sample_capture eq_refl). vm_compute. reflexivity.
Defined.

(** One packet enters through the ingress hook: 74 bytes. *)
Definition sample_wire : list Kernel.Label := [Kernel.LRun (Kernel.PIngress Kernel.sample_skb) (Kernel.at_time 5)].
Definition wire_sample : CollectorRun.Capture := WirePath.wire_capture Kernel.sample_collector [1000000] ∅ sample_wire.
Abbreviation wire_start :=
  (EndToEnd.whole_start (CollectorRun.Run false [wire_sample] (@WirePath.wire_scripts ascii_only wire_sample)) registered_state).

Lemma sample_wire_ok : Forall Kernel.label_ok sample_wire /\ Forall WirePath.tc_mode sample_wire.
Proof.
  split; (constructor; [|constructor]); [|reflexivity].
  split; [apply Kernel.at_time_ok; split; vm_compute; congruence|exact Kernel.sample_skb_ok].
Qed.

